(* ===== verification/_CoqProject ===== *)
-Q . S2P
Prelude.v
JsMap.v
CanonicalEncode.v
PolicyDigest.v
PolicyBinding.v
CosignDigest.v
IntentDigest.v
PostAssertion.v
JsText.v
Money.v
Base64.v
JsValue.v
DashboardJson.v
ErrorTable.v
AgentErrors.v
DxErrors.v
NetworkErrors.v
Registry.v
CorePolicies.v
SpendLog.v
CoreState.v
CoreEngine.v
SdkTypes.v
Rpc.v
StateResolver.v
Inspector.v
Shield.v
ShieldedSigner.v
VelocityTracker.v
X402.v
X402Flow.v
Composer.v
Formatting.v
Tokens.v
Analytics.v
Seal.v
Accounts.v
OwnerTx.v
Client.v
Simulation.v
EventTable.v
Events.v
Dashboard.v
Discovery.v
VaultCreation.v
Handoff.v
VaultPreview.v
Mutations.v
OwnerClient.v
Tee.v
PolicyLifecycle.v
VerifiedBuild.v
Portfolio.v
Compliance.v
Custody.v
Ownership.v
Diagnosis.v
AuditLog.v
X402Payment.v
PriorityFees.v
Protocols.v
SpendLedger.v
SealedSpend.v
AgentTransfer.v
Quickstart.v
KitCodec.v
ProgramClient.v
GeneratedTypes.v
GeneratedInstructions.v
GeneratedClient.v
ProgramInterface.v
Idl.v
SakPlugin.v
AgentRuntime.v
Sandwich.v
PostExecution.v
Session.v
