(* ===== verification/Prelude.v ===== *)
(** * A verification library for the Sigil TypeScript SDK

    Sigil puts guardrails around AI agents that spend from a vault on Solana.
    The SDK ([src/sdk/kit/src], file names below are relative to it) decides,
    before anything is signed, whether a transaction respects the owner's
    policy; it seals bundles of instructions between the program's two wrapper
    instructions; it computes the digests that the program and the owner
    compare; it lets the owner create, read, change and close vaults; it
    checks who holds the agent's key; and it pays HTTP resources over the x402
    protocol.  A client generated from the program's interface description
    builds and reads its instructions and accounts.  The on-chain program
    ([src/programs/sigil/src]) enforces the policy again.  This library models
    those parts and proves what makes them correct.

    ** The program and the files

    Groundwork.  [Prelude] (this file): the result monad of code that may
    throw, byte strings, machine words, JavaScript's stable sort, the shared
    tactics and hint databases.  [JsMap]: insertion-ordered maps.  [JsText]:
    strings, regular-expression classes and IEEE doubles.  [JsValue]: dynamic
    values.  [Base64].  [SdkTypes]: [types.ts].

    The digests.  The owner approves a policy, a cosigned change or a bundle
    by its digest, so two different approvals must not encode alike.
    - [CanonicalEncode]: [canonical-encode.ts], the base58 decoder and the
      bounds-checked writers into a byte buffer.
    - [PolicyDigest], [PolicyBinding]: [policy/compute-policy-preview-digest.ts],
      the encoder as written and what its bytes determine.
    - [CosignDigest]: [policy/compute-cosign-digest.ts] and
      [policy/compute-agent-perms-cosign-digest.ts].
    - [IntentDigest]: [seal/intent-digest.ts].

    The offline engine ([core/]).
    - [Registry], [CorePolicies]: [core/registry.ts], [core/policies.ts].
    - [SpendLog], [CoreState]: the logs of [core/state.ts] and its storage, an
      interface ([ShieldStorage], laws in [LawfulStorage]) with an instance.
    - [CoreEngine]: [core/engine.ts] and [core/errors.ts].

    The kit's guards.
    - [StateResolver]: the rolling windows and budgets of [state-resolver.ts].
    - [Inspector]: [inspector.ts].
    - [Shield], [ShieldedSigner]: [policies.ts] and [shield.ts], the decision
      and the signer that enforces it.
    - [VelocityTracker]: [velocity-tracker.ts].
    - [Protocols]: [protocol-resolver.ts] and the guarded conversions of
      [integrations/compose-errors.ts].

    Sealing and sending.
    - [Composer]: [composer.ts].  [PriorityFees]: [priority-fees.ts].
    - [Seal]: [seal()] of [seal.ts].  [Client]: its client half, [hooks.ts],
      [plugin.ts], [vault-handle.ts], [caip2-network.ts].  [Quickstart]: the
      facade of [sigil.ts] and the handle's owner methods.
    - [Simulation], [Diagnosis]: [simulation.ts] and [transaction-executor.ts];
      [Diagnosis] is its table of program errors.
    - [Rpc], [Accounts], [OwnerTx]: [rpc-helpers.ts], [alt-loader.ts],
      [resolve-accounts.ts], [build-unsigned.ts], [owner-transaction.ts],
      [agent-transfer.ts].

    Payments and money.
    - [X402], [X402Flow], [X402Payment]: the directory [x402/]: its guards, the
      decision to pay, and the whole of [shieldedFetch] down to the transfer
      that is signed and the settlement that is polled.
    - [Money], [Tokens], [Formatting]: [helpers/], [tokens.ts],
      [balance-tracker.ts], [formatting.ts], [math-utils.ts].

    The owner's side.
    - [Dashboard], [DashboardJson], [Discovery]: [dashboard/reads.ts],
      [dashboard/from-json.ts], [dashboard/discover.ts], vault numbering.
    - [Mutations], [OwnerClient]: [dashboard/mutations.ts],
      [dashboard/close-vault.ts], [dashboard/index.ts], against the checks of
      the program's handlers.
    - [PostAssertion]: [dashboard/post-assertion-validation.ts], against the
      program's own [validate_entries].
    - [VaultCreation], [VaultPreview], [Handoff]: [create-vault.ts],
      [presets.ts], [inscribe.ts], [preview-create-vault.ts],
      [agent-bootstrap.ts].
    - [PolicyLifecycle]: [cosign-helper.ts] and the program's queue, approve,
      apply and cancel handlers, a transition system.
    - [Ownership]: [ownership-transfer.ts], [session-mint.ts], the multisig
      probes, and the program's ownership, freeze and reactivate handlers.
    - [VerifiedBuild]: [program-hash.ts], [policy/verified-build.ts] and the
      program's gate.

    The generated client ([generated/]).
    - [KitCodec]: the expressions its codecs are written in, and the library
      of codecs as an interface ([Kit], laws in [LawfulKit]) with an instance.
    - [ProgramClient]: the code all instruction files share (encoders,
      builders, parsers), over the interface [ClientCore] of the library.
    - [GeneratedTypes], [GeneratedInstructions], [GeneratedClient]: the tables
      of [types/], [accounts/] and [instructions/], and [programs/sigil.ts].
    - [ProgramInterface]: the account structs, entry points and layouts of the
      program's own sources; [Idl]: [src/target/types/sigil.ts], the published
      description, and [errors/sigil.ts].

    Agents.  [SakPlugin]: [src/packages/plugins/src/sak].  [AgentRuntime]:
    [src/sdk/agent/src/lib] and [src/sdk/platform/src].

    Keys.  [Tee]: [tee/].  [Custody]: the three adapters of
    [src/sdk/custody/src].

    What the chain records.
    - [SpendLedger]: the program's spend rings and cap checks
      ([state/tracker.rs], [state/agent_spend_overlay.rs], the cap blocks of
      [finalize_session] and [agent_transfer]); [SealedSpend] composes it with
      [Seal] and [StateResolver]; [AgentTransfer] is the whole of the handler
      [agent_transfer] with the per-recipient counters.
    - [Sandwich]: the scans of the transaction around a session, with
      [utils/destination_check.rs] and [utils/token2022_extension.rs], against
      what [Seal] seals.  [PostExecution]: the owner's assertions, their
      snapshots and checks ([state/assertions.rs],
      [utils/post_assertion_helpers.rs], [utils/mint_delta_cap.rs]).
      [Session]: the whole of [validate_and_authorize] and [finalize_session]
      over these, and [utils/intent_digest.rs].
    - [AuditLog]: [audit-log.ts] and the program's two audit rings.
    - [EventTable], [Events]: [events.ts], [event-analytics.ts].
    - [Analytics], [Portfolio], [Compliance]: the [*-analytics.ts] files.
    - [ErrorTable], [AgentErrors], [DxErrors], [NetworkErrors]:
      [agent-errors.ts], [dashboard/errors.ts], [network-errors.ts],
      [errors/walk.ts].

    ** How the code is modelled

    A function that may throw returns [result]; its guards are [throw_if] in
    the order of the source.  A class is a record of its fields and an
    operation takes and returns the record.  A loop is a structural fixpoint
    or a fold.  Clocks are arguments: an operation that reads the time several
    times takes the sequence of its readings, so theorems hold for every
    monotone clock.  Answers of a node, a service or a server are arguments
    too, a sequence of them where the code asks repeatedly.  [bigint] is [Z];
    what is stored in a fixed width is wrapped where [DataView] wraps it, and
    the program's integers saturate or are checked as its operators say.
    Error values keep their codes; message texts do not matter and are left
    out.  A program handler is a partial function on the accounts it changes,
    and histories are inductive relations over handlers.

    Third-party code is an argument or an interface with laws: SHA-256,
    signatures, address derivation, the codec library, the token program, RPC,
    HTTP, URL and JSON parsing, CBOR and X.509.  Components that only pass a
    built instruction on take the builder as an argument; the builders
    themselves are in [GeneratedInstructions].  The binding theorems say "equal
    or a collision of the hash is exhibited".  Between the two handlers of a
    session any change of the accounts that are not the program's is
    possible.

    ** What the theorems show

    - Caps: over any run of the core engine or of the shield, the spend inside
      a window stays within its limit ([spend_cap_never_exceeded],
      [shield_limit_never_exceeded], [enforce_respects_on_chain_caps]); over
      any history of the program a day that starts on a ten-minute mark stays
      within the cap ([ledger_bounds_every_day]); what [seal] lets through
      passes the program's daily check
      ([sealed_spend_passes_the_daily_check]); an accepted transfer moves
      exactly its shares and a recipient gets at most twice its cap in a day
      ([AgentTransfer]).  Decisions agree with
      declarative specifications ([enforce_refines_specification]).
    - Sessions: an accepted transaction is a sandwich of one instruction of the
      authorised protocol, and what [seal] produces passes the scans
      ([Sandwich]); whatever the protocol does, a session costs at most what
      was authorised, gets the vault something, is charged to every cap and
      leaves no delegate; where the policy has assertions of the owner, they
      hold of the accounts before and after; the counter of sessions is right
      ([Session], over the checks of [PostExecution]).
    - Signing: what is signed passed every gate ([ShieldedSigner]); what is
      sealed passed every check, exposes every writable account to the guards
      and cannot write to the agent's own accounts ([Seal]); what is sent was
      simulated without a full drain of the monitored account, as far as the
      node's reply shows it ([Simulation]); a payment signs one transfer, to the
      checked recipient ([X402Payment]), and overlapping payments stay within
      the cumulative cap times their number ([X402Flow]).
    - Digests: the imperative encoders compute their canonical encodings and
      the encodings determine the approved data; the digest the client sends
      is the one the program recomputes ([Mutations]) and the one of the policy
      it stores ([VaultCreation]), and a call the program authorises is the one
      the wallet showed ([Session]).
    - Governance: a policy is weakened only with the cosigner's approval
      ([PolicyLifecycle]), an owner is replaced only by the key that was named,
      after the delay ([Ownership]), every owner call sends the instruction that
      was requested, with the arguments given ([OwnerClient]), a pinned build is enforced ([VerifiedBuild]).
    - Refinements: the client's budgets are the program's ([SpendLedger]), the
      audit readers show the recent history ([AuditLog]), the client's
      validation is the program's ([PostAssertion], [VaultCreation]).
    - The generated client: what it builds passes the checks of the program's
      account structs, has the program's layouts and is read back as it was
      built; the published description is that interface ([ProgramInterface],
      [GeneratedClient], [GeneratedTypes], [Idl]).
    - Agents: a swap executes what was quoted, once ([SakPlugin]); saved
      configurations are found again ([AgentRuntime]); quickstart reports what
      happened ([Quickstart]).
    - Keys: an attestation is for the wallet that asked and its cryptographic
      level is sound up to the parameters ([Tee]); requests to a custody
      service name their wallet ([Custody]).
    - Termination: confirmation, settlement and provisioning polls end by
      their deadlines ([Rpc], [X402Payment], [AgentRuntime]).
    - Round trips and parsers: instructions, accounts, inspection of encoded
      transfers, persistence, configurations, transaction bytes, dashboard JSON,
      spend limits, amounts, DER.
    - Where the code does less than its comments say, a theorem states what it
      does: twice the cap can be spent within a day that straddles two buckets
      ([cap_is_spent_twice_in_a_day]), a recipient can be paid twice its cap
      in two seconds, quickstart can lose the vault it created, the parsers
      know one deployment of the program only, [seal] counts other instructions
      than the program ([other_bundles_are_sealed_and_refused]), a session
      never expires before it is finalised, the server decides whether a
      payment is recorded, two x402 calls in flight exceed a cap with room for
      one ([overlapping_flows_exceed_the_cap]), freezing through the client keeps a pending ownership
      transfer, owner calls fail on a vault with a cosigner, amounts of x402
      payments are invisible to the shield's limits, outflows are invisible
      from a seal context, custody wallets are never attested.

    ** Bounds

    Fuel: the carry of a base58 digit, which shrinks by a byte per step
    ([CanonicalEncode.b58_push], fuel 4); decimal and hexadecimal printing,
    with as much fuel as the number has bits ([JsText.dec_digits],
    [AgentErrors.hex_digits]); eviction from a map, its size
    ([JsMap.jm_evict]); the polls of [Rpc], [X402Payment] and [AgentRuntime],
    whose number is bounded from the deadline and the delay; the nesting of a
    type in the interface description ([Idl.idl_codec], fuel 10, deeper than
    any).  Lemmas beside them show that each suffices; the polls' theorems give
    the result, not only its shape.  [Client.retry] counts the code's own three
    attempts and [NetworkErrors.walkPredicate] its depth limit of 32; the scans
    of [Sandwich] and the walks of [Session] have the code's own bound of 64.
    Everything else is structural.  The lists a digest encodes are shorter than
    [2^32], which is the width of their length field.  The ledger's theorems
    take a clock below [6 * 10^17] seconds, far inside an i64, and fees of
    amounts up to [10^16], ten billion dollars.

    ** Not modelled, and why

    Hashes, signatures, address derivation, codecs and account reads are
    third-party work and enter as parameters or interfaces.  Error classes, the
    logger, re-exports, React bindings and testing helpers have no logic of
    their own.  [policy-attestation.ts] and [createAndSendVault]'s wrapper
    [withVault] only chain other calls; so do the agent's MCP server and the
    text of its one tool.  Of the program, the session handlers,
    [agent_transfer], the policy and the ownership handlers are whole, but for
    rent and emitted events; of the other handlers the checks the client has to
    pass and the audit entries. *)

From Stdlib Require Export ZArith Lia Ascii.
From Stdlib Require String.
From stdpp Require Export gmap strings prelude list.

Local Open Scope Z_scope.

(** ** The result of TypeScript code that may throw *)

Inductive result (E A : Type) : Type :=
| Ok (a : A)
| Throw (e : E).
Arguments Ok {_ _} _.
Arguments Throw {_ _} _.

#[export] Instance result_ret E : MRet (result E) := λ A a, Ok a.
#[export] Instance result_bind E : MBind (result E) :=
  λ A B k m, match m with Ok a => k a | Throw e => Throw e end.
#[export] Instance result_fmap E : FMap (result E) :=
  λ A B f m, match m with Ok a => Ok (f a) | Throw e => Throw e end.

Definition is_ok {E A} (m : result E A) : bool :=
  match m with Ok _ => true | Throw _ => false end.

(** [throw_if c e; k] is the guard [if (c) throw e]. *)
Definition throw_if {E} (c : bool) (e : E) : result E unit :=
  if c then Throw e else Ok tt.

(** The JavaScript exceptions the language and its standard library raise, and
    the ones the digest encoders raise. *)
Inductive js_exn : Type :=
| JsError (msg : string)
| JsRangeError
| JsTypeError
| JsSyntaxError
| SdkDomainError (code : string).

#[export] Instance js_exn_eq_dec : EqDecision js_exn.
Proof. solve_decision. Defined.

Lemma bind_Ok_inv {E A B} (m : result E A) (k : A → result E B) b :
  m ≫= k = Ok b → ∃ a, m = Ok a ∧ k a = Ok b.
Proof. destruct m; simpl; [eauto | discriminate]. Qed.

Lemma throw_if_Ok {E} c (e : E) u : throw_if c e = Ok u → c = false.
Proof. by destruct c. Qed.

(** [inv_ok] peels every [bind] of a hypothesis [_ = Ok _]. *)
Ltac inv_ok :=
  repeat match goal with
  | H : (_ ≫= _) = Ok _ |- _ =>
      let x := fresh "x" in let E := fresh "E" in
      apply bind_Ok_inv in H as (x & E & H)
  | H : throw_if _ _ = Ok _ |- _ => apply throw_if_Ok in H
  | H : Ok _ = Ok _ |- _ => injection H as H; subst
  | H : Throw _ = Ok _ |- _ => discriminate H
  | H : mret _ = Ok _ |- _ => injection H as H; subst
  end.

(** [case_if] splits on the boolean tests of the goal and of the hypotheses. *)
Ltac split_if :=
  repeat match goal with
  | |- context [if ?b then _ else _] => let E := fresh "E" in destruct b eqn:E
  | H : context [if ?b then _ else _] |- _ => let E := fresh "E" in destruct b eqn:E
  end.

Section mapM_result.
Context {E A B : Type} (f : A → result E B).

Lemma mapM_Ok_iff l k :
  mapM f l = Ok k ↔ Forall2 (λ x y, f x = Ok y) l k.
Proof.
  split.
  - revert k; induction l as [|x l IH]; intros k H; simpl in H; inv_ok.
    + constructor.
    + constructor; eauto.
  - induction 1 as [|x y l k Hxy _ IH]; simpl; [done|].
    by rewrite Hxy; simpl; rewrite IH.
Qed.

Lemma mapM_Ok_length l k : mapM f l = Ok k → length k = length l.
Proof. intros H%mapM_Ok_iff. symmetry. by eapply Forall2_length. Qed.

(** Two runs with the same result come from inputs related pointwise. *)
Lemma mapM_Ok_inj l1 l2 k :
  (∀ x y z, f x = Ok z → f y = Ok z → x = y) →
  mapM f l1 = Ok k → mapM f l2 = Ok k → l1 = l2.
Proof.
  intros Hinj H1%mapM_Ok_iff H2%mapM_Ok_iff. revert l2 H2.
  induction H1 as [|x z l1 k Hx _ IH]; intros l2 H2; inversion H2; subst; [done|].
  f_equal; eauto.
Qed.
End mapM_result.

(** ** Bytes, and little-endian integers at a width *)

Definition byte_ok (b : Z) : Prop := 0 ≤ b < 256.
Definition bytes_ok (bs : list Z) : Prop := Forall byte_ok bs.

(** The [n] low-order bytes of [z], least significant first. *)
Fixpoint le_bytes (n : nat) (z : Z) : list Z :=
  match n with
  | O => []
  | S n => z mod 256 :: le_bytes n (z / 256)
  end.

Fixpoint le_value (bs : list Z) : Z :=
  match bs with
  | [] => 0
  | b :: bs => b + 256 * le_value bs
  end.

Definition fits (bits : Z) (z : Z) : Prop := 0 ≤ z < 2 ^ bits.
Definition wrap (bits : Z) (z : Z) : Z := z mod 2 ^ bits.

Lemma length_le_bytes n z : length (le_bytes n z) = n.
Proof. revert z; induction n; intros; simpl; auto. Qed.

Lemma le_bytes_ok n z : bytes_ok (le_bytes n z).
Proof.
  revert z; induction n as [|n IH]; intros z; simpl; [constructor|].
  constructor; [apply Z.mod_pos_bound; lia | apply IH].
Qed.

Lemma pow_256_succ n : 2 ^ (8 * Z.of_nat (S n)) = 256 * 2 ^ (8 * Z.of_nat n).
Proof.
  replace (8 * Z.of_nat (S n)) with (8 + 8 * Z.of_nat n) by lia.
  rewrite Z.pow_add_r by lia. reflexivity.
Qed.

Lemma le_value_le_bytes n z : le_value (le_bytes n z) = z mod 2 ^ (8 * Z.of_nat n).
Proof.
  revert z; induction n as [|n IH]; intros z; simpl le_bytes; simpl le_value.
  - rewrite Z.mod_1_r. done.
  - rewrite IH, pow_256_succ, Z.rem_mul_r by lia. lia.
Qed.

Lemma le_value_bounds bs :
  bytes_ok bs → 0 ≤ le_value bs < 2 ^ (8 * Z.of_nat (length bs)).
Proof.
  induction 1 as [|b bs Hb _ IH]; cbn [le_value length].
  - lia.
  - rewrite pow_256_succ. unfold byte_ok in Hb. lia.
Qed.

Lemma le_value_app a b :
  le_value (a ++ b) = le_value a + 2 ^ (8 * Z.of_nat (length a)) * le_value b.
Proof.
  induction a as [|x a IH]; cbn [app le_value length].
  - change (2 ^ (8 * Z.of_nat 0)) with 1. lia.
  - rewrite pow_256_succ, IH. lia.
Qed.

Lemma le_bytes_le_value bs : bytes_ok bs → le_bytes (length bs) (le_value bs) = bs.
Proof.
  induction 1 as [|b bs Hb Hbs IH]; simpl; [done|].
  unfold byte_ok in Hb. f_equal.
  - rewrite Z.add_mod, Z.mul_comm, Z.mod_mul by lia.
    rewrite Z.add_0_r, Z.mod_mod by lia. by apply Z.mod_small.
  - replace (b + 256 * le_value bs) with (le_value bs * 256 + b) by lia.
    rewrite Z.div_add_l, (Z.div_small b) by lia. by rewrite Z.add_0_r.
Qed.

Lemma le_bytes_wrap n z : le_bytes n (wrap (8 * Z.of_nat n) z) = le_bytes n z.
Proof.
  rewrite <- (le_bytes_le_value (le_bytes n z)) by apply le_bytes_ok.
  by rewrite length_le_bytes, le_value_le_bytes.
Qed.

Lemma le_bytes_inj n x y :
  le_bytes n x = le_bytes n y ↔ wrap (8 * Z.of_nat n) x = wrap (8 * Z.of_nat n) y.
Proof.
  split.
  - intros H%(f_equal le_value). by rewrite !le_value_le_bytes in H.
  - intros H. by rewrite <- (le_bytes_wrap n x), H, le_bytes_wrap.
Qed.

Lemma wrap_fits bits z : fits bits z → wrap bits z = z.
Proof. intros ?. by apply Z.mod_small. Qed.

Lemma wrap_bounds bits z : 0 ≤ bits → fits bits (wrap bits z).
Proof. intros ?. apply Z.mod_pos_bound. lia. Qed.

Arguments le_bytes : simpl never.
Arguments wrap : simpl never.

Create HintDb sigil.
Create Rewrite HintDb sigil_len.
#[export] Hint Resolve le_bytes_ok wrap_fits : sigil.
#[export] Hint Rewrite length_le_bytes @length_app @length_replicate : sigil_len.

(** ** Generic list lemmas *)

Lemma app_inj_len {A} (a b c d : list A) :
  length a = length c → a ++ b = c ++ d → a = c ∧ b = d.
Proof. intros Hl H. by apply app_inj_1. Qed.

(** Concatenations of blocks of one length determine the blocks. *)
Lemma concat_inj_len {A} (n : nat) (ls ks : list (list A)) :
  Forall (λ l, length l = n) ls → Forall (λ l, length l = n) ks →
  length ls = length ks → concat ls = concat ks → ls = ks.
Proof.
  intros Hls; revert ks; induction Hls as [|l ls Hl _ IH];
    intros ks Hks Hlen H; destruct ks as [|k ks]; try discriminate; [done|].
  inversion Hks; subst. simpl in H.
  apply app_inj_len in H as [-> H]; [|congruence].
  f_equal. apply IH; auto.
Qed.

Lemma length_concat_const {A} (n : nat) (ls : list (list A)) :
  Forall (λ l, length l = n) ls → length (concat ls) = (length ls * n)%nat.
Proof. induction 1; simpl; [done|]. rewrite length_app. lia. Qed.

Lemma Forall_single {A} (P : A → Prop) x : Forall P [x] → P x.
Proof. by inversion 1. Qed.

Lemma bytes_ok_app a b : bytes_ok (a ++ b) ↔ bytes_ok a ∧ bytes_ok b.
Proof. apply Forall_app. Qed.

(** The sum a [reduce] with [+] computes. *)
Definition sumZ (l : list Z) : Z := foldr Z.add 0 l.

Lemma sumZ_app a b : sumZ (a ++ b) = sumZ a + sumZ b.
Proof. unfold sumZ. induction a; simpl; lia. Qed.

Lemma sumZ_nonneg l : Forall (λ x, 0 ≤ x) l → 0 ≤ sumZ l.
Proof. unfold sumZ. induction 1; simpl; lia. Qed.

Lemma foldl_add_sumZ l acc : foldl Z.add acc l = acc + sumZ l.
Proof. revert acc; induction l; intros; simpl; [lia|]. rewrite IHl. lia. Qed.

(** A JavaScript array has fewer than [2^32] elements. *)
Definition js_array {A} (l : list A) : Prop := Z.of_nat (length l) < 2 ^ 32.

(** ** [Array.prototype.sort] with a comparator: a stable sort *)

Section js_sort.
Context {A : Type} (le : A → A → bool).

(** [x] goes after every element that is not greater. *)
Fixpoint js_insert (x : A) (l : list A) : list A :=
  match l with
  | [] => [x]
  | y :: l => if le y x then y :: js_insert x l else x :: y :: l
  end.

Definition js_sort (l : list A) : list A := foldl (λ acc x, js_insert x acc) [] l.

Lemma js_insert_perm x l : js_insert x l ≡ₚ x :: l.
Proof.
  induction l as [|y l IH]; simpl; [done|]. destruct (le y x); [|done].
  rewrite IH. apply Permutation_swap.
Qed.

Lemma js_sort_perm l : js_sort l ≡ₚ l.
Proof.
  unfold js_sort. enough (H : ∀ acc, foldl (λ acc x, js_insert x acc) acc l ≡ₚ acc ++ l) by apply H.
  induction l as [|x l IH]; intros acc; simpl; [by rewrite app_nil_r|].
  rewrite IH, js_insert_perm. apply (Permutation_middle acc l x).
Qed.

(** Ordered with respect to a total preorder. *)
Inductive js_sorted : list A → Prop :=
| js_sorted_nil : js_sorted []
| js_sorted_cons x l : Forall (λ y, le x y = true) l → js_sorted l → js_sorted (x :: l).

Context (le_total : ∀ x y, le x y = false → le y x = true).
Context (le_trans : ∀ x y z, le x y = true → le y z = true → le x z = true).

Lemma js_insert_sorted x l : js_sorted l → js_sorted (js_insert x l).
Proof using le_total le_trans.
  induction 1 as [|y l Hy Hl IH]; simpl; [repeat constructor|].
  destruct (le y x) eqn:E.
  - constructor; [|done]. rewrite js_insert_perm. by constructor.
  - apply le_total in E. constructor; [|by constructor].
    constructor; [done|]. eapply Forall_impl; [exact Hy|]. simpl. eauto.
Qed.

Lemma js_sort_sorted l : js_sorted (js_sort l).
Proof using le_total le_trans.
  unfold js_sort. enough (H : ∀ acc, js_sorted acc → js_sorted (foldl (λ acc x, js_insert x acc) acc l))
    by (apply H; constructor).
  induction l as [|x l IH]; intros acc Hacc; simpl; [done|]. by apply IH, js_insert_sorted.
Qed.
End js_sort.

Lemma filter_none {A} (P : A → Prop) `{!∀ x, Decision (P x)} (l : list A) :
  Forall (λ x, ¬ P x) l → filter P l = [].
Proof. induction 1; rewrite ?filter_cons_False by done; done. Qed.
