(* ===== verification/JsMap.v ===== *)
(** * JavaScript's [Map]: entries in insertion order

    [set] on a key that is present replaces the value and keeps its place;
    [set] on a new key appends; iteration follows the order.  Several caches
    of the SDK evict "the oldest key" by taking the first one. *)

From S2P Require Import Prelude.

Local Open Scope Z_scope.

Section JsMap.
Context {K V : Type} `{EqDecision K}.

Definition js_map : Type := list (K * V).

Fixpoint jm_get (k : K) (m : js_map) : option V :=
  match m with
  | [] => None
  | (k', v) :: m => if bool_decide (k' = k) then Some v else jm_get k m
  end.

Fixpoint jm_set (k : K) (v : V) (m : js_map) : js_map :=
  match m with
  | [] => [(k, v)]
  | (k', v') :: m => if bool_decide (k' = k) then (k, v) :: m else (k', v') :: jm_set k v m
  end.

Fixpoint jm_delete (k : K) (m : js_map) : js_map :=
  match m with
  | [] => []
  | (k', v) :: m => if bool_decide (k' = k) then m else (k', v) :: jm_delete k m
  end.

Definition jm_keys (m : js_map) : list K := map fst m.

(** A map has each key once. *)
Definition jm_wf (m : js_map) : Prop := NoDup (jm_keys m).

Lemma jm_get_set_eq k v m : jm_get k (jm_set k v m) = Some v.
Proof.
  induction m as [|[k' v'] m IH]; simpl; [by rewrite bool_decide_eq_true_2|].
  case_bool_decide as Hk; simpl; [by rewrite bool_decide_eq_true_2|].
  by rewrite bool_decide_eq_false_2.
Qed.

Lemma jm_get_set_ne k k' v m : k ≠ k' → jm_get k (jm_set k' v m) = jm_get k m.
Proof.
  intros Hne. induction m as [|[k0 v0] m IH]; simpl; [by rewrite bool_decide_eq_false_2|].
  case_bool_decide as Hk; simpl.
  - subst. by rewrite !bool_decide_eq_false_2.
  - case_bool_decide; [done|apply IH].
Qed.

Lemma jm_get_elem k v m : jm_get k m = Some v → (k, v) ∈ m.
Proof.
  induction m as [|[k' v'] m IH]; simpl; [done|]. case_bool_decide as Hk; [subst; intros [= ->]; by left|].
  intros H. right. by apply IH.
Qed.

Lemma jm_elem_get k v m : jm_wf m → (k, v) ∈ m → jm_get k m = Some v.
Proof.
  induction m as [|[k' v'] m IH]; intros Hwf Hin; [by apply elem_of_nil in Hin|].
  apply NoDup_cons in Hwf as [Hnot Hwf]. apply elem_of_cons in Hin as [[= <- <-]|Hin]; simpl.
  - by rewrite bool_decide_eq_true_2.
  - rewrite bool_decide_eq_false_2; [by apply IH|]. intros ->. apply Hnot.
    apply list_elem_of_fmap. by exists (k, v).
Qed.

Lemma jm_get_None k m : jm_get k m = None ↔ k ∉ jm_keys m.
Proof.
  induction m as [|[k' v'] m IH]; simpl; [split; [intros _ H; by apply elem_of_nil in H|done]|].
  case_bool_decide as Hk.
  - subst. split; [done|]. intros H. destruct H. by left.
  - rewrite IH, not_elem_of_cons. naive_solver.
Qed.

Lemma jm_set_keys k v m :
  jm_keys (jm_set k v m) = if bool_decide (k ∈ jm_keys m) then jm_keys m else jm_keys m ++ [k].
Proof.
  unfold jm_keys. induction m as [|[k' v'] m IH]; cbn [jm_set map fst]; [done|].
  destruct (decide (k' = k)) as [->|Hk].
  - rewrite bool_decide_eq_true_2 by done. rewrite bool_decide_eq_true_2 by (by left). done.
  - rewrite (bool_decide_eq_false_2 (k' = k)) by done. cbn [map fst]. rewrite IH.
    rewrite (bool_decide_ext (k ∈ k' :: map fst m) (k ∈ map fst m))
      by (rewrite elem_of_cons; naive_solver).
    by case_bool_decide.
Qed.

Lemma jm_set_wf k v m : jm_wf m → jm_wf (jm_set k v m).
Proof.
  unfold jm_wf. rewrite jm_set_keys. intros H. case_bool_decide as Hk; [done|].
  apply NoDup_app. split; [done|]. split; [|apply NoDup_singleton].
  intros x Hx Hx1. apply list_elem_of_singleton in Hx1. by subst.
Qed.

Lemma jm_set_elem k v m e : e ∈ jm_set k v m → e = (k, v) ∨ e ∈ m.
Proof.
  induction m as [|[k' v'] m IH]; simpl; [intros H%list_elem_of_singleton; by left|].
  case_bool_decide as Hk; intros [->|H]%elem_of_cons.
  - by left.
  - right. by right.
  - right. by left.
  - destruct (IH H); [by left|right; by right].
Qed.

Lemma jm_set_Forall (P : K * V → Prop) k v m : P (k, v) → Forall P m → Forall P (jm_set k v m).
Proof.
  rewrite !Forall_forall. intros Hk Hm e [->|He]%jm_set_elem; [done|by apply Hm].
Qed.

(** Setting several entries, as a loop over [Object.entries] does. *)
Lemma jm_get_delete_ne k k' m : k ≠ k' → jm_get k (jm_delete k' m) = jm_get k m.
Proof.
  intros Hne. induction m as [|[k0 v0] m IH]; simpl; [done|].
  case_bool_decide as Hk; [subst; by rewrite bool_decide_eq_false_2|]. simpl. by rewrite IH.
Qed.

Lemma jm_delete_sublist k m : jm_delete k m `sublist_of` m.
Proof. induction m as [|[k' v] m IH]; simpl; [done|]. case_bool_decide; by constructor. Qed.

Lemma jm_delete_keys k m : jm_keys (jm_delete k m) `sublist_of` jm_keys m.
Proof. induction m as [|[k' v] m IH]; simpl; [done|]. case_bool_decide; by constructor. Qed.

Lemma jm_delete_wf k m : jm_wf m → jm_wf (jm_delete k m).
Proof. intros H. by eapply sublist_NoDup; [|apply jm_delete_keys]. Qed.

Lemma jm_get_delete_eq k m : jm_wf m → jm_get k (jm_delete k m) = None.
Proof.
  intros Hwf. induction m as [|[k' v] m IH]; simpl; [done|]. apply NoDup_cons in Hwf as [Hn Hwf].
  case_bool_decide as Hk; [subst; by apply jm_get_None|]. simpl. rewrite bool_decide_eq_false_2 by done. by apply IH.
Qed.

Lemma jm_delete_Forall (P : K * V → Prop) k m : Forall P m → Forall P (jm_delete k m).
Proof.
  intros H. apply Forall_forall. intros e He. rewrite Forall_forall in H. apply H.
  by eapply sublist_subseteq in He; [|apply jm_delete_sublist].
Qed.

Lemma jm_set_length k v m :
  length (jm_set k v m) = match jm_get k m with Some _ => length m | None => S (length m) end.
Proof.
  induction m as [|[k' v'] m IH]; simpl; [done|]. case_bool_decide; simpl; [done|]. rewrite IH.
  by destruct (jm_get k m).
Qed.

Definition jm_set_all (l : list (K * V)) (m : js_map) : js_map :=
  foldl (λ m '(k, v), jm_set k v m) m l.

Lemma jm_set_all_wf l m : jm_wf m → jm_wf (jm_set_all l m).
Proof.
  revert m; induction l as [|[k v] l IH]; intros m Hm; [done|]. by apply IH, jm_set_wf.
Qed.

Lemma jm_set_all_Forall (P : K * V → Prop) l m : Forall P l → Forall P m → Forall P (jm_set_all l m).
Proof.
  intros Hl. revert m; induction Hl as [|[k v] l Hk _ IH]; intros m Hm; [done|].
  by apply IH, jm_set_Forall.
Qed.

(** [while (m.size > max) m.delete(oldest)]: the newest [max] entries stay. *)
Definition jm_trim (max : nat) (m : js_map) : js_map := drop (length m - max) m.

Lemma jm_trim_length max m : (length (jm_trim max m) ≤ max)%nat.
Proof. unfold jm_trim. rewrite length_drop. lia. Qed.

Lemma jm_trim_wf max m : jm_wf m → jm_wf (jm_trim max m).
Proof.
  unfold jm_wf, jm_trim, jm_keys. rewrite <- (take_drop (length m - max) m) at 1.
  rewrite map_app. intros H. by apply NoDup_app in H as (_ & _ & ?).
Qed.

Lemma jm_trim_elem max m e : e ∈ jm_trim max m → e ∈ m.
Proof.
  unfold jm_trim. intros H. rewrite <- (take_drop (length m - max) m). apply elem_of_app. by right.
Qed.

(** The loop deletes the first key until the size fits: it is [jm_trim]. *)
Fixpoint jm_evict (fuel max : nat) (m : js_map) : js_map :=
  match fuel with
  | O => m
  | S fuel =>
      if bool_decide (max < length m)%nat then
        match m with
        | (oldest, _) :: _ => jm_evict fuel max (jm_delete oldest m)
        | [] => m
        end
      else m
  end.

Lemma jm_evict_trim fuel max m : (length m ≤ fuel)%nat → jm_evict fuel max m = jm_trim max m.
Proof.
  revert m; induction fuel as [|fuel IH]; intros m Hl; simpl.
  { destruct m; [done|simpl in Hl; lia]. }
  unfold jm_trim. case_bool_decide as Hm.
  - destruct m as [|[k v] m]; [simpl in Hm; lia|]. simpl in Hl, Hm |- *.
    rewrite bool_decide_eq_true_2 by done. rewrite IH by lia. unfold jm_trim.
    by replace (S (length m) - max)%nat with (S (length m - max)) by lia.
  - by replace (length m - max)%nat with 0%nat by lia.
Qed.
End JsMap.

Arguments js_map : clear implicits.
