(* ===== verification/CanonicalEncode.v ===== *)
(** * Canonical encoder primitives ([sdk/kit/src/canonical-encode.ts])

    The base58 public-key decoder, the [DataView] cursor writers and the
    constant-time digest comparison that the digest modules share.

    A [Uint8Array] is a list of byte values; a store into it is written out
    as the language does it: a [DataView] setter or [set] past the end raises
    [RangeError], an element store [buf[i] = v] past the end does nothing, and
    every store keeps the value modulo its width.  A writer takes the buffer
    and the offset and returns both, since the source's writers mutate the
    shared buffer and return the new offset. *)

From Stdlib Require String.
From S2P Require Import Prelude.

Local Open Scope Z_scope.

(** ** The language's typed-array operations *)

Definition new_Uint8Array (n : nat) : list Z := replicate n 0.

Definition blit (bs : list Z) (buf : list Z) (off : nat) : list Z :=
  take off buf ++ bs ++ drop (off + length bs) buf.

(** [buf.set(bs, off)], and the checked stores of [DataView]. *)
Definition buf_set (buf : list Z) (off : nat) (bs : list Z) : result js_exn (list Z) :=
  if bool_decide (off + length bs ≤ length buf)%nat
  then Ok (blit bs buf off)
  else Throw JsRangeError.

(** [buf[off] = v]: an integer-indexed store; out of range it has no effect. *)
Definition buf_store (buf : list Z) (off : nat) (v : Z) : list Z :=
  if bool_decide (off < length buf)%nat then blit [v mod 256] buf off else buf.

(** [view.setUint8/16/32/BigUint64(off, v, true)]: [w] bytes, little-endian. *)
Definition setUint (w : nat) (buf : list Z) (off : nat) (v : Z) : result js_exn (list Z) :=
  buf_set buf off (le_bytes w v).

(** ** Cursor writers *)

Abbreviation cursor := (list Z * nat)%type.

Definition writeU8 (buf : list Z) (off : nat) (v : Z) : result js_exn cursor :=
  buf ← setUint 1 buf off (Z.land v 255); Ok (buf, (off + 1)%nat).

Definition writeU16Le (buf : list Z) (off : nat) (v : Z) : result js_exn cursor :=
  buf ← setUint 2 buf off v; Ok (buf, (off + 2)%nat).

Definition writeU32Le (buf : list Z) (off : nat) (v : Z) : result js_exn cursor :=
  buf ← setUint 4 buf off v; Ok (buf, (off + 4)%nat).

Definition writeU64Le (buf : list Z) (off : nat) (v : Z) : result js_exn cursor :=
  buf ← setUint 8 buf off v; Ok (buf, (off + 8)%nat).

Definition writeBool (buf : list Z) (off : nat) (v : bool) : result js_exn cursor :=
  buf ← setUint 1 buf off (if v then 1 else 0); Ok (buf, (off + 1)%nat).

(** The two inline forms of the encoders: [buf.set(bs, off); off += n] and
    [buf[off++] = v]. *)
Definition writeBytes (buf : list Z) (off : nat) (bs : list Z) (n : nat) : result js_exn cursor :=
  buf ← buf_set buf off bs; Ok (buf, (off + n)%nat).

Definition storeByte (buf : list Z) (off : nat) (v : Z) : result js_exn cursor :=
  Ok (buf_store buf off v, (off + 1)%nat).

(** The byte of a boolean: [b ? 1 : 0]. *)
Definition flag (b : bool) : Z := if b then 1 else 0.

(** [for (const x of xs) { ... }] over the cursor. *)
Fixpoint for_each {A S} (f : A → S → result js_exn S) (xs : list A) (s : S) : result js_exn S :=
  match xs with
  | [] => Ok s
  | x :: xs => s ← f x s; for_each f xs s
  end.

(** ** Base58 *)

Definition BASE58_ALPHABET : string :=
  "123456789ABCDEFGHJKLMNPQRSTUVWXYZabcdefghijkmnopqrstuvwxyz".

Fixpoint string_index (c : Ascii.ascii) (s : string) (i : Z) : option Z :=
  match s with
  | EmptyString => None
  | String a s => if bool_decide (a = c) then Some i else string_index c s (i + 1)
  end.

(** [BASE58_INDEX[c]] *)
Definition BASE58_INDEX (c : Ascii.ascii) : option Z := string_index c BASE58_ALPHABET 0.

Fixpoint leading_ones (s : list Ascii.ascii) : nat :=
  match s with
  | c :: s => if bool_decide (c = "1"%char) then S (leading_ones s) else 0%nat
  | [] => 0%nat
  end.

(** The inner [for] over the bytes so far: multiply by 58 and add the carry. *)
Fixpoint b58_carry (bytes : list Z) (carry : Z) : list Z * Z :=
  match bytes with
  | [] => ([], carry)
  | b :: bytes =>
      let carry := carry + b * 58 in
      let '(bs, c) := b58_carry bytes (Z.shiftr carry 8) in
      (Z.land carry 255 :: bs, c)
  end.

(** [while (carry > 0)]: a carry is below [2^32], so four rounds are enough. *)
Fixpoint b58_push (fuel : nat) (carry : Z) : list Z :=
  match fuel with
  | O => []
  | S fuel => if 0 <? carry then Z.land carry 255 :: b58_push fuel (Z.shiftr carry 8) else []
  end.

Definition b58_digit (bytes : list Z) (v : Z) : list Z :=
  let '(bs, c) := b58_carry bytes v in bs ++ b58_push 4 c.

Fixpoint b58_digits (who : string) (s : list Ascii.ascii) (bytes : list Z)
    : result js_exn (list Z) :=
  match s with
  | [] => Ok bytes
  | c :: s =>
      match BASE58_INDEX c with
      | None => Throw (JsError (who +:+ ": invalid char"))
      | Some v => b58_digits who s (b58_digit bytes v)
      end
  end.

(** The decoder, with the name that prefixes its error messages: the cosign
    digest module has a copy of it under another name. *)
Definition b58_decode (who : string) (str : string) : result js_exn (list Z) :=
  let s := String.list_ascii_of_string str in
  _ ← throw_if (bool_decide (length s = 0%nat)) (JsError (who +:+ ": empty input"));
  bytes ← b58_digits who s [];
  let out := replicate (leading_ones s) 0 ++ reverse bytes in
  _ ← throw_if (negb (bool_decide (length out = 32%nat)))
        (JsError (who +:+ ": expected 32-byte pubkey"));
  Ok out.

Definition base58Decode32 (str : string) : result js_exn (list Z) :=
  b58_decode "base58Decode32" str.

(** ** Digest comparison *)

Definition digestsEqual (a b : list Z) : bool :=
  if bool_decide (length a = length b)
  then foldl (λ acc p, Z.lor acc (Z.land (Z.lxor p.1 p.2) 255)) 0 (zip a b) =? 0
  else false.

Example base58_system_program :
  base58Decode32 "11111111111111111111111111111111" = Ok (replicate 32 0).
Proof. vm_compute. reflexivity. Qed.

Example base58_usdc :
  base58Decode32 "EPjFWdd5AufqSSqeM2qN1xzybapC8G4wEGGkZwyTDt1v" =
  Ok [198; 250; 122; 243; 190; 219; 173; 58; 61; 101; 243; 106; 171; 201; 116; 49; 177; 187;
      228; 194; 210; 246; 224; 228; 124; 166; 2; 3; 69; 47; 93; 97].
Proof. vm_compute. reflexivity. Qed.

(** ** The writers fill the buffer from the left

    [at_buf pre room] is a buffer whose first bytes are [pre] and whose last
    [room] bytes are still the zeros [new Uint8Array] put there. *)

Definition at_buf (pre : list Z) (room : nat) : list Z := pre ++ replicate room 0.

(** [writes f bs]: [f] appends exactly the bytes [bs] at the cursor, whenever
    there is room for them. *)
Definition writes (f : cursor → result js_exn cursor) (bs : list Z) : Prop :=
  ∀ pre room, (length bs ≤ room)%nat →
    f (at_buf pre room, length pre) =
    Ok (at_buf (pre ++ bs) (room - length bs), length (pre ++ bs)).

Lemma blit_at pre room bs :
  (length bs ≤ room)%nat →
  blit bs (at_buf pre room) (length pre) = at_buf (pre ++ bs) (room - length bs).
Proof.
  intros Hr. unfold blit, at_buf.
  rewrite take_app_length, drop_app_ge by lia.
  replace (length pre + length bs - length pre)%nat with (length bs) by lia.
  by rewrite drop_replicate, app_assoc.
Qed.

Lemma length_at_buf pre room : length (at_buf pre room) = (length pre + room)%nat.
Proof. unfold at_buf. by rewrite length_app, length_replicate. Qed.

Lemma buf_set_at pre room bs :
  (length bs ≤ room)%nat →
  buf_set (at_buf pre room) (length pre) bs = Ok (at_buf (pre ++ bs) (room - length bs)).
Proof.
  intros Hr. unfold buf_set. rewrite bool_decide_true.
  - by rewrite blit_at.
  - rewrite length_at_buf. lia.
Qed.

Lemma writes_bytes bs n :
  length bs = n → writes (λ '(buf, off), writeBytes buf off bs n) bs.
Proof.
  intros <- pre room Hr. unfold writeBytes. rewrite buf_set_at by done.
  simpl. by rewrite length_app.
Qed.

Lemma writes_U8 v : writes (λ '(buf, off), writeU8 buf off v) [wrap 8 v].
Proof.
  intros pre room Hr. unfold writeU8, setUint. rewrite buf_set_at by done.
  assert (le_bytes 1 (Z.land v 255) = [wrap 8 v]) as ->.
  { unfold le_bytes, wrap. change 255 with (Z.ones 8).
    by rewrite Z.land_ones, Z.mod_mod by lia. }
  simpl. by rewrite length_app.
Qed.

Lemma writes_U16 v : writes (λ '(buf, off), writeU16Le buf off v) (le_bytes 2 v).
Proof.
  intros pre room Hr. unfold writeU16Le, setUint. rewrite buf_set_at by done.
  simpl. by rewrite length_app.
Qed.

Lemma writes_U32 v : writes (λ '(buf, off), writeU32Le buf off v) (le_bytes 4 v).
Proof.
  intros pre room Hr. unfold writeU32Le, setUint. rewrite buf_set_at by done.
  simpl. by rewrite length_app.
Qed.

Lemma writes_U64 v : writes (λ '(buf, off), writeU64Le buf off v) (le_bytes 8 v).
Proof.
  intros pre room Hr. unfold writeU64Le, setUint. rewrite buf_set_at by done.
  simpl. by rewrite length_app.
Qed.

Lemma writes_store v : writes (λ '(buf, off), storeByte buf off v) [wrap 8 v].
Proof.
  intros pre room Hr. unfold storeByte, buf_store. simpl in Hr.
  rewrite bool_decide_true by (rewrite length_at_buf; lia).
  rewrite blit_at by done. by rewrite length_app.
Qed.

(** [off += n] over bytes that stay zero. *)
Lemma writes_skip n :
  writes (λ '(buf, off), Ok (buf, (off + n)%nat)) (replicate n 0).
Proof.
  intros pre room Hr. rewrite length_replicate in Hr. unfold at_buf.
  rewrite length_app, length_replicate, <- app_assoc, <- replicate_add.
  by replace (n + (room - n))%nat with room by lia.
Qed.

Lemma writes_for_each {A} (f : A → cursor → result js_exn cursor) (enc : A → list Z) xs :
  (∀ x, x ∈ xs → writes (f x) (enc x)) → writes (for_each f xs) (concat (map enc xs)).
Proof.
  induction xs as [|x xs IH]; intros Hf pre room Hr; simpl in *.
  - by rewrite app_nil_r, Nat.sub_0_r.
  - rewrite length_app in Hr.
    rewrite (Hf x) by (set_solver || lia). simpl.
    rewrite IH by (set_solver || lia).
    rewrite <- app_assoc. do 3 f_equal. rewrite length_app. lia.
Qed.

Lemma writes_bind f g a b :
  writes f a → writes g b → writes (λ c, f c ≫= g) (a ++ b).
Proof.
  intros Hf Hg pre room Hr. rewrite length_app in Hr.
  rewrite Hf by lia. simpl. rewrite Hg by lia.
  rewrite <- app_assoc. do 3 f_equal. rewrite length_app. lia.
Qed.

(** The same for the form the encoders are written in. *)
Lemma writes_then (F : list Z → nat → result js_exn cursor) g a b :
  writes (λ '(buf, off), F buf off) a → writes g b →
  writes (λ '(buf, off), F buf off ≫= g) (a ++ b).
Proof. intros Hf Hg. exact (writes_bind _ _ _ _ Hf Hg). Qed.

Lemma writes_eta g bs : writes g bs → writes (λ '(buf, off), g (buf, off)) bs.
Proof. intros H pre room Hr. exact (H pre room Hr). Qed.

Lemma writes_nil : writes Ok [].
Proof. intros pre room _. by rewrite app_nil_r, Nat.sub_0_r. Qed.

(** A writer that fills a fresh buffer exactly leaves the bytes it wrote. *)
Lemma writes_all f bs n :
  writes f bs → length bs = n → f (new_Uint8Array n, 0%nat) = Ok (bs, n).
Proof.
  intros Hf <-. specialize (Hf [] (length bs) (le_n _)).
  unfold at_buf in Hf. simpl in Hf. unfold new_Uint8Array.
  rewrite Hf, Nat.sub_diag. simpl. by rewrite app_nil_r.
Qed.

(** ** Base58: what the decoder computes *)

Lemma byte_split c : c = Z.land c 255 + 256 * Z.shiftr c 8 ∧ byte_ok (Z.land c 255).
Proof.
  change 255 with (Z.ones 8). rewrite Z.land_ones, Z.shiftr_div_pow2 by lia.
  change (2 ^ 8) with 256. split.
  - rewrite Z.add_comm. apply Z.div_mod. lia.
  - apply Z.mod_pos_bound. lia.
Qed.

(** [minimal bs]: no most-significant zero byte. *)
Definition minimal (bs : list Z) : Prop :=
  bs = [] ∨ 2 ^ (8 * Z.of_nat (length bs - 1)) ≤ le_value bs.

Lemma b58_carry_spec bytes v :
  bytes_ok bytes → 0 ≤ v < 58 →
  let '(bs, c) := b58_carry bytes v in
  length bs = length bytes ∧ bytes_ok bs ∧ 0 ≤ c < 58 ∧
  le_value bs + 2 ^ (8 * Z.of_nat (length bs)) * c = 58 * le_value bytes + v.
Proof.
  intros Hb; revert v; induction Hb as [|b bytes Hb _ IH]; intros v Hv; cbn [b58_carry].
  - split; [done|]. split; [constructor|]. split; [done|]. simpl. lia.
  - destruct (byte_split (v + b * 58)) as [Hs Hl].
    assert (Hc : 0 ≤ Z.shiftr (v + b * 58) 8 < 58) by (unfold byte_ok in *; lia).
    specialize (IH _ Hc). destruct (b58_carry bytes _) as [bs c].
    destruct IH as (Hlen & Hbs & Hc' & Heq).
    split; [simpl; congruence|]. split; [by constructor|]. split; [done|].
    cbn [length le_value]. rewrite pow_256_succ. lia.
Qed.

Lemma b58_push_spec fuel c :
  0 ≤ c < 2 ^ (8 * Z.of_nat fuel) →
  bytes_ok (b58_push fuel c) ∧ le_value (b58_push fuel c) = c ∧ minimal (b58_push fuel c).
Proof.
  revert c; induction fuel as [|fuel IH]; intros c Hc.
  - simpl in *. split; [constructor|]. split; [lia|by left].
  - rewrite pow_256_succ in Hc. cbn [b58_push]. destruct (Z.ltb_spec 0 c); cycle 1.
    { split; [constructor|]. split; [simpl; lia|by left]. }
    destruct (byte_split c) as [Hs Hl]. unfold byte_ok in Hl.
    destruct (IH (Z.shiftr c 8)) as (Hb & Hv & Hm); [lia|].
    split; [by constructor|]. cbn [le_value]. rewrite Hv. split; [lia|].
    right. cbn [le_value length]. rewrite Hv.
    replace (S (length (b58_push fuel (Z.shiftr c 8))) - 1)%nat
      with (length (b58_push fuel (Z.shiftr c 8))) by lia.
    destruct Hm as [Hm | Hm].
    + rewrite Hm in *. simpl in *. lia.
    + destruct (b58_push fuel (Z.shiftr c 8)) as [|x l] eqn:El; [simpl in *; lia|].
      cbn [length] in *. rewrite pow_256_succ.
      replace (S (length l) - 1)%nat with (length l) in Hm by lia. lia.
Qed.

Lemma b58_digit_spec bytes v :
  bytes_ok bytes → minimal bytes → 0 ≤ v < 58 →
  bytes_ok (b58_digit bytes v) ∧ minimal (b58_digit bytes v) ∧
  le_value (b58_digit bytes v) = 58 * le_value bytes + v.
Proof.
  intros Hb Hm Hv. unfold b58_digit. pose proof (b58_carry_spec bytes v Hb Hv) as Hc.
  destruct (b58_carry bytes v) as [bs c]. destruct Hc as (Hlen & Hbs & Hc & Heq).
  destruct (b58_push_spec 4 c) as (Hp & Hpv & Hpm); [simpl; lia|].
  rewrite le_value_app, Hpv, Heq.
  split; [by apply bytes_ok_app|]. split; [|done].
  destruct Hpm as [Hpm | Hpm].
  - rewrite Hpm, app_nil_r in *. simpl in Hpv. subst c.
    destruct Hm as [-> | Hm]; [left; by destruct bs|].
    right. rewrite Hlen. pose proof (le_value_bounds _ Hb). lia.
  - right. rewrite le_value_app, length_app.
    destruct (b58_push 4 c) as [|x l]; [simpl in *; lia|]. cbn [length] in *.
    replace (length bs + S (length l) - 1)%nat with (length bs + length l)%nat by lia.
    replace (S (length l) - 1)%nat with (length l) in Hpm by lia.
    rewrite Nat2Z.inj_add, Z.mul_add_distr_l, Z.pow_add_r by lia.
    pose proof (le_value_bounds _ Hbs). nia.
Qed.

(** The value of a digit string in base 58, most significant digit first. *)
Definition b58_value (ds : list Z) : Z := foldl (λ acc d, 58 * acc + d) 0 ds.

Lemma string_index_nth c s i v :
  string_index c s i = Some v →
  i ≤ v ∧ String.get (Z.to_nat (v - i)) s = Some c ∧ v < i + Z.of_nat (String.length s).
Proof.
  revert i; induction s as [|a s IH]; intros i H; simpl in H; [done|].
  case_bool_decide; simplify_eq.
  - rewrite Z.sub_diag. simpl. split; [lia|]. split; [done|lia].
  - destruct (IH _ H) as (Hle & Hn & Hlt). cbn [String.length]. split; [lia|].
    replace (Z.to_nat (v - i)) with (S (Z.to_nat (v - (i + 1)))) by lia.
    simpl. split; [done|lia].
Qed.

Lemma BASE58_INDEX_inj c1 c2 v :
  BASE58_INDEX c1 = Some v → BASE58_INDEX c2 = Some v → c1 = c2.
Proof.
  intros (_ & H1 & _)%string_index_nth (_ & H2 & _)%string_index_nth. congruence.
Qed.

Lemma BASE58_INDEX_range c v : BASE58_INDEX c = Some v → 0 ≤ v < 58.
Proof.
  intros (H1 & _ & H2)%string_index_nth.
  change (String.length BASE58_ALPHABET) with 58%nat in H2. lia.
Qed.

Lemma BASE58_INDEX_one c : BASE58_INDEX c = Some 0 → c = "1"%char.
Proof. intros H. by eapply BASE58_INDEX_inj. Qed.

Lemma b58_digits_spec who s bytes bs :
  bytes_ok bytes → minimal bytes → b58_digits who s bytes = Ok bs →
  ∃ ds, Forall2 (λ c d, BASE58_INDEX c = Some d) s ds ∧ bytes_ok bs ∧ minimal bs ∧
    le_value bs = foldl (λ acc d, 58 * acc + d) (le_value bytes) ds.
Proof.
  revert bytes; induction s as [|c s IH]; intros bytes Hb Hm H; simpl in H; inv_ok.
  - by exists [].
  - destruct (BASE58_INDEX c) as [v|] eqn:Hc; [|done].
    destruct (b58_digit_spec bytes v) as (Hb' & Hm' & Hv'); auto.
    { by eapply BASE58_INDEX_range. }
    destruct (IH _ Hb' Hm' H) as (ds & Hds & ? & ? & Hbs).
    exists (v :: ds). split; [by constructor|]. split; [done|]. split; [done|].
    simpl. by rewrite Hbs, Hv'.
Qed.

Lemma b58_value_pos d ds :
  Forall (λ d, 0 ≤ d < 58) (d :: ds) → d ≠ 0 → 0 < b58_value (d :: ds).
Proof.
  induction ds as [|e ds IH] using rev_ind; intros Hds Hd.
  - apply Forall_single in Hds. change (b58_value [d]) with (58 * 0 + d). lia.
  - rewrite app_comm_cons, Forall_app, Forall_singleton in Hds. destruct Hds as [Hds He].
    specialize (IH Hds Hd). unfold b58_value in *.
    rewrite app_comm_cons, foldl_snoc. lia.
Qed.

(** Numerals without a leading zero are unique. *)
Lemma b58_value_inj ds1 ds2 :
  Forall (λ d, 0 ≤ d < 58) ds1 → Forall (λ d, 0 ≤ d < 58) ds2 →
  head ds1 ≠ Some 0 → head ds2 ≠ Some 0 →
  b58_value ds1 = b58_value ds2 → ds1 = ds2.
Proof.
  assert (Hz : ∀ ds, Forall (λ d, 0 ≤ d < 58) ds → head ds ≠ Some 0 →
    b58_value ds = 0 → ds = []).
  { intros [|d ds] H Hh Hv; [done|]. simpl in Hh.
    assert (0 < b58_value (d :: ds)) by (apply b58_value_pos; congruence). lia. }
  revert ds2; induction ds1 as [|d1 ds1 IH] using rev_ind; intros ds2 H1 H2 Hh1 Hh2 Hv.
  - symmetry. by apply Hz.
  - destruct ds2 as [|d2 ds2 _] using rev_ind; [by apply Hz|].
    unfold b58_value in Hv. rewrite !foldl_snoc in Hv.
    apply Forall_app in H1 as [H1 Hd1%Forall_single].
    apply Forall_app in H2 as [H2 Hd2%Forall_single].
    assert (d1 = d2) as -> by lia. f_equal.
    apply IH; auto; [by destruct ds1|by destruct ds2|unfold b58_value; lia].
Qed.

(** The digits split at the leading ones. *)
Lemma leading_ones_split s ds :
  Forall2 (λ c d, BASE58_INDEX c = Some d) s ds →
  ∃ t es, s = replicate (leading_ones s) "1"%char ++ t ∧
    Forall2 (λ c d, BASE58_INDEX c = Some d) t es ∧
    head es ≠ Some 0 ∧ b58_value es = b58_value ds.
Proof.
  induction 1 as [|c d s ds Hc Hs IH]; simpl.
  - by exists [], [].
  - case_bool_decide as Hone.
    + subst c. vm_compute in Hc. injection Hc as <-.
      destruct IH as (t & es & Ht & Hes & Hh & Hv).
      exists t, es. simpl. split; [by f_equal|]. split; [done|]. split; [done|].
      rewrite Hv. done.
    + exists (c :: s), (d :: ds). simpl. split; [done|]. split; [by constructor|].
      split; [|done]. intros [= ->]. by apply Hone, BASE58_INDEX_one.
Qed.

Lemma minimal_last bs : bytes_ok bs → minimal bs → list.last bs ≠ Some 0.
Proof.
  intros Hb [-> | Hm]; [done|].
  destruct bs as [|x bs _] using rev_ind; [done|].
  rewrite last_snoc. intros [= ->].
  rewrite le_value_app, length_app in Hm. cbn [length le_value] in Hm.
  apply bytes_ok_app in Hb as [Hb _]. pose proof (le_value_bounds _ Hb).
  replace (length bs + 1 - 1)%nat with (length bs) in Hm by lia. lia.
Qed.

Lemma zeros_prefix_inj k1 k2 (a b : list Z) :
  head a ≠ Some 0 → head b ≠ Some 0 →
  replicate k1 0 ++ a = replicate k2 0 ++ b → k1 = k2 ∧ a = b.
Proof.
  revert k2; induction k1 as [|k1 IH]; intros [|k2] Ha Hb H; simpl in *; simplify_eq; auto.
  destruct (IH k2 Ha Hb H) as [-> ->]. auto.
Qed.

(** What a successful decode says of the string and of the bytes. *)
Lemma base58Decode32_Ok str out :
  base58Decode32 str = Ok out →
  let s := String.list_ascii_of_string str in
  ∃ bytes ds, Forall2 (λ c d, BASE58_INDEX c = Some d) s ds ∧
    bytes_ok bytes ∧ minimal bytes ∧ le_value bytes = b58_value ds ∧
    out = replicate (leading_ones s) 0 ++ reverse bytes ∧ length out = 32%nat.
Proof.
  unfold base58Decode32, b58_decode. intros H. inv_ok.
  apply b58_digits_spec in E0 as (ds & Hds & Hb & Hm & Hv); [|constructor|by left].
  apply negb_false_iff, bool_decide_eq_true in E1.
  exists x0, ds. naive_solver.
Qed.

Lemma base58Decode32_length str out : base58Decode32 str = Ok out → length out = 32%nat.
Proof. by intros (? & ? & ? & ? & ? & ? & ? & ?)%base58Decode32_Ok. Qed.

Lemma base58Decode32_bytes str out : base58Decode32 str = Ok out → bytes_ok out.
Proof.
  intros (bytes & ds & _ & Hb & _ & _ & -> & _)%base58Decode32_Ok.
  apply bytes_ok_app. split.
  - apply Forall_replicate. unfold byte_ok. lia.
  - by apply Forall_reverse.
Qed.

Lemma list_ascii_inj s1 s2 :
  String.list_ascii_of_string s1 = String.list_ascii_of_string s2 → s1 = s2.
Proof.
  intros H. by rewrite <- (String.string_of_list_ascii_of_string s1), H,
    String.string_of_list_ascii_of_string.
Qed.

Lemma Forall2_index_inj s1 s2 ds :
  Forall2 (λ c d, BASE58_INDEX c = Some d) s1 ds →
  Forall2 (λ c d, BASE58_INDEX c = Some d) s2 ds → s1 = s2.
Proof.
  intros H1; revert s2; induction H1 as [|c d s1 ds Hc _ IH]; intros s2 H2;
    inversion H2; subst; [done|].
  f_equal; [by eapply BASE58_INDEX_inj|auto].
Qed.

Lemma Forall2_index_range s ds :
  Forall2 (λ c d, BASE58_INDEX c = Some d) s ds → Forall (λ d, 0 ≤ d < 58) ds.
Proof. induction 1; constructor; auto. by eapply BASE58_INDEX_range. Qed.

(** Two strings that decode to the same key are the same string. *)
Lemma base58Decode32_inj s1 s2 out :
  base58Decode32 s1 = Ok out → base58Decode32 s2 = Ok out → s1 = s2.
Proof.
  intros (b1 & d1 & Hd1 & Hb1 & Hm1 & Hv1 & Ho1 & _)%base58Decode32_Ok
         (b2 & d2 & Hd2 & Hb2 & Hm2 & Hv2 & Ho2 & _)%base58Decode32_Ok.
  apply list_ascii_inj. rewrite Ho1 in Ho2.
  apply zeros_prefix_inj in Ho2 as [Hk Hr];
    [|rewrite head_reverse; by apply minimal_last..].
  apply (inj reverse) in Hr. subst b2.
  destruct (leading_ones_split _ _ Hd1) as (t1 & e1 & -> & He1 & Hh1 & Hw1).
  destruct (leading_ones_split _ _ Hd2) as (t2 & e2 & -> & He2 & Hh2 & Hw2).
  rewrite Hk. f_equal.
  assert (e1 = e2) as ->.
  { apply b58_value_inj; eauto using Forall2_index_range. congruence. }
  by eapply Forall2_index_inj.
Qed.

(** The success of the decoder does not depend on its name. *)
Lemma b58_digits_who w1 w2 s bytes bs :
  b58_digits w1 s bytes = Ok bs → b58_digits w2 s bytes = Ok bs.
Proof.
  revert bytes; induction s as [|c s IH]; intros bytes; simpl; [done|].
  destruct (BASE58_INDEX c); [auto|done].
Qed.

Lemma b58_decode_who w1 w2 s bs : b58_decode w1 s = Ok bs → b58_decode w2 s = Ok bs.
Proof.
  unfold b58_decode. intros H. inv_ok.
  rewrite E, (b58_digits_who w1 w2 _ _ _ E0). simpl. by rewrite E1.
Qed.

Lemma b58_decode_inj who s1 s2 out :
  b58_decode who s1 = Ok out → b58_decode who s2 = Ok out → s1 = s2.
Proof.
  intros H1%(b58_decode_who _ "base58Decode32") H2%(b58_decode_who _ "base58Decode32").
  by eapply base58Decode32_inj.
Qed.

Lemma b58_decode_length who s bs : b58_decode who s = Ok bs → length bs = 32%nat.
Proof. intros H%(b58_decode_who _ "base58Decode32"). by eapply base58Decode32_length. Qed.

(** ** Digest comparison *)

Lemma byte_xor_zero x y :
  byte_ok x → byte_ok y → Z.land (Z.lxor x y) 255 = 0 ↔ x = y.
Proof.
  intros Hx Hy. change 255 with (Z.ones 8).
  assert (0 ≤ Z.lxor x y < 2 ^ 8) as Hr.
  { unfold byte_ok in *. assert (0 ≤ Z.lxor x y) by (apply Z.lxor_nonneg; lia).
    split; [done|]. destruct (Z.eq_dec (Z.lxor x y) 0) as [->|?]; [lia|].
    apply Z.log2_lt_pow2; [lia|].
    eapply Z.le_lt_trans; [apply Z.log2_lxor; lia|].
    apply Z.max_lub_lt; (destruct (Z.eq_dec x 0) as [->|]; [|]);
      (destruct (Z.eq_dec y 0) as [->|]; [|]); try (simpl; lia);
      apply Z.log2_lt_pow2; lia. }
  rewrite Z.land_ones, Z.mod_small by lia. apply Z.lxor_eq_0_iff.
Qed.

Lemma foldl_lor_zero {A} (f : A → Z) l acc :
  foldl (λ acc p, Z.lor acc (f p)) acc l = 0 ↔ acc = 0 ∧ Forall (λ p, f p = 0) l.
Proof.
  revert acc; induction l as [|x l IH]; intros acc; simpl.
  - intuition.
  - rewrite IH, Z.lor_eq_0_iff, list.Forall_cons. tauto.
Qed.

Lemma digestsEqual_spec a b :
  bytes_ok a → bytes_ok b → digestsEqual a b = true ↔ a = b.
Proof.
  intros Ha Hb. unfold digestsEqual. case_bool_decide as Hl; cycle 1.
  { split; [done|]. intros ->. done. }
  rewrite Z.eqb_eq, foldl_lor_zero. split; [intros [_ H]|intros ->; split; [done|]].
  - revert b Hb Hl H; induction Ha as [|x a Hx Ha IH]; intros [|y b] Hb Hl H; try done.
    inversion Hb; inversion H; subst. simpl in *.
    f_equal; [by apply byte_xor_zero|]. apply IH; auto.
  - clear Ha Hl. induction Hb as [|y b Hy Hb IH]; constructor; auto.
    simpl. by apply byte_xor_zero.
Qed.

(** ** Stepping an encoder

    The [writes] facts as equations on the cursor [(at_buf pre room, length
    pre)], and the tactic [enc_step] that runs one write of an encoder. *)

Lemma writeU16Le_at pre room v : (2 ≤ room)%nat →
  writeU16Le (at_buf pre room) (length pre) v =
  Ok (at_buf (pre ++ le_bytes 2 v) (room - 2), length (pre ++ le_bytes 2 v)).
Proof. apply (writes_U16 v). Qed.

Lemma writeU32Le_at pre room v : (4 ≤ room)%nat →
  writeU32Le (at_buf pre room) (length pre) v =
  Ok (at_buf (pre ++ le_bytes 4 v) (room - 4), length (pre ++ le_bytes 4 v)).
Proof. apply (writes_U32 v). Qed.

Lemma writeU64Le_at pre room v : (8 ≤ room)%nat →
  writeU64Le (at_buf pre room) (length pre) v =
  Ok (at_buf (pre ++ le_bytes 8 v) (room - 8), length (pre ++ le_bytes 8 v)).
Proof. apply (writes_U64 v). Qed.

Lemma writeU8_at pre room v : (1 ≤ room)%nat →
  writeU8 (at_buf pre room) (length pre) v =
  Ok (at_buf (pre ++ [wrap 8 v]) (room - 1), length (pre ++ [wrap 8 v])).
Proof. apply (writes_U8 v). Qed.

Lemma storeByte_at pre room v : (1 ≤ room)%nat →
  storeByte (at_buf pre room) (length pre) v =
  Ok (at_buf (pre ++ [wrap 8 v]) (room - 1), length (pre ++ [wrap 8 v])).
Proof. apply (writes_store v). Qed.

Lemma writeBytes_at pre room bs n : length bs = n → (n ≤ room)%nat →
  writeBytes (at_buf pre room) (length pre) bs n =
  Ok (at_buf (pre ++ bs) (room - n), length (pre ++ bs)).
Proof. intros <-. apply (writes_bytes bs). done. Qed.

Lemma for_bytes_at pre room (pks : list (list Z)) n :
  Forall (λ pk, length pk = n) pks → (length pks * n ≤ room)%nat →
  for_each (λ pk '(buf, off), writeBytes buf off pk n) pks (at_buf pre room, length pre) =
  Ok (at_buf (pre ++ concat pks) (room - length pks * n), length (pre ++ concat pks)).
Proof.
  intros Hn Hr. rewrite <- (length_concat_const n) in * by done.
  pose proof (writes_for_each (λ pk '(buf, off), writeBytes buf off pk n) id pks) as H.
  rewrite map_id in H. apply H; [|done].
  intros pk Hpk. apply writes_bytes. rewrite list.Forall_forall in Hn. by apply Hn.
Qed.

Lemma Forall_le8 vs : Forall (λ l, length l = 8%nat) (map (le_bytes 8) vs).
Proof. induction vs; constructor; auto using length_le_bytes. Qed.

Lemma for_u64_at pre room (vs : list Z) :
  (length vs * 8 ≤ room)%nat →
  for_each (λ v '(buf, off), writeU64Le buf off v) vs (at_buf pre room, length pre) =
  Ok (at_buf (pre ++ concat (map (le_bytes 8) vs)) (room - length vs * 8),
      length (pre ++ concat (map (le_bytes 8) vs))).
Proof.
  intros Hr. rewrite <- (length_map (le_bytes 8) vs) in *.
  rewrite <- (length_concat_const 8) in * by apply Forall_le8.
  apply writes_for_each; [|done]. intros. apply writes_U64.
Qed.

Lemma length_concat_le8 vs : length (concat (map (le_bytes 8) vs)) = (length vs * 8)%nat.
Proof.
  rewrite (length_concat_const 8), length_map by apply Forall_le8. done.
Qed.

(** The byte blocks determine the integers, each at its width. *)
Lemma concat_le8_inj vs ws :
  length vs = length ws → concat (map (le_bytes 8) vs) = concat (map (le_bytes 8) ws) →
  map (wrap 64) vs = map (wrap 64) ws.
Proof.
  revert ws; induction vs as [|v vs IH]; intros [|w ws] Hl H; try done.
  cbn [map concat] in *. injection Hl as Hl. apply app_inj_len in H as [H1 H2]; [|by rewrite !length_le_bytes].
  f_equal; [exact (proj1 (le_bytes_inj 8 v w) H1)|]. apply IH; auto.
Qed.

Lemma at_buf_full pre room : room = 0%nat → at_buf pre room = pre.
Proof. intros ->. unfold at_buf. by rewrite app_nil_r. Qed.

Ltac enc_step :=
  first
    [ rewrite writeU64Le_at by lia | rewrite writeU32Le_at by lia
    | rewrite writeU16Le_at by lia | rewrite writeU8_at by lia
    | rewrite storeByte_at by lia
    | rewrite writeBytes_at by (solve [eauto | lia])
    | rewrite for_bytes_at by (solve [eauto | lia])
    | rewrite for_u64_at by lia ];
  cbn [mbind result_bind].

Ltac enc_start :=
  match goal with
  | |- context [?w (new_Uint8Array ?n) 0%nat] =>
      change (w (new_Uint8Array n) 0%nat) with (w (at_buf [] n) (length (@nil Z)))
  end.

(** Splitting an equation between concatenations into its pieces. *)
Ltac enc_split H :=
  repeat lazymatch type of H with
  | _ ++ _ = _ ++ _ =>
      let H1 := fresh "Hp" in
      apply app_inj_len in H as [H1 H];
      [|solve [ rewrite ?length_le_bytes; simpl; congruence
              | rewrite ?length_le_bytes; simpl; lia ]]
  end.

#[export] Hint Resolve base58Decode32_length base58Decode32_bytes : sigil.

Lemma mapM_b58_lengths who ss pks :
  mapM (b58_decode who) ss = Ok pks → Forall (λ pk, length pk = 32%nat) pks.
Proof.
  intros H%mapM_Ok_iff. induction H; constructor; eauto using b58_decode_length.
Qed.

Lemma mapM_b58_inj who ss ts pks :
  mapM (b58_decode who) ss = Ok pks → mapM (b58_decode who) ts = Ok pks → ss = ts.
Proof. apply mapM_Ok_inj, b58_decode_inj. Qed.

Lemma mapM_base58_lengths ss pks :
  mapM base58Decode32 ss = Ok pks → Forall (λ pk, length pk = 32%nat) pks.
Proof. apply mapM_b58_lengths. Qed.

Lemma mapM_base58_inj ss ts pks :
  mapM base58Decode32 ss = Ok pks → mapM base58Decode32 ts = Ok pks → ss = ts.
Proof. apply mapM_b58_inj. Qed.

(** ** Fixed-width blocks determine the values they carry *)

Lemma wrap8_flag_inj b1 b2 : [wrap 8 (flag b1)] = [wrap 8 (flag b2)] → b1 = b2.
Proof. by destruct b1, b2. Qed.

Lemma le_len_inj {A B} (l : list A) (k : list B) :
  js_array l → js_array k →
  le_bytes 4 (Z.of_nat (length l)) = le_bytes 4 (Z.of_nat (length k)) → length l = length k.
Proof.
  unfold js_array. intros Hl Hk H%le_bytes_inj. change (8 * Z.of_nat 4) with 32 in H.
  rewrite !wrap_fits in H by (unfold fits; lia). lia.
Qed.

Lemma wrap8_inj x y : [wrap 8 x] = [wrap 8 y] → wrap 8 x = wrap 8 y.
Proof. by intros [= ?]. Qed.

Lemma le8_inj x y : le_bytes 8 x = le_bytes 8 y → wrap 64 x = wrap 64 y.
Proof. apply (proj1 (le_bytes_inj 8 x y)). Qed.

Lemma le4_inj x y : le_bytes 4 x = le_bytes 4 y → wrap 32 x = wrap 32 y.
Proof. apply (proj1 (le_bytes_inj 4 x y)). Qed.

Lemma le2_inj x y : le_bytes 2 x = le_bytes 2 y → wrap 16 x = wrap 16 y.
Proof. apply (proj1 (le_bytes_inj 2 x y)). Qed.

Lemma le_bytes_wrap8 z : le_bytes 8 (wrap 64 z) = le_bytes 8 z.
Proof. apply (le_bytes_wrap 8). Qed.
Lemma le_bytes_wrap4 z : le_bytes 4 (wrap 32 z) = le_bytes 4 z.
Proof. apply (le_bytes_wrap 4). Qed.
Lemma le_bytes_wrap2 z : le_bytes 2 (wrap 16 z) = le_bytes 2 z.
Proof. apply (le_bytes_wrap 2). Qed.
Lemma wrap_wrap bits z : 0 ≤ bits → wrap bits (wrap bits z) = wrap bits z.
Proof. intros. apply wrap_fits. by apply wrap_bounds. Qed.

Lemma map_le8_wrap vs : map (le_bytes 8) (map (wrap 64) vs) = map (le_bytes 8) vs.
Proof. rewrite map_map. apply map_ext, le_bytes_wrap8. Qed.

(** ** Self-delimiting encodings *)

(** [enc] can be read back from the front of a byte string, up to [norm]. *)
Definition reads {A B} (P : A → Prop) (enc : A → list Z) (norm : A → B) : Prop :=
  ∀ a b x y, P a → P b → enc a ++ x = enc b ++ y → norm a = norm b ∧ x = y.

Lemma reads_u64 : reads (λ _, True) (le_bytes 8) (wrap 64).
Proof.
  intros a b x y _ _ H. apply app_inj_len in H as [H ->]; [|by rewrite !length_le_bytes].
  auto using le8_inj.
Qed.

(** Blocks of one length. *)
Lemma reads_block n : reads (λ bs, length bs = n) id (@id (list Z)).
Proof. intros a b x y Ha Hb H. unfold id in *. apply app_inj_len in H; congruence. Qed.

Lemma reads_concat {A B} (P : A → Prop) enc (norm : A → B) l k x y :
  reads P enc norm → Forall P l → Forall P k → length l = length k →
  concat (map enc l) ++ x = concat (map enc k) ++ y → map norm l = map norm k ∧ x = y.
Proof.
  intros He Hl; revert k. induction Hl as [|a l Ha _ IH]; intros [|b k] Hk Hlen H; try done.
  inversion Hk; subst. cbn [map concat] in *. rewrite <- !app_assoc in H.
  apply He in H as [-> H]; [|done..].
  destruct (IH k) as [-> ->]; auto.
Qed.

(** A vector: its length as u32, then its elements. *)
Lemma reads_vec {A B} (P : A → Prop) enc (norm : A → B) :
  reads P enc norm →
  reads (λ l, Forall P l ∧ js_array l)
    (λ l, le_bytes 4 (Z.of_nat (length l)) ++ concat (map enc l)) (map norm).
Proof.
  intros He l k x y [Hl Jl] [Hk Jk] H. rewrite <- !app_assoc in H.
  apply app_inj_len in H as [Hlen H]; [|by rewrite !length_le_bytes].
  apply le_len_inj in Hlen; [|done..]. by eapply reads_concat.
Qed.

Lemma reads_pair {A B C D} (P : A → Prop) (Q : C → Prop) encA encC (nA : A → B) (nC : C → D) :
  reads P encA nA → reads Q encC nC →
  reads (λ p, P p.1 ∧ Q p.2) (λ p, encA p.1 ++ encC p.2) (λ p, (nA p.1, nC p.2)).
Proof.
  intros HA HC [a c] [b d] x y [Ha Hc] [Hb Hd] H; simpl in *. rewrite <- !app_assoc in H.
  apply HA in H as [-> H]; [|done..]. apply HC in H as [-> ->]; done.
Qed.

Lemma reads_u8 : reads (λ _, True) (λ v, [wrap 8 v]) (wrap 8).
Proof. by intros a b x y _ _ [= ? ?]. Qed.

(** A byte vector: its length as u32, then the bytes. *)
Lemma reads_bytes :
  reads js_array (λ bs, le_bytes 4 (Z.of_nat (length bs)) ++ bs) (@id (list Z)).
Proof.
  intros a b x y Ja Jb H. rewrite <- !app_assoc in H.
  apply app_inj_len in H as [Hl H]; [|by rewrite !length_le_bytes].
  apply le_len_inj in Hl; [|done..]. by apply app_inj_len in H.
Qed.
