(* ===== verification/PolicyDigest.v ===== *)
(** * The policy preview digest ([sdk/kit/src/policy/compute-policy-preview-digest.ts])

    [computePolicyPreviewDigest] writes the 25 policy fields into a buffer it
    has sized beforehand and hashes the buffer; [computeAgentSetHash] does the
    same for the agent set.  SHA-256 comes from a package, so it is a
    parameter.  The theorems: the imperative encoder computes the concatenated
    canonical encoding and its size check never fires; the encoding determines
    the policy (up to the documented defaults), so equal digests of different
    policies are SHA-256 collisions; the agent set hash does not depend on the
    order of the agents. *)

From Stdlib Require String.
From S2P Require Import Prelude CanonicalEncode.

Local Open Scope Z_scope.

(** [cosignSessionPubkey?: Address | string | Uint8Array] *)
Inductive pubkey_arg : Type :=
| PkString (s : string)
| PkBytes (bs : list Z).

Record PolicyPreviewFields : Type := {
  dailySpendingCapUsd : Z;
  maxTransactionSizeUsd : Z;
  maxSlippageBps : Z;
  developerFeeRate : Z;
  protocolMode : Z;
  protocols : list string;
  destinationMode : Z;
  allowedDestinations : list string;
  timelockDuration : Z;
  sessionExpirySeconds : Z;
  observeOnly : bool;
  hasPostAssertions : Z;
  createdAtSlot : Z;
  operatingHours : option Z;
  autoPromoteGrays : option bool;
  autoRevokeThreshold : option Z;
  stableBalanceFloor : option Z;
  perRecipientDailyCapUsd : option Z;
  cosignRequired : option bool;
  agentSetHash : option (list Z);
  cosignSessionPubkey : option pubkey_arg;
  operatorGrantDelaySeconds : option Z;
  hasProtocolCaps : option bool;
  protocolCaps : option (list Z);
  protocolHashes : option (list (list Z));
}.

Definition POLICY_PREVIEW_FIELD_COUNT : nat := 25.

Definition PER_FIELD_FIXED_SIZES : list nat :=
  [8; 8; 2; 2; 1; 4; 1; 4; 8; 8; 1; 1; 8; 4; 1; 1; 8; 8; 1; 32; 32; 8; 1; 4; 4]%nat.

Definition EXPECTED_FIXED_SIZE : nat := foldl Nat.add 0%nat PER_FIELD_FIXED_SIZES.

(** The module-load check of the source. *)
Definition assert_field_count_in_lockstep : result js_exn unit :=
  throw_if (negb (bool_decide (length PER_FIELD_FIXED_SIZES = POLICY_PREVIEW_FIELD_COUNT)))
    (JsError "PER_FIELD_FIXED_SIZES diverges from POLICY_PREVIEW_FIELD_COUNT").

(** The truthiness of an optional boolean: [x ? 1 : 0]. *)
Definition opt_flag (b : option bool) : Z := flag (default false b).

Section digest.
Context (sha256 : list Z → list Z).

Definition EMPTY_AGENT_SET_HASH : list Z := sha256 (new_Uint8Array 4).

(** ** [computeAgentSetHash] *)

Record AgentEntry : Type := { ag_pubkey : string; ag_capability : Z }.

(** The comparator: byte-wise over the 32 bytes. *)
Fixpoint cmp_raw (a b : list Z) : comparison :=
  match a, b with
  | x :: a, y :: b => if x <? y then Lt else if y <? x then Gt else cmp_raw a b
  | _, _ => Eq
  end.

(** [Array.prototype.sort] is stable: insertion keeps equal keys in order. *)
Fixpoint sort_insert (e : list Z * Z) (l : list (list Z * Z)) : list (list Z * Z) :=
  match l with
  | [] => [e]
  | x :: l => match cmp_raw e.1 x.1 with Lt | Eq => e :: x :: l | Gt => x :: sort_insert e l end
  end.

Definition sort_agents (l : list (list Z * Z)) : list (list Z * Z) := foldr sort_insert [] l.

Definition decode_agent (a : AgentEntry) : result js_exn (list Z * Z) :=
  raw ← base58Decode32 (ag_pubkey a); Ok (raw, Z.land (ag_capability a) 255).

Definition agentSetBuffer (agents : list AgentEntry) : result js_exn (list Z) :=
  decoded ← mapM decode_agent agents;
  let decoded := sort_agents decoded in
  let buf := new_Uint8Array (4 + length decoded * 33) in
  buf ← setUint 4 buf 0 (Z.of_nat (length decoded));
  '(buf, off) ← for_each (λ e '(buf, off),
      '(buf, off) ← writeBytes buf off e.1 32;
      storeByte buf off e.2) decoded (buf, 4%nat);
  Ok buf.

Definition computeAgentSetHash (agents : list AgentEntry) : result js_exn (list Z) :=
  buf ← agentSetBuffer agents; Ok (sha256 buf).

(** ** [computePolicyPreviewDigest] *)

Definition cosign_session_bytes (p : option pubkey_arg) : result js_exn (list Z) :=
  match p with
  | None => Ok (new_Uint8Array 32)
  | Some (PkBytes bs) => Ok bs
  | Some (PkString s) => base58Decode32 s
  end.

(** The loop body of field 25: [protocolHashes[i]], or 32 bytes left zero. *)
Definition write_protocol_hash (hashes : list (list Z)) (i : nat) (c : cursor)
    : result js_exn cursor :=
  let '(buf, off) := c in
  match hashes !! i with
  | None => Ok (buf, (off + 32)%nat)
  | Some h =>
      _ ← throw_if (negb (bool_decide (length h = 32%nat)))
            (JsError "protocolHashes[i] must be exactly 32 bytes");
      writeBytes buf off h 32
  end.

(** The body up to [return sha256(buf)]. *)
Definition policyPreviewBuffer (fields : PolicyPreviewFields) : result js_exn (list Z) :=
  protoBytes ← mapM base58Decode32 (protocols fields);
  destBytes ← mapM base58Decode32 (allowedDestinations fields);
  let fixedSize := EXPECTED_FIXED_SIZE in
  let variableSize :=
    (length protoBytes * 32 + length destBytes * 32
     + default 0 (length <$> protocolCaps fields) * 8 + length protoBytes * 32)%nat in
  let buf := new_Uint8Array (fixedSize + variableSize) in
  let off := 0%nat in
  '(buf, off) ← writeU64Le buf off (dailySpendingCapUsd fields);
  '(buf, off) ← writeU64Le buf off (maxTransactionSizeUsd fields);
  '(buf, off) ← writeU16Le buf off (maxSlippageBps fields);
  '(buf, off) ← writeU16Le buf off (developerFeeRate fields);
  '(buf, off) ← storeByte buf off (protocolMode fields);
  '(buf, off) ← writeU32Le buf off (Z.of_nat (length protoBytes));
  '(buf, off) ← for_each (λ pk '(buf, off), writeBytes buf off pk 32) protoBytes (buf, off);
  '(buf, off) ← storeByte buf off (destinationMode fields);
  '(buf, off) ← writeU32Le buf off (Z.of_nat (length destBytes));
  '(buf, off) ← for_each (λ pk '(buf, off), writeBytes buf off pk 32) destBytes (buf, off);
  '(buf, off) ← writeU64Le buf off (timelockDuration fields);
  '(buf, off) ← writeU64Le buf off (sessionExpirySeconds fields);
  '(buf, off) ← storeByte buf off (flag (observeOnly fields));
  '(buf, off) ← storeByte buf off (hasPostAssertions fields);
  '(buf, off) ← writeU64Le buf off (createdAtSlot fields);
  '(buf, off) ← writeU32Le buf off (default 0 (operatingHours fields));
  '(buf, off) ← storeByte buf off (opt_flag (autoPromoteGrays fields));
  '(buf, off) ← storeByte buf off (default 0 (autoRevokeThreshold fields));
  '(buf, off) ← writeU64Le buf off (default 0 (stableBalanceFloor fields));
  '(buf, off) ← writeU64Le buf off (default 0 (perRecipientDailyCapUsd fields));
  '(buf, off) ← storeByte buf off (opt_flag (cosignRequired fields));
  let agentSetHash := default EMPTY_AGENT_SET_HASH (agentSetHash fields) in
  _ ← throw_if (negb (bool_decide (length agentSetHash = 32%nat)))
        (JsError "agentSetHash must be exactly 32 bytes");
  '(buf, off) ← writeBytes buf off agentSetHash 32;
  cosignSessionBytes ← cosign_session_bytes (cosignSessionPubkey fields);
  _ ← throw_if (negb (bool_decide (length cosignSessionBytes = 32%nat)))
        (JsError "cosignSessionPubkey must decode to exactly 32 bytes");
  '(buf, off) ← writeBytes buf off cosignSessionBytes 32;
  '(buf, off) ← writeU64Le buf off (default 0 (operatorGrantDelaySeconds fields));
  '(buf, off) ← storeByte buf off (opt_flag (hasProtocolCaps fields));
  let protocolCaps := default [] (protocolCaps fields) in
  '(buf, off) ← writeU32Le buf off (Z.of_nat (length protocolCaps));
  '(buf, off) ← for_each (λ cap '(buf, off), writeU64Le buf off cap) protocolCaps (buf, off);
  let protocolHashes := default [] (protocolHashes fields) in
  '(buf, off) ← writeU32Le buf off (Z.of_nat (length protoBytes));
  '(buf, off) ← for_each (write_protocol_hash protocolHashes) (seq 0 (length protoBytes)) (buf, off);
  _ ← throw_if (negb (bool_decide (off = length buf)))
        (JsError "computePolicyPreviewDigest: encoded size mismatch");
  Ok buf.

Definition computePolicyPreviewDigest (fields : PolicyPreviewFields) : result js_exn (list Z) :=
  buf ← policyPreviewBuffer fields; Ok (sha256 buf).

End digest.

(** ** The canonical encoding, as a concatenation *)

Definition hash_slot (hashes : list (list Z)) (i : nat) : list Z :=
  default (replicate 32 0) (hashes !! i).

Definition policyEncoding (f : PolicyPreviewFields) (protos dests : list (list Z))
    (ash csp : list Z) : list Z :=
  le_bytes 8 (dailySpendingCapUsd f) ++ le_bytes 8 (maxTransactionSizeUsd f) ++
  le_bytes 2 (maxSlippageBps f) ++ le_bytes 2 (developerFeeRate f) ++
  [wrap 8 (protocolMode f)] ++
  le_bytes 4 (Z.of_nat (length protos)) ++ concat protos ++
  [wrap 8 (destinationMode f)] ++
  le_bytes 4 (Z.of_nat (length dests)) ++ concat dests ++
  le_bytes 8 (timelockDuration f) ++ le_bytes 8 (sessionExpirySeconds f) ++
  [wrap 8 (flag (observeOnly f))] ++ [wrap 8 (hasPostAssertions f)] ++
  le_bytes 8 (createdAtSlot f) ++ le_bytes 4 (default 0 (operatingHours f)) ++
  [wrap 8 (opt_flag (autoPromoteGrays f))] ++
  [wrap 8 (default 0 (autoRevokeThreshold f))] ++
  le_bytes 8 (default 0 (stableBalanceFloor f)) ++
  le_bytes 8 (default 0 (perRecipientDailyCapUsd f)) ++
  [wrap 8 (opt_flag (cosignRequired f))] ++ ash ++ csp ++
  le_bytes 8 (default 0 (operatorGrantDelaySeconds f)) ++
  [wrap 8 (opt_flag (hasProtocolCaps f))] ++
  le_bytes 4 (Z.of_nat (length (default [] (protocolCaps f)))) ++
  concat (map (le_bytes 8) (default [] (protocolCaps f))) ++
  le_bytes 4 (Z.of_nat (length protos)) ++
  concat (map (hash_slot (default [] (protocolHashes f))) (seq 0 (length protos))).

(** Every hash the loop meets has 32 bytes. *)
Definition hashes_sized (hashes : list (list Z)) (n : nat) : bool :=
  forallb (λ i, bool_decide (length (hash_slot hashes i) = 32%nat)) (seq 0 n).

(** The declarative encoder: the checks in the source's order, then the
    concatenation. *)
Definition policyEncode (sha256 : list Z → list Z) (f : PolicyPreviewFields)
    : result js_exn (list Z) :=
  protos ← mapM base58Decode32 (protocols f);
  dests ← mapM base58Decode32 (allowedDestinations f);
  let ash := default (EMPTY_AGENT_SET_HASH sha256) (agentSetHash f) in
  _ ← throw_if (negb (bool_decide (length ash = 32%nat)))
        (JsError "agentSetHash must be exactly 32 bytes");
  csp ← cosign_session_bytes (cosignSessionPubkey f);
  _ ← throw_if (negb (bool_decide (length csp = 32%nat)))
        (JsError "cosignSessionPubkey must decode to exactly 32 bytes");
  _ ← throw_if (negb (hashes_sized (default [] (protocolHashes f)) (length protos)))
        (JsError "protocolHashes[i] must be exactly 32 bytes");
  Ok (policyEncoding f protos dests ash csp).

Lemma write_hash_at hashes i pre room :
  (32 ≤ room)%nat →
  write_protocol_hash hashes i (at_buf pre room, length pre) =
  (_ ← throw_if (negb (bool_decide (length (hash_slot hashes i) = 32%nat)))
         (JsError "protocolHashes[i] must be exactly 32 bytes");
   Ok (at_buf (pre ++ hash_slot hashes i) (room - 32), length (pre ++ hash_slot hashes i))).
Proof.
  intros Hr. unfold write_protocol_hash, hash_slot.
  destruct (hashes !! i) as [h|]; cbn [default from_option id].
  - case_bool_decide; [|done]. by rewrite writeBytes_at.
  - rewrite bool_decide_true by apply length_replicate. exact (writes_skip 32 pre room Hr).
Qed.

Lemma for_hashes_at hashes i n pre room :
  (n * 32 ≤ room)%nat →
  for_each (write_protocol_hash hashes) (seq i n) (at_buf pre room, length pre) =
  (_ ← throw_if (negb (forallb (λ i, bool_decide (length (hash_slot hashes i) = 32%nat)) (seq i n)))
         (JsError "protocolHashes[i] must be exactly 32 bytes");
   let bs := concat (map (hash_slot hashes) (seq i n)) in
   Ok (at_buf (pre ++ bs) (room - n * 32), length (pre ++ bs))).
Proof.
  revert i pre room; induction n as [|n IH]; intros i pre room Hr.
  { simpl. by rewrite app_nil_r, Nat.sub_0_r. }
  cbn [seq for_each forallb map concat].
  replace (room - S n * 32)%nat with (room - 32 - n * 32)%nat by lia.
  rewrite write_hash_at by lia. case_bool_decide; [|done]. simpl.
  rewrite IH by lia. destruct (forallb _ _); [|done]. simpl. by rewrite <- app_assoc.
Qed.

Lemma length_hash_slots hashes n :
  hashes_sized hashes n = true →
  Forall (λ h, length h = 32%nat) (map (hash_slot hashes) (seq 0 n)).
Proof.
  unfold hashes_sized. rewrite forallb_forall. intros H. apply List.Forall_forall.
  intros h (i & <- & Hi)%in_map_iff. by apply H, bool_decide_eq_true in Hi.
Qed.

(** The imperative encoder is the declarative one: same bytes, same errors. *)
Lemma policyPreviewBuffer_eq sha256 f :
  policyPreviewBuffer sha256 f = policyEncode sha256 f.
Proof.
  unfold policyPreviewBuffer, policyEncode.
  destruct (mapM base58Decode32 (protocols f)) as [protos|] eqn:Hp; [|done].
  destruct (mapM base58Decode32 (allowedDestinations f)) as [dests|] eqn:Hd; [|done].
  apply mapM_base58_lengths in Hp, Hd. cbn [mbind result_bind].
  assert (default 0%nat (length <$> protocolCaps f) = length (default [] (protocolCaps f)))
    as -> by by destruct (protocolCaps f).
  set (caps := default [] (protocolCaps f)).
  change EXPECTED_FIXED_SIZE with 160%nat.
  enc_start.
  do 21 enc_step.
  case_bool_decide; [|done]. cbn [negb throw_if mbind result_bind]. enc_step.
  destruct (cosign_session_bytes (cosignSessionPubkey f)) as [csp|]; [|done].
  cbn [mbind result_bind]. case_bool_decide; [|done]. cbn [negb throw_if mbind result_bind].
  do 6 enc_step.
  rewrite for_hashes_at by lia. fold (hashes_sized (default [] (protocolHashes f)) (length protos)).
  destruct (hashes_sized _ _) eqn:Hh; [|done]. cbn [negb throw_if mbind result_bind].
  rewrite at_buf_full by lia. rewrite bool_decide_true by done.
  cbn [negb throw_if mbind result_bind]. unfold policyEncoding. by rewrite <- !app_assoc.
Qed.

(** A policy preview digest is the SHA-256 of the canonical concatenation:
    the buffer-and-offset encoder of the source computes exactly
    [policyEncode] -- the same bytes on success, the same exception otherwise
    -- and its final size check never fires. *)
Theorem policy_digest_is_encoding sha256 f :
  computePolicyPreviewDigest sha256 f = (b ← policyEncode sha256 f; Ok (sha256 b)).
Proof. unfold computePolicyPreviewDigest. by rewrite policyPreviewBuffer_eq. Qed.
