(* ===== verification/PolicyBinding.v ===== *)
(** * What the policy digest binds

    The canonical encoding of [PolicyDigest] determines the policy it encodes,
    up to the documented defaults and the width of each field; the digest
    therefore binds every field, and the agent set hash binds the agent set. *)

From Stdlib Require String.
From S2P Require Import Prelude CanonicalEncode PolicyDigest.

Local Open Scope Z_scope.

(** ** What the encoding keeps of a policy

    [canonicalPolicy] is the policy as the encoder reads it: the documented
    defaults filled in, every integer at its field's width, the hash list
    aligned with the protocols. *)

Definition canonicalPolicy (sha256 : list Z → list Z) (f : PolicyPreviewFields)
    : PolicyPreviewFields := {|
  dailySpendingCapUsd := wrap 64 (dailySpendingCapUsd f);
  maxTransactionSizeUsd := wrap 64 (maxTransactionSizeUsd f);
  maxSlippageBps := wrap 16 (maxSlippageBps f);
  developerFeeRate := wrap 16 (developerFeeRate f);
  protocolMode := wrap 8 (protocolMode f);
  protocols := protocols f;
  destinationMode := wrap 8 (destinationMode f);
  allowedDestinations := allowedDestinations f;
  timelockDuration := wrap 64 (timelockDuration f);
  sessionExpirySeconds := wrap 64 (sessionExpirySeconds f);
  observeOnly := observeOnly f;
  hasPostAssertions := wrap 8 (hasPostAssertions f);
  createdAtSlot := wrap 64 (createdAtSlot f);
  operatingHours := Some (wrap 32 (default 0 (operatingHours f)));
  autoPromoteGrays := Some (default false (autoPromoteGrays f));
  autoRevokeThreshold := Some (wrap 8 (default 0 (autoRevokeThreshold f)));
  stableBalanceFloor := Some (wrap 64 (default 0 (stableBalanceFloor f)));
  perRecipientDailyCapUsd := Some (wrap 64 (default 0 (perRecipientDailyCapUsd f)));
  cosignRequired := Some (default false (cosignRequired f));
  agentSetHash := Some (default (EMPTY_AGENT_SET_HASH sha256) (agentSetHash f));
  cosignSessionPubkey :=
    match cosign_session_bytes (cosignSessionPubkey f) with
    | Ok bs => Some (PkBytes bs)
    | Throw _ => None
    end;
  operatorGrantDelaySeconds := Some (wrap 64 (default 0 (operatorGrantDelaySeconds f)));
  hasProtocolCaps := Some (default false (hasProtocolCaps f));
  protocolCaps := Some (map (wrap 64) (default [] (protocolCaps f)));
  protocolHashes :=
    Some (map (hash_slot (default [] (protocolHashes f))) (seq 0 (length (protocols f))));
|}.

Definition policy_arrays (f : PolicyPreviewFields) : Prop :=
  js_array (protocols f) ∧ js_array (allowedDestinations f) ∧
  js_array (default [] (protocolCaps f)).

Lemma policyEncode_Ok sha256 f b :
  policyEncode sha256 f = Ok b →
  ∃ protos dests csp,
    mapM base58Decode32 (protocols f) = Ok protos ∧
    mapM base58Decode32 (allowedDestinations f) = Ok dests ∧
    length (default (EMPTY_AGENT_SET_HASH sha256) (agentSetHash f)) = 32%nat ∧
    cosign_session_bytes (cosignSessionPubkey f) = Ok csp ∧ length csp = 32%nat ∧
    hashes_sized (default [] (protocolHashes f)) (length protos) = true ∧
    b = policyEncoding f protos dests
          (default (EMPTY_AGENT_SET_HASH sha256) (agentSetHash f)) csp.
Proof.
  unfold policyEncode. intros H. inv_ok.
  repeat match goal with
  | H : negb _ = false |- _ => apply negb_false_iff in H
  | H : bool_decide _ = true |- _ => apply bool_decide_eq_true in H
  end. eauto 12.
Qed.

(** Equal encodings agree block by block. *)
Lemma policyEncoding_inj f1 f2 p1 p2 d1 d2 a1 a2 c1 c2 :
  Forall (λ pk, length pk = 32%nat) p1 → Forall (λ pk, length pk = 32%nat) p2 →
  Forall (λ pk, length pk = 32%nat) d1 → Forall (λ pk, length pk = 32%nat) d2 →
  length a1 = 32%nat → length a2 = 32%nat → length c1 = 32%nat → length c2 = 32%nat →
  js_array p1 → js_array p2 → js_array d1 → js_array d2 →
  js_array (default [] (protocolCaps f1)) → js_array (default [] (protocolCaps f2)) →
  policyEncoding f1 p1 d1 a1 c1 = policyEncoding f2 p2 d2 a2 c2 →
  p1 = p2 ∧ d1 = d2 ∧ a1 = a2 ∧ c1 = c2 ∧
  [wrap 64 (dailySpendingCapUsd f1); wrap 64 (maxTransactionSizeUsd f1);
   wrap 16 (maxSlippageBps f1); wrap 16 (developerFeeRate f1); wrap 8 (protocolMode f1);
   wrap 8 (destinationMode f1); wrap 64 (timelockDuration f1);
   wrap 64 (sessionExpirySeconds f1); wrap 8 (hasPostAssertions f1);
   wrap 64 (createdAtSlot f1); wrap 32 (default 0 (operatingHours f1));
   wrap 8 (default 0 (autoRevokeThreshold f1)); wrap 64 (default 0 (stableBalanceFloor f1));
   wrap 64 (default 0 (perRecipientDailyCapUsd f1));
   wrap 64 (default 0 (operatorGrantDelaySeconds f1))] =
  [wrap 64 (dailySpendingCapUsd f2); wrap 64 (maxTransactionSizeUsd f2);
   wrap 16 (maxSlippageBps f2); wrap 16 (developerFeeRate f2); wrap 8 (protocolMode f2);
   wrap 8 (destinationMode f2); wrap 64 (timelockDuration f2);
   wrap 64 (sessionExpirySeconds f2); wrap 8 (hasPostAssertions f2);
   wrap 64 (createdAtSlot f2); wrap 32 (default 0 (operatingHours f2));
   wrap 8 (default 0 (autoRevokeThreshold f2)); wrap 64 (default 0 (stableBalanceFloor f2));
   wrap 64 (default 0 (perRecipientDailyCapUsd f2));
   wrap 64 (default 0 (operatorGrantDelaySeconds f2))] ∧
  [observeOnly f1; default false (autoPromoteGrays f1); default false (cosignRequired f1);
   default false (hasProtocolCaps f1)] =
  [observeOnly f2; default false (autoPromoteGrays f2); default false (cosignRequired f2);
   default false (hasProtocolCaps f2)] ∧
  map (wrap 64) (default [] (protocolCaps f1)) = map (wrap 64) (default [] (protocolCaps f2)) ∧
  concat (map (hash_slot (default [] (protocolHashes f1))) (seq 0 (length p1))) =
  concat (map (hash_slot (default [] (protocolHashes f2))) (seq 0 (length p2))).
Proof.
  intros Hp1 Hp2 Hd1 Hd2 Ha1 Ha2 Hc1 Hc2 Jp1 Jp2 Jd1 Jd2 Jc1 Jc2 H.
  unfold policyEncoding in H. enc_split H.
  pose proof (le_len_inj p1 p2 Jp1 Jp2 ltac:(eassumption)) as Lp.
  apply app_inj_len in H as [Ep H]; [|rewrite !(length_concat_const 32) by done; by rewrite Lp].
  apply concat_inj_len with (n := 32%nat) in Ep; [|done..]. subst p2.
  enc_split H.
  pose proof (le_len_inj d1 d2 Jd1 Jd2 ltac:(eassumption)) as Ld.
  apply app_inj_len in H as [Ed H]; [|rewrite !(length_concat_const 32) by done; by rewrite Ld].
  apply concat_inj_len with (n := 32%nat) in Ed; [|done..]. subst d2.
  enc_split H.
  pose proof (le_len_inj _ _ Jc1 Jc2 ltac:(eassumption)) as Lc.
  apply app_inj_len in H as [Ec H]; [|rewrite !length_concat_le8; by rewrite Lc].
  apply concat_le8_inj in Ec; [|done].
  enc_split H.
  repeat match goal with
  | H : [wrap 8 (flag _)] = [wrap 8 (flag _)] |- _ => apply wrap8_flag_inj in H
  | H : [wrap 8 (opt_flag _)] = [wrap 8 (opt_flag _)] |- _ => apply wrap8_flag_inj in H
  | H : [wrap 8 _] = [wrap 8 _] |- _ => apply wrap8_inj in H
  | H : le_bytes 8 _ = le_bytes 8 _ |- _ => apply le8_inj in H
  | H : le_bytes 4 _ = le_bytes 4 _ |- _ => apply le4_inj in H
  | H : le_bytes 2 _ = le_bytes 2 _ |- _ => apply le2_inj in H
  end.
  repeat (split; [congruence|]). congruence.
Qed.

Lemma hash_slots_inj h1 h2 n :
  hashes_sized h1 n = true → hashes_sized h2 n = true →
  concat (map (hash_slot h1) (seq 0 n)) = concat (map (hash_slot h2) (seq 0 n)) →
  map (hash_slot h1) (seq 0 n) = map (hash_slot h2) (seq 0 n).
Proof.
  intros H1 H2 H. apply (concat_inj_len 32); auto using length_hash_slots.
  by rewrite !length_map.
Qed.

Lemma policyEncode_inj sha256 f1 f2 b :
  policy_arrays f1 → policy_arrays f2 →
  policyEncode sha256 f1 = Ok b → policyEncode sha256 f2 = Ok b →
  canonicalPolicy sha256 f1 = canonicalPolicy sha256 f2.
Proof.
  intros (Jp1 & Jd1 & Jc1) (Jp2 & Jd2 & Jc2)
    (p1 & d1 & c1 & Hp1 & Hd1 & La1 & Hc1 & Lc1 & Hh1 & ->)%policyEncode_Ok
    (p2 & d2 & c2 & Hp2 & Hd2 & La2 & Hc2 & Lc2 & Hh2 & H)%policyEncode_Ok.
  unfold js_array in Jp1, Jp2, Jd1, Jd2.
  rewrite <- (mapM_Ok_length _ _ _ Hp1) in Jp1. rewrite <- (mapM_Ok_length _ _ _ Hp2) in Jp2.
  rewrite <- (mapM_Ok_length _ _ _ Hd1) in Jd1. rewrite <- (mapM_Ok_length _ _ _ Hd2) in Jd2.
  apply policyEncoding_inj in H as (<- & <- & Ha & <- & Hz & Hb & Hcaps & Hs);
    eauto using mapM_base58_lengths.
  assert (protocols f1 = protocols f2) as Ep by eauto using mapM_base58_inj.
  assert (allowedDestinations f1 = allowedDestinations f2) as Ed by eauto using mapM_base58_inj.
  apply hash_slots_inj in Hs; [|done..].
  rewrite (mapM_Ok_length _ _ _ Hp1) in Hs at 1. rewrite (mapM_Ok_length _ _ _ Hp2) in Hs.
  unfold canonicalPolicy. rewrite Hc1, Hc2. injection Hz; injection Hb; intros.
  rewrite Ha, Hcaps, Hs, Ep, Ed. f_equal; congruence.
Qed.

Lemma lookup_map_seq {A} (g : nat → A) n i : (i < n)%nat → map g (seq 0 n) !! i = Some (g i).
Proof. intros Hi. rewrite list_lookup_fmap, lookup_seq_lt by done. done. Qed.

Lemma hash_slots_aligned hs n :
  map (hash_slot (map (hash_slot hs) (seq 0 n))) (seq 0 n) = map (hash_slot hs) (seq 0 n).
Proof.
  apply map_ext_in. intros i [_ Hi]%in_seq. unfold hash_slot at 1.
  by rewrite lookup_map_seq by lia.
Qed.

#[local] Arguments app {_} _ _ : simpl never.

(** The encoding reads a policy only through its canonical form. *)
Lemma policyEncoding_canonical sha256 f protos dests a c :
  length protos = length (protocols f) →
  policyEncoding (canonicalPolicy sha256 f) protos dests a c =
  policyEncoding f protos dests a c.
Proof.
  intros Hl. unfold policyEncoding, canonicalPolicy; simpl.
  rewrite !le_bytes_wrap8, !le_bytes_wrap4, !le_bytes_wrap2, !wrap_wrap, map_le8_wrap,
    length_map, Hl, hash_slots_aligned by lia.
  unfold opt_flag; simpl. reflexivity.
Qed.

Lemma policyEncode_canonical sha256 f1 f2 b1 b2 :
  policyEncode sha256 f1 = Ok b1 → policyEncode sha256 f2 = Ok b2 →
  canonicalPolicy sha256 f1 = canonicalPolicy sha256 f2 → b1 = b2.
Proof.
  intros (p1 & d1 & c1 & Hp1 & Hd1 & La1 & Hc1 & _ & _ & ->)%policyEncode_Ok
    (p2 & d2 & c2 & Hp2 & Hd2 & La2 & Hc2 & _ & _ & ->)%policyEncode_Ok H.
  pose proof (f_equal protocols H) as Ep. pose proof (f_equal allowedDestinations H) as Ed.
  pose proof (f_equal agentSetHash H) as Ea. pose proof (f_equal cosignSessionPubkey H) as Ec.
  simpl in Ep, Ed, Ea, Ec. rewrite Hc1, Hc2 in Ec. injection Ea as Ea. injection Ec as ->.
  rewrite Ep in Hp1. rewrite Ed in Hd1. rewrite Hp1 in Hp2. rewrite Hd1 in Hd2.
  injection Hp2 as ->. injection Hd2 as ->. rewrite Ea.
  rewrite <- (policyEncoding_canonical sha256 f1), <- (policyEncoding_canonical sha256 f2), H;
    [done|eauto using mapM_Ok_length..|].
  rewrite Ep. eauto using mapM_Ok_length.
Qed.

(** Two policies are hashed from the same bytes exactly when they agree on
    every field at its width with the documented defaults filled in: the
    encoding is injective on canonical policies, so no field can be altered,
    moved between the two address lists, or dropped without changing it. *)
Theorem policy_buffer_binds sha256 f1 f2 b1 b2 :
  policy_arrays f1 → policy_arrays f2 →
  policyPreviewBuffer sha256 f1 = Ok b1 → policyPreviewBuffer sha256 f2 = Ok b2 →
  b1 = b2 ↔ canonicalPolicy sha256 f1 = canonicalPolicy sha256 f2.
Proof.
  intros J1 J2. rewrite !policyPreviewBuffer_eq. intros H1 H2. split.
  - intros ->. by eapply policyEncode_inj.
  - by eapply policyEncode_canonical.
Qed.

(** C31: Equal policy digests come from equal canonical policies, or the two
    encoded buffers are an explicit SHA-256 collision. *)
Theorem policy_digest_binds sha256 f1 f2 d :
  policy_arrays f1 → policy_arrays f2 →
  computePolicyPreviewDigest sha256 f1 = Ok d → computePolicyPreviewDigest sha256 f2 = Ok d →
  canonicalPolicy sha256 f1 = canonicalPolicy sha256 f2 ∨
  ∃ b1 b2, policyPreviewBuffer sha256 f1 = Ok b1 ∧ policyPreviewBuffer sha256 f2 = Ok b2 ∧
    b1 ≠ b2 ∧ sha256 b1 = sha256 b2.
Proof.
  unfold computePolicyPreviewDigest. intros J1 J2 H1 H2. inv_ok.
  destruct (decide (x = x0)) as [->|]; [left|right; naive_solver].
  rewrite policyPreviewBuffer_eq in *. by eapply policyEncode_inj.
Qed.

Definition demo_policy : PolicyPreviewFields := {|
  dailySpendingCapUsd := 500000000; maxTransactionSizeUsd := 100000000;
  maxSlippageBps := 50; developerFeeRate := 0; protocolMode := 1;
  protocols := ["JUP6LkbZbjS1jKKwapdHNy74zcZ3tLUZoi5QNyVTaV4"]; destinationMode := 0;
  allowedDestinations := ["EPjFWdd5AufqSSqeM2qN1xzybapC8G4wEGGkZwyTDt1v"];
  timelockDuration := 1800; sessionExpirySeconds := 0; observeOnly := false;
  hasPostAssertions := 0; createdAtSlot := 42; operatingHours := Some 16777215;
  autoPromoteGrays := None; autoRevokeThreshold := Some 5; stableBalanceFloor := None;
  perRecipientDailyCapUsd := None; cosignRequired := None; agentSetHash := None;
  cosignSessionPubkey := None; operatorGrantDelaySeconds := None; hasProtocolCaps := None;
  protocolCaps := None; protocolHashes := None |}.

(** A concrete stand-in for the hash in the witnesses: 32 bytes of checksum. *)
Definition checksum32 (bs : list Z) : list Z := le_bytes 32 (sumZ bs).

Lemma policy_buffer_binds_witness :
  ∃ b, policyPreviewBuffer checksum32 demo_policy = Ok b ∧
    (b = b ↔ canonicalPolicy checksum32 demo_policy = canonicalPolicy checksum32 demo_policy).
Proof.
  eexists. split; [vm_compute; reflexivity|].
  apply (policy_buffer_binds checksum32 demo_policy demo_policy);
    [repeat split; vm_compute; reflexivity..|vm_compute; reflexivity|vm_compute; reflexivity].
Defined.

Lemma policy_digest_binds_witness :
  ∃ d, computePolicyPreviewDigest checksum32 demo_policy = Ok d ∧
    (canonicalPolicy checksum32 demo_policy = canonicalPolicy checksum32 demo_policy ∨
     ∃ b1 b2, policyPreviewBuffer checksum32 demo_policy = Ok b1 ∧
       policyPreviewBuffer checksum32 demo_policy = Ok b2 ∧ b1 ≠ b2 ∧
       checksum32 b1 = checksum32 b2).
Proof.
  eexists. split; [vm_compute; reflexivity|].
  eapply (policy_digest_binds checksum32 demo_policy demo_policy);
    [repeat split; vm_compute; reflexivity..|vm_compute; reflexivity|vm_compute; reflexivity].
Defined.

(** ** The agent set *)

Lemma cmp_raw_eq a b : length a = length b → cmp_raw a b = Eq ↔ a = b.
Proof.
  revert b; induction a as [|x a IH]; intros [|y b] Hl; try done. simpl in *.
  destruct (Z.ltb_spec x y); [split; [done|intros [=]; lia]|].
  destruct (Z.ltb_spec y x); [split; [done|intros [=]; lia]|].
  rewrite IH by lia. assert (x = y) as -> by lia. split; congruence.
Qed.

Lemma cmp_raw_anti a b : cmp_raw b a = CompOpp (cmp_raw a b).
Proof.
  revert b; induction a as [|x a IH]; intros [|y b]; try done. simpl.
  destruct (Z.ltb_spec x y), (Z.ltb_spec y x); try lia; simpl; auto.
Qed.

Lemma cmp_raw_trans a b c :
  length a = length b → length b = length c →
  cmp_raw a b = Lt → cmp_raw b c = Lt → cmp_raw a c = Lt.
Proof.
  revert b c; induction a as [|x a IH]; intros [|y b] [|z c]; simpl; try done.
  intros [=] [=]. destruct (Z.ltb_spec x y), (Z.ltb_spec y z), (Z.ltb_spec x z); try lia; try done;
  destruct (Z.ltb_spec y x), (Z.ltb_spec z y), (Z.ltb_spec z x); try lia; try done. eauto.
Qed.

Definition key32 (e : list Z * Z) : Prop := length e.1 = 32%nat.

Lemma cmp_key_cases e1 e2 : key32 e1 → key32 e2 → e1.1 ≠ e2.1 →
  (cmp_raw e1.1 e2.1 = Lt ∧ cmp_raw e2.1 e1.1 = Gt) ∨
  (cmp_raw e1.1 e2.1 = Gt ∧ cmp_raw e2.1 e1.1 = Lt).
Proof.
  unfold key32. intros H1 H2 Hne. rewrite (cmp_raw_anti e1.1 e2.1).
  destruct (cmp_raw e1.1 e2.1) eqn:Hc; [|auto..].
  apply cmp_raw_eq in Hc; congruence.
Qed.

Lemma cmp_raw_above a b x :
  length a = 32%nat → length b = 32%nat → length x = 32%nat →
  cmp_raw a x = Gt → cmp_raw b x ≠ Gt → cmp_raw a b ≠ Lt.
Proof.
  intros La Lb Lx Hax Hbx Hab. destruct (cmp_raw b x) eqn:E; try done.
  - apply cmp_raw_eq in E; congruence.
  - rewrite (cmp_raw_trans a b x) in Hax; congruence.
Qed.

Lemma sort_insert_comm e1 e2 l :
  key32 e1 → key32 e2 → Forall key32 l → e1.1 ≠ e2.1 →
  sort_insert e1 (sort_insert e2 l) = sort_insert e2 (sort_insert e1 l).
Proof.
  intros K1 K2 Kl Hne. induction Kl as [|x l Kx _ IH]; cbn [sort_insert].
  { destruct (cmp_key_cases e1 e2 K1 K2 Hne) as [[-> ->]|[-> ->]]; done. }
  unfold key32 in *.
  destruct (cmp_raw e2.1 x.1) eqn:H2, (cmp_raw e1.1 x.1) eqn:H1; cbn [sort_insert];
    rewrite ?H1, ?H2;
    try (by rewrite IH);
    try (destruct (cmp_key_cases e1 e2 K1 K2 Hne) as [[-> ->]|[-> ->]]; by rewrite ?H1, ?H2).
  all: destruct (cmp_key_cases e1 e2 K1 K2 Hne) as [[C1 C2]|[C1 C2]]; rewrite ?C1, ?C2;
    cbn [sort_insert]; rewrite ?H1, ?H2; try done; exfalso.
  - by apply (cmp_raw_above e1.1 e2.1 x.1); rewrite ?H2.
  - by apply (cmp_raw_above e1.1 e2.1 x.1); rewrite ?H2.
  - by apply (cmp_raw_above e2.1 e1.1 x.1); rewrite ?H1.
  - by apply (cmp_raw_above e2.1 e1.1 x.1); rewrite ?H1.
Qed.

Lemma sort_insert_perm e l : sort_insert e l ≡ₚ e :: l.
Proof.
  induction l as [|x l IH]; [done|]. simpl.
  destruct (cmp_raw e.1 x.1); [done..|]. rewrite IH. apply Permutation_swap.
Qed.

Lemma sort_agents_perm l : sort_agents l ≡ₚ l.
Proof.
  unfold sort_agents. induction l as [|x l IH]; [done|]. simpl.
  by rewrite sort_insert_perm, IH.
Qed.

Lemma sort_agents_keys l : Forall key32 l → Forall key32 (sort_agents l).
Proof. intros H. by rewrite sort_agents_perm. Qed.

(** Sorting forgets the order of entries with distinct keys. *)
Lemma sort_agents_canonical l1 l2 :
  l1 ≡ₚ l2 → Forall key32 l1 → NoDup l1.*1 → sort_agents l1 = sort_agents l2.
Proof.
  unfold sort_agents.
  induction 1 as [|x l1 l2 _ IH|x y l|l1 l2 l3 P12 IH1 _ IH2]; intros K N.
  - done.
  - inversion K; subst. simpl in N. apply NoDup_cons in N as [_ N]. simpl. by rewrite IH.
  - simpl in *. inversion K as [|? ? Kx K']; inversion K' as [|? ? Ky Kl]; subst.
    rewrite NoDup_cons in N. destruct N as [N _].
    apply sort_insert_comm; [done..|by apply sort_agents_keys|].
    set_solver.
  - rewrite IH1 by done. apply IH2; by rewrite <- P12.
Qed.

(** The bytes hashed for an agent set. *)
Definition agentSetEncoding (decoded : list (list Z * Z)) : list Z :=
  le_bytes 4 (Z.of_nat (length decoded)) ++ concat (map (λ e, e.1 ++ [wrap 8 e.2]) decoded).

Lemma decode_agent_keys agents decoded :
  mapM decode_agent agents = Ok decoded → Forall key32 decoded.
Proof.
  intros H%mapM_Ok_iff. induction H as [|a e l k Ha]; constructor; auto.
  unfold decode_agent in Ha. inv_ok. by eapply base58Decode32_length.
Qed.

Lemma length_agent_entries decoded :
  Forall key32 decoded →
  Forall (λ l, length l = 33%nat) (map (λ e : list Z * Z, e.1 ++ [wrap 8 e.2]) decoded).
Proof. induction 1 as [|e l He]; constructor; auto. rewrite length_app, He. done. Qed.

Lemma agentSetBuffer_eq agents :
  agentSetBuffer agents =
  (decoded ← mapM decode_agent agents; Ok (agentSetEncoding (sort_agents decoded))).
Proof.
  unfold agentSetBuffer. destruct (mapM decode_agent agents) as [decoded|] eqn:Hd; [|done].
  apply decode_agent_keys, sort_agents_keys in Hd. cbn [mbind result_bind].
  set (ds := sort_agents decoded) in *.
  change (new_Uint8Array (4 + length ds * 33)) with (at_buf [] (4 + length ds * 33)).
  match goal with |- context [setUint ?n ?b 0%nat ?v] =>
    change (setUint n b 0%nat v) with (buf_set b (length (@nil Z)) (le_bytes n v)) end.
  rewrite buf_set_at by (rewrite length_le_bytes; lia).
  cbn [mbind result_bind app]. rewrite length_le_bytes.
  replace (4 + length ds * 33 - 4)%nat with (length ds * 33)%nat by lia.
  set (pre := le_bytes 4 _).
  match goal with |- context [for_each ?f ds (?b, 4%nat)] =>
    change (for_each f ds (b, 4%nat)) with (for_each f ds (at_buf pre (length ds * 33), length pre)) end.
  rewrite (writes_for_each _ (λ e, e.1 ++ [wrap 8 e.2])).
  - cbn [mbind result_bind]. rewrite (length_concat_const 33), length_map
      by by apply length_agent_entries.
    by rewrite at_buf_full by lia.
  - intros e He. rewrite list.Forall_forall in Hd. specialize (Hd _ He).
    apply (writes_bind (λ '(buf, off), writeBytes buf off e.1 32)
                       (λ '(buf, off), storeByte buf off e.2)).
    + by apply writes_bytes.
    + apply writes_store.
  - rewrite (length_concat_const 33), length_map by by apply length_agent_entries. done.
Qed.

Lemma mapM_perm {E A B} (f : A → result E B) l1 l2 k1 :
  l1 ≡ₚ l2 → mapM f l1 = Ok k1 → ∃ k2, mapM f l2 = Ok k2 ∧ k1 ≡ₚ k2.
Proof.
  intros P. revert k1.
  induction P as [|x l1 l2 _ IH|x y l|l1 l2 l3 _ IH1 _ IH2]; intros k1 H.
  - simpl in *. inv_ok. eauto.
  - simpl in *. inv_ok. destruct (IH _ E1) as (k2 & -> & Hk). rewrite E0. simpl. eauto.
  - simpl in *. inv_ok. rewrite E2, E0, E3. simpl. eexists. split; [done|]. apply perm_swap.
  - destruct (IH1 _ H) as (k2 & H2 & P2). destruct (IH2 _ H2) as (k3 & H3 & P3).
    exists k3. split; [done|]. by trans k2.
Qed.

Lemma decode_agents_NoDup agents decoded :
  mapM decode_agent agents = Ok decoded → NoDup (ag_pubkey <$> agents) → NoDup decoded.*1.
Proof.
  intros H%mapM_Ok_iff. induction H as [|a e l k Ha Hlk IH]; intros N; simpl in *; [constructor|].
  apply NoDup_cons in N as [Hn N]. apply NoDup_cons. split; [|auto].
  intros Hin. apply Hn. unfold decode_agent in Ha. inv_ok. simpl in Hin.
  clear IH N Hn. induction Hlk as [|a' e' l k Ha' _ IH]; simpl in *; [set_solver|].
  unfold decode_agent in Ha'. inv_ok. simpl in Hin.
  apply elem_of_cons in Hin as [->|Hin]; [|set_solver].
  rewrite (base58Decode32_inj (ag_pubkey a) (ag_pubkey a') x0) by done. set_solver.
Qed.

(** The agent set hash does not depend on the order in which the agents
    are listed: any reordering of agents with distinct public keys hashes to
    the same 32 bytes. *)
Theorem agent_set_hash_order_free sha256 agents1 agents2 h :
  agents1 ≡ₚ agents2 → NoDup (ag_pubkey <$> agents1) →
  computeAgentSetHash sha256 agents1 = Ok h → computeAgentSetHash sha256 agents2 = Ok h.
Proof.
  unfold computeAgentSetHash. rewrite !agentSetBuffer_eq. intros P N H.
  destruct (mapM decode_agent agents1) as [d1|] eqn:E; [|done]. simpl in H. injection H as <-.
  destruct (mapM_perm _ _ _ _ P E) as (d2 & -> & Pd). simpl.
  by rewrite (sort_agents_canonical d1 d2) by eauto using decode_agent_keys, decode_agents_NoDup.
Qed.

Definition demo_agents : list AgentEntry :=
  [ {| ag_pubkey := "EPjFWdd5AufqSSqeM2qN1xzybapC8G4wEGGkZwyTDt1v"; ag_capability := 2 |};
    {| ag_pubkey := "JUP6LkbZbjS1jKKwapdHNy74zcZ3tLUZoi5QNyVTaV4"; ag_capability := 1 |} ].

Lemma agent_set_hash_order_free_witness :
  ∃ h, computeAgentSetHash checksum32 demo_agents = Ok h ∧
       computeAgentSetHash checksum32 (reverse demo_agents) = Ok h.
Proof.
  eexists. split; [vm_compute; reflexivity|].
  apply (agent_set_hash_order_free checksum32 demo_agents);
    [by rewrite reverse_Permutation|by apply (bool_decide_unpack _); vm_compute
    |vm_compute; reflexivity].
Defined.

(** An agent as the hash sees it: its key and the low byte of its capability. *)
Definition agent_view (a : AgentEntry) : string * Z := (ag_pubkey a, wrap 8 (ag_capability a)).

Lemma decode_agents_view l1 l2 d1 d2 :
  mapM decode_agent l1 = Ok d1 → mapM decode_agent l2 = Ok d2 →
  d1 ≡ₚ d2 → agent_view <$> l1 ≡ₚ agent_view <$> l2.
Proof.
  intros H1 H2 P. symmetry in P.
  assert (∃ l2', l2 ≡ₚ l2' ∧ mapM decode_agent l2' = Ok d1) as (l2' & P' & H2').
  { rewrite mapM_Ok_iff in H2. apply Forall2_flip in H2.
    destruct (Permutation_Forall2 P H2) as (l2' & ? & ?).
    exists l2'. split; [done|]. apply mapM_Ok_iff. by apply Forall2_flip. }
  rewrite P'. apply reflexive_eq. clear -H1 H2'.
  rewrite mapM_Ok_iff in H1, H2'. revert l2' H2'.
  induction H1 as [|a e l1 d Ha _ IH]; intros l2' H2; inversion H2; subst; [done|].
  simpl. f_equal; [|auto]. unfold decode_agent in *. inv_ok.
  unfold agent_view, wrap. f_equal; [by eapply base58Decode32_inj|].
  rewrite <- !Z.land_ones by lia. done.
Qed.

Lemma agentSetEncoding_inj d1 d2 :
  Forall key32 d1 → Forall key32 d2 → js_array d1 → js_array d2 →
  Forall (λ e, byte_ok e.2) d1 → Forall (λ e, byte_ok e.2) d2 →
  agentSetEncoding d1 = agentSetEncoding d2 → d1 = d2.
Proof.
  unfold agentSetEncoding. intros K1 K2 J1 J2 B1 B2 H.
  apply app_inj_len in H as [Hl H]; [|by rewrite !length_le_bytes].
  apply le_len_inj in Hl; [|done..].
  apply (concat_inj_len 33) in H; eauto using length_agent_entries; [|by rewrite !length_map].
  revert d2 K2 B2 H Hl J1 J2. induction d1 as [|e1 d1 IH]; intros [|e2 d2] K2 B2 H Hl J1 J2; try done.
  inversion K1; inversion K2; inversion B1; inversion B2; subst. cbn [map] in H.
  injection H as He H. apply app_inj_len in He as [Hk Hc]; [|unfold key32 in *; congruence].
  injection Hc as Hc. unfold byte_ok in *. rewrite !wrap_fits in Hc by (unfold fits; simpl; lia).
  destruct e1, e2; simpl in *. unfold js_array in *. f_equal; [congruence|].
  apply IH; auto; simpl in *; lia.
Qed.

Lemma decode_agent_caps agents decoded :
  mapM decode_agent agents = Ok decoded → Forall (λ e, byte_ok e.2) decoded.
Proof.
  intros H%mapM_Ok_iff. induction H as [|a e l k Ha]; constructor; auto.
  unfold decode_agent in Ha. inv_ok. simpl. by apply byte_split.
Qed.

(** Equal agent set hashes come from the same set of (public key,
    capability byte) pairs, up to order, or exhibit a SHA-256 collision
    between the two encoded buffers. *)
Theorem agent_set_hash_binds sha256 agents1 agents2 h :
  js_array agents1 → js_array agents2 →
  computeAgentSetHash sha256 agents1 = Ok h → computeAgentSetHash sha256 agents2 = Ok h →
  agent_view <$> agents1 ≡ₚ agent_view <$> agents2 ∨
  ∃ b1 b2, agentSetBuffer agents1 = Ok b1 ∧ agentSetBuffer agents2 = Ok b2 ∧
    b1 ≠ b2 ∧ sha256 b1 = sha256 b2.
Proof.
  unfold computeAgentSetHash. rewrite !agentSetBuffer_eq. intros J1 J2 H1 H2.
  destruct (mapM decode_agent agents1) as [d1|] eqn:E1; [|done].
  destruct (mapM decode_agent agents2) as [d2|] eqn:E2; [|done].
  simpl in *. simplify_eq.
  destruct (decide (agentSetEncoding (sort_agents d1) = agentSetEncoding (sort_agents d2)))
    as [He|]; [left|right; naive_solver].
  eapply decode_agents_view; [done..|].
  rewrite <- (sort_agents_perm d1), <- (sort_agents_perm d2). apply reflexive_eq.
  unfold js_array in *.
  apply agentSetEncoding_inj; unfold js_array; rewrite ?sort_agents_perm;
    rewrite ?(mapM_Ok_length _ _ _ E1), ?(mapM_Ok_length _ _ _ E2);
    eauto using decode_agent_keys, decode_agent_caps.
Qed.

Lemma agent_set_hash_binds_witness :
  ∃ h, computeAgentSetHash checksum32 demo_agents = Ok h ∧
    (agent_view <$> demo_agents ≡ₚ agent_view <$> demo_agents ∨
     ∃ b1 b2, agentSetBuffer demo_agents = Ok b1 ∧ agentSetBuffer demo_agents = Ok b2 ∧
       b1 ≠ b2 ∧ checksum32 b1 = checksum32 b2).
Proof.
  eexists. split; [vm_compute; reflexivity|].
  eapply (agent_set_hash_binds checksum32 demo_agents demo_agents); vm_compute; reflexivity.
Defined.

(** [fields] with another daily cap. *)
Definition with_daily_cap (cap : Z) (f : PolicyPreviewFields) : PolicyPreviewFields := {|
  dailySpendingCapUsd := cap; maxTransactionSizeUsd := maxTransactionSizeUsd f;
  maxSlippageBps := maxSlippageBps f; developerFeeRate := developerFeeRate f;
  protocolMode := protocolMode f; protocols := protocols f;
  destinationMode := destinationMode f; allowedDestinations := allowedDestinations f;
  timelockDuration := timelockDuration f; sessionExpirySeconds := sessionExpirySeconds f;
  observeOnly := observeOnly f; hasPostAssertions := hasPostAssertions f;
  createdAtSlot := createdAtSlot f; operatingHours := operatingHours f;
  autoPromoteGrays := autoPromoteGrays f; autoRevokeThreshold := autoRevokeThreshold f;
  stableBalanceFloor := stableBalanceFloor f;
  perRecipientDailyCapUsd := perRecipientDailyCapUsd f; cosignRequired := cosignRequired f;
  agentSetHash := agentSetHash f; cosignSessionPubkey := cosignSessionPubkey f;
  operatorGrantDelaySeconds := operatorGrantDelaySeconds f;
  hasProtocolCaps := hasProtocolCaps f; protocolCaps := protocolCaps f;
  protocolHashes := protocolHashes f |}.

(** A cap outside the u64 range is not rejected: the digest of a policy
    whose daily cap is [cap + k * 2^64] (a negative cap included) is the
    digest of the policy with cap [cap], although the source's documentation
    says that the encoder throws. *)
Theorem policy_digest_cap_wraps sha256 f cap k :
  computePolicyPreviewDigest sha256 (with_daily_cap (cap + k * 2 ^ 64) f) =
  computePolicyPreviewDigest sha256 (with_daily_cap cap f).
Proof.
  assert (He : ∀ p d a c,
    policyEncoding (with_daily_cap (cap + k * 2 ^ 64) f) p d a c =
    policyEncoding (with_daily_cap cap f) p d a c).
  { intros. unfold policyEncoding. f_equal. apply le_bytes_inj. unfold wrap.
    apply (Z.mod_add cap k (2 ^ 64)). lia. }
  unfold computePolicyPreviewDigest. rewrite !policyPreviewBuffer_eq. f_equal.
  unfold policyEncode. cbn [with_daily_cap protocols allowedDestinations agentSetHash
    cosignSessionPubkey protocolHashes].
  destruct (mapM _ (protocols f)); [|done]. destruct (mapM _ (allowedDestinations f)); [|done].
  destruct (cosign_session_bytes _); [|done]. cbn [mbind result_bind]. by rewrite He.
Qed.
