(* ===== verification/CosignDigest.v ===== *)
(** * The cosign digests ([sdk/kit/src/policy/compute-cosign-digest.ts],
    [sdk/kit/src/policy/compute-agent-perms-cosign-digest.ts])

    [computeCosignDigest] encodes ten fields, nine of them optional with a
    load-bearing tag byte; [computeAgentPermsCosignDigest] encodes five
    fixed-width fields.  The theorems: both encoders compute their canonical
    concatenation (the size checks never fire), and the encodings determine
    every field, so that "absent" and "present with value 0" never share one. *)

From Stdlib Require String.
From S2P Require Import Prelude CanonicalEncode.

Local Open Scope Z_scope.

(** An optional field of a TypeScript object: absent, [null], or a value. *)
Inductive nullish (A : Type) : Type :=
| Undefined
| Null
| Val (a : A).
Arguments Undefined {_}.
Arguments Null {_}.
Arguments Val {_} _.

(** [x === undefined ? null : x], with [null] as [None]. *)
Definition normalise {A} (x : nullish A) : option A :=
  match x with Undefined | Null => None | Val a => Some a end.

Record CosignDigestFields : Type := {
  cosignSession : string;
  dailySpendingCapUsd : nullish Z;
  maxTransactionAmountUsd : nullish Z;
  allowedDestinations : nullish (list string);
  protocols : nullish (list string);
  stableBalanceFloor : nullish Z;
  perRecipientDailyCapUsd : nullish Z;
  hasProtocolCaps : nullish bool;
  protocolCaps : nullish (list Z);
  cosignRequired : nullish bool;
}.

(** The module's own copy of the base58 decoder. *)
Definition base58Decode (s : string) : result js_exn (list Z) := b58_decode "base58Decode" s.

(** [dests === null ? null : dests.map(base58Decode)] *)
Definition decode_opt (o : option (list string)) : result js_exn (option (list (list Z))) :=
  match o with
  | None => Ok None
  | Some ss => pks ← mapM base58Decode ss; Ok (Some pks)
  end.

(** The four shapes of optional payload, written the way each field's block
    does it: the tag byte, then the payload. *)
Definition write_opt {A} (w : A → list Z → nat → result js_exn cursor)
    (o : option A) (buf : list Z) (off : nat) : result js_exn cursor :=
  match o with
  | None => storeByte buf off 0
  | Some a => '(buf, off) ← storeByte buf off 1; w a buf off
  end.

Definition write_u64 (v : Z) (buf : list Z) (off : nat) := writeU64Le buf off v.
Definition write_flag (b : bool) (buf : list Z) (off : nat) := storeByte buf off (flag b).
Definition write_keys (pks : list (list Z)) (buf : list Z) (off : nat) : result js_exn cursor :=
  '(buf, off) ← writeU32Le buf off (Z.of_nat (length pks));
  for_each (λ pk '(buf, off), writeBytes buf off pk 32) pks (buf, off).
Definition write_u64s (vs : list Z) (buf : list Z) (off : nat) : result js_exn cursor :=
  '(buf, off) ← writeU32Le buf off (Z.of_nat (length vs));
  for_each (λ v '(buf, off), writeU64Le buf off v) vs (buf, off).

(** [cond !== null ? n : 0] *)
Definition opt_size {A} (size : A → nat) (o : option A) : nat :=
  match o with None => 0%nat | Some a => size a end.

Section fields.
Context (sessionBytes : list Z) (dailyCap maxTx : option Z)
  (destBytes protoBytes : option (list (list Z))) (stableFloor perRecipCap : option Z)
  (hasProtoCaps : option bool) (protoCaps : option (list Z)) (cosignReq : option bool).

Definition cosign_fixedSize : nat :=
  (32 + 1 + opt_size (λ _, 8) dailyCap + 1 + opt_size (λ _, 8) maxTx
   + 1 + opt_size (λ l, 4 + length l * 32) destBytes
   + 1 + opt_size (λ l, 4 + length l * 32) protoBytes
   + 1 + opt_size (λ _, 8) stableFloor + 1 + opt_size (λ _, 8) perRecipCap
   + 1 + opt_size (λ _, 1) hasProtoCaps
   + 1 + opt_size (λ l, 4 + length l * 8) protoCaps
   + 1 + opt_size (λ _, 1) cosignReq)%nat.

(** The ten write blocks. *)
Definition cosign_write : cursor → result js_exn cursor := λ '(buf, off),
  '(buf, off) ← writeBytes buf off sessionBytes 32;
  '(buf, off) ← write_opt write_u64 dailyCap buf off;
  '(buf, off) ← write_opt write_u64 maxTx buf off;
  '(buf, off) ← write_opt write_keys destBytes buf off;
  '(buf, off) ← write_opt write_keys protoBytes buf off;
  '(buf, off) ← write_opt write_u64 stableFloor buf off;
  '(buf, off) ← write_opt write_u64 perRecipCap buf off;
  '(buf, off) ← write_opt write_flag hasProtoCaps buf off;
  '(buf, off) ← write_opt write_u64s protoCaps buf off;
  write_opt write_flag cosignReq buf off.
End fields.

(** The body up to the hash. *)
Definition cosignBuffer (fields : CosignDigestFields) : result js_exn (list Z) :=
  sessionBytes ← base58Decode (cosignSession fields);
  let dailyCap := normalise (dailySpendingCapUsd fields) in
  let maxTx := normalise (maxTransactionAmountUsd fields) in
  let dests := normalise (allowedDestinations fields) in
  let protos := normalise (protocols fields) in
  let stableFloor := normalise (stableBalanceFloor fields) in
  let perRecipCap := normalise (perRecipientDailyCapUsd fields) in
  let hasProtoCaps := normalise (hasProtocolCaps fields) in
  let protoCaps := normalise (protocolCaps fields) in
  let cosignReq := normalise (cosignRequired fields) in
  destBytes ← decode_opt dests;
  protoBytes ← decode_opt protos;
  let fixedSize := cosign_fixedSize dailyCap maxTx destBytes protoBytes stableFloor
                     perRecipCap hasProtoCaps protoCaps cosignReq in
  '(buf, off) ← cosign_write sessionBytes dailyCap maxTx destBytes protoBytes stableFloor
                  perRecipCap hasProtoCaps protoCaps cosignReq (new_Uint8Array fixedSize, 0%nat);
  _ ← throw_if (negb (bool_decide (off = length buf)))
        (JsError "computeCosignDigest: encoded size mismatch");
  Ok buf.

Definition computeCosignDigest (sha256 : list Z → list Z) (fields : CosignDigestFields)
    : result js_exn (list Z) :=
  buf ← cosignBuffer fields; Ok (sha256 buf).

Definition cosignDigestsEqual (a b : list Z) : bool :=
  if bool_decide (length a = length b)
  then foldl (λ diff p, Z.lor diff (Z.lxor p.1 p.2)) 0 (zip a b) =? 0
  else false.

(** ** The agent-permissions digest *)

Definition AGENT_PERMS_COSIGN_DIGEST_SIZE : nat := 81.

Record AgentPermsCosignDigestFields : Type := {
  ap_cosignSession : string;
  ap_agent : string;
  ap_newCapability : Z;
  ap_spendingLimitUsd : Z;
  ap_cooldownSeconds : Z;
}.

Definition agentPermsBuffer (fields : AgentPermsCosignDigestFields) : result js_exn (list Z) :=
  let buf := new_Uint8Array AGENT_PERMS_COSIGN_DIGEST_SIZE in
  let off := 0%nat in
  session ← base58Decode32 (ap_cosignSession fields);
  '(buf, off) ← writeBytes buf off session 32;
  agent ← base58Decode32 (ap_agent fields);
  '(buf, off) ← writeBytes buf off agent 32;
  '(buf, off) ← storeByte buf off (Z.land (ap_newCapability fields) 255);
  '(buf, off) ← writeU64Le buf off (ap_spendingLimitUsd fields);
  '(buf, off) ← writeU64Le buf off (ap_cooldownSeconds fields);
  _ ← throw_if (negb (bool_decide (off = length buf)))
        (JsError "computeAgentPermsCosignDigest: encoded size mismatch");
  Ok buf.

Definition computeAgentPermsCosignDigest (sha256 : list Z → list Z)
    (fields : AgentPermsCosignDigestFields) : result js_exn (list Z) :=
  buf ← agentPermsBuffer fields; Ok (sha256 buf).

(** ** The encodings as concatenations *)

Definition enc_opt {A} (enc : A → list Z) (o : option A) : list Z :=
  match o with None => [0] | Some a => [1] ++ enc a end.

Definition enc_keys (pks : list (list Z)) : list Z :=
  le_bytes 4 (Z.of_nat (length pks)) ++ concat pks.
Definition enc_u64s (vs : list Z) : list Z :=
  le_bytes 4 (Z.of_nat (length vs)) ++ concat (map (le_bytes 8) vs).
Definition enc_flag (b : bool) : list Z := [wrap 8 (flag b)].

Lemma writes_opt {A} (w : A → list Z → nat → result js_exn cursor) enc o :
  (∀ a, o = Some a → writes (λ '(buf, off), w a buf off) (enc a)) →
  writes (λ '(buf, off), write_opt w o buf off) (enc_opt enc o).
Proof.
  intros Hw. destruct o as [a|]; simpl.
  - apply (writes_then (λ buf off, storeByte buf off 1) (λ '(buf, off), w a buf off) [1]); auto.
    apply (writes_store 1).
  - apply (writes_store 0).
Qed.

Lemma writes_keys pks :
  Forall (λ pk, length pk = 32%nat) pks →
  writes (λ '(buf, off), write_keys pks buf off) (enc_keys pks).
Proof.
  intros Hp. unfold write_keys. eapply writes_then; [apply writes_U32|].
  apply (writes_eta (for_each _ pks)).
  rewrite <- (map_id pks) at 2. apply (writes_for_each _ id). intros pk Hpk.
  apply writes_bytes. rewrite Forall_forall in Hp. by apply Hp.
Qed.

Lemma writes_u64s vs : writes (λ '(buf, off), write_u64s vs buf off) (enc_u64s vs).
Proof.
  unfold write_u64s. eapply writes_then; [apply writes_U32|].
  apply (writes_eta (for_each _ vs)).
  apply writes_for_each. intros. apply writes_U64.
Qed.

Definition cosignEncoding (session : list Z) (dailyCap maxTx : option Z)
    (dests protos : option (list (list Z))) (stableFloor perRecipCap : option Z)
    (hasCaps : option bool) (caps : option (list Z)) (cosignReq : option bool) : list Z :=
  session ++ enc_opt (le_bytes 8) dailyCap ++ enc_opt (le_bytes 8) maxTx ++
  enc_opt enc_keys dests ++ enc_opt enc_keys protos ++
  enc_opt (le_bytes 8) stableFloor ++ enc_opt (le_bytes 8) perRecipCap ++
  enc_opt enc_flag hasCaps ++ enc_opt enc_u64s caps ++ enc_opt enc_flag cosignReq.

Definition keys32 (o : option (list (list Z))) : Prop :=
  ∀ pks, o = Some pks → Forall (λ pk, length pk = 32%nat) pks.

Lemma writes_opt_u64 o :
  writes (λ '(buf, off), write_opt write_u64 o buf off) (enc_opt (le_bytes 8) o).
Proof. apply writes_opt. intros a _. apply writes_U64. Qed.

Lemma writes_opt_flag o :
  writes (λ '(buf, off), write_opt write_flag o buf off) (enc_opt enc_flag o).
Proof. apply writes_opt. intros a _. apply writes_store. Qed.

Lemma writes_opt_keys o : keys32 o →
  writes (λ '(buf, off), write_opt write_keys o buf off) (enc_opt enc_keys o).
Proof. intros H. apply writes_opt. intros a ->. apply writes_keys. by apply H. Qed.

Lemma writes_opt_u64s o :
  writes (λ '(buf, off), write_opt write_u64s o buf off) (enc_opt enc_u64s o).
Proof. apply writes_opt. intros a _. apply writes_u64s. Qed.

Lemma writes_cosign session dailyCap maxTx dests protos floor recip hasCaps caps req :
  length session = 32%nat → keys32 dests → keys32 protos →
  writes (cosign_write session dailyCap maxTx dests protos floor recip hasCaps caps req)
         (cosignEncoding session dailyCap maxTx dests protos floor recip hasCaps caps req).
Proof.
  intros Hs Hd Hp. unfold cosign_write, cosignEncoding.
  eapply writes_then; [by apply writes_bytes|].
  eapply writes_then; [apply writes_opt_u64|].
  eapply writes_then; [apply writes_opt_u64|].
  eapply writes_then; [by apply writes_opt_keys|].
  eapply writes_then; [by apply writes_opt_keys|].
  eapply writes_then; [apply writes_opt_u64|].
  eapply writes_then; [apply writes_opt_u64|].
  eapply writes_then; [apply writes_opt_flag|].
  eapply writes_then; [apply writes_opt_u64s|].
  apply writes_opt_flag.
Qed.

Lemma length_enc_opt {A} (enc : A → list Z) size o :
  (∀ a, o = Some a → length (enc a) = size a) →
  length (enc_opt enc o) = (1 + opt_size size o)%nat.
Proof. intros H. destruct o as [a|]; simpl; [|done]. by rewrite H. Qed.

Lemma length_enc_keys pks :
  Forall (λ pk, length pk = 32%nat) pks → length (enc_keys pks) = (4 + length pks * 32)%nat.
Proof.
  intros H. unfold enc_keys.
  by rewrite length_app, length_le_bytes, (length_concat_const 32) by done.
Qed.

Lemma length_enc_u64s vs : length (enc_u64s vs) = (4 + length vs * 8)%nat.
Proof. unfold enc_u64s. by rewrite length_app, length_le_bytes, length_concat_le8. Qed.

Lemma length_cosignEncoding session dailyCap maxTx dests protos floor recip hasCaps caps req :
  length session = 32%nat → keys32 dests → keys32 protos →
  length (cosignEncoding session dailyCap maxTx dests protos floor recip hasCaps caps req) =
  cosign_fixedSize dailyCap maxTx dests protos floor recip hasCaps caps req.
Proof.
  intros Hs Hd Hp. unfold cosignEncoding. rewrite !length_app, Hs.
  rewrite !(length_enc_opt (le_bytes 8) (λ _, 8%nat)) by (intros; apply length_le_bytes).
  rewrite !(length_enc_opt enc_keys (λ l, 4 + length l * 32)%nat)
    by (intros; apply length_enc_keys; eauto).
  rewrite !(length_enc_opt enc_flag (λ _, 1%nat)) by done.
  rewrite (length_enc_opt enc_u64s (λ l, 4 + length l * 8)%nat) by (intros; apply length_enc_u64s).
  unfold cosign_fixedSize. lia.
Qed.

Lemma decode_opt_keys o r : decode_opt o = Ok r → keys32 r.
Proof.
  unfold decode_opt, keys32. destruct o; intros H; inv_ok; intros ? [= <-] || intros ? [=].
  by eapply mapM_b58_lengths.
Qed.

(** The declarative encoder. *)
Definition cosignEncode (f : CosignDigestFields) : result js_exn (list Z) :=
  session ← base58Decode (cosignSession f);
  dests ← decode_opt (normalise (allowedDestinations f));
  protos ← decode_opt (normalise (protocols f));
  Ok (cosignEncoding session (normalise (dailySpendingCapUsd f))
        (normalise (maxTransactionAmountUsd f)) dests protos
        (normalise (stableBalanceFloor f)) (normalise (perRecipientDailyCapUsd f))
        (normalise (hasProtocolCaps f)) (normalise (protocolCaps f))
        (normalise (cosignRequired f))).

Lemma cosignBuffer_eq f : cosignBuffer f = cosignEncode f.
Proof.
  unfold cosignBuffer, cosignEncode, base58Decode.
  destruct (b58_decode _ (cosignSession f)) as [session|] eqn:Hs; [|done].
  destruct (decode_opt (normalise (allowedDestinations f))) as [dests|] eqn:Hd; [|done].
  destruct (decode_opt (normalise (protocols f))) as [protos|] eqn:Hp; [|done].
  apply b58_decode_length in Hs. apply decode_opt_keys in Hd, Hp.
  cbn [mbind result_bind].
  erewrite writes_all by (eauto using writes_cosign, length_cosignEncoding).
  cbn [mbind result_bind]. rewrite bool_decide_true; [done|].
  symmetry. by apply length_cosignEncoding.
Qed.

(** ** What the cosign digest binds *)

Lemma reads_flag : reads (λ _, True) enc_flag id.
Proof.
  intros a b x y _ _ H. apply app_inj_len in H as [H ->]; [|done].
  split; [by apply wrap8_flag_inj|done].
Qed.

Lemma reads_keys :
  reads (λ pks, Forall (λ pk, length pk = 32%nat) pks ∧ js_array pks) enc_keys (map id).
Proof.
  intros a b x y Ha Hb H. unfold enc_keys in H. rewrite <- (map_id a), <- (map_id b) in H.
  rewrite !length_map in H. by apply (reads_vec _ id id (reads_block 32)).
Qed.

Lemma reads_u64s : reads js_array enc_u64s (map (wrap 64)).
Proof.
  intros a b x y Ja Jb H. apply (reads_vec _ (le_bytes 8) (wrap 64) reads_u64); auto;
    split; auto using Forall_true.
Qed.

Lemma reads_opt {A B} (P : A → Prop) enc (norm : A → B) :
  reads P enc norm →
  reads (λ o, ∀ a, o = Some a → P a) (enc_opt enc) (fmap (M := option) norm).
Proof.
  intros He [a|] [b|] x y Ha Hb H; simpl in *; simplify_eq; auto.
  destruct (He a b x y) as [-> ->]; auto.
Qed.

Lemma fmap_id_inj {A} (x y : option A) : id <$> x = id <$> y → x = y.
Proof. by rewrite !option_fmap_id. Qed.

Lemma fmap_map_id_inj {A} (x y : option (list A)) : map id <$> x = map id <$> y → x = y.
Proof. destruct x, y; simpl; rewrite ?map_id; congruence. Qed.

Definition renullish {A} (o : option A) : nullish A :=
  match o with None => Null | Some a => Val a end.

Lemma renullish_inj {A} (x y : option A) : x = y → renullish x = renullish y.
Proof. by intros ->. Qed.

(** The fields as the encoder reads them: absent and [null] are the same, and
    every integer is kept at its width. *)
Definition canonicalCosign (f : CosignDigestFields) : CosignDigestFields := {|
  cosignSession := cosignSession f;
  dailySpendingCapUsd := renullish (wrap 64 <$> normalise (dailySpendingCapUsd f));
  maxTransactionAmountUsd := renullish (wrap 64 <$> normalise (maxTransactionAmountUsd f));
  allowedDestinations := renullish (normalise (allowedDestinations f));
  protocols := renullish (normalise (protocols f));
  stableBalanceFloor := renullish (wrap 64 <$> normalise (stableBalanceFloor f));
  perRecipientDailyCapUsd := renullish (wrap 64 <$> normalise (perRecipientDailyCapUsd f));
  hasProtocolCaps := renullish (normalise (hasProtocolCaps f));
  protocolCaps := renullish (map (wrap 64) <$> normalise (protocolCaps f));
  cosignRequired := renullish (normalise (cosignRequired f));
|}.

Definition opt_array {A} (x : nullish (list A)) : Prop :=
  ∀ l, normalise x = Some l → js_array l.

Definition cosign_arrays (f : CosignDigestFields) : Prop :=
  opt_array (allowedDestinations f) ∧ opt_array (protocols f) ∧ opt_array (protocolCaps f).

Lemma decode_opt_inj o1 o2 r : decode_opt o1 = Ok r → decode_opt o2 = Ok r → o1 = o2.
Proof.
  destruct o1 as [ss|], o2 as [ts|]; simpl; intros H1 H2; inv_ok; try done.
  f_equal. by eapply mapM_b58_inj.
Qed.

Lemma decode_opt_array x r :
  opt_array x → decode_opt (normalise x) = Ok r → ∀ pks, r = Some pks →
  Forall (λ pk, length pk = 32%nat) pks ∧ js_array pks.
Proof.
  intros Jx H pks ->. split; [by eapply decode_opt_keys|].
  destruct (normalise x) as [ss|] eqn:E; simpl in H; [|done]. inv_ok.
  unfold js_array. rewrite (mapM_Ok_length _ _ _ E0). by apply Jx.
Qed.

Lemma cosignEncode_inj f1 f2 b :
  cosign_arrays f1 → cosign_arrays f2 →
  cosignEncode f1 = Ok b → cosignEncode f2 = Ok b → canonicalCosign f1 = canonicalCosign f2.
Proof.
  intros (Jd1 & Jp1 & Jc1) (Jd2 & Jp2 & Jc2) H1 H2. unfold cosignEncode in H1, H2. inv_ok.
  match goal with Heq : cosignEncoding _ _ _ _ _ _ _ _ _ _ = _ |- _ => rename Heq into H end.
  unfold cosignEncoding in H.
  apply app_inj_len in H as [Hs H]; [|by erewrite !b58_decode_length by done].
  apply (reads_opt _ _ _ reads_u64) in H as [R1 H]; [|done..].
  apply (reads_opt _ _ _ reads_u64) in H as [R2 H]; [|done..].
  apply (reads_opt _ _ _ reads_keys) in H as [R3 H]; [|by eauto using decode_opt_array..].
  apply (reads_opt _ _ _ reads_keys) in H as [R4 H]; [|by eauto using decode_opt_array..].
  apply (reads_opt _ _ _ reads_u64) in H as [R5 H]; [|done..].
  apply (reads_opt _ _ _ reads_u64) in H as [R6 H]; [|done..].
  apply (reads_opt _ _ _ reads_flag) in H as [R7 H]; [|done..].
  apply (reads_opt _ _ _ reads_u64s) in H as [R8 H]; [|by eauto..].
  rewrite <- (app_nil_r (enc_opt _ (normalise (cosignRequired f1)))),
    <- (app_nil_r (enc_opt _ (normalise (cosignRequired f2)))) in H.
  apply (reads_opt _ _ _ reads_flag) in H as [R9 _]; [|done..].
  apply fmap_map_id_inj in R3, R4. apply fmap_id_inj in R7, R9. subst.
  unfold canonicalCosign. rewrite R1, R2, R5, R6, R7, R8, R9. f_equal.
  - by eapply b58_decode_inj.
  - apply renullish_inj. by eapply decode_opt_inj.
  - apply renullish_inj. by eapply decode_opt_inj.
Qed.

(** The cosign digest is the SHA-256 of the canonical concatenation of the
    ten fields: the sized-buffer encoder computes exactly [cosignEncode] and
    its size check never fires. *)
Theorem cosign_digest_is_encoding sha256 f :
  computeCosignDigest sha256 f = (b ← cosignEncode f; Ok (sha256 b)).
Proof. unfold computeCosignDigest. by rewrite cosignBuffer_eq. Qed.

(** Equal cosign digests come from field sets that agree on the session,
    on which of the nine optional fields are present (an absent field and a
    present zero are never confused) and on every present value at its width,
    or the two encoded buffers are an explicit SHA-256 collision. *)
Theorem cosign_digest_binds sha256 f1 f2 d :
  cosign_arrays f1 → cosign_arrays f2 →
  computeCosignDigest sha256 f1 = Ok d → computeCosignDigest sha256 f2 = Ok d →
  canonicalCosign f1 = canonicalCosign f2 ∨
  ∃ b1 b2, cosignBuffer f1 = Ok b1 ∧ cosignBuffer f2 = Ok b2 ∧
    b1 ≠ b2 ∧ sha256 b1 = sha256 b2.
Proof.
  unfold computeCosignDigest. intros J1 J2 H1 H2. inv_ok.
  match goal with
  | E1 : cosignBuffer f1 = Ok ?x, E2 : cosignBuffer f2 = Ok ?y |- _ =>
      destruct (decide (x = y)) as [->|]; [left|right; naive_solver]
  end.
  rewrite cosignBuffer_eq in *. by eapply cosignEncode_inj.
Qed.

Definition demo_cosign : CosignDigestFields := {|
  cosignSession := "EPjFWdd5AufqSSqeM2qN1xzybapC8G4wEGGkZwyTDt1v";
  dailySpendingCapUsd := Val 0; maxTransactionAmountUsd := Undefined;
  allowedDestinations := Val []; protocols := Null; stableBalanceFloor := Undefined;
  perRecipientDailyCapUsd := Undefined; hasProtocolCaps := Val false;
  protocolCaps := Val [5; 0]; cosignRequired := Undefined |}.

Lemma cosign_digest_binds_witness :
  ∃ d, computeCosignDigest (λ bs, le_bytes 32 (sumZ bs)) demo_cosign = Ok d ∧
    (canonicalCosign demo_cosign = canonicalCosign demo_cosign ∨
     ∃ b1 b2, cosignBuffer demo_cosign = Ok b1 ∧ cosignBuffer demo_cosign = Ok b2 ∧
       b1 ≠ b2 ∧ le_bytes 32 (sumZ b1) = le_bytes 32 (sumZ b2)).
Proof.
  eexists. split; [vm_compute; reflexivity|].
  eapply (cosign_digest_binds (λ bs, le_bytes 32 (sumZ bs)) demo_cosign demo_cosign);
    [split_and!; intros l Hl; simpl in Hl; simplify_eq; vm_compute; reflexivity..
    |vm_compute; reflexivity|vm_compute; reflexivity].
Defined.

(** ** The agent-permissions digest *)

Definition agentPermsEncoding (f : AgentPermsCosignDigestFields) (session agent : list Z)
    : list Z :=
  session ++ agent ++ [wrap 8 (Z.land (ap_newCapability f) 255)] ++
  le_bytes 8 (ap_spendingLimitUsd f) ++ le_bytes 8 (ap_cooldownSeconds f).

Lemma agentPermsBuffer_eq f :
  agentPermsBuffer f =
  (session ← base58Decode32 (ap_cosignSession f);
   agent ← base58Decode32 (ap_agent f); Ok (agentPermsEncoding f session agent)).
Proof.
  unfold agentPermsBuffer, AGENT_PERMS_COSIGN_DIGEST_SIZE.
  destruct (base58Decode32 (ap_cosignSession f)) as [session|] eqn:Hs; [|done].
  apply base58Decode32_length in Hs. cbn [mbind result_bind]. enc_start. enc_step.
  destruct (base58Decode32 (ap_agent f)) as [agent|] eqn:Ha; [|done].
  apply base58Decode32_length in Ha. cbn [mbind result_bind]. do 4 enc_step.
  rewrite at_buf_full by lia. rewrite bool_decide_true by done.
  cbn [negb throw_if mbind result_bind]. unfold agentPermsEncoding.
  by rewrite <- !app_assoc.
Qed.

(** The fields the agent-permissions digest keeps, at their widths. *)
Definition agentPermsView (f : AgentPermsCosignDigestFields) : string * string * Z * Z * Z :=
  (ap_cosignSession f, ap_agent f, wrap 8 (ap_newCapability f),
   wrap 64 (ap_spendingLimitUsd f), wrap 64 (ap_cooldownSeconds f)).

Lemma wrap8_land z : wrap 8 (Z.land z 255) = wrap 8 z.
Proof.
  change 255 with (Z.ones 8). rewrite Z.land_ones by lia. apply wrap_wrap. lia.
Qed.

Lemma agentPermsEncoding_inj f1 f2 s1 s2 a1 a2 :
  base58Decode32 (ap_cosignSession f1) = Ok s1 → base58Decode32 (ap_agent f1) = Ok a1 →
  base58Decode32 (ap_cosignSession f2) = Ok s2 → base58Decode32 (ap_agent f2) = Ok a2 →
  agentPermsEncoding f1 s1 a1 = agentPermsEncoding f2 s2 a2 →
  agentPermsView f1 = agentPermsView f2.
Proof.
  intros Hs1 Ha1 Hs2 Ha2 H. unfold agentPermsEncoding in H.
  pose proof (base58Decode32_length _ _ Hs1). pose proof (base58Decode32_length _ _ Hs2).
  pose proof (base58Decode32_length _ _ Ha1). pose proof (base58Decode32_length _ _ Ha2).
  enc_split H. subst. apply le8_inj in H.
  repeat match goal with
  | H : le_bytes 8 _ = le_bytes 8 _ |- _ => apply le8_inj in H
  | H : [wrap 8 _] = [wrap 8 _] |- _ => apply wrap8_inj in H; rewrite !wrap8_land in H
  end.
  unfold agentPermsView. rewrite (base58Decode32_inj _ _ _ Hs1 Hs2),
    (base58Decode32_inj _ _ _ Ha1 Ha2). congruence.
Qed.

(** An agent-permissions cosign digest is produced exactly when both public
    keys decode, it is the hash of the 81-byte concatenation, and equal digests
    bind the same session, agent, capability byte, limit and cooldown, up to an
    explicit SHA-256 collision; in particular a digest queued for one agent
    does not serve another. *)
Theorem agent_perms_digest_binds sha256 f1 f2 d :
  computeAgentPermsCosignDigest sha256 f1 = Ok d →
  computeAgentPermsCosignDigest sha256 f2 = Ok d →
  agentPermsView f1 = agentPermsView f2 ∨
  ∃ b1 b2, agentPermsBuffer f1 = Ok b1 ∧ agentPermsBuffer f2 = Ok b2 ∧
    length b1 = 81%nat ∧ length b2 = 81%nat ∧ b1 ≠ b2 ∧ sha256 b1 = sha256 b2.
Proof.
  unfold computeAgentPermsCosignDigest. rewrite !agentPermsBuffer_eq. intros H1 H2.
  destruct (base58Decode32 (ap_cosignSession f1)) as [s1|] eqn:Hs1; [|done].
  destruct (base58Decode32 (ap_agent f1)) as [a1|] eqn:Ha1; [|done].
  destruct (base58Decode32 (ap_cosignSession f2)) as [s2|] eqn:Hs2; [|done].
  destruct (base58Decode32 (ap_agent f2)) as [a2|] eqn:Ha2; [|done].
  cbn [mbind result_bind] in *. simplify_eq.
  destruct (decide (agentPermsEncoding f1 s1 a1 = agentPermsEncoding f2 s2 a2));
    [left; eauto using agentPermsEncoding_inj|right].
  do 2 eexists. split_and!; [done..| | |done|congruence]; unfold agentPermsEncoding;
    rewrite !length_app, !length_le_bytes; simpl;
    by erewrite !base58Decode32_length by done.
Qed.

Definition demo_perms : AgentPermsCosignDigestFields := {|
  ap_cosignSession := "EPjFWdd5AufqSSqeM2qN1xzybapC8G4wEGGkZwyTDt1v";
  ap_agent := "JUP6LkbZbjS1jKKwapdHNy74zcZ3tLUZoi5QNyVTaV4";
  ap_newCapability := 2; ap_spendingLimitUsd := 100000000; ap_cooldownSeconds := 0 |}.

Lemma agent_perms_digest_binds_witness :
  ∃ d, computeAgentPermsCosignDigest (λ bs, le_bytes 32 (sumZ bs)) demo_perms = Ok d ∧
    (agentPermsView demo_perms = agentPermsView demo_perms ∨
     ∃ b1 b2, agentPermsBuffer demo_perms = Ok b1 ∧ agentPermsBuffer demo_perms = Ok b2 ∧
       length b1 = 81%nat ∧ length b2 = 81%nat ∧ b1 ≠ b2 ∧
       le_bytes 32 (sumZ b1) = le_bytes 32 (sumZ b2)).
Proof.
  eexists. split; [vm_compute; reflexivity|].
  eapply (agent_perms_digest_binds (λ bs, le_bytes 32 (sumZ bs)) demo_perms demo_perms);
    vm_compute; reflexivity.
Defined.

(** Both digest comparisons, the shared one and the cosign module's own,
    are equality of byte strings, without any early exit on a mismatch. *)
Theorem digest_comparisons_are_equality a b :
  bytes_ok a → bytes_ok b →
  (digestsEqual a b = true ↔ a = b) ∧ (cosignDigestsEqual a b = true ↔ a = b).
Proof.
  intros Ha Hb. split; [by apply digestsEqual_spec|].
  rewrite <- (digestsEqual_spec a b) by done. unfold digestsEqual, cosignDigestsEqual.
  case_bool_decide as Hl; [|done]. rewrite !Z.eqb_eq, !foldl_lor_zero.
  assert (Forall (λ p : Z * Z, Z.lxor p.1 p.2 = 0) (zip a b) ↔
          Forall (λ p, Z.land (Z.lxor p.1 p.2) 255 = 0) (zip a b)) as ->; [|done].
  clear Hl. revert b Hb. induction Ha as [|x a Hx Ha IH]; intros [|y b] Hb; simpl; try done.
  inversion Hb; subst. rewrite !Forall_cons, IH by done. simpl.
  by rewrite byte_xor_zero, Z.lxor_eq_0_iff by done.
Qed.

Lemma digest_comparisons_witness :
  bytes_ok [1; 2] ∧ ((digestsEqual [1; 2] [1; 3] = true ↔ [1; 2] = [1; 3]) ∧
    (cosignDigestsEqual [1; 2] [1; 3] = true ↔ [1; 2] = [1; 3])).
Proof.
  assert (bytes_ok [1; 2]) by (repeat constructor; lia).
  split; [done|]. apply (digest_comparisons_are_equality [1; 2] [1; 3]); [done|].
  repeat constructor; lia.
Defined.
