(* ===== verification/IntentDigest.v ===== *)
(** * The intent digests ([sdk/kit/src/seal/intent-digest.ts])

    [computeSealInputDigest] hashes the call an owner approves -- vault, agent,
    mint, amount, protocol, network and the full instruction list;
    [computeScalarIntentDigest] hashes the scalar part.  The theorems: both
    encoders compute their canonical concatenation and never reach their size
    check; equal digests bind the same network, keys, amount (modulo 2^64),
    protocol and -- instruction by instruction, account by account, in order --
    the same instructions. *)

From Stdlib Require String.
From S2P Require Import Prelude CanonicalEncode.

Local Open Scope Z_scope.

Definition INVALID_AMOUNT : js_exn := SdkDomainError "SIGIL_ERROR__SDK__INVALID_AMOUNT".
Definition INVALID_NETWORK : js_exn := SdkDomainError "SIGIL_ERROR__SDK__INVALID_NETWORK".
Definition INVALID_PARAMS : js_exn := SdkDomainError "SIGIL_ERROR__SDK__INVALID_PARAMS".

Definition NETWORK_ID_DEVNET : Z := 0.
Definition NETWORK_ID_MAINNET : Z := 1.

(** The value a caller puts in [acc.role]: missing, a number, something else. *)
Inductive role_arg : Type :=
| RoleMissing
| RoleNumber (n : Z)
| RoleOther.

(** An absent address is the empty string: both are falsy. *)
Record AccountMeta : Type := { acc_address : string; acc_role : role_arg }.

Record Ix : Type := {
  ix_programAddress : string;
  ix_accounts : option (list AccountMeta);
  ix_data : option (list Z);
}.

Record SealIntentInput : Type := {
  si_vault : string;
  si_agent : string;
  si_tokenMint : string;
  si_amount : Z;
  si_targetProtocol : option string;
  si_network : string;
  si_instructions : list Ix;
}.

Definition SYSTEM_PROGRAM_ZEROS : list Z := new_Uint8Array 32.
Definition INTENT_DIGEST_MAGIC : list Z := [83; 73; 71; 49].
Definition INTENT_VERSION_V2 : Z := 2.

Record DecodedIx : Type := {
  d_programAddress : list Z;
  d_accounts : list (list Z * Z);
  d_data : list Z;
}.

Definition network_id (network : string) : Z :=
  if bool_decide (network = "mainnet") then NETWORK_ID_MAINNET
  else if bool_decide (network = "devnet") then NETWORK_ID_DEVNET
  else -1.

Definition falsy (s : string) : bool := bool_decide (s = EmptyString).

Definition decode_account (acc : AccountMeta) : result js_exn (list Z * Z) :=
  _ ← throw_if (falsy (acc_address acc)) INVALID_PARAMS;
  match acc_role acc with
  | RoleMissing => Throw INVALID_PARAMS
  | RoleOther => Throw INVALID_PARAMS
  | RoleNumber role =>
      _ ← throw_if ((role <? 0) || (3 <? role)) INVALID_PARAMS;
      address ← base58Decode32 (acc_address acc);
      Ok (address, role)
  end.

Definition decode_ix (ix : Ix) : result js_exn DecodedIx :=
  _ ← throw_if (falsy (ix_programAddress ix)) INVALID_PARAMS;
  programAddress ← base58Decode32 (ix_programAddress ix);
  accounts ← mapM decode_account (default [] (ix_accounts ix));
  let data := default [] (ix_data ix) in
  Ok {| d_programAddress := programAddress; d_accounts := accounts; d_data := data |}.

Definition decode_target (t : option string) : result js_exn (list Z) :=
  match t with
  | None => Ok SYSTEM_PROGRAM_ZEROS
  | Some s => base58Decode32 s
  end.

Definition ix_size (ix : DecodedIx) : nat :=
  (32 + 4 + length (d_accounts ix) * 33 + 4 + length (d_data ix))%nat.

Definition write_account (acc : list Z * Z) : cursor → result js_exn cursor := λ '(buf, off),
  '(buf, off) ← writeBytes buf off acc.1 32;
  writeU8 buf off acc.2.

Definition write_ix (ix : DecodedIx) : cursor → result js_exn cursor := λ '(buf, off),
  '(buf, off) ← writeBytes buf off (d_programAddress ix) 32;
  '(buf, off) ← writeU32Le buf off (Z.of_nat (length (d_accounts ix)));
  '(buf, off) ← for_each write_account (d_accounts ix) (buf, off);
  '(buf, off) ← writeU32Le buf off (Z.of_nat (length (d_data ix)));
  writeBytes buf off (d_data ix) (length (d_data ix)).

(** The scalar header the two digests share. *)
Definition write_scalar (networkId : Z) (vault agent mint : list Z) (amount : Z)
    (target : list Z) : cursor → result js_exn cursor := λ '(buf, off),
  '(buf, off) ← writeBytes buf off INTENT_DIGEST_MAGIC 4;
  '(buf, off) ← writeU8 buf off INTENT_VERSION_V2;
  '(buf, off) ← writeU8 buf off networkId;
  '(buf, off) ← writeBytes buf off vault 32;
  '(buf, off) ← writeBytes buf off agent 32;
  '(buf, off) ← writeBytes buf off mint 32;
  '(buf, off) ← writeU64Le buf off amount;
  writeBytes buf off target 32.

Definition sealInputBuffer (input : SealIntentInput) : result js_exn (list Z) :=
  _ ← throw_if (si_amount input <? 0) INVALID_AMOUNT;
  let networkId := network_id (si_network input) in
  _ ← throw_if (networkId <? 0) INVALID_NETWORK;
  vaultBytes ← base58Decode32 (si_vault input);
  agentBytes ← base58Decode32 (si_agent input);
  tokenMintBytes ← base58Decode32 (si_tokenMint input);
  targetProtocolBytes ← decode_target (si_targetProtocol input);
  decodedIxs ← mapM decode_ix (si_instructions input);
  let FIXED := (4 + 1 + 1 + 32 + 32 + 32 + 8 + 32 + 4)%nat in
  let ixsBytes := foldl (λ n ix, (n + ix_size ix)%nat) 0%nat decodedIxs in
  '(buf, off) ← write_scalar networkId vaultBytes agentBytes tokenMintBytes (si_amount input)
                  targetProtocolBytes (new_Uint8Array (FIXED + ixsBytes), 0%nat);
  '(buf, off) ← writeU32Le buf off (Z.of_nat (length decodedIxs));
  '(buf, off) ← for_each write_ix decodedIxs (buf, off);
  _ ← throw_if (negb (bool_decide (off = length buf))) INVALID_PARAMS;
  Ok buf.

Definition computeSealInputDigest (sha256 : list Z → list Z) (input : SealIntentInput)
    : result js_exn (list Z) :=
  buf ← sealInputBuffer input; Ok (sha256 buf).

Record ScalarIntentInput : Type := {
  sc_vault : string;
  sc_agent : string;
  sc_tokenMint : string;
  sc_amount : Z;
  sc_targetProtocol : option string;
  sc_network : string;
}.

Definition scalarIntentBuffer (input : ScalarIntentInput) : result js_exn (list Z) :=
  _ ← throw_if (sc_amount input <? 0) INVALID_AMOUNT;
  let networkId := network_id (sc_network input) in
  _ ← throw_if (networkId <? 0) INVALID_NETWORK;
  vaultBytes ← base58Decode32 (sc_vault input);
  agentBytes ← base58Decode32 (sc_agent input);
  tokenMintBytes ← base58Decode32 (sc_tokenMint input);
  targetProtocolBytes ← decode_target (sc_targetProtocol input);
  '(buf, off) ← write_scalar networkId vaultBytes agentBytes tokenMintBytes (sc_amount input)
                  targetProtocolBytes (new_Uint8Array 142, 0%nat);
  _ ← throw_if (negb (bool_decide (off = 142%nat))) INVALID_PARAMS;
  Ok buf.

Definition computeScalarIntentDigest (sha256 : list Z → list Z) (input : ScalarIntentInput)
    : result js_exn (list Z) :=
  buf ← scalarIntentBuffer input; Ok (sha256 buf).

(** ** The encodings as concatenations *)

Definition enc_account (acc : list Z * Z) : list Z := acc.1 ++ [wrap 8 acc.2].

Definition enc_ix (ix : DecodedIx) : list Z :=
  d_programAddress ix ++
  le_bytes 4 (Z.of_nat (length (d_accounts ix))) ++ concat (map enc_account (d_accounts ix)) ++
  le_bytes 4 (Z.of_nat (length (d_data ix))) ++ d_data ix.

Definition enc_scalar (networkId : Z) (vault agent mint : list Z) (amount : Z)
    (target : list Z) : list Z :=
  INTENT_DIGEST_MAGIC ++ [wrap 8 INTENT_VERSION_V2] ++ [wrap 8 networkId] ++
  vault ++ agent ++ mint ++ le_bytes 8 amount ++ target.

(** A decoded instruction with keys of 32 bytes. *)
Definition ix_ok (ix : DecodedIx) : Prop :=
  length (d_programAddress ix) = 32%nat ∧
  Forall (λ a : list Z * Z, length a.1 = 32%nat ∧ 0 ≤ a.2 ≤ 3) (d_accounts ix).

Lemma writes_account acc :
  length acc.1 = 32%nat → writes (write_account acc) (enc_account acc).
Proof.
  intros H. unfold write_account, enc_account.
  eapply writes_then; [by apply writes_bytes|apply writes_U8].
Qed.

Lemma writes_ix ix : ix_ok ix → writes (write_ix ix) (enc_ix ix).
Proof.
  intros [Hp Ha]. unfold write_ix, enc_ix.
  eapply writes_then; [by apply writes_bytes|].
  eapply writes_then; [apply writes_U32|].
  eapply writes_then.
  { apply (writes_eta (for_each write_account (d_accounts ix))).
    apply writes_for_each. intros a Hin. rewrite Forall_forall in Ha.
    apply writes_account, Ha, Hin. }
  eapply writes_then; [apply writes_U32|by apply writes_bytes].
Qed.

Lemma writes_scalar n v a m amt t :
  length v = 32%nat → length a = 32%nat → length m = 32%nat → length t = 32%nat →
  writes (write_scalar n v a m amt t) (enc_scalar n v a m amt t).
Proof.
  intros Hv Ha Hm Ht. unfold write_scalar, enc_scalar.
  eapply writes_then; [by apply writes_bytes|].
  eapply writes_then; [apply writes_U8|].
  eapply writes_then; [apply writes_U8|].
  eapply writes_then; [by apply writes_bytes|].
  eapply writes_then; [by apply writes_bytes|].
  eapply writes_then; [by apply writes_bytes|].
  eapply writes_then; [apply writes_U64|by apply writes_bytes].
Qed.

Lemma decode_account_Ok acc r :
  decode_account acc = Ok r →
  base58Decode32 (acc_address acc) = Ok r.1 ∧ acc_role acc = RoleNumber r.2 ∧ 0 ≤ r.2 ≤ 3.
Proof.
  unfold decode_account. intros H. inv_ok. destruct (acc_role acc) eqn:Hr; try done. inv_ok.
  simpl. split_and!; try done; lia.
Qed.

Lemma decode_ix_Ok ix d :
  decode_ix ix = Ok d →
  base58Decode32 (ix_programAddress ix) = Ok (d_programAddress d) ∧
  mapM decode_account (default [] (ix_accounts ix)) = Ok (d_accounts d) ∧
  d_data d = default [] (ix_data ix).
Proof. unfold decode_ix. intros H. by inv_ok. Qed.

Lemma decode_ixs_ok ixs ds : mapM decode_ix ixs = Ok ds → Forall ix_ok ds.
Proof.
  intros H%mapM_Ok_iff. induction H as [|ix d ixs ds Hd _ IH]; constructor; [|done].
  apply decode_ix_Ok in Hd as (Hp & Ha & _). split; [by eapply base58Decode32_length|].
  apply mapM_Ok_iff in Ha. induction Ha as [|a r l k Hr _ IH']; constructor; [|done].
  apply decode_account_Ok in Hr as (Hr & _ & ?). split; [by eapply base58Decode32_length|done].
Qed.

Lemma decode_target_length t bs : decode_target t = Ok bs → length bs = 32%nat.
Proof. destruct t; simpl; [apply base58Decode32_length|by intros [= <-]]. Qed.

Lemma length_enc_ix ix : ix_ok ix → length (enc_ix ix) = ix_size ix.
Proof.
  intros [Hp Ha]. unfold enc_ix, ix_size.
  rewrite !length_app, !length_le_bytes, Hp, (length_concat_const 33), length_map; [lia|].
  induction Ha as [|a l [H _]]; constructor; [|done]. unfold enc_account.
  by rewrite length_app, H.
Qed.

Lemma length_enc_ixs ds n :
  Forall ix_ok ds →
  foldl (λ n ix, (n + ix_size ix)%nat) n ds = (n + length (concat (map enc_ix ds)))%nat.
Proof.
  intros H; revert n. induction H as [|d ds Hd _ IH]; intros n; simpl; [lia|].
  rewrite IH, length_app, length_enc_ix by done. lia.
Qed.

Lemma length_enc_scalar n v a m amt t :
  length v = 32%nat → length a = 32%nat → length m = 32%nat → length t = 32%nat →
  length (enc_scalar n v a m amt t) = 142%nat.
Proof.
  intros Hv Ha Hm Ht. unfold enc_scalar.
  by rewrite !length_app, length_le_bytes, Hv, Ha, Hm, Ht.
Qed.

(** The declarative encoders. *)
Definition scalarIntentEncode (i : ScalarIntentInput) : result js_exn (list Z) :=
  _ ← throw_if (sc_amount i <? 0) INVALID_AMOUNT;
  _ ← throw_if (network_id (sc_network i) <? 0) INVALID_NETWORK;
  v ← base58Decode32 (sc_vault i);
  a ← base58Decode32 (sc_agent i);
  m ← base58Decode32 (sc_tokenMint i);
  t ← decode_target (sc_targetProtocol i);
  Ok (enc_scalar (network_id (sc_network i)) v a m (sc_amount i) t).

Definition sealInputEncode (i : SealIntentInput) : result js_exn (list Z) :=
  _ ← throw_if (si_amount i <? 0) INVALID_AMOUNT;
  _ ← throw_if (network_id (si_network i) <? 0) INVALID_NETWORK;
  v ← base58Decode32 (si_vault i);
  a ← base58Decode32 (si_agent i);
  m ← base58Decode32 (si_tokenMint i);
  t ← decode_target (si_targetProtocol i);
  ixs ← mapM decode_ix (si_instructions i);
  Ok (enc_scalar (network_id (si_network i)) v a m (si_amount i) t ++
      le_bytes 4 (Z.of_nat (length ixs)) ++ concat (map enc_ix ixs)).

Ltac decode_step :=
  match goal with
  | |- context [throw_if ?c _ ≫= _] => destruct c; [done|]; cbn [throw_if mbind result_bind]
  | |- context [base58Decode32 ?s ≫= _] =>
      let H := fresh "L" in
      destruct (base58Decode32 s) eqn:H; [|done]; apply base58Decode32_length in H;
      cbn [mbind result_bind]
  | |- context [decode_target ?s ≫= _] =>
      let H := fresh "L" in
      destruct (decode_target s) eqn:H; [|done]; apply decode_target_length in H;
      cbn [mbind result_bind]
  | |- context [mapM decode_ix ?s ≫= _] =>
      let H := fresh "L" in
      destruct (mapM decode_ix s) eqn:H; [|done]; apply decode_ixs_ok in H;
      cbn [mbind result_bind]
  end.

Lemma scalarIntentBuffer_eq i : scalarIntentBuffer i = scalarIntentEncode i.
Proof.
  unfold scalarIntentBuffer, scalarIntentEncode. repeat decode_step.
  erewrite writes_all by eauto using writes_scalar, length_enc_scalar. done.
Qed.

Lemma sealInputBuffer_eq i : sealInputBuffer i = sealInputEncode i.
Proof.
  unfold sealInputBuffer, sealInputEncode. repeat decode_step.
  rewrite length_enc_ixs by done. set (body := concat _).
  match goal with |- context [new_Uint8Array ?n] =>
    change (new_Uint8Array n, 0%nat) with (at_buf [] n, length (@nil Z)) end.
  rewrite writes_scalar by (try done; rewrite length_enc_scalar by done; lia).
  rewrite length_enc_scalar by done. cbn [mbind result_bind app].
  rewrite writeU32Le_at by lia. cbn [mbind result_bind].
  rewrite (writes_for_each write_ix enc_ix); cycle 1.
  { intros x Hx. apply writes_ix. rewrite Forall_forall in L3. by apply L3. }
  { fold body. lia. }
  fold body. cbn [mbind result_bind].
  rewrite at_buf_full by lia. rewrite bool_decide_true by done.
  cbn [negb throw_if mbind result_bind]. by rewrite <- app_assoc.
Qed.

(** ** What the digests bind *)

Lemma reads_account :
  reads (λ a : list Z * Z, length a.1 = 32%nat ∧ 0 ≤ a.2 ≤ 3) enc_account id.
Proof.
  intros [p r] [q s] x y [Hp Hr] [Hq Hs] H; unfold enc_account in H; simpl in *.
  rewrite <- !app_assoc in H. apply app_inj_len in H as [-> H]; [|congruence].
  injection H as H ->. rewrite !wrap_fits in H by (unfold fits; lia). by subst.
Qed.

(** An instruction whose vectors fit their u32 length prefixes. *)
Definition ix_sized (ix : DecodedIx) : Prop :=
  ix_ok ix ∧ js_array (d_accounts ix) ∧ js_array (d_data ix).

Lemma reads_ix : reads ix_sized enc_ix id.
Proof.
  intros [p a d] [p' a' d'] x y ((Hp & Ha) & Ja & Jd) ((Hp' & Ha') & Ja' & Jd') H.
  unfold enc_ix in H; cbn [d_programAddress d_accounts d_data] in *.
  rewrite <- !app_assoc in H. apply app_inj_len in H as [-> H]; [|congruence].
  rewrite (app_assoc (le_bytes 4 (Z.of_nat (length a)))),
    (app_assoc (le_bytes 4 (Z.of_nat (length a')))) in H.
  apply (reads_vec _ _ _ reads_account) in H as [Hacc H]; [|done..].
  rewrite !map_id in Hacc. rewrite !app_assoc in H.
  apply reads_bytes in H as [Hd ->]; [|done..]. unfold id in *. by subst.
Qed.

(** The intent a caller describes: defaults applied, amount at its width. *)
Definition ixView (ix : Ix) : string * list AccountMeta * list Z :=
  (ix_programAddress ix, default [] (ix_accounts ix), default [] (ix_data ix)).

Definition SYSTEM_PROGRAM_ADDRESS : string := "11111111111111111111111111111111".

Definition scalarView (i : ScalarIntentInput) : string * string * string * string * Z * string :=
  (sc_network i, sc_vault i, sc_agent i, sc_tokenMint i, wrap 64 (sc_amount i),
   default SYSTEM_PROGRAM_ADDRESS (sc_targetProtocol i)).

Definition sealScalars (i : SealIntentInput) : ScalarIntentInput := {|
  sc_vault := si_vault i; sc_agent := si_agent i; sc_tokenMint := si_tokenMint i;
  sc_amount := si_amount i; sc_targetProtocol := si_targetProtocol i;
  sc_network := si_network i |}.

Definition sealView (i : SealIntentInput) :=
  (scalarView (sealScalars i), map ixView (si_instructions i)).

Lemma network_id_inj n m :
  (network_id n <? 0) = false → (network_id m <? 0) = false →
  wrap 8 (network_id n) = wrap 8 (network_id m) → n = m.
Proof. unfold network_id. repeat case_bool_decide; subst; done. Qed.

Lemma decode_target_default t :
  decode_target t = base58Decode32 (default SYSTEM_PROGRAM_ADDRESS t).
Proof. destruct t; [done|]. vm_compute. reflexivity. Qed.

Lemma enc_scalar_inj n1 n2 v1 v2 a1 a2 m1 m2 x1 x2 t1 t2 r1 r2 :
  length v1 = 32%nat → length v2 = 32%nat → length a1 = 32%nat → length a2 = 32%nat →
  length m1 = 32%nat → length m2 = 32%nat → length t1 = 32%nat → length t2 = 32%nat →
  enc_scalar n1 v1 a1 m1 x1 t1 ++ r1 = enc_scalar n2 v2 a2 m2 x2 t2 ++ r2 →
  wrap 8 n1 = wrap 8 n2 ∧ v1 = v2 ∧ a1 = a2 ∧ m1 = m2 ∧ wrap 64 x1 = wrap 64 x2 ∧
  t1 = t2 ∧ r1 = r2.
Proof.
  intros. unfold enc_scalar in *. repeat rewrite <- app_assoc in *.
  match goal with H : _ ++ _ = _ ++ _ |- _ => enc_split H end.
  split_and!; auto using le8_inj. by apply wrap8_inj.
Qed.

(** The decoded scalar part determines the described scalar part. *)
Lemma scalarIntentEncode_inj i1 i2 b1 b2 r1 r2 :
  scalarIntentEncode i1 = Ok b1 → scalarIntentEncode i2 = Ok b2 →
  b1 ++ r1 = b2 ++ r2 → scalarView i1 = scalarView i2 ∧ r1 = r2.
Proof.
  unfold scalarIntentEncode. rewrite !decode_target_default. intros H1 H2 H. inv_ok.
  apply enc_scalar_inj in H as (Hn & -> & -> & -> & Hx & -> & ->);
    [|by eapply base58Decode32_length..].
  split; [|done]. apply network_id_inj in Hn; [|done..]. unfold scalarView.
  rewrite Hn, Hx.
  repeat match goal with
  | A : base58Decode32 ?s = Ok ?z, B : base58Decode32 ?t = Ok ?z |- _ =>
      rewrite (base58Decode32_inj s t z A B); clear A B
  end. done.
Qed.

Lemma sealInputEncode_split i :
  sealInputEncode i =
  (s ← scalarIntentEncode (sealScalars i); ixs ← mapM decode_ix (si_instructions i);
   Ok (s ++ le_bytes 4 (Z.of_nat (length ixs)) ++ concat (map enc_ix ixs))).
Proof. unfold sealInputEncode, scalarIntentEncode. simpl. by repeat decode_step. Qed.

Lemma decode_account_inj a b r : decode_account a = Ok r → decode_account b = Ok r → a = b.
Proof.
  intros (Ha & Hr & _)%decode_account_Ok (Hb & Hs & _)%decode_account_Ok.
  destruct a, b; simpl in *. f_equal; [by eapply base58Decode32_inj|congruence].
Qed.

Lemma decode_ix_inj ix1 ix2 d :
  decode_ix ix1 = Ok d → decode_ix ix2 = Ok d → ixView ix1 = ixView ix2.
Proof.
  intros (Hp & Ha & Hd)%decode_ix_Ok (Hp' & Ha' & Hd')%decode_ix_Ok. unfold ixView.
  rewrite (base58Decode32_inj _ _ _ Hp Hp'), <- Hd, <- Hd'.
  by rewrite (mapM_Ok_inj decode_account _ _ _ decode_account_inj Ha Ha').
Qed.

(** The JavaScript arrays of an intent. *)
Definition seal_arrays (i : SealIntentInput) : Prop :=
  js_array (si_instructions i) ∧
  Forall (λ ix, js_array (default [] (ix_accounts ix)) ∧ js_array (default [] (ix_data ix)))
    (si_instructions i).

Lemma decode_ixs_sized ixs ds :
  Forall (λ ix, js_array (default [] (ix_accounts ix)) ∧ js_array (default [] (ix_data ix))) ixs →
  mapM decode_ix ixs = Ok ds → Forall ix_sized ds.
Proof.
  intros Hj H. pose proof (decode_ixs_ok _ _ H) as Hok. apply mapM_Ok_iff in H.
  induction H as [|ix d ixs ds Hd _ IH]; constructor; inversion Hj; inversion Hok; subst; auto.
  apply decode_ix_Ok in Hd as (_ & Ha & Hd). destruct H1 as [J1 J2].
  split_and!; [done| |by rewrite Hd]. unfold js_array.
  by rewrite (mapM_Ok_length _ _ _ Ha).
Qed.

Lemma decode_ixs_inj l1 l2 ds :
  mapM decode_ix l1 = Ok ds → mapM decode_ix l2 = Ok ds → map ixView l1 = map ixView l2.
Proof.
  intros H1%mapM_Ok_iff H2%mapM_Ok_iff. revert l2 H2.
  induction H1 as [|x z l1 k Hx _ IH]; intros l2 H2; inversion H2; subst; [done|].
  simpl. f_equal; [by eapply decode_ix_inj|auto].
Qed.

Lemma sealInputEncode_inj i1 i2 b :
  seal_arrays i1 → seal_arrays i2 →
  sealInputEncode i1 = Ok b → sealInputEncode i2 = Ok b → sealView i1 = sealView i2.
Proof.
  intros [J1 K1] [J2 K2]. rewrite !sealInputEncode_split. intros H1 H2. inv_ok.
  match goal with H : _ ++ _ = _ ++ _ |- _ => rename H into HH end.
  destruct (scalarIntentEncode_inj _ _ _ _ _ _ E1 E HH) as [Hv HH']. clear HH.
  destruct (reads_vec _ _ _ reads_ix x2 x0 [] []) as [Hm _];
    [split; [eapply decode_ixs_sized; [|eassumption]; done|unfold js_array; by erewrite mapM_Ok_length by eassumption]..
    |rewrite !app_nil_r; exact HH'|].
  rewrite !map_id in Hm. subst. unfold sealView. f_equal; [done|]. by eapply decode_ixs_inj.
Qed.

(** ** Properties *)

(** The seal-input digest and the scalar digest are the SHA-256 of their
    canonical concatenations, byte for byte, on every input: the same inputs
    are rejected with the same error, and the final size check never fires. *)
Theorem intent_digests_are_encodings sha256 i j :
  computeSealInputDigest sha256 i = (b ← sealInputEncode i; Ok (sha256 b)) ∧
  computeScalarIntentDigest sha256 j = (b ← scalarIntentEncode j; Ok (sha256 b)).
Proof.
  unfold computeSealInputDigest, computeScalarIntentDigest.
  by rewrite sealInputBuffer_eq, scalarIntentBuffer_eq.
Qed.

(** Equal seal-input digests describe the same call: same network, vault,
    agent, mint, amount (modulo 2^64), target protocol (an omitted one is the
    system program) and the same instruction list -- program, every account
    with its role, data, all in order -- unless the two encoded buffers are an
    explicit SHA-256 collision. *)
Theorem seal_digest_binds sha256 i1 i2 d :
  seal_arrays i1 → seal_arrays i2 →
  computeSealInputDigest sha256 i1 = Ok d → computeSealInputDigest sha256 i2 = Ok d →
  sealView i1 = sealView i2 ∨
  ∃ b1 b2, sealInputBuffer i1 = Ok b1 ∧ sealInputBuffer i2 = Ok b2 ∧
    b1 ≠ b2 ∧ sha256 b1 = sha256 b2.
Proof.
  unfold computeSealInputDigest. intros J1 J2 H1 H2. inv_ok.
  match goal with
  | E1 : sealInputBuffer i1 = Ok ?x, E2 : sealInputBuffer i2 = Ok ?y |- _ =>
      destruct (decide (x = y)) as [->|]; [left|right; naive_solver]
  end.
  rewrite sealInputBuffer_eq in *. by eapply sealInputEncode_inj.
Qed.

(** Equal scalar intent digests bind the same network, vault, agent, mint,
    amount (modulo 2^64) and target protocol, or exhibit a collision. *)
Theorem scalar_digest_binds sha256 i1 i2 d :
  computeScalarIntentDigest sha256 i1 = Ok d → computeScalarIntentDigest sha256 i2 = Ok d →
  scalarView i1 = scalarView i2 ∨
  ∃ b1 b2, scalarIntentBuffer i1 = Ok b1 ∧ scalarIntentBuffer i2 = Ok b2 ∧
    b1 ≠ b2 ∧ sha256 b1 = sha256 b2.
Proof.
  unfold computeScalarIntentDigest. intros H1 H2. inv_ok.
  match goal with
  | E1 : scalarIntentBuffer i1 = Ok ?x, E2 : scalarIntentBuffer i2 = Ok ?y |- _ =>
      destruct (decide (x = y)) as [->|]; [left|right; naive_solver]
  end.
  rewrite scalarIntentBuffer_eq in *.
  by eapply (scalarIntentEncode_inj i1 i2 _ _ [] []).
Qed.

Definition demo_seal (amount : Z) : SealIntentInput := {|
  si_vault := "EPjFWdd5AufqSSqeM2qN1xzybapC8G4wEGGkZwyTDt1v";
  si_agent := "JUP6LkbZbjS1jKKwapdHNy74zcZ3tLUZoi5QNyVTaV4";
  si_tokenMint := "EPjFWdd5AufqSSqeM2qN1xzybapC8G4wEGGkZwyTDt1v";
  si_amount := amount; si_targetProtocol := None; si_network := "mainnet";
  si_instructions := [{|
    ix_programAddress := "JUP6LkbZbjS1jKKwapdHNy74zcZ3tLUZoi5QNyVTaV4";
    ix_accounts := Some [{| acc_address := SYSTEM_PROGRAM_ADDRESS; acc_role := RoleNumber 1 |}];
    ix_data := Some [3; 232; 3] |}] |}.

Definition demo_scalar (amount : Z) : ScalarIntentInput := sealScalars (demo_seal amount).

Lemma seal_digest_binds_witness :
  ∃ d, computeSealInputDigest (λ bs, le_bytes 32 (sumZ bs)) (demo_seal 5) = Ok d ∧
    (sealView (demo_seal 5) = sealView (demo_seal 5) ∨
     ∃ b1 b2, sealInputBuffer (demo_seal 5) = Ok b1 ∧ sealInputBuffer (demo_seal 5) = Ok b2 ∧
       b1 ≠ b2 ∧ le_bytes 32 (sumZ b1) = le_bytes 32 (sumZ b2)).
Proof.
  eexists. split; [vm_compute; reflexivity|].
  eapply (seal_digest_binds (λ bs, le_bytes 32 (sumZ bs)) (demo_seal 5) (demo_seal 5));
    [split; [vm_compute; reflexivity|repeat constructor; vm_compute; reflexivity]..
    |vm_compute; reflexivity|vm_compute; reflexivity].
Defined.

Lemma scalar_digest_binds_witness :
  ∃ d, computeScalarIntentDigest (λ bs, le_bytes 32 (sumZ bs)) (demo_scalar 5) = Ok d ∧
    (scalarView (demo_scalar 5) = scalarView (demo_scalar 5) ∨
     ∃ b1 b2, scalarIntentBuffer (demo_scalar 5) = Ok b1 ∧
       scalarIntentBuffer (demo_scalar 5) = Ok b2 ∧
       b1 ≠ b2 ∧ le_bytes 32 (sumZ b1) = le_bytes 32 (sumZ b2)).
Proof.
  eexists. split; [vm_compute; reflexivity|].
  eapply (scalar_digest_binds (λ bs, le_bytes 32 (sumZ bs)) (demo_scalar 5) (demo_scalar 5));
    vm_compute; reflexivity.
Defined.

(** A network other than "mainnet" and "devnet" -- "testnet" and "localnet"
    included -- is refused with INVALID_NETWORK; a negative amount with
    INVALID_AMOUNT. *)
Theorem intent_digest_rejects sha256 i :
  (si_amount i < 0 → computeSealInputDigest sha256 i = Throw INVALID_AMOUNT) ∧
  (0 ≤ si_amount i → si_network i ≠ "mainnet" → si_network i ≠ "devnet" →
   computeSealInputDigest sha256 i = Throw INVALID_NETWORK).
Proof.
  unfold computeSealInputDigest, sealInputBuffer, network_id. split.
  - intros H. by rewrite (proj2 (Z.ltb_lt _ _) H).
  - intros H H1 H2. rewrite (proj2 (Z.ltb_ge _ _) H), !bool_decide_false by done. done.
Qed.

Lemma intent_digest_rejects_witness :
  let i := {| si_vault := ""; si_agent := ""; si_tokenMint := ""; si_amount := 1;
              si_targetProtocol := None; si_network := "testnet"; si_instructions := [] |} in
  0 ≤ si_amount i ∧ computeSealInputDigest id i = Throw INVALID_NETWORK.
Proof.
  intros i. split; [vm_compute; discriminate|].
  apply (intent_digest_rejects id i); [vm_compute; discriminate|done|done].
Defined.
