(* ===== verification/PostAssertion.v ===== *)
(** * Post-assertion validation ([sdk/kit/src/dashboard/post-assertion-validation.ts])

    The client-side validator of post-execution assertions, and the check of
    the on-chain program it mirrors ([validate_entries] of
    [programs/sigil/src/state/post_assertions.rs]).

    The theorems: for entries that fit their wire types, the client accepts
    exactly what the program accepts, except that it also bounds the operator
    of the modes that ignore it; and a rejection names the first entry that
    fails and its first failing check. *)

From Stdlib Require String.
From S2P Require Import Prelude CanonicalEncode.

Local Open Scope Z_scope.

Definition MAX_POST_ASSERTION_ENTRIES : nat := 8.
Definition MAX_CONSTRAINT_VALUE_LEN : Z := 32.
Definition MAX_OPERATOR_VALUE : Z := 6.
Definition MAX_ASSERTION_MODE_VALUE : Z := 7.
Definition DELTA_MAX_VALUE_LEN : Z := 8.
Definition MAX_META_INDEX : Z := 63.
Definition MAX_MINTDELTACAP_SCOPE : Z := 1.
Definition PUBKEY_BYTES : nat := 32.
Definition ZERO_PUBKEY_BASE58 : string := "11111111111111111111111111111111".

(** A value of a numeric field: an integer, or anything that is not one (a
    fraction, [NaN], an infinity, a value that is no number). *)
Inductive js_number : Type := JInt (z : Z) | JNotInt.

Record PostAssertionEntry : Type := {
  targetAccount : option string;
  offset : js_number;
  valueLen : js_number;
  operator : js_number;
  expectedValue : list Z;
  assertionMode : js_number;
  auxValue : list Z;
  auxByte : js_number;
}.

Inductive PostAssertionValidationCode : Type :=
| entries_not_an_array
| entries_contain_null
| entry_count_out_of_range
| value_len_out_of_range
| expected_value_too_short
| operator_out_of_range
| assertion_mode_out_of_range
| offset_out_of_range
| delta_mode_value_len_too_large
| legacy_mode_aux_value_must_be_zero
| legacy_mode_aux_byte_must_be_zero
| mintdeltacap_scope_out_of_range
| mintdeltacap_zero_max_net_decrease
| mintdeltacap_mint_too_short
| ata_authority_pin_default_target
| ata_authority_pin_aux_must_be_zero
| output_balance_floor_default_target
| output_balance_floor_mint_too_short
| output_balance_floor_zero_min_increase
| output_balance_floor_aux_byte_must_be_zero
| declaration_default_recipient
| declaration_mint_too_short
| declaration_zero_mint
| declaration_meta_index_too_large
| declaration_aux_value_must_be_zero.

(** The code and the index of the offending entry, [None] for the batch. *)
Record PostAssertionValidationError : Type := {
  validationCode : PostAssertionValidationCode;
  entryIndex : option nat;
}.

Definition reject (code : PostAssertionValidationCode) (index : nat) : PostAssertionValidationError :=
  {| validationCode := code; entryIndex := Some index |}.

Definition isZeroPubkeyAddress (addr : option string) : bool :=
  match addr with
  | None => true
  | Some a => bool_decide (a = ZERO_PUBKEY_BASE58) || bool_decide (a = "")
  end.

(** The loop reads the first 32 bytes; a shorter array counts as zero. *)
Definition isZeroPubkeyBytes (bytes : list Z) : bool :=
  bool_decide (length bytes < PUBKEY_BYTES)%nat || forallb (Z.eqb 0) (take PUBKEY_BYTES bytes).

Definition isZeroAuxValue (aux : list Z) : bool :=
  bool_decide (length aux = 8%nat) && forallb (Z.eqb 0) (take 8 aux).

(** [v = (v << 8n) | BigInt(aux[i] & 0xff)] for [i] from 7 down to 0; a missing
    element is [undefined], whose [& 0xff] is 0. *)
Definition readAuxValueU64 (aux : list Z) : Z :=
  foldl (λ v i, Z.lor (Z.shiftl v 8) (Z.land (default 0 (aux !! i)) 255)) 0
    [7; 6; 5; 4; 3; 2; 1; 0]%nat.

(** Returns the integer it let through. *)
Definition requireUintInRange (value : js_number) (max : Z) (code : PostAssertionValidationCode)
    (index : nat) : result PostAssertionValidationError Z :=
  match value with
  | JInt z => _ ← throw_if ((z <? 0) || (max <? z)) (reject code index); Ok z
  | JNotInt => Throw (reject code index)
  end.

(** [value !== 0] *)
Definition nonzero (value : js_number) : bool :=
  match value with JInt z => negb (z =? 0) | JNotInt => true end.

(** Modes 4 to 7; [mode] is the checked [assertionMode]. *)
Definition validatePhase6Entry (entry : PostAssertionEntry) (mode : Z) (index : nat)
    : result PostAssertionValidationError unit :=
  let no_target := isZeroPubkeyAddress (targetAccount entry) in
  let short_mint := bool_decide (length (expectedValue entry) < PUBKEY_BYTES)%nat in
  aux ← requireUintInRange (auxByte entry) 255 assertion_mode_out_of_range index;
  if mode =? 4 then
    _ ← throw_if short_mint (reject mintdeltacap_mint_too_short index);
    _ ← throw_if (MAX_MINTDELTACAP_SCOPE <? aux) (reject mintdeltacap_scope_out_of_range index);
    throw_if (readAuxValueU64 (auxValue entry) =? 0) (reject mintdeltacap_zero_max_net_decrease index)
  else if mode =? 5 then
    _ ← throw_if no_target (reject ata_authority_pin_default_target index);
    _ ← throw_if (negb (isZeroAuxValue (auxValue entry))) (reject ata_authority_pin_aux_must_be_zero index);
    throw_if (nonzero (auxByte entry)) (reject ata_authority_pin_aux_must_be_zero index)
  else if mode =? 6 then
    _ ← throw_if no_target (reject output_balance_floor_default_target index);
    _ ← throw_if short_mint (reject output_balance_floor_mint_too_short index);
    _ ← throw_if (readAuxValueU64 (auxValue entry) =? 0)
          (reject output_balance_floor_zero_min_increase index);
    throw_if (nonzero (auxByte entry)) (reject output_balance_floor_aux_byte_must_be_zero index)
  else if mode =? 7 then
    _ ← throw_if no_target (reject declaration_default_recipient index);
    _ ← throw_if short_mint (reject declaration_mint_too_short index);
    _ ← throw_if (isZeroPubkeyBytes (expectedValue entry)) (reject declaration_zero_mint index);
    _ ← throw_if (MAX_META_INDEX <? aux) (reject declaration_meta_index_too_large index);
    throw_if (negb (isZeroAuxValue (auxValue entry))) (reject declaration_aux_value_must_be_zero index)
  else Throw (reject assertion_mode_out_of_range index).

Definition validateSingleEntry (entry : PostAssertionEntry) (index : nat)
    : result PostAssertionValidationError unit :=
  _ ← requireUintInRange (offset entry) 65535 offset_out_of_range index;
  _ ← requireUintInRange (operator entry) MAX_OPERATOR_VALUE operator_out_of_range index;
  mode ← requireUintInRange (assertionMode entry) MAX_ASSERTION_MODE_VALUE
           assertion_mode_out_of_range index;
  if 4 <=? mode then validatePhase6Entry entry mode index else
  len ← requireUintInRange (valueLen entry) MAX_CONSTRAINT_VALUE_LEN value_len_out_of_range index;
  _ ← throw_if (len =? 0) (reject value_len_out_of_range index);
  _ ← throw_if (Z.of_nat (length (expectedValue entry)) <? len) (reject expected_value_too_short index);
  _ ← throw_if ((1 <=? mode) && (mode <=? 3) && (DELTA_MAX_VALUE_LEN <? len))
        (reject delta_mode_value_len_too_large index);
  _ ← throw_if (negb (isZeroAuxValue (auxValue entry))) (reject legacy_mode_aux_value_must_be_zero index);
  throw_if (nonzero (auxByte entry)) (reject legacy_mode_aux_byte_must_be_zero index).

(** An element of the array: a hole, which [forEach] skips, [null] or
    [undefined], or an entry. *)
Inductive slot : Type := Hole | Null | Entry (e : PostAssertionEntry).

Inductive entries_arg : Type := NotAnArray | Entries (slots : list slot).

Definition validate_slot (index : nat) (s : slot) : result PostAssertionValidationError unit :=
  match s with
  | Hole => Ok tt
  | Null => Throw (reject entries_contain_null index)
  | Entry e => validateSingleEntry e index
  end.

Fixpoint validate_slots (index : nat) (slots : list slot) : result PostAssertionValidationError unit :=
  match slots with
  | [] => Ok tt
  | s :: slots => _ ← validate_slot index s; validate_slots (index + 1) slots
  end.

Definition validatePostAssertionEntries (entries : entries_arg)
    : result PostAssertionValidationError unit :=
  match entries with
  | NotAnArray => Throw {| validationCode := entries_not_an_array; entryIndex := None |}
  | Entries slots =>
      _ ← throw_if (bool_decide (length slots = 0%nat) ||
                    bool_decide (MAX_POST_ASSERTION_ENTRIES < length slots)%nat)
            {| validationCode := entry_count_out_of_range; entryIndex := None |};
      validate_slots 0 slots
  end.

(** ** The program's check *)

Inductive SigilError : Type := InvalidConstraintConfig | InvalidConstraintOperator.

(** The instruction-parameter form: byte arrays and machine integers. *)
Record ProgramEntry : Type := {
  target_account : list Z;
  pe_offset : Z;
  value_len : Z;
  pe_operator : Z;
  expected_value : list Z;
  assertion_mode : Z;
  aux_value : list Z;
  aux_byte : Z;
}.

(** [require!(c, e)] *)
Definition require (c : bool) (e : SigilError) : result SigilError unit := throw_if (negb c) e.

Definition DEFAULT_PUBKEY : list Z := replicate 32 0.

Definition program_validate_entry (e : ProgramEntry) : result SigilError unit :=
  _ ← require ((0 <=? assertion_mode e) && (assertion_mode e <=? 7)) InvalidConstraintConfig;
  let aux_zero := bool_decide (aux_value e = replicate 8 0) in
  let targeted := negb (bool_decide (target_account e = DEFAULT_PUBKEY)) in
  let has_mint := bool_decide (32 ≤ length (expected_value e))%nat in
  if assertion_mode e <? 4 then
    _ ← require ((0 <? value_len e) && (value_len e <=? 32)) InvalidConstraintConfig;
    _ ← require (value_len e <=? Z.of_nat (length (expected_value e))) InvalidConstraintConfig;
    _ ← require ((0 <=? pe_operator e) && (pe_operator e <=? 6)) InvalidConstraintOperator;
    _ ← (if (1 <=? assertion_mode e) && (assertion_mode e <=? 3)
         then require (value_len e <=? 8) InvalidConstraintConfig else Ok tt);
    _ ← require aux_zero InvalidConstraintConfig;
    require (aux_byte e =? 0) InvalidConstraintConfig
  else if assertion_mode e =? 4 then
    _ ← require has_mint InvalidConstraintConfig;
    _ ← require (aux_byte e <=? 1) InvalidConstraintConfig;
    require (0 <? le_value (aux_value e)) InvalidConstraintConfig
  else if assertion_mode e =? 5 then
    _ ← require targeted InvalidConstraintConfig;
    _ ← require aux_zero InvalidConstraintConfig;
    require (aux_byte e =? 0) InvalidConstraintConfig
  else if assertion_mode e =? 6 then
    _ ← require targeted InvalidConstraintConfig;
    _ ← require has_mint InvalidConstraintConfig;
    _ ← require (0 <? le_value (aux_value e)) InvalidConstraintConfig;
    require (aux_byte e =? 0) InvalidConstraintConfig
  else
    _ ← require targeted InvalidConstraintConfig;
    _ ← require has_mint InvalidConstraintConfig;
    _ ← require (negb (bool_decide (take 32 (expected_value e) = DEFAULT_PUBKEY)))
          InvalidConstraintConfig;
    _ ← require (aux_byte e <? 64) InvalidConstraintConfig;
    require aux_zero InvalidConstraintConfig.

Definition validate_entries (entries : list ProgramEntry) : result SigilError unit :=
  _ ← require (negb (bool_decide (length entries = 0%nat)) && bool_decide (length entries ≤ 8)%nat)
        InvalidConstraintConfig;
  _ ← mapM program_validate_entry entries;
  Ok tt.

(** ** The two validators agree *)

(** [e] and its instruction-parameter form: the numbers fit their machine
    types, the address decodes, and the byte arrays are the same. *)
Record on_wire (e : PostAssertionEntry) (r : ProgramEntry) : Prop := {
  ow_target : ∃ a, targetAccount e = Some a ∧ base58Decode32 a = Ok (target_account r);
  ow_offset : offset e = JInt (pe_offset r) ∧ fits 16 (pe_offset r);
  ow_valueLen : valueLen e = JInt (value_len r) ∧ fits 8 (value_len r);
  ow_operator : operator e = JInt (pe_operator r) ∧ fits 8 (pe_operator r);
  ow_mode : assertionMode e = JInt (assertion_mode r) ∧ fits 8 (assertion_mode r);
  ow_expected : expectedValue e = expected_value r ∧ bytes_ok (expected_value r);
  ow_aux : auxValue e = aux_value r ∧ length (aux_value r) = 8%nat ∧ bytes_ok (aux_value r);
  ow_auxByte : auxByte e = JInt (aux_byte r) ∧ fits 8 (aux_byte r);
}.

Lemma isZeroPubkeyAddress_wire a bs :
  base58Decode32 a = Ok bs → isZeroPubkeyAddress (Some a) = bool_decide (bs = DEFAULT_PUBKEY).
Proof.
  intros Ha. unfold isZeroPubkeyAddress.
  assert (a ≠ "") as Hne by by intros ->.
  rewrite (bool_decide_false (a = "")), orb_false_r by done. apply bool_decide_ext. split.
  - intros ->. unfold ZERO_PUBKEY_BASE58 in Ha. rewrite base58_system_program in Ha. by injection Ha as <-.
  - intros ->. eapply base58Decode32_inj; [done|]. exact base58_system_program.
Qed.

Lemma forallb_zero l : forallb (Z.eqb 0) l = bool_decide (l = replicate (length l) 0).
Proof.
  induction l as [|x l IH]; [done|]. cbn [forallb length replicate]. rewrite IH.
  destruct (Z.eqb_spec 0 x) as [<-|Hx]; simpl.
  - apply bool_decide_ext. split; [by intros <-|by intros [= <-]].
  - symmetry. apply bool_decide_false. intros [= Hx' _]. by subst.
Qed.

Lemma isZeroAuxValue_wire aux :
  length aux = 8%nat → isZeroAuxValue aux = bool_decide (aux = replicate 8 0).
Proof.
  intros Hl. unfold isZeroAuxValue. rewrite bool_decide_true by done.
  rewrite take_ge by lia. rewrite forallb_zero, Hl. done.
Qed.

Lemma isZeroPubkeyBytes_wire bs :
  (32 ≤ length bs)%nat → isZeroPubkeyBytes bs = bool_decide (take 32 bs = DEFAULT_PUBKEY).
Proof.
  intros Hl. unfold isZeroPubkeyBytes, PUBKEY_BYTES. rewrite bool_decide_false by lia. simpl orb.
  rewrite forallb_zero, length_take, Nat.min_l by lia. done.
Qed.

Lemma lor_shift_byte v b : byte_ok b → Z.lor (Z.shiftl v 8) (Z.land b 255) = b + 256 * v.
Proof.
  intros Hb. unfold byte_ok in Hb. change 255 with (Z.ones 8).
  pose proof (Z.add_lor_land (Z.shiftl v 8) (Z.land b (Z.ones 8))) as Hadd.
  assert (Z.land (Z.shiftl v 8) (Z.land b (Z.ones 8)) = 0) as H0.
  { rewrite (Z.land_comm b), Z.land_assoc, Z.land_ones, Z.shiftl_mul_pow2 by lia.
    rewrite Z.mod_mul by lia. apply Z.land_0_l. }
  rewrite H0, Z.add_0_r in Hadd. rewrite Hadd, Z.land_ones, Z.mod_small by lia.
  rewrite Z.shiftl_mul_pow2 by lia. lia.
Qed.

Lemma readAuxValueU64_wire aux :
  length aux = 8%nat → bytes_ok aux → readAuxValueU64 aux = le_value aux.
Proof.
  intros Hl Hb. do 8 (destruct aux as [|? aux]; [done|]). destruct aux; [|done].
  unfold bytes_ok in Hb. repeat (apply Forall_cons in Hb as [? Hb]).
  unfold readAuxValueU64. cbn -[Z.lor Z.shiftl Z.land Z.mul Z.add le_value].
  rewrite !lor_shift_byte by done. cbn [le_value]. lia.
Qed.

Lemma throw_if_Ok_iff {E} c (e : E) : throw_if c e = Ok tt ↔ c = false.
Proof. by destruct c. Qed.

Lemma require_Ok_iff c e : require c e = Ok tt ↔ c = true.
Proof. by destruct c. Qed.

Lemma bind_unit_Ok_iff {E} (m k : result E unit) : (_ ← m; k) = Ok tt ↔ m = Ok tt ∧ k = Ok tt.
Proof. destruct m as [[]|]; simpl; naive_solver. Qed.

Lemma requireUint_Ok_iff z max code i (k : Z → result PostAssertionValidationError unit) :
  (x ← requireUintInRange (JInt z) max code i; k x) = Ok tt ↔ (0 ≤ z ≤ max) ∧ k z = Ok tt.
Proof.
  simpl. destruct (Z.ltb_spec z 0), (Z.ltb_spec max z); simpl; split; intros H'; try done;
    try (destruct H'; lia); (split; [lia|done]) || apply H'.
Qed.

Lemma le_value_pos aux : bytes_ok aux → 0 ≤ le_value aux.
Proof. intros H%le_value_bounds. lia. Qed.

(** [test_consts] evaluates comparisons of literals; [accept_iff] turns both
    verdicts into arithmetic and decides their equivalence. *)
Ltac test_consts :=
  repeat match goal with
  | |- context [Z.ltb (Zpos ?a) (Zpos ?b)] =>
      let v := eval vm_compute in (Z.ltb (Zpos a) (Zpos b)) in change (Z.ltb (Zpos a) (Zpos b)) with v
  | |- context [Z.leb (Zpos ?a) (Zpos ?b)] =>
      let v := eval vm_compute in (Z.leb (Zpos a) (Zpos b)) in change (Z.leb (Zpos a) (Zpos b)) with v
  | |- context [Z.eqb (Zpos ?a) (Zpos ?b)] =>
      let v := eval vm_compute in (Z.eqb (Zpos a) (Zpos b)) in change (Z.eqb (Zpos a) (Zpos b)) with v
  | |- context [Z.leb 0 (Zpos ?b)] => change (Z.leb 0 (Zpos b)) with true
  | |- context [Z.leb (Zpos ?b) 0] => change (Z.leb (Zpos b) 0) with false
  | |- context [Z.leb 0 0] => change (Z.leb 0 0) with true
  | |- context [Z.ltb 0 (Zpos ?b)] => change (Z.ltb 0 (Zpos b)) with true
  end; cbn [andb]; cbv iota.

Ltac accept_iff :=
  test_consts; rewrite ?bind_unit_Ok_iff, ?throw_if_Ok_iff, ?require_Ok_iff;
  rewrite ?negb_false_iff, ?negb_true_iff, ?bool_decide_eq_false, ?bool_decide_eq_true,
    ?andb_true_iff, ?Z.ltb_ge, ?Z.ltb_lt, ?Z.leb_le, ?Z.eqb_eq, ?Z.eqb_neq;
  intuition lia.

(** The modes 4 to 7. *)
Lemma phase6_wire e r i :
  on_wire e r → 4 ≤ assertion_mode r ≤ 7 →
  validatePhase6Entry e (assertion_mode r) i = Ok tt ↔ program_validate_entry r = Ok tt.
Proof.
  intros [(a & Ha & Hd) _ _ _ _ [He _] (Hx & Hl & Hb) [Hy Hf]] Hm.
  unfold validatePhase6Entry, program_validate_entry.
  rewrite Ha, He, Hx, Hy, (isZeroPubkeyAddress_wire _ _ Hd), isZeroAuxValue_wire,
    readAuxValueU64_wire by done.
  pose proof (le_value_pos _ Hb). unfold fits in Hf. rewrite requireUint_Ok_iff.
  unfold PUBKEY_BYTES, MAX_MINTDELTACAP_SCOPE, MAX_META_INDEX, nonzero.
  assert (assertion_mode r = 4 ∨ assertion_mode r = 5 ∨ assertion_mode r = 6 ∨ assertion_mode r = 7)
    as [-> | [-> | [-> | ->]]] by lia; [accept_iff..|].
  destruct (decide (32 ≤ length (expected_value r))%nat) as [Hlen|]; [|accept_iff].
  rewrite isZeroPubkeyBytes_wire by done. accept_iff.
Qed.

Lemma single_wire e r i :
  on_wire e r →
  validateSingleEntry e i = Ok tt ↔ program_validate_entry r = Ok tt ∧ pe_operator r ≤ 6.
Proof.
  intros Hw. pose proof (phase6_wire e r i Hw) as H6.
  destruct Hw as [_ [Ho Hof] [Hv Hvf] [Hop Hopf] [Hmo Hmf] [He _] (Hx & Hl & Hb) [Hy Hf]].
  unfold validateSingleEntry. rewrite Ho, Hop, Hmo. rewrite !requireUint_Ok_iff.
  unfold fits, MAX_OPERATOR_VALUE, MAX_ASSERTION_MODE_VALUE in *.
  destruct (Z.leb_spec 4 (assertion_mode r)).
  { destruct (decide (assertion_mode r ≤ 7)); [rewrite H6 by lia; intuition lia|].
    split; [lia|]. unfold program_validate_entry. rewrite bind_unit_Ok_iff, require_Ok_iff. lia. }
  rewrite Hv, He, Hx, Hy, isZeroAuxValue_wire by done. rewrite requireUint_Ok_iff.
  unfold program_validate_entry, MAX_CONSTRAINT_VALUE_LEN, DELTA_MAX_VALUE_LEN, nonzero.
  assert (assertion_mode r = 0 ∨ assertion_mode r = 1 ∨ assertion_mode r = 2 ∨ assertion_mode r = 3)
    as [-> | [-> | [-> | ->]]] by lia; accept_iff.
Qed.

Lemma slots_wire es rs i :
  Forall2 on_wire es rs →
  validate_slots i (map Entry es) = Ok tt ↔
  Forall (λ r, program_validate_entry r = Ok tt) rs ∧ Forall (λ r, pe_operator r ≤ 6) rs.
Proof.
  intros H; revert i; induction H as [|e r es rs Hw _ IH]; intros i; simpl; [by split|].
  rewrite bind_unit_Ok_iff, (single_wire e r i Hw), IH, !Forall_cons. naive_solver.
Qed.

Lemma mapM_unit_Ok {A E} (f : A → result E unit) l :
  (_ ← mapM f l; Ok tt) = Ok tt ↔ Forall (λ x, f x = Ok tt) l.
Proof.
  induction l as [|x l IH]; simpl; [by split|]. rewrite Forall_cons, <- IH.
  destruct (f x) as [[]|]; simpl; [|naive_solver]. destruct (mapM f l); simpl; naive_solver.
Qed.

(** C36: For entries that fit their wire types, the client-side validator accepts
    exactly the batches the on-chain program accepts whose operators are all in
    range: nothing it lets through is rejected on chain, and the only entries
    it adds to the program's rejections are those of modes 4 to 7 with an
    operator above 6. *)
Theorem post_assertions_mirror_program es rs :
  Forall2 on_wire es rs →
  validatePostAssertionEntries (Entries (map Entry es)) = Ok tt ↔
  validate_entries rs = Ok tt ∧ Forall (λ r, pe_operator r ≤ 6) rs.
Proof.
  intros Hw. unfold validatePostAssertionEntries, validate_entries, MAX_POST_ASSERTION_ENTRIES.
  rewrite !bind_unit_Ok_iff, mapM_unit_Ok, throw_if_Ok_iff, require_Ok_iff, (slots_wire es rs 0 Hw).
  rewrite length_map, (Forall2_length _ _ _ Hw).
  rewrite orb_false_iff, andb_true_iff, negb_true_iff, !bool_decide_eq_false, bool_decide_eq_true.
  intuition lia.
Qed.

(** Every exception of [m] names entry [i]. *)
Definition throws_at {A} (i : nat) (m : result PostAssertionValidationError A) : Prop :=
  ∀ err, m = Throw err → entryIndex err = Some i.

Lemma throws_at_bind {A B} i (m : result PostAssertionValidationError A)
    (k : A → result PostAssertionValidationError B) :
  throws_at i m → (∀ a, throws_at i (k a)) → throws_at i (m ≫= k).
Proof. destruct m as [a|e]; intros Hm Hk err H; [exact (Hk a err H)|]. apply Hm. by injection H as ->. Qed.

Lemma throws_at_if i c code : throws_at i (throw_if c (reject code i)).
Proof. destruct c; intros err H; [by injection H as <-|done]. Qed.

Lemma throws_at_reject {A} i code : throws_at i (Throw (A := A) (reject code i)).
Proof. intros err H. by injection H as <-. Qed.

Lemma throws_at_uint i v max code : throws_at i (requireUintInRange v max code i).
Proof.
  destruct v; simpl; [|apply throws_at_reject]. apply throws_at_bind; [apply throws_at_if|].
  intros _ err H. discriminate H.
Qed.

Lemma validate_slot_at i s : throws_at i (validate_slot i s).
Proof.
  destruct s as [| |e]; simpl; [intros err H; discriminate H|apply throws_at_reject|].
  unfold validateSingleEntry, validatePhase6Entry.
  repeat (first [apply throws_at_uint | apply throws_at_if | apply throws_at_reject
                | apply throws_at_bind; [|intros ?] | case_match]).
Qed.

(** A rejection of the validator is precise: with an index it is the first
    entry that fails, all the ones before it being valid, and the error is that
    entry's own; without one the batch is not an array or does not have one to
    eight elements. *)
Theorem post_assertion_errors_are_precise arg err :
  validatePostAssertionEntries arg = Throw err →
  match entryIndex err with
  | None => arg = NotAnArray ∨ ∃ slots, arg = Entries slots ∧ ¬ (1 ≤ length slots ≤ 8)%nat
  | Some i => ∃ slots s, arg = Entries slots ∧ slots !! i = Some s ∧ validate_slot i s = Throw err ∧
                ∀ j s', (j < i)%nat → slots !! j = Some s' → validate_slot j s' = Ok tt
  end.
Proof.
  destruct arg as [|slots]; simpl; [intros [= <-]; by left|].
  unfold MAX_POST_ASSERTION_ENTRIES. destruct (_ || _) eqn:Hc; simpl.
  { intros [= <-]. right. exists slots. split; [done|].
    apply orb_true_iff in Hc. rewrite !bool_decide_eq_true in Hc. lia. }
  clear Hc. intros H.
  enough (∃ i s, slots !! i = Some s ∧ validate_slot (0 + i) s = Throw err ∧
    ∀ j s', (j < i)%nat → slots !! j = Some s' → validate_slot (0 + j) s' = Ok tt) as (i & s & Hi & He & Hj).
  { rewrite (validate_slot_at i s err He). by exists slots, s. }
  revert H. generalize 0%nat as k. induction slots as [|s slots IH]; intros k H; simpl in H; [done|].
  destruct (validate_slot k s) as [[]|e] eqn:Hs; simpl in H.
  - destruct (IH (k + 1)%nat H) as (i & s0 & Hi & He & Hj). exists (S i), s0.
    replace (k + S i)%nat with (k + 1 + i)%nat by lia. split_and!; [done|done|].
    intros [|j] s' Hlt Hl; simpl in Hl.
    + injection Hl as <-. by rewrite Nat.add_0_r.
    + replace (k + S j)%nat with (k + 1 + j)%nat by lia. apply Hj; [lia|done].
  - injection H as ->. exists 0%nat, s. rewrite Nat.add_0_r. split_and!; [done|done|]. intros; lia.
Qed.

(** ** Concrete entries *)

Definition demo_entry : PostAssertionEntry := {|
  targetAccount := Some "EPjFWdd5AufqSSqeM2qN1xzybapC8G4wEGGkZwyTDt1v"; offset := JInt 0;
  valueLen := JInt 0; operator := JInt 0; expectedValue := replicate 32 1; assertionMode := JInt 6;
  auxValue := [0; 1; 0; 0; 0; 0; 0; 0]; auxByte := JInt 0 |}.

Definition demo_program (op : Z) : ProgramEntry := {|
  target_account := [198; 250; 122; 243; 190; 219; 173; 58; 61; 101; 243; 106; 171; 201; 116; 49;
                     177; 187; 228; 194; 210; 246; 224; 228; 124; 166; 2; 3; 69; 47; 93; 97];
  pe_offset := 0; value_len := 0; pe_operator := op; expected_value := replicate 32 1;
  assertion_mode := 6; aux_value := [0; 1; 0; 0; 0; 0; 0; 0]; aux_byte := 0 |}.

Lemma post_assertions_mirror_program_witness :
  validatePostAssertionEntries (Entries [Entry demo_entry]) = Ok tt ∧
  validate_entries [demo_program 9] = Ok tt.
Proof.
  split; [|vm_compute; reflexivity].
  apply (post_assertions_mirror_program [demo_entry] [demo_program 0]).
  - constructor; [|constructor]. constructor.
    + eexists. split; [reflexivity|]. vm_compute. reflexivity.
    + split; [reflexivity|]. vm_compute. split; [discriminate|reflexivity].
    + split; [reflexivity|]. vm_compute. split; [discriminate|reflexivity].
    + split; [reflexivity|]. vm_compute. split; [discriminate|reflexivity].
    + split; [reflexivity|]. vm_compute. split; [discriminate|reflexivity].
    + split; [reflexivity|]. apply Forall_replicate. vm_compute. split; [discriminate|reflexivity].
    + split; [reflexivity|]. split; [reflexivity|]. repeat constructor; discriminate.
    + split; [reflexivity|]. vm_compute. split; [discriminate|reflexivity].
  - split; [vm_compute; reflexivity|]. constructor; [vm_compute; discriminate|constructor].
Defined.

Lemma post_assertion_errors_are_precise_witness :
  validate_slot 1 Null = Throw (reject entries_contain_null 1) ∧
  validate_slot 0 (Entry demo_entry) = Ok tt.
Proof.
  destruct (post_assertion_errors_are_precise (Entries [Entry demo_entry; Null])
    (reject entries_contain_null 1)) as (slots & s & Ha & Hs & He & Hj); [vm_compute; reflexivity|].
  injection Ha as <-. injection Hs as <-. split; [exact He|].
  apply (Hj 0%nat); [lia|reflexivity].
Defined.
