(* ===== verification/JsText.v ===== *)
(** * Text and numbers of the language

    What the SDK uses of JavaScript's strings and numbers: character classes
    of its regular expressions, [trim], [toUpperCase], [startsWith],
    [padEnd], decimal printing and parsing of [bigint], and the parts of
    IEEE-754 double arithmetic that the spend-limit parser goes through.
    Strings are strings of 8-bit characters. *)

From Stdlib Require String.
From S2P Require Import Prelude.

Local Open Scope Z_scope.

(** ** Characters *)

Definition code (c : ascii) : Z := Z.of_nat (nat_of_ascii c).

Definition in_range (lo hi : Z) (c : ascii) : bool := (lo <=? code c) && (code c <=? hi).

(** [\d], [\w] and [\s] of a regular expression; [\s] is also what [trim]
    removes. *)
Definition is_digit (c : ascii) : bool := in_range 48 57 c.
Definition is_upper (c : ascii) : bool := in_range 65 90 c.
Definition is_lower (c : ascii) : bool := in_range 97 122 c.
Definition is_word (c : ascii) : bool :=
  is_digit c || is_upper c || is_lower c || (code c =? 95).
Definition is_space (c : ascii) : bool := in_range 9 13 c || (code c =? 32) || (code c =? 160).

Definition chars (s : string) : list ascii := String.list_ascii_of_string s.
Definition text (cs : list ascii) : string := String.string_of_list_ascii cs.

(** The longest prefix in a class, and the rest. *)
Fixpoint span (p : ascii → bool) (s : list ascii) : list ascii * list ascii :=
  match s with
  | c :: s' => if p c then let '(a, b) := span p s' in (c :: a, b) else ([], s)
  | [] => ([], [])
  end.

Definition trim (s : list ascii) : list ascii :=
  reverse (snd (span is_space (reverse (snd (span is_space s))))).

Definition upper (c : ascii) : ascii :=
  if is_lower c then ascii_of_nat (nat_of_ascii c - 32) else c.
Definition toUpperCase (s : string) : string := text (map upper (chars s)).

Definition startsWith (s prefix : string) : bool := String.prefix prefix s.

Definition padEnd (cs : list ascii) (n : nat) (c : ascii) : list ascii :=
  cs ++ replicate (n - length cs) c.
Definition padStart (cs : list ascii) (n : nat) (c : ascii) : list ascii :=
  replicate (n - length cs) c ++ cs.

(** ** Integers in text *)

Definition digit_value (c : ascii) : Z := code c - 48.

Definition digits_value (cs : list ascii) : Z :=
  foldl (λ acc c, 10 * acc + digit_value c) 0 cs.

Definition digit_char (d : Z) : ascii := ascii_of_nat (Z.to_nat (48 + d)).

Fixpoint dec_digits (fuel : nat) (z : Z) : list ascii :=
  match fuel with
  | O => []
  | S fuel => if z <? 10 then [digit_char z]
              else dec_digits fuel (z / 10) ++ [digit_char (z mod 10)]
  end.

(** [x.toString()] of a [bigint]: a number has at most as many decimal digits
    as bits, so the fuel is enough. *)
Definition bigint_chars (z : Z) : list ascii :=
  if z <? 0 then "-"%char :: dec_digits (S (Z.to_nat (Z.log2 (- z)))) (- z)
  else dec_digits (S (Z.to_nat (Z.log2 z))) z.
Definition bigint_toString (z : Z) : string := text (bigint_chars z).

(** [BigInt(text)]: white space around; the empty text is 0; decimal digits
    with an optional sign, or [0x], [0o], [0b] and digits without one;
    anything else is a SyntaxError. *)
Definition hex_value (c : ascii) : Z :=
  if is_digit c then code c - 48
  else if in_range 97 102 c then code c - 87
  else if in_range 65 70 c then code c - 55 else 99.

Definition radix_value (r : Z) (cs : list ascii) : option Z :=
  match cs with
  | [] => None
  | _ => if forallb (λ c, hex_value c <? r) cs
         then Some (foldl (λ acc c, r * acc + hex_value c) 0 cs) else None
  end.

Definition BigInt_chars (s : list ascii) : option Z :=
  match trim s with
  | [] => Some 0
  | "-"%char :: cs => Z.opp <$> radix_value 10 cs
  | "+"%char :: cs => radix_value 10 cs
  | "0"%char :: ("x" | "X")%char :: cs => radix_value 16 cs
  | "0"%char :: ("o" | "O")%char :: cs => radix_value 8 cs
  | "0"%char :: ("b" | "B")%char :: cs => radix_value 2 cs
  | cs => radix_value 10 cs
  end.

Definition BigInt (s : string) : option Z := BigInt_chars (chars s).

Example BigInt_examples :
  (BigInt "10", BigInt "0xA", BigInt " 010 ", BigInt "", BigInt "-7", BigInt "1.5", BigInt "0x") =
  (Some 10, Some 10, Some 10, Some 0, Some (-7), None, None).
Proof. vm_compute. reflexivity. Qed.

Example toString_examples :
  (bigint_toString 0, bigint_toString 1203, bigint_toString (-45)) = ("0", "1203", "-45")%string.
Proof. vm_compute. reflexivity. Qed.

(** ** Doubles

    A finite non-negative double is [mant * 2^expo]; an operation rounds its
    exact rational result to nearest, ties to even. *)

Inductive double : Type :=
| Finite (mant expo : Z)
| Infinity.

Definition round_even (num den : Z) : Z :=
  let q := num / den in
  let r := num mod den in
  if 2 * r <? den then q
  else if den <? 2 * r then q + 1
  else if Z.even q then q else q + 1.

(** Scale a rational by a power of two. *)
Definition scale_num (num e : Z) : Z := if e <=? 0 then num * 2 ^ (- e) else num.
Definition scale_den (den e : Z) : Z := if e <=? 0 then den else den * 2 ^ e.

(** The exponent of the last place of [num / den]. *)
Definition ulp_expo (num den : Z) : Z :=
  let l := Z.log2 num - Z.log2 den in
  let e := if scale_den den l <=? scale_num num l then l - 52 else l - 53 in
  Z.max e (-1074).

Definition to_double (num den : Z) : double :=
  if num =? 0 then Finite 0 0 else
  let e := ulp_expo num den in
  let m := round_even (scale_num num e) (scale_den den e) in
  if 1024 <? Z.log2 m + 1 + e then Infinity else Finite m e.

Definition double_mul_int (x : double) (n : Z) : double :=
  match x with
  | Infinity => Infinity
  | Finite m e => if 0 <=? e then to_double (m * 2 ^ e * n) 1 else to_double (m * n) (2 ^ (- e))
  end.

(** [Math.round] rounds halves up; [BigInt] refuses an infinity. *)
Definition Math_round (x : double) : option Z :=
  match x with
  | Infinity => None
  | Finite m e => if 0 <=? e then Some (m * 2 ^ e)
                  else Some ((2 * m + 2 ^ (- e)) / (2 * 2 ^ (- e)))
  end.

Example double_examples :
  (Math_round (double_mul_int (to_double 1 10) (10 ^ 6)),
   Math_round (double_mul_int (to_double 500 1) (10 ^ 6)),
   to_double 1 10, to_double (2 ^ 53 + 1) 1) =
  (Some 100000, Some 500000000, Finite 7205759403792794 (-56), Finite 4503599627370496 1).
Proof. vm_compute. reflexivity. Qed.

(** ** Lemmas: printing and parsing integers *)

Lemma code_digit_char d : 0 ≤ d < 10 → code (digit_char d) = 48 + d.
Proof.
  intros Hd. unfold code, digit_char. rewrite Ascii.nat_ascii_embedding by lia. lia.
Qed.

Lemma digit_char_ok d : 0 ≤ d < 10 → is_digit (digit_char d) = true.
Proof. intros Hd. unfold is_digit, in_range. rewrite code_digit_char by done. lia. Qed.

Lemma digits_value_snoc cs c : digits_value (cs ++ [c]) = 10 * digits_value cs + digit_value c.
Proof. unfold digits_value. by rewrite foldl_app. Qed.

Lemma dec_digits_spec fuel z :
  0 ≤ z < 2 ^ Z.of_nat fuel → fuel ≠ 0%nat →
  digits_value (dec_digits fuel z) = z ∧ Forall is_digit (dec_digits fuel z) ∧
  dec_digits fuel z ≠ [].
Proof.
  revert z; induction fuel as [|fuel IH]; intros z Hz Hf; [done|]. cbn [dec_digits].
  destruct (Z.ltb_spec z 10).
  - split_and!; [|repeat constructor; apply Is_true_true, digit_char_ok; lia|done].
    unfold digits_value, digit_value; simpl. rewrite code_digit_char by lia. lia.
  - rewrite Nat2Z.inj_succ, Z.pow_succ_r in Hz by lia.
    assert (0 ≤ z / 10 < 2 ^ Z.of_nat fuel).
    { split; [apply Z.div_pos; lia|]. apply Z.div_lt_upper_bound; lia. }
    destruct (IH (z / 10)) as (Hv & Hd & _); [done| |].
    { intros ->. simpl in *. lia. }
    assert (0 ≤ z mod 10 < 10) by (apply Z.mod_pos_bound; lia).
    rewrite digits_value_snoc, Hv. unfold digit_value. rewrite code_digit_char by done.
    split_and!.
    + pose proof (Z.div_mod z 10). lia.
    + apply Forall_app. split; [done|]. constructor; [|done]. by apply Is_true_true, digit_char_ok.
    + by destruct (dec_digits fuel (z / 10)).
Qed.

Lemma bigint_digits z :
  0 ≤ z → digits_value (bigint_chars z) = z ∧ Forall is_digit (bigint_chars z) ∧
          bigint_chars z ≠ [].
Proof.
  intros Hz. unfold bigint_chars. destruct (Z.ltb_spec z 0); [lia|].
  apply dec_digits_spec; [|done]. rewrite Nat2Z.inj_succ, Z2Nat.id by apply Z.log2_nonneg.
  destruct (Z.eq_dec z 0) as [->|]; [simpl; lia|]. pose proof (Z.log2_spec z). lia.
Qed.

Lemma hex_value_digit c : is_digit c = true → hex_value c = digit_value c.
Proof. unfold hex_value, digit_value. by intros ->. Qed.

Lemma radix_digits cs :
  Forall is_digit cs → cs ≠ [] → radix_value 10 cs = Some (digits_value cs).
Proof.
  intros Hd Hne. unfold radix_value. destruct cs as [|c cs]; [done|].
  replace (forallb _ (c :: cs)) with true; cycle 1.
  { symmetry. apply forallb_forall. intros x Hx.
    rewrite List.Forall_forall in Hd. apply Hd, Is_true_true in Hx.
    rewrite hex_value_digit by done. unfold is_digit, in_range, digit_value in *. lia. }
  f_equal. unfold digits_value. clear Hne. generalize 0.
  induction Hd as [|x xs Hx _ IH]; intros acc; simpl; [done|].
  rewrite hex_value_digit by by apply Is_true_true. apply IH.
Qed.

Lemma trim_digits cs : Forall (λ c, is_space c = false) cs → trim cs = cs.
Proof.
  assert (Hs : ∀ l, Forall (λ c, is_space c = false) l → snd (span is_space l) = l).
  { intros [|c l] H; [done|]. inversion H; subst. simpl. by rewrite H2. }
  intros H. unfold trim. rewrite (Hs cs) by done.
  rewrite Hs by (by apply Forall_reverse). apply reverse_involutive.
Qed.

Lemma digit_not_space c : is_digit c → is_space c = false.
Proof. intros H%Is_true_true. unfold is_digit, is_space, in_range in *. lia. Qed.

Lemma BigInt_digits cs :
  Forall is_digit cs → cs ≠ [] → BigInt_chars cs = Some (digits_value cs).
Proof.
  intros Hd Hne. unfold BigInt_chars.
  rewrite trim_digits by (eapply Forall_impl; [exact Hd|apply digit_not_space]).
  rewrite <- radix_digits by done.
  destruct cs as [|c cs]; [done|]. inversion Hd as [|? ? Hc Hd']; subst.
  destruct c as [[] [] [] [] [] [] [] []]; try (vm_compute in Hc; done); try done.
  destruct cs as [|c' cs]; [done|]. inversion Hd' as [|? ? Hc' _]; subst.
  destruct c' as [[] [] [] [] [] [] [] []]; try (vm_compute in Hc'; done); done.
Qed.

Lemma span_app (p : ascii → bool) a b :
  Forall p a → (∀ c b', b = c :: b' → p c = false) → span p (a ++ b) = (a, b).
Proof.
  intros Ha Hb. induction Ha as [|x a Hx _ IH]; cbn [app span].
  - destruct b as [|c b]; [done|]. cbn [span]. by rewrite (Hb c b eq_refl).
  - apply Is_true_true in Hx. by rewrite Hx, IH.
Qed.

Lemma chars_text cs : chars (text cs) = cs.
Proof. apply String.list_ascii_of_string_of_list_ascii. Qed.

(** [BigInt(x.toString())] is [x], for a magnitude. *)
Lemma BigInt_toString z : 0 ≤ z → BigInt (bigint_toString z) = Some z.
Proof.
  intros Hz. destruct (bigint_digits z Hz) as (Hv & Hd & Hne).
  unfold BigInt, bigint_toString. rewrite chars_text, BigInt_digits by done. by rewrite Hv.
Qed.

Lemma bigint_chars_neg z : z < 0 → bigint_chars z = "-"%char :: bigint_chars (- z).
Proof.
  intros Hz. unfold bigint_chars. replace (z <? 0) with true by lia.
  by replace (- z <? 0) with false by lia.
Qed.

(** [BigInt(x.toString())] is [x]. *)
Lemma BigInt_of_toString z : BigInt (bigint_toString z) = Some z.
Proof.
  destruct (decide (0 ≤ z)) as [Hz|Hz]; [by apply BigInt_toString|].
  destruct (bigint_digits (- z)) as (Hv & Hd & Hne); [lia|].
  unfold BigInt, bigint_toString. rewrite chars_text, bigint_chars_neg by lia.
  unfold BigInt_chars. rewrite trim_digits.
  - cbv iota. rewrite radix_digits by done. simpl. f_equal. lia.
  - constructor; [reflexivity|]. eapply Forall_impl; [exact Hd|apply digit_not_space].
Qed.

(** ** Lemmas: rounding *)

Lemma round_even_bound num den :
  0 < den → - den ≤ 2 * (round_even num den * den - num) ≤ den.
Proof.
  intros Hd. pose proof (Z.div_mod num den). pose proof (Z.mod_pos_bound num den).
  unfold round_even.
  destruct (Z.ltb_spec (2 * (num mod den)) den); [nia|].
  destruct (Z.ltb_spec den (2 * (num mod den))); [nia|]. destruct (Z.even _); nia.
Qed.

Lemma scale_pos num den e :
  0 < num → 0 < den → 0 < scale_num num e ∧ 0 < scale_den den e.
Proof.
  intros. unfold scale_num, scale_den. destruct (Z.leb_spec e 0); [|]; split; try lia;
    apply Z.mul_pos_pos; lia || apply Z.pow_pos_nonneg; lia.
Qed.

Lemma log2_quot num den l :
  0 < num → 0 < den → l = Z.log2 num - Z.log2 den → l ≤ 0 →
  den < 2 * (num * 2 ^ (- l)) ∧ num * 2 ^ (- l) < 2 * den.
Proof.
  intros Hn Hd -> Hl. pose proof (Z.log2_spec num Hn) as [A B].
  pose proof (Z.log2_spec den Hd) as [C D]. rewrite Z.pow_succ_r in B, D by apply Z.log2_nonneg.
  replace (- (Z.log2 num - Z.log2 den)) with (Z.log2 den - Z.log2 num) by lia.
  assert (2 ^ Z.log2 den = 2 ^ Z.log2 num * 2 ^ (Z.log2 den - Z.log2 num)) as E.
  { rewrite <- Z.pow_add_r; [f_equal; lia|apply Z.log2_nonneg|lia]. }
  set (p := 2 ^ (Z.log2 den - Z.log2 num)) in *.
  assert (0 < p) by (apply Z.pow_pos_nonneg; lia). nia.
Qed.

Lemma log2_quot_pos num den l :
  0 < num → 0 < den → l = Z.log2 num - Z.log2 den → 0 < l →
  den * 2 ^ l < 2 * num ∧ num < 2 * (den * 2 ^ l).
Proof.
  intros Hn Hd -> Hl. pose proof (Z.log2_spec num Hn) as [A B].
  pose proof (Z.log2_spec den Hd) as [C D]. rewrite Z.pow_succ_r in B, D by apply Z.log2_nonneg.
  assert (2 ^ Z.log2 num = 2 ^ Z.log2 den * 2 ^ (Z.log2 num - Z.log2 den)) as E.
  { rewrite <- Z.pow_add_r; [f_equal; lia|apply Z.log2_nonneg|lia]. }
  set (p := 2 ^ (Z.log2 num - Z.log2 den)) in *.
  assert (0 < p) by (apply Z.pow_pos_nonneg; lia). nia.
Qed.

(** The scaled quotient lies in the 53-bit mantissa range, for a number that
    is neither subnormal nor as large as [2^53]. *)
Lemma ulp_expo_spec num den :
  0 < num → 0 < den → num < 2 ^ 53 * den → den ≤ num * 2 ^ 1000 →
  let e := ulp_expo num den in
  e ≤ 0 ∧ 2 ^ 52 * den ≤ num * 2 ^ (- e).
Proof.
  intros Hn Hd Hhi Hlo. unfold ulp_expo. set (l := Z.log2 num - Z.log2 den).
  destruct (Z.le_gt_cases l 0) as [Hl|Hl].
  - destruct (log2_quot num den l Hn Hd eq_refl Hl) as [A B].
    unfold scale_num, scale_den. rewrite (proj2 (Z.leb_le l 0) Hl).
    assert (-1001 < l).
    { destruct (Z.le_gt_cases l (-1001)) as [Hc|]; [|lia].
      assert (2 ^ 1001 ≤ 2 ^ (- l)) by (apply Z.pow_le_mono_r; lia).
      replace (2 ^ 1001) with (2 * 2 ^ 1000) in * by reflexivity.
      assert (num * (2 * 2 ^ 1000) ≤ num * 2 ^ (- l)) by (apply Z.mul_le_mono_nonneg_l; lia).
      lia. }
    destruct (Z.leb_spec den (num * 2 ^ (- l))); rewrite Z.max_l by lia; (split; [lia|]).
    + replace (- (l - 52)) with (52 + - l) by lia. rewrite Z.pow_add_r by lia. lia.
    + replace (- (l - 53)) with (53 + - l) by lia. rewrite Z.pow_add_r by lia.
      change (2 ^ 53) with (2 * 2 ^ 52). lia.
  - destruct (log2_quot_pos num den l Hn Hd eq_refl Hl) as [A B].
    unfold scale_num, scale_den. rewrite (proj2 (Z.leb_gt l 0) Hl).
    assert (l ≤ 53).
    { destruct (Z.le_gt_cases l 53) as [|Hc]; [done|].
      assert (2 ^ 54 ≤ 2 ^ l) by (apply Z.pow_le_mono_r; lia).
      change (2 ^ 54) with (2 * 2 ^ 53) in *. nia. }
    destruct (Z.leb_spec (den * 2 ^ l) num) as [Hc|Hc]; rewrite Z.max_l by lia.
    + assert (l ≤ 52).
      { destruct (Z.le_gt_cases l 52) as [|Hc']; [done|].
        replace l with 53 in * by lia. lia. }
      split; [lia|]. replace (- (l - 52)) with (52 - l) by lia.
      assert (2 ^ 52 = 2 ^ l * 2 ^ (52 - l)) as -> by (rewrite <- Z.pow_add_r by lia; f_equal; lia).
      assert (0 < 2 ^ (52 - l)) by (apply Z.pow_pos_nonneg; lia). nia.
    + split; [lia|]. replace (- (l - 53)) with (53 - l) by lia.
      assert (2 * 2 ^ 52 = 2 ^ l * 2 ^ (53 - l)) as E
        by (rewrite <- Z.pow_add_r by lia; rewrite <- Z.pow_succ_r by lia; f_equal; lia).
      assert (0 < 2 ^ (53 - l)) by (apply Z.pow_pos_nonneg; lia). nia.
Qed.

(** The relative error of one rounding is at most [2^-53]. *)
Lemma to_double_bound num den :
  0 < num → 0 < den → num < 2 ^ 53 * den → den ≤ num * 2 ^ 1000 →
  ∃ m e, to_double num den = Finite m e ∧ e ≤ 0 ∧
    Z.abs (2 ^ 53 * (m * den) - 2 ^ 53 * (num * 2 ^ (- e))) ≤ num * 2 ^ (- e).
Proof.
  intros Hn Hd Hhi Hlo. destruct (ulp_expo_spec num den Hn Hd Hhi Hlo) as [He Hm].
  unfold to_double. rewrite (proj2 (Z.eqb_neq num 0)) by lia.
  set (e := ulp_expo num den) in *. unfold scale_num, scale_den.
  rewrite (proj2 (Z.leb_le e 0)) by lia.
  set (m := round_even _ _). pose proof (round_even_bound (num * 2 ^ (- e)) den Hd) as B.
  fold m in B. assert (Z.abs (2 ^ 53 * (m * den) - 2 ^ 53 * (num * 2 ^ (- e))) ≤ num * 2 ^ (- e))
    by lia.
  rewrite (proj2 (Z.ltb_ge 1024 _)); [by exists m, e|].
  assert (m ≤ 2 ^ 54 * 2 ^ (- e)).
  { assert (num * 2 ^ (- e) < 2 ^ 53 * den * 2 ^ (- e))
      by (apply Z.mul_lt_mono_pos_r; [apply Z.pow_pos_nonneg|]; lia).
    assert (0 < 2 ^ (- e)) by (apply Z.pow_pos_nonneg; lia). nia. }
  destruct (Z.le_gt_cases m 0) as [Hm0|Hm0].
  { rewrite Z.log2_nonpos by lia. lia. }
  assert (Z.log2 m ≤ 54 + - e); [|lia].
  rewrite <- (Z.log2_pow2 (54 + - e)) by lia. apply Z.log2_le_mono.
  by rewrite Z.pow_add_r by lia.
Qed.

(** Two relative errors of [2^-53] around an integer below [2^51] stay below
    one half. *)
Lemma two_roundings_close m1 m2 N D T P1 P2 :
  0 < N → N < 2 ^ 51 → 0 < T → 0 < D → 0 < m1 → 1 ≤ P1 → 1 ≤ P2 →
  Z.abs (2 ^ 53 * (m1 * D * T) - 2 ^ 53 * (N * P1 * T)) ≤ N * P1 * T →
  Z.abs (2 ^ 53 * (m2 * P1) - 2 ^ 53 * (m1 * D * P2)) ≤ m1 * D * P2 →
  2 * Z.abs (m2 - N * P2) < P2.
Proof.
  intros HN0 Hlt HT HD Hm HP1 HP2 HW B2.
  set (G := P2 * P1 * T). assert (0 < P1 * T) by nia.
  set (X := N * P2 * P1 * T). set (W := m1 * D * P2 * T). set (V := m2 * P1 * T).
  assert (Z.abs (2 ^ 53 * W - 2 ^ 53 * X) ≤ X).
  { unfold W, X. replace (N * P2 * P1 * T) with (N * P1 * T * P2) by lia.
    replace (m1 * D * P2 * T) with (m1 * D * T * P2) by lia. nia. }
  assert (Z.abs (2 ^ 53 * V - 2 ^ 53 * W) ≤ W).
  { unfold V, W. nia. }
  assert (X ≤ (2 ^ 51 - 1) * G) by (unfold X, G; nia).
  assert (0 < G) by (unfold G; nia).
  assert (2 * Z.abs (V - X) < G) by lia.
  assert (V - X = (m2 - N * P2) * (P1 * T)) as Ed by (unfold V, X; lia).
  rewrite Ed, Z.abs_mul, (Z.abs_eq (P1 * T)) in * by lia. unfold G in *. nia.
Qed.

(** Two roundings around a product by [D] recover an integer below [2^51]
    exactly: [Math.round(parseFloat(a / T) * D) = N] when [a * D = N * T]. *)
Lemma scaled_decimal_exact a T D N :
  0 < a → 0 < T → 0 < D → a * D = N * T → N < 2 ^ 51 → T ≤ 2 ^ 900 →
  Math_round (double_mul_int (to_double a T) D) = Some N.
Proof.
  intros Ha HT HD HN Hlt HT9.
  assert (0 < N) by nia. assert (a < 2 ^ 51 * T) by nia.
  assert (2 ^ 900 * 2 ^ 100 = 2 ^ 1000) as E9 by reflexivity.
  destruct (to_double_bound a T) as (m1 & e1 & -> & He1 & B1); [lia..|].
  clear E9 HT9. assert (HN1 : ∀ x, 0 ≤ x → x ≤ N * x) by (intros; nia).
  unfold double_mul_int.
  set (P1 := 2 ^ (- e1)) in *. assert (1 ≤ P1) by (apply Z.pow_le_mono_r with (b := 0); lia).
  assert (Hy : (if 0 <=? e1 then to_double (m1 * 2 ^ e1 * D) 1 else to_double (m1 * D) P1)
    = to_double (m1 * D) P1).
  { destruct (Z.leb_spec 0 e1); [|done]. assert (e1 = 0) as -> by lia. unfold P1. simpl.
    by rewrite Z.mul_1_r. }
  rewrite Hy; clear Hy.
  assert (0 < a * P1) by lia.
  assert (0 < m1) by nia.
  assert (HW : Z.abs (2 ^ 53 * (m1 * D * T) - 2 ^ 53 * (N * P1 * T)) ≤ N * P1 * T).
  { replace (N * P1 * T) with (a * P1 * D) by nia.
    replace (m1 * D * T) with (m1 * T * D) by lia.
    replace (2 ^ 53 * (m1 * T * D) - 2 ^ 53 * (a * P1 * D))
      with ((2 ^ 53 * (m1 * T) - 2 ^ 53 * (a * P1)) * D) by lia.
    rewrite Z.abs_mul, (Z.abs_eq D) by lia. apply Z.mul_le_mono_nonneg_r; lia. }
  destruct (to_double_bound (m1 * D) P1) as (m2 & e2 & -> & He2 & B2); [nia..| | |].
  - assert (N * P1 * T ≤ 2 ^ 51 * (P1 * T)) by nia.
    assert (2 ^ 53 * (m1 * D * T) < 2 ^ 53 * (2 ^ 53 * P1 * T)); [lia|]. nia.
  - assert (1 ≤ m1 * D) by nia.
    assert (N * P1 * T ≤ m1 * D * T * 2) by lia.
    assert (P1 * T ≤ N * P1 * T) by (rewrite <- Z.mul_assoc; apply HN1; nia).
    assert (P1 ≤ m1 * D * 2) by (apply (Z.mul_le_mono_pos_r _ _ T); lia).
    assert (m1 * D * 2 ≤ m1 * D * 2 ^ 1000); [|lia].
    apply Z.mul_le_mono_nonneg_l; [lia|]. apply (Z.pow_le_mono_r 2 1 1000); lia.
  - set (P2 := 2 ^ (- e2)) in *. assert (1 ≤ P2) by (apply Z.pow_le_mono_r with (b := 0); lia).
    assert (HV : 2 * Z.abs (m2 - N * P2) < P2) by (by apply (two_roundings_close m1 m2 N D T P1 P2)).
    unfold Math_round. destruct (Z.leb_spec 0 e2).
    + assert (e2 = 0) as -> by lia. unfold P2 in *. simpl in *. f_equal. lia.
    + f_equal. symmetry. apply (Z.div_unique _ _ N (2 * m2 + P2 - 2 * P2 * N)); lia.
Qed.
