(* ===== verification/Money.v ===== *)
(** * Money helpers ([sdk/kit/src/helpers])

    The strict USD parser ([parse-usd.ts]) and the check that the agents' caps
    fit the vault's ([validate-cap-aggregate.ts]).

    The theorems: the parser accepts exactly its documented grammar, with the
    exact value in base units, so printing an amount and parsing it back is the
    identity; and caps that pass the aggregate check cannot be spent past the
    vault's cap by agents that respect their own. *)

From Stdlib Require String.
From S2P Require Import Prelude JsText.

Local Open Scope Z_scope.

Definition INVALID_AMOUNT_CODE : string := "SIGIL_ERROR__SDK__INVALID_AMOUNT".
Definition CAP_EXCEEDED_CODE : string := "SIGIL_ERROR__SDK__CAP_EXCEEDED".

(** ** [parseUsd] *)

Definition USD_DECIMALS : nat := 6.
Definition USD_BASE : Z := 1000000.

(** The whole part: [0|[1-9]\d{0,14}]. *)
Definition whole_ok (whole : list ascii) : bool :=
  match whole with
  | [] => false
  | ["0"%char] => true
  | c :: _ => in_range 49 57 c && bool_decide (length whole ≤ 15)%nat
  end.

(** [/^\$(0|[1-9]\d{0,14})(\.\d{1,6})?$/]: the whole part and the fraction
    part with its dot.  What follows the whole part is no digit, so the whole
    part is the longest run of digits. *)
Definition USD_REGEX (s : list ascii) : option (list ascii * option (list ascii)) :=
  match s with
  | "$"%char :: s =>
      let '(whole, rest) := span is_digit s in
      if negb (whole_ok whole) then None else
      match rest with
      | [] => Some (whole, None)
      | "."%char :: frac =>
          if forallb is_digit frac && bool_decide (1 ≤ length frac ≤ 6)%nat
          then Some (whole, Some rest) else None
      | _ => None
      end
  | _ => None
  end.

(** [BigInt(text)] on text that may be malformed throws a SyntaxError. *)
Definition big (cs : list ascii) : result js_exn Z :=
  match BigInt_chars cs with Some n => Ok n | None => Throw JsSyntaxError end.

(** [None] is an argument that is no string. *)
Definition parseUsd (input : option string) : result js_exn Z :=
  match input with
  | None => Throw (SdkDomainError INVALID_AMOUNT_CODE)
  | Some input =>
      match USD_REGEX (chars input) with
      | None => Throw (SdkDomainError INVALID_AMOUNT_CODE)
      | Some (whole, fractionPart) =>
          wholeBig ← big whole;
          let result := wholeBig * USD_BASE in
          match fractionPart with
          | None => Ok result
          | Some part =>
              let fractionDigits := tail part in
              padded ← big (padEnd fractionDigits USD_DECIMALS "0"%char);
              Ok (result + padded)
          end
      end
  end.

Example parse_usd_examples :
  (parseUsd (Some "$0"), parseUsd (Some "$0.01"), parseUsd (Some "$100.000001"),
   parseUsd (Some "$999999999999999")) =
  (Ok 0, Ok 10000, Ok 100000001, Ok 999999999999999000000) ∧
  Forall (λ s, parseUsd (Some s) = Throw (SdkDomainError INVALID_AMOUNT_CODE))
    ["1.0"; "$1,000"; "$1e3"; "$1.1234567"; "$-1"; "$007"; "$"; "$1."; " $1"; "$1000000000000000"].
Proof. split; [vm_compute; reflexivity|]. repeat constructor. Qed.

(** ** [validateAgentCapAggregate] *)

Record ValidateAgentCapAggregateParams : Type := {
  vaultDailyCap : Z;
  existingAgentCaps : list Z;
  newAgentCap : Z;
}.

Definition validateAgentCapAggregate (p : ValidateAgentCapAggregateParams) : result js_exn unit :=
  _ ← throw_if ((vaultDailyCap p <? 0) || (newAgentCap p <? 0)) (SdkDomainError CAP_EXCEEDED_CODE);
  _ ← mapM (λ c, throw_if (c <? 0) (SdkDomainError CAP_EXCEEDED_CODE)) (existingAgentCaps p);
  let sum := foldl Z.add (newAgentCap p) (existingAgentCaps p) in
  throw_if (vaultDailyCap p <? sum) (SdkDomainError CAP_EXCEEDED_CODE).

(** ** The grammar *)

Lemma span_spec p s : let '(a, b) := span p s in s = a ++ b ∧ Forall p a.
Proof.
  induction s as [|c s IH]; simpl; [done|]. destruct (p c) eqn:Hc; [|done].
  destruct (span p s) as [a b]. destruct IH as [-> Ha]. split; [done|].
  constructor; [by apply Is_true_true|done].
Qed.

Lemma whole_ok_spec whole :
  whole_ok whole = true →
  whole ≠ [] ∧ (length whole ≤ 15)%nat.
Proof.
  destruct whole as [|c [|d whole]]; simpl; [done|intros _; split; [done|lia]|].
  intros H. split; [done|].
  assert (bool_decide (S (S (length whole)) ≤ 15)%nat = true) as Hb; [|by apply bool_decide_eq_true in Hb].
  repeat (case_match; try done); by apply andb_true_iff in H as [_ H].
Qed.

(** Text of the grammar: whole digits and fraction digits. *)
Definition usd_text (whole frac : list ascii) : list ascii :=
  "$"%char :: whole ++ match frac with [] => [] | _ => "."%char :: frac end.

Definition usd_grammar (whole frac : list ascii) : Prop :=
  Forall is_digit whole ∧ whole_ok whole = true ∧ Forall is_digit frac ∧ (length frac ≤ 6)%nat.

Lemma USD_REGEX_iff s whole part :
  USD_REGEX s = Some (whole, part) ↔
  ∃ frac, usd_grammar whole frac ∧ s = usd_text whole frac ∧
          part = match frac with [] => None | _ => Some ("."%char :: frac) end.
Proof.
  split.
  - intros H. destruct s as [|c s]; [done|]. unfold USD_REGEX in H.
    destruct (decide (c = "$"%char)) as [->|Hc]; cycle 1.
    { exfalso. destruct c as [[] [] [] [] [] [] [] []]; congruence. }
    pose proof (span_spec is_digit s) as Hs. destruct (span is_digit s) as [w rest].
    destruct Hs as [-> Hw]. destruct (whole_ok w) eqn:Hok; [|done]. simpl in H.
    destruct rest as [|d frac].
    { injection H as <- <-. exists []. split_and!; [|done|done]. unfold usd_grammar. split_and!; [done|done|constructor|simpl; lia]. }
    destruct (decide (d = "."%char)) as [->|Hd]; cycle 1.
    { exfalso. destruct d as [[] [] [] [] [] [] [] []]; congruence. }
    destruct (forallb is_digit frac && bool_decide (1 ≤ length frac ≤ 6)%nat) eqn:Hf; [|done].
    injection H as <- <-. apply andb_true_iff in Hf as [Hf Hl%bool_decide_eq_true].
    exists frac. destruct frac as [|f frac]; [simpl in Hl; lia|].
    split_and!; [|done|done]. unfold usd_grammar. split_and!; [done|done| |lia].
    apply Forall_forall. intros x Hx. rewrite forallb_forall in Hf. apply Is_true_true, Hf.
    by apply list_elem_of_In.
  - intros (frac & (Hw & Hok & Hf & Hl) & -> & ->). unfold usd_text, USD_REGEX.
    rewrite span_app; [|done|].
    2: { intros c b'. destruct frac; [done|]. by intros [= <- _]. }
    rewrite Hok. simpl. destruct frac as [|f frac]; [done|].
    replace (forallb is_digit (f :: frac)) with true.
    2: { symmetry. apply forallb_forall. intros x Hx%list_elem_of_In. apply Is_true_true.
         rewrite Forall_forall in Hf. by apply Hf. }
    rewrite bool_decide_true by (simpl in *; lia). done.
Qed.

(** ** Exactness *)

Lemma USD_REGEX_text whole frac :
  usd_grammar whole frac →
  USD_REGEX (usd_text whole frac) =
  Some (whole, match frac with [] => None | _ => Some ("."%char :: frac) end).
Proof. intros Hg. apply USD_REGEX_iff. by exists frac. Qed.

Lemma digits_value_app a b :
  digits_value (a ++ b) = digits_value a * 10 ^ Z.of_nat (length b) + digits_value b.
Proof.
  induction b as [|c b IH] using rev_ind; [rewrite app_nil_r; change (digits_value []) with 0; simpl; lia|].
  rewrite app_assoc, !digits_value_snoc, IH, length_app. simpl length.
  rewrite Nat2Z.inj_add, Z.pow_add_r by lia. change (10 ^ Z.of_nat 1) with 10. lia.
Qed.

Lemma digits_value_zeros k : digits_value (replicate k "0"%char) = 0.
Proof.
  induction k as [|k IH]; [done|]. rewrite replicate_S_end, digits_value_snoc, IH. done.
Qed.

Lemma big_digits cs : Forall is_digit cs → cs ≠ [] → big cs = Ok (digits_value cs).
Proof. intros Hd Hne. unfold big. by rewrite BigInt_digits. Qed.

Lemma padEnd_digits frac :
  Forall is_digit frac →
  big (padEnd frac USD_DECIMALS "0"%char) = Ok (digits_value frac * 10 ^ Z.of_nat (6 - length frac)).
Proof.
  intros Hf. unfold padEnd, USD_DECIMALS. rewrite big_digits.
  - by rewrite digits_value_app, digits_value_zeros, length_replicate, Z.add_0_r.
  - apply Forall_app. split; [done|]. by apply Forall_replicate.
  - destruct frac; [done|]. done.
Qed.

Lemma parseUsd_text s whole frac :
  usd_grammar whole frac → chars s = usd_text whole frac →
  parseUsd (Some s) =
  Ok (digits_value whole * 10 ^ 6 + digits_value frac * 10 ^ Z.of_nat (6 - length frac)).
Proof.
  intros Hg Hs. pose proof Hg as (Hw & Hok & Hf & _). apply whole_ok_spec in Hok as [Hne _].
  unfold parseUsd. rewrite Hs, USD_REGEX_text by done.
  rewrite big_digits by done. cbn [mbind result_bind]. unfold USD_BASE.
  destruct frac as [|f frac]; [f_equal; change (digits_value []) with 0; lia|].
  cbn [tail]. rewrite padEnd_digits by done. cbn [mbind result_bind]. done.
Qed.

Lemma dec_digits_length fuel z k :
  0 ≤ z < 10 ^ Z.of_nat k → k ≠ 0%nat → (length (dec_digits fuel z) ≤ k)%nat.
Proof.
  revert z k; induction fuel as [|fuel IH]; intros z k Hz Hk; cbn [dec_digits]; [simpl; lia|].
  destruct (Z.ltb_spec z 10); [simpl; lia|]. rewrite length_app. simpl.
  destruct k as [|[|k]]; [done|simpl in Hz; lia|].
  enough (length (dec_digits fuel (z / 10)) ≤ S k)%nat by lia. apply IH; [|done].
  rewrite Nat2Z.inj_succ, Z.pow_succ_r in Hz by lia.
  split; [apply Z.div_pos; lia|]. apply Z.div_lt_upper_bound; lia.
Qed.

Lemma dec_digits_head fuel z :
  1 ≤ z < 2 ^ Z.of_nat fuel → ∃ c cs, dec_digits fuel z = c :: cs ∧ in_range 49 57 c = true.
Proof.
  revert z; induction fuel as [|fuel IH]; intros z Hz; [simpl in Hz; lia|]. cbn [dec_digits].
  destruct (Z.ltb_spec z 10).
  - exists (digit_char z), []. split; [done|]. unfold in_range. rewrite code_digit_char by lia. lia.
  - rewrite Nat2Z.inj_succ, Z.pow_succ_r in Hz by lia.
    destruct (IH (z / 10)) as (c & cs & -> & Hc).
    { split; [apply Z.div_le_lower_bound; lia|]. apply Z.div_lt_upper_bound; lia. }
    by exists c, (cs ++ [digit_char (z mod 10)]).
Qed.

Lemma whole_ok_toString w : 0 ≤ w < 10 ^ 15 → whole_ok (bigint_chars w) = true.
Proof.
  intros Hw. assert (Hl : (length (bigint_chars w) ≤ 15)%nat).
  { unfold bigint_chars. destruct (Z.ltb_spec w 0); [lia|]. by apply dec_digits_length. }
  destruct (Z.eq_dec w 0) as [->|Hnz]; [done|].
  unfold bigint_chars in *. destruct (Z.ltb_spec w 0); [lia|].
  destruct (dec_digits_head (S (Z.to_nat (Z.log2 w))) w) as (c & cs & Hd & Hc).
  { rewrite Nat2Z.inj_succ, Z2Nat.id by apply Z.log2_nonneg. pose proof (Z.log2_spec w). lia. }
  rewrite Hd in *. unfold whole_ok. rewrite Hc, bool_decide_true by done.
  repeat (case_match; try done).
Qed.

(** The text with all six decimals. *)
Definition usd_print (n : Z) : string :=
  text (usd_text (bigint_chars (n / 10 ^ 6)) (padStart (bigint_chars (n mod 10 ^ 6)) 6 "0"%char)).

Lemma usd_print_grammar n :
  0 ≤ n < 10 ^ 21 →
  usd_grammar (bigint_chars (n / 10 ^ 6)) (padStart (bigint_chars (n mod 10 ^ 6)) 6 "0"%char) ∧
  length (padStart (bigint_chars (n mod 10 ^ 6)) 6 "0"%char) = 6%nat.
Proof.
  intros Hn. assert (0 ≤ n / 10 ^ 6 < 10 ^ 15).
  { split; [apply Z.div_pos; lia|]. apply Z.div_lt_upper_bound; lia. }
  pose proof (Z.mod_pos_bound n (10 ^ 6) ltac:(lia)) as Hm.
  assert (length (bigint_chars (n mod 10 ^ 6)) ≤ 6)%nat as Hl.
  { unfold bigint_chars. destruct (Z.ltb_spec (n mod 10 ^ 6) 0); [lia|]. by apply dec_digits_length. }
  assert (length (padStart (bigint_chars (n mod 10 ^ 6)) 6 "0"%char) = 6%nat) as Hl6.
  { unfold padStart. rewrite length_app, length_replicate. lia. }
  split; [|done]. unfold usd_grammar. split_and!.
  - apply bigint_digits. lia.
  - by apply whole_ok_toString.
  - apply Forall_app. split; [by apply Forall_replicate|]. apply bigint_digits. lia.
  - lia.
Qed.

(** The USD parser accepts exactly the documented grammar and returns the
    exact number of base units, with an invalid-amount error for everything
    else; parsing the six-decimal text of any amount below 10^21 gives that
    amount back. *)
Theorem parse_usd_exact :
  (∀ s n, parseUsd (Some s) = Ok n ↔
     ∃ whole frac, usd_grammar whole frac ∧ chars s = usd_text whole frac ∧
       n = digits_value whole * 10 ^ 6 + digits_value frac * 10 ^ Z.of_nat (6 - length frac)) ∧
  (∀ i e, parseUsd i = Throw e → e = SdkDomainError INVALID_AMOUNT_CODE) ∧
  (∀ n, 0 ≤ n < 10 ^ 21 → parseUsd (Some (usd_print n)) = Ok n).
Proof.
  split_and!.
  - intros s n. split.
    + intros H. unfold parseUsd in H. destruct (USD_REGEX (chars s)) as [[whole part]|] eqn:Hr; [|done].
      apply USD_REGEX_iff in Hr as (frac & Hg & Hs & ->). exists whole, frac. split_and!; [done|done|].
      pose proof (parseUsd_text s whole frac Hg Hs) as Hp. unfold parseUsd in Hp.
      rewrite Hs, USD_REGEX_text in Hp by done. rewrite H in Hp. by injection Hp.
    + intros (whole & frac & Hg & Hs & ->). by apply parseUsd_text.
  - intros [s|] e H; [|by injection H as <-]. destruct (USD_REGEX (chars s)) as [[whole part]|] eqn:Hr.
    + apply USD_REGEX_iff in Hr as (frac & Hg & Hs & _). by rewrite (parseUsd_text s whole frac Hg Hs) in H.
    + unfold parseUsd in H. rewrite Hr in H. by injection H as <-.
  - intros n Hn. destruct (usd_print_grammar n Hn) as [Hg Hl].
    rewrite (parseUsd_text _ _ _ Hg) by (unfold usd_print; by rewrite chars_text). rewrite Hl.
    pose proof (Z.mod_pos_bound n (10 ^ 6) ltac:(lia)) as Hm.
    assert (Hq : 0 ≤ n / 10 ^ 6) by (apply Z.div_pos; lia).
    rewrite (proj1 (bigint_digits _ Hq)). unfold padStart.
    rewrite digits_value_app, digits_value_zeros, (proj1 (bigint_digits _ (proj1 Hm))).
    f_equal. pose proof (Z.div_mod n (10 ^ 6)). simpl (10 ^ Z.of_nat (6 - 6)). lia.
Qed.

(** ** The aggregate cap *)

Lemma validateAgentCapAggregate_Ok_iff p :
  validateAgentCapAggregate p = Ok tt ↔
  0 ≤ vaultDailyCap p ∧ 0 ≤ newAgentCap p ∧ Forall (λ c, 0 ≤ c) (existingAgentCaps p) ∧
  newAgentCap p + sumZ (existingAgentCaps p) ≤ vaultDailyCap p.
Proof.
  unfold validateAgentCapAggregate. rewrite foldl_add_sumZ.
  destruct (Z.ltb_spec (vaultDailyCap p) 0), (Z.ltb_spec (newAgentCap p) 0); simpl;
    try (split; [done|lia]).
  destruct (mapM _ (existingAgentCaps p)) as [us|e] eqn:Hm; simpl.
  - apply mapM_Ok_iff in Hm.
    assert (Forall (λ c, 0 ≤ c) (existingAgentCaps p)).
    { clear -Hm. induction Hm as [|c u l k Hc _ IH]; constructor; [|done].
      apply throw_if_Ok in Hc. lia. }
    destruct (Z.ltb_spec (vaultDailyCap p) (newAgentCap p + sumZ (existingAgentCaps p))); simpl;
      (split; [|naive_solver lia]); [done|auto].
  - split; [done|]. intros (_ & _ & Hall & _). exfalso.
    enough (∃ us, mapM (λ c, throw_if (c <? 0) (SdkDomainError CAP_EXCEEDED_CODE))
      (existingAgentCaps p) = Ok us) as [us Hus] by congruence.
    clear -Hall. induction Hall as [|c l Hc _ [us IH]]; simpl; [by eexists|].
    destruct (Z.ltb_spec c 0); [lia|]. simpl. rewrite IH. simpl. by eexists.
Qed.

(** The aggregate check passes exactly when every cap is a magnitude and the
    caps together fit the vault's; then agents that each stay within their own
    cap cannot together spend more than the vault's daily cap. *)
Theorem aggregate_caps_bound_spending p :
  (validateAgentCapAggregate p = Ok tt ↔
     0 ≤ vaultDailyCap p ∧ 0 ≤ newAgentCap p ∧ Forall (λ c, 0 ≤ c) (existingAgentCaps p) ∧
     newAgentCap p + sumZ (existingAgentCaps p) ≤ vaultDailyCap p) ∧
  (∀ spent, validateAgentCapAggregate p = Ok tt →
     Forall2 Z.le spent (newAgentCap p :: existingAgentCaps p) → sumZ spent ≤ vaultDailyCap p).
Proof.
  split; [apply validateAgentCapAggregate_Ok_iff|].
  intros spent (_ & _ & _ & Hs)%validateAgentCapAggregate_Ok_iff Hle.
  enough (sumZ spent ≤ sumZ (newAgentCap p :: existingAgentCaps p)) as Hl.
  { change (sumZ (?a :: ?b)) with (a + sumZ b) in Hl. lia. }
  induction Hle as [|x y l k Hxy _ IH]; [done|]. change (sumZ (?a :: ?b)) with (a + sumZ b). lia.
Qed.
