(* ===== verification/Base64.v ===== *)
(** * Base64, and token balances read through it ([composer.ts], [simulation.ts])

    [atob] as the language defines it, the padded encoding of RFC 4648 that
    RPC nodes and the transaction encoder produce, [parseTokenBalance] and
    [base64ByteLength].  A base64 string is a list of characters.

    The theorems: decoding inverts encoding, the amount read from an encoded
    token account is its amount field, and the byte length computed from the
    text is the length of the data. *)

From Stdlib Require String.
From Stdlib Require Import QArith.
From S2P Require Import Prelude JsText.

Local Open Scope Z_scope.

(** ** The alphabet *)

Definition b64_char (n : Z) : ascii :=
  ascii_of_nat (Z.to_nat (
    if n <? 26 then 65 + n else if n <? 52 then 97 + (n - 26) else if n <? 62 then 48 + (n - 52)
    else if n =? 62 then 43 else 47)).

Definition b64_value (c : ascii) : option Z :=
  if is_upper c then Some (code c - 65) else
  if is_lower c then Some (code c - 97 + 26) else
  if is_digit c then Some (code c - 48 + 52) else
  if code c =? 43 then Some 62 else if code c =? 47 then Some 63 else None.

(** ** Encoding *)

Fixpoint b64_body (bs : list Z) : list ascii :=
  match bs with
  | [] => []
  | [a] => [b64_char (a / 4); b64_char (a mod 4 * 16)]
  | [a; b] => [b64_char (a / 4); b64_char (a mod 4 * 16 + b / 16); b64_char (b mod 16 * 4)]
  | a :: b :: c :: bs =>
      b64_char (a / 4) :: b64_char (a mod 4 * 16 + b / 16) :: b64_char (b mod 16 * 4 + c / 64) ::
      b64_char (c mod 64) :: b64_body bs
  end.

Definition pad : ascii := "=".

Definition b64_pads (n : nat) : list ascii :=
  match (n mod 3)%nat with 1%nat => [pad; pad] | 2%nat => [pad] | _ => [] end.

Definition b64_encode (bs : list Z) : list ascii := b64_body bs ++ b64_pads (length bs).

(** ** Decoding *)

Fixpoint b64_groups (cs : list ascii) : option (list Z) :=
  match cs with
  | [] => Some []
  | [_] => None
  | [x; y] =>
      a ← b64_value x; b ← b64_value y; Some [a * 4 + b / 16]
  | [x; y; z] =>
      a ← b64_value x; b ← b64_value y; c ← b64_value z;
      Some [a * 4 + b / 16; b mod 16 * 16 + c / 4]
  | x :: y :: z :: t :: cs =>
      a ← b64_value x; b ← b64_value y; c ← b64_value z; d ← b64_value t;
      rest ← b64_groups cs;
      Some (a * 4 + b / 16 :: b mod 16 * 16 + c / 4 :: c mod 4 * 64 + d :: rest)
  end.

(** The whitespace [atob] skips. *)
Definition b64_space (c : ascii) : bool :=
  (code c =? 9) || (code c =? 10) || (code c =? 12) || (code c =? 13) || (code c =? 32).

(** At most two [=] go, and only from a text of whole groups. *)
Definition drop_pads (cs : list ascii) : list ascii :=
  if negb (bool_decide (length cs mod 4 = 0)%nat) then cs else
  match rev cs with
  | c :: d :: r =>
      if bool_decide (c = pad) then (if bool_decide (d = pad) then rev r else rev (d :: r)) else cs
  | _ => cs
  end.

(** [None] is the [InvalidCharacterError] that [atob] throws. *)
Definition atob (cs : list ascii) : option (list Z) :=
  b64_groups (drop_pads (filter (λ c, b64_space c = false) cs)).

(** ** The readers *)

(** The loop over the eight bytes at offset 64. *)
Definition parse_amount (binary : list Z) : Z :=
  if bool_decide (length binary < 72)%nat then 0 else
  foldl (λ result i, Z.lor result (Z.shiftl (nth (64 + i) binary 0) (Z.of_nat i * 8))) 0 (seq 0 8).

Definition parseTokenBalance (base64Data : list ascii) : option Z :=
  binary ← atob base64Data; Some (parse_amount binary).

Definition base64ByteLength (b64 : list ascii) : Q :=
  let len := length b64 in
  let padding :=
    (if bool_decide (0 < len)%nat && bool_decide (b64 !! (len - 1)%nat = Some pad) then 1 else 0) +
    (if bool_decide (1 < len)%nat && bool_decide (b64 !! (len - 2)%nat = Some pad) then 1 else 0) in
  ((inject_Z (Z.of_nat len) / 4) * 3 - inject_Z padding)%Q.

Definition MAX_TX_SIZE : Z := 1232.

Definition measureTransactionSize (wireBase64 : list ascii) : Q * bool :=
  let byteLength := base64ByteLength wireBase64 in
  (byteLength, Qle_bool byteLength (inject_Z MAX_TX_SIZE)).

(** ** Round trip *)

Definition sextets : list Z := map Z.of_nat (seq 0 64).

Lemma sextet_elem n : 0 ≤ n < 64 → n ∈ sextets.
Proof.
  intros H. apply list_elem_of_In, in_map_iff. exists (Z.to_nat n). split; [lia|].
  apply in_seq. lia.
Qed.

Definition good_char (n : Z) : bool :=
  bool_decide (b64_value (b64_char n) = Some n) && negb (bool_decide (b64_char n = pad)) &&
  negb (b64_space (b64_char n)).

Lemma good_chars : forallb good_char sextets = true.
Proof. vm_compute. reflexivity. Qed.

Lemma b64_char_good n :
  0 ≤ n < 64 → b64_value (b64_char n) = Some n ∧ b64_char n ≠ pad ∧ b64_space (b64_char n) = false.
Proof.
  intros H%sextet_elem. pose proof good_chars as Hg. rewrite forallb_forall in Hg.
  specialize (Hg n (proj1 (list_elem_of_In _ _) H)). unfold good_char in Hg.
  apply andb_true_iff in Hg as [Hg Hs%negb_true_iff]. apply andb_true_iff in Hg as [Hv Hp%negb_true_iff].
  apply bool_decide_eq_true in Hv. apply bool_decide_eq_false in Hp. done.
Qed.

Lemma b64_value_char n : 0 ≤ n < 64 → b64_value (b64_char n) = Some n.
Proof. intros H. apply (b64_char_good n H). Qed.

(** Induction on bytes in groups of three. *)
Lemma triples_ind (P : list Z → Prop) :
  P [] → (∀ a, P [a]) → (∀ a b, P [a; b]) → (∀ a b c bs, P bs → P (a :: b :: c :: bs)) → ∀ bs, P bs.
Proof.
  intros H0 H1 H2 H3. fix IH 1. intros [|a [|b [|c bs]]]; [done|apply H1|apply H2|].
  apply H3, IH.
Qed.

Ltac bytes_inv :=
  repeat match goal with
  | H : bytes_ok (_ :: _) |- _ => unfold bytes_ok in H
  | H : Forall byte_ok (_ :: _) |- _ => apply Forall_cons in H as [? H]
  | H : byte_ok _ |- _ => unfold byte_ok in H
  end.

(** Bounds of quotients and remainders by the constants of the encoding. *)
Ltac sextet := Z.to_euclidean_division_equations; lia.

Lemma b64_groups_body bs : bytes_ok bs → b64_groups (b64_body bs) = Some bs.
Proof.
  induction bs as [|a|a b|a b c bs IH] using triples_ind; intros Hb; bytes_inv; [done|..];
    cbn [b64_body b64_groups]; 
    repeat (rewrite b64_value_char by sextet; cbn [mbind option_bind]).
  - repeat f_equal; sextet.
  - repeat f_equal; sextet.
  - rewrite IH by done. cbn [mbind option_bind]. repeat f_equal; sextet.
Qed.

Lemma b64_body_chars bs :
  bytes_ok bs → Forall (λ c, c ≠ pad ∧ b64_space c = false) (b64_body bs).
Proof.
  induction bs as [|a|a b|a b c bs IH] using triples_ind; intros Hb; bytes_inv; [done|..];
    cbn [b64_body]; repeat (apply Forall_cons; split; [apply b64_char_good; sextet|]);
    auto using Forall_nil_2.
Qed.

Lemma mod3_step n : (S (S (S n)) mod 3 = n mod 3)%nat.
Proof. replace (S (S (S n))) with (n + 1 * 3)%nat by lia. apply Nat.Div0.mod_add. Qed.

Lemma length_b64_encode bs : ∃ k, length (b64_encode bs) = (4 * k)%nat ∧
  (length bs + length (b64_pads (length bs)) = 3 * k)%nat.
Proof.
  induction bs as [|a|a b|a b c bs (k & IH & IH')] using triples_ind;
    [by exists 0%nat|by exists 1%nat|by exists 1%nat|].
  exists (S k). unfold b64_encode in *. rewrite length_app in *. cbn [b64_body length].
  assert (b64_pads (S (S (S (length bs)))) = b64_pads (length bs)) as -> by (unfold b64_pads; by rewrite mod3_step).
  lia.
Qed.

Lemma b64_pads_cases n : b64_pads n = [] ∨ b64_pads n = [pad] ∨ b64_pads n = [pad; pad].
Proof. unfold b64_pads. repeat case_match; auto. Qed.

Lemma b64_body_long bs : bs ≠ [] → (2 ≤ length (b64_body bs))%nat.
Proof. destruct bs as [|a [|b [|c bs]]]; intros; cbn [b64_body length]; [done|lia..]. Qed.

Lemma filter_all_id {A} (P : A → Prop) `{!∀ x, Decision (P x)} (l : list A) :
  Forall P l → filter P l = l.
Proof.
  induction 1 as [|x l Hx _ IH]; [done|]. rewrite filter_cons_True by done. by rewrite IH.
Qed.

Lemma drop_pads_encode bs : bytes_ok bs → drop_pads (b64_encode bs) = b64_body bs.
Proof.
  intros Hb. pose proof (b64_body_chars bs Hb) as Hc. destruct (length_b64_encode bs) as (k & Hk & Hk').
  unfold drop_pads.
  rewrite bool_decide_eq_true_2 by (rewrite Hk, Nat.mul_comm; apply Nat.Div0.mod_mul). cbn [negb].
  unfold b64_encode in *. destruct (decide (bs = [])) as [->|Hne]; [done|].
  pose proof (b64_body_long bs Hne) as Hlong. rewrite rev_app_distr.
  assert (Forall (λ c, c ≠ pad ∧ b64_space c = false) (rev (b64_body bs))) as Hr
    by (by apply List.Forall_rev).
  assert (length (rev (b64_body bs)) = length (b64_body bs)) as Hl by apply length_rev.
  pose proof (rev_involutive (b64_body bs)) as Hbody.
  destruct (rev (b64_body bs)) as [|c [|d r]]; [simpl in Hl; lia..|].
  apply Forall_cons in Hr as [[Hcp _] _].
  destruct (b64_pads_cases (length bs)) as [->|[->| ->]]; cbn [rev app].
  - rewrite bool_decide_eq_false_2 by done. by rewrite app_nil_r.
  - rewrite bool_decide_eq_true_2 by done. rewrite bool_decide_eq_false_2 by done. exact Hbody.
  - rewrite !bool_decide_eq_true_2 by done. exact Hbody.
Qed.

Lemma b64_encode_no_space bs :
  bytes_ok bs → filter (λ c, b64_space c = false) (b64_encode bs) = b64_encode bs.
Proof.
  intros Hb. apply filter_all_id, Forall_app. split.
  - eapply Forall_impl; [apply b64_body_chars, Hb|]. by intros c [_ ?].
  - destruct (b64_pads_cases (length bs)) as [->|[->| ->]]; repeat constructor.
Qed.

Lemma atob_encode bs : bytes_ok bs → atob (b64_encode bs) = Some bs.
Proof.
  intros Hb. unfold atob. rewrite b64_encode_no_space, drop_pads_encode by done.
  by apply b64_groups_body.
Qed.

(** ** Amounts *)

Lemma lor_shiftl_high r b k : 0 ≤ k → 0 ≤ r < 2 ^ k → Z.lor r (Z.shiftl b k) = r + b * 2 ^ k.
Proof.
  intros Hk Hr. rewrite <- Z.shiftl_mul_pow2 by done.
  pose proof (Z.add_lor_land r (Z.shiftl b k)) as Hadd.
  assert (Z.land r (Z.shiftl b k) = 0) as H0; [|lia].
  apply Z.bits_inj'. intros i Hi. rewrite Z.land_spec, Z.bits_0.
  destruct (decide (i < k)); [rewrite Z.shiftl_spec_low by done; apply andb_false_r|].
  destruct (decide (r = 0)) as [->|]; [by rewrite Z.bits_0|].
  rewrite (Z.bits_above_log2 r i); [done|lia|]. assert (Z.log2 r < k); [|lia].
  apply Z.log2_lt_pow2; lia.
Qed.

(** The loop builds the little-endian value of the bytes it has seen. *)
Lemma lor_loop bytes n :
  bytes_ok bytes → (n ≤ length bytes)%nat →
  foldl (λ result i, Z.lor result (Z.shiftl (nth i bytes 0) (Z.of_nat i * 8))) 0 (seq 0 n) =
  le_value (take n bytes).
Proof.
  intros Hb. induction n as [|n IH]; intros Hn; [done|].
  rewrite seq_S, foldl_app, IH by lia. cbn [foldl plus].
  destruct (lookup_lt_is_Some_2 bytes n) as [b Hbn]; [lia|].
  rewrite (take_S_r _ _ _ Hbn), (nth_lookup_Some _ _ _ _ Hbn).
  assert (byte_ok b) by (by eapply Forall_lookup_1 in Hb).
  pose proof (le_value_bounds (take n bytes)) as Hv.
  rewrite length_take, Nat.min_l in Hv by lia.
  rewrite lor_shiftl_high; [|lia|rewrite (Z.mul_comm _ 8); by apply Hv, Forall_take].
  rewrite le_value_app, length_take, Nat.min_l by lia. cbn [le_value].
  rewrite (Z.mul_comm (Z.of_nat n) 8). lia.
Qed.

Lemma parse_amount_value binary :
  bytes_ok binary → (72 ≤ length binary)%nat →
  parse_amount binary = le_value (take 8 (drop 64 binary)).
Proof.
  intros Hb Hl. unfold parse_amount. rewrite bool_decide_eq_false_2 by lia.
  rewrite <- (lor_loop (drop 64 binary)); [|by apply Forall_drop|rewrite length_drop; lia].
  assert (∀ i, nth (64 + i) binary 0 = nth i (drop 64 binary) 0) as Hn.
  { intros i. rewrite !nth_lookup, lookup_drop. done. }
  generalize 0 at 2 4 as acc. intros acc. cbn [seq foldl]. by rewrite !Hn.
Qed.

(** The balance read from the base64 text of a token account is the account's
    amount field, the little-endian u64 at offset 64, and 0 for data too short
    to hold one; text that is not base64 makes the reader throw, never
    return 0. *)
Theorem token_balance_read_exactly data :
  bytes_ok data →
  parseTokenBalance (b64_encode data) =
    Some (if bool_decide (length data < 72)%nat then 0 else le_value (take 8 (drop 64 data))) ∧
  ∀ text, parseTokenBalance text = None ↔ atob text = None.
Proof.
  intros Hb. split.
  - unfold parseTokenBalance. rewrite atob_encode by done. cbn [mbind option_bind]. f_equal.
    case_bool_decide as Hl; [|by apply parse_amount_value; [|lia]].
    unfold parse_amount. by rewrite bool_decide_eq_true_2.
  - intros text. unfold parseTokenBalance. by destruct (atob text).
Qed.

Lemma token_balance_read_exactly_witness :
  let data := replicate 64 7 ++ [1; 2; 0; 0; 0; 0; 0; 0] ++ replicate 93 0 in
  parseTokenBalance (b64_encode data) = Some 513 ∧
  parseTokenBalance (b64_encode data) =
    Some (if bool_decide (length data < 72)%nat then 0 else le_value (take 8 (drop 64 data))).
Proof.
  intros data. split; [vm_compute; reflexivity|].
  apply (token_balance_read_exactly data). apply Forall_forall. intros x Hx.
  repeat (apply elem_of_cons in Hx as [->|Hx]; [vm_compute; by split|]). by apply elem_of_nil in Hx.
Defined.

(** ** Sizes *)

Lemma last_two (l : list ascii) x y :
  (l ++ [x; y]) !! (length (l ++ [x; y]) - 1)%nat = Some y ∧
  (l ++ [x; y]) !! (length (l ++ [x; y]) - 2)%nat = Some x.
Proof.
  rewrite length_app. simpl. split; rewrite lookup_app_r by lia.
  - by replace (length l + 2 - 1 - length l)%nat with 1%nat by lia.
  - by replace (length l + 2 - 2 - length l)%nat with 0%nat by lia.
Qed.

(** The padding the code counts is the padding of the encoding. *)
Lemma counted_padding bs :
  bytes_ok bs →
  (if bool_decide (0 < length (b64_encode bs))%nat &&
      bool_decide (b64_encode bs !! (length (b64_encode bs) - 1)%nat = Some pad) then 1 else 0) +
  (if bool_decide (1 < length (b64_encode bs))%nat &&
      bool_decide (b64_encode bs !! (length (b64_encode bs) - 2)%nat = Some pad) then 1 else 0) =
  Z.of_nat (length (b64_pads (length bs))).
Proof.
  intros Hb. destruct (decide (bs = [])) as [->|Hne]; [done|].
  pose proof (b64_body_long bs Hne) as Hlong. pose proof (b64_body_chars bs Hb) as Hc.
  unfold b64_encode. rewrite !(bool_decide_eq_true_2 (_ < _)%nat) by (rewrite length_app; lia).
  destruct (b64_body bs) as [|x l _] using rev_ind; [simpl in Hlong; lia|].
  destruct l as [|y l _] using rev_ind; [simpl in Hlong; lia|]. clear Hlong.
  apply Forall_app in Hc as [Hc [Hx _]%Forall_cons]. apply Forall_app in Hc as [_ [Hy _]%Forall_cons].
  destruct Hx as [Hx _], Hy as [Hy _].
  assert (∃ l' p q, ((l ++ [y]) ++ [x]) ++ b64_pads (length bs) = l' ++ [p; q] ∧
    (if bool_decide (q = pad) then 1 else 0) + (if bool_decide (p = pad) then 1 else 0) =
    Z.of_nat (length (b64_pads (length bs)))) as (l' & p & q & -> & <-).
  { destruct (b64_pads_cases (length bs)) as [->|[->| ->]].
    - exists l, y, x. rewrite <- !app_assoc, !bool_decide_eq_false_2 by done. done.
    - exists (l ++ [y]), x, pad. rewrite <- !app_assoc, (bool_decide_eq_false_2 (x = pad)) by done. done.
    - exists (l ++ [y; x]), pad, pad. by rewrite <- !app_assoc. }
  destruct (last_two l' p q) as [-> ->]. cbn [andb].
  rewrite (bool_decide_ext (Some q = Some pad) (q = pad)), (bool_decide_ext (Some p = Some pad) (p = pad))
    by (split; congruence). done.
Qed.

(** The byte length computed from the padded base64 text of a transaction is
    the number of its bytes, so the size check accepts exactly the
    transactions of at most 1232 bytes. *)
Theorem size_check_is_exact wire :
  bytes_ok wire →
  (fst (measureTransactionSize (b64_encode wire)) == inject_Z (Z.of_nat (length wire)))%Q ∧
  (snd (measureTransactionSize (b64_encode wire)) = true ↔ (length wire ≤ 1232)%nat).
Proof.
  intros Hb. unfold measureTransactionSize. cbn [fst snd].
  assert (base64ByteLength (b64_encode wire) == inject_Z (Z.of_nat (length wire)))%Q as Heq.
  { unfold base64ByteLength. rewrite counted_padding by done.
    destruct (length_b64_encode wire) as (k & -> & Hk).
    unfold Qeq, inject_Z, Qdiv, Qmult, Qminus, Qplus, Qinv, Qopp. simpl. lia. }
  split; [done|]. rewrite Qle_bool_iff, Heq. rewrite <- Zle_Qle. unfold MAX_TX_SIZE. lia.
Qed.

Lemma size_check_is_exact_witness :
  snd (measureTransactionSize (b64_encode (replicate 1233 0))) = false ∧
  (fst (measureTransactionSize (b64_encode (replicate 4 0%Z))) ==
   inject_Z (Z.of_nat (length (replicate 4 0%Z))))%Q.
Proof.
  split; [vm_compute; reflexivity|].
  apply (size_check_is_exact (replicate 4 0%Z)). apply Forall_replicate. by split.
Defined.
