(* ===== verification/JsValue.v ===== *)
(** * Dynamic values of the language

    Code that receives [unknown] inspects it with [typeof], [instanceof],
    property reads and string searches.  This file models those values: data
    without accessors or proxies, so that reading a property has no effect.
    Numbers are the integers, NaN and the infinities, which is what error
    codes, statuses and delays are; an [Error] carries its message, a string
    by construction, apart from its other own properties. *)

From S2P Require Import Prelude JsMap JsText.

Local Open Scope Z_scope.

Inductive number : Type :=
| Int (z : Z)
| NaN
| Infinite (negative : bool).

#[export] Instance number_eq_dec : EqDecision number.
Proof. solve_decision. Defined.

Definition isFinite (n : number) : bool := match n with Int _ => true | _ => false end.

(** [x >= z] and [x <= z]; every comparison with NaN is false. *)
Definition num_ge (x : number) (z : Z) : bool :=
  match x with Int a => z <=? a | Infinite neg => negb neg | NaN => false end.
Definition num_le (x : number) (z : Z) : bool :=
  match x with Int a => a <=? z | Infinite neg => neg | NaN => false end.

Definition num_toString (n : number) : string :=
  match n with
  | Int z => bigint_toString z
  | NaN => "NaN"
  | Infinite neg => if neg then "-Infinity" else "Infinity"
  end.

(** The error classes that [instanceof] tests tell apart. *)
Inductive error_class : Type :=
| CError | CTypeError | CAggregateError | CDOMException | CSigilError | CSigilSdkError.

#[export] Instance error_class_eq_dec : EqDecision error_class.
Proof. solve_decision. Defined.

Inductive jsv : Type :=
| JUndef
| JNull
| JBool (b : bool)
| JNum (n : number)
| JBig (z : Z)
| JStr (s : string)
| JFun
| JArr (items : list jsv)
| JObj (fields : list (string * jsv))
| JErr (cls : error_class) (message : string) (fields : list (string * jsv)).

Definition fields_t : Type := list (string * jsv).

(** [!!v]. *)
Definition truthy (v : jsv) : bool :=
  match v with
  | JUndef | JNull => false
  | JBool b => b
  | JNum (Int z) => negb (z =? 0)
  | JNum NaN => false
  | JBig z => negb (z =? 0)
  | JStr s => negb (bool_decide (s = ""))
  | _ => true
  end.

Inductive js_type : Type :=
| TUndefined | TObject | TBoolean | TNumber | TBigint | TString | TFunction.

#[export] Instance js_type_eq_dec : EqDecision js_type.
Proof. solve_decision. Defined.

Definition typeof (v : jsv) : js_type :=
  match v with
  | JUndef => TUndefined
  | JNull | JArr _ | JObj _ | JErr _ _ _ => TObject
  | JBool _ => TBoolean
  | JNum _ => TNumber
  | JBig _ => TBigint
  | JStr _ => TString
  | JFun => TFunction
  end.

Definition is_string (v : jsv) : bool := bool_decide (typeof v = TString).
Definition is_boolean (v : jsv) : bool := bool_decide (typeof v = TBoolean).
(** [v !== null && typeof v === "object"]. *)
Definition is_object (v : jsv) : bool :=
  match v with JArr _ | JObj _ | JErr _ _ _ => true | _ => false end.
Definition is_array (v : jsv) : bool := match v with JArr _ => true | _ => false end.
Definition instanceof_Error (v : jsv) : bool := match v with JErr _ _ _ => true | _ => false end.

Definition type_name (t : js_type) : string :=
  match t with
  | TUndefined => "undefined" | TObject => "object" | TBoolean => "boolean"
  | TNumber => "number" | TBigint => "bigint" | TString => "string" | TFunction => "function"
  end.

(** The [name] an error inherits from its class. *)
Definition class_name (c : error_class) : string :=
  match c with
  | CTypeError => "TypeError"
  | CAggregateError => "AggregateError"
  | _ => "Error"
  end.

(** [k in v] and [v.k] for the property names the code reads; none of them is
    inherited from [Object.prototype] or [Array.prototype]. *)
Definition prop (v : jsv) (k : string) : option jsv :=
  match v with
  | JObj fs => jm_get k fs
  | JErr c m fs =>
      if bool_decide (k = "message") then Some (JStr m)
      else match jm_get k fs with
           | Some x => Some x
           | None => if bool_decide (k = "name") then Some (JStr (class_name c)) else None
           end
  | _ => None
  end.
Definition field (v : jsv) (k : string) : jsv := default JUndef (prop v k).

(** [a ?? b]. *)
Definition nullish (a b : jsv) : jsv := match a with JUndef | JNull => b | _ => a end.

(** [String(v)]; an object prints by its class, an array by its items. *)
Fixpoint js_String (v : jsv) : string :=
  match v with
  | JUndef => "undefined"
  | JNull => "null"
  | JBool b => if b then "true" else "false"
  | JNum n => num_toString n
  | JBig z => bigint_toString z
  | JStr s => s
  | JFun => "function () { [native code] }"
  | JArr l =>
      (fix join (l : list jsv) : string :=
         let item x := match x with JUndef | JNull => "" | _ => js_String x end in
         match l with
         | [] => ""
         | [x] => item x
         | x :: l => (item x ++ "," ++ join l)%string
         end) l
  | JObj _ => "[object Object]"
  | JErr c m fs =>
      let name := match jm_get "name" fs with Some (JStr n) => n | _ => class_name c end in
      if bool_decide (m = "") then name
      else if bool_decide (name = "") then m else (name ++ ": " ++ m)%string
  end.

(** ** Searching text *)

(** [s.includes(sub)]. *)
Fixpoint includes (s sub : string) : bool :=
  startsWith s sub || match s with EmptyString => false | String _ s' => includes s' sub end.

(** [.] of a regular expression matches every character but a line end. *)
Definition is_dot (c : ascii) : bool := negb ((code c =? 10) || (code c =? 13)).

(** The rest of [/.+post/] from the current position. *)
Fixpoint gap_then (post s : string) : bool :=
  match s with
  | EmptyString => false
  | String c s' => is_dot c && (startsWith s' post || gap_then post s')
  end.

Definition drop_prefix (p s : string) : string :=
  String.substring (String.length p) (String.length s - String.length p) s.

(** [/pre.+post/.test(s)]. *)
Fixpoint test_gap (pre post s : string) : bool :=
  (startsWith s pre && gap_then post (drop_prefix pre s)) ||
  match s with EmptyString => false | String _ s' => test_gap pre post s' end.

Definition is_hex (c : ascii) : bool := hex_value c <? 16.

(** [s.match(/lit([0-9a-fA-F]+)/)]: the digits after the leftmost match. *)
Fixpoint match_hex (lit s : string) : option (list ascii) :=
  let here := if startsWith s lit
              then (span is_hex (chars (drop_prefix lit s))).1 else [] in
  match here with
  | _ :: _ => Some here
  | [] => match s with EmptyString => None | String _ s' => match_hex lit s' end
  end.

(** ** Numbers in text *)

Definition digits_in (r : Z) (cs : list ascii) : Z :=
  foldl (λ acc c, r * acc + hex_value c) 0 cs.

Definition sign_of (cs : list ascii) : Z * list ascii :=
  match cs with
  | "-"%char :: cs => (-1, cs)
  | "+"%char :: cs => (1, cs)
  | _ => (1, cs)
  end.

(** [parseInt(s, radix)] for the radixes 10 and 16: white space, a sign, with
    radix 16 an optional [0x], then the longest run of digits. *)
Definition parseInt (radix : Z) (s : string) : number :=
  let '(sg, cs) := sign_of (span is_space (chars s)).2 in
  let cs := match cs with
            | "0"%char :: ("x" | "X")%char :: rest => if radix =? 16 then rest else cs
            | _ => cs
            end in
  match (span (λ c, hex_value c <? radix) cs).1 with
  | [] => NaN
  | ds => Int (sg * digits_in radix ds)
  end.

(** [Number(s)] for the integer literals of the language, with white space
    around; any other text is no number. *)
Definition Number_text (s : string) : number :=
  match trim (chars s) with
  | cs =>
      let '(sg, ds) := sign_of cs in
      if bool_decide (text ds = "Infinity") then Infinite (sg <? 0)
      else match BigInt (text cs) with Some z => Int z | None => NaN end
  end.

Example parse_number_examples :
  (parseInt 10 "6010", parseInt 16 "0x1770", parseInt 16 "0X17e6", parseInt 10 "  -7x",
   parseInt 10 "", Number_text "6010", Number_text "RPC_ERROR", Number_text "-Infinity") =
  (Int 6010, Int 6000, Int 6118, Int (-7), NaN, Int 6010, NaN, Infinite true).
Proof. vm_compute. reflexivity. Qed.

Example search_examples :
  (includes "got 429 back" "429", test_gap "Agent " " is paused" "Agent X is paused",
   test_gap "Agent " " is paused" "Agent  is paused",
   text <$> match_hex "error: 0x" "error: 0xz error: 0x17Ag") =
  (true, true, false, Some "17A").
Proof. vm_compute. reflexivity. Qed.

(** ** Objects *)

(** [{...a, k: v}] keeps the place of a key that [a] already has. *)
Definition with_field (k : string) (v : jsv) (fs : fields_t) : fields_t := jm_set k v fs.

(** The properties an object literal inherits: reading one of these names
    through [table[name]] finds a value even when the table has no such key. *)
Definition object_prototype_keys : list string :=
  ["constructor"; "__defineGetter__"; "__defineSetter__"; "hasOwnProperty"; "__lookupGetter__";
   "__lookupSetter__"; "isPrototypeOf"; "propertyIsEnumerable"; "toString"; "valueOf";
   "toLocaleString"].

(** [table[key]] for an object literal and a computed string key. *)
Definition table_get {A} (inj : A → jsv) (table : list (string * A)) (k : string) : jsv :=
  match jm_get k table with
  | Some a => inj a
  | None => if bool_decide (k ∈ object_prototype_keys) then JFun
            else if bool_decide (k = "__proto__") then JObj [] else JUndef
  end.

(** ** Lemmas *)

Lemma with_field_get k v fs : jm_get k (with_field k v fs) = Some v.
Proof. apply jm_get_set_eq. Qed.
