(* ===== verification/DashboardJson.v ===== *)
(** * Dashboard views and their JSON (dashboard/types.ts, from-json.ts, reads.ts)

    Every view of the owner dashboard has a [toJSON] that turns its bigints
    into decimal text and a [fromJSON] that restores it.  Each view is one
    record over the type of its amounts: [Z] alive, [string] serialized.  The
    keys that older JSON may lack are wrapped by [opt]: present alive, optional
    serialized.  Other numbers are passed through and stay abstract. *)

From S2P Require Import Prelude JsMap JsText JsValue.

Local Open Scope Z_scope.

(** ** Amounts *)

(** [bs]: [v.toString()]. *)
Definition bs (v : Z) : string := bigint_toString v.

(** [bi]: the empty text, a missing key and a text that is no integer are 0. *)
Definition bi (s : option string) : Z :=
  match s with
  | Some s => if bool_decide (s = "") then 0 else default 0 (BigInt s)
  | None => 0
  end.

Arguments bs : simpl never.
Arguments bi : simpl never.

(** ** Views *)

Definition here (T : Type) : Type := T.

Section Views.
Context {N : Type}.

Record HealthCheck : Type := { hc_name : string; hc_passed : bool }.

Record VaultState (B : Type) (opt : Type → Type) : Type := {
  vw_address : string; vw_status : string; vw_owner : string; vw_agentCount : Z;
  vw_totalVolume : B; vw_totalFees : B; vw_observeOnly : opt bool;
  vw_total : B; vw_tokens : list (string * B * Z);
  vw_pnlPercent : N; vw_pnlAbsolute : B;
  vw_level : string; vw_alertCount : Z; vw_checks : list HealthCheck;
}.

Record AgentData (B : Type) : Type := {
  ad_address : string; ad_status : string; ad_capabilityLabel : string; ad_capability : Z;
  ad_amount : B; ad_limit : B; ad_percent : N;
  ad_lastActionType : string; ad_lastActionProtocol : string; ad_lastActionTimestamp : Z;
  ad_blockedCount24h : Z;
}.

Record ProtocolShare (B : Type) : Type := {
  sh_name : string; sh_programId : string; sh_amount : B; sh_percent : N;
}.

Record SpendingData (B : Type) : Type := {
  sd_today : B; sd_cap : B; sd_remaining : B; sd_percent : N; sd_rundownMs : N;
  sd_chart : list (string * N); sd_protocolBreakdown : list (ProtocolShare B);
}.

Record ActivityRow (B : Type) : Type := {
  ar_id : string; ar_timestamp : Z; ar_type : string; ar_protocol : string; ar_protocolId : string;
  ar_agent : string; ar_amount : B; ar_status : string; ar_reason : option string;
  ar_txSignature : option string;
}.

(** [nextCursor] is a text or null; serialized it may also be missing. *)
Record ActivityData (B : Type) (opt : Type → Type) : Type := {
  av_rows : list (ActivityRow B);
  av_total : Z; av_approved : Z; av_blocked : Z; av_volume : B;
  av_nextCursor : opt (option string);
}.

Record LastBlock (B : Type) : Type := {
  lb_agent : string; lb_reason : string; lb_amount : B; lb_timestamp : Z;
}.

Record HealthData (B : Type) : Type := {
  hd_level : string; hd_blockedCount24h : Z; hd_checks : list HealthCheck;
  hd_lastBlock : option (LastBlock B);
}.

Record ProtocolHash : Type := { ph_programId : string; ph_armed : bool; ph_hash : option string }.

(** [changes] is a bag of values of many types. *)
Record PendingUpdate : Type := {
  pu_changes : jsv; pu_appliesAt : Z; pu_canApply : bool; pu_canCancel : bool;
}.

Record PolicyData (B : Type) (opt : Type → Type) : Type := {
  pv_dailyCap : B; pv_maxPerTrade : B; pv_approvedApps : list (string * string);
  pv_protocolMode : string; pv_hasProtocolCaps : bool; pv_protocolCaps : list B;
  pv_maxSlippageBps : Z; pv_allowedDestinations : list string; pv_developerFeeRate : Z;
  pv_sessionExpirySeconds : B; pv_timelockSeconds : Z; pv_policyVersion : B;
  pv_cosignRequired : opt bool; pv_cosignSessionPubkey : opt (option string);
  pv_stableBalanceFloor : opt B; pv_perRecipientDailyCapUsd : opt (option B);
  pv_destinationMode : opt Z; pv_operatorGrantDelaySeconds : opt B;
  pv_protocolHashes : opt (list ProtocolHash); pv_graylist : opt (list (string * B));
  pv_pendingUpdate : option PendingUpdate;
}.

Record DiscoveredVault (B : Type) : Type := {
  dv_address : string; dv_vaultId : B; dv_status : string; dv_agentCount : Z;
}.

Record OverviewData (B : Type) (opt : Type → Type) : Type := {
  ov_vault : VaultState B opt; ov_agents : list (AgentData B); ov_spending : SpendingData B;
  ov_health : HealthData B; ov_policy : PolicyData B opt; ov_activity : list (ActivityRow B);
}.
End Views.

Arguments VaultState N : clear implicits.
Arguments AgentData N : clear implicits.
Arguments ProtocolShare N : clear implicits.
Arguments SpendingData N : clear implicits.
Arguments OverviewData N : clear implicits.

(** ** toJSON (reads.ts) *)

(** [serializeBigints]: every bigint of a value becomes text. *)
Fixpoint serializeBigints (v : jsv) : jsv :=
  match v with
  | JBig z => JStr (bigint_toString z)
  | JArr l => JArr (map serializeBigints l)
  | JObj fs => JObj (map (λ p, (p.1, serializeBigints p.2)) fs)
  | _ => v
  end.

Section Json.
Context {N : Type}.

Definition share_toJSON (p : ProtocolShare N Z) : ProtocolShare N string := {|
  sh_name := sh_name _ p; sh_programId := sh_programId _ p; sh_amount := bs (sh_amount _ p);
  sh_percent := sh_percent _ p |}.
Definition share_fromJSON (p : ProtocolShare N string) : ProtocolShare N Z := {|
  sh_name := sh_name _ p; sh_programId := sh_programId _ p; sh_amount := bi (Some (sh_amount _ p));
  sh_percent := sh_percent _ p |}.

Definition vaultState_toJSON (v : VaultState N Z here) : VaultState N string option := {|
  vw_address := vw_address _ _ v; vw_status := vw_status _ _ v; vw_owner := vw_owner _ _ v;
  vw_agentCount := vw_agentCount _ _ v; vw_totalVolume := bs (vw_totalVolume _ _ v);
  vw_totalFees := bs (vw_totalFees _ _ v); vw_observeOnly := Some (vw_observeOnly _ _ v);
  vw_total := bs (vw_total _ _ v);
  vw_tokens := map (λ t, (t.1.1, bs t.1.2, t.2)) (vw_tokens _ _ v);
  vw_pnlPercent := vw_pnlPercent _ _ v; vw_pnlAbsolute := bs (vw_pnlAbsolute _ _ v);
  vw_level := vw_level _ _ v; vw_alertCount := vw_alertCount _ _ v; vw_checks := vw_checks _ _ v |}.

Definition agentData_toJSON (a : AgentData N Z) : AgentData N string := {|
  ad_address := ad_address _ a; ad_status := ad_status _ a; ad_capabilityLabel := ad_capabilityLabel _ a;
  ad_capability := ad_capability _ a; ad_amount := bs (ad_amount _ a); ad_limit := bs (ad_limit _ a);
  ad_percent := ad_percent _ a; ad_lastActionType := ad_lastActionType _ a;
  ad_lastActionProtocol := ad_lastActionProtocol _ a;
  ad_lastActionTimestamp := ad_lastActionTimestamp _ a; ad_blockedCount24h := ad_blockedCount24h _ a |}.

Definition spendingData_toJSON (s : SpendingData N Z) : SpendingData N string := {|
  sd_today := bs (sd_today _ s); sd_cap := bs (sd_cap _ s); sd_remaining := bs (sd_remaining _ s);
  sd_percent := sd_percent _ s; sd_rundownMs := sd_rundownMs _ s; sd_chart := sd_chart _ s;
  sd_protocolBreakdown := map share_toJSON (sd_protocolBreakdown _ s) |}.

Definition activityRow_toJSON (r : ActivityRow Z) : ActivityRow string := {|
  ar_id := ar_id _ r; ar_timestamp := ar_timestamp _ r; ar_type := ar_type _ r;
  ar_protocol := ar_protocol _ r; ar_protocolId := ar_protocolId _ r; ar_agent := ar_agent _ r;
  ar_amount := bs (ar_amount _ r); ar_status := ar_status _ r; ar_reason := ar_reason _ r;
  ar_txSignature := ar_txSignature _ r |}.

Definition activityData_toJSON (a : ActivityData Z here) : ActivityData string option := {|
  av_rows := map activityRow_toJSON (av_rows _ _ a); av_total := av_total _ _ a;
  av_approved := av_approved _ _ a; av_blocked := av_blocked _ _ a; av_volume := bs (av_volume _ _ a);
  av_nextCursor := Some (av_nextCursor _ _ a) |}.

Definition lastBlock_toJSON (b : LastBlock Z) : LastBlock string := {|
  lb_agent := lb_agent _ b; lb_reason := lb_reason _ b; lb_amount := bs (lb_amount _ b);
  lb_timestamp := lb_timestamp _ b |}.

Definition healthData_toJSON (h : HealthData Z) : HealthData string := {|
  hd_level := hd_level _ h; hd_blockedCount24h := hd_blockedCount24h _ h; hd_checks := hd_checks _ h;
  hd_lastBlock := lastBlock_toJSON <$> hd_lastBlock _ h |}.

Definition pendingUpdate_toJSON (p : PendingUpdate) : PendingUpdate := {|
  pu_changes := serializeBigints (pu_changes p); pu_appliesAt := pu_appliesAt p;
  pu_canApply := pu_canApply p; pu_canCancel := pu_canCancel p |}.

Definition policyData_toJSON (p : PolicyData Z here) : PolicyData string option := {|
  pv_dailyCap := bs (pv_dailyCap _ _ p); pv_maxPerTrade := bs (pv_maxPerTrade _ _ p);
  pv_approvedApps := pv_approvedApps _ _ p; pv_protocolMode := pv_protocolMode _ _ p;
  pv_hasProtocolCaps := pv_hasProtocolCaps _ _ p; pv_protocolCaps := map bs (pv_protocolCaps _ _ p);
  pv_maxSlippageBps := pv_maxSlippageBps _ _ p; pv_allowedDestinations := pv_allowedDestinations _ _ p;
  pv_developerFeeRate := pv_developerFeeRate _ _ p;
  pv_sessionExpirySeconds := bs (pv_sessionExpirySeconds _ _ p);
  pv_timelockSeconds := pv_timelockSeconds _ _ p; pv_policyVersion := bs (pv_policyVersion _ _ p);
  pv_cosignRequired := Some (pv_cosignRequired _ _ p);
  pv_cosignSessionPubkey := Some (pv_cosignSessionPubkey _ _ p);
  pv_stableBalanceFloor := Some (bs (pv_stableBalanceFloor _ _ p));
  pv_perRecipientDailyCapUsd := Some (option_map bs (pv_perRecipientDailyCapUsd _ _ p));
  pv_destinationMode := Some (pv_destinationMode _ _ p);
  pv_operatorGrantDelaySeconds := Some (bs (pv_operatorGrantDelaySeconds _ _ p));
  pv_protocolHashes := Some (pv_protocolHashes _ _ p);
  pv_graylist := Some (map (λ g, (g.1, bs g.2)) (pv_graylist _ _ p : list (string * Z)));
  pv_pendingUpdate := pendingUpdate_toJSON <$> pv_pendingUpdate _ _ p |}.

Definition discoveredVault_toJSON (d : DiscoveredVault Z) : DiscoveredVault string := {|
  dv_address := dv_address _ d; dv_vaultId := bs (dv_vaultId _ d); dv_status := dv_status _ d;
  dv_agentCount := dv_agentCount _ d |}.

Definition overviewData_toJSON (o : OverviewData N Z here) : OverviewData N string option := {|
  ov_vault := vaultState_toJSON (ov_vault _ _ o); ov_agents := map agentData_toJSON (ov_agents _ _ o);
  ov_spending := spendingData_toJSON (ov_spending _ _ o);
  ov_health := healthData_toJSON (ov_health _ _ o); ov_policy := policyData_toJSON (ov_policy _ _ o);
  ov_activity := map activityRow_toJSON (ov_activity _ _ o) |}.

(** ** fromJSON (from-json.ts) *)

Definition vaultStateFromJSON (d : VaultState N string option) : VaultState N Z here := {|
  vw_address := vw_address _ _ d; vw_status := vw_status _ _ d; vw_owner := vw_owner _ _ d;
  vw_agentCount := vw_agentCount _ _ d; vw_totalVolume := bi (Some (vw_totalVolume _ _ d));
  vw_totalFees := bi (Some (vw_totalFees _ _ d)); vw_observeOnly := default false (vw_observeOnly _ _ d);
  vw_total := bi (Some (vw_total _ _ d));
  vw_tokens := map (λ t, (t.1.1, bi (Some t.1.2), t.2)) (vw_tokens _ _ d);
  vw_pnlPercent := vw_pnlPercent _ _ d; vw_pnlAbsolute := bi (Some (vw_pnlAbsolute _ _ d));
  vw_level := vw_level _ _ d; vw_alertCount := vw_alertCount _ _ d; vw_checks := vw_checks _ _ d |}.

Definition agentDataFromJSON (d : AgentData N string) : AgentData N Z := {|
  ad_address := ad_address _ d; ad_status := ad_status _ d; ad_capabilityLabel := ad_capabilityLabel _ d;
  ad_capability := ad_capability _ d; ad_amount := bi (Some (ad_amount _ d));
  ad_limit := bi (Some (ad_limit _ d)); ad_percent := ad_percent _ d;
  ad_lastActionType := ad_lastActionType _ d; ad_lastActionProtocol := ad_lastActionProtocol _ d;
  ad_lastActionTimestamp := ad_lastActionTimestamp _ d; ad_blockedCount24h := ad_blockedCount24h _ d |}.

Definition spendingDataFromJSON (d : SpendingData N string) : SpendingData N Z := {|
  sd_today := bi (Some (sd_today _ d)); sd_cap := bi (Some (sd_cap _ d));
  sd_remaining := bi (Some (sd_remaining _ d)); sd_percent := sd_percent _ d;
  sd_rundownMs := sd_rundownMs _ d; sd_chart := sd_chart _ d;
  sd_protocolBreakdown := map share_fromJSON (sd_protocolBreakdown _ d) |}.

Definition activityRowFromJSON (d : ActivityRow string) : ActivityRow Z := {|
  ar_id := ar_id _ d; ar_timestamp := ar_timestamp _ d; ar_type := ar_type _ d;
  ar_protocol := ar_protocol _ d; ar_protocolId := ar_protocolId _ d; ar_agent := ar_agent _ d;
  ar_amount := bi (Some (ar_amount _ d)); ar_status := ar_status _ d; ar_reason := ar_reason _ d;
  ar_txSignature := ar_txSignature _ d |}.

Definition activityDataFromJSON (d : ActivityData string option) : ActivityData Z here := {|
  av_rows := map activityRowFromJSON (av_rows _ _ d); av_total := av_total _ _ d;
  av_approved := av_approved _ _ d; av_blocked := av_blocked _ _ d;
  av_volume := bi (Some (av_volume _ _ d)); av_nextCursor := default None (av_nextCursor _ _ d) |}.

Definition lastBlockFromJSON (d : LastBlock string) : LastBlock Z := {|
  lb_agent := lb_agent _ d; lb_reason := lb_reason _ d; lb_amount := bi (Some (lb_amount _ d));
  lb_timestamp := lb_timestamp _ d |}.

Definition healthDataFromJSON (d : HealthData string) : HealthData Z := {|
  hd_level := hd_level _ d; hd_blockedCount24h := hd_blockedCount24h _ d; hd_checks := hd_checks _ d;
  hd_lastBlock := lastBlockFromJSON <$> hd_lastBlock _ d |}.

(** The pending update is handed on as it is. *)
Definition policyDataFromJSON (d : PolicyData string option) : PolicyData Z here := {|
  pv_dailyCap := bi (Some (pv_dailyCap _ _ d)); pv_maxPerTrade := bi (Some (pv_maxPerTrade _ _ d));
  pv_approvedApps := pv_approvedApps _ _ d; pv_protocolMode := pv_protocolMode _ _ d;
  pv_hasProtocolCaps := pv_hasProtocolCaps _ _ d;
  pv_protocolCaps := map (λ s, bi (Some s)) (pv_protocolCaps _ _ d);
  pv_maxSlippageBps := pv_maxSlippageBps _ _ d; pv_allowedDestinations := pv_allowedDestinations _ _ d;
  pv_developerFeeRate := pv_developerFeeRate _ _ d;
  pv_sessionExpirySeconds := bi (Some (pv_sessionExpirySeconds _ _ d));
  pv_timelockSeconds := pv_timelockSeconds _ _ d; pv_policyVersion := bi (Some (pv_policyVersion _ _ d));
  pv_cosignRequired := default false (pv_cosignRequired _ _ d);
  pv_cosignSessionPubkey := default None (pv_cosignSessionPubkey _ _ d);
  pv_stableBalanceFloor := bi (pv_stableBalanceFloor _ _ d);
  pv_perRecipientDailyCapUsd := 
    (option_map (λ s, bi (Some s)) (default None (pv_perRecipientDailyCapUsd _ _ d)) : option Z);
  pv_destinationMode := default 0 (pv_destinationMode _ _ d);
  pv_operatorGrantDelaySeconds := bi (pv_operatorGrantDelaySeconds _ _ d);
  pv_protocolHashes := default [] (pv_protocolHashes _ _ d);
  pv_graylist := map (λ g, (g.1, bi (Some g.2))) (default [] (pv_graylist _ _ d));
  pv_pendingUpdate := pv_pendingUpdate _ _ d |}.

Definition discoveredVaultFromJSON (d : DiscoveredVault string) : DiscoveredVault Z := {|
  dv_address := dv_address _ d; dv_vaultId := bi (Some (dv_vaultId _ d)); dv_status := dv_status _ d;
  dv_agentCount := dv_agentCount _ d |}.

Definition overviewDataFromJSON (d : OverviewData N string option) : OverviewData N Z here := {|
  ov_vault := vaultStateFromJSON (ov_vault _ _ d); ov_agents := map agentDataFromJSON (ov_agents _ _ d);
  ov_spending := spendingDataFromJSON (ov_spending _ _ d);
  ov_health := healthDataFromJSON (ov_health _ _ d); ov_policy := policyDataFromJSON (ov_policy _ _ d);
  ov_activity := map activityRowFromJSON (ov_activity _ _ d) |}.
End Json.

(** ** Round trips *)

Lemma bs_not_empty z : bs z ≠ "".
Proof.
  unfold bs, bigint_toString. intros H. apply (f_equal chars) in H. rewrite chars_text in H.
  revert H. unfold bigint_chars. destruct (z <? 0) eqn:E; [discriminate|].
  simpl. destruct (z <? 10); [discriminate|]. intros H. by destruct (dec_digits _ _).
Qed.

Lemma bi_bs z : bi (Some (bs z)) = z.
Proof.
  unfold bi. rewrite bool_decide_eq_false_2 by apply bs_not_empty.
  unfold bs. by rewrite BigInt_of_toString.
Qed.

Lemma map_bi_bs l : map (λ s, bi (Some s)) (map bs l) = l.
Proof. induction l as [|z l IH]; simpl; [done|]. by rewrite bi_bs, IH. Qed.

Section RoundTrip.
Context {N : Type}.

Lemma map_inverse {A B} (f : A → B) (g : B → A) (l : list A) :
  (∀ a, g (f a) = a) → map g (map f l) = l.
Proof. intros H. induction l as [|a l IH]; simpl; [done|]. by rewrite H, IH. Qed.

Lemma share_round_trip (p : ProtocolShare N Z) : share_fromJSON (share_toJSON p) = p.
Proof. destruct p. unfold share_fromJSON, share_toJSON. simpl. by rewrite bi_bs. Qed.

Lemma vaultState_round_trip (v : VaultState N Z here) : vaultStateFromJSON (vaultState_toJSON v) = v.
Proof.
  destruct v. unfold vaultStateFromJSON, vaultState_toJSON. simpl. rewrite !bi_bs. f_equal.
  apply map_inverse. intros [[m a] d]. simpl. by rewrite bi_bs.
Qed.

Lemma agentData_round_trip (a : AgentData N Z) : agentDataFromJSON (agentData_toJSON a) = a.
Proof. destruct a. unfold agentDataFromJSON, agentData_toJSON. simpl. by rewrite !bi_bs. Qed.

Lemma spendingData_round_trip (s : SpendingData N Z) : spendingDataFromJSON (spendingData_toJSON s) = s.
Proof.
  destruct s. unfold spendingDataFromJSON, spendingData_toJSON. simpl. rewrite !bi_bs. f_equal.
  apply map_inverse, share_round_trip.
Qed.

Lemma activityRow_round_trip (r : ActivityRow Z) : activityRowFromJSON (activityRow_toJSON r) = r.
Proof. destruct r. unfold activityRowFromJSON, activityRow_toJSON. simpl. by rewrite bi_bs. Qed.

Lemma activityData_round_trip (a : ActivityData Z here) :
  activityDataFromJSON (activityData_toJSON a) = a.
Proof.
  destruct a. unfold activityDataFromJSON, activityData_toJSON. simpl. rewrite bi_bs. f_equal.
  apply map_inverse, activityRow_round_trip.
Qed.

Lemma healthData_round_trip (h : HealthData Z) : healthDataFromJSON (healthData_toJSON h) = h.
Proof.
  destruct h as [l b c [[]|]]; unfold healthDataFromJSON, healthData_toJSON; simpl; [|done].
  unfold lastBlockFromJSON, lastBlock_toJSON. simpl. by rewrite bi_bs.
Qed.

Lemma discoveredVault_round_trip (d : DiscoveredVault Z) :
  discoveredVaultFromJSON (discoveredVault_toJSON d) = d.
Proof. destruct d. unfold discoveredVaultFromJSON, discoveredVault_toJSON. simpl. by rewrite bi_bs. Qed.

(** A policy view whose pending changes are as JSON left them. *)
Definition with_pending (p : PolicyData Z here) (u : option PendingUpdate) : PolicyData Z here := {|
  pv_dailyCap := pv_dailyCap _ _ p; pv_maxPerTrade := pv_maxPerTrade _ _ p;
  pv_approvedApps := pv_approvedApps _ _ p; pv_protocolMode := pv_protocolMode _ _ p;
  pv_hasProtocolCaps := pv_hasProtocolCaps _ _ p; pv_protocolCaps := pv_protocolCaps _ _ p;
  pv_maxSlippageBps := pv_maxSlippageBps _ _ p; pv_allowedDestinations := pv_allowedDestinations _ _ p;
  pv_developerFeeRate := pv_developerFeeRate _ _ p;
  pv_sessionExpirySeconds := pv_sessionExpirySeconds _ _ p;
  pv_timelockSeconds := pv_timelockSeconds _ _ p; pv_policyVersion := pv_policyVersion _ _ p;
  pv_cosignRequired := pv_cosignRequired _ _ p; pv_cosignSessionPubkey := pv_cosignSessionPubkey _ _ p;
  pv_stableBalanceFloor := pv_stableBalanceFloor _ _ p;
  pv_perRecipientDailyCapUsd := pv_perRecipientDailyCapUsd _ _ p;
  pv_destinationMode := pv_destinationMode _ _ p;
  pv_operatorGrantDelaySeconds := pv_operatorGrantDelaySeconds _ _ p;
  pv_protocolHashes := pv_protocolHashes _ _ p; pv_graylist := pv_graylist _ _ p;
  pv_pendingUpdate := u |}.

Lemma policyData_round_trip (p : PolicyData Z here) :
  policyDataFromJSON (policyData_toJSON p) =
    with_pending p (pendingUpdate_toJSON <$> pv_pendingUpdate _ _ p).
Proof.
  destruct p as [dc mt aa pm hc pc ms al df se tl ve cr cs sf pr dm og ph gl pu].
  unfold policyDataFromJSON, policyData_toJSON, with_pending. simpl. rewrite !bi_bs, map_bi_bs.
  f_equal.
  - destruct pr as [z|]; simpl; [|done]. by rewrite bi_bs.
  - apply map_inverse. intros [d u]. simpl. by rewrite bi_bs.
Qed.

Lemma serialize_idempotent v : serializeBigints (serializeBigints v) = serializeBigints v.
Proof.
  revert v. fix IH 1. intros v. destruct v as [| | | | | | |l|fs|]; simpl; try done.
  - f_equal. induction l as [|x l IHl]; simpl; [done|]. by rewrite IH, IHl.
  - f_equal. induction fs as [|[k x] fs IHfs]; simpl; [done|]. by rewrite IH, IHfs.
Qed.
End RoundTrip.

(** Every view survives the trip through JSON.  For each type of the
    dashboard, [fromJSON] of [toJSON] is the view itself, amounts of either
    sign and any size included.  The one exception is a queued policy update:
    its changes come back with their bigints still as text, and stay so in
    every further trip. *)
Theorem dashboard_json_round_trip {N : Type} (o : OverviewData N Z here) (a : ActivityData Z here)
    (d : DiscoveredVault Z) :
  activityDataFromJSON (activityData_toJSON a) = a ∧
  discoveredVaultFromJSON (discoveredVault_toJSON d) = d ∧
  overviewDataFromJSON (overviewData_toJSON o) =
    {| ov_vault := ov_vault _ _ o; ov_agents := ov_agents _ _ o; ov_spending := ov_spending _ _ o;
       ov_health := ov_health _ _ o;
       ov_policy := with_pending (ov_policy _ _ o)
         (pendingUpdate_toJSON <$> pv_pendingUpdate _ _ (ov_policy _ _ o));
       ov_activity := ov_activity _ _ o |} ∧
  (pv_pendingUpdate _ _ (ov_policy _ _ o) = None →
     overviewDataFromJSON (overviewData_toJSON o) = o) ∧
  (∀ p, pendingUpdate_toJSON (pendingUpdate_toJSON p) = pendingUpdate_toJSON p).
Proof.
  assert (Ho : overviewDataFromJSON (overviewData_toJSON o) =
    {| ov_vault := ov_vault _ _ o; ov_agents := ov_agents _ _ o; ov_spending := ov_spending _ _ o;
       ov_health := ov_health _ _ o;
       ov_policy := with_pending (ov_policy _ _ o)
         (pendingUpdate_toJSON <$> pv_pendingUpdate _ _ (ov_policy _ _ o));
       ov_activity := ov_activity _ _ o |}).
  { unfold overviewDataFromJSON, overviewData_toJSON. simpl.
    rewrite vaultState_round_trip, spendingData_round_trip, healthData_round_trip, policyData_round_trip.
    by rewrite !map_inverse by (apply agentData_round_trip || apply activityRow_round_trip). }
  split_and!.
  - apply activityData_round_trip.
  - apply discoveredVault_round_trip.
  - exact Ho.
  - intros Hp. rewrite Ho, Hp. by destruct o as [v ag s h [] ac]; simpl in Hp; subst.
  - intros []. unfold pendingUpdate_toJSON. simpl. by rewrite serialize_idempotent.
Qed.

(** A queued change of the daily cap comes back as the text "5". *)
Example pending_changes_stay_text :
  pu_changes (pendingUpdate_toJSON {| pu_changes := JObj [("dailyCap", JBig 5)];
    pu_appliesAt := 0; pu_canApply := false; pu_canCancel := true |}) = JObj [("dailyCap", JStr "5")].
Proof. reflexivity. Qed.

(** Amounts that are no integers are not refused: a missing, empty or
    malformed amount is read as zero, and only integers are read as
    themselves. *)
Theorem malformed_amounts_are_zero (s : string) :
  bi None = 0 ∧ bi (Some "") = 0 ∧ (BigInt s = None → bi (Some s) = 0) ∧
  (∀ z, BigInt s = Some z → bi (Some s) = z) ∧
  bi (Some "$500") = 0 ∧ bi (Some "500.5") = 0.
Proof.
  split_and!; try reflexivity.
  - intros H. unfold bi. rewrite H. by case_bool_decide.
  - intros z H. unfold bi. rewrite H. case_bool_decide as He; [|done]. subst s.
    vm_compute in H. congruence.
Qed.
