(* ===== verification/ErrorTable.v ===== *)
(** * Error tables (agent-errors.ts, dashboard/errors.ts)

    The literal tables of the agent error system: one [ErrorMapping] per
    on-chain code and per SDK error name, the names of the SDK's numeric codes
    and the numbers of the [SIGIL_ERROR__*] discriminants; and, from the
    program, the variants of its error enum in order.  Text is kept as the
    bytes of its UTF-8 encoding. *)

From S2P Require Import Prelude.

Local Open Scope Z_scope.
Local Open Scope string_scope.

Inductive ErrorCategory : Type :=
| INPUT_VALIDATION
| TRANSIENT
| RATE_LIMIT
| PERMISSION
| RESOURCE_NOT_FOUND
| SPENDING_CAP
| POLICY_VIOLATION
| PROTOCOL_NOT_SUPPORTED
| ESCALATION_REQUIRED
| FATAL.

#[export] Instance ErrorCategory_eq_dec : EqDecision ErrorCategory.
Proof. solve_decision. Defined.

Record RecoveryAction : Type := {
  ra_action : string;
  ra_description : string;
  ra_tool : option string
}.

Record ErrorMapping : Type := {
  em_name : string;
  em_message : string;
  em_category : ErrorCategory;
  em_retryable : bool;
  em_retry_after_ms : option Z;
  em_recovery_actions : list RecoveryAction
}.

Notation mapping := Build_ErrorMapping (only parsing).
Notation act a d := (Build_RecoveryAction a d None) (only parsing).
Notation act_tool a d t := (Build_RecoveryAction a d (Some t)) (only parsing).

(** ** On-chain codes *)

Definition ON_CHAIN_6000 : list (Z * ErrorMapping) :=
 [
  (6000, mapping "VaultNotActive"
     "Vault is not active"
     RESOURCE_NOT_FOUND false None
     [act_tool "reactivate_vault"
         "Reactivate the vault if it is frozen"
         "sigil_reactivate_vault";
      act_tool "create_vault"
         "Create a new vault if this one is closed"
         "sigil_create_vault"]);
  (6001, mapping "UnauthorizedAgent"
     "Signer is not a registered agent on this vault"
     PERMISSION false None
     [act_tool "check_agent_registration"
         "Verify the agent keypair is registered on the target vault"
         "sigil_check_vault";
      act_tool "register_agent"
         "Ask the vault owner to register this agent"
         "sigil_register_agent"]);
  (6002, mapping "UnauthorizedOwner"
     "Signer is not the vault owner"
     PERMISSION false None
     [act "verify_owner"
         "This operation requires the vault owner's signature"]);
  (6003, mapping "UnsupportedToken"
     "Token is not a supported stablecoin (only USDC and USDT)"
     INPUT_VALIDATION false None
     [act "use_stablecoin"
         "Use USDC or USDT mint address instead"]);
  (6004, mapping "ProtocolNotAllowed"
     "Protocol not allowed by vault policy"
     POLICY_VIOLATION false None
     [act_tool "check_policy"
         "Check which protocols the vault allows"
         "sigil_check_vault";
      act "change_protocol"
         "Use a protocol that is on the vault's allowlist"]);
  (6005, mapping "TransactionTooLarge"
     "Transaction exceeds maximum single transaction size (USD)"
     SPENDING_CAP false None
     [act "reduce_amount"
         "Reduce the transaction amount below maxTransactionSizeUsd";
      act_tool "check_limits"
         "Check the vault's maxTransactionSizeUsd policy"
         "sigil_check_vault"]);
  (6006, mapping "SpendingCapExceeded"
     "Rolling 24h spending cap would be exceeded"
     SPENDING_CAP true (Some 3600000)
     [act "reduce_amount"
         "Reduce the amount to fit within remaining daily cap";
      act_tool "check_spending"
         "Check remaining spending capacity"
         "sigil_check_spending";
      act "wait"
         "Wait for the 24h rolling window to release spent capacity"]);
  (6007, mapping "SessionNotAuthorized"
     "Session authority not authorized for this action"
     PERMISSION false None
     [act "new_session"
         "Create a new validate_and_authorize session"]);
  (6008, mapping "InvalidSession"
     "Session does not belong to this vault or is invalid"
     PERMISSION false None
     [act "verify_vault"
         "Ensure the session PDA matches the target vault"]) ].

Definition ON_CHAIN_6009 : list (Z * ErrorMapping) :=
 [
  (6009, mapping "TooManyAllowedProtocols"
     "Policy configuration has too many allowed protocols (max 10)"
     INPUT_VALIDATION false None
     [act "reduce_protocols"
         "Reduce the protocol allowlist to 10 or fewer entries"]);
  (6010, mapping "AgentAlreadyRegistered"
     "Agent is already registered on this vault"
     INPUT_VALIDATION false None
     [act_tool "check_agents"
         "Check existing agents on the vault"
         "sigil_check_vault"]);
  (6011, mapping "NoAgentRegistered"
     "No agent registered on this vault"
     RESOURCE_NOT_FOUND false None
     [act_tool "register_agent"
         "Register an agent on the vault first"
         "sigil_register_agent"]);
  (6012, mapping "VaultNotFrozen"
     "Vault is not frozen (expected frozen for reactivation)"
     INPUT_VALIDATION false None
     [act_tool "check_status"
         "Check the vault's current status"
         "sigil_check_vault"]);
  (6013, mapping "VaultAlreadyClosed"
     "Vault is permanently closed"
     INPUT_VALIDATION false None
     [act_tool "create_vault"
         "Create a new vault — closed vaults cannot be reopened"
         "sigil_create_vault"]);
  (6014, mapping "InsufficientBalance"
     "Insufficient vault balance for this operation"
     SPENDING_CAP false None
     [act "reduce_amount"
         "Reduce the amount to match available balance";
      act "deposit"
         "Deposit more funds into the vault";
      act_tool "check_balance"
         "Check vault token balances"
         "sigil_check_vault"]);
  (6015, mapping "DeveloperFeeTooHigh"
     "Developer fee rate exceeds maximum (500 / 1,000,000 = 5 BPS)"
     INPUT_VALIDATION false None
     [act "reduce_fee"
         "Set developer_fee_rate to 500 or below"]);
  (6016, mapping "InvalidFeeDestination"
     "Fee destination account is invalid"
     INPUT_VALIDATION false None
     [act "verify_fee_destination"
         "Provide a valid fee destination token account"]);
  (6017, mapping "InvalidProtocolTreasury"
     "Protocol treasury account does not match expected address"
     INPUT_VALIDATION false None
     [act "verify_treasury"
         "Use the correct protocol treasury address"]);
  (6018, mapping "InvalidAgentKey"
     "Agent cannot be the zero address"
     INPUT_VALIDATION false None
     [act "provide_valid_agent"
         "Use a valid non-zero Solana public key for the agent"]);
  (6019, mapping "AgentIsOwner"
     "Agent cannot be the vault owner"
     INPUT_VALIDATION false None
     [act "use_different_key"
         "Use a different keypair for the agent (cannot be the same as owner)"]) ].

Definition ON_CHAIN_6020 : list (Z * ErrorMapping) :=
 [
  (6020, mapping "Overflow"
     "Arithmetic overflow in on-chain computation"
     FATAL false None
     [act "reduce_amount"
         "The amount may be too large — try a smaller value"]);
  (6021, mapping "InvalidTokenAccount"
     "Token account does not belong to vault or has wrong mint"
     INPUT_VALIDATION false None
     [act "verify_token_account"
         "Ensure the token account is owned by the vault PDA and has the correct mint"]);
  (6022, mapping "TimelockNotExpired"
     "Timelock period has not expired yet"
     POLICY_VIOLATION true (Some 60000)
     [act "wait"
         "Wait for the timelock period to expire before applying the update"]);
  (6023, mapping "NoTimelockConfigured"
     "No timelock configured on this vault"
     INPUT_VALIDATION false None
     [act "use_direct_update"
         "Use direct policy update (no timelock required)"]);
  (6024, mapping "DestinationNotAllowed"
     "Destination address not in vault's allowed destinations list"
     POLICY_VIOLATION false None
     [act_tool "check_destinations"
         "Check the vault's allowedDestinations list"
         "sigil_check_vault";
      act "use_allowed_destination"
         "Use a destination that is in the vault's allowlist"]);
  (6025, mapping "TooManyDestinations"
     "Too many destinations in allowlist (max 10)"
     INPUT_VALIDATION false None
     [act "reduce_destinations"
         "Reduce the destination allowlist to 10 or fewer entries"]);
  (6026, mapping "InvalidProtocolMode"
     "Invalid protocol mode (must be 0=all, 1=allowlist, or 2=denylist)"
     INPUT_VALIDATION false None
     [act "fix_mode"
         "Set protocolMode to 0 (all), 1 (allowlist), or 2 (denylist)"]);
  (6027, mapping "CpiCallNotAllowed"
     "Instruction must be top-level (CPI calls not allowed for validate/finalize)"
     FATAL false None
     [act "fix_transaction"
         "Ensure validate_and_authorize is called at the top level, not via CPI"]);
  (6028, mapping "MissingFinalizeInstruction"
     "Transaction must include finalize_session after validate_and_authorize"
     INPUT_VALIDATION false None
     [act "use_sdk"
         "Use the SDK's compose functions which automatically include finalize_session"]);
  (6029, mapping "NonTrackedSwapMustReturnStablecoin"
     "Non-stablecoin swap must return stablecoin (vault stablecoin balance did not increase)"
     INPUT_VALIDATION false None
     [act "ensure_stablecoin_output"
         "Ensure the swap produces stablecoin output (USDC or USDT)"]) ].

Definition ON_CHAIN_6030 : list (Z * ErrorMapping) :=
 [
  (6030, mapping "UnauthorizedTokenTransfer"
     "Top-level SPL Token transfer not allowed between validate and finalize"
     POLICY_VIOLATION false None
     [act "use_sdk"
         "Use the SDK's compose functions — do not insert raw SPL transfers in the sandwich"]);
  (6031, mapping "SlippageBpsTooHigh"
     "Slippage BPS exceeds maximum allowed (5000 = 50%)"
     INPUT_VALIDATION false None
     [act "reduce_slippage"
         "Set slippageBps to 5000 or below"]);
  (6032, mapping "ProtocolMismatch"
     "DeFi instruction program does not match the declared target_protocol"
     INPUT_VALIDATION false None
     [act "fix_protocol"
         "Ensure target_protocol matches the actual DeFi instruction's program ID"]);
  (6033, mapping "TooManyDeFiInstructions"
     "Non-stablecoin swap allows exactly one DeFi instruction"
     INPUT_VALIDATION false None
     [act "simplify_transaction"
         "Use a single DeFi instruction for non-stablecoin swaps"]);
  (6034, mapping "MaxAgentsReached"
     "Maximum agents per vault reached (limit: 10)"
     INPUT_VALIDATION false None
     [act_tool "revoke_agent"
         "Revoke an existing agent before registering a new one"
         "sigil_revoke_agent"]);
  (6035, mapping "InsufficientPermissions"
     "Agent lacks permission for this action type"
     PERMISSION false None
     [act_tool "check_permissions"
         "Check the agent's capability tier"
         "sigil_check_vault";
      act "request_permissions"
         "Ask the vault owner to update the agent's permissions"]);
  (6036, mapping "InvalidPermissions"
     "Capability exceeds the on-chain maximum (valid values: 0 = Disabled, 1 = Observer, 2 = Operator)"
     INPUT_VALIDATION false None
     [act "fix_permissions"
         "Pass FULL_CAPABILITY (2n) — the Operator enum value — when the agent needs spending authority."]);
  (6037, mapping "InvalidConstraintConfig"
     "Invalid constraint configuration: bounds exceeded"
     INPUT_VALIDATION false None
     [act "fix_constraints"
         "Ensure constraint entries are within bounds (max 64 entries, 8 data constraints each)"]);
  (6038, mapping "AgentSpendLimitExceeded"
     "Agent's rolling 24h spend exceeds their individual spending limit"
     SPENDING_CAP true (Some 3600000)
     [act "reduce_amount"
         "Reduce the amount to fit within the agent's remaining limit";
      act_tool "check_spending"
         "Check the agent's current spend against their limit"
         "sigil_check_spending";
      act "wait"
         "Wait for the 24h rolling window to release spent capacity"]) ].

Definition ON_CHAIN_6039 : list (Z * ErrorMapping) :=
 [
  (6039, mapping "OverlaySlotExhausted"
     "Per-agent overlay is full — cannot register agent with spending limit"
     INPUT_VALIDATION false None
     [act_tool "revoke_agent"
         "Revoke an unused agent to free an overlay slot"
         "sigil_revoke_agent"]);
  (6040, mapping "AgentSlotNotFound"
     "Agent has per-agent spending limit but no overlay tracking slot"
     RESOURCE_NOT_FOUND false None
     [act "contact_support"
         "This is an internal consistency error — the overlay may need reinitialization"]);
  (6041, mapping "UnauthorizedTokenApproval"
     "Unauthorized SPL Token Approve detected between validate and finalize"
     POLICY_VIOLATION false None
     [act "use_sdk"
         "Use the SDK's compose functions — do not insert raw SPL Approve in the sandwich"]);
  (6042, mapping "InvalidSessionExpiry"
     "Session expiry slots out of range (10-450)"
     INPUT_VALIDATION false None
     [act "fix_expiry"
         "Set session expiry between 10 and 450 slots"]);
  (6043, mapping "ProtocolCapExceeded"
     "Per-protocol counter slot allocation exhausted (max 10 protocols tracked)"
     SPENDING_CAP true (Some 3600000)
     [act "wait"
         "Wait for an existing protocol slot's 24h rolling window to elapse before invoking a new protocol";
      act "use_existing_protocol"
         "Reuse one of the protocols already tracked in the rolling window rather than invoking an 11th distinct protocol"]);
  (6044, mapping "ProtocolCapsMismatch"
     "protocol_caps length must match protocols length when has_protocol_caps is true"
     INPUT_VALIDATION false None
     [act "fix_config"
         "Ensure protocol_caps array length matches the protocols array length"]);
  (6045, mapping "PendingPolicyExists"
     "A pending policy update exists — apply or cancel it before closing vault"
     RESOURCE_NOT_FOUND false None
     [act "resolve_pending_policy"
         "Apply or cancel the pending policy update before closing the vault"]);
  (6046, mapping "AgentPaused"
     "Agent is paused — unpause before executing actions"
     PERMISSION false None
     [act "unpause_agent"
         "Ask the vault owner to unpause this agent"]);
  (6047, mapping "AgentAlreadyPaused"
     "Agent is already paused"
     INPUT_VALIDATION false None
     [act "check_agent_status"
         "Agent is already paused — no action needed"]) ].

Definition ON_CHAIN_6048 : list (Z * ErrorMapping) :=
 [
  (6048, mapping "AgentNotPaused"
     "Agent is not paused — cannot unpause"
     INPUT_VALIDATION false None
     [act "check_agent_status"
         "Agent is not paused — no action needed"]);
  (6049, mapping "UnauthorizedPostFinalizeInstruction"
     "Instructions after finalize_session must be ComputeBudget or SystemProgram only"
     POLICY_VIOLATION false None
     [act "remove_post_finalize_instructions"
         "Remove any instructions placed after finalize_session in the transaction. Only ComputeBudget and SystemProgram instructions are allowed after finalize."]);
  (6050, mapping "UnexpectedBalanceDecrease"
     "Vault stablecoin balance decreased more than the session authorized amount. This indicates a compromised DeFi program attempted to drain vault tokens via CPI."
     FATAL false None
     [act "investigate_defi_program"
         "The whitelisted DeFi program may be compromised. The actual vault balance decrease exceeded the authorized delegation amount (fees + DeFi spend). Freeze the vault, investigate the DeFi program, and consider removing it from the protocol allowlist.";
      act "freeze_vault"
         "Immediately freeze the vault to prevent further transactions until the cause is identified."]);
  (6051, mapping "TimelockTooShort"
     "Timelock duration is below the minimum (1800 seconds / 30 minutes)."
     INPUT_VALIDATION false None
     [act "increase_timelock"
         "Set timelock_duration to at least 1800 seconds (30 minutes)."]);
  (6052, mapping "PolicyVersionMismatch"
     "Policy version changed since agent's last RPC read. Re-resolve vault state and retry."
     TRANSIENT true (Some 1000)
     [act "re_resolve_state"
         "Re-fetch vault state via resolveVaultState() to get current policy version, then retry."]);
  (6053, mapping "ActiveSessionsExist"
     "Cannot close vault with active sessions. Finalize all pending sessions first."
     POLICY_VIOLATION true (Some 10000)
     [act "finalize_sessions"
         "Wait for active sessions to finalize or expire, then retry close_vault."]);
  (6054, mapping "PostAssertionFailed"
     "Post-execution assertion failed: account state did not satisfy constraint."
     POLICY_VIOLATION false None
     [act "review_assertions"
         "Review the vault's post-execution assertions. The trade's resulting account state violated a configured assertion."]);
  (6055, mapping "InvalidPostAssertionIndex"
     "Post-assertion references an invalid instruction index."
     INPUT_VALIDATION false None
     [act "fix_assertions"
         "Review and update the vault's post-assertion configuration."]);
  (6056, mapping "UnauthorizedPreValidateInstruction"
     "Non-infrastructure instruction detected before validate_and_authorize."
     PERMISSION false None
     [act "fix_instruction_order"
         "Place validate_and_authorize before any DeFi or program instruction."]) ].

Definition ON_CHAIN_6057 : list (Z * ErrorMapping) :=
 [
  (6057, mapping "SnapshotNotCaptured"
     "Delta assertion snapshot was not captured in validate_and_authorize."
     INPUT_VALIDATION false None
     [act "fix_assertions"
         "Ensure validate_and_authorize captures a snapshot before finalize delta check."]);
  (6058, mapping "InvalidConstraintOperator"
     "Constraint operator value is not a valid ConstraintOperator discriminant."
     INPUT_VALIDATION false None
     [act "fix_constraints"
         "Ensure constraint operators are valid (0-6)."]);
  (6059, mapping "ZeroCopyVaultMismatch"
     "Zero-copy constraints account has wrong vault."
     INPUT_VALIDATION false None
     [act "verify_pda"
         "The constraints PDA does not belong to this vault."]);
  (6060, mapping "QueuedUpdateExpired"
     "Queued update is too old (>MAX_APPLY_AGE_SLOTS / >MAX_APPLY_AGE_SLOTS_TIMELOCKED_ADMIN) — re-queue to apply. Defends against durable-nonce pre-signing."
     POLICY_VIOLATION false None
     [act "requeue"
         "Re-queue the update via the matching ix for your flow: queue_policy_update / queue_constraints_update / queue_close_constraints / queue_agent_permissions_update / queue_agent_grant / initiate_ownership_transfer — the original queued update is past the freshness window."]);
  (6061, mapping "AccountWritabilityMismatch"
     "Account writability flag does not match the constraint requirement (read-only vs writable)."
     INPUT_VALIDATION false None
     [act "fix_constraints"
         "Match the writability flag (read-only or writable) of the account passed to the instruction with the constraint's is_writable_required value."]);
  (6062, mapping "SysvarScanBoundExceeded"
     "Sysvar instruction scan exceeded the per-tx safety bound (MAX_SYSVAR_SCAN_ITERATIONS=64)."
     INPUT_VALIDATION false None
     [act "fix_transaction_shape"
         "Reduce the number of instructions in the transaction. The on-chain sysvar walk is bounded at 64 ix to defend against pad-attack DoS (M11 / SIMD-0296). Legitimate flows fit well under this cap."]);
  (6063, mapping "AsyncFulfillmentNotPermitted"
     "Async-fulfillment programs (Jupiter Perps, Drift v2, Drift JIT) are not permitted in V1 — keeper-driven settlement happens after finalize_session returns and cannot be measured against the spending cap."
     POLICY_VIOLATION false None
     [act "use_supported_protocol"
         "Use a synchronous protocol (Jupiter swap, Jupiter Lend, etc.). V1.1 will add a sanctioned async-friendly path with settlement-tracked counters or post-execution attestation."]);
  (6064, mapping "ConfidentialTransferBlocked"
     "Token-2022 ConfidentialTransfer is not permitted between validate_and_authorize and finalize_session."
     POLICY_VIOLATION false None
     [act "use_supported_protocol"
         "Token-2022 ConfidentialTransfer (opcode 27/42) hides spending amounts from sysvar accounting and cannot be tracked. Use the standard SPL Token transfer or Jupiter swap path instead."]);
  (6065, mapping "PermanentDelegateBlocked"
     "Token-2022 PermanentDelegate is not permitted between validate_and_authorize and finalize_session."
     POLICY_VIOLATION false None
     [act "use_supported_protocol"
         "Token-2022 PermanentDelegate (opcode 35) installs a session-bound delegate that survives finalize. Reject up-front; use a per-tx Approve instead."]) ].

Definition ON_CHAIN_6066 : list (Z * ErrorMapping) :=
 [
  (6066, mapping "TransferHookBlocked"
     "Token-2022 TransferHook is not permitted between validate_and_authorize and finalize_session."
     POLICY_VIOLATION false None
     [act "use_supported_protocol"
         "Token-2022 TransferHook (opcode 36) routes mid-tx control to attacker-chosen code. Use a non-hook mint or whitelist the hook program in V1.1."]);
  (6067, mapping "LamportDrainBlocked"
     "Token-2022 destructive-balance instruction (opcode 38/45/46) is not permitted between validate_and_authorize and finalize_session."
     POLICY_VIOLATION false None
     [act "use_supported_protocol"
         "WithdrawExcessLamports/UnwrapLamports/PermissionedBurnExtension drain SOL or balances outside the spending-cap path. Block at the gate; V1.1 may add an owner-allowlist for legitimate uses."]);
  (6068, mapping "BatchInstructionBlocked"
     "Token-2022 Batch instruction (opcode 255) is blocked outright — wraps inner instructions and bypasses the byte-0 blocklist."
     POLICY_VIOLATION false None
     [act "use_supported_protocol"
         "Token-2022 Batch (opcode 255) wraps inner TokenInstructions; the byte-0 blocklist cannot see them. Submit each inner ix as its own top-level instruction so guards can inspect each."]);
  (6069, mapping "InvalidDestinationMode"
     "Invalid destination mode (must be 0 = RESTRICTED)."
     INPUT_VALIDATION false None
     [act "fix_policy"
         "Pass destination_mode = 0 (RESTRICTED). Phase 2 deleted the permissive OPEN_WITH_CAP path."]);
  (6070, mapping "InvalidCapability"
     "Invalid agent capability value (must be 0 = Disabled, 1 = Observer, or 2 = Operator)."
     INPUT_VALIDATION false None
     [act "fix_policy"
         "Pass capability = 0, 1, or 2. Reserved values 3..=255 are explicitly rejected by register_agent / queue_agent_permissions_update / apply_agent_permissions_update."]);
  (6071, mapping "PolicyPreviewMismatch"
     "Policy preview digest mismatch — caller's signed digest differs from recomputed canonical digest."
     INPUT_VALIDATION false None
     [act "recompute_digest"
         "Recompute the policy preview digest via computePolicyPreviewDigest() against the actual policy fields and resubmit. Likely cause: owner signed a digest produced from stale fields, or a pending PDA was tampered with between queue and apply."]);
  (6072, mapping "ObserveOnlyModeBlocksExecute"
     "Vault is in observe_only mode — validate_and_authorize is blocked."
     POLICY_VIOLATION false None
     [act "switch_vault_mode"
         "Owner must queue + apply a policy update to flip observe_only off (or create a separate vault without observe_only set)."]);
  (6073, mapping "ActiveVaultRequiresAllowlist"
     "Active vault (observe_only=false) requires at least one protocol or destination on its allowlist."
     INPUT_VALIDATION false None
     [act "add_allowlist_entry"
         "Either add at least one program to `protocols`, at least one wallet to `allowed_destinations`, or pass `observe_only=true` (intentional inert vault)."]);
  (6074, mapping "ErrMintNotPinned"
     "Deposit mint is not on the build-time stablecoin allowlist (USDC + USDT). Reject prevents exotic / typosquatted mints from being parked in the vault."
     INPUT_VALIDATION false None
     [act "use_pinned_stablecoin"
         "Re-issue the deposit using the USDC or USDT mint. Other tokens are not accepted by the vault."]) ].

Definition ON_CHAIN_6075 : list (Z * ErrorMapping) :=
 [
  (6075, mapping "ErrOutsideOperatingHours"
     "Current UTC hour is outside the policy's operating_hours bitmask. The vault is configured to spend only during specific UTC hours."
     POLICY_VIOLATION true None
     [act "retry_in_window"
         "Wait until a UTC hour permitted by the policy's operating_hours bitmask, or have the owner widen the mask via queue_policy_update."]);
  (6076, mapping "ErrCooldownActive"
     "Agent cooldown has not elapsed since the last successful action. Per-agent cooldown is configured by the owner."
     POLICY_VIOLATION true None
     [act "wait_cooldown"
         "Wait until the per-agent cooldown (in seconds) has elapsed since the agent's last successful action."]);
  (6077, mapping "ErrGraylistFriction"
     "Destination is on the graylist — a 24h friction window applied to newly-added allowlist destinations. Promote via promote_graylist_destination or wait for unlock."
     POLICY_VIOLATION true None
     [act "wait_or_promote"
         "Owner can promote the destination to active via promote_graylist_destination, or wait the remaining time until automatic unlock."]);
  (6078, mapping "ErrGraylistFull"
     "Graylist bound exceeded (max 10 entries). Wait for an existing entry to unlock or promote."
     INPUT_VALIDATION false None
     [act "promote_or_wait"
         "Promote at least one graylist entry to active or wait for unlock. Then re-issue the destination-allowlist add."]);
  (6079, mapping "ErrToken2022ExtensionForbidden"
     "Token-2022 mint has a forbidden extension. Only MemoTransfer and MetadataPointer extensions are permitted at deposit."
     INPUT_VALIDATION false None
     [act "use_supported_mint"
         "Use a Token-2022 mint with no extensions, or one limited to MemoTransfer/MetadataPointer."]);
  (6080, mapping "ErrCosignRequired"
     "Cosign-opted-in vault requires a non-owner signer for this owner-action. Original sites: queue_policy_update (elevated), register_agent, set_observe_only(false→true), unpause_agent."
     PERMISSION false None
     [act "supply_cosigner"
         "Supply the cosign session pubkey as a signer in remaining_accounts. For queue_policy_update, also pass cosign_session as an arg. The cosign session must not be the owner's own key."]);
  (6081, mapping "ErrAutoRevoked"
     "Agent capability was auto-revoked after consecutive policy-violation failures. Owner must re-enable via queue_agent_permissions_update."
     PERMISSION false None
     [act "owner_reenable"
         "Owner queues a fresh queue_agent_permissions_update setting the agent's capability back to Observer or Operator."]);
  (6082, mapping "ErrSandwichIntegrity"
     "Bundle integrity violation: multiple validate_and_authorize instructions for the same (vault, agent, mint) tuple in one transaction. At most one is permitted (TA-10 hardening)."
     POLICY_VIOLATION false None
     [act "rebuild_bundle"
         "Rebuild the transaction with exactly one validate_and_authorize per (vault, agent, mint) tuple. ComputeBudget and SystemProgram instructions may be interleaved."]);
  (6083, mapping "ErrProtectedWritable"
     "A Sigil-owned PDA was passed as writable to a foreign instruction between validate and finalize (TA-11). Protected PDAs include vault, policy, tracker, session, post_assertions, audit, constraints, and overlay accounts."
     POLICY_VIOLATION false None
     [act "remove_protected_pda_writable"
         "Remove the writable flag on any Sigil PDA passed to the DeFi instruction, or remove the PDA from that instruction's account metas entirely. Sigil PDAs may still be read by foreign instructions (writable=false is allowed)."]) ].

Definition ON_CHAIN_6084 : list (Z * ErrorMapping) :=
 [
  (6084, mapping "ErrSessionNonceMismatch"
     "Session nonce mismatch (AC-10 durable-nonce replay defense). The caller's expected_nonce does not match the session's stored nonce. For a fresh session, pass expected_nonce = 0."
     INPUT_VALIDATION false None
     [act "fresh_session_nonce"
         "Pass expected_nonce = 0 for a fresh validate_and_authorize. A non-zero value is only valid in Phase 8 ownership-transfer flow (M-5)."]);
  (6085, mapping "ErrStableFloorViolation"
     "Stable balance floor violated — combined USDC+USDT balance dropped below policy.stable_balance_floor"
     POLICY_VIOLATION false None
     [act "reduce_amount"
         "Reduce the transfer amount so the post-execution combined USDC+USDT vault balance stays at or above policy.stable_balance_floor";
      act "deposit_more"
         "Owner can deposit additional USDC or USDT to raise the combined balance above the floor before the agent retries";
      act "lower_floor"
         "Owner can queue a policy update to lower stable_balance_floor (timelock-gated, owner-only)"]);
  (6086, mapping "ErrDailyCapExceeded"
     "Per-protocol daily spending cap would be exceeded (rolling 24h)"
     SPENDING_CAP true (Some 3600000)
     [act "reduce_amount"
         "Reduce the amount to fit within this protocol's remaining 24h rolling-window cap";
      act "use_different_protocol"
         "Route through a different allowlisted protocol that has remaining 24h capacity";
      act "wait"
         "Wait for the 24h rolling window to release spent capacity for this protocol"]);
  (6087, mapping "ErrRecipientCapExceeded"
     "Per-recipient cap blocked — three possible causes: (a) recipient outflow would breach policy.per_recipient_daily_cap_usd within rolling 24h window; (b) bundle touches multiple distinct allowlisted recipients in one finalize (V1 single-recipient-per-tx rule); (c) per_recipient tracker array full with no expired slot to evict"
     SPENDING_CAP true (Some 3600000)
     [act "reduce_amount"
         "Reduce the transfer amount so the recipient's 24h rolling outflow stays under policy.per_recipient_daily_cap_usd";
      act "split_into_separate_transactions"
         "If the bundle touches multiple distinct allowlisted recipients in one finalize, split it so each transaction touches at most one recipient. V1 enforces single-recipient-per-tx for per-recipient cap attribution.";
      act "use_different_recipient"
         "Route the transfer to a different allowed destination that has remaining 24h cap headroom";
      act "wait"
         "Wait for the recipient's rolling 24h window to release spent capacity (also remediates the array-full / no-evictable-slot case)"]) ].

Definition ON_CHAIN_6088 : list (Z * ErrorMapping) :=
 [
  (6088, mapping "ErrMintDeltaCapExceeded"
     "Mint delta cap exceeded — net outflow of [mint] from vault exceeded policy.mint_delta_cap[mint] within the post-execution check window."
     POLICY_VIOLATION false None
     [act "verify_post_assertions"
         "Verify the policy.post_assertions configuration for the affected mint. Reduce transaction outflow or raise the per-mint cap via queue_policy_update (timelock-gated)."]);
  (6089, mapping "MintDeltaCapMisconfigured"
     "Mint delta cap entry misconfigured — invalid scope value, zero max_net_decrease, or required derived ATA missing from remaining_accounts."
     FATAL false None
     [act "inspect_entry_config"
         "Inspect the failed entry's scope value (0 or 1 only), max_net_decrease (must be non-zero for scope=0), and remaining_accounts (must include every derived ATA for scope=0)."]);
  (6090, mapping "ErrAtaAuthorityChanged"
     "Vault ATA authority changed mid-transaction — a CPI altered the SPL TokenAccount owner field, defeating the vault's custody."
     POLICY_VIOLATION false None
     [act "audit_ix_for_set_authority"
         "Verify the DeFi instruction in the bundle does not call setAuthority on any vault-owned ATA. Refuse the bundle and audit the agent's request."]);
  (6091, mapping "ErrOutputBelowFloor"
     "Output balance floor violated — the vault's target ATA gained less than policy.min_increase_usd after the post-execution check."
     POLICY_VIOLATION false None
     [act "audit_output_value"
         "Verify the DeFi instruction's output. Common causes: dust-fill swap, partial fill, wrong destination meta. Audit the agent's slippage settings."]);
  (6092, mapping "ErrDeclarationInconsistent"
     "Declaration consistency check failed — the CPI account meta at the declared index is not a token account matching the agent's declared recipient + mint."
     POLICY_VIOLATION false None
     [act "verify_declaration_matches_ix"
         "Verify the agent's authorized_token + output_mint declaration matches the actual SPL TokenAccount at the declared meta index in the DeFi instruction. Reject the bundle if the agent supplied inconsistent declaration."]);
  (6093, mapping "IxMetaCountExceeded"
     "Foreign instruction exceeded the account-meta processing budget (destination check: max 24 writable metas / 64 total; agent_transfer floor-walk: 16). The bundle is rejected rather than partially inspected."
     POLICY_VIOLATION false None
     [act "use_a_shorter_route"
         "The route references more writable accounts than the guard can inspect in one pass. Use a shorter Jupiter route; Sigil never reshapes the route itself — an unguardable route atomically reverts."]) ].

Definition ON_CHAIN_6094 : list (Z * ErrorMapping) :=
 [
  (6094, mapping "ErrPendingOwnershipExists"
     "An ownership transfer is already pending for this vault. Cancel the existing transfer before queueing a new target."
     POLICY_VIOLATION false None
     [act "cancel_ownership_transfer"
         "Call cancel_ownership_transfer to release the pending PDA before queueing a new transfer."]);
  (6095, mapping "ErrPendingOwnershipNotReady"
     "Ownership transfer timelock has not elapsed yet (default 48h). The new owner cannot accept until the window passes."
     TRANSIENT true None
     [act "wait_timelock"
         "Wait for the timelock window to elapse. The owner can cancel during this window to abort the transfer."]);
  (6096, mapping "ErrInvalidFreezeReason"
     "Invalid freeze_reason byte (must be 0=Manual, 1=AutoRevoke, or 2=EmergencyBoard)."
     INPUT_VALIDATION false None
     [act "fix_freeze_reason"
         "Re-call freeze_vault with a valid FreezeReason discriminant."]);
  (6097, mapping "ErrReactivateCooldownActive"
     "Reactivate requires a 5-minute observation cooldown after the vault was frozen. Try again after the cooldown elapses."
     TRANSIENT true (Some 300000)
     [act "wait_cooldown"
         "Wait for the 5-minute observation window to elapse before reactivating."]);
  (6098, mapping "ErrInvalidOwnershipTarget"
     "new_owner cannot be a system/program/sysvar address (would permanently brick the vault)."
     INPUT_VALIDATION false None
     [act "use_signer_pubkey"
         "Pass an EOA pubkey or Squads V4 vault PDA as new_owner — not SystemProgram, the program ID, or a sysvar."]);
  (6099, mapping "ErrTooManyRevokePairs"
     "freeze_internal received more than MAX_REVOKE_PAIRS (10) session/token pairs in remaining_accounts."
     INPUT_VALIDATION false None
     [act "split_revoke_batch"
         "Split the (session_pda, token_account) pairs across multiple freeze_internal calls."]);
  (6100, mapping "ErrPostAssertionsNotClosed"
     "PostExecutionAssertions PDA still active — call close_post_assertions before close_vault."
     RESOURCE_NOT_FOUND false None
     [act "close_post_assertions"
         "Invoke the close_post_assertions instruction to drain the 672-byte PostExecutionAssertions PDA, then retry close_vault."]);
  (6101, mapping "ErrDestinationIsProtectedPda"
     "allowed_destinations entry is a Sigil-protected PDA — owner attempted to allowlist a vault/policy/pending_* PDA."
     INPUT_VALIDATION false None
     [act "remove_protected_pda_from_destinations"
         "Remove any pubkey from allowed_destinations that matches a Sigil-protected PDA for this vault. Use a plain EOA or external program owner instead."]);
  (6102, mapping "ErrIntentDigestMismatch"
     "AL3 intent-digest mismatch — wallet preview digest does not match the executed bundle's scalars."
     POLICY_VIOLATION false None
     [act "rebuild_seal_from_fresh_preview"
         "Re-run the wallet preview to refresh the intent digest, then resubmit. If the mismatch persists after a fresh preview, suspect a compromised middleware/agent — pause the agent and investigate."]) ].

Definition ON_CHAIN_6103 : list (Z * ErrorMapping) :=
 [
  (6103, mapping "ErrPendingAgentGrantDigestMismatch"
     "PendingAgentGrant content tampered between queue and apply — digest mismatch."
     POLICY_VIOLATION false None
     [act "cancel_and_requeue_agent_grant"
         "Cancel the pending grant via cancel_agent_grant, then queue a fresh grant with the intended agent + capability."]);
  (6104, mapping "ErrReactivateCosignRequiredForFullCapability"
     "Reactivate with a FULL_CAPABILITY new agent requires a non-owner cosigner."
     ESCALATION_REQUIRED false None
     [act "include_second_signer_in_remaining_accounts"
         "Re-sign the reactivate transaction with a second non-owner signer in remaining_accounts. If policy.cosign_session_pubkey is set, the signer must match it."]);
  (6105, mapping "DestinationAccountUnresolvable"
     "A writable account of the DeFi instruction could not be resolved in validate's remaining_accounts, so the guard cannot classify it (F-Q1a destination completeness — rejected fail-closed rather than silently skipped)."
     POLICY_VIOLATION false None
     [act "use_seal_to_populate_remaining_accounts"
         "Build the bundle with seal(), which auto-populates validate's (and finalize's) remaining_accounts with every writable account of the DeFi instruction (the fee-payer agent included). Hand-built bundles must mirror this."]);
  (6106, mapping "ErrToken2022OutputMintUnresolvable"
     "A vault-owned Token-2022 token account's mint could not be resolved in validate's remaining_accounts (or the supplied account is not Token-2022-owned), so the guard cannot vet its extensions (F-Q4 — rejected fail-closed). A PermanentDelegate / TransferHook / ConfidentialTransfer mint must be vetted before the vault may acquire the token."
     POLICY_VIOLATION false None
     [act "use_seal_to_populate_remaining_accounts"
         "Build the bundle with seal(), which auto-resolves vault-owned Token-2022 output mints (reading each writable account's mint on-chain) and feeds them into validate's remaining_accounts. Hand-built bundles must include the mint account of every vault-owned Token-2022 token account the swap writes."]);
  (6107, mapping "ErrOperatorGrantRequiresTimelock"
     "An OPERATOR-class agent grant cannot be seated instantly on this vault (single-key, cosign-required-but-unbound, or any vault with a configured operator_grant_delay_seconds > 0). It must route through the timelocked queue_agent_grant → apply_agent_grant path — the time-delay substitutes for the missing 2nd authorization factor (F-Q6)."
     POLICY_VIOLATION false None
     [act "use_queue_agent_grant"
         "Seat the OPERATOR via queue_agent_grant, wait the effective delay (>=10 min for a single-key vault, else the configured operator_grant_delay_seconds), then apply_agent_grant. A cosign-bound vault at zero delay can seat instantly by including the bound cosigner's signature in register_agent. The @usesigil/kit createVault helper does this for you when the first agent is OPERATOR (firstOperatorSeating: 'queued-grant', the default): it emits [initialize_vault, queue_agent_grant] and returns operatorGrant with the activation countdown."]);
  (6108, mapping "ErrOperatorGrantDelayTooLong"
     "operator_grant_delay_seconds exceeds the maximum (48h / 172800s). A larger delay could exceed the apply-time freshness ceiling and leave a queued OPERATOR grant permanently unapplyable, so it is rejected at configuration time (F-Q6)."
     POLICY_VIOLATION false None
     [act "lower_operator_grant_delay"
         "Set operator_grant_delay_seconds to at most 172800 (48h) in the queue_policy_update call."]);
  (6109, mapping "InvalidOwnerType"
     "vault.owner_type held a value outside the recognized discriminants (0 = EOA, 1 = multisig) at an OPERATOR-grant read site. Only reachable via on-chain state corruption (the field is program-set to {0,1}); the operation is rejected rather than acting on corrupted authority state (F-Q6)."
     POLICY_VIOLATION false None
     [act "report_state_corruption"
         "vault.owner_type is program-set to 0 (EOA) or 1 (multisig); an out-of-range value indicates on-chain state corruption and should be unreachable in normal operation. OPERATOR-grant paths are blocked until the vault state is valid — report this."]);
  (6110, mapping "SpendAccountingUnderflow"
     "finalize_session detected collected fees exceeding the realized stablecoin outflow (fees_collected > total_decrease) — an accounting impossibility, since fees are CPI'd out before the DeFi leg. The transaction is rejected fail-closed rather than under-counting the spend against the caps (F-Q9)."
     POLICY_VIOLATION false None
     [act "review_swap_construction"
         "This fires when a stablecoin-input action net-returned stablecoin so the measured outflow was smaller than the protocol+developer fees. Verify the DeFi instruction actually spends the declared stablecoin input; a net-return on the stablecoin-input path is anomalous and is rejected."]);
  (6111, mapping "ErrMultisigCustodyUnsupported"
     "Squads multisig ownership custody is disabled in V1. Sigil's top-level-only (reject_cpi!) model is architecturally incompatible with a Squads multisig owner — a multisig acts on external programs only by CPI from vault_transaction_execute, but every Sigil owner instruction rejects CPI, so a multisig owner could neither accept ownership nor operate the vault afterward (and the prior path could brick the vault by setting an unsignable owner). initiate_ownership_transfer rejects is_multisig_target = true; accept_ownership_transfer_multisig rejects unconditionally (H-1, audit 2026-06-11)."
     POLICY_VIOLATION false None
     [act "use_eoa_owner"
         "Use a standard EOA (single-key) owner for the vault. Multisig custody is deferred to a future release (CPI-aware or Sigil-native M-of-N) pending re-audit."]);
  (6112, mapping "ErrOutputNotVaultOwned"
     "M1: stablecoin-input swap output must land in a vault-owned account and increase (value redirection / unacquired spend rejected). The acquiring swap either redirected its output to a non-vault account or spent without acquiring anything back."
     POLICY_VIOLATION false None
     [act "declare_output_swap_mint"
         "Declare the acquired mint via seal()'s `outputSwapMint` so the SDK pins the vault-owned output ATA, and ensure the swap delivers the acquired token into that vault account (not the agent's). The on-chain gate requires the pinned output to be vault-owned and to strictly increase."]) ].

Definition ON_CHAIN_6113 : list (Z * ErrorMapping) :=
 [
  (6113, mapping "ErrFinalizeMetaUnresolvable"
     "Finalize completeness (F-Q1b): a writable DeFi account meta present at validate was omitted from finalize, which would dodge the per-recipient cap and output attribution. The composed transaction is malformed."
     POLICY_VIOLATION false None
     [act "pass_all_writable_defi_accounts_to_finalize"
         "seal() already feeds finalize the same writable DeFi accounts it feeds validate, so this only fires for a hand-built (non-seal) transaction. Pass every writable, non-vault account of the DeFi instruction into finalize_session's accounts."]);
  (6114, mapping "ErrDeFiInstructionNotAdjacentToFinalize"
     "The DeFi instruction must sit immediately before finalize_session in the transaction — no ComputeBudget/System or other instruction between them. The seal() SDK always composes the sandwich this way; this only fires for a hand-built transaction that interleaves an instruction before finalize."
     POLICY_VIOLATION false None
     [act "place_finalize_immediately_after_the_defi_instruction"
         "Reorder the transaction so finalize_session immediately follows the single DeFi instruction. Put any ComputeBudget/System instructions before validate_and_authorize, not between the DeFi instruction and finalize."]);
  (6115, mapping "ErrUnmeasurableSpend"
     "The spending session produced no measurable in-transaction vault outcome — no stablecoin moved out of the vault and no vault-owned acquisition increased. This is an async/keeper-settled venue (its real transfer lands in a later block), a CPI-deferred or request-mode action, or a no-op. Recording it would let the spend escape the caps, so it is rejected."
     POLICY_VIOLATION false None
     [act "use_a_synchronously_settling_action"
         "Use an action whose value movement settles in this same transaction — either a stablecoin spend Sigil can measure, or an acquiring swap that lands the acquired token in a vault-owned account (declare it via seal()'s outputSwapMint). Request/keeper-fulfillment actions that settle in a later block are not supported on the spending path."]);
  (6116, mapping "ErrProgramDataUnresolvable"
     "The target protocol has an owner-pinned verified-build hash, but its BPFLoaderUpgradeable ProgramData account could not be resolved to recompute the build hash. The gate fails closed rather than skipping the check."
     POLICY_VIOLATION false None
     [act "supply_the_target_program_data_account"
         "Include the target protocol's ProgramData account (find_program_address([programId], BPFLoaderUpgradeable)) in the transaction's remaining accounts. The SDK seal() satisfier appends it automatically when a build hash is armed — ensure the target is an upgradeable program and is being passed through."]);
  (6117, mapping "ErrProgramBuildMismatch"
     "The target protocol's deployed program build no longer matches the owner-attested verified-build hash (PolicyConfig.protocol_hashes). The program was upgraded since it was pinned; authorization is rejected to close the upgrade-TOCTOU."
     POLICY_VIOLATION false None
     [act "re_pin_or_disarm_the_build_hash"
         "If the upgrade is legitimate and audited, re-pin the new build hash via queue_policy_update (getProgramDataHash recomputes it). To stop enforcing the gate for this protocol, disarm it (set its entry to all-zero) — note that disarming is an elevated mutation on a cosign-required vault."]);
  (6118, mapping "TimelockTooLong"
     "The vault's timelock_duration exceeds the maximum (MAX_TIMELOCK_DURATION = 172,800s / 48h). A timelock longer than the policy-apply freshness window could never mature, which would permanently brick pending policy and agent-permission updates — so the write is rejected up front."
     INPUT_VALIDATION false None
     [act "choose_a_timelock_within_the_cap"
         "Re-submit initialize_vault or queue_policy_update with a timelock_duration between MIN_TIMELOCK_DURATION (1,800s / 30min) and MAX_TIMELOCK_DURATION (172,800s / 48h). Values above 48h are refused because they cannot mature before the apply window closes."]) ].

Definition ON_CHAIN_ERROR_MAP : list (Z * ErrorMapping) :=
  concat
  [ON_CHAIN_6000; ON_CHAIN_6009; ON_CHAIN_6020; ON_CHAIN_6030; ON_CHAIN_6039; ON_CHAIN_6048;
   ON_CHAIN_6057; ON_CHAIN_6066; ON_CHAIN_6075; ON_CHAIN_6084; ON_CHAIN_6088; ON_CHAIN_6094;
   ON_CHAIN_6103; ON_CHAIN_6113].

(** ** The SDK's own errors *)

Definition SDK_ERROR_CODES : list (Z * string) :=
 [
   (7000, "NETWORK_ERROR"); (7001, "RPC_ERROR"); (7002, "SIMULATION_FAILED");
   (7003, "DRAIN_DETECTED"); (7004, "INTENT_VALIDATION_FAILED"); (7005, "INTENT_EXPIRED");
   (7006, "PROTOCOL_NOT_SUPPORTED"); (7007, "ADAPTER_VERIFICATION_FAILED");
   (7008, "PRECHECK_FAILED"); (7009, "EXECUTION_FAILED"); (7010, "TRANSACTION_TIMEOUT");
   (7011, "CONFIRMATION_TIMEOUT"); (7012, "INSUFFICIENT_FUNDS"); (7013, "SLIPPAGE_EXCEEDED");
   (7014, "TEE_VERIFICATION_FAILED"); (7015, "SHIELD_DENIED"); (7016, "SIMULATION_TIMEOUT");
   (7017, "BLOCKHASH_EXPIRED"); (7018, "CODAMA_DECODE_FAILED");
   (7019, "CODAMA_VERSION_MISMATCH"); (7020, "COMPAT_BRIDGE_FAILED");
   (7021, "INTENT_DRIFT_DETECTED"); (7022, "VELOCITY_EXCEEDED");
   (7023, "AGENT_DEFENSE_TRIGGERED"); (7024, "X402_PARSE_ERROR");
   (7025, "X402_PAYMENT_DENIED"); (7026, "X402_UNSUPPORTED");
   (7027, "X402_DESTINATION_BLOCKED"); (7028, "X402_REPLAY_DETECTED");
   (7029, "X402_AMOUNT_SUSPICIOUS"); (7030, "X402_FACILITATOR_UNTRUSTED");
   (7031, "X402_CONNECTION_REQUIRED"); (7032, "X402_SETTLEMENT_FAILED");
   (7033, "TX_SIZE_OVERFLOW") ].

Definition SDK_ERRORS_NETWORK_ERROR : list (string * ErrorMapping) :=
 [
  ("NETWORK_ERROR", mapping "NetworkError"
     "Network request failed"
     TRANSIENT true (Some 2000)
     [act "retry"
         "Retry the request — the RPC node may be temporarily unavailable"]);
  ("RPC_ERROR", mapping "RpcError"
     "Solana RPC error"
     TRANSIENT true (Some 3000)
     [act "retry"
         "Retry with a different RPC endpoint if available"]);
  ("SIMULATION_FAILED", mapping "SimulationFailed"
     "Transaction simulation failed"
     TRANSIENT true (Some 2000)
     [act "retry"
         "Retry — blockhash may have expired or state changed";
      act "check_balance"
         "Verify the agent has enough SOL for transaction fees"]);
  ("DRAIN_DETECTED", mapping "DrainDetected"
     "Potential drain attack detected in transaction simulation"
     FATAL false None
     [act "reject_transaction"
         "Transaction appears to drain vault funds — do not sign or submit"]);
  ("INTENT_VALIDATION_FAILED", mapping "IntentValidationFailed"
     "Intent input validation failed"
     INPUT_VALIDATION false None
     [act "fix_inputs"
         "Fix the invalid parameters identified in the error context"]);
  ("INTENT_EXPIRED", mapping "IntentExpired"
     "Intent has expired and is no longer valid"
     TRANSIENT true (Some 1000)
     [act "retry"
         "Create a fresh intent with updated parameters"]);
  ("PROTOCOL_NOT_SUPPORTED", mapping "ProtocolNotSupported"
     "Protocol is not supported by the SDK"
     PROTOCOL_NOT_SUPPORTED false None
     [act "check_supported_protocols"
         "Check which protocols are supported by the SDK"]);
  ("ADAPTER_VERIFICATION_FAILED", mapping "AdapterVerificationFailed"
     "Protocol adapter output failed safety verification"
     FATAL false None
     [act "report_adapter"
         "The protocol adapter may be compromised — do not retry"]);
  ("PRECHECK_FAILED", mapping "PrecheckFailed"
     "SDK precheck failed before submitting transaction"
     INPUT_VALIDATION false None
     [act "check_inputs"
         "Review the intent parameters — a precondition is not met"]);
  ("EXECUTION_FAILED", mapping "ExecutionFailed"
     "Transaction execution failed on-chain"
     TRANSIENT true (Some 2000)
     [act "retry"
         "Retry — on-chain state may have changed during execution"]);
  ("TRANSACTION_TIMEOUT", mapping "TransactionTimeout"
     "Transaction submission timed out"
     TRANSIENT true (Some 5000)
     [act "retry"
         "Retry with a fresh blockhash and higher priority fee"]) ].

Definition SDK_ERRORS_CONFIRMATION_TIMEOUT : list (string * ErrorMapping) :=
 [
  ("CONFIRMATION_TIMEOUT", mapping "ConfirmationTimeout"
     "Transaction confirmation timed out"
     TRANSIENT true (Some 5000)
     [act "check_status"
         "Check if the transaction landed — it may have confirmed after timeout";
      act "retry"
         "Retry if transaction did not land"]);
  ("INSUFFICIENT_FUNDS", mapping "InsufficientFunds"
     "Insufficient SOL or token balance for transaction"
     SPENDING_CAP false None
     [act "check_balance"
         "Check SOL and token balances";
      act "deposit"
         "Deposit more funds before retrying"]);
  ("SLIPPAGE_EXCEEDED", mapping "SlippageExceeded"
     "Swap slippage exceeded the maximum tolerance"
     TRANSIENT true (Some 3000)
     [act "retry"
         "Retry — market may have moved, producing a better quote";
      act "increase_slippage"
         "Increase slippage tolerance if market is volatile"]);
  ("TEE_VERIFICATION_FAILED", mapping "TeeVerificationFailed"
     "TEE attestation verification failed"
     FATAL false None
     [act "verify_tee"
         "Verify the TEE wallet's attestation — the enclave may be compromised"]);
  ("SHIELD_DENIED", mapping "ShieldDenied"
     "Shield denied the transaction based on policy evaluation"
     POLICY_VIOLATION false None
     [act "check_policy"
         "Review shield policies to understand why the transaction was denied"]);
  ("SIMULATION_TIMEOUT", mapping "SimulationTimeout"
     "Transaction simulation RPC call timed out"
     TRANSIENT true (Some 5000)
     [act "retry"
         "Retry with a different RPC endpoint or increased timeout"]);
  ("BLOCKHASH_EXPIRED", mapping "BlockhashExpired"
     "Blockhash expired before transaction could be sent"
     TRANSIENT true (Some 1000)
     [act "retry"
         "Fetch a fresh blockhash and rebuild the transaction"]);
  ("CODAMA_DECODE_FAILED", mapping "CodamaDecodeFailed"
     "Codama-generated codec failed to decode instruction data"
     FATAL false None
     [act "check_idl"
         "Verify the IDL matches the deployed program version"]);
  ("CODAMA_VERSION_MISMATCH", mapping "CodamaVersionMismatch"
     "IDL hash mismatch — generated code may be stale"
     FATAL false None
     [act "regenerate"
         "Regenerate Codama clients from the latest IDL"]);
  ("COMPAT_BRIDGE_FAILED", mapping "CompatBridgeFailed"
     "web3.js compatibility bridge encountered an error"
     FATAL false None
     [act "check_compat"
         "Check that the compat bridge input types are correct"]) ].

Definition SDK_ERRORS_INTENT_DRIFT_DETECTED : list (string * ErrorMapping) :=
 [
  ("INTENT_DRIFT_DETECTED", mapping "IntentDriftDetected"
     "Transaction diverges from the declared intent"
     POLICY_VIOLATION false None
     [act "review_transaction"
         "The composed transaction does not match the stated intent — review instructions";
      act "rebuild"
         "Rebuild the transaction from a fresh intent"]);
  ("VELOCITY_EXCEEDED", mapping "VelocityExceeded"
     "Transaction velocity threshold breached"
     RATE_LIMIT true (Some 30000)
     [act "wait"
         "Wait for the cooldown period before submitting more transactions"]);
  ("AGENT_DEFENSE_TRIGGERED", mapping "AgentDefenseTriggered"
     "Pre-sign gate blocked a suspicious transaction"
     POLICY_VIOLATION false None
     [act "review_transaction"
         "The transaction triggered agent defense — review for manipulation";
      act "escalate_to_human"
         "Escalate to vault owner for manual review"]);
  ("X402_PARSE_ERROR", mapping "X402ParseError"
     "Malformed x402 PAYMENT-REQUIRED header"
     INPUT_VALIDATION false None
     [act "check_server"
         "The API server returned an invalid x402 header — contact the provider"]);
  ("X402_PAYMENT_DENIED", mapping "X402PaymentDenied"
     "x402 payment blocked by shield policy"
     POLICY_VIOLATION false None
     [act "check_policy"
         "Review shield spending limits and x402 configuration"]);
  ("X402_UNSUPPORTED", mapping "X402Unsupported"
     "No compatible Solana payment option in x402 response"
     INPUT_VALIDATION false None
     [act "check_accepts"
         "The API does not accept any Solana-compatible payment — try a different endpoint"]);
  ("X402_DESTINATION_BLOCKED", mapping "X402DestinationBlocked"
     "x402 payTo address not in destination allowlist"
     POLICY_VIOLATION false None
     [act "check_allowlist"
         "Add the payTo address to X402Config.allowedDestinations if trusted"]);
  ("X402_REPLAY_DETECTED", mapping "X402ReplayDetected"
     "Duplicate x402 payment detected within replay window"
     POLICY_VIOLATION false None
     [act "wait"
         "A payment for this resource was already made — wait for the nonce window to expire"]);
  ("X402_AMOUNT_SUSPICIOUS", mapping "X402AmountSuspicious"
     "x402 payment amount exceeds sanity threshold"
     POLICY_VIOLATION false None
     [act "review_amount"
         "The requested amount is suspiciously high — verify with the API provider"]);
  ("X402_FACILITATOR_UNTRUSTED", mapping "X402FacilitatorUntrusted"
     "x402 settlement response validation failed"
     POLICY_VIOLATION false None
     [act "check_settlement"
         "Verify the settlement transaction on-chain"]) ].

Definition SDK_ERRORS_X402_CONNECTION_REQUIRED : list (string * ErrorMapping) :=
 [
  ("X402_CONNECTION_REQUIRED", mapping "X402ConnectionRequired"
     "RPC connection required for x402 payment but not provided"
     INPUT_VALIDATION false None
     [act "provide_rpc"
         "Pass an RPC connection in ShieldedFetchOptions or X402Config"]);
  ("X402_SETTLEMENT_FAILED", mapping "X402SettlementFailed"
     "x402 settlement retries exhausted"
     TRANSIENT true (Some 5000)
     [act "retry"
         "Retry the x402 payment — the facilitator may be temporarily unavailable"]);
  ("TX_SIZE_OVERFLOW", mapping "TxSizeOverflow"
     "Transaction exceeds Solana's 1,232-byte wire size limit"
     INPUT_VALIDATION false None
     [act "use_alt"
         "Enable address lookup tables to compress the transaction";
      act "simplify_route"
         "Use a simpler swap route with fewer hops or accounts"]) ].

Definition SDK_ERRORS : list (string * ErrorMapping) :=
  concat
  [SDK_ERRORS_NETWORK_ERROR; SDK_ERRORS_CONFIRMATION_TIMEOUT; SDK_ERRORS_INTENT_DRIFT_DETECTED;
   SDK_ERRORS_X402_CONNECTION_REQUIRED].

(** The dashboard's numbers for the [SIGIL_ERROR__*] discriminants. *)
Definition SIGIL_ERROR_TO_NUMERIC : list (string * Z) :=
 [
   ("SIGIL_ERROR__SHIELD__POLICY_DENIED", 7015); ("SIGIL_ERROR__SHIELD__CONFIG_INVALID", 7008);
   ("SIGIL_ERROR__SHIELD__RATE_LIMIT_EXCEEDED", 7022);
   ("SIGIL_ERROR__SHIELD__SESSION_BINDING", 7015);
   ("SIGIL_ERROR__TEE__ATTESTATION_FAILED", 7014);
   ("SIGIL_ERROR__TEE__CERT_CHAIN_INVALID", 7014); ("SIGIL_ERROR__TEE__PCR_MISMATCH", 7014);
   ("SIGIL_ERROR__COMPOSE__MISSING_PARAM", 7008);
   ("SIGIL_ERROR__COMPOSE__INVALID_BIGINT", 7008);
   ("SIGIL_ERROR__COMPOSE__UNSUPPORTED_ACTION", 7006);
   ("SIGIL_ERROR__X402__HEADER_MALFORMED", 7024); ("SIGIL_ERROR__X402__PAYMENT_FAILED", 7025);
   ("SIGIL_ERROR__X402__UNSUPPORTED", 7026); ("SIGIL_ERROR__X402__DESTINATION_BLOCKED", 7027);
   ("SIGIL_ERROR__X402__REPLAY", 7028); ("SIGIL_ERROR__SDK__INVALID_CONFIG", 7008);
   ("SIGIL_ERROR__SDK__INVALID_PARAMS", 7008); ("SIGIL_ERROR__SDK__INVALID_NETWORK", 7008);
   ("SIGIL_ERROR__SDK__INVALID_AMOUNT", 7008); ("SIGIL_ERROR__SDK__INVALID_CAPABILITY", 7008);
   ("SIGIL_ERROR__SDK__INVALID_ACTION_TYPE", 7008);
   ("SIGIL_ERROR__SDK__OWNER_AGENT_COLLISION", 7008);
   ("SIGIL_ERROR__SDK__VAULT_NOT_FOUND", 7009); ("SIGIL_ERROR__SDK__VAULT_INACTIVE", 7009);
   ("SIGIL_ERROR__SDK__VAULT_SLOTS_EXHAUSTED", 7009);
   ("SIGIL_ERROR__SDK__POLICY_NOT_FOUND", 7009);
   ("SIGIL_ERROR__SDK__AGENT_NOT_REGISTERED", 7009); ("SIGIL_ERROR__SDK__AGENT_PAUSED", 7009);
   ("SIGIL_ERROR__SDK__AGENT_ZERO_CAPABILITY", 7009);
   ("SIGIL_ERROR__SDK__SIGNER_INVALID", 7008); ("SIGIL_ERROR__SDK__SIGNATURE_INVALID", 7008);
   ("SIGIL_ERROR__SDK__SPL_TOKEN_OP_BLOCKED", 7015);
   ("SIGIL_ERROR__SDK__PROTOCOL_NOT_ALLOWED", 7015);
   ("SIGIL_ERROR__SDK__PROTOCOL_NOT_TARGETED", 7008);
   ("SIGIL_ERROR__SDK__INSTRUCTION_COUNT", 7008); ("SIGIL_ERROR__SDK__CAP_EXCEEDED", 7012);
   ("SIGIL_ERROR__SDK__ATA_NON_CANONICAL", 7008); ("SIGIL_ERROR__SDK__ALT_INTEGRITY", 7009);
   ("SIGIL_ERROR__SDK__ALT_NOT_DEPLOYED", 7009); ("SIGIL_ERROR__SDK__SEAL_FAILED", 7009);
   ("SIGIL_ERROR__SDK__UNKNOWN", 7999); ("SIGIL_ERROR__RPC__TX_FAILED", 7009);
   ("SIGIL_ERROR__RPC__CONFIRMATION_TIMEOUT", 7011);
   ("SIGIL_ERROR__RPC__SIMULATION_FAILED", 7002); ("SIGIL_ERROR__RPC__DRAIN_DETECTED", 7003);
   ("SIGIL_ERROR__RPC__TX_TOO_LARGE", 7033); ("SIGIL_ERROR__RPC__RATE_LIMITED", 7001);
   ("SIGIL_ERROR__RPC__INSTRUCTION_REQUIRED", 7008); ("SIGIL_ERROR__PROGRAM__GENERIC", 7999) ].

(** The variants of the program's error enum, in order: Anchor numbers them
    from 6000. *)
Definition SigilError_variants : list string :=
 [
   "VaultNotActive"; "UnauthorizedAgent"; "UnauthorizedOwner"; "UnsupportedToken";
   "ProtocolNotAllowed"; "TransactionTooLarge"; "SpendingCapExceeded"; "SessionNotAuthorized";
   "InvalidSession"; "TooManyAllowedProtocols"; "AgentAlreadyRegistered"; "NoAgentRegistered";
   "VaultNotFrozen"; "VaultAlreadyClosed"; "InsufficientBalance"; "DeveloperFeeTooHigh";
   "InvalidFeeDestination"; "InvalidProtocolTreasury"; "InvalidAgentKey"; "AgentIsOwner";
   "Overflow"; "InvalidTokenAccount"; "TimelockNotExpired"; "NoTimelockConfigured";
   "DestinationNotAllowed"; "TooManyDestinations"; "InvalidProtocolMode"; "CpiCallNotAllowed";
   "MissingFinalizeInstruction"; "NonTrackedSwapMustReturnStablecoin";
   "UnauthorizedTokenTransfer"; "SlippageBpsTooHigh"; "ProtocolMismatch";
   "TooManyDeFiInstructions"; "MaxAgentsReached"; "InsufficientPermissions";
   "InvalidPermissions"; "InvalidConstraintConfig"; "AgentSpendLimitExceeded";
   "OverlaySlotExhausted"; "AgentSlotNotFound"; "UnauthorizedTokenApproval";
   "InvalidSessionExpiry"; "ProtocolCapExceeded"; "ProtocolCapsMismatch";
   "PendingPolicyExists"; "AgentPaused"; "AgentAlreadyPaused"; "AgentNotPaused";
   "UnauthorizedPostFinalizeInstruction"; "UnexpectedBalanceDecrease"; "TimelockTooShort";
   "PolicyVersionMismatch"; "ActiveSessionsExist"; "PostAssertionFailed";
   "InvalidPostAssertionIndex"; "UnauthorizedPreValidateInstruction"; "SnapshotNotCaptured";
   "InvalidConstraintOperator"; "ZeroCopyVaultMismatch"; "QueuedUpdateExpired";
   "AccountWritabilityMismatch"; "SysvarScanBoundExceeded"; "AsyncFulfillmentNotPermitted";
   "ConfidentialTransferBlocked"; "PermanentDelegateBlocked"; "TransferHookBlocked";
   "LamportDrainBlocked"; "BatchInstructionBlocked"; "InvalidDestinationMode";
   "InvalidCapability"; "PolicyPreviewMismatch"; "ObserveOnlyModeBlocksExecute";
   "ActiveVaultRequiresAllowlist"; "ErrMintNotPinned"; "ErrOutsideOperatingHours";
   "ErrCooldownActive"; "ErrGraylistFriction"; "ErrGraylistFull";
   "ErrToken2022ExtensionForbidden"; "ErrCosignRequired"; "ErrAutoRevoked";
   "ErrSandwichIntegrity"; "ErrProtectedWritable"; "ErrSessionNonceMismatch";
   "ErrStableFloorViolation"; "ErrDailyCapExceeded"; "ErrRecipientCapExceeded";
   "ErrMintDeltaCapExceeded"; "MintDeltaCapMisconfigured"; "ErrAtaAuthorityChanged";
   "ErrOutputBelowFloor"; "ErrDeclarationInconsistent"; "IxMetaCountExceeded";
   "ErrPendingOwnershipExists"; "ErrPendingOwnershipNotReady"; "ErrInvalidFreezeReason";
   "ErrReactivateCooldownActive"; "ErrInvalidOwnershipTarget"; "ErrTooManyRevokePairs";
   "ErrPostAssertionsNotClosed"; "ErrDestinationIsProtectedPda"; "ErrIntentDigestMismatch";
   "ErrPendingAgentGrantDigestMismatch"; "ErrReactivateCosignRequiredForFullCapability";
   "DestinationAccountUnresolvable"; "ErrToken2022OutputMintUnresolvable";
   "ErrOperatorGrantRequiresTimelock"; "ErrOperatorGrantDelayTooLong"; "InvalidOwnerType";
   "SpendAccountingUnderflow"; "ErrMultisigCustodyUnsupported"; "ErrOutputNotVaultOwned";
   "ErrFinalizeMetaUnresolvable"; "ErrDeFiInstructionNotAdjacentToFinalize";
   "ErrUnmeasurableSpend"; "ErrProgramDataUnresolvable"; "ErrProgramBuildMismatch";
   "TimelockTooLong" ].
