(* ===== verification/AgentErrors.v ===== *)
(** * Agent errors (agent-errors.ts)

    How any thrown value becomes a structured [AgentError]: extraction of an
    on-chain or SDK code, the message patterns, the fallbacks, the escalation
    error, the typed categories, and the [SigilSdkError] wrapper of seal and
    the client. *)

From S2P Require Import Prelude JsMap JsText JsValue ErrorTable.

Local Open Scope Z_scope.

Definition SIGIL_ON_CHAIN_ERROR_MIN : Z := 6000.
Definition SIGIL_ON_CHAIN_ERROR_MAX : Z := 6118.

Definition category_name (c : ErrorCategory) : string :=
  match c with
  | INPUT_VALIDATION => "INPUT_VALIDATION"
  | TRANSIENT => "TRANSIENT"
  | RATE_LIMIT => "RATE_LIMIT"
  | PERMISSION => "PERMISSION"
  | RESOURCE_NOT_FOUND => "RESOURCE_NOT_FOUND"
  | SPENDING_CAP => "SPENDING_CAP"
  | POLICY_VIOLATION => "POLICY_VIOLATION"
  | PROTOCOL_NOT_SUPPORTED => "PROTOCOL_NOT_SUPPORTED"
  | ESCALATION_REQUIRED => "ESCALATION_REQUIRED"
  | FATAL => "FATAL"
  end.

(** ** Error objects *)

Definition opt_field (k : string) (o : option jsv) : fields_t :=
  match o with Some v => [(k, v)] | None => [] end.

Definition action_value (a : RecoveryAction) : jsv :=
  JObj ([("action", JStr (ra_action a)); ("description", JStr (ra_description a))] ++
        opt_field "tool" (JStr <$> ra_tool a)).

(** An [AgentError] as an object.  [retry] is the value of [retry_after_ms] of
    a literal that writes the key, [None] of one that does not. *)
Definition agent_error (code message : string) (category : ErrorCategory) (retryable : bool)
    (retry : option jsv) (actions : list RecoveryAction) (context : fields_t) : fields_t :=
  [("code", JStr code); ("message", JStr message); ("category", JStr (category_name category));
   ("retryable", JBool retryable)] ++
  opt_field "retry_after_ms" retry ++
  [("recovery_actions", JArr (map action_value actions)); ("context", JObj context)].

(** The shared shape of the literals that copy an [ErrorMapping]. *)
Definition mapped_error (code : string) (m : ErrorMapping) (context : fields_t) : fields_t :=
  agent_error code (em_message m) (em_category m) (em_retryable m)
    (Some (match em_retry_after_ms m with Some ms => JNum (Int ms) | None => JUndef end))
    (em_recovery_actions m) context.

Definition isAgentError (value : jsv) : bool :=
  is_object value &&
  is_string (field value "code") &&
  is_string (field value "message") &&
  is_string (field value "category") &&
  is_boolean (field value "retryable") &&
  is_array (field value "recovery_actions") &&
  is_object (field value "context").

(** ** Extraction *)

Definition in_on_chain_range (n : number) : bool :=
  num_ge n SIGIL_ON_CHAIN_ERROR_MIN && num_le n SIGIL_ON_CHAIN_ERROR_MAX.

Definition code_in (p : number → bool) (v : jsv) : option number :=
  match v with JNum n => if p n then Some n else None | _ => None end.

(** Anchor's [error.errorCode.number], of any value. *)
Definition anchor_number (error : jsv) : option number :=
  let inner := field error "error" in
  if is_object inner then
    let ec := field inner "errorCode" in
    if is_object ec then match field ec "number" with JNum n => Some n | _ => None end
    else None
  else None.

Definition message_code (error : jsv) : option number :=
  match field error "message" with
  | JStr m =>
      ds ← match_hex "custom program error: 0x" m;
      let n := Int (digits_in 16 ds) in
      if in_on_chain_range n then Some n else None
  | _ => None
  end.

Definition extractErrorCode (error : jsv) : option number :=
  if negb (is_object error) then None
  else match code_in in_on_chain_range (field error "code") with
       | Some n => Some n
       | None => match anchor_number error with
                 | Some n => Some n
                 | None => message_code error
                 end
       end.

Definition extractSdkCode (error : jsv) : option number :=
  if negb (is_object error) then None
  else code_in (λ n, num_ge n 7000 && num_le n 7033) (field error "code").

Definition extractMessage (error : jsv) : string :=
  if negb (truthy error) then ""
  else match error with
       | JStr s => s
       | JErr _ m _ => m
       | JObj _ | JArr _ =>
           match field error "message" with JStr m => m | _ => js_String error end
       | _ => js_String error
       end.

Definition on_chain_mapping (n : number) : option ErrorMapping :=
  match n with Int z => jm_get z ON_CHAIN_ERROR_MAP | _ => None end.

Definition sdk_name (n : number) : option string :=
  match n with Int z => jm_get z SDK_ERROR_CODES | _ => None end.

(** [SDK_ERRORS[name]], whose message is read next: without a row that is a
    property of undefined, a TypeError. *)
Definition sdk_mapping (name : string) : result js_exn ErrorMapping :=
  match jm_get name SDK_ERRORS with Some m => Ok m | None => Throw JsTypeError end.

Definition fromSdkMapping (code : string) (context : fields_t) (originalMessage : string) : result js_exn jsv :=
  m ← sdk_mapping code;
  Ok $ JObj (mapped_error code m
    (with_field "original_message" (JStr originalMessage)
      (with_field "error_name" (JStr (em_name m)) context))).

(** The message patterns of a network or RPC failure, first match first. *)
Definition message_pattern (message : string) : option string :=
  let has := includes message in
  if has "429" || has "rate limit" then Some "RPC_ERROR"
  else if has "fetch" || has "ECONNREFUSED" || has "ETIMEDOUT" || has "network"
  then Some "NETWORK_ERROR"
  else if has "blockhash" && has "not found" then Some "EXECUTION_FAILED"
  else if has "simulation" || has "SimulateTransaction" then Some "SIMULATION_FAILED"
  else if has "Precheck failed" then Some "PRECHECK_FAILED"
  else if has "adapter" && has "verif" then Some "ADAPTER_VERIFICATION_FAILED"
  else None.

Definition from_message (context : fields_t) (message : string) : result js_exn jsv :=
  match message_pattern message with
  | Some name => fromSdkMapping name context message
  | None =>
      Ok $ JObj (agent_error "UNKNOWN"
        (if bool_decide (message = "") then "An unknown error occurred" else message)
        FATAL false None [] (with_field "original_error" (JStr message) context))
  end.

Definition from_on_chain (n : number) (context : fields_t) : jsv :=
  match on_chain_mapping n with
  | Some m =>
      JObj (mapped_error (num_toString n) m
        (with_field "on_chain_code" (JNum n)
          (with_field "error_name" (JStr (em_name m)) context)))
  | None =>
      JObj (agent_error (num_toString n) ("Unknown on-chain error code " +:+ num_toString n)
        FATAL false None [] (with_field "on_chain_code" (JNum n) context))
  end.

Definition from_sdk_code (n : number) (name : string) (context : fields_t) : result js_exn jsv :=
  m ← sdk_mapping name;
  Ok $ JObj (mapped_error name m
    (with_field "sdk_code" (JNum n) (with_field "error_name" (JStr (em_name m)) context))).

Definition toAgentError (error : jsv) (extraContext : fields_t) : result js_exn jsv :=
  if isAgentError error then Ok error
  else match extractErrorCode error with
  | Some n => Ok (from_on_chain n extraContext)
  | None =>
      match n ← extractSdkCode error; name ← sdk_name n; Some (n, name) with
      | Some (n, name) => from_sdk_code n name extraContext
      | None => from_message extraContext (extractMessage error)
      end
  end.

(** ** Escalation and parsing *)

Record Escalation : Type := {
  esc_message : string;
  esc_requiredActions : list string;
  esc_alternatives : option (list jsv)
}.

Definition escalation_actions (e : Escalation) : list RecoveryAction :=
  [Build_RecoveryAction "escalate_to_human" ("TELL THE USER: " +:+ esc_message e) None] ++
  map (λ a, Build_RecoveryAction "required_vault_change" a None) (esc_requiredActions e) ++
  match esc_alternatives e with
  | Some ((_ :: _) as alts) =>
      [Build_RecoveryAction "suggest_alternatives_secondary"
         ("ONLY IF USER AGREES TO SWITCH: " +:+ bigint_toString (Z.of_nat (length alts)) +:+
          " alternative(s) available") None]
  | _ => []
  end.

Definition protocolEscalationError (e : Escalation) : jsv :=
  JObj (agent_error "PROTOCOL_ESCALATION" (esc_message e) ESCALATION_REQUIRED false None
    (escalation_actions e)
    [("required_actions", JArr (map JStr (esc_requiredActions e)));
     ("alternatives", JArr (default [] (esc_alternatives e)));
     ("IMPORTANT", JStr "Do NOT silently switch to an alternative protocol. The user explicitly requested this protocol.")]).

Definition parse_code (codeOrHex : number + string) : number :=
  match codeOrHex with
  | inl n => n
  | inr s => if startsWith s "0x" || startsWith s "0X" then parseInt 16 s else parseInt 10 s
  end.

Definition parseOnChainErrorCode (codeOrHex : number + string) : option jsv :=
  let code := parse_code codeOrHex in
  match code with
  | NaN => None
  | _ =>
      m ← on_chain_mapping code;
      Some (JObj (mapped_error (num_toString code) m
        [("error_name", JStr (em_name m)); ("on_chain_code", JNum code)]))
  end.

Definition getAllOnChainErrorCodes : list Z :=
  js_sort Z.leb (map fst ON_CHAIN_ERROR_MAP).

Definition getAllSdkErrorCodes : list (Z * string) :=
  js_sort (λ a b, a.1 <=? b.1) SDK_ERROR_CODES.

(** ** Typed categories *)

Inductive SigilErrorCategory : Type :=
| Spending (code remaining cap : Z)
| Permission (code : Z) (required : jsv)
| Protocol (code : Z) (protocol : jsv)
| Vault (code : Z) (status : jsv)
| Network (code : Z) (retryable : bool).

Definition CATEGORY_TYPE_MAP : list (string * string) :=
  [("SPENDING_CAP", "spending"); ("PERMISSION", "permission");
   ("PROTOCOL_NOT_SUPPORTED", "protocol"); ("RESOURCE_NOT_FOUND", "vault");
   ("INPUT_VALIDATION", "vault"); ("POLICY_VIOLATION", "permission");
   ("ESCALATION_REQUIRED", "permission"); ("TRANSIENT", "network");
   ("RATE_LIMIT", "network"); ("FATAL", "network")].

Definition safeBigInt (value : jsv) : Z :=
  match value with
  | JBig z => z
  | JNum (Int z) => z
  | JStr s => default 0 (BigInt s)
  | _ => 0
  end.

Definition string_of (v : jsv) : string := match v with JStr s => s | _ => "" end.

(** [parseInt(err.code, 10) || 0]. *)
Definition numeric_code (code : string) : Z :=
  match parseInt 10 code with Int z => z | _ => 0 end.

(** [err] is an [AgentError]; [None] stands for the [undefined] that a
    category naming a property of [Object.prototype] falls through to. *)
Definition categorizeError (err : jsv) : option SigilErrorCategory :=
  let code := numeric_code (string_of (field err "code")) in
  let context := field err "context" in
  match nullish (table_get JStr CATEGORY_TYPE_MAP (string_of (field err "category")))
          (JStr "network") with
  | JStr t =>
      if bool_decide (t = "spending") then
        Some (Spending code (safeBigInt (field context "remaining"))
                (safeBigInt (field context "cap")))
      else if bool_decide (t = "permission") then
        Some (Permission code (nullish (field context "required_permission") (field err "message")))
      else if bool_decide (t = "protocol") then
        Some (Protocol code (nullish (field context "protocol") (JStr "unknown")))
      else if bool_decide (t = "vault") then
        Some (Vault code (nullish (field context "vault_status") (field err "message")))
      else Some (Network code (truthy (field err "retryable")))
  | _ => None
  end.

(** ** Errors of seal and the client *)

Record SdkErrorPattern : Type := {
  sp_pattern : string → bool;
  sp_category : ErrorCategory;
  sp_retryable : bool;
  sp_recovery_actions : list RecoveryAction
}.

Definition pattern (p : string → bool) (c : ErrorCategory) (acts : list RecoveryAction) :
    SdkErrorPattern := Build_SdkErrorPattern p c false acts.
Definition literal (lit : string) : string → bool := λ s, includes s lit.

Definition SDK_ERROR_PATTERNS : list SdkErrorPattern :=
  [pattern (literal "Vault is not active") RESOURCE_NOT_FOUND
     [act "check_vault_status" "Verify vault status. It may be frozen or closed.";
      act_tool "reactivate_vault" "If frozen, ask the vault owner to reactivate."
        "reactivateVault"];
   pattern (test_gap "Agent " " is not registered") PERMISSION
     [act_tool "register_agent" "Register this agent in the vault." "registerAgent"];
   pattern (test_gap "Agent " " is paused") PERMISSION
     [act_tool "unpause_agent" "Ask the vault owner to unpause this agent." "unpauseAgent"];
   pattern (literal "lacks permission for action") PERMISSION
     [act "update_permissions" "Request permission for this action type from the vault owner."];
   pattern (test_gap "Protocol " " is not allowed") PROTOCOL_NOT_SUPPORTED
     [act "add_protocol" "Add this protocol to the vault's allowlist."];
   pattern (test_gap "Transaction size " " exceeds") INPUT_VALIDATION
     [act "add_alts" "Pass protocolAltAddresses from your DeFi API response.";
      act "reduce_instructions" "Reduce instruction count or split across multiple transactions."];
   pattern (test_gap "Spending action " " requires amount > 0") INPUT_VALIDATION
     [act "fix_amount" "Set amount to the transaction value in token base units."];
   pattern (test_gap "Non-spending action " " requires amount === 0") INPUT_VALIDATION
     [act "set_zero_amount" "Non-spending actions (close, withdraw, etc.) require amount = 0n."];
   pattern (literal "No target protocol") INPUT_VALIDATION
     [act "add_instructions" "Include DeFi instructions in the wrap call, or set targetProtocol explicitly."]].

(** [new SigilSdkError(agentError)]: both an [Error] and an [AgentError]. *)
Definition new_SigilSdkError (agentError : jsv) : jsv :=
  JErr CSigilSdkError (js_String (field agentError "message"))
    ([("name", JStr "SigilSdkError");
      ("code", field agentError "code");
      ("category", field agentError "category");
      ("retryable", field agentError "retryable");
      ("recovery_actions", field agentError "recovery_actions");
      ("context", nullish (field agentError "context") (JObj []))] ++
     (if truthy (field agentError "retry_after_ms")
      then [("retry_after_ms", field agentError "retry_after_ms")] else [])).

Definition is_domain_error (err : jsv) : bool :=
  instanceof_Error err &&
  match field err "code" with JStr c => startsWith c "SIGIL_ERROR__" | _ => false end.

Definition match_patterns (message : string) : option SdkErrorPattern :=
  find (λ p, sp_pattern p message) SDK_ERROR_PATTERNS.

Definition toSigilAgentError (err : jsv) : result js_exn jsv :=
  if is_domain_error err then
    Ok $ new_SigilSdkError (JObj
      [("code", field err "code"); ("message", field err "message");
       ("category", JStr "FATAL"); ("retryable", JBool false);
       ("recovery_actions", JArr []);
       ("context", nullish (field err "context") (JObj []))])
  else
    onChain ← toAgentError err [];
    Ok $ if negb (bool_decide (string_of (field onChain "code") = "UNKNOWN"))
    then new_SigilSdkError onChain
    else
      let message := match err with JErr _ m _ => m | _ => js_String err end in
      match match_patterns message with
      | Some p =>
          new_SigilSdkError (JObj (agent_error ("SDK_" +:+ category_name (sp_category p)) message
            (sp_category p) (sp_retryable p) None (sp_recovery_actions p) []))
      | None =>
          new_SigilSdkError (JObj (agent_error "UNKNOWN" message FATAL false None [] []))
      end.

(** ** Every value becomes an [AgentError] *)

Lemma is_object_JObj fs : is_object (JObj fs) = true.
Proof. done. Qed.

Lemma agent_error_is_agent_error code msg cat r retry acts ctx :
  isAgentError (JObj (agent_error code msg cat r retry acts ctx)) = true.
Proof. by destruct retry. Qed.

Lemma mapped_error_is_agent_error code m ctx : isAgentError (JObj (mapped_error code m ctx)) = true.
Proof. apply agent_error_is_agent_error. Qed.

#[export] Hint Resolve agent_error_is_agent_error mapped_error_is_agent_error : sigil.

(** *** The tables are complete *)

(** Every name the code looks up in [SDK_ERRORS]: the names behind the numeric
    codes and those of the message patterns. *)
Definition pattern_names : list string :=
  ["RPC_ERROR"; "NETWORK_ERROR"; "EXECUTION_FAILED"; "SIMULATION_FAILED"; "PRECHECK_FAILED";
   "ADAPTER_VERIFICATION_FAILED"].

Definition has_row (name : string) : bool := is_ok (sdk_mapping name).

Lemma looked_up_names_have_rows : forallb has_row (map snd SDK_ERROR_CODES ++ pattern_names) = true.
Proof. vm_compute. reflexivity. Qed.

Lemma sdk_row name :
  name ∈ map snd SDK_ERROR_CODES ++ pattern_names → ∃ m, jm_get name SDK_ERRORS = Some m ∧ sdk_mapping name = Ok m.
Proof.
  intros H%list_elem_of_In. pose proof (proj1 (forallb_forall _ _) looked_up_names_have_rows _ H) as Hr.
  unfold has_row, sdk_mapping in *. destruct (jm_get name SDK_ERRORS) as [m|]; [by exists m|done].
Qed.

Lemma numbered_row n name :
  sdk_name n = Some name → ∃ m, jm_get name SDK_ERRORS = Some m ∧ sdk_mapping name = Ok m.
Proof.
  destruct n as [z| |]; try done. intros H%jm_get_elem. apply sdk_row, elem_of_app. left.
  apply list_elem_of_fmap. by exists (z, name).
Qed.

Lemma pattern_row msg name :
  message_pattern msg = Some name → ∃ m, jm_get name SDK_ERRORS = Some m ∧ sdk_mapping name = Ok m.
Proof.
  intros H. apply sdk_row, elem_of_app. right. revert H. unfold message_pattern, pattern_names.
  repeat (case_match; [intros [= <-]; set_solver|]). done.
Qed.

(** What [toAgentError] answers, branch by branch; it never throws. *)
Inductive converted (e : jsv) (ctx : fields_t) : jsv → Prop :=
| conv_same : isAgentError e = true → converted e ctx e
| conv_on_chain n : isAgentError e = false → extractErrorCode e = Some n →
    converted e ctx (from_on_chain n ctx)
| conv_sdk n name m : isAgentError e = false → extractErrorCode e = None → extractSdkCode e = Some n →
    sdk_name n = Some name → jm_get name SDK_ERRORS = Some m →
    converted e ctx (JObj (mapped_error name m
      (with_field "sdk_code" (JNum n) (with_field "error_name" (JStr (em_name m)) ctx))))
| conv_pattern name m : isAgentError e = false → extractErrorCode e = None →
    (n ← extractSdkCode e; sdk_name n) = None →
    message_pattern (extractMessage e) = Some name → jm_get name SDK_ERRORS = Some m →
    converted e ctx (JObj (mapped_error name m
      (with_field "original_message" (JStr (extractMessage e))
        (with_field "error_name" (JStr (em_name m)) ctx))))
| conv_unknown : isAgentError e = false → extractErrorCode e = None →
    (n ← extractSdkCode e; sdk_name n) = None → message_pattern (extractMessage e) = None →
    converted e ctx (JObj (agent_error "UNKNOWN"
      (if bool_decide (extractMessage e = "") then "An unknown error occurred" else extractMessage e)
      FATAL false None [] (with_field "original_error" (JStr (extractMessage e)) ctx))).

Lemma from_message_converted e ctx :
  isAgentError e = false → extractErrorCode e = None → (n ← extractSdkCode e; sdk_name n) = None →
  ∃ v, from_message ctx (extractMessage e) = Ok v ∧ converted e ctx v.
Proof.
  intros He Hc Hs. unfold from_message. destruct (message_pattern _) as [name|] eqn:Hp.
  - destruct (pattern_row _ _ Hp) as (m & Hm & Hok). unfold fromSdkMapping. rewrite Hok. simpl.
    eexists. split; [reflexivity|]. by apply (conv_pattern e ctx name m).
  - eexists. split; [reflexivity|]. by apply conv_unknown.
Qed.

Lemma toAgentError_converts e ctx : ∃ v, toAgentError e ctx = Ok v ∧ converted e ctx v.
Proof.
  unfold toAgentError. destruct (isAgentError e) eqn:He; [eauto using conv_same|].
  destruct (extractErrorCode e) as [n|] eqn:Hc; [eauto using conv_on_chain|].
  destruct (extractSdkCode e) as [n|] eqn:Hs; simpl; [|apply from_message_converted; [done..|by rewrite Hs]].
  destruct (sdk_name n) as [name|] eqn:Hn; simpl; [|apply from_message_converted; [done..|by rewrite Hs]].
  destruct (numbered_row _ _ Hn) as (m & Hm & Hok). unfold from_sdk_code. rewrite Hok. simpl.
  eexists. split; [reflexivity|]. by apply (conv_sdk e ctx n name m).
Qed.

Lemma from_on_chain_is_agent_error n ctx : isAgentError (from_on_chain n ctx) = true.
Proof. unfold from_on_chain. destruct (on_chain_mapping n); auto with sigil. Qed.

Lemma converted_is_agent_error e ctx v : converted e ctx v → isAgentError v = true.
Proof. destruct 1; auto using from_on_chain_is_agent_error with sigil. Qed.

Lemma toAgentError_is_agent_error e ctx : ∃ v, toAgentError e ctx = Ok v ∧ isAgentError v = true.
Proof. destruct (toAgentError_converts e ctx) as (v & H & Hv). eauto using converted_is_agent_error. Qed.

Lemma isAgentError_fields e :
  isAgentError e = true →
  (∃ c, field e "code" = JStr c) ∧ (∃ m, field e "message" = JStr m) ∧
  (∃ c, field e "category" = JStr c) ∧ (∃ b, field e "retryable" = JBool b) ∧
  (∃ l, field e "recovery_actions" = JArr l) ∧ is_object (field e "context") = true.
Proof.
  unfold isAgentError, is_string, is_boolean, is_array.
  rewrite !andb_true_iff, !bool_decide_eq_true. intros ((((((_&H1)&H2)&H3)&H4)&H5)&H6).
  destruct (field e "code"), (field e "message"), (field e "category"), (field e "retryable"),
    (field e "recovery_actions"); try discriminate; split_and!; eauto.
Qed.

Lemma new_SigilSdkError_is_agent_error e :
  isAgentError e = true →
  isAgentError (new_SigilSdkError e) = true ∧ instanceof_Error (new_SigilSdkError e) = true.
Proof.
  intros H. apply isAgentError_fields in H as ([c Hc]&[m Hm]&[k Hk]&[b Hb]&[l Hl]&Hctx).
  split; [|done]. unfold new_SigilSdkError. rewrite Hc, Hm, Hk, Hb, Hl.
  destruct (field e "context"); try discriminate; by destruct (truthy _).
Qed.

(** ** Codes of the program *)

(** A number in hexadecimal, as the runtime's logs and explorers print it. *)
Fixpoint hex_digits (fuel : nat) (z : Z) : list ascii :=
  match fuel with
  | O => []
  | S fuel =>
      let d := z mod 16 in
      let c := ascii_of_nat (Z.to_nat (if d <? 10 then 48 + d else 87 + d)) in
      if z <? 16 then [c] else (hex_digits fuel (z / 16) ++ [c])%list
  end.
Definition to_hex (z : Z) : string := text (hex_digits 16 z).

Definition on_chain_codes : list Z := map (λ i, 6000 + Z.of_nat i) (seq 0 119).

(** Everything the tables and the parsers say about one code of the program. *)
Definition code_checks (c : Z) : bool :=
  match jm_get c ON_CHAIN_ERROR_MAP with
  | Some m => bool_decide (SigilError_variants !! Z.to_nat (c - 6000) = Some (em_name m))
  | None => false
  end &&
  bool_decide (parse_code (inr (bigint_toString c)) = Int c) &&
  bool_decide (parse_code (inr ("0x" +:+ to_hex c)) = Int c) &&
  bool_decide (message_code (JObj [("message", JStr ("custom program error: 0x" +:+ to_hex c))])
               = Some (Int c)).

Lemma code_checks_hold : forallb code_checks on_chain_codes = true.
Proof. vm_compute. reflexivity. Qed.

Lemma on_chain_codes_elem c : 6000 ≤ c ≤ 6118 → In c on_chain_codes.
Proof.
  intros Hc. apply in_map_iff. exists (Z.to_nat (c - 6000)). split; [lia|]. apply in_seq. lia.
Qed.

Lemma code_checks_of c : 6000 ≤ c ≤ 6118 → code_checks c = true.
Proof.
  intros Hc. by apply (proj1 (forallb_forall _ _) code_checks_hold), on_chain_codes_elem.
Qed.

Lemma in_range_Int c : 6000 ≤ c ≤ 6118 → in_on_chain_range (Int c) = true.
Proof.
  intros H. unfold in_on_chain_range, SIGIL_ON_CHAIN_ERROR_MIN, SIGIL_ON_CHAIN_ERROR_MAX, num_ge, num_le.
  apply andb_true_iff. lia.
Qed.

Lemma mapped_code c ctx :
  6000 ≤ c ≤ 6118 →
  ∃ m, jm_get c ON_CHAIN_ERROR_MAP = Some m ∧
    SigilError_variants !! Z.to_nat (c - 6000) = Some (em_name m) ∧
    from_on_chain (Int c) ctx =
      JObj (mapped_error (bigint_toString c) m
        (with_field "on_chain_code" (JNum (Int c))
          (with_field "error_name" (JStr (em_name m)) ctx))).
Proof.
  intros Hc. pose proof (code_checks_of c Hc) as Hk. unfold code_checks in Hk.
  rewrite !andb_true_iff in Hk. destruct Hk as [[[Hk _] _] _].
  unfold from_on_chain, on_chain_mapping.
  destruct (jm_get c ON_CHAIN_ERROR_MAP) as [m|] eqn:E; [|discriminate].
  apply bool_decide_eq_true in Hk. eauto.
Qed.

(** A rejection by the on-chain program is recognised in every form it
    arrives in.  For every code of the program's error enum, an object with the
    number, Anchor's nested error, a log line with the hexadecimal code, and
    the number, decimal text or hexadecimal text given to
    [parseOnChainErrorCode] all yield the table's entry, whose name is the
    enum's variant of that number. *)
Theorem on_chain_errors_recognised (c : Z) (ctx : fields_t) :
  6000 ≤ c ≤ 6118 →
  ∃ m, jm_get c ON_CHAIN_ERROR_MAP = Some m ∧ SigilError_variants !! Z.to_nat (c - 6000) = Some (em_name m) ∧
    let answer x := mapped_error (bigint_toString c) m
                      (with_field "on_chain_code" (JNum (Int c))
                        (with_field "error_name" (JStr (em_name m)) x)) in
    (∀ e, is_object e = true → isAgentError e = false → field e "code" = JNum (Int c) →
       toAgentError e ctx = Ok (JObj (answer ctx))) ∧
    (∀ fs, toAgentError (JObj [("error", JObj [("errorCode",
       JObj (("number", JNum (Int c)) :: fs))])]) ctx = Ok (JObj (answer ctx))) ∧
    (∀ cls, toAgentError (JErr cls ("custom program error: 0x" +:+ to_hex c) []) ctx
       = Ok (JObj (answer ctx))) ∧
    parseOnChainErrorCode (inl (Int c)) = Some (JObj (answer [])) ∧
    parseOnChainErrorCode (inr (bigint_toString c)) = Some (JObj (answer [])) ∧
    parseOnChainErrorCode (inr ("0x" +:+ to_hex c)) = Some (JObj (answer [])).
Proof.
  intros Hc. destruct (mapped_code c ctx Hc) as (m & Hm & Hv & Hon). exists m. split; [done|]. split; [done|].
  pose proof (code_checks_of c Hc) as Hk. unfold code_checks in Hk.
  rewrite !andb_true_iff, !bool_decide_eq_true in Hk. destruct Hk as [[[_ Hdec] Hhex] Hmsg].
  assert (Hparse : ∀ p, parse_code p = Int c → parseOnChainErrorCode p =
    Some (JObj (mapped_error (bigint_toString c) m
      [("error_name", JStr (em_name m)); ("on_chain_code", JNum (Int c))]))).
  { intros p Hp. unfold parseOnChainErrorCode, on_chain_mapping. rewrite Hp. cbv beta iota zeta.
    by rewrite Hm. }
  cbv zeta. split; [|split; [|split; [|split; [|split]]]].
  - intros e He Hn Hf. unfold toAgentError, extractErrorCode.
    rewrite Hn, He, Hf. unfold code_in. rewrite in_range_Int by done. exact (f_equal Ok Hon).
  - intros fs. exact (f_equal Ok Hon).
  - intros cls. unfold toAgentError. cbn [isAgentError].
    assert (Hx : extractErrorCode (JErr cls ("custom program error: 0x" +:+ to_hex c) []) = Some (Int c))
      by exact Hmsg.
    rewrite Hx. exact (f_equal Ok Hon).
  - by apply Hparse.
  - by apply Hparse.
  - by apply Hparse.
Qed.

Lemma on_chain_errors_recognised_witness :
  6000 ≤ 6006 ≤ 6118 ∧ ∃ m, SigilError_variants !! 6%nat = Some (em_name m).
Proof.
  split; [lia|]. destruct (on_chain_errors_recognised 6006 []) as (m & _ & H & _); [lia|].
  exists m. exact H.
Defined.

(** ** Retry advice *)

Definition may_retry (c : ErrorCategory) : bool :=
  match c with TRANSIENT | RATE_LIMIT | SPENDING_CAP | POLICY_VIOLATION => true | _ => false end.

(** Advice is coherent: a delay only with a retry, a retry only where time or
    a smaller request can help, and always for a transient failure. *)
Definition advice_ok (m : ErrorMapping) : bool :=
  implb (match em_retry_after_ms m with Some _ => true | None => false end) (em_retryable m) &&
  implb (em_retryable m) (may_retry (em_category m)) &&
  implb (match em_category m with TRANSIENT | RATE_LIMIT => true | _ => false end) (em_retryable m).

Lemma on_chain_advice : forallb (λ p, advice_ok p.2) ON_CHAIN_ERROR_MAP = true.
Proof. vm_compute. reflexivity. Qed.

Lemma sdk_advice : forallb (λ p, advice_ok p.2) SDK_ERRORS = true.
Proof. vm_compute. reflexivity. Qed.

Lemma jm_get_forallb {K V} `{EqDecision K} (p : V → bool) (t : list (K * V)) k v :
  forallb (λ e, p e.2) t = true → jm_get k t = Some v → p v = true.
Proof.
  intros H Hg. apply (proj1 (forallb_forall _ _) H (k, v)).
  apply list_elem_of_In, jm_get_elem, Hg.
Qed.

(** What a converted error says of retrying. *)
Definition advice_of (fs : fields_t) : Prop :=
  ∃ cat r retry,
    jm_get "category" fs = Some (JStr (category_name cat)) ∧
    jm_get "retryable" fs = Some (JBool r) ∧
    jm_get "retry_after_ms" fs = retry ∧
    (r = true → may_retry cat = true) ∧
    (r = false → default JUndef retry = JUndef) ∧
    (cat = TRANSIENT ∨ cat = RATE_LIMIT → r = true).

Lemma mapped_advice code m ctx : advice_ok m = true → advice_of (mapped_error code m ctx).
Proof.
  intros H. unfold advice_ok in H. rewrite !andb_true_iff in H. destruct H as [[H1 H2] H3].
  exists (em_category m), (em_retryable m), (jm_get "retry_after_ms" (mapped_error code m ctx)).
  split_and!; try done.
  - intros Hr. by rewrite Hr in H2.
  - intros Hr. rewrite Hr in H1. simpl. by destruct (em_retry_after_ms m).
  - intros [Hc | Hc]; rewrite Hc in H3; simpl in H3; by destruct (em_retryable m).
Qed.

Lemma fatal_advice code msg acts ctx : advice_of (agent_error code msg FATAL false None acts ctx).
Proof. exists FATAL, false, None. split_and!; try done. intros [|]; discriminate. Qed.

(** Retry advice is sound.  Unless the caller hands over a finished
    [AgentError], an error is called retryable only when it is transient, a
    rate limit, a spending cap or a policy violation; a transient failure
    always is; and one that is not retryable names no delay.  Input,
    permission and fatal errors are never advised to be retried. *)
Lemma converted_advice e ctx v :
  converted e ctx v → isAgentError e = false → ∃ fs, v = JObj fs ∧ advice_of fs.
Proof.
  intros [He|n _ _|n name m _ _ _ _ Hm|name m _ _ _ _ Hm|_ _ _ _] Hn; [congruence|..].
  - unfold from_on_chain. destruct (on_chain_mapping n) as [m|] eqn:E;
      eexists; split; try reflexivity; [|apply fatal_advice].
    apply mapped_advice. destruct n as [z| |]; try discriminate.
    eapply (jm_get_forallb advice_ok); eauto using on_chain_advice.
  - eexists. split; [reflexivity|]. eapply mapped_advice, (jm_get_forallb advice_ok); eauto using sdk_advice.
  - eexists. split; [reflexivity|]. eapply mapped_advice, (jm_get_forallb advice_ok); eauto using sdk_advice.
  - eexists. split; [reflexivity|]. apply fatal_advice.
Qed.

(** *** What is answered *)

(** The forms in which a rejection by the program arrives: a thrown object with
    the number, Anchor's nested error, a log line with the hexadecimal code. *)
Definition rejection (e : jsv) (c : Z) : Prop :=
  isAgentError e = false ∧
  ((is_object e = true ∧ field e "code" = JNum (Int c)) ∨
   (∃ fs, e = JObj [("error", JObj [("errorCode", JObj (("number", JNum (Int c)) :: fs))])]) ∨
   (∃ cls, e = JErr cls ("custom program error: 0x" +:+ to_hex c) [])).

(** An object with one of the SDK's numeric codes and nothing of the program's. *)
Definition numbered (e : jsv) (n : Z) : Prop :=
  isAgentError e = false ∧ extractErrorCode e = None ∧ is_object e = true ∧ field e "code" = JNum (Int n).

(** The answer carries a row of a table: its code, text, category and advice,
    and the row's name in its context. *)
Record answers (v : jsv) (code name : string) (m : ErrorMapping) : Prop := {
  ans_code : field v "code" = JStr code;
  ans_name : field (field v "context") "error_name" = JStr name;
  ans_message : field v "message" = JStr (em_message m);
  ans_category : field v "category" = JStr (category_name (em_category m));
  ans_retryable : field v "retryable" = JBool (em_retryable m);
  ans_actions : field v "recovery_actions" = JArr (map action_value (em_recovery_actions m));
}.

Lemma mapped_answers code m key w ctx :
  key ≠ "error_name" →
  answers (JObj (mapped_error code m (with_field key w (with_field "error_name" (JStr (em_name m)) ctx))))
    code (em_name m) m.
Proof.
  intros Hk. split; try done. unfold mapped_error, agent_error. simpl. unfold with_field, field. simpl.
  rewrite jm_get_set_ne by done. by rewrite jm_get_set_eq.
Qed.

Lemma variants_in_range i name : SigilError_variants !! i = Some name → 6000 ≤ 6000 + Z.of_nat i ≤ 6118.
Proof.
  intros H%lookup_lt_Some. assert (Hl : length SigilError_variants = 119%nat) by (vm_compute; reflexivity). lia.
Qed.

Lemma rejection_answered e ctx v i name :
  toAgentError e ctx = Ok v → SigilError_variants !! i = Some name → rejection e (6000 + Z.of_nat i) →
  ∃ m, jm_get (6000 + Z.of_nat i) ON_CHAIN_ERROR_MAP = Some m ∧
    answers v (bigint_toString (6000 + Z.of_nat i)) name m.
Proof.
  intros Hv Hi [Hn Hr]. set (c := 6000 + Z.of_nat i) in *.
  destruct (on_chain_errors_recognised c ctx (variants_in_range i name Hi)) as (m & Hm & Hname & Hobj & Hanchor & Hlog & _).
  replace (Z.to_nat (c - 6000)) with i in Hname by lia. rewrite Hi in Hname. injection Hname as ->.
  exists m. split; [done|].
  assert (Hw : toAgentError e ctx = Ok (JObj (mapped_error (bigint_toString c) m
    (with_field "on_chain_code" (JNum (Int c)) (with_field "error_name" (JStr (em_name m)) ctx))))).
  { destruct Hr as [[He Hf]|[(fs & ->)|(cls & ->)]]; [by apply Hobj|apply Hanchor|apply Hlog]. }
  rewrite Hw in Hv. injection Hv as <-. by apply mapped_answers.
Qed.

Lemma sdk_codes_in_range : forallb (λ p, (7000 <=? p.1) && (p.1 <=? 7033)) SDK_ERROR_CODES = true.
Proof. vm_compute. reflexivity. Qed.

Lemma numbered_answered e ctx v n name :
  toAgentError e ctx = Ok v → jm_get n SDK_ERROR_CODES = Some name → numbered e n →
  ∃ m, jm_get name SDK_ERRORS = Some m ∧ answers v name (em_name m) m.
Proof.
  intros Hv Hn (Ha & Hc & Ho & Hf).
  pose proof (proj1 (forallb_forall _ _) sdk_codes_in_range (n, name)
    (proj1 (list_elem_of_In _ _) (jm_get_elem _ _ _ Hn))) as Hrange. cbn [fst] in Hrange.
  destruct (numbered_row (Int n) name Hn) as (m & Hm & Hok). exists m. split; [done|].
  assert (Hs : extractSdkCode e = Some (Int n)) by (unfold extractSdkCode; rewrite Ho, Hf; simpl; by rewrite Hrange).
  unfold toAgentError in Hv. rewrite Ha, Hc, Hs in Hv. cbn [mbind option_bind] in Hv.
  change (sdk_name (Int n)) with (jm_get n SDK_ERROR_CODES) in Hv. rewrite Hn in Hv. cbn [mbind option_bind] in Hv.
  unfold from_sdk_code in Hv. rewrite Hok in Hv. injection Hv as <-.
  by apply mapped_answers.
Qed.


(** ** Escalation *)

(** An escalation never steers the agent around the owner: the first
    advice is always to tell the human, the owner's changes follow in order,
    alternatives come last and only when there are some, and the error is
    never retryable. *)
Theorem escalation_asks_the_human_first (e : Escalation) :
  ∃ first rest alts,
    escalation_actions e = first :: rest ++ alts ∧
    ra_action first = "escalate_to_human" ∧
    map ra_action rest = replicate (length (esc_requiredActions e)) "required_vault_change" ∧
    map ra_description rest = esc_requiredActions e ∧
    (∀ a, a ∈ alts → ra_action a = "suggest_alternatives_secondary") ∧
    (alts ≠ [] ↔ default [] (esc_alternatives e) ≠ []) ∧
    field (protocolEscalationError e) "retryable" = JBool false ∧
    isAgentError (protocolEscalationError e) = true.
Proof.
  unfold escalation_actions.
  eexists _, (map (λ a, Build_RecoveryAction "required_vault_change" a None) _), _.
  split; [reflexivity|]. split; [done|]. rewrite !map_map. simpl.
  split. { induction (esc_requiredActions e); simpl; congruence. }
  split; [apply map_id|]. split.
  { intros a. destruct (esc_alternatives e) as [[|]|]; set_solver. }
  split. { destruct (esc_alternatives e) as [[|]|]; simpl; naive_solver. }
  done.
Qed.

(** ** Errors of seal and the client *)

Lemma domain_error_fields err :
  is_domain_error err = true →
  ∃ cls m fs c, err = JErr cls m fs ∧ field err "code" = JStr c ∧ startsWith c "SIGIL_ERROR__" = true.
Proof.
  unfold is_domain_error. rewrite andb_true_iff. intros [He Hc].
  destruct err as [| | | | | | | | |cls m fs]; try discriminate.
  destruct (field (JErr cls m fs) "code") as [| | | | |c| | | |]; try discriminate. eauto 10.
Qed.

(** The context of a domain error, where it has one, is an object. *)
Definition context_ok (err : jsv) : Prop :=
  match field err "context" with JUndef | JNull => True | v => is_object v = true end.

(** What [seal] and the client throw is always both an [Error] and an
    [AgentError].  A domain error keeps its discriminant and its message, and
    is never retryable; any other error that [toAgentError] recognises keeps
    the code found there. *)
Theorem seal_errors_are_agent_errors (err : jsv) :
  context_ok err →
  ∃ v, toSigilAgentError err = Ok v ∧ isAgentError v = true ∧ instanceof_Error v = true ∧
  (is_domain_error err = true →
     field v "code" = field err "code" ∧ field v "message" = field err "message" ∧
     field v "retryable" = JBool false) ∧
  (is_domain_error err = false → ∀ a, toAgentError err [] = Ok a → field a "code" ≠ JStr "UNKNOWN" →
     field v "code" = field a "code").
Proof.
  intros Hctx. unfold toSigilAgentError.
  destruct (is_domain_error err) eqn:Hd.
  - destruct (domain_error_fields err Hd) as (cls & m & fs & c & -> & Hc & _).
    rewrite Hc. eexists. split; [reflexivity|]. split_and!; [|done..|by intros].
    refine (proj1 (new_SigilSdkError_is_agent_error _ _)).
    unfold context_ok in Hctx. by destruct (field (JErr cls m fs) "context").
  - destruct (toAgentError_is_agent_error err []) as (a & -> & Ha). simpl.
    eexists. split; [reflexivity|]. destruct (isAgentError_fields _ Ha) as ([c Hc] & _). rewrite Hc. simpl.
    destruct (decide (c = "UNKNOWN")) as [->|Hne].
    + simpl. destruct (match_patterns _) as [p|]; (split_and!;
        [apply new_SigilSdkError_is_agent_error, agent_error_is_agent_error | done | done |]);
        intros _ a' [= <-]; by rewrite Hc.
    + rewrite bool_decide_eq_false_2 by done. simpl.
      split_and!; [by apply new_SigilSdkError_is_agent_error | done | done |]. intros _ a' [= <-] _. by rewrite Hc.
Qed.

Lemma seal_errors_are_agent_errors_witness :
  context_ok (JStr "Agent X is paused") ∧
  ∃ v, toSigilAgentError (JStr "Agent X is paused") = Ok v ∧ isAgentError v = true.
Proof.
  split; [exact I|]. destruct (seal_errors_are_agent_errors (JStr "Agent X is paused") I) as (v & H & Hv & _).
  exists v. exact (conj H Hv).
Defined.

(** A paused agent is advised to be unpaused; a simulation failure that seal
    itself threw as a typed error loses its retryability. *)
Example seal_error_examples :
  let read r k := match r with Ok v => field v k | Throw _ => JUndef end in
  (read (toSigilAgentError (JErr CError "Agent X is paused" [])) "code",
   read (toSigilAgentError (JErr CSigilError "simulation failed"
           [("code", JStr "SIGIL_ERROR__RPC__SIMULATION_FAILED")])) "retryable",
   read (toAgentError (JErr CSigilError "simulation failed"
           [("code", JStr "SIGIL_ERROR__RPC__SIMULATION_FAILED")]) []) "retryable") =
  (JStr "SDK_PERMISSION", JBool false, JBool true).
Proof. vm_compute. reflexivity. Qed.

(** The typed category is total on the SDK's own categories. *)
Lemma categorize_total (code msg : string) (cat : ErrorCategory) r retry acts ctx :
  is_Some (categorizeError (JObj (agent_error code msg cat r retry acts ctx))).
Proof.
  unfold categorizeError. generalize (numeric_code (string_of (field (JObj (agent_error code msg
    cat r retry acts ctx)) "code"))). intros z. destruct retry, cat; eexists; reflexivity.
Qed.
