(* ===== verification/DxErrors.v ===== *)
(** * Dashboard errors (dashboard/errors.ts)

    The owner dashboard's view of a thrown value: a number, a message with the
    failing method in front, recovery text, and the category the front end
    switches on. *)

From S2P Require Import Prelude JsMap JsText JsValue ErrorTable AgentErrors.

Local Open Scope Z_scope.

Definition SDK_CODE_BY_NAME : list (string * Z) :=
  jm_set_all SIGIL_ERROR_TO_NUMERIC
    (jm_set_all (map (λ p, (p.2, p.1)) SDK_ERROR_CODES) []).

Definition DX_ERROR_CODE_UNMAPPED : Z := 7999.

Definition resolveDxCode (rawCode : jsv) : jsv :=
  match rawCode with
  | JStr s =>
      match table_get (λ z, JNum (Int z)) SDK_CODE_BY_NAME s with
      | JUndef => match Number_text s with
                  | Int z => JNum (Int z)
                  | _ => JNum (Int DX_ERROR_CODE_UNMAPPED)
                  end
      | named => named
      end
  | JNum (Int z) => JNum (Int z)
  | _ => JNum (Int DX_ERROR_CODE_UNMAPPED)
  end.

(** ** Missing accounts

    [isSolanaError] is the predicate of [@solana/errors]. *)

Definition ACCOUNT_NOT_FOUND_CODES : list Z := [3; 3230000; 7050003; 7050004].

Definition isAccountNotFoundError (isSolanaError : jsv → Z → bool) (err : jsv) : bool :=
  existsb (isSolanaError err) ACCOUNT_NOT_FOUND_CODES ||
  let message := match err with JErr _ m _ => m | _ => "" end in
  includes message "could not find" || includes message "Account does not exist".

(** ** Ranges and categories *)

Definition ANCHOR_ERROR_MIN : Z := SIGIL_ON_CHAIN_ERROR_MIN.
Definition ANCHOR_ERROR_MAX : Z := SIGIL_ON_CHAIN_ERROR_MAX.
Definition SDK_ERROR_MIN : Z := 7000.
Definition SDK_ERROR_MAX : Z := 7099.
Definition NETWORK_ERROR_MIN : Z := 7100.
Definition NETWORK_ERROR_MAX : Z := 7199.

(** A code that is no finite number is in no range. *)
Definition within (lo hi : Z) (code : jsv) : bool :=
  match code with JNum (Int z) => (lo <=? z) && (z <=? hi) | _ => false end.

Definition isOnChainReverted (code : jsv) : bool := within ANCHOR_ERROR_MIN ANCHOR_ERROR_MAX code.

Inductive DxErrorCategory : Type := DxUser | DxNetwork | DxProgram | DxUnknown.

#[export] Instance DxErrorCategory_eq_dec : EqDecision DxErrorCategory.
Proof. solve_decision. Defined.

Definition categorizeDxError (code : jsv) : DxErrorCategory :=
  if within ANCHOR_ERROR_MIN ANCHOR_ERROR_MAX code then DxProgram
  else if within NETWORK_ERROR_MIN NETWORK_ERROR_MAX code then DxNetwork
  else if within SDK_ERROR_MIN SDK_ERROR_MAX code then DxUser
  else DxUnknown.

(** ** Normalisation *)

Record DxError : Type := {
  dx_code : jsv;
  dx_message : string;
  dx_recovery : list jsv;
  dx_onChainReverted : bool
}.

Definition in_context (context : option string) (msg : string) : string :=
  match context with
  | Some c => if bool_decide (c = "") then msg else c +:+ ": " +:+ msg
  | None => msg
  end.

(** [a.description ?? a.action ?? ""]: reading a property of null or undefined
    is a TypeError. *)
Definition recovery_text (a : jsv) : result js_exn jsv :=
  match a with
  | JUndef | JNull => Throw JsTypeError
  | _ => Ok (nullish (nullish (field a "description") (field a "action")) (JStr ""))
  end.

Definition items_of (v : jsv) : list jsv := match v with JArr l => l | _ => [] end.

Definition toDxError (err : jsv) (context : option string) : DxError :=
  match
    agentErr ← toAgentError err [];
    let code := resolveDxCode (field agentErr "code") in
    recovery ← mapM recovery_text (items_of (field agentErr "recovery_actions"));
    Ok {| dx_code := code;
          dx_message := in_context context (js_String (field agentErr "message"));
          dx_recovery := recovery;
          dx_onChainReverted := isOnChainReverted code |}
  with
  | Ok shaped => shaped
  | Throw _ =>
      {| dx_code := JNum (Int DX_ERROR_CODE_UNMAPPED);
         dx_message := in_context context
           (match err with JErr _ m _ => m | _ => js_String err end);
         dx_recovery := [JStr "Check transaction logs for details"];
         dx_onChainReverted := false |}
  end.

(** ** Program rejections on the dashboard *)

Definition dx_on_chain_check (c : Z) : bool :=
  match resolveDxCode (JStr (bigint_toString c)) with
  | JNum (Int z) => z =? c
  | _ => false
  end.

Lemma dx_on_chain_checks : forallb dx_on_chain_check on_chain_codes = true.
Proof. vm_compute. reflexivity. Qed.

Lemma resolve_on_chain c :
  6000 ≤ c ≤ 6118 → resolveDxCode (JStr (bigint_toString c)) = JNum (Int c).
Proof.
  intros Hc.
  pose proof (proj1 (forallb_forall _ _) dx_on_chain_checks c (on_chain_codes_elem c Hc)) as H.
  unfold dx_on_chain_check in H.
  destruct (resolveDxCode _) as [| | |[z| |]| | | | | |]; try discriminate.
  apply Z.eqb_eq in H. by subst.
Qed.

(** The actions of the tables all have a description. *)
Lemma recovery_of_actions acts :
  mapM recovery_text (map action_value acts) = Ok (map (λ a, JStr (ra_description a)) acts).
Proof. induction acts as [|a acts IH]; simpl; [done|]. by rewrite IH. Qed.

Lemma toDxError_mapped err ctx code m c :
  toAgentError err [] = Ok (JObj (mapped_error code m c)) →
  toDxError err ctx =
    {| dx_code := resolveDxCode (JStr code);
       dx_message := in_context ctx (em_message m);
       dx_recovery := map (λ a, JStr (ra_description a)) (em_recovery_actions m);
       dx_onChainReverted := isOnChainReverted (resolveDxCode (JStr code)) |}.
Proof.
  intros H. unfold toDxError. rewrite H. cbn [mbind result_bind]. cbv zeta.
  change (items_of (field (JObj (mapped_error code m c)) "recovery_actions"))
    with (map action_value (em_recovery_actions m)).
  rewrite recovery_of_actions. reflexivity.
Qed.

Lemma on_chain_category c :
  6000 ≤ c ≤ 6118 → within ANCHOR_ERROR_MIN ANCHOR_ERROR_MAX (JNum (Int c)) = true.
Proof.
  intros H. unfold within, ANCHOR_ERROR_MIN, ANCHOR_ERROR_MAX, SIGIL_ON_CHAIN_ERROR_MIN,
    SIGIL_ON_CHAIN_ERROR_MAX. apply andb_true_iff. lia.
Qed.

(** A rejection by the program reaches the dashboard as one: for every code
    of the error enum that is found in a thrown value, the [DxError] has that
    number, the table's message under the method's name, the table's recovery
    text, [onChainReverted] set and the category "program". *)
Theorem program_rejections_reach_the_dashboard (err : jsv) (c : Z) (ctx : option string) :
  6000 ≤ c ≤ 6118 → isAgentError err = false → extractErrorCode err = Some (Int c) →
  ∃ m, SigilError_variants !! Z.to_nat (c - 6000) = Some (em_name m) ∧
    toDxError err ctx =
      {| dx_code := JNum (Int c);
         dx_message := in_context ctx (em_message m);
         dx_recovery := map (λ a, JStr (ra_description a)) (em_recovery_actions m);
         dx_onChainReverted := true |} ∧
    categorizeDxError (dx_code (toDxError err ctx)) = DxProgram.
Proof.
  intros Hc Hn He. destruct (mapped_code c [] Hc) as (m & Hm & Hv & Hon).
  assert (Ha : toAgentError err [] = Ok (from_on_chain (Int c) []))
    by (unfold toAgentError; by rewrite Hn, He).
  rewrite Hon in Ha. exists m. split; [done|].
  rewrite (toDxError_mapped _ _ _ _ _ Ha), resolve_on_chain by done.
  unfold isOnChainReverted, categorizeDxError. cbn [dx_code]. by rewrite on_chain_category.
Qed.

Lemma program_rejections_reach_the_dashboard_witness :
  let err := JErr CError "custom program error: 0x1776" [] in
  isAgentError err = false ∧ extractErrorCode err = Some (Int 6006) ∧
  categorizeDxError (dx_code (toDxError err (Some "OwnerClient.freezeVault"))) = DxProgram.
Proof.
  intros err. split; [reflexivity|]. split; [reflexivity|].
  destruct (program_rejections_reach_the_dashboard err 6006 (Some "OwnerClient.freezeVault"))
    as (m & _ & _ & H); [lia | reflexivity | reflexivity | exact H].
Defined.

(** ** Errors of the SDK on the dashboard *)

(** An error thrown as a [SigilError]: its discriminant and its context. *)
Definition domain_error (code message : string) (context : fields_t) : jsv :=
  JErr CSigilError message
    [("name", JStr "SigilError"); ("code", JStr code); ("context", JObj context)].

Lemma domain_error_by_message code message context :
  toAgentError (domain_error code message context) [] =
  match message_code (JObj [("message", JStr message)]) with
  | Some n => Ok (from_on_chain n [])
  | None => from_message [] message
  end.
Proof.
  unfold toAgentError. change (isAgentError _) with false. cbv iota.
  unfold extractErrorCode, extractSdkCode, extractMessage, domain_error. cbn -[message_code from_message].
  change (message_code (JErr _ _ _)) with (message_code (JObj [("message", JStr message)])).
  by destruct (message_code _).
Qed.

(** The discriminant of a typed SDK error does not reach the dashboard:
    two [SigilError]s with the same message get the same [DxError] whatever
    their codes; the table of numbers for [SIGIL_ERROR__*] is only reached by
    an error that was wrapped by [toSigilAgentError] first. *)
Theorem dashboard_ignores_domain_codes (c1 c2 message : string) (k1 k2 : fields_t)
    (ctx : option string) :
  dx_code (toDxError (domain_error c1 message k1) ctx) =
  dx_code (toDxError (domain_error c2 message k2) ctx) ∧
  dx_code (toDxError (domain_error "SIGIL_ERROR__SDK__VAULT_NOT_FOUND" "Vault V not found" k1) ctx)
    = JNum (Int DX_ERROR_CODE_UNMAPPED) ∧
  (∃ v, toSigilAgentError (domain_error "SIGIL_ERROR__SDK__VAULT_NOT_FOUND" "Vault V not found" k1) = Ok v ∧
    dx_code (toDxError v ctx) = JNum (Int 7009)).
Proof.
  split; [|split; [reflexivity|eexists; split; reflexivity]].
  unfold toDxError. rewrite !domain_error_by_message.
  destruct (match message_code _ with Some _ => _ | None => _ end) as [v|]; [|done]. simpl. by destruct (mapM _ _).
Qed.

(** ** Categories *)

(** No error of the SDK is ever put in the dashboard's "network" category:
    every number the code assigns lies outside 7100 to 7199, and the network
    and RPC errors, 7000 and 7001, are called "user" errors. *)
Theorem transport_errors_are_called_user_errors :
  (∀ name z, jm_get name SDK_CODE_BY_NAME = Some z →
     categorizeDxError (JNum (Int z)) ≠ DxNetwork) ∧
  (∀ ctx, categorizeDxError (dx_code (toDxError (JErr CError "fetch failed" []) ctx)) = DxUser) ∧
  (∀ ctx, categorizeDxError (dx_code (toDxError (JErr CError "HTTP 429" []) ctx)) = DxUser).
Proof.
  split; [|split; reflexivity].
  assert (H : forallb (λ p, negb (bool_decide (categorizeDxError (JNum (Int p.2)) = DxNetwork)))
                SDK_CODE_BY_NAME = true) by (vm_compute; reflexivity).
  intros name z Hg. apply (jm_get_forallb (λ z, negb (bool_decide
    (categorizeDxError (JNum (Int z)) = DxNetwork))) _ _ _ H) in Hg.
  by apply negb_true_iff, bool_decide_eq_false in Hg.
Qed.
