(* ===== verification/NetworkErrors.v ===== *)
(** * Transport errors and cause chains (network-errors.ts, errors/walk.ts)

    The structural classification of transport failures, the log-safe
    projection of a thrown value, and the traversal of cause chains.  The
    first two read plain data; the traversal, whose point is to survive cyclic
    chains, is modelled over a store of objects with identities. *)

From S2P Require Import Prelude JsMap JsText JsValue.

Local Open Scope Z_scope.

Definition PROVIDER_DENIAL_NAMES : list string :=
  ["ProviderDeniedError"; "CustodyDeniedError"; "UnauthorizedError"; "ForbiddenError"].

Definition TRANSPORT_CODES : list string :=
  ["ECONNREFUSED"; "ECONNRESET"; "ETIMEDOUT"; "ENOTFOUND"; "EAI_AGAIN"; "ENETUNREACH"; "EPIPE";
   "UND_ERR_CONNECT_TIMEOUT"; "UND_ERR_HEADERS_TIMEOUT"; "UND_ERR_BODY_TIMEOUT"; "UND_ERR_SOCKET";
   "UND_ERR_ABORTED"; "CERT_HAS_EXPIRED"; "UNABLE_TO_VERIFY_LEAF_SIGNATURE";
   "DEPTH_ZERO_SELF_SIGNED_CERT"; "ERR_TLS_CERT_ALTNAME_INVALID"; "ERR_HTTP2_STREAM_ERROR";
   "ERR_HTTP2_SESSION_ERROR"; "ERR_HTTP2_GOAWAY_SESSION"; "HTTP_5XX"].

Definition TRANSPORT_CAUSE_NAMES : list string :=
  ["ConnectTimeoutError"; "HeadersTimeoutError"; "BodyTimeoutError"; "SocketError"].

(** ** Guarded property reads *)

Definition safeGetName (v : jsv) : option string :=
  match prop v "name" with Some (JStr n) => Some n | _ => None end.

Definition safeGetCause (v : jsv) : jsv := field v "cause".

Definition safeGetCode (v : jsv) : option string :=
  match prop v "code" with
  | Some (JStr c) => Some c
  | Some (JNum n) => Some (num_toString n)
  | Some (JBig z) => Some (bigint_toString z)
  | _ => None
  end.

Definition finite_field (v : jsv) (k : string) : option Z :=
  match prop v k with Some (JNum (Int z)) => Some z | _ => None end.

Definition safeGetStatusCode (v : jsv) : option Z :=
  match finite_field v "statusCode" with
  | Some z => Some z
  | None => finite_field v "status"
  end.

(** ** isTransportError *)

Definition opt_in (o : option string) (l : list string) : bool :=
  match o with Some s => bool_decide (s ∈ l) | None => false end.

Definition is_nullish (v : jsv) : bool := match v with JUndef | JNull => true | _ => false end.

Definition cause_signal (cause : jsv) : bool :=
  negb (is_nullish cause) &&
  (opt_in (safeGetName cause) TRANSPORT_CAUSE_NAMES || opt_in (safeGetCode cause) TRANSPORT_CODES).

(** The signals of an [Error] that is neither an abort nor an aggregate. *)
Definition error_signal (err : jsv) : bool :=
  opt_in (safeGetName err) ["AbortError"; "TimeoutError"] ||
  cause_signal (safeGetCause err) ||
  opt_in (safeGetCode err) TRANSPORT_CODES ||
  match safeGetStatusCode err with Some s => (500 <=? s) && (s <? 600) | None => false end ||
  match err with
  | JErr CTypeError m _ =>
      match safeGetCause err with JUndef => bool_decide (m = "fetch failed") | _ => false end
  | _ => false
  end.

(** Denials by a provider come first; an abort and an aggregate are decided by
    their own rules; values that are no [Error] are never transport errors. *)
Fixpoint isTransportError (err : jsv) : bool :=
  if opt_in (safeGetName err) PROVIDER_DENIAL_NAMES then false
  else match err with
  | JErr CDOMException _ _ => opt_in (safeGetName err) ["AbortError"; "TimeoutError"]
  | JErr CAggregateError _ fs =>
      (fix wrapped (fs : list (string * jsv)) : bool :=
         match fs with
         | [] => false
         | (k, v) :: fs =>
             if bool_decide (k = "errors")
             then match v with JArr l => existsb isTransportError l | _ => false end
             else wrapped fs
         end) fs
  | JErr _ _ _ => error_signal err
  | _ => false
  end.

(** ** redactCause *)

Definition MAX_CAUSE_WALK_DEPTH : nat := 16.
Definition MESSAGE_LIMIT : nat := 200.

Record Redacted : Type := {
  rd_name : option string;
  rd_message : option string;
  rd_code : option string
}.

Definition slice (n : nat) (s : string) : string := text (take n (chars s)).

(** The first code along the causes of [current]; data has no cycles, so the
    visited set of the code never stops the walk. *)
Fixpoint cause_code (depth : nat) (current : jsv) : option string :=
  match depth with
  | O => None
  | S depth =>
      if negb (is_object current) then None
      else let next := safeGetCause current in
           if is_nullish next then None
           else match safeGetCode next with
                | Some c => Some c
                | None => cause_code depth next
                end
  end.

Definition redact_message (err : jsv) : option string :=
  match prop err "message" with
  | Some (JStr m) => Some (slice MESSAGE_LIMIT m)
  | Some JUndef | Some JNull | None => None
  | Some m => Some ("<non-string " +:+ type_name (typeof m) +:+ ">")
  end.

Definition redactCause (err : jsv) : Redacted :=
  match err with
  | JStr s => Build_Redacted None (Some (slice MESSAGE_LIMIT s)) None
  | JNum n => Build_Redacted None None (Some (num_toString n))
  | JBig z => Build_Redacted None None (Some (bigint_toString z))
  | JArr _ | JObj _ | JErr _ _ _ =>
      Build_Redacted (safeGetName err) (redact_message err)
        (match safeGetCode err with
         | Some c => Some c
         | None => cause_code MAX_CAUSE_WALK_DEPTH err
         end)
  | _ => Build_Redacted None None None
  end.

(** The classification is structural.  A provider's denial is never
    retried as a transport failure; an aggregate is one exactly when one of
    the errors it wraps is; and the text of a message decides only for the bare
    [TypeError("fetch failed")], so that a denied request cannot talk its way
    into a retry. *)
Theorem transport_classification_is_structural (cls : error_class) (m m' : string) (fs : fields_t) :
  (∀ v, opt_in (safeGetName v) PROVIDER_DENIAL_NAMES = true → isTransportError v = false) ∧
  (∀ v, instanceof_Error v = false → isTransportError v = false) ∧
  (∀ l, jm_get "errors" fs = Some (JArr l) →
     opt_in (safeGetName (JErr CAggregateError m fs)) PROVIDER_DENIAL_NAMES = false →
     isTransportError (JErr CAggregateError m fs) = existsb isTransportError l) ∧
  (cls ≠ CTypeError → isTransportError (JErr cls m fs) = isTransportError (JErr cls m' fs)) ∧
  (isTransportError (JErr CTypeError m fs) ≠ isTransportError (JErr CTypeError m' fs) →
     m = "fetch failed" ∨ m' = "fetch failed").
Proof.
  split_and!.
  - intros v Hv. destruct v; simpl; try done; unfold isTransportError; by rewrite Hv.
  - intros v Hv. destruct v; simpl; try done; by destruct (opt_in _ _).
  - intros l Hl Hn. cbn [isTransportError]. rewrite Hn. clear Hn.
    induction fs as [|[k v] fs IH]; simpl in *; [discriminate|].
    case_bool_decide; [by simplify_eq | by apply IH].
  - intros Hcls. by destruct cls.
  - intros Hne. destruct (decide (m = "fetch failed")), (decide (m' = "fetch failed")); auto.
    destruct Hne. cbn [isTransportError error_signal].
    change (safeGetName (JErr CTypeError m fs)) with (safeGetName (JErr CTypeError m' fs)).
    destruct (opt_in _ _); [done|]. unfold error_signal.
    rewrite (bool_decide_eq_false_2 (m = _)), (bool_decide_eq_false_2 (m' = _)) by done.
    reflexivity.
Qed.

Lemma transport_classification_is_structural_witness :
  isTransportError (JErr CError "fetch failed" [("name", JStr "ForbiddenError");
    ("statusCode", JNum (Int 503))]) = false.
Proof.
  refine (proj1 (transport_classification_is_structural CError "" "" []) _ _). reflexivity.
Defined.

(** What is logged of an error is bounded: the message is cut at 200
    characters, or says only that it was no text, and the projection holds a
    name, a message and a code and nothing else of the value. *)
Lemma redacted_message_bounded (err : jsv) (m : string) :
  rd_message (redactCause err) = Some m → (String.length m ≤ MESSAGE_LIMIT)%nat.
Proof.
  assert (Hs : ∀ s, (String.length (slice MESSAGE_LIMIT s) ≤ MESSAGE_LIMIT)%nat).
  { intros s. unfold slice, text. generalize (chars s). intros l.
    assert (Hlen : ∀ l, String.length (String.string_of_list_ascii l) = length l)
      by (induction l0 as [|c l0 IH]; simpl; [done | by rewrite IH]).
    rewrite Hlen, length_take. lia. }
  assert (Hm : redact_message err = Some m → (String.length m ≤ MESSAGE_LIMIT)%nat).
  { unfold redact_message. intros H.
    destruct (prop err "message") as [[]|]; try discriminate; injection H as <-;
      try apply Hs; unfold MESSAGE_LIMIT; simpl; lia. }
  destruct err; simpl; try discriminate; try exact Hm. intros [= <-]. apply Hs.
Qed.

(** ** Cause chains over a store (errors/walk.ts) *)

Module Walk.

(** A value in a chain: a reference to an object, or a primitive. *)
Inductive val : Type :=
| VRef (l : nat)
| VStr (s : string)
| VNum (z : Z)
| VNull
| VUndef.

#[export] Instance val_eq_dec : EqDecision val.
Proof. solve_decision. Defined.

Record obj : Type := {
  o_is_error : bool;
  o_message : string;
  o_cause : val
}.

Definition heap : Type := nat → obj.

Definition is_error (h : heap) (v : val) : bool :=
  match v with VRef l => o_is_error (h l) | _ => false end.

(** The next value of the chain: only an [Error] has one. *)
Definition next (h : heap) (v : val) : option val :=
  match v with
  | VRef l => if o_is_error (h l) && negb (bool_decide (o_cause (h l) = VUndef))
              then Some (o_cause (h l)) else None
  | _ => None
  end.

(** What [walk] returns: an error of the chain, or one made for it. *)
Inductive found : Type :=
| Existing (v : val)
| NewError (message : string).

Definition val_String (h : heap) (v : val) : string :=
  match v with
  | VRef l => if o_is_error (h l) then "Error: " +:+ o_message (h l) else "[object Object]"
  | VStr s => s
  | VNum z => bigint_toString z
  | VNull => "null"
  | VUndef => "undefined"
  end.

Definition as_error (h : heap) (v : val) : found :=
  if is_error h v then Existing v else NewError (val_String h v).

Definition MAX_WALK_DEPTH : nat := 32.

(** [fuel] is [MAX_WALK_DEPTH - depth]. *)
Fixpoint walkPredicate (fuel : nat) (h : heap) (fn : val → bool) (visited : list val) (err : val) :
    option found :=
  match fuel with
  | O => None
  | S fuel =>
      if bool_decide (err ∈ visited) then None
      else if fn err then Some (as_error h err)
      else match next h err with
           | Some cause => walkPredicate fuel h fn (err :: visited) cause
           | None => None
           end
  end.

Definition root_error (h : heap) (v : val) : found :=
  if is_error h v then Existing v
  else NewError (match v with VStr s => s | _ => "non-Error cause" end).

Fixpoint walkRoot (fuel : nat) (h : heap) (visited : list val) (err : val) : found :=
  if negb (is_error h err) then root_error h err
  else if bool_decide (err ∈ visited) then Existing err
  else match fuel with
       | O => Existing err
       | S fuel =>
           match next h err with
           | Some cause => if bool_decide (cause = err) then Existing err
                           else walkRoot fuel h (err :: visited) cause
           | None => Existing err
           end
       end.

Definition walk_fn (h : heap) (fn : val → bool) (err : val) : option found :=
  walkPredicate MAX_WALK_DEPTH h fn [] err.
Definition walk (h : heap) (err : val) : found := walkRoot MAX_WALK_DEPTH h [] err.

(** *** The chain itself *)

(** The first [n] values of the chain from [v]. *)
Fixpoint chain (n : nat) (h : heap) (v : val) : list val :=
  match n with
  | O => []
  | S n => v :: match next h v with Some w => chain n h w | None => [] end
  end.

Section Chain.
Context (h : heap).

(** A set of values whose causes all stay in it. *)
Definition closed (S : list val) : Prop := ∀ x y, x ∈ S → next h x = Some y → y ∈ S.

Lemma chain_closed n S v : closed S → v ∈ S → Forall (λ x, x ∈ S) (chain n h v).
Proof.
  revert v. induction n as [|n IH]; intros v HS Hv; simpl; constructor; [done|].
  destruct (next h v) eqn:E; [|constructor]. eauto.
Qed.

(** The visited values form a path that leads to [cur]. *)
Definition path_to (visited : list val) (cur : val) : Prop :=
  ∀ x, x ∈ visited → ∃ y, next h x = Some y ∧ (y ∈ visited ∨ y = cur).

Lemma path_to_closed visited cur : path_to visited cur → cur ∈ visited → closed visited.
Proof.
  intros Hp Hc x y Hx Hy. destruct (Hp x Hx) as (z & Hz & [H| ->]); by simplify_eq.
Qed.

Lemma path_to_step visited cur w :
  path_to visited cur → next h cur = Some w → path_to (cur :: visited) w.
Proof.
  intros Hp Hn x [->|Hx]%elem_of_cons; [eauto|].
  destruct (Hp x Hx) as (z & Hz & [H| ->]); exists z || exists cur; split; eauto;
    left; apply elem_of_cons; auto.
Qed.

Lemma find_none_Forall (fn : val → bool) l :
  Forall (λ x, fn x = false) l → find fn l = None.
Proof. induction 1; simpl; [done|]. by rewrite H. Qed.

Lemma walkPredicate_find fn fuel visited v :
  path_to visited v → Forall (λ x, fn x = false) visited →
  walkPredicate fuel h fn visited v = as_error h <$> find fn (chain fuel h v).
Proof.
  revert visited v. induction fuel as [|fuel IH]; intros visited v Hp Hf; simpl; [done|].
  case_bool_decide as Hv.
  - rewrite Forall_forall in Hf. rewrite (Hf v Hv).
    destruct (next h v) as [w|] eqn:E; simpl; [|done].
    rewrite find_none_Forall; [done|].
    eapply Forall_impl; [|by intros x; apply Hf].
    apply chain_closed; [by eapply path_to_closed|]. by eapply (path_to_closed _ _ Hp Hv).
  - destruct (fn v) eqn:Efn; [done|]. destruct (next h v) as [w|] eqn:E; [|done].
    apply IH; [by eapply path_to_step | by constructor].
Qed.

(** A chain that ends within the budget visits no value twice. *)
Lemma chain_full n (S : list val) v :
  (∀ x, x ∈ S → ∃ y, next h x = Some y ∧ y ∈ S) → v ∈ S → length (chain n h v) = n.
Proof.
  revert v. induction n as [|n IH]; intros v HS Hv; simpl; [done|].
  destruct (HS v Hv) as (y & -> & Hy). by rewrite IH.
Qed.

Lemma path_to_total visited cur :
  path_to visited cur → cur ∈ visited →
  ∀ x, x ∈ visited → ∃ y, next h x = Some y ∧ y ∈ visited.
Proof. intros Hp Hc x Hx. destruct (Hp x Hx) as (y & Hy & [H| ->]); eauto. Qed.

Lemma next_is_error v w : next h v = Some w → is_error h v = true.
Proof. destruct v; simpl; try discriminate. by destruct (o_is_error _). Qed.

Lemma walkRoot_last fuel visited v :
  path_to visited v → (length (chain (S fuel) h v) ≤ fuel)%nat →
  Some (walkRoot fuel h visited v) = root_error h <$> last (chain (S fuel) h v).
Proof.
  revert visited v. induction fuel as [|fuel IH]; intros visited v Hp Hlen; [simpl in Hlen; lia|].
  assert (Hv : v ∉ visited).
  { intros Hv. rewrite (chain_full _ visited) in Hlen; [lia | by eapply path_to_total | done]. }
  cbn [walkRoot]. remember (S fuel) as f eqn:Ef. cbn [chain] in *. subst f.
  unfold root_error at 2. destruct (is_error h v) eqn:He; simpl negb; cbv iota.
  - rewrite bool_decide_eq_false_2 by done.
    destruct (next h v) as [w|] eqn:E; [|simpl; unfold root_error; by rewrite He].
    cbn [length] in Hlen.
    case_bool_decide as Hw.
    + subst w. exfalso. rewrite (chain_full (S fuel) [v]) in Hlen; [simpl in Hlen; lia| |set_solver].
      intros x Hx. exists v. set_solver.
    + rewrite (IH (v :: visited) w); [|by eapply path_to_step | cbn [length] in Hlen; lia].
      done.
  - destruct (next h v) as [w|] eqn:E; [apply next_is_error in E; congruence|].
    simpl. done.
Qed.

End Chain.

(** Walking the causes of an error always ends and finds what it is asked
    for.  With a predicate, the answer is the first match among the first 32
    values of the chain, cyclic chains included; without one, a chain that ends
    within that budget yields its last value, as an [Error]. *)
Theorem walk_searches_the_chain (h : heap) (fn : val → bool) (err : val) :
  walk_fn h fn err = as_error h <$> find fn (chain MAX_WALK_DEPTH h err) ∧
  ((length (chain (S MAX_WALK_DEPTH) h err) ≤ MAX_WALK_DEPTH)%nat →
   Some (walk h err) = root_error h <$> last (chain (S MAX_WALK_DEPTH) h err)).
Proof.
  split.
  - apply walkPredicate_find; [intros x []%elem_of_nil | constructor].
  - apply walkRoot_last. intros x []%elem_of_nil.
Qed.

(** A two-element cycle, searched and walked; and a chain with a plain object. *)
Definition cyc : heap := λ l,
  {| o_is_error := true; o_message := "m"; o_cause := VRef (1 - l) |}.
Definition plain : heap := λ l,
  {| o_is_error := bool_decide (l = 0%nat); o_message := "m";
     o_cause := if bool_decide (l = 0%nat) then VRef 1 else VUndef |}.

Lemma walk_searches_the_chain_witness :
  (length (chain (S MAX_WALK_DEPTH) plain (VRef 0)) ≤ MAX_WALK_DEPTH)%nat ∧
  Some (walk plain (VRef 0)) = Some (NewError "non-Error cause") ∧
  walk_fn cyc (λ v, bool_decide (v = VStr "x")) (VRef 0) = None.
Proof.
  split; [vm_compute; lia|].
  destruct (walk_searches_the_chain plain (λ _, false) (VRef 0)) as [_ H].
  split; [rewrite H; [reflexivity | vm_compute; lia] | reflexivity].
Defined.

End Walk.
