(* ===== verification/Registry.v ===== *)
(** * The core registry ([sdk/kit/src/core/registry.ts])

    The tables of known protocols, system programs and tokens.  A [Map] is an
    association list in insertion order, which is the order the source
    iterates it in; the keys are distinct. *)

From S2P Require Import Prelude JsText.

Local Open Scope Z_scope.

(** [Map.get] and [Map.has] on an association list. *)
Definition map_get {A} (m : list (string * A)) (k : string) : option A :=
  p ← list_find (λ p : string * A, p.1 = k) m; Some p.2.2.

Definition map_has {A} (m : list (string * A)) (k : string) : bool :=
  bool_decide (k ∈ m.*1).

Definition KNOWN_PROTOCOLS : list (string * string) := [
  ("JUP6LkbZbjS1jKKwapdHNy74zcZ3tLUZoi5QNyVTaV4", "Jupiter V6");
  ("JUP4Fb2cqiRUcaTHdrPC8h2gNsA2ETXiPDD33WcPX7a", "Jupiter V4");
  ("JUP2jxvXaqu7NQY1GmNF4m1vodw12LVXYxbFL2uN4e7", "Jupiter V2");
  ("JLend2fEim9xUFcaHsyGePEoBzFLvkjMi3MnPcSuCdu", "Jupiter Lend");
  ("j1to2GQCsfSHNPfVKMcrUNyRBK8DPYECpEVPLkz1MKv", "Jupiter Trigger");
  ("DCA265Vj8a9CEuX1eb1LWRnDT7uK6q1xMipnNyatn23M", "Jupiter Recurring");
  ("whirLbMiicVdio4qvUfM5KAg6Ct8VwpYzGff3uctyCc", "Orca Whirlpool");
  ("9W959DqEETiGZocYWCQPaJ6sBmUzgfxXfqGeTEdp3aQP", "Orca Whirlpool V2");
  ("675kPX9MHTjS2zt1qfr1NYHuzeLXfQM9H24wFSUt1Mp8", "Raydium AMM V4");
  ("CAMMCzo5YL8w4VFF8KVHrK22GGUsp5VTaW7grrKgrWqK", "Raydium CLMM");
  ("CPMMoo8L3F4NbTegBCKVNunggL7H1ZpdTHKxQB5qKP1C", "Raydium CPMM");
  ("LBUZKhRxPF3XUpBCjp4YzTKgLccjZhTSDM9YuVaPwxo", "Meteora DLMM");
  ("Eo7WjKq67rjJQSZxS6z3YkapzY3eMj6Xy8X5EQVn5UaB", "Meteora Pools");
  ("SSwpkEEcbUqx4vtoEByFjSkhKdCT862DNVb52nZg1UZ", "Saber Stable Swap");
  ("DecZY86MU5Gj7kppfUCEmd4LbXXuyZH1yHaP2NTqdiZB", "Openbook V2");
  ("FLASH6Lo6h3iasJKWDs2F8TkW2UKf3s15C8PMGuVfgBn", "Flash Trade");
  ("FSWAPViR8ny5K96hezav8jynVubP2dJ2L7SbKzds2hwm", "Flash Composability");
  ("dRiftyHA39MWEi3m9aunc5MzRF1JYuBsbn6VPcn33UH", "Drift Protocol");
  ("MNGOHoFrnGrovWiCc9kHZB8xEBKM1XPYnZCpWFbRCev", "Mango Markets V4");
  ("KLend2g3cP87ber8CzRaqeECGwNvLFM9acPVcRkRHvM", "Kamino Lending");
  ("MFv2hWf31Z9kbCa1snEPYctwafyhdvnV7FZnsebVacA", "Marginfi V2");
  ("So1endDq2YkqhipRh3WViPa8hFMqDSRbsHTE15WSnBt", "Solend");
  ("MarBmsSgKXdrN1egZf5sqe1TMai9K1rChYNDJgjq7aD", "Marinade Finance");
  ("SPoo1Ku8WFXoNDMHPsrGSTSG1Y47rzgn41SLUNakuHy", "Stake Pool Program");
  ("J1toso1uCk3RLmjorhTtrVwY9HJ7X8V9yYac6Y7kGCPn", "Jito Staking");
  ("11111111111111111111111111111111", "System Program");
  ("TokenkegQfeZyiNwAJbNbGKPFXCWuBvf9Ss623VQ5DA", "Token Program");
  ("ATokenGPvbdGVxr1b2hvZbsiqW5xWH25efTNsLJA8knL", "Associated Token");
  ("TokenzQdBNbLqP5VEhdkAS6EPFLC1PHnBqCXEpPxuEb", "Token 2022");
  ("ComputeBudget111111111111111111111111111111", "Compute Budget");
  ("SysvarRent111111111111111111111111111111111", "Sysvar Rent");
  ("SysvarC1ock11111111111111111111111111111111", "Sysvar Clock")].

Definition SYSTEM_PROGRAMS : list string := [
  "11111111111111111111111111111111";
  "TokenkegQfeZyiNwAJbNbGKPFXCWuBvf9Ss623VQ5DA";
  "ATokenGPvbdGVxr1b2hvZbsiqW5xWH25efTNsLJA8knL";
  "TokenzQdBNbLqP5VEhdkAS6EPFLC1PHnBqCXEpPxuEb";
  "ComputeBudget111111111111111111111111111111";
  "SysvarRent111111111111111111111111111111111";
  "SysvarC1ock11111111111111111111111111111111"].

Record TokenInfo : Type := { symbol : string; decimals : Z }.

Definition KNOWN_TOKENS : list (string * TokenInfo) := [
  ("EPjFWdd5AufqSSqeM2qN1xzybapC8G4wEGGkZwyTDt1v", {| symbol := "USDC"; decimals := 6 |});
  ("Es9vMFrzaCERmJfrF4H2FYD4KCoNkY11McCe8BenwNYB", {| symbol := "USDT"; decimals := 6 |});
  ("USDSwr9ApdHk5bvJKMjzff41FfuX8bSxdKcR81vTwcA", {| symbol := "USDS"; decimals := 6 |});
  ("So11111111111111111111111111111111111111112", {| symbol := "SOL"; decimals := 9 |});
  ("3NZ9JMVBmGAqocybic2c7LQCJScmgsAZ6vQqTDzcqmJh", {| symbol := "wBTC"; decimals := 8 |});
  ("cbbtcf3aa214zXHbiAZQwf4122FBYbraNdFqgw4iMij", {| symbol := "cbBTC"; decimals := 8 |});
  ("7vfCXTUXx5WJV5JADk17DUJ4ksgau7utNKj4b963voxs", {| symbol := "wETH"; decimals := 8 |});
  ("mSoLzYCxHdYgdzU16g5QSh3i5K3z3KZK7ytfqcJm7So", {| symbol := "mSOL"; decimals := 9 |});
  ("J1toso1uCk3RLmjorhTtrVwY9HJ7X8V9yYac6Y7kGCPn", {| symbol := "jitoSOL"; decimals := 9 |});
  ("bSo13r4TkiE4KumL71LsHTPpL2euBYLFx6h9HP3piy1", {| symbol := "bSOL"; decimals := 9 |})].

Definition getTokenInfo (mint : string) : option TokenInfo := map_get KNOWN_TOKENS mint.

Definition getProtocolName (programId : string) : option string := map_get KNOWN_PROTOCOLS programId.

Definition isSystemProgram (programId : string) : bool := bool_decide (programId ∈ SYSTEM_PROGRAMS).

Definition isKnownProtocol (programId : string) : bool := map_has KNOWN_PROTOCOLS programId.

(** The keys of each table are distinct, so an association list is the [Map]
    the source builds; every system program is a known protocol. *)
Lemma registry_keys_distinct :
  NoDup KNOWN_PROTOCOLS.*1 ∧ NoDup SYSTEM_PROGRAMS ∧ NoDup KNOWN_TOKENS.*1.
Proof.
  split_and!; apply (bool_decide_unpack _); vm_compute; exact I.
Qed.

Lemma system_programs_known p : isSystemProgram p = true → isKnownProtocol p = true.
Proof.
  unfold isSystemProgram, isKnownProtocol, map_has. rewrite !bool_decide_eq_true.
  intros Hp. assert (H : Forall (λ q, q ∈ KNOWN_PROTOCOLS.*1) SYSTEM_PROGRAMS).
  { apply (bool_decide_unpack _). vm_compute. exact I. }
  rewrite Forall_forall in H. by apply H.
Qed.

(** Token symbols are distinct up to case, so the first match is the only one. *)
Lemma token_symbols_distinct : NoDup (map (λ t, toUpperCase (symbol t.2)) KNOWN_TOKENS).
Proof. apply (bool_decide_unpack _). vm_compute. exact I. Qed.
