(* ===== verification/CorePolicies.v ===== *)
(** * Core policies ([sdk/kit/src/core/policies.ts])

    The policy configuration, the parser of human-readable spend limits
    ("500 USDC/day") and the resolution of a configuration into the form the
    engine checks.  The main theorem: the parser, which goes through double
    arithmetic, is exact on every decimal amount the token can represent, up
    to [2^51] base units. *)

From Stdlib Require String.
From S2P Require Import Prelude JsText Registry.

Local Open Scope Z_scope.

Record SpendLimit : Type := {
  sl_mint : string;
  sl_amount : Z;
  sl_windowMs : option Z;
}.

Record RateLimitConfig : Type := { rl_maxTransactions : Z; rl_windowMs : option Z }.

(** [maxSpend?: SpendLimit | SpendLimit[] | string | string[]]. *)
Inductive limit_spec : Type := LimitObject (l : SpendLimit) | LimitString (s : string).
Inductive max_spend : Type := OneLimit (l : limit_spec) | LimitArray (ls : list limit_spec).
Inductive size_spec : Type := SizeBigint (n : Z) | SizeString (s : string).

Record ShieldPolicies : Type := {
  maxSpend : option max_spend;
  maxTransactionSize : option size_spec;
  allowedProtocols : option (list string);
  allowedTokens : option (list string);
  blockUnknownPrograms : option bool;
  rateLimit : option RateLimitConfig;
}.

Inductive direction : Type := outgoing | incoming | unknown.
#[export] Instance direction_eq_dec : EqDecision direction.
Proof. solve_decision. Defined.

Record TokenTransfer : Type := {
  tt_mint : string;
  tt_amount : Z;
  tt_direction : direction;
  tt_destination : option string;
}.

Record TransactionAnalysis : Type := {
  programIds : list string;
  transfers : list TokenTransfer;
  estimatedValueLamports : Z;
}.

(** [ShieldConfigError], by cause; and the RangeError of [BigInt(Infinity)]. *)
Inductive config_error : Type :=
| InvalidFormat
| UnknownWindow
| UnknownSymbol
| AmountRange.

Definition DEFAULT_SPEND_LIMITS : list SpendLimit := [
  {| sl_mint := "EPjFWdd5AufqSSqeM2qN1xzybapC8G4wEGGkZwyTDt1v";
     sl_amount := 1000000000; sl_windowMs := Some 86400000 |};
  {| sl_mint := "Es9vMFrzaCERmJfrF4H2FYD4KCoNkY11McCe8BenwNYB";
     sl_amount := 1000000000; sl_windowMs := Some 86400000 |};
  {| sl_mint := "So11111111111111111111111111111111111111112";
     sl_amount := 10000000000; sl_windowMs := Some 86400000 |}].

Definition DEFAULT_BLOCK_UNKNOWN : bool := true.
Definition DEFAULT_RATE_LIMIT : RateLimitConfig :=
  {| rl_maxTransactions := 60; rl_windowMs := Some 3600000 |}.

Definition WINDOW_ALIASES : list (string * Z) := [
  ("/day", 86400000); ("/hour", 3600000); ("/hr", 3600000);
  ("/min", 60000); ("/minute", 60000)].

(** [trimmed.match(/^(\d+(?:\.\d+)?)\s+(\w+)(\/\w+)?$/)]: the digits before
    and after the point, the symbol and the window with its slash.  Each class
    of the pattern is disjoint from what may follow it, so the longest match
    is the only one. *)
Definition match_amount (s : list ascii) : option (list ascii * list ascii * list ascii) :=
  let '(whole, rest) := span is_digit s in
  match whole, rest with
  | [], _ => None
  | _, "."%char :: rest' =>
      let '(frac, rest'') := span is_digit rest' in
      match frac with [] => None | _ => Some (whole, frac, rest'') end
  | _, _ => Some (whole, [], rest)
  end.

Definition match_window (s : list ascii) : option (option (list ascii)) :=
  match s with
  | [] => Some None
  | "/"%char :: s =>
      match span is_word s with
      | ([], _) => None
      | (w, []) => Some (Some ("/"%char :: w))
      | _ => None
      end
  | _ => None
  end.

Definition match_limit (s : list ascii)
    : option (list ascii * list ascii * list ascii * option (list ascii)) :=
  '(whole, frac, rest) ← match_amount s;
  let '(sp, rest) := span is_space rest in
  let '(sym, rest) := span is_word rest in
  match sp, sym with
  | [], _ | _, [] => None
  | _, _ => win ← match_window rest; Some (whole, frac, sym, win)
  end.

Definition find_token (symbol_ : string) : option (string * TokenInfo) :=
  p ← list_find (λ t : string * TokenInfo,
        toUpperCase (symbol t.2) = toUpperCase symbol_) KNOWN_TOKENS;
  Some p.2.

Definition parseSpendLimit (input : string) : result config_error SpendLimit :=
  match match_limit (trim (chars input)) with
  | None => Throw InvalidFormat
  | Some (whole, frac, sym, windowStr) =>
      windowMs ← match windowStr with
                 | None => Ok 86400000
                 | Some w => match map_get WINDOW_ALIASES (text w) with
                             | Some ms => Ok ms
                             | None => Throw UnknownWindow
                             end
                 end;
      match find_token (text sym) with
      | None => Throw UnknownSymbol
      | Some (foundMint, info) =>
          let amountFloat := to_double (digits_value (whole ++ frac)) (10 ^ Z.of_nat (length frac)) in
          match Math_round (double_mul_int amountFloat (10 ^ decimals info)) with
          | None => Throw AmountRange
          | Some amountNative =>
              Ok {| sl_mint := foundMint; sl_amount := amountNative; sl_windowMs := Some windowMs |}
          end
      end
  end.

Record ResolvedPolicies : Type := {
  rp_spendLimits : list SpendLimit;
  rp_maxTransactionSize : option Z;
  rp_allowedProtocols : option (gset string);
  rp_allowedTokens : option (gset string);
  rp_blockUnknownPrograms : bool;
  rp_maxTransactions : Z;
  rp_rateWindowMs : Z;
}.

Definition default_resolved : ResolvedPolicies := {|
  rp_spendLimits := DEFAULT_SPEND_LIMITS;
  rp_maxTransactionSize := None;
  rp_allowedProtocols := None;
  rp_allowedTokens := None;
  rp_blockUnknownPrograms := DEFAULT_BLOCK_UNKNOWN;
  rp_maxTransactions := rl_maxTransactions DEFAULT_RATE_LIMIT;
  rp_rateWindowMs := default 3600000 (rl_windowMs DEFAULT_RATE_LIMIT);
|}.

Definition resolve_limit (l : limit_spec) : result config_error SpendLimit :=
  match l with LimitString s => parseSpendLimit s | LimitObject l => Ok l end.

Definition resolvePolicies (input : option ShieldPolicies) : result config_error ResolvedPolicies :=
  match input with
  | None => Ok default_resolved
  | Some input =>
      spendLimits ← match maxSpend input with
                    | None => Ok (rp_spendLimits default_resolved)
                    | Some (OneLimit l) => mapM resolve_limit [l]
                    | Some (LimitArray ls) => mapM resolve_limit ls
                    end;
      size ← match maxTransactionSize input with
             | None => Ok None
             | Some (SizeString s) => l ← parseSpendLimit s; Ok (Some (sl_amount l))
             | Some (SizeBigint n) => Ok (Some n)
             end;
      Ok {| rp_spendLimits := spendLimits;
            rp_maxTransactionSize := size;
            rp_allowedProtocols := list_to_set <$> allowedProtocols input;
            rp_allowedTokens := list_to_set <$> allowedTokens input;
            rp_blockUnknownPrograms :=
              default (rp_blockUnknownPrograms default_resolved) (blockUnknownPrograms input);
            rp_maxTransactions :=
              default (rp_maxTransactions default_resolved)
                (rl_maxTransactions <$> rateLimit input);
            rp_rateWindowMs :=
              match rateLimit input with
              | None => rp_rateWindowMs default_resolved
              | Some r => default 3600000 (rl_windowMs r)
              end |}
  end.

Example parse_examples :
  map parseSpendLimit ["500 USDC/day"; " 0.1 sol/hr "; "5 USDC/week"; "5 XYZ"; "5USDC"]%string =
  [Ok {| sl_mint := "EPjFWdd5AufqSSqeM2qN1xzybapC8G4wEGGkZwyTDt1v"; sl_amount := 500000000;
         sl_windowMs := Some 86400000 |};
   Ok {| sl_mint := "So11111111111111111111111111111111111111112"; sl_amount := 100000000;
         sl_windowMs := Some 3600000 |};
   Throw UnknownWindow; Throw UnknownSymbol; Throw InvalidFormat].
Proof. vm_compute. reflexivity. Qed.

(** ** The parser is exact *)

(** Text that neither starts nor ends with white space. *)
Lemma trim_id c s d :
  is_space c = false → is_space d = false → trim ((c :: s) ++ [d]) = (c :: s) ++ [d].
Proof.
  intros Hc Hd. unfold trim. cbn [app span]. rewrite Hc. cbn [snd].
  change (c :: s ++ [d]) with ((c :: s) ++ [d]). rewrite reverse_app. cbn [reverse].
  change (reverse [d]) with [d]. cbn [app span]. rewrite Hd. cbn [snd].
  by rewrite reverse_cons, reverse_involutive.
Qed.

Definition frac_text (frac : list ascii) : list ascii :=
  match frac with [] => [] | _ => "."%char :: frac end.

(** "<whole>[.<frac>] <symbol><window>". *)
Definition limit_text (whole frac : list ascii) (sym win : string) : string :=
  text (whole ++ frac_text frac ++ " "%char :: chars sym ++ chars win).

Definition token_ok (t : string * TokenInfo) : Prop :=
  chars (symbol t.2) ≠ [] ∧ forallb is_word (chars (symbol t.2)) = true ∧
  find_token (symbol t.2) = Some t ∧ 0 ≤ decimals t.2 ≤ 9.

#[local] Instance token_info_eq_dec : EqDecision TokenInfo.
Proof. solve_decision. Defined.
#[local] Instance token_ok_dec t : Decision (token_ok t).
Proof. unfold token_ok. apply _. Defined.

Lemma known_tokens_ok : Forall token_ok KNOWN_TOKENS.
Proof. apply (bool_decide_unpack _). vm_compute. exact I. Qed.

Definition window_ok (w : string * Z) : Prop :=
  ∃ cs, chars w.1 = "/"%char :: cs ∧ cs ≠ [] ∧ forallb is_word cs = true ∧
    map_get WINDOW_ALIASES w.1 = Some w.2.

Lemma windows_ok : Forall window_ok WINDOW_ALIASES.
Proof.
  repeat (constructor; [eexists; split_and!; [reflexivity|done|reflexivity|reflexivity]|]).
  constructor.
Qed.

Lemma forallb_Is_true (p : ascii → bool) cs : forallb p cs = true → Forall p cs.
Proof.
  rewrite forallb_forall, List.Forall_forall. intros H x Hx. by apply Is_true_true, H.
Qed.

Lemma word_not_space c : is_word c → is_space c = false.
Proof.
  intros H%Is_true_true.
  unfold is_word, is_space, is_digit, is_upper, is_lower, in_range in *. lia.
Qed.

Lemma match_amount_text whole frac rest :
  Forall is_digit whole → whole ≠ [] → Forall is_digit frac →
  match_amount (whole ++ frac_text frac ++ " "%char :: rest) =
  Some (whole, frac, " "%char :: rest).
Proof.
  intros Hw Hne Hf. unfold match_amount. rewrite span_app; [|done|].
  - destruct whole; [done|]. destruct frac as [|f frac]; [done|]. unfold frac_text.
    cbn [app]. change (f :: frac ++ " "%char :: rest) with ((f :: frac) ++ " "%char :: rest).
    rewrite span_app; [done|done|]. by intros ? ? [= <- _].
  - unfold frac_text. destruct frac; intros ? ? [= <- _]; done.
Qed.

Lemma match_limit_text whole frac sym w :
  Forall is_digit whole → whole ≠ [] → Forall is_digit frac →
  Forall is_word sym → sym ≠ [] → Forall is_word w → w ≠ [] →
  match_limit (whole ++ frac_text frac ++ " "%char :: sym ++ "/"%char :: w) =
  Some (whole, frac, sym, Some ("/"%char :: w)).
Proof.
  intros Hw Hne Hf Hs Hsne Hwin Hwne. unfold match_limit.
  rewrite match_amount_text by done. cbn [mbind option_bind].
  change (" "%char :: sym ++ "/"%char :: w) with ([" "%char] ++ (sym ++ "/"%char :: w)).
  rewrite span_app; cycle 1.
  { by constructor. }
  { intros c b Hc. destruct sym as [|x sym]; [done|]. injection Hc as <- _.
    inversion Hs; subst. by apply word_not_space. }
  rewrite span_app; [|done|by intros ? ? [= <- _]].
  destruct sym as [|x sym]; [done|]. cbn [match_window].
  rewrite <- (app_nil_r w), span_app; [|done|done].
  destruct w; [done|]. cbn [mbind option_bind]. by rewrite app_nil_r.
Qed.

Lemma digits_value_nonneg_from cs acc :
  0 ≤ acc → Forall is_digit cs → 0 ≤ foldl (λ acc c, 10 * acc + digit_value c) acc cs.
Proof.
  intros Ha Hd; revert acc Ha.
  induction Hd as [|x xs Hx%Is_true_true _ IH]; intros acc Ha; simpl; [done|].
  apply IH. unfold is_digit, in_range, digit_value in *. lia.
Qed.

(** [Math.round(parseFloat(s) * 10 ** d)] on at most [d] fraction digits. *)
Lemma decimal_exact a k d :
  0 ≤ a → (0 ≤ Z.of_nat k ≤ d) → d ≤ 9 → a * 10 ^ (d - Z.of_nat k) < 2 ^ 51 →
  Math_round (double_mul_int (to_double a (10 ^ Z.of_nat k)) (10 ^ d)) =
  Some (a * 10 ^ (d - Z.of_nat k)).
Proof.
  intros Ha Hk Hd Hlt. destruct (Z.eq_dec a 0) as [->|].
  { unfold to_double. by rewrite Z.eqb_refl. }
  apply scaled_decimal_exact; [lia|apply Z.pow_pos_nonneg; lia|apply Z.pow_pos_nonneg; lia| |done|].
  - rewrite <- Z.mul_assoc, <- Z.pow_add_r by lia. do 2 f_equal. lia.
  - transitivity (10 ^ 9); [apply Z.pow_le_mono_r; lia|].
    transitivity (2 ^ 30); [vm_compute; discriminate|apply Z.pow_le_mono_r; lia].
Qed.

Lemma trim_limit_text whole frac sym w :
  Forall is_digit whole → whole ≠ [] → Forall is_word w → w ≠ [] →
  trim (whole ++ frac_text frac ++ " "%char :: sym ++ "/"%char :: w) =
  whole ++ frac_text frac ++ " "%char :: sym ++ "/"%char :: w.
Proof.
  intros Hw Hne Hwin Hwne. destruct whole as [|c whole]; [done|].
  destruct w as [|d w _] using rev_ind; [done|].
  replace ((c :: whole) ++ frac_text frac ++ " "%char :: sym ++ "/"%char :: w ++ [d])
    with ((c :: (whole ++ frac_text frac ++ " "%char :: sym ++ "/"%char :: w)) ++ [d])
    by (simpl; rewrite <- !app_assoc; simpl; by rewrite <- app_assoc).
  inversion Hw; subst. apply Forall_app in Hwin as [_ Hd%Forall_single].
  apply trim_id; [by apply digit_not_space|by apply word_not_space].
Qed.

(** A spend limit written with a known token symbol, a known window and at
    most as many fraction digits as the token has decimals is parsed to exactly
    that amount in base units, whenever it is below 2^51, although the parser
    multiplies and rounds doubles. *)
Theorem parse_spend_limit_exact whole frac mint info win ms :
  Forall is_digit whole → whole ≠ [] → Forall is_digit frac →
  (mint, info) ∈ KNOWN_TOKENS → (win, ms) ∈ WINDOW_ALIASES →
  Z.of_nat (length frac) ≤ decimals info →
  digits_value (whole ++ frac) * 10 ^ (decimals info - Z.of_nat (length frac)) < 2 ^ 51 →
  parseSpendLimit (limit_text whole frac (symbol info) win) =
  Ok {| sl_mint := mint;
        sl_amount := digits_value (whole ++ frac) * 10 ^ (decimals info - Z.of_nat (length frac));
        sl_windowMs := Some ms |}.
Proof.
  intros Hw Hne Hf Ht Hwin Hlen Hlt.
  pose proof known_tokens_ok as HT. rewrite Forall_forall in HT.
  destruct (HT _ Ht) as (Hsne & Hsw & Hfind & Hdec). cbn [fst snd] in *.
  pose proof windows_ok as HW. rewrite Forall_forall in HW.
  destruct (HW _ Hwin) as (cs & Hcs & Hcne & Hcw & Hget). cbn [fst snd] in *.
  apply forallb_Is_true in Hsw, Hcw.
  unfold parseSpendLimit, limit_text. rewrite chars_text, Hcs, trim_limit_text by done.
  rewrite match_limit_text by done. rewrite <- Hcs.
  assert (text (chars win) = win) as -> by apply String.string_of_list_ascii_of_string.
  assert (text (chars (symbol info)) = symbol info) as ->
    by apply String.string_of_list_ascii_of_string.
  rewrite Hget, Hfind. cbn [mbind result_bind]. rewrite decimal_exact; [done| |lia|lia|done].
  apply digits_value_nonneg_from; [done|]. by apply Forall_app.
Qed.

Lemma parse_spend_limit_exact_witness :
  parseSpendLimit "0.1 SOL/hr" =
  Ok {| sl_mint := "So11111111111111111111111111111111111111112"; sl_amount := 100000000;
        sl_windowMs := Some 3600000 |}.
Proof.
  apply (parse_spend_limit_exact ["0"]%char ["1"]%char
    "So11111111111111111111111111111111111111112" {| symbol := "SOL"; decimals := 9 |}
    "/hr" 3600000); [repeat constructor|done|repeat constructor| | |vm_compute; discriminate
    |vm_compute; reflexivity].
  - apply (bool_decide_unpack _). vm_compute. exact I.
  - apply (bool_decide_unpack _). vm_compute. exact I.
Defined.

(** Resolving a configuration either throws the first parse error or keeps
    every field the caller gave and the secure default of every other one; in
    particular, without input unknown programs are blocked and the three
    default caps and the 60-per-hour rate limit apply. *)
Theorem resolve_policies_fields input p :
  resolvePolicies (Some input) = Ok p →
  rp_blockUnknownPrograms p = default true (blockUnknownPrograms input) ∧
  rp_allowedProtocols p = list_to_set <$> allowedProtocols input ∧
  rp_allowedTokens p = list_to_set <$> allowedTokens input ∧
  (maxSpend input = None → rp_spendLimits p = DEFAULT_SPEND_LIMITS) ∧
  (∀ ls, maxSpend input = Some (LimitArray ls) →
     Forall2 (λ l r, resolve_limit l = Ok r) ls (rp_spendLimits p)) ∧
  (rateLimit input = None → rp_maxTransactions p = 60 ∧ rp_rateWindowMs p = 3600000).
Proof.
  unfold resolvePolicies. intros H.
  destruct (maxSpend input) as [[l|ls]|]; inv_ok; simpl; split_and!; try done.
  - intros ->. done.
  - intros ? [= ->]. by apply mapM_Ok_iff.
  - intros ->. done.
  - intros ->. done.
Qed.

Lemma resolve_policies_fields_witness :
  ∃ p, resolvePolicies (Some {| maxSpend := Some (LimitArray [LimitString "5 USDC/day"]);
      maxTransactionSize := None; allowedProtocols := None; allowedTokens := None;
      blockUnknownPrograms := None; rateLimit := None |}) = Ok p ∧
    rp_blockUnknownPrograms p = true.
Proof.
  eexists. split; [vm_compute; reflexivity|].
  eapply (resolve_policies_fields {| maxSpend := Some (LimitArray [LimitString "5 USDC/day"]);
      maxTransactionSize := None; allowedProtocols := None; allowedTokens := None;
      blockUnknownPrograms := None; rateLimit := None |}).
  vm_compute. reflexivity.
Defined.
