(* ===== verification/SpendLog.v ===== *)
(** * Spend logs and rolling windows

    The log entries shared by the two shield states ([core/state.ts] and
    [shield.ts]) and the sums over rolling windows of them that the
    specifications are stated with. *)

From S2P Require Import Prelude.

Local Open Scope Z_scope.

Record SpendEntry : Type := { se_mint : string; se_amount : Z; se_timestamp : Z }.

(** The recorded spend of a mint within a window, as a sum. *)
Definition in_window (mint : string) (cutoff : Z) (e : SpendEntry) : Z :=
  if bool_decide (se_mint e = mint) && (cutoff <=? se_timestamp e) then se_amount e else 0.

Definition window_spend (mint : string) (cutoff : Z) (es : list SpendEntry) : Z :=
  sumZ (map (in_window mint cutoff) es).

Definition window_count (cutoff : Z) (ts : list Z) : Z :=
  Z.of_nat (length (filter (λ t, cutoff ≤ t) ts)).

Lemma window_spend_app mint c a b :
  window_spend mint c (a ++ b) = window_spend mint c a + window_spend mint c b.
Proof. unfold window_spend. by rewrite map_app, sumZ_app. Qed.

Lemma window_spend_mono mint c c' l :
  Forall (λ e, 0 ≤ se_amount e) l → c ≤ c' → window_spend mint c' l ≤ window_spend mint c l.
Proof.
  intros Hp Hc. unfold window_spend. induction Hp as [|e l He _ IH]; simpl; [done|].
  unfold sumZ, in_window in *. simpl.
  destruct (bool_decide (se_mint e = mint)), (Z.leb_spec c' (se_timestamp e)),
    (Z.leb_spec c (se_timestamp e)); simpl; lia.
Qed.

Lemma window_spend_old mint c l :
  Forall (λ e, se_timestamp e < c) l → window_spend mint c l = 0.
Proof.
  unfold window_spend. induction 1 as [|e l He _ IH]; simpl; [done|].
  unfold sumZ, in_window in *. simpl. rewrite IH.
  destruct (Z.leb_spec c (se_timestamp e)); [lia|]. by rewrite andb_false_r.
Qed.

Lemma window_count_app c a b : window_count c (a ++ b) = window_count c a + window_count c b.
Proof. unfold window_count. rewrite filter_app, length_app. lia. Qed.

Lemma window_count_mono c c' l : c ≤ c' → window_count c' l ≤ window_count c l.
Proof.
  intros Hc. unfold window_count. induction l as [|x l IH]; [simpl; lia|].
  rewrite !filter_cons. destruct (decide (c' ≤ x)), (decide (c ≤ x)); simpl; lia.
Qed.

Lemma window_count_length c l : window_count c l ≤ Z.of_nat (length l).
Proof. apply Nat2Z.inj_le, length_filter. Qed.

Lemma filter_all_length {A} (P : A → Prop) `{!∀ x, Decision (P x)} l :
  Forall P l → length (filter P l) = length l.
Proof. induction 1; rewrite ?filter_cons_True by done; simpl; congruence. Qed.
