(* ===== verification/CoreState.v ===== *)
(** * Core shield state ([sdk/kit/src/core/state.ts])

    The rolling spend and transaction logs, trimmed to 5000 entries, with
    optional persistence through a pluggable storage.  The storage is the
    caller's ([ShieldStorage]); it is a type class here, its two keys as two
    slots, with the laws of a store as a second class, and the in-memory
    store as an instance.  [Date.now()] is an argument [now] of each operation
    that reads it. *)

From Stdlib Require String.
From S2P Require Import Prelude JsText SpendLog.

Local Open Scope Z_scope.

(** What [persist] writes of a spend entry: the amount as decimal text. *)
Record RawSpend : Type := { raw_mint : string; raw_amount : string; raw_timestamp : Z }.

(** A stored item: the JSON text of a value, or text that [JSON.parse] or
    [getItem] refuses. *)
Inductive stored (A : Type) : Type := Json (a : A) | Corrupt.
Arguments Json {_} _.
Arguments Corrupt {_}.

(** [getItem] and [setItem] at the two keys; a [setItem] that throws is [None]. *)
Class ShieldStorage (S : Type) : Type := {
  getSpends : S → option (stored (list RawSpend));
  getTxs : S → option (stored (list Z));
  setSpends : S → list RawSpend → option S;
  setTxs : S → list Z → option S;
}.

(** A store that keeps what it is given, each key on its own. *)
Class LawfulStorage (S : Type) `{ShieldStorage S} : Prop := {
  setSpends_ok : ∀ s v, ∃ s', setSpends s v = Some s' ∧
    getSpends s' = Some (Json v) ∧ getTxs s' = getTxs s;
  setTxs_ok : ∀ s v, ∃ s', setTxs s v = Some s' ∧
    getTxs s' = Some (Json v) ∧ getSpends s' = getSpends s;
}.

Definition MAX_SPEND_ENTRIES : nat := 5000.
Definition MAX_TX_ENTRIES : nat := 5000.

(** [xs.slice(-n)] *)
Definition slice_last {A} (n : nat) (l : list A) : list A := drop (length l - n) l.

Section State.
Context {S : Type} `{ShieldStorage S}.

Record ShieldState : Type := {
  spendEntries : list SpendEntry;
  txEntries : list Z;
  storage : option S;
}.

Definition to_raw (e : SpendEntry) : RawSpend := {|
  raw_mint := se_mint e; raw_amount := bigint_toString (se_amount e);
  raw_timestamp := se_timestamp e |}.

Definition of_raw (r : RawSpend) : option SpendEntry :=
  a ← BigInt (raw_amount r);
  Some {| se_mint := raw_mint r; se_amount := a; se_timestamp := raw_timestamp r |}.

(** The two writes of [persist]; a throw skips the rest and is swallowed. *)
Definition persist (st : ShieldState) : ShieldState :=
  match storage st with
  | None => st
  | Some s =>
      match setSpends s (map to_raw (spendEntries st)) with
      | None => st
      | Some s =>
          {| spendEntries := spendEntries st; txEntries := txEntries st;
             storage := Some (default s (setTxs s (txEntries st))) |}
      end
  end.

Definition recordSpend (now : Z) (mint : string) (amount : Z) (st : ShieldState) : ShieldState :=
  let es := spendEntries st ++ [{| se_mint := mint; se_amount := amount; se_timestamp := now |}] in
  let es := if bool_decide (MAX_SPEND_ENTRIES < length es)%nat
            then slice_last MAX_SPEND_ENTRIES es else es in
  persist {| spendEntries := es; txEntries := txEntries st; storage := storage st |}.

Definition recordTransaction (now : Z) (st : ShieldState) : ShieldState :=
  let ts := txEntries st ++ [now] in
  let ts := if bool_decide (MAX_TX_ENTRIES < length ts)%nat
            then slice_last MAX_TX_ENTRIES ts else ts in
  persist {| spendEntries := spendEntries st; txEntries := ts; storage := storage st |}.

Definition getSpendInWindow (now : Z) (mint : string) (windowMs : Z) (st : ShieldState) : Z :=
  let cutoff := now - windowMs in
  foldl (λ total e,
    if bool_decide (se_mint e = mint) && (cutoff <=? se_timestamp e)
    then total + se_amount e else total) 0 (spendEntries st).

Definition getTransactionCountInWindow (now : Z) (windowMs : Z) (st : ShieldState) : Z :=
  let cutoff := now - windowMs in
  foldl (λ count t, if cutoff <=? t then count + 1 else count) 0 (txEntries st).

Definition pruneExpired (now : Z) (maxWindowMs : Z) (st : ShieldState) : ShieldState :=
  let cutoff := now - maxWindowMs in
  persist {| spendEntries := filter (λ e, cutoff ≤ se_timestamp e) (spendEntries st);
             txEntries := filter (λ t, cutoff ≤ t) (txEntries st);
             storage := storage st |}.

Definition checkpoint (st : ShieldState) : list SpendEntry * list Z :=
  (spendEntries st, txEntries st).

(** The arrays of the checkpoint become the live ones. *)
Definition rollback (cp : list SpendEntry * list Z) (st : ShieldState) : ShieldState :=
  persist {| spendEntries := cp.1; txEntries := cp.2; storage := storage st |}.

Definition reset (st : ShieldState) : ShieldState :=
  persist {| spendEntries := []; txEntries := []; storage := storage st |}.

Definition load (st : ShieldState) : ShieldState :=
  match storage st with
  | None => st
  | Some s =>
      let spends := match getSpends s with
                    | None => spendEntries st
                    | Some Corrupt => []
                    | Some (Json raws) => default [] (mapM of_raw raws)
                    end in
      let txs := match getTxs s with
                 | None => txEntries st
                 | Some Corrupt => []
                 | Some (Json ts) => ts
                 end in
      {| spendEntries := spends; txEntries := txs; storage := Some s |}
  end.

(** [new ShieldState(storage)]; [detected] is what [detectStorage] finds. *)
Definition new_ShieldState (given detected : option S) : ShieldState :=
  load {| spendEntries := []; txEntries := [];
          storage := match given with Some s => Some s | None => detected end |}.
End State.
Arguments ShieldState : clear implicits.

(** The in-memory store. *)
Record MemoryStore : Type := {
  mem_spends : option (stored (list RawSpend));
  mem_txs : option (stored (list Z));
}.

#[export] Instance memory_storage : ShieldStorage MemoryStore := {|
  getSpends := mem_spends;
  getTxs := mem_txs;
  setSpends s v := Some {| mem_spends := Some (Json v); mem_txs := mem_txs s |};
  setTxs s v := Some {| mem_spends := mem_spends s; mem_txs := Some (Json v) |};
|}.

#[export] Instance memory_lawful : LawfulStorage MemoryStore.
Proof. split; intros; eexists; split_and!; reflexivity. Qed.

(** ** Lemmas on the logs *)

Section Lemmas.
Context {S : Type} `{ShieldStorage S}.
Implicit Types st : ShieldState S.

Lemma persist_entries st :
  spendEntries (persist st) = spendEntries st ∧ txEntries (persist st) = txEntries st.
Proof.
  unfold persist. destruct (storage st); [|done]. by destruct (setSpends _ _).
Qed.

Lemma getSpendInWindow_eq now mint w st :
  getSpendInWindow now mint w st = window_spend mint (now - w) (spendEntries st).
Proof.
  unfold getSpendInWindow, window_spend.
  enough (Hacc : ∀ es acc, foldl (λ total e,
    if bool_decide (se_mint e = mint) && (now - w <=? se_timestamp e)
    then total + se_amount e else total) acc es = acc + sumZ (map (in_window mint (now - w)) es))
    by (rewrite Hacc; lia).
  induction es as [|e es IH]; intros acc; simpl; [lia|].
  rewrite IH. unfold in_window at 2. destruct (_ && _); lia.
Qed.

Lemma getTransactionCountInWindow_eq now w st :
  getTransactionCountInWindow now w st = window_count (now - w) (txEntries st).
Proof.
  unfold getTransactionCountInWindow, window_count.
  enough (Hacc : ∀ ts acc, foldl (λ count t, if now - w <=? t then count + 1 else count) acc ts =
    acc + Z.of_nat (length (filter (λ t, now - w ≤ t) ts))) by (rewrite Hacc; lia).
  induction ts as [|t ts IH]; intros acc; cbn [foldl]; [simpl; lia|].
  rewrite IH, filter_cons. destruct (Z.leb_spec (now - w) t), (decide (now - w ≤ t)); simpl; lia.
Qed.

Lemma slice_last_app {A} n (l : list A) :
  ∃ dropped, l = dropped ++ slice_last n l ∧
    (dropped = [] ∨ length (slice_last n l) = n).
Proof.
  exists (take (length l - n) l). split.
  - symmetry. apply take_drop.
  - destruct (decide (length l ≤ n)%nat).
    + left. by replace (length l - n)%nat with 0%nat by lia.
    + right. unfold slice_last. rewrite length_drop. lia.
Qed.

Lemma slice_last_all {A} n (l : list A) : (length l ≤ n)%nat → slice_last n l = l.
Proof. intros. unfold slice_last. by replace (length l - n)%nat with 0%nat by lia. Qed.

(** Trimming twice keeps what trimming once at the end keeps. *)
Lemma slice_last_snoc {A} n (l : list A) x :
  slice_last n (slice_last n l ++ [x]) = slice_last n (l ++ [x]).
Proof.
  unfold slice_last. rewrite !length_app, length_drop. simpl.
  destruct (decide (length l ≤ n)%nat).
  - by replace (length l - n)%nat with 0%nat by lia; rewrite ?Nat.sub_0_r.
  - rewrite !drop_app, drop_drop, length_drop. f_equal; f_equal; lia.
Qed.

Lemma trim_eq {A} n (l : list A) :
  (if bool_decide (n < length l)%nat then slice_last n l else l) = slice_last n l.
Proof. case_bool_decide; [done|]. symmetry. apply slice_last_all. lia. Qed.

Lemma recordSpend_entries now mint amount st :
  spendEntries (recordSpend now mint amount st) =
  slice_last MAX_SPEND_ENTRIES
    (spendEntries st ++ [{| se_mint := mint; se_amount := amount; se_timestamp := now |}]) ∧
  txEntries (recordSpend now mint amount st) = txEntries st.
Proof.
  unfold recordSpend. rewrite !(proj1 (persist_entries _)), !(proj2 (persist_entries _)).
  split; [apply trim_eq|done].
Qed.

Lemma recordTransaction_entries now st :
  txEntries (recordTransaction now st) = slice_last MAX_TX_ENTRIES (txEntries st ++ [now]) ∧
  spendEntries (recordTransaction now st) = spendEntries st.
Proof.
  unfold recordTransaction. rewrite !(proj1 (persist_entries _)), !(proj2 (persist_entries _)).
  split; [apply trim_eq|done].
Qed.
End Lemmas.

(** ** Persistence round trip *)

Section RoundTrip.
Context {S : Type} `{LawfulStorage S}.

Lemma of_to_raw e : 0 ≤ se_amount e → of_raw (to_raw e) = Some e.
Proof.
  intros He. unfold of_raw, to_raw. simpl. rewrite BigInt_toString by done.
  simpl. by destruct e.
Qed.

Lemma of_to_raws es :
  Forall (λ e, 0 ≤ se_amount e) es → mapM of_raw (map to_raw es) = Some es.
Proof.
  induction 1 as [|e es He _ IH]; simpl; [done|].
  rewrite of_to_raw by done. simpl. by rewrite IH.
Qed.

Lemma persist_storage (st : ShieldState S) s :
  storage st = Some s →
  ∃ s', storage (persist st) = Some s' ∧
    getSpends s' = Some (Json (map to_raw (spendEntries st))) ∧
    getTxs s' = Some (Json (txEntries st)).
Proof.
  intros Hs. unfold persist. rewrite Hs.
  destruct (setSpends_ok s (map to_raw (spendEntries st))) as (s1 & -> & Hg & _).
  destruct (setTxs_ok s1 (txEntries st)) as (s2 & Hs2 & Ht & Hg2).
  exists s2. rewrite Hs2. split; [done|]. by rewrite Hg2.
Qed.

Lemma load_persist (st : ShieldState S) s :
  storage st = Some s → Forall (λ e, 0 ≤ se_amount e) (spendEntries st) →
  ∀ d, new_ShieldState (storage (persist st)) d = persist st.
Proof.
  intros Hs Hpos d. destruct (persist_storage st s Hs) as (s' & Hs' & Hg & Ht).
  destruct (persist_entries st) as [He Htx].
  unfold new_ShieldState, load. rewrite Hs'. simpl.
  rewrite Hg, Ht, of_to_raws by done. simpl.
  rewrite <- He, <- Htx, <- Hs'. by destruct (persist st).
Qed.
End RoundTrip.

(** Whatever a state records, prunes, rolls back or resets is what a new
    state over the same storage loads: after each operation the stored text
    reads back to exactly the live entries, amounts as [bigint] decimal text
    included. *)
Theorem state_persistence_round_trip {S} `{LawfulStorage S} (st : ShieldState S) s now mint amount
    w cp detected :
  storage st = Some s → 0 ≤ amount →
  Forall (λ e, 0 ≤ se_amount e) (spendEntries st) → Forall (λ e, 0 ≤ se_amount e) cp.1 →
  ∀ st', st' ∈ [recordSpend now mint amount st; recordTransaction now st;
                pruneExpired now w st; rollback cp st; reset st] →
  new_ShieldState (storage st') detected = st'.
Proof.
  intros Hs Ha Hst Hcp st' Hin.
  assert (∃ st0, st' = persist st0 ∧ storage st0 = Some s ∧
    Forall (λ e, 0 ≤ se_amount e) (spendEntries st0)) as (st0 & -> & Hs0 & Hp0).
  { repeat (apply elem_of_cons in Hin as [->|Hin]; [eexists; split_and!; [reflexivity|exact Hs|]|]);
      [..|by apply elem_of_nil in Hin]; simpl; [|done| |done|done].
    - rewrite trim_eq. unfold slice_last. apply Forall_drop, Forall_app. auto.
    - rewrite Forall_forall in *. intros e [_ He]%list_elem_of_filter. by apply Hst. }
  by eapply load_persist.
Qed.

Definition demo_state : ShieldState MemoryStore := {|
  spendEntries := [{| se_mint := "a"; se_amount := 1500; se_timestamp := 7 |}];
  txEntries := [7]; storage := Some {| mem_spends := None; mem_txs := None |} |}.

Lemma state_persistence_round_trip_witness :
  new_ShieldState (storage (recordSpend 9 "b" 20 demo_state)) None =
  recordSpend 9 "b" 20 demo_state.
Proof.
  eapply (state_persistence_round_trip demo_state _ 9 "b" 20 1 ([], []) None);
    [reflexivity|lia|repeat constructor; simpl; lia|constructor|].
  apply elem_of_cons. by left.
Defined.

(** Rolling back to a checkpoint undoes every entry recorded since: the two
    logs are those of the checkpointed state, whatever was done in between. *)
Theorem rollback_restores {S} `{ShieldStorage S} (st st' : ShieldState S) :
  spendEntries (rollback (checkpoint st) st') = spendEntries st ∧
  txEntries (rollback (checkpoint st) st') = txEntries st ∧
  (∀ now mint w, getSpendInWindow now mint w (rollback (checkpoint st) st') =
     getSpendInWindow now mint w st).
Proof.
  assert (He : spendEntries (rollback (checkpoint st) st') = spendEntries st)
    by (unfold rollback; by rewrite (proj1 (persist_entries _))).
  split_and!; [done| |].
  - unfold rollback. by rewrite (proj2 (persist_entries _)).
  - intros now mint w. by rewrite !getSpendInWindow_eq, He.
Qed.
