(* ===== verification/CoreEngine.v ===== *)
(** * The core policy engine ([sdk/kit/src/core/engine.ts])

    Evaluation of a transaction against resolved policies and the rolling
    state, enforcement, and recording.  A violation keeps its rule and its
    details; the human-readable message and suggestion are not modelled.

    [Date.now()] is read once per spend limit checked, once for the rate limit
    and once per entry recorded; [clock i] is the reading at position [i], so
    that nothing assumes the clock stands still during a call.

    The theorems: an evaluation reports nothing exactly when a declarative
    specification holds; over every run of accepted transactions the true
    spend of a capped token in its window never exceeds the cap, and the true
    number of transactions in the rate window never exceeds the rate limit,
    as long as the bounded logs can hold the window; past that bound neither
    limit is enforced. *)

From stdpp Require Import sorting.
From S2P Require Import Prelude JsText Registry CorePolicies SpendLog CoreState.

Local Open Scope Z_scope.

Definition DEFAULT_ADDRESS : string := "11111111111111111111111111111111".

(** [PolicyViolation]: the rule and its details. *)
Inductive PolicyViolation : Type :=
| protocol_not_allowed (programId : string)
| unknown_program (programId : string)
| token_not_allowed (tokenMint : string)
| spending_cap (limit attempted remaining : Z) (tokenMint : string)
| transaction_size (limit attempted : Z)
| rate_limit.

Inductive engine_exn : Type := ShieldDeniedError (violations : list PolicyViolation).

Definition is_outgoing (t : TokenTransfer) : bool := bool_decide (tt_direction t = outgoing).

Definition unnamed (mint : string) : bool :=
  bool_decide (mint = DEFAULT_ADDRESS) || bool_decide (mint = "").

Definition mintKey (mint : string) : string := if unnamed mint then "unknown" else mint.

(** [allowed.has(x)] of an optional allowlist that is set. *)
Definition checkPrograms (analysis : TransactionAnalysis) (policies : ResolvedPolicies)
    (violations : list PolicyViolation) : list PolicyViolation :=
  foldl (λ violations programId,
    if isSystemProgram programId then violations
    else match rp_allowedProtocols policies with
         | Some allowed =>
             if bool_decide (programId ∈ allowed) then violations
             else violations ++ [protocol_not_allowed programId]
         | None =>
             if rp_blockUnknownPrograms policies && negb (isKnownProtocol programId)
             then violations ++ [unknown_program programId] else violations
         end) violations (programIds analysis).

Definition checkTokens (analysis : TransactionAnalysis) (policies : ResolvedPolicies)
    (violations : list PolicyViolation) : list PolicyViolation :=
  match rp_allowedTokens policies with
  | None => violations
  | Some allowed =>
      foldl (λ violations transfer,
        if negb (is_outgoing transfer) then violations
        else if unnamed (tt_mint transfer) then violations
        else if bool_decide (tt_mint transfer ∈ allowed) then violations
        else violations ++ [token_not_allowed (tt_mint transfer)])
      violations (transfers analysis)
  end.

(** The spend of one token in the transaction. *)
Definition tx_spend (key : string) (ts : list TokenTransfer) : Z :=
  foldl (λ txSpend transfer,
    if negb (is_outgoing transfer) then txSpend
    else if bool_decide (mintKey (tt_mint transfer) = key)
    then txSpend + tt_amount transfer else txSpend) 0 ts.

Section Engine.
Context {S : Type} `{ShieldStorage S}.

(** One turn of the loop over the limits. *)
Definition check_limit (now : Z) (analysis : TransactionAnalysis) (state : ShieldState S)
    (limit : SpendLimit) : list PolicyViolation :=
  let windowMs := default 86400000 (sl_windowMs limit) in
  let txSpend := tx_spend (sl_mint limit) (transfers analysis) in
  if txSpend =? 0 then [] else
  let currentSpend := getSpendInWindow now (sl_mint limit) windowMs state in
  let totalAfterTx := currentSpend + txSpend in
  if sl_amount limit <? totalAfterTx then
    let remaining := if currentSpend <? sl_amount limit
                     then sl_amount limit - currentSpend else 0 in
    [spending_cap (sl_amount limit) txSpend remaining (sl_mint limit)]
  else [].

Fixpoint check_limits (clock : nat → Z) (k : nat) (analysis : TransactionAnalysis)
    (state : ShieldState S) (limits : list SpendLimit) (violations : list PolicyViolation)
    : list PolicyViolation :=
  match limits with
  | [] => violations
  | limit :: limits =>
      check_limits clock (k + 1) analysis state limits
        (violations ++ check_limit (clock k) analysis state limit)
  end.

Definition checkSpendingCaps (clock : nat → Z) (analysis : TransactionAnalysis)
    (policies : ResolvedPolicies) (state : ShieldState S) (violations : list PolicyViolation)
    : list PolicyViolation :=
  check_limits clock 0 analysis state (rp_spendLimits policies) violations.

Definition checkTransactionSize (analysis : TransactionAnalysis) (policies : ResolvedPolicies)
    (violations : list PolicyViolation) : list PolicyViolation :=
  match rp_maxTransactionSize policies with
  | None => violations
  | Some max =>
      if max =? 0 then violations
      else if max <? estimatedValueLamports analysis
      then violations ++ [transaction_size max (estimatedValueLamports analysis)]
      else violations
  end.

Definition checkRateLimit (now : Z) (policies : ResolvedPolicies) (state : ShieldState S)
    (violations : list PolicyViolation) : list PolicyViolation :=
  let count := getTransactionCountInWindow now (rp_rateWindowMs policies) state in
  if rp_maxTransactions policies <=? count then violations ++ [rate_limit] else violations.

Definition evaluatePolicy (clock : nat → Z) (analysis : TransactionAnalysis)
    (policies : ResolvedPolicies) (state : ShieldState S) : list PolicyViolation :=
  let violations := checkPrograms analysis policies [] in
  let violations := checkTokens analysis policies violations in
  let violations := checkSpendingCaps clock analysis policies state violations in
  let violations := checkTransactionSize analysis policies violations in
  checkRateLimit (clock (length (rp_spendLimits policies))) policies state violations.

Definition enforcePolicy (clock : nat → Z) (analysis : TransactionAnalysis)
    (policies : ResolvedPolicies) (state : ShieldState S) : result engine_exn unit :=
  match evaluatePolicy clock analysis policies state with
  | [] => Ok tt
  | violations => Throw (ShieldDeniedError violations)
  end.

Fixpoint record_transfers (clock : nat → Z) (k : nat) (ts : list TokenTransfer)
    (state : ShieldState S) : ShieldState S :=
  match ts with
  | [] => state
  | t :: ts =>
      record_transfers clock (k + 1) ts
        (if is_outgoing t then recordSpend (clock k) (mintKey (tt_mint t)) (tt_amount t) state
         else state)
  end.

Definition recordTransaction_ (clock : nat → Z) (analysis : TransactionAnalysis)
    (state : ShieldState S) : ShieldState S :=
  recordTransaction (clock (length (transfers analysis)))
    (record_transfers clock 0 (transfers analysis) state).
End Engine.

(** [formatAmount]: whole part, and the fraction without trailing zeros. *)
Definition strip_zeros (cs : list ascii) : list ascii :=
  reverse (snd (span (λ c, bool_decide (c = "0"%char)) (reverse cs))).

Definition formatAmount (amount decimals : Z) : string :=
  if decimals =? 0 then bigint_toString amount else
  let divisor := 10 ^ decimals in
  let whole := Z.quot amount divisor in
  let frac := Z.rem amount divisor in
  if frac =? 0 then bigint_toString whole else
  let fracStr := strip_zeros (padStart (bigint_chars frac) (Z.to_nat decimals) "0"%char) in
  text (bigint_chars whole ++ "."%char :: fracStr).

Example formatAmount_examples :
  (formatAmount 1500000 6, formatAmount 7 0, formatAmount 2000000 6, formatAmount 1 9) =
  ("1.5", "7", "2", "0.000000001")%string.
Proof. vm_compute. reflexivity. Qed.

(** ** The specification of an evaluation *)

Section Spec.
Context {S : Type} `{ShieldStorage S}.

Definition program_permitted (policies : ResolvedPolicies) (p : string) : Prop :=
  isSystemProgram p = true ∨
  match rp_allowedProtocols policies with
  | Some allowed => p ∈ allowed
  | None => rp_blockUnknownPrograms policies = false ∨ isKnownProtocol p = true
  end.

Definition token_permitted (policies : ResolvedPolicies) (t : TokenTransfer) : Prop :=
  tt_direction t = outgoing → unnamed (tt_mint t) = false →
  ∀ allowed, rp_allowedTokens policies = Some allowed → tt_mint t ∈ allowed.

(** The outgoing amount of a token, as a sum over the transfers. *)
Definition outgoing_of (key : string) (t : TokenTransfer) : Z :=
  if is_outgoing t && bool_decide (mintKey (tt_mint t) = key) then tt_amount t else 0.
Definition outgoing_total (key : string) (ts : list TokenTransfer) : Z :=
  sumZ (map (outgoing_of key) ts).

Definition window_of (l : SpendLimit) : Z := default 86400000 (sl_windowMs l).

Definition limit_respected (now : Z) (a : TransactionAnalysis) (st : ShieldState S)
    (l : SpendLimit) : Prop :=
  outgoing_total (sl_mint l) (transfers a) = 0 ∨
  window_spend (sl_mint l) (now - window_of l) (spendEntries st) +
    outgoing_total (sl_mint l) (transfers a) ≤ sl_amount l.

Definition permitted (clock : nat → Z) (a : TransactionAnalysis) (p : ResolvedPolicies)
    (st : ShieldState S) : Prop :=
  (∀ id, id ∈ programIds a → program_permitted p id) ∧
  (∀ t, t ∈ transfers a → token_permitted p t) ∧
  (∀ k l, rp_spendLimits p !! k = Some l → limit_respected (clock k) a st l) ∧
  (∀ max, rp_maxTransactionSize p = Some max → max ≠ 0 → estimatedValueLamports a ≤ max) ∧
  window_count (clock (length (rp_spendLimits p)) - rp_rateWindowMs p) (txEntries st) <
    rp_maxTransactions p.

Lemma foldl_push_nil {A V} (f : A → list V) (xs : list A) (step : list V → A → list V) vs :
  (∀ vs x, step vs x = vs ++ f x) →
  foldl step vs xs = [] ↔ vs = [] ∧ ∀ x, x ∈ xs → f x = [].
Proof.
  intros Hs. revert vs. induction xs as [|x xs IH]; intros vs; simpl.
  - set_solver.
  - rewrite IH, Hs, app_nil. set_solver.
Qed.

Lemma tx_spend_total key ts : tx_spend key ts = outgoing_total key ts.
Proof.
  unfold tx_spend, outgoing_total.
  enough (Hacc : ∀ acc, foldl (λ txSpend transfer,
    if negb (is_outgoing transfer) then txSpend
    else if bool_decide (mintKey (tt_mint transfer) = key)
    then txSpend + tt_amount transfer else txSpend) acc ts = acc + sumZ (map (outgoing_of key) ts))
    by (rewrite Hacc; lia).
  induction ts as [|t ts IH]; intros acc; simpl; [lia|]. rewrite IH. unfold outgoing_of at 2.
  destruct (is_outgoing t); simpl; [case_bool_decide|]; lia.
Qed.

Lemma checkPrograms_nil a p vs :
  checkPrograms a p vs = [] ↔
  vs = [] ∧ ∀ id, id ∈ programIds a → program_permitted p id.
Proof.
  unfold checkPrograms. rewrite (foldl_push_nil (λ id,
    if isSystemProgram id then [] else match rp_allowedProtocols p with
    | Some allowed => if bool_decide (id ∈ allowed) then [] else [protocol_not_allowed id]
    | None => if rp_blockUnknownPrograms p && negb (isKnownProtocol id)
              then [unknown_program id] else [] end)).
  - apply and_iff_compat_l, forall_proper. intros id.
    unfold program_permitted. destruct (isSystemProgram id); [naive_solver|].
    destruct (rp_allowedProtocols p); [case_bool_decide; naive_solver|].
    destruct (rp_blockUnknownPrograms p), (isKnownProtocol id); naive_solver.
  - intros ws id. destruct (isSystemProgram id); [by rewrite app_nil_r|].
    destruct (rp_allowedProtocols p); [case_bool_decide|destruct (_ && _)];
      by rewrite ?app_nil_r.
Qed.

Lemma checkTokens_nil a p vs :
  checkTokens a p vs = [] ↔ vs = [] ∧ ∀ t, t ∈ transfers a → token_permitted p t.
Proof.
  unfold checkTokens, token_permitted. destruct (rp_allowedTokens p) as [al|]; [|naive_solver].
  rewrite (foldl_push_nil (λ t, if negb (is_outgoing t) then [] else
    if unnamed (tt_mint t) then [] else if bool_decide (tt_mint t ∈ al) then []
    else [token_not_allowed (tt_mint t)])).
  - apply and_iff_compat_l, forall_proper. intros t. unfold is_outgoing.
    case_bool_decide; simpl; [|naive_solver].
    destruct (unnamed _); [naive_solver|]. case_bool_decide; naive_solver.
  - intros ws t. destruct (is_outgoing t), (unnamed (tt_mint t)); simpl;
      try case_bool_decide; by rewrite ?app_nil_r.
Qed.

Lemma check_limit_nil now a st l : check_limit now a st l = [] ↔ limit_respected now a st l.
Proof.
  unfold check_limit, limit_respected. rewrite tx_spend_total, getSpendInWindow_eq.
  fold (window_of l). destruct (Z.eqb_spec (outgoing_total (sl_mint l) (transfers a)) 0); [naive_solver|].
  destruct (Z.ltb_spec (sl_amount l) (window_spend (sl_mint l) (now - window_of l) (spendEntries st) +
    outgoing_total (sl_mint l) (transfers a))); split; try done; lia.
Qed.

Lemma check_limits_nil clock k a st ls vs :
  check_limits clock k a st ls vs = [] ↔
  vs = [] ∧ ∀ i l, ls !! i = Some l → limit_respected (clock (k + i)%nat) a st l.
Proof.
  revert k vs; induction ls as [|l ls IH]; intros k vs; simpl.
  - naive_solver.
  - rewrite IH, app_nil, check_limit_nil. split.
    + intros [[-> Hl] Hls]. split; [done|]. intros [|i] l' Hi; simpl in Hi; simplify_eq.
      * by rewrite Nat.add_0_r.
      * rewrite <- Nat.add_succ_comm, <- Nat.add_1_r. by apply Hls.
    + intros [-> Hls]. split_and!; [done| |].
      * specialize (Hls 0%nat l eq_refl). by rewrite Nat.add_0_r in Hls.
      * intros i l' Hi. specialize (Hls (1 + i)%nat l' Hi). by rewrite Nat.add_assoc in Hls.
Qed.

Lemma evaluatePolicy_nil clock a p st :
  evaluatePolicy clock a p st = [] ↔ permitted clock a p st.
Proof.
  unfold evaluatePolicy, permitted, checkRateLimit.
  rewrite getTransactionCountInWindow_eq.
  assert (Hsize : ∀ vs, checkTransactionSize a p vs = [] ↔ vs = [] ∧
    (∀ max, rp_maxTransactionSize p = Some max → max ≠ 0 → estimatedValueLamports a ≤ max)).
  { intros vs. unfold checkTransactionSize. destruct (rp_maxTransactionSize p) as [m|]; [|naive_solver].
    destruct (Z.eqb_spec m 0); [naive_solver|].
    destruct (Z.ltb_spec m (estimatedValueLamports a)); rewrite ?app_nil;
      (split; [intros Hv|intros [-> Hv]]); try naive_solver.
    exfalso. specialize (Hv m eq_refl). lia. }
  destruct (Z.leb_spec (rp_maxTransactions p)
    (window_count (clock (length (rp_spendLimits p)) - rp_rateWindowMs p) (txEntries st))).
  - rewrite app_nil. split; [naive_solver|]. intros (_ & _ & _ & _ & ?). lia.
  - rewrite Hsize. unfold checkSpendingCaps. rewrite check_limits_nil, checkTokens_nil, checkPrograms_nil.
    simpl. naive_solver.
Qed.
End Spec.

(** ** Runs of accepted transactions *)

(** The entries a transaction adds to the true spend history. *)
Fixpoint entries_of (clock : nat → Z) (k : nat) (ts : list TokenTransfer) : list SpendEntry :=
  match ts with
  | [] => []
  | t :: ts =>
      (if is_outgoing t
       then [{| se_mint := mintKey (tt_mint t); se_amount := tt_amount t; se_timestamp := clock k |}]
       else []) ++ entries_of clock (k + 1) ts
  end.

Definition earlier (e1 e2 : SpendEntry) : Prop := se_timestamp e1 ≤ se_timestamp e2.

Section Runs.
Context {S : Type} `{ShieldStorage S} (policies : ResolvedPolicies).

(** [run spends txs st t]: from empty logs, a sequence of transactions, each
    enforced and then recorded on a clock that never runs backwards, led to
    [st] at time [t]; [spends] and [txs] are everything that was recorded,
    the trimmed part included.  Rejected transactions change nothing. *)
Inductive run : list SpendEntry → list Z → ShieldState S → Z → Prop :=
| run_start st t : spendEntries st = [] → txEntries st = [] → run [] [] st t
| run_tx spends txs st t a eval rec :
    run spends txs st t →
    (∀ i, t ≤ eval i) → (∀ i j, eval i ≤ rec j) → (∀ i j, (i ≤ j)%nat → rec i ≤ rec j) →
    Forall (λ x, 0 ≤ tt_amount x) (transfers a) →
    enforcePolicy eval a policies st = Ok tt →
    run (spends ++ entries_of rec 0 (transfers a))
        (txs ++ [rec (length (transfers a))])
        (recordTransaction_ rec a st) (rec (length (transfers a))).

Lemma record_transfers_entries rec k ts (st : ShieldState S) spends :
  spendEntries st = slice_last MAX_SPEND_ENTRIES spends →
  spendEntries (record_transfers rec k ts st) =
    slice_last MAX_SPEND_ENTRIES (spends ++ entries_of rec k ts) ∧
  txEntries (record_transfers rec k ts st) = txEntries st.
Proof.
  revert k st spends; induction ts as [|t ts IH]; intros k st spends Hst; simpl.
  - by rewrite app_nil_r.
  - destruct (is_outgoing t); [|by apply IH].
    rewrite app_assoc. destruct (recordSpend_entries (rec k) (mintKey (tt_mint t)) (tt_amount t) st)
      as [Hs Ht]. rewrite <- Ht. apply IH. by rewrite Hs, Hst, slice_last_snoc.
Qed.

Lemma entries_of_bounds rec k ts e :
  (∀ i j, (i ≤ j)%nat → rec i ≤ rec j) → e ∈ entries_of rec k ts →
  rec k ≤ se_timestamp e ≤ rec (k + length ts)%nat.
Proof.
  intros Hm; revert k; induction ts as [|t ts IH]; intros k; simpl; [by intros ?%elem_of_nil|].
  intros [He|He]%elem_of_app.
  - destruct (is_outgoing t); [|by apply elem_of_nil in He].
    apply list_elem_of_singleton in He as ->. simpl. split; [done|]. apply Hm. lia.
  - apply IH in He as [H1 H2]. split.
    + transitivity (rec (k + 1)%nat); [apply Hm; lia|done].
    + by replace (k + Datatypes.S (length ts))%nat with (k + 1 + length ts)%nat by lia.
Qed.

Lemma entries_of_sorted rec k ts :
  (∀ i j, (i ≤ j)%nat → rec i ≤ rec j) → StronglySorted earlier (entries_of rec k ts).
Proof.
  intros Hm; revert k; induction ts as [|t ts IH]; intros k; simpl; [constructor|].
  destruct (is_outgoing t); [|apply IH]. simpl. constructor; [apply IH|].
  apply Forall_forall. intros e He. unfold earlier. simpl.
  apply entries_of_bounds in He as [? _]; [|done].
  transitivity (rec (k + 1)%nat); [apply Hm; lia|done].
Qed.

(** The state holds the newest entries of an ordered history. *)
Lemma run_logs spends txs st t :
  run spends txs st t →
  spendEntries st = slice_last MAX_SPEND_ENTRIES spends ∧
  txEntries st = slice_last MAX_TX_ENTRIES txs ∧
  StronglySorted earlier spends ∧ StronglySorted Z.le txs ∧
  Forall (λ e, se_timestamp e ≤ t) spends ∧ Forall (λ x, x ≤ t) txs ∧
  Forall (λ e, 0 ≤ se_amount e) spends.
Proof.
  induction 1 as [st t Hs Ht|spends txs st t a eval rec _ IH He Hr Hm Hpos _].
  - rewrite Hs, Ht. split_and!; try constructor; done.
  - destruct IH as (Hs & Ht & Hss & Hts & Hsb & Htb & Hsp).
    destruct (record_transfers_entries rec 0 (transfers a) st spends Hs) as [Hs' Ht'].
    assert (Hle : ∀ j, t ≤ rec j).
    { intros j. transitivity (eval 0%nat); [apply He|apply Hr]. }
    unfold recordTransaction_.
    destruct (recordTransaction_entries (rec (length (transfers a)))
      (record_transfers rec 0 (transfers a) st)) as [-> ->].
    rewrite Hs', Ht', Ht, slice_last_snoc. rewrite !Forall_forall in *.
    split_and!; try done.
    + apply StronglySorted_app_2; [|done|by apply entries_of_sorted].
      intros x y Hx Hy. unfold earlier. apply Hsb in Hx.
      apply entries_of_bounds in Hy as [? _]; [|done]. specialize (Hle 0%nat). lia.
    + apply StronglySorted_app_2; [|done|by repeat constructor].
      intros x y Hx Hy%list_elem_of_singleton. subst. apply Htb in Hx.
      specialize (Hle (length (transfers a))). lia.
    + intros e [Hx|Hx]%elem_of_app.
      * apply Hsb in Hx. specialize (Hle (length (transfers a))). lia.
      * by apply entries_of_bounds in Hx as [_ ?].
    + intros x [Hx|Hx%list_elem_of_singleton]%elem_of_app; [|by subst].
      apply Htb in Hx. specialize (Hle (length (transfers a))). lia.
    + intros e [Hx|Hx]%elem_of_app; [by apply Hsp|]. clear - Hx Hpos.
      revert Hx. generalize 0%nat. induction (transfers a) as [|x xs IH]; intros k; simpl.
      * by intros ?%elem_of_nil.
      * intros [Hx|Hx]%elem_of_app; [|eapply IH; [|exact Hx]; set_solver].
        destruct (is_outgoing x); [|by apply elem_of_nil in Hx].
        apply list_elem_of_singleton in Hx as ->. simpl. apply Hpos. set_solver.
Qed.
End Runs.

(** Either every trimmed element lies before the cutoff, or the kept ones fill
    the log and all lie within the window. *)
Lemma slice_last_sorted {A} (key : A → Z) n (l : list A) c :
  StronglySorted (λ x y, key x ≤ key y) l →
  ∃ dropped, l = dropped ++ slice_last n l ∧
    (Forall (λ x, key x < c) dropped ∨
     (length (slice_last n l) = n ∧ Forall (λ x, c ≤ key x) (slice_last n l) ∧
      ∃ x, x ∈ dropped ∧ c ≤ key x)).
Proof.
  intros Hs. destruct (slice_last_app n l) as (d & Hl & Hd). exists d. split; [done|].
  destruct (decide (Forall (λ x, key x < c) d)) as [|Hn]; [by left|right].
  assert (∃ x, x ∈ d ∧ c ≤ key x) as (x & Hx & Hc).
  { apply not_Forall_Exists, Exists_exists in Hn as (x & Hx & Hc); [|apply _].
    exists x. split; [done|]. simpl in Hc. lia. }
  split_and!; [| |by exists x].
  - destruct Hd as [->|]; [by apply elem_of_nil in Hx|done].
  - apply Forall_forall. intros y Hy. transitivity (key x); [done|].
    rewrite Hl in Hs. exact (StronglySorted_app_1_elem_of _ _ _ _ _ Hs Hx Hy).
Qed.

Section Caps.
Context {S : Type} `{ShieldStorage S}.

(** At most as many entries of the history fall into a window of length [w]
    as the log keeps. *)
Definition log_fits (w : Z) (spends : list SpendEntry) : Prop :=
  ∀ c : Z, (length (filter (λ e, (c ≤ se_timestamp e ≤ c + w)%Z) spends) ≤ MAX_SPEND_ENTRIES)%nat.

Lemma log_fits_prefix w a b : log_fits w (a ++ b) → log_fits w a.
Proof. intros Hf c. specialize (Hf c). rewrite filter_app, length_app in Hf. lia. Qed.

Lemma window_spend_trimmed mint w now spends :
  StronglySorted earlier spends → Forall (λ e, se_timestamp e ≤ now) spends →
  log_fits w spends →
  window_spend mint (now - w) (slice_last MAX_SPEND_ENTRIES spends) =
  window_spend mint (now - w) spends.
Proof.
  intros Hs Hb Hf.
  destruct (slice_last_sorted se_timestamp MAX_SPEND_ENTRIES spends (now - w) Hs)
    as (d & Hl & [Hd|(Hlen & Hk & x & Hx & Hc)]).
  - rewrite Hl at 2. rewrite window_spend_app, (window_spend_old mint (now - w) d) by done. lia.
  - exfalso. set (k := slice_last MAX_SPEND_ENTRIES spends) in *. clearbody k.
    specialize (Hf (now - w)). rewrite Hl, filter_app, length_app in Hf.
    rewrite Hl in Hb. apply Forall_app in Hb as [Hbd Hbk].
    rewrite (filter_all_length _ k) in Hf; cycle 1.
    { rewrite Forall_forall in *. intros y Hy. specialize (Hk y Hy). specialize (Hbk y Hy). lia. }
    assert (x ∈ filter (λ e, now - w ≤ se_timestamp e ≤ now - w + w) d) as Hin.
    { apply list_elem_of_filter. rewrite Forall_forall in Hbd. specialize (Hbd x Hx).
      split; [lia|done]. }
    destruct (filter _ d); [by apply elem_of_nil in Hin|]. simpl in Hf. lia.
Qed.

(** The new entries of a token sum to at most its outgoing total. *)
Lemma entries_of_spend key c rec k ts :
  Forall (λ x, 0 ≤ tt_amount x) ts →
  0 ≤ window_spend key c (entries_of rec k ts) ≤ outgoing_total key ts.
Proof.
  intros Hp; revert k. induction Hp as [|t ts Ht _ IH]; intros k; cbn [entries_of].
  - done.
  - specialize (IH (k + 1)%nat). rewrite window_spend_app.
    change (outgoing_total key (t :: ts)) with (outgoing_of key t + outgoing_total key ts).
    unfold outgoing_of. destruct (is_outgoing t); cbn [andb]; [|exact IH].
    change (window_spend key c [?e]) with (in_window key c e + 0). unfold in_window. cbn.
    destruct (bool_decide (mintKey (tt_mint t) = key)), (c <=? rec k); cbn; lia.
Qed.

Lemma enforcePolicy_Ok clock a p (st : ShieldState S) :
  enforcePolicy clock a p st = Ok tt ↔ permitted clock a p st.
Proof.
  rewrite <- evaluatePolicy_nil. unfold enforcePolicy. by destruct (evaluatePolicy clock a p st).
Qed.

Lemma run_cap p spends txs (st : ShieldState S) t :
  run p spends txs st t → ∀ l now,
  l ∈ rp_spendLimits p → 0 ≤ window_of l → 0 ≤ sl_amount l → log_fits (window_of l) spends →
  t ≤ now → window_spend (sl_mint l) (now - window_of l) spends ≤ sl_amount l.
Proof.
  induction 1 as [st t Hs Ht|spends txs st t a eval rec Hrun IH He Hr Hm Hpos Hok];
    intros l now Hl Hw Ha Hf Hnow.
  - unfold window_spend. simpl. done.
  - destruct (run_logs p _ _ _ _ Hrun) as (Hs & _ & Hss & _ & Hsb & _ & Hsp).
    assert (Hnow0 : ∀ i, eval i ≤ now).
    { intros i. transitivity (rec (length (transfers a))); [apply Hr|done]. }
    rewrite window_spend_app. pose proof (entries_of_spend (sl_mint l) (now - window_of l) rec 0 _ Hpos).
    apply log_fits_prefix in Hf.
    apply enforcePolicy_Ok in Hok as (_ & _ & Hcap & _).
    apply list_elem_of_lookup in Hl as [k Hk]. destruct (Hcap k l Hk) as [Hz|Hle].
    + assert (window_spend (sl_mint l) (now - window_of l) spends ≤ sl_amount l); [|lia].
      apply IH; [by eapply list_elem_of_lookup_2|done..|]. transitivity (eval 0%nat); [apply He|done].
    + rewrite Hs, window_spend_trimmed in Hle; [|done| |done].
      * pose proof (window_spend_mono (sl_mint l) (eval k - window_of l) (now - window_of l) spends Hsp).
        specialize (Hnow0 k). lia.
      * eapply Forall_impl; [exact Hsb|]. simpl. intros e ?. specialize (He k). lia.
Qed.

Lemma window_count_trimmed c txs n :
  StronglySorted Z.le txs → n ≤ Z.of_nat MAX_TX_ENTRIES →
  window_count c (slice_last MAX_TX_ENTRIES txs) < n →
  window_count c (slice_last MAX_TX_ENTRIES txs) = window_count c txs.
Proof.
  intros Hs Hn Hlt. destruct (slice_last_sorted id MAX_TX_ENTRIES txs c Hs)
    as (d & Hl & [Hd|(Hlen & Hk & _)]).
  - rewrite Hl at 2. rewrite window_count_app.
    assert (window_count c d = 0) as ->; [|lia]. unfold window_count. clear Hl.
    induction Hd as [|x d Hx _ IH]; [done|]. rewrite filter_cons_False; [done|]. unfold id in Hx. lia.
  - exfalso. unfold window_count in Hlt. rewrite filter_all_length, Hlen in Hlt by done. lia.
Qed.

Lemma run_rate p spends txs (st : ShieldState S) t :
  run p spends txs st t → ∀ now, 0 ≤ rp_maxTransactions p ≤ Z.of_nat MAX_TX_ENTRIES →
  t ≤ now → window_count (now - rp_rateWindowMs p) txs ≤ rp_maxTransactions p.
Proof.
  induction 1 as [st t Hs Ht|spends txs st t a eval rec Hrun IH He Hr Hm Hpos Hok];
    intros now Hmax Hnow.
  - unfold window_count. simpl. lia.
  - destruct (run_logs p _ _ _ _ Hrun) as (_ & Ht & _ & Hts & _ & _ & _).
    apply enforcePolicy_Ok in Hok as (_ & _ & _ & _ & Hrate).
    rewrite Ht in Hrate. set (c := eval _ - _) in Hrate.
    rewrite (window_count_trimmed c txs (rp_maxTransactions p)) in Hrate; [|done|lia|done].
    rewrite window_count_app.
    assert (window_count (now - rp_rateWindowMs p) txs ≤ window_count c txs).
    { apply window_count_mono. unfold c. specialize (Hr (length (rp_spendLimits p)) (length (transfers a))). lia. }
    assert (window_count (now - rp_rateWindowMs p) [rec (length (transfers a))] ≤ 1); [|lia].
    unfold window_count. rewrite filter_cons. case_decide; simpl; lia.
Qed.
End Caps.

(** ** Properties *)

(** C2: Enforcement refines its specification on every input: a transaction is
    let through exactly when each program, each outgoing named token, each
    spend limit at the moment it is checked, the size limit (unless it is
    absent or zero) and the rate limit permit it; otherwise the error carries
    the violations the evaluation found, at least one. *)
Theorem enforce_refines_specification {S} `{ShieldStorage S} clock a p (st : ShieldState S) :
  (enforcePolicy clock a p st = Ok tt ↔ permitted clock a p st) ∧
  (∀ vs, enforcePolicy clock a p st = Throw (ShieldDeniedError vs) →
     vs ≠ [] ∧ vs = evaluatePolicy clock a p st).
Proof.
  split; [apply enforcePolicy_Ok|]. intros vs. unfold enforcePolicy.
  destruct (evaluatePolicy clock a p st) eqn:E; [done|]. intros [= <-]. done.
Qed.

(** C1: Over every run of enforced and recorded transactions, at every moment
    from the last one on, everything spent of a capped token within the cap's
    window is at most the cap -- counting the full history, not only what the
    state still holds -- provided no window holds more than the 5000 entries
    the log keeps. *)
Theorem spend_cap_never_exceeded {S} `{ShieldStorage S} p spends txs (st : ShieldState S) t l now :
  run p spends txs st t → l ∈ rp_spendLimits p → 0 ≤ window_of l → 0 ≤ sl_amount l →
  log_fits (window_of l) spends → t ≤ now →
  window_spend (sl_mint l) (now - window_of l) spends ≤ sl_amount l.
Proof. intros. by eapply run_cap. Qed.

(** Over every run, the number of transactions in the rate window never
    exceeds a rate limit of at most 5000, although the state forgets all but
    the newest 5000 timestamps. *)
Theorem rate_limit_never_exceeded {S} `{ShieldStorage S} p spends txs (st : ShieldState S) t now :
  run p spends txs st t → 0 ≤ rp_maxTransactions p ≤ Z.of_nat MAX_TX_ENTRIES → t ≤ now →
  window_count (now - rp_rateWindowMs p) txs ≤ rp_maxTransactions p.
Proof. intros. by eapply run_rate. Qed.

Definition demo_policies : ResolvedPolicies := {|
  rp_spendLimits := [{| sl_mint := "A"; sl_amount := 100; sl_windowMs := None |}];
  rp_maxTransactionSize := None; rp_allowedProtocols := None; rp_allowedTokens := None;
  rp_blockUnknownPrograms := true; rp_maxTransactions := 2; rp_rateWindowMs := 1000 |}.

Definition demo_tx (amount : Z) : TransactionAnalysis := {|
  programIds := [DEFAULT_ADDRESS];
  transfers := [{| tt_mint := "A"; tt_amount := amount; tt_direction := outgoing;
                   tt_destination := None |}];
  estimatedValueLamports := amount |}.

Definition demo_empty : ShieldState MemoryStore :=
  {| spendEntries := []; txEntries := []; storage := None |}.

Lemma demo_run :
  run demo_policies (entries_of (λ _, 6) 0 (transfers (demo_tx 60))) [6]
    (recordTransaction_ (λ _, 6) (demo_tx 60) demo_empty) 6.
Proof.
  apply (run_tx demo_policies [] [] demo_empty 5 (demo_tx 60) (λ _, 5) (λ _, 6)).
  - by constructor.
  - done.
  - done.
  - done.
  - by repeat constructor.
  - vm_compute. reflexivity.
Qed.

Lemma spend_cap_never_exceeded_witness :
  window_spend "A" (6 - 86400000) (entries_of (λ _, 6) 0 (transfers (demo_tx 60))) ≤ 100 ∧
  is_ok (enforcePolicy (λ _, 7) (demo_tx 41) demo_policies
           (recordTransaction_ (λ _, 6) (demo_tx 60) demo_empty)) = false.
Proof.
  split; [|vm_compute; reflexivity].
  eapply (spend_cap_never_exceeded demo_policies _ _ _ 6
    {| sl_mint := "A"; sl_amount := 100; sl_windowMs := None |} 6 demo_run);
    [apply elem_of_cons; by left|vm_compute; discriminate..| |lia].
  intros c. etransitivity; [apply length_filter|]. apply (bool_decide_unpack _). vm_compute. exact I.
Defined.

Lemma rate_limit_never_exceeded_witness : window_count (6 - 1000) [6] ≤ 2.
Proof.
  eapply (rate_limit_never_exceeded demo_policies _ _ _ 6 6 demo_run); [|lia].
  vm_compute. by split.
Defined.

Lemma length_entries_of rec k ts :
  length (entries_of rec k ts) = length (filter (λ t, is_outgoing t) ts).
Proof.
  revert k; induction ts as [|t ts IH]; intros k; simpl; [done|].
  rewrite length_app, IH, filter_cons. by destruct (is_outgoing t).
Qed.

Lemma entries_of_other key c rec k ts :
  Forall (λ t, mintKey (tt_mint t) ≠ key) ts → window_spend key c (entries_of rec k ts) = 0.
Proof.
  intros Ht; revert k; induction Ht as [|t ts Ht _ IH]; intros k; cbn [entries_of]; [done|].
  rewrite window_spend_app, IH. destruct (is_outgoing t); [|done].
  change (window_spend key c [?e]) with (in_window key c e + 0). unfold in_window. cbn.
  by rewrite bool_decide_false.
Qed.

Lemma window_spend_slice_other mint c n l :
  window_spend mint c l = 0 → Forall (λ e, 0 ≤ se_amount e) l →
  window_spend mint c (slice_last n l) = 0.
Proof.
  intros Hz Hp. destruct (slice_last_app n l) as (d & Hl & _).
  assert (Hn : ∀ k, Forall (λ e, 0 ≤ se_amount e) k → 0 ≤ window_spend mint c k).
  { intros k Hk. unfold window_spend. apply sumZ_nonneg. apply Forall_map.
    eapply Forall_impl; [exact Hk|]. intros e He; simpl in *. unfold in_window. destruct (_ && _); lia. }
  rewrite Hl in Hz, Hp. rewrite window_spend_app in Hz. apply Forall_app in Hp as [Hd Hk].
  pose proof (Hn _ Hd). pose proof (Hn _ Hk). lia.
Qed.

Lemma slice_last_recent {A} n (a b : list A) :
  (n ≤ length b)%nat → slice_last n (a ++ b) = slice_last n b.
Proof.
  intros Hb. unfold slice_last. rewrite length_app, drop_app_ge by lia. f_equal. lia.
Qed.

(** The bound on the logs is a bound on what can be enforced: a rate limit
    above 5000 transactions never triggers, and once 5000 outgoing transfers of
    other tokens have been recorded, everything spent of a capped token before
    is forgotten, within its window. *)
Theorem bounded_logs_forget {S} `{ShieldStorage S} :
  (∀ p now (st : ShieldState S) vs, (length (txEntries st) ≤ MAX_TX_ENTRIES)%nat →
     Z.of_nat MAX_TX_ENTRIES < rp_maxTransactions p → checkRateLimit now p st vs = vs) ∧
  (∀ rec ts (st : ShieldState S) mint now w,
     (length (spendEntries st) ≤ MAX_SPEND_ENTRIES)%nat →
     (MAX_SPEND_ENTRIES ≤ length (filter (λ t, is_outgoing t) ts))%nat →
     Forall (λ t, mintKey (tt_mint t) ≠ mint) ts → Forall (λ t, 0 ≤ tt_amount t) ts →
     getSpendInWindow now mint w (record_transfers rec 0 ts st) = 0).
Proof.
  split.
  - intros p now st vs Hl Hm. unfold checkRateLimit. rewrite getTransactionCountInWindow_eq.
    pose proof (window_count_length (now - rp_rateWindowMs p) (txEntries st)).
    destruct (Z.leb_spec (rp_maxTransactions p)
      (window_count (now - rp_rateWindowMs p) (txEntries st))); [lia|done].
  - intros rec ts st mint now w Hl Hn Hm Hp. rewrite getSpendInWindow_eq.
    destruct (record_transfers_entries rec 0 ts st (spendEntries st)) as [-> _];
      [by rewrite slice_last_all|].
    rewrite slice_last_recent by (by rewrite length_entries_of).
    apply window_spend_slice_other; [by apply entries_of_other|].
    clear - Hp. generalize 0%nat. induction Hp as [|t ts Ht _ IH]; intros k; simpl; [constructor|].
    apply Forall_app. split; [destruct (is_outgoing t); by repeat constructor|apply IH].
Qed.

Lemma bounded_logs_forget_witness :
  let ts := replicate 5000 {| tt_mint := "B"; tt_amount := 0; tt_direction := outgoing;
                              tt_destination := None |} in
  getSpendInWindow 7 "A" 86400000
    (record_transfers (λ _, 6) 0 ts (recordTransaction_ (λ _, 6) (demo_tx 100) demo_empty)) = 0.
Proof.
  intros ts. apply (proj2 bounded_logs_forget (λ _, 6) ts
    (recordTransaction_ (λ _, 6) (demo_tx 100) demo_empty) "A" 7 86400000).
  - apply (bool_decide_unpack _). vm_compute. exact I.
  - apply (bool_decide_unpack _). vm_compute. exact I.
  - apply Forall_replicate. done.
  - apply Forall_replicate. simpl. lia.
Defined.
