(* ===== verification/SdkTypes.v ===== *)
(** * Shared constants and types ([sdk/kit/src/types.ts])

    Well-known addresses, widths and durations, network names, and which
    mints count as stablecoins. *)

From Stdlib Require String.
From S2P Require Import Prelude.

Local Open Scope Z_scope.

Definition U64_MAX : Z := 18446744073709551615.

Definition EPOCH_DURATION : Z := 600.
Definition NUM_EPOCHS : Z := 144.
Definition OVERLAY_EPOCH_DURATION : Z := 3600.
Definition OVERLAY_NUM_EPOCHS : nat := 24.
Definition ROLLING_WINDOW_SECONDS : Z := 86400.

Definition USDC_MINT_DEVNET : string := "DMFEQFCRsvGrYzoL2gfwTEd9J8eVBQEjg7HjbJHd6oGH".
Definition USDC_MINT_MAINNET : string := "EPjFWdd5AufqSSqeM2qN1xzybapC8G4wEGGkZwyTDt1v".
Definition USDT_MINT_DEVNET : string := "43cd9ma7P968BssTtAKNs5qu6zgsErupwxwdjkiuMHze".
Definition USDT_MINT_MAINNET : string := "Es9vMFrzaCERmJfrF4H2FYD4KCoNkY11McCe8BenwNYB".

Definition TOKEN_PROGRAM_ADDRESS : string := "TokenkegQfeZyiNwAJbNbGKPFXCWuBvf9Ss623VQ5DA".
Definition TOKEN_2022_PROGRAM_ADDRESS : string := "TokenzQdBNbLqP5VEhdkAS6EPFLC1PHnBqCXEpPxuEb".
Definition ATA_PROGRAM_ADDRESS : string := "ATokenGPvbdGVxr1b2hvZbsiqW5xWH25efTNsLJA8knL".
Definition COMPUTE_BUDGET_PROGRAM_ADDRESS : string :=
  "ComputeBudget111111111111111111111111111111".
Definition SYSTEM_PROGRAM_ADDRESS : string := "11111111111111111111111111111111".

Definition INVALID_NETWORK_CODE : js_exn := SdkDomainError "SIGIL_ERROR__SDK__INVALID_NETWORK".

Definition validateNetwork (network : string) : result js_exn unit :=
  let normalized := if bool_decide (network = "mainnet") then "mainnet-beta" else network in
  throw_if (negb (bool_decide (normalized = "devnet")) &&
            negb (bool_decide (normalized = "mainnet-beta"))) INVALID_NETWORK_CODE.

Definition normalizeNetwork (network : string) : string :=
  if bool_decide (network = "mainnet") then "mainnet-beta" else network.

Definition isStablecoinMint (mint network : string) : bool :=
  if bool_decide (network = "devnet")
  then bool_decide (mint = USDC_MINT_DEVNET) || bool_decide (mint = USDT_MINT_DEVNET)
  else bool_decide (mint = USDC_MINT_MAINNET) || bool_decide (mint = USDT_MINT_MAINNET).
