(* ===== verification/Rpc.v ===== *)
(** * Blockhashes, confirmation and lookup tables ([rpc-helpers.ts], [alt-loader.ts], [alt-config.ts])

    The blockhash cache and its per-RPC registry, the confirmation loop, and
    the cache of address lookup tables with the integrity check of Sigil's own
    table.  The node is an argument: each call takes the answer it gets.

    The theorems: a blockhash handed out is younger than the time to live and
    was not invalidated; the confirmation loop stops within a number of polls
    fixed by its options and reports what the node reported; the table cache
    stays bounded and serves only fresh tables; a table accepted for sealing
    has every expected address. *)

From Stdlib Require String.
From Stdlib Require Import QArith Qround.
From S2P Require Import Prelude JsMap SdkTypes.

Local Open Scope Z_scope.

(** ** The blockhash cache *)

Record Blockhash : Type := { bh_blockhash : string; bh_lastValidBlockHeight : Z }.

Definition DEFAULT_BLOCKHASH_TTL_MS : Z := 30000.

Record BlockhashCache : Type := {
  bc_cached : option Blockhash;
  bc_fetchedAt : Z;
  bc_ttlMs : Z;
}.

Definition new_BlockhashCache (ttlMs : option Z) : BlockhashCache :=
  {| bc_cached := None; bc_fetchedAt := 0; bc_ttlMs := default DEFAULT_BLOCKHASH_TTL_MS ttlMs |}.

(** [now] is the clock when the answer of the node has arrived. *)
Definition refresh (now : Z) (reply : result js_exn Blockhash) (c : BlockhashCache)
    : BlockhashCache * result js_exn Blockhash :=
  match reply with
  | Throw e => (c, Throw e)
  | Ok v => ({| bc_cached := Some v; bc_fetchedAt := now; bc_ttlMs := bc_ttlMs c |}, Ok v)
  end.

Definition bc_get (now later : Z) (reply : result js_exn Blockhash) (c : BlockhashCache)
    : BlockhashCache * result js_exn Blockhash :=
  match bc_cached c with
  | Some b => if now - bc_fetchedAt c <? bc_ttlMs c then (c, Ok b) else refresh later reply c
  | None => refresh later reply c
  end.

Definition bc_invalidate (c : BlockhashCache) : BlockhashCache :=
  {| bc_cached := None; bc_fetchedAt := 0; bc_ttlMs := bc_ttlMs c |}.

(** The registry: one cache per RPC client, made on first use. *)
Definition getBlockhashCache (rpc : nat) (registry : gmap nat BlockhashCache)
    : gmap nat BlockhashCache * BlockhashCache :=
  match registry !! rpc with
  | Some c => (registry, c)
  | None => let c := new_BlockhashCache None in (<[rpc := c]> registry, c)
  end.

(** ** Sending and confirming *)

Record SignatureStatusValue : Type := { ss_err : bool; ss_confirmationStatus : string }.

Record SendAndConfirmOptions : Type := {
  sc_timeoutMs : option Z;
  sc_pollIntervalMs : option Q;
  sc_commitment : option string;
}.

Definition TX_FAILED : js_exn := SdkDomainError "SIGIL_ERROR__RPC__TX_FAILED".
Definition CONFIRMATION_TIMEOUT : js_exn := SdkDomainError "SIGIL_ERROR__RPC__CONFIRMATION_TIMEOUT".

Definition timeout_ms (o : SendAndConfirmOptions) : Z := default 30000 (sc_timeoutMs o).
Definition poll_interval (o : SendAndConfirmOptions) : Q := default 1000%Q (sc_pollIntervalMs o).
Definition commitment (o : SendAndConfirmOptions) : string := default "confirmed" (sc_commitment o).

(** What one answer decides: the error, success, or nothing yet. *)
Definition judge (o : SendAndConfirmOptions) (status : option SignatureStatusValue)
    : option (result js_exn unit) :=
  match status with
  | None => None
  | Some s =>
      if ss_err s then Some (Throw TX_FAILED) else
      let level := ss_confirmationStatus s in
      if bool_decide (level = "confirmed") || bool_decide (level = "finalized") ||
         (bool_decide (commitment o = "processed") && bool_decide (level = "processed"))
      then Some (Ok tt) else None
  end.

(** The delay before the poll after poll [i]; [rand i] is [Math.random()]. *)
Fixpoint backoff (rand : nat → Q) (start : Q) (i : nat) : Q :=
  match i with
  | O => start
  | S i => let d := (backoff rand start i * ((13 # 10) + rand i * (4 # 10)))%Q in
           if Qle_bool d 5000 then d else 5000%Q
  end.

(** The loop: [clock i] is the reading of its test before poll [i].  [None]
    when [fuel] polls were not enough. *)
Fixpoint poll (clock : nat → Z) (status : nat → result js_exn (option SignatureStatusValue))
    (o : SendAndConfirmOptions) (deadline : Z) (fuel i : nat) : option (result js_exn unit) :=
  match fuel with
  | O => None
  | S fuel =>
      if clock i <? deadline then
        match status i with
        | Throw e => Some (Throw e)
        | Ok st => match judge o st with
                   | Some r => Some r
                   | None => poll clock status o deadline fuel (S i)
                   end
        end
      else Some (Throw CONFIRMATION_TIMEOUT)
  end.

(** The polls that fit: the delays never fall below the smaller of the start
    delay and five seconds. *)
Definition floor_delay (o : SendAndConfirmOptions) : Q :=
  if Qle_bool (poll_interval o) 5000 then poll_interval o else 5000%Q.

Definition max_polls (o : SendAndConfirmOptions) : nat :=
  S (S (Z.to_nat (Qfloor (inject_Z (timeout_ms o) / floor_delay o)))).

Definition sendAndConfirmTransaction (sent : result js_exn string) (start : Z) (clock : nat → Z)
    (status : nat → result js_exn (option SignatureStatusValue)) (o : SendAndConfirmOptions)
    : option (result js_exn string) :=
  match sent with
  | Throw e => Some (Throw e)
  | Ok signature =>
      r ← poll clock status o (start + timeout_ms o) (max_polls o) 0;
      Some (_ ← r; Ok signature)
  end.

(** ** Lookup tables *)

Definition SIGIL_ALT_DEVNET : string := "BtRLCMVamw9c3R8UDwgYBCFur5YVkqACmakVh9xi2aTw".
Definition SIGIL_ALT_MAINNET : string := "11111111111111111111111111111111".
Definition ALT_PLACEHOLDER : string := "11111111111111111111111111111111".
Definition INSTRUCTIONS_SYSVAR : string := "Sysvar1nstructions1111111111111111111111111".
Definition CLOCK_SYSVAR : string := "SysvarC1ock11111111111111111111111111111111".
Definition ALT_TREASURY : string := "6wrkKTM2pjkcCAbMfRz2j3AXspavu6pq3ePcuJUE3Azp".
Definition TREASURY_USDC_ATA_DEVNET : string := "J2SCySRvXFFQc6DdbRqnnmEz7kmtEtpM2FP37fz9R4Vt".
Definition TREASURY_USDT_ATA_DEVNET : string := "81RyRPBpxR5QK6ZBtjNDBSknid1qMHsrCcWF6w5NHKD6".

Definition EXPECTED_ALT_CONTENTS_DEVNET : list string :=
  [USDC_MINT_DEVNET; USDT_MINT_DEVNET; ALT_TREASURY; INSTRUCTIONS_SYSVAR; CLOCK_SYSVAR;
   TREASURY_USDC_ATA_DEVNET; TREASURY_USDT_ATA_DEVNET].
Definition EXPECTED_ALT_CONTENTS_MAINNET : list string :=
  [USDC_MINT_MAINNET; USDT_MINT_MAINNET; ALT_TREASURY; INSTRUCTIONS_SYSVAR; CLOCK_SYSVAR].

Definition getSigilAltAddress (network : string) : result js_exn string :=
  if bool_decide (network = "devnet") then Ok SIGIL_ALT_DEVNET
  else if bool_decide (SIGIL_ALT_MAINNET = ALT_PLACEHOLDER)
  then Throw (JsError "Mainnet Sigil ALT not yet deployed")
  else Ok SIGIL_ALT_MAINNET.

Definition getExpectedAltContents (network : string) : list string :=
  if bool_decide (network = "devnet") then EXPECTED_ALT_CONTENTS_DEVNET
  else EXPECTED_ALT_CONTENTS_MAINNET.

(** Tables by address: a plain object. *)
Abbreviation tables := (gmap string (list string)).

Record CacheEntry : Type := { ce_data : tables; ce_expiresAt : Z }.

Record AltCache : Type := {
  ac_cache : js_map string CacheEntry;
  ac_ttlMs : Z;
  ac_maxSize : nat;
}.

Definition new_AltCache (ttlMs : option Z) (maxSize : option nat) : AltCache :=
  {| ac_cache := []; ac_ttlMs := default 300000 ttlMs; ac_maxSize := default 50%nat maxSize |}.

(** The pass over the cache: the tables that are fresh, and the addresses that
    are not. *)
Definition check_alt (now : Z) (c : AltCache) (acc : tables * list string) (addr : string)
    : tables * list string :=
  match jm_get addr (ac_cache c) with
  | Some entry => if now <? ce_expiresAt entry then (ce_data entry ∪ acc.1, acc.2)
                  else (acc.1, acc.2 ++ [addr])
  | None => (acc.1, acc.2 ++ [addr])
  end.

Definition split_cached (now : Z) (c : AltCache) (alts : list string) : tables * list string :=
  foldl (check_alt now c) (∅, []) alts.

Definition cache_entry (now : Z) (c : AltCache) (e : string * list string) : string * CacheEntry :=
  (e.1, {| ce_data := {[e.1 := e.2]}; ce_expiresAt := now + ac_ttlMs c |}).

(** The fetched tables are stored one by one and the oldest keys are evicted. *)
Definition store_tables (now : Z) (fetched : list (string * list string)) (c : AltCache) : AltCache :=
  let m := jm_set_all (map (cache_entry now c) fetched) (ac_cache c) in
  {| ac_cache := jm_evict (length m) (ac_maxSize c) m; ac_ttlMs := ac_ttlMs c;
     ac_maxSize := ac_maxSize c |}.

(** [fetch uncached] is what [fetchAddressesForLookupTables] gives, in the
    order of the object; [None] when it throws. *)
Definition alt_resolve (now : Z) (fetch : list string → option (list (string * list string)))
    (alts : list string) (c : AltCache) : AltCache * tables :=
  if bool_decide (alts = []) then (c, ∅) else
  let '(res, uncached) := split_cached now c alts in
  if bool_decide (uncached = []) then (c, res) else
  match fetch uncached with
  | None => (c, res)
  | Some fetched => (store_tables now fetched c, list_to_map fetched ∪ res)
  end.

Definition getCachedAddresses (now : Z) (alt : string) (c : AltCache) : option (list string) :=
  match jm_get alt (ac_cache c) with
  | Some entry => if ce_expiresAt entry <=? now then None else ce_data entry !! alt
  | None => None
  end.

Definition alt_invalidate (c : AltCache) : AltCache :=
  {| ac_cache := []; ac_ttlMs := ac_ttlMs c; ac_maxSize := ac_maxSize c |}.

(** One protocol table: kept unless it was seen. *)
Definition merge_alt (merged : list string) (alt : string) : list string :=
  if bool_decide (alt ∈ merged) then merged else merged ++ [alt].

Definition mergeAltAddresses (sigilAlt : string) (protocolAlts : list string) : list string :=
  foldl merge_alt [sigilAlt] protocolAlts.

Definition ALT_INTEGRITY : js_exn := SdkDomainError "SIGIL_ERROR__SDK__ALT_INTEGRITY".

Definition verifySigilAlt (resolved : tables) (sigilAlt : string) (expected : list string)
    : result js_exn unit :=
  match resolved !! sigilAlt with
  | None => Ok tt
  | Some addresses =>
      throw_if (negb (bool_decide (filter (λ a, a ∉ addresses) expected = []))) ALT_INTEGRITY
  end.

(** The verify-evict-retry of [seal] and of the client: the cache, the
    tables, and the second fetch when the first table was incomplete. *)
Definition resolve_verified (net : string) (protocolAlts : list string)
    (now1 now2 : Z) (fetch1 fetch2 : list string → option (list (string * list string)))
    (c : AltCache) : AltCache * result js_exn tables :=
  match getSigilAltAddress net with
  | Throw e => (c, Throw e)
  | Ok sigilAlt =>
      let alts := mergeAltAddresses sigilAlt protocolAlts in
      let expected := getExpectedAltContents net in
      let '(c, t) := alt_resolve now1 fetch1 alts c in
      match verifySigilAlt t sigilAlt expected with
      | Ok _ => (c, Ok t)
      | Throw _ =>
          let '(c, t) := alt_resolve now2 fetch2 alts (alt_invalidate c) in
          (c, _ ← verifySigilAlt t sigilAlt expected; Ok t)
      end
  end.

(** ** Freshness of blockhashes *)

Inductive bc_op : Type :=
| BcGet (now later : Z) (reply : result js_exn Blockhash)
| BcInvalidate.

Definition bc_step (c : BlockhashCache) (op : bc_op) : BlockhashCache :=
  match op with
  | BcGet now later reply => fst (bc_get now later reply c)
  | BcInvalidate => bc_invalidate c
  end.

(** Whether a [get] asks the node. *)
Definition asks_node (now : Z) (c : BlockhashCache) : Prop :=
  bc_cached c = None ∨ bc_ttlMs c ≤ now - bc_fetchedAt c.

(** [b] was fetched at time [at_] in the run and not invalidated since. *)
Definition fetched_in (c0 : BlockhashCache) (ops : list bc_op) (b : Blockhash) (at_ : Z) : Prop :=
  ∃ pre now post, ops = pre ++ BcGet now at_ (Ok b) :: post ∧
    asks_node now (foldl bc_step c0 pre) ∧ BcInvalidate ∉ post.

Lemma fetched_in_snoc c0 ops op b t :
  op ≠ BcInvalidate → fetched_in c0 ops b t → fetched_in c0 (ops ++ [op]) b t.
Proof.
  intros Hop (pre & now & post & -> & Ha & Hn). exists pre, now, (post ++ [op]).
  split; [by rewrite <- app_assoc|]. split; [done|]. set_solver.
Qed.

Lemma bc_ttl_run c ops : bc_ttlMs (foldl bc_step c ops) = bc_ttlMs c.
Proof.
  revert c; induction ops as [|op ops IH]; intros c; [done|]. simpl. rewrite IH.
  destruct op as [now later reply|]; [|done]. simpl. unfold bc_get, refresh.
  repeat case_match; done.
Qed.

Lemma bc_cached_fetched ttl ops b :
  bc_cached (foldl bc_step (new_BlockhashCache ttl) ops) = Some b →
  fetched_in (new_BlockhashCache ttl) ops b
    (bc_fetchedAt (foldl bc_step (new_BlockhashCache ttl) ops)).
Proof.
  induction ops as [|op ops IH] using rev_ind; [done|]. rewrite foldl_app. cbn [foldl].
  set (c := foldl bc_step _ ops) in *. destruct op as [now later reply|]; [|done]. cbn [bc_step].
  assert (bc_cached (fst (refresh later reply c)) = Some b → asks_node now c →
    fetched_in (new_BlockhashCache ttl) (ops ++ [BcGet now later reply]) b
      (bc_fetchedAt (fst (refresh later reply c)))) as Hrefresh.
  { unfold refresh. destruct reply as [v|e]; simpl.
    - intros [= ->] Ha. exists ops, now, []. split_and!; [done|done|apply not_elem_of_nil].
    - intros Hc Ha. apply fetched_in_snoc; [done|by apply IH]. }
  unfold bc_get. destruct (bc_cached c) as [b'|] eqn:Hc.
  - destruct (now - bc_fetchedAt c <? bc_ttlMs c) eqn:Hlt.
    + intros Hb. simpl in Hb. apply fetched_in_snoc; [done|]. apply IH. congruence.
    + intros Hb. apply Hrefresh; [done|]. right. lia.
  - intros Hb. apply Hrefresh; [done|]. by left.
Qed.

(** A blockhash handed out after any sequence of calls is either the node's
    answer to this call, or was fetched by an earlier call, completed less
    than the time to live ago, with no invalidation since. *)
Theorem blockhash_is_fresh ttl ops now later reply b :
  snd (bc_get now later reply (foldl bc_step (new_BlockhashCache ttl) ops)) = Ok b →
  reply = Ok b ∨
  ∃ at_, fetched_in (new_BlockhashCache ttl) ops b at_ ∧ now - at_ < default 30000 ttl.
Proof.
  set (c := foldl _ _ _). unfold bc_get. intros H.
  assert (snd (refresh later reply c) = Ok b → reply = Ok b) as Hr
    by (unfold refresh; by destruct reply).
  destruct (bc_cached c) as [b'|] eqn:Hc; [|left; by apply Hr].
  destruct (now - bc_fetchedAt c <? bc_ttlMs c) eqn:Hlt; [|left; by apply Hr].
  simpl in H. injection H as ->. right. exists (bc_fetchedAt c).
  split; [by apply bc_cached_fetched|]. unfold c in Hlt at 2. rewrite bc_ttl_run in Hlt.
  simpl in Hlt. unfold DEFAULT_BLOCKHASH_TTL_MS in Hlt. lia.
Qed.

Lemma blockhash_is_fresh_witness :
  let b := {| bh_blockhash := "h"; bh_lastValidBlockHeight := 9 |} in
  let b' := {| bh_blockhash := "h2"; bh_lastValidBlockHeight := 10 |} in
  Ok (E := js_exn) b' = Ok b ∨
  ∃ at_, fetched_in (new_BlockhashCache (Some 50)) [BcGet 100 105 (Ok b)] b at_ ∧ 150 - at_ < 50.
Proof.
  intros b b'.
  apply (blockhash_is_fresh (Some 50) [BcGet 100 105 (Ok b)] 150 151 (Ok b') b). reflexivity.
Defined.

(** Caches of different RPC clients do not share entries. *)
Lemma registry_isolated rpc rpc' registry :
  rpc ≠ rpc' → fst (getBlockhashCache rpc registry) !! rpc' = registry !! rpc'.
Proof.
  intros Hne. unfold getBlockhashCache. destruct (registry !! rpc); [done|]. simpl.
  by rewrite lookup_insert_ne.
Qed.

(** ** The confirmation loop stops *)

Section Confirm.
Context (o : SendAndConfirmOptions) (rand : nat → Q) (clock : nat → Z).
Context (status : nat → result js_exn (option SignatureStatusValue)).
Context (Hpos : (0 < poll_interval o)%Q) (Hrand : ∀ i, (0 <= rand i)%Q).
(** [sleep] takes at least as long as it was asked to. *)
Context (Hsleep : ∀ i, (inject_Z (clock i) + backoff rand (poll_interval o) i <= inject_Z (clock (S i)))%Q).

Lemma floor_delay_pos : (0 < floor_delay o)%Q.
Proof. unfold floor_delay. destruct (Qle_bool _ _); [done|]. reflexivity. Qed.

Lemma floor_delay_le : (floor_delay o <= 5000)%Q ∧ (floor_delay o <= poll_interval o)%Q.
Proof.
  unfold floor_delay. destruct (Qle_bool (poll_interval o) 5000) eqn:E.
  - apply Qle_bool_iff in E. split; [done|apply Qle_refl].
  - split; [apply Qle_refl|]. apply Qlt_le_weak, Qnot_le_lt. intros H.
    apply Qle_bool_iff in H. congruence.
Qed.

Lemma backoff_grows i : (floor_delay o <= backoff rand (poll_interval o) i)%Q.
Proof.
  destruct floor_delay_le as [H5 Hp]. pose proof floor_delay_pos as H0.
  induction i as [|i IH]; [done|]. cbn [backoff].
  destruct (Qle_bool _ 5000); [|done].
  eapply Qle_trans; [exact IH|]. rewrite <- (Qmult_1_r (backoff _ _ _)) at 1.
  apply Qmult_le_l; [by eapply Qlt_le_trans|].
  apply (Qle_trans _ ((13 # 10) + 0)); [done|]. apply Qplus_le_r.
  apply (Qmult_le_0_compat _ _ (Hrand i)). done.
Qed.

Lemma clock_grows i : (inject_Z (clock 0) + inject_Z (Z.of_nat i) * floor_delay o <= inject_Z (clock i))%Q.
Proof.
  induction i as [|i IH].
  { change (inject_Z (Z.of_nat 0)) with 0%Q. rewrite Qmult_0_l, Qplus_0_r. apply Qle_refl. }
  eapply Qle_trans; [|apply Hsleep]. rewrite Nat2Z.inj_succ. unfold Z.succ. rewrite inject_Z_plus.
  rewrite Qmult_plus_distr_l, Qmult_1_l, Qplus_assoc. apply Qplus_le_compat; [done|]. apply backoff_grows.
Qed.

(** After [timeout / floor_delay] polls the deadline has passed. *)
Lemma deadline_passes start :
  start ≤ clock 0 →
  start + timeout_ms o ≤ clock (S (Z.to_nat (Qfloor (inject_Z (timeout_ms o) / floor_delay o)))).
Proof.
  intros Hs. set (q := (inject_Z (timeout_ms o) / floor_delay o)%Q).
  pose proof floor_delay_pos as H0. pose proof (clock_grows (S (Z.to_nat (Qfloor q)))) as Hc.
  assert (inject_Z (timeout_ms o) <= inject_Z (Z.of_nat (S (Z.to_nat (Qfloor q)))) * floor_delay o)%Q as Hq.
  { apply (Qle_trans _ (q * floor_delay o)).
    - unfold q. rewrite Qmult_comm, Qmult_div_r; [apply Qle_refl|]. by apply Qnot_eq_sym, Qlt_not_eq.
    - apply Qmult_le_compat_r; [|by apply Qlt_le_weak]. apply Qlt_le_weak.
      eapply Qlt_le_trans; [apply Qlt_floor|]. rewrite <- Zle_Qle. lia. }
  rewrite Zle_Qle, inject_Z_plus. eapply Qle_trans; [|exact Hc].
  apply Qplus_le_compat; [by rewrite <- Zle_Qle|done].
Qed.

(** What a finished loop has seen. *)
Definition poll_explained (deadline : Z) (r : result js_exn unit) : Prop :=
  match r with
  | Ok _ => ∃ i s, clock i < deadline ∧ status i = Ok (Some s) ∧ ss_err s = false ∧
      (ss_confirmationStatus s = "confirmed" ∨ ss_confirmationStatus s = "finalized" ∨
       (commitment o = "processed" ∧ ss_confirmationStatus s = "processed"))
  | Throw e => (∃ i, status i = Throw e) ∨
      (e = TX_FAILED ∧ ∃ i s, status i = Ok (Some s) ∧ ss_err s = true) ∨
      (e = CONFIRMATION_TIMEOUT ∧ ∃ i, deadline ≤ clock i ∧
         ∀ j, (j < i)%nat → ∃ st, status j = Ok st ∧ judge o st = None)
  end.

Lemma judge_Some st r :
  judge o st = Some r →
  ∃ s, st = Some s ∧
    ((ss_err s = true ∧ r = Throw TX_FAILED) ∨
     (ss_err s = false ∧ r = Ok tt ∧
      (ss_confirmationStatus s = "confirmed" ∨ ss_confirmationStatus s = "finalized" ∨
       (commitment o = "processed" ∧ ss_confirmationStatus s = "processed")))).
Proof.
  unfold judge. destruct st as [s|]; [|done]. intros H. exists s. split; [done|].
  destruct (ss_err s); [injection H as <-; by left|]. right.
  destruct (_ || _) eqn:E; [|done]. injection H as <-. split_and!; [done|done|].
  apply orb_true_iff in E as [[E|E]%orb_true_iff|E].
  - left. by apply bool_decide_eq_true in E.
  - right. left. by apply bool_decide_eq_true in E.
  - right. right. apply andb_true_iff in E as [E1 E2]. by apply bool_decide_eq_true in E1, E2.
Qed.

Lemma poll_decides deadline n fuel i :
  deadline ≤ clock n → (n < i + fuel)%nat → (i ≤ n)%nat →
  (∀ j, (j < i)%nat → ∃ st, status j = Ok st ∧ judge o st = None) →
  ∃ r, poll clock status o deadline fuel i = Some r ∧ poll_explained deadline r.
Proof.
  intros Hn. revert i; induction fuel as [|fuel IH]; intros i Hf Hi Hseen; [lia|]. cbn [poll].
  destruct (clock i <? deadline) eqn:Hlt.
  2: { eexists. split; [done|]. right. right. split; [done|]. exists i. split; [lia|done]. }
  destruct (status i) as [st|e] eqn:Hst; [|eexists; split; [done|]; left; by exists i].
  destruct (judge o st) as [r|] eqn:Hj.
  - exists r. split; [done|]. apply judge_Some in Hj as (s & -> & [(He & ->)|(He & -> & Hl)]); simpl.
    + right. left. split; [done|]. by exists i, s.
    + exists i, s. split_and!; [lia|done|done|done].
  - assert (i ≠ n) by (intros ->; lia). apply IH; [lia|lia|].
    intros j Hjlt. destruct (decide (j = i)) as [->|]; [by exists st|]. apply Hseen. lia.
Qed.
End Confirm.

(** C37: Sending and confirming ends, when the poll interval is positive and no
    sleep is shorter than asked for: within the number of polls that fit
    between the timeout and the shortest delay, the call returns the
    signature, which some answer reported as landed without an error, or
    throws for a reason the node gave -- or because the deadline passed while
    every answer was inconclusive. *)
Theorem confirmation_terminates o rand clock status sent start :
  (0 < poll_interval o)%Q → (∀ i, (0 <= rand i)%Q) →
  (∀ i, (inject_Z (clock i) + backoff rand (poll_interval o) i <= inject_Z (clock (S i)))%Q) →
  start ≤ clock 0%nat →
  ∃ r, sendAndConfirmTransaction sent start clock status o = Some r ∧
    match r with
    | Ok signature => sent = Ok signature ∧
        poll_explained o clock status (start + timeout_ms o) (Ok tt)
    | Throw e => sent = Throw e ∨ poll_explained o clock status (start + timeout_ms o) (Throw e)
    end.
Proof.
  intros Hpos Hrand Hsleep Hstart. unfold sendAndConfirmTransaction.
  destruct sent as [sig|e]; [|eexists; split; [done|]; by left].
  destruct (poll_decides o clock status (start + timeout_ms o)
    (S (Z.to_nat (Qfloor (inject_Z (timeout_ms o) / floor_delay o)))) (max_polls o) 0)
    as (r & -> & Hr); [by apply (deadline_passes o rand)|unfold max_polls; lia|lia|lia|].
  destruct r as [[]|e]; simpl; eexists; (split; [done|]); [split; done|by right].
Qed.

Lemma confirmation_terminates_witness :
  let o := {| sc_timeoutMs := Some 30000; sc_pollIntervalMs := Some 1000%Q; sc_commitment := None |} in
  ∃ r, sendAndConfirmTransaction (Ok "sig") 0 (λ i, 5000 * Z.of_nat i) (λ _, Ok None) o = Some r ∧
    match r with
    | Ok signature => Ok (E := js_exn) "sig" = Ok signature ∧
        poll_explained o (λ i, 5000 * Z.of_nat i) (λ _, Ok None) 30000 (Ok tt)
    | Throw e => Ok "sig" = Throw e ∨
        poll_explained o (λ i, 5000 * Z.of_nat i) (λ _, Ok None) 30000 (Throw e)
    end.
Proof.
  intros o. apply (confirmation_terminates o (λ _, 0%Q)).
  - reflexivity.
  - intros i. discriminate.
  - intros i. rewrite Nat2Z.inj_succ. replace (5000 * Z.succ (Z.of_nat i)) with (5000 * Z.of_nat i + 5000) by lia.
    rewrite inject_Z_plus. apply Qplus_le_r. destruct i; simpl backoff; [discriminate|].
    destruct (Qle_bool _ 5000) eqn:E; [by apply Qle_bool_iff in E|discriminate].
  - done.
Defined.

(** A transaction that is only confirmed satisfies a caller who asked for
    finality: every commitment but "processed" is treated alike. *)
Example finalized_is_not_awaited :
  judge {| sc_timeoutMs := None; sc_pollIntervalMs := None; sc_commitment := Some "finalized" |}
    (Some {| ss_err := false; ss_confirmationStatus := "confirmed" |}) = Some (Ok tt).
Proof. reflexivity. Qed.

(** ** The table cache *)

(** Every entry holds exactly the table it is keyed by, keys are unique, and
    the size is within the limit. *)
Record alt_wf (c : AltCache) : Prop := {
  aw_keys : jm_wf (ac_cache c);
  aw_size : (length (ac_cache c) ≤ ac_maxSize c)%nat;
  aw_entries : Forall (λ e, ∃ addrs, ce_data e.2 = {[e.1 := addrs]}) (ac_cache c);
}.

Lemma store_tables_wf now fetched c : alt_wf c → alt_wf (store_tables now fetched c).
Proof.
  intros [Hk Hs He]. unfold store_tables. set (m := jm_set_all _ _).
  assert (jm_wf m) as Hm by (by apply jm_set_all_wf).
  split; simpl; rewrite jm_evict_trim by done.
  - by apply jm_trim_wf.
  - apply jm_trim_length.
  - apply Forall_forall. intros e Hin%jm_trim_elem. revert e Hin. apply Forall_forall.
    apply jm_set_all_Forall; [|done]. apply Forall_fmap, Forall_forall.
    intros [a addrs] _. by exists addrs.
Qed.

Lemma alt_resolve_wf now fetch alts c : alt_wf c → alt_wf (fst (alt_resolve now fetch alts c)).
Proof.
  intros Hc. unfold alt_resolve. case_bool_decide; [done|].
  destruct (split_cached _ _ _) as [res unc]. case_bool_decide; [done|].
  destruct (fetch unc); [by apply store_tables_wf|done].
Qed.

(** A fresh entry of the cache for [a]. *)
Definition fresh_entry (now : Z) (c : AltCache) (a : string) (addrs : list string) : Prop :=
  ∃ e, jm_get a (ac_cache c) = Some e ∧ now < ce_expiresAt e ∧ ce_data e = {[a := addrs]}.

Lemma check_alt_fresh now c acc addr a addrs :
  alt_wf c → fst (check_alt now c acc addr) !! a = Some addrs →
  fst acc !! a = Some addrs ∨ (a = addr ∧ fresh_entry now c a addrs).
Proof.
  intros [_ _ He]. unfold check_alt. destruct (jm_get addr _) as [e|] eqn:Hg; [|by left].
  destruct (now <? ce_expiresAt e) eqn:Hlt; [|by left]. cbn [fst].
  assert (∃ addrs, ce_data e = {[addr := addrs]}) as [ad Hd].
  { rewrite Forall_forall in He. by apply (He _ (jm_get_elem _ _ _ Hg)). }
  rewrite Hd. intros [H|[_ H]]%lookup_union_Some_raw; [|by left].
  apply lookup_singleton_Some in H as [<- <-]. right. split; [done|]. exists e.
  split_and!; [done|lia|done].
Qed.

Lemma split_cached_fresh now c alts a addrs :
  alt_wf c → fst (split_cached now c alts) !! a = Some addrs →
  a ∈ alts ∧ fresh_entry now c a addrs.
Proof.
  intros Hc. unfold split_cached.
  assert (∀ acc, fst (foldl (check_alt now c) acc alts) !! a = Some addrs →
    fst acc !! a = Some addrs ∨ (a ∈ alts ∧ fresh_entry now c a addrs)) as H.
  { induction alts as [|alt alts IH]; intros acc Hl; [by left|]. simpl in Hl.
    apply IH in Hl as [Hl|[Hin Hf]]; [|right; split; [by right|done]].
    apply check_alt_fresh in Hl as [Hl|[-> Hf]]; [by left| |done]. right. split; [by left|done]. }
  intros Hl. destruct (H _ Hl) as [H0|?]; [by cbn in H0; rewrite lookup_empty in H0|done].
Qed.

(** Starting from a well-formed table cache, [resolve] keeps it well-formed --
    unique keys, one table per entry, never more entries than its maximum --
    and every table it returns was either fetched by this call or is a cached
    one whose expiry lies in the future. *)
Theorem alt_cache_serves_fresh_tables now fetch alts c :
  alt_wf c →
  let '(c', t) := alt_resolve now fetch alts c in
  alt_wf c' ∧
  ∀ a addrs, t !! a = Some addrs →
    (∃ uncached fetched, fetch uncached = Some fetched ∧ (a, addrs) ∈ fetched) ∨
    (a ∈ alts ∧ fresh_entry now c a addrs).
Proof.
  intros Hc. pose proof (alt_resolve_wf now fetch alts c Hc) as Hwf.
  destruct (alt_resolve now fetch alts c) as [c' t] eqn:E. split; [done|]. clear Hwf.
  intros a addrs Hl. unfold alt_resolve in E. case_bool_decide; [injection E as <- <-; by rewrite lookup_empty in Hl|].
  pose proof (split_cached_fresh now c alts a addrs Hc) as Hs.
  destruct (split_cached _ _ _) as [res unc]. simpl in Hs.
  case_bool_decide; [injection E as <- <-; right; by apply Hs|].
  destruct (fetch unc) as [fetched|] eqn:Hf; injection E as <- <-; [|right; by apply Hs].
  apply lookup_union_Some_raw in Hl as [Hl|[_ Hl]]; [|right; by apply Hs].
  left. exists unc, fetched. split; [done|]. by apply elem_of_list_to_map_2 in Hl.
Qed.

Lemma alt_cache_serves_fresh_tables_witness :
  let fetch := λ l, Some (map (λ a, (a, [a])) l) in
  alt_wf (new_AltCache None None) ∧
  (let '(c', t) := alt_resolve 5 fetch ["x"; "y"] (new_AltCache None None) in
   alt_wf c' ∧
   ∀ a addrs, t !! a = Some addrs →
     (∃ uncached fetched, fetch uncached = Some fetched ∧ (a, addrs) ∈ fetched) ∨
     (a ∈ ["x"; "y"] ∧ fresh_entry 5 (new_AltCache None None) a addrs)).
Proof.
  intros fetch.
  assert (alt_wf (new_AltCache None None)) as H by (split; simpl; [constructor|lia|constructor]).
  split; [exact H|]. exact (alt_cache_serves_fresh_tables 5 fetch ["x"; "y"] _ H).
Defined.

(** ** Integrity of the table *)

Lemma merge_alts_NoDup l acc : NoDup acc → NoDup (foldl merge_alt acc l).
Proof.
  revert acc; induction l as [|a l IH]; intros acc Hacc; [done|]. simpl. apply IH.
  unfold merge_alt. case_bool_decide; [done|]. apply NoDup_app. split_and!; [done| |apply NoDup_singleton].
  intros x Hx Hx'%list_elem_of_singleton. by subst.
Qed.

Lemma merge_alts_elem l acc a : a ∈ foldl merge_alt acc l ↔ a ∈ acc ∨ a ∈ l.
Proof.
  revert acc; induction l as [|b l IH]; intros acc; simpl; [set_solver|]. rewrite IH.
  unfold merge_alt. case_bool_decide; set_solver.
Qed.

Lemma merge_alts_prefix l acc : acc `prefix_of` foldl merge_alt acc l.
Proof.
  revert acc; induction l as [|b l IH]; intros acc; simpl; [done|]. etrans; [|apply IH].
  unfold merge_alt. case_bool_decide; [done|by apply prefix_app_r].
Qed.

(** The merged list starts with Sigil's table, has no repetition, and names
    exactly Sigil's and the caller's tables. *)
Theorem merged_alts_specified sigilAlt protocolAlts :
  [sigilAlt] `prefix_of` mergeAltAddresses sigilAlt protocolAlts ∧
  NoDup (mergeAltAddresses sigilAlt protocolAlts) ∧
  ∀ a, a ∈ mergeAltAddresses sigilAlt protocolAlts ↔ a = sigilAlt ∨ a ∈ protocolAlts.
Proof.
  unfold mergeAltAddresses. split_and!.
  - apply merge_alts_prefix.
  - apply merge_alts_NoDup, NoDup_singleton.
  - intros a. rewrite merge_alts_elem, list_elem_of_singleton. done.
Qed.

Lemma verifySigilAlt_Ok t alt expected u :
  verifySigilAlt t alt expected = Ok u →
  t !! alt = None ∨ ∃ addrs, t !! alt = Some addrs ∧ ∀ a, a ∈ expected → a ∈ addrs.
Proof.
  unfold verifySigilAlt. destruct (t !! alt) as [addrs|]; [|by left].
  intros H%throw_if_Ok. apply negb_false_iff, bool_decide_eq_true in H. right. exists addrs.
  split; [done|]. intros a Ha. destruct (decide (a ∈ addrs)) as [|Hn]; [done|].
  assert (a ∈ filter (λ a, a ∉ addrs) expected) as Hf by (by apply list_elem_of_filter).
  rewrite H in Hf. by apply elem_of_nil in Hf.
Qed.

(** The tables used for a transaction, after eviction and one retry if need
    be, either lack Sigil's table -- the fetch failed and the transaction is
    built uncompressed -- or hold it with every expected address; and since no
    table is deployed on mainnet, there is no answer but the error there. *)
Theorem resolved_tables_are_verified net protocolAlts now1 now2 fetch1 fetch2 c c' t :
  resolve_verified net protocolAlts now1 now2 fetch1 fetch2 c = (c', Ok t) →
  net = "devnet" ∧
  (t !! SIGIL_ALT_DEVNET = None ∨
   ∃ addrs, t !! SIGIL_ALT_DEVNET = Some addrs ∧
     ∀ a, a ∈ EXPECTED_ALT_CONTENTS_DEVNET → a ∈ addrs).
Proof.
  unfold resolve_verified. destruct (getSigilAltAddress net) as [alt|e] eqn:Hs; [|done].
  assert (net = "devnet" ∧ alt = SIGIL_ALT_DEVNET) as [-> ->].
  { unfold getSigilAltAddress in Hs. case_bool_decide; [by injection Hs as <-|done]. }
  change (getExpectedAltContents "devnet") with EXPECTED_ALT_CONTENTS_DEVNET.
  destruct (alt_resolve now1 _ _ c) as [c1 t1].
  destruct (verifySigilAlt t1 _ _) as [u|e] eqn:Hv.
  - intros [= <- <-]. split; [done|]. by eapply verifySigilAlt_Ok.
  - destruct (alt_resolve now2 _ _ _) as [c2 t2]. intros [= <- H]. split; [done|].
    apply bind_Ok_inv in H as (? & Hv2 & [= <-]). by eapply verifySigilAlt_Ok.
Qed.

Lemma resolved_tables_are_verified_witness :
  ∃ c t, resolve_verified "devnet" [] 0 1 (λ _, Some [(SIGIL_ALT_DEVNET, [])])
    (λ _, Some [(SIGIL_ALT_DEVNET, EXPECTED_ALT_CONTENTS_DEVNET)]) (new_AltCache None None) = (c, Ok t) ∧
  (t !! SIGIL_ALT_DEVNET = None ∨
   ∃ addrs, t !! SIGIL_ALT_DEVNET = Some addrs ∧
     ∀ a, a ∈ EXPECTED_ALT_CONTENTS_DEVNET → a ∈ addrs).
Proof.
  eexists _, _. split; [vm_compute; reflexivity|].
  eapply (resolved_tables_are_verified "devnet" [] 0 1 (λ _, Some [(SIGIL_ALT_DEVNET, [])])
    (λ _, Some [(SIGIL_ALT_DEVNET, EXPECTED_ALT_CONTENTS_DEVNET)]) (new_AltCache None None)).
  vm_compute. reflexivity.
Defined.
