(* ===== verification/StateResolver.v ===== *)
(** * Vault state resolution ([sdk/kit/src/state-resolver.ts])

    The rolling 24-hour spend of a vault (144 ten-minute buckets), of an agent
    (a ring of 24 hourly buckets) and of a protocol, and the budgets that
    [resolveVaultState] and [resolveVaultBudget] compute from decoded
    accounts.  Address derivation, the batched fetch, the account decoders and
    the address codec are library or generated code: their results are
    arguments.

    The theorems: both rolling sums equal a reference definition in which each
    bucket counts in proportion to its overlap with the last 24 hours (the
    early exits and loop breaks lose nothing), they stay within u64, the
    vault's sum only decreases while nothing is written, and the two resolvers
    agree on the agent's budget. *)


From S2P Require Import Prelude SdkTypes.

Local Open Scope Z_scope.

Record EpochBucket : Type := { eb_epochId : Z; eb_usdAmount : Z }.

Record ProtocolCounter : Type := { pc_protocol : list Z; pc_windowStart : Z; pc_windowSpend : Z }.

Record SpendTracker : Type := {
  st_buckets : list EpochBucket;
  st_protocolCounters : list ProtocolCounter;
  st_lastWriteEpoch : Z;
}.

Record AgentContributionEntry : Type := {
  ac_agent : list Z;
  ac_lastWriteEpoch : Z;
  ac_contributions : list Z;
}.

Record AgentSpendOverlay : Type := {
  ov_entries : list AgentContributionEntry;
  ov_lifetimeSpend : list Z;
  ov_lifetimeTxCount : option (list Z);
}.

Record AgentEntry : Type := {
  ae_pubkey : string;
  ae_spendingLimitUsd : Z;
  ae_capability : Z;
  ae_paused : bool;
}.

Inductive VaultStatus : Type := Active | Frozen | Closed.

(** The fields of the decoded accounts that the resolvers and [seal] read. *)
Record AgentVault : Type := {
  av_agents : list AgentEntry;
  av_status : VaultStatus;
  av_feeDestination : string;
  av_owner : string;
  av_totalVolume : Z;
  av_totalFeesCollected : Z;
  av_observeOnly : bool;
  av_totalDepositedUsd : Z;
  av_totalWithdrawnUsd : Z;
  av_totalTransactions : Z;
  av_createdAt : Z;
}.
Record PolicyConfig : Type := {
  pol_dailySpendingCapUsd : Z;
  pol_maxTransactionSizeUsd : Z;
  pol_hasProtocolCaps : bool;
  pol_protocols : list string;
  pol_protocolCaps : list Z;
  pol_protocolMode : Z;
  pol_protocolHashes : list (list Z);
  pol_developerFeeRate : Z;
  pol_stableBalanceFloor : Z;
  pol_policyVersion : Z;
  pol_destinationMode : Z;
  pol_allowedDestinations : list string;
  pol_timelockDuration : Z;
  pol_maxSlippageBps : Z;
  pol_sessionExpirySeconds : Z;
  pol_cosignRequired : bool;
  pol_cosignSessionPubkey : string;
  pol_perRecipientDailyCapUsd : Z;
  pol_operatorGrantDelaySeconds : Z;
  pol_destinationGraylist : list (string * Z);
}.

Record EffectiveBudget : Type := { spent24h : Z; cap : Z; remaining : Z }.
Record ProtocolBudget : Type := { pb_protocol : string; pb_budget : EffectiveBudget }.

Record ResolvedVaultState : Type := {
  rs_vault : AgentVault;
  rs_policy : PolicyConfig;
  rs_tracker : option SpendTracker;
  rs_overlay : option AgentSpendOverlay;
  rs_globalBudget : EffectiveBudget;
  rs_agentBudget : option EffectiveBudget;
  rs_allAgentBudgets : gmap string EffectiveBudget;
  rs_protocolBudgets : list ProtocolBudget;
  rs_maxTransactionUsd : Z;
  rs_usdc : Z;
  rs_usdt : Z;
  rs_resolvedAtTimestamp : Z;
}.

Definition VAULT_NOT_FOUND : js_exn := SdkDomainError "SIGIL_ERROR__SDK__VAULT_NOT_FOUND".
Definition POLICY_NOT_FOUND : js_exn := SdkDomainError "SIGIL_ERROR__SDK__POLICY_NOT_FOUND".

(** [nowUnix > 86400n ? nowUnix - 86400n : 0n] *)
Definition window_start (nowUnix : Z) : Z :=
  if ROLLING_WINDOW_SECONDS <? nowUnix then nowUnix - ROLLING_WINDOW_SECONDS else 0.

Definition clamp_u64 (total : Z) : Z := if U64_MAX <? total then U64_MAX else total.

(** One turn of the loop over the buckets. *)
Definition add_bucket (currentEpoch windowStart total : Z) (bucket : EpochBucket) : Z :=
  if eb_usdAmount bucket =? 0 then total else
  let bucketStart := eb_epochId bucket * EPOCH_DURATION in
  let bucketEnd := bucketStart + EPOCH_DURATION in
  if (bucketEnd <=? windowStart) || (currentEpoch <? eb_epochId bucket) then total else
  if windowStart <=? bucketStart then total + eb_usdAmount bucket
  else
    let overlap := bucketEnd - windowStart in
    total + Z.quot (eb_usdAmount bucket * overlap) EPOCH_DURATION.

Definition getRolling24hUsd (tracker : SpendTracker) (nowUnix : Z) : Z :=
  if nowUnix <=? 0 then 0 else
  let currentEpoch := Z.quot nowUnix EPOCH_DURATION in
  if NUM_EPOCHS <? currentEpoch - st_lastWriteEpoch tracker then 0 else
  let windowStart := window_start nowUnix in
  clamp_u64 (foldl (add_bucket currentEpoch windowStart) 0 (st_buckets tracker)).

(** The backward loop; [n] counts the turns left, [k] the ones done.  A missing
    contribution is [undefined], and arithmetic on it raises TypeError. *)
Fixpoint agent_loop (n : nat) (k : Z) (entry : AgentContributionEntry)
    (currentEpoch windowStart total : Z) : result js_exn Z :=
  match n with
  | O => Ok total
  | S n =>
      let epochForK := ac_lastWriteEpoch entry - k in
      if epochForK <? 0 then Ok total else
      let bucketStart := epochForK * OVERLAY_EPOCH_DURATION in
      let bucketEnd := bucketStart + OVERLAY_EPOCH_DURATION in
      if bucketEnd <=? windowStart then Ok total else
      if currentEpoch <? epochForK then agent_loop n (k + 1) entry currentEpoch windowStart total else
      let bucketIdx := Z.to_nat (Z.rem epochForK (Z.of_nat OVERLAY_NUM_EPOCHS)) in
      match ac_contributions entry !! bucketIdx with
      | None => Throw JsTypeError
      | Some contribution =>
          if contribution =? 0 then agent_loop n (k + 1) entry currentEpoch windowStart total else
          let total :=
            if windowStart <=? bucketStart then total + contribution
            else
              let overlap := bucketEnd - windowStart in
              total + Z.quot (contribution * overlap) OVERLAY_EPOCH_DURATION in
          agent_loop n (k + 1) entry currentEpoch windowStart total
      end
  end.

Definition getAgentRolling24hUsd (entry : AgentContributionEntry) (nowUnix : Z) : result js_exn Z :=
  if nowUnix <=? 0 then Ok 0 else
  let currentEpoch := Z.quot nowUnix OVERLAY_EPOCH_DURATION in
  if Z.of_nat OVERLAY_NUM_EPOCHS <? currentEpoch - ac_lastWriteEpoch entry then Ok 0 else
  total ← agent_loop OVERLAY_NUM_EPOCHS 0 entry currentEpoch (window_start nowUnix) 0;
  Ok (clamp_u64 total).

(** A point of the spending chart, without its display string. *)
Record SpendingEpoch : Type := { sp_epochId : Z; sp_timestamp : Z; sp_usdAmount : Z }.

Definition before (a b : SpendingEpoch) : bool := sp_timestamp a <=? sp_timestamp b.

Definition getSpendingHistory (tracker : option SpendTracker) (nowUnix : Z) : list SpendingEpoch :=
  match tracker with
  | None => []
  | Some tracker =>
      if nowUnix <=? 0 then [] else
      let currentEpoch := Z.quot nowUnix EPOCH_DURATION in
      if NUM_EPOCHS <? currentEpoch - st_lastWriteEpoch tracker then [] else
      let windowStartEpoch := currentEpoch - NUM_EPOCHS in
      let result := foldl (λ result bucket,
        if eb_usdAmount bucket =? 0 then result else
        if eb_epochId bucket <? windowStartEpoch then result else
        if currentEpoch <? eb_epochId bucket then result else
        result ++ [{| sp_epochId := eb_epochId bucket;
                      sp_timestamp := eb_epochId bucket * EPOCH_DURATION;
                      sp_usdAmount := eb_usdAmount bucket |}]) [] (st_buckets tracker) in
      js_sort before result
  end.

(** The u64 at offset 64 of a token account, byte by byte. *)
Definition ata_balance (data : option (list Z)) : Z :=
  match data with
  | None => 0
  | Some data =>
      if bool_decide (72 ≤ length data)%nat
      then foldl (λ acc i, Z.lor acc (Z.shiftl (data !!! (64 + i)%nat) (Z.of_nat (i * 8)))) 0 (seq 0 8)
      else 0
  end.

Definition budget_of (spent cap_ : Z) : EffectiveBudget :=
  {| spent24h := spent; cap := cap_; remaining := if spent <? cap_ then cap_ - spent else 0 |}.

Section Resolver.
(** The address codec of the Solana kit. *)
Context (encodeAddress : string → list Z) (decodeAddress : list Z → option string).

Definition bytesMatchAddress (bytes : list Z) (addr : string) : bool :=
  let encoded := encodeAddress addr in
  if bool_decide (length bytes = length encoded)
  then forallb (λ i, bool_decide (bytes !! i = encoded !! i)) (seq 0 32) else false.

Definition getProtocolSpend (tracker : SpendTracker) (protocolAddress : string) (nowUnix : Z) : Z :=
  if nowUnix <=? 0 then 0 else
  let currentEpoch := Z.quot nowUnix EPOCH_DURATION in
  match list_find (λ c, bytesMatchAddress (pc_protocol c) protocolAddress)
          (st_protocolCounters tracker) with
  | Some (_, counter) =>
      if currentEpoch - pc_windowStart counter <? NUM_EPOCHS then pc_windowSpend counter else 0
  | None => 0
  end.

Definition findAgentOverlaySlot (overlay : option AgentSpendOverlay) (agentAddress : string)
    : option (nat * Z * Z) :=
  match overlay with
  | None => None
  | Some overlay =>
      '(slotIdx, _) ← list_find (λ e, decodeAddress (ac_agent e) = Some agentAddress)
                        (ov_entries overlay);
      Some (slotIdx, default 0 (ov_lifetimeSpend overlay !! slotIdx),
            default 0 (default [] (ov_lifetimeTxCount overlay) !! slotIdx))
  end.

(** The budget of one agent entry with a positive limit. *)
Definition agent_budget (overlay : option AgentSpendOverlay) (timestamp : Z) (entryAddr : string)
    (cap_ : Z) : result js_exn EffectiveBudget :=
  match overlay with
  | None => Ok {| spent24h := 0; cap := cap_; remaining := cap_ |}
  | Some overlay =>
      match list_find (λ e, bytesMatchAddress (ac_agent e) entryAddr) (ov_entries overlay) with
      | None => Ok {| spent24h := 0; cap := cap_; remaining := cap_ |}
      | Some (_, overlayEntry) =>
          spent ← getAgentRolling24hUsd overlayEntry timestamp;
          Ok (budget_of spent cap_)
      end
  end.

(** Step 6 of [resolveVaultState]: one pass over the agents. *)
Fixpoint agent_budgets (overlay : option AgentSpendOverlay) (timestamp : Z) (agent : string)
    (agents : list AgentEntry) (acc : option EffectiveBudget * gmap string EffectiveBudget)
    : result js_exn (option EffectiveBudget * gmap string EffectiveBudget) :=
  match agents with
  | [] => Ok acc
  | entry :: agents =>
      if ae_spendingLimitUsd entry <=? 0 then agent_budgets overlay timestamp agent agents acc else
      budget ← agent_budget overlay timestamp (ae_pubkey entry) (ae_spendingLimitUsd entry);
      agent_budgets overlay timestamp agent agents
        (if bool_decide (ae_pubkey entry = agent) then Some budget else acc.1,
         <[ae_pubkey entry := budget]> acc.2)
  end.

(** Step 7: the budgets of capped protocols, position by position. *)
Definition protocol_budgets (policy : PolicyConfig) (tracker : SpendTracker) (timestamp : Z)
    : list ProtocolBudget :=
  flat_map (λ '(i, protocol),
    match pol_protocolCaps policy !! i with
    | None => []
    | Some protocolCap =>
        if protocolCap =? 0 then [] else
        [{| pb_protocol := protocol;
            pb_budget := budget_of (getProtocolSpend tracker protocol timestamp) protocolCap |}]
    end) (imap pair (pol_protocols policy)).

(** [resolveVaultState], from the decoded accounts on; [usdcData] and
    [usdtData] are the data of the two token accounts, if they exist. *)
Definition resolveVaultState (vault : option AgentVault) (policy : option PolicyConfig)
    (tracker : option SpendTracker) (overlay : option AgentSpendOverlay)
    (usdcData usdtData : option (list Z)) (agent : string) (timestamp : Z)
    : result js_exn ResolvedVaultState :=
  match vault, policy with
  | None, _ => Throw VAULT_NOT_FOUND
  | Some _, None => Throw POLICY_NOT_FOUND
  | Some vault, Some policy =>
      let globalSpent := match tracker with
                         | Some t => getRolling24hUsd t timestamp | None => 0 end in
      '(agentBudget, allAgentBudgets) ←
        agent_budgets overlay timestamp agent (av_agents vault) (None, ∅);
      Ok {| rs_vault := vault; rs_policy := policy; rs_tracker := tracker; rs_overlay := overlay;
            rs_globalBudget := budget_of globalSpent (pol_dailySpendingCapUsd policy);
            rs_agentBudget := agentBudget;
            rs_allAgentBudgets := allAgentBudgets;
            rs_protocolBudgets :=
              match tracker with
              | Some t => if pol_hasProtocolCaps policy
                          then protocol_budgets policy t timestamp else []
              | None => []
              end;
            rs_maxTransactionUsd := pol_maxTransactionSizeUsd policy;
            rs_usdc := ata_balance usdcData; rs_usdt := ata_balance usdtData;
            rs_resolvedAtTimestamp := timestamp |}
  end.

Definition resolveVaultBudget (vault : option AgentVault) (policy : option PolicyConfig)
    (tracker : option SpendTracker) (overlay : option AgentSpendOverlay) (agent : string)
    (timestamp : Z) : result js_exn (EffectiveBudget * option EffectiveBudget) :=
  match vault, policy with
  | None, _ => Throw VAULT_NOT_FOUND
  | Some _, None => Throw POLICY_NOT_FOUND
  | Some vault, Some policy =>
      let globalSpent := match tracker with
                         | Some t => getRolling24hUsd t timestamp | None => 0 end in
      agentBudget ←
        match list_find (λ a, ae_pubkey a = agent) (av_agents vault) with
        | Some (_, agentEntry) =>
            if 0 <? ae_spendingLimitUsd agentEntry
            then b ← agent_budget overlay timestamp agent (ae_spendingLimitUsd agentEntry);
                 Ok (Some b)
            else Ok None
        | None => Ok None
        end;
      Ok (budget_of globalSpent (pol_dailySpendingCapUsd policy), agentBudget)
  end.
End Resolver.

(** ** The reference definition of a rolling spend *)

(** The seconds of a bucket that lie in the window, between 0 and [dur]. *)
Definition overlap_seconds (dur windowStart epochId : Z) : Z :=
  Z.min dur (Z.max 0 (epochId * dur + dur - windowStart)).

(** What a bucket contributes: its amount in proportion to its overlap;
    buckets of the future count nothing. *)
Definition bucket_share (dur windowStart currentEpoch epochId amount : Z) : Z :=
  if currentEpoch <? epochId then 0
  else amount * overlap_seconds dur windowStart epochId / dur.

Definition rolling_reference (dur : Z) (buckets : list (Z * Z)) (nowUnix : Z) : Z :=
  Z.min U64_MAX (sumZ (map (λ b, bucket_share dur (window_start nowUnix) (nowUnix / dur) b.1 b.2)
    buckets)).

Definition vault_buckets (t : SpendTracker) : list (Z * Z) :=
  map (λ b, (eb_epochId b, eb_usdAmount b)) (st_buckets t).

(** The epochs the ring of an agent still holds, newest first. *)
Definition ring_epochs (e : AgentContributionEntry) : list Z :=
  filter (λ x, 0 ≤ x) (map (λ k, ac_lastWriteEpoch e - Z.of_nat k) (seq 0 OVERLAY_NUM_EPOCHS)).

Definition ring_buckets (e : AgentContributionEntry) : list (Z * Z) :=
  map (λ epoch, (epoch, ac_contributions e !!! Z.to_nat (epoch mod 24))) (ring_epochs e).

(** Trackers as the program writes them. *)
Definition tracker_ok (t : SpendTracker) : Prop :=
  0 ≤ st_lastWriteEpoch t ∧
  Forall (λ b, 0 ≤ eb_usdAmount b ∧ 0 ≤ eb_epochId b ≤ st_lastWriteEpoch t) (st_buckets t).

Definition entry_ok (e : AgentContributionEntry) : Prop :=
  0 ≤ ac_lastWriteEpoch e ∧ length (ac_contributions e) = 24%nat ∧
  Forall (λ c, 0 ≤ c) (ac_contributions e).

Lemma clamp_u64_min t : clamp_u64 t = Z.min U64_MAX t.
Proof. unfold clamp_u64. destruct (Z.ltb_spec U64_MAX t); lia. Qed.

Lemma bucket_share_outside dur ws cur e amt :
  0 < dur → e * dur + dur ≤ ws → bucket_share dur ws cur e amt = 0.
Proof.
  intros Hd Hw. unfold bucket_share, overlap_seconds. destruct (cur <? e); [done|].
  rewrite Z.max_l, Z.min_r, Z.mul_0_r, Z.div_0_l by lia. done.
Qed.

Lemma bucket_share_inside dur ws cur e amt :
  0 < dur → ws ≤ e * dur → e ≤ cur → bucket_share dur ws cur e amt = amt.
Proof.
  intros Hd Hw Hc. unfold bucket_share, overlap_seconds.
  rewrite (proj2 (Z.ltb_ge cur e)) by done. rewrite Z.max_r, Z.min_l by lia.
  by apply Z.div_mul; lia.
Qed.

Lemma bucket_share_boundary dur ws cur e amt :
  0 < dur → e * dur < ws < e * dur + dur → e ≤ cur → 0 ≤ amt →
  bucket_share dur ws cur e amt = Z.quot (amt * (e * dur + dur - ws)) dur.
Proof.
  intros Hd Hw Hc Ha. unfold bucket_share, overlap_seconds.
  rewrite (proj2 (Z.ltb_ge cur e)) by done. rewrite Z.max_r, Z.min_r by lia.
  rewrite Z.quot_div_nonneg by nia. done.
Qed.

Lemma bucket_share_zero dur ws cur e : bucket_share dur ws cur e 0 = 0.
Proof. unfold bucket_share. destruct (cur <? e); [done|]. by rewrite Z.mul_0_l, Zdiv.Zdiv_0_l. Qed.

Lemma bucket_share_future dur ws cur e amt : cur < e → bucket_share dur ws cur e amt = 0.
Proof. intros H. unfold bucket_share. by rewrite (proj2 (Z.ltb_lt cur e)). Qed.

Lemma bucket_share_nonneg dur ws cur e amt : 0 < dur → 0 ≤ amt → 0 ≤ bucket_share dur ws cur e amt.
Proof.
  intros Hd Ha. unfold bucket_share, overlap_seconds. destruct (cur <? e); [done|].
  apply Z.div_pos; nia.
Qed.

(** An expired write epoch puts every bucket before the window. *)
Lemma expired_outside dur n now last e :
  0 < dur → 0 < now → dur * n = ROLLING_WINDOW_SECONDS → 0 ≤ last → e ≤ last →
  n < now / dur - last → e * dur + dur ≤ window_start now.
Proof.
  intros Hd Hn Hdn Hl He Hx. unfold window_start, ROLLING_WINDOW_SECONDS in *.
  pose proof (Z.mul_div_le now dur Hd).
  assert ((last + n + 1) * dur ≤ now / dur * dur) by (apply Z.mul_le_mono_nonneg_r; lia).
  assert (e * dur ≤ last * dur) by (apply Z.mul_le_mono_nonneg_r; lia).
  assert (0 ≤ last * dur) by nia.
  destruct (Z.ltb_spec 86400 now); lia.
Qed.

Lemma sumZ_zero {A} (f : A → Z) l : (∀ x, x ∈ l → f x = 0) → sumZ (map f l) = 0.
Proof.
  induction l as [|x l IH]; intros H; simpl; [done|].
  unfold sumZ in *. simpl. rewrite (H x), IH by set_solver. done.
Qed.

Lemma add_bucket_share cur ws total b :
  0 ≤ eb_usdAmount b →
  add_bucket cur ws total b =
  total + bucket_share EPOCH_DURATION ws cur (eb_epochId b) (eb_usdAmount b).
Proof.
  intros Ha. unfold add_bucket. assert (Hd : 0 < EPOCH_DURATION) by done.
  destruct (Z.eqb_spec (eb_usdAmount b) 0) as [->|Hnz]; [rewrite bucket_share_zero; lia|].
  destruct (Z.leb_spec (eb_epochId b * EPOCH_DURATION + EPOCH_DURATION) ws) as [Ho|Ho]; cbn [orb].
  { rewrite bucket_share_outside by done. lia. }
  destruct (Z.ltb_spec cur (eb_epochId b)) as [Hf|Hf].
  { rewrite bucket_share_future by done. lia. }
  destruct (Z.leb_spec ws (eb_epochId b * EPOCH_DURATION)) as [Hi|Hi].
  - by rewrite bucket_share_inside.
  - by rewrite bucket_share_boundary.
Qed.

Lemma getRolling24hUsd_reference t now :
  tracker_ok t → 0 < now →
  getRolling24hUsd t now = rolling_reference EPOCH_DURATION (vault_buckets t) now.
Proof.
  intros [Hl Hb] Hn. unfold getRolling24hUsd, rolling_reference, vault_buckets.
  rewrite (proj2 (Z.leb_gt now 0)) by done. rewrite Z.quot_div_nonneg by (unfold EPOCH_DURATION; lia).
  rewrite map_map. cbn [fst snd]. destruct (Z.ltb_spec NUM_EPOCHS (now / EPOCH_DURATION - st_lastWriteEpoch t)) as [Hx|Hx].
  - rewrite sumZ_zero; [done|]. intros b Hin. rewrite Forall_forall in Hb.
    apply bucket_share_outside; [done|].
    eapply (expired_outside _ NUM_EPOCHS now (st_lastWriteEpoch t)); try done. by apply Hb.
  - rewrite clamp_u64_min. f_equal. rewrite <- (Z.add_0_l (sumZ _)). generalize 0.
    clear Hx. induction Hb as [|b bs [Ha He] _ IH]; intros acc; cbn [foldl map].
    + unfold sumZ. simpl. lia.
    + rewrite IH, add_bucket_share by done. change (sumZ (?x :: ?l)) with (x + sumZ l). lia.
Qed.

Lemma agent_loop_reference n k e cur ws total :
  entry_ok e →
  agent_loop n k e cur ws total =
  Ok (total + sumZ (map (λ x, bucket_share OVERLAY_EPOCH_DURATION ws cur x
        (ac_contributions e !!! Z.to_nat (x mod 24)))
      (filter (λ x, 0 ≤ x) (map (λ i, ac_lastWriteEpoch e - (k + Z.of_nat i)) (seq 0 n))))).
Proof.
  intros (Hl & Hlen & Hc). assert (Hd : 0 < OVERLAY_EPOCH_DURATION) by done.
  revert k total; induction n as [|n IH]; intros k total; cbn [agent_loop].
  { f_equal. unfold sumZ. simpl. lia. }
  assert (Hrest : map (λ i, ac_lastWriteEpoch e - (k + Z.of_nat i)) (seq 0 (S n)) =
    (ac_lastWriteEpoch e - k) :: map (λ i, ac_lastWriteEpoch e - (k + 1 + Z.of_nat i)) (seq 0 n)).
  { cbn [seq map]. rewrite <- seq_shift, map_map. f_equal; [simpl; lia|].
    apply map_ext. intros i. lia. }
  rewrite Hrest. clear Hrest. set (x := ac_lastWriteEpoch e - k) in *.
  set (rest := map _ (seq 0 n)) in *.
  assert (Hle : ∀ y, y ∈ rest → y < x).
  { intros y Hy. apply list_elem_of_fmap in Hy as (i & -> & _). unfold x. lia. }
  rewrite filter_cons. destruct (Z.ltb_spec x 0) as [Hneg|Hpos].
  { destruct (decide (0 ≤ x)); [lia|]. f_equal.
    assert (filter (λ y, 0 ≤ y) rest = []) as ->.
    { apply filter_none, Forall_forall. intros y Hy. specialize (Hle y Hy). lia. }
    unfold sumZ. simpl. lia. }
  destruct (decide (0 ≤ x)); [|lia]. cbn [map]. change (sumZ (?a :: ?l)) with (a + sumZ l).
  destruct (Z.leb_spec (x * OVERLAY_EPOCH_DURATION + OVERLAY_EPOCH_DURATION) ws) as [Ho|Ho].
  { f_equal. rewrite bucket_share_outside by done. rewrite sumZ_zero; [lia|].
    intros y [_ Hy]%list_elem_of_filter. specialize (Hle y Hy).
    apply bucket_share_outside; [done|]. unfold OVERLAY_EPOCH_DURATION in *. lia. }
  destruct (Z.ltb_spec cur x) as [Hf|Hf].
  { rewrite IH, bucket_share_future by done. done. }
  assert (Hidx : Z.rem x (Z.of_nat OVERLAY_NUM_EPOCHS) = x mod 24) by (by apply Z.rem_mod_nonneg).
  rewrite Hidx. assert (0 ≤ x mod 24 < 24) by (apply Z.mod_pos_bound; lia).
  destruct (lookup_lt_is_Some_2 (ac_contributions e) (Z.to_nat (x mod 24))) as [c Hcx]; [lia|].
  rewrite Hcx, (list_lookup_total_correct _ _ _ Hcx).
  assert (0 ≤ c) by (rewrite Forall_lookup in Hc; by eapply Hc).
  rewrite !IH. fold rest. set (rs := sumZ (map _ (filter _ rest))).
  destruct (Z.eqb_spec c 0) as [->|Hnz].
  { f_equal. rewrite bucket_share_zero. lia. }
  f_equal. destruct (Z.leb_spec ws (x * OVERLAY_EPOCH_DURATION)) as [Hi|Hi].
  - rewrite bucket_share_inside by done. lia.
  - rewrite bucket_share_boundary by (try done; lia). lia.
Qed.

Lemma getAgentRolling24hUsd_reference e now :
  entry_ok e → 0 < now →
  getAgentRolling24hUsd e now = Ok (rolling_reference OVERLAY_EPOCH_DURATION (ring_buckets e) now).
Proof.
  intros He Hn. pose proof He as (Hl & _ & _). unfold getAgentRolling24hUsd, rolling_reference.
  rewrite (proj2 (Z.leb_gt now 0)) by done.
  rewrite Z.quot_div_nonneg by (unfold OVERLAY_EPOCH_DURATION; lia).
  unfold ring_buckets. rewrite map_map. cbn [fst snd].
  destruct (Z.ltb_spec (Z.of_nat OVERLAY_NUM_EPOCHS)
    (now / OVERLAY_EPOCH_DURATION - ac_lastWriteEpoch e)) as [Hx|Hx].
  - rewrite sumZ_zero; [done|]. intros x [_ Hin]%list_elem_of_filter.
    apply list_elem_of_fmap in Hin as (i & -> & _). apply bucket_share_outside; [done|].
    eapply (expired_outside _ (Z.of_nat OVERLAY_NUM_EPOCHS) now (ac_lastWriteEpoch e)); try done. lia.
  - rewrite agent_loop_reference by done. cbn [mbind result_bind]. by rewrite clamp_u64_min.
Qed.

(** The share of a bucket only shrinks as the window moves on. *)
Lemma bucket_share_antitone dur ws ws' cur cur' e amt :
  0 < dur → 0 ≤ amt → ws ≤ ws' → e ≤ cur → e ≤ cur' →
  bucket_share dur ws' cur' e amt ≤ bucket_share dur ws cur e amt.
Proof.
  intros Hd Ha Hw Hc Hc'. unfold bucket_share, overlap_seconds.
  rewrite (proj2 (Z.ltb_ge cur e)), (proj2 (Z.ltb_ge cur' e)) by done.
  apply Z.div_le_mono; [done|]. apply Z.mul_le_mono_nonneg_l; [done|]. lia.
Qed.

Lemma bucket_share_le dur ws cur e amt : 0 < dur → 0 ≤ amt → bucket_share dur ws cur e amt ≤ amt.
Proof.
  intros Hd Ha. unfold bucket_share, overlap_seconds. destruct (cur <? e); [done|].
  apply Z.div_le_upper_bound; [done|]. nia.
Qed.

Lemma sumZ_le {A} (f g : A → Z) l : (∀ x, x ∈ l → f x ≤ g x) → sumZ (map f l) ≤ sumZ (map g l).
Proof.
  induction l as [|x l IH]; intros H; [done|]. cbn [map].
  change (sumZ (?a :: ?b)) with (a + sumZ b).
  assert (f x ≤ g x) by (apply H; set_solver). assert (sumZ (map f l) ≤ sumZ (map g l)); [|lia].
  apply IH. set_solver.
Qed.

(** The vault's rolling 24-hour spend is, on every tracker the program
    writes and at every positive time, the clamped sum over all buckets of the
    amount in proportion to the bucket's overlap with the last 24 hours: the
    early exit, the skipped buckets and the boundary case lose nothing. *)
Theorem rolling_spend_is_reference t now :
  tracker_ok t → 0 < now →
  getRolling24hUsd t now = rolling_reference EPOCH_DURATION (vault_buckets t) now.
Proof. apply getRolling24hUsd_reference. Qed.

(** The agent's rolling spend is the same reference over the epochs its
    24-slot ring holds: the backward loop never reads outside the ring, and
    its breaks and early exit lose nothing. *)
Theorem agent_rolling_spend_is_reference e now :
  entry_ok e → 0 < now →
  getAgentRolling24hUsd e now = Ok (rolling_reference OVERLAY_EPOCH_DURATION (ring_buckets e) now).
Proof. apply getAgentRolling24hUsd_reference. Qed.

(** While nothing is written, the vault's rolling spend never increases with
    time, stays within u64, and never exceeds the sum of the recorded amounts:
    a wait can only restore budget. *)
Theorem rolling_spend_recovers t now now' :
  tracker_ok t → 0 < now ≤ now' → Forall (λ b, eb_epochId b ≤ now / EPOCH_DURATION) (st_buckets t) →
  0 ≤ getRolling24hUsd t now' ≤ getRolling24hUsd t now ∧
  getRolling24hUsd t now ≤ U64_MAX ∧
  getRolling24hUsd t now ≤ sumZ (map eb_usdAmount (st_buckets t)).
Proof.
  intros Ht Hn Hf. rewrite !getRolling24hUsd_reference by (done || lia).
  unfold rolling_reference, vault_buckets. rewrite !map_map. cbn [fst snd].
  destruct Ht as [_ Hb]. rewrite Forall_forall in Hb, Hf.
  assert (Hd : 0 < EPOCH_DURATION) by done.
  assert (Hws : window_start now ≤ window_start now').
  { unfold window_start, ROLLING_WINDOW_SECONDS.
    destruct (Z.ltb_spec 86400 now), (Z.ltb_spec 86400 now'); lia. }
  assert (Hcur : now / EPOCH_DURATION ≤ now' / EPOCH_DURATION) by (apply Z.div_le_mono; lia).
  split_and!; [| | |].
  - apply Z.min_glb; [done|]. apply sumZ_nonneg, Forall_map, Forall_forall. intros b Hin.
    apply bucket_share_nonneg; [done|]. by apply Hb.
  - apply Z.min_le_compat_l, sumZ_le. intros b Hin. specialize (Hb b Hin). specialize (Hf b Hin).
    apply bucket_share_antitone; lia.
  - apply Z.le_min_l.
  - etransitivity; [apply Z.le_min_r|]. apply sumZ_le. intros b Hin. apply bucket_share_le; [done|].
    by apply Hb.
Qed.

Definition demo_tracker : SpendTracker := {|
  st_buckets := [{| eb_epochId := 1000; eb_usdAmount := 600 |};
                 {| eb_epochId := 1001; eb_usdAmount := 50 |}];
  st_protocolCounters := []; st_lastWriteEpoch := 1001 |}.

Lemma demo_tracker_ok : tracker_ok demo_tracker.
Proof. split; [done|]. repeat constructor; simpl; lia. Qed.

Lemma rolling_spend_is_reference_witness :
  getRolling24hUsd demo_tracker (600 * 1000 + 86400 + 200) = 450 ∧
  getRolling24hUsd demo_tracker (600 * 1000 + 86400 + 200) =
    rolling_reference EPOCH_DURATION (vault_buckets demo_tracker) (600 * 1000 + 86400 + 200).
Proof.
  split; [vm_compute; reflexivity|].
  apply (rolling_spend_is_reference demo_tracker (600 * 1000 + 86400 + 200) demo_tracker_ok). lia.
Defined.

Definition demo_entry : AgentContributionEntry := {|
  ac_agent := []; ac_lastWriteEpoch := 100;
  ac_contributions := replicate 4 0 ++ [700] ++ replicate 18 0 ++ [36] |}.

Lemma agent_rolling_spend_is_reference_witness :
  getAgentRolling24hUsd demo_entry (3600 * 101) = Ok 736 ∧
  getAgentRolling24hUsd demo_entry (3600 * 101) =
    Ok (rolling_reference OVERLAY_EPOCH_DURATION (ring_buckets demo_entry) (3600 * 101)).
Proof.
  split; [vm_compute; reflexivity|].
  apply (agent_rolling_spend_is_reference demo_entry (3600 * 101)); [|lia].
  split_and!; [done|done|]. repeat constructor; lia.
Defined.

Lemma rolling_spend_recovers_witness :
  0 ≤ getRolling24hUsd demo_tracker 700000 ≤ getRolling24hUsd demo_tracker 601200.
Proof.
  apply (rolling_spend_recovers demo_tracker 601200 700000 demo_tracker_ok); [lia|].
  repeat constructor; vm_compute; discriminate.
Defined.

(** Every spent budget comes back.  Whatever a vault and its agents have
    spent, if nothing more is written then from some moment on both rolling
    windows are empty and the whole cap is available again; the moment is at
    most 25 hours after the last write. *)
Theorem budgets_always_recover (t : SpendTracker) (e : AgentContributionEntry) (limit : Z) :
  0 ≤ limit →
  ∃ T, T ≤ Z.max 1 (Z.max ((st_lastWriteEpoch t + 145) * EPOCH_DURATION)
                          ((ac_lastWriteEpoch e + 25) * OVERLAY_EPOCH_DURATION)) ∧
  ∀ now, T ≤ now →
    budget_of (getRolling24hUsd t now) limit = {| spent24h := 0; cap := limit; remaining := limit |} ∧
    getAgentRolling24hUsd e now = Ok 0.
Proof.
  intros Hl. eexists. split; [reflexivity|]. intros now Hn.
  assert (Hz : getRolling24hUsd t now = 0).
  { unfold getRolling24hUsd. destruct (Z.leb_spec now 0); [done|].
    unfold EPOCH_DURATION, OVERLAY_EPOCH_DURATION in *. rewrite Z.quot_div_nonneg by lia.
    assert (st_lastWriteEpoch t + 145 ≤ now / 600) by (apply Z.div_le_lower_bound; lia).
    rewrite (proj2 (Z.ltb_lt NUM_EPOCHS _)); [done|]. unfold NUM_EPOCHS. lia. }
  rewrite Hz. split.
  - unfold budget_of. destruct (Z.ltb_spec 0 limit); [by rewrite Z.sub_0_r|]. f_equal; lia.
  - unfold getAgentRolling24hUsd. destruct (Z.leb_spec now 0); [done|].
    unfold EPOCH_DURATION, OVERLAY_EPOCH_DURATION in *. rewrite Z.quot_div_nonneg by lia.
    assert (ac_lastWriteEpoch e + 25 ≤ now / 3600) by (apply Z.div_le_lower_bound; lia).
    rewrite (proj2 (Z.ltb_lt (Z.of_nat OVERLAY_NUM_EPOCHS) _)); [done|].
    unfold OVERLAY_NUM_EPOCHS. lia.
Qed.

Lemma budgets_always_recover_witness :
  getAgentRolling24hUsd demo_entry 500000 = Ok 0 ∧ getRolling24hUsd demo_tracker 700000 = 0 ∧
  ∃ T, ∀ now, T ≤ now → getAgentRolling24hUsd demo_entry now = Ok 0.
Proof.
  split; [vm_compute; reflexivity|]. split; [vm_compute; reflexivity|].
  destruct (budgets_always_recover demo_tracker demo_entry 1000) as (T & _ & HT); [lia|].
  exists T. intros now Hn. apply (HT now Hn).
Defined.

(** ** The two resolvers *)

Section Resolvers.
Context (encodeAddress : string → list Z).

Lemma agent_budgets_lookup ov ts agent agents acc acc' :
  agent_budgets encodeAddress ov ts agent agents acc = Ok acc' →
  acc.1 = acc.2 !! agent → acc'.1 = acc'.2 !! agent.
Proof.
  revert acc; induction agents as [|a agents IH]; intros acc; simpl.
  - by intros [= ->].
  - destruct (ae_spendingLimitUsd a <=? 0); [apply IH|].
    intros H Hacc. apply bind_Ok_inv in H as (b & _ & H). eapply IH; [exact H|]. simpl.
    case_bool_decide as Ha; [by rewrite Ha, lookup_insert_eq|by rewrite lookup_insert_ne].
Qed.

Lemma agent_budgets_skip ov ts agent agents acc acc' :
  agent_budgets encodeAddress ov ts agent agents acc = Ok acc' →
  agent ∉ map ae_pubkey agents → acc'.1 = acc.1.
Proof.
  revert acc; induction agents as [|a agents IH]; intros acc; simpl.
  - by intros [= ->].
  - intros H Hn. apply not_elem_of_cons in Hn as [Hne Hn].
    destruct (ae_spendingLimitUsd a <=? 0); [by eapply IH|].
    apply bind_Ok_inv in H as (b & _ & H). apply IH in H; [|done]. simpl in H.
    by rewrite bool_decide_false in H.
Qed.

Lemma agent_budgets_find ov ts agent agents acc acc' :
  agent_budgets encodeAddress ov ts agent agents acc = Ok acc' →
  NoDup (map ae_pubkey agents) → acc.1 = None →
  (b ← match list_find (λ a, ae_pubkey a = agent) agents with
       | Some (_, entry) =>
           if 0 <? ae_spendingLimitUsd entry
           then b ← agent_budget encodeAddress ov ts agent (ae_spendingLimitUsd entry);
                Ok (Some b)
           else Ok None
       | None => Ok None
       end; Ok b) = Ok acc'.1.
Proof.
  revert acc; induction agents as [|a agents IH]; intros acc; simpl.
  - by intros [= ->] _ ->.
  - intros H Hnd Hacc. apply NoDup_cons in Hnd as [Hn Hnd].
    destruct (decide (ae_pubkey a = agent)) as [Ha|Ha].
    + subst agent. destruct (Z.leb_spec (ae_spendingLimitUsd a) 0) as [Hl|Hl].
      * rewrite (proj2 (Z.ltb_ge 0 _)) by done. simpl.
        apply agent_budgets_skip in H; [|done]. congruence.
      * rewrite (proj2 (Z.ltb_lt 0 _)) by done. apply bind_Ok_inv in H as (b & Hb & H).
        rewrite Hb. simpl. apply agent_budgets_skip in H; [|done]. simpl in H.
        rewrite bool_decide_true in H by done. congruence.
    + destruct (ae_spendingLimitUsd a <=? 0).
      * specialize (IH acc H Hnd Hacc). by destruct (list_find _ agents) as [[? ?]|].
      * apply bind_Ok_inv in H as (b & _ & H).
        specialize (IH _ H Hnd). simpl in IH. rewrite bool_decide_false in IH by done.
        specialize (IH Hacc). by destruct (list_find _ agents) as [[? ?]|].
Qed.

(** The cheap budget resolver is equivalent to the full one: whenever the
    full resolution succeeds on a vault with distinct agents, it returns the
    same global budget and the same agent budget, which is also the agent's
    entry in the map of all agent budgets. *)
Theorem budget_resolvers_agree vault policy tracker overlay usdc usdt agent ts rs :
  resolveVaultState encodeAddress vault policy tracker overlay usdc usdt agent ts = Ok rs →
  NoDup (map ae_pubkey (av_agents (rs_vault rs))) →
  resolveVaultBudget encodeAddress vault policy tracker overlay agent ts =
    Ok (rs_globalBudget rs, rs_agentBudget rs) ∧
  rs_agentBudget rs = rs_allAgentBudgets rs !! agent.
Proof.
  unfold resolveVaultState, resolveVaultBudget.
  destruct vault as [vault|]; [|done]. destruct policy as [policy|]; [|done].
  intros H Hnd. apply bind_Ok_inv in H as ([ab all] & Hab & H). injection H as <-.
  simpl in *. split.
  - pose proof (agent_budgets_find _ _ _ _ _ _ Hab Hnd eq_refl) as Hf. simpl in Hf.
    apply bind_Ok_inv in Hf as (b & Hb & Hf). injection Hf as ->. by rewrite Hb.
  - exact (agent_budgets_lookup _ _ _ _ _ _ Hab eq_refl).
Qed.
End Resolvers.

Definition demo_vault : AgentVault :=
  {| av_agents := [{| ae_pubkey := "A"; ae_spendingLimitUsd := 0; ae_capability := 1; ae_paused := false |};
                   {| ae_pubkey := "B"; ae_spendingLimitUsd := 500; ae_capability := 2; ae_paused := false |}];
     av_status := Active; av_feeDestination := "F"; av_owner := ""; av_totalVolume := 0;
    av_totalFeesCollected := 0; av_observeOnly := false; av_totalDepositedUsd := 0;
    av_totalWithdrawnUsd := 0; av_totalTransactions := 0; av_createdAt := 0 |}.
Definition demo_policy : PolicyConfig := {|
  pol_dailySpendingCapUsd := 1000; pol_maxTransactionSizeUsd := 100; pol_hasProtocolCaps := false;
  pol_protocols := []; pol_protocolCaps := []; pol_protocolMode := 0; pol_protocolHashes := [];
  pol_developerFeeRate := 0; pol_stableBalanceFloor := 0; pol_policyVersion := 1;
  pol_destinationMode := 0; pol_allowedDestinations := []; pol_timelockDuration := 3600; pol_maxSlippageBps := 100;
    pol_sessionExpirySeconds := 60; pol_cosignRequired := false; pol_cosignSessionPubkey := "";
    pol_perRecipientDailyCapUsd := 0; pol_operatorGrantDelaySeconds := 0;
    pol_destinationGraylist := [] |}.

Lemma budget_resolvers_agree_witness :
  resolveVaultBudget (λ _, []) (Some demo_vault) (Some demo_policy) (Some demo_tracker)
    None "B" (600 * 1001) =
  Ok (budget_of 650 1000, Some (budget_of 0 500)).
Proof.
  eapply (budget_resolvers_agree (λ _, []) (Some demo_vault) (Some demo_policy)
    (Some demo_tracker) None None None "B" (600 * 1001)
    {| rs_vault := demo_vault; rs_policy := demo_policy; rs_tracker := Some demo_tracker;
       rs_overlay := None; rs_globalBudget := budget_of 650 1000;
       rs_agentBudget := Some (budget_of 0 500);
       rs_allAgentBudgets := {["B" := budget_of 0 500]}; rs_protocolBudgets := [];
       rs_maxTransactionUsd := 100; rs_usdc := 0; rs_usdt := 0;
       rs_resolvedAtTimestamp := 600 * 1001 |}); [vm_compute; reflexivity|].
  apply (bool_decide_unpack _). vm_compute. exact I.
Defined.

Lemma history_fold (f : EpochBucket → SpendingEpoch) (P : EpochBucket → bool) bs acc step :
  (∀ acc b, step acc b = if P b then acc ++ [f b] else acc) →
  foldl step acc bs = acc ++ map f (filter (λ b, P b) bs).
Proof.
  intros Hs; revert acc; induction bs as [|b bs IH]; intros acc; simpl.
  - by rewrite app_nil_r.
  - rewrite IH, Hs, filter_cons. destruct (P b); simpl; [by rewrite <- app_assoc|done].
Qed.

(** The spending history lists exactly the non-empty buckets of the last 144
    epochs and the current one, each once, in chronological order. *)
Theorem spending_history_complete t now :
  0 < now → now / EPOCH_DURATION - st_lastWriteEpoch t ≤ NUM_EPOCHS →
  js_sorted before (getSpendingHistory (Some t) now) ∧
  getSpendingHistory (Some t) now ≡ₚ
    map (λ b, {| sp_epochId := eb_epochId b; sp_timestamp := eb_epochId b * EPOCH_DURATION;
                 sp_usdAmount := eb_usdAmount b |})
      (filter (λ b, eb_usdAmount b ≠ 0 ∧
         now / EPOCH_DURATION - NUM_EPOCHS ≤ eb_epochId b ≤ now / EPOCH_DURATION) (st_buckets t)).
Proof.
  intros Hn Hl. unfold getSpendingHistory. rewrite (proj2 (Z.leb_gt now 0)) by done.
  rewrite Z.quot_div_nonneg by (unfold EPOCH_DURATION; lia).
  rewrite (proj2 (Z.ltb_ge NUM_EPOCHS _)) by done. split.
  - apply js_sort_sorted; unfold before; intros; lia.
  - rewrite js_sort_perm. rewrite (history_fold (λ b, {| sp_epochId := eb_epochId b;
      sp_timestamp := eb_epochId b * EPOCH_DURATION; sp_usdAmount := eb_usdAmount b |})
      (λ b, negb (eb_usdAmount b =? 0) && negb (eb_epochId b <? now / EPOCH_DURATION - NUM_EPOCHS) &&
            negb (now / EPOCH_DURATION <? eb_epochId b))); cycle 1.
    { intros acc b. destruct (eb_usdAmount b =? 0), (eb_epochId b <? _), (_ <? eb_epochId b); done. }
    simpl. f_equiv. apply Permutation_refl'. apply list_filter_iff. intros b.
    rewrite Is_true_true. lia.
Qed.

Lemma spending_history_complete_witness :
  js_sorted before (getSpendingHistory (Some demo_tracker) 601200) ∧
  length (getSpendingHistory (Some demo_tracker) 601200) = 2%nat.
Proof.
  split; [|vm_compute; reflexivity].
  apply (spending_history_complete demo_tracker 601200); vm_compute; [done|discriminate].
Defined.
