(* ===== verification/Inspector.v ===== *)
(** * The instruction inspector ([sdk/kit/src/inspector.ts])

    Analysis of a list of instructions: the distinct programs, the SPL-token
    transfers, the outgoing value and the dangerous token operations.  An
    address may be [undefined] (here [None]) when a compiled transaction
    refers past its account table.

    The theorems: the analysis finds every well-formed transfer with exactly
    its encoded amount, the estimated value is the sum of the outgoing
    transfers, the programs are listed once each, and no instruction hides
    another one. *)

From S2P Require Import Prelude SdkTypes.

Local Open Scope Z_scope.

Definition SPL_TRANSFER_DISCRIMINATOR : Z := 3.
Definition SPL_APPROVE_DISCRIMINATOR : Z := 4.
Definition SPL_REVOKE_DISCRIMINATOR : Z := 5.
Definition SPL_SET_AUTHORITY_DISCRIMINATOR : Z := 6.
Definition SPL_CLOSE_ACCOUNT_DISCRIMINATOR : Z := 9.
Definition SPL_TRANSFER_CHECKED_DISCRIMINATOR : Z := 12.
Definition SPL_APPROVE_CHECKED_DISCRIMINATOR : Z := 13.

Abbreviation address := (option string).

Record InspectableInstruction : Type := {
  ii_programAddress : address;
  ii_accounts : option (list address);
  ii_data : option (list Z);
}.

(** [mint: Address | null]: [None] is the [null] of a plain transfer. *)
Record TokenTransferInfo : Type := {
  ti_mint : option address;
  ti_amount : Z;
  ti_source : address;
  ti_destination : address;
  ti_authority : address;
}.

Inductive danger : Type := approve | setAuthority | closeAccount | revoke.

Record DangerousTokenOperation : Type := { do_type : danger; do_account : address }.

Record InstructionAnalysis : Type := {
  ia_programIds : list address;
  ia_tokenTransfers : list TokenTransferInfo;
  ia_estimatedValue : Z;
  ia_dangerousOperations : list DangerousTokenOperation;
}.

(** [view.getBigUint64(offset, true)]; the callers have checked the length. *)
Definition readU64LE (data : list Z) (offset : nat) : Z := le_value (take 8 (drop offset data)).

(** [set.add(x)] on a set that remembers insertion order. *)
Definition set_add (x : address) (s : list address) : list address :=
  if bool_decide (x ∈ s) then s else s ++ [x].

Definition is_token_program (p : address) : bool :=
  bool_decide (p = Some TOKEN_PROGRAM_ADDRESS) || bool_decide (p = Some TOKEN_2022_PROGRAM_ADDRESS).

Definition push_transfer (signer : string) (t : TokenTransferInfo) (a : InstructionAnalysis)
    : InstructionAnalysis := {|
  ia_programIds := ia_programIds a;
  ia_tokenTransfers := ia_tokenTransfers a ++ [t];
  ia_estimatedValue :=
    if bool_decide (ti_authority t = Some signer) then ia_estimatedValue a + ti_amount t
    else ia_estimatedValue a;
  ia_dangerousOperations := ia_dangerousOperations a |}.

Definition push_danger (d : danger) (accounts : list address) (a : InstructionAnalysis)
    : InstructionAnalysis :=
  match accounts with
  | [] => a
  | acc :: _ => {|
      ia_programIds := ia_programIds a; ia_tokenTransfers := ia_tokenTransfers a;
      ia_estimatedValue := ia_estimatedValue a;
      ia_dangerousOperations :=
        ia_dangerousOperations a ++ [{| do_type := d; do_account := acc |}] |}
  end.

(** The second half of the loop body: approve, setAuthority, close, revoke. *)
Definition detect_danger (discriminator : Z) (accounts : list address) (a : InstructionAnalysis)
    : InstructionAnalysis :=
  if (discriminator =? SPL_APPROVE_DISCRIMINATOR) || (discriminator =? SPL_APPROVE_CHECKED_DISCRIMINATOR)
  then push_danger approve accounts a
  else if discriminator =? SPL_SET_AUTHORITY_DISCRIMINATOR then push_danger setAuthority accounts a
  else if discriminator =? SPL_CLOSE_ACCOUNT_DISCRIMINATOR then push_danger closeAccount accounts a
  else if discriminator =? SPL_REVOKE_DISCRIMINATOR then push_danger revoke accounts a
  else a.

(** One turn of the loop; a [continue] returns the analysis so far. *)
Definition analyze_ix (signer : string) (a : InstructionAnalysis) (ix : InspectableInstruction)
    : InstructionAnalysis :=
  let a := {| ia_programIds := set_add (ii_programAddress ix) (ia_programIds a);
              ia_tokenTransfers := ia_tokenTransfers a; ia_estimatedValue := ia_estimatedValue a;
              ia_dangerousOperations := ia_dangerousOperations a |} in
  if negb (is_token_program (ii_programAddress ix)) then a else
  match ii_data ix with
  | None | Some [] => a
  | Some ((discriminator :: _) as data) =>
      let accounts := default [] (ii_accounts ix) in
      if discriminator =? SPL_TRANSFER_DISCRIMINATOR then
        match accounts with
        | source :: destination :: authority :: _ =>
            if bool_decide (length data < 9)%nat then a else
            detect_danger discriminator accounts
              (push_transfer signer {| ti_mint := None; ti_amount := readU64LE data 1;
                 ti_source := source; ti_destination := destination; ti_authority := authority |} a)
        | _ => a
        end
      else if discriminator =? SPL_TRANSFER_CHECKED_DISCRIMINATOR then
        match accounts with
        | source :: mint :: destination :: authority :: _ =>
            if bool_decide (length data < 10)%nat then a else
            detect_danger discriminator accounts
              (push_transfer signer {| ti_mint := Some mint; ti_amount := readU64LE data 1;
                 ti_source := source; ti_destination := destination; ti_authority := authority |} a)
        | _ => a
        end
      else detect_danger discriminator accounts a
  end.

Definition empty_analysis : InstructionAnalysis := {|
  ia_programIds := []; ia_tokenTransfers := []; ia_estimatedValue := 0;
  ia_dangerousOperations := [] |}.

Definition analyzeInstructions (instructions : list InspectableInstruction) (signer : string)
    : InstructionAnalysis :=
  foldl (analyze_ix signer) empty_analysis instructions.

(** ** What one instruction contributes *)

(** The transfer an instruction makes, if it is one. *)
Definition transfer_of (ix : InspectableInstruction) : option TokenTransferInfo :=
  if negb (is_token_program (ii_programAddress ix)) then None else
  let accounts := default [] (ii_accounts ix) in
  match ii_data ix with
  | Some ((d :: _) as data) =>
      if d =? SPL_TRANSFER_DISCRIMINATOR then
        match accounts with
        | s :: dst :: auth :: _ =>
            if bool_decide (length data < 9)%nat then None
            else Some {| ti_mint := None; ti_amount := readU64LE data 1; ti_source := s;
                         ti_destination := dst; ti_authority := auth |}
        | _ => None
        end
      else if d =? SPL_TRANSFER_CHECKED_DISCRIMINATOR then
        match accounts with
        | s :: m :: dst :: auth :: _ =>
            if bool_decide (length data < 10)%nat then None
            else Some {| ti_mint := Some m; ti_amount := readU64LE data 1; ti_source := s;
                         ti_destination := dst; ti_authority := auth |}
        | _ => None
        end
      else None
  | _ => None
  end.

Definition outgoing_amount (signer : string) (t : TokenTransferInfo) : Z :=
  if bool_decide (ti_authority t = Some signer) then ti_amount t else 0.

Lemma push_danger_keeps d acc a :
  ia_programIds (push_danger d acc a) = ia_programIds a ∧
  ia_tokenTransfers (push_danger d acc a) = ia_tokenTransfers a ∧
  ia_estimatedValue (push_danger d acc a) = ia_estimatedValue a.
Proof. by destruct acc. Qed.

Lemma detect_danger_keeps d acc a :
  ia_programIds (detect_danger d acc a) = ia_programIds a ∧
  ia_tokenTransfers (detect_danger d acc a) = ia_tokenTransfers a ∧
  ia_estimatedValue (detect_danger d acc a) = ia_estimatedValue a.
Proof. unfold detect_danger. split_if; try apply push_danger_keeps; done. Qed.

Ltac use_keeps :=
  match goal with |- context [detect_danger ?d ?acc ?x] =>
    destruct (detect_danger_keeps d acc x) as (-> & -> & ->) end.

Lemma analyze_ix_spec signer a ix :
  ia_programIds (analyze_ix signer a ix) = set_add (ii_programAddress ix) (ia_programIds a) ∧
  ia_tokenTransfers (analyze_ix signer a ix) =
    ia_tokenTransfers a ++ match transfer_of ix with Some t => [t] | None => [] end ∧
  ia_estimatedValue (analyze_ix signer a ix) =
    ia_estimatedValue a + match transfer_of ix with Some t => outgoing_amount signer t | None => 0 end.
Proof.
  unfold analyze_ix, transfer_of, outgoing_amount.
  destruct (negb (is_token_program (ii_programAddress ix))); [simpl; rewrite app_nil_r; auto with lia|].
  destruct (ii_data ix) as [[|d data]|]; [simpl; rewrite app_nil_r; auto with lia| |
    simpl; rewrite app_nil_r; auto with lia].
  destruct (d =? SPL_TRANSFER_DISCRIMINATOR).
  - destruct (default [] (ii_accounts ix)) as [|s [|dst [|auth accs]]];
      try (simpl; rewrite app_nil_r; auto with lia).
    case_bool_decide; [simpl; rewrite app_nil_r; auto with lia|].
    use_keeps.
    simpl. case_bool_decide; auto with lia.
  - destruct (d =? SPL_TRANSFER_CHECKED_DISCRIMINATOR).
    + destruct (default [] (ii_accounts ix)) as [|s [|m [|dst [|auth accs]]]];
        try (simpl; rewrite app_nil_r; auto with lia).
      case_bool_decide; [simpl; rewrite app_nil_r; auto with lia|].
      use_keeps.
      simpl. case_bool_decide; auto with lia.
    + use_keeps.
      simpl. rewrite app_nil_r. auto with lia.
Qed.

Lemma set_add_spec x s : (∀ y, y ∈ set_add x s ↔ y = x ∨ y ∈ s) ∧ (NoDup s → NoDup (set_add x s)).
Proof.
  unfold set_add. case_bool_decide.
  - split; [set_solver|done].
  - split; [intros y; rewrite elem_of_app, list_elem_of_singleton; tauto|].
    intros Hs. apply NoDup_app. split_and!; [done| |apply NoDup_singleton]. set_solver.
Qed.

Lemma analyzeInstructions_spec ixs signer :
  let a := analyzeInstructions ixs signer in
  ia_tokenTransfers a = omap transfer_of ixs ∧
  ia_estimatedValue a = sumZ (map (outgoing_amount signer) (omap transfer_of ixs)) ∧
  NoDup (ia_programIds a) ∧
  (∀ p, p ∈ ia_programIds a ↔ ∃ ix, ix ∈ ixs ∧ ii_programAddress ix = p).
Proof.
  unfold analyzeInstructions. enough (Hg : ∀ acc,
    let a := foldl (analyze_ix signer) acc ixs in
    ia_tokenTransfers a = ia_tokenTransfers acc ++ omap transfer_of ixs ∧
    ia_estimatedValue a = ia_estimatedValue acc + sumZ (map (outgoing_amount signer) (omap transfer_of ixs)) ∧
    (NoDup (ia_programIds acc) → NoDup (ia_programIds a)) ∧
    (∀ p, p ∈ ia_programIds a ↔ p ∈ ia_programIds acc ∨ ∃ ix, ix ∈ ixs ∧ ii_programAddress ix = p)).
  { destruct (Hg empty_analysis) as (H1 & H2 & H3 & H4). split_and!; [done|done| |].
    - apply H3. constructor.
    - intros p. rewrite H4. set_solver. }
  induction ixs as [|ix ixs IH]; intros acc; cbn [foldl].
  - split_and!; [by rewrite app_nil_r|unfold sumZ; simpl; lia|done|]. set_solver.
  - destruct (IH (analyze_ix signer acc ix)) as (H1 & H2 & H3 & H4).
    destruct (analyze_ix_spec signer acc ix) as (E1 & E2 & E3).
    destruct (set_add_spec (ii_programAddress ix) (ia_programIds acc)) as [S1 S2].
    rewrite E1 in H3, H4. split_and!.
    + rewrite H1, E2, <- app_assoc. simpl. by destruct (transfer_of ix).
    + rewrite H2, E3. change (omap transfer_of (ix :: ixs)) with
        (match transfer_of ix with Some t => t :: omap transfer_of ixs | None => omap transfer_of ixs end).
      destruct (transfer_of ix); [|lia]. cbn [map]. change (sumZ (?x :: ?l)) with (x + sumZ l). lia.
    + auto.
    + intros p. rewrite H4, S1. set_solver.
Qed.

(** ** Properties *)

(** The two transfer instructions as the token program encodes them. *)
Definition transfer_ix (prog : string) (amount : Z) (src dst auth : string) (rest : list address)
    : InspectableInstruction := {|
  ii_programAddress := Some prog; ii_accounts := Some (Some src :: Some dst :: Some auth :: rest);
  ii_data := Some (3 :: le_bytes 8 amount) |}.

Definition transfer_checked_ix (prog : string) (amount dec : Z) (src mint dst auth : string)
    (rest : list address) : InspectableInstruction := {|
  ii_programAddress := Some prog;
  ii_accounts := Some (Some src :: Some mint :: Some dst :: Some auth :: rest);
  ii_data := Some (12 :: le_bytes 8 amount ++ [dec]) |}.

Lemma readU64LE_encoded d amount rest :
  fits 64 amount → readU64LE (d :: le_bytes 8 amount ++ rest) 1 = amount.
Proof.
  intros Hf. unfold readU64LE. cbn [drop]. rewrite drop_0.
  rewrite take_app_length' by (by rewrite length_le_bytes).
  rewrite le_value_le_bytes. by apply Z.mod_small.
Qed.

Lemma transfer_of_encoded prog amount dec src mint dst auth rest :
  prog = TOKEN_PROGRAM_ADDRESS ∨ prog = TOKEN_2022_PROGRAM_ADDRESS → fits 64 amount →
  transfer_of (transfer_ix prog amount src dst auth rest) =
    Some {| ti_mint := None; ti_amount := amount; ti_source := Some src;
            ti_destination := Some dst; ti_authority := Some auth |} ∧
  transfer_of (transfer_checked_ix prog amount dec src mint dst auth rest) =
    Some {| ti_mint := Some (Some mint); ti_amount := amount; ti_source := Some src;
            ti_destination := Some dst; ti_authority := Some auth |}.
Proof.
  intros Hp Hf. assert (Ht : is_token_program (Some prog) = true).
  { unfold is_token_program. destruct Hp as [->| ->]; [|rewrite orb_true_r]; done. }
  unfold transfer_of. cbn [transfer_ix transfer_checked_ix ii_programAddress ii_data ii_accounts].
  rewrite Ht. cbn [negb default]. change (3 =? SPL_TRANSFER_DISCRIMINATOR) with true.
  change (12 =? SPL_TRANSFER_DISCRIMINATOR) with false.
  change (12 =? SPL_TRANSFER_CHECKED_DISCRIMINATOR) with true. unfold id. cbv iota.
  pose proof (readU64LE_encoded 3 amount [] Hf) as H3. rewrite app_nil_r in H3. rewrite H3.
  rewrite (readU64LE_encoded 12 amount [dec] Hf).
  rewrite !bool_decide_false; [done|..]; cbn [length]; rewrite ?length_app, length_le_bytes; simpl; lia.
Qed.

(** What the analysis of [pre], an instruction with transfer [t] and [post] is. *)
Lemma analysis_with_transfer pre ix post signer t :
  transfer_of ix = Some t →
  ia_tokenTransfers (analyzeInstructions (pre ++ ix :: post) signer) =
    ia_tokenTransfers (analyzeInstructions pre signer) ++ t ::
    ia_tokenTransfers (analyzeInstructions post signer) ∧
  ia_estimatedValue (analyzeInstructions (pre ++ ix :: post) signer) =
    ia_estimatedValue (analyzeInstructions pre signer) + outgoing_amount signer t +
    ia_estimatedValue (analyzeInstructions post signer).
Proof.
  intros Ht. destruct (analyzeInstructions_spec (pre ++ ix :: post) signer) as (H1 & H2 & _).
  destruct (analyzeInstructions_spec pre signer) as (P1 & P2 & _).
  destruct (analyzeInstructions_spec post signer) as (Q1 & Q2 & _).
  assert (omap transfer_of (pre ++ ix :: post) =
    omap transfer_of pre ++ t :: omap transfer_of post) as Ho
    by (rewrite omap_app; cbn [omap list_omap]; by rewrite Ht).
  rewrite H1, H2, P1, P2, Q1, Q2, Ho. split; [done|].
  rewrite map_app, sumZ_app. cbn [map]. change (sumZ (?x :: ?l)) with (x + sumZ l). lia.
Qed.

(** Round trip with the token program's encoding: wherever an encoded
    Transfer or TransferChecked of a u64 amount stands in a transaction, on
    either token program, the analysis reports it at its place with exactly
    its amount, accounts and authority, and counts it as outgoing value when
    the signer is its authority. *)
Theorem inspector_reads_transfers prog amount dec src mint dst auth rest pre post signer :
  prog = TOKEN_PROGRAM_ADDRESS ∨ prog = TOKEN_2022_PROGRAM_ADDRESS → fits 64 amount →
  let around ix := analyzeInstructions (pre ++ ix :: post) signer in
  let before := analyzeInstructions pre signer in
  let after := analyzeInstructions post signer in
  let plain := {| ti_mint := None; ti_amount := amount; ti_source := Some src;
                  ti_destination := Some dst; ti_authority := Some auth |} in
  let checked := {| ti_mint := Some (Some mint); ti_amount := amount; ti_source := Some src;
                    ti_destination := Some dst; ti_authority := Some auth |} in
  ia_tokenTransfers (around (transfer_ix prog amount src dst auth rest)) =
    ia_tokenTransfers before ++ plain :: ia_tokenTransfers after ∧
  ia_tokenTransfers (around (transfer_checked_ix prog amount dec src mint dst auth rest)) =
    ia_tokenTransfers before ++ checked :: ia_tokenTransfers after ∧
  ia_estimatedValue (around (transfer_ix prog amount src dst auth rest)) =
    ia_estimatedValue before + outgoing_amount signer plain + ia_estimatedValue after.
Proof.
  intros Hp Hf. cbv zeta.
  destruct (transfer_of_encoded prog amount dec src mint dst auth rest Hp Hf) as [H3 H12].
  destruct (analysis_with_transfer pre _ post signer _ H3) as [T3 V3].
  destruct (analysis_with_transfer pre _ post signer _ H12) as [T12 _]. done.
Qed.

Lemma inspector_reads_transfers_witness :
  ia_tokenTransfers (analyzeInstructions [transfer_ix TOKEN_PROGRAM_ADDRESS 1000 "s" "d" "a" []] "a") =
    [{| ti_mint := None; ti_amount := 1000; ti_source := Some "s";
        ti_destination := Some "d"; ti_authority := Some "a" |}].
Proof.
  apply (inspector_reads_transfers TOKEN_PROGRAM_ADDRESS 1000 6 "s" "m" "d" "a" [] [] [] "a").
  - by left.
  - by vm_compute.
Defined.

(** On every instruction list, the analysis reports the transfer of each
    instruction that makes one, in order and nothing else; the estimated value
    is the sum of the amounts the signer authorises; and the program list has
    exactly the programs of the instructions, without repetition. *)
Theorem inspector_is_complete ixs signer :
  let a := analyzeInstructions ixs signer in
  ia_tokenTransfers a = omap transfer_of ixs ∧
  ia_estimatedValue a = sumZ (map (outgoing_amount signer) (omap transfer_of ixs)) ∧
  NoDup (ia_programIds a) ∧
  (∀ p, p ∈ ia_programIds a ↔ ∃ ix, ix ∈ ixs ∧ ii_programAddress ix = p).
Proof. apply analyzeInstructions_spec. Qed.
