(* ===== verification/Shield.v ===== *)
(** * The shield ([sdk/kit/src/shield.ts], [sdk/kit/src/policies.ts])

    The in-memory state of the client-side policy layer, the evaluation of
    instructions, the shield context ([check], [enforce], [pause], [resume],
    [updatePolicies], [resetState], [getSpendingSummary], [sync]) and the
    five-property signing gate.  A violation keeps its rule and the values in
    it; messages, log warnings and user callbacks other than [customCheck] are
    not modelled.

    Every reading of [Date.now()] is an argument: [clock i] is the reading
    when limit [i] is checked; a recorded entry takes three, the one it is
    stamped with and the two that [prune] may make. *)

From Stdlib Require String.
From S2P Require Import Prelude JsText Registry CorePolicies SpendLog SdkTypes StateResolver Inspector.

Local Open Scope Z_scope.

Module Shield.

(** ** State *)

Record ShieldState : Type := {
  spendEntries : list SpendEntry;
  txEntries : list Z;
  resolvedState : option ResolvedVaultState;
  localUsdAdditions : Z;
  network : option string;
  enforceUsed : bool;
}.

Definition new_state : ShieldState := {|
  spendEntries := []; txEntries := []; resolvedState := None; localUsdAdditions := 0;
  network := None; enforceUsed := false |}.

Definition with_logs (st : ShieldState) (spends : list SpendEntry) (txs : list Z) : ShieldState := {|
  spendEntries := spends; txEntries := txs; resolvedState := resolvedState st;
  localUsdAdditions := localUsdAdditions st; network := network st; enforceUsed := enforceUsed st |}.

Definition getSpendInWindow (now : Z) (mint : string) (windowMs : Z) (st : ShieldState) : Z :=
  let cutoff := now - windowMs in
  foldl (λ sum e, sum + se_amount e) 0
    (filter (λ e, se_mint e = mint ∧ cutoff ≤ se_timestamp e) (spendEntries st)).

Definition getTotalSpendInWindow (now : Z) (windowMs : Z) (st : ShieldState) : Z :=
  let cutoff := now - windowMs in
  foldl (λ sum e, sum + se_amount e) 0 (filter (λ e, cutoff ≤ se_timestamp e) (spendEntries st)).

Definition getTransactionCountInWindow (now : Z) (windowMs : Z) (st : ShieldState) : Z :=
  let cutoff := now - windowMs in
  Z.of_nat (length (filter (λ t, cutoff ≤ t) (txEntries st))).

Definition PRUNE_THRESHOLD : nat := 10000.

(** [now1] and [now2] are the readings of the two branches. *)
Definition prune (now1 now2 : Z) (st : ShieldState) : ShieldState :=
  with_logs st
    (if bool_decide (PRUNE_THRESHOLD < length (spendEntries st))%nat
     then filter (λ e, now1 - 86400000 ≤ se_timestamp e) (spendEntries st) else spendEntries st)
    (if bool_decide (PRUNE_THRESHOLD < length (txEntries st))%nat
     then filter (λ t, now2 - 86400000 ≤ t) (txEntries st) else txEntries st).

(** The readings one recording makes. *)
Record readings : Type := { at_push : Z; at_prune1 : Z; at_prune2 : Z }.

Definition recordSpend (r : readings) (mint : string) (amount : Z) (st : ShieldState) : ShieldState :=
  prune (at_prune1 r) (at_prune2 r)
    (with_logs st (spendEntries st ++
       [{| se_mint := mint; se_amount := amount; se_timestamp := at_push r |}]) (txEntries st)).

Definition recordTransaction (r : readings) (st : ShieldState) : ShieldState :=
  prune (at_prune1 r) (at_prune2 r) (with_logs st (spendEntries st) (txEntries st ++ [at_push r])).

Definition syncFromOnChain (state : ResolvedVaultState) (net : option string) (st : ShieldState)
    : ShieldState := {|
  spendEntries := spendEntries st; txEntries := txEntries st; resolvedState := Some state;
  localUsdAdditions := 0;
  network := match net with Some n => Some n | None => network st end;
  enforceUsed := enforceUsed st |}.

Definition recordUsdSpend (amount : Z) (st : ShieldState) : ShieldState := {|
  spendEntries := spendEntries st; txEntries := txEntries st; resolvedState := resolvedState st;
  localUsdAdditions := localUsdAdditions st + amount; network := network st;
  enforceUsed := enforceUsed st |}.

Definition getEffectiveGlobalSpent24h (st : ShieldState) : Z :=
  match resolvedState st with
  | None => localUsdAdditions st
  | Some rs => spent24h (rs_globalBudget rs) + localUsdAdditions st
  end.

Definition getEffectiveGlobalRemaining (st : ShieldState) : option Z :=
  match resolvedState st with
  | None => None
  | Some rs =>
      let cap_ := cap (rs_globalBudget rs) in
      let spent := getEffectiveGlobalSpent24h st in
      Some (if spent <? cap_ then cap_ - spent else 0)
  end.

Definition getEffectiveAgentSpent24h (st : ShieldState) : option Z :=
  rs ← resolvedState st; b ← rs_agentBudget rs; Some (spent24h b + localUsdAdditions st).

Definition getEffectiveAgentRemaining (st : ShieldState) : option Z :=
  rs ← resolvedState st; b ← rs_agentBudget rs;
  let spent := spent24h b + localUsdAdditions st in
  Some (if spent <? cap b then cap b - spent else 0).

Definition markEnforceUsed (st : ShieldState) : ShieldState := {|
  spendEntries := spendEntries st; txEntries := txEntries st; resolvedState := resolvedState st;
  localUsdAdditions := localUsdAdditions st; network := network st; enforceUsed := true |}.

(** A checkpoint copies both arrays, and so does a rollback: it is a value. *)
Definition checkpoint (st : ShieldState) : ShieldState := st.
Definition rollback (cp st : ShieldState) : ShieldState := {|
  spendEntries := spendEntries cp; txEntries := txEntries cp; resolvedState := resolvedState cp;
  localUsdAdditions := localUsdAdditions cp; network := network cp; enforceUsed := enforceUsed cp |}.

Definition reset (st : ShieldState) : ShieldState := new_state.

(** ** Policies ([policies.ts]) *)

(** What [customCheck] is given of a transfer. *)
Record CustomTransfer : Type := {
  ct_mint : string; ct_amount : Z; ct_direction : direction; ct_destination : address }.
Abbreviation custom_check := (list address → list CustomTransfer → Z → bool).

Record KitPolicies : Type := { kp_core : ShieldPolicies; kp_customCheck : option custom_check }.
Record KitResolved : Type := { kr_core : ResolvedPolicies; kr_customCheck : option custom_check }.

Definition is_string_spec (l : limit_spec) : bool :=
  match l with LimitString _ => true | LimitObject _ => false end.

Definition convertSpendLimits (input : max_spend) : result config_error max_spend :=
  match input with
  | OneLimit l => Ok (OneLimit l)
  | LimitArray ls =>
      if forallb is_string_spec ls then Ok (LimitArray ls)
      else ls ← mapM (λ l, match l with
                           | LimitString s => l ← parseSpendLimit s; Ok (LimitObject l)
                           | LimitObject l => Ok (LimitObject l)
                           end) ls;
           Ok (LimitArray ls)
  end.

Definition resolveKitPolicies (input : option KitPolicies) : result config_error KitResolved :=
  core ← match input with
         | None => Ok None
         | Some input =>
             ms ← match maxSpend (kp_core input) with
                  | None => Ok None
                  | Some m => m ← convertSpendLimits m; Ok (Some m)
                  end;
             Ok (Some {| maxSpend := ms;
                         maxTransactionSize := maxTransactionSize (kp_core input);
                         allowedProtocols := allowedProtocols (kp_core input);
                         allowedTokens := allowedTokens (kp_core input);
                         blockUnknownPrograms := blockUnknownPrograms (kp_core input);
                         rateLimit := rateLimit (kp_core input) |})
         end;
  resolved ← resolvePolicies core;
  Ok {| kr_core := resolved; kr_customCheck := i ← input; kp_customCheck i |}.

(** ** Evaluation *)

Inductive violation : Type :=
| program_allowlist (pid : address)
| spend_limit (mint : string) (total limit : Z)
| rate_limit (count max : Z)
| custom
| on_chain_tx_size (amount max : Z)
| on_chain_vault_cap (total cap : Z)
| on_chain_agent_cap (total cap : Z)
| paused_rule
| velocity_ceiling
| simulation
| session_binding.

Inductive shield_exn : Type :=
| ShieldDeniedError (violations : list violation)
| OtherError (e : js_exn).

Definition SYSTEM_PROGRAMS : list string :=
  [SYSTEM_PROGRAM_ADDRESS; COMPUTE_BUDGET_PROGRAM_ADDRESS; ATA_PROGRAM_ADDRESS].

Definition from_signer (signer : string) (t : TokenTransferInfo) : bool :=
  bool_decide (ti_authority t = Some signer).

(** The amount of one transaction that a limit on [mint] counts: transfers of
    that mint, and plain transfers, whose mint is unknown. *)
Definition limit_spend (signer mint : string) (ts : list TokenTransferInfo) : Z :=
  foldl (λ sum t, sum + ti_amount t) 0
    (filter (λ t, ti_authority t = Some signer ∧
       (ti_mint t = Some (Some mint) ∨ ti_mint t = None)) ts).

Definition stablecoin_transfer (net : string) (t : TokenTransferInfo) : bool :=
  match ti_mint t with Some (Some m) => isStablecoinMint m net | _ => false end.

Definition computeStablecoinUsd (ts : list TokenTransferInfo) (signer net : string) : Z :=
  foldl (λ sum t, sum + ti_amount t) 0
    (filter (λ t, ti_authority t = Some signer ∧ stablecoin_transfer net t) ts).

Definition check_programs (resolved : KitResolved) (a : InstructionAnalysis) : list violation :=
  match rp_allowedProtocols (kr_core resolved) with
  | Some allowed =>
      if rp_blockUnknownPrograms (kr_core resolved) then
        flat_map (λ pid, match pid with
          | Some p => if bool_decide (p ∈ SYSTEM_PROGRAMS) || bool_decide (p ∈ allowed) then []
                      else [program_allowlist pid]
          | None => [program_allowlist pid]
          end) (ia_programIds a)
      else []
  | None => []
  end.

Definition check_limit (now : Z) (signer : string) (a : InstructionAnalysis) (state : ShieldState)
    (limit : SpendLimit) : list violation :=
  let windowMs := default 86400000 (sl_windowMs limit) in
  let currentSpend := getSpendInWindow now (sl_mint limit) windowMs state in
  let txSpend := limit_spend signer (sl_mint limit) (ia_tokenTransfers a) in
  if sl_amount limit <? currentSpend + txSpend
  then [spend_limit (sl_mint limit) (currentSpend + txSpend) (sl_amount limit)] else [].

Fixpoint check_limits (clock : nat → Z) (k : nat) (signer : string) (a : InstructionAnalysis)
    (state : ShieldState) (limits : list SpendLimit) : list violation :=
  match limits with
  | [] => []
  | limit :: limits =>
      check_limit (clock k) signer a state limit ++
      check_limits clock (k + 1) signer a state limits
  end.

Definition check_rate (now : Z) (resolved : KitResolved) (state : ShieldState) : list violation :=
  let count := getTransactionCountInWindow now (rp_rateWindowMs (kr_core resolved)) state in
  if rp_maxTransactions (kr_core resolved) <=? count
  then [rate_limit count (rp_maxTransactions (kr_core resolved))] else [].

Definition check_custom (signer : string) (resolved : KitResolved) (a : InstructionAnalysis)
    : list violation :=
  match kr_customCheck resolved with
  | None => []
  | Some f =>
      if f (ia_programIds a)
           (map (λ t, {| ct_mint := default "" (m ← ti_mint t; m); ct_amount := ti_amount t;
                         ct_direction := if from_signer signer t then outgoing else unknown;
                         ct_destination := ti_destination t |}) (ia_tokenTransfers a))
           (ia_estimatedValue a)
      then [] else [custom]
  end.

Definition check_on_chain (signer : string) (a : InstructionAnalysis) (state : ShieldState)
    (net : option string) : list violation :=
  let effectiveNetwork := match net with Some n => Some n | None => network state end in
  match resolvedState state, effectiveNetwork with
  | Some rs, Some n =>
      let usd := computeStablecoinUsd (ia_tokenTransfers a) signer n in
      if negb (bool_decide (n = "")) && (0 <? usd) then
        (if rs_maxTransactionUsd rs <? usd then [on_chain_tx_size usd (rs_maxTransactionUsd rs)] else []) ++
        (let spent := getEffectiveGlobalSpent24h state in
         if cap (rs_globalBudget rs) <? spent + usd
         then [on_chain_vault_cap (spent + usd) (cap (rs_globalBudget rs))] else []) ++
        match getEffectiveAgentSpent24h state, rs_agentBudget rs with
        | Some spent, Some b =>
            if cap b <? spent + usd then [on_chain_agent_cap (spent + usd) (cap b)] else []
        | _, _ => []
        end
      else []
  | _, _ => []
  end.

(** The network, when given, is validated first; the empty string is falsy. *)
Definition evaluateInstructions (clock : nat → Z) (ixs : list InspectableInstruction)
    (signer : string) (resolved : KitResolved) (state : ShieldState) (net : option string)
    : result shield_exn (list violation * InstructionAnalysis) :=
  _ ← match net with
      | Some n => if bool_decide (n = "") then Ok tt
                  else match validateNetwork n with Ok u => Ok u | Throw e => Throw (OtherError e) end
      | None => Ok tt
      end;
  let a := analyzeInstructions ixs signer in
  let limits := rp_spendLimits (kr_core resolved) in
  let violations :=
    check_programs resolved a ++
    check_limits clock 0 signer a state limits ++
    check_rate (clock (length limits)) resolved state ++
    check_custom signer resolved a ++
    check_on_chain signer a state net in
  Ok (violations, a).

(** ** The shield context *)

Record ShieldedContext : Type := {
  resolved : KitResolved;
  state : ShieldState;
  paused : bool;
  syncNetwork : option string;
}.

Definition with_state (c : ShieldedContext) (st : ShieldState) : ShieldedContext :=
  {| resolved := resolved c; state := st; paused := paused c; syncNetwork := syncNetwork c |}.

(** [shield(policies, options)], with the network of [onChainSync], if any. *)
Definition shield (policies : option KitPolicies) (sync : option string)
    : result (config_error + js_exn) ShieldedContext :=
  match resolveKitPolicies policies with
  | Throw e => Throw (inl e)
  | Ok r =>
      match sync with
      | Some n => match validateNetwork n with
                  | Throw e => Throw (inr e)
                  | Ok _ => Ok {| resolved := r; state := new_state; paused := false; syncNetwork := sync |}
                  end
      | None => Ok {| resolved := r; state := new_state; paused := false; syncNetwork := None |}
      end
  end.

Record ShieldCheckResult : Type := { allowed : bool; violations : list violation }.

Definition check (clock : nat → Z) (ixs : list InspectableInstruction) (signer : string)
    (c : ShieldedContext) : result shield_exn ShieldCheckResult :=
  if paused c then Ok {| allowed := false; violations := [paused_rule] |} else
  '(vs, _) ← evaluateInstructions clock ixs signer (resolved c) (state c) (syncNetwork c);
  Ok {| allowed := bool_decide (length vs = 0%nat); violations := vs |}.

(** The recording loop: one entry per transfer the signer authorised. *)
Fixpoint record_transfers (rd : nat → readings) (k : nat) (signer : string)
    (ts : list TokenTransferInfo) (st : ShieldState) : ShieldState :=
  match ts with
  | [] => st
  | t :: ts =>
      record_transfers rd (k + 1) signer ts
        (if from_signer signer t
         then recordSpend (rd k) (default "" (m ← ti_mint t; m)) (ti_amount t) st else st)
  end.

Definition record_usd (signer : string) (ts : list TokenTransferInfo) (net : option string)
    (st : ShieldState) : ShieldState :=
  match resolvedState st, net with
  | Some _, Some n =>
      let usd := computeStablecoinUsd ts signer n in
      if 0 <? usd then recordUsdSpend usd st else st
  | _, _ => st
  end.

Definition enforce (clock : nat → Z) (rd : nat → readings) (ixs : list InspectableInstruction)
    (signer : string) (c : ShieldedContext) : result shield_exn ShieldedContext :=
  if paused c then Throw (ShieldDeniedError [paused_rule]) else
  '(vs, a) ← evaluateInstructions clock ixs signer (resolved c) (state c) (syncNetwork c);
  match vs with
  | _ :: _ => Throw (ShieldDeniedError vs)
  | [] =>
      let ts := ia_tokenTransfers a in
      let st := record_transfers rd 0 signer ts (state c) in
      let st := recordTransaction (rd (length ts)) st in
      let st := record_usd signer ts (syncNetwork c) st in
      Ok (with_state c (markEnforceUsed st))
  end.

Definition updatePolicies (p : KitPolicies) (c : ShieldedContext)
    : result config_error ShieldedContext :=
  r ← resolveKitPolicies (Some p);
  Ok {| resolved := r; state := state c; paused := paused c; syncNetwork := syncNetwork c |}.

Definition resetState (c : ShieldedContext) : ShieldedContext := with_state c (reset (state c)).

Definition pause (c : ShieldedContext) : ShieldedContext :=
  {| resolved := resolved c; state := state c; paused := true; syncNetwork := syncNetwork c |}.
Definition resume (c : ShieldedContext) : ShieldedContext :=
  {| resolved := resolved c; state := state c; paused := false; syncNetwork := syncNetwork c |}.

(** [sync()]: [fetched] is what [resolveVaultState] returned. *)
Definition sync (fetched : ResolvedVaultState) (c : ShieldedContext)
    : result js_exn ShieldedContext :=
  match syncNetwork c with
  | None => Throw (SdkDomainError "SIGIL_ERROR__SDK__INVALID_CONFIG")
  | Some n => Ok (with_state c (syncFromOnChain fetched (Some n) (state c)))
  end.

Record TokenSummary : Type := {
  ts_mint : string; ts_spent : Z; ts_limit : Z; ts_remaining : Z; ts_windowMs : Z }.

Definition token_summary (now : Z) (st : ShieldState) (limit : SpendLimit) : TokenSummary :=
  let windowMs := default 86400000 (sl_windowMs limit) in
  let spent := getSpendInWindow now (sl_mint limit) windowMs st in
  {| ts_mint := sl_mint limit; ts_spent := spent; ts_limit := sl_amount limit;
     ts_remaining := if spent <? sl_amount limit then sl_amount limit - spent else 0;
     ts_windowMs := windowMs |}.

Record SpendingSummary : Type := {
  ss_tokens : list TokenSummary;
  ss_count : Z; ss_limit : Z; ss_remaining : Z; ss_windowMs : Z;
  ss_isPaused : bool;
  ss_onChain : option (Z * Z * Z * option Z * option Z * option Z * Z * Z * Z);
}.

Definition getSpendingSummary (clock : nat → Z) (c : ShieldedContext) : SpendingSummary :=
  let limits := rp_spendLimits (kr_core (resolved c)) in
  let max := rp_maxTransactions (kr_core (resolved c)) in
  let windowMs := rp_rateWindowMs (kr_core (resolved c)) in
  let txCount := getTransactionCountInWindow (clock (length limits)) windowMs (state c) in
  {| ss_tokens := imap (λ k l, token_summary (clock k) (state c) l) limits;
     ss_count := txCount; ss_limit := max; ss_remaining := Z.max 0 (max - txCount);
     ss_windowMs := windowMs; ss_isPaused := paused c;
     ss_onChain := match resolvedState (state c) with
       | None => None
       | Some rs => Some (getEffectiveGlobalSpent24h (state c), cap (rs_globalBudget rs),
           default 0 (getEffectiveGlobalRemaining (state c)), getEffectiveAgentSpent24h (state c),
           cap <$> rs_agentBudget rs, getEffectiveAgentRemaining (state c),
           rs_maxTransactionUsd rs, localUsdAdditions (state c), rs_resolvedAtTimestamp rs)
       end |}.

(** ** Lemmas on the logs *)

Lemma foldl_amounts {A} (f : A → Z) l acc : foldl (λ sum e, sum + f e) acc l = acc + sumZ (map f l).
Proof. revert acc; induction l as [|x l IH]; intros acc; cbn [foldl map];
  [unfold sumZ; simpl; lia|]. rewrite IH. change (sumZ (?a :: ?b)) with (a + sumZ b). lia.
Qed.

Lemma sumZ_filter {A} (P : A → Prop) `{!∀ x, Decision (P x)} (f : A → Z) l :
  sumZ (map f (filter P l)) = sumZ (map (λ x, if decide (P x) then f x else 0) l).
Proof.
  induction l as [|x l IH]; [done|]. rewrite filter_cons. cbn [map].
  change (sumZ (?a :: ?b)) with (a + sumZ b). rewrite <- IH. destruct (decide (P x)); [done|by rewrite Z.add_0_l].
Qed.

Lemma sumZ_ext {A} (f g : A → Z) l : (∀ x, f x = g x) → sumZ (map f l) = sumZ (map g l).
Proof. intros H. f_equal. by apply map_ext. Qed.

Lemma shield_getSpendInWindow_eq now mint w st :
  getSpendInWindow now mint w st = window_spend mint (now - w) (spendEntries st).
Proof.
  unfold getSpendInWindow, window_spend. rewrite foldl_amounts, sumZ_filter, Z.add_0_l.
  apply sumZ_ext. intros e. unfold in_window. case_decide as H.
  - destruct H as [H1 H2]. rewrite bool_decide_true, (proj2 (Z.leb_le _ _) H2) by done. done.
  - case_bool_decide; [|done]. simpl.
    destruct (Z.leb_spec (now - w) (se_timestamp e)); [by destruct H|done].
Qed.

Lemma shield_getTransactionCountInWindow_eq now w st :
  getTransactionCountInWindow now w st = window_count (now - w) (txEntries st).
Proof. done. Qed.

Lemma window_spend_filter mint c p l :
  p ≤ c → window_spend mint c (filter (λ e, p ≤ se_timestamp e) l) = window_spend mint c l.
Proof.
  intros Hp. unfold window_spend. rewrite sumZ_filter. apply sumZ_ext. intros e.
  case_decide; [done|]. unfold in_window. rewrite (proj2 (Z.leb_gt _ _)); [by rewrite andb_false_r|]. lia.
Qed.

Lemma window_count_filter c p l :
  p ≤ c → window_count c (filter (λ t, p ≤ t) l) = window_count c l.
Proof.
  intros Hp. unfold window_count. rewrite list_filter_filter. do 2 f_equal.
  apply list_filter_iff. intros x. lia.
Qed.

(** Pruning is invisible to every window of at most 24 hours. *)
Lemma prune_windows n1 n2 st :
  (∀ mint c, n1 - 86400000 ≤ c →
     window_spend mint c (spendEntries (prune n1 n2 st)) = window_spend mint c (spendEntries st)) ∧
  (∀ c, n2 - 86400000 ≤ c →
     window_count c (txEntries (prune n1 n2 st)) = window_count c (txEntries st)).
Proof.
  unfold prune. simpl. split; intros; case_bool_decide; try done;
    [by apply window_spend_filter|by apply window_count_filter].
Qed.

(** The limit counts at least what a recording of the transaction adds. *)
Definition transfer_key (t : TokenTransferInfo) : string := default "" (m ← ti_mint t; m).

Fixpoint entries_of (rd : nat → readings) (k : nat) (signer : string) (ts : list TokenTransferInfo)
    : list SpendEntry :=
  match ts with
  | [] => []
  | t :: ts =>
      (if from_signer signer t
       then [{| se_mint := transfer_key t; se_amount := ti_amount t; se_timestamp := at_push (rd k) |}]
       else []) ++ entries_of rd (k + 1) signer ts
  end.

Lemma limit_spend_sum signer mint ts :
  limit_spend signer mint ts = sumZ (map (λ t, if decide (ti_authority t = Some signer ∧
    (ti_mint t = Some (Some mint) ∨ ti_mint t = None)) then ti_amount t else 0) ts).
Proof. unfold limit_spend. by rewrite foldl_amounts, sumZ_filter, Z.add_0_l. Qed.

Lemma entries_of_limit rd k signer mint c ts :
  mint ≠ "" → Forall (λ t, 0 ≤ ti_amount t) ts →
  0 ≤ window_spend mint c (entries_of rd k signer ts) ≤ limit_spend signer mint ts.
Proof.
  intros Hm Hp. rewrite limit_spend_sum. revert k.
  induction Hp as [|t ts Ht _ IH]; intros k; cbn [entries_of map]; [done|].
  rewrite window_spend_app. change (sumZ (?a :: ?b)) with (a + sumZ b). specialize (IH (k + 1)%nat).
  unfold from_signer. case_bool_decide as Hs; cycle 1.
  { rewrite decide_False by naive_solver. exact IH. }
  change (window_spend mint c [?e]) with (in_window mint c e + 0). unfold in_window, transfer_key. simpl.
  case_bool_decide as Hk; simpl.
  - rewrite decide_True; [destruct (c <=? _); lia|]. split; [done|].
    destruct (ti_mint t) as [[m|]|]; simpl in Hk; naive_solver.
  - case_decide; lia.
Qed.

(** ** Evaluation: the specification *)

Definition limit_window (l : SpendLimit) : Z := default 86400000 (sl_windowMs l).

Definition program_ok (r : KitResolved) (p : address) : Prop :=
  ∀ allowed, rp_allowedProtocols (kr_core r) = Some allowed →
    rp_blockUnknownPrograms (kr_core r) = true →
    ∃ q, p = Some q ∧ (q ∈ SYSTEM_PROGRAMS ∨ q ∈ allowed).

Definition limit_ok (now : Z) (signer : string) (a : InstructionAnalysis) (st : ShieldState)
    (l : SpendLimit) : Prop :=
  window_spend (sl_mint l) (now - limit_window l) (spendEntries st) +
    limit_spend signer (sl_mint l) (ia_tokenTransfers a) ≤ sl_amount l.

(** Nothing is violated. *)
Definition permitted (clock : nat → Z) (a : InstructionAnalysis) (signer : string) (r : KitResolved)
    (st : ShieldState) (net : option string) : Prop :=
  (∀ p, p ∈ ia_programIds a → program_ok r p) ∧
  (∀ k l, rp_spendLimits (kr_core r) !! k = Some l → limit_ok (clock k) signer a st l) ∧
  window_count (clock (length (rp_spendLimits (kr_core r))) - rp_rateWindowMs (kr_core r))
    (txEntries st) < rp_maxTransactions (kr_core r) ∧
  check_custom signer r a = [] ∧ check_on_chain signer a st net = [].

Lemma flat_map_nil {A B} (f : A → list B) l : flat_map f l = [] ↔ ∀ x, x ∈ l → f x = [].
Proof.
  induction l as [|x l IH]; simpl; [set_solver|]. rewrite app_nil, IH. set_solver.
Qed.

Lemma check_programs_nil r a :
  check_programs r a = [] ↔ ∀ p, p ∈ ia_programIds a → program_ok r p.
Proof.
  unfold check_programs, program_ok. destruct (rp_allowedProtocols (kr_core r)) as [al|]; [|naive_solver].
  destruct (rp_blockUnknownPrograms (kr_core r)); [|naive_solver]. rewrite flat_map_nil.
  split; intros H p Hp; specialize (H p Hp).
  - intros al' [= <-] _. destruct p as [q|]; [|done]. exists q. split; [done|].
    do 2 case_bool_decide; naive_solver.
  - destruct (H al eq_refl eq_refl) as (q & -> & Hq). destruct Hq.
    + by rewrite bool_decide_true.
    + by rewrite (bool_decide_true (q ∈ al)), orb_true_r.
Qed.

Lemma shield_check_limits_nil clock k signer a st ls :
  check_limits clock k signer a st ls = [] ↔
  ∀ i l, ls !! i = Some l → limit_ok (clock (k + i)%nat) signer a st l.
Proof.
  revert k; induction ls as [|l ls IH]; intros k; simpl; [naive_solver|].
  rewrite app_nil, IH. unfold check_limit at 1. rewrite shield_getSpendInWindow_eq. fold (limit_window l).
  destruct (Z.ltb_spec (sl_amount l) (window_spend (sl_mint l) (clock k - limit_window l) (spendEntries st) +
    limit_spend signer (sl_mint l) (ia_tokenTransfers a))) as [Hlt|Hle].
  - split; [by intros [? _]|]. intros H. specialize (H 0%nat l eq_refl).
    unfold limit_ok in H. rewrite Nat.add_0_r in H. lia.
  - split.
    + intros [_ H] [|i] l' Hi; simpl in Hi; simplify_eq.
      * unfold limit_ok. rewrite Nat.add_0_r. done.
      * rewrite <- Nat.add_succ_comm, <- Nat.add_1_r. by apply H.
    + intros H. split; [done|]. intros i l' Hi. specialize (H (S i) l' Hi).
      by replace (k + 1 + i)%nat with (k + S i)%nat by lia.
Qed.

Lemma evaluateInstructions_nil clock ixs signer r st net vs a :
  evaluateInstructions clock ixs signer r st net = Ok (vs, a) →
  a = analyzeInstructions ixs signer ∧ (vs = [] ↔ permitted clock a signer r st net).
Proof.
  unfold evaluateInstructions. intros H. apply bind_Ok_inv in H as (u & _ & H).
  injection H as <- <-. split; [done|].
  rewrite !app_nil, check_programs_nil, shield_check_limits_nil. unfold permitted, check_rate.
  rewrite shield_getTransactionCountInWindow_eq.
  destruct (Z.leb_spec (rp_maxTransactions (kr_core r))
    (window_count (clock (length (rp_spendLimits (kr_core r))) - rp_rateWindowMs (kr_core r))
       (txEntries st))).
  - split; [naive_solver|]. intros (_ & _ & ? & _). lia.
  - simpl. naive_solver.
Qed.

(** What a successful [enforce] means: the evaluation permitted it, and the
    three records were made. *)
Lemma enforce_Ok clock rd ixs signer c c' :
  enforce clock rd ixs signer c = Ok c' →
  let a := analyzeInstructions ixs signer in
  paused c = false ∧ permitted clock a signer (resolved c) (state c) (syncNetwork c) ∧
  c' = with_state c (markEnforceUsed (record_usd signer (ia_tokenTransfers a) (syncNetwork c)
         (recordTransaction (rd (length (ia_tokenTransfers a)))
            (record_transfers rd 0 signer (ia_tokenTransfers a) (state c))))).
Proof.
  unfold enforce. destruct (paused c); [done|]. intros H.
  apply bind_Ok_inv in H as ([vs a] & He & H).
  apply evaluateInstructions_nil in He as [-> Hp]. destruct vs; [|done].
  injection H as <-. split_and!; [done|by apply Hp|done].
Qed.

(** ** Runs *)

Section Runs.
(** [run spends txs c t]: successful [enforce] calls, by any signers, with
    pauses, resumes and syncs in between, led from empty logs to [c] at time
    [t]; [spends] and [txs] are everything recorded, pruned entries
    included.  Calls that throw change nothing. *)
Inductive run : list SpendEntry → list Z → ShieldedContext → Z → Prop :=
| run_start c t : spendEntries (state c) = [] → txEntries (state c) = [] → run [] [] c t
| run_pause spends txs c t : run spends txs c t → run spends txs (pause c) t
| run_resume spends txs c t : run spends txs c t → run spends txs (resume c) t
| run_sync spends txs c t rs c' : run spends txs c t → sync rs c = Ok c' → run spends txs c' t
| run_enforce spends txs c t clock rd ixs signer c' t' :
    run spends txs c t →
    (∀ i, t ≤ clock i) → (∀ i j, clock i ≤ at_push (rd j)) →
    (∀ j, at_push (rd j) ≤ t' ∧ at_prune1 (rd j) ≤ t' ∧ at_prune2 (rd j) ≤ t') →
    Forall (λ x, 0 ≤ ti_amount x) (ia_tokenTransfers (analyzeInstructions ixs signer)) →
    enforce clock rd ixs signer c = Ok c' →
    run (spends ++ entries_of rd 0 signer (ia_tokenTransfers (analyzeInstructions ixs signer)))
        (txs ++ [at_push (rd (length (ia_tokenTransfers (analyzeInstructions ixs signer))))])
        c' t'.

(** The state agrees with the history on the last 24 hours. *)
Definition agrees (st : ShieldState) (spends : list SpendEntry) (txs : list Z) (t : Z) : Prop :=
  (∀ mint c, t - 86400000 ≤ c → window_spend mint c (spendEntries st) = window_spend mint c spends) ∧
  (∀ c, t - 86400000 ≤ c → window_count c (txEntries st) = window_count c txs).

Lemma record_transfers_agrees rd k signer ts st spends txs t :
  agrees st spends txs t → (∀ j, at_prune1 (rd j) ≤ t ∧ at_prune2 (rd j) ≤ t) →
  agrees (record_transfers rd k signer ts st) (spends ++ entries_of rd k signer ts) txs t.
Proof.
  intros Hag Hr. revert k st spends Hag. induction ts as [|x ts IH]; intros k st spends Hag; simpl.
  { by rewrite app_nil_r. }
  rewrite app_assoc. apply IH. destruct (from_signer signer x); [|by rewrite app_nil_r].
  unfold recordSpend. fold (transfer_key x). destruct (prune_windows (at_prune1 (rd k)) (at_prune2 (rd k))
    (with_logs st (spendEntries st ++ [{| se_mint := transfer_key x; se_amount := ti_amount x;
      se_timestamp := at_push (rd k) |}]) (txEntries st))) as [P1 P2].
  destruct (Hr k) as [R1 R2]. destruct Hag as [A1 A2]. split.
  - intros mint c Hc. rewrite (P1 mint c) by lia. simpl. by rewrite !window_spend_app, A1.
  - intros c Hc. rewrite (P2 c) by lia. simpl. by apply A2.
Qed.

Lemma recordTransaction_agrees r st spends txs t :
  agrees st spends txs t → at_prune1 r ≤ t → at_prune2 r ≤ t →
  agrees (recordTransaction r st) spends (txs ++ [at_push r]) t.
Proof.
  intros [A1 A2] H1 H2. unfold recordTransaction.
  destruct (prune_windows (at_prune1 r) (at_prune2 r)
    (with_logs st (spendEntries st) (txEntries st ++ [at_push r]))) as [P1 P2]. split.
  - intros mint c Hc. rewrite (P1 mint c) by lia. simpl. by apply A1.
  - intros c Hc. rewrite (P2 c) by lia. simpl. by rewrite !window_count_app, A2.
Qed.

Lemma agrees_later st spends txs t t' : agrees st spends txs t → t ≤ t' → agrees st spends txs t'.
Proof. intros [A1 A2] Ht. split; intros; [apply A1|apply A2]; lia. Qed.

Lemma agrees_logs st st' spends txs t :
  agrees st spends txs t → spendEntries st' = spendEntries st → txEntries st' = txEntries st →
  agrees st' spends txs t.
Proof. unfold agrees. by intros [A1 A2] -> ->. Qed.

Lemma record_usd_logs signer ts net st :
  spendEntries (record_usd signer ts net st) = spendEntries st ∧
  txEntries (record_usd signer ts net st) = txEntries st.
Proof.
  unfold record_usd. destruct (resolvedState st), net; try done. by destruct (0 <? _).
Qed.

Lemma run_agrees spends txs c t :
  run spends txs c t →
  agrees (state c) spends txs t ∧ Forall (λ e, 0 ≤ se_amount e) spends.
Proof.
  induction 1 as [c t Hs Ht| | |spends txs c t rs c' _ [IH IHp] Hsync|
    spends txs c t clock rd ixs signer c' t' _ [IH IHp] H1 H2 H3 Hpos Hok]; [|done|done|..].
  - split; [|constructor]. split; intros; rewrite ?Hs, ?Ht; done.
  - split; [|done]. unfold sync in Hsync. destruct (syncNetwork c); [|done].
    injection Hsync as <-. eapply agrees_logs; [exact IH|done|done].
  - apply enforce_Ok in Hok as (_ & _ & ->). set (ts := ia_tokenTransfers _) in *. split.
    + assert (t ≤ t') by (specialize (H1 0%nat); specialize (H2 0%nat 0%nat); specialize (H3 0%nat); lia).
      eapply agrees_logs; [|apply record_usd_logs|apply record_usd_logs].
      apply recordTransaction_agrees; [|apply H3|apply H3].
      apply record_transfers_agrees; [by eapply agrees_later|]. intros j. apply H3.
    + apply Forall_app. split; [done|]. generalize 0%nat. clear - Hpos.
      induction Hpos as [|x xs Hx _ IH]; intros k; simpl; [constructor|].
      apply Forall_app. split; [|apply IH]. destruct (from_signer signer x); by repeat constructor.
Qed.

Lemma run_limit spends txs c t l now :
  run spends txs c t → l ∈ rp_spendLimits (kr_core (resolved c)) →
  sl_mint l ≠ "" → 0 ≤ sl_amount l → 0 ≤ limit_window l ≤ 86400000 → t ≤ now →
  window_spend (sl_mint l) (now - limit_window l) spends ≤ sl_amount l.
Proof.
  intros Hrun Hl Hm Ha Hw; revert now Hl.
  induction Hrun as [c t Hs Ht|spends txs c t Hrun IH|spends txs c t Hrun IH|
    spends txs c t rs c' Hrun IH Hsync|
    spends txs c t clock rd ixs signer c' t' Hrun IH H1 H2 H3 Hpos Hok]; intros now Hl Hnow.
  - done.
  - by apply IH.
  - by apply IH.
  - apply IH; [|done]. unfold sync in Hsync. destruct (syncNetwork c); [|done].
    by injection Hsync as <-.
  - destruct (run_agrees _ _ _ _ Hrun) as [[A1 _] Hp].
    apply enforce_Ok in Hok as (_ & Hperm & ->). destruct Hperm as (_ & Hlim & _).
    apply list_elem_of_lookup in Hl as [k Hk]. specialize (Hlim k l Hk). unfold limit_ok in Hlim.
    set (ts := ia_tokenTransfers _) in *. rewrite window_spend_app.
    pose proof (entries_of_limit rd 0 signer (sl_mint l) (now - limit_window l) ts Hm Hpos).
    specialize (H1 k). specialize (H2 k 0%nat). specialize (H3 0%nat).
    rewrite A1 in Hlim by lia.
    pose proof (window_spend_mono (sl_mint l) (clock k - limit_window l) (now - limit_window l)
      spends Hp). lia.
Qed.

Lemma shield_run_rate spends txs c t now :
  run spends txs c t → 0 ≤ rp_maxTransactions (kr_core (resolved c)) →
  0 ≤ rp_rateWindowMs (kr_core (resolved c)) ≤ 86400000 → t ≤ now →
  window_count (now - rp_rateWindowMs (kr_core (resolved c))) txs ≤
    rp_maxTransactions (kr_core (resolved c)).
Proof.
  intros Hrun; revert now.
  induction Hrun as [c t Hs Ht|spends txs c t Hrun IH|spends txs c t Hrun IH|
    spends txs c t rs c' Hrun IH Hsync|
    spends txs c t clock rd ixs signer c' t' Hrun IH H1 H2 H3 Hpos Hok]; intros now Hm Hw Hnow.
  - done.
  - by apply IH.
  - by apply IH.
  - unfold sync in Hsync. destruct (syncNetwork c); [|done]. injection Hsync as <-. by apply IH.
  - destruct (run_agrees _ _ _ _ Hrun) as [[_ A2] _].
    apply enforce_Ok in Hok as (_ & Hperm & ->). simpl in *. destruct Hperm as (_ & _ & Hr & _).
    set (n := length (rp_spendLimits (kr_core (resolved c)))) in *.
    set (w := rp_rateWindowMs (kr_core (resolved c))) in *.
    set (ts := ia_tokenTransfers _) in *.
    specialize (H1 n). specialize (H2 n (length ts)). specialize (H3 (length ts)).
    rewrite A2 in Hr by lia. rewrite window_count_app.
    pose proof (window_count_mono (clock n - w) (now - w) txs).
    pose proof (window_count_length (now - w) [at_push (rd (length ts))]). simpl in *. lia.
Qed.
End Runs.

(** ** Properties *)

(** [check] and [enforce] decide the same question, and it is the
    specification: neither passes while paused; otherwise both pass exactly
    when every program, every spend limit, the rate limit, the custom check and
    the on-chain caps permit the instructions. *)
Theorem shield_decision_specified clock rd ixs signer c :
  (paused c = true →
     check clock ixs signer c = Ok {| allowed := false; violations := [paused_rule] |} ∧
     enforce clock rd ixs signer c = Throw (ShieldDeniedError [paused_rule])) ∧
  (∀ r, paused c = false → check clock ixs signer c = Ok r →
     (allowed r = true ↔ permitted clock (analyzeInstructions ixs signer) signer (resolved c)
                           (state c) (syncNetwork c)) ∧
     (allowed r = true ↔ ∃ c', enforce clock rd ixs signer c = Ok c') ∧
     (allowed r = false → enforce clock rd ixs signer c = Throw (ShieldDeniedError (violations r)))).
Proof.
  unfold check, enforce. split; [by intros ->|]. intros r -> H.
  apply bind_Ok_inv in H as ([vs a] & He & H). injection H as <-. rewrite He. simpl.
  apply evaluateInstructions_nil in He as [-> Hp]. rewrite <- Hp.
  destruct vs; simpl; split_and!; try done; naive_solver.
Qed.

(** C3: Over every history of enforced calls, with pauses, resumes and syncs,
    the recorded spend of a limited mint within a limit window of at most 24
    hours never exceeds the limit, although the state prunes old entries. *)
Theorem shield_limit_never_exceeded spends txs c t l now :
  run spends txs c t → l ∈ rp_spendLimits (kr_core (resolved c)) →
  sl_mint l ≠ "" → 0 ≤ sl_amount l → 0 ≤ limit_window l ≤ 86400000 → t ≤ now →
  window_spend (sl_mint l) (now - limit_window l) spends ≤ sl_amount l.
Proof. apply run_limit. Qed.

(** Over every such history, the number of transactions in a rate window of
    at most 24 hours never exceeds the rate limit. *)
Theorem shield_rate_never_exceeded spends txs c t now :
  run spends txs c t → 0 ≤ rp_maxTransactions (kr_core (resolved c)) →
  0 ≤ rp_rateWindowMs (kr_core (resolved c)) ≤ 86400000 → t ≤ now →
  window_count (now - rp_rateWindowMs (kr_core (resolved c))) txs ≤
    rp_maxTransactions (kr_core (resolved c)).
Proof. apply shield_run_rate. Qed.

(** ** Witness data *)

Definition demo_core : ResolvedPolicies := {|
  rp_spendLimits := [{| sl_mint := USDC_MINT_MAINNET; sl_amount := 100; sl_windowMs := None |}];
  rp_maxTransactionSize := None; rp_allowedProtocols := None; rp_allowedTokens := None;
  rp_blockUnknownPrograms := true; rp_maxTransactions := 5; rp_rateWindowMs := 1000 |}.

Definition demo_ctx (rs : option ResolvedVaultState) : ShieldedContext := {|
  resolved := {| kr_core := demo_core; kr_customCheck := None |};
  state := {| spendEntries := []; txEntries := []; resolvedState := rs; localUsdAdditions := 0;
              network := None; enforceUsed := false |};
  paused := false; syncNetwork := Some "mainnet-beta" |}.

Definition demo_rd (n : Z) : nat → readings := λ _, {| at_push := n; at_prune1 := n; at_prune2 := n |}.

Definition demo_ix (amount : Z) : list InspectableInstruction :=
  [transfer_checked_ix TOKEN_PROGRAM_ADDRESS amount 6 "src" USDC_MINT_MAINNET "dst" "me" []].
Definition demo_plain (amount : Z) : list InspectableInstruction :=
  [transfer_ix TOKEN_PROGRAM_ADDRESS amount "src" "dst" "me" []].

Definition demo_next (c : ShieldedContext) (now : Z) (ixs : list InspectableInstruction)
    : ShieldedContext :=
  match enforce (λ _, now) (demo_rd now) ixs "me" c with Ok c' => c' | Throw _ => c end.

Lemma shield_demo_run :
  run (entries_of (demo_rd 6) 0 "me" (ia_tokenTransfers (analyzeInstructions (demo_ix 60) "me")))
    [6] (demo_next (demo_ctx None) 6 (demo_ix 60)) 6.
Proof.
  apply (run_enforce [] [] (demo_ctx None) 5 (λ _, 6) (demo_rd 6) (demo_ix 60) "me").
  - by constructor.
  - done.
  - done.
  - done.
  - vm_compute. repeat constructor. discriminate.
  - vm_compute. reflexivity.
Qed.

Lemma shield_limit_never_exceeded_witness :
  window_spend USDC_MINT_MAINNET (7 - 86400000)
    (entries_of (demo_rd 6) 0 "me" (ia_tokenTransfers (analyzeInstructions (demo_ix 60) "me"))) ≤ 100.
Proof.
  apply (shield_limit_never_exceeded _ _ _ 6
    {| sl_mint := USDC_MINT_MAINNET; sl_amount := 100; sl_windowMs := None |} 7 shield_demo_run);
    [apply elem_of_cons; by left|done|done|by vm_compute|lia].
Defined.

Lemma shield_rate_never_exceeded_witness : window_count (7 - 1000) [6] ≤ 5.
Proof.
  apply (shield_rate_never_exceeded _ _ _ 6 7 shield_demo_run); [by vm_compute..|lia].
Defined.

Lemma shield_decision_specified_witness :
  enforce (λ _, 6) (demo_rd 6) (demo_ix 60) "me" (pause (demo_ctx None)) =
  Throw (ShieldDeniedError [paused_rule]).
Proof.
  apply (shield_decision_specified (λ _, 6) (demo_rd 6) (demo_ix 60) "me" (pause (demo_ctx None))).
  reflexivity.
Defined.

(** ** The on-chain caps *)

Lemma record_transfers_on_chain rd k signer ts st :
  resolvedState (record_transfers rd k signer ts st) = resolvedState st ∧
  localUsdAdditions (record_transfers rd k signer ts st) = localUsdAdditions st.
Proof.
  revert k st; induction ts as [|t ts IH]; intros k st; simpl; [done|].
  destruct (IH (k + 1)%nat (if from_signer signer t
    then recordSpend (rd k) (default "" (m ← ti_mint t; m)) (ti_amount t) st else st)) as [-> ->].
  by destruct (from_signer signer t).
Qed.

Lemma computeStablecoinUsd_nonneg ts signer n :
  Forall (λ t, 0 ≤ ti_amount t) ts → 0 ≤ computeStablecoinUsd ts signer n.
Proof.
  intros Hp. unfold computeStablecoinUsd. rewrite foldl_amounts, sumZ_filter, Z.add_0_l.
  apply sumZ_nonneg, Forall_map. eapply Forall_impl; [exact Hp|]. intros t Ht; simpl in *. case_decide; lia.
Qed.

(** Once synced, an enforced call adds exactly its stablecoin value to the
    effective 24-hour spend, and keeps it within the vault's on-chain cap, the
    agent's cap and the per-transaction maximum; so no sequence of enforced
    calls between two syncs passes a cap. *)
Theorem enforce_respects_on_chain_caps clock rd ixs signer c c' rs n :
  syncNetwork c = Some n → n ≠ "" → resolvedState (state c) = Some rs →
  Forall (λ t, 0 ≤ ti_amount t) (ia_tokenTransfers (analyzeInstructions ixs signer)) →
  getEffectiveGlobalSpent24h (state c) ≤ cap (rs_globalBudget rs) →
  (∀ b, rs_agentBudget rs = Some b → spent24h b + localUsdAdditions (state c) ≤ cap b) →
  enforce clock rd ixs signer c = Ok c' →
  let usd := computeStablecoinUsd (ia_tokenTransfers (analyzeInstructions ixs signer)) signer n in
  resolvedState (state c') = Some rs ∧
  getEffectiveGlobalSpent24h (state c') = getEffectiveGlobalSpent24h (state c) + usd ∧
  getEffectiveGlobalSpent24h (state c') ≤ cap (rs_globalBudget rs) ∧
  (∀ b, rs_agentBudget rs = Some b → spent24h b + localUsdAdditions (state c') ≤ cap b) ∧
  (0 < usd → usd ≤ rs_maxTransactionUsd rs).
Proof.
  intros Hn Hne Hrs Hpos Hg Ha Hok usd. apply enforce_Ok in Hok as (_ & Hperm & ->).
  destruct Hperm as (_ & _ & _ & _ & Hoc). pose proof (computeStablecoinUsd_nonneg _ signer n Hpos) as Hu.
  fold usd in Hu. set (ts := ia_tokenTransfers _) in *.
  destruct (record_transfers_on_chain rd 0 signer ts (state c)) as [Hr Hl].
  set (st := recordTransaction _ _). assert (Hr' : resolvedState st = Some rs) by (simpl; congruence).
  assert (Hl' : localUsdAdditions st = localUsdAdditions (state c)) by done. clearbody st.
  assert (Hst : record_usd signer ts (syncNetwork c) st = if 0 <? usd then recordUsdSpend usd st else st).
  { unfold record_usd. by rewrite Hr', Hn. }
  unfold check_on_chain in Hoc. rewrite Hrs, Hn in Hoc. rewrite bool_decide_false in Hoc by done.
  fold ts usd in Hoc. cbn [negb andb] in Hoc. cbn [state with_state]. rewrite Hst.
  unfold getEffectiveGlobalSpent24h in *. rewrite Hrs in *.
  destruct (Z.ltb_spec 0 usd); cbn [markEnforceUsed recordUsdSpend resolvedState localUsdAdditions];
    rewrite Hr', Hl'.
  - apply app_nil in Hoc as [Hmax Hoc]. apply app_nil in Hoc as [Hcap Hag].
    destruct (Z.ltb_spec (rs_maxTransactionUsd rs) usd); [done|].
    destruct (Z.ltb_spec (cap (rs_globalBudget rs))
      (spent24h (rs_globalBudget rs) + localUsdAdditions (state c) + usd)); [done|].
    split_and!; [done|lia|lia| |done]. intros b Hb.
    unfold getEffectiveAgentSpent24h in Hag. rewrite Hrs in Hag. simpl in Hag. rewrite Hb in Hag. simpl in Hag.
    destruct (Z.ltb_spec (cap b) (spent24h b + localUsdAdditions (state c) + usd)); [done|lia].
  - split_and!; [done|lia|lia|done|lia].
Qed.

Definition demo_rs : ResolvedVaultState := {|
  rs_vault := demo_vault; rs_policy := demo_policy; rs_tracker := None; rs_overlay := None;
  rs_globalBudget := budget_of 10 80; rs_agentBudget := None; rs_allAgentBudgets := ∅;
  rs_protocolBudgets := []; rs_maxTransactionUsd := 70; rs_usdc := 0; rs_usdt := 0;
  rs_resolvedAtTimestamp := 5 |}.

Lemma enforce_respects_on_chain_caps_witness :
  getEffectiveGlobalSpent24h (state (demo_next (demo_ctx (Some demo_rs)) 6 (demo_ix 60))) ≤ 80 ∧
  is_ok (enforce (λ _, 7) (demo_rd 7) (demo_ix 20) "me"
    (demo_next (demo_ctx (Some demo_rs)) 6 (demo_ix 60))) = false.
Proof.
  split; [|vm_compute; reflexivity].
  refine (proj1 (proj2 (proj2 (enforce_respects_on_chain_caps (λ _, 6) (demo_rd 6) (demo_ix 60) "me"
    (demo_ctx (Some demo_rs)) (demo_next (demo_ctx (Some demo_rs)) 6 (demo_ix 60)) demo_rs "mainnet-beta"
    eq_refl _ eq_refl _ _ _ _)))); [done| | | |vm_compute; reflexivity].
  - vm_compute. repeat constructor. discriminate.
  - vm_compute. discriminate.
  - done.
Defined.

(** ** What the evaluation does not look at *)

(** Policies that agree on everything but the token allowlist, the transaction
    size and -- without a protocol allowlist -- the blocking of unknown programs. *)
Definition same_but_ignored (r r' : KitResolved) : Prop :=
  rp_spendLimits (kr_core r) = rp_spendLimits (kr_core r') ∧
  rp_allowedProtocols (kr_core r) = rp_allowedProtocols (kr_core r') ∧
  rp_maxTransactions (kr_core r) = rp_maxTransactions (kr_core r') ∧
  rp_rateWindowMs (kr_core r) = rp_rateWindowMs (kr_core r') ∧
  kr_customCheck r = kr_customCheck r' ∧
  (rp_allowedProtocols (kr_core r) = None ∨
   rp_blockUnknownPrograms (kr_core r) = rp_blockUnknownPrograms (kr_core r')).

(** The shield evaluates neither [allowedTokens] nor [maxTransactionSize],
    and [blockUnknownPrograms] has no effect without [allowedProtocols]: two
    policies that differ only there give the same answer on all instructions. *)
Theorem shield_ignores_policy_fields clock ixs signer r r' st net :
  same_but_ignored r r' →
  evaluateInstructions clock ixs signer r st net = evaluateInstructions clock ixs signer r' st net.
Proof.
  intros (H1 & H2 & H3 & H4 & H5 & H6). unfold evaluateInstructions.
  rewrite H1. unfold check_rate, check_custom. rewrite H3, H4, H5.
  assert (check_programs r (analyzeInstructions ixs signer) =
          check_programs r' (analyzeInstructions ixs signer)) as ->; [|done].
  unfold check_programs. rewrite <- H2. destruct H6 as [->| ->]; done.
Qed.

Lemma shield_ignores_policy_fields_witness :
  let strict := {| kr_core := {| rp_spendLimits := []; rp_maxTransactionSize := Some 1;
    rp_allowedProtocols := None; rp_allowedTokens := Some ∅; rp_blockUnknownPrograms := true;
    rp_maxTransactions := 5; rp_rateWindowMs := 1000 |}; kr_customCheck := None |} in
  let loose := {| kr_core := {| rp_spendLimits := []; rp_maxTransactionSize := None;
    rp_allowedProtocols := None; rp_allowedTokens := None; rp_blockUnknownPrograms := false;
    rp_maxTransactions := 5; rp_rateWindowMs := 1000 |}; kr_customCheck := None |} in
  evaluateInstructions (λ _, 6) (demo_ix 60) "me" strict new_state None =
  evaluateInstructions (λ _, 6) (demo_ix 60) "me" loose new_state None.
Proof.
  intros strict loose. apply (shield_ignores_policy_fields (λ _, 6) (demo_ix 60) "me" strict loose).
  split_and!; try done. by left.
Defined.

(** A plain Transfer counts against every limit when it is checked but is
    recorded under no mint, so it never accumulates: with a limit of 100, two
    checked transfers of 60 are stopped, two plain transfers of 60 are not,
    and the window still reports nothing spent. *)
Theorem plain_transfers_escape_the_window :
  let c1 := demo_next (demo_ctx None) 6 (demo_plain 60) in
  is_ok (enforce (λ _, 7) (demo_rd 7) (demo_plain 60) "me" c1) = true ∧
  getSpendInWindow 7 USDC_MINT_MAINNET 86400000 (state (demo_next c1 7 (demo_plain 60))) = 0 ∧
  getTotalSpendInWindow 7 86400000 (state (demo_next c1 7 (demo_plain 60))) = 120 ∧
  is_ok (enforce (λ _, 7) (demo_rd 7) (demo_ix 60) "me"
    (demo_next (demo_ctx None) 6 (demo_ix 60))) = false ∧
  is_ok (enforce (λ _, 6) (demo_rd 6) (demo_plain 101) "me" (demo_ctx None)) = false.
Proof. vm_compute. done. Qed.

(** ** Resolution through the wrapper *)

Lemma mapM_resolve_objects ls :
  (ls' ← mapM (λ l, match l with
                    | LimitString s => l ← parseSpendLimit s; Ok (LimitObject l)
                    | LimitObject l => Ok (LimitObject l)
                    end) ls; mapM resolve_limit ls') = mapM resolve_limit ls.
Proof.
  induction ls as [|l ls IH]; [done|]. simpl.
  destruct l as [l|s']; simpl; [|destruct (parseSpendLimit s') as [l|e]; simpl; [|done]];
    rewrite <- IH; by destruct (mapM _ ls).
Qed.

(** Resolving policies through the wrapper is resolving them in the core: the
    eager conversion of mixed arrays changes neither the limits nor the first
    error, and the custom check is passed on. *)
Theorem kit_resolution_is_core_resolution input :
  resolveKitPolicies input =
  (r ← resolvePolicies (kp_core <$> input);
   Ok {| kr_core := r; kr_customCheck := i ← input; kp_customCheck i |}).
Proof.
  destruct input as [[core cc]|]; [|done]. unfold resolveKitPolicies. simpl.
  destruct core as [[[l|ls]|] size ap at_ bu rl]; try done. simpl.
  destruct (forallb is_string_spec ls); [done|].
  rewrite <- (mapM_resolve_objects ls). by destruct (mapM _ ls).
Qed.
End Shield.
