(* ===== verification/ShieldedSigner.v ===== *)
(** * The signing gate ([createShieldedSigner] in [sdk/kit/src/shield.ts])

    Extraction of instructions from a compiled transaction, the velocity
    ceiling, the session-binding check, and the loop that gates, records and
    then delegates to the base signer.  The simulation, the address-table
    cache and the base signer are other components: their answers are
    arguments.  The loop mutates the shared state as it goes, so its result
    carries the state reached even when it throws.

    The theorems: the base signer is reached only when every transaction of
    the batch passed every gate; a hard session binding means the first and
    last Sigil instructions are the validate/finalize sandwich; account
    indices resolve to static accounts first, then all writable lookups, then
    all read-only ones; and a rejected batch leaves the spend of the
    transactions before the rejected one recorded. *)

From Stdlib Require String.
From S2P Require Import Prelude CorePolicies SpendLog SdkTypes StateResolver Inspector Shield.
Import Shield.

Local Open Scope Z_scope.

Definition SIGIL_PROGRAM_ADDRESS : string := "7FtAXUcrann7P5HoLG7vnWcVpozwj9nqcNm6bPwA1wuK".
Definition VALIDATE_AND_AUTHORIZE_DISCRIMINATOR : list Z := [22; 183; 48; 222; 218; 11; 197; 152].
Definition FINALIZE_SESSION_DISCRIMINATOR : list Z := [34; 148; 144; 47; 37; 130; 206; 161].

Record CompiledIx : Type := {
  ci_programAddressIndex : nat;
  ci_accountIndices : option (list nat);
  ci_data : option (list Z);
}.

Record AddressLookup : Type := {
  al_lookupTableAddress : string;
  al_writableIndexes : option (list nat);
  al_readonlyIndexes : option (list nat);
}.

Record CompiledMessage : Type := {
  cm_staticAccounts : list string;
  cm_instructions : list CompiledIx;
  cm_addressTableLookups : list AddressLookup;
}.

(** [tx.compiledMessage] may be missing. *)
Abbreviation transaction := (option CompiledMessage).

(** [altCache.getCachedAddresses]. *)
Abbreviation alt_cache := (string → option (list string)).

Definition resolveAltIndex (idx : nat) (resolved : list string) : string :=
  match resolved !! idx with Some a => a | None => SYSTEM_PROGRAM_ADDRESS end.

(** One pass over the lookups, with the index list it takes from each. *)
Definition alt_pass (cache : alt_cache) (pick : AddressLookup → option (list nat))
    (lookups : list AddressLookup) (table : list string) : list string :=
  foldl (λ table lookup,
    match cache (al_lookupTableAddress lookup) with
    | None => table
    | Some resolved =>
        foldl (λ table idx, table ++ [resolveAltIndex idx resolved]) table (default [] (pick lookup))
    end) table lookups.

Definition account_table (msg : CompiledMessage) (altCache : option alt_cache) : list string :=
  match cm_addressTableLookups msg, altCache with
  | [], _ | _, None => cm_staticAccounts msg
  | lookups, Some cache =>
      let table := alt_pass cache al_writableIndexes lookups (cm_staticAccounts msg) in
      alt_pass cache al_readonlyIndexes lookups table
  end.

Definition extractInstructionsFromCompiled (tx : transaction) (altCache : option alt_cache)
    : list InspectableInstruction :=
  match tx with
  | None => []
  | Some msg =>
      match cm_staticAccounts msg, cm_instructions msg with
      | [], _ | _, [] => []
      | _, ixs =>
          let accountTable := account_table msg altCache in
          map (λ ix, {|
            ii_programAddress := accountTable !! ci_programAddressIndex ix;
            ii_accounts := Some (map (λ i, accountTable !! i) (default [] (ci_accountIndices ix)));
            ii_data := Some (default [] (ci_data ix)) |}) ixs
      end
  end.

Record velocity_thresholds : Type := { vt_maxTxPerHour : option Z; vt_maxUsdPerHour : option Z }.

(** [now1] and [now2] are the two readings of the clock. *)
Definition checkVelocityCeiling (now1 now2 : Z) (st : ShieldState) (ixs : list InspectableInstruction)
    (signer : string) (thresholds : velocity_thresholds) : result shield_exn unit :=
  _ ← match vt_maxTxPerHour thresholds with
      | None => Ok tt
      | Some max =>
          throw_if (max <=? getTransactionCountInWindow now1 3600000 st)
            (ShieldDeniedError [velocity_ceiling])
      end;
  match vt_maxUsdPerHour thresholds with
  | None => Ok tt
  | Some max =>
      let projectedSpend := getTotalSpendInWindow now2 3600000 st +
                            ia_estimatedValue (analyzeInstructions ixs signer) in
      throw_if (max <? projectedSpend) (ShieldDeniedError [velocity_ceiling])
  end.

Fixpoint matchesDiscriminator (data disc : list Z) : bool :=
  match disc, data with
  | [], _ => true
  | _ :: _, [] => false
  | d :: disc, x :: data => (x =? d) && matchesDiscriminator data disc
  end.

Definition has_discriminator (data : option (list Z)) (disc : list Z) : bool :=
  match data with
  | None => false
  | Some data => bool_decide (8 ≤ length data)%nat && matchesDiscriminator data disc
  end.

Inductive severity : Type := soft | hard.

(** A failed check throws when the severity is hard and only warns otherwise. *)
Definition binding_failure (s : severity) : result shield_exn unit :=
  match s with hard => Throw (ShieldDeniedError [session_binding]) | soft => Ok tt end.

Definition sigil_ixs (msg : CompiledMessage) (programAddress : string) : list CompiledIx :=
  filter (λ ix, cm_staticAccounts msg !! ci_programAddressIndex ix = Some programAddress)
    (cm_instructions msg).

Definition checkSessionBinding (tx : transaction) (programAddress : string) (s : severity)
    : result shield_exn unit :=
  match tx with
  | None => binding_failure s
  | Some msg =>
      match cm_staticAccounts msg, cm_instructions msg with
      | [], _ | _, [] => binding_failure s
      | _, _ =>
          match sigil_ixs msg programAddress with
          | [] => binding_failure s
          | first :: rest =>
              let last_ := List.last rest first in
              if has_discriminator (ci_data first) VALIDATE_AND_AUTHORIZE_DISCRIMINATOR &&
                 has_discriminator (ci_data last_) FINALIZE_SESSION_DISCRIMINATOR
              then Ok tt else binding_failure s
          end
      end
  end.

Record ShieldedSignerOptions : Type := {
  so_velocityThresholds : option velocity_thresholds;
  so_simulate : bool;   (* [rpc] given and [skipSimulation] not set *)
  so_sessionContext : bool;
  so_severity : option severity;
  so_altCache : option alt_cache;
}.

(** The readings of the clock for one transaction of a batch. *)
Record gate_clock : Type := {
  gc_velocity1 : Z; gc_velocity2 : Z; gc_check : nat → Z; gc_record : nat → readings }.

(** A network name that is set and not empty. *)
Definition truthy (n : option string) : option string :=
  s ← n; if bool_decide (s = "") then None else Some s.

Section Gate.
(** [simulate tx]: encoding and simulation of the transaction both succeed. *)
Context (simulate : transaction → bool).
Context (signer : string) (opts : ShieldedSignerOptions).

(** The gates of one transaction, up to the recording. *)
Definition gate (clk : gate_clock) (tx : transaction) (c : ShieldedContext)
    : result shield_exn (list InspectableInstruction) :=
  let ixs := extractInstructionsFromCompiled tx (so_altCache opts) in
  _ ← match so_velocityThresholds opts with
      | None => Ok tt
      | Some t => checkVelocityCeiling (gc_velocity1 clk) (gc_velocity2 clk) (state c) ixs signer t
      end;
  _ ← throw_if (so_simulate opts && negb (simulate tx)) (ShieldDeniedError [simulation]);
  r ← check (gc_check clk) ixs signer c;
  _ ← throw_if (negb (allowed r)) (ShieldDeniedError (violations r));
  _ ← (if so_sessionContext opts
       then checkSessionBinding tx SIGIL_PROGRAM_ADDRESS (default hard (so_severity opts))
       else Ok tt);
  Ok ixs.

Definition record (clk : gate_clock) (ixs : list InspectableInstruction) (c : ShieldedContext)
    : ShieldedContext :=
  let ts := ia_tokenTransfers (analyzeInstructions ixs signer) in
  let st := record_transfers (gc_record clk) 0 signer ts (state c) in
  let st := recordTransaction (gc_record clk (length ts)) st in
  with_state c (record_usd signer ts (truthy (network st)) st).

(** The loop over the batch: the context reached, and the error if any. *)
Fixpoint gate_all (txs : list (gate_clock * transaction)) (c : ShieldedContext)
    : ShieldedContext * result shield_exn unit :=
  match txs with
  | [] => (c, Ok tt)
  | (clk, tx) :: txs =>
      match gate clk tx c with
      | Throw e => (c, Throw e)
      | Ok ixs => gate_all txs (record clk ixs c)
      end
  end.

(** [modifyAndSignTransactions]: [sign] is the base signer. *)
Definition modifyAndSignTransactions {R} (sign : list transaction → result shield_exn R)
    (txs : list (gate_clock * transaction)) (c : ShieldedContext)
    : ShieldedContext * result shield_exn R :=
  match gate_all txs c with
  | (c', Throw e) => (c', Throw e)
  | (c', Ok _) => (c', sign (map snd txs))
  end.
End Gate.

(** ** Lemmas *)

Lemma foldl_snoc_map {A B} (f : A → B) l acc :
  foldl (λ acc x, acc ++ [f x]) acc l = acc ++ map f l.
Proof.
  revert acc; induction l as [|x l IH]; intros acc; simpl; [by rewrite app_nil_r|].
  by rewrite IH, <- app_assoc.
Qed.

(** The accounts one lookup adds in a pass; none when its table is not cached. *)
Definition lookup_accounts (cache : alt_cache) (pick : AddressLookup → option (list nat))
    (l : AddressLookup) : list string :=
  match cache (al_lookupTableAddress l) with
  | None => []
  | Some resolved => map (λ idx, resolveAltIndex idx resolved) (default [] (pick l))
  end.

Lemma alt_pass_spec cache pick lookups table :
  alt_pass cache pick lookups table = table ++ flat_map (lookup_accounts cache pick) lookups.
Proof.
  unfold alt_pass. revert table; induction lookups as [|l ls IH]; intros table; simpl.
  { by rewrite app_nil_r. }
  rewrite IH. unfold lookup_accounts at 2. destruct (cache (al_lookupTableAddress l)) as [res|]; [|done].
  by rewrite foldl_snoc_map, <- app_assoc.
Qed.

Lemma matchesDiscriminator_prefix data disc :
  matchesDiscriminator data disc = true ↔ disc `prefix_of` data.
Proof.
  revert data; induction disc as [|d disc IH]; intros [|x data]; simpl.
  - split; [|done]. intros _. by exists [].
  - split; [|done]. intros _. apply prefix_nil.
  - split; [done|]. by intros ?%prefix_cons_nil_inv || intros [? [=]].
  - rewrite andb_true_iff, Z.eqb_eq, IH. split.
    + intros [-> H]. by apply prefix_cons.
    + intros H. split; [by apply prefix_cons_inv_1 in H|by apply prefix_cons_inv_2 in H].
Qed.

Lemma has_discriminator_prefix data disc :
  has_discriminator data disc = true → ∃ bs, data = Some bs ∧ disc `prefix_of` bs.
Proof.
  destruct data as [bs|]; [|done]. simpl. rewrite andb_true_iff.
  intros [_ H%matchesDiscriminator_prefix]. by exists bs.
Qed.

Lemma checkSessionBinding_hard tx prog :
  checkSessionBinding tx prog hard = Ok tt →
  ∃ msg first rest bs1 bs2, tx = Some msg ∧ sigil_ixs msg prog = first :: rest ∧
    ci_data first = Some bs1 ∧ VALIDATE_AND_AUTHORIZE_DISCRIMINATOR `prefix_of` bs1 ∧
    ci_data (List.last rest first) = Some bs2 ∧ FINALIZE_SESSION_DISCRIMINATOR `prefix_of` bs2.
Proof.
  unfold checkSessionBinding. destruct tx as [msg|]; [|done].
  destruct (cm_staticAccounts msg); [done|]. destruct (cm_instructions msg); [done|].
  destruct (sigil_ixs msg prog) as [|first rest] eqn:Hs; [done|].
  destruct (has_discriminator (ci_data first) _) eqn:H1; [|done].
  destruct (has_discriminator (ci_data (List.last rest first)) _) eqn:H2; [|done]. intros _.
  apply has_discriminator_prefix in H1 as (bs1 & ? & ?), H2 as (bs2 & ? & ?).
  by exists msg, first, rest, bs1, bs2.
Qed.

Section GateLemmas.
Context (simulate : transaction → bool) (signer : string) (opts : ShieldedSignerOptions).

(** What passing the gate means. *)
Definition gate_passed (clk : gate_clock) (tx : transaction) (c : ShieldedContext) : Prop :=
  let ixs := extractInstructionsFromCompiled tx (so_altCache opts) in
  paused c = false ∧
  permitted (gc_check clk) (analyzeInstructions ixs signer) signer (resolved c) (state c)
    (syncNetwork c) ∧
  (so_simulate opts = true → simulate tx = true) ∧
  (so_sessionContext opts = true → so_severity opts ≠ Some soft →
     checkSessionBinding tx SIGIL_PROGRAM_ADDRESS hard = Ok tt) ∧
  (∀ t max, so_velocityThresholds opts = Some t → vt_maxTxPerHour t = Some max →
     window_count (gc_velocity1 clk - 3600000) (txEntries (state c)) < max) ∧
  (∀ t max, so_velocityThresholds opts = Some t → vt_maxUsdPerHour t = Some max →
     getTotalSpendInWindow (gc_velocity2 clk) 3600000 (state c) +
       ia_estimatedValue (analyzeInstructions ixs signer) ≤ max).

Lemma velocity_Ok n1 n2 st ixs t :
  checkVelocityCeiling n1 n2 st ixs signer t = Ok tt →
  (∀ max, vt_maxTxPerHour t = Some max → window_count (n1 - 3600000) (txEntries st) < max) ∧
  (∀ max, vt_maxUsdPerHour t = Some max → getTotalSpendInWindow n2 3600000 st +
     ia_estimatedValue (analyzeInstructions ixs signer) ≤ max).
Proof.
  unfold checkVelocityCeiling. intros H. apply bind_Ok_inv in H as (u & H1 & H2). split.
  - intros max Hm. rewrite Hm in H1. apply throw_if_Ok in H1.
    rewrite shield_getTransactionCountInWindow_eq in H1. lia.
  - intros max Hm. rewrite Hm in H2. apply throw_if_Ok in H2. lia.
Qed.

Lemma gate_Ok clk tx c ixs :
  gate simulate signer opts clk tx c = Ok ixs →
  ixs = extractInstructionsFromCompiled tx (so_altCache opts) ∧ gate_passed clk tx c.
Proof.
  unfold gate, gate_passed. set (ix := extractInstructionsFromCompiled tx _). intros H.
  apply bind_Ok_inv in H as ([] & Hv & H). apply bind_Ok_inv in H as ([] & Hs & H).
  apply bind_Ok_inv in H as (r & Hc & H). apply bind_Ok_inv in H as ([] & Ha & H).
  apply bind_Ok_inv in H as ([] & Hb & H). injection H as <-. split; [done|].
  apply throw_if_Ok in Hs, Ha. apply negb_false_iff in Ha.
  assert (Hpr : paused c = false ∧ permitted (gc_check clk) (analyzeInstructions ix signer) signer
    (resolved c) (state c) (syncNetwork c)).
  { unfold check in Hc. destruct (paused c); [injection Hc as <-; done|]. split; [done|].
    apply bind_Ok_inv in Hc as ([vs a] & He & Hc). injection Hc as <-. simpl in Ha.
    apply bool_decide_eq_true in Ha. apply evaluateInstructions_nil in He as [-> Hp].
    apply Hp. by destruct vs. }
  destruct Hpr as [Hpa Hpe]. split_and!; [done|done| | | |].
  - intros Hsim. rewrite Hsim in Hs. by destruct (simulate tx).
  - intros Hctx Hsev. rewrite Hctx in Hb. by destruct (so_severity opts) as [[]|].
  - intros t max Ht Hm. rewrite Ht in Hv. apply velocity_Ok in Hv as [Hv _]. by apply Hv.
  - intros t max Ht Hm. rewrite Ht in Hv. apply velocity_Ok in Hv as [_ Hv]. by apply Hv.
Qed.

Lemma gate_all_app pre post c :
  gate_all simulate signer opts (pre ++ post) c =
  match gate_all simulate signer opts pre c with
  | (c', Ok _) => gate_all simulate signer opts post c'
  | (c', Throw e) => (c', Throw e)
  end.
Proof.
  revert c; induction pre as [|[clk tx] pre IH]; intros c; simpl; [done|].
  destruct (gate simulate signer opts clk tx c); [apply IH|done].
Qed.
End GateLemmas.

(** ** Properties *)

(** C4: The base signer is reached only through the gate: if a batch yields a
    signature result, then every transaction of it passed, in the state left
    by the ones before it, the pause, the policy check, the velocity ceilings,
    the simulation when one is configured, and a hard session binding when a
    session is. *)
Theorem signed_batches_passed_every_gate {R} simulate signer opts
    (sign : list transaction → result shield_exn R) txs c c' r pre clk tx post :
  modifyAndSignTransactions simulate signer opts sign txs c = (c', Ok r) →
  txs = pre ++ (clk, tx) :: post →
  ∃ ck, gate_all simulate signer opts pre c = (ck, Ok tt) ∧
    gate_passed simulate signer opts clk tx ck.
Proof.
  unfold modifyAndSignTransactions. intros H ->. rewrite gate_all_app in H.
  destruct (gate_all simulate signer opts pre c) as [ck [[]|e]]; [|done].
  exists ck. split; [done|]. simpl in H.
  destruct (gate simulate signer opts clk tx ck) as [ixs|e] eqn:Hg; [|done].
  by apply gate_Ok in Hg as [_ Hg].
Qed.

(** With the default (hard) severity, a transaction passes the session
    binding only if it has Sigil instructions, the first of which starts with
    the validate-and-authorize discriminator and the last with finalize-session. *)
Theorem session_binding_is_a_sandwich tx prog :
  checkSessionBinding tx prog hard = Ok tt →
  ∃ msg first rest bs1 bs2, tx = Some msg ∧ sigil_ixs msg prog = first :: rest ∧
    ci_data first = Some bs1 ∧ VALIDATE_AND_AUTHORIZE_DISCRIMINATOR `prefix_of` bs1 ∧
    ci_data (List.last rest first) = Some bs2 ∧ FINALIZE_SESSION_DISCRIMINATOR `prefix_of` bs2.
Proof. apply checkSessionBinding_hard. Qed.

(** The account table of a message with lookups is the static accounts, then
    the writable accounts of all lookups in order, then the read-only ones of
    all lookups in order, so that an index means what the runtime takes it to
    mean; an index past a cached table becomes the system program. *)
Theorem account_table_order msg cache :
  account_table msg (Some cache) =
  cm_staticAccounts msg ++
  flat_map (lookup_accounts cache al_writableIndexes) (cm_addressTableLookups msg) ++
  flat_map (lookup_accounts cache al_readonlyIndexes) (cm_addressTableLookups msg).
Proof.
  unfold account_table. destruct (cm_addressTableLookups msg) as [|l ls]; [by rewrite app_nil_r|].
  by rewrite !alt_pass_spec, <- app_assoc.
Qed.

(** ** Witness data *)

Definition demo_opts : ShieldedSignerOptions := {|
  so_velocityThresholds := Some {| vt_maxTxPerHour := Some 3; vt_maxUsdPerHour := Some 1000 |};
  so_simulate := true; so_sessionContext := true; so_severity := None; so_altCache := None |}.

Definition demo_tx (amount : Z) : transaction := Some {|
  cm_staticAccounts := ["me"; SIGIL_PROGRAM_ADDRESS; TOKEN_PROGRAM_ADDRESS; "src"; USDC_MINT_MAINNET;
                        "dst"];
  cm_instructions := [
    {| ci_programAddressIndex := 1; ci_accountIndices := None;
       ci_data := Some VALIDATE_AND_AUTHORIZE_DISCRIMINATOR |};
    {| ci_programAddressIndex := 2; ci_accountIndices := Some [3; 4; 5; 0]%nat;
       ci_data := Some (12 :: le_bytes 8 amount ++ [6]) |};
    {| ci_programAddressIndex := 1; ci_accountIndices := None;
       ci_data := Some FINALIZE_SESSION_DISCRIMINATOR |}];
  cm_addressTableLookups := [] |}.

Definition demo_clk (n : Z) : gate_clock := {|
  gc_velocity1 := n; gc_velocity2 := n; gc_check := λ _, n; gc_record := demo_rd n |}.

Definition demo_sign : list transaction → result shield_exn nat := λ txs, Ok (length txs).

Lemma signed_batches_passed_every_gate_witness :
  modifyAndSignTransactions (λ _, true) "me" demo_opts demo_sign [(demo_clk 6, demo_tx 60)]
    (demo_ctx None) = (record "me" (demo_clk 6)
      (extractInstructionsFromCompiled (demo_tx 60) None) (demo_ctx None), Ok 1%nat) ∧
  ∃ ck, gate_all (λ _, true) "me" demo_opts [] (demo_ctx None) = (ck, Ok tt) ∧
    gate_passed (λ _, true) "me" demo_opts (demo_clk 6) (demo_tx 60) ck.
Proof.
  split; [vm_compute; reflexivity|].
  eapply (signed_batches_passed_every_gate (λ _, true) "me" demo_opts demo_sign
    [(demo_clk 6, demo_tx 60)] (demo_ctx None) _ 1%nat [] (demo_clk 6) (demo_tx 60) []);
    [vm_compute; reflexivity|done].
Defined.

Lemma session_binding_is_a_sandwich_witness :
  checkSessionBinding (demo_tx 60) SIGIL_PROGRAM_ADDRESS hard = Ok tt ∧
  ∃ msg first rest bs1 bs2, demo_tx 60 = Some msg ∧
    sigil_ixs msg SIGIL_PROGRAM_ADDRESS = first :: rest ∧
    ci_data first = Some bs1 ∧ VALIDATE_AND_AUTHORIZE_DISCRIMINATOR `prefix_of` bs1 ∧
    ci_data (List.last rest first) = Some bs2 ∧ FINALIZE_SESSION_DISCRIMINATOR `prefix_of` bs2.
Proof.
  split; [vm_compute; reflexivity|].
  apply (session_binding_is_a_sandwich (demo_tx 60) SIGIL_PROGRAM_ADDRESS). vm_compute. reflexivity.
Defined.

(** A batch rejected at its second transaction is not signed, yet the spend
    and the transaction count of its first one stay recorded: the gate takes no
    checkpoint. *)
Theorem rejected_batch_keeps_spend :
  let result := modifyAndSignTransactions (λ _, true) "me" demo_opts demo_sign
    [(demo_clk 6, demo_tx 60); (demo_clk 6, demo_tx 60)] (demo_ctx None) in
  is_ok result.2 = false ∧
  getSpendInWindow 6 USDC_MINT_MAINNET 86400000 (state result.1) = 60 ∧
  getTransactionCountInWindow 6 1000 (state result.1) = 1.
Proof. vm_compute. done. Qed.
