(* ===== verification/VelocityTracker.v ===== *)
(** * The velocity tracker ([sdk/kit/src/velocity-tracker.ts])

    Transaction-rate, hourly-spend and rapid-fire checks over a shared shield
    state, with a cooldown after a breach.  The tracker mutates its own fields
    even when it throws, so [check] returns the tracker together with the
    outcome.  The readings of the clock are arguments.

    The theorems: a check passes exactly when the tracker is out of its
    cooldown and nothing is breached; a breach starts a cooldown during which
    every check is refused; accepted checks never reach the rapid-fire count
    within the rapid-fire window; a dry run never adds a timestamp, but it can
    start a cooldown. *)

From Stdlib Require String.
From S2P Require Import Prelude SpendLog SdkTypes StateResolver Shield.
Import Shield.

Local Open Scope Z_scope.

Record VelocityConfig : Type := {
  vc_maxTxPerMinute : Z;
  vc_maxTxPerHour : Z;
  vc_maxUsdPerHour : Z;
  vc_rapidCount : Z;
  vc_rapidWindowMs : Z;
  vc_cooldownMs : Z;
}.

(** The optional fields of the constructor's argument. *)
Record VelocityOptions : Type := {
  vo_maxTxPerMinute : option Z;
  vo_maxTxPerHour : option Z;
  vo_maxUsdPerHour : option Z;
  vo_rapidFireThreshold : option (Z * Z);
  vo_cooldownMs : option Z;
}.

Definition DEFAULT_CONFIG : VelocityConfig := {|
  vc_maxTxPerMinute := 10; vc_maxTxPerHour := 60; vc_maxUsdPerHour := 500000000;
  vc_rapidCount := 5; vc_rapidWindowMs := 10000; vc_cooldownMs := 30000 |}.

Record VelocityTracker : Type := {
  vt_config : VelocityConfig;
  vt_cooldownUntil : Z;
  vt_txTimestamps : list Z;
}.

Definition new_VelocityTracker (o : VelocityOptions) : VelocityTracker := {|
  vt_config := {|
    vc_maxTxPerMinute := default (vc_maxTxPerMinute DEFAULT_CONFIG) (vo_maxTxPerMinute o);
    vc_maxTxPerHour := default (vc_maxTxPerHour DEFAULT_CONFIG) (vo_maxTxPerHour o);
    vc_maxUsdPerHour := default (vc_maxUsdPerHour DEFAULT_CONFIG) (vo_maxUsdPerHour o);
    vc_rapidCount := default (vc_rapidCount DEFAULT_CONFIG) (fst <$> vo_rapidFireThreshold o);
    vc_rapidWindowMs := default (vc_rapidWindowMs DEFAULT_CONFIG) (snd <$> vo_rapidFireThreshold o);
    vc_cooldownMs := default (vc_cooldownMs DEFAULT_CONFIG) (vo_cooldownMs o) |};
  vt_cooldownUntil := 0; vt_txTimestamps := [] |}.

Inductive velocity_violation : Type :=
| velocity_cooldown
| velocity_tx_per_minute
| velocity_tx_per_hour
| velocity_usd_per_hour
| velocity_on_chain_cap
| velocity_rapid_fire.

Inductive velocity_exn : Type := VelocityDenied (vs : list velocity_violation).

(** The readings of the clock in one check. *)
Record check_clock : Type := {
  cc_cooldown : Z; cc_minute : Z; cc_hour : Z; cc_usd : Z; cc_now : Z }.

Definition isInCooldown (now : Z) (t : VelocityTracker) : bool := now <? vt_cooldownUntil t.

Definition getCooldownRemainingMs (now : Z) (t : VelocityTracker) : Z :=
  let remaining := vt_cooldownUntil t - now in if 0 <? remaining then remaining else 0.

(** Checks 1 to 3b, on the shared state. *)
Definition state_violations (clk : check_clock) (cfg : VelocityConfig) (st : ShieldState)
    : list velocity_violation :=
  (if vc_maxTxPerMinute cfg <=? getTransactionCountInWindow (cc_minute clk) 60000 st
   then [velocity_tx_per_minute] else []) ++
  (if vc_maxTxPerHour cfg <=? getTransactionCountInWindow (cc_hour clk) 3600000 st
   then [velocity_tx_per_hour] else []) ++
  (if vc_maxUsdPerHour cfg <=? getTotalSpendInWindow (cc_usd clk) 3600000 st
   then [velocity_usd_per_hour] else []) ++
  match resolvedState st with
  | None => []
  | Some rs => if cap (rs_globalBudget rs) <=? getEffectiveGlobalSpent24h st
               then [velocity_on_chain_cap] else []
  end.

Definition velocity_check (clk : check_clock) (dryRun : bool) (st : ShieldState) (t : VelocityTracker)
    : VelocityTracker * result velocity_exn unit :=
  let cfg := vt_config t in
  if isInCooldown (cc_cooldown clk) t then (t, Throw (VelocityDenied [velocity_cooldown])) else
  let violations := state_violations clk cfg st in
  let now := cc_now clk in
  let cutoff := now - vc_rapidWindowMs cfg in
  let txTimestamps := filter (λ x, cutoff ≤ x) (vt_txTimestamps t) in
  let wouldBeCount := Z.of_nat (length txTimestamps) + 1 in
  let violations := violations ++
    (if vc_rapidCount cfg <=? wouldBeCount then [velocity_rapid_fire] else []) in
  match violations with
  | _ :: _ =>
      ({| vt_config := cfg; vt_cooldownUntil := now + vc_cooldownMs cfg;
          vt_txTimestamps := txTimestamps |}, Throw (VelocityDenied violations))
  | [] =>
      ({| vt_config := cfg; vt_cooldownUntil := vt_cooldownUntil t;
          vt_txTimestamps := if dryRun then txTimestamps else txTimestamps ++ [now] |}, Ok tt)
  end.

(** [recordTransaction(usdAmount)]: writes to the shared state only. *)
Definition velocity_record (r1 r2 : readings) (usdAmount : option Z) (st : ShieldState) : ShieldState :=
  let st := recordTransaction r1 st in
  match usdAmount with None => st | Some a => recordSpend r2 "" a st end.

Definition velocity_reset (t : VelocityTracker) : VelocityTracker :=
  {| vt_config := vt_config t; vt_cooldownUntil := 0; vt_txTimestamps := [] |}.

Record SpendStatus : Type := {
  sst_globalSpent24h : Z; sst_globalCap : option Z; sst_globalRemaining : option Z;
  sst_agentSpent24h : option Z; sst_agentCap : option Z; sst_onChain : bool }.

Definition getSpendStatus (now : Z) (st : ShieldState) : SpendStatus :=
  match resolvedState st with
  | Some rs => {|
      sst_globalSpent24h := getEffectiveGlobalSpent24h st;
      sst_globalCap := Some (cap (rs_globalBudget rs));
      sst_globalRemaining := getEffectiveGlobalRemaining st;
      sst_agentSpent24h := getEffectiveAgentSpent24h st;
      sst_agentCap := cap <$> rs_agentBudget rs; sst_onChain := true |}
  | None => {|
      sst_globalSpent24h := getTotalSpendInWindow now 86400000 st;
      sst_globalCap := None; sst_globalRemaining := None; sst_agentSpent24h := None;
      sst_agentCap := None; sst_onChain := false |}
  end.

(** ** Properties *)

(** A check that is not refused for a cooldown. *)
Definition breached (clk : check_clock) (st : ShieldState) (t : VelocityTracker) : Prop :=
  state_violations clk (vt_config t) st ≠ [] ∨
  vc_rapidCount (vt_config t) ≤
    window_count (cc_now clk - vc_rapidWindowMs (vt_config t)) (vt_txTimestamps t) + 1.

Lemma velocity_check_cases clk dry st t :
  let '(t', r) := velocity_check clk dry st t in
  vt_config t' = vt_config t ∧
  ((isInCooldown (cc_cooldown clk) t = true ∧ t' = t ∧ r = Throw (VelocityDenied [velocity_cooldown])) ∨
   (isInCooldown (cc_cooldown clk) t = false ∧ breached clk st t ∧
    vt_cooldownUntil t' = cc_now clk + vc_cooldownMs (vt_config t) ∧ is_ok r = false) ∨
   (isInCooldown (cc_cooldown clk) t = false ∧ ¬ breached clk st t ∧ r = Ok tt ∧
    vt_cooldownUntil t' = vt_cooldownUntil t ∧
    vt_txTimestamps t' =
      filter (λ x, cc_now clk - vc_rapidWindowMs (vt_config t) ≤ x) (vt_txTimestamps t) ++
      (if dry then [] else [cc_now clk]))).
Proof.
  unfold velocity_check, breached, window_count. destruct (isInCooldown (cc_cooldown clk) t); [naive_solver|].
  destruct (state_violations clk (vt_config t) st) as [|v vs]; simpl; cycle 1.
  { split; [done|]. right; left. split_and!; try done. by left. }
  set (n := Z.of_nat (length (filter _ (vt_txTimestamps t)))).
  destruct (Z.leb_spec (vc_rapidCount (vt_config t)) (n + 1)).
  - split; [done|]. right; left. split_and!; try done. by right.
  - split; [done|]. right; right. split_and!; try done.
    + intros [?|?]; [done|lia].
    + destruct dry; [by rewrite app_nil_r|done].
Qed.

(** A velocity check succeeds exactly when the tracker is out of its cooldown
    and none of the rate, hourly-spend, on-chain-cap and rapid-fire checks is
    breached. *)
Theorem velocity_check_specified clk dry st t :
  (velocity_check clk dry st t).2 = Ok tt ↔
  isInCooldown (cc_cooldown clk) t = false ∧ ¬ breached clk st t.
Proof.
  pose proof (velocity_check_cases clk dry st t) as H.
  destruct (velocity_check clk dry st t) as [t' r]. simpl.
  destruct H as [_ [(H1 & _ & ->)|[(H1 & Hb & _ & Hr)|(H1 & Hb & -> & _)]]].
  - split; [done|]. intros [? _]. congruence.
  - split; [by intros ->|]. intros [_ ?]. done.
  - done.
Qed.

(** A breach puts the tracker in cooldown: every later check whose reading of
    the clock is before the end of the cooldown is refused, whatever the state,
    dry run or not, and does not extend the cooldown. *)
Theorem breach_starts_cooldown clk dry st t clk' dry' st' :
  isInCooldown (cc_cooldown clk) t = false → breached clk st t →
  let t' := (velocity_check clk dry st t).1 in
  cc_cooldown clk' < cc_now clk + vc_cooldownMs (vt_config t) →
  velocity_check clk' dry' st' t' = (t', Throw (VelocityDenied [velocity_cooldown])).
Proof.
  intros Hc Hb t' Hn. pose proof (velocity_check_cases clk dry st t) as H. unfold t' in *. clear t'.
  destruct (velocity_check clk dry st t) as [t' r]. simpl.
  destruct H as [_ [(H1 & _)|[(_ & _ & Hu & _)|(_ & ? & _)]]]; [congruence| |done].
  unfold velocity_check, isInCooldown. by rewrite (proj2 (Z.ltb_lt _ _)) by (rewrite Hu; done).
Qed.

Section RapidFire.
(** Accepted checks of one tracker, dry runs and refused ones in between, on
    a clock that never runs backwards; [ts] are the times of the accepted
    checks that were not dry runs. *)
Inductive checks (t0 : VelocityTracker) : list Z → VelocityTracker → Z → Prop :=
| checks_start now : vt_txTimestamps t0 = [] → checks t0 [] t0 now
| checks_step ts t now clk dry st t' r :
    checks t0 ts t now → now ≤ cc_now clk → velocity_check clk dry st t = (t', r) →
    checks t0 (if is_ok r && negb dry then ts ++ [cc_now clk] else ts) t' (cc_now clk).

Lemma window_count_keep c d ts :
  c ≤ d → window_count d (filter (λ x, c ≤ x) ts) = window_count d ts.
Proof. apply window_count_filter. Qed.

Lemma checks_log t0 ts t now :
  checks t0 ts t now →
  vt_config t = vt_config t0 ∧ Forall (λ x, x ≤ now) ts ∧
  (∀ d, now - vc_rapidWindowMs (vt_config t0) ≤ d →
     window_count d (vt_txTimestamps t) = window_count d ts).
Proof.
  induction 1 as [now Hs|ts t now clk dry st t' r _ (IHc & IHb & IHw) Hn Hv].
  - split_and!; [done|constructor|]. intros. by rewrite Hs.
  - pose proof (velocity_check_cases clk dry st t) as H. rewrite Hv in H.
    assert (Hb' : Forall (λ x, x ≤ cc_now clk) ts).
    { eapply Forall_impl; [exact IHb|]. simpl. intros; lia. }
    destruct H as [Hcfg H]. split; [congruence|]. rewrite IHc in H.
    destruct H as [(_ & -> & ->)|[(_ & Hbr & Hu & Hr)|(_ & _ & -> & _ & Hts)]].
    + split; [done|]. intros d Hd. apply IHw. lia.
    + rewrite Hr. simpl. split; [done|]. intros d Hd.
      assert (vt_txTimestamps t' =
        filter (λ x, cc_now clk - vc_rapidWindowMs (vt_config t) ≤ x) (vt_txTimestamps t) ∨
        vt_txTimestamps t' = vt_txTimestamps t) as [E|E].
      { unfold velocity_check in Hv. destruct (isInCooldown _ _); [injection Hv as <- _; by right|].
        destruct (_ ++ _); injection Hv as <- <-; [done|by left]. }
      * rewrite E, window_count_keep by (rewrite IHc; lia). apply IHw. lia.
      * rewrite E. apply IHw. lia.
    + simpl. destruct dry; simpl.
      * split; [done|]. intros d Hd. rewrite Hts, app_nil_r, window_count_keep by lia. apply IHw. lia.
      * split; [apply Forall_app; split; [done|by repeat constructor]|].
        intros d Hd. rewrite Hts, !window_count_app, window_count_keep by lia.
        rewrite IHw by lia. done.
Qed.

Lemma checks_rapid t0 ts t now :
  checks t0 ts t now → 1 ≤ vc_rapidCount (vt_config t0) → 0 ≤ vc_rapidWindowMs (vt_config t0) →
  ∀ now', now ≤ now' →
  window_count (now' - vc_rapidWindowMs (vt_config t0)) ts < vc_rapidCount (vt_config t0).
Proof.
  intros H Hc Hw. induction H as [now Hs|ts t now clk dry st t' r Hrun IH Hn Hv]; intros now' Hn'.
  { unfold window_count. simpl. lia. }
  destruct (checks_log _ _ _ _ Hrun) as (Hcfg & _ & Hlog).
  pose proof (velocity_check_cases clk dry st t) as H. rewrite Hv in H. destruct H as [_ H].
  destruct (is_ok r && negb dry) eqn:E; [|apply IH; lia].
  apply andb_true_iff in E as [Hr Hd].
  destruct H as [(_ & _ & ->)|[(_ & _ & _ & Hf)|(_ & Hnb & -> & _)]]; [done|congruence|].
  unfold breached in Hnb. rewrite Hcfg in Hnb. rewrite window_count_app.
  rewrite Hlog in Hnb by lia.
  pose proof (window_count_mono (cc_now clk - vc_rapidWindowMs (vt_config t0))
    (now' - vc_rapidWindowMs (vt_config t0)) ts).
  pose proof (window_count_length (now' - vc_rapidWindowMs (vt_config t0)) [cc_now clk]). simpl in *.
  destruct (Z.le_gt_cases (vc_rapidCount (vt_config t0))
    (window_count (cc_now clk - vc_rapidWindowMs (vt_config t0)) ts + 1)); [|lia].
  exfalso. apply Hnb. by right.
Qed.
End RapidFire.

(** Over every sequence of checks on a forward-moving clock, the accepted ones
    (dry runs apart) within any rapid-fire window stay below the rapid-fire
    count. *)
Theorem rapid_fire_bounded t0 ts t now now' :
  checks t0 ts t now → 1 ≤ vc_rapidCount (vt_config t0) → 0 ≤ vc_rapidWindowMs (vt_config t0) →
  now ≤ now' →
  window_count (now' - vc_rapidWindowMs (vt_config t0)) ts < vc_rapidCount (vt_config t0).
Proof. intros. by eapply checks_rapid. Qed.

Definition demo_vt : VelocityTracker := new_VelocityTracker {|
  vo_maxTxPerMinute := None; vo_maxTxPerHour := None; vo_maxUsdPerHour := None;
  vo_rapidFireThreshold := Some (2, 1000); vo_cooldownMs := None |}.

Definition demo_cc (n : Z) : check_clock :=
  {| cc_cooldown := n; cc_minute := n; cc_hour := n; cc_usd := n; cc_now := n |}.

Lemma rapid_fire_bounded_witness : window_count (60 - 1000) [50] < 2.
Proof.
  apply (rapid_fire_bounded demo_vt [50] (velocity_check (demo_cc 50) false new_state demo_vt).1 50 60);
    [|by vm_compute|by vm_compute|lia].
  apply (checks_step demo_vt [] demo_vt 40 (demo_cc 50) false new_state _ (Ok tt)).
  - by constructor.
  - vm_compute. discriminate.
  - vm_compute. reflexivity.
Defined.

(** A dry run never adds a timestamp, but a dry run that meets a breach starts
    a cooldown, after which real checks are refused: a pre-check is not free of
    effects. *)
Theorem dry_run_can_start_cooldown clk st t :
  (length (vt_txTimestamps (velocity_check clk true st t).1) ≤ length (vt_txTimestamps t))%nat ∧
  (isInCooldown (cc_cooldown clk) t = false → breached clk st t → 0 < vc_cooldownMs (vt_config t) →
   isInCooldown (cc_now clk) (velocity_check clk true st t).1 = true).
Proof.
  split.
  - unfold velocity_check. destruct (isInCooldown _ _); [done|].
    destruct (_ ++ _); simpl; apply length_filter.
  - intros Hc Hb Hp. pose proof (velocity_check_cases clk true st t) as H.
    destruct (velocity_check clk true st t) as [t' r]. simpl.
    destruct H as [_ [(H1 & _)|[(_ & _ & Hu & _)|(_ & ? & _)]]]; [congruence| |done].
    unfold isInCooldown. rewrite Hu. lia.
Qed.

Definition demo_vt1 : VelocityTracker := (velocity_check (demo_cc 50) false new_state demo_vt).1.

Lemma dry_run_can_start_cooldown_witness :
  isInCooldown 60 (velocity_check (demo_cc 60) true new_state demo_vt1).1 = true.
Proof.
  apply (dry_run_can_start_cooldown (demo_cc 60) new_state demo_vt1); [reflexivity| |by vm_compute].
  right. vm_compute. discriminate.
Defined.

Lemma breach_starts_cooldown_witness :
  let t' := (velocity_check (demo_cc 60) false new_state demo_vt1).1 in
  velocity_check (demo_cc 30059) false new_state t' = (t', Throw (VelocityDenied [velocity_cooldown])).
Proof.
  apply (breach_starts_cooldown (demo_cc 60) false new_state demo_vt1 (demo_cc 30059) false new_state);
    [reflexivity| |by vm_compute].
  right. vm_compute. discriminate.
Defined.
