(* ===== verification/X402.v ===== *)
(** * x402 payments: guards ([sdk/kit/src/x402])

    The replay guard ([nonce-tracker.ts]), the amount guard
    ([amount-guard.ts]), the option selector ([payment-selector.ts]), the
    header schema ([codec.ts]) and the settlement check
    ([facilitator-verify.ts]).

    The WHATWG URL parser, base64 with [JSON.parse], and the on-chain
    confirmation poll are arguments; readings of the clock are arguments. *)

From Stdlib Require String.
From S2P Require Import Prelude JsText SdkTypes.

Local Open Scope Z_scope.

(** The errors of the x402 modules. *)
Inductive x402_exn : Type :=
| X402ReplayError (key : string)
| X402PaymentError (reason : string)
| X402UnsupportedError
| X402DestinationBlockedError (payTo : string)
| X402ParseError (reason : string)
| X402Js (e : js_exn).

Record PaymentRequirements : Type := {
  pr_scheme : string;
  pr_network : string;
  pr_asset : string;
  pr_amount : string;
  pr_payTo : string;
}.

Record X402Config : Type := {
  xc_allowedDestinations : option (gset string);
  xc_allowedTokens : option (gset string);
  xc_maxPaymentPerRequest : option Z;
  xc_maxCumulativeSpend : option Z;
  xc_cumulativeWindowMs : option Z;
  xc_maxRetries : option Z;
  xc_enableReplayProtection : option bool;
  xc_allowInsecureUrls : option bool;
  xc_confirmPayment : option bool;
}.

(** ** Replay guard *)

Definition DEFAULT_TTL_MS : Z := 5 * 60 * 1000.

(** The pluggable persistent storage of the caller. *)
Class NonceStorage (E : Type) : Type := {
  nonce_has : E → string → bool;
  nonce_set : E → string → Z → E;
}.

(** [s.replace(/\/$/, "")] *)
Definition strip_slash (s : string) : string :=
  match reverse (chars s) with
  | "/"%char :: cs => text (reverse cs)
  | _ => s
  end.

Section Nonce.
Context {E : Type} `{NonceStorage E}.

(** The in-memory map from keys to expiry times, the time to live, and the
    external storage when there is one. *)
Record NonceTracker : Type := {
  nt_entries : gmap string Z;
  nt_ttlMs : Z;
  nt_external : option E;
}.

Definition new_NonceTracker (ttlMs : option Z) (ext : option E) : NonceTracker :=
  {| nt_entries := ∅; nt_ttlMs := default DEFAULT_TTL_MS ttlMs; nt_external := ext |}.

Definition with_entries (t : NonceTracker) (m : gmap string Z) : NonceTracker :=
  {| nt_entries := m; nt_ttlMs := nt_ttlMs t; nt_external := nt_external t |}.

Definition gc (now : Z) (t : NonceTracker) : NonceTracker :=
  with_entries t (filter (λ '(_, ts), now ≤ ts) (nt_entries t)).

(** [parseUrl u]: the URL without its query, as text; [None] when [new URL]
    throws. *)
Context (parseUrl : string → option string).

Definition normalizedUrl (url : string) : string :=
  match parseUrl url with Some p => strip_slash p | None => url end.

Definition buildKey (url payTo amount : string) : string :=
  normalizedUrl url +:+ "|" +:+ payTo +:+ "|" +:+ amount.

Definition isDuplicate (now : Z) (url payTo amount : string) (t : NonceTracker)
    : NonceTracker * bool :=
  let t := gc now t in
  let key := buildKey url payTo amount in
  (t, match nt_entries t !! key with
      | Some _ => true
      | None => match nt_external t with Some e => nonce_has e key | None => false end
      end).

Definition checkOrThrow (now : Z) (url payTo amount : string) (t : NonceTracker)
    : NonceTracker * result x402_exn unit :=
  let '(t, dup) := isDuplicate now url payTo amount t in
  (t, if dup then Throw (X402ReplayError (buildKey url payTo amount)) else Ok tt).

Definition record_nonce (now : Z) (url payTo amount : string) (t : NonceTracker) : NonceTracker :=
  let key := buildKey url payTo amount in
  let expiresAt := now + nt_ttlMs t in
  {| nt_entries := <[key := expiresAt]> (nt_entries t); nt_ttlMs := nt_ttlMs t;
     nt_external := (λ e, nonce_set e key expiresAt) <$> nt_external t |}.

Definition nonce_size (now : Z) (t : NonceTracker) : NonceTracker * nat :=
  let t := gc now t in (t, size (nt_entries t)).

Definition nonce_clear (t : NonceTracker) : NonceTracker := with_entries t ∅.
End Nonce.
Arguments NonceTracker : clear implicits.

(** ** Amount guard *)

Definition MAX_RECENT : nat := 20.
Definition SPIKE_MULTIPLIER : Z := 10.

Definition getMedian (arr : list Z) : Z :=
  let sorted := js_sort Z.leb arr in
  let mid := (length sorted / 2)%nat in
  if Nat.even (length sorted)
  then Z.quot ((sorted !!! (mid - 1)%nat) + (sorted !!! mid)) 2
  else sorted !!! mid.

Definition validatePaymentAmount (recentPayments : list Z) (amount : string)
    (config : option X402Config) : result x402_exn Z :=
  match BigInt amount with
  | None => Throw (X402PaymentError "not a valid integer")
  | Some parsed =>
      _ ← throw_if (parsed <=? 0) (X402PaymentError "must be positive");
      _ ← match c ← config; xc_maxPaymentPerRequest c with
          | Some max => throw_if (max <? parsed) (X402PaymentError "exceeds per-request ceiling")
          | None => Ok tt
          end;
      _ ← (if bool_decide (3 ≤ length recentPayments)%nat
           then let median := getMedian recentPayments in
                throw_if ((0 <? median) && (median * SPIKE_MULTIPLIER <? parsed))
                  (X402PaymentError "suspicious payment spike")
           else Ok tt);
      Ok parsed
  end.

Definition recordPaymentAmount (amount : Z) (recentPayments : list Z) : list Z :=
  let l := recentPayments ++ [amount] in
  if bool_decide (MAX_RECENT < length l)%nat then tail l else l.

(** ** Option selector *)

(** [set.has(x)] of an optional allowlist; no list allows everything. *)
Definition allows (s : option (gset string)) (x : string) : bool :=
  match s with None => true | Some s => bool_decide (x ∈ s) end.

(** The loop, with the options pushed so far and the blocked flag. *)
Fixpoint select_loop (config : option X402Config) (accepts : list PaymentRequirements)
    (solanaOptions : list PaymentRequirements) (hasBlocked : bool)
    : result x402_exn PaymentRequirements :=
  match accepts with
  | [] =>
      match solanaOptions with
      | first :: _ => if hasBlocked then Throw (X402DestinationBlockedError (pr_payTo first))
                      else Throw X402UnsupportedError
      | [] => Throw X402UnsupportedError
      end
  | option :: accepts =>
      if negb (startsWith (pr_network option) "solana:")
      then select_loop config accepts solanaOptions hasBlocked
      else if negb (allows (c ← config; xc_allowedTokens c) (pr_asset option))
      then select_loop config accepts solanaOptions hasBlocked
      else
        let solanaOptions := solanaOptions ++ [option] in
        if negb (allows (c ← config; xc_allowedDestinations c) (pr_payTo option))
        then select_loop config accepts solanaOptions true
        else Ok option
  end.

Definition selectPaymentOption (accepts : list PaymentRequirements) (config : option X402Config)
    : result x402_exn PaymentRequirements :=
  select_loop config accepts [] false.

(** ** Header schema *)

Inductive json : Type :=
| JNull | JBool (b : bool) | JNum (n : Z) | JStr (s : string)
| JArr (l : list json) | JObj (fields : list (string * json)).

(** [v.field]: reading a property of [null] throws; [None] is [undefined]. *)
Definition js_get (v : json) (field : string) : result x402_exn (option json) :=
  match v with
  | JNull => Throw (X402Js JsTypeError)
  | JObj fs => Ok (p ← list_find (λ p : string * json, p.1 = field) fs; Some p.2.2)
  | _ => Ok None
  end.

Definition str_field (entry : json) (field : string) : result x402_exn string :=
  v ← js_get entry field;
  match v with
  | Some (JStr s) => Ok s
  | _ => Throw (X402ParseError (field +:+ " must be a string"))
  end.

Definition check_amount (amount : string) : result x402_exn unit :=
  _ ← throw_if (bool_decide (amount = "")) (X402ParseError "amount must be a non-empty string");
  match BigInt amount with
  | None => Throw (X402ParseError "amount must be a valid integer string")
  | Some parsed =>
      _ ← throw_if (parsed <? 0) (X402ParseError "amount must be non-negative");
      throw_if (U64_MAX <? parsed) (X402ParseError "amount exceeds u64 max")
  end.

(** One entry of [accepts], in the order the checks are made. *)
Definition check_entry (entry : json) : result x402_exn PaymentRequirements :=
  scheme ← str_field entry "scheme";
  network ← str_field entry "network";
  asset ← str_field entry "asset";
  amount ← str_field entry "amount";
  _ ← check_amount amount;
  payTo ← str_field entry "payTo";
  Ok {| pr_scheme := scheme; pr_network := network; pr_asset := asset; pr_amount := amount;
        pr_payTo := payTo |}.

(** [decode header] is [JSON.parse(atob(header))]. *)
Definition decodePaymentRequiredHeader (decode : string → option json) (header : string)
    : result x402_exn (list PaymentRequirements) :=
  match decode header with
  | None => Throw (X402ParseError "failed to decode PAYMENT-REQUIRED header")
  | Some obj =>
      version ← js_get obj "x402Version";
      _ ← match version with
          | Some (JNum _) => Ok tt
          | _ => Throw (X402ParseError "x402Version must be a number")
          end;
      accepts ← js_get obj "accepts";
      match accepts with
      | Some (JArr (e :: es)) => mapM check_entry (e :: es)
      | _ => Throw (X402ParseError "accepts must be a non-empty array")
      end
  end.

(** ** Settlement check *)

Record SettleResponse : Type := {
  sr_success : bool;
  sr_transaction : option string;
  sr_network : option string;
  sr_errorReason : option string;
}.

Inductive settle_warning : Type :=
| no_signature | bad_signature_format | network_mismatch | settlement_failed | not_confirmed
| verify_failed.

(** [/^[1-9A-HJ-NP-Za-km-z]{64,88}$/] *)
Definition base58_char (c : ascii) : bool :=
  in_range 49 57 c || in_range 65 72 c || in_range 74 78 c || in_range 80 90 c ||
  in_range 97 107 c || in_range 109 122 c.

Definition BASE58_REGEX (s : string) : bool :=
  forallb base58_char (chars s) && bool_decide (64 ≤ length (chars s) ≤ 88)%nat.

(** A field that is set and not empty. *)
Definition truthy_str (s : option string) : option string :=
  x ← s; if bool_decide (x = "") then None else Some x.

(** [confirm tx]: what the poll answers, when an RPC is given: [Some b], or
    [None] when it throws. *)
Definition validateSettlement (s : SettleResponse) (expectedNetwork : option string)
    (confirm : option (string → option bool)) : bool * list settle_warning :=
  match truthy_str (sr_transaction s) with
  | None =>
      if sr_success s then (false, [no_signature])
      else
        let w := match truthy_str expectedNetwork, truthy_str (sr_network s) with
                 | Some e, Some n => if bool_decide (n = e) then [] else [network_mismatch]
                 | _, _ => []
                 end in
        (false, w ++ [settlement_failed])
  | Some tx =>
      if negb (BASE58_REGEX tx) then (false, [bad_signature_format]) else
      let w := match truthy_str expectedNetwork, truthy_str (sr_network s) with
               | Some e, Some n => if bool_decide (n = e) then [] else [network_mismatch]
               | _, _ => []
               end in
      if negb (sr_success s) then (false, w ++ [settlement_failed]) else
      match confirm with
      | None => (true, w)
      | Some f => match f tx with
                  | Some true => (true, w)
                  | Some false => (true, w ++ [not_confirmed])
                  | None => (true, w ++ [verify_failed])
                  end
      end
  end.

(** ** Replay guard: properties *)

Lemma split_last {A} (c : A) x y a b :
  c ∉ a → c ∉ b → x ++ c :: a = y ++ c :: b → x = y ∧ a = b.
Proof.
  revert y; induction x as [|h x IH]; intros [|h' y] Ha Hb H; simpl in H; simplify_eq; try done.
  - exfalso. apply Ha, elem_of_app. right. by left.
  - exfalso. apply Hb, elem_of_app. right. by left.
  - destruct (IH y Ha Hb) as [-> ->]; done.
Qed.

Lemma chars_app s1 s2 : chars (s1 +:+ s2) = chars s1 ++ chars s2.
Proof. unfold chars. induction s1 as [|c s1 IH]; simpl; [done|]. by rewrite IH. Qed.

Lemma chars_inj s1 s2 : chars s1 = chars s2 → s1 = s2.
Proof.
  unfold chars. intros H. by rewrite <- (String.string_of_list_ascii_of_string s1), H,
    String.string_of_list_ascii_of_string.
Qed.

Definition no_bar (s : string) : Prop := "|"%char ∉ chars s.

(** The replay key separates payments: with no bar in the destination and the
    amount, equal keys mean the same normalised URL, destination and amount text. *)
Theorem replay_key_injective parseUrl u1 p1 a1 u2 p2 a2 :
  no_bar p1 → no_bar a1 → no_bar p2 → no_bar a2 →
  buildKey parseUrl u1 p1 a1 = buildKey parseUrl u2 p2 a2 →
  normalizedUrl parseUrl u1 = normalizedUrl parseUrl u2 ∧ p1 = p2 ∧ a1 = a2.
Proof.
  unfold no_bar. intros Hp1 Ha1 Hp2 Ha2 H. unfold buildKey in H.
  apply (f_equal chars) in H. rewrite !chars_app in H. change (chars "|") with ["|"%char] in H.
  cbn [app] in H.
  assert (Hk : ∀ u p a, chars u ++ "|"%char :: chars p ++ "|"%char :: chars a =
    (chars u ++ "|"%char :: chars p) ++ "|"%char :: chars a) by (intros; by rewrite <- app_assoc).
  rewrite !Hk in H. apply split_last in H as [H Ha]; [|done..].
  apply split_last in H as [Hu Hp]; [|done..]. split_and!; by apply chars_inj.
Qed.

Section Replay.
Context {E : Type} `{NonceStorage E} (parseUrl : string → option string).

(** What may happen to a tracker between a payment and its repetition. *)
Inductive nonce_op : Type :=
| OpCheck (now : Z) (url payTo amount : string)
| OpRecord (now : Z) (url payTo amount : string)
| OpSize (now : Z).

Definition op_time (o : nonce_op) : Z :=
  match o with OpCheck now _ _ _ | OpRecord now _ _ _ | OpSize now => now end.

Definition run_op (t : NonceTracker E) (o : nonce_op) : NonceTracker E :=
  match o with
  | OpCheck now u p a => (isDuplicate parseUrl now u p a t).1
  | OpRecord now u p a => record_nonce parseUrl now u p a t
  | OpSize now => (nonce_size now t).1
  end.

Lemma gc_keeps now (t : NonceTracker E) k e :
  nt_entries t !! k = Some e → now ≤ e → nt_entries (gc now t) !! k = Some e.
Proof. intros Hk Hn. unfold gc. simpl. apply map_lookup_filter_Some. done. Qed.

Lemma run_op_keeps (t : NonceTracker E) o k t0 :
  op_time o ≤ t0 + nt_ttlMs t → t0 ≤ op_time o →
  (∃ e, nt_entries t !! k = Some e ∧ t0 + nt_ttlMs t ≤ e) →
  nt_ttlMs (run_op t o) = nt_ttlMs t ∧
  ∃ e, nt_entries (run_op t o) !! k = Some e ∧ t0 + nt_ttlMs t ≤ e.
Proof.
  intros Hle Hge (e & Hk & He). destruct o as [now u p a|now u p a|now]; simpl in *.
  - split; [done|]. exists e. split; [apply (gc_keeps now t); [done|lia]|done].
  - split; [done|]. destruct (decide (buildKey parseUrl u p a = k)) as [->|].
    + exists (now + nt_ttlMs t). by rewrite lookup_insert_eq; split; [|lia].
    + exists e. by rewrite lookup_insert_ne.
  - split; [done|]. exists e. split; [apply (gc_keeps now t); [done|lia]|done].
Qed.

Lemma run_ops_keep ops (t : NonceTracker E) k t0 :
  Forall (λ o, t0 ≤ op_time o ≤ t0 + nt_ttlMs t) ops →
  (∃ e, nt_entries t !! k = Some e ∧ t0 + nt_ttlMs t ≤ e) →
  ∃ e, nt_entries (foldl run_op t ops) !! k = Some e ∧ t0 + nt_ttlMs t ≤ e.
Proof.
  intros Hops; revert t Hops; induction ops as [|o ops IH]; intros t Hops Hk; simpl; [done|].
  inversion Hops as [|? ? [Ho1 Ho2] Hops']; subst.
  destruct (run_op_keeps t o k t0) as [Httl Hk']; [lia|lia|done|].
  rewrite <- Httl. apply IH; [by rewrite Httl|by rewrite Httl].
Qed.

Lemma replay_refused t0 now ops u p a (t : NonceTracker E) :
  Forall (λ o, t0 ≤ op_time o ≤ t0 + nt_ttlMs t) ops → now ≤ t0 + nt_ttlMs t →
  (checkOrThrow parseUrl now u p a (foldl run_op (record_nonce parseUrl t0 u p a t) ops)).2 =
    Throw (X402ReplayError (buildKey parseUrl u p a)).
Proof.
  intros Hops Hn. destruct (run_ops_keep ops (record_nonce parseUrl t0 u p a t)
    (buildKey parseUrl u p a) t0) as (e & He & Hle); [done| |].
  { exists (t0 + nt_ttlMs t). simpl. by rewrite lookup_insert_eq. }
  simpl in Hle. unfold checkOrThrow, isDuplicate. simpl.
  pose proof (gc_keeps now _ _ e He) as Hg. simpl in Hg. rewrite Hg; [done|]. lia.
Qed.
End Replay.

(** A recorded payment cannot be repeated within its time to live: whatever
    checks, records and garbage collections happen in between, the same URL,
    destination and amount are refused until the entry expires. *)
Theorem replay_refused_within_ttl {E} `{NonceStorage E} parseUrl t0 now ops u p a
    (t : NonceTracker E) :
  Forall (λ o, t0 ≤ op_time o ≤ t0 + nt_ttlMs t) ops → now ≤ t0 + nt_ttlMs t →
  (checkOrThrow parseUrl now u p a (foldl (run_op parseUrl) (record_nonce parseUrl t0 u p a t) ops)).2 =
    Throw (X402ReplayError (buildKey parseUrl u p a)).
Proof. apply replay_refused. Qed.

(** The store that is never there. *)
#[export] Instance no_storage : NonceStorage Empty_set := {|
  nonce_has := λ e _, match e : Empty_set with end; nonce_set := λ e _ _, e |}.

Lemma replay_key_injective_witness :
  normalizedUrl (λ _, None) "https://a" = normalizedUrl (λ _, None) "https://a" ∧
  "dest" = "dest"%string ∧ "10" = "10"%string.
Proof.
  apply (replay_key_injective (λ _, None) "https://a" "dest" "10" "https://a" "dest" "10");
    [apply (bool_decide_unpack _); vm_compute; exact I..|reflexivity].
Defined.

Lemma replay_refused_within_ttl_witness :
  (checkOrThrow (λ _, None) 300100 "https://a" "dest" "10"
     (foldl (run_op (λ _, None)) (record_nonce (λ _, None) 100 "https://a" "dest" "10"
        (new_NonceTracker (E := Empty_set) None None)) [OpSize 5000; OpRecord 6000 "https://b" "x" "1"])).2 =
  Throw (X402ReplayError (buildKey (λ _, None) "https://a" "dest" "10")).
Proof.
  apply (replay_refused_within_ttl (λ _, None) 100 300100
    [OpSize 5000; OpRecord 6000 "https://b" "x" "1"] "https://a" "dest" "10").
  - repeat constructor; vm_compute; discriminate.
  - vm_compute. discriminate.
Defined.

(** The guard compares amounts as text and records only after the response:
    the same payment spelled differently ("10", "0xA") is not a duplicate, and
    two requests that both check before either records both pass. *)
Theorem replay_guard_gaps {E} `{NonceStorage E} parseUrl now u p (t : NonceTracker E) :
  nt_entries t = ∅ → nt_external t = None →
  BigInt "10" = BigInt "0xA" ∧
  (checkOrThrow parseUrl now u p "0xA" (record_nonce parseUrl now u p "10" t)).2 = Ok tt ∧
  (let t1 := (checkOrThrow parseUrl now u p "10" t).1 in
   (checkOrThrow parseUrl now u p "10" t).2 = Ok tt ∧
   (checkOrThrow parseUrl now u p "10" t1).2 = Ok tt).
Proof.
  intros He Hx. split; [reflexivity|]. unfold checkOrThrow, isDuplicate, record_nonce, gc. simpl.
  rewrite He, Hx. split.
  - assert (buildKey parseUrl u p "10" ≠ buildKey parseUrl u p "0xA") as Hne.
    { unfold buildKey. intros H1%(f_equal chars). rewrite !chars_app in H1.
      do 4 apply app_inv_head in H1. done. }
    assert (Hl : filter (λ '(_, ts), now ≤ ts)
      (<[buildKey parseUrl u p "10":=now + nt_ttlMs t]> (∅ : gmap string Z)) !!
        buildKey parseUrl u p "0xA" = None).
    { apply map_lookup_filter_None. left. by rewrite lookup_insert_ne, lookup_empty. }
    by rewrite Hl.
  - by rewrite map_filter_empty, lookup_empty.
Qed.

Lemma replay_guard_gaps_witness :
  (checkOrThrow (λ _, None) 7 "https://a" "d" "0xA"
     (record_nonce (λ _, None) 7 "https://a" "d" "10" (new_NonceTracker (E := Empty_set) None None))).2 = Ok tt.
Proof.
  exact (proj1 (proj2 (replay_guard_gaps (λ _, None) 7 "https://a" "d"
    (new_NonceTracker (E := Empty_set) None None) eq_refl eq_refl))).
Defined.

(** ** Amount guard: properties *)

Lemma js_sort_leb_sorted l : js_sorted Z.leb (js_sort Z.leb l).
Proof. apply js_sort_sorted; intros; lia. Qed.

Lemma validatePaymentAmount_Ok_iff recent amount config n :
  validatePaymentAmount recent amount config = Ok n ↔
  BigInt amount = Some n ∧ 0 < n ∧
  (∀ c max, config = Some c → xc_maxPaymentPerRequest c = Some max → n ≤ max) ∧
  ((3 ≤ length recent)%nat → 0 < getMedian recent → n ≤ getMedian recent * 10).
Proof.
  unfold validatePaymentAmount, SPIKE_MULTIPLIER.
  destruct (BigInt amount) as [z|]; [|split; [done|by intros [? _]]]. split.
  - intros H. apply bind_Ok_inv in H as (? & H0%throw_if_Ok & H).
    apply bind_Ok_inv in H as (? & Hc & H). apply bind_Ok_inv in H as (? & Hm & H).
    injection H as <-. split_and!; [done|lia| |].
    + intros c max -> Hmax. simpl in Hc. rewrite Hmax in Hc. apply throw_if_Ok in Hc. lia.
    + intros Hlen Hpos. rewrite bool_decide_true in Hm by done. apply throw_if_Ok in Hm. lia.
  - intros ([= ->] & Hp & Hc & Hm). rewrite (proj2 (Z.leb_gt n 0)) by done. simpl.
    assert (match c ← config; xc_maxPaymentPerRequest c with
      | Some max => throw_if (max <? n) (X402PaymentError "exceeds per-request ceiling")
      | None => Ok tt end = Ok tt) as ->.
    { destruct config as [c|]; [|done]. simpl. destruct (xc_maxPaymentPerRequest c) as [max|] eqn:E; [|done].
      specialize (Hc c max eq_refl E). by rewrite (proj2 (Z.ltb_ge max n)). }
    simpl. case_bool_decide as Hlen; [|done]. specialize (Hm Hlen).
    destruct (Z.ltb_spec 0 (getMedian recent)) as [Hpos|]; [|done].
    specialize (Hm Hpos). by rewrite (proj2 (Z.ltb_ge _ n)).
Qed.

(** An accepted payment amount is the positive integer its text denotes, at
    most the per-request ceiling, and at most ten times the median of the last
    payments once there are three; anything else is refused with a payment
    error. *)
Theorem payment_amount_accepted_iff recent amount config n :
  validatePaymentAmount recent amount config = Ok n ↔
  BigInt amount = Some n ∧ 0 < n ∧
  (∀ c max, config = Some c → xc_maxPaymentPerRequest c = Some max → n ≤ max) ∧
  ((3 ≤ length recent)%nat → 0 < getMedian recent → n ≤ getMedian recent * 10).
Proof. apply validatePaymentAmount_Ok_iff. Qed.

(** Spike history is bounded: recording keeps the newest twenty payments. *)
Theorem payment_history_bounded amount recent :
  (length recent ≤ MAX_RECENT)%nat →
  (length (recordPaymentAmount amount recent) ≤ MAX_RECENT)%nat ∧
  recordPaymentAmount amount recent `suffix_of` recent ++ [amount] ∧
  last (recordPaymentAmount amount recent) = Some amount.
Proof.
  unfold recordPaymentAmount, MAX_RECENT. intros Hl. rewrite length_app. simpl.
  case_bool_decide.
  - destruct recent as [|x recent]; simpl in *; [lia|]. split_and!.
    + rewrite length_app. simpl. lia.
    + exists [x]. done.
    + apply last_snoc.
  - split_and!; [rewrite length_app; simpl; lia|done|apply last_snoc].
Qed.

Lemma payment_history_bounded_witness :
  (length (recordPaymentAmount 5%Z (replicate 20 1%Z)) ≤ MAX_RECENT)%nat.
Proof.
  apply (payment_history_bounded 5 (replicate 20 1)).
  apply (bool_decide_unpack _). vm_compute. exact I.
Defined.

(** ** Option selector: properties *)

(** An option on Solana with an allowed token, and one with an allowed
    destination as well. *)
Definition eligible (config : option X402Config) (o : PaymentRequirements) : bool :=
  startsWith (pr_network o) "solana:" && allows (c ← config; xc_allowedTokens c) (pr_asset o).
Definition acceptable (config : option X402Config) (o : PaymentRequirements) : bool :=
  eligible config o && allows (c ← config; xc_allowedDestinations c) (pr_payTo o).

Lemma select_loop_step config o accepts sols blocked :
  select_loop config (o :: accepts) sols blocked =
  if negb (eligible config o) then select_loop config accepts sols blocked
  else if negb (allows (c ← config; xc_allowedDestinations c) (pr_payTo o))
  then select_loop config accepts (sols ++ [o]) true else Ok o.
Proof.
  unfold eligible. cbn [select_loop]. destruct (startsWith (pr_network o) "solana:"); [|done].
  by destruct (allows (c ← config; xc_allowedTokens c) (pr_asset o)).
Qed.

Lemma select_loop_spec config accepts sols blocked :
  select_loop config accepts sols blocked =
  match list_find (λ o, acceptable config o) accepts with
  | Some (_, o) => Ok o
  | None =>
      match sols ++ filter (λ o, eligible config o) accepts with
      | first :: _ =>
          if blocked || negb (bool_decide (filter (λ o, eligible config o) accepts = []))
          then Throw (X402DestinationBlockedError (pr_payTo first)) else Throw X402UnsupportedError
      | [] => Throw X402UnsupportedError
      end
  end.
Proof.
  revert sols blocked; induction accepts as [|o accepts IH]; intros sols blocked.
  { simpl. rewrite app_nil_r. destruct sols; [done|]. by destruct blocked. }
  rewrite select_loop_step. cbn [list_find]. rewrite filter_cons.
  destruct (decide (acceptable config o)) as [Ha|Ha].
  { apply Is_true_true in Ha. unfold acceptable in Ha. apply andb_true_iff in Ha as [-> ->]. done. }
  destruct (decide (eligible config o)) as [He|He].
  - apply Is_true_true in He. unfold acceptable in Ha. rewrite He in *. cbn [negb andb] in *.
    destruct (allows (c ← config; xc_allowedDestinations c) (pr_payTo o)); [done|]. cbn [negb].
    rewrite IH. destruct (list_find _ accepts) as [[? ?]|]; [done|]. simpl.
    rewrite <- app_assoc. simpl. rewrite orb_true_r. by destruct (sols ++ _).
  - destruct (eligible config o); [done|]. cbn [negb]. rewrite IH.
    by destruct (list_find _ accepts) as [[? ?]|].
Qed.

(** The selector returns the first offered option that is on Solana, in an
    allowed token and to an allowed destination -- never another one; when
    there is none it reports the first blocked destination if some Solana
    option was eligible but for its destination, and "unsupported" otherwise. *)
Theorem selector_returns_first_allowed accepts config :
  selectPaymentOption accepts config =
  match list_find (λ o, acceptable config o) accepts with
  | Some (_, o) => Ok o
  | None =>
      match filter (λ o, eligible config o) accepts with
      | first :: _ => Throw (X402DestinationBlockedError (pr_payTo first))
      | [] => Throw X402UnsupportedError
      end
  end.
Proof.
  unfold selectPaymentOption. rewrite select_loop_spec. simpl.
  destruct (list_find _ accepts) as [[? ?]|]; [done|]. by destruct (filter _ accepts).
Qed.

(** ** Header schema and settlement: properties *)

Lemma decode_amounts decode header reqs :
  decodePaymentRequiredHeader decode header = Ok reqs →
  reqs ≠ [] ∧ Forall (λ r, ∃ n, BigInt (pr_amount r) = Some n ∧ 0 ≤ n ≤ U64_MAX) reqs.
Proof.
  unfold decodePaymentRequiredHeader. destruct (decode header) as [obj|]; [|done]. intros H.
  apply bind_Ok_inv in H as (v & _ & H). apply bind_Ok_inv in H as ([] & _ & H).
  apply bind_Ok_inv in H as (acc & _ & H). destruct acc as [[| | | |[|e es]|]|]; try done.
  pose proof (mapM_Ok_length _ _ _ H) as Hlen. split; [by intros ->|].
  apply mapM_Ok_iff in H. clear Hlen. induction H as [|x y l k Hx _ IH]; constructor; [|done].
  unfold check_entry in Hx.
  do 4 (apply bind_Ok_inv in Hx as (? & _ & Hx)). apply bind_Ok_inv in Hx as ([] & Ha & Hx).
  apply bind_Ok_inv in Hx as (? & _ & Hx). injection Hx as <-. simpl.
  unfold check_amount in Ha. apply bind_Ok_inv in Ha as ([] & _ & Ha).
  destruct (BigInt x3) as [n|]; [|done]. apply bind_Ok_inv in Ha as ([] & H1%throw_if_Ok & H2%throw_if_Ok).
  exists n. split; [done|]. lia.
Qed.

(** A decoded PAYMENT-REQUIRED header offers at least one option, and the
    amount of every option is text that denotes an integer within u64. *)
Theorem decoded_amounts_are_u64 decode header reqs :
  decodePaymentRequiredHeader decode header = Ok reqs →
  reqs ≠ [] ∧ Forall (λ r, ∃ n, BigInt (pr_amount r) = Some n ∧ 0 ≤ n ≤ U64_MAX) reqs.
Proof. apply decode_amounts. Qed.

Definition demo_json : json := JObj [
  ("x402Version", JNum 2);
  ("accepts", JArr [JObj [("scheme", JStr "exact"); ("network", JStr "solana:x");
    ("asset", JStr "USDC"); ("amount", JStr "1000"); ("payTo", JStr "dest")]])].

Lemma decoded_amounts_are_u64_witness :
  Forall (λ r, ∃ n, BigInt (pr_amount r) = Some n ∧ 0 ≤ n ≤ U64_MAX)
    [{| pr_scheme := "exact"; pr_network := "solana:x"; pr_asset := "USDC"; pr_amount := "1000";
        pr_payTo := "dest" |}].
Proof.
  apply (decoded_amounts_are_u64 (λ _, Some demo_json) ""). vm_compute. reflexivity.
Defined.

(** A settlement is called valid only if it reports success and carries a
    base58 signature of 64 to 88 characters; a reported success without one is
    never valid. *)
Theorem settlement_valid_means_signed s net confirm :
  (validateSettlement s net confirm).1 = true ↔
  sr_success s = true ∧ ∃ tx, sr_transaction s = Some tx ∧ tx ≠ "" ∧ BASE58_REGEX tx = true.
Proof.
  unfold validateSettlement, truthy_str. destruct (sr_transaction s) as [tx|]; simpl; cycle 1.
  { destruct (sr_success s); simpl; naive_solver. }
  case_bool_decide as He; simpl.
  { subst. destruct (sr_success s); simpl; naive_solver. }
  destruct (BASE58_REGEX tx) eqn:Hb; simpl; [|naive_solver].
  destruct (sr_success s); simpl; [|naive_solver].
  destruct confirm as [f|]; [destruct (f tx) as [[]|]|]; simpl; naive_solver.
Qed.
