(* ===== verification/X402Flow.v ===== *)
(** * x402 payments: the policy bridge and the fetch flow
    ([sdk/kit/src/x402/policy-bridge.ts], [sdk/kit/src/x402/shielded-fetch.ts])

    The bridge evaluates a payment against the shield and records it.  The
    flow is [shieldedFetch] in the parts between its awaits: up to the selected
    option (steps 1 to 8), the replay check, the checks up to the decision to pay
    (steps 10 to 12), and the three recordings of step 17; [preflight] and
    [settle] put them together for one flow on its own.  The HTTP exchanges,
    building and signing the transaction (steps 13 and 14) and the on-chain poll
    are arguments: the answers they gave.  [x402_step] interleaves flows at every
    await.

    The theorems: a flow decides to pay only an option that passed the URL,
    loop, destination, token, replay, amount, ceiling and policy checks; it
    contacts the server at most three more times; it records a spend only
    after a successful response that did not fail on chain; [k] overlapping flows
    keep to [k] times the cumulative cap, and two can exceed it; and the shield's
    spend limits never see the amount of an x402 payment. *)

From Stdlib Require String.
From S2P Require Import Prelude JsText CorePolicies SpendLog SdkTypes StateResolver Inspector Shield X402.
Import Shield.

Local Open Scope Z_scope.

(** ** The policy bridge *)

Inductive x402_violation : Type :=
| cumulative_spend (total limit : Z)
| per_request (amount limit : Z)
| shield_rule (v : violation).

(** [BigInt(selected.amount)], which throws on text that is no integer. *)
Definition parse_amount (amount : string) : result x402_exn Z :=
  match BigInt amount with Some n => Ok n | None => Throw (X402Js JsSyntaxError) end.

(** The instruction handed to the shield: a token-program instruction with the
    four transfer accounts, and no data. *)
Definition syntheticIx (selected : PaymentRequirements) (signer : string) : InspectableInstruction := {|
  ii_programAddress := Some TOKEN_PROGRAM_ADDRESS;
  ii_accounts := Some [Some signer; Some (pr_asset selected); Some (pr_payTo selected); Some signer];
  ii_data := None |}.

(** [now] is the reading for the cumulative window, [clock] those of [check]. *)
Definition evaluateX402Payment (now : Z) (clock : nat → Z) (selected : PaymentRequirements)
    (ctx : ShieldedContext) (config : option X402Config) (signerAddress : option string)
    : result x402_exn (list x402_violation) :=
  _ ← throw_if (paused ctx) (X402PaymentError "shield is paused");
  v1 ← match c ← config; xc_maxCumulativeSpend c with
       | None => Ok []
       | Some max =>
           let windowMs := default 86400000 (c ← config; xc_cumulativeWindowMs c) in
           let currentSpend := getTotalSpendInWindow now windowMs (state ctx) in
           paymentAmount ← parse_amount (pr_amount selected);
           Ok (if max <? currentSpend + paymentAmount
               then [cumulative_spend (currentSpend + paymentAmount) max] else [])
       end;
  v2 ← match c ← config; xc_maxPaymentPerRequest c with
       | None => Ok []
       | Some max =>
           paymentAmount ← parse_amount (pr_amount selected);
           Ok (if max <? paymentAmount then [per_request paymentAmount max] else [])
       end;
  v3 ← match truthy_str signerAddress with
       | None => Ok []
       | Some signer =>
           match check clock [syntheticIx selected signer] signer ctx with
           | Throw (OtherError e) => Throw (X402Js e)
           | Throw (ShieldDeniedError _) => Throw (X402Js JsTypeError)
           | Ok r => Ok (if allowed r then [] else map shield_rule (violations r))
           end
       end;
  Ok (v1 ++ v2 ++ v3).

Definition recordX402Spend (r1 r2 : readings) (asset : string) (amount : Z) (ctx : ShieldedContext)
    : ShieldedContext :=
  with_state ctx (recordTransaction r2 (recordSpend r1 asset amount (state ctx))).

(** ** The flow *)

Inductive confirmation : Type := confirmed | failed | timeout.

#[export] Instance confirmation_eq_dec : EqDecision confirmation.
Proof. solve_decision. Defined.

Record fetch_options : Type := {
  fo_dryRun : bool;
  fo_maxPayment : option Z;
  fo_hasPaymentSignature : bool;
  fo_hasRpc : bool;
}.

(** What the first request answered. *)
Record first_response : Type := { fr_status : Z; fr_paymentRequired : option string }.

Inductive decision : Type :=
| Passthrough
| DryRun (selected : PaymentRequirements)
| Pay (selected : PaymentRequirements) (amount : Z).

Definition check_url (url : string) (config : option X402Config) : result x402_exn unit :=
  if default false (c ← config; xc_allowInsecureUrls c)
  then throw_if (negb (startsWith url "https://") && negb (startsWith url "http://"))
         (X402PaymentError "only HTTP/HTTPS URLs are supported")
  else throw_if (negb (startsWith url "https://")) (X402PaymentError "only HTTPS URLs are supported").

Section Flow.
Context {E : Type} `{NonceStorage E}.
Context (parseUrl : string → option string) (decode : string → option json).

(** The module-level state and the shield context, if one is given. *)
Record flow_state : Type := {
  fs_nonces : NonceTracker E;
  fs_recent : list Z;
  fs_shield : option ShieldedContext;
}.

Definition with_nonces (s : flow_state) (t : NonceTracker E) : flow_state :=
  {| fs_nonces := t; fs_recent := fs_recent s; fs_shield := fs_shield s |}.

(** Step 9, awaited: the replay check. *)
Definition replay_check (now : Z) (url : string) (config : option X402Config) (selected : PaymentRequirements)
    (s : flow_state) : flow_state * result x402_exn unit :=
  if default true (c ← config; xc_enableReplayProtection c)
  then let '(t, r) := checkOrThrow parseUrl now url (pr_payTo selected) (pr_amount selected)
                        (fs_nonces s) in (with_nonces s t, r)
  else (s, Ok tt).

(** Steps 10 to 12, and the test for a connection of step 13: nothing is
    awaited in between, and nothing is recorded. *)
Definition approve (now : Z) (clock : nat → Z) (signer : string) (config : option X402Config)
    (opts : fetch_options) (selected : PaymentRequirements) (s : flow_state) : result x402_exn decision :=
  parsedAmount ← validatePaymentAmount (fs_recent s) (pr_amount selected) config;
  _ ← match fo_maxPayment opts with
      | None => Ok tt
      | Some max => throw_if (max <? parsedAmount) (X402PaymentError "maxPayment exceeded")
      end;
  _ ← match fs_shield s with
      | None => Ok tt
      | Some ctx =>
          vs ← evaluateX402Payment now clock selected ctx config (Some signer);
          throw_if (negb (bool_decide (length vs = 0%nat))) (X402PaymentError "denied by policy")
      end;
  if fo_dryRun opts then Ok (DryRun selected) else
  _ ← throw_if (negb (fo_hasRpc opts)) (X402PaymentError "RPC connection required");
  Ok (Pay selected parsedAmount).

(** Steps 9 to 12, once an option is selected. *)
Definition decide_payment (nows : Z * Z) (clock : nat → Z) (signer url : string)
    (config : option X402Config) (opts : fetch_options) (selected : PaymentRequirements)
    (s : flow_state) : flow_state * result x402_exn decision :=
  let '(s, replay) := replay_check (fst nows) url config selected s in
  (s, _ ← replay; approve (snd nows) clock signer config opts selected s).

(** Steps 1 to 8: the option selected, or none when the answer passes through. *)
Definition offered (url : string) (config : option X402Config) (opts : fetch_options) (resp : first_response)
    : result x402_exn (option PaymentRequirements) :=
  _ ← check_url url config;
  if negb (fr_status resp =? 402) then Ok None else
  match truthy_str (fr_paymentRequired resp) with
  | None => Ok None
  | Some header =>
      _ ← throw_if (fo_hasPaymentSignature opts) (X402PaymentError "payment already attempted");
      accepts ← decodePaymentRequiredHeader decode header;
      selected ← selectPaymentOption accepts config;
      Ok (Some selected)
  end.

(** Steps 1 to 12 of one flow on its own. *)
Definition preflight (nows : Z * Z) (clock : nat → Z) (signer url : string)
    (config : option X402Config) (opts : fetch_options) (resp : first_response) (s : flow_state)
    : flow_state * result x402_exn decision :=
  match offered url config opts resp with
  | Throw e => (s, Throw e)
  | Ok None => (s, Ok Passthrough)
  | Ok (Some selected) => decide_payment nows clock signer url config opts selected s
  end.

(** ** After the payment was sent *)

(** [Math.min(Math.max(config?.maxRetries ?? 1, 1), 3)] *)
Definition max_retries (config : option X402Config) : Z :=
  Z.min (Z.max (default 1 (c ← config; xc_maxRetries c)) 1) 3.

Definition is_2xx (status : Z) : bool := (200 <=? status) && (status <? 300).

(** The request with the signature, and the retries while it is not 2xx;
    [statuses] is what the server answers to request 0, 1, ...  The result
    is the number of requests made and the last status. *)
Fixpoint retry_loop (n : nat) (attempt : nat) (max : Z) (statuses : nat → Z) (status : Z) : nat * Z :=
  match n with
  | O => (attempt, status)
  | S n => if (Z.of_nat attempt <? max) && negb (is_2xx status)
           then retry_loop n (attempt + 1) max statuses (statuses attempt)
           else (attempt, status)
  end.

Definition send_payment (config : option X402Config) (statuses : nat → Z) : nat * Z :=
  retry_loop 3 1 (max_retries config) statuses (statuses 0%nat).


(** Step 17 after a 2xx answer, in the three parts that other flows may come
    between: the nonce is recorded (awaited), then the amount, then, after the
    awaited poll, the spend.  [tx] is the settlement's transaction, if it had
    one, and [confirm] the answer of the poll. *)
Definition note_nonce (now : Z) (url : string) (config : option X402Config) (selected : PaymentRequirements)
    (s : flow_state) : flow_state :=
  if default true (c ← config; xc_enableReplayProtection c)
  then with_nonces s (record_nonce parseUrl now url (pr_payTo selected) (pr_amount selected) (fs_nonces s))
  else s.

Definition note_amount (amount : Z) (s : flow_state) : flow_state :=
  {| fs_nonces := fs_nonces s; fs_recent := recordPaymentAmount amount (fs_recent s); fs_shield := fs_shield s |}.

Definition note_spend (r1 r2 : readings) (config : option X402Config) (selected : PaymentRequirements)
    (amount : Z) (tx : option string) (confirm : confirmation) (s : flow_state) : flow_state :=
  let polled := default true (c ← config; xc_confirmPayment c) &&
                match truthy_str tx with Some _ => true | None => false end in
  let shouldRecordSpend := match confirm with failed => negb polled | _ => true end in
  {| fs_nonces := fs_nonces s; fs_recent := fs_recent s;
     fs_shield := match fs_shield s with
                  | None => None
                  | Some ctx => Some (if shouldRecordSpend
                                      then recordX402Spend r1 r2 (pr_asset selected) amount ctx
                                      else ctx)
                  end |}.

(** Step 17 of one flow on its own. *)
Definition settle (now : Z) (r1 r2 : readings) (url : string) (config : option X402Config)
    (selected : PaymentRequirements) (amount : Z) (status : Z) (tx : option string)
    (confirm : confirmation) (s : flow_state) : flow_state * bool :=
  if negb (is_2xx status) then (s, false) else
  (note_spend r1 r2 config selected amount tx confirm
     (note_amount amount (note_nonce now url config selected s)), true).
End Flow.

(** ** The decision to pay *)

(** What must hold of a payment the bridge found no violation in. *)
Definition bridge_permits (now : Z) (clock : nat → Z) (signer : string) (config : option X402Config)
    (sel : PaymentRequirements) (n : Z) (ctx : ShieldedContext) : Prop :=
  paused ctx = false ∧
  (∀ c max, config = Some c → xc_maxCumulativeSpend c = Some max →
     getTotalSpendInWindow now (default 86400000 (xc_cumulativeWindowMs c)) (state ctx) + n ≤ max) ∧
  (∀ c max, config = Some c → xc_maxPaymentPerRequest c = Some max → n ≤ max) ∧
  (signer ≠ "" → ∃ r, check clock [syntheticIx sel signer] signer ctx = Ok r ∧ allowed r = true).

Lemma evaluateX402Payment_nil now clock sel ctx config signer n :
  BigInt (pr_amount sel) = Some n →
  evaluateX402Payment now clock sel ctx config (Some signer) = Ok [] →
  bridge_permits now clock signer config sel n ctx.
Proof.
  intros Hn H. unfold evaluateX402Payment, parse_amount in H. rewrite Hn in H.
  apply bind_Ok_inv in H as (? & Hp%throw_if_Ok & H).
  apply bind_Ok_inv in H as (v1 & H1 & H). apply bind_Ok_inv in H as (v2 & H2 & H).
  apply bind_Ok_inv in H as (v3 & H3 & H). injection H as H.
  apply app_nil in H as [-> H]. apply app_nil in H as [-> ->].
  split_and!; [done| | |].
  - intros c max -> Hmax. simpl in H1. rewrite Hmax in H1. simpl in H1. injection H1 as H1.
    destruct (Z.ltb_spec max (getTotalSpendInWindow now (default 86400000 (xc_cumulativeWindowMs c))
      (state ctx) + n)); [done|lia].
  - intros c max -> Hmax. simpl in H2. rewrite Hmax in H2. simpl in H2. injection H2 as H2.
    destruct (Z.ltb_spec max n); [done|lia].
  - intros Hs. unfold truthy_str in H3. simpl in H3. rewrite bool_decide_false in H3 by done.
    destruct (check clock [syntheticIx sel signer] signer ctx) as [r|[]] eqn:Hc; try done.
    exists r. split; [done|]. destruct (allowed r) eqn:Ha; [done|]. exfalso.
    unfold check in Hc. rewrite Hp in Hc. apply bind_Ok_inv in Hc as ([vs a] & _ & Hc).
    injection Hc as <-. simpl in *. injection H3 as H3. by apply fmap_nil_inv in H3 as ->.
Qed.

Section Decision.
Context {E : Type} `{NonceStorage E}.
Context (parseUrl : string → option string) (decode : string → option json).

(** What the flow has checked when it decides to pay [n] for [sel]. *)
Record payment_checked (nows : Z * Z) (clock : nat → Z) (signer url : string)
    (config : option X402Config) (opts : fetch_options) (resp : first_response)
    (s : flow_state (E := E)) (sel : PaymentRequirements) (n : Z) : Prop := {
  pc_url : startsWith url "https://" = true ∨
           (c ← config; xc_allowInsecureUrls c) = Some true ∧ startsWith url "http://" = true;
  pc_status : fr_status resp = 402 ∧ fo_hasPaymentSignature opts = false ∧
              fo_dryRun opts = false ∧ fo_hasRpc opts = true;
  pc_offered : ∃ header accepts, fr_paymentRequired resp = Some header ∧
                 decodePaymentRequiredHeader decode header = Ok accepts ∧ sel ∈ accepts;
  pc_acceptable : acceptable config sel = true;
  pc_fresh : (c ← config; xc_enableReplayProtection c) ≠ Some false →
             (isDuplicate parseUrl (fst nows) url (pr_payTo sel) (pr_amount sel) (fs_nonces s)).2 = false;
  pc_amount : BigInt (pr_amount sel) = Some n ∧ 0 < n ≤ U64_MAX;
  pc_spike : (3 ≤ length (fs_recent s))%nat → 0 < getMedian (fs_recent s) →
             n ≤ getMedian (fs_recent s) * 10;
  pc_ceiling : ∀ c max, config = Some c → xc_maxPaymentPerRequest c = Some max → n ≤ max;
  pc_maxPayment : ∀ max, fo_maxPayment opts = Some max → n ≤ max;
  pc_policy : ∀ ctx, fs_shield s = Some ctx → bridge_permits (snd nows) clock signer config sel n ctx;
}.

Lemma check_url_Ok url config u :
  check_url url config = Ok u →
  startsWith url "https://" = true ∨
  (c ← config; xc_allowInsecureUrls c) = Some true ∧ startsWith url "http://" = true.
Proof.
  unfold check_url. destruct (c ← config; xc_allowInsecureUrls c) as [[]|]; simpl;
    intros Hu%throw_if_Ok; destruct (startsWith url "https://"); try (by left); try done.
  right. split; [done|]. by destruct (startsWith url "http://").
Qed.

Lemma selectPaymentOption_Ok accepts config sel :
  selectPaymentOption accepts config = Ok sel → sel ∈ accepts ∧ acceptable config sel = true.
Proof.
  unfold selectPaymentOption. rewrite select_loop_spec.
  destruct (list_find _ accepts) as [[i o]|] eqn:Hf.
  - intros [= <-]. apply list_find_Some in Hf as (Hi & Ha & _).
    split; [by eapply list_elem_of_lookup_2|by apply Is_true_true].
  - simpl. by destruct (filter _ accepts).
Qed.

Lemma replay_check_Ok now url config sel s s1 r :
  replay_check parseUrl now url config sel s = (s1, r) →
  fs_recent s1 = fs_recent s ∧ fs_shield s1 = fs_shield s ∧
  (r = Ok tt → (c ← config; xc_enableReplayProtection c) ≠ Some false →
   (isDuplicate parseUrl now url (pr_payTo sel) (pr_amount sel) (fs_nonces s)).2 = false).
Proof.
  unfold replay_check, checkOrThrow. destruct (isDuplicate _ _ _ _ _ _) as [t dup].
  destruct (c ← config; xc_enableReplayProtection c) as [[]|]; simpl; intros [= <- <-]; simpl;
    (split_and!; [done|done|]); by destruct dup.
Qed.

Lemma note_nonce_keeps now url config sel (s : flow_state (E := E)) :
  fs_recent (note_nonce parseUrl now url config sel s) = fs_recent s ∧
  fs_shield (note_nonce parseUrl now url config sel s) = fs_shield s.
Proof. unfold note_nonce. by destruct (default true _). Qed.

Lemma approve_Pay now clock signer config opts sel0 (s : flow_state (E := E)) sel n :
  approve now clock signer config opts sel0 s = Ok (Pay sel n) →
  sel = sel0 ∧ fo_dryRun opts = false ∧ fo_hasRpc opts = true ∧
  validatePaymentAmount (fs_recent s) (pr_amount sel) config = Ok n ∧
  (∀ max, fo_maxPayment opts = Some max → n ≤ max) ∧
  (∀ ctx, fs_shield s = Some ctx → evaluateX402Payment now clock sel ctx config (Some signer) = Ok []).
Proof.
  unfold approve. intros H0. apply bind_Ok_inv in H0 as (m & Hv & H0).
  apply bind_Ok_inv in H0 as ([] & Hm & H0). apply bind_Ok_inv in H0 as ([] & Hsh & H0).
  destruct (fo_dryRun opts); [done|]. apply bind_Ok_inv in H0 as ([] & Hrpc%throw_if_Ok & H0).
  injection H0 as <- <-. split_and!; [done|done|by destruct (fo_hasRpc opts)|done| |].
  - intros max Hmax. rewrite Hmax in Hm. apply throw_if_Ok in Hm. lia.
  - intros ctx Hctx. rewrite Hctx in Hsh. apply bind_Ok_inv in Hsh as (vs & -> & Hl%throw_if_Ok).
    by destruct vs.
Qed.

Lemma decide_payment_Pay nows clock signer url config opts sel0 s s' sel n :
  decide_payment parseUrl nows clock signer url config opts sel0 s = (s', Ok (Pay sel n)) →
  sel = sel0 ∧ fo_dryRun opts = false ∧ fo_hasRpc opts = true ∧
  validatePaymentAmount (fs_recent s) (pr_amount sel) config = Ok n ∧
  (∀ max, fo_maxPayment opts = Some max → n ≤ max) ∧
  ((c ← config; xc_enableReplayProtection c) ≠ Some false →
     (isDuplicate parseUrl (fst nows) url (pr_payTo sel) (pr_amount sel) (fs_nonces s)).2 = false) ∧
  (∀ ctx, fs_shield s = Some ctx →
     evaluateX402Payment (snd nows) clock sel ctx config (Some signer) = Ok []).
Proof.
  unfold decide_payment. destruct (replay_check _ _ _ _ _ _) as [s1 replay] eqn:Hp.
  apply replay_check_Ok in Hp as (Hs1 & Hs2 & Hr). intros [= _ H0].
  apply bind_Ok_inv in H0 as ([] & -> & H0). apply approve_Pay in H0 as (-> & ? & ? & Hv & ? & Hb).
  rewrite Hs1 in Hv. rewrite Hs2 in Hb. split_and!; try done. by apply Hr.
Qed.

Lemma offered_Some url config opts resp sel :
  offered decode url config opts resp = Ok (Some sel) →
  check_url url config = Ok tt ∧ fr_status resp = 402 ∧ fo_hasPaymentSignature opts = false ∧
  acceptable config sel = true ∧
  (∃ n, BigInt (pr_amount sel) = Some n ∧ 0 ≤ n ≤ U64_MAX) ∧
  ∃ header accepts, fr_paymentRequired resp = Some header ∧
    decodePaymentRequiredHeader decode header = Ok accepts ∧ sel ∈ accepts.
Proof.
  unfold offered. intros H0. apply bind_Ok_inv in H0 as ([] & Hu & H0).
  destruct (Z.eqb_spec (fr_status resp) 402) as [H402|]; [|done]. cbn [negb] in H0.
  destruct (truthy_str (fr_paymentRequired resp)) as [header|] eqn:Hh; [|done].
  apply bind_Ok_inv in H0 as ([] & Hsig%throw_if_Ok & H0). apply bind_Ok_inv in H0 as (accepts & Hd & H0).
  apply bind_Ok_inv in H0 as (sel0 & Hsel & H0). injection H0 as <-.
  apply selectPaymentOption_Ok in Hsel as [Hin Hacc].
  destruct (decode_amounts _ _ _ Hd) as [_ Hall]. rewrite Forall_forall in Hall.
  split_and!; [done..|by apply Hall|]. exists header, accepts. split_and!; [|done|done].
  unfold truthy_str in Hh. destruct (fr_paymentRequired resp) as [h|]; [|done]. simpl in Hh.
  case_bool_decide; congruence.
Qed.

Lemma preflight_Pay nows clock signer url config opts resp s s' sel n :
  preflight parseUrl decode nows clock signer url config opts resp s = (s', Ok (Pay sel n)) →
  payment_checked nows clock signer url config opts resp s sel n.
Proof.
  unfold preflight. destruct (offered decode url config opts resp) as [[sel0|]|] eqn:Ho; [|done|done]. intros H0.
  apply offered_Some in Ho as (Hu & H402 & Hsig & Hacc & (n' & Hn' & Hr) & Hoff).
  apply decide_payment_Pay in H0 as (-> & ? & ? & Hv & ? & ? & Hb).
  apply validatePaymentAmount_Ok_iff in Hv as (Hn & Hpos & Hc & Hspike).
  assert (n' = n) as -> by congruence.
  split; try done; [by eapply check_url_Ok|split; [done|lia]|].
  intros ctx Hctx. apply evaluateX402Payment_nil; [done|]. by apply Hb.
Qed.
End Decision.

(** ** The cumulative cap over a run of payments *)

(** The total of a log after a cutoff, whatever the mint. *)
Definition total_after (cutoff : Z) (es : list SpendEntry) : Z :=
  sumZ (map (λ e, if cutoff <=? se_timestamp e then se_amount e else 0) es).

Definition log_nonneg (es : list SpendEntry) : Prop := Forall (λ e, 0 ≤ se_amount e) es.

Lemma getTotalSpendInWindow_eq now w st :
  getTotalSpendInWindow now w st = total_after (now - w) (spendEntries st).
Proof.
  unfold getTotalSpendInWindow, total_after.
  enough (∀ acc, foldl (λ sum e, sum + se_amount e) acc
      (filter (λ e, now - w ≤ se_timestamp e) (spendEntries st)) =
    acc + sumZ (map (λ e, if now - w <=? se_timestamp e then se_amount e else 0) (spendEntries st)))
    as H by (rewrite H; lia).
  induction (spendEntries st) as [|e es IH]; intros acc; [simpl; lia|].
  rewrite filter_cons. cbn [map].
  change (sumZ (?a :: ?b)) with (a + sumZ b).
  destruct (decide (now - w ≤ se_timestamp e)), (Z.leb_spec (now - w) (se_timestamp e)); try lia;
    cbn [foldl]; rewrite IH; lia.
Qed.

Lemma total_after_mono c c' es : log_nonneg es → c ≤ c' → total_after c' es ≤ total_after c es.
Proof.
  intros Hp Hc. unfold total_after. induction Hp as [|e l He _ IH]; simpl; [done|].
  unfold sumZ in *. simpl. destruct (Z.leb_spec c' (se_timestamp e)), (Z.leb_spec c (se_timestamp e)); lia.
Qed.

Lemma total_after_filter (P : SpendEntry → Prop) `{!∀ e, Decision (P e)} c es :
  log_nonneg es → log_nonneg (filter P es) ∧ total_after c (filter P es) ≤ total_after c es.
Proof.
  unfold log_nonneg, total_after.
  induction 1 as [|e l He _ [IH1 IH2]]; [done|]. rewrite filter_cons. unfold sumZ in *.
  destruct (decide (P e)); simpl; (split; [by try constructor|]); destruct (Z.leb_spec c (se_timestamp e)); lia.
Qed.

Lemma prune_total n1 n2 c st :
  log_nonneg (spendEntries st) →
  log_nonneg (spendEntries (prune n1 n2 st)) ∧
  total_after c (spendEntries (prune n1 n2 st)) ≤ total_after c (spendEntries st).
Proof.
  intros Hp. unfold prune. simpl. case_bool_decide; [by apply total_after_filter|done].
Qed.

Lemma recordX402Spend_total r1 r2 asset n ctx c :
  log_nonneg (spendEntries (state ctx)) → 0 ≤ n →
  let ctx' := recordX402Spend r1 r2 asset n ctx in
  log_nonneg (spendEntries (state ctx')) ∧
  total_after c (spendEntries (state ctx')) ≤ total_after c (spendEntries (state ctx)) + n.
Proof.
  intros Hp Hn. cbn zeta. unfold recordX402Spend, recordTransaction, recordSpend. cbn [state with_state].
  set (new := {| se_mint := asset; se_amount := n; se_timestamp := at_push r1 |}).
  set (st1 := with_logs (state ctx) (spendEntries (state ctx) ++ [new]) (txEntries (state ctx))).
  assert (Hp1 : log_nonneg (spendEntries st1)) by (apply Forall_app; split; [done|by repeat constructor]).
  destruct (prune_total (at_prune1 r1) (at_prune2 r1) c st1 Hp1) as [Hq1 Hq2].
  destruct (prune_total (at_prune1 r2) (at_prune2 r2) c
    (with_logs (prune (at_prune1 r1) (at_prune2 r1) st1)
       (spendEntries (prune (at_prune1 r1) (at_prune2 r1) st1))
       (txEntries (prune (at_prune1 r1) (at_prune2 r1) st1 ) ++ [at_push r2])) Hq1) as [Hr1 Hr2].
  split; [exact Hr1|]. etransitivity; [exact Hr2|]. etransitivity; [exact Hq2|].
  unfold total_after, st1. cbn [with_logs spendEntries]. rewrite map_app, sumZ_app.
  unfold sumZ at 2. simpl. destruct (at_push r1 <? c) eqn:?, (c <=? at_push r1) eqn:?; lia.
Qed.

Section Runs.
Context {E : Type} `{NonceStorage E}.
Context (parseUrl : string → option string) (decode : string → option json).
Context (c : X402Config).

(** A flow between two of its awaits: an option is selected and the replay
    check awaited; the check has passed; the payment is decided and is built,
    signed and sent; the server answered 2xx and the nonce is recorded; the amount
    is recorded and the poll awaited. *)
Inductive stage : Type :=
| Selected (signer url : string) (opts : fetch_options) (sel : PaymentRequirements)
| Cleared (signer url : string) (opts : fetch_options) (sel : PaymentRequirements)
| Paying (url : string) (sel : PaymentRequirements) (amount : Z)
| Noted (sel : PaymentRequirements) (amount : Z)
| Settling (sel : PaymentRequirements) (amount : Z).

(** What a flow has decided to pay and not recorded. *)
Definition owed (f : stage) : Z :=
  match f with Paying _ _ n | Noted _ n | Settling _ n => n | _ => 0 end.

Definition decided (f : stage) : bool :=
  match f with Paying _ _ _ | Noted _ _ | Settling _ _ => true | _ => false end.

(** The shared state, the flows under way and the time of the last decision. *)
Record world : Type := { w_state : flow_state (E := E); w_flows : list stage; w_time : Z }.

(** One flow moves on while the others wait; any flow may also end where it
    is, by an exception or an answer that is not 2xx.  Decisions are made at times
    that do not go back, and at most [k] flows are between their decision and the
    recording of their spend. *)
Inductive x402_step (k : nat) : world → world → Prop :=
| x402_arrive s fs t signer url opts resp sel :
    offered decode url (Some c) opts resp = Ok (Some sel) →
    x402_step k (Build_world s fs t) (Build_world s (Selected signer url opts sel :: fs) t)
| x402_replay s fs fs' t signer url opts sel now s' :
    replay_check parseUrl now url (Some c) sel s = (s', Ok tt) →
    x402_step k (Build_world s (fs ++ Selected signer url opts sel :: fs') t)
                (Build_world s' (fs ++ Cleared signer url opts sel :: fs') t)
| x402_refuse s fs fs' t signer url opts sel now s' e :
    replay_check parseUrl now url (Some c) sel s = (s', Throw e) →
    x402_step k (Build_world s (fs ++ Selected signer url opts sel :: fs') t) (Build_world s' (fs ++ fs') t)
| x402_decide s fs fs' t signer url opts sel now clock n :
    t ≤ now → approve now clock signer (Some c) opts sel s = Ok (Pay sel n) →
    (length (List.filter decided (fs ++ fs')) < k)%nat →
    x402_step k (Build_world s (fs ++ Cleared signer url opts sel :: fs') t)
                (Build_world s (fs ++ Paying url sel n :: fs') now)
| x402_answer s fs fs' t url sel n now :
    x402_step k (Build_world s (fs ++ Paying url sel n :: fs') t)
                (Build_world (note_nonce parseUrl now url (Some c) sel s) (fs ++ Noted sel n :: fs') t)
| x402_remember s fs fs' t sel n :
    x402_step k (Build_world s (fs ++ Noted sel n :: fs') t)
                (Build_world (note_amount n s) (fs ++ Settling sel n :: fs') t)
| x402_spend s fs fs' t sel n r1 r2 tx confirm :
    x402_step k (Build_world s (fs ++ Settling sel n :: fs') t)
                (Build_world (note_spend r1 r2 (Some c) sel n tx confirm s) (fs ++ fs') t)
| x402_end s fs fs' t f :
    x402_step k (Build_world s (fs ++ f :: fs') t) (Build_world s (fs ++ fs') t).

Definition x402_run (k : nat) : world → world → Prop := rtc (x402_step k).

(** The cap of the configuration, over the log of the context. *)
Definition window (now : Z) (ctx : ShieldedContext) : Z :=
  getTotalSpendInWindow now (default 86400000 (xc_cumulativeWindowMs c)) (state ctx).

Definition capped (max t : Z) (s : flow_state (E := E)) : Prop :=
  ∀ ctx, fs_shield s = Some ctx →
    log_nonneg (spendEntries (state ctx)) ∧ ∀ now, t ≤ now → window now ctx ≤ max.

(** Amounts decided are within the cap, few, and with what is recorded no more
    than [k] times the cap. *)
Record cap_inv (k : nat) (max : Z) (w : world) : Prop := {
  ci_few : (length (List.filter decided (w_flows w)) ≤ k)%nat;
  ci_owed : ∀ ctx, fs_shield (w_state w) = Some ctx → Forall (λ f, 0 ≤ owed f ≤ max) (w_flows w);
  ci_log : ∀ ctx, fs_shield (w_state w) = Some ctx → log_nonneg (spendEntries (state ctx));
  ci_total : ∀ ctx now, fs_shield (w_state w) = Some ctx → w_time w ≤ now →
    window now ctx + sumZ (map owed (w_flows w)) ≤ Z.of_nat k * max;
}.

Lemma window_eq now ctx :
  window now ctx = total_after (now - default 86400000 (xc_cumulativeWindowMs c)) (spendEntries (state ctx)).
Proof. apply getTotalSpendInWindow_eq. Qed.

Lemma window_nonneg now ctx : log_nonneg (spendEntries (state ctx)) → 0 ≤ window now ctx.
Proof.
  intros H0. rewrite window_eq. unfold total_after, sumZ. induction H0 as [|e l He _ IH]; simpl; [done|].
  destruct (_ <=? _); lia.
Qed.

Lemma window_later now now' ctx :
  log_nonneg (spendEntries (state ctx)) → now ≤ now' → window now' ctx ≤ window now ctx.
Proof. intros. rewrite !window_eq. apply total_after_mono; [done|lia]. Qed.

Lemma owed_undecided f : decided f = false → owed f = 0.
Proof. by destruct f. Qed.

(** Few flows, each within the cap, owe little. *)
Lemma owed_total max fs :
  Forall (λ f, 0 ≤ owed f ≤ max) fs →
  0 ≤ sumZ (map owed fs) ≤ Z.of_nat (length (List.filter decided fs)) * max.
Proof.
  unfold sumZ. induction 1 as [|f fs Hf _ IH]; simpl; [lia|].
  destruct (decided f) eqn:Hd; simpl length; [nia|]. apply owed_undecided in Hd. lia.
Qed.

Lemma sumZ_middle fs f fs' : sumZ (map owed (fs ++ f :: fs')) = owed f + sumZ (map owed (fs ++ fs')).
Proof. rewrite !map_app, !sumZ_app. simpl. unfold sumZ at 2. simpl. fold (sumZ (map owed fs')). lia. Qed.

Lemma few_middle fs f fs' :
  length (List.filter decided (fs ++ f :: fs')) =
  ((if decided f then 1 else 0) + length (List.filter decided (fs ++ fs')))%nat.
Proof. rewrite !List.filter_app, !length_app. simpl. destruct (decided f); simpl; lia. Qed.

Lemma Forall_middle {A} (P : A → Prop) fs f fs' : Forall P (fs ++ f :: fs') ↔ P f ∧ Forall P (fs ++ fs').
Proof. rewrite !Forall_app, Forall_cons. tauto. Qed.

(** A step of one flow that keeps the shield and what the flow owes. *)
Lemma cap_inv_same k max s s' fs f f' fs' t :
  cap_inv k max (Build_world s (fs ++ f :: fs') t) → fs_shield s' = fs_shield s →
  owed f' = owed f → decided f' = decided f → cap_inv k max (Build_world s' (fs ++ f' :: fs') t).
Proof.
  intros [Hf Ho Hl Ht] Hs He Hd. split; cbn [w_flows w_state w_time] in *; rewrite ?Hs.
  - by rewrite few_middle, Hd, <- few_middle.
  - intros ctx Hc. specialize (Ho ctx Hc). rewrite Forall_middle in Ho |- *. by rewrite He.
  - done.
  - intros ctx now Hc Hn. rewrite sumZ_middle, He, <- sumZ_middle. by apply Ht.
Qed.

(** A flow that ends, having recorded no more than it owed. *)
Lemma cap_inv_end k max s s' fs f fs' t :
  cap_inv k max (Build_world s (fs ++ f :: fs') t) →
  (∀ ctx', fs_shield s' = Some ctx' → ∃ ctx, fs_shield s = Some ctx ∧
     (0 ≤ owed f → log_nonneg (spendEntries (state ctx)) → log_nonneg (spendEntries (state ctx')) ∧
      ∀ now, window now ctx' ≤ window now ctx + owed f)) →
  cap_inv k max (Build_world s' (fs ++ fs') t).
Proof.
  intros [Hf Ho Hl Ht] Hs. cbn [w_flows w_state w_time] in *.
  assert (Hx : ∀ ctx', fs_shield s' = Some ctx' → ∃ ctx, fs_shield s = Some ctx ∧
    Forall (λ f, 0 ≤ owed f ≤ max) (fs ++ fs') ∧ log_nonneg (spendEntries (state ctx')) ∧
    ∀ now, window now ctx' ≤ window now ctx + owed f).
  { intros ctx' Hc'. destruct (Hs ctx' Hc') as (ctx & Hc & Hr). exists ctx. split; [done|].
    destruct (proj1 (Forall_middle _ _ _ _) (Ho ctx Hc)) as [Hof Hof']. split; [done|]. apply Hr; [lia|by apply Hl]. }
  split; cbn [w_flows w_state w_time].
  - rewrite few_middle in Hf. destruct (decided f); lia.
  - intros ctx' Hc'. by destruct (Hx ctx' Hc') as (ctx & _ & ? & _).
  - intros ctx' Hc'. by destruct (Hx ctx' Hc') as (ctx & _ & _ & ? & _).
  - intros ctx' now Hc' Hn. destruct (Hx ctx' Hc') as (ctx & Hc & _ & _ & Hw). specialize (Hw now).
    specialize (Ht ctx now Hc Hn). rewrite sumZ_middle in Ht. lia.
Qed.

Lemma note_spend_log r1 r2 sel n tx confirm (s : flow_state (E := E)) ctx' :
  fs_shield (note_spend r1 r2 (Some c) sel n tx confirm s) = Some ctx' →
  ∃ ctx, fs_shield s = Some ctx ∧
    (0 ≤ n → log_nonneg (spendEntries (state ctx)) → log_nonneg (spendEntries (state ctx')) ∧
     ∀ now, window now ctx' ≤ window now ctx + n).
Proof.
  unfold note_spend. cbn [fs_shield]. destruct (fs_shield s) as [ctx|]; [|done]. intros Hc. exists ctx. split; [done|].
  intros Hn Hl. destruct (match confirm with failed => _ | _ => _ end); injection Hc as <-.
  - split; [by apply (recordX402Spend_total r1 r2 (pr_asset sel) n ctx 0)|]. intros now. rewrite !window_eq.
    by apply recordX402Spend_total.
  - split; [done|]. intros. lia.
Qed.

(** The decision itself: what is recorded then and the amount fit the cap. *)
Lemma cap_inv_decide k max s fs fs' t signer url opts sel now clock n :
  xc_maxCumulativeSpend c = Some max →
  cap_inv k max (Build_world s (fs ++ Cleared signer url opts sel :: fs') t) → t ≤ now →
  approve now clock signer (Some c) opts sel s = Ok (Pay sel n) →
  (length (List.filter decided (fs ++ fs')) < k)%nat →
  cap_inv k max (Build_world s (fs ++ Paying url sel n :: fs') now).
Proof.
  intros Hmax [Hf Ho Hl Ht] Hnow Ha Hk. cbn [w_flows w_state w_time] in *.
  apply approve_Pay in Ha as (_ & _ & _ & Hv & _ & Hb).
  apply validatePaymentAmount_Ok_iff in Hv as (Hn & Hpos & _ & _).
  assert (Hfit : ∀ ctx, fs_shield s = Some ctx → window now ctx + n ≤ max).
  { intros ctx Hc. destruct (evaluateX402Payment_nil _ _ _ _ _ _ _ Hn (Hb ctx Hc)) as (_ & Hcum & _).
    by apply (Hcum c max eq_refl Hmax). }
  split; cbn [w_flows w_state w_time].
  - rewrite few_middle. simpl. lia.
  - intros ctx Hc. apply Forall_middle. split; [|by apply (proj1 (Forall_middle _ _ _ _) (Ho ctx Hc))].
    simpl. specialize (Hfit ctx Hc). pose proof (window_nonneg now ctx (Hl ctx Hc)). lia.
  - done.
  - intros ctx now' Hc Hn'. rewrite sumZ_middle. simpl.
    pose proof (owed_total max (fs ++ fs') (proj2 (proj1 (Forall_middle _ _ _ _) (Ho ctx Hc)))) as Hot.
    pose proof (window_later now now' ctx (Hl ctx Hc) Hn') as Hw. pose proof (window_nonneg now ctx (Hl ctx Hc)).
    specialize (Hfit ctx Hc). nia.
Qed.

Lemma cap_inv_step k max w w' :
  xc_maxCumulativeSpend c = Some max → (1 ≤ k)%nat → x402_step k w w' → cap_inv k max w → cap_inv k max w'.
Proof.
  intros Hmax Hk. destruct 1 as [s fs t signer url opts resp sel _|s fs fs' t signer url opts sel now s' Hr
    |s fs fs' t signer url opts sel now s' e Hr|s fs fs' t signer url opts sel now clock n Ht Ha Hn
    |s fs fs' t url sel n now|s fs fs' t sel n|s fs fs' t sel n r1 r2 tx confirm|s fs fs' t f]; intros Hi.
  - destruct Hi as [Hf Ho Hl Ht]. split; cbn [w_flows w_state w_time] in *; [done| |done|done].
    intros ctx Hc. constructor; [|by eapply Ho]. simpl. specialize (Ho ctx Hc). specialize (Hl ctx Hc).
    specialize (Ht ctx t Hc ltac:(lia)). pose proof (window_nonneg t ctx Hl). pose proof (owed_total max fs Ho). nia.
  - apply replay_check_Ok in Hr as (_ & Hs & _). by eapply cap_inv_same.
  - apply replay_check_Ok in Hr as (_ & Hs & _). eapply cap_inv_end; [done|].
    intros ctx'. rewrite Hs. intros Hc. exists ctx'. split; [done|]. intros ? ?. split; [done|]. simpl. intros. lia.
  - by eapply cap_inv_decide.
  - eapply cap_inv_same; [done| |done|done]. apply note_nonce_keeps.
  - by eapply cap_inv_same.
  - eapply cap_inv_end; [done|]. intros ctx'. apply note_spend_log.
  - eapply cap_inv_end; [done|]. intros ctx' Hc. exists ctx'. split; [done|]. intros ? ?. split; [done|].
    intros now. lia.
Qed.

Lemma capped_start k max s t : (1 ≤ k)%nat → capped max t s → cap_inv k max (Build_world s [] t).
Proof.
  intros Hk Hc. split; cbn [w_flows w_state w_time]; [simpl; lia|by constructor|by intros ctx Hs; apply Hc|].
  intros ctx now Hs Hn. destruct (Hc ctx Hs) as [Hl Hb]. specialize (Hb now Hn).
  pose proof (window_nonneg now ctx Hl). unfold sumZ. simpl. nia.
Qed.

Lemma cap_inv_run k max w w' :
  xc_maxCumulativeSpend c = Some max → (1 ≤ k)%nat → x402_run k w w' → cap_inv k max w → cap_inv k max w'.
Proof. intros Hmax Hk Hr. induction Hr; eauto using cap_inv_step. Qed.
End Runs.

(** The flow decides to pay only an option the server offered, over an
    allowed URL, on Solana, in an allowed token, to an allowed destination, that
    is not a replay, whose amount is a positive u64 within the spike guard, the
    per-request ceiling and the caller's maximum, and that an unpaused shield's
    cumulative cap and policies permit. *)
Theorem x402_pays_only_checked_options {E} `{NonceStorage E} parseUrl decode nows clock signer url
    config opts resp (s s' : flow_state (E := E)) sel n :
  preflight parseUrl decode nows clock signer url config opts resp s = (s', Ok (Pay sel n)) →
  payment_checked parseUrl decode nows clock signer url config opts resp s sel n.
Proof. apply preflight_Pay. Qed.

(** C35: Flows overlap at every point where the code awaits, with any answers
    of servers and polls.  When at most [k] of them are ever between the policy
    check and the recording of the spend, what is recorded in the cumulative
    window and what those flows are still to record is at most [k] times
    [maxCumulativeSpend]; flows one after the other ([k] = 1) keep to the cap. *)
Theorem x402_cumulative_never_exceeded {E} `{NonceStorage E} parseUrl decode c max k
    (s0 : flow_state (E := E)) t0 (w : world (E := E)) ctx now :
  (1 ≤ k)%nat → xc_maxCumulativeSpend c = Some max →
  capped c max t0 s0 →
  x402_run parseUrl decode c k {| w_state := s0; w_flows := []; w_time := t0 |} w →
  fs_shield (w_state w) = Some ctx → w_time w ≤ now →
  getTotalSpendInWindow now (default 86400000 (xc_cumulativeWindowMs c)) (state ctx) +
    sumZ (map owed (w_flows w)) ≤ Z.of_nat k * max.
Proof.
  intros Hk Hmax H0 Hrun Hs Ht. pose proof (capped_start c k max s0 t0 Hk H0) as Hi.
  by apply (ci_total _ _ _ _ (cap_inv_run parseUrl decode c k max _ _ Hmax Hk Hrun Hi)).
Qed.

Lemma retry_loop_spec n k max statuses :
  (1 ≤ k)%nat → max ≤ Z.of_nat (k + n) →
  (∀ i, (i + 1 < k)%nat → is_2xx (statuses i) = false) →
  let '(m, status) := retry_loop n k max statuses (statuses (k - 1)%nat) in
  (k ≤ m)%nat ∧ (Z.of_nat m ≤ Z.max (Z.of_nat k) max) ∧ status = statuses (m - 1)%nat ∧
  (∀ i, (i + 1 < m)%nat → is_2xx (statuses i) = false) ∧
  (is_2xx status = true ∨ max ≤ Z.of_nat m).
Proof.
  revert k; induction n as [|n IH]; intros k Hk Hmax Hprev; simpl.
  { split_and!; [done|lia|done|done|right; lia]. }
  destruct (Z.ltb_spec (Z.of_nat k) max) as [Hlt|Hge]; simpl.
  2: { split_and!; [done|lia|done|done|right; lia]. }
  destruct (is_2xx (statuses (k - 1)%nat)) eqn:Hs; simpl.
  { split_and!; [done|lia|done|done|by left]. }
  specialize (IH (k + 1)%nat). replace (k + 1 - 1)%nat with k in IH by lia.
  destruct (retry_loop n (k + 1) max statuses (statuses k)) as [m status].
  destruct IH as (? & ? & ? & ? & ?); [lia|lia| |split_and!; [lia|lia|done..]].
  intros i Hi. destruct (decide (i = (k - 1)%nat)) as [->|]; [done|]. apply Hprev. lia.
Qed.

(** A payment is sent at least once and at most [maxRetries] times, which is
    clamped to three; every answer but the last was not 2xx, the last one is the
    answer returned, and the loop stops early only on 2xx. *)
Theorem x402_requests_bounded config statuses :
  let '(m, status) := send_payment config statuses in
  (1 ≤ m ≤ 3)%nat ∧ Z.of_nat m ≤ max_retries config ∧ status = statuses (m - 1)%nat ∧
  (∀ i, (i + 1 < m)%nat → is_2xx (statuses i) = false) ∧
  (is_2xx status = true ∨ Z.of_nat m = max_retries config).
Proof.
  assert (1 ≤ max_retries config ≤ 3) as Hm by (unfold max_retries; lia).
  pose proof (retry_loop_spec 3 1 (max_retries config) statuses ltac:(lia) ltac:(lia)
    ltac:(intros; lia)) as Hs.
  unfold send_payment. change (1 - 1)%nat with 0%nat in Hs.
  destruct (retry_loop 3 1 (max_retries config) statuses (statuses 0%nat)) as [m status].
  destruct Hs as (? & ? & ? & ? & [|]); split_and!; try lia; auto.
Qed.

(** Settling records exactly on success: without a 2xx answer nothing
    changes; with one, the same option is refused as a replay until its entry
    expires, the amount enters the spike history, and the shield records the
    spend unless the transaction the server names failed on chain -- which the
    server may name freely. *)
Theorem settle_records_on_success {E} `{NonceStorage E} parseUrl now r1 r2 url config sel n status tx
    confirm (s : flow_state (E := E)) :
  let '(s', ok) := settle parseUrl now r1 r2 url config sel n status tx confirm s in
  (is_2xx status = false → s' = s ∧ ok = false) ∧
  (is_2xx status = true →
    ok = true ∧ fs_recent s' = recordPaymentAmount n (fs_recent s) ∧
    ((c ← config; xc_enableReplayProtection c) ≠ Some false →
       ∀ nows clock signer opts, fst nows ≤ now + nt_ttlMs (fs_nonces s) →
       (decide_payment parseUrl nows clock signer url config opts sel s').2 =
         Throw (X402ReplayError (buildKey parseUrl url (pr_payTo sel) (pr_amount sel)))) ∧
    fs_shield s' =
      if bool_decide (confirm = failed) && default true (c ← config; xc_confirmPayment c) &&
         bool_decide (is_Some (truthy_str tx))
      then fs_shield s else recordX402Spend r1 r2 (pr_asset sel) n <$> fs_shield s).
Proof.
  unfold settle. destruct (is_2xx status); simpl; cycle 1.
  { split; [done|]. intros Hf. discriminate Hf. }
  split; [intros Hf; discriminate Hf|]. intros _.
  destruct (note_nonce_keeps parseUrl now url config sel s) as [Hn1 Hn2]. split_and!; [done|by unfold note_amount; rewrite <- Hn1| |].
  - intros Hr nows clock signer opts Hn.
    assert (default true (c ← config; xc_enableReplayProtection c) = true) as Hd
      by (destruct (c ← config; xc_enableReplayProtection c) as [[]|]; done).
    unfold decide_payment, replay_check, note_spend, note_amount, note_nonce. rewrite Hd. cbn [fs_nonces with_nonces].
    pose proof (replay_refused parseUrl now (fst nows) [] url (pr_payTo sel) (pr_amount sel)
      (fs_nonces s) (Forall_nil_2 _) Hn) as Hrep. cbn [foldl] in Hrep.
    destruct (checkOrThrow _ _ _ _ _ _) as [t r]. cbn [snd] in *. by rewrite Hrep.
  - unfold note_spend. cbn [fs_shield note_amount]. rewrite Hn2.
    destruct confirm, (default true (c ← config; xc_confirmPayment c)), (truthy_str tx), (fs_shield s); reflexivity.
Qed.

(** The instruction the bridge shows the shield has no data, so the shield's
    spend limits, rate of outgoing value and on-chain caps never see the amount:
    without the two x402 ceilings the verdict is the same for every amount, and
    a shield whose limit is 100 has nothing against a payment of 10^12. *)
Theorem shield_limits_miss_x402_amounts :
  (∀ now clock sel1 sel2 ctx signer config,
     pr_asset sel1 = pr_asset sel2 → pr_payTo sel1 = pr_payTo sel2 →
     (c ← config; xc_maxCumulativeSpend c) = None → (c ← config; xc_maxPaymentPerRequest c) = None →
     evaluateX402Payment now clock sel1 ctx config signer =
     evaluateX402Payment now clock sel2 ctx config signer) ∧
  (let sel := {| pr_scheme := "exact"; pr_network := "solana:x"; pr_asset := USDC_MINT_MAINNET;
                 pr_amount := "1000000000000"; pr_payTo := "dst" |} in
   evaluateX402Payment 6 (λ _, 6) sel (demo_ctx None) None (Some "me") = Ok [] ∧
   is_ok (enforce (λ _, 6) (demo_rd 6) (demo_ix 1000000000000) "me" (demo_ctx None)) = false).
Proof.
  split.
  - intros now clock sel1 sel2 ctx signer config Ha Hp Hc Hm. unfold evaluateX402Payment, syntheticIx.
    by rewrite Hc, Hm, Ha, Hp.
  - vm_compute. done.
Qed.

(** ** A concrete flow *)

Definition demo_config : X402Config := {|
  xc_allowedDestinations := Some {["dest"]}; xc_allowedTokens := None;
  xc_maxPaymentPerRequest := Some 5000; xc_maxCumulativeSpend := Some 8000;
  xc_cumulativeWindowMs := None; xc_maxRetries := Some 9; xc_enableReplayProtection := None;
  xc_allowInsecureUrls := None; xc_confirmPayment := None |}.

Definition demo_opts : fetch_options := {|
  fo_dryRun := false; fo_maxPayment := Some 2000; fo_hasPaymentSignature := false; fo_hasRpc := true |}.

Definition demo_resp : first_response := {| fr_status := 402; fr_paymentRequired := Some "h" |}.

Definition demo_sel : PaymentRequirements := {|
  pr_scheme := "exact"; pr_network := "solana:x"; pr_asset := "USDC"; pr_amount := "1000";
  pr_payTo := "dest" |}.

Definition demo_flow : flow_state (E := Empty_set) := {|
  fs_nonces := new_NonceTracker None None; fs_recent := []; fs_shield := Some (demo_ctx None) |}.

Definition demo_settled : flow_state (E := Empty_set) :=
  (settle (λ _, None) 12 (demo_rd 12 0%nat) (demo_rd 12 0%nat) "https://api" (Some demo_config) demo_sel
     1000 200 None timeout
     (preflight (λ _, None) (λ _, Some demo_json) (10, 11) (λ _, 11) "me" "https://api" (Some demo_config)
        demo_opts demo_resp demo_flow).1).1.

Lemma x402_pays_only_checked_options_witness :
  payment_checked (λ _, None) (λ _, Some demo_json) (10, 11) (λ _, 11) "me" "https://api"
    (Some demo_config) demo_opts demo_resp demo_flow demo_sel 1000.
Proof.
  eapply (x402_pays_only_checked_options (λ _, None) (λ _, Some demo_json) (10, 11) (λ _, 11) "me"
    "https://api" (Some demo_config) demo_opts demo_resp demo_flow _ demo_sel 1000).
  vm_compute. reflexivity.
Defined.

(** Two servers ask for 1000 each, at a cap of 1500: both are checked before
    either is recorded. *)
Definition tight_config : X402Config := {|
  xc_allowedDestinations := Some {["dest"]}; xc_allowedTokens := None;
  xc_maxPaymentPerRequest := Some 5000; xc_maxCumulativeSpend := Some 1500;
  xc_cumulativeWindowMs := None; xc_maxRetries := Some 9; xc_enableReplayProtection := None;
  xc_allowInsecureUrls := None; xc_confirmPayment := None |}.

Definition demo_start : world (E := Empty_set) := {| w_state := demo_flow; w_flows := []; w_time := 0 |}.

Definition asks (url : string) : stage := Selected "me" url demo_opts demo_sel.
Definition cleared (url : string) : stage := Cleared "me" url demo_opts demo_sel.
Definition paying (url : string) : stage := Paying url demo_sel 1000.

(** Checked, each at its time, then recorded, each by every part of step 17. *)
Definition recorded (url : string) (s : flow_state (E := Empty_set)) : flow_state (E := Empty_set) :=
  note_spend (demo_rd 12 0%nat) (demo_rd 12 0%nat) (Some tight_config) demo_sel 1000 None timeout
    (note_amount 1000 (note_nonce (λ _, None) 12 url (Some tight_config) demo_sel s)).

Lemma tight_overlap :
  x402_run (λ _, None) (λ _, Some demo_json) tight_config 2 demo_start
    {| w_state := demo_flow; w_flows := [paying "https://b"; paying "https://a"]; w_time := 11 |}.
Proof.
  unfold demo_start. eapply rtc_l.
  { eapply (x402_arrive _ _ _ _ _ _ _ "me" "https://a" demo_opts demo_resp). vm_compute. reflexivity. }
  eapply rtc_l.
  { eapply (x402_arrive _ _ _ _ _ _ _ "me" "https://b" demo_opts demo_resp). vm_compute. reflexivity. }
  eapply rtc_l.
  { eapply (x402_replay _ _ _ _ _ [asks "https://b"] [] 0 "me" "https://a" demo_opts demo_sel 10). vm_compute. reflexivity. }
  eapply rtc_l. { eapply (x402_replay _ _ _ _ _ [] [cleared "https://a"] 0 _ _ _ _ 10). vm_compute. reflexivity. }
  eapply rtc_l.
  { eapply (x402_decide _ _ _ _ _ [cleared "https://b"] [] 0 _ _ _ _ 11 (λ _, 11) 1000);
      [lia|vm_compute; reflexivity|simpl; lia]. }
  eapply rtc_l.
  { eapply (x402_decide _ _ _ _ _ [] [paying "https://a"] 11 _ _ _ _ 11 (λ _, 11) 1000);
      [lia|vm_compute; reflexivity|simpl; lia]. }
  apply rtc_refl.
Qed.

Lemma tight_record url fs s :
  x402_run (λ _, None) (λ _, Some demo_json) tight_config 2
    {| w_state := s; w_flows := paying url :: fs; w_time := 11 |}
    {| w_state := recorded url s; w_flows := fs; w_time := 11 |}.
Proof.
  eapply rtc_l. { apply (x402_answer _ _ _ _ s [] fs 11 url demo_sel 1000 12). }
  eapply rtc_l. { apply (x402_remember _ _ _ _ _ [] fs). }
  eapply rtc_l. { apply (x402_spend _ _ _ _ _ [] fs). }
  apply rtc_refl.
Qed.

(** Overlapping flows exceed the cap: the check of the second does not see the
    payment that the first has decided and not recorded. *)
Theorem overlapping_flows_exceed_the_cap :
  ∃ (w : world (E := Empty_set)) ctx,
    x402_run (λ _, None) (λ _, Some demo_json) tight_config 2 demo_start w ∧
    w_flows w = [] ∧ fs_shield (w_state w) = Some ctx ∧
    xc_maxCumulativeSpend tight_config = Some 1500 ∧
    getTotalSpendInWindow 12 86400000 (state ctx) = 2000.
Proof.
  eexists _, _. split.
  - etransitivity; [exact tight_overlap|]. etransitivity; apply tight_record.
  - split; [done|]. split; [vm_compute; reflexivity|]. split; [done|]. vm_compute. reflexivity.
Qed.

Lemma x402_cumulative_never_exceeded_witness :
  ∃ ctx, fs_shield demo_settled = Some ctx ∧
    getTotalSpendInWindow 12 86400000 (state ctx) = 1000 ∧
    getTotalSpendInWindow 12 86400000 (state ctx) + sumZ (map owed []) ≤ Z.of_nat 1 * 8000.
Proof.
  eexists. split; [vm_compute; reflexivity|]. split; [vm_compute; reflexivity|].
  refine (x402_cumulative_never_exceeded (λ _, None) (λ _, Some demo_json) demo_config 8000 1
    demo_flow 0 {| w_state := demo_settled; w_flows := []; w_time := 11 |} _ 12 _ eq_refl _ _ _ _);
    [lia| | |vm_compute; reflexivity|simpl; lia].
  - intros ctx [= <-]. split; [constructor|]. intros now _. vm_compute. discriminate.
  - eapply rtc_l.
    { eapply (x402_arrive _ _ _ _ _ _ _ "me" "https://api" demo_opts demo_resp). vm_compute. reflexivity. }
    eapply rtc_l. { eapply (x402_replay _ _ _ _ _ [] [] 0 _ _ _ _ 10). vm_compute. reflexivity. }
    eapply rtc_l.
    { eapply (x402_decide _ _ _ _ _ [] [] 0 _ _ _ _ 11 (λ _, 11) 1000); [lia|vm_compute; reflexivity|simpl; lia]. }
    eapply rtc_l. { eapply (x402_answer _ _ _ _ _ [] [] 11 _ _ _ 12). }
    eapply rtc_l. { eapply (x402_remember _ _ _ _ _ [] []). }
    eapply rtc_l. { eapply (x402_spend _ _ _ _ _ [] [] 11 _ _ (demo_rd 12 0%nat) (demo_rd 12 0%nat) None timeout). }
    apply rtc_refl.
Defined.
