(* ===== verification/Composer.v ===== *)
(** * Composing a transaction ([sdk/kit/src/composer.ts], [priority-fees.ts], [types.ts])

    The registry of supported protocols, the compute-unit estimate and the
    order of the instructions of a sealed transaction.  The compute-budget
    instructions come from a package and are parameters. *)

From Stdlib Require String.
From S2P Require Import Prelude IntentDigest SdkTypes.

Local Open Scope Z_scope.

(** ** Registries *)

Record ProtocolMeta : Type := { pm_name : string; pm_instructionCountLimited : bool; pm_defaultCU : Z }.

Definition SUPPORTED_PROTOCOLS : list (string * ProtocolMeta) := [
  ("JUP6LkbZbjS1jKKwapdHNy74zcZ3tLUZoi5QNyVTaV4",
    {| pm_name := "Jupiter"; pm_instructionCountLimited := true; pm_defaultCU := 600000 |});
  ("FLASH6Lo6h3iasJKWDs2F8TkW2UKf3s15C8PMGuVfgBn",
    {| pm_name := "Flash Trade"; pm_instructionCountLimited := true; pm_defaultCU := 800000 |});
  ("JLend2fEim9xUFcaHsyGePEoBzFLvkjMi3MnPcSuCdu",
    {| pm_name := "Jupiter Lend"; pm_instructionCountLimited := true; pm_defaultCU := 400000 |});
  ("jup3YeL8QhtSx1e253b2FDvsMNC87fDrgQZivbrndc9",
    {| pm_name := "Jupiter Earn"; pm_instructionCountLimited := true; pm_defaultCU := 400000 |});
  ("jupr81YtYssSyPt8jbnGuiWon5f6x9TcDEFxYe3Bdzi",
    {| pm_name := "Jupiter Borrow"; pm_instructionCountLimited := true; pm_defaultCU := 400000 |});
  ("dRiftyHA39MWEi3m9aunc5MzRF1JYuBsbn6VPcn33UH",
    {| pm_name := "Drift"; pm_instructionCountLimited := false; pm_defaultCU := 800000 |});
  ("KLend2g3cP87ber8CzRaqeECGwNvLFM9acPVcRkRHvM",
    {| pm_name := "Kamino"; pm_instructionCountLimited := false; pm_defaultCU := 400000 |})].

Definition RECOGNIZED_DEFI_PROGRAMS : list string :=
  map fst (filter (λ p : string * ProtocolMeta, pm_instructionCountLimited p.2) SUPPORTED_PROTOCOLS).

Definition JUPITER_PROGRAM : string := "JUP6LkbZbjS1jKKwapdHNy74zcZ3tLUZoi5QNyVTaV4".
Definition CU_AGENT_TRANSFER : Z := 200000.
Definition CU_JUPITER_MULTI_HOP : Z := 900000.
Definition CU_DEFAULT_COMPOSED : Z := 800000.

Definition lookup_protocol (addr : string) : option ProtocolMeta :=
  p ← list_find (λ p : string * ProtocolMeta, p.1 = addr) SUPPORTED_PROTOCOLS; Some p.2.2.

Fixpoint first_known_cu (addrs : list string) : Z :=
  match addrs with
  | [] => CU_DEFAULT_COMPOSED
  | a :: addrs => match lookup_protocol a with Some m => pm_defaultCU m | None => first_known_cu addrs end
  end.

Definition estimateComposedCU (ixs : list Ix) : Z :=
  if bool_decide (length ixs = 0%nat) then CU_AGENT_TRANSFER else
  let programAddresses := map ix_programAddress ixs in
  if bool_decide (JUPITER_PROGRAM ∈ programAddresses) && bool_decide (2 < length ixs)%nat
  then CU_JUPITER_MULTI_HOP else first_known_cu programAddresses.

(** The instructions of the transaction, in order; compiling and encoding them
    is the work of a package. *)
Definition composeSigilTransaction (limitIx priceIx : Z → Ix) (computeUnits priorityFee : option Z)
    (validateIx : Ix) (defi : list Ix) (finalizeIx : Ix) : list Ix :=
  [limitIx (default (estimateComposedCU defi) computeUnits)] ++
  match priorityFee with
  | Some fee => if 0 <? fee then [priceIx fee] else []
  | None => []
  end ++ [validateIx] ++ defi ++ [finalizeIx].
