(* ===== verification/Formatting.v ===== *)
(** * Numbers for display (formatting.ts, math-utils.ts, protocol-names.ts)

    The conversions between base units and dollars go through IEEE doubles;
    the round trip is exact far above any balance, but not up to the ceiling
    its comment names.  Durations, addresses and token amounts are printed as
    the dashboard prints them.  [Intl.NumberFormat] is modelled for what is used
    of it here: whole numbers grouped by thousands. *)

From S2P Require Import Prelude JsText SdkTypes Composer.

Local Open Scope Z_scope.

(** ** Arithmetic of doubles *)

(** A finite double as a fraction. *)
Definition double_num (m e : Z) : Z := if 0 <=? e then m * 2 ^ e else m.
Definition double_den (e : Z) : Z := if 0 <=? e then 1 else 2 ^ (- e).

Definition double_op (f : Z → Z → Z → Z → Z * Z) (x y : double) : double :=
  match x, y with
  | Finite m e, Finite m' e' =>
      let '(n, d) := f (double_num m e) (double_den e) (double_num m' e') (double_den e') in
      to_double n d
  | _, _ => Infinity
  end.
Definition double_add : double → double → double := double_op (λ a b c d, (a * d + c * b, b * d)).
Definition double_mul : double → double → double := double_op (λ a b c d, (a * c, b * d)).
Definition double_div : double → double → double := double_op (λ a b c d, (a * d, b * c)).
Definition Number_of (z : Z) : double := to_double z 1.
Definition zero : double := Finite 0 0.

(** [x > z] and [x >= y] for doubles. *)
Definition double_gt (x : double) (z : Z) : bool :=
  match x with Infinity => true | Finite m e => z * double_den e <? double_num m e end.
Definition double_ge (x y : double) : bool :=
  match x, y with
  | Infinity, _ => true
  | Finite _ _, Infinity => false
  | Finite m e, Finite m' e' => double_num m' e' * double_den e <=? double_num m e * double_den e'
  end.

(** ** Percentages (math-utils.ts) *)

Definition computeUtilizationPercent (spent cap : Z) : double :=
  if 0 <? cap then double_div (Number_of (Z.quot (spent * 10000) cap)) (Number_of 100) else zero.

Definition computeHerfindahl (values : list Z) : double :=
  let total := foldl Z.add 0 values in
  if total =? 0 then zero
  else foldl (λ acc v,
         if v =? 0 then acc
         else let share := double_div (Number_of (Z.quot (v * 10000) total)) (Number_of 10000) in
              double_add acc (double_mul share share)) zero values.

(** ** Dollars *)

Definition STABLECOIN_USD_FACTOR : Z := 1000000.

Definition toUsdNumber (absAmount : Z) : result js_exn double :=
  if absAmount <? 0 then Throw JsRangeError
  else Ok (double_add (Number_of (Z.quot absAmount STABLECOIN_USD_FACTOR))
             (double_div (Number_of (Z.rem absAmount STABLECOIN_USD_FACTOR)) (Number_of 1000000))).

Definition FROM_USD_NUMBER_MAX : double := double_div (Number_of (2 ^ 53 - 1)) (Number_of 1000000).

(** A number that is not finite is refused, as is one at the ceiling.  The
    doubles of the model are not negative: [Math.abs] is the identity. *)
Definition fromUsdNumber (value : double) : result js_exn Z :=
  match value with
  | Infinity => Throw JsTypeError
  | Finite _ _ =>
      if double_ge value FROM_USD_NUMBER_MAX then Throw JsRangeError
      else match Math_round (double_mul_int value 1000000) with
           | Some z => Ok z
           | None => Throw JsRangeError
           end
  end.

(** ** Time *)

(** Seconds are whole here; the code floors every quotient, so a fraction of a
    second changes nothing. *)
Definition formatDuration (seconds : Z) : string :=
  if seconds <? 0 then "0m"
  else if seconds <? 60 then "< 1m"
  else
    let days := seconds / 86400 in
    let hours := (seconds mod 86400) / 3600 in
    let minutes := (seconds mod 3600) / 60 in
    if 0 <? days then
      if 0 <? hours then bigint_toString days +:+ "d " +:+ bigint_toString hours +:+ "h"
      else bigint_toString days +:+ "d"
    else if 0 <? hours then
      if 0 <? minutes then bigint_toString hours +:+ "h " +:+ bigint_toString minutes +:+ "m"
      else bigint_toString hours +:+ "h"
    else bigint_toString minutes +:+ "m".

Definition formatRelativeTime (now timestamp : Z) : string :=
  let diff := now - timestamp in
  if diff <? 60 then "just now"
  else if diff <? 3600 then bigint_toString (diff / 60) +:+ "m ago"
  else if diff <? 86400 then bigint_toString (diff / 3600) +:+ "h ago"
  else if diff <? 2592000 then bigint_toString (diff / 86400) +:+ "d ago"
  else bigint_toString (diff / 2592000) +:+ "mo ago".

Definition formatTimeUntil (now timestamp : Z) : string :=
  let diff := timestamp - now in
  if diff <=? 0 then "expired" else "in " +:+ formatDuration diff.

(** ** Addresses and token amounts *)

Definition formatAddress (address : string) (n : nat) : string :=
  if (String.length address <=? n * 2 + 3)%nat then address
  else text (take n (chars address)) +:+ "..." +:+
       text (drop (String.length address - n) (chars address)).

Definition resolveProtocolName (protocol : string) : string :=
  match lookup_protocol protocol with
  | Some meta => pm_name meta
  | None => formatAddress protocol 4
  end.

(** Digits, the last one first, with a comma before every third. *)
Fixpoint group_rev (ds : list ascii) : list ascii :=
  match ds with
  | a :: b :: c :: ((_ :: _) as rest) => a :: b :: c :: ","%char :: group_rev rest
  | _ => ds
  end.
Definition group_thousands (z : Z) : list ascii := reverse (group_rev (reverse (bigint_chars z))).

(** [Number(whole)] is a double; a whole number prints as its value. *)
Definition Number_whole (z : Z) : Z :=
  match Number_of z with Finite m e => Z.quot (double_num m e) (double_den e) | Infinity => 0 end.

Definition formatTokenAmount (amount : Z) (decimals : nat) (symbol : string) (displayDecimals : option nat)
    : string :=
  let absAmount := if amount <? 0 then - amount else amount in
  let factor := 10 ^ Z.of_nat decimals in
  let whole := Z.quot absAmount factor in
  let frac := Z.rem absAmount factor in
  let fracDigits := default decimals displayDecimals in
  let fracStr := take fracDigits (padStart (bigint_chars frac) decimals "0"%char) in
  let wholeFormatted := text (group_thousands (Number_whole whole)) in
  let result := if (0 <? fracDigits)%nat
                then wholeFormatted +:+ "." +:+ text fracStr +:+ " " +:+ symbol
                else wholeFormatted +:+ " " +:+ symbol in
  if amount <? 0 then "-" +:+ result else result.

(** ** Currency *)

(** [Intl.NumberFormat("en-US", ...).format] with a fixed number of decimals:
    the value of the double, rounded to nearest with halves away from zero. *)
Definition round_decimals (decimals : nat) (x : double) : option Z :=
  match x with
  | Infinity => None
  | Finite m e =>
      let n := double_num m e * 10 ^ Z.of_nat decimals in
      Some ((2 * n + double_den e) / (2 * double_den e))
  end.

Definition print_decimals (decimals : nat) (units : Z) : string :=
  let factor := 10 ^ Z.of_nat decimals in
  let whole := text (group_thousands (units / factor)) in
  match decimals with
  | O => whole
  | _ => whole +:+ "." +:+ text (padStart (bigint_chars (units mod factor)) decimals "0"%char)
  end.

Definition format_currency (decimals : nat) (x : double) : string :=
  match round_decimals decimals x with
  | Some units => "$" +:+ print_decimals decimals units
  | None => "$∞"
  end.

Definition formatUsd (amount : Z) (decimals : nat) : result js_exn string :=
  let isNegative := amount <? 0 in
  let absAmount := if isNegative then - amount else amount in
  dollarValue ← toUsdNumber absAmount;
  let formatted := format_currency decimals dollarValue in
  Ok (if isNegative then "-" +:+ formatted else formatted).

Definition formatUsdSigned (amount : Z) (decimals : nat) : result js_exn string :=
  if amount =? 0 then formatUsd 0 decimals
  else if 0 <? amount then (λ s, "+" +:+ s) <$> formatUsd amount decimals
  else formatUsd amount decimals.

Example currency_examples :
  (formatUsd 500000000 6, formatUsd 1234567890 2, formatUsd (-89120000) 2, formatUsd 999999999999 0,
   formatUsdSigned 234560000 6, formatUsdSigned 0 2) =
  (Ok "$500.000000", Ok "$1,234.57", Ok "-$89.12", Ok "$1,000,000", Ok "+$234.560000", Ok "$0.00")%string.
Proof. vm_compute. reflexivity. Qed.

Example formatting_examples :
  (formatDuration 8100, formatDuration 302400, formatDuration 59, formatRelativeTime 1000 100,
   formatTimeUntil 100 2800,
   formatAddress "7Kp3abcdefghijkxQ2m" 4, formatTokenAmount 1234560000 6 "USDC" None,
   formatTokenAmount (-123456789) 9 "SOL" (Some 2%nat), formatTokenAmount 5 0 "X" None) =
  ("2h 15m", "3d 12h", "< 1m", "15m ago", "in 45m", "7Kp3...xQ2m", "1,234.560000 USDC", "-0.12 SOL", "5 X")%string.
Proof. vm_compute. reflexivity. Qed.

Example math_examples :
  (computeUtilizationPercent 250000000 500000000, computeUtilizationPercent 0 0,
   double_gt (computeUtilizationPercent 801 1000) 80, double_gt (computeUtilizationPercent 800 1000) 80,
   double_gt (computeHerfindahl [5; 0]) 0) = (to_double 50 1, zero, true, false, true).
Proof. vm_compute. reflexivity. Qed.

(** ** Rounding of sums and products *)

Lemma double_frac m e : e ≤ 0 → double_num m e = m ∧ double_den e = 2 ^ (- e).
Proof.
  intros He. unfold double_num, double_den. destruct (Z.leb_spec 0 e); [|done].
  assert (e = 0) as -> by lia. simpl. lia.
Qed.

(** Whole numbers below [2^53] are exact. *)
Lemma Number_of_exact z :
  0 ≤ z < 2 ^ 53 → ∃ m e, Number_of z = Finite m e ∧ e ≤ 0 ∧ m = z * 2 ^ (- e).
Proof.
  intros [H0 H1]. unfold Number_of. destruct (Z.eq_dec z 0) as [->|Hz]; [by exists 0, 0|].
  destruct (ulp_expo_spec z 1) as [He _]; [lia..|].
  destruct (to_double_bound z 1) as (m & e & E & He' & _); [lia..|].
  exists m, e. split; [done|]. split; [done|]. revert E. unfold to_double.
  rewrite (proj2 (Z.eqb_neq z 0) Hz). destruct (1024 <? _); [done|].
  intros [= <- <-]. unfold scale_num, scale_den. rewrite (proj2 (Z.leb_le _ 0) He).
  unfold round_even. by rewrite Z.mod_1_r, Z.div_1_r.
Qed.

(** Three roundings around an amount of base units below [2^50] stay below one
    half: of the fraction, of the sum and of the product. *)
Lemma three_roundings_close a w f m m1 m2 P P1 P2 :
  0 ≤ w → 0 ≤ f → a = 1000000 * w + f → a < 2 ^ 50 → 0 ≤ m → 0 ≤ m1 →
  1 ≤ P → 1 ≤ P1 → 1 ≤ P2 →
  Z.abs (2 ^ 53 * (m * 1000000) - 2 ^ 53 * (f * P)) ≤ f * P →
  Z.abs (2 ^ 53 * (m1 * P) - 2 ^ 53 * ((w * P + m) * P1)) ≤ (w * P + m) * P1 →
  Z.abs (2 ^ 53 * (m2 * P1) - 2 ^ 53 * (m1 * 1000000 * P2)) ≤ m1 * 1000000 * P2 →
  2 * Z.abs (m2 - a * P2) < P2.
Proof.
  intros Hw Hf Ha Hlt Hm Hm1 HP HP1 HP2 B1 B2 B3.
  set (G := P * P1 * P2). assert (0 < P * P1) by nia. assert (0 < G) by (unfold G; nia).
  set (F := f * G). set (X := 1000000 * m * P1 * P2). set (W := 1000000 * w * G).
  set (Y := 1000000 * m1 * P * P2). set (V := m2 * P * P1).
  assert (C1 : Z.abs (2 ^ 53 * X - 2 ^ 53 * F) ≤ F).
  { unfold X, F, G. replace (2 ^ 53 * (1000000 * m * P1 * P2) - 2 ^ 53 * (f * (P * P1 * P2)))
      with ((2 ^ 53 * (m * 1000000) - 2 ^ 53 * (f * P)) * (P1 * P2)) by lia.
    rewrite Z.abs_mul, (Z.abs_eq (P1 * P2)) by nia. nia. }
  assert (C2 : Z.abs (2 ^ 53 * Y - 2 ^ 53 * (W + X)) ≤ W + X).
  { unfold X, W, Y, G.
    replace (2 ^ 53 * (1000000 * m1 * P * P2) - 2 ^ 53 * (1000000 * w * (P * P1 * P2) + 1000000 * m * P1 * P2))
      with ((2 ^ 53 * (m1 * P) - 2 ^ 53 * ((w * P + m) * P1)) * (1000000 * P2)) by lia.
    rewrite Z.abs_mul, (Z.abs_eq (1000000 * P2)) by lia. nia. }
  assert (C3 : Z.abs (2 ^ 53 * V - 2 ^ 53 * Y) ≤ Y).
  { unfold V, Y. replace (2 ^ 53 * (m2 * P * P1) - 2 ^ 53 * (1000000 * m1 * P * P2))
      with ((2 ^ 53 * (m2 * P1) - 2 ^ 53 * (m1 * 1000000 * P2)) * P) by lia.
    rewrite Z.abs_mul, (Z.abs_eq P) by lia. nia. }
  assert (0 ≤ F) by (unfold F; nia). assert (0 ≤ W) by (unfold W; nia).
  assert (W + F ≤ (2 ^ 50 - 1) * G).
  { replace (W + F) with (a * G) by (unfold W, F; subst a; ring). apply Z.mul_le_mono_nonneg_r; lia. }
  assert (HV : 2 * Z.abs (V - (W + F)) < G).
  { clearbody F X W Y V G. clear - C1 C2 C3 H0 H1 H2 H3. lia. }
  replace (V - (W + F)) with ((m2 - a * P2) * (P * P1)) in HV by (unfold V, W, F, G; subst a; ring).
  rewrite Z.abs_mul, (Z.abs_eq (P * P1)) in HV by lia.
  apply (Z.mul_lt_mono_pos_r (P * P1)); [done|]. clear - HV. unfold G in HV. lia.
Qed.

(** A rounding of a positive fraction, as the bounds of the lemma above. *)
Lemma round_close num den :
  0 ≤ num → 0 < den → num < 2 ^ 53 * den → (num = 0 ∨ den ≤ num * 2 ^ 1000) →
  ∃ m e, to_double num den = Finite m e ∧ e ≤ 0 ∧ 0 ≤ m ∧
    Z.abs (2 ^ 53 * (m * den) - 2 ^ 53 * (num * 2 ^ (- e))) ≤ num * 2 ^ (- e).
Proof.
  intros Hn Hd Hlt Hlo. destruct (Z.eq_dec num 0) as [->|Hnz]; [by exists 0, 0|].
  destruct (to_double_bound num den) as (m & e & E & He & B); [lia..|].
  exists m, e. split_and!; try done. assert (0 < 2 ^ (- e)) by (apply Z.pow_pos_nonneg; lia).
  assert (0 < num * 2 ^ (- e)) by nia. assert (0 < m * den) by lia. nia.
Qed.

Lemma pow2_pos e : e ≤ 0 → 1 ≤ 2 ^ (- e).
Proof. intros. apply (Z.pow_le_mono_r 2 0); lia. Qed.

(** Dividing out a common factor of a bound. *)
Lemma abs_cancel k x y : 0 < k → Z.abs (k * x) ≤ k * y → Z.abs x ≤ y.
Proof. intros Hk H. rewrite Z.abs_mul, (Z.abs_eq k) in H by lia. nia. Qed.

(** The cents of an amount as a double. *)
Lemma cents_close f :
  0 ≤ f < 1000000 →
  ∃ m e, double_div (Number_of f) (Number_of 1000000) = Finite m e ∧ e ≤ 0 ∧ 0 ≤ m ∧
    Z.abs (2 ^ 53 * (m * 1000000) - 2 ^ 53 * (f * 2 ^ (- e))) ≤ f * 2 ^ (- e).
Proof.
  intros Hf. destruct (Number_of_exact f) as (mf & ef & -> & Hef & ->); [lia|].
  destruct (Number_of_exact 1000000) as (mk & ek & -> & Hek & ->); [lia|].
  unfold double_div, double_op.
  destruct (double_frac (f * 2 ^ (- ef)) ef Hef) as [-> ->].
  destruct (double_frac (1000000 * 2 ^ (- ek)) ek Hek) as [-> ->].
  pose proof (pow2_pos ef Hef). pose proof (pow2_pos ek Hek).
  set (Pf := 2 ^ (- ef)) in *. set (Pk := 2 ^ (- ek)) in *. assert (0 < Pf * Pk) by nia.
  replace (f * Pf * Pk) with (Pf * Pk * f) by ring.
  replace (Pf * (1000000 * Pk)) with (Pf * Pk * 1000000) by ring.
  destruct (round_close (Pf * Pk * f) (Pf * Pk * 1000000)) as (m & e & E & He & Hm & B);
    [nia | nia | nia | |].
  - destruct (Z.eq_dec f 0) as [->|]; [left; ring|right].
    assert (1000000 ≤ 2 ^ 1000) by (apply (Z.pow_le_mono_r 2 20 1000); lia). nia.
  - exists m, e. split_and!; try done. apply (abs_cancel (Pf * Pk)); [done|].
    replace (Pf * Pk * (2 ^ 53 * (m * 1000000) - 2 ^ 53 * (f * 2 ^ (- e))))
      with (2 ^ 53 * (m * (Pf * Pk * 1000000)) - 2 ^ 53 * (Pf * Pk * f * 2 ^ (- e))) by ring.
    replace (Pf * Pk * (f * 2 ^ (- e))) with (Pf * Pk * f * 2 ^ (- e)) by ring. done.
Qed.

(** Whole dollars plus a double below two. *)
Lemma sum_close w m e :
  0 ≤ w < 2 ^ 40 → e ≤ 0 → 0 ≤ m ≤ 2 * 2 ^ (- e) → (m = 0 ∨ 2 ^ (- e) ≤ m * 2 ^ 1000) →
  ∃ m1 e1, double_add (Number_of w) (Finite m e) = Finite m1 e1 ∧ e1 ≤ 0 ∧ 0 ≤ m1 ∧
    Z.abs (2 ^ 53 * (m1 * 2 ^ (- e)) - 2 ^ 53 * ((w * 2 ^ (- e) + m) * 2 ^ (- e1)))
      ≤ (w * 2 ^ (- e) + m) * 2 ^ (- e1).
Proof.
  intros Hw He Hm Hlo. destruct (Number_of_exact w) as (mw & ew & -> & Hew & ->); [lia|].
  unfold double_add, double_op.
  destruct (double_frac (w * 2 ^ (- ew)) ew Hew) as [-> ->]. destruct (double_frac m e He) as [-> ->].
  pose proof (pow2_pos ew Hew). pose proof (pow2_pos e He).
  set (Pw := 2 ^ (- ew)) in *. set (P := 2 ^ (- e)) in *.
  replace (w * Pw * P + m * Pw) with (Pw * (w * P + m)) by ring.
  destruct (round_close (Pw * (w * P + m)) (Pw * P)) as (m1 & e1 & E & He1 & Hm1 & B);
    [nia | nia | | |].
  - assert (w * P + m < 2 ^ 53 * P) by nia. nia.
  - destruct (Z.eq_dec (w * P + m) 0) as [->|Hz]; [left; ring|right].
    assert (P ≤ (w * P + m) * 2 ^ 1000); [|nia].
    assert (1 ≤ 2 ^ 1000) by (apply (Z.pow_le_mono_r 2 0 1000); lia).
    destruct (Z.eq_dec w 0) as [->|]; [destruct Hlo; [nia|]; simpl; lia|]. nia.
  - exists m1, e1. split_and!; try done. apply (abs_cancel Pw); [lia|].
    replace (Pw * (2 ^ 53 * (m1 * P) - 2 ^ 53 * ((w * P + m) * 2 ^ (- e1))))
      with (2 ^ 53 * (m1 * (Pw * P)) - 2 ^ 53 * (Pw * (w * P + m) * 2 ^ (- e1))) by ring.
    replace (Pw * ((w * P + m) * 2 ^ (- e1))) with (Pw * (w * P + m) * 2 ^ (- e1)) by ring. done.
Qed.

Lemma double_mul_int_frac m e n : e ≤ 0 → double_mul_int (Finite m e) n = to_double (m * n) (2 ^ (- e)).
Proof.
  intros He. simpl. destruct (Z.leb_spec 0 e); [|done]. assert (e = 0) as -> by lia. f_equal; simpl; lia.
Qed.

Lemma Math_round_close m e N :
  e ≤ 0 → 2 * Z.abs (m - N * 2 ^ (- e)) < 2 ^ (- e) → Math_round (Finite m e) = Some N.
Proof.
  intros He H. unfold Math_round. destruct (Z.leb_spec 0 e).
  - assert (e = 0) as -> by lia. simpl in *. f_equal. lia.
  - f_equal. symmetry. set (P := 2 ^ (- e)) in *.
    apply (Z.div_unique _ _ N (2 * m + P - 2 * P * N)); lia.
Qed.

(** The dollars of an amount below [2^50] base units: their double, how far it
    may be off, and that it is below the ceiling. *)
Lemma dollars_close w f :
  0 ≤ w < 2 ^ 31 → 0 ≤ f < 1000000 →
  ∃ m e m1 e1,
    double_add (Number_of w) (double_div (Number_of f) (Number_of 1000000)) = Finite m1 e1 ∧
    e ≤ 0 ∧ e1 ≤ 0 ∧ 0 ≤ m ∧ 0 ≤ m1 ∧
    Z.abs (2 ^ 53 * (m * 1000000) - 2 ^ 53 * (f * 2 ^ (- e))) ≤ f * 2 ^ (- e) ∧
    Z.abs (2 ^ 53 * (m1 * 2 ^ (- e)) - 2 ^ 53 * ((w * 2 ^ (- e) + m) * 2 ^ (- e1)))
      ≤ (w * 2 ^ (- e) + m) * 2 ^ (- e1) ∧
    m1 ≤ 2 ^ 33 * 2 ^ (- e1) ∧ (m1 = 0 ∨ 2 ^ (- e1) ≤ m1 * 4000000).
Proof.
  intros Hw Hf. destruct (cents_close f Hf) as (m & e & -> & He & Hm & B1).
  pose proof (pow2_pos e He) as HP. set (P := 2 ^ (- e)) in *.
  assert (Hm2 : m ≤ 2 * P) by nia.
  assert (Hlo : m = 0 ∨ P ≤ m * 2000000) by (destruct (Z.eq_dec f 0) as [->|]; [left|right]; nia).
  destruct (sum_close w m e) as (m1 & e1 & -> & He1 & Hm1 & B2); [lia | done | done | |].
  { destruct Hlo as [|H]; [by left|right]. fold P.
    assert (2000000 ≤ 2 ^ 1000) by (apply (Z.pow_le_mono_r 2 21 1000); lia). nia. }
  fold P in B2. pose proof (pow2_pos e1 He1) as HP1. set (P1 := 2 ^ (- e1)) in *.
  exists m, e, m1, e1. fold P P1. split_and!; try done.
  - assert (w * P + m ≤ 2 ^ 32 * P) by nia.
    assert (m1 * P ≤ 2 ^ 33 * P1 * P); [|nia].
    assert ((w * P + m) * P1 ≤ 2 ^ 32 * P * P1) by nia. lia.
  - destruct (Z.eq_dec (w * P + m) 0) as [Hz|Hz].
    + left. rewrite Hz in B2. nia.
    + right. assert (P ≤ (w * P + m) * 2000000).
      { destruct (Z.eq_dec w 0) as [->|]; [destruct Hlo as [->|]; lia|nia]. }
      assert (P * P1 ≤ (w * P + m) * P1 * 2000000) by nia.
      assert ((w * P + m) * P1 ≤ 2 * (m1 * P)) by lia. nia.
Qed.

(** The roundings of the fraction and of the sum alone. *)
Lemma dollars_units a w f m m1 P P1 :
  0 ≤ w → 0 ≤ f → a = 1000000 * w + f → a < 2 ^ 50 → 0 ≤ m → 0 ≤ m1 → 1 ≤ P → 1 ≤ P1 →
  Z.abs (2 ^ 53 * (m * 1000000) - 2 ^ 53 * (f * P)) ≤ f * P →
  Z.abs (2 ^ 53 * (m1 * P) - 2 ^ 53 * ((w * P + m) * P1)) ≤ (w * P + m) * P1 →
  2 * Z.abs (m1 * 1000000 - a * P1) < P1.
Proof.
  intros Hw Hf Ha Hlt Hm Hm1 HP HP1 B1 B2.
  apply (three_roundings_close a w f m m1 (m1 * 1000000) P P1 P1); try done.
  replace (2 ^ 53 * (m1 * 1000000 * P1) - 2 ^ 53 * (m1 * 1000000 * P1)) with 0 by ring. nia.
Qed.

(** Dollars and base units: an amount below [2^50] base units, more than a
    billion dollars, survives the trip to a JavaScript number and back, whatever
    the three roundings on the way do. *)
Theorem usd_number_round_trip (amount : Z) :
  0 ≤ amount < 2 ^ 50 → toUsdNumber amount ≫= fromUsdNumber = Ok amount.
Proof.
  intros Ha. unfold toUsdNumber. rewrite (proj2 (Z.ltb_ge amount 0)) by lia.
  rewrite Z.quot_div_nonneg, Z.rem_mod_nonneg by (unfold STABLECOIN_USD_FACTOR; lia).
  pose proof (Z.div_mod amount 1000000 ltac:(lia)) as Hdm.
  pose proof (Z.mod_pos_bound amount 1000000 ltac:(lia)) as Hf.
  unfold STABLECOIN_USD_FACTOR. set (w := amount / 1000000) in *. set (f := amount mod 1000000) in *.
  destruct (dollars_close w f) as (m & e & m1 & e1 & -> & He & He1 & Hm & Hm1 & B1 & B2 & Hhi & Hlo);
    [lia | lia |].
  change (fromUsdNumber (Finite m1 e1) = Ok amount). unfold fromUsdNumber.
  pose proof (pow2_pos e He). pose proof (pow2_pos e1 He1) as HP1.
  replace (double_ge _ _) with false.
  2: { symmetry. unfold double_ge. replace FROM_USD_NUMBER_MAX with (Finite 4722366482869645 (-19))
         by (vm_compute; reflexivity).
       destruct (double_frac m1 e1 He1) as [-> ->].
       apply Z.leb_gt. change (double_num 4722366482869645 (-19)) with 4722366482869645.
       change (double_den (-19)) with 524288. lia. }
  rewrite double_mul_int_frac by done.
  destruct (round_close (m1 * 1000000) (2 ^ (- e1))) as (m2 & e2 & -> & He2 & Hm2 & B3); [lia.. | |].
  { destruct Hlo as [->|Hlo]; [by left|right].
    assert (4 ≤ 2 ^ 1000) by (apply (Z.pow_le_mono_r 2 2 1000); lia). nia. }
  rewrite (Math_round_close m2 e2 amount); [done | done |].
  apply (three_roundings_close amount w f m m1 m2 (2 ^ (- e)) (2 ^ (- e1)));
    try done; try lia.
Qed.

Lemma usd_number_round_trip_witness : toUsdNumber 1234567890123 ≫= fromUsdNumber = Ok 1234567890123.
Proof. apply usd_number_round_trip. lia. Defined.

(** Below the documented ceiling of about nine billion dollars, but above four
    billion, the trip can be off by one base unit. *)
Example usd_number_drifts :
  (toUsdNumber 4298955101652970 ≫= fromUsdNumber, toUsdNumber (-1), toUsdNumber (2 ^ 53) ≫= fromUsdNumber) =
  (Ok 4298955101652971, Throw JsRangeError, Throw JsRangeError).
Proof. vm_compute. reflexivity. Qed.

(** Amounts are shown exactly: with six decimals, the text of an amount below
    [2^50] base units is its sign and its exact decimal digits. *)
Theorem usd_text_is_exact (amount : Z) :
  Z.abs amount < 2 ^ 50 →
  formatUsd amount 6 =
    Ok ((if amount <? 0 then "-" else "") +:+ "$" +:+ print_decimals 6 (Z.abs amount)).
Proof.
  intros Ha. unfold formatUsd. set (a := if amount <? 0 then - amount else amount).
  assert (Hab : a = Z.abs amount) by (unfold a; destruct (Z.ltb_spec amount 0); lia).
  rewrite Hab. clearbody a. subst a. set (a := Z.abs amount) in *.
  assert (0 ≤ a) by (unfold a; lia). unfold toUsdNumber. rewrite (proj2 (Z.ltb_ge a 0)) by done.
  rewrite Z.quot_div_nonneg, Z.rem_mod_nonneg by (unfold STABLECOIN_USD_FACTOR; lia).
  pose proof (Z.div_mod a 1000000 ltac:(lia)) as Hdm.
  pose proof (Z.mod_pos_bound a 1000000 ltac:(lia)) as Hf.
  unfold STABLECOIN_USD_FACTOR. set (w := a / 1000000) in *. set (f := a mod 1000000) in *.
  destruct (dollars_close w f) as (m & e & m1 & e1 & -> & He & He1 & Hm & Hm1 & B1 & B2 & _ & _);
    [lia | lia |].
  assert (Hr : round_decimals 6 (Finite m1 e1) = Some a).
  { unfold round_decimals. destruct (double_frac m1 e1 He1) as [-> ->].
    pose proof (pow2_pos e He). pose proof (pow2_pos e1 He1).
    assert (Hc : 2 * Z.abs (m1 * 1000000 - a * 2 ^ (- e1)) < 2 ^ (- e1))
      by (apply (dollars_units a w f m m1 (2 ^ (- e))); try done; lia).
    set (P := 2 ^ (- e1)) in *. change (10 ^ Z.of_nat 6) with 1000000. f_equal. symmetry.
    apply (Z.div_unique _ _ a (2 * (m1 * 1000000) + P - 2 * P * a)); lia. }
  cbn [mbind result_bind]. unfold format_currency. rewrite Hr.
  by destruct (amount <? 0).
Qed.

Lemma usd_text_is_exact_witness :
  formatUsd (-1234567890123) 6 = Ok "-$1,234,567.890123".
Proof. rewrite (usd_text_is_exact (-1234567890123)) by lia. vm_compute. reflexivity. Defined.

(** At the magnitudes the comment calls safe, digits are wrong. *)
Example usd_text_drifts : formatUsd (2 ^ 63 + 1) 6 = Ok "$9,223,372,036,854.775391".
Proof. vm_compute. reflexivity. Qed.
