(* ===== verification/Tokens.v ===== *)
(** * Tokens and balances (tokens.ts, balance-tracker.ts)

    Symbols and mints, the conversion between typed amounts and base units,
    the profit and loss of a vault, and the store of balance snapshots with its
    JSON.  Address derivation and RPC are not part of it. *)

From S2P Require Import Prelude JsMap JsText SdkTypes Formatting.

Local Open Scope Z_scope.

(** ** Well-known tokens *)

Record TokenEntry : Type := { te_devnet : string; te_mainnet : string; te_decimals : Z }.

Definition WSOL_MINT : string := "So11111111111111111111111111111111111111112".

Definition same_mint (mint : string) (decimals : Z) : TokenEntry :=
  {| te_devnet := mint; te_mainnet := mint; te_decimals := decimals |}.

Definition WELL_KNOWN_TOKENS : list (string * TokenEntry) := [
  ("USDC", {| te_devnet := USDC_MINT_DEVNET; te_mainnet := USDC_MINT_MAINNET; te_decimals := 6 |});
  ("USDT", {| te_devnet := USDT_MINT_DEVNET; te_mainnet := USDT_MINT_MAINNET; te_decimals := 6 |});
  ("SOL", same_mint WSOL_MINT 9);
  ("WSOL", same_mint WSOL_MINT 9);
  ("JUP", same_mint "JUPyiwrYJFskUPiHa7hkeR8VUtAeFoSYbKedZNsDvCN" 6);
  ("BONK", same_mint "DezXAZ8z7PnrnRJjz3wXBoRgixCa6xjnB7YaB1pPB263" 5);
  ("PYTH", same_mint "HZ1JovNiVvGrGNiiYvEozEVgZ58xaU3RKwX8eACQBCt3" 6);
  ("WIF", same_mint "EKpQGSJtjMFqKZ9KQanSqYXRcF8fBopzLHYxdM65zcjm" 6);
  ("JITO", same_mint "J1toso1uCk3RLmjorhTtrVwY9HJ7X8V9yYac6Y7kGCPn" 9);
  ("RAY", same_mint "4k3Dyjzvzp8eMZWUXbBCjEvwSkkk59S5iCNLY3QrkX6R" 6)].

Record ResolvedToken : Type := { rt_mint : string; rt_decimals : Z; rt_symbol : string }.

(** [/[1-9A-HJ-NP-Za-km-z]/] *)
Definition is_base58 (c : ascii) : bool :=
  in_range 49 57 c || in_range 65 72 c || in_range 74 78 c || in_range 80 90 c ||
  in_range 97 107 c || in_range 109 122 c.

Definition isBase58Address (value : string) : bool :=
  if ((String.length value <? 32) || (44 <? String.length value))%nat then false
  else forallb is_base58 (chars value).

Definition resolveToken (tokenOrMint network : string) : option ResolvedToken :=
  let upper := toUpperCase tokenOrMint in
  match list_find (λ p, p.1 = upper) WELL_KNOWN_TOKENS with
  | Some (_, (_, known)) =>
      Some {| rt_mint := if bool_decide (network = "devnet") then te_devnet known else te_mainnet known;
              rt_decimals := te_decimals known; rt_symbol := upper |}
  | None =>
      if isBase58Address tokenOrMint
      then Some {| rt_mint := tokenOrMint; rt_decimals := 6;
                   rt_symbol := text (take 4 (chars tokenOrMint)) +:+ "..." |}
      else None
  end.

(** ** Amounts *)

(** A number that is no finite non-negative number is refused as such. *)
Inductive amount_number : Type := Amount (x : double) | NoAmount.

(** [parseFloat]: white space, a sign, then the longest decimal literal; what
    follows is ignored. *)
Definition parse_exponent (cs : list ascii) : Z :=
  match cs with
  | ("e" | "E")%char :: rest =>
      let '(sg, ds) := match rest with
                       | "-"%char :: ds => (-1, ds)
                       | "+"%char :: ds => (1, ds)
                       | _ => (1, rest)
                       end in
      sg * digits_value (span is_digit ds).1
  | _ => 0
  end.

Definition parse_unsigned (cs : list ascii) : amount_number :=
  let '(whole, rest) := span is_digit cs in
  let '(frac, rest) := match rest with
                       | "."%char :: r => span is_digit r
                       | _ => ([], rest)
                       end in
  match whole ++ frac with
  | [] => if startsWith (text cs) "Infinity" then Amount Infinity else NoAmount
  | ds =>
      let e := parse_exponent rest - Z.of_nat (length frac) in
      Amount (if 0 <=? e then to_double (digits_value ds * 10 ^ e) 1
              else to_double (digits_value ds) (10 ^ (- e)))
  end.

Definition is_zero (x : amount_number) : bool :=
  match x with Amount (Finite m _) => m =? 0 | _ => false end.

Definition parseFloat (s : string) : amount_number :=
  match (span is_space (chars s)).2 with
  | "-"%char :: cs => let v := parse_unsigned cs in if is_zero v then v else NoAmount
  | "+"%char :: cs => parse_unsigned cs
  | cs => parse_unsigned cs
  end.

Inductive amount_arg : Type := NumberArg (x : amount_number) | StringArg (s : string).

Definition INVALID_AMOUNT : js_exn := SdkDomainError "SIGIL_ERROR__SDK__INVALID_AMOUNT".

(** [decimals] is at most 22, where [Math.pow(10, decimals)] is exact. *)
Definition toBaseUnits (amount : amount_arg) (decimals : Z) : result js_exn Z :=
  match match amount with NumberArg x => x | StringArg s => parseFloat s end with
  | NoAmount | Amount Infinity => Throw INVALID_AMOUNT
  | Amount (Finite m e) =>
      match Math_round (double_mul_int (Finite m e) (10 ^ decimals)) with
      | Some z => Ok z
      | None => Throw JsRangeError
      end
  end.

Definition double_div_int (x : double) (n : Z) : double :=
  match x with Infinity => Infinity | Finite m e => to_double (double_num m e) (double_den e * n) end.

Definition fromBaseUnits (amount decimals : Z) : double :=
  double_div_int (Number_of amount) (10 ^ decimals).

Example amount_examples :
  (toBaseUnits (StringArg "100") 6, toBaseUnits (StringArg " .5e1x") 6, toBaseUnits (StringArg "-1") 6,
   toBaseUnits (StringArg "abc") 6, toBaseUnits (StringArg "1,000") 6, toBaseUnits (StringArg "-0") 6,
   toBaseUnits (StringArg "Infinity") 6) =
  (Ok 100000000, Ok 5000000, Throw INVALID_AMOUNT, Throw INVALID_AMOUNT, Ok 1000000, Ok 0,
   Throw INVALID_AMOUNT).
Proof. vm_compute. reflexivity. Qed.

(** ** Profit and loss *)

(** A double with a sign: [true] for negative. *)
Definition signed_double : Type := bool * double.

Definition computePnlPercent (pnl investment : Z) : signed_double :=
  if 0 <? investment
  then let q := Z.quot (pnl * 10000) investment in
       (q <? 0, double_div_int (Number_of (Z.abs q)) 100)
  else (false, zero).

Record VaultPnL : Type := {
  pl_totalDeposited : Z; pl_totalWithdrawn : Z; pl_currentBalance : Z; pl_netInvestment : Z;
  pl_pnl : Z; pl_pnlPercent : signed_double;
}.

Definition getVaultPnLFromState (totalDepositedUsd totalWithdrawnUsd usdc usdt : Z) : VaultPnL :=
  let currentBalance := usdc + usdt in
  let netInvestment := totalDepositedUsd - totalWithdrawnUsd in
  let pnl := currentBalance - netInvestment in {|
  pl_totalDeposited := totalDepositedUsd; pl_totalWithdrawn := totalWithdrawnUsd;
  pl_currentBalance := currentBalance; pl_netInvestment := netInvestment;
  pl_pnl := pnl; pl_pnlPercent := computePnlPercent pnl netInvestment |}.

(** ** Balances of a vault *)

Record TokenBalance (B : Type) : Type := {
  tb_mint : string; tb_balance : B; tb_symbol : string; tb_decimals : Z;
}.
Arguments Build_TokenBalance {_} _ _ _ _.
Arguments tb_mint {_} _.
Arguments tb_balance {_} _.
Arguments tb_symbol {_} _.
Arguments tb_decimals {_} _.

(** A token account as the node parsed it: mint, amount and decimals. *)
Definition ParsedTokenAccount : Type := string * string * Z.

Fixpoint getVaultTokenBalances (accounts : list (option ParsedTokenAccount)) (network : string)
    : result js_exn (list (TokenBalance Z)) :=
  match accounts with
  | [] => Ok []
  | None :: accounts => getVaultTokenBalances accounts network
  | Some (mint, amountText, accountDecimals) :: accounts =>
      match BigInt amountText with
      | None => Throw JsSyntaxError
      | Some amount =>
          rest ← getVaultTokenBalances accounts network;
          if amount =? 0 then Ok rest else
          let resolved := resolveToken mint network in
          Ok ({| tb_mint := mint; tb_balance := amount;
                 tb_symbol := match resolved with
                              | Some r => rt_symbol r
                              | None => text (take 4 (chars mint)) +:+ "..."
                              end;
                 tb_decimals := match resolved with Some r => rt_decimals r | None => accountDecimals end |}
              :: rest)
      end
  end.

(** ** The snapshot store *)

Record BalanceSnapshot (B : Type) : Type := { bs_timestamp : B; bs_balances : list (TokenBalance B) }.
Arguments Build_BalanceSnapshot {_} _ _.
Arguments bs_timestamp {_} _.
Arguments bs_balances {_} _.

Record BalanceSnapshotStore : Type := {
  ss_baseline : option (BalanceSnapshot Z);
  ss_maxEntries : Z;
  ss_snapshots : js_map Z (list (TokenBalance Z));
  ss_orderedTimestamps : list Z;
}.

Definition new_store (maxEntries : Z) : BalanceSnapshotStore :=
  {| ss_baseline := None; ss_maxEntries := maxEntries; ss_snapshots := []; ss_orderedTimestamps := [] |}.

(** The eviction loop.  With a negative bound it never ends once the array is
    empty: [shift] then changes nothing. *)
Fixpoint evict (max : Z) (ordered : list Z) (snapshots : js_map Z (list (TokenBalance Z)))
    : option (list Z * js_map Z (list (TokenBalance Z))) :=
  if Z.of_nat (length ordered) <=? max then Some (ordered, snapshots)
  else match ordered with
       | [] => None
       | oldest :: ordered => evict max ordered (jm_delete oldest snapshots)
       end.

(** [None]: the call does not return. *)
Definition snapshot (timestamp : Z) (balances : list (TokenBalance Z)) (s : BalanceSnapshotStore)
    : option BalanceSnapshotStore :=
  let baseline := match ss_baseline s with
                  | Some b => Some b
                  | None => Some {| bs_timestamp := timestamp; bs_balances := balances |}
                  end in
  let snapshots := jm_set timestamp balances (ss_snapshots s) in
  match jm_get timestamp (ss_snapshots s) with
  | Some _ =>
      Some {| ss_baseline := baseline; ss_maxEntries := ss_maxEntries s; ss_snapshots := snapshots;
              ss_orderedTimestamps := ss_orderedTimestamps s |}
  | None =>
      '(ordered, snapshots) ← evict (ss_maxEntries s) (ss_orderedTimestamps s ++ [timestamp]) snapshots;
      Some {| ss_baseline := baseline; ss_maxEntries := ss_maxEntries s; ss_snapshots := snapshots;
              ss_orderedTimestamps := ordered |}
  end.

Definition snapshot_at (s : BalanceSnapshotStore) (ts : Z) : option (BalanceSnapshot Z) :=
  b ← jm_get ts (ss_snapshots s); Some {| bs_timestamp := ts; bs_balances := b |}.

Definition getFirst (s : BalanceSnapshotStore) : option (BalanceSnapshot Z) :=
  ts ← head (ss_orderedTimestamps s); snapshot_at s ts.
Definition getLatest (s : BalanceSnapshotStore) : option (BalanceSnapshot Z) :=
  ts ← last (ss_orderedTimestamps s); snapshot_at s ts.
Definition store_size (s : BalanceSnapshotStore) : nat := length (ss_orderedTimestamps s).
Definition store_clear (s : BalanceSnapshotStore) : BalanceSnapshotStore :=
  {| ss_baseline := None; ss_maxEntries := ss_maxEntries s; ss_snapshots := []; ss_orderedTimestamps := [] |}.

(** The JSON text, as the value it stands for: bigints are decimal text, and
    [maxEntries] may be anything ([None]: not an integer). *)
Record StoreJson : Type := {
  sj_baseline : option (BalanceSnapshot string);
  sj_snapshots : list (BalanceSnapshot string);
  sj_maxEntries : option Z;
}.

Definition balance_toJSON (b : TokenBalance Z) : TokenBalance string := {|
  tb_mint := tb_mint b; tb_balance := bigint_toString (tb_balance b);
  tb_symbol := tb_symbol b; tb_decimals := tb_decimals b |}.
Definition snapshot_toJSON (b : BalanceSnapshot Z) : BalanceSnapshot string := {|
  bs_timestamp := bigint_toString (bs_timestamp b); bs_balances := map balance_toJSON (bs_balances b) |}.

Definition store_toJSON (s : BalanceSnapshotStore) : StoreJson := {|
  sj_baseline := snapshot_toJSON <$> ss_baseline s;
  sj_snapshots := map (λ p, snapshot_toJSON {| bs_timestamp := p.1; bs_balances := p.2 |}) (ss_snapshots s);
  sj_maxEntries := Some (ss_maxEntries s) |}.

Definition safeBigInt (s : string) : Z := default 0 (BigInt s).

Definition balance_fromJSON (b : TokenBalance string) : TokenBalance Z := {|
  tb_mint := tb_mint b; tb_balance := safeBigInt (tb_balance b);
  tb_symbol := tb_symbol b; tb_decimals := tb_decimals b |}.
Definition snapshot_fromJSON (b : BalanceSnapshot string) : BalanceSnapshot Z := {|
  bs_timestamp := safeBigInt (bs_timestamp b); bs_balances := map balance_fromJSON (bs_balances b) |}.

Definition store_fromJSON (data : StoreJson) : BalanceSnapshotStore :=
  let snaps := map snapshot_fromJSON (sj_snapshots data) in {|
  ss_baseline := snapshot_fromJSON <$> sj_baseline data;
  ss_maxEntries := default 144 (sj_maxEntries data);
  ss_snapshots := foldl (λ m s, jm_set (bs_timestamp s) (bs_balances s) m) [] snaps;
  ss_orderedTimestamps := map bs_timestamp snaps |}.

Record BalancePnL : Type := {
  bp_startBalance : Z; bp_currentBalance : Z; bp_delta : Z; bp_percentChange : signed_double;
}.

Definition sumStablecoins (network : string) (balances : list (TokenBalance Z)) : Z :=
  foldl (λ sum b, if isStablecoinMint (tb_mint b) network then sum + tb_balance b else sum) 0 balances.

Definition getBalancePnL (s : BalanceSnapshotStore) (network : string) : BalancePnL :=
  match ss_baseline s, getLatest s with
  | Some baseline, Some latest =>
      if bs_timestamp baseline =? bs_timestamp latest then Build_BalancePnL 0 0 0 (false, zero) else
      let startBalance := sumStablecoins network (bs_balances baseline) in
      let currentBalance := sumStablecoins network (bs_balances latest) in
      let delta := currentBalance - startBalance in
      {| bp_startBalance := startBalance; bp_currentBalance := currentBalance; bp_delta := delta;
         bp_percentChange := computePnlPercent delta startBalance |}
  | _, _ => Build_BalancePnL 0 0 0 (false, zero)
  end.

(** ** The store's invariant *)

(** The map's keys are the timestamps, in order and without repetition, within
    the bound; a store that holds anything has its baseline. *)
Definition store_wf (s : BalanceSnapshotStore) : Prop :=
  jm_keys (ss_snapshots s) = ss_orderedTimestamps s ∧ NoDup (ss_orderedTimestamps s) ∧
  Z.of_nat (length (ss_orderedTimestamps s)) ≤ ss_maxEntries s ∧
  (ss_orderedTimestamps s ≠ [] → ss_baseline s ≠ None).

Lemma evict_trims max ordered (m : js_map Z (list (TokenBalance Z))) :
  0 ≤ max → jm_keys m = ordered →
  evict max ordered m =
    Some (drop (length ordered - Z.to_nat max) ordered, drop (length ordered - Z.to_nat max) m).
Proof.
  intros Hmax. revert m. induction ordered as [|ts ordered IH]; intros m Hk.
  { cbn [evict length]. by rewrite (proj2 (Z.leb_le (Z.of_nat 0) max) Hmax). }
  destruct m as [|[k v] m]; [done|]. injection Hk as -> Hk.
  cbn [evict]. destruct (Z.leb_spec (Z.of_nat (length (ts :: ordered))) max) as [Hle|Hgt].
  { replace (length (ts :: ordered) - Z.to_nat max)%nat with 0%nat by lia. done. }
  simpl jm_delete. rewrite bool_decide_eq_true_2 by done. rewrite IH by done. simpl in Hgt.
  replace (length (ts :: ordered) - Z.to_nat max)%nat
    with (S (length ordered - Z.to_nat max)) by (simpl; lia). done.
Qed.

Lemma NoDup_drop_list {A} n (l : list A) : NoDup l → NoDup (drop n l).
Proof. intros H. rewrite <- (take_drop n l) in H. by apply NoDup_app in H as (_ & _ & H). Qed.

Lemma snapshot_wf timestamp balances s :
  store_wf s → 0 ≤ ss_maxEntries s →
  ∃ s', snapshot timestamp balances s = Some s' ∧ store_wf s' ∧ ss_maxEntries s' = ss_maxEntries s ∧
    ss_baseline s' = Some (default (Build_BalanceSnapshot timestamp balances) (ss_baseline s)).
Proof.
  intros (Hk & Hnd & Hlen & Hb) Hmax. unfold snapshot.
  assert (Hbase : match ss_baseline s with
                  | Some b => Some b
                  | None => Some (Build_BalanceSnapshot timestamp balances)
                  end = Some (default (Build_BalanceSnapshot timestamp balances) (ss_baseline s)))
    by (by destruct (ss_baseline s)).
  destruct (jm_get timestamp (ss_snapshots s)) eqn:Eg.
  - eexists. split; [done|]. unfold store_wf. simpl. rewrite Hbase. split_and!; try done.
    rewrite jm_set_keys, bool_decide_eq_true_2; [done|].
    apply jm_get_elem in Eg. apply list_elem_of_In, in_map_iff. exists (timestamp, l).
    split; [done|by apply list_elem_of_In].
  - apply jm_get_None in Eg.
    assert (Hk' : jm_keys (jm_set timestamp balances (ss_snapshots s)) =
                  ss_orderedTimestamps s ++ [timestamp])
      by (rewrite jm_set_keys, bool_decide_eq_false_2 by done; by rewrite Hk).
    rewrite (evict_trims _ _ _ Hmax Hk'). set (n := (_ - _)%nat). eexists. split; [done|].
    unfold store_wf. cbn [ss_snapshots ss_orderedTimestamps ss_maxEntries ss_baseline]. rewrite Hbase.
    split_and!; try done.
    + unfold jm_keys in *. by rewrite <- Hk', skipn_map.
    + rewrite Hk in Eg. apply NoDup_drop_list, NoDup_app. split_and!; [done | | apply NoDup_singleton].
      intros x Hx ->%list_elem_of_singleton. done.
    + rewrite length_drop. unfold n. lia.
Qed.

(** The calls that change a store. *)
Inductive store_call : Type := CallSnapshot (timestamp : Z) (balances : list (TokenBalance Z)) | CallClear.

Definition run_call (c : store_call) (s : BalanceSnapshotStore) : option BalanceSnapshotStore :=
  match c with
  | CallSnapshot ts b => snapshot ts b s
  | CallClear => Some (store_clear s)
  end.

Fixpoint run_calls (cs : list store_call) (s : BalanceSnapshotStore) : option BalanceSnapshotStore :=
  match cs with [] => Some s | c :: cs => s ← run_call c s; run_calls cs s end.

(** The first snapshot since the store was last cleared. *)
Fixpoint first_snapshot (cs : list store_call) (b : option (BalanceSnapshot Z)) : option (BalanceSnapshot Z) :=
  match cs with
  | [] => b
  | CallSnapshot ts bal :: cs => first_snapshot cs (Some (default (Build_BalanceSnapshot ts bal) b))
  | CallClear :: cs => first_snapshot cs None
  end.

Lemma run_calls_wf cs s :
  store_wf s → 0 ≤ ss_maxEntries s →
  ∃ s', run_calls cs s = Some s' ∧ store_wf s' ∧ ss_maxEntries s' = ss_maxEntries s ∧
    ss_baseline s' = first_snapshot cs (ss_baseline s).
Proof.
  revert s. induction cs as [|[ts b|] cs IH]; intros s Hs Hmax; cbn [run_calls run_call first_snapshot].
  - by exists s.
  - destruct (snapshot_wf ts b s Hs Hmax) as (s1 & -> & H1 & Hm1 & Hb1). simpl.
    destruct (IH s1 H1) as (s2 & -> & H2 & Hm2 & Hb2); [lia|].
    exists s2. rewrite Hb2, Hb1, Hm2, Hm1. done.
  - destruct (IH (store_clear s)) as (s2 & E & H2 & Hm2 & Hb2); [|done|].
    { unfold store_wf. simpl. split_and!; try done; constructor. }
    exists s2. simpl. rewrite E, Hb2, Hm2. done.
Qed.

(** A snapshot store never loses its baseline and never grows beyond its
    bound.  Whatever snapshots and clears are called on a store with a
    non-negative bound, every call returns; the map and the list of timestamps
    agree, hold each time once and at most [maxEntries] of them; and the
    baseline is the first snapshot since the last clear, evicted or not. *)
Theorem snapshot_store_invariant (maxEntries : Z) (calls : list store_call) :
  0 ≤ maxEntries →
  ∃ s, run_calls calls (new_store maxEntries) = Some s ∧ store_wf s ∧
    ss_maxEntries s = maxEntries ∧ ss_baseline s = first_snapshot calls None.
Proof.
  intros Hmax. apply (run_calls_wf calls (new_store maxEntries)); [|done].
  unfold store_wf. simpl. split_and!; try done. constructor.
Qed.

Lemma snapshot_store_invariant_witness :
  ∃ s, run_calls [CallSnapshot 1 []; CallSnapshot 2 []; CallSnapshot 3 []] (new_store 2) = Some s ∧
    store_wf s ∧ ss_orderedTimestamps s = [2; 3] ∧ ss_baseline s = Some (Build_BalanceSnapshot 1 []).
Proof.
  destruct (snapshot_store_invariant 2 [CallSnapshot 1 []; CallSnapshot 2 []; CallSnapshot 3 []])
    as (s & E & Hwf & _ & Hb); [lia|].
  exists s. split_and!; [exact E | exact Hwf | | exact Hb].
  vm_compute in E. injection E as <-. reflexivity.
Defined.

(** With a negative bound, which [fromJSON] accepts, the first snapshot never
    returns. *)
Example negative_bound_hangs :
  snapshot 1 [] (store_fromJSON {| sj_baseline := None; sj_snapshots := []; sj_maxEntries := Some (-1) |})
  = None.
Proof. vm_compute. reflexivity. Qed.

(** ** Round trips *)

Lemma balance_json_id b : balance_fromJSON (balance_toJSON b) = b.
Proof. destruct b. unfold balance_fromJSON, safeBigInt. simpl. by rewrite BigInt_of_toString. Qed.

Lemma snapshot_json_id b : snapshot_fromJSON (snapshot_toJSON b) = b.
Proof.
  destruct b as [ts bals]. unfold snapshot_fromJSON, safeBigInt. simpl. rewrite BigInt_of_toString.
  f_equal. rewrite map_map. rewrite <- (map_id bals) at 2. apply map_ext, balance_json_id.
Qed.

Lemma jm_rebuild {V} (m acc : js_map Z V) :
  NoDup (jm_keys (acc ++ m)) → foldl (λ m p, jm_set p.1 p.2 m) acc m = acc ++ m.
Proof.
  revert acc. induction m as [|[k v] m IH]; intros acc Hnd; cbn [foldl]; [by rewrite app_nil_r|].
  assert (Hset : jm_set k v acc = acc ++ [(k, v)]).
  { assert (Hk : k ∉ jm_keys acc).
    { unfold jm_keys in *. rewrite map_app in Hnd. apply NoDup_app in Hnd as (_ & H & _).
      intros Hin. apply (H k Hin). by left. }
    clear - Hk. induction acc as [|[k' v'] acc IH]; [done|]. cbn [jm_set].
    unfold jm_keys in Hk. simpl in Hk. apply not_elem_of_cons in Hk as [Hne Hk].
    rewrite bool_decide_eq_false_2 by done. cbn [app]. f_equal. by apply IH. }
  simpl. rewrite Hset, IH; by rewrite <- app_assoc.
Qed.

(** A store survives its JSON: restoring a well-formed store from what it
    serialised gives the same store, baseline, order and bound included. *)
Theorem snapshot_store_round_trip (s : BalanceSnapshotStore) :
  store_wf s → store_fromJSON (store_toJSON s) = s.
Proof.
  intros (Hk & Hnd & _ & _). destruct s as [b max m ord]. simpl in *. subst ord.
  unfold store_fromJSON, store_toJSON. simpl. rewrite !map_map.
  assert (Hid : ∀ p : Z * list (TokenBalance Z),
    snapshot_fromJSON (snapshot_toJSON (Build_BalanceSnapshot p.1 p.2)) = Build_BalanceSnapshot p.1 p.2)
    by (intros; apply snapshot_json_id).
  rewrite (map_ext _ _ Hid).
  f_equal.
  - destruct b; simpl; [by rewrite snapshot_json_id|done].
  - assert (Hf : ∀ l acc, foldl (λ m s, jm_set (bs_timestamp s) (bs_balances s) m) acc
        (map (λ p : Z * list (TokenBalance Z), Build_BalanceSnapshot p.1 p.2) l) =
        foldl (λ m p, jm_set p.1 p.2 m) acc l) by (induction l as [|p l IH]; intros; [done|apply IH]).
    rewrite Hf. by apply jm_rebuild.
  - unfold jm_keys. apply map_ext. intros p. by rewrite Hid.
Qed.

Lemma snapshot_store_round_trip_witness :
  let s := {| ss_baseline := Some (Build_BalanceSnapshot 1 [Build_TokenBalance "m" (-5) "M..." 6]);
              ss_maxEntries := 2; ss_snapshots := [(4, []); (9, [])]; ss_orderedTimestamps := [4; 9] |} in
  store_fromJSON (store_toJSON s) = s.
Proof.
  cbv zeta. apply snapshot_store_round_trip. unfold store_wf. simpl. split_and!; try done.
  repeat constructor; set_solver.
Defined.

Lemma Number_of_small z :
  0 ≤ z < 2 ^ 53 → ∃ m e, Number_of z = Finite m e ∧ -53 ≤ e ≤ 0 ∧ m = z * 2 ^ (- e).
Proof.
  intros Hz. destruct (Number_of_exact z Hz) as (m & e & E & He & Hm). exists m, e.
  split; [done|]. split; [|done]. split; [|done]. revert E. unfold Number_of, to_double.
  destruct (Z.eqb_spec z 0); [intros [= <- <-]; lia|]. destruct (1024 <? _); [done|]. intros [= _ <-].
  unfold ulp_expo. pose proof (Z.log2_nonneg z). change (Z.log2 1) with 0.
  destruct (_ <=? _); lia.
Qed.

(** Typed amounts: base units below [2^51] survive the trip through the
    JavaScript number that is shown to the user, for every number of decimals
    up to 22. *)
Theorem base_units_round_trip (amount decimals : Z) :
  0 ≤ amount < 2 ^ 51 → 0 ≤ decimals ≤ 22 →
  toBaseUnits (NumberArg (Amount (fromBaseUnits amount decimals))) decimals = Ok amount.
Proof.
  intros Ha Hd. unfold fromBaseUnits. destruct (Number_of_small amount) as (m & e & -> & He & ->); [lia|].
  unfold double_div_int. destruct (double_frac (amount * 2 ^ (- e)) e) as [-> ->]; [lia|].
  assert (1 ≤ 2 ^ (- e)) by (apply pow2_pos; lia).
  assert (2 ^ (- e) ≤ 2 ^ 53) by (apply Z.pow_le_mono_r; lia).
  assert (H10 : 1 ≤ 10 ^ decimals ≤ 10 ^ 22)
    by (split; [apply (Z.pow_le_mono_r 10 0)|apply Z.pow_le_mono_r]; lia).
  destruct (Z.eq_dec amount 0) as [->|Hnz]; [by destruct decimals|].
  assert (H900 : 10 ^ 22 * 2 ^ 53 ≤ 2 ^ 900)
    by (apply Z.leb_le; vm_compute; reflexivity).
  assert (Hr : Math_round (double_mul_int (to_double (amount * 2 ^ (- e)) (2 ^ (- e) * 10 ^ decimals))
                 (10 ^ decimals)) = Some amount)
    by (apply scaled_decimal_exact; nia).
  unfold toBaseUnits. destruct (to_double _ _); [by rewrite Hr|discriminate Hr].
Qed.

Lemma base_units_round_trip_witness :
  toBaseUnits (NumberArg (Amount (fromBaseUnits 123456789 9))) 9 = Ok 123456789.
Proof. apply base_units_round_trip; lia. Defined.

(** ** Guessed decimals *)

Lemma upper_length s : String.length (toUpperCase s) = String.length s.
Proof. unfold toUpperCase, text, chars. induction s as [|c s IH]; simpl; [done|]. by rewrite IH. Qed.

(** The decimals of a balance are a guess.  For every token account whose
    mint is written in base58 -- which every mint is -- [getVaultTokenBalances]
    reports six decimals and an abbreviation, also for SOL, and never the
    decimals the node returned or the symbol of the token table, which is
    keyed by symbol. *)
Theorem vault_balances_guess_decimals (accounts : list (option ParsedTokenAccount)) (network : string)
    (balances : list (TokenBalance Z)) :
  getVaultTokenBalances accounts network = Ok balances →
  Forall (λ a, ∀ p, a = Some p → isBase58Address p.1.1 = true) accounts →
  Forall (λ b, tb_decimals b = 6 ∧ tb_symbol b = text (take 4 (chars (tb_mint b))) +:+ "...") balances.
Proof.
  revert balances. induction accounts as [|[[[mint amt] dec]|] accounts IH]; intros balances E Ha; simpl in E.
  - injection E as <-. constructor.
  - inversion Ha as [|? ? Hm Hrest]; subst. specialize (Hm _ eq_refl). simpl in Hm.
    destruct (BigInt amt) as [z|]; [|done].
    destruct (getVaultTokenBalances accounts network) as [rest|] eqn:Er; simpl in E; [|done].
    specialize (IH _ eq_refl Hrest). destruct (z =? 0); injection E as <-; [done|].
    constructor; [|done]. simpl.
    assert (Hr : resolveToken mint network = Some {| rt_mint := mint; rt_decimals := 6;
                   rt_symbol := text (take 4 (chars mint)) +:+ "..." |}).
    { unfold resolveToken. rewrite Hm. destruct (list_find _ _) as [[i [sym t]]|] eqn:Ef; [|done].
      apply list_find_Some in Ef as (Hl & Hs & _). simpl in Hs. exfalso.
      assert (Hlen : (String.length sym ≤ 4)%nat).
      { clear - Hl. do 10 (destruct i as [|i]; [injection Hl as <- <-; simpl; lia|]). done. }
      rewrite Hs, upper_length in Hlen. unfold isBase58Address in Hm.
      destruct (_ || _) eqn:Eb; [done|]. apply orb_false_iff in Eb as [Eb _]. apply Nat.ltb_ge in Eb. lia. }
    by rewrite Hr.
  - inversion Ha; subst. by apply IH.
Qed.

Lemma vault_balances_guess_decimals_witness :
  ∃ b, getVaultTokenBalances [Some (WSOL_MINT, "1000000000", 9)] "mainnet-beta" = Ok [b] ∧
    tb_decimals b = 6 ∧ tb_symbol b = "So11...".
Proof.
  eexists. split; [vm_compute; reflexivity|].
  assert (Hb : Forall (λ a : option ParsedTokenAccount,
    ∀ p, a = Some p → isBase58Address p.1.1 = true) [Some (WSOL_MINT, "1000000000", 9)])
    by (repeat constructor; intros p [= <-]; vm_compute; reflexivity).
  pose proof (vault_balances_guess_decimals [Some (WSOL_MINT, "1000000000", 9)] "mainnet-beta" _
    ltac:(vm_compute; reflexivity) Hb) as H.
  apply Forall_cons in H as [[H1 H2] _]. split; [exact H1|exact H2].
Defined.
