(* ===== verification/Analytics.v ===== *)
(** * Analytics (math-utils.ts, security-analytics.ts, spending-analytics.ts,
      agent-analytics.ts)

    The pure computations behind the dashboard: the security posture of a
    vault, the alerts that hold, spending velocity and breakdown, agent
    profiles and rankings, and the audit trail of decoded events.  Of the texts
    meant for display the titles of alerts are kept, which the dashboard reads
    back; descriptions, labels and links are left out. *)

From Stdlib Require Import Sorted.
From S2P Require Import Prelude JsMap JsText JsValue SdkTypes StateResolver Formatting.

Local Open Scope Z_scope.

(** ** Security posture *)

Inductive severity : Type := Critical | Warning | Info.

#[export] Instance severity_eq_dec : EqDecision severity.
Proof. solve_decision. Defined.

Record SecurityCheck : Type := { ck_id : string; ck_passed : bool; ck_severity : severity }.

Record SecurityPosture : Type := {
  sp_checks : list SecurityCheck;
  sp_passCount : nat;
  sp_failCount : nat;
  sp_criticalFailures : list SecurityCheck;
}.

Definition FULL_CAPABILITY : Z := 2.
Definition PROTOCOL_MODE_ALLOWLIST : Z := 1.
Definition MAX_DEVELOPER_FEE_RATE : Z := 500.

Definition check (id : string) (s : severity) (passed : bool) : SecurityCheck :=
  {| ck_id := id; ck_passed := passed; ck_severity := s |}.

Definition limits_within_cap (agents : list AgentEntry) (cap : Z) : bool :=
  bool_decide (agents = []) ||
  negb (forallb (λ a, 0 <? ae_spendingLimitUsd a) agents) ||
  (foldl Z.add 0 (map ae_spendingLimitUsd agents) <=? cap).

Definition recent_activity (state : ResolvedVaultState) : bool :=
  match rs_tracker state with
  | None => true
  | Some t =>
      (rs_resolvedAtTimestamp state - 604800 <? st_lastWriteEpoch t * EPOCH_DURATION) ||
      (st_lastWriteEpoch t =? 0)
  end.

Definition posture_checks (state : ResolvedVaultState) : list SecurityCheck :=
  let agents := av_agents (rs_vault state) in
  let policy := rs_policy state in
  let timelock := pol_timelockDuration policy in
  [check "no-full-perms" Critical (negb (existsb (λ a, ae_capability a =? FULL_CAPABILITY) agents));
   check "cap-configured" Critical (0 <? pol_dailySpendingCapUsd policy);
   check "fee-destination-valid" Critical
     (negb (bool_decide (av_feeDestination (rs_vault state) = SYSTEM_PROGRAM_ADDRESS)));
   check "agent-limits" Warning
     (bool_decide (agents = []) || forallb (λ a, 0 <? ae_spendingLimitUsd a) agents);
   check "protocol-allowlist" Warning (pol_protocolMode policy =? PROTOCOL_MODE_ALLOWLIST);
   check "timelock-enabled" Warning (0 <? timelock);
   check "slippage-reasonable" Warning (pol_maxSlippageBps policy <? 1000);
   check "agent-limits-sum" Warning (limits_within_cap agents (pol_dailySpendingCapUsd policy));
   check "has-agents" Info (negb (bool_decide (agents = [])));
   check "not-all-paused" Info (bool_decide (agents = []) || existsb (λ a, negb (ae_paused a)) agents);
   check "vault-has-balance" Info ((0 <? rs_usdc state) || (0 <? rs_usdt state));
   check "recent-activity" Info (recent_activity state);
   check "timelock-meaningful" Warning ((timelock =? 0) || (3600 <=? timelock));
   check "fee-rate-reasonable" Info (pol_developerFeeRate policy <=? MAX_DEVELOPER_FEE_RATE);
   check "no-permission-concentration" Warning
     (negb (existsb (λ a, FULL_CAPABILITY <=? ae_capability a) agents))].

Definition is_critical_failure (c : SecurityCheck) : bool :=
  bool_decide (ck_severity c = Critical) && negb (ck_passed c).

Definition getSecurityPosture (state : ResolvedVaultState) : SecurityPosture :=
  let checks := posture_checks state in {|
  sp_checks := checks;
  sp_passCount := length (List.filter ck_passed checks);
  sp_failCount := length (List.filter (λ c, negb (ck_passed c)) checks);
  sp_criticalFailures := List.filter is_critical_failure checks |}.

(** ** Spending velocity *)

Record SpendingVelocity : Type := {
  ve_currentRate : Z;
  ve_averageRate : Z;
  ve_peakRate : Z;
  ve_peakTimestamp : Z;
  ve_isAccelerating : bool;
  ve_hoursToCapx1000 : option Z;
}.

(** The buckets of the window that hold something. *)
Definition valid_buckets (now : Z) (buckets : list EpochBucket) : list EpochBucket :=
  let currentEpoch := now / EPOCH_DURATION in
  List.filter (λ b, negb ((eb_epochId b <? currentEpoch - NUM_EPOCHS) || (currentEpoch <? eb_epochId b)) &&
                    negb (eb_usdAmount b =? 0)) buckets.

(** The first of the largest. *)
Definition peak (bs : list EpochBucket) : Z * Z :=
  foldl (λ acc b, if acc.1 <? eb_usdAmount b then (eb_usdAmount b, eb_epochId b) else acc) (0, 0) bs.

(** [timeToCapSeconds] is the last field times 3.6, a double. *)
Definition getSpendingVelocity (tracker : option SpendTracker) (now : Z) (budget : EffectiveBudget)
    : SpendingVelocity :=
  match tracker with
  | Some t =>
      if now <=? 0 then Build_SpendingVelocity 0 0 0 0 false None else
      let valid := valid_buckets now (st_buckets t) in
      let recent := take 3 (js_sort (λ a b, eb_epochId b <=? eb_epochId a) valid) in
      let recentSum := foldl Z.add 0 (map eb_usdAmount recent) in
      let currentRate := match recent with
                         | [] => 0
                         | _ => Z.quot (recentSum * 6) (Z.of_nat (length recent))
                         end in
      let averageRate := Z.quot (spent24h budget) 24 in
      {| ve_currentRate := currentRate;
         ve_averageRate := averageRate;
         ve_peakRate := (peak valid).1;
         ve_peakTimestamp := (peak valid).2 * EPOCH_DURATION;
         ve_isAccelerating := if 0 <? averageRate then Z.quot (averageRate * 3) 2 <? currentRate
                              else 0 <? currentRate;
         ve_hoursToCapx1000 := if (0 <? currentRate) && (0 <? remaining budget)
                               then Some (Z.quot (remaining budget * 1000) currentRate) else None |}
  | None => Build_SpendingVelocity 0 0 0 0 false None
  end.

(** ** Alerts *)

Record Alert : Type := {
  al_id : string; al_severity : severity; al_title : string; al_agentAddress : option string;
}.

Definition alert (id : string) (s : severity) (title : string) (agent : option string) : Alert :=
  {| al_id := id; al_severity := s; al_title := title; al_agentAddress := agent |}.

Definition utilization (b : EffectiveBudget) : Z := Z.quot (spent24h b * 100) (cap b).

(** The per-agent budgets in the order of the map, which is that of the vault's
    agents: the program registers an agent once. *)
Definition agent_budgets (state : ResolvedVaultState) : list (string * EffectiveBudget) :=
  omap (λ a, b ← rs_allAgentBudgets state !! ae_pubkey a; Some (ae_pubkey a, b))
    (av_agents (rs_vault state)).

Definition cap_alerts (vault : string) (b : EffectiveBudget) : list Alert :=
  if 0 <? cap b then
    if 95 <=? utilization b then [alert ("cap-critical-" +:+ vault) Critical "Daily budget nearly exhausted" None]
    else if 80 <=? utilization b then [alert ("cap-warning-" +:+ vault) Warning
           ("Daily budget " +:+ bigint_toString (utilization b) +:+ "% used") None]
    else []
  else [].

Definition agent_cap_alert (p : string * EffectiveBudget) : list Alert :=
  if (0 <? cap p.2) && (80 <=? utilization p.2)
  then [alert ("agent-cap-" +:+ p.1) (if 95 <=? utilization p.2 then Critical else Warning)
          ("Agent " +:+ formatAddress p.1 4 +:+ " at " +:+ bigint_toString (utilization p.2) +:+
           "% of spending limit") (Some p.1)]
  else [].

Definition velocity_alerts (vault : string) (state : ResolvedVaultState) : list Alert :=
  match rs_tracker state with
  | None => []
  | Some _ =>
      let b := rs_globalBudget state in
      if 0 <? cap b then
        let v := getSpendingVelocity (rs_tracker state) (rs_resolvedAtTimestamp state) b in
        (if (0 <? ve_averageRate v) && (ve_averageRate v * 2 <? ve_currentRate v)
         then [alert ("high-velocity-" +:+ vault) Warning "Unusual spending velocity detected" None] else []) ++
        (if (0 <? ve_currentRate v) && (Z.quot (cap b) 2 <? ve_currentRate v)
         then [alert ("drain-detected-" +:+ vault) Critical "Potential drain detected" None] else [])
      else []
  end.

Definition severity_rank (s : severity) : Z :=
  match s with Critical => 0 | Warning => 1 | Info => 2 end.

Definition raised (vault : string) (state : ResolvedVaultState) : list Alert :=
  let agents := av_agents (rs_vault state) in
  let status := av_status (rs_vault state) in
  cap_alerts vault (rs_globalBudget state) ++
  match status with Frozen => [alert ("frozen-" +:+ vault) Critical "Vault is paused" None] | _ => [] end ++
  concat (map (λ a, if ae_paused a
                    then [alert ("agent-paused-" +:+ ae_pubkey a) Info
                            ("Agent " +:+ formatAddress (ae_pubkey a) 4 +:+ " is paused")
                            (Some (ae_pubkey a))]
                    else []) agents) ++
  concat (map agent_cap_alert (agent_budgets state)) ++
  match agents, status with [], Active => [alert ("no-agents-" +:+ vault) Warning "No agents registered" None] | _, _ => [] end ++
  (if negb (bool_decide (agents = [])) && forallb ae_paused agents
   then [alert ("all-paused-" +:+ vault) Warning "All agents are paused" None] else []) ++
  velocity_alerts vault state.

Definition by_severity (a b : Alert) : bool :=
  severity_rank (al_severity a) <=? severity_rank (al_severity b).

Definition evaluateAlertConditions (state : ResolvedVaultState) (vault : string) : list Alert :=
  js_sort by_severity (raised vault state).

(** ** Agents (agent-analytics.ts) *)

Section Agents.
(** [bytesToAddress] of the chain library. *)
Context (bytesToAddress : list Z → option string).

Record AgentProfile : Type := {
  pf_address : string;
  pf_capability : Z;
  pf_capabilityLabel : string;
  pf_spendingLimitUsd : Z;
  pf_paused : bool;
  pf_budget : EffectiveBudget;
  pf_lifetimeSpend : Z;
  pf_lifetimeTxCount : Z;
  pf_avgTransactionSize : Z;
  pf_capUtilization : double;
  pf_isApproachingCap : bool;
  pf_hasFullCapability : bool;
}.

Definition capabilityToLabel (capability : Z) : string :=
  if capability =? 0 then "Disabled"
  else if capability =? 1 then "Observer"
  else if capability =? 2 then "Operator"
  else "Unknown(" +:+ bigint_toString capability +:+ ")".

Definition no_budget : EffectiveBudget := {| spent24h := 0; cap := 0; remaining := 0 |}.

Definition lifetime_spend (overlay : option AgentSpendOverlay) (agent : string) : Z :=
  match findAgentOverlaySlot bytesToAddress overlay agent with Some (_, spend, _) => spend | None => 0 end.
Definition lifetime_count (overlay : option AgentSpendOverlay) (agent : string) : Z :=
  match findAgentOverlaySlot bytesToAddress overlay agent with Some (_, _, count) => count | None => 0 end.

Definition getAgentProfile (state : ResolvedVaultState) (agent : string) : option AgentProfile :=
  p ← list_find (λ a, ae_pubkey a = agent) (av_agents (rs_vault state));
  let entry := p.2 in
  let budget := default no_budget (rs_allAgentBudgets state !! agent) in
  let spend := lifetime_spend (rs_overlay state) agent in
  let count := lifetime_count (rs_overlay state) agent in
  let util := computeUtilizationPercent (spent24h budget) (cap budget) in
  Some {| pf_address := agent;
          pf_capability := ae_capability entry;
          pf_capabilityLabel := capabilityToLabel (ae_capability entry);
          pf_spendingLimitUsd := ae_spendingLimitUsd entry;
          pf_paused := ae_paused entry;
          pf_budget := budget;
          pf_lifetimeSpend := spend;
          pf_lifetimeTxCount := count;
          pf_avgTransactionSize := if 0 <? count then Z.quot spend count else 0;
          pf_capUtilization := util;
          pf_isApproachingCap := double_gt util 80;
          pf_hasFullCapability := ae_capability entry =? FULL_CAPABILITY |}.

Record AgentRanking : Type := {
  rk_address : string;
  rk_rank : nat;
  rk_spend24h : Z;
  rk_lifetimeSpend : Z;
  rk_capUtilization : double;
  rk_paused : bool;
  rk_capability : Z;
}.

Definition unranked (state : ResolvedVaultState) (a : AgentEntry) : AgentRanking :=
  let budget := default no_budget (rs_allAgentBudgets state !! ae_pubkey a) in {|
  rk_address := ae_pubkey a; rk_rank := 0; rk_spend24h := spent24h budget;
  rk_lifetimeSpend := lifetime_spend (rs_overlay state) (ae_pubkey a);
  rk_capUtilization := computeUtilizationPercent (spent24h budget) (cap budget);
  rk_paused := ae_paused a; rk_capability := ae_capability a |}.

Definition with_rank (i : nat) (r : AgentRanking) : AgentRanking := {|
  rk_address := rk_address r; rk_rank := S i; rk_spend24h := rk_spend24h r;
  rk_lifetimeSpend := rk_lifetimeSpend r; rk_capUtilization := rk_capUtilization r;
  rk_paused := rk_paused r; rk_capability := rk_capability r |}.

Definition more_spend (a b : AgentRanking) : bool := rk_spend24h b <=? rk_spend24h a.

Definition getAgentLeaderboard (state : ResolvedVaultState) : list AgentRanking :=
  imap with_rank (js_sort more_spend (map (unranked state) (av_agents (rs_vault state)))).

Record AgentComparisonData : Type := {
  cm_agents : list AgentRanking;
  cm_totalAgentSpend24h : Z;
  cm_spendConcentration : double;
  cm_mostActiveAgent : option string;
  cm_leastActiveAgent : option string;
}.

Definition getAgentComparison (state : ResolvedVaultState) : AgentComparisonData :=
  let rankings := getAgentLeaderboard state in
  let active := List.filter (λ r, 0 <? rk_spend24h r) rankings in {|
  cm_agents := rankings;
  cm_totalAgentSpend24h := foldl Z.add 0 (map rk_spend24h rankings);
  cm_spendConcentration := computeHerfindahl (map rk_spend24h rankings);
  cm_mostActiveAgent := rk_address <$> head active;
  cm_leastActiveAgent := rk_address <$> last active |}.
(** ** Spending breakdown and history (spending-analytics.ts) *)

Record AgentSpending : Type := {
  as_agent : string; as_spent24h : Z; as_cap : Z; as_utilization : double; as_lifetimeSpend : Z;
}.
Record ProtocolSpending : Type := {
  ps_protocol : string; ps_protocolName : string; ps_spent24h : Z; ps_cap : Z; ps_utilization : double;
}.
Record SpendingBreakdown : Type := {
  sb_spent24h : Z; sb_cap : Z; sb_utilization : double;
  sb_byAgent : list AgentSpending;
  sb_byProtocol : list ProtocolSpending;
  sb_agentConcentration : double;
  sb_protocolConcentration : double;
  sb_topAgent : option string;
  sb_topProtocol : option string;
}.

(** The first of the largest, if anything was spent at all. *)
Definition top (l : list (string * Z)) : option string :=
  (foldl (λ acc p, if acc.2 <? p.2 then (Some p.1, p.2) else acc) (None, 0) l).1.

Definition getSpendingBreakdown (state : ResolvedVaultState) : SpendingBreakdown :=
  let global := rs_globalBudget state in
  let byAgent := map (λ p, {|
    as_agent := p.1; as_spent24h := spent24h p.2; as_cap := cap p.2;
    as_utilization := computeUtilizationPercent (spent24h p.2) (cap p.2);
    as_lifetimeSpend := lifetime_spend (rs_overlay state) p.1 |}) (agent_budgets state) in
  let byProtocol := map (λ pb, {|
    ps_protocol := pb_protocol pb; ps_protocolName := resolveProtocolName (pb_protocol pb);
    ps_spent24h := spent24h (pb_budget pb); ps_cap := cap (pb_budget pb);
    ps_utilization := computeUtilizationPercent (spent24h (pb_budget pb)) (cap (pb_budget pb)) |})
    (rs_protocolBudgets state) in {|
  sb_spent24h := spent24h global; sb_cap := cap global;
  sb_utilization := computeUtilizationPercent (spent24h global) (cap global);
  sb_byAgent := byAgent; sb_byProtocol := byProtocol;
  sb_agentConcentration := computeHerfindahl (map as_spent24h byAgent);
  sb_protocolConcentration := computeHerfindahl (map ps_spent24h byProtocol);
  sb_topAgent := top (map (λ a, (as_agent a, as_spent24h a)) byAgent);
  sb_topProtocol := top (map (λ p, (ps_protocol p, ps_spent24h p)) byProtocol) |}.
End Agents.

Definition MAX_AGENTS_PER_VAULT : Z := 10.

(** The loop over the hourly epochs; [n] counts the turns left, [k] the ones
    done.  The display text of a point is left out; making it throws for a
    contribution that is missing or negative. *)
Fixpoint history_loop (n : nat) (k : Z) (entry : AgentContributionEntry) (currentEpoch windowStart : Z)
    : result js_exn (list SpendingEpoch) :=
  match n with
  | O => Ok []
  | S n =>
      let epochForK := ac_lastWriteEpoch entry - k in
      if (epochForK <? 0) || (epochForK <=? windowStart) then Ok []
      else if currentEpoch <? epochForK then history_loop n (k + 1) entry currentEpoch windowStart
      else match ac_contributions entry !! Z.to_nat (Z.rem epochForK (Z.of_nat OVERLAY_NUM_EPOCHS)) with
           | None => Throw JsTypeError
           | Some contribution =>
               if contribution =? 0 then history_loop n (k + 1) entry currentEpoch windowStart
               else rest ← history_loop n (k + 1) entry currentEpoch windowStart;
                    Ok ({| sp_epochId := epochForK; sp_timestamp := epochForK * OVERLAY_EPOCH_DURATION;
                           sp_usdAmount := contribution |} :: rest)
           end
  end.

Definition getAgentSpendingHistory (overlay : option AgentSpendOverlay) (agentSlot now : Z)
    : result js_exn (list SpendingEpoch) :=
  match overlay with
  | None => Ok []
  | Some overlay =>
      if (agentSlot <? 0) || (MAX_AGENTS_PER_VAULT <=? agentSlot) || (now <=? 0) then Ok [] else
      match ov_entries overlay !! Z.to_nat agentSlot with
      | None => Ok []
      | Some entry =>
          if ac_lastWriteEpoch entry =? 0 then Ok [] else
          let currentEpoch := Z.quot now OVERLAY_EPOCH_DURATION in
          js_sort before <$> history_loop OVERLAY_NUM_EPOCHS 0 entry currentEpoch
            (currentEpoch - Z.of_nat OVERLAY_NUM_EPOCHS)
      end
  end.

(** Decoded events: a name and fields. *)
Record DecodedEvent : Type := { ev_name : string; ev_fields : option fields_t; ev_txSignature : option string }.

Record SessionCounts : Type := {
  eb_totalSessions : Z;
  eb_failedSessions : Z;
  eb_expiredSessions : Z;
  eb_successfulSessions : Z;
}.

Definition count_session (agent : string) (acc : SessionCounts) (e : DecodedEvent)
    : SessionCounts :=
  match ev_fields e with
  | None => acc
  | Some fs =>
      if negb (bool_decide (ev_name e = "SessionFinalized")) then acc
      else match field (JObj fs) "agent" with
           | JStr a =>
               if negb (bool_decide (a = agent)) then acc
               else
                 let expired := truthy (field (JObj fs) "isExpired") in
                 let success := truthy (field (JObj fs) "success") in
                 {| eb_totalSessions := eb_totalSessions acc + 1;
                    eb_failedSessions := eb_failedSessions acc +
                      (if negb expired && negb success then 1 else 0);
                    eb_expiredSessions := eb_expiredSessions acc + (if expired then 1 else 0);
                    eb_successfulSessions := eb_successfulSessions acc +
                      (if negb expired && success then 1 else 0) |}
           | _ => acc
           end
  end.

Definition no_sessions : SessionCounts := {|
  eb_totalSessions := 0; eb_failedSessions := 0; eb_expiredSessions := 0; eb_successfulSessions := 0 |}.

(** [Math.round((successful / total) * 100)], which is finite. *)
Definition success_rate (c : SessionCounts) : Z :=
  if 0 <? eb_totalSessions c
  then default 0 (Math_round (double_mul_int
         (double_div (Number_of (eb_successfulSessions c)) (Number_of (eb_totalSessions c))) 100))
  else 100.

Record AgentErrorBreakdown : Type := {
  br_agent : string; br_counts : SessionCounts; br_successRate : Z;
}.

Definition getAgentErrorBreakdown (events : list DecodedEvent) (agent : string) : AgentErrorBreakdown :=
  let counts := foldl (count_session agent) no_sessions events in
  {| br_agent := agent; br_counts := counts; br_successRate := success_rate counts |}.

(** ** Audit trail (security-analytics.ts) *)

Inductive audit_category : Type := PolicyChange | AgentChange | Emergency.

#[export] Instance audit_category_eq_dec : EqDecision audit_category.
Proof. solve_decision. Defined.

Definition AUDIT_EVENTS : list (string * audit_category) :=
  [("PolicyChangeQueued", PolicyChange); ("PolicyChangeApplied", PolicyChange);
   ("PolicyChangeCancelled", PolicyChange); ("AgentRegistered", AgentChange);
   ("AgentRevoked", AgentChange); ("AgentPermissionsChangeQueued", AgentChange);
   ("AgentPermissionsChangeApplied", AgentChange); ("AgentPermissionsChangeCancelled", AgentChange);
   ("AgentPausedEvent", Emergency); ("AgentUnpausedEvent", AgentChange); ("VaultFrozen", Emergency);
   ("VaultReactivated", Emergency); ("VaultClosed", Emergency); ("VaultCreated", Emergency)].

Record AuditEntry : Type := {
  ae_timestamp : Z;
  ae_txSignature : string;
  ae_category : audit_category;
  ae_action : string;
  ae_actor : jsv;
  ae_details : fields_t;
}.

Record AuditOptions : Type := {
  ao_categories : option (list audit_category);
  ao_since : option Z;
  ao_actor : option string;
}.

(** The first of the fields that is not nullish. *)
Fixpoint first_field (fs : fields_t) (keys : list string) (last : jsv) : jsv :=
  match keys with
  | [] => last
  | k :: keys => nullish (field (JObj fs) k) (first_field fs keys last)
  end.

Definition int_of (v : jsv) : Z := match v with JBig z | JNum (Int z) => z | _ => 0 end.

Definition audit_entry (o : AuditOptions) (e : DecodedEvent) : option AuditEntry :=
  category ← (p ← list_find (λ p, p.1 = ev_name e) AUDIT_EVENTS; Some p.2.2);
  if match ao_categories o with Some l => bool_decide (category ∉ l) | None => false end then None else
  let f := default [] (ev_fields e) in
  let timestamp := int_of (first_field f ["timestamp"; "executes_at"; "applied_at"] (JBig 0)) in
  if match ao_since o with
     | Some s => negb (s =? 0) && (0 <? timestamp) && (timestamp <? s)
     | None => false
     end then None else
  let actor := first_field f ["owner"; "agent"; "settled_by"; "refunded_by"; "vault"] (JStr "unknown") in
  if match ao_actor o with
     | Some a => negb (bool_decide (a = "")) &&
                 match actor with JStr s => negb (bool_decide (s = a)) | _ => true end
     | None => false
     end then None else
  Some {| ae_timestamp := timestamp; ae_txSignature := default "" (ev_txSignature e);
          ae_category := category; ae_action := ev_name e; ae_actor := actor; ae_details := f |}.

Definition getAuditTrail (events : list DecodedEvent) (o : AuditOptions) : list AuditEntry :=
  omap (audit_entry o) events.

Record AuditTrailSummary : Type := {
  su_totalEntries : nat; su_policyChange : nat; su_agentChange : nat; su_emergency : nat;
  su_latestTimestamp : Z; su_uniqueActors : list jsv;
}.

(** Actors are addresses, kept in a set. *)
Definition same_text (a b : jsv) : bool :=
  match a, b with JStr s, JStr t => bool_decide (s = t) | _, _ => false end.

Definition count_category (c : audit_category) (trail : list AuditEntry) : nat :=
  length (List.filter (λ e, bool_decide (ae_category e = c)) trail).

Definition getAuditTrailSummary (trail : list AuditEntry) : AuditTrailSummary := {|
  su_totalEntries := length trail;
  su_policyChange := count_category PolicyChange trail;
  su_agentChange := count_category AgentChange trail;
  su_emergency := count_category Emergency trail;
  su_latestTimestamp := foldl (λ latest e, if latest <? ae_timestamp e then ae_timestamp e else latest) 0 trail;
  su_uniqueActors := foldl (λ actors e, if existsb (same_text (ae_actor e)) actors then actors
                                        else actors ++ [ae_actor e]) [] trail |}.

(** ** Properties of the posture *)

Lemma filter_split {A} (p : A → bool) (l : list A) :
  (length (List.filter p l) + length (List.filter (λ x, negb (p x)) l) = length l)%nat.
Proof. induction l as [|x l IH]; simpl; [done|]. destruct (p x); simpl; lia. Qed.

Lemma filter_nil_forallb {A} (p : A → bool) (l : list A) :
  List.filter p l = [] ↔ forallb (λ x, negb (p x)) l = true.
Proof. induction l as [|x l IH]; simpl; [done|]. by destruct (p x). Qed.

Lemma existsb_false {A} (p : A → bool) (l : list A) :
  existsb p l = false ↔ ∀ x, x ∈ l → p x = false.
Proof.
  induction l as [|y l IH]; simpl; [set_solver|].
  rewrite orb_false_iff, IH. set_solver.
Qed.

(** The security posture says what it checks.  Every check is counted once,
    as passed or failed; and a vault has no critical failure exactly when no
    agent has full capability, a daily cap is set, and fees do not go to the
    system program. *)
Theorem security_posture_specified (state : ResolvedVaultState) :
  let p := getSecurityPosture state in
  length (sp_checks p) = 15%nat ∧
  (sp_passCount p + sp_failCount p = 15)%nat ∧
  (sp_criticalFailures p = [] ↔
     (∀ a, a ∈ av_agents (rs_vault state) → ae_capability a ≠ FULL_CAPABILITY) ∧
     0 < pol_dailySpendingCapUsd (rs_policy state) ∧
     av_feeDestination (rs_vault state) ≠ SYSTEM_PROGRAM_ADDRESS) ∧
  (sp_failCount p = 0%nat → sp_criticalFailures p = []).
Proof.
  cbv zeta. split; [done|]. split; [apply filter_split|]. split.
  - unfold getSecurityPosture. cbn [sp_criticalFailures]. rewrite filter_nil_forallb.
    cbn [posture_checks forallb is_critical_failure check ck_severity ck_passed].
    unfold is_critical_failure. cbn [ck_severity ck_passed check]. simpl bool_decide.
    cbn [andb negb]. rewrite !andb_true_r, !andb_true_iff, !negb_true_iff, !negb_false_iff, !negb_true_iff.
    rewrite bool_decide_eq_false, existsb_false.
    setoid_rewrite Z.eqb_neq. rewrite Z.ltb_lt. tauto.
  - unfold getSecurityPosture. cbn [sp_failCount sp_criticalFailures]. intros H.
    apply length_zero_iff_nil in H. rewrite filter_nil_forallb in *.
    rewrite forallb_forall in *. intros c Hc. apply H in Hc. unfold is_critical_failure.
    destruct (ck_passed c); [|discriminate]. by rewrite andb_false_r.
Qed.

(** ** Properties of the alerts *)

Lemma by_severity_total a b : by_severity a b = false → by_severity b a = true.
Proof. unfold by_severity. lia. Qed.
Lemma by_severity_trans a b c : by_severity a b = true → by_severity b c = true → by_severity a c = true.
Proof. unfold by_severity. lia. Qed.

Lemma elem_of_alerts state vault a : a ∈ evaluateAlertConditions state vault ↔ a ∈ raised vault state.
Proof. unfold evaluateAlertConditions. by rewrite (js_sort_perm by_severity (raised vault state)). Qed.

(** The rate that the drain alert compares with half of the daily cap. *)
Definition hourly_rate (state : ResolvedVaultState) : Z :=
  ve_currentRate (getSpendingVelocity (rs_tracker state) (rs_resolvedAtTimestamp state)
                    (rs_globalBudget state)).

(** Alerts come most severe first, and the dangerous conditions are never
    missed: a frozen vault, a daily budget used to 95 percent or more, and a
    current hourly rate above half of the daily cap each raise a critical
    alert. *)
Theorem alerts_report_danger (state : ResolvedVaultState) (vault : string) :
  js_sorted by_severity (evaluateAlertConditions state vault) ∧
  evaluateAlertConditions state vault ≡ₚ raised vault state ∧
  (av_status (rs_vault state) = Frozen →
     alert ("frozen-" +:+ vault) Critical "Vault is paused" None ∈ evaluateAlertConditions state vault) ∧
  (0 < cap (rs_globalBudget state) → 0 ≤ spent24h (rs_globalBudget state) →
   95 * cap (rs_globalBudget state) ≤ 100 * spent24h (rs_globalBudget state) →
     alert ("cap-critical-" +:+ vault) Critical "Daily budget nearly exhausted" None ∈ evaluateAlertConditions state vault) ∧
  (rs_tracker state ≠ None → 0 < cap (rs_globalBudget state) →
   cap (rs_globalBudget state) / 2 < hourly_rate state →
     alert ("drain-detected-" +:+ vault) Critical "Potential drain detected" None ∈ evaluateAlertConditions state vault).
Proof.
  split_and!.
  - apply js_sort_sorted; [exact by_severity_total | exact by_severity_trans].
  - apply js_sort_perm.
  - intros Hs. rewrite elem_of_alerts. unfold raised. rewrite Hs. set_solver.
  - intros Hc Hs Hu. rewrite elem_of_alerts. unfold raised, cap_alerts, utilization.
    rewrite (proj2 (Z.ltb_lt _ _) Hc), Z.quot_div_nonneg by lia.
    rewrite (proj2 (Z.leb_le 95 _)); [set_solver|]. apply Z.div_le_lower_bound; lia.
  - intros Ht Hc Hr. rewrite elem_of_alerts. unfold raised, velocity_alerts.
    unfold hourly_rate in Hr. destruct (rs_tracker state) as [t|]; [|done].
    rewrite (proj2 (Z.ltb_lt _ _) Hc). cbv zeta. rewrite Z.quot_div_nonneg by lia.
    set (v := ve_currentRate _) in *.
    assert (0 ≤ cap (rs_globalBudget state) / 2) by (apply Z.div_pos; lia).
    rewrite (proj2 (Z.ltb_lt 0 v)), (proj2 (Z.ltb_lt (cap (rs_globalBudget state) / 2) v)) by lia. set_solver.
Qed.

(** The "current" rate is not current.  A single spend anywhere in the last
    day, with nothing after it, is reported as six times its amount per hour;
    so a burst that ended a day ago still raises the drain alert. *)
Theorem stale_spending_counts_as_current (t : SpendTracker) (now amount : Z) (budget : EffectiveBudget)
    (epoch : Z) :
  0 < now → 0 < amount → now / EPOCH_DURATION - NUM_EPOCHS ≤ epoch ≤ now / EPOCH_DURATION →
  st_buckets t = [{| eb_epochId := epoch; eb_usdAmount := amount |}] →
  ve_currentRate (getSpendingVelocity (Some t) now budget) = 6 * amount.
Proof.
  intros Hn Ha He Hb. unfold getSpendingVelocity. rewrite (proj2 (Z.leb_gt now 0)) by done. cbv zeta.
  unfold valid_buckets. rewrite Hb. cbn [List.filter eb_epochId eb_usdAmount].
  rewrite (proj2 (Z.ltb_ge epoch _)), (proj2 (Z.ltb_ge (now / EPOCH_DURATION) epoch)) by lia.
  rewrite (proj2 (Z.eqb_neq amount 0)) by lia. simpl. rewrite Z.quot_1_r. lia.
Qed.

Lemma stale_spending_counts_as_current_witness :
  ve_currentRate (getSpendingVelocity (Some {| st_buckets := [{| eb_epochId := 6; eb_usdAmount := 100 |}];
    st_protocolCounters := []; st_lastWriteEpoch := 6 |}) 90000
    {| spent24h := 100; cap := 1000; remaining := 900 |}) = 600.
Proof.
  apply (stale_spending_counts_as_current _ 90000 100 _ 6); [lia | lia | vm_compute; split; discriminate |
    reflexivity].
Defined.

(** ** Properties of the rankings *)

Lemma more_spend_total a b : more_spend a b = false → more_spend b a = true.
Proof. unfold more_spend. lia. Qed.
Lemma more_spend_trans a b c : more_spend a b = true → more_spend b c = true → more_spend a c = true.
Proof. unfold more_spend. lia. Qed.

Lemma imap_with_rank_lookup l (i : nat) r :
  imap with_rank l !! i = Some r → rk_rank r = S i ∧ ∃ r0, l !! i = Some r0 ∧ r = with_rank i r0.
Proof.
  rewrite list_lookup_imap. intros H. apply fmap_Some in H as (r0 & Hr0 & ->). eauto.
Qed.

Lemma js_sorted_lookup {A} (le : A → A → bool) l i j x y :
  js_sorted le l → (i < j)%nat → l !! i = Some x → l !! j = Some y → le x y = true.
Proof.
  intros Hs. revert i j. induction Hs as [|x0 l Hall Hs IH]; intros i j Hij Hi Hj; [done|].
  destruct j as [|j]; [lia|]. destruct i as [|i]; simpl in Hi, Hj.
  - injection Hi as <-. by apply (Forall_lookup_1 _ _ _ _ Hall Hj).
  - apply (IH i j); [lia | done | done].
Qed.

(** The leaderboard ranks every agent of the vault once, by spending: the
    ranks are 1, 2, ... in order, no agent stands before one that spent more,
    and the total is what the agents spent together. *)
Theorem leaderboard_specified (bytesToAddress : list Z → option string) (state : ResolvedVaultState) :
  let board := getAgentLeaderboard bytesToAddress state in
  map rk_address board ≡ₚ map ae_pubkey (av_agents (rs_vault state)) ∧
  (∀ i r, board !! i = Some r → rk_rank r = S i) ∧
  (∀ i j r r', (i < j)%nat → board !! i = Some r → board !! j = Some r' →
     rk_spend24h r' ≤ rk_spend24h r) ∧
  cm_totalAgentSpend24h (getAgentComparison bytesToAddress state) = sumZ (map rk_spend24h board).
Proof.
  cbv zeta. unfold getAgentLeaderboard. set (l := map (unranked _ _) _).
  assert (Hmap : ∀ (k : list AgentRanking), map rk_address (imap with_rank k) = map rk_address k).
  { intros k. apply list_eq. intros i. rewrite !list_lookup_fmap, list_lookup_imap.
    by destruct (k !! i). }
  split_and!.
  - rewrite Hmap, (js_sort_perm more_spend l). unfold l. rewrite map_map. done.
  - intros i r Hr. by apply imap_with_rank_lookup in Hr as [].
  - intros i j r r' Hij Hi Hj.
    apply imap_with_rank_lookup in Hi as (_ & r0 & Hi & ->).
    apply imap_with_rank_lookup in Hj as (_ & r1 & Hj & ->). simpl.
    assert (H : more_spend r0 r1 = true).
    { eapply (js_sorted_lookup more_spend); [|exact Hij|exact Hi|exact Hj].
      apply js_sort_sorted; [exact more_spend_total | exact more_spend_trans]. }
    unfold more_spend in H. lia.
  - unfold getAgentComparison. cbn [cm_totalAgentSpend24h]. rewrite foldl_add_sumZ. apply Z.add_0_l.
Qed.

(** Every finished session of the agent is counted once, as expired, failed
    or successful. *)
Theorem session_outcomes_add_up (events : list DecodedEvent) (agent : string) :
  let b := br_counts (getAgentErrorBreakdown events agent) in
  eb_totalSessions b = eb_failedSessions b + eb_expiredSessions b + eb_successfulSessions b ∧
  0 ≤ eb_totalSessions b ≤ Z.of_nat (length events).
Proof.
  unfold getAgentErrorBreakdown. cbn [br_counts].
  assert (H : ∀ acc,
    eb_totalSessions acc = eb_failedSessions acc + eb_expiredSessions acc + eb_successfulSessions acc →
    let b := foldl (count_session agent) acc events in
    eb_totalSessions b = eb_failedSessions b + eb_expiredSessions b + eb_successfulSessions b ∧
    eb_totalSessions acc ≤ eb_totalSessions b ≤ eb_totalSessions acc + Z.of_nat (length events)).
  { induction events as [|e events IH]; intros acc Hacc; cbn [foldl length]; [split; [done|lia]|].
    assert (Hs : eb_totalSessions (count_session agent acc e) =
        eb_failedSessions (count_session agent acc e) + eb_expiredSessions (count_session agent acc e) +
        eb_successfulSessions (count_session agent acc e) ∧
      eb_totalSessions acc ≤ eb_totalSessions (count_session agent acc e) ≤ eb_totalSessions acc + 1).
    { unfold count_session. destruct (ev_fields e) as [fs|]; [|split; [done|lia]].
      destruct (negb _); [split; [done|lia]|].
      destruct (field _ _); try (split; [done|lia]). destruct (negb _); [split; [done|lia]|].
      simpl. destruct (truthy _), (truthy _); simpl; lia. }
    destruct Hs as [Hs1 Hs2]. destruct (IH _ Hs1) as [H1 H2]. split; [exact H1|]. simpl in H2. lia. }
  destruct (H no_sessions eq_refl) as [H1 H2]. split; [exact H1|]. simpl in H2. lia.
Qed.

(** ** Properties of the breakdown and of the history *)

Lemma top_spec (l : list (string * Z)) :
  match top l with
  | Some k => ∃ v, (k, v) ∈ l ∧ 0 < v ∧ ∀ p, p ∈ l → p.2 ≤ v
  | None => ∀ p, p ∈ l → p.2 ≤ 0
  end.
Proof.
  unfold top.
  assert (H : ∀ acc, match acc.1 with Some _ => 0 < acc.2 | None => acc.2 = 0 end →
    let r := foldl (λ acc (p : string * Z), if acc.2 <? p.2 then (Some p.1, p.2) else acc) acc l in
    match r.1 with Some k => 0 < r.2 ∧ ((k, r.2) ∈ l ∨ r = acc) | None => r.2 = 0 end ∧
    acc.2 ≤ r.2 ∧ ∀ p, p ∈ l → p.2 ≤ r.2).
  { induction l as [|q l IH]; intros acc Hacc; cbn [foldl].
    - destruct acc as [[k|] v]; simpl in *; set_solver by lia.
    - destruct (Z.ltb_spec acc.2 q.2) as [Hq|Hq].
      + destruct (IH (Some q.1, q.2)) as (H1 & H2 & H3).
        { simpl. destruct acc as [[?|] ?]; simpl in *; lia. }
        simpl in H2. split_and!; [|lia|intros p [->|Hp]%elem_of_cons; [lia|auto]].
        revert H1. destruct (foldl _ _ _) as [[k|] v]; simpl; [|done].
        intros [? [?| [= -> ->]]]; (split; [done|]); left; [by constructor|].
        destruct q; constructor.
      + destruct (IH acc Hacc) as (H1 & H2 & H3).
        split_and!; [|lia|intros p [->|Hp]%elem_of_cons; [lia|auto]].
        revert H1. destruct (foldl _ _ _) as [[k|] v]; simpl; [|done].
        intros [? [?|?]]; (split; [done|]); [left; by constructor|by right]. }
  destruct (H (None, 0) eq_refl) as (H1 & _ & H3). simpl in *.
  destruct (foldl _ _ _) as [[k|] v]; simpl in *; [|intros p Hp; specialize (H3 p Hp); lia].
  destruct H1 as [Hv [Hin|[=]]]. eauto.
Qed.

(** The breakdown names as top agent one that spent most, and nobody only if
    nobody spent. *)
Lemma breakdown_names_the_top_agent (bytesToAddress : list Z → option string) (state : ResolvedVaultState) :
  let b := getSpendingBreakdown bytesToAddress state in
  match sb_topAgent b with
  | Some k => ∃ a, a ∈ sb_byAgent b ∧ as_agent a = k ∧ 0 < as_spent24h a ∧
                   ∀ a', a' ∈ sb_byAgent b → as_spent24h a' ≤ as_spent24h a
  | None => ∀ a, a ∈ sb_byAgent b → as_spent24h a ≤ 0
  end.
Proof.
  cbv zeta. unfold getSpendingBreakdown. cbn [sb_topAgent sb_byAgent]. set (l := map _ (agent_budgets _)).
  pose proof (top_spec (map (λ a, (as_agent a, as_spent24h a)) l)) as H.
  destruct (top _) as [k|].
  - destruct H as (v & Hin & Hv & Hmax). apply list_elem_of_In, in_map_iff in Hin as (a & [= <- <-] & Ha).
    exists a. split_and!; [by apply list_elem_of_In | done | done |].
    intros a' Ha'. apply (Hmax (as_agent a', as_spent24h a')).
    apply list_elem_of_In, in_map_iff. exists a'. split; [done|by apply list_elem_of_In].
  - intros a Ha. apply (H (as_agent a, as_spent24h a)).
    apply list_elem_of_In, in_map_iff. exists a. split; [done|by apply list_elem_of_In].
Qed.

Lemma history_loop_points n k entry cur start l :
  history_loop n k entry cur start = Ok l →
  Forall (λ p, start < sp_epochId p ≤ cur ∧ 0 ≤ sp_epochId p ∧ sp_usdAmount p ≠ 0 ∧
               sp_timestamp p = sp_epochId p * OVERLAY_EPOCH_DURATION ∧
               sp_epochId p ≤ ac_lastWriteEpoch entry - k) l ∧
  StronglySorted (λ p q, sp_epochId q < sp_epochId p) l.
Proof.
  revert k l. induction n as [|n IH]; intros k l H; simpl in H.
  { injection H as <-. split; constructor. }
  destruct (_ || _) eqn:Eb; [injection H as <-; split; constructor|].
  apply orb_false_iff in Eb as [H0%Z.ltb_ge Hw%Z.leb_gt].
  assert (Hskip : ∀ l, history_loop n (k + 1) entry cur start = Ok l →
    Forall (λ p, start < sp_epochId p ≤ cur ∧ 0 ≤ sp_epochId p ∧ sp_usdAmount p ≠ 0 ∧
                 sp_timestamp p = sp_epochId p * OVERLAY_EPOCH_DURATION ∧
                 sp_epochId p ≤ ac_lastWriteEpoch entry - (k + 1)) l ∧
    StronglySorted (λ p q, sp_epochId q < sp_epochId p) l) by eauto.
  clear IH. destruct (Z.ltb_spec cur (ac_lastWriteEpoch entry - k)) as [Hc|Hc].
  { destruct (Hskip _ H) as [Hf Hs]. split; [|done]. eapply Forall_impl; [exact Hf|]. simpl. lia. }
  destruct (_ !! _) as [c|]; [|done]. destruct (Z.eqb_spec c 0) as [Hz|Hz].
  { destruct (Hskip _ H) as [Hf Hs]. split; [|done]. eapply Forall_impl; [exact Hf|]. simpl. lia. }
  destruct (history_loop n _ _ _ _) as [rest|] eqn:E; simpl in H; [|done]. injection H as <-.
  destruct (Hskip _ eq_refl) as [Hf Hs]. split; constructor; simpl; try done; try lia.
  - eapply Forall_impl; [exact Hf|]. simpl. lia.
  - eapply Forall_impl; [exact Hf|]. simpl. lia.
Qed.

(** The points of an agent's chart lie in the last 24 hourly epochs, and no
    epoch appears twice. *)
Lemma agent_history_in_window overlay slot now l :
  getAgentSpendingHistory (Some overlay) slot now = Ok l →
  Forall (λ p, Z.quot now OVERLAY_EPOCH_DURATION - 24 < sp_epochId p ≤ Z.quot now OVERLAY_EPOCH_DURATION ∧
               sp_usdAmount p ≠ 0) l ∧
  NoDup (map sp_epochId l) ∧ js_sorted before l.
Proof.
  unfold getAgentSpendingHistory. intros H. destruct (_ || _); [injection H as <-; split_and!; constructor|].
  destruct (ov_entries overlay !! _) as [entry|]; [|injection H as <-; split_and!; constructor].
  destruct (_ =? 0); [injection H as <-; split_and!; constructor|].
  destruct (history_loop _ _ _ _ _) as [l0|] eqn:E; simpl in H; [|done]. injection H as <-.
  apply history_loop_points in E as [Hf Hs]. split_and!.
  - rewrite js_sort_perm. eapply Forall_impl; [exact Hf|].
    change (Z.of_nat OVERLAY_NUM_EPOCHS) with 24. simpl. lia.
  - rewrite js_sort_perm. clear Hf. induction Hs as [|p l Hs IH Hall]; simpl; constructor; [|done].
    intros (q & Hq & Hin)%list_elem_of_fmap. rewrite Forall_forall in Hall.
    specialize (Hall q Hin). lia.
  - apply js_sort_sorted; unfold before; intros; lia.
Qed.
