(* ===== verification/Seal.v ===== *)
(** * Sealing a bundle ([sdk/kit/src/seal.ts], [composer.ts], [protocol-resolver.ts], [plugin.ts])

    [seal] checks a bundle of instructions against the resolved vault, rewrites
    the agent's token accounts to the vault's, and composes the atomic
    transaction [validate_and_authorize, ...bundle, finalize_session].

    What comes from elsewhere is a field of [World]: the resolved state, the
    plugins' verdicts, address derivation, the generated instruction builders,
    fetched accounts and the size of the compiled transaction.  Warnings and
    observe-only hooks have no effect on the result and are left out.

    The theorems: a sealed bundle passed every check, with the fees rounded up;
    the transaction is the sandwich and nothing else; both wrapper instructions
    carry every account the bundle can write; and the rewriting touches exactly
    the writable references to the agent's accounts. *)

From Stdlib Require String.
From Stdlib Require Import QArith.
From S2P Require Import Prelude IntentDigest SdkTypes StateResolver Base64 Composer.

Local Open Scope Z_scope.

Definition sdk (code : string) : js_exn := SdkDomainError ("SIGIL_ERROR__SDK__" +:+ code).

Abbreviation role_readonly := (RoleNumber 0).

(** [AccountRole.WRITABLE] is 1 and [AccountRole.WRITABLE_SIGNER] is 3. *)
Definition is_writable (r : role_arg) : bool :=
  match r with RoleNumber n => (n =? 1) || (n =? 3) | _ => false end.

Definition accounts_of (ix : Ix) : list AccountMeta := default [] (ix_accounts ix).

(** ** Protocols and networks *)

Definition isProtocolAllowed (programId : string) (policy : PolicyConfig) : bool :=
  if pol_protocolMode policy =? 0 then true else
  let isInList := bool_decide (programId ∈ pol_protocols policy) in
  if pol_protocolMode policy =? 1 then isInList else negb isInList.

(** The CAIP-2 chain of a network ([caip2-network.ts]). *)
Definition CAIP2_SOLANA_MAINNET : string := "solana:5eykt4UsFv8P8NJdTREpY1vzqKqZKvdp".
Definition CAIP2_SOLANA_DEVNET : string := "solana:EtWTRABZaYq6iMfeYKouRu166VU2xqa1".

Definition toCaip2 (network : string) : result js_exn string :=
  if bool_decide (network = "mainnet") then Ok CAIP2_SOLANA_MAINNET
  else if bool_decide (network = "devnet") then Ok CAIP2_SOLANA_DEVNET
  else Throw (sdk "INVALID_NETWORK").

Definition isMainnetCaip2 (chain : string) : bool := bool_decide (chain = CAIP2_SOLANA_MAINNET).

(** ** Parameters and surroundings *)

Record SealParams : Type := {
  sp_vault : string;
  sp_agent : string;
  sp_instructions : list Ix;
  sp_network : string;
  sp_tokenMint : string;
  sp_amount : Z;
  sp_targetProtocol : option string;
  sp_computeUnits : option Z;
  sp_priorityFeeMicroLamports : option Z;
  sp_outputStablecoinAccount : option string;
  sp_outputSwapMint : option string;
  sp_hasLookupTables : bool;
  sp_cachedState : option ResolvedVaultState;
  sp_maxCacheAgeMs : option Z;
  sp_additionalAtaReplacements : list (string * string);
}.

(** What a plugin sees of the state, next to the parameters. *)
Record PluginState : Type := {
  ps_globalBudget : EffectiveBudget;
  ps_agentBudget : option EffectiveBudget;
  ps_vaultStatus : VaultStatus;
  ps_capabilityTier : Z;
  ps_maxTransactionUsd : Z;
  ps_resolvedAtTimestamp : Z;
}.

Inductive plugin_verdict : Type := PluginAllow | PluginReject | PluginThrew.

Record FetchedAccount : Type := { fa_exists : bool; fa_programAddress : string; fa_data : list Z }.

(** The arguments of the two generated builders. *)
Record ValidateArgs : Type := {
  va_vaultTokenAccount : string;
  va_outputStablecoinAccount : option string;
  va_outputSwapAccount : option string;
  va_targetProtocol : string;
  va_expectedPolicyVersion : Z;
  va_expectedIntentDigest : list Z;
}.
Record FinalizeArgs : Type := {
  fz_vaultTokenAccount : string;
  fz_outputStablecoinAccount : option string;
  fz_outputSwapAccount : option string;
  fz_protocolTreasuryTokenAccount : option string;
  fz_feeDestinationTokenAccount : option string;
}.

Record World : Type := {
  w_hookSkips : bool;
  w_cacheAgeMs : Z;
  w_resolve : result js_exn ResolvedVaultState;
  w_plugins : list (SealParams → PluginState → plugin_verdict);
  w_deriveAta : string → string → string;
  w_bytesToAddress : list Z → string;
  w_getProgramDataAddress : string → string;
  w_fetch : list string → option (list FetchedAccount);
  w_blockhash : result js_exn unit;
  w_altVerified : result js_exn unit;
  w_accountData : string → option (option (list ascii));
  w_cuLimitIx : Z → Ix;
  w_cuPriceIx : Z → Ix;
  w_validateIx : SealParams → ValidateArgs → Ix;
  w_finalizeIx : SealParams → FinalizeArgs → Ix;
  w_wire : list Ix → list ascii;
  w_sha256 : list Z → list Z;
}.

Definition PROTOCOL_TREASURY : string := "6wrkKTM2pjkcCAbMfRz2j3AXspavu6pq3ePcuJUE3Azp".
Definition PROTOCOL_FEE_RATE : Z := 200.
Definition FEE_DENOM : Z := 1000000.
Definition DRAIN_DETECTION_MIN_BALANCE : Z := 1.

Section Seal.
Context (w : World) (params : SealParams).

Definition net : string := normalizeNetwork (sp_network params).

Definition usdc_mint : string :=
  if bool_decide (net = "devnet") then USDC_MINT_DEVNET else USDC_MINT_MAINNET.
Definition usdt_mint : string :=
  if bool_decide (net = "devnet") then USDT_MINT_DEVNET else USDT_MINT_MAINNET.

Definition spending : bool := 0 <? sp_amount params.
Definition stable_input : bool := isStablecoinMint (sp_tokenMint params) net.

(** Step 1: the cached state, unless it is too old. *)
Definition resolve_state : result js_exn ResolvedVaultState :=
  match sp_cachedState params with
  | Some cached => if default 30000 (sp_maxCacheAgeMs params) <? w_cacheAgeMs w
                   then w_resolve w else Ok cached
  | None => w_resolve w
  end.

Definition plugin_state (state : ResolvedVaultState) (entry : AgentEntry) : PluginState := {|
  ps_globalBudget := rs_globalBudget state; ps_agentBudget := rs_agentBudget state;
  ps_vaultStatus := av_status (rs_vault state); ps_capabilityTier := ae_capability entry;
  ps_maxTransactionUsd := rs_maxTransactionUsd state;
  ps_resolvedAtTimestamp := rs_resolvedAtTimestamp state |}.

Fixpoint runPlugins (plugins : list (SealParams → PluginState → plugin_verdict)) (ctx : PluginState)
    : result js_exn unit :=
  match plugins with
  | [] => Ok tt
  | check :: plugins =>
      match check params ctx with
      | PluginAllow => runPlugins plugins ctx
      | PluginReject | PluginThrew => Throw (sdk "PLUGIN_REJECTED")
      end
  end.

(** Steps 1 and 2: an active vault and a registered agent that is not paused. *)
Definition find_agent (state : ResolvedVaultState) : result js_exn AgentEntry :=
  _ ← match av_status (rs_vault state) with Active => Ok tt | _ => Throw (sdk "VAULT_INACTIVE") end;
  match list_find (λ a, ae_pubkey a = sp_agent params) (av_agents (rs_vault state)) with
  | None => Throw (sdk "AGENT_NOT_REGISTERED")
  | Some (_, entry) => if ae_paused entry then Throw (sdk "AGENT_PAUSED") else Ok entry
  end.

(** Step 4: the bundle without compute-budget and system instructions. *)
Definition defiInstructions : list Ix :=
  filter (λ ix, ix_programAddress ix ≠ COMPUTE_BUDGET_PROGRAM_ADDRESS ∧
                ix_programAddress ix ≠ SYSTEM_PROGRAM_ADDRESS) (sp_instructions params).

(** Step 4b: the token operations no sealed bundle may have at top level. *)
Definition spl_blocked (ix : Ix) : bool :=
  let t22 := bool_decide (ix_programAddress ix = TOKEN_2022_PROGRAM_ADDRESS) in
  (bool_decide (ix_programAddress ix = TOKEN_PROGRAM_ADDRESS) || t22) &&
  match ix_data ix with
  | Some (disc :: _) =>
      (disc =? 4) || (disc =? 13) || (disc =? 3) || (disc =? 12) || (t22 && (disc =? 26)) ||
      (disc =? 6) || (disc =? 9) || (disc =? 8) || (disc =? 15)
  | _ => false
  end.

(** Step 5; an empty address is falsy. *)
Definition target_protocol : result js_exn string :=
  let t := match sp_targetProtocol params with
           | Some t => Some t
           | None => ix_programAddress <$> head defiInstructions
           end in
  match t with
  | Some t => if bool_decide (t = "") then Throw (sdk "PROTOCOL_NOT_TARGETED") else Ok t
  | None => Throw (sdk "PROTOCOL_NOT_TARGETED")
  end.

(** Step 6b2. *)
Definition check_count : result js_exn unit :=
  if negb spending then Ok tt else
  let defiCount :=
    length (filter (λ ix, ix_programAddress ix ∈ RECOGNIZED_DEFI_PROGRAMS) defiInstructions) in
  _ ← throw_if (stable_input && bool_decide (1 < defiCount)%nat) (sdk "INSTRUCTION_COUNT");
  throw_if (negb stable_input && negb (bool_decide (defiCount = 1%nat))) (sdk "INSTRUCTION_COUNT").

Definition ceilFee (amount rate : Z) : Z := Z.quot (amount * rate + FEE_DENOM - 1) FEE_DENOM.

Definition totalWithFees (state : ResolvedVaultState) : Z :=
  sp_amount params + ceilFee (sp_amount params) PROTOCOL_FEE_RATE +
  ceilFee (sp_amount params) (pol_developerFeeRate (rs_policy state)).

(** Step 6c. *)
Definition check_headroom (state : ResolvedVaultState) : result js_exn unit :=
  if spending && (0 <? sp_amount params)
  then throw_if (remaining (rs_globalBudget state) <? totalWithFees state) (sdk "CAP_EXCEEDED")
  else Ok tt.

(** Step 6d; an empty account is falsy. *)
Definition check_output_ata : result js_exn unit :=
  match sp_outputStablecoinAccount params with
  | Some acc =>
      throw_if (negb (bool_decide (acc = "")) && spending && negb stable_input &&
                negb (bool_decide (acc = w_deriveAta w (sp_vault params) usdc_mint)))
        (sdk "ATA_NON_CANONICAL")
  | None => Ok tt
  end.

(** Everything up to step 6: the checks, with the state, the agent's entry and
    the target protocol they found. *)
Definition preflight_seal : result js_exn (ResolvedVaultState * string) :=
  _ ← validateNetwork net;
  _ ← throw_if (w_hookSkips w) (sdk "HOOK_ABORTED");
  state ← resolve_state;
  entry ← find_agent state;
  _ ← runPlugins (w_plugins w) (plugin_state state entry);
  _ ← throw_if (sp_amount params <? 0) (sdk "INVALID_AMOUNT");
  _ ← throw_if (U64_MAX <? sp_amount params) (sdk "INVALID_AMOUNT");
  _ ← throw_if (existsb spl_blocked defiInstructions) (sdk "SPL_TOKEN_OP_BLOCKED");
  target ← target_protocol;
  _ ← throw_if (ae_capability entry =? 0) (sdk "AGENT_ZERO_CAPABILITY");
  _ ← throw_if (negb (isProtocolAllowed target (rs_policy state))) (sdk "PROTOCOL_NOT_ALLOWED");
  _ ← check_count;
  _ ← check_headroom state;
  _ ← check_output_ata;
  Ok (state, target).

(** ** Step 7: token accounts *)

Definition vaultTokenAccount : string := w_deriveAta w (sp_vault params) (sp_tokenMint params).
Definition needsOutputStablecoin : bool := spending && negb stable_input.

(** [params.outputStablecoinAccount ?? outputStablecoinDerived] *)
Definition outputStablecoinAccount : option string :=
  match sp_outputStablecoinAccount params with
  | Some acc => Some acc
  | None => if needsOutputStablecoin then Some (w_deriveAta w (sp_vault params) usdc_mint) else None
  end.

Definition protocolTreasuryTokenAccount : option string :=
  if spending then Some (w_deriveAta w PROTOCOL_TREASURY (sp_tokenMint params)) else None.
Definition feeDestinationTokenAccount (state : ResolvedVaultState) : option string :=
  if spending && (0 <? pol_developerFeeRate (rs_policy state))
  then Some (w_deriveAta w (av_feeDestination (rs_vault state)) (sp_tokenMint params)) else None.

Definition agentTokenAta : string := w_deriveAta w (sp_agent params) (sp_tokenMint params).
Definition agentStablecoinAta : option string :=
  if needsOutputStablecoin then Some (w_deriveAta w (sp_agent params) usdc_mint) else None.

Definition needsOutputSwap : bool :=
  spending && stable_input && negb (bool_decide (length defiInstructions = 0%nat)).

(** The vault's and the agent's account of the acquired mint. *)
Definition swap_accounts : result js_exn (option (string * string)) :=
  if negb needsOutputSwap then Ok None else
  match sp_outputSwapMint params with
  | None => Throw INVALID_PARAMS
  | Some m =>
      _ ← throw_if (bool_decide (m = "")) INVALID_PARAMS;
      _ ← throw_if (bool_decide (m = sp_tokenMint params)) INVALID_PARAMS;
      Ok (Some (w_deriveAta w (sp_vault params) m, w_deriveAta w (sp_agent params) m))
  end.

Definition mentions (a : string) (ixs : list Ix) : bool :=
  existsb (λ ix, existsb (λ acc, bool_decide (acc_address acc = a)) (accounts_of ix)) ixs.

(** The canonical replacements, then the caller's; a caller's key that is
    already mapped is an error. *)
Definition canonical_replacements (swap : option (string * string)) : gmap string string :=
  let m := <[agentTokenAta := vaultTokenAccount]> ∅ in
  let m := match agentStablecoinAta, outputStablecoinAccount with
           | Some a, Some v => if bool_decide (v = "") then m else <[a := v]> m
           | _, _ => m
           end in
  match swap with
  | Some (v, a) => if mentions a defiInstructions then <[a := v]> m else m
  | None => m
  end.

Fixpoint add_replacements (extra : list (string * string)) (m : gmap string string)
    : result js_exn (gmap string string) :=
  match extra with
  | [] => Ok m
  | (a, v) :: extra =>
      match m !! a with
      | Some _ => Throw INVALID_PARAMS
      | None => add_replacements extra (<[a := v]> m)
      end
  end.
End Seal.

(** A replacement that is set and not empty, for a writable account. *)
Definition replace_account (m : gmap string string) (acc : AccountMeta) : AccountMeta :=
  match m !! acc_address acc with
  | Some r => if negb (bool_decide (r = "")) && is_writable (acc_role acc)
              then {| acc_address := r; acc_role := acc_role acc |} else acc
  | None => acc
  end.

Definition replaceAgentAtas (ixs : list Ix) (m : gmap string string) : list Ix :=
  if bool_decide (size m = 0%nat) then ixs else
  map (λ ix, {| ix_programAddress := ix_programAddress ix;
                ix_accounts := map (replace_account m) <$> ix_accounts ix;
                ix_data := ix_data ix |}) ixs.

(** ** The accounts the guards must see *)

Abbreviation readonly_meta a := {| acc_address := a; acc_role := role_readonly |}.

(** [set.add] and [push] of the loop over the writable accounts: the addresses
    in order of first appearance; the fee payer counts as writable. *)
Definition note_writable (feePayer : string) (seen : list string) (acc : AccountMeta) : list string :=
  if (is_writable (acc_role acc) || bool_decide (acc_address acc = feePayer)) &&
     negb (bool_decide (acc_address acc ∈ seen))
  then seen ++ [acc_address acc] else seen.

Definition writable_addresses (feePayer : string) (ixs : list Ix) : list string :=
  foldl (λ seen ix, foldl (note_writable feePayer) seen (accounts_of ix)) [] ixs.

(** One turn of the loop of [resolveT22OutputMintMetas]. *)
Definition t22_step (toAddress : list Z → string) (vault : string) (alreadySeen : list string)
    (mints : list string) (acc : FetchedAccount) : list string :=
  if negb (fa_exists acc) then mints else
  if negb (bool_decide (fa_programAddress acc = TOKEN_2022_PROGRAM_ADDRESS)) then mints else
  if bool_decide (length (fa_data acc) < 72)%nat then mints else
  if negb (bool_decide (toAddress (take 32 (drop 32 (fa_data acc))) = vault)) then mints else
  let mint := toAddress (take 32 (fa_data acc)) in
  if bool_decide (mint ∈ alreadySeen) || bool_decide (mint ∈ mints) then mints else mints ++ [mint].

Definition resolveT22OutputMints (toAddress : list Z → string) (fetched : list FetchedAccount)
    (vault : string) (alreadySeen : list string) : list string :=
  foldl (t22_step toAddress vault alreadySeen) [] fetched.

Definition resolveStablecoinFloor (fetched : list FetchedAccount) (candidates : list string)
    : list string :=
  omap (λ '(i, c), match fetched !! i with
                   | Some acc => if fa_exists acc then Some c else None
                   | None => None
                   end) (imap pair candidates).

Section Compose.
Context (w : World) (params : SealParams).

Definition touches_token_2022 (ixs : list Ix) : bool :=
  existsb (λ ix, bool_decide (ix_programAddress ix = TOKEN_2022_PROGRAM_ADDRESS) ||
                 existsb (λ acc, bool_decide (acc_address acc = TOKEN_2022_PROGRAM_ADDRESS))
                   (accounts_of ix)) ixs.

Definition t22_mints (ixs : list Ix) (writable : list string) : result js_exn (list string) :=
  if touches_token_2022 ixs && negb (bool_decide (length writable = 0%nat))
  then match w_fetch w writable with
       | None => Throw (sdk "SEAL_FAILED")
       | Some fetched => Ok (resolveT22OutputMints (w_bytesToAddress w) fetched (sp_vault params) writable)
       end
  else Ok [].

(** The program-data account of an armed build hash. *)
Definition verified_build (state : ResolvedVaultState) (target : string) : list string :=
  match list_find (λ p, p = target) (pol_protocols (rs_policy state)) with
  | None => []
  | Some (idx, _) =>
      match pol_protocolHashes (rs_policy state) !! idx with
      | None => []
      | Some h => if existsb (λ b, negb (b =? 0)) h then [w_getProgramDataAddress w target] else []
      end
  end.

Definition deriveStablecoinFloorCandidates (alreadyPresent : list string) : list string :=
  filter (λ a, a ∉ alreadyPresent)
    [w_deriveAta w (sp_vault params) (usdc_mint params);
     w_deriveAta w (sp_vault params) (usdt_mint params)].

(** The vault's stablecoin accounts for the balance floor; a failed fetch adds
    none. *)
Definition floor_accounts (state : ResolvedVaultState) (writable : list string) : list string :=
  if 0 <? pol_stableBalanceFloor (rs_policy state) then
    let alreadyPresent :=
      vaultTokenAccount w params ::
      match outputStablecoinAccount w params with
      | Some a => if bool_decide (a = "") then [] else [a]
      | None => []
      end ++ writable in
    let candidates := deriveStablecoinFloorCandidates alreadyPresent in
    if bool_decide (length candidates = 0%nat) then [] else
    match w_fetch w candidates with
    | None => []
    | Some fetched => resolveStablecoinFloor fetched candidates
    end
  else [].

(** [{ ...base, accounts: [...(base.accounts ?? []), ...extra] }] *)
Definition with_accounts (base : Ix) (extra : list string) : Ix := {|
  ix_programAddress := ix_programAddress base;
  ix_accounts := Some (accounts_of base ++ map (λ a, readonly_meta a) extra);
  ix_data := ix_data base |}.

Definition alt_check : result js_exn unit :=
  if sp_hasLookupTables params then Ok tt else
  _ ← throw_if (negb (bool_decide (net params = "devnet")))
        (JsError "Mainnet Sigil ALT not yet deployed");
  w_altVerified w.

(** Balance for drain detection: 0 for a missing account, and the sentinel 1
    when the account could not be read. *)
Definition token_balance (state : ResolvedVaultState) : Z :=
  if bool_decide (sp_tokenMint params = usdc_mint params) then rs_usdc state
  else if bool_decide (sp_tokenMint params = usdt_mint params) then rs_usdt state
  else match w_accountData w (vaultTokenAccount w params) with
       | None => DRAIN_DETECTION_MIN_BALANCE
       | Some None | Some (Some []) => 0
       | Some (Some data) => default DRAIN_DETECTION_MIN_BALANCE (parseTokenBalance data)
       end.

Record VaultContext : Type := {
  vc_vaultAddress : string;
  vc_vaultTokenAta : string;
  vc_tokenBalance : Z;
  vc_knownRecipients : list string;
}.

Record SealResult : Type := {
  sr_instructions : list Ix;
  sr_txSizeBytes : Q;
  sr_vaultContext : VaultContext;
  sr_intentDigest : list Z;
  sr_network : string;
  sr_isMainnet : bool;
}.

Definition opt_list (o : option string) : list string :=
  match o with Some a => [a] | None => [] end.

Definition scalar_intent (target : string) : ScalarIntentInput := {|
  sc_vault := sp_vault params; sc_agent := sp_agent params; sc_tokenMint := sp_tokenMint params;
  sc_amount := sp_amount params; sc_targetProtocol := Some target; sc_network := sp_network params |}.

Definition seal_intent : SealIntentInput := {|
  si_vault := sp_vault params; si_agent := sp_agent params; si_tokenMint := sp_tokenMint params;
  si_amount := sp_amount params; si_targetProtocol := sp_targetProtocol params;
  si_network := sp_network params; si_instructions := defiInstructions params |}.

Definition seal : result js_exn SealResult :=
  '(state, target) ← preflight_seal w params;
  swap ← swap_accounts w params;
  m ← add_replacements (sp_additionalAtaReplacements params) (canonical_replacements w params swap);
  let rewritten := replaceAgentAtas (defiInstructions params) m in
  let writable := writable_addresses (sp_agent params) rewritten in
  mints ← t22_mints rewritten writable;
  scalar ← computeScalarIntentDigest (w_sha256 w) (scalar_intent target);
  let validateIx :=
    with_accounts (w_validateIx w params {|
      va_vaultTokenAccount := vaultTokenAccount w params;
      va_outputStablecoinAccount := outputStablecoinAccount w params;
      va_outputSwapAccount := fst <$> swap;
      va_targetProtocol := target;
      va_expectedPolicyVersion := pol_policyVersion (rs_policy state);
      va_expectedIntentDigest := scalar |})
    (writable ++ mints ++ verified_build state target) in
  let finalizeIx :=
    with_accounts (w_finalizeIx w params {|
      fz_vaultTokenAccount := vaultTokenAccount w params;
      fz_outputStablecoinAccount := outputStablecoinAccount w params;
      fz_outputSwapAccount := fst <$> swap;
      fz_protocolTreasuryTokenAccount := protocolTreasuryTokenAccount w params;
      fz_feeDestinationTokenAccount := feeDestinationTokenAccount w params state |})
    (writable ++ floor_accounts state writable) in
  _ ← w_blockhash w;
  _ ← alt_check;
  let ixs := composeSigilTransaction (w_cuLimitIx w) (w_cuPriceIx w) (sp_computeUnits params)
               (sp_priorityFeeMicroLamports params) validateIx rewritten finalizeIx in
  let '(byteLength, withinLimit) := measureTransactionSize (w_wire w ixs) in
  _ ← throw_if (negb withinLimit) (SdkDomainError "SIGIL_ERROR__RPC__TX_TOO_LARGE");
  digest ← computeSealInputDigest (w_sha256 w) seal_intent;
  chain ← toCaip2 (sp_network params);
  Ok {| sr_instructions := ixs; sr_txSizeBytes := byteLength;
        sr_vaultContext := {|
          vc_vaultAddress := sp_vault params; vc_vaultTokenAta := vaultTokenAccount w params;
          vc_tokenBalance := token_balance state;
          vc_knownRecipients :=
            vaultTokenAccount w params :: opt_list (protocolTreasuryTokenAccount w params) ++
            opt_list (feeDestinationTokenAccount w params state) |};
        sr_intentDigest := digest; sr_network := chain; sr_isMainnet := isMainnetCaip2 chain |}.
End Compose.

(** ** What a sealed bundle has passed *)

(** The checks of the steps 1 to 6, as one record. *)
(** Which protocol a bundle is for: the declared one, or else that of its first
    instruction. *)
Definition targets (params : SealParams) (target : string) : Prop :=
  target ≠ "" ∧
  match sp_targetProtocol params with
  | Some t => target = t
  | None => ∃ ix rest, defiInstructions params = ix :: rest ∧ target = ix_programAddress ix
  end.

Lemma target_protocol_Ok params target : target_protocol params = Ok target → targets params target.
Proof.
  unfold target_protocol, targets. destruct (sp_targetProtocol params) as [t|].
  - case_bool_decide; [done|]. by intros [= <-].
  - destruct (defiInstructions params) as [|ix rest]; [done|]. cbn [head fmap option_fmap option_map].
    case_bool_decide; [done|]. intros [= <-]. split; [done|by exists ix, rest].
Qed.

(** No approval, transfer, change of authority, burn or closing of the token
    program or of its successor, nor a transfer with a fee of the latter. *)
Definition moves_no_tokens (ix : Ix) : Prop :=
  ∀ op rest, ix_programAddress ix = TOKEN_PROGRAM_ADDRESS ∨ ix_programAddress ix = TOKEN_2022_PROGRAM_ADDRESS →
    ix_data ix = Some (op :: rest) →
    op ∉ [3; 4; 6; 8; 9; 12; 13; 15] ∧ (ix_programAddress ix = TOKEN_2022_PROGRAM_ADDRESS → op ≠ 26).

Lemma spl_blocked_false ix : spl_blocked ix = false → moves_no_tokens ix.
Proof.
  unfold spl_blocked. intros H op rest Hp Hd. rewrite Hd in H.
  assert (bool_decide (ix_programAddress ix = TOKEN_PROGRAM_ADDRESS) ||
          bool_decide (ix_programAddress ix = TOKEN_2022_PROGRAM_ADDRESS) = true) as Ht.
  { apply orb_true_iff. rewrite !bool_decide_eq_true. done. }
  rewrite Ht in H. cbn [andb] in H. repeat (apply orb_false_iff in H as [H ?]). rewrite !Z.eqb_neq in *.
  split; [set_solver|]. intros H22 ->.
  match goal with Hx : bool_decide _ && _ = false |- _ => by rewrite bool_decide_true in Hx end.
Qed.

Record seal_checked (w : World) (params : SealParams) (state : ResolvedVaultState) (target : string)
    : Prop := {
  sc_not_skipped : w_hookSkips w = false;
  sc_state : resolve_state w params = Ok state;
  sc_active : av_status (rs_vault state) = Active;
  sc_agent_entry : ∃ entry, entry ∈ av_agents (rs_vault state) ∧ ae_pubkey entry = sp_agent params ∧
    ae_paused entry = false ∧ ae_capability entry ≠ 0 ∧
    Forall (λ plugin, plugin params (plugin_state state entry) = PluginAllow) (w_plugins w);
  sc_amount_range : 0 ≤ sp_amount params ≤ U64_MAX;
  sc_no_token_ops : Forall (λ ix, spl_blocked ix = false) (defiInstructions params);
  sc_target : targets params target;
  sc_protocol : isProtocolAllowed target (rs_policy state) = true;
  sc_count : 0 < sp_amount params →
    let n := length (filter (λ ix, ix_programAddress ix ∈ RECOGNIZED_DEFI_PROGRAMS)
                       (defiInstructions params)) in
    if stable_input params then (n ≤ 1)%nat else n = 1%nat;
  sc_headroom : 0 < sp_amount params →
    totalWithFees params state ≤ remaining (rs_globalBudget state);
}.

Lemma runPlugins_Ok params plugins ctx u :
  runPlugins params plugins ctx = Ok u → Forall (λ p, p params ctx = PluginAllow) plugins.
Proof.
  induction plugins as [|p plugins IH]; simpl; [done|]. destruct (p params ctx) eqn:Hp; try done.
  intros H. constructor; [done|by apply IH].
Qed.

Lemma find_agent_Ok params state entry :
  find_agent params state = Ok entry →
  av_status (rs_vault state) = Active ∧ entry ∈ av_agents (rs_vault state) ∧
  ae_pubkey entry = sp_agent params ∧ ae_paused entry = false.
Proof.
  unfold find_agent. destruct (av_status (rs_vault state)); [|done..]. simpl.
  destruct (list_find _ _) as [[i e]|] eqn:Hf; [|done]. destruct (ae_paused e) eqn:Hp; [done|].
  intros [= <-]. apply list_find_Some in Hf as (Hi & Hk & _). split_and!; try done.
  by eapply list_elem_of_lookup_2.
Qed.

Lemma check_count_Ok params u :
  check_count params = Ok u → 0 < sp_amount params →
  let n := length (filter (λ ix, ix_programAddress ix ∈ RECOGNIZED_DEFI_PROGRAMS)
                     (defiInstructions params)) in
  if stable_input params then (n ≤ 1)%nat else n = 1%nat.
Proof.
  unfold check_count, spending. intros H Ha. rewrite (proj2 (Z.ltb_lt _ _)) in H by done. simpl in H.
  set (n := length _) in *. apply bind_Ok_inv in H as (? & H1%throw_if_Ok & H2%throw_if_Ok).
  cbn zeta. destruct (stable_input params); simpl in H1, H2.
  - apply bool_decide_eq_false in H1. lia.
  - apply negb_false_iff in H2. by apply bool_decide_eq_true in H2.
Qed.

Lemma preflight_seal_Ok w params state target :
  preflight_seal w params = Ok (state, target) → seal_checked w params state target.
Proof.
  unfold preflight_seal. intros H.
  apply bind_Ok_inv in H as (? & _ & H). apply bind_Ok_inv in H as (? & Hh%throw_if_Ok & H).
  apply bind_Ok_inv in H as (st & Hst & H). apply bind_Ok_inv in H as (entry & He & H).
  apply bind_Ok_inv in H as (? & Hpl & H).
  apply bind_Ok_inv in H as (? & Ha1%throw_if_Ok & H).
  apply bind_Ok_inv in H as (? & Ha2%throw_if_Ok & H).
  apply bind_Ok_inv in H as (? & Hspl%throw_if_Ok & H).
  apply bind_Ok_inv in H as (tg & Htg%target_protocol_Ok & H).
  apply bind_Ok_inv in H as (? & Hcap%throw_if_Ok & H).
  apply bind_Ok_inv in H as (? & Hpr%throw_if_Ok & H).
  apply bind_Ok_inv in H as (? & Hcount & H). apply bind_Ok_inv in H as (? & Hroom & H).
  apply bind_Ok_inv in H as (? & _ & H). injection H as <- <-.
  apply find_agent_Ok in He as (Hact & Hin & Hkey & Hpause).
  apply runPlugins_Ok in Hpl. split; try done.
  - exists entry. split_and!; try done. by apply Z.eqb_neq.
  - lia.
  - apply Forall_forall. intros ix Hix%list_elem_of_In.
    destruct (spl_blocked ix) eqn:Hb; [|done].
    assert (existsb spl_blocked (defiInstructions params) = true) as Hx
      by (apply existsb_exists; by exists ix). congruence.
  - by apply negb_false_iff in Hpr.
  - by eapply check_count_Ok.
  - intros Hpos. unfold check_headroom, spending in Hroom.
    rewrite (proj2 (Z.ltb_lt _ _)) in Hroom by done. simpl in Hroom.
    apply throw_if_Ok in Hroom. lia.
Qed.

(** ** The pieces of a sealed transaction *)

(** What the generated builders of the two wrapper instructions were given. *)
Definition wrapper_args (w : World) (params : SealParams) (target : string) (V F : Ix) : Prop :=
  ∃ va fz, V = w_validateIx w params va ∧ F = w_finalizeIx w params fz ∧
    va_targetProtocol va = target ∧
    va_vaultTokenAccount va = vaultTokenAccount w params ∧
    fz_vaultTokenAccount fz = vaultTokenAccount w params ∧
    va_outputSwapAccount va = fz_outputSwapAccount fz ∧
    va_outputStablecoinAccount va = fz_outputStablecoinAccount fz ∧
    computeScalarIntentDigest (w_sha256 w) (scalar_intent params target) =
      Ok (va_expectedIntentDigest va).

(** The parts [seal] puts together when it succeeds. *)
Record seal_parts (w : World) (params : SealParams) (r : SealResult) : Type := {
  pt_state : ResolvedVaultState;
  pt_target : string;
  pt_swap : option (string * string);
  pt_map : gmap string string;
  pt_mints : list string;
  pt_validate : Ix;
  pt_finalize : Ix;
  pt_defi := replaceAgentAtas (defiInstructions params) pt_map;
  pt_writable := writable_addresses (sp_agent params) pt_defi;
  pt_checked : seal_checked w params pt_state pt_target;
  pt_swap_ok : swap_accounts w params = Ok pt_swap;
  pt_map_ok : add_replacements (sp_additionalAtaReplacements params)
                (canonical_replacements w params pt_swap) = Ok pt_map;
  pt_output_ok : check_output_ata w params = Ok tt;
  pt_instructions : sr_instructions r =
    composeSigilTransaction (w_cuLimitIx w) (w_cuPriceIx w) (sp_computeUnits params)
      (sp_priorityFeeMicroLamports params)
      (with_accounts pt_validate (pt_writable ++ pt_mints ++ verified_build w pt_state pt_target))
      pt_defi
      (with_accounts pt_finalize (pt_writable ++ floor_accounts w params pt_state pt_writable));
  pt_size : snd (measureTransactionSize (w_wire w (sr_instructions r))) = true;
  pt_wrappers : wrapper_args w params pt_target pt_validate pt_finalize;
  pt_digest : computeSealInputDigest (w_sha256 w) (seal_intent params) = Ok (sr_intentDigest r);
}.

Lemma preflight_output_Ok w params x : preflight_seal w params = Ok x → check_output_ata w params = Ok tt.
Proof.
  unfold preflight_seal. intros H. do 13 (apply bind_Ok_inv in H as (? & _ & H)).
  apply bind_Ok_inv in H as ([] & Ho & _). done.
Qed.

Lemma seal_Ok w params r : seal w params = Ok r → inhabited (seal_parts w params r).
Proof.
  unfold seal. intros H.
  apply bind_Ok_inv in H as ([state target] & Hpre & H).
  apply bind_Ok_inv in H as (swap & Hswap & H). apply bind_Ok_inv in H as (m & Hm & H).
  apply bind_Ok_inv in H as (mints & _ & H). apply bind_Ok_inv in H as (scalar & Hsc & H).
  do 2 (apply bind_Ok_inv in H as (? & _ & H)). apply bind_Ok_inv in H as (? & Hsize%throw_if_Ok & H).
  apply bind_Ok_inv in H as (digest & Hd & H). apply bind_Ok_inv in H as (chain & _ & H).
  injection H as <-. constructor.
  unshelve refine {| pt_state := state; pt_target := target; pt_swap := swap; pt_map := m;
    pt_mints := mints; pt_validate := w_validateIx w params _; pt_finalize := w_finalizeIx w params _ |};
    [..|reflexivity| | |]; try done.
  - by apply preflight_seal_Ok.
  - by eapply preflight_output_Ok.
  - by apply negb_false_iff in Hsize.
  - eexists _, _. split_and!; [reflexivity..|exact Hsc].
Qed.

Lemma seal_context_vault w params r :
  seal w params = Ok r → vc_vaultAddress (sr_vaultContext r) = sp_vault params.
Proof.
  unfold seal. intros H. apply bind_Ok_inv in H as ([state target] & _ & H).
  do 6 (apply bind_Ok_inv in H as (? & _ & H)). destruct (measureTransactionSize _) as [len ok].
  do 3 (apply bind_Ok_inv in H as (? & _ & H)). by injection H as <-.
Qed.

Lemma validate_composed cuLimitIx cuPriceIx units price V D F :
  V ∈ composeSigilTransaction cuLimitIx cuPriceIx units price V D F.
Proof. unfold composeSigilTransaction. set_solver. Qed.

Lemma ceilFee_bounds amount rate :
  0 ≤ amount → 0 ≤ rate →
  amount * rate ≤ ceilFee amount rate * FEE_DENOM < amount * rate + FEE_DENOM.
Proof.
  intros Ha Hr. unfold ceilFee, FEE_DENOM.
  assert (0 ≤ amount * rate) by (by apply Z.mul_nonneg_nonneg).
  rewrite Z.quot_div_nonneg by lia.
  pose proof (Z.div_mod (amount * rate + 1000000 - 1) 1000000).
  pose proof (Z.mod_pos_bound (amount * rate + 1000000 - 1) 1000000). lia.
Qed.

(** C5: A sealed bundle passed every check: no hook or plugin objected, the vault
    is active, the agent is registered, not paused and has a capability, the
    amount is a u64, no instruction of the bundle is a top-level approval,
    transfer, change of authority, burn or closing of a token program, the
    policy allows the bundle's protocol -- the declared one, or else that of its
    first instruction -- and the authorisation in the transaction is for exactly
    that protocol, the number of recognised DeFi instructions is right, the
    transaction fits its size limit and -- whatever the mint -- the amount with
    both fees rounded up fits the remaining cap. *)
Theorem sealed_bundle_passed_every_check w params r :
  seal w params = Ok r →
  ∃ state target, seal_checked w params state target ∧
    Forall moves_no_tokens (defiInstructions params) ∧
    (∃ va accounts, va_targetProtocol va = target ∧
       with_accounts (w_validateIx w params va) accounts ∈ sr_instructions r) ∧
    snd (measureTransactionSize (w_wire w (sr_instructions r))) = true ∧
    (0 < sp_amount params → 0 ≤ pol_developerFeeRate (rs_policy state) →
       sp_amount params * (1000000 + 200 + pol_developerFeeRate (rs_policy state)) ≤
       remaining (rs_globalBudget state) * 1000000).
Proof.
  intros [p]%seal_Ok. exists (pt_state _ _ _ p), (pt_target _ _ _ p).
  pose proof (pt_checked _ _ _ p) as Hc. split_and!; [done| | |apply (pt_size _ _ _ p)|].
  { eapply Forall_impl; [apply (sc_no_token_ops _ _ _ _ Hc)|exact spl_blocked_false]. }
  { destruct (pt_wrappers _ _ _ p) as (va & fz & HV & _ & Ht & _). exists va. eexists. split; [exact Ht|].
    rewrite (pt_instructions _ _ _ p), <- HV. apply validate_composed. }
  intros Hpos Hrate. pose proof (sc_headroom _ _ _ _ Hc Hpos) as Hroom. unfold totalWithFees in Hroom.
  pose proof (ceilFee_bounds (sp_amount params) PROTOCOL_FEE_RATE) as H1.
  pose proof (ceilFee_bounds (sp_amount params)
    (pol_developerFeeRate (rs_policy (pt_state _ _ _ p)))) as H2.
  unfold FEE_DENOM, PROTOCOL_FEE_RATE in *. lia.
Qed.

(** ** Rewriting *)

Lemma replaceAgentAtas_eq ixs m :
  replaceAgentAtas ixs m =
  map (λ ix, {| ix_programAddress := ix_programAddress ix;
                ix_accounts := map (replace_account m) <$> ix_accounts ix;
                ix_data := ix_data ix |}) ixs.
Proof.
  unfold replaceAgentAtas. case_bool_decide as Hs; [|done].
  apply map_size_empty_inv in Hs as ->. rewrite <- (map_id ixs) at 1. apply map_ext. intros [p a d].
  f_equal. destruct a as [a|]; [|done]. simpl. f_equal. rewrite <- (map_id a) at 1.
  apply map_ext. intros acc. unfold replace_account. by rewrite lookup_empty.
Qed.

Lemma accounts_rewritten ixs m ix acc :
  ix ∈ replaceAgentAtas ixs m → acc ∈ accounts_of ix →
  ∃ ix0 acc0, ix0 ∈ ixs ∧ acc0 ∈ accounts_of ix0 ∧ acc = replace_account m acc0.
Proof.
  rewrite replaceAgentAtas_eq. intros (ix0 & -> & Hix)%list_elem_of_fmap Hacc.
  unfold accounts_of in *. simpl in Hacc. destruct (ix_accounts ix0) as [as0|] eqn:Ha; simpl in Hacc;
    [|by apply elem_of_nil in Hacc].
  apply list_elem_of_fmap in Hacc as (acc0 & -> & H0).
  exists ix0, acc0. rewrite Ha. done.
Qed.

(** The values of the replacement map are the vault's accounts or the caller's. *)
Lemma add_replacements_lookup extra m m' a v :
  add_replacements extra m = Ok m' → m' !! a = Some v → m !! a = Some v ∨ (a, v) ∈ extra.
Proof.
  revert m; induction extra as [|[k x] extra IH]; intros m H Hl; simpl in H.
  { injection H as <-. by left. }
  destruct (m !! k) eqn:Hk; [done|]. destruct (IH _ H Hl) as [Hm|Hm].
  - destruct (decide (k = a)) as [->|].
    + rewrite lookup_insert_eq in Hm. injection Hm as ->. right. by left.
    + rewrite lookup_insert_ne in Hm by done. by left.
  - right. by right.
Qed.

Lemma add_replacements_keeps extra m m' a :
  add_replacements extra m = Ok m' → is_Some (m !! a) → m' !! a = m !! a.
Proof.
  revert m; induction extra as [|[k x] extra IH]; intros m H Hl; simpl in H.
  { by injection H as <-. }
  destruct (m !! k) eqn:Hk; [done|].
  assert (k ≠ a) as Hne by (intros ->; rewrite Hk in Hl; by destruct Hl).
  rewrite (IH _ H); rewrite lookup_insert_ne by done; done.
Qed.

(** ** The sandwich *)

Abbreviation programs ixs := (map ix_programAddress ixs).

Lemma rewritten_programs ixs m : programs (replaceAgentAtas ixs m) = programs ixs.
Proof. rewrite replaceAgentAtas_eq, map_map. done. Qed.

Lemma rewritten_data ixs m : map ix_data (replaceAgentAtas ixs m) = map ix_data ixs.
Proof. rewrite replaceAgentAtas_eq, map_map. done. Qed.

Lemma replace_account_role m acc : acc_role (replace_account m acc) = acc_role acc.
Proof. unfold replace_account. destruct (m !! _); [|done]. by destruct (_ && _). Qed.

Lemma rewritten_roles ixs m :
  map (λ ix, map acc_role (accounts_of ix)) (replaceAgentAtas ixs m) =
  map (λ ix, map acc_role (accounts_of ix)) ixs.
Proof.
  rewrite replaceAgentAtas_eq, map_map. apply map_ext. intros [p [accs|] d]; [|done].
  unfold accounts_of. simpl. rewrite map_map. apply map_ext. intros acc. apply replace_account_role.
Qed.

Lemma estimate_rewritten ixs m : estimateComposedCU (replaceAgentAtas ixs m) = estimateComposedCU ixs.
Proof.
  unfold estimateComposedCU. rewrite rewritten_programs.
  assert (length (replaceAgentAtas ixs m) = length ixs) as ->
    by (rewrite replaceAgentAtas_eq; apply length_map).
  done.
Qed.

(** The compute-budget instructions at the front of a sealed transaction. *)
Definition budget_prefix (w : World) (params : SealParams) : list Ix :=
  [w_cuLimitIx w (default (estimateComposedCU (defiInstructions params)) (sp_computeUnits params))] ++
  match sp_priorityFeeMicroLamports params with
  | Some fee => if 0 <? fee then [w_cuPriceIx w fee] else []
  | None => []
  end.

(** How a sealed transaction splits into its four parts. *)
Record sandwich (w : World) (params : SealParams) (r : SealResult) (V : Ix) (D : list Ix) (F : Ix)
    : Prop := {
  sw_order : sr_instructions r = budget_prefix w params ++ [V] ++ D ++ [F];
  sw_wrappers : ∃ target V0 F0 xs ys, V = with_accounts V0 xs ∧ F = with_accounts F0 ys ∧
    wrapper_args w params target V0 F0;
  sw_programs : programs D = programs (defiInstructions params);
  sw_data : map ix_data D = map ix_data (defiInstructions params);
  sw_roles : map (λ ix, map acc_role (accounts_of ix)) D =
             map (λ ix, map acc_role (accounts_of ix)) (defiInstructions params);
}.

Lemma parts_sandwich w params r (p : seal_parts w params r) :
  sandwich w params r
    (with_accounts (pt_validate _ _ _ p)
       (pt_writable _ _ _ p ++ pt_mints _ _ _ p ++
        verified_build w (pt_state _ _ _ p) (pt_target _ _ _ p)))
    (pt_defi _ _ _ p)
    (with_accounts (pt_finalize _ _ _ p)
       (pt_writable _ _ _ p ++ floor_accounts w params (pt_state _ _ _ p) (pt_writable _ _ _ p))).
Proof.
  split.
  - rewrite (pt_instructions _ _ _ p). unfold composeSigilTransaction, budget_prefix, pt_defi.
    rewrite estimate_rewritten, <- app_assoc. done.
  - eexists _, _, _, _, _. split_and!; [reflexivity..|apply (pt_wrappers _ _ _ p)].
  - apply rewritten_programs.
  - apply rewritten_data.
  - apply rewritten_roles.
Qed.

(** A sealed transaction is the sandwich and nothing else: the compute-budget
    instructions, [validate_and_authorize], the bundle, [finalize_session].
    The bundle is the caller's without its compute-budget and system
    instructions, in order, each with its program, its data and the roles of
    its accounts unchanged, and the wrapper instruction carries the scalar
    digest of this intent. *)
Theorem sealed_transaction_is_a_sandwich w params r :
  seal w params = Ok r → ∃ V D F, sandwich w params r V D F.
Proof. intros [p]%seal_Ok. eexists _, _, _. apply (parts_sandwich w params r p). Qed.

(** ** Writable accounts *)

Lemma note_writable_mono f seen acc : seen ⊆ note_writable f seen acc.
Proof. unfold note_writable. case_match; set_solver. Qed.

Lemma note_all_mono f accs seen : seen ⊆ foldl (note_writable f) seen accs.
Proof.
  revert seen; induction accs as [|acc accs IH]; intros seen; simpl; [done|].
  etrans; [apply note_writable_mono|apply IH].
Qed.

Lemma note_all_elem f accs seen acc :
  acc ∈ accs → is_writable (acc_role acc) = true ∨ acc_address acc = f →
  acc_address acc ∈ foldl (note_writable f) seen accs.
Proof.
  revert seen; induction accs as [|b accs IH]; intros seen Hin Hw; [by apply elem_of_nil in Hin|].
  simpl. apply elem_of_cons in Hin as [<-|Hin]; [|by apply IH]. apply note_all_mono.
  unfold note_writable.
  assert (is_writable (acc_role acc) || bool_decide (acc_address acc = f) = true) as ->.
  { apply orb_true_iff. destruct Hw; [by left|right]. by apply bool_decide_eq_true. }
  case_bool_decide; simpl; [done|]. set_solver.
Qed.

(** The collector misses no account that an instruction can write. *)
Lemma writable_addresses_elem f ixs ix acc :
  ix ∈ ixs → acc ∈ accounts_of ix → is_writable (acc_role acc) = true ∨ acc_address acc = f →
  acc_address acc ∈ writable_addresses f ixs.
Proof.
  unfold writable_addresses. generalize (@nil string) as seen. intros seen Hix Hacc Hw. revert seen.
  induction ixs as [|b ixs IH]; intros seen; [by apply elem_of_nil in Hix|]. simpl.
  apply elem_of_cons in Hix as [<-|Hix]; [|by apply IH].
  assert (acc_address acc ∈ foldl (note_writable f) seen (accounts_of ix)) as H
    by (by apply note_all_elem).
  revert H. generalize (foldl (note_writable f) seen (accounts_of ix)) as s. clear.
  induction ixs as [|b ixs IH]; intros s Hs; simpl; [done|]. apply IH. by apply note_all_mono.
Qed.

Lemma with_accounts_elem base extra a :
  a ∈ extra → readonly_meta a ∈ accounts_of (with_accounts base extra).
Proof.
  intros Ha. unfold accounts_of at 1. simpl. apply elem_of_app. right.
  apply list_elem_of_fmap. by exists a.
Qed.

(** Both wrapper instructions of a sealed transaction list, as read-only
    accounts, every account that an instruction between them can write, and
    the fee payer wherever it appears: the on-chain guards can inspect all of
    them. *)
Theorem wrappers_see_every_writable_account w params r :
  seal w params = Ok r →
  ∃ V D F, sandwich w params r V D F ∧
    ∀ ix acc, ix ∈ D → acc ∈ accounts_of ix →
      is_writable (acc_role acc) = true ∨ acc_address acc = sp_agent params →
      readonly_meta (acc_address acc) ∈ accounts_of V ∧
      readonly_meta (acc_address acc) ∈ accounts_of F.
Proof.
  intros [p]%seal_Ok. eexists _, _, _. split; [apply (parts_sandwich w params r p)|].
  intros ix acc Hix Hacc Hw. pose proof (writable_addresses_elem _ _ _ _ Hix Hacc Hw) as Hin.
  split; apply with_accounts_elem, elem_of_app; by left.
Qed.

(** ** The agent's own accounts *)

(** The mints whose agent accounts [seal] replaces. *)
Definition sealed_mints (params : SealParams) : list string :=
  sp_tokenMint params ::
  (if needsOutputStablecoin params then [usdc_mint params] else []) ++
  (if needsOutputSwap params then opt_list (sp_outputSwapMint params) else []).

Section Redirect.
Context (w : World) (params : SealParams).
Context (swap : option (string * string)) (Hswap : swap_accounts w params = Ok swap).
Context (Houtput : check_output_ata w params = Ok tt).

Lemma output_canonical v :
  agentStablecoinAta w params ≠ None → outputStablecoinAccount w params = Some v → v ≠ "" →
  v = w_deriveAta w (sp_vault params) (usdc_mint params).
Proof.
  unfold agentStablecoinAta, outputStablecoinAccount, needsOutputStablecoin. clear Hswap.
  unfold check_output_ata in Houtput. intros Hn Hv Hne.
  destruct (spending params && negb (stable_input params)) eqn:Hc; [|done].
  destruct (sp_outputStablecoinAccount params) as [acc|]; injection Hv as <-; [|done].
  apply throw_if_Ok in Houtput. rewrite bool_decide_eq_false_2 in Houtput by done.
  simpl in Houtput. rewrite Hc in Houtput. simpl in Houtput. apply negb_false_iff in Houtput.
  by apply bool_decide_eq_true in Houtput.
Qed.

Lemma swap_shape x :
  swap = Some x → ∃ m, needsOutputSwap params = true ∧ sp_outputSwapMint params = Some m ∧
    x = (w_deriveAta w (sp_vault params) m, w_deriveAta w (sp_agent params) m).
Proof.
  unfold swap_accounts in Hswap. intros ->. destruct (needsOutputSwap params) eqn:Hn; [|done].
  simpl in Hswap. destruct (sp_outputSwapMint params) as [m|]; [|done].
  apply bind_Ok_inv in Hswap as (? & _ & H). apply bind_Ok_inv in H as (? & _ & H).
  injection H as <-. by exists m.
Qed.

(** Every canonical replacement is an account of the vault. *)
Lemma canonical_value a v :
  canonical_replacements w params swap !! a = Some v → ∃ m, v = w_deriveAta w (sp_vault params) m.
Proof.
  unfold canonical_replacements.
  assert (∀ a v, (match agentStablecoinAta w params, outputStablecoinAccount w params with
     | Some a, Some v => if bool_decide (v = "") then <[agentTokenAta w params:=vaultTokenAccount w params]> ∅
                         else <[a:=v]> (<[agentTokenAta w params:=vaultTokenAccount w params]> ∅)
     | _, _ => <[agentTokenAta w params:=vaultTokenAccount w params]> ∅
     end : gmap string string) !! a = Some v → ∃ m, v = w_deriveAta w (sp_vault params) m) as Hbase.
  { intros b u.
    assert (∀ b u, (<[agentTokenAta w params:=vaultTokenAccount w params]> ∅ : gmap string string) !! b
      = Some u → ∃ m, u = w_deriveAta w (sp_vault params) m) as H0.
    { intros b' u' [[_ <-]|[_ H]]%lookup_insert_Some; [by eexists|by rewrite lookup_empty in H]. }
    destruct (agentStablecoinAta w params) eqn:Ha; [|by apply H0].
    destruct (outputStablecoinAccount w params) eqn:Ho; [|by apply H0].
    case_bool_decide as Hne; [by apply H0|].
    intros [[_ <-]|[_ H]]%lookup_insert_Some; [|by eapply H0].
    exists (usdc_mint params). apply output_canonical; [by rewrite Ha|done..]. }
  pose proof swap_shape as Hshape. clear Hswap.
  destruct swap as [[sv sa]|]; [|apply Hbase]. destruct (mentions _ _); [|apply Hbase].
  intros [[_ <-]|[_ H]]%lookup_insert_Some; [|by eapply Hbase].
  destruct (Hshape (sv, sa)) as (m & _ & _ & [= -> _]); [done|]. by exists m.
Qed.

Lemma insert_is_Some (m : gmap string string) k v a : is_Some (m !! a) → is_Some (<[k := v]> m !! a).
Proof. intros H. apply lookup_insert_is_Some'. by right. Qed.

(** The agent's account of a sealed mint is replaced, or the bundle never
    names it. *)
Lemma canonical_key mint :
  mint ∈ sealed_mints params → sp_outputStablecoinAccount params ≠ Some "" →
  (∀ m, w_deriveAta w (sp_vault params) m ≠ "") →
  is_Some (canonical_replacements w params swap !! w_deriveAta w (sp_agent params) mint) ∨
  mentions (w_deriveAta w (sp_agent params) mint) (defiInstructions params) = false.
Proof.
  intros Hmint Hne Hd. unfold canonical_replacements.
  unfold sealed_mints in Hmint. apply elem_of_cons in Hmint as [->|[Hmint|Hmint]%elem_of_app].
  - left. change (w_deriveAta w (sp_agent params) (sp_tokenMint params)) with (agentTokenAta w params).
    assert (∀ v, is_Some ((<[agentTokenAta w params:=v]> ∅ : gmap string string)
      !! agentTokenAta w params)) as H by (intros v; rewrite lookup_insert_eq; by eexists).
    repeat case_match; repeat first [apply H | apply insert_is_Some].
  - left. destruct (needsOutputStablecoin params) eqn:Hn; [|by apply elem_of_nil in Hmint].
    apply list_elem_of_singleton in Hmint as ->. unfold agentStablecoinAta. rewrite Hn.
    assert (∃ v, outputStablecoinAccount w params = Some v ∧ v ≠ "") as (v & -> & Hv).
    { unfold outputStablecoinAccount. destruct (sp_outputStablecoinAccount params) as [acc|].
      - exists acc. split; [done|]. congruence.
      - rewrite Hn. by eexists. }
    rewrite bool_decide_eq_false_2 by done.
    assert (∀ m : gmap string string, is_Some (<[w_deriveAta w (sp_agent params) (usdc_mint params):=v]> m
      !! w_deriveAta w (sp_agent params) (usdc_mint params))) as H
      by (intros m; rewrite lookup_insert_eq; by eexists).
    repeat case_match; repeat first [apply H | apply insert_is_Some].
  - destruct (needsOutputSwap params) eqn:Hn; [|by apply elem_of_nil in Hmint].
    destruct (sp_outputSwapMint params) as [m|] eqn:Hm; [|by apply elem_of_nil in Hmint].
    apply list_elem_of_singleton in Hmint as ->. clear Houtput.
    unfold swap_accounts in Hswap. rewrite Hn, Hm in Hswap. simpl in Hswap.
    do 2 apply bind_Ok_inv in Hswap as (? & _ & Hswap). injection Hswap as <-.
    destruct (mentions _ _) eqn:Hmen; [left|by right]. rewrite lookup_insert_eq. by eexists.
Qed.
End Redirect.

Lemma mentions_false a ixs ix acc :
  mentions a ixs = false → ix ∈ ixs → acc ∈ accounts_of ix → acc_address acc ≠ a.
Proof.
  intros Hm Hix Hacc Ha. assert (mentions a ixs = true) as H; [|congruence].
  apply existsb_exists. exists ix. split; [by apply list_elem_of_In|].
  apply existsb_exists. exists acc. split; [by apply list_elem_of_In|]. by apply bool_decide_eq_true.
Qed.

(** C14: The transaction between the wrappers cannot write to the agent's own
    account of the spent mint, of the stablecoin a sale must return, or of the
    mint a purchase acquires: each such reference was replaced (provided that no
    account derived for the vault is this one or empty, the named output account
    is not the empty string, and the caller's own replacements do not point back
    at it). *)
Theorem sealed_bundle_cannot_write_agent_accounts w params r mint :
  (∀ m, w_deriveAta w (sp_vault params) m ≠ w_deriveAta w (sp_agent params) mint) →
  (∀ m, w_deriveAta w (sp_vault params) m ≠ "") →
  sp_outputStablecoinAccount params ≠ Some "" →
  mint ∈ sealed_mints params →
  Forall (λ kv, kv.2 ≠ w_deriveAta w (sp_agent params) mint) (sp_additionalAtaReplacements params) →
  seal w params = Ok r →
  ∃ V D F, sandwich w params r V D F ∧
    ∀ ix acc, ix ∈ D → acc ∈ accounts_of ix → is_writable (acc_role acc) = true →
      acc_address acc ≠ w_deriveAta w (sp_agent params) mint.
Proof.
  intros Hsep Hne Hout Hmint Hextra [p]%seal_Ok. eexists _, _, _.
  split; [apply (parts_sandwich w params r p)|]. intros ix acc Hix Hacc Hw Ha.
  destruct (accounts_rewritten _ _ _ _ Hix Hacc) as (ix0 & acc0 & Hix0 & Hacc0 & ->).
  rewrite replace_account_role in Hw. unfold replace_account in Ha.
  pose proof (canonical_value w params _ (pt_swap_ok _ _ _ p) (pt_output_ok _ _ _ p)) as Hval.
  assert (acc_address acc0 = w_deriveAta w (sp_agent params) mint →
    ∃ m, pt_map _ _ _ p !! acc_address acc0 = Some (w_deriveAta w (sp_vault params) m)) as Hkey.
  { intros Hk. rewrite Hk.
    destruct (canonical_key w params _ (pt_swap_ok _ _ _ p) mint Hmint Hout Hne) as [[v Hv]|Hmen].
    - destruct (Hval _ _ Hv) as [m' ->]. exists m'. rewrite <- Hv.
      apply (add_replacements_keeps _ _ _ _ (pt_map_ok _ _ _ p)). by rewrite Hv.
    - by destruct (mentions_false _ _ _ _ Hmen Hix0 Hacc0). }
  destruct (pt_map _ _ _ p !! acc_address acc0) as [v|] eqn:Hl.
  2: { by destruct (Hkey Ha). }
  rewrite Hw in Ha. case_bool_decide as Hv; simpl in Ha.
  - subst v. destruct (Hkey Ha) as [m' [= Hm']]. by destruct (Hne m').
  - destruct (add_replacements_lookup _ _ _ _ _ (pt_map_ok _ _ _ p) Hl) as [Hc|Hx].
    + destruct (Hval _ _ Hc) as [m' ->]. by apply Hsep in Ha.
    + rewrite Forall_forall in Hextra. by apply (Hextra _ Hx).
Qed.

(** ** A concrete sealed swap *)

Module Demo.

Definition vault : string := "KLend2g3cP87ber8CzRaqeECGwNvLFM9acPVcRkRHvM".
Definition agent : string := "dRiftyHA39MWEi3m9aunc5MzRF1JYuBsbn6VPcn33UH".
Definition agent_ata : string := "jupr81YtYssSyPt8jbnGuiWon5f6x9TcDEFxYe3Bdzi".
Definition vault_ata : string := "jup3YeL8QhtSx1e253b2FDvsMNC87fDrgQZivbrndc9".
Definition sol : string := "So11111111111111111111111111111111111111112".

Definition swap_ix : Ix := {|
  ix_programAddress := JUPITER_PROGRAM;
  ix_accounts := Some [
    {| acc_address := agent; acc_role := RoleNumber 2 |};
    {| acc_address := agent_ata; acc_role := RoleNumber 1 |};
    {| acc_address := sol; acc_role := RoleNumber 0 |}];
  ix_data := Some [1; 2; 3] |}.

Definition params : SealParams := {|
  sp_vault := vault; sp_agent := agent;
  sp_instructions := [{| ix_programAddress := COMPUTE_BUDGET_PROGRAM_ADDRESS; ix_accounts := None;
                         ix_data := Some [2] |}; swap_ix];
  sp_network := "devnet"; sp_tokenMint := USDC_MINT_DEVNET; sp_amount := 1000000;
  sp_targetProtocol := None; sp_computeUnits := None; sp_priorityFeeMicroLamports := Some 5;
  sp_outputStablecoinAccount := None; sp_outputSwapMint := Some sol; sp_hasLookupTables := true;
  sp_cachedState := None; sp_maxCacheAgeMs := None; sp_additionalAtaReplacements := [] |}.

Definition state : ResolvedVaultState := {|
  rs_vault := {|
    av_agents := [{| ae_pubkey := agent; ae_spendingLimitUsd := 0; ae_capability := 2;
                     ae_paused := false |}];
    av_status := Active; av_feeDestination := vault; av_owner := ""; av_totalVolume := 0;
    av_totalFeesCollected := 0; av_observeOnly := false; av_totalDepositedUsd := 0;
    av_totalWithdrawnUsd := 0; av_totalTransactions := 0; av_createdAt := 0 |};
  rs_policy := {|
    pol_dailySpendingCapUsd := 2000000; pol_maxTransactionSizeUsd := 2000000;
    pol_hasProtocolCaps := false; pol_protocols := [JUPITER_PROGRAM]; pol_protocolCaps := [];
    pol_protocolMode := 1; pol_protocolHashes := []; pol_developerFeeRate := 500;
    pol_stableBalanceFloor := 0; pol_policyVersion := 3;
    pol_destinationMode := 0; pol_allowedDestinations := [vault]; pol_timelockDuration := 3600; pol_maxSlippageBps := 100;
    pol_sessionExpirySeconds := 60; pol_cosignRequired := false; pol_cosignSessionPubkey := "";
    pol_perRecipientDailyCapUsd := 0; pol_operatorGrantDelaySeconds := 0;
    pol_destinationGraylist := [] |};
  rs_tracker := None; rs_overlay := None;
  rs_globalBudget := {| spent24h := 0; cap := 2000000; remaining := 1000700 |};
  rs_agentBudget := None; rs_allAgentBudgets := ∅; rs_protocolBudgets := [];
  rs_maxTransactionUsd := 2000000; rs_usdc := 5000000; rs_usdt := 0; rs_resolvedAtTimestamp := 0 |}.

Definition wrapper (data : list Z) : Ix := {|
  ix_programAddress := SYSTEM_PROGRAM_ADDRESS; ix_accounts := None; ix_data := Some data |}.

Definition world : World := {|
  w_hookSkips := false; w_cacheAgeMs := 0; w_resolve := Ok state;
  w_plugins := [λ _ _, PluginAllow];
  w_deriveAta := λ owner mint, if bool_decide (owner = agent) then agent_ata else vault_ata;
  w_bytesToAddress := λ _, ""; w_getProgramDataAddress := id; w_fetch := λ _, None;
  w_blockhash := Ok tt; w_altVerified := Ok tt; w_accountData := λ _, None;
  w_cuLimitIx := λ n, {| ix_programAddress := COMPUTE_BUDGET_PROGRAM_ADDRESS; ix_accounts := None;
                         ix_data := Some [n] |};
  w_cuPriceIx := λ n, {| ix_programAddress := COMPUTE_BUDGET_PROGRAM_ADDRESS; ix_accounts := None;
                         ix_data := Some [n] |};
  w_validateIx := λ _ va, wrapper (va_expectedIntentDigest va); w_finalizeIx := λ _ _, wrapper [1];
  w_wire := λ ixs, b64_encode (replicate (100 * length ixs) 0);
  w_sha256 := λ bs, le_bytes 32 (sumZ bs) |}.

(** The sealed transaction: budget, price, validate, the swap, finalize. *)
Definition result : option SealResult := match seal world params with Ok r => Some r | _ => None end.

Definition empty_result : SealResult := {|
  sr_instructions := []; sr_txSizeBytes := 0%Q;
  sr_vaultContext := {| vc_vaultAddress := ""; vc_vaultTokenAta := ""; vc_tokenBalance := 0;
                        vc_knownRecipients := [] |};
  sr_intentDigest := []; sr_network := ""; sr_isMainnet := false |}.
Definition sealed : SealResult := default empty_result result.

Lemma seal_ok : seal world params = Ok sealed.
Proof. vm_compute. reflexivity. Qed.

Example sealed_programs :
  map ix_programAddress (sr_instructions sealed) =
  [COMPUTE_BUDGET_PROGRAM_ADDRESS; COMPUTE_BUDGET_PROGRAM_ADDRESS; SYSTEM_PROGRAM_ADDRESS;
   JUPITER_PROGRAM; SYSTEM_PROGRAM_ADDRESS].
Proof. vm_compute. reflexivity. Qed.

(** The writable reference to the agent's account now names the vault's. *)
Example sealed_swap_accounts :
  map acc_address (accounts_of (nth 3 (sr_instructions sealed) swap_ix)) = [agent; vault_ata; sol].
Proof. vm_compute. reflexivity. Qed.
End Demo.

Lemma sealed_bundle_passed_every_check_witness :
  seal Demo.world Demo.params = Ok Demo.sealed ∧
  ∃ state target, seal_checked Demo.world Demo.params state target ∧
    Forall moves_no_tokens (defiInstructions Demo.params) ∧
    (∃ va accounts, va_targetProtocol va = target ∧
       with_accounts (w_validateIx Demo.world Demo.params va) accounts ∈ sr_instructions Demo.sealed) ∧
    snd (measureTransactionSize (w_wire Demo.world (sr_instructions Demo.sealed))) = true ∧
    (0 < sp_amount Demo.params → 0 ≤ pol_developerFeeRate (rs_policy state) →
       sp_amount Demo.params * (1000000 + 200 + pol_developerFeeRate (rs_policy state)) ≤
       remaining (rs_globalBudget state) * 1000000).
Proof.
  split; [exact Demo.seal_ok|]. exact (sealed_bundle_passed_every_check _ _ _ Demo.seal_ok).
Defined.

Lemma sealed_transaction_is_a_sandwich_witness :
  ∃ V D F, sandwich Demo.world Demo.params Demo.sealed V D F.
Proof. exact (sealed_transaction_is_a_sandwich _ _ _ Demo.seal_ok). Defined.

Lemma wrappers_see_every_writable_account_witness :
  ∃ V D F, sandwich Demo.world Demo.params Demo.sealed V D F ∧
    ∀ ix acc, ix ∈ D → acc ∈ accounts_of ix →
      is_writable (acc_role acc) = true ∨ acc_address acc = sp_agent Demo.params →
      readonly_meta (acc_address acc) ∈ accounts_of V ∧
      readonly_meta (acc_address acc) ∈ accounts_of F.
Proof. exact (wrappers_see_every_writable_account _ _ _ Demo.seal_ok). Defined.

Lemma sealed_bundle_cannot_write_agent_accounts_witness :
  ∃ V D F, sandwich Demo.world Demo.params Demo.sealed V D F ∧
    ∀ ix acc, ix ∈ D → acc ∈ accounts_of ix → is_writable (acc_role acc) = true →
      acc_address acc ≠ Demo.agent_ata.
Proof.
  apply (sealed_bundle_cannot_write_agent_accounts Demo.world Demo.params Demo.sealed Demo.sol);
    [intros m; vm_compute; discriminate|intros m; vm_compute; discriminate|vm_compute; discriminate
    |apply list_elem_of_In; vm_compute; tauto|vm_compute; constructor|exact Demo.seal_ok].
Defined.
