(* ===== verification/Accounts.v ===== *)
(** * Program-derived accounts (resolve-accounts.ts)

    The seeds from which every account of a vault is derived.  The address
    encoder and the derivation itself are the chain library's; what the SDK
    decides is the seeds, and that no two of its accounts share them. *)

From S2P Require Import Prelude JsText.

Local Open Scope Z_scope.

Definition SIGIL_PROGRAM_ADDRESS : string := "7FtAXUcrann7P5HoLG7vnWcVpozwj9nqcNm6bPwA1wuK".

(** [TextEncoder.encode] of the ASCII tags. *)
Definition seedString (s : string) : list Z := map code (chars s).

(** [DataView.setBigUint64] stores the value modulo [2^64]. *)
Definition seedU64Le (value : Z) : list Z := le_bytes 8 value.

(** [new Uint8Array([value])]. *)
Definition seedU8 (value : Z) : list Z := [value mod 256].

Section Pda.
(** [encode] is the 32-byte address encoder, [derive] the derivation. *)
Context (encode : string → list Z).
Context (derive : string → list (list Z) → string).

Definition seedAddress (addr : string) : list Z := encode addr.

Definition vault_seeds (vaultAuthority : string) (vaultId : Z) : list (list Z) :=
  [seedString "vault"; seedAddress vaultAuthority; seedU64Le vaultId].
Definition policy_seeds (vault : string) : list (list Z) :=
  [seedString "policy"; seedAddress vault].
Definition tracker_seeds (vault : string) : list (list Z) :=
  [seedString "tracker"; seedAddress vault].
Definition session_seeds (vault agent tokenMint : string) : list (list Z) :=
  [seedString "session"; seedAddress vault; seedAddress agent; seedAddress tokenMint].
Definition pending_policy_seeds (vault : string) : list (list Z) :=
  [seedString "pending_policy"; seedAddress vault].
Definition pending_agent_grant_seeds (vault : string) : list (list Z) :=
  [seedString "pending_agent_grant"; seedAddress vault].
Definition agent_overlay_seeds (vault : string) (shardIndex : Z) : list (list Z) :=
  [seedString "agent_spend"; seedAddress vault; seedU8 shardIndex].
Definition audit_success_seeds (vault : string) : list (list Z) :=
  [seedString "audit_success"; seedAddress vault].
Definition audit_rejected_seeds (vault : string) : list (list Z) :=
  [seedString "audit_rejected"; seedAddress vault].

Definition getVaultPDA (vaultAuthority : string) (vaultId : Z) (program : string) : string :=
  derive program (vault_seeds vaultAuthority vaultId).

Record VaultPdaSeedSource : Type := { vs_vaultAuthority : string; vs_vaultId : Z }.
Definition getVaultPdaFromState (vault : VaultPdaSeedSource) (program : string) : string :=
  getVaultPDA (vs_vaultAuthority vault) (vs_vaultId vault) program.

Definition getPolicyPDA (vault program : string) : string := derive program (policy_seeds vault).
Definition getTrackerPDA (vault program : string) : string := derive program (tracker_seeds vault).
Definition getSessionPDA (vault agent tokenMint program : string) : string :=
  derive program (session_seeds vault agent tokenMint).
Definition getPendingPolicyPDA (vault program : string) : string :=
  derive program (pending_policy_seeds vault).
Definition getPendingAgentGrantPDA (vault program : string) : string :=
  derive program (pending_agent_grant_seeds vault).
Definition getAgentOverlayPDA (vault : string) (shardIndex : Z) (program : string) : string :=
  derive program (agent_overlay_seeds vault shardIndex).
Definition getAuditLogSuccessPDA (vault program : string) : string :=
  derive program (audit_success_seeds vault).
Definition getAuditLogRejectedPDA (vault program : string) : string :=
  derive program (audit_rejected_seeds vault).

Record ResolvedAccounts : Type := {
  ra_vault : string;
  ra_policyPda : string;
  ra_trackerPda : string;
  ra_sessionPda : string;
}.

Definition resolveAccounts (vault agent tokenMint program : string) : ResolvedAccounts := {|
  ra_vault := vault;
  ra_policyPda := getPolicyPDA vault program;
  ra_trackerPda := getTrackerPDA vault program;
  ra_sessionPda := getSessionPDA vault agent tokenMint program |}.

(** ** Seeds never collide *)

(** The accounts the SDK derives, one constructor per function. *)
Inductive account : Type :=
| VaultAccount (vaultAuthority : string) (vaultId : Z)
| PolicyAccount (vault : string)
| TrackerAccount (vault : string)
| SessionAccount (vault agent tokenMint : string)
| PendingPolicyAccount (vault : string)
| PendingAgentGrantAccount (vault : string)
| AgentOverlayAccount (vault : string) (shardIndex : Z)
| AuditSuccessAccount (vault : string)
| AuditRejectedAccount (vault : string).

Definition seeds (a : account) : list (list Z) :=
  match a with
  | VaultAccount v i => vault_seeds v i
  | PolicyAccount v => policy_seeds v
  | TrackerAccount v => tracker_seeds v
  | SessionAccount v a m => session_seeds v a m
  | PendingPolicyAccount v => pending_policy_seeds v
  | PendingAgentGrantAccount v => pending_agent_grant_seeds v
  | AgentOverlayAccount v s => agent_overlay_seeds v s
  | AuditSuccessAccount v => audit_success_seeds v
  | AuditRejectedAccount v => audit_rejected_seeds v
  end.

End Pda.

(** The encoder of the chain library: 32 bytes for a valid address, and
    different bytes for different ones. *)
Class AddressEncoder (valid : string → Prop) (encode : string → list Z) : Prop := {
  encoder_length : ∀ a, valid a → length (encode a) = 32%nat;
  encoder_inj : ∀ a b, valid a → valid b → encode a = encode b → a = b;
}.

Section Collisions.
Context (valid : string → Prop) (encode : string → list Z) `{!AddressEncoder valid encode}.

(** Valid addresses; a vault number is a u64, a shard number a byte. *)
Definition account_ok (a : account) : Prop :=
  match a with
  | VaultAccount v i => valid v ∧ fits 64 i
  | SessionAccount v a m => valid v ∧ valid a ∧ valid m
  | AgentOverlayAccount v s => valid v ∧ fits 8 s
  | PolicyAccount v | TrackerAccount v | PendingPolicyAccount v | PendingAgentGrantAccount v
  | AuditSuccessAccount v | AuditRejectedAccount v => valid v
  end.

Lemma encode_app_inj a b r s :
  valid a → valid b → encode a ++ r = encode b ++ s → a = b ∧ r = s.
Proof.
  intros Ha Hb H. apply app_inj_len in H as [H ->]; [|by rewrite !encoder_length].
  by apply encoder_inj in H.
Qed.

Lemma vault_ids_inj i j : fits 64 i → fits 64 j → le_bytes 8 i = le_bytes 8 j → i = j.
Proof.
  intros Hi Hj H%le_bytes_inj. change (8 * Z.of_nat 8) with 64 in H. by rewrite !wrap_fits in H.
Qed.
End Collisions.

(** The seeds with the bytes of their tags written out. *)
Ltac unfold_seeds :=
  unfold seeds, vault_seeds, policy_seeds, tracker_seeds, session_seeds, pending_policy_seeds,
    pending_agent_grant_seeds, agent_overlay_seeds, audit_success_seeds, audit_rejected_seeds,
    seedAddress, seedU64Le, seedU8;
  repeat match goal with
  | |- context [seedString ?s] =>
      let b := eval vm_compute in (seedString s) in change (seedString s) with b
  end;
  cbn [concat app].

(** No two accounts of the program share their seeds.  The bytes that are
    hashed into an address, which are the seeds run together, determine which
    account it is, of which vault, agent, mint, number or shard; so a policy is
    never read where a tracker is meant, nor one vault's for another's. *)
Theorem account_seeds_never_collide (valid : string → Prop) (encode : string → list Z)
    (p q : account) :
  AddressEncoder valid encode → account_ok valid p → account_ok valid q →
  concat (seeds encode p) = concat (seeds encode q) → p = q.
Proof.
  intros Henc Hp Hq.
  destruct p, q; cbn [account_ok] in Hp, Hq; unfold_seeds; intros H; try discriminate H;
    repeat match goal with H : _ ∧ _ |- _ => destruct H end; injection H as H;
    (apply (encode_app_inj valid encode) in H as [-> H]; [|done..]); try reflexivity.
  - f_equal. apply vault_ids_inj; [done | done | exact H].
  - apply (encode_app_inj valid encode) in H as [-> H]; [|done..].
    by apply (encode_app_inj valid encode) in H as [-> H].
  - injection H as H. unfold fits in *. f_equal. by rewrite !Z.mod_small in H by lia.
Qed.

(** Two addresses of 32 equal bytes each. *)
Definition demo_encode (a : string) : list Z :=
  replicate 32 (match chars a with c :: _ => code c | [] => 0 end).

Lemma account_seeds_never_collide_witness :
  AddressEncoder (λ a, a = "A" ∨ a = "B") demo_encode ∧
  (concat (seeds demo_encode (PolicyAccount "A")) = concat (seeds demo_encode (PolicyAccount "A")) →
   PolicyAccount "A" = PolicyAccount "A").
Proof.
  assert (H : AddressEncoder (λ a, a = "A" ∨ a = "B") demo_encode).
  { split; [intros a _; apply length_replicate|].
    intros a b [-> | ->] [-> | ->] Heq; first [reflexivity | discriminate Heq]. }
  split; [exact H|]. apply (account_seeds_never_collide _ _ _ _ H); left; reflexivity.
Defined.
