(* ===== verification/OwnerTx.v ===== *)
(** * Owner and agent transactions without a sandwich
      (owner-transaction.ts, build-unsigned.ts, agent-transfer.ts)

    Direct program calls: the compute-budget prefix, blockhash and lookup
    tables from the shared caches, the size check, the unsigned bytes for
    another signer, and the standalone stablecoin payout of an agent. *)

From Stdlib Require Import QArith.
From S2P Require Import Prelude JsMap SdkTypes IntentDigest Base64 StateResolver Composer Rpc Seal Accounts.

Local Open Scope Z_scope.

Definition CU_OWNER_ACTION : Z := 200000.

Definition INSTRUCTION_REQUIRED : js_exn := SdkDomainError "SIGIL_ERROR__RPC__INSTRUCTION_REQUIRED".
Definition TX_TOO_LARGE : js_exn := SdkDomainError "SIGIL_ERROR__RPC__TX_TOO_LARGE".

(** The caches the module shares between calls: one blockhash cache per RPC
    client, one table cache. *)
Record OwnerCaches : Type := {
  oc_blockhash : gmap nat BlockhashCache;
  oc_alt : AltCache;
}.

(** The chain library: the compute-budget builders, and the base64 wire format
    of the compiled message of a fee payer, a blockhash, tables and
    instructions. *)
Record Compiler : Type := {
  cp_limitIx : Z → Ix;
  cp_priceIx : Z → Ix;
  cp_wire : string → Blockhash → tables → list Ix → list ascii;
}.

(** What the node answers during one call, and the clock. *)
Record NodeReplies : Type := {
  nr_now : Z;
  nr_later : Z;
  nr_blockhash : result js_exn Blockhash;
  nr_fetchTables : list string → option (list (string * list string));
}.

Record BuildOwnerTransactionParams : Type := {
  bo_rpc : nat;
  bo_owner : string;
  bo_instructions : list Ix;
  bo_network : string;
  bo_computeUnits : option Z;
  bo_priorityFeeMicroLamports : option Z;
  bo_addressLookupTables : option tables;
  bo_blockhash : option Blockhash;
}.

Record OwnerTransactionResult : Type := {
  ot_instructions : list Ix;
  ot_wireBase64 : list ascii;
  ot_txSizeBytes : Q;
  ot_blockhash : Blockhash;
}.

Section Owner.
Context (cp : Compiler) (node : NodeReplies).

(** [getBlockhashCache(rpc).get(rpc)]: the cache object is shared, so what it
    learns stays in the registry. *)
Definition shared_blockhash (rpc : nat) (reg : gmap nat BlockhashCache)
    : gmap nat BlockhashCache * result js_exn Blockhash :=
  let '(reg, c) := getBlockhashCache rpc reg in
  let '(c, r) := bc_get (nr_now node) (nr_later node) (nr_blockhash node) c in
  (<[rpc := c]> reg, r).

Definition owner_blockhash (p : BuildOwnerTransactionParams) (s : OwnerCaches)
    : OwnerCaches * result js_exn Blockhash :=
  match bo_blockhash p with
  | Some b => (s, Ok b)
  | None => let '(reg, r) := shared_blockhash (bo_rpc p) (oc_blockhash s) in
            ({| oc_blockhash := reg; oc_alt := oc_alt s |}, r)
  end.

Definition owner_tables (p : BuildOwnerTransactionParams) (s : OwnerCaches)
    : OwnerCaches * result js_exn tables :=
  match bo_addressLookupTables p with
  | Some t => (s, Ok t)
  | None =>
      match getSigilAltAddress (normalizeNetwork (bo_network p)) with
      | Throw e => (s, Throw e)
      | Ok alt =>
          let '(c, t) := alt_resolve (nr_now node) (nr_fetchTables node) [alt] (oc_alt s) in
          ({| oc_blockhash := oc_blockhash s; oc_alt := c |}, Ok t)
      end
  end.

Definition owner_instructions (p : BuildOwnerTransactionParams) : list Ix :=
  cp_limitIx cp (default CU_OWNER_ACTION (bo_computeUnits p)) ::
  match bo_priorityFeeMicroLamports p with
  | Some fee => if 0 <? fee then [cp_priceIx cp fee] else []
  | None => []
  end ++ bo_instructions p.

(** Both lookups are started before either is awaited, so both may fill their
    cache even when one of them fails. *)
Definition buildOwnerTransaction (p : BuildOwnerTransactionParams) (s : OwnerCaches)
    : OwnerCaches * result js_exn OwnerTransactionResult :=
  if bool_decide (bo_instructions p = []) then (s, Throw INSTRUCTION_REQUIRED) else
  let '(s, bh) := owner_blockhash p s in
  let '(s, alts) := owner_tables p s in
  (s, alts ← alts;
      bh ← bh;
      let ixs := owner_instructions p in
      let wire := cp_wire cp (bo_owner p) bh alts ixs in
      let '(byteLength, withinLimit) := measureTransactionSize wire in
      _ ← throw_if (negb withinLimit) TX_TOO_LARGE;
      Ok {| ot_instructions := ixs; ot_wireBase64 := wire; ot_txSizeBytes := byteLength;
            ot_blockhash := bh |}).

(** ** Unsigned bytes *)

Record BuildUnsignedResult : Type := {
  bu_unsignedTxBytes : list Z;
  bu_instructions : list Ix;
  bu_feePayer : string;
  bu_recentBlockhash : string;
  bu_lastValidBlockHeight : Z;
  bu_messageBytes : list Z;
  bu_estimatedComputeUnits : option Z;
}.

(** The answer of the simulation: a failed call, or the error flag and the
    units. *)
Definition safeSimulateUnitsConsumed (reply : result js_exn (option (bool * option Z))) : option Z :=
  match reply with
  | Ok (Some (false, Some units)) => Some units
  | _ => None
  end.

(** The message behind the signature slots: [bytes.slice(1 + 64 * numSigs)]. *)
Definition message_part (bytes : list Z) : list Z :=
  drop (Z.to_nat (1 + 64 * default 0 (bytes !! 0%nat))) bytes.

(** A text that is no base64 makes [atob] throw. *)
Definition buildUnsigned (p : BuildOwnerTransactionParams) (simulate : bool)
    (simulated : result js_exn (option (bool * option Z))) (s : OwnerCaches)
    : OwnerCaches * result js_exn BuildUnsignedResult :=
  let '(s, r) := buildOwnerTransaction p s in
  (s, tx ← r;
      bytes ← match atob (ot_wireBase64 tx) with Some b => Ok b | None => Throw (JsError "atob") end;
      Ok {| bu_unsignedTxBytes := bytes;
            bu_instructions := bo_instructions p;
            bu_feePayer := bo_owner p;
            bu_recentBlockhash := bh_blockhash (ot_blockhash tx);
            bu_lastValidBlockHeight := bh_lastValidBlockHeight (ot_blockhash tx);
            bu_messageBytes := message_part bytes;
            bu_estimatedComputeUnits :=
              if simulate then safeSimulateUnitsConsumed simulated else None |}).
End Owner.

(** ** agent_transfer *)

Record BuildAgentTransferOptions : Type := {
  at_vault : string;
  at_agent : string;
  at_destination : string;
  at_amount : Z;
  at_tokenMint : string;
  at_network : string;
  at_cachedState : option ResolvedVaultState;
}.

(** The arguments of the generated builder. *)
Record AgentTransferArgs : Type := {
  aa_agent : string;
  aa_vault : string;
  aa_agentSpendOverlay : string;
  aa_vaultTokenAccount : string;
  aa_tokenMintAccount : string;
  aa_destinationTokenAccount : string;
  aa_protocolTreasuryTokenAccount : string;
  aa_feeDestinationTokenAccount : option string;
  aa_amount : Z;
  aa_expectedPolicyVersion : Z;
}.

Section Transfer.
(** Token-account and overlay derivation, and the generated builder. *)
Context (deriveAta : string → string → string) (overlayPda : string → string).
Context (transferIx : AgentTransferArgs → Ix).
Context (resolve : result js_exn ResolvedVaultState) (opts : BuildAgentTransferOptions).

Definition at_net : string := normalizeNetwork (at_network opts).

Definition check_transfer_agent (state : ResolvedVaultState) : result js_exn unit :=
  _ ← match av_status (rs_vault state) with Active => Ok tt | _ => Throw (sdk "VAULT_INACTIVE") end;
  match list_find (λ a, ae_pubkey a = at_agent opts) (av_agents (rs_vault state)) with
  | None => Throw (sdk "AGENT_NOT_REGISTERED")
  | Some (_, entry) =>
      _ ← throw_if (ae_paused entry) (sdk "AGENT_PAUSED");
      throw_if (ae_capability entry =? 0) (sdk "AGENT_ZERO_CAPABILITY")
  end.

Definition transfer_args (state : ResolvedVaultState) : AgentTransferArgs := {|
  aa_agent := at_agent opts;
  aa_vault := at_vault opts;
  aa_agentSpendOverlay := overlayPda (at_vault opts);
  aa_vaultTokenAccount := deriveAta (at_vault opts) (at_tokenMint opts);
  aa_tokenMintAccount := at_tokenMint opts;
  aa_destinationTokenAccount := deriveAta (at_destination opts) (at_tokenMint opts);
  aa_protocolTreasuryTokenAccount := deriveAta PROTOCOL_TREASURY (at_tokenMint opts);
  aa_feeDestinationTokenAccount :=
    if 0 <? pol_developerFeeRate (rs_policy state)
    then Some (deriveAta (av_feeDestination (rs_vault state)) (at_tokenMint opts)) else None;
  aa_amount := at_amount opts;
  aa_expectedPolicyVersion := pol_policyVersion (rs_policy state) |}.

(** The vault's account of the other stablecoin. *)
Definition other_stable_ata : string :=
  let usdcMint := if bool_decide (at_net = "mainnet-beta") then USDC_MINT_MAINNET else USDC_MINT_DEVNET in
  let usdtMint := if bool_decide (at_net = "mainnet-beta") then USDT_MINT_MAINNET else USDT_MINT_DEVNET in
  deriveAta (at_vault opts) (if bool_decide (at_tokenMint opts = usdcMint) then usdtMint else usdcMint).

Definition buildAgentTransfer : result js_exn Ix :=
  _ ← throw_if (at_amount opts <=? 0) (sdk "INVALID_AMOUNT");
  _ ← throw_if (negb (isStablecoinMint (at_tokenMint opts) at_net)) (sdk "INVALID_PARAMS");
  state ← match at_cachedState opts with Some s => Ok s | None => resolve end;
  _ ← check_transfer_agent state;
  _ ← throw_if (negb (pol_destinationMode (rs_policy state) =? 0)) (sdk "INVALID_PARAMS");
  _ ← throw_if (negb (bool_decide (at_destination opts ∈ pol_allowedDestinations (rs_policy state))))
        (sdk "INVALID_PARAMS");
  let ix := transferIx (transfer_args state) in
  Ok (if 0 <? pol_stableBalanceFloor (rs_policy state)
      then with_accounts ix [other_stable_ata] else ix).
End Transfer.

(** ** Properties *)

(** The blockhash of an owner transaction: the caller's, or what the shared
    cache answers. *)
Definition blockhash_source (node : NodeReplies) (p : BuildOwnerTransactionParams) (s : OwnerCaches)
    (b : Blockhash) : Prop :=
  snd (owner_blockhash node p s) = Ok b.

(** An owner transaction is the caller's instructions and nothing else: in
    their order, after a compute-unit limit and, for a positive fee, a price;
    compiled with the blockhash that is returned; and within the size limit.
    Without instructions nothing is built and no cache is touched. *)
Theorem owner_transaction_is_what_was_asked (cp : Compiler) (node : NodeReplies)
    (p : BuildOwnerTransactionParams) (s s' : OwnerCaches) (r : OwnerTransactionResult) :
  buildOwnerTransaction cp node p s = (s', Ok r) →
  bo_instructions p ≠ [] ∧
  (∃ prefix, ot_instructions r = prefix ++ bo_instructions p ∧
     (prefix = [cp_limitIx cp (default CU_OWNER_ACTION (bo_computeUnits p))] ∨
      ∃ fee, bo_priorityFeeMicroLamports p = Some fee ∧ 0 < fee ∧
        prefix = [cp_limitIx cp (default CU_OWNER_ACTION (bo_computeUnits p)); cp_priceIx cp fee])) ∧
  (∃ t, ot_wireBase64 r = cp_wire cp (bo_owner p) (ot_blockhash r) t (ot_instructions r)) ∧
  blockhash_source node p s (ot_blockhash r) ∧
  snd (measureTransactionSize (ot_wireBase64 r)) = true.
Proof.
  unfold buildOwnerTransaction, blockhash_source. case_bool_decide as Hne; [discriminate|].
  destruct (owner_blockhash node p s) as [s1 bh] eqn:Ebh.
  destruct (owner_tables node p s1) as [s2 alts] eqn:Et. intros [= _ H]. inv_ok. simpl.
  match goal with Hok : negb _ = false |- _ => apply negb_false_iff in Hok; rename Hok into Hsize end.
  split; [done|]. split.
  - unfold owner_instructions. destruct (bo_priorityFeeMicroLamports p) as [fee|] eqn:Ef.
    + destruct (0 <? fee) eqn:Epos.
      * exists [cp_limitIx cp (default CU_OWNER_ACTION (bo_computeUnits p)); cp_priceIx cp fee].
        split; [done|]. right. exists fee. split_and!; [done | lia | done].
      * exists [cp_limitIx cp (default CU_OWNER_ACTION (bo_computeUnits p))]. auto.
    + exists [cp_limitIx cp (default CU_OWNER_ACTION (bo_computeUnits p))]. auto.
  - split; [eauto|]. split; [done|]. exact Hsize.
Qed.

(** A node, a compiler and a parameter set for the witnesses. *)
Module Demo.
Definition ix (n : Z) : Ix := {| ix_programAddress := "P"; ix_accounts := None; ix_data := Some [n] |}.
Definition compiler : Compiler := {|
  cp_limitIx := λ n, ix n; cp_priceIx := λ n, ix n;
  cp_wire := λ _ _ _ ixs, b64_encode (1 :: replicate 64 0 ++ concat (map (λ i, default [] (ix_data i)) ixs)) |}.
Definition node : NodeReplies := {|
  nr_now := 5; nr_later := 6; nr_blockhash := Ok {| bh_blockhash := "H"; bh_lastValidBlockHeight := 9 |};
  nr_fetchTables := λ _, Some [] |}.
Definition params : BuildOwnerTransactionParams := {|
  bo_rpc := 0%nat; bo_owner := "O"; bo_instructions := [ix 7]; bo_network := "devnet";
  bo_computeUnits := Some 3; bo_priorityFeeMicroLamports := Some 2; bo_addressLookupTables := None;
  bo_blockhash := None |}.
Definition caches : OwnerCaches := {| oc_blockhash := ∅; oc_alt := new_AltCache None None |}.
End Demo.

Lemma owner_transaction_is_what_was_asked_witness :
  ∃ s' r, buildOwnerTransaction Demo.compiler Demo.node Demo.params Demo.caches = (s', Ok r) ∧
    bo_instructions Demo.params ≠ [] ∧ ot_instructions r = [Demo.ix 3; Demo.ix 2; Demo.ix 7].
Proof.
  destruct (buildOwnerTransaction Demo.compiler Demo.node Demo.params Demo.caches) as [s' [r|e]] eqn:E.
  - exists s', r. split; [reflexivity|]. split.
    + apply (owner_transaction_is_what_was_asked _ _ _ _ _ _ E).
    + apply (f_equal snd) in E. vm_compute in E. injection E as <-. reflexivity.
  - exfalso. apply (f_equal snd) in E. vm_compute in E. discriminate E.
Defined.

(** The unsigned bytes that are handed to a wallet, a multisig or a cold
    key are the compiled transaction itself, and the message shown for review
    is the part behind its signature slots. *)
Theorem unsigned_bytes_are_the_transaction (cp : Compiler) (node : NodeReplies)
    (p : BuildOwnerTransactionParams) simulate simulated (s s' : OwnerCaches)
    (u : BuildUnsignedResult) (sigs msg : list Z) (n : Z) (tx : OwnerTransactionResult) :
  buildUnsigned cp node p simulate simulated s = (s', Ok u) →
  buildOwnerTransaction cp node p s = (s', Ok tx) →
  bytes_ok (n :: sigs ++ msg) → Z.of_nat (length sigs) = 64 * n →
  ot_wireBase64 tx = b64_encode (n :: sigs ++ msg) →
  bu_unsignedTxBytes u = n :: sigs ++ msg ∧ bu_messageBytes u = msg ∧
  bu_recentBlockhash u = bh_blockhash (ot_blockhash tx) ∧
  bu_lastValidBlockHeight u = bh_lastValidBlockHeight (ot_blockhash tx).
Proof.
  intros Hu Htx Hok Hsigs Hwire. unfold buildUnsigned in Hu. rewrite Htx in Hu. simpl in Hu.
  rewrite Hwire, atob_encode in Hu by done. injection Hu as <-. simpl.
  split_and!; try done. unfold message_part. simpl default.
  replace (Z.to_nat (1 + 64 * n)) with (S (length sigs)) by lia.
  simpl. apply drop_app_length.
Qed.

Lemma unsigned_bytes_are_the_transaction_witness :
  ∃ s' u, buildUnsigned Demo.compiler Demo.node Demo.params false (Ok None) Demo.caches = (s', Ok u) ∧
    bu_messageBytes u = [3; 2; 7].
Proof.
  destruct (buildUnsigned Demo.compiler Demo.node Demo.params false (Ok None) Demo.caches)
    as [s' [u|e]] eqn:E.
  - exists s', u. split; [reflexivity|].
    destruct (buildOwnerTransaction Demo.compiler Demo.node Demo.params Demo.caches)
      as [s'' [tx|e]] eqn:Etx.
    + assert (s'' = s') as ->.
      { unfold buildUnsigned in E. rewrite Etx in E. by injection E. }
      eapply (unsigned_bytes_are_the_transaction _ _ _ _ _ _ _ u (replicate 64 0) [3; 2; 7] 1 tx E Etx);
        [ | reflexivity | ].
      * repeat constructor; vm_compute; congruence.
      * apply (f_equal snd) in Etx. vm_compute in Etx. injection Etx as <-. reflexivity.
    + exfalso. apply (f_equal snd) in Etx. vm_compute in Etx. discriminate Etx.
  - exfalso. apply (f_equal snd) in E. vm_compute in E. discriminate E.
Defined.

(** An agent's payout passed every check before an instruction exists: the
    amount is positive, the mint a stablecoin of the network, the vault active,
    the agent registered, running and with some capability, and the recipient
    on the owner's allowlist; the instruction debits the vault's account and
    credits the recipient's own account for that mint, carries the version of
    the policy it was checked against, and names the other stablecoin account
    whenever the balance floor is armed. *)
Theorem agent_transfer_passed_every_check deriveAta overlayPda transferIx resolve
    (opts : BuildAgentTransferOptions) (ix : Ix) :
  buildAgentTransfer deriveAta overlayPda transferIx resolve opts = Ok ix →
  ∃ state entry,
    (at_cachedState opts = Some state ∨ at_cachedState opts = None ∧ resolve = Ok state) ∧
    0 < at_amount opts ∧
    isStablecoinMint (at_tokenMint opts) (at_net opts) = true ∧
    av_status (rs_vault state) = Active ∧
    entry ∈ av_agents (rs_vault state) ∧ ae_pubkey entry = at_agent opts ∧
    ae_paused entry = false ∧ ae_capability entry ≠ 0 ∧
    pol_destinationMode (rs_policy state) = 0 ∧
    at_destination opts ∈ pol_allowedDestinations (rs_policy state) ∧
    ∃ args, aa_destinationTokenAccount args = deriveAta (at_destination opts) (at_tokenMint opts) ∧
      aa_vaultTokenAccount args = deriveAta (at_vault opts) (at_tokenMint opts) ∧
      aa_amount args = at_amount opts ∧
      aa_expectedPolicyVersion args = pol_policyVersion (rs_policy state) ∧
      ix = if 0 <? pol_stableBalanceFloor (rs_policy state)
           then with_accounts (transferIx args) [other_stable_ata deriveAta opts]
           else transferIx args.
Proof.
  unfold buildAgentTransfer, check_transfer_agent. intros H. inv_ok.
  destruct (list_find _ _) as [[i entry]|] eqn:El; [|discriminate]. inv_ok.
  apply list_find_Some in El as (Hl & Hkey & _).
  exists x1, entry. split.
  { destruct (at_cachedState opts) as [c|]; simplify_eq; auto. }
  destruct (av_status (rs_vault x1)) eqn:Es; try discriminate.
  repeat match goal with
  | H : negb _ = false |- _ => apply negb_false_iff in H
  | H : bool_decide _ = true |- _ => apply bool_decide_eq_true in H
  end.
  split_and!; try done; try lia; [by eapply list_elem_of_lookup_2|].
  exists (transfer_args deriveAta overlayPda opts x1). done.
Qed.

Definition demo_transfer : BuildAgentTransferOptions := {|
  at_vault := Seal.Demo.vault; at_agent := Seal.Demo.agent; at_destination := Seal.Demo.vault;
  at_amount := 5; at_tokenMint := USDC_MINT_DEVNET; at_network := "devnet"; at_cachedState := None |}.

Lemma agent_transfer_passed_every_check_witness :
  let build := buildAgentTransfer (λ o m, o) id (λ a, Demo.ix (aa_amount a)) (Ok Seal.Demo.state)
                 demo_transfer in
  build = Ok (Demo.ix 5) ∧ 0 < at_amount demo_transfer.
Proof.
  intros build. split; [vm_compute; reflexivity|].
  destruct (agent_transfer_passed_every_check (λ o m, o) id (λ a, Demo.ix (aa_amount a))
    (Ok Seal.Demo.state) demo_transfer (Demo.ix 5)) as (st & e & _ & H & _);
    [vm_compute; reflexivity | exact H].
Defined.
