(* ===== verification/Client.v ===== *)
(** * The agent client
      (hooks.ts, plugin.ts, caip2-network.ts, seal.ts, vault-handle.ts, sigil.ts)

    The client wraps [seal] with its own caches, the mainnet confirmation gate,
    hooks and plugins, signing, sending and confirming, and the conversion of
    every failure; its asynchronous factory first checks that the node serves
    the configured cluster.  A call returns the new caches, the effects in
    order, and its result. *)

From Stdlib Require Import QArith.
From S2P Require Import Prelude JsMap JsText JsValue ErrorTable AgentErrors SdkTypes IntentDigest.
From S2P Require Import Base64 StateResolver Composer Rpc Seal Accounts OwnerTx.

Local Open Scope Z_scope.

(** ** Effects *)

Inductive event : Type :=
| EvWarn (what : string)
| EvHook (owner stage : string)
| EvSign (instructions : list Ix)
| EvSend (wire : list ascii)
| EvOnError (error : jsv) (action : string).

Definition eff (A : Type) : Type := list event * A.

(** ** Hooks (hooks.ts) *)

(** A hook run in the context of one call: its effects, and what it returns or
    throws. *)
Definition hook (A : Type) : Type := eff (result js_exn A).

(** [onBeforeBuild] may return [{ skipSeal: true, reason }]. *)
Record SealHooks : Type := {
  onBeforeBuild : option (hook (option string));
  onBeforeSign : option (hook unit);
  onAfterSend : option (hook unit);
  onError : option (hook unit);
  onFinalize : option (hook unit);
}.

(** [await h?.(...)]. *)
Definition optional_call {A} (h : option (hook A)) (absent : A) : hook A :=
  match h with Some h => h | None => ([], Ok absent) end.

(** First [a], then, unless it threw, [b]. *)
Definition in_turn (a b : option (hook unit)) : hook unit :=
  let '(ea, ra) := optional_call a tt in
  match ra with
  | Throw e => (ea, Throw e)
  | Ok _ => let '(eb, rb) := optional_call b tt in (ea ++ eb, rb)
  end.

Definition before_build_in_turn (a b : option (hook (option string))) : hook (option string) :=
  let '(ea, ra) := optional_call a None in
  match ra with
  | Throw e => (ea, Throw e)
  | Ok (Some reason) => (ea, Ok (Some reason))
  | Ok None => let '(eb, rb) := optional_call b None in (ea ++ eb, rb)
  end.

Definition composeHooks (outer inner : option SealHooks) : option SealHooks :=
  match outer, inner with
  | None, None => None
  | None, Some i => Some i
  | Some o, None => Some o
  | Some o, Some i => Some {|
      onBeforeBuild := Some (before_build_in_turn (onBeforeBuild o) (onBeforeBuild i));
      onBeforeSign := Some (in_turn (onBeforeSign o) (onBeforeSign i));
      onAfterSend := Some (in_turn (onAfterSend o) (onAfterSend i));
      onError := Some (in_turn (onError o) (onError i));
      onFinalize := Some (in_turn (onFinalize o) (onFinalize i)) |}
  end.

(** A throw is swallowed with a warning. *)
Definition invokeHook {A} (hooks : option SealHooks) (stage : SealHooks → option (hook A))
    (absent : A) : eff A :=
  match h ← hooks; stage h with
  | None => ([], absent)
  | Some (es, Ok a) => (es, a)
  | Some (es, Throw _) => (es ++ [EvWarn "hook"], absent)
  end.

(** ** Plugins (plugin.ts) *)

Definition check_fn : Type := SealParams → PluginState → plugin_verdict.

(** What a caller may put in the list: no object, or an object with or without
    a name and a check. *)
Inductive plugin_arg : Type :=
| NotAnObject
| PluginObject (name : option string) (check : option check_fn).

Definition INVALID_CONFIG : js_exn := sdk "INVALID_CONFIG".

Fixpoint validate_plugins (names : list string) (plugins : list plugin_arg)
    : result js_exn (list (string * check_fn)) :=
  match plugins with
  | [] => Ok []
  | NotAnObject :: _ => Throw INVALID_CONFIG
  | PluginObject name check :: plugins =>
      match name, check with
      | Some n, Some c =>
          if bool_decide (n = "") then Throw INVALID_CONFIG
          else if bool_decide (n ∈ names) then Throw INVALID_CONFIG
          else rest ← validate_plugins (n :: names) plugins; Ok ((n, c) :: rest)
      | _, _ => Throw INVALID_CONFIG
      end
  end.

(** [None] is a value that is no array. *)
Definition validatePluginList (plugins : option (list plugin_arg))
    : result js_exn (list (string * check_fn)) :=
  match plugins with Some l => validate_plugins [] l | None => Throw INVALID_CONFIG end.

(** ** Network identity (caip2-network.ts) *)

Definition SOLANA_MAINNET_GENESIS_HASH : string := "5eykt4UsFv8P8NJdTREpY1vzqKqZKvdpKuc147dw2N9d".
Definition SOLANA_DEVNET_GENESIS_HASH : string := "EtWTRABZaYq6iMfeYKouRu166VU2xqa1wcaWoxPkrZBG".
Definition SOLANA_GENESIS_HASHES : list (string * string) :=
  [("mainnet", "5eykt4UsFv8P8NJdTREpY1vzqKqZKvdpKuc147dw2N9d");
   ("devnet", "EtWTRABZaYq6iMfeYKouRu166VU2xqa1wcaWoxPkrZBG");
   ("testnet", "4uhcVJyU9pJkvQyS88uRDiswHXSCkY3zQawwpjk2NsNY")].

Record NetworkIdentityResult : Type := {
  ni_verified : bool;
  ni_actualNetwork : string;
  ni_expectedGenesisHash : string;
  ni_observedGenesisHash : option string;
}.

Definition identify (observed : string) : string :=
  match find (λ e, bool_decide (e.2 = observed)) SOLANA_GENESIS_HASHES with
  | Some e => e.1
  | None => "unknown"
  end.

(** A genesis hash worth comparing: a text of at least 32 characters. *)
Definition genesis_text (v : jsv) : option string :=
  match v with
  | JStr s => if bool_decide (String.length s < 32)%nat then None else Some s
  | _ => None
  end.

Definition expected_genesis (network : string) : string :=
  if bool_decide (network = "mainnet") then SOLANA_MAINNET_GENESIS_HASH else SOLANA_DEVNET_GENESIS_HASH.

Definition unverified (expected : string) (observed : option string) : NetworkIdentityResult := {|
  ni_verified := false; ni_actualNetwork := "unknown"; ni_expectedGenesisHash := expected;
  ni_observedGenesisHash := observed |}.

Definition verifyNetworkIdentity (claimed : string) (reply : result js_exn jsv) : NetworkIdentityResult :=
  if negb (bool_decide (claimed = "devnet")) && negb (bool_decide (claimed = "mainnet"))
  then unverified "" None
  else
    let expected := expected_genesis claimed in
    match reply with
    | Throw _ => unverified expected None
    | Ok v =>
        match genesis_text v with
        | None => unverified expected (match v with JUndef | JNull => None | _ => Some (js_String v) end)
        | Some observed => {|
            ni_verified := bool_decide (observed = expected);
            ni_actualNetwork := identify observed;
            ni_expectedGenesisHash := expected;
            ni_observedGenesisHash := Some observed |}
        end
    end.

(** ** The genesis assertion (seal.ts) *)

(** Three attempts; the last failure is rethrown. *)
Fixpoint retry {A} (fuel i : nat) (op : nat → result js_exn A) : result js_exn A :=
  match fuel with
  | O => op i
  | S fuel => match op i with Ok a => Ok a | Throw _ => retry fuel (S i) op end
  end.
Definition withRetry {A} (op : nat → result js_exn A) : result js_exn A := retry 2 0 op.

(** The hashes seen so far, by RPC client. *)
Abbreviation genesis_cache := (gmap nat string).

Definition assertGenesisHash (rpc : nat) (network : string) (replies : nat → result js_exn jsv)
    (cache : genesis_cache) : genesis_cache * result js_exn unit :=
  let expected := expected_genesis network in
  let judge (observed : string) :=
    throw_if (negb (bool_decide (observed = expected))) INVALID_NETWORK_CODE in
  match cache !! rpc with
  | Some observed => (cache, judge observed)
  | None =>
      match withRetry replies with
      | Throw _ => (cache, Throw TX_FAILED)
      | Ok v => match genesis_text v with
                | None => (cache, Throw TX_FAILED)
                | Some observed => (<[rpc := observed]> cache, judge observed)
                end
      end
  end.

(** ** The client (seal.ts, [createSigilClient]) *)

(** The configuration object; an absent field is [None] or the empty text. *)
Record SigilClientConfig : Type := {
  cf_rpc : option nat;
  cf_vault : string;
  cf_agent : string;
  cf_network : string;
  cf_blockhashTtlMs : option Z;
  cf_hooks : option SealHooks;
  cf_plugins : option (option (list plugin_arg));
  cf_requireMainnetConfirmation : option bool;
  cf_skipGenesisAssertion : bool;
}.

(** What the closure captures.  Hooks and plugins are read from the
    configuration object at each call. *)
Record Client : Type := {
  cl_rpc : nat;
  cl_vault : string;
  cl_agent : string;
  cl_network : string;
  cl_requireMainnetConfirmation : option bool;
}.

Record ClientCaches : Type := { cc_blockhash : BlockhashCache; cc_alt : AltCache }.

Definition createSigilClient (config : SigilClientConfig) : result js_exn (Client * ClientCaches) :=
  rpc ← match cf_rpc config with Some r => Ok r | None => Throw INVALID_CONFIG end;
  _ ← throw_if (bool_decide (cf_vault config = "")) INVALID_CONFIG;
  _ ← throw_if (bool_decide (cf_agent config = "")) INVALID_CONFIG;
  _ ← throw_if (bool_decide (cf_network config = "")) INVALID_CONFIG;
  _ ← match cf_plugins config with Some l => validatePluginList l | None => Ok [] end;
  _ ← throw_if (negb (bool_decide (cf_network config = "devnet")) &&
                negb (bool_decide (cf_network config = "mainnet"))) INVALID_CONFIG;
  Ok ({| cl_rpc := rpc; cl_vault := cf_vault config; cl_agent := cf_agent config;
         cl_network := cf_network config;
         cl_requireMainnetConfirmation := cf_requireMainnetConfirmation config |},
      {| cc_blockhash := new_BlockhashCache (cf_blockhashTtlMs config);
         cc_alt := new_AltCache None None |}).

Definition createSigilClientAsync (config : SigilClientConfig) (replies : nat → result js_exn jsv)
    (cache : genesis_cache) : genesis_cache * eff (result js_exn (Client * ClientCaches)) :=
  if cf_skipGenesisAssertion config
  then (cache, ([EvWarn "skipGenesisAssertion"], createSigilClient config))
  else
    let '(cache, r) := assertGenesisHash (default 0%nat (cf_rpc config)) (cf_network config) replies cache in
    (cache, ([], _ ← r; createSigilClient config)).

(** ** One call *)

Record ClientSealOpts : Type := {
  co_instructions : list Ix;
  co_tokenMint : string;
  co_amount : Z;
  co_targetProtocol : option string;
  co_computeUnits : option Z;
  co_priorityFeeMicroLamports : option Z;
  co_outputStablecoinAccount : option string;
  co_outputSwapMint : option string;
  co_protocolAltAddresses : list string;
  co_addressLookupTables : option tables;
  co_cachedState : option ResolvedVaultState;
  co_maxCacheAgeMs : option Z;
  co_additionalAtaReplacements : list (string * string);
  co_hooks : option SealHooks;
  co_mainnetConfirmed : option bool;
  co_confirmOptions : SendAndConfirmOptions;
}.

(** The world of one call: the node's answers and clock, what [seal] reads
    besides its parameters, the signer, and the texts of errors. *)
Record CallWorld : Type := {
  cw_node : NodeReplies;
  cw_altNow2 : Z;
  cw_fetchTables2 : list string → option (list (string * list string));
  cw_seal : World;
  cw_sign : list Ix → result js_exn (list ascii);
  cw_send : list ascii → result js_exn string;
  cw_start : Z;
  cw_clock : nat → Z;
  cw_status : nat → result js_exn (option SignatureStatusValue);
  cw_message : js_exn → string;
}.

Section Call.
Context (c : Client) (w : CallWorld).

Definition blockhash_of_caches (s : ClientCaches) : ClientCaches * result js_exn Blockhash :=
  let '(b, r) := bc_get (nr_now (cw_node w)) (nr_later (cw_node w)) (nr_blockhash (cw_node w))
                   (cc_blockhash s) in
  ({| cc_blockhash := b; cc_alt := cc_alt s |}, r).

(** The blockhash and the tables of the client's caches.  The table address is
    taken first; both lookups run before either is awaited; the tables are
    verified, and fetched anew once, only when the client resolved them. *)
Definition resolve_from_caches (opts : ClientSealOpts) (s : ClientCaches)
    : ClientCaches * result js_exn (Blockhash * tables) :=
  match co_addressLookupTables opts with
  | Some t =>
      let '(s, r) := blockhash_of_caches s in (s, b ← r; Ok (b, t))
  | None =>
      let net := normalizeNetwork (cl_network c) in
      let alts := co_protocolAltAddresses opts in
      let now := nr_now (cw_node w) in
      match getSigilAltAddress net with
      | Throw e => (s, Throw e)
      | Ok sigilAlt =>
          let '(s, r) := blockhash_of_caches s in
          match r with
          | Throw e =>
              ({| cc_blockhash := cc_blockhash s;
                  cc_alt := fst (alt_resolve now (nr_fetchTables (cw_node w))
                                   (mergeAltAddresses sigilAlt alts) (cc_alt s)) |}, Throw e)
          | Ok b =>
              let '(a, t) := resolve_verified net alts now (cw_altNow2 w)
                               (nr_fetchTables (cw_node w)) (cw_fetchTables2 w) (cc_alt s) in
              ({| cc_blockhash := cc_blockhash s; cc_alt := a |}, t ← t; Ok (b, t))
          end
      end
  end.

Definition seal_params (opts : ClientSealOpts) : SealParams := {|
  sp_vault := cl_vault c; sp_agent := cl_agent c; sp_instructions := co_instructions opts;
  sp_network := cl_network c; sp_tokenMint := co_tokenMint opts; sp_amount := co_amount opts;
  sp_targetProtocol := co_targetProtocol opts; sp_computeUnits := co_computeUnits opts;
  sp_priorityFeeMicroLamports := co_priorityFeeMicroLamports opts;
  sp_outputStablecoinAccount := co_outputStablecoinAccount opts;
  sp_outputSwapMint := co_outputSwapMint opts; sp_hasLookupTables := true;
  sp_cachedState := co_cachedState opts; sp_maxCacheAgeMs := co_maxCacheAgeMs opts;
  sp_additionalAtaReplacements := co_additionalAtaReplacements opts |}.

(** The checks of the configured plugins. *)
Definition plugin_checks (config : SigilClientConfig) : list check_fn :=
  match cf_plugins config with
  | Some (Some l) => omap (λ p, match p with PluginObject _ c => c | NotAnObject => None end) l
  | _ => []
  end.

(** What [seal] sees: the client's plugins, the verdict of the hook, and the
    blockhash that was resolved. *)
Definition seal_world (config : SigilClientConfig) (skips : bool) : World :=
  let v := cw_seal w in {|
  w_hookSkips := skips; w_cacheAgeMs := w_cacheAgeMs v; w_resolve := w_resolve v;
  w_plugins := plugin_checks config; w_deriveAta := w_deriveAta v;
  w_bytesToAddress := w_bytesToAddress v; w_getProgramDataAddress := w_getProgramDataAddress v;
  w_fetch := w_fetch v; w_blockhash := Ok tt; w_altVerified := w_altVerified v;
  w_accountData := w_accountData v; w_cuLimitIx := w_cuLimitIx v; w_cuPriceIx := w_cuPriceIx v;
  w_validateIx := w_validateIx v; w_finalizeIx := w_finalizeIx v; w_wire := w_wire v;
  w_sha256 := w_sha256 v |}.

(** [onBeforeBuild] runs first, [onBeforeSign] on the finished transaction (of
    a transaction whose digest cannot be computed its effects are left out). *)
Definition sealed_with_hooks (config : SigilClientConfig) (hooks : option SealHooks)
    (opts : ClientSealOpts) : eff (result js_exn SealResult) :=
  let '(e1, verdict) := invokeHook hooks onBeforeBuild None in
  let skips := match verdict with Some _ => true | None => false end in
  match seal (seal_world config skips) (seal_params opts) with
  | Throw e => (e1, Throw e)
  | Ok r => let '(e2, _) := invokeHook hooks onBeforeSign tt in (e1 ++ e2, Ok r)
  end.

Definition clientSeal (config : SigilClientConfig) (hooks : option SealHooks) (opts : ClientSealOpts)
    (s : ClientCaches) : ClientCaches * eff (result js_exn SealResult) :=
  let '(s, r) := resolve_from_caches opts s in
  match r with
  | Throw e => (s, ([], Throw e))
  | Ok _ => (s, sealed_with_hooks config hooks opts)
  end.

(** [client.seal]: the caller's own hooks only. *)
Definition client_seal (config : SigilClientConfig) (opts : ClientSealOpts) (s : ClientCaches)
    : ClientCaches * eff (result js_exn SealResult) :=
  clientSeal config (co_hooks opts) opts s.

(** ** The mainnet gate *)

Definition MAINNET_CONFIRMATION_REQUIRED : js_exn := sdk "MAINNET_CONFIRMATION_REQUIRED".

Definition mainnet_gate (confirmed : option bool) : eff (result js_exn unit) :=
  if bool_decide (cl_network c = "mainnet") then
    match cl_requireMainnetConfirmation c, confirmed with
    | Some true, Some true => ([], Ok tt)
    | Some true, _ => ([], Throw MAINNET_CONFIRMATION_REQUIRED)
    | None, None => ([EvWarn "mainnet"], Ok tt)
    | _, _ => ([], Ok tt)
    end
  else ([], Ok tt).

(** ** Executing *)

(** A failure of a client method: thrown as it is by the gate, or wrapped. *)
Inductive client_exn : Type :=
| Bare (e : js_exn)
| Wrapped (error : jsv).

(** The thrown object behind an exception of the model. *)
Definition exn_value (e : js_exn) : jsv :=
  match e with
  | SdkDomainError code =>
      JErr CSigilError (cw_message w e)
        [("name", JStr "SigilError"); ("code", JStr code); ("context", JObj [])]
  | JsError m => JErr CError m []
  | JsTypeError => JErr CTypeError (cw_message w e) []
  | _ => JErr CError (cw_message w e) []
  end.

(** The polls of [sendAndConfirmTransaction] are enough to reach its deadline,
    so the default stands for the same timeout. *)
Definition send_and_confirm (wire : list ascii) (o : SendAndConfirmOptions) : result js_exn string :=
  default (Throw CONFIRMATION_TIMEOUT)
    (sendAndConfirmTransaction (cw_send w wire) (cw_start w) (cw_clock w) (cw_status w) o).

(** Sign, then send, then confirm. *)
Definition sign_and_send (ixs : list Ix) (o : SendAndConfirmOptions) : eff (result js_exn string) :=
  match cw_sign w ixs with
  | Throw e => ([EvSign ixs], Throw e)
  | Ok wire => ([EvSign ixs; EvSend wire], send_and_confirm wire o)
  end.

Record ExecuteResult : Type := { er_signature : string; er_sealResult : SealResult }.

(** The body of the try block. *)
Definition execute_body (config : SigilClientConfig) (hooks : option SealHooks) (opts : ClientSealOpts)
    (s : ClientCaches) : ClientCaches * eff (result js_exn ExecuteResult) :=
  let '(s, (e1, sealed)) := clientSeal config hooks opts s in
  match sealed with
  | Throw e => (s, (e1, Throw e))
  | Ok r =>
      let '(e2, sent) := sign_and_send (sr_instructions r) (co_confirmOptions opts) in
      match sent with
      | Throw e => (s, (e1 ++ e2, Throw e))
      | Ok signature =>
          let '(e3, _) := invokeHook hooks onAfterSend tt in
          let '(e4, _) := invokeHook hooks onFinalize tt in
          (s, (e1 ++ e2 ++ e3 ++ e4, Ok {| er_signature := signature; er_sealResult := r |}))
      end
  end.

Definition action_of (amount : Z) : string := if 0 <? amount then "spending" else "non-spending".

(** [config.onError] is always installed here; without one the event is not
    seen. *)
Definition executeAndConfirm (config : SigilClientConfig) (opts : ClientSealOpts) (s : ClientCaches)
    : ClientCaches * eff (result client_exn ExecuteResult) :=
  let '(e0, gate) := mainnet_gate (co_mainnetConfirmed opts) in
  match gate with
  | Throw e => (s, (e0, Throw (Bare e)))
  | Ok _ =>
      let hooks := composeHooks (cf_hooks config) (co_hooks opts) in
      let '(s, (es, r)) := execute_body config hooks opts s in
      match r with
      | Ok x => (s, (e0 ++ es, Ok x))
      | Throw e =>
          match toSigilAgentError (exn_value e) with
          | Ok sdkError =>
              let '(eh, _) := invokeHook hooks onError tt in
              (s, (e0 ++ es ++ eh ++ [EvOnError sdkError (action_of (co_amount opts))],
                   Throw (Wrapped sdkError)))
          | Throw e' => (s, (e0 ++ es, Throw (Bare e')))
          end
      end
  end.

(** [client.transfer]: the agent's own payout, through the caches that owner
    transactions share. *)
Record TransferOptions : Type := {
  to_destination : string;
  to_amount : Z;
  to_tokenMint : string;
  to_computeUnits : option Z;
  to_priorityFeeMicroLamports : option Z;
  to_confirmOptions : SendAndConfirmOptions;
  to_mainnetConfirmed : option bool;
}.

Context (cp : Compiler) (overlayPda : string → string) (transferIx : AgentTransferArgs → Ix).

Definition transfer_body (opts : TransferOptions) (s : OwnerCaches)
    : OwnerCaches * eff (result js_exn string) :=
  match buildAgentTransfer (w_deriveAta (cw_seal w)) overlayPda transferIx (w_resolve (cw_seal w)) {|
          at_vault := cl_vault c; at_agent := cl_agent c; at_destination := to_destination opts;
          at_amount := to_amount opts; at_tokenMint := to_tokenMint opts;
          at_network := cl_network c; at_cachedState := None |} with
  | Throw e => (s, ([], Throw e))
  | Ok ix =>
      let '(s, built) := buildOwnerTransaction cp (cw_node w) {|
          bo_rpc := cl_rpc c; bo_owner := cl_agent c; bo_instructions := [ix];
          bo_network := cl_network c; bo_computeUnits := to_computeUnits opts;
          bo_priorityFeeMicroLamports := to_priorityFeeMicroLamports opts;
          bo_addressLookupTables := None; bo_blockhash := None |} s in
      match built with
      | Throw e => (s, ([], Throw e))
      | Ok tx => (s, sign_and_send (ot_instructions tx) (to_confirmOptions opts))
      end
  end.

Definition transfer (opts : TransferOptions) (s : OwnerCaches)
    : OwnerCaches * eff (result client_exn string) :=
  let '(e0, gate) := mainnet_gate (to_mainnetConfirmed opts) in
  match gate with
  | Throw e => (s, (e0, Throw (Bare e)))
  | Ok _ =>
      let '(s, (es, r)) := transfer_body opts s in
      match r with
      | Ok signature => (s, (e0 ++ es, Ok signature))
      | Throw e =>
          match toSigilAgentError (exn_value e) with
          | Ok sdkError => (s, (e0 ++ es ++ [EvOnError sdkError "transfer"], Throw (Wrapped sdkError)))
          | Throw e' => (s, (e0 ++ es, Throw (Bare e')))
          end
      end
  end.
End Call.

Definition invalidateCaches (s : ClientCaches) : ClientCaches :=
  {| cc_blockhash := bc_invalidate (cc_blockhash s); cc_alt := alt_invalidate (cc_alt s) |}.

(** ** The deprecated class and the vault handle *)

(** [SigilClient]: neither the configured hooks nor the plugins are used. *)
Definition legacy_config (config : SigilClientConfig) : SigilClientConfig := {|
  cf_rpc := cf_rpc config; cf_vault := cf_vault config; cf_agent := cf_agent config;
  cf_network := cf_network config; cf_blockhashTtlMs := cf_blockhashTtlMs config;
  cf_hooks := None; cf_plugins := None;
  cf_requireMainnetConfirmation := cf_requireMainnetConfirmation config;
  cf_skipGenesisAssertion := cf_skipGenesisAssertion config |}.

Definition legacy_executeAndConfirm (c : Client) (w : CallWorld) (config : SigilClientConfig)
    (opts : ClientSealOpts) (s : ClientCaches) : ClientCaches * eff (result client_exn ExecuteResult) :=
  let '(e0, gate) := mainnet_gate c (co_mainnetConfirmed opts) in
  match gate with
  | Throw e => (s, (e0, Throw (Bare e)))
  | Ok _ =>
      let fail es e :=
        match toSigilAgentError (exn_value w e) with
        | Ok sdkError => (e0 ++ es ++ [EvOnError sdkError (action_of (co_amount opts))], Throw (Wrapped sdkError))
        | Throw e' => (e0 ++ es, Throw (Bare e'))
        end in
      let '(s, (e1, sealed)) := clientSeal c w (legacy_config config) (co_hooks opts) opts s in
      match sealed with
      | Throw e => (s, fail e1 e)
      | Ok r =>
          let '(e2, sent) := sign_and_send w (sr_instructions r) (co_confirmOptions opts) in
          match sent with
          | Throw e => (s, fail (e1 ++ e2) e)
          | Ok signature => (s, (e0 ++ e1 ++ e2, Ok {| er_signature := signature; er_sealResult := r |}))
          end
      end
  end.

Definition with_hooks (opts : ClientSealOpts) (h : option SealHooks) : ClientSealOpts := {|
  co_instructions := co_instructions opts; co_tokenMint := co_tokenMint opts;
  co_amount := co_amount opts; co_targetProtocol := co_targetProtocol opts;
  co_computeUnits := co_computeUnits opts;
  co_priorityFeeMicroLamports := co_priorityFeeMicroLamports opts;
  co_outputStablecoinAccount := co_outputStablecoinAccount opts;
  co_outputSwapMint := co_outputSwapMint opts;
  co_protocolAltAddresses := co_protocolAltAddresses opts;
  co_addressLookupTables := co_addressLookupTables opts; co_cachedState := co_cachedState opts;
  co_maxCacheAgeMs := co_maxCacheAgeMs opts;
  co_additionalAtaReplacements := co_additionalAtaReplacements opts; co_hooks := h;
  co_mainnetConfirmed := co_mainnetConfirmed opts; co_confirmOptions := co_confirmOptions opts |}.

(** [SigilVault.execute]; the handle holds the hooks its client was made with. *)
Definition vault_execute (c : Client) (w : CallWorld) (config : SigilClientConfig)
    (opts : ClientSealOpts) (s : ClientCaches) : ClientCaches * eff (result client_exn ExecuteResult) :=
  executeAndConfirm c w config (with_hooks opts (composeHooks (cf_hooks config) (co_hooks opts))) s.

(** Owner methods of the handle need an owner signer. *)
Definition requireOwnerClient {A} (ownerClient : option A) : result js_exn A :=
  match ownerClient with Some o => Ok o | None => Throw (sdk "OWNER_REQUIRED") end.

(** ** Properties *)

(** The mainnet gate cannot be passed by accident.  A client made for
    mainnet with confirmation required throws, before touching a cache, a hook
    or the signer, unless the call itself says it is confirmed; this holds for
    sealed transactions, for direct transfers and for the deprecated class, and
    the configuration object of the moment plays no part in it. *)
Theorem mainnet_needs_confirmation (c : Client) (w : CallWorld) (config : SigilClientConfig)
    (opts : ClientSealOpts) (topts : TransferOptions) cp overlayPda transferIx
    (s : ClientCaches) (s' : OwnerCaches) :
  cl_network c = "mainnet" → cl_requireMainnetConfirmation c = Some true →
  (co_mainnetConfirmed opts ≠ Some true →
     executeAndConfirm c w config opts s = (s, ([], Throw (Bare MAINNET_CONFIRMATION_REQUIRED))) ∧
     legacy_executeAndConfirm c w config opts s
       = (s, ([], Throw (Bare MAINNET_CONFIRMATION_REQUIRED)))) ∧
  (to_mainnetConfirmed topts ≠ Some true →
     transfer c w cp overlayPda transferIx topts s'
       = (s', ([], Throw (Bare MAINNET_CONFIRMATION_REQUIRED)))).
Proof.
  intros Hn Hr.
  assert (Hg : ∀ b, b ≠ Some true → mainnet_gate c b = ([], Throw MAINNET_CONFIRMATION_REQUIRED)).
  { intros b Hb. unfold mainnet_gate. rewrite bool_decide_eq_true_2, Hr by done.
    by destruct b as [[]|]. }
  split; intros Hc; [split|].
  - unfold executeAndConfirm. by rewrite Hg.
  - unfold legacy_executeAndConfirm. by rewrite Hg.
  - unfold transfer. by rewrite Hg.
Qed.

(** The gate lets a call pass, with at most a warning. *)
Lemma mainnet_gate_Ok c b es :
  mainnet_gate c b = (es, Ok tt) →
  (cl_network c = "mainnet" → cl_requireMainnetConfirmation c = Some true → b = Some true) ∧
  (es = [] ∨ es = [EvWarn "mainnet"]).
Proof.
  unfold mainnet_gate. case_bool_decide; [|intros [= <-]; split; [done | by left]].
  destruct (cl_requireMainnetConfirmation c) as [[]|], b as [[]|]; intros [= <-];
    (split; [done || (intros; discriminate) | auto]).
Qed.

Lemma sealed_with_hooks_Ok c w config hooks opts es r :
  sealed_with_hooks c w config hooks opts = (es, Ok r) →
  seal (seal_world w config false) (seal_params c opts) = Ok r.
Proof.
  unfold sealed_with_hooks. destruct (invokeHook hooks onBeforeBuild None) as [e1 v].
  destruct (invokeHook hooks onBeforeSign tt) as [e2 u].
  destruct (seal _ _) as [r'|] eqn:E; intros [= _ <-]. destruct v; [|done].
  unfold seal, preflight_seal in E. inv_ok. discriminate.
Qed.

Lemma clientSeal_Ok c w config hooks opts s s' es r :
  clientSeal c w config hooks opts s = (s', (es, Ok r)) →
  seal (seal_world w config false) (seal_params c opts) = Ok r ∧
  ∃ bt, resolve_from_caches c w opts s = (s', Ok bt).
Proof.
  unfold clientSeal. destruct (resolve_from_caches c w opts s) as [s1 [bt|e]]; [|discriminate].
  intros [= <- H]. split; [by eapply sealed_with_hooks_Ok | eauto].
Qed.

Lemma sign_and_send_Ok w ixs o es sig :
  sign_and_send w ixs o = (es, Ok sig) →
  ∃ wire, cw_sign w ixs = Ok wire ∧ es = [EvSign ixs; EvSend wire] ∧ send_and_confirm w wire o = Ok sig.
Proof.
  unfold sign_and_send. destruct (cw_sign w ixs) as [wire|]; [|discriminate].
  intros [= <- H]. eauto.
Qed.

(** The object behind an exception has an object or nothing as its context. *)
Lemma exn_value_context w e : context_ok (exn_value w e).
Proof. by destruct e. Qed.

Definition domain_code (e : js_exn) : option string :=
  match e with SdkDomainError code => Some code | _ => None end.

Definition wrapped_ok (w : CallWorld) (v : jsv) : Prop :=
  ∃ e, toSigilAgentError (exn_value w e) = Ok v ∧
    isAgentError v = true ∧ instanceof_Error v = true ∧
    (∀ code, e = SdkDomainError code → startsWith code "SIGIL_ERROR__" = true →
       field v "code" = JStr code).

Lemma wrapped_error_ok w e : ∃ v, toSigilAgentError (exn_value w e) = Ok v ∧ wrapped_ok w v.
Proof.
  destruct (seal_errors_are_agent_errors (exn_value w e) (exn_value_context w e)) as (v & Hv & Ha & Hi & Hd & _).
  exists v. split; [done|]. exists e. split_and!; [done..|].
  intros code -> Hs. apply Hd. unfold is_domain_error. simpl. by rewrite Hs.
Qed.

(** What the client executes is what was sealed.  When [executeAndConfirm]
    succeeds, [seal] accepted these very parameters with the client's plugins
    and no hook's veto; exactly the sealed instructions were signed, and the
    signed transaction was sent, in that order; the node confirmed the
    signature that is returned; and on a client that requires it the call
    carried the mainnet confirmation. *)
Theorem executed_transaction_was_sealed (c : Client) (w : CallWorld) (config : SigilClientConfig)
    (opts : ClientSealOpts) (s s' : ClientCaches) (es : list event) (x : ExecuteResult) :
  executeAndConfirm c w config opts s = (s', (es, Ok x)) →
  seal (seal_world w config false) (seal_params c opts) = Ok (er_sealResult x) ∧
  (∃ before wire after,
     es = before ++ [EvSign (sr_instructions (er_sealResult x)); EvSend wire] ++ after ∧
     cw_sign w (sr_instructions (er_sealResult x)) = Ok wire ∧
     send_and_confirm w wire (co_confirmOptions opts) = Ok (er_signature x)) ∧
  (cl_network c = "mainnet" → cl_requireMainnetConfirmation c = Some true →
     co_mainnetConfirmed opts = Some true).
Proof.
  unfold executeAndConfirm. destruct (mainnet_gate c (co_mainnetConfirmed opts)) as [e0 [[]|e]] eqn:Eg;
    [|discriminate]. apply mainnet_gate_Ok in Eg as [Hgate _].
  unfold execute_body. set (hooks := composeHooks _ _).
  destruct (clientSeal c w config hooks opts s) as [s1 [e1 [r|e]]] eqn:Es;
    [|by destruct (wrapped_error_ok w e) as (v & -> & _), (invokeHook hooks onError tt)].
  apply clientSeal_Ok in Es as [Hseal _].
  destruct (sign_and_send w (sr_instructions r) (co_confirmOptions opts)) as [e2 [sig|e]] eqn:Esend;
    [|by destruct (wrapped_error_ok w e) as (v & -> & _), (invokeHook hooks onError tt)].
  apply sign_and_send_Ok in Esend as (wire & Hsign & -> & Hconf).
  destruct (invokeHook hooks onAfterSend tt) as [e3 u3].
  destruct (invokeHook hooks onFinalize tt) as [e4 u4]. intros [= _ <- <-]. simpl.
  split; [done|]. split; [|done].
  exists (e0 ++ e1), wire, (e3 ++ e4). split; [by rewrite <- !app_assoc | done].
Qed.

(** A failed call reports its failure once, and as an agent error.  Either
    the gate refused it and nothing happened, or the error thrown is both an
    [Error] and an [AgentError], keeping the discriminant of a typed SDK error;
    the error callback saw that same error, last; and a transaction was signed
    only if it had been sealed. *)
Theorem failed_execution_is_reported (c : Client) (w : CallWorld) (config : SigilClientConfig)
    (opts : ClientSealOpts) (s s' : ClientCaches) (es : list event) (err : client_exn) :
  executeAndConfirm c w config opts s = (s', (es, Throw err)) →
  (err = Bare MAINNET_CONFIRMATION_REQUIRED ∧ s' = s ∧ es = []) ∨
  ∃ v pre, err = Wrapped v ∧ wrapped_ok w v ∧
    es = pre ++ [EvOnError v (action_of (co_amount opts))] ∧
    ((∃ e1 eh e0, pre = e0 ++ e1 ++ eh ∧
        ∃ e, snd (clientSeal c w config (composeHooks (cf_hooks config) (co_hooks opts)) opts s)
             = (e1, Throw e)) ∨
     (∃ r, seal (seal_world w config false) (seal_params c opts) = Ok r ∧
        ∃ a b, pre = a ++ EvSign (sr_instructions r) :: b)).
Proof.
  unfold executeAndConfirm. destruct (mainnet_gate c (co_mainnetConfirmed opts)) as [e0 [[]|e]] eqn:Eg.
  2:{ intros [= <- <- <-]. left. unfold mainnet_gate in Eg.
      destruct (bool_decide _), (cl_requireMainnetConfirmation c) as [[]|],
        (co_mainnetConfirmed opts) as [[]|]; simplify_eq; done. }
  right. revert H. unfold execute_body. set (hooks := composeHooks _ _).
  destruct (clientSeal c w config hooks opts s) as [s1 [e1 [r|e]]] eqn:Es.
  - apply clientSeal_Ok in Es as [Hseal _].
    destruct (sign_and_send w (sr_instructions r) (co_confirmOptions opts)) as [e2 [sig|e]] eqn:Esend.
    { destruct (invokeHook hooks onAfterSend tt), (invokeHook hooks onFinalize tt). discriminate. }
    destruct (wrapped_error_ok w e) as (v & -> & Hw), (invokeHook hooks onError tt) as [eh u]. intros [= _ <- <-].
    eexists _, (e0 ++ (e1 ++ e2) ++ eh). split; [done|]. split; [done|].
    split; [by rewrite <- !app_assoc|]. right. exists r. split; [done|].
    unfold sign_and_send in Esend.
    destruct (cw_sign w (sr_instructions r)); injection Esend as <- _;
      eexists (e0 ++ e1), _; by rewrite <- !app_assoc.
  - destruct (wrapped_error_ok w e) as (v & -> & Hw), (invokeHook hooks onError tt) as [eh u]. intros [= _ <- <-].
    eexists _, (e0 ++ e1 ++ eh). split; [done|]. split; [done|].
    split; [by rewrite <- !app_assoc|]. left. exists e1, eh, e0. eauto.
Qed.

(** ** Hooks *)

(** Client hooks come first and either side may veto.  Composed, the
    client's stage runs before the call's, and the seal is abandoned exactly
    when the client's hook vetoes, or it returns without a veto and the call's
    hook vetoes.  A client hook that throws hides the veto of the call's. *)
Theorem composed_hooks_specified (o i : SealHooks) (eo ei : list event)
    (ro ri : result js_exn (option string)) :
  onBeforeBuild o = Some (eo, ro) → onBeforeBuild i = Some (ei, ri) →
  invokeHook (composeHooks (Some o) (Some i)) onBeforeBuild None =
    match ro with
    | Throw _ => (eo ++ [EvWarn "hook"], None)
    | Ok (Some reason) => (eo, Some reason)
    | Ok None => match ri with
                 | Throw _ => (eo ++ ei ++ [EvWarn "hook"], None)
                 | Ok verdict => (eo ++ ei, verdict)
                 end
    end.
Proof.
  intros Ho Hi. unfold invokeHook. simpl. unfold before_build_in_turn, optional_call.
  rewrite Ho, Hi. destruct ro as [[reason|]|e]; [done| |done].
  destruct ri; [done|]. by rewrite app_assoc.
Qed.

(** A hook of a vault handle runs twice.  [SigilVault.execute] composes the
    handle's hooks with the call's and passes them to a client that was made
    with the same hooks and composes them again. *)
Theorem vault_execute_repeats_hooks (c : Client) (w : CallWorld) (config : SigilClientConfig)
    (opts : ClientSealOpts) (s : ClientCaches) (h : SealHooks) (es : list event) :
  cf_hooks config = Some h → co_hooks opts = None → onBeforeBuild h = Some (es, Ok None) →
  vault_execute c w config opts s = executeAndConfirm c w config (with_hooks opts (Some h)) s ∧
  invokeHook (composeHooks (cf_hooks config) (co_hooks (with_hooks opts (Some h)))) onBeforeBuild None
    = (es ++ es, None).
Proof.
  intros Hc Ho Hh. unfold vault_execute. rewrite Hc, Ho. split; [done|].
  simpl. unfold invokeHook. simpl. unfold before_build_in_turn, optional_call. by rewrite Hh.
Qed.

(** ** Plugins *)

Lemma validate_plugins_names names l k :
  validate_plugins names l = Ok k →
  NoDup k.*1 ∧ Forall (λ n, n ≠ "" ∧ n ∉ names) k.*1 ∧
  k.*2 = omap (λ p, match p with PluginObject _ c => c | NotAnObject => None end) l.
Proof.
  revert names k. induction l as [|[|[n|] [f|]] l IH]; intros names k; simpl; try discriminate.
  { intros [= <-]. split_and!; constructor. }
  repeat case_bool_decide; try discriminate. intros H'. inv_ok.
  apply IH in E as (Hnd & Hf & Hm). simpl.
  split_and!; [constructor; [|done] | constructor; [done|] | f_equal; exact Hm].
  - intros Hin. rewrite Forall_forall in Hf. apply Hf in Hin as [_ Hin]. apply Hin. left.
  - eapply Forall_impl; [exact Hf|]. intros n' [Hn' Hnot]. split; [done|]. set_solver.
Qed.

(** ** Cluster *)

Lemma retry_Ok {A} fuel i (op : nat → result js_exn A) a :
  retry fuel i op = Ok a →
  ∃ k, (i ≤ k ≤ i + fuel)%nat ∧ op k = Ok a ∧
    ∀ j, (i ≤ j < k)%nat → is_ok (op j) = false.
Proof.
  revert i. induction fuel as [|fuel IH]; intros i; simpl.
  - intros H. exists i. split_and!; [lia | lia | done |]. intros; lia.
  - destruct (op i) as [b|e] eqn:E.
    + intros [= <-]. exists i. split_and!; [lia | lia | done |]. intros; lia.
    + intros H. destruct (IH _ H) as (k & Hk & Hok & Hfail). exists k. split_and!; [lia | lia | done |].
      intros j Hj. destruct (decide (j = i)) as [->|]; [by rewrite E | apply Hfail; lia].
Qed.

(** The cache of genesis hashes holds what nodes have answered. *)
Definition observed_by (replies : nat → result js_exn jsv) (observed : string) : Prop :=
  ∃ k v, (k < 3)%nat ∧ replies k = Ok v ∧ genesis_text v = Some observed.

Lemma assertGenesisHash_Ok rpc network replies cache cache' :
  assertGenesisHash rpc network replies cache = (cache', Ok tt) →
  cache' !! rpc = Some (expected_genesis network) ∧
  (cache !! rpc = Some (expected_genesis network) ∨
   cache !! rpc = None ∧ observed_by replies (expected_genesis network)).
Proof.
  unfold assertGenesisHash. destruct (cache !! rpc) as [o|] eqn:Ec.
  - intros [= <- H]. apply throw_if_Ok in H.
    apply negb_false_iff, bool_decide_eq_true in H. subst. auto.
  - destruct (withRetry replies) as [v|] eqn:Er; [|discriminate].
    destruct (genesis_text v) as [o|] eqn:Eg; [|discriminate].
    intros [= <- H]. apply throw_if_Ok in H.
    apply negb_false_iff, bool_decide_eq_true in H. subst. rewrite lookup_insert_eq. split; [done|].
    right. split; [done|]. apply retry_Ok in Er as (k & Hk & Hv & _). exists k, v. split; [lia | done].
Qed.

(** A client that was made asynchronously talks to the cluster it was
    configured for.  Unless the assertion is skipped, the node's genesis hash,
    read within three attempts or remembered from an earlier one of the same
    RPC client, is that of the configured network, which is devnet or mainnet;
    and on a first, successful answer the outcome is the verdict of
    [verifyNetworkIdentity]. *)
Theorem client_is_on_the_configured_cluster (config : SigilClientConfig)
    (replies : nat → result js_exn jsv) (cache cache' : genesis_cache) es (c : Client) (s : ClientCaches) :
  createSigilClientAsync config replies cache = (cache', (es, Ok (c, s))) →
  (cl_network c = "devnet" ∨ cl_network c = "mainnet") ∧ cl_network c = cf_network config ∧
  (cf_skipGenesisAssertion config = false →
     cache' !! cl_rpc c = Some (expected_genesis (cl_network c)) ∧
     (cache !! cl_rpc c = Some (expected_genesis (cl_network c)) ∨
      observed_by replies (expected_genesis (cl_network c))) ∧
     (cache !! cl_rpc c = None → is_ok (replies 0%nat) = true →
        ni_verified (verifyNetworkIdentity (cl_network c) (replies 0%nat)) = true)).
Proof.
  assert (Hcreate : createSigilClient config = Ok (c, s) →
    (cl_network c = "devnet" ∨ cl_network c = "mainnet") ∧ cl_network c = cf_network config ∧
    cf_rpc config = Some (cl_rpc c)).
  { unfold createSigilClient. intros H. inv_ok. simplify_eq. simpl.
    destruct (cf_rpc config) as [r|]; [|discriminate]. injection E as ->.
    match goal with Hn : _ && _ = false |- _ => apply andb_false_iff in Hn; rename Hn into Hnet end.
    rewrite !negb_false_iff, !bool_decide_eq_true in Hnet. auto. }
  unfold createSigilClientAsync. destruct (cf_skipGenesisAssertion config).
  { intros [= _ _ H]. apply Hcreate in H as (Hn & Hcf & _). done. }
  destruct (assertGenesisHash _ _ _ _) as [cache1 r] eqn:Ea. intros [= <- _ H].
  destruct r as [[]|e]; [|discriminate]. apply Hcreate in H as (Hn & Hcf & Hrpc).
  rewrite Hrpc, <- Hcf in Ea. simpl in Ea.
  split; [done|]. split; [done|]. intros _.
  destruct (assertGenesisHash_Ok _ _ _ _ _ Ea) as [Hc' Hsrc].
  split; [done|]. split; [naive_solver|]. intros Hnone Hok.
  unfold assertGenesisHash in Ea. rewrite Hnone in Ea. unfold withRetry in Ea. cbn [retry] in Ea.
  destruct (replies 0%nat) as [v|] eqn:Er; [|discriminate].
  destruct (genesis_text v) as [ob|] eqn:Eg; [|discriminate]. injection Ea as _ Hthrow.
  apply throw_if_Ok in Hthrow. apply negb_false_iff in Hthrow.
  unfold verifyNetworkIdentity. rewrite Eg.
  by destruct Hn as [Hn|Hn]; rewrite Hn in *; simpl.
Qed.

(** ** A concrete client *)

Module Demo.
Definition say (who stage : string) : option (hook unit) := Some ([EvHook who stage], Ok tt).
Definition logging (who : string) (verdict : result js_exn (option string)) : SealHooks := {|
  onBeforeBuild := Some ([EvHook who "onBeforeBuild"], verdict);
  onBeforeSign := say who "onBeforeSign"; onAfterSend := say who "onAfterSend";
  onError := say who "onError"; onFinalize := say who "onFinalize" |}.

Definition config : SigilClientConfig := {|
  cf_rpc := Some 0%nat; cf_vault := Seal.Demo.vault; cf_agent := Seal.Demo.agent;
  cf_network := "devnet"; cf_blockhashTtlMs := None; cf_hooks := Some (logging "client" (Ok None));
  cf_plugins := Some (Some [PluginObject (Some "allow") (Some (λ _ _, PluginAllow))]);
  cf_requireMainnetConfirmation := None; cf_skipGenesisAssertion := false |}.

Definition client (network : string) (require : option bool) : Client := {|
  cl_rpc := 0%nat; cl_vault := Seal.Demo.vault; cl_agent := Seal.Demo.agent;
  cl_network := network; cl_requireMainnetConfirmation := require |}.

Definition caches : ClientCaches :=
  {| cc_blockhash := new_BlockhashCache None; cc_alt := new_AltCache None None |}.

Definition opts (h : option SealHooks) : ClientSealOpts := {|
  co_instructions := sp_instructions Seal.Demo.params; co_tokenMint := USDC_MINT_DEVNET;
  co_amount := 1000000; co_targetProtocol := None; co_computeUnits := None;
  co_priorityFeeMicroLamports := Some 5; co_outputStablecoinAccount := None;
  co_outputSwapMint := Some Seal.Demo.sol; co_protocolAltAddresses := [];
  co_addressLookupTables := None; co_cachedState := None; co_maxCacheAgeMs := None;
  co_additionalAtaReplacements := []; co_hooks := h; co_mainnetConfirmed := None;
  co_confirmOptions := {| sc_timeoutMs := None; sc_pollIntervalMs := None; sc_commitment := None |} |}.

Definition world : CallWorld := {|
  cw_node := OwnerTx.Demo.node; cw_altNow2 := 0; cw_fetchTables2 := λ _, Some [];
  cw_seal := Seal.Demo.world; cw_sign := λ ixs, Ok (chars "wire"); cw_send := λ _, Ok "sig";
  cw_start := 0; cw_clock := λ i, Z.of_nat i * 1000;
  cw_status := λ _, Ok (Some {| ss_err := false; ss_confirmationStatus := "confirmed" |});
  cw_message := λ _, "m" |}.

Definition run (h : option SealHooks) : ClientCaches * eff (result client_exn ExecuteResult) :=
  executeAndConfirm (client "devnet" None) world config (opts h) caches.

(** The stages of a run, with who spoke. *)
Definition stages (es : list event) : list (string * string) :=
  omap (λ e, match e with
             | EvHook o s => Some (o, s)
             | EvSign _ => Some ("sdk", "sign")
             | EvSend _ => Some ("sdk", "send")
             | EvOnError _ a => Some ("sdk", a)
             | EvWarn x => Some ("warn", x)
             end) es.

Lemma run_ok : is_ok (snd (snd (run None))) = true.
Proof. vm_compute. reflexivity. Qed.
End Demo.

(** The stages of a call, in order; a veto of the call's hook; and the same
    veto behind a client hook that throws. *)
Example call_traces :
  Demo.stages (fst (snd (Demo.run (Some (Demo.logging "call" (Ok None)))))) =
    [("client", "onBeforeBuild"); ("call", "onBeforeBuild"); ("client", "onBeforeSign");
     ("call", "onBeforeSign"); ("sdk", "sign"); ("sdk", "send"); ("client", "onAfterSend");
     ("call", "onAfterSend"); ("client", "onFinalize"); ("call", "onFinalize")] ∧
  Demo.stages (fst (snd (Demo.run (Some (Demo.logging "call" (Ok (Some "no"))))))) =
    [("client", "onBeforeBuild"); ("call", "onBeforeBuild"); ("client", "onError");
     ("call", "onError"); ("sdk", "spending")] ∧
  Demo.stages (fst (snd (vault_execute (Demo.client "devnet" None) Demo.world Demo.config
    (Demo.opts None) Demo.caches))) =
    [("client", "onBeforeBuild"); ("client", "onBeforeBuild"); ("client", "onBeforeSign");
     ("client", "onBeforeSign"); ("sdk", "sign"); ("sdk", "send"); ("client", "onAfterSend");
     ("client", "onAfterSend"); ("client", "onFinalize"); ("client", "onFinalize")].
Proof. vm_compute. done. Qed.

Lemma mainnet_needs_confirmation_witness :
  co_mainnetConfirmed (Demo.opts None) ≠ Some true ∧
  snd (executeAndConfirm (Demo.client "mainnet" (Some true)) Demo.world Demo.config
         (Demo.opts None) Demo.caches)
    = ([], Throw (Bare MAINNET_CONFIRMATION_REQUIRED)).
Proof.
  split; [discriminate|].
  rewrite (proj1 (proj1 (mainnet_needs_confirmation (Demo.client "mainnet" (Some true)) Demo.world
    Demo.config (Demo.opts None)
    {| to_destination := ""; to_amount := 0; to_tokenMint := ""; to_computeUnits := None;
       to_priorityFeeMicroLamports := None;
       to_confirmOptions := co_confirmOptions (Demo.opts None); to_mainnetConfirmed := None |}
    OwnerTx.Demo.compiler id (λ _, OwnerTx.Demo.ix 0) Demo.caches OwnerTx.Demo.caches
    eq_refl eq_refl) ltac:(discriminate))).
  reflexivity.
Defined.

Lemma executed_transaction_was_sealed_witness :
  ∃ s es x, Demo.run None = (s, (es, Ok x)) ∧
    seal (seal_world Demo.world Demo.config false) (seal_params (Demo.client "devnet" None) (Demo.opts None))
      = Ok (er_sealResult x).
Proof.
  destruct (Demo.run None) as [s [es [x|e]]] eqn:E.
  - exists s, es, x. split; [reflexivity|]. exact (proj1 (executed_transaction_was_sealed _ _ _ _ _ _ _ _ E)).
  - exfalso. pose proof Demo.run_ok as H. rewrite E in H. discriminate H.
Defined.

Lemma failed_execution_is_reported_witness :
  ∃ s es e, Demo.run (Some (Demo.logging "call" (Ok (Some "no")))) = (s, (es, Throw e)) ∧
    e ≠ Bare MAINNET_CONFIRMATION_REQUIRED.
Proof.
  destruct (Demo.run (Some (Demo.logging "call" (Ok (Some "no"))))) as [s [es [x|e]]] eqn:E.
  - exfalso. apply (f_equal (λ r, is_ok (snd (snd r)))) in E. vm_compute in E. discriminate E.
  - exists s, es, e. split; [reflexivity|].
    destruct (failed_execution_is_reported _ _ _ _ _ _ _ _ E) as [(_ & _ & H)|(v & pre & -> & _)];
      [|discriminate].
    exfalso. apply (f_equal (λ r, length (fst (snd r)))) in E. rewrite H in E. vm_compute in E.
    discriminate E.
Defined.

Lemma composed_hooks_specified_witness :
  invokeHook (composeHooks (Some (Demo.logging "client" (Throw JsTypeError)))
    (Some (Demo.logging "call" (Ok (Some "no"))))) onBeforeBuild None
  = ([EvHook "client" "onBeforeBuild"; EvWarn "hook"], None).
Proof.
  exact (composed_hooks_specified (Demo.logging "client" (Throw JsTypeError))
    (Demo.logging "call" (Ok (Some "no"))) _ _ _ _ eq_refl eq_refl).
Defined.

Lemma vault_execute_repeats_hooks_witness :
  invokeHook (composeHooks (cf_hooks Demo.config)
    (co_hooks (with_hooks (Demo.opts None) (Some (Demo.logging "client" (Ok None)))))) onBeforeBuild None
  = ([EvHook "client" "onBeforeBuild"; EvHook "client" "onBeforeBuild"], None).
Proof.
  exact (proj2 (vault_execute_repeats_hooks (Demo.client "devnet" None) Demo.world Demo.config
    (Demo.opts None) Demo.caches _ _ eq_refl eq_refl eq_refl)).
Defined.

Lemma client_is_on_the_configured_cluster_witness :
  ∃ cache es c s,
    createSigilClientAsync Demo.config (λ _, Ok (JStr SOLANA_DEVNET_GENESIS_HASH)) ∅
      = (cache, (es, Ok (c, s))) ∧ cl_network c = "devnet".
Proof.
  destruct (createSigilClientAsync Demo.config (λ _, Ok (JStr SOLANA_DEVNET_GENESIS_HASH)) ∅)
    as [cache [es [[c s]|e]]] eqn:E.
  - exists cache, es, c, s. split; [reflexivity|].
    apply (client_is_on_the_configured_cluster _ _ _ _ _ _ _ E).
  - exfalso. apply (f_equal (λ r, is_ok (snd (snd r)))) in E. vm_compute in E. discriminate E.
Defined.
