(* ===== verification/Simulation.v ===== *)
(** * Simulation, drain detection and execution ([sdk/kit/src/simulation.ts], [transaction-executor.ts])

    [simulateBeforeSend] turns the node's answer into balance deltas and risk
    flags; [executeTransaction] composes, simulates, and signs only what the
    simulation did not object to.  The node, the compiler of transactions and
    the sender are parameters; the diagnostic text of a failed simulation and
    the events parsed from its logs are left out.

    The theorems: when each flag is raised, that emptying the monitored
    account is always flagged, that the executor signs nothing it has not
    simulated without a full drain, and what the detector does not see. *)

From Stdlib Require String.
From Stdlib Require Import SpecFloat.
From Stdlib Require Import QArith Qround.
From S2P Require Import Prelude IntentDigest SdkTypes StateResolver Base64 Composer Seal.

Local Open Scope Z_scope.

(** ** Drain detection *)

Inductive RiskFlag : Type :=
  LARGE_OUTFLOW | UNKNOWN_RECIPIENT | FULL_DRAIN | MULTI_OUTPUT | SIZE_OVERFLOW.

#[export] Instance RiskFlag_eq_dec : EqDecision RiskFlag.
Proof. solve_decision. Defined.

Record BalanceDelta : Type := {
  bd_account : string;
  bd_preBalance : Z;
  bd_postBalance : Z;
  bd_delta : Z;
}.

(** A JavaScript number: a finite value, or an infinity or NaN. *)
Inductive js_number : Type := Finite (q : Q) | NonFinite.

Record DrainThresholds : Type := {
  warningPercent : option js_number;
  blockPercent : option js_number;
}.

Definition DEFAULT_WARNING_PERCENT : Z := 50.
Definition DEFAULT_BLOCK_PERCENT : Z := 95.

(** [Math.floor(Math.max(0, Math.min(100, Number.isFinite(raw) ? raw : dflt)))] *)
Definition clamp_percent (raw : option js_number) (dflt : Z) : Z :=
  let q := match raw with Some (Finite q) => q | _ => inject_Z dflt end in
  let m := if Qle_bool q 100 then q else 100%Q in
  Qfloor (if Qle_bool 0 m then m else 0%Q).

Record DrainDetectionInput : Type := {
  di_balanceDeltas : list BalanceDelta;
  di_vaultAddress : string;
  di_totalVaultBalance : Z;
  di_knownRecipients : option (list string);
}.

Definition outflow_flag (total outflow pct : Z) (flag : RiskFlag) : list RiskFlag :=
  if (0 <? total) && (total * pct <=? outflow * 100) then [flag] else [].

Definition known (input : DrainDetectionInput) (account : string) : bool :=
  match di_knownRecipients input with
  | Some known => bool_decide (account ∈ known)
  | None => false
  end.

Definition receives (input : DrainDetectionInput) (d : BalanceDelta) : bool :=
  (0 <? bd_delta d) && negb (bool_decide (bd_account d = di_vaultAddress input)).

Definition detectDrainAttempt (input : DrainDetectionInput) (thresholds : option DrainThresholds)
    : list RiskFlag :=
  let warningPct := clamp_percent (t ← thresholds; warningPercent t) DEFAULT_WARNING_PERCENT in
  let blockPct := clamp_percent (t ← thresholds; blockPercent t) DEFAULT_BLOCK_PERCENT in
  match list_find (λ d, bd_account d = di_vaultAddress input) (di_balanceDeltas input) with
  | Some (_, d) =>
      if bd_delta d <? 0
      then outflow_flag (di_totalVaultBalance input) (- bd_delta d) warningPct LARGE_OUTFLOW ++
           outflow_flag (di_totalVaultBalance input) (- bd_delta d) blockPct FULL_DRAIN
      else []
  | None => []
  end ++
  match di_knownRecipients input with
  | Some _ => if existsb (λ d, receives input d && negb (known input (bd_account d)))
                   (di_balanceDeltas input) then [UNKNOWN_RECIPIENT] else []
  | None => []
  end ++
  let unknownPositiveDeltas :=
    filter (λ d, receives input d && negb (known input (bd_account d)) = true)
      (di_balanceDeltas input) in
  if bool_decide (2 ≤ length unknownPositiveDeltas)%nat then [MULTI_OUTPUT] else [].

Definition detectDrainFromSealContext (balanceDeltas : list BalanceDelta) (ctx : VaultContext)
    (thresholds : option DrainThresholds) : list RiskFlag :=
  detectDrainAttempt {|
    di_balanceDeltas := balanceDeltas; di_vaultAddress := vc_vaultAddress ctx;
    di_totalVaultBalance := vc_tokenBalance ctx;
    di_knownRecipients := Some (vc_knownRecipients ctx) |} thresholds.

(** ** Simulation *)

(** [result.value]; [sv_err] says that [err] is truthy, an account is [None]
    when it is null or carries no data. *)
Record SimValue : Type := {
  sv_err : bool;
  sv_unitsConsumed : option Z;
  sv_accounts : option (list (option (list ascii)));
}.

Record SimulationOptions : Type := {
  so_monitorAccounts : list string;
  so_preBalances : gmap string Z;
  so_vaultAddress : option string;
  so_totalVaultBalance : option Z;
  so_knownRecipients : option (list string);
  so_drainThresholds : option DrainThresholds;
}.

Record SimulationResult : Type := {
  sim_success : bool;
  sim_unitsConsumed : option Z;
  sim_balanceDeltas : option (list BalanceDelta);
  sim_riskFlags : list RiskFlag;
}.

(** The loop over the monitored accounts; malformed base64 throws. *)
Fixpoint balance_deltas (preBalances : gmap string Z) (monitor : list string)
    (accounts : list (option (list ascii))) : option (list BalanceDelta) :=
  match monitor with
  | [] => Some []
  | account :: monitor =>
      match head accounts with
      | Some (Some (c :: cs)) =>
          postBalance ← parseTokenBalance (c :: cs);
          let preBalance := default 0 (preBalances !! account) in
          rest ← balance_deltas preBalances monitor (tail accounts);
          Some ({| bd_account := account; bd_preBalance := preBalance;
                   bd_postBalance := postBalance; bd_delta := postBalance - preBalance |} :: rest)
      | _ => balance_deltas preBalances monitor (tail accounts)
      end
  end.

Definition nonzero (z : option Z) : option Z :=
  match z with Some 0 => None | _ => z end.

Definition failed_simulation (units : option Z) : SimulationResult := {|
  sim_success := false; sim_unitsConsumed := units; sim_balanceDeltas := None; sim_riskFlags := [] |}.

(** What is monitored: the accounts, the vault's address and its balance. *)
Definition monitored (options : option SimulationOptions) (value : option SimValue)
    : option (SimulationOptions * list (option (list ascii)) * string * Z) :=
  o ← options;
  v ← value;
  accounts ← sv_accounts v;
  vault ← so_vaultAddress o;
  total ← so_totalVaultBalance o;
  if bool_decide (so_monitorAccounts o = []) || bool_decide (vault = "") then None
  else Some (o, accounts, vault, total).

(** [reply] is what [simulateTransaction] gave: [None] when it threw or timed
    out, [Some None] for a null value. *)
Definition simulateBeforeSend (reply : option (option SimValue)) (options : option SimulationOptions)
    : SimulationResult :=
  match reply with
  | None => failed_simulation None
  | Some value =>
      let units := nonzero (v ← value; sv_unitsConsumed v) in
      if default false (sv_err <$> value) then failed_simulation units else
      match monitored options value with
      | None => {| sim_success := true; sim_unitsConsumed := units; sim_balanceDeltas := None;
                   sim_riskFlags := [] |}
      | Some (o, accounts, vault, total) =>
          match balance_deltas (so_preBalances o) (so_monitorAccounts o) accounts with
          | None => failed_simulation None
          | Some deltas => {|
              sim_success := true; sim_unitsConsumed := units; sim_balanceDeltas := Some deltas;
              sim_riskFlags :=
                if bool_decide (deltas = []) then [] else
                detectDrainAttempt {|
                  di_balanceDeltas := deltas; di_vaultAddress := vault;
                  di_totalVaultBalance := total; di_knownRecipients := so_knownRecipients o |}
                  (so_drainThresholds o) |}
          end
      end
  end.

(** ** Compute units *)

(** Doubles, with 53 bits of precision; the two literals are 1.1 and 0.2. *)
Abbreviation double_of n := (SpecFloat.binary_normalize 53 1024 n 0 false).
Definition double_11_10 : spec_float := S754_finite false 4953959590107546 (-52).
Definition double_1_5 : spec_float := S754_finite false 7205759403792794 (-55).

Definition ceil_double (x : spec_float) : Z :=
  match x with
  | S754_finite sign m e =>
      let v := if sign then Z.neg m else Z.pos m in
      if 0 <=? e then v * 2 ^ e else - ((- v) / 2 ^ (- e))
  | _ => 0
  end.

Definition adjustCU (estimated : Z) (simulated : option Z) : Z :=
  match simulated with
  | None => estimated
  | Some simulated =>
      let headroom := ceil_double (SFmul 53 1024 (double_of simulated) double_11_10) in
      let diff := SFdiv 53 1024 (double_of (Z.abs (headroom - estimated))) (double_of estimated) in
      if SFltb double_1_5 diff then headroom else estimated
  end.

(** The values of the test suite; 100000 * 1.1 is above 110000 as a double. *)
Example adjustCU_tests :
  adjustCU 200000 None = 200000 ∧ adjustCU 200000 (Some 180000) = 200000 ∧
  adjustCU 200000 (Some 100000) = 110001.
Proof. vm_compute. done. Qed.

(** ** The executor *)

Record VaultMonitoring : Type := {
  vm_vaultAddress : string;
  vm_monitorAccounts : list string;
  vm_preBalances : gmap string Z;
  vm_totalVaultBalance : Z;
  vm_knownRecipients : option (list string);
}.

Record ExecuteTransactionParams : Type := {
  ex_validateIx : Ix;
  ex_defiInstructions : list Ix;
  ex_finalizeIx : Ix;
  ex_computeUnits : option Z;
  ex_priorityFee : option Z;
  ex_vaultMonitoring : option VaultMonitoring;
}.

(** The executor's own fields and what it talks to. *)
Record Executor : Type := {
  e_skipSimulation : bool;
  e_drainThresholds : option DrainThresholds;
  e_blockhash : result js_exn unit;
  e_limitIx : Z → Ix;
  e_priceIx : Z → Ix;
  e_wire : list Ix → list ascii;
  e_simulate : list Ix → option (list string) → option (option SimValue);
  e_signSendConfirm : list Ix → result js_exn string;
}.

(** The option that turns simulation off, and its deprecated form. *)
Definition skip_option (dangerouslySkipSimulation : option string) (skipSimulation : option bool) : bool :=
  bool_decide (dangerouslySkipSimulation = Some "I_UNDERSTAND_DRAIN_DETECTION_IS_DISABLED") ||
  bool_decide (skipSimulation = Some true).

Definition compose_with (e : Executor) (p : ExecuteTransactionParams) (units : Z) : list Ix :=
  composeSigilTransaction (e_limitIx e) (e_priceIx e) (Some units) (ex_priorityFee p)
    (ex_validateIx p) (ex_defiInstructions p) (ex_finalizeIx p).

(** The transaction and its compute-unit limit. *)
Definition composeTransaction (e : Executor) (p : ExecuteTransactionParams)
    : result js_exn (list Ix * Z) :=
  _ ← e_blockhash e;
  let computeUnits := default (estimateComposedCU (ex_defiInstructions p)) (ex_computeUnits p) in
  let compiledTx := compose_with e p computeUnits in
  let '(_, withinLimit) := measureTransactionSize (e_wire e compiledTx) in
  _ ← throw_if (negb withinLimit) (JsError "7033");
  Ok (compiledTx, computeUnits).

Definition sim_options (e : Executor) (p : ExecuteTransactionParams) : option SimulationOptions :=
  m ← ex_vaultMonitoring p;
  Some {| so_monitorAccounts := vm_monitorAccounts m; so_preBalances := vm_preBalances m;
          so_vaultAddress := Some (vm_vaultAddress m);
          so_totalVaultBalance := Some (vm_totalVaultBalance m);
          so_knownRecipients := vm_knownRecipients m; so_drainThresholds := e_drainThresholds e |}.

Definition requested_accounts (o : option SimulationOptions) : option (list string) :=
  o ← o; if bool_decide (so_monitorAccounts o = []) then None else Some (so_monitorAccounts o).

Definition simulate (e : Executor) (p : ExecuteTransactionParams) (compiledTx : list Ix)
    (estimatedCU : Z) : SimulationResult * option (list Ix) :=
  let simOptions := sim_options e p in
  let simulation :=
    simulateBeforeSend (e_simulate e compiledTx (requested_accounts simOptions)) simOptions in
  if negb (sim_success simulation) then (simulation, None) else
  let adjustedCU := adjustCU estimatedCU (sim_unitsConsumed simulation) in
  if adjustedCU =? estimatedCU then (simulation, None)
  else (simulation, Some (compose_with e p adjustedCU)).

Record ExecuteTransactionResult : Type := {
  er_signature : string;
  er_unitsConsumed : option Z;
  er_warnings : list RiskFlag;
}.

Definition SIMULATION_FAILED : js_exn := SdkDomainError "SIGIL_ERROR__RPC__SIMULATION_FAILED".
Definition DRAIN_DETECTED : js_exn := SdkDomainError "SIGIL_ERROR__RPC__DRAIN_DETECTED".

(** Step 10: the transaction to sign, or the objection. *)
Definition checked_transaction (e : Executor) (p : ExecuteTransactionParams) (compiledTx : list Ix)
    (computeUnits : Z) : result js_exn (list Ix * option Z * list RiskFlag) :=
  if e_skipSimulation e then Ok (compiledTx, None, []) else
  let '(simulation, recomposedTx) := simulate e p compiledTx computeUnits in
  _ ← throw_if (negb (sim_success simulation)) SIMULATION_FAILED;
  _ ← throw_if (bool_decide (FULL_DRAIN ∈ sim_riskFlags simulation)) DRAIN_DETECTED;
  Ok (default compiledTx recomposedTx, sim_unitsConsumed simulation, sim_riskFlags simulation).

(** The outcome, next to the transactions handed to the signer. *)
Definition executeTransaction (e : Executor) (p : ExecuteTransactionParams)
    : result js_exn ExecuteTransactionResult * list (list Ix) :=
  match composeTransaction e p ≫= λ '(tx, cu), checked_transaction e p tx cu with
  | Throw err => (Throw err, [])
  | Ok (txToSign, units, warnings) =>
      (signature ← e_signSendConfirm e txToSign;
       Ok {| er_signature := signature; er_unitsConsumed := units; er_warnings := warnings |},
       [txToSign])
  end.

(** ** When a flag is raised *)

Lemma clamp_percent_range raw dflt : 0 ≤ dflt ≤ 100 → 0 ≤ clamp_percent raw dflt ≤ 100.
Proof.
  intros Hd. unfold clamp_percent. set (q := match raw with Some (Finite q) => q | _ => _ end).
  set (m := if Qle_bool q 100 then q else 100%Q).
  assert (m <= 100)%Q as Hm.
  { unfold m. destruct (Qle_bool q 100) eqn:E; [by apply Qle_bool_iff|apply Qle_refl]. }
  destruct (Qle_bool 0 m) eqn:E; [|done]. apply Qle_bool_iff in E.
  apply Qfloor_resp_le in E, Hm. done.
Qed.

Lemma outflow_flag_elem total outflow pct flag f :
  f ∈ outflow_flag total outflow pct flag ↔ f = flag ∧ 0 < total ∧ total * pct ≤ outflow * 100.
Proof.
  unfold outflow_flag. destruct (_ && _) eqn:E.
  - rewrite list_elem_of_singleton. apply andb_true_iff in E. intuition lia.
  - rewrite elem_of_nil. apply andb_false_iff in E. intuition lia.
Qed.

(** The outflow flags come from the first delta of the vault's address alone. *)
Lemma outflow_flags input thresholds f :
  f = LARGE_OUTFLOW ∨ f = FULL_DRAIN →
  f ∈ detectDrainAttempt input thresholds ↔
  ∃ i d, list_find (λ d, bd_account d = di_vaultAddress input) (di_balanceDeltas input) = Some (i, d) ∧
    bd_delta d < 0 ∧ 0 < di_totalVaultBalance input ∧
    di_totalVaultBalance input *
      (if bool_decide (f = LARGE_OUTFLOW)
       then clamp_percent (t ← thresholds; warningPercent t) DEFAULT_WARNING_PERCENT
       else clamp_percent (t ← thresholds; blockPercent t) DEFAULT_BLOCK_PERCENT)
      ≤ - bd_delta d * 100.
Proof.
  intros Hf. unfold detectDrainAttempt. rewrite !elem_of_app.
  assert (f ∉ (match di_knownRecipients input with
    | Some _ => if existsb (λ d, receives input d && negb (known input (bd_account d)))
                   (di_balanceDeltas input) then [UNKNOWN_RECIPIENT] else []
    | None => [] end)) as H1.
  { destruct (di_knownRecipients input); [|set_solver]. destruct (existsb _ _); set_solver. }
  match goal with |- context [if bool_decide (2 ≤ ?n)%nat then _ else _] =>
    assert (f ∉ (if bool_decide (2 ≤ n)%nat then [MULTI_OUTPUT] else [])) as H2
      by (case_bool_decide; set_solver) end.
  destruct (list_find _ _) as [[i d]|].
  2: { split; [set_solver|]. by intros (? & ? & ? & _). }
  destruct (bd_delta d <? 0) eqn:Hd.
  - rewrite elem_of_app, !outflow_flag_elem. split.
    + intros [[(-> & Ht & Hp)|(-> & Ht & Hp)]|[?|?]]; [..|done|done]; exists i, d;
        (split_and!; [done|by apply Z.ltb_lt|exact Ht|exact Hp]).
    + intros (? & ? & [= <- <-] & Hlt & Ht & Hp). left.
      destruct Hf as [->| ->]; [left|right]; done.
  - rewrite elem_of_nil. split; [tauto|]. intros (? & ? & [= <- <-] & ? & _). lia.
Qed.

Lemma percent_bound total outflow pct :
  0 < total ≤ outflow → 0 ≤ pct ≤ 100 → total * pct ≤ outflow * 100.
Proof. intros. apply Z.mul_le_mono_nonneg; lia. Qed.

(** Whatever thresholds the caller sets -- negative, above 100, infinite or
    NaN -- a simulation in which the vault's account loses at least the whole
    known balance is flagged both as a large outflow and as a full drain.
    With the one-token sentinel for an unreadable balance, every outflow is. *)
Theorem drained_account_is_always_flagged input thresholds i d :
  list_find (λ d, bd_account d = di_vaultAddress input) (di_balanceDeltas input) = Some (i, d) →
  0 < di_totalVaultBalance input ≤ - bd_delta d →
  LARGE_OUTFLOW ∈ detectDrainAttempt input thresholds ∧
  FULL_DRAIN ∈ detectDrainAttempt input thresholds.
Proof.
  intros Hf Ht.
  pose proof (clamp_percent_range (t ← thresholds; warningPercent t) DEFAULT_WARNING_PERCENT) as H1.
  pose proof (clamp_percent_range (t ← thresholds; blockPercent t) DEFAULT_BLOCK_PERCENT) as H2.
  unfold DEFAULT_WARNING_PERCENT, DEFAULT_BLOCK_PERCENT in *.
  split; apply outflow_flags; [by left| |by right|]; exists i, d;
    (split_and!; [done|lia|lia|apply percent_bound; [done|]]).
  - apply H1. lia.
  - apply H2. lia.
Qed.

(** ** What the executor signs *)

Lemma composeTransaction_Ok e p tx cu :
  composeTransaction e p = Ok (tx, cu) →
  cu = default (estimateComposedCU (ex_defiInstructions p)) (ex_computeUnits p) ∧
  tx = compose_with e p cu ∧ snd (measureTransactionSize (e_wire e tx)) = true.
Proof.
  unfold composeTransaction. intros H. apply bind_Ok_inv in H as (? & _ & H).
  destruct (measureTransactionSize _) as [len ok] eqn:Hm.
  apply bind_Ok_inv in H as (? & Hok%throw_if_Ok & H). injection H as <- <-.
  rewrite Hm. by apply negb_false_iff in Hok.
Qed.

(** The simulation the executor runs on the composed transaction. *)
Definition the_simulation (e : Executor) (p : ExecuteTransactionParams) (tx : list Ix) : SimulationResult :=
  simulateBeforeSend (e_simulate e tx (requested_accounts (sim_options e p))) (sim_options e p).

Lemma simulate_fst e p tx cu : fst (simulate e p tx cu) = the_simulation e p tx.
Proof. unfold simulate. repeat case_match; done. Qed.

Lemma simulate_snd e p tx cu tx' :
  snd (simulate e p tx cu) = Some tx' → ∃ cu', tx' = compose_with e p cu'.
Proof.
  unfold simulate. destruct (negb _); [done|]. destruct (_ =? _); [done|]. intros [= <-]. by eexists.
Qed.

Lemma compose_with_tail e p cu1 cu2 : tail (compose_with e p cu1) = tail (compose_with e p cu2).
Proof. done. Qed.

Lemma checked_transaction_Ok e p cu tx' units warnings :
  e_skipSimulation e = false →
  checked_transaction e p (compose_with e p cu) cu = Ok (tx', units, warnings) →
  sim_success (the_simulation e p (compose_with e p cu)) = true ∧
  FULL_DRAIN ∉ sim_riskFlags (the_simulation e p (compose_with e p cu)) ∧
  ∃ cu', tx' = compose_with e p cu'.
Proof.
  intros Hs. unfold checked_transaction. rewrite Hs.
  pose proof (simulate_fst e p (compose_with e p cu) cu) as Hf.
  pose proof (simulate_snd e p (compose_with e p cu) cu) as Hsnd.
  destruct (simulate _ _ _ _) as [sim re]. simpl in Hf, Hsnd. subst sim. intros H.
  apply bind_Ok_inv in H as (? & H1%throw_if_Ok & H). apply bind_Ok_inv in H as (? & H2%throw_if_Ok & H).
  injection H as <- _ _. apply negb_false_iff in H1. apply bool_decide_eq_false in H2.
  split_and!; [done|done|]. destruct re as [tx|]; [by apply Hsnd|by eexists].
Qed.

(** The flags of a simulation with deltas are the detector's. *)
Lemma simulation_flags e p tx m deltas :
  ex_vaultMonitoring p = Some m → sim_balanceDeltas (the_simulation e p tx) = Some deltas →
  deltas ≠ [] →
  sim_riskFlags (the_simulation e p tx) = detectDrainAttempt {|
    di_balanceDeltas := deltas; di_vaultAddress := vm_vaultAddress m;
    di_totalVaultBalance := vm_totalVaultBalance m; di_knownRecipients := vm_knownRecipients m |}
    (e_drainThresholds e).
Proof.
  intros Hm. unfold the_simulation, simulateBeforeSend, sim_options. rewrite Hm. simpl.
  destruct (e_simulate _ _ _) as [[v|]|]; [|done|done]. simpl.
  destruct (sv_err v); [done|]. unfold monitored. simpl. destruct (sv_accounts v) as [accs|]; [|done].
  simpl. destruct (_ || _); [done|]. destruct (balance_deltas _ _ _) as [ds|]; [|done].
  intros [= ->] Hne. simpl. by rewrite bool_decide_eq_false_2.
Qed.

(** The first monitored place of an account whose simulated data are there
    gives the first delta under its address. *)
Lemma balance_deltas_find pre account monitor accounts deltas i a data :
  balance_deltas pre monitor accounts = Some deltas →
  list_find (λ a, a = account) monitor = Some (i, a) → accounts !! i = Some (Some data) → data ≠ [] →
  ∃ post j d, parseTokenBalance data = Some post ∧ list_find (λ d, bd_account d = account) deltas = Some (j, d) ∧
    bd_delta d = post - default 0 (pre !! account).
Proof.
  intros Hb Hf Ha Hne. revert accounts deltas i Hb Hf Ha.
  induction monitor as [|m monitor IH]; intros accounts deltas i Hb Hf Ha; [done|].
  simpl in Hb, Hf. destruct (decide (m = account)) as [->|Hm].
  - injection Hf as <- <-. destruct accounts as [|x accounts]; [done|]. injection Ha as ->. simpl in Hb.
    destruct data as [|c cs]; [done|]. destruct (parseTokenBalance (c :: cs)) as [post|]; [|done]. simpl in Hb.
    destruct (balance_deltas pre monitor accounts) as [rest|]; [|done]. injection Hb as <-.
    exists post, 0%nat. eexists. split; [done|]. split; [simpl; by rewrite decide_True|done].
  - destruct (list_find (λ a, a = account) monitor) as [[i' a']|] eqn:Hf'; [|done]. injection Hf as <- <-.
    destruct accounts as [|x accounts]; [done|]. simpl in Ha, Hb.
    destruct x as [[|c cs]|]; [by eapply IH| |by eapply IH].
    destruct (parseTokenBalance (c :: cs)) as [post0|]; [|done]. simpl in Hb.
    destruct (balance_deltas pre monitor accounts) as [rest|] eqn:Hr; [|done]. injection Hb as <-.
    destruct (IH accounts rest i' Hr eq_refl Ha) as (post & k & d & ? & Hd & ?). exists post, (S k), d.
    split_and!; [done| |done]. simpl. rewrite decide_False by done. by rewrite Hd.
Qed.

(** A successful simulation of a monitored vault has read every account. *)
Lemma simulation_deltas e p tx m v accounts :
  ex_vaultMonitoring p = Some m → e_simulate e tx (requested_accounts (sim_options e p)) = Some (Some v) →
  sv_accounts v = Some accounts → vm_monitorAccounts m ≠ [] → vm_vaultAddress m ≠ "" →
  sim_success (the_simulation e p tx) = true →
  ∃ deltas, balance_deltas (vm_preBalances m) (vm_monitorAccounts m) accounts = Some deltas ∧
    sim_balanceDeltas (the_simulation e p tx) = Some deltas.
Proof.
  intros Hm Hv Ha Hne Hva. unfold the_simulation. rewrite Hv. unfold simulateBeforeSend, sim_options, monitored.
  rewrite Hm. simpl. destruct (sv_err v); [done|]. simpl. rewrite Ha. simpl. rewrite !bool_decide_false by done. simpl.
  destruct (balance_deltas _ _ _) as [deltas|]; [|done]. intros _. by exists deltas.
Qed.

(** Without the blocking flag a delta of the vault's account is a gain or a loss
    below the blocking share. *)
Lemma unflagged_loss e p tx m deltas i d :
  ex_vaultMonitoring p = Some m → sim_balanceDeltas (the_simulation e p tx) = Some deltas →
  FULL_DRAIN ∉ sim_riskFlags (the_simulation e p tx) →
  list_find (λ d, bd_account d = vm_vaultAddress m) deltas = Some (i, d) → 0 < vm_totalVaultBalance m →
  0 ≤ bd_delta d ∨ - bd_delta d * 100 <
    vm_totalVaultBalance m * clamp_percent (t ← e_drainThresholds e; blockPercent t) DEFAULT_BLOCK_PERCENT.
Proof.
  intros Hm Hd Hno Hf Ht. destruct (Z.le_gt_cases 0 (bd_delta d)) as [|Hneg]; [by left|right].
  destruct (decide (deltas = [])) as [->|Hne]; [done|].
  rewrite (simulation_flags _ _ _ _ _ Hm Hd Hne) in Hno.
  destruct (Z.lt_ge_cases (- bd_delta d * 100) (vm_totalVaultBalance m *
      clamp_percent (t ← e_drainThresholds e; blockPercent t) DEFAULT_BLOCK_PERCENT)) as [|Hge]; [done|].
  destruct Hno. apply outflow_flags; [by right|]. exists i, d. split_and!; done.
Qed.


(** ** What the detector does not see *)

Lemma list_find_absent vault (deltas : list BalanceDelta) :
  Forall (λ d, bd_account d ≠ vault) deltas →
  list_find (λ d, bd_account d = vault) deltas = None.
Proof. intros H. apply list_find_None. done. Qed.

(** The context that [seal] returns names the vault itself, while balance
    deltas are about token accounts: unless some delta carries the vault's own
    address, no outflow flag is ever raised from it, whatever leaves the
    vault's token account. *)
Theorem seal_context_misses_outflows w params r deltas thresholds :
  seal w params = Ok r →
  Forall (λ d, bd_account d ≠ sp_vault params) deltas →
  LARGE_OUTFLOW ∉ detectDrainFromSealContext deltas (sr_vaultContext r) thresholds ∧
  FULL_DRAIN ∉ detectDrainFromSealContext deltas (sr_vaultContext r) thresholds.
Proof.
  intros Hseal Hd. assert (vc_vaultAddress (sr_vaultContext r) = sp_vault params) as Hv.
  { by apply seal_context_vault in Hseal. }
  unfold detectDrainFromSealContext.
  split; intros Hin; apply outflow_flags in Hin as (i & d & Hf & _); auto; simpl in Hf;
    rewrite Hv, list_find_absent in Hf; done.
Qed.

(** A monitored account that no longer exists after the transaction leaves no
    delta: a simulation that closes the vault's account succeeds and raises no
    flag, whatever the balance was. *)
Theorem closed_account_leaves_no_delta vault total pre recipients thresholds units :
  let sim := simulateBeforeSend
    (Some (Some {| sv_err := false; sv_unitsConsumed := units; sv_accounts := Some [None] |}))
    (Some {| so_monitorAccounts := [vault]; so_preBalances := pre; so_vaultAddress := Some vault;
             so_totalVaultBalance := Some total; so_knownRecipients := recipients;
             so_drainThresholds := thresholds |}) in
  sim_success sim = true ∧ sim_riskFlags sim = [].
Proof. unfold simulateBeforeSend, monitored. simpl. by case_bool_decide. Qed.

(** ** Concrete runs *)

Module SimDemo.
Definition delta (account : string) (pre post : Z) : BalanceDelta :=
  {| bd_account := account; bd_preBalance := pre; bd_postBalance := post; bd_delta := post - pre |}.

Definition emptied : DrainDetectionInput := {|
  di_balanceDeltas := [delta "vaultAta" 500 0; delta "thief" 0 500]; di_vaultAddress := "vaultAta";
  di_totalVaultBalance := 500; di_knownRecipients := Some ["treasury"] |}.

Definition odd_thresholds : DrainThresholds :=
  {| warningPercent := Some NonFinite; blockPercent := Some (Finite 250) |}.

Definition ix (program : string) : Ix :=
  {| ix_programAddress := program; ix_accounts := None; ix_data := None |}.

(** A token account that holds [amount] (below 256). *)
Definition token_account (amount : Z) : list ascii :=
  b64_encode (replicate 64 0 ++ amount :: replicate 100 0).

Definition executor (post : Z) : Executor := {|
  e_skipSimulation := false; e_drainThresholds := None; e_blockhash := Ok tt;
  e_limitIx := λ n, {| ix_programAddress := COMPUTE_BUDGET_PROGRAM_ADDRESS; ix_accounts := None;
                       ix_data := Some [n] |};
  e_priceIx := λ n, ix COMPUTE_BUDGET_PROGRAM_ADDRESS;
  e_wire := λ ixs, b64_encode (replicate (200 * length ixs) 0);
  e_simulate := λ _ _, Some (Some {| sv_err := false; sv_unitsConsumed := Some 100000;
                                     sv_accounts := Some [Some (token_account post)] |});
  e_signSendConfirm := λ _, Ok "signature" |}.

Definition params : ExecuteTransactionParams := {|
  ex_validateIx := ix "validate"; ex_defiInstructions := [ix "swap"]; ex_finalizeIx := ix "finalize";
  ex_computeUnits := Some 200000; ex_priorityFee := None;
  ex_vaultMonitoring := Some {|
    vm_vaultAddress := "vaultAta"; vm_monitorAccounts := ["vaultAta"];
    vm_preBalances := {["vaultAta" := 200]}; vm_totalVaultBalance := 200;
    vm_knownRecipients := None |} |}.

Definition signed : list Ix :=
  {| ix_programAddress := COMPUTE_BUDGET_PROGRAM_ADDRESS; ix_accounts := None; ix_data := Some [110001] |} ::
  [ix "validate"; ix "swap"; ix "finalize"].

Lemma signs_half : snd (executeTransaction (executor 100) params) = [signed].
Proof. vm_compute. reflexivity. Qed.

Example blocks_drain : executeTransaction (executor 5) params = (Throw DRAIN_DETECTED, []).
Proof. vm_compute. reflexivity. Qed.
End SimDemo.

Lemma drained_account_is_always_flagged_witness :
  LARGE_OUTFLOW ∈ detectDrainAttempt SimDemo.emptied (Some SimDemo.odd_thresholds) ∧
  FULL_DRAIN ∈ detectDrainAttempt SimDemo.emptied (Some SimDemo.odd_thresholds).
Proof.
  apply (drained_account_is_always_flagged SimDemo.emptied _ 0 (SimDemo.delta "vaultAta" 500 0));
    [vm_compute; reflexivity|vm_compute; split; [reflexivity|discriminate]].
Defined.


Lemma seal_context_misses_outflows_witness :
  let deltas := [SimDemo.delta Seal.Demo.vault_ata 5000000 0] in
  LARGE_OUTFLOW ∉ detectDrainFromSealContext deltas (sr_vaultContext Seal.Demo.sealed) None ∧
  FULL_DRAIN ∉ detectDrainFromSealContext deltas (sr_vaultContext Seal.Demo.sealed) None.
Proof.
  apply (seal_context_misses_outflows Seal.Demo.world Seal.Demo.params Seal.Demo.sealed _ None
    Seal.Demo.seal_ok).
  constructor; [vm_compute; discriminate|constructor].
Defined.
