(* ===== verification/EventTable.v ===== *)
(** * Event and error tables (generated/event-discriminators.ts,
      errors/agent-errors.generated.ts, events.ts, event-analytics.ts)

    The literal tables behind the activity feed: discriminators of events, the
    events that have a decoder, their categories, and the names of the
    program's error codes. *)

From S2P Require Import Prelude.

Local Open Scope Z_scope.
Local Open Scope string_scope.

Definition EVENT_DISCRIMINATOR_MAP : list (string * string) :=
  [
   ("555a3bda7e08b33f", "ActionAuthorized"); ("0d8542997e60bfdd", "AgentAutoRevoked");
   ("99f2ce4f9faeef86", "AgentGrantApplied"); ("8b0f543f462ee982", "AgentGrantCancelled");
   ("d8348d66b864ae79", "AgentGrantQueued"); ("274a945ec6a67917", "AgentPausedEvent");
   ("e9f7671e82adc4b7", "AgentPermissionsChangeApplied");
   ("6b15814d018844d8", "AgentPermissionsChangeCancelled");
   ("d3f2edd948349650", "AgentPermissionsChangeQueued"); ("bf4ed936e864bd55", "AgentRegistered");
   ("0cfbf9a67a53a274", "AgentRevoked"); ("6b803c90a3532dd7", "AgentSpendLimitChecked");
   ("583475457098a728", "AgentTransferExecuted"); ("dabbfd7c4fc02ab5", "AgentUnpausedEvent");
   ("3b9e8e31a474dc08", "DelegationRevoked"); ("e91775e16bb2fe08", "FeesCollected");
   ("9dd1645f3b640344", "FundsDeposited"); ("3882e69a235c0b76", "FundsWithdrawn");
   ("47bd7f0bdb542edb", "GraylistEntered"); ("a9242056cb220024", "GraylistPromoted");
   ("b4d1a255c5cde7aa", "ObserveOnlyChanged"); ("aada7c1346796308", "OwnershipTransferAccepted");
   ("78cba291b439fd17", "OwnershipTransferCancelled");
   ("b520283c3c40eb1d", "OwnershipTransferInitiated"); ("68590564b4ca3449", "PolicyChangeApplied");
   ("c89ee2ff19d31e97", "PolicyChangeCancelled"); ("49e7b6888d78204f", "PolicyChangeQueued");
   ("8b6096228bc6e41f", "PolicyCosignApproved"); ("a66a5c0ac33cf77d", "PostAssertionChecked");
   ("0714e066503c4e0b", "PostAssertionsClosed"); ("3159986e3a14441f", "PostAssertionsCreated");
   ("210cf25bce2aa3eb", "SessionFinalized"); ("ee8126e4e376f9d7", "VaultClosed");
   ("751978fe4bec4e73", "VaultCreated"); ("0dc7ac6f580a97f7", "VaultFrozen");
   ("c534a0939f595a1c", "VaultReactivated")].

(** The keys of [EVENT_DECODER_MAP]. *)
Definition EVENT_DECODERS : list string :=
  [
   "ActionAuthorized"; "SessionFinalized"; "FeesCollected"; "FundsDeposited"; "FundsWithdrawn";
   "AgentTransferExecuted"; "VaultCreated"; "VaultFrozen"; "VaultReactivated"; "VaultClosed";
   "AgentRegistered"; "AgentRevoked"; "AgentPausedEvent"; "AgentUnpausedEvent";
   "AgentSpendLimitChecked"; "PolicyChangeQueued"; "PolicyChangeApplied"; "PolicyChangeCancelled";
   "PolicyCosignApproved"; "AgentPermissionsChangeQueued"; "AgentPermissionsChangeApplied";
   "AgentPermissionsChangeCancelled"; "DelegationRevoked"; "PostAssertionChecked";
   "PostAssertionsCreated"; "PostAssertionsClosed"; "ObserveOnlyChanged"; "GraylistEntered";
   "GraylistPromoted"; "AgentAutoRevoked"; "OwnershipTransferInitiated";
   "OwnershipTransferAccepted"; "OwnershipTransferCancelled"; "AgentGrantQueued";
   "AgentGrantApplied"; "AgentGrantCancelled"].

Inductive EventCategory : Type :=
| Trade
| Deposit
| Withdrawal
| PolicyEvent
| AgentEvent
| SecurityEvent
| FeeEvent.

#[export] Instance EventCategory_eq_dec : EqDecision EventCategory.
Proof. solve_decision. Defined.

Definition EVENT_CATEGORY_MAP : list (string * EventCategory) :=
  [
   ("ActionAuthorized", Trade); ("SessionFinalized", Trade); ("DelegationRevoked", Trade);
   ("AgentTransferExecuted", Trade); ("AgentSpendLimitChecked", Trade); ("FundsDeposited", Deposit);
   ("FundsWithdrawn", Withdrawal); ("PolicyChangeQueued", PolicyEvent);
   ("PolicyChangeApplied", PolicyEvent); ("PolicyChangeCancelled", PolicyEvent);
   ("AgentRegistered", AgentEvent); ("AgentRevoked", AgentEvent);
   ("AgentPermissionsChangeQueued", AgentEvent); ("AgentPermissionsChangeApplied", AgentEvent);
   ("AgentPermissionsChangeCancelled", AgentEvent); ("AgentUnpausedEvent", AgentEvent);
   ("VaultCreated", SecurityEvent); ("VaultFrozen", SecurityEvent);
   ("VaultReactivated", SecurityEvent); ("VaultClosed", SecurityEvent);
   ("AgentPausedEvent", SecurityEvent); ("FeesCollected", FeeEvent)].

(** Code and name of each entry. *)
Definition IDL_ERROR_MAP : list (Z * string) :=
  [
   (6000, "VaultNotActive"); (6001, "UnauthorizedAgent"); (6002, "UnauthorizedOwner");
   (6003, "UnsupportedToken"); (6004, "ProtocolNotAllowed"); (6005, "TransactionTooLarge");
   (6006, "SpendingCapExceeded"); (6007, "SessionNotAuthorized"); (6008, "InvalidSession");
   (6009, "TooManyAllowedProtocols"); (6010, "AgentAlreadyRegistered"); (6011, "NoAgentRegistered");
   (6012, "VaultNotFrozen"); (6013, "VaultAlreadyClosed"); (6014, "InsufficientBalance");
   (6015, "DeveloperFeeTooHigh"); (6016, "InvalidFeeDestination");
   (6017, "InvalidProtocolTreasury"); (6018, "InvalidAgentKey"); (6019, "AgentIsOwner");
   (6020, "Overflow"); (6021, "InvalidTokenAccount"); (6022, "TimelockNotExpired");
   (6023, "NoTimelockConfigured"); (6024, "DestinationNotAllowed"); (6025, "TooManyDestinations");
   (6026, "InvalidProtocolMode"); (6027, "CpiCallNotAllowed"); (6028, "MissingFinalizeInstruction");
   (6029, "NonTrackedSwapMustReturnStablecoin"); (6030, "UnauthorizedTokenTransfer");
   (6031, "SlippageBpsTooHigh"); (6032, "ProtocolMismatch"); (6033, "TooManyDeFiInstructions");
   (6034, "MaxAgentsReached"); (6035, "InsufficientPermissions"); (6036, "InvalidPermissions");
   (6037, "InvalidConstraintConfig"); (6038, "AgentSpendLimitExceeded");
   (6039, "OverlaySlotExhausted"); (6040, "AgentSlotNotFound"); (6041, "UnauthorizedTokenApproval");
   (6042, "InvalidSessionExpiry"); (6043, "ProtocolCapExceeded"); (6044, "ProtocolCapsMismatch");
   (6045, "PendingPolicyExists"); (6046, "AgentPaused"); (6047, "AgentAlreadyPaused");
   (6048, "AgentNotPaused"); (6049, "UnauthorizedPostFinalizeInstruction");
   (6050, "UnexpectedBalanceDecrease"); (6051, "TimelockTooShort"); (6052, "PolicyVersionMismatch");
   (6053, "ActiveSessionsExist"); (6054, "PostAssertionFailed");
   (6055, "InvalidPostAssertionIndex"); (6056, "UnauthorizedPreValidateInstruction");
   (6057, "SnapshotNotCaptured"); (6058, "InvalidConstraintOperator");
   (6059, "ZeroCopyVaultMismatch"); (6060, "QueuedUpdateExpired");
   (6061, "AccountWritabilityMismatch"); (6062, "SysvarScanBoundExceeded");
   (6063, "AsyncFulfillmentNotPermitted"); (6064, "ConfidentialTransferBlocked");
   (6065, "PermanentDelegateBlocked"); (6066, "TransferHookBlocked"); (6067, "LamportDrainBlocked");
   (6068, "BatchInstructionBlocked"); (6069, "InvalidDestinationMode"); (6070, "InvalidCapability");
   (6071, "PolicyPreviewMismatch"); (6072, "ObserveOnlyModeBlocksExecute");
   (6073, "ActiveVaultRequiresAllowlist"); (6074, "ErrMintNotPinned");
   (6075, "ErrOutsideOperatingHours"); (6076, "ErrCooldownActive"); (6077, "ErrGraylistFriction");
   (6078, "ErrGraylistFull"); (6079, "ErrToken2022ExtensionForbidden"); (6080, "ErrCosignRequired");
   (6081, "ErrAutoRevoked"); (6082, "ErrSandwichIntegrity"); (6083, "ErrProtectedWritable");
   (6084, "ErrSessionNonceMismatch"); (6085, "ErrStableFloorViolation");
   (6086, "ErrDailyCapExceeded"); (6087, "ErrRecipientCapExceeded");
   (6088, "ErrMintDeltaCapExceeded"); (6089, "MintDeltaCapMisconfigured");
   (6090, "ErrAtaAuthorityChanged"); (6091, "ErrOutputBelowFloor");
   (6092, "ErrDeclarationInconsistent"); (6093, "IxMetaCountExceeded");
   (6094, "ErrPendingOwnershipExists"); (6095, "ErrPendingOwnershipNotReady");
   (6096, "ErrInvalidFreezeReason"); (6097, "ErrReactivateCooldownActive");
   (6098, "ErrInvalidOwnershipTarget"); (6099, "ErrTooManyRevokePairs");
   (6100, "ErrPostAssertionsNotClosed"); (6101, "ErrDestinationIsProtectedPda");
   (6102, "ErrIntentDigestMismatch"); (6103, "ErrPendingAgentGrantDigestMismatch");
   (6104, "ErrReactivateCosignRequiredForFullCapability"); (6105, "DestinationAccountUnresolvable");
   (6106, "ErrToken2022OutputMintUnresolvable"); (6107, "ErrOperatorGrantRequiresTimelock");
   (6108, "ErrOperatorGrantDelayTooLong"); (6109, "InvalidOwnerType");
   (6110, "SpendAccountingUnderflow"); (6111, "ErrMultisigCustodyUnsupported");
   (6112, "ErrOutputNotVaultOwned"); (6113, "ErrFinalizeMetaUnresolvable");
   (6114, "ErrDeFiInstructionNotAdjacentToFinalize"); (6115, "ErrUnmeasurableSpend");
   (6116, "ErrProgramDataUnresolvable"); (6117, "ErrProgramBuildMismatch");
   (6118, "TimelockTooLong")].
