(* ===== verification/Events.v ===== *)
(** * Events and the activity feed (events.ts, event-analytics.ts)

    Events are read from the log lines of a transaction; a blocked attempt
    leaves no event and is reconstructed from the lines of the failed
    transaction.  The generated event decoders, base58 and the node's answers
    are arguments. *)

From S2P Require Import Prelude JsMap JsText JsValue Base64 ErrorTable EventTable.
From S2P Require Import SdkTypes Accounts Composer Formatting Tokens StateResolver Analytics.

Local Open Scope Z_scope.

(** ** Parsing log lines *)

(** The text after the first occurrence of [sub]. *)
Fixpoint after_first (sub s : string) : option string :=
  if startsWith s sub then Some (drop_prefix sub s)
  else match s with EmptyString => None | String _ s' => after_first sub s' end.

Definition hex_char (n : Z) : ascii :=
  if n <? 10 then digit_char n else ascii_of_nat (Z.to_nat (87 + n)).
Definition bytesToHex (bytes : list Z) : string :=
  text (flat_map (λ b, [hex_char (b / 16); hex_char (b mod 16)]) bytes).

Definition PROGRAM_DATA_PREFIX : string := "Program data: ".

Record SigilEvent : Type := { se_name : string; se_data : list Z }.

Definition parse_log (log : string) : option SigilEvent :=
  base64Data ← after_first PROGRAM_DATA_PREFIX log;
  bytes ← atob (chars base64Data);
  if (length bytes <? 8)%nat then None else
  '(_, (_, eventName)) ← list_find (λ p, p.1 = bytesToHex (take 8 bytes)) EVENT_DISCRIMINATOR_MAP;
  Some {| se_name := eventName; se_data := drop 8 bytes |}.

Definition parseSigilEvents (logs : list string) : list SigilEvent := omap parse_log logs.

Definition filterEvents (logs : list string) (eventName : string) : list SigilEvent :=
  List.filter (λ e, bool_decide (se_name e = eventName)) (parseSigilEvents logs).

(** The check at module load: the two tables have the same events. *)
Definition decoder_map_complete : bool :=
  forallb (λ p, bool_decide (p.2 ∈ EVENT_DECODERS)) EVENT_DISCRIMINATOR_MAP &&
  forallb (λ n, bool_decide (n ∈ map snd EVENT_DISCRIMINATOR_MAP)) EVENT_DECODERS.

Example module_loads : decoder_map_complete = true.
Proof. vm_compute. reflexivity. Qed.

Definition categorizeEvent (eventName : string) : EventCategory :=
  match list_find (λ p, p.1 = eventName) EVENT_CATEGORY_MAP with
  | Some (_, p) => p.2
  | None => Trade
  end.

(** ** Activity items *)

Record VaultActivityItem : Type := {
  ai_timestamp : Z;
  ai_txSignature : string;
  ai_eventType : string;
  ai_category : EventCategory;
  ai_agent : option string;
  ai_amount : option Z;
  ai_amountDisplay : option string;
  ai_tokenMint : option string;
  ai_tokenSymbol : option string;
  ai_isSpending : bool;
  ai_protocol : option string;
  ai_protocolName : option string;
  ai_success : bool;
  ai_description : string;
}.

Definition extractAddress (fields : option fields_t) (key : string) : option string :=
  match fields with
  | None => None
  | Some fs => match jm_get key fs with
               | Some (JStr s) => if bool_decide (s = "") then None else Some s
               | _ => None
               end
  end.

Definition extractBigInt (fields : option fields_t) (key : string) : option Z :=
  match fields with
  | None => None
  | Some fs => match jm_get key fs with Some (JBig z) => Some z | _ => None end
  end.

Definition formatTokenDisplay (amount : Z) (token : option ResolvedToken) : result js_exn string :=
  match token with
  | None => formatUsd amount 6
  | Some t => Ok (formatTokenAmount amount (Z.to_nat (rt_decimals t)) (rt_symbol t) (Some 2%nat))
  end.

(** The decoders give texts for addresses and bigints for amounts; anything
    else makes the formatters throw. *)
Definition text_field (f : fields_t) (k : string) : result js_exn string :=
  match field (JObj f) k with JStr s => Ok s | _ => Throw JsTypeError end.
Definition big_field (f : fields_t) (k : string) : result js_exn Z :=
  match field (JObj f) k with JBig z => Ok z | _ => Throw JsTypeError end.

Definition short (f : fields_t) (k : string) : result js_exn string :=
  (λ a, formatAddress a 4) <$> text_field f k.
Definition usd (f : fields_t) (k : string) : result js_exn string :=
  amount ← big_field f k; formatUsd amount 2.

Definition describe_fields (name : string) (f : fields_t) (network : string) : result js_exn string :=
  if bool_decide (name = "ActionAuthorized") then
    agent ← short f "agent"; amount ← big_field f "usdAmount"; shown ← formatUsd amount 2;
    protocol ← text_field f "protocol";
    Ok ("Agent " +:+ agent +:+ " authorized " +:+ shown +:+ " " +:+
        (if 0 <? amount then "spending" else "action") +:+ " on " +:+ resolveProtocolName protocol)
  else if bool_decide (name = "SessionFinalized") then
    agent ← short f "agent";
    let spend := nullish (field (JObj f) "actualSpendUsd") (JBig 0) in
    if truthy (field (JObj f) "isExpired") then
      Ok ("Session for agent " +:+ agent +:+ " expired and was cleaned up")
    else if negb (truthy (field (JObj f) "success")) then
      Ok ("Agent " +:+ agent +:+ " session finalized (action failed)")
    else match spend with
         | JBig z => if 0 <? z
                     then shown ← formatUsd z 2;
                          Ok ("Agent " +:+ agent +:+ " completed trade — " +:+ shown +:+ " spent")
                     else Ok ("Agent " +:+ agent +:+ " completed action successfully")
         | _ => Throw JsTypeError
         end
  else if bool_decide (name = "FundsDeposited") then
    amount ← big_field f "amount"; mint ← text_field f "tokenMint";
    shown ← formatTokenDisplay amount (resolveToken mint network);
    Ok ("Owner deposited " +:+ shown)
  else if bool_decide (name = "FundsWithdrawn") then
    amount ← big_field f "amount"; mint ← text_field f "tokenMint";
    shown ← formatTokenDisplay amount (resolveToken mint network);
    Ok ("Owner withdrew " +:+ shown)
  else if bool_decide (name = "AgentRegistered") then
    agent ← short f "agent"; Ok ("New agent " +:+ agent +:+ " registered with vault access")
  else if bool_decide (name = "AgentRevoked") then
    agent ← short f "agent";
    Ok ("Agent " +:+ agent +:+ " removed from vault (" +:+
        js_String (field (JObj f) "remainingAgents") +:+ " remaining)")
  else if bool_decide (name = "AgentPermissionsChangeQueued") then
    agent ← short f "agent"; Ok ("Agent " +:+ agent +:+ " permissions change queued (timelock pending)")
  else if bool_decide (name = "AgentPermissionsChangeApplied") then
    agent ← short f "agent"; Ok ("Agent " +:+ agent +:+ " permissions change applied")
  else if bool_decide (name = "AgentPermissionsChangeCancelled") then
    agent ← short f "agent"; Ok ("Agent " +:+ agent +:+ " permissions change cancelled")
  else if bool_decide (name = "VaultFrozen") then Ok "Vault paused — all agent activity stopped"
  else if bool_decide (name = "VaultReactivated") then Ok "Vault reactivated — agent activity resumed"
  else if bool_decide (name = "VaultClosed") then Ok "Vault permanently closed"
  else if bool_decide (name = "VaultCreated") then Ok "Vault created and ready for configuration"
  else if bool_decide (name = "AgentPausedEvent") then
    agent ← short f "agent"; Ok ("Agent " +:+ agent +:+ " paused — cannot execute actions")
  else if bool_decide (name = "AgentUnpausedEvent") then
    agent ← short f "agent"; Ok ("Agent " +:+ agent +:+ " resumed — can execute actions")
  else if bool_decide (name = "FeesCollected") then
    protocolFee ← big_field f "protocolFeeAmount"; devFee ← big_field f "developerFeeAmount";
    total ← formatUsd (protocolFee + devFee) 2; p ← formatUsd protocolFee 2; d ← formatUsd devFee 2;
    Ok ("Fees collected: " +:+ total +:+ " (" +:+ p +:+ " protocol + " +:+ d +:+ " developer)")
  else if bool_decide (name = "PolicyChangeQueued") then
    Ok "Policy change queued — waiting for timelock to expire"
  else if bool_decide (name = "PolicyChangeApplied") then Ok "Queued policy change applied"
  else if bool_decide (name = "PolicyChangeCancelled") then Ok "Queued policy change cancelled"
  else if bool_decide (name = "AgentTransferExecuted") then
    amount ← usd f "amount"; destination ← short f "destination";
    Ok ("Agent transferred " +:+ amount +:+ " to " +:+ destination)
  else if bool_decide (name = "AgentSpendLimitChecked") then
    agent ← short f "agent"; spent ← usd f "agentRollingSpend"; limit ← usd f "spendingLimitUsd";
    Ok ("Agent " +:+ agent +:+ " spend check: " +:+ spent +:+ " of " +:+ limit +:+ " daily limit used")
  else if bool_decide (name = "DelegationRevoked") then
    Ok "Token delegation revoked after session completion"
  else Ok (name +:+ " event").

Definition describeEvent (decoded : DecodedEvent) (network : string) : result js_exn string :=
  match ev_fields decoded with
  | None => Ok (ev_name decoded +:+ " event (details unavailable)")
  | Some f => describe_fields (ev_name decoded) f network
  end.

(** [a ?? b] for values that may be null. *)
Definition or_else {A} (a b : option A) : option A := match a with Some x => Some x | None => b end.

Definition spends (amount : option Z) : bool := match amount with Some z => 0 <? z | None => false end.

Definition buildActivityItem (decoded : DecodedEvent) (txSignature : string) (blockTime : Z)
    (network : string) : result js_exn VaultActivityItem :=
  let f := ev_fields decoded in
  let amount := or_else (extractBigInt f "amount") (extractBigInt f "usdAmount") in
  let tokenMint := or_else (extractAddress f "tokenMint") (extractAddress f "mint") in
  let protocol := extractAddress f "protocol" in
  let success := match f with
                 | Some fs => match field (JObj fs) "success" with JBool false => false | _ => true end
                 | None => true
                 end in
  let token := mint ← tokenMint; resolveToken mint network in
  amountDisplay ← match amount, token with
                  | Some z, Some _ => Some <$> formatTokenDisplay z token
                  | Some z, None => Some <$> formatUsd z 2
                  | None, _ => Ok None
                  end;
  description ← describeEvent decoded network;
  Ok {| ai_timestamp := blockTime; ai_txSignature := txSignature; ai_eventType := ev_name decoded;
        ai_category := categorizeEvent (ev_name decoded); ai_agent := extractAddress f "agent";
        ai_amount := amount; ai_amountDisplay := amountDisplay; ai_tokenMint := tokenMint;
        ai_tokenSymbol := rt_symbol <$> token; ai_isSpending := spends amount;
        ai_protocol := protocol; ai_protocolName := resolveProtocolName <$> protocol;
        ai_success := success; ai_description := description |}.

(** ** Blocked attempts *)

(** [s.match(/pre(\d+)post/)]: the digits of the leftmost match, as a number. *)
Fixpoint match_decimal (pre post s : string) : option Z :=
  let here := if startsWith s pre
              then let '(ds, rest) := span is_digit (chars (drop_prefix pre s)) in
                   match ds with
                   | [] => None
                   | _ => if startsWith (text rest) post then Some (digits_value ds) else None
                   end
              else None in
  match here with
  | Some n => Some n
  | None => match s with EmptyString => None | String _ s' => match_decimal pre post s' end
  end.

Definition matchInvokeDepth (log : string) : option Z := match_decimal "invoke [" "]" log.
Definition matchAnchorErrorNumber (log : string) : option Z := match_decimal "Error Number: " "" log.
Definition matchCustomProgramError (log : string) : option Z :=
  digits_in 16 <$> match_hex "custom program error: 0x" log.

Definition isSigilErrorCode (code : Z) : bool := bool_decide (code ∈ map fst IDL_ERROR_MAP).

Definition sigil_invoke (log : string) : bool :=
  startsWith log ("Program " +:+ SIGIL_PROGRAM_ADDRESS +:+ " invoke [").
Definition sigil_success (log : string) : bool :=
  startsWith log ("Program " +:+ SIGIL_PROGRAM_ADDRESS +:+ " success").
Definition sigil_failed (log : string) : bool :=
  startsWith log ("Program " +:+ SIGIL_PROGRAM_ADDRESS +:+ " failed:").

Definition valid_code (c : option Z) : option Z :=
  match c with Some c => if isSigilErrorCode c then Some c else None | None => None end.

(** The loop over the lines: whether Sigil is the top-level frame, and the last
    Anchor code seen inside it. *)
Fixpoint block_code_loop (atTopLevel : bool) (pending : option Z) (logs : list string) : option Z :=
  match logs with
  | [] => None
  | log :: logs =>
      if sigil_invoke log then
        block_code_loop (bool_decide (matchInvokeDepth log = Some 1)) None logs
      else if sigil_success log then block_code_loop false None logs
      else if sigil_failed log then
        if negb atTopLevel then block_code_loop false pending logs
        else match valid_code (matchCustomProgramError log) with
             | Some c => Some c
             | None => match valid_code pending with
                       | Some c => Some c
                       | None => block_code_loop false pending logs
                       end
             end
      else if atTopLevel then block_code_loop atTopLevel (or_else (matchAnchorErrorNumber log) pending) logs
      else block_code_loop atTopLevel pending logs
  end.

Definition parseSigilBlockErrorCode (logs : list string) : option Z := block_code_loop false None logs.

Definition AGENT_POLICY_BLOCK_CATEGORIES : list ErrorCategory :=
  [SPENDING_CAP; POLICY_VIOLATION; PROTOCOL_NOT_SUPPORTED; RATE_LIMIT; ESCALATION_REQUIRED].

Definition isAgentPolicyBlockCode (code : Z) : bool :=
  match list_find (λ p, p.1 = code) ON_CHAIN_ERROR_MAP with
  | Some (_, p) => bool_decide (em_category p.2 ∈ AGENT_POLICY_BLOCK_CATEGORIES)
  | None => false
  end.

Record CompiledIx : Type := { ci_programIdIndex : Z; ci_accounts : list Z; ci_data : string }.

(** The parts of a transaction as the node returns it that are read here. *)
Record JsonTx : Type := {
  jt_err : bool;
  jt_logMessages : option (list string);
  jt_numRequiredSignatures : option Z;
  jt_accountKeys : option (list string);
  jt_instructions : option (list CompiledIx);
}.

Definition VALIDATE_AND_AUTHORIZE_DISCRIMINATOR : list Z := [22; 183; 48; 222; 218; 11; 197; 152].

Definition startsWithDiscriminator (data discriminator : list Z) : bool :=
  if (length data <? length discriminator)%nat then false
  else bool_decide (take (length discriminator) data = discriminator).

(** [a[i]]: undefined outside the array, also for a negative index. *)
Definition js_index {A} (l : list A) (i : Z) : option A := if i <? 0 then None else l !! Z.to_nat i.

Definition le_value (bytes : list Z) : Z := foldr (λ b acc, b + 256 * acc) 0 bytes.

Section Feed.
(** The address codec and base58 of the Solana kit, and the decoders that are
    generated per event. *)
Context (addressOf : list Z → string) (base58_encode : string → option (list Z)).
Context (decode : string → list Z → option fields_t).

Definition decodeSigilEvent (event : SigilEvent) : DecodedEvent := {|
  ev_name := se_name event;
  ev_fields := if bool_decide (se_name event ∈ EVENT_DECODERS) then decode (se_name event) (se_data event)
               else None;
  ev_txSignature := None |}.

Definition parseAndDecodeSigilEvents (logs : list string) : list DecodedEvent :=
  map decodeSigilEvent (parseSigilEvents logs).

(** What the generated parser returns of the agent's account and of the data:
    discriminator, token mint, amount, target protocol, two u64 and a digest. *)
Definition parseValidateAndAuthorizeInstruction (accounts : list string) (data : list Z)
    : option (string * string * Z) :=
  if (length accounts <? 13)%nat then None else
  agent ← accounts !! 0%nat;
  if (length data <? 128)%nat then None else
  Some (agent, addressOf (take 32 (drop 48 data)), le_value (take 8 (drop 40 data))).

Record BlockedAttempt : Type := {
  ba_agent : option string; ba_protocol : option string; ba_amount : option Z;
}.
Definition empty_attempt : BlockedAttempt := {| ba_agent := None; ba_protocol := None; ba_amount := None |}.

Definition rehydrate (accountKeys : list string) (accounts : list Z) : option (list string) :=
  mapM (js_index accountKeys) accounts.

Fixpoint attempt_loop (accountKeys : list string) (soleSigner : option string) (ixs : list CompiledIx)
    : BlockedAttempt :=
  match ixs with
  | [] => empty_attempt
  | ix :: ixs =>
      if negb (bool_decide (js_index accountKeys (ci_programIdIndex ix) = Some SIGIL_PROGRAM_ADDRESS))
      then attempt_loop accountKeys soleSigner ixs
      else match base58_encode (ci_data ix) with
           | None => attempt_loop accountKeys soleSigner ixs
           | Some data =>
               if negb (startsWithDiscriminator data VALIDATE_AND_AUTHORIZE_DISCRIMINATOR)
               then attempt_loop accountKeys soleSigner ixs
               else match rehydrate accountKeys (ci_accounts ix) with
                    | None => empty_attempt
                    | Some accounts =>
                        match parseValidateAndAuthorizeInstruction accounts data with
                        | None => empty_attempt
                        | Some (agent, protocol, amount) =>
                            {| ba_agent := if bool_decide (soleSigner = Some agent) then Some agent else None;
                               ba_protocol := Some protocol; ba_amount := Some amount |}
                        end
                    end
           end
  end.

Definition reconstructBlockedAttempt (tx : JsonTx) : BlockedAttempt :=
  match jt_accountKeys tx, jt_instructions tx with
  | Some accountKeys, Some instructions =>
      let numSigners := default 0 (jt_numRequiredSignatures tx) in
      let soleSigner := if numSigners =? 1 then head accountKeys else None in
      attempt_loop accountKeys soleSigner instructions
  | _, _ => empty_attempt
  end.

Definition error_name (code : Z) : string :=
  match list_find (λ p, p.1 = code) IDL_ERROR_MAP with
  | Some (_, p) => p.2
  | None => "SigilError" +:+ bigint_toString code
  end.

(** [None] when the failure is not an agent's policy block. *)
Definition buildBlockedActivityItem (tx : JsonTx) (logs : list string) (txSignature : string) (blockTime : Z)
    : result js_exn (option VaultActivityItem) :=
  match parseSigilBlockErrorCode logs with
  | None => Ok None
  | Some code =>
      if negb (isAgentPolicyBlockCode code) then Ok None else
      let a := reconstructBlockedAttempt tx in
      amountDisplay ← match ba_amount a with Some z => Some <$> formatUsd z 2 | None => Ok None end;
      Ok (Some {| ai_timestamp := blockTime; ai_txSignature := txSignature;
                  ai_eventType := "ActionAuthorized"; ai_category := Trade; ai_agent := ba_agent a;
                  ai_amount := ba_amount a; ai_amountDisplay := amountDisplay; ai_tokenMint := None;
                  ai_tokenSymbol := None; ai_isSpending := spends (ba_amount a);
                  ai_protocol := ba_protocol a; ai_protocolName := resolveProtocolName <$> ba_protocol a;
                  ai_success := false; ai_description := error_name code |})
  end.

(** ** One page of activity *)

Record SignatureInfo : Type := { si_signature : string; si_blockTime : option Z }.

(** What the body of the [try] does with a transaction. *)
Definition build_items (tx : JsonTx) (sig : SignatureInfo) (network : string)
    : result js_exn (list VaultActivityItem) :=
  match jt_logMessages tx with
  | None => Ok []
  | Some logs =>
      let decoded := parseAndDecodeSigilEvents logs in
      let blockTime := default 0 (si_blockTime sig) in
      out ← mapM (λ e, buildActivityItem e (si_signature sig) blockTime network) decoded;
      match decoded, jt_err tx with
      | [], true =>
          blocked ← buildBlockedActivityItem tx logs (si_signature sig) blockTime;
          Ok (match blocked with Some b => out ++ [b] | None => out end)
      | _, _ => Ok out
      end
  end.

(** The node's [getTransaction]: [None] when it fails or has no transaction. *)
Context (getTransaction : string → option JsonTx).

Definition buildForSignature (network : string) (sig : SignatureInfo) : list VaultActivityItem :=
  match getTransaction (si_signature sig) with
  | None => []
  | Some tx => match build_items tx sig network with Ok items => items | Throw _ => [] end
  end.

Definition ACTIVITY_FETCH_CONCURRENCY : nat := 5.

(** The loop over the chunks; [n] bounds the number of turns. *)
Fixpoint fetch_chunks (n : nat) (network : string) (signatures : list SignatureInfo)
    : list (list VaultActivityItem) :=
  match n, signatures with
  | S n, _ :: _ =>
      map (buildForSignature network) (take ACTIVITY_FETCH_CONCURRENCY signatures) ++
      fetch_chunks n network (drop ACTIVITY_FETCH_CONCURRENCY signatures)
  | _, _ => []
  end.

Definition newer (a b : VaultActivityItem) : bool := ai_timestamp b <=? ai_timestamp a.

Record VaultActivityPage : Type := { ap_items : list VaultActivityItem; ap_nextCursor : option string }.

(** From the signatures the node returned for the page, newest first. *)
Definition getVaultActivityPage (signatures : list SignatureInfo) (limit : Z) (network : string)
    : VaultActivityPage :=
  match last signatures with
  | None => {| ap_items := []; ap_nextCursor := None |}
  | Some oldest =>
      {| ap_items := js_sort newer (concat (fetch_chunks (length signatures) network signatures));
         ap_nextCursor := if Z.of_nat (length signatures) <? limit then None
                          else Some (si_signature oldest) |}
  end.
End Feed.

(** ** Attribution of a block *)

(** A line that neither opens nor closes a frame of the program. *)
Definition quiet (log : string) : Prop :=
  sigil_invoke log = false ∧ sigil_success log = false ∧ sigil_failed log = false.

(** Sigil is the top-level frame after these lines: it was invoked at depth 1
    and did not return since; the pending code was logged inside. *)
Definition in_frame (before : list string) (pending : option Z) : Prop :=
  ∃ earlier invoke inside,
    before = earlier ++ invoke :: inside ∧
    sigil_invoke invoke = true ∧ matchInvokeDepth invoke = Some 1 ∧ Forall quiet inside ∧
    ∀ c, pending = Some c → Exists (λ l, matchAnchorErrorNumber l = Some c) inside.

(** The code was read from the runtime's own line that closes such a frame. *)
Definition attributed (logs : list string) (c : Z) : Prop :=
  ∃ before failed after,
    logs = before ++ failed :: after ∧ sigil_failed failed = true ∧
    ∃ pending, in_frame before pending ∧
      (matchCustomProgramError failed = Some c ∨ pending = Some c).

Lemma in_frame_step before pending log :
  in_frame before pending → quiet log →
  in_frame (before ++ [log]) (or_else (matchAnchorErrorNumber log) pending).
Proof.
  intros (earlier & inv & inside & -> & Hi & Hd & Hq & Hp) Hl.
  exists earlier, inv, (inside ++ [log]). rewrite <- app_assoc. split_and!; try done.
  - apply Forall_app. by split; [|constructor].
  - intros c Hc. apply Exists_app. destruct (matchAnchorErrorNumber log) as [d|] eqn:E.
    + right. constructor. rewrite E. exact Hc.
    + left. apply Hp, Hc.
Qed.

Lemma valid_code_inv c d : valid_code c = Some d → c = Some d ∧ isSigilErrorCode d = true.
Proof. unfold valid_code. destruct c as [c|]; [|done]. destruct (isSigilErrorCode c) eqn:E; [|done]. by intros [= ->]. Qed.

Lemma block_code_loop_attributed logs : ∀ before top pending c,
  (top = true → in_frame before pending) →
  block_code_loop top pending logs = Some c →
  isSigilErrorCode c = true ∧ attributed (before ++ logs) c.
Proof.
  induction logs as [|log logs IH]; intros before top pending c Hf H; [done|].
  assert (Hnext : ∀ top' pending', (top' = true → in_frame (before ++ [log]) pending') →
    block_code_loop top' pending' logs = Some c →
    isSigilErrorCode c = true ∧ attributed (before ++ log :: logs) c).
  { intros top' pending' Hf' H'. destruct (IH (before ++ [log]) top' pending' c Hf' H') as [Hc Ha].
    split; [done|]. by rewrite <- app_assoc in Ha. }
  clear IH. cbn [block_code_loop] in H. destruct (sigil_invoke log) eqn:Ei.
  { apply (Hnext _ _) in H; [done|]. intros Hd%bool_decide_eq_true.
    exists before, log, []. split_and!; done. }
  destruct (sigil_success log) eqn:Es; [by apply (Hnext _ _) in H|].
  destruct (sigil_failed log) eqn:Efl.
  - destruct top; cbn [negb] in H; [|by apply (Hnext _ _) in H].
    assert (Hatt : ∀ d, isSigilErrorCode d = true →
      (matchCustomProgramError log = Some d ∨ pending = Some d) →
      isSigilErrorCode d = true ∧ attributed (before ++ log :: logs) d).
    { intros d Hd Hor. split; [done|]. exists before, log, logs. split_and!; try done.
      exists pending. split; [by apply Hf|done]. }
    destruct (valid_code (matchCustomProgramError log)) as [d|] eqn:E1.
    { injection H as <-. apply valid_code_inv in E1 as [E1 Hd]. by apply Hatt; [|left]. }
    destruct (valid_code pending) as [d|] eqn:E2; [|by apply (Hnext _ _) in H].
    injection H as <-. apply valid_code_inv in E2 as [E2 Hd]. by apply Hatt; [|right].
  - destruct top.
    + apply (Hnext _ _) in H; [done|]. intros _. apply in_frame_step; [by apply Hf|by split_and!].
    + by apply (Hnext _ _) in H.
Qed.

(** A block is attributed to the program only by the runtime.  Whatever lines
    a transaction logs, a code is reported only if it is a code of the program,
    and only from the runtime's line "Program <Sigil> failed:" that closes a
    frame Sigil opened at depth 1; the code is on that line, or in an Anchor
    line logged inside that frame.  Text outside such a frame, nested calls and
    other programs' failures never produce one. *)
Theorem block_code_is_attributed (logs : list string) (code : Z) :
  parseSigilBlockErrorCode logs = Some code →
  isSigilErrorCode code = true ∧ attributed logs code.
Proof. intros H. by apply (block_code_loop_attributed logs [] false None) in H. Qed.

Definition demo_block_logs : list string :=
  ["Program " +:+ SIGIL_PROGRAM_ADDRESS +:+ " invoke [1]";
   "Program log: AnchorError thrown. Error Number: 6006. Error Message: cap.";
   "Program " +:+ SIGIL_PROGRAM_ADDRESS +:+ " failed: custom program error: 0x1776"].

Lemma block_code_is_attributed_witness :
  parseSigilBlockErrorCode demo_block_logs = Some 6006 ∧ attributed demo_block_logs 6006.
Proof.
  assert (H : parseSigilBlockErrorCode demo_block_logs = Some 6006) by (vm_compute; reflexivity).
  split; [exact H|]. apply (block_code_is_attributed demo_block_logs 6006 H).
Defined.

(** A nested failure, a forged line and a foreign program give nothing. *)
Example spoofed_blocks_are_ignored :
  (parseSigilBlockErrorCode
     ["Program Other invoke [1]"; "Program " +:+ SIGIL_PROGRAM_ADDRESS +:+ " invoke [2]";
      "Program " +:+ SIGIL_PROGRAM_ADDRESS +:+ " failed: custom program error: 0x1776"],
   parseSigilBlockErrorCode ["Program log: Error Number: 6006."; "Program Other failed: custom program error: 0x1776"],
   parseSigilBlockErrorCode
     ["Program " +:+ SIGIL_PROGRAM_ADDRESS +:+ " invoke [1]"; "Program Venue failed: custom program error: 0x1";
      "Program " +:+ SIGIL_PROGRAM_ADDRESS +:+ " failed: custom program error: 0x1"]) = (None, None, None).
Proof. vm_compute. reflexivity. Qed.

(** ** Who is named, and what is believed *)

Lemma attempt_loop_agent addressOf base58_encode keys signer ixs a :
  ba_agent (attempt_loop addressOf base58_encode keys signer ixs) = Some a →
  signer = Some a ∧
  Exists (λ ix, js_index keys (ci_programIdIndex ix) = Some SIGIL_PROGRAM_ADDRESS ∧
                ∃ i rest, ci_accounts ix = i :: rest ∧ js_index keys i = Some a) ixs.
Proof.
  induction ixs as [|ix ixs IH]; cbn [attempt_loop]; [done|]. intros H.
  destruct (negb (bool_decide (js_index keys _ = _))) eqn:Ep; [destruct (IH H); by split; [|constructor 2]|].
  apply negb_false_iff, bool_decide_eq_true in Ep.
  destruct (base58_encode _) as [data|]; [|destruct (IH H); by split; [|constructor 2]].
  destruct (negb _); [destruct (IH H); by split; [|constructor 2]|]. clear IH.
  destruct (rehydrate keys (ci_accounts ix)) as [accounts|] eqn:Er; [|done].
  unfold parseValidateAndAuthorizeInstruction in H. destruct (_ <? 13)%nat eqn:El; [done|].
  destruct accounts as [|agent accounts]; [done|].
  cbn [lookup list_lookup mbind option_bind] in H. destruct (length data <? 128)%nat; [done|].
  cbn in H. case_bool_decide as Hs; [|done]. injection H as ->. split; [done|].
  constructor. split; [done|]. unfold rehydrate in Er. destruct (ci_accounts ix) as [|i rest]; [done|].
  exists i, rest. split; [done|].
  cbn in Er. destruct (js_index keys i) as [y|]; [|done]. cbn in Er.
  destruct (mapM _ rest); [|done]. cbn in Er. by injection Er as -> _.
Qed.

(** Nobody is framed.  A blocked attempt names an agent only if the
    transaction has exactly one signer, that signer is the agent, and an
    instruction for the program lists it as its first account; for any other
    transaction the agent is left out. *)
Theorem blocked_agent_is_the_sole_signer (addressOf : list Z → string)
    (base58_encode : string → option (list Z)) (tx : JsonTx) (agent : string) :
  ba_agent (reconstructBlockedAttempt addressOf base58_encode tx) = Some agent →
  jt_numRequiredSignatures tx = Some 1 ∧
  ∃ others ixs, jt_accountKeys tx = Some (agent :: others) ∧ jt_instructions tx = Some ixs ∧
    Exists (λ ix, js_index (agent :: others) (ci_programIdIndex ix) = Some SIGIL_PROGRAM_ADDRESS ∧
                  ∃ i rest, ci_accounts ix = i :: rest ∧ js_index (agent :: others) i = Some agent) ixs.
Proof.
  unfold reconstructBlockedAttempt. intros H.
  destruct (jt_accountKeys tx) as [keys|]; [|done]. destruct (jt_instructions tx) as [ixs|]; [|done].
  apply attempt_loop_agent in H as [Hs He].
  destruct (jt_numRequiredSignatures tx) as [n|]; cbn [default] in Hs; [|done].
  unfold id in Hs. destruct (Z.eqb_spec n 1) as [Hn|]; [subst n|done]. split; [done|].
  destruct keys as [|k others]; simpl in Hs; [done|]. injection Hs as ->. eauto.
Qed.

Definition demo_tx (signers : Z) : JsonTx := {|
  jt_err := true; jt_logMessages := Some demo_block_logs; jt_numRequiredSignatures := Some signers;
  jt_accountKeys := Some ["agent"; SIGIL_PROGRAM_ADDRESS];
  jt_instructions := Some [{| ci_programIdIndex := 1; ci_accounts := repeat 0 13; ci_data := "x" |}] |}.

Definition demo_base58 (s : string) : option (list Z) :=
  Some (VALIDATE_AND_AUTHORIZE_DISCRIMINATOR ++ repeat 1 120).

Lemma blocked_agent_is_the_sole_signer_witness :
  ba_agent (reconstructBlockedAttempt (λ _, "venue") demo_base58 (demo_tx 1)) = Some "agent" ∧
  ba_agent (reconstructBlockedAttempt (λ _, "venue") demo_base58 (demo_tx 2)) = None ∧
  jt_numRequiredSignatures (demo_tx 1) = Some 1.
Proof.
  assert (H : ba_agent (reconstructBlockedAttempt (λ _, "venue") demo_base58 (demo_tx 1)) = Some "agent")
    by (vm_compute; reflexivity).
  split_and!; [exact H | vm_compute; reflexivity |].
  apply (blocked_agent_is_the_sole_signer (λ _, "venue") demo_base58 (demo_tx 1) "agent" H).
Defined.

(** What any program can log with its own message. *)
Definition forged_line (bytes : list Z) : string :=
  "Program log: " +:+ PROGRAM_DATA_PREFIX +:+ text (b64_encode bytes).

Lemma substring_full s : String.substring 0 (String.length s) s = s.
Proof. induction s as [|c s IH]; [done|]. cbn. by rewrite IH. Qed.

Lemma parse_forged bytes i p :
  bytes_ok bytes → (8 ≤ length bytes)%nat →
  list_find (λ q, q.1 = bytesToHex (take 8 bytes)) EVENT_DISCRIMINATOR_MAP = Some (i, p) →
  parse_log (forged_line bytes) = Some {| se_name := p.2; se_data := drop 8 bytes |}.
Proof.
  intros Hb Hl Hf. unfold parse_log.
  assert (after_first PROGRAM_DATA_PREFIX (forged_line bytes) = Some (text (b64_encode bytes))) as ->.
  { unfold forged_line, PROGRAM_DATA_PREFIX. set (t := text _). clearbody t.
    cbv beta iota delta [String.append]. cbn. unfold drop_prefix. cbn.
    replace (String.prefix "" t) with true by (by destruct t). f_equal. rewrite Nat.sub_0_r. apply substring_full. }
  cbn [mbind option_bind]. rewrite chars_text, (atob_encode _ Hb). cbn [mbind option_bind].
  rewrite (proj2 (Nat.ltb_ge _ _) Hl), Hf. by destruct p.
Qed.

(** Events are believed whoever logs them.  Any program that takes part in a
    transaction can log a line that [parseSigilEvents] reads as an event of the
    vault, since the emitting program is not looked at; and because blocked
    attempts are reconstructed only from transactions without events, one such
    line removes the blocked attempt from the feed, for every failed
    transaction. *)
Theorem forged_event_hides_the_block (addressOf : list Z → string)
    (base58_encode : string → option (list Z)) (decode : string → list Z → option fields_t)
    (bytes : list Z) (i : nat) (hex name : string) (tx : JsonTx) (sig : SignatureInfo) (network : string)
    (logs : list string) :
  bytes_ok bytes → (8 ≤ length bytes)%nat →
  list_find (λ q, q.1 = bytesToHex (take 8 bytes)) EVENT_DISCRIMINATOR_MAP = Some (i, (hex, name)) →
  jt_logMessages tx = Some (forged_line bytes :: logs) →
  build_items addressOf base58_encode decode tx sig network =
    mapM (λ e, buildActivityItem e (si_signature sig) (default 0 (si_blockTime sig)) network)
      (decodeSigilEvent decode {| se_name := name; se_data := drop 8 bytes |} ::
       parseAndDecodeSigilEvents decode logs).
Proof.
  intros Hb Hl Hf Hlogs. unfold build_items. rewrite Hlogs. unfold parseAndDecodeSigilEvents, parseSigilEvents.
  cbn [omap list_omap]. rewrite (parse_forged bytes i (hex, name) Hb Hl Hf). cbn [map snd].
  set (r := mapM _ _). destruct r; reflexivity.
Qed.

Definition demo_forged : list Z := [197; 52; 160; 147; 159; 89; 90; 28].

(** A blocked attempt, and the same transaction with one more line. *)
Lemma forged_event_hides_the_block_witness :
  let sig := {| si_signature := "s"; si_blockTime := None |} in
  let forged := {| jt_err := true; jt_logMessages := Some (forged_line demo_forged :: demo_block_logs);
                   jt_numRequiredSignatures := Some 1; jt_accountKeys := None; jt_instructions := None |} in
  map ai_description <$> build_items (λ _, "venue") demo_base58 (λ _ _, None) (demo_tx 1) sig "devnet" =
    Ok (E := js_exn) ["SpendingCapExceeded"] ∧
  map ai_eventType <$> build_items (λ _, "venue") demo_base58 (λ _ _, None) forged sig "devnet" =
    Ok (E := js_exn) ["VaultReactivated"].
Proof.
  cbv zeta. split; [vm_compute; reflexivity|].
  rewrite (forged_event_hides_the_block (λ _, "venue") demo_base58 (λ _ _, None) demo_forged 35
    "c534a0939f595a1c" "VaultReactivated" _ _ _ demo_block_logs);
    [vm_compute; reflexivity | | simpl; lia | vm_compute; reflexivity | reflexivity].
  repeat constructor; lia.
Defined.

(** ** Pages *)

Lemma fetch_chunks_map addressOf base58_encode decode getTransaction network n : ∀ signatures,
  (length signatures ≤ n)%nat →
  fetch_chunks addressOf base58_encode decode getTransaction n network signatures =
  map (buildForSignature addressOf base58_encode decode getTransaction network) signatures.
Proof.
  induction n as [|n IH]; intros [|s signatures] Hl; simpl in Hl; try done; [lia|].
  cbn [fetch_chunks]. rewrite IH by (rewrite length_drop; simpl; lia).
  by rewrite <- map_app, take_drop.
Qed.

(** A page of activity loses nothing: fetching in chunks gives exactly the
    items of each signature of the page, newest first; and the cursor is the
    oldest signature of a full page, and nothing at the end of the history. *)
Theorem activity_page_is_complete (addressOf : list Z → string)
    (base58_encode : string → option (list Z)) (decode : string → list Z → option fields_t)
    (getTransaction : string → option JsonTx) (signatures : list SignatureInfo) (limit : Z)
    (network : string) :
  let page := getVaultActivityPage addressOf base58_encode decode getTransaction signatures limit network in
  ap_items page ≡ₚ
    flat_map (buildForSignature addressOf base58_encode decode getTransaction network) signatures ∧
  js_sorted newer (ap_items page) ∧
  ap_nextCursor page =
    (if Z.of_nat (length signatures) <? limit then None else si_signature <$> last signatures).
Proof.
  cbv zeta. unfold getVaultActivityPage. destruct (last signatures) as [oldest|] eqn:El.
  - cbn [ap_items ap_nextCursor]. rewrite fetch_chunks_map by done. split_and!.
    + by rewrite js_sort_perm, flat_map_concat_map.
    + apply js_sort_sorted; unfold newer; intros; lia.
    + done.
  - apply last_None in El as ->. split_and!; [done | constructor |]. by destruct (_ <? _).
Qed.
