(* ===== verification/Dashboard.v ===== *)
(** * Dashboard reads (dashboard/reads.ts, vault-analytics.ts)

    The owner's views, composed from a resolved state, the activity feed and
    the pending update.  Fetching is an argument: a read takes what the node
    answered, as a value or as the error that was thrown.  [Date.now()] is an
    argument too. *)

From S2P Require Import Prelude JsMap JsText JsValue SdkTypes StateResolver Formatting.
From S2P Require Import Tokens Analytics EventTable Events AgentErrors DxErrors DashboardJson.

Local Open Scope Z_scope.

(** ** Dates *)

(** [new Date(ms).toISOString()] for the years 0 to 9999. *)
Definition civil_of_days (days : Z) : Z * Z * Z :=
  let z := days + 719468 in
  let era := z / 146097 in
  let doe := z mod 146097 in
  let yoe := (doe - doe / 1460 + doe / 36524 - doe / 146096) / 365 in
  let doy := doe - (365 * yoe + yoe / 4 - yoe / 100) in
  let mp := (5 * doy + 2) / 153 in
  let d := doy - (153 * mp + 2) / 5 + 1 in
  let m := if mp <? 10 then mp + 3 else mp - 9 in
  (yoe + era * 400 + (if m <=? 2 then 1 else 0), m, d).

Definition two (n : Z) : string := text (padStart (bigint_chars n) 2 "0"%char).

Definition toISOString (ms : Z) : string :=
  let '(y, m, d) := civil_of_days (ms / 86400000) in
  let t := ms mod 86400000 in
  text (padStart (bigint_chars y) 4 "0"%char) +:+ "-" +:+ two m +:+ "-" +:+ two d +:+ "T" +:+
  two (t / 3600000) +:+ ":" +:+ two (t / 60000 mod 60) +:+ ":" +:+ two (t / 1000 mod 60) +:+ "." +:+
  text (padStart (bigint_chars (t mod 1000)) 3 "0"%char) +:+ "Z".

Example iso_examples :
  (toISOString 0, toISOString 951782400000, toISOString 1767225599999) =
  ("1970-01-01T00:00:00.000Z", "2000-02-29T00:00:00.000Z", "2025-12-31T23:59:59.999Z")%string.
Proof. vm_compute. reflexivity. Qed.

(** ** Context *)

(** The queued update as the program stores it; the digests, bump and slots are
    not read here. *)
Record PendingPolicyUpdate : Type := {
  pp_executesAt : Z;
  pp_dailySpendingCapUsd : option Z;
  pp_maxTransactionAmountUsd : option Z;
  pp_protocolMode : option Z;
  pp_protocols : option (list string);
  pp_developerFeeRate : option Z;
  pp_maxSlippageBps : option Z;
  pp_timelockDuration : option Z;
  pp_allowedDestinations : option (list string);
  pp_sessionExpirySeconds : option Z;
  pp_hasProtocolCaps : option bool;
  pp_protocolCaps : option (list Z);
  pp_destinationMode : option Z;
  pp_operatingHours : option Z;
  pp_stableBalanceFloor : option Z;
  pp_perRecipientDailyCapUsd : option Z;
  pp_cosignRequired : option bool;
  pp_cosignSessionPubkey : option string;
  pp_operatorGrantDelaySeconds : option Z;
  pp_protocolHashes : option (list (list Z));
}.

Record OverviewContext : Type := {
  cx_vault : string;
  cx_state : ResolvedVaultState;
  cx_pnl : option VaultPnL;
  cx_activity : option (list VaultActivityItem);
  cx_pendingPolicy : option PendingPolicyUpdate;
  cx_posture : option SecurityPosture;
  cx_breakdown : option SpendingBreakdown;
  cx_alerts : option (list Alert);
}.

Definition plain (x : double) : signed_double := (false, x).

Definition text_or_empty (s : option string) : string := default "" s.

(** The level of a posture. *)
Definition level_of (p : SecurityPosture) : string :=
  match sp_criticalFailures p with
  | _ :: _ => "critical"
  | [] => if (0 <? sp_failCount p)%nat then "elevated" else "healthy"
  end.

Definition checks_of (p : SecurityPosture) : list HealthCheck :=
  map (λ c, {| hc_name := ck_id c; hc_passed := ck_passed c |}) (sp_checks p).

Definition posture_of (ctx : OverviewContext) : SecurityPosture :=
  default (getSecurityPosture (cx_state ctx)) (cx_posture ctx).
Definition alerts_of (ctx : OverviewContext) : list Alert :=
  default (evaluateAlertConditions (cx_state ctx) (cx_vault ctx)) (cx_alerts ctx).

Definition isFinite_percent (p : signed_double) : bool := match p.2 with Finite _ _ => true | Infinity => false end.

(** ** Views *)

Definition buildVaultState (ctx : OverviewContext) : VaultState signed_double Z here :=
  let state := cx_state ctx in
  let v := rs_vault state in
  let posture := posture_of ctx in {|
  vw_address := cx_vault ctx;
  vw_status := match av_status v with Active => "active" | Frozen => "frozen" | Closed => "closed" end;
  vw_owner := av_owner v;
  vw_agentCount := Z.of_nat (length (av_agents v));
  vw_totalVolume := av_totalVolume v;
  vw_totalFees := av_totalFeesCollected v;
  vw_observeOnly := av_observeOnly v;
  vw_total := rs_usdc state + rs_usdt state;
  vw_tokens := (if 0 <? rs_usdc state then [("USDC", rs_usdc state, 6)] else []) ++
               (if 0 <? rs_usdt state then [("USDT", rs_usdt state, 6)] else []);
  vw_pnlPercent := match cx_pnl ctx with
                   | Some p => if isFinite_percent (pl_pnlPercent p) then pl_pnlPercent p else plain zero
                   | None => plain zero
                   end;
  vw_pnlAbsolute := match cx_pnl ctx with Some p => pl_pnl p | None => 0 end;
  vw_level := level_of posture;
  vw_alertCount := Z.of_nat (sp_failCount posture);
  vw_checks := checks_of posture |}.

Definition mapCategory (cat : EventCategory) (evt : string) : string :=
  match cat with
  | Trade => "swap"
  | Deposit => "deposit"
  | Withdrawal => "withdraw"
  | _ => if bool_decide (evt = "AgentTransferExecuted") then "transfer" else "swap"
  end.

Section Views.
(** [bytesToAddress] of the chain library. *)
Context (bytesToAddress : list Z → option string).

Definition agent_view (ctx : OverviewContext) (nowMs : Z) (entry : AgentEntry) : AgentData signed_double Z :=
  let addr := ae_pubkey entry in
  let state := cx_state ctx in
  let profile := getAgentProfile bytesToAddress state addr in
  let budget := rs_allAgentBudgets state !! addr in
  let spentAmt := match budget with Some b => spent24h b | None => 0 end in
  let capAmt := match budget with Some b => cap b | None => 0 end in
  let agentActivity := List.filter (λ item, bool_decide (ai_agent item = Some addr))
                         (default [] (cx_activity ctx)) in
  let last := head agentActivity in {|
  ad_address := addr;
  ad_status := match profile with Some p => if pf_paused p then "paused" else "active" | None => "active" end;
  ad_capabilityLabel := match profile with Some p => pf_capabilityLabel p | None => "Disabled" end;
  ad_capability := match profile with Some p => pf_capability p | None => 0 end;
  ad_amount := spentAmt; ad_limit := capAmt;
  ad_percent := plain (computeUtilizationPercent spentAmt capAmt);
  ad_lastActionType := match last with Some l => mapCategory (ai_category l) (ai_eventType l) | None => "" end;
  ad_lastActionProtocol := match last with Some l => text_or_empty (ai_protocolName l) | None => "" end;
  ad_lastActionTimestamp := match last with Some l => ai_timestamp l * 1000 | None => 0 end;
  ad_blockedCount24h := Z.of_nat (length (List.filter
    (λ item, negb (ai_success item) && (nowMs - 24 * 3600 * 1000 <=? ai_timestamp item * 1000))
    agentActivity)) |}.

Definition buildAgents (ctx : OverviewContext) (nowMs : Z) : list (AgentData signed_double Z) :=
  map (agent_view ctx nowMs) (av_agents (rs_vault (cx_state ctx))).

Definition double_floor (x : double) : double :=
  match x with
  | Infinity => Infinity
  | Finite m e => Number_of (double_num m e / double_den e)
  end.

Definition double_pos (x : double) : bool := match x with Finite m _ => 0 <? m | Infinity => true end.

Definition rundown_ms (spent remaining_ : Z) : double :=
  let velocityPerMs := if 0 <? spent then double_div (Number_of spent) (Number_of (24 * 3600 * 1000)) else zero in
  if double_pos velocityPerMs && (0 <? remaining_)
  then double_floor (double_div (Number_of remaining_) velocityPerMs) else zero.

Definition buildSpending (ctx : OverviewContext) (nowMs : Z) : SpendingData signed_double Z :=
  let state := cx_state ctx in
  let breakdown := default (getSpendingBreakdown bytesToAddress state) (cx_breakdown ctx) in
  let b := rs_globalBudget state in {|
  sd_today := spent24h b; sd_cap := cap b; sd_remaining := remaining b;
  sd_percent := plain (computeUtilizationPercent (spent24h b) (cap b));
  sd_rundownMs := plain (rundown_ms (spent24h b) (remaining b));
  sd_chart := map (λ e, (toISOString (sp_timestamp e * 1000),
                         plain (double_div (Number_of (sp_usdAmount e)) (Number_of 1000000))))
                (getSpendingHistory (rs_tracker state) (nowMs / 1000));
  sd_protocolBreakdown := map (λ p, {|
    sh_name := resolveProtocolName (ps_protocol p); sh_programId := ps_protocol p;
    sh_amount := ps_spent24h p; sh_percent := plain (ps_utilization p) |}) (sb_byProtocol breakdown) |}.

Definition is_critical (a : Alert) : bool := bool_decide (al_severity a = Critical).

Definition buildHealth (ctx : OverviewContext) (nowMs : Z) : HealthData Z :=
  let posture := posture_of ctx in
  let critAlerts := List.filter is_critical (alerts_of ctx) in {|
  hd_level := level_of posture;
  hd_blockedCount24h := Z.of_nat (length critAlerts);
  hd_checks := checks_of posture;
  hd_lastBlock := (λ a, {| lb_agent := text_or_empty (al_agentAddress a); lb_reason := al_title a;
                           lb_amount := 0; lb_timestamp := nowMs |}) <$> head critAlerts |}.

(** ** Policy *)

Definition mode_name (mode : Z) : string :=
  if mode =? 0 then "unrestricted" else if mode =? 1 then "whitelist"
  else if mode =? 2 then "blacklist" else "unrestricted".

Definition isNonZeroBytes (bytes : list Z) : bool := existsb (λ b, negb (b =? 0)) bytes.

(** A key of [changes], set only for a [Some]. *)
Definition change {A} (key : string) (v : option A) (inj : A → jsv) : fields_t :=
  match v with Some x => [(key, inj x)] | None => [] end.

Definition texts (l : list string) : jsv := JArr (map JStr l).
Definition num (z : Z) : jsv := JNum (Int z).

Definition pending_changes (pp : PendingPolicyUpdate) : fields_t :=
  change "dailyCap" (pp_dailySpendingCapUsd pp) JBig ++
  change "maxPerTrade" (pp_maxTransactionAmountUsd pp) JBig ++
  change "approvedApps" (pp_protocols pp) texts ++
  change "protocolMode" (pp_protocolMode pp) (λ m, JStr (mode_name m)) ++
  change "hasProtocolCaps" (pp_hasProtocolCaps pp) JBool ++
  change "protocolCaps" (pp_protocolCaps pp) (λ l, JArr (map JBig l)) ++
  change "maxSlippageBps" (pp_maxSlippageBps pp) num ++
  change "allowedDestinations" (pp_allowedDestinations pp) texts ++
  change "developerFeeRate" (pp_developerFeeRate pp) num ++
  change "sessionExpirySeconds" (pp_sessionExpirySeconds pp) JBig ++
  change "timelock" (pp_timelockDuration pp) num.

Definition pending_view (nowMs : Z) (pp : PendingPolicyUpdate) : PendingUpdate :=
  let executesAtSec := pp_executesAt pp in {|
  pu_changes := JObj (pending_changes pp);
  pu_appliesAt := executesAtSec * 1000;
  pu_canApply := (0 <? executesAtSec) && (executesAtSec <=? nowMs / 1000);
  pu_canCancel := true |}.

Definition hash_info (p : PolicyConfig) (i : nat) (addr : string) : ProtocolHash :=
  let bytes := pol_protocolHashes p !! i in
  let armed := match bytes with Some b => isNonZeroBytes b | None => false end in {|
  ph_programId := addr; ph_armed := armed;
  ph_hash := match bytes with Some b => if armed then Some (bytesToHex b) else None | None => None end |}.

Definition buildPolicy (ctx : OverviewContext) (nowMs : Z) : PolicyData Z here :=
  let p := rs_policy (cx_state ctx) in {|
  pv_dailyCap := pol_dailySpendingCapUsd p;
  pv_maxPerTrade := pol_maxTransactionSizeUsd p;
  pv_approvedApps := map (λ a, (resolveProtocolName a, a)) (pol_protocols p);
  pv_protocolMode := mode_name (pol_protocolMode p);
  pv_hasProtocolCaps := pol_hasProtocolCaps p;
  pv_protocolCaps := pol_protocolCaps p;
  pv_maxSlippageBps := pol_maxSlippageBps p;
  pv_allowedDestinations := pol_allowedDestinations p;
  pv_developerFeeRate := pol_developerFeeRate p;
  pv_sessionExpirySeconds := pol_sessionExpirySeconds p;
  pv_timelockSeconds := pol_timelockDuration p;
  pv_policyVersion := pol_policyVersion p;
  pv_cosignRequired := pol_cosignRequired p;
  pv_cosignSessionPubkey := (if bool_decide (pol_cosignSessionPubkey p = "") ||
                                bool_decide (pol_cosignSessionPubkey p = SYSTEM_PROGRAM_ADDRESS)
                             then None else Some (pol_cosignSessionPubkey p) : option string);
  pv_stableBalanceFloor := pol_stableBalanceFloor p;
  pv_perRecipientDailyCapUsd := (if pol_perRecipientDailyCapUsd p =? 0 then None
                                 else Some (pol_perRecipientDailyCapUsd p) : option Z);
  pv_destinationMode := pol_destinationMode p;
  pv_operatorGrantDelaySeconds := pol_operatorGrantDelaySeconds p;
  pv_protocolHashes := imap (hash_info p) (pol_protocols p);
  pv_graylist := pol_destinationGraylist p;
  pv_pendingUpdate := pending_view nowMs <$> cx_pendingPolicy ctx |}.

(** ** Activity *)

Definition activity_row (item : VaultActivityItem) : ActivityRow Z := {|
  ar_id := if bool_decide (ai_txSignature item = "")
           then "evt-" +:+ bigint_toString (ai_timestamp item) +:+ "-" +:+ ai_eventType item
           else ai_txSignature item;
  ar_timestamp := ai_timestamp item * 1000;
  ar_type := mapCategory (ai_category item) (ai_eventType item);
  ar_protocol := text_or_empty (ai_protocolName item);
  ar_protocolId := text_or_empty (ai_protocol item);
  ar_agent := text_or_empty (ai_agent item);
  ar_amount := default 0 (ai_amount item);
  ar_status := if ai_success item then "approved" else "blocked";
  ar_reason := if ai_success item then None else Some (ai_description item);
  ar_txSignature := Some (ai_txSignature item) |}.

Definition buildActivityRows (items : list VaultActivityItem) : list (ActivityRow Z) := map activity_row items.

Record ActivityFilters : Type := {
  af_agent : option string; af_protocol : option string; af_status : option string;
  af_timeRange : option string; af_type : option string;
}.

Definition rangeToMs (r : string) : Z :=
  if bool_decide (r = "1h") then 3600000
  else if bool_decide (r = "6h") then 21600000
  else if bool_decide (r = "24h") then 86400000
  else if bool_decide (r = "7d") then 604800000
  else if bool_decide (r = "30d") then 2592000000
  else 86400000.

(** [if (filters?.x) rows = rows.filter(p)]: an absent or empty filter keeps
    everything. *)
Definition filter_if {A} (f : option string) (p : string → A → bool) (rows : list A) : list A :=
  match f with
  | Some x => if bool_decide (x = "") then rows else List.filter (p x) rows
  | None => rows
  end.

Definition apply_filters (f : ActivityFilters) (nowMs : Z) (rows : list (ActivityRow Z)) : list (ActivityRow Z) :=
  let rows := filter_if (af_agent f) (λ x r, bool_decide (ar_agent _ r = x)) rows in
  let rows := filter_if (af_protocol f)
                (λ x r, bool_decide (ar_protocolId _ r = x) || bool_decide (ar_protocol _ r = x)) rows in
  let rows := filter_if (af_status f) (λ x r, bool_decide (ar_status _ r = x)) rows in
  let rows := filter_if (af_type f) (λ x r, bool_decide (ar_type _ r = x)) rows in
  filter_if (af_timeRange f) (λ x r, nowMs - rangeToMs x <=? ar_timestamp _ r) rows.

Definition activity_data (f : ActivityFilters) (nowMs : Z) (page : VaultActivityPage) : ActivityData Z here :=
  let rows := apply_filters f nowMs (buildActivityRows (ap_items page)) in
  let approved := Z.of_nat (length (List.filter (λ r, bool_decide (ar_status _ r = "approved")) rows)) in {|
  av_rows := rows;
  av_total := Z.of_nat (length rows);
  av_approved := approved;
  av_blocked := Z.of_nat (length rows) - approved;
  av_volume := foldl (λ s r, s + ar_amount _ r) 0 rows;
  av_nextCursor := ap_nextCursor page |}.
End Views.

(** ** Risk and audit *)

Fixpoint derive_loop (hasWarning hasInfo : bool) (alerts : list Alert) : string :=
  match alerts with
  | [] => if hasWarning then "high" else if hasInfo then "elevated" else "low"
  | a :: alerts =>
      match al_severity a with
      | Critical => "critical"
      | Warning => derive_loop true hasInfo alerts
      | Info => derive_loop hasWarning true alerts
      end
  end.
Definition deriveRiskLevel (alerts : list Alert) : string := derive_loop false false alerts.

Record RiskMetrics : Type := {
  rm_capVelocity : double; rm_spendingVelocity : Z; rm_riskLevel : string; rm_isAccelerating : bool;
  rm_timeToCapSeconds : option double;
}.

Definition buildRiskMetrics (ctx : OverviewContext) (nowMs : Z) : RiskMetrics :=
  let state := cx_state ctx in
  let velocity := getSpendingVelocity (rs_tracker state) (nowMs / 1000) (rs_globalBudget state) in
  let c := cap (rs_globalBudget state) in {|
  rm_capVelocity := if (0 <? c) && (0 <? ve_currentRate velocity)
                    then double_mul_int (double_div (Number_of (ve_currentRate velocity * 24)) (Number_of c)) 100
                    else zero;
  rm_spendingVelocity := ve_currentRate velocity;
  rm_riskLevel := deriveRiskLevel (alerts_of ctx);
  rm_isAccelerating := ve_isAccelerating velocity;
  rm_timeToCapSeconds :=
    (λ h, double_div_int (double_mul_int (Number_of h) 3600) 1000) <$> ve_hoursToCapx1000 velocity |}.

Definition AUDIT_CATEGORY_TO_TYPE (c : EventCategory) : option string :=
  match c with
  | PolicyEvent => Some "policy_change"
  | AgentEvent => Some "agent_change"
  | SecurityEvent => Some "vault_security"
  | _ => None
  end.

Record AuditTrailEntry : Type := {
  at_timestamp : Z; at_eventType : string; at_eventName : string; at_actor : string; at_details : string;
  at_txSignature : string;
}.

Definition audit_item (item : VaultActivityItem) : option AuditTrailEntry :=
  eventType ← AUDIT_CATEGORY_TO_TYPE (ai_category item);
  Some {| at_timestamp := ai_timestamp item * 1000; at_eventType := eventType;
          at_eventName := ai_eventType item; at_actor := text_or_empty (ai_agent item);
          at_details := ai_description item; at_txSignature := ai_txSignature item |}.

Definition buildAuditTrail (items : list VaultActivityItem) : list AuditTrailEntry := omap audit_item items.

Definition audit_since (since : option Z) (entries : list AuditTrailEntry) : list AuditTrailEntry :=
  match since with
  | Some s => List.filter (λ e, s <=? at_timestamp e) entries
  | None => entries
  end.

(** ** Pending ownership and grants *)

Record PendingOwnershipTransfer : Type := {
  po_newOwner : string; po_currentOwner : string; po_queuedAt : Z; po_minDelaySeconds : Z;
  po_isMultisigTarget : bool; po_queuedAtSlot : Z;
}.
Record PendingOwnershipData : Type := { pod_transfer : PendingOwnershipTransfer; pod_executesAtUnix : Z }.

Record PendingAgentGrant : Type := {
  pg_vault : string; pg_agent : string; pg_capability : Z; pg_spendingLimitUsd : Z; pg_queuedAt : Z;
  pg_minDelaySeconds : Z; pg_queuedAtSlot : Z;
}.
Record PendingAgentGrantData : Type := { pgd_grant : PendingAgentGrant; pgd_executesAtUnix : Z }.

Section Reads.
Context (bytesToAddress : list Z → option string) (isSolanaError : jsv → Z → bool).

(** A fetch that may throw. *)
Abbreviation fetched := (result jsv).

(** [catch] of a read: the error is normalised with the method's name. *)
Definition in_dx {A} (method : string) (r : fetched A) : result DxError A :=
  match r with Ok a => Ok a | Throw e => Throw (toDxError e (Some method)) end.

(** [.catch(err => { if (isAccountNotFoundError(err)) return null; throw err; })] *)
Definition or_missing {A} (r : fetched (option A)) : fetched (option A) :=
  match r with
  | Ok a => Ok a
  | Throw e => if isAccountNotFoundError isSolanaError e then Ok None else Throw e
  end.

(** Activity is enrichment: a failure is logged and the feed is empty. *)
Definition or_empty {A} (r : fetched (list A)) : list A := match r with Ok l => l | Throw _ => [] end.

(** [Promise.all] of two: it rejects with the rejection that came first. *)
Definition both {A B} (second_first : bool) (a : fetched A) (b : fetched B) : fetched (A * B) :=
  match a, b with
  | Ok x, Ok y => Ok (x, y)
  | Throw e, Ok _ => Throw e
  | Ok _, Throw e => Throw e
  | Throw e, Throw e' => Throw (if second_first then e' else e)
  end.

Definition bare (vault : string) (state : ResolvedVaultState) : OverviewContext := {|
  cx_vault := vault; cx_state := state; cx_pnl := None; cx_activity := None; cx_pendingPolicy := None;
  cx_posture := None; cx_breakdown := None; cx_alerts := None |}.
Definition with_activity (ctx : OverviewContext) (a : option (list VaultActivityItem)) : OverviewContext := {|
  cx_vault := cx_vault ctx; cx_state := cx_state ctx; cx_pnl := cx_pnl ctx; cx_activity := a;
  cx_pendingPolicy := cx_pendingPolicy ctx; cx_posture := cx_posture ctx;
  cx_breakdown := cx_breakdown ctx; cx_alerts := cx_alerts ctx |}.
Definition with_pending_policy (ctx : OverviewContext) (p : option PendingPolicyUpdate) : OverviewContext := {|
  cx_vault := cx_vault ctx; cx_state := cx_state ctx; cx_pnl := cx_pnl ctx; cx_activity := cx_activity ctx;
  cx_pendingPolicy := p; cx_posture := cx_posture ctx; cx_breakdown := cx_breakdown ctx;
  cx_alerts := cx_alerts ctx |}.
Definition with_pnl (ctx : OverviewContext) (p : VaultPnL) : OverviewContext := {|
  cx_vault := cx_vault ctx; cx_state := cx_state ctx; cx_pnl := Some p; cx_activity := cx_activity ctx;
  cx_pendingPolicy := cx_pendingPolicy ctx; cx_posture := cx_posture ctx;
  cx_breakdown := cx_breakdown ctx; cx_alerts := cx_alerts ctx |}.

Definition pnl_of (state : ResolvedVaultState) : VaultPnL :=
  getVaultPnLFromState (av_totalDepositedUsd (rs_vault state)) (av_totalWithdrawnUsd (rs_vault state))
    (rs_usdc state) (rs_usdt state).

(** [getVaultPnL] resolves the state a second time. *)
Definition getVaultState (vault : string) (second_first : bool) (state state' : fetched ResolvedVaultState)
    : result DxError (VaultState signed_double Z here) :=
  in_dx "OwnerClient.getVaultState"
    ('(s, pnl) ← both second_first state (pnl_of <$> state');
     Ok (buildVaultState (with_pnl (bare vault s) pnl))).

Definition getAgents (vault : string) (nowMs : Z) (state : fetched ResolvedVaultState)
    (activity : fetched (list VaultActivityItem)) : result DxError (list (AgentData signed_double Z)) :=
  in_dx "OwnerClient.getAgents"
    (s ← state; Ok (buildAgents bytesToAddress (with_activity (bare vault s) (Some (or_empty activity))) nowMs)).

Definition getSpending (vault : string) (nowMs : Z) (state : fetched ResolvedVaultState)
    : result DxError (SpendingData signed_double Z) :=
  in_dx "OwnerClient.getSpending" (s ← state; Ok (buildSpending bytesToAddress (bare vault s) nowMs)).

Definition getActivity (f : ActivityFilters) (nowMs : Z) (page : fetched VaultActivityPage)
    : result DxError (ActivityData Z here) :=
  in_dx "OwnerClient.getActivity" (activity_data f nowMs <$> page).

Definition getHealth (vault : string) (nowMs : Z) (state : fetched ResolvedVaultState)
    : result DxError (HealthData Z) :=
  in_dx "OwnerClient.getHealth" (s ← state; Ok (buildHealth (bare vault s) nowMs)).

Definition getPolicy (vault : string) (nowMs : Z) (second_first : bool) (state : fetched ResolvedVaultState)
    (pending : fetched (option PendingPolicyUpdate)) : result DxError (PolicyData Z here) :=
  in_dx "OwnerClient.getPolicy"
    ('(s, p) ← both second_first state (or_missing pending);
     Ok (buildPolicy (with_pending_policy (bare vault s) p) nowMs)).

(** The context of [getOverview]: every derivation computed once. *)
Definition overview_context (vault : string) (state : ResolvedVaultState)
    (activity : option (list VaultActivityItem)) (pending : option PendingPolicyUpdate) : OverviewContext := {|
  cx_vault := vault; cx_state := state; cx_pnl := Some (pnl_of state); cx_activity := activity;
  cx_pendingPolicy := pending; cx_posture := Some (getSecurityPosture state);
  cx_breakdown := Some (getSpendingBreakdown bytesToAddress state);
  cx_alerts := Some (evaluateAlertConditions state vault) |}.

(** [activity]: the fetch, if the caller includes it. *)
Definition getOverview (vault : string) (nowMs : Z) (second_first : bool) (state : fetched ResolvedVaultState)
    (activity : option (fetched (list VaultActivityItem))) (pending : fetched (option PendingPolicyUpdate))
    : result DxError (OverviewData signed_double Z here) :=
  in_dx "OwnerClient.getOverview"
    ('(s, p) ← both second_first state (or_missing pending);
     let ctx := overview_context vault s (or_empty <$> activity) p in
     Ok {| ov_vault := buildVaultState ctx;
           ov_agents := buildAgents bytesToAddress ctx nowMs;
           ov_spending := buildSpending bytesToAddress ctx nowMs;
           ov_health := buildHealth ctx nowMs;
           ov_policy := buildPolicy ctx nowMs;
           ov_activity := buildActivityRows (default [] (or_empty <$> activity)) |}).

Definition buildAgentDetail (ctx : OverviewContext) (nowMs : Z) (agent : string)
    : option (AgentData signed_double Z) :=
  p ← list_find (λ a, ad_address _ a = agent) (buildAgents bytesToAddress ctx nowMs); Some p.2.

(** The domain error of an unknown agent. *)
Definition agent_not_registered (agent vault : string) : jsv :=
  domain_error "SIGIL_ERROR__SDK__INVALID_PARAMS"
    ("Agent " +:+ agent +:+ " is not registered in vault " +:+ vault)
    [("field", JStr "agent"); ("received", JStr agent)].

Definition getAgentDetail (vault agent : string) (nowMs : Z) (state : fetched ResolvedVaultState)
    (activity : fetched (list VaultActivityItem)) : result DxError (AgentData signed_double Z) :=
  in_dx "OwnerClient.getAgentDetail"
    (s ← state;
     match buildAgentDetail (with_activity (bare vault s) (Some (or_empty activity))) nowMs agent with
     | Some d => Ok d
     | None => Throw (agent_not_registered agent vault)
     end).

Definition getRiskMetrics (vault : string) (nowMs : Z) (state : fetched ResolvedVaultState)
    : result DxError RiskMetrics :=
  in_dx "OwnerClient.getRiskMetrics" (s ← state; Ok (buildRiskMetrics (bare vault s) nowMs)).

Definition getAuditTrail (since : option Z) (items : fetched (list VaultActivityItem))
    : result DxError (list AuditTrailEntry) :=
  in_dx "OwnerClient.getAuditTrail" (audit_since since ∘ buildAuditTrail <$> items).

(** The outer [catch] of the two pending reads. *)
Definition in_dx_missing {A} (method : string) (r : fetched (option A)) : result DxError (option A) :=
  in_dx method (or_missing r).

Definition getPendingOwnership (account : fetched (option PendingOwnershipTransfer))
    : result DxError (option PendingOwnershipData) :=
  in_dx_missing "OwnerClient.getPendingOwnership"
    (option_map (λ d, {| pod_transfer := d;
                         pod_executesAtUnix := po_queuedAt d + po_minDelaySeconds d |}) <$> account).

Definition getPendingAgentGrant (account : fetched (option PendingAgentGrant))
    : result DxError (option PendingAgentGrantData) :=
  in_dx_missing "OwnerClient.getPendingAgentGrant"
    (option_map (λ d, {| pgd_grant := d;
                         pgd_executesAtUnix := pg_queuedAt d + pg_minDelaySeconds d |}) <$> account).
End Reads.

(** ** Vault health (vault-analytics.ts) *)

Record VaultHealth : Type := {
  vh_status : string;
  vh_isHealthy : bool;
  vh_agentCount : nat;
  vh_pausedAgentCount : nat;
  vh_capUtilization : double;
  vh_capRemaining : Z;
  vh_capResetsIn : Z;
  vh_timeToCap : option double;
  vh_hasTimelock : bool;
  vh_timelockDuration : Z;
  vh_hasPendingPolicyChange : bool;
  vh_lastActivityTimestamp : Z;
  vh_securityChecks : list SecurityCheck;
}.

(** The oldest epoch of the window that holds something. *)
Definition oldest_epoch (currentEpoch : Z) (buckets : list EpochBucket) : Z :=
  foldl (λ oldest b, if (0 <? eb_usdAmount b) && (0 <? eb_epochId b) &&
                        (currentEpoch - NUM_EPOCHS <=? eb_epochId b) && (eb_epochId b <? oldest)
                     then eb_epochId b else oldest) currentEpoch buckets.

Definition cap_resets_in (tracker : option SpendTracker) (nowUnix : Z) : Z :=
  match tracker with
  | None => 0
  | Some t => Z.max 0 ((oldest_epoch (Z.quot nowUnix EPOCH_DURATION) (st_buckets t) + NUM_EPOCHS) *
                       EPOCH_DURATION - nowUnix)
  end.

Definition vault_security_checks (state : ResolvedVaultState) : list SecurityCheck :=
  let agents := av_agents (rs_vault state) in
  let policy := rs_policy state in
  [check "no-full-perms" Critical (negb (existsb (λ a, ae_capability a =? FULL_CAPABILITY) agents));
   check "cap-configured" Critical (0 <? pol_dailySpendingCapUsd policy);
   check "agent-limits" Warning (forallb (λ a, 0 <? ae_spendingLimitUsd a) agents);
   check "protocol-allowlist" Warning (pol_protocolMode policy =? PROTOCOL_MODE_ALLOWLIST);
   check "timelock-enabled" Warning (0 <? pol_timelockDuration policy);
   check "slippage-reasonable" Warning (pol_maxSlippageBps policy <? 1000)].

Definition double_lt (x : double) (z : Z) : bool := negb (double_ge x (Number_of z)).

Definition getVaultHealth (state : ResolvedVaultState) (nowUnix : Z) : VaultHealth :=
  let agents := av_agents (rs_vault state) in
  let policy := rs_policy state in
  let b := rs_globalBudget state in
  let agentCount := length agents in
  let pausedAgentCount := length (List.filter ae_paused agents) in
  let capUtilization := computeUtilizationPercent (spent24h b) (cap b) in
  let velocity := getSpendingVelocity (rs_tracker state) nowUnix b in
  let checks := vault_security_checks state in {|
  vh_status := match av_status (rs_vault state) with Active => "Active" | Frozen => "Frozen" | Closed => "Closed" end;
  vh_isHealthy := match av_status (rs_vault state) with Active => true | _ => false end &&
                  (0 <? agentCount)%nat && (pausedAgentCount <? agentCount)%nat &&
                  double_lt capUtilization 95 &&
                  bool_decide (List.filter is_critical_failure checks = []);
  vh_agentCount := agentCount;
  vh_pausedAgentCount := pausedAgentCount;
  vh_capUtilization := capUtilization;
  vh_capRemaining := remaining b;
  vh_capResetsIn := cap_resets_in (rs_tracker state) nowUnix;
  vh_timeToCap := (λ h, double_div_int (double_mul_int (Number_of h) 3600) 1000) <$> ve_hoursToCapx1000 velocity;
  vh_hasTimelock := 0 <? pol_timelockDuration policy;
  vh_timelockDuration := pol_timelockDuration policy;
  vh_hasPendingPolicyChange := false;
  vh_lastActivityTimestamp := match rs_tracker state with
                              | Some t => if 0 <? st_lastWriteEpoch t then st_lastWriteEpoch t * EPOCH_DURATION else 0
                              | None => 0
                              end;
  vh_securityChecks := checks |}.

Record VaultStats : Type := {
  vs_totalTransactions : Z; vs_totalVolume : Z; vs_totalFeesCollected : Z; vs_totalDeposited : Z;
  vs_totalWithdrawn : Z; vs_createdAt : Z; vs_ageInDays : Z; vs_avgDailyVolume : Z;
  vs_avgTransactionSize : Z; vs_feeRate : Z;
}.

(** The stats of [getVaultSummary], and its health with the pending flag. *)
Definition vault_stats (state : ResolvedVaultState) : VaultStats :=
  let v := rs_vault state in
  let ageInDays := Z.max 1 ((rs_resolvedAtTimestamp state - av_createdAt v) / 86400) in {|
  vs_totalTransactions := av_totalTransactions v; vs_totalVolume := av_totalVolume v;
  vs_totalFeesCollected := av_totalFeesCollected v; vs_totalDeposited := av_totalDepositedUsd v;
  vs_totalWithdrawn := av_totalWithdrawnUsd v; vs_createdAt := av_createdAt v; vs_ageInDays := ageInDays;
  vs_avgDailyVolume := if 0 <? ageInDays then Z.quot (av_totalVolume v) ageInDays else 0;
  vs_avgTransactionSize := if 0 <? av_totalTransactions v
                           then Z.quot (av_totalVolume v) (av_totalTransactions v) else 0;
  vs_feeRate := if 0 <? av_totalVolume v then Z.quot (av_totalFeesCollected v * 10000) (av_totalVolume v) else 0 |}.

(** ** Overview and single reads *)

(** One call shows what six calls show.  When [getOverview] succeeds, each of
    its views is exactly what the separate read returns for the same answers of
    the node; the derivations that are computed once and shared change
    nothing. *)
Theorem overview_agrees_with_reads (bytesToAddress : list Z → option string)
    (isSolanaError : jsv → Z → bool) (vault : string) (nowMs : Z) (first : bool)
    (state : result jsv ResolvedVaultState) (activity : result jsv (list VaultActivityItem))
    (pending : result jsv (option PendingPolicyUpdate)) (o : OverviewData signed_double Z here) :
  getOverview bytesToAddress isSolanaError vault nowMs first state (Some activity) pending = Ok o →
  getVaultState vault first state state = Ok (ov_vault _ _ o) ∧
  getAgents bytesToAddress vault nowMs state activity = Ok (ov_agents _ _ o) ∧
  getSpending bytesToAddress vault nowMs state = Ok (ov_spending _ _ o) ∧
  getHealth vault nowMs state = Ok (ov_health _ _ o) ∧
  getPolicy isSolanaError vault nowMs first state pending = Ok (ov_policy _ _ o) ∧
  ov_activity _ _ o = buildActivityRows (or_empty activity).
Proof.
  unfold getOverview, in_dx. intros H. destruct state as [s|e]; cbn [both] in H.
  2: { destruct (or_missing isSolanaError pending); cbn in H; discriminate H. }
  destruct (or_missing isSolanaError pending) as [p|e] eqn:Ep; cbn in H; [|discriminate H].
  injection H as <-.
  unfold getVaultState, getAgents, getSpending, getHealth, getPolicy, in_dx. rewrite Ep. cbn.
  split_and!; reflexivity.
Qed.

Definition demo_state : ResolvedVaultState := {|
  rs_vault := demo_vault; rs_policy := demo_policy; rs_tracker := Some demo_tracker; rs_overlay := None;
  rs_globalBudget := {| spent24h := 0; cap := 100; remaining := 100 |}; rs_agentBudget := None;
  rs_allAgentBudgets := ∅; rs_protocolBudgets := []; rs_maxTransactionUsd := 0; rs_usdc := 5; rs_usdt := 0;
  rs_resolvedAtTimestamp := 1000 |}.

Lemma overview_agrees_with_reads_witness :
  ∃ o, getOverview (λ _, None) (λ _ _, false) "v" 1000 false (Ok demo_state) (Some (Throw JNull)) (Ok None) = Ok o ∧
    getVaultState "v" false (Ok demo_state) (Ok demo_state) = Ok (ov_vault _ _ o) ∧
    ov_activity _ _ o = [].
Proof.
  eexists. split; [reflexivity|].
  destruct (overview_agrees_with_reads (λ _, None) (λ _ _, false) "v" 1000 false (Ok demo_state)
    (Throw JNull) (Ok None) _ eq_refl) as (H1 & _ & _ & _ & _ & H6).
  split; [exact H1|exact H6].
Defined.

(** A read fails only for a reason, and never with a raw error: [getOverview]
    throws the normalised error of the state's resolution or of a pending-update
    fetch that failed for another reason than a missing account; a failing
    activity fetch never fails a read. *)
Theorem overview_fails_only_for_a_reason (bytesToAddress : list Z → option string)
    (isSolanaError : jsv → Z → bool) (vault : string) (nowMs : Z) (first : bool)
    (state : result jsv ResolvedVaultState) (activity : option (result jsv (list VaultActivityItem)))
    (pending : result jsv (option PendingPolicyUpdate)) :
  match getOverview bytesToAddress isSolanaError vault nowMs first state activity pending with
  | Ok _ => is_ok state = true ∧ is_ok (or_missing isSolanaError pending) = true
  | Throw e => ∃ err, e = toDxError err (Some "OwnerClient.getOverview") ∧
      (state = Throw err ∨ pending = Throw err ∧ isAccountNotFoundError isSolanaError err = false)
  end.
Proof.
  unfold getOverview, in_dx. destruct state as [s|e], pending as [p|e']; cbn; try done.
  - destruct (isAccountNotFoundError isSolanaError e') eqn:E; cbn; [done|]. eauto.
  - eauto.
  - destruct (isAccountNotFoundError isSolanaError e') eqn:E; cbn; [eauto|]. destruct first; eauto.
Qed.

(** ** What the views leave out *)

Definition same_shown (a b : PendingPolicyUpdate) : Prop :=
  pp_executesAt a = pp_executesAt b ∧ pp_dailySpendingCapUsd a = pp_dailySpendingCapUsd b ∧
  pp_maxTransactionAmountUsd a = pp_maxTransactionAmountUsd b ∧ pp_protocolMode a = pp_protocolMode b ∧
  pp_protocols a = pp_protocols b ∧ pp_developerFeeRate a = pp_developerFeeRate b ∧
  pp_maxSlippageBps a = pp_maxSlippageBps b ∧ pp_timelockDuration a = pp_timelockDuration b ∧
  pp_allowedDestinations a = pp_allowedDestinations b ∧
  pp_sessionExpirySeconds a = pp_sessionExpirySeconds b ∧ pp_hasProtocolCaps a = pp_hasProtocolCaps b ∧
  pp_protocolCaps a = pp_protocolCaps b.

(** Queued changes can be invisible.  The pending update that the owner is
    shown depends on eleven of the nineteen fields of the queued account: two
    updates that differ only in the cosign requirement, its key, the balance
    floor, the per-recipient cap, the destination mode, the operating hours,
    the grant delay or the build hashes look the same. *)
Theorem pending_update_hides_changes (ctx : OverviewContext) (nowMs : Z) (a b : PendingPolicyUpdate) :
  same_shown a b →
  pv_pendingUpdate _ _ (buildPolicy (with_pending_policy ctx (Some a)) nowMs) =
  pv_pendingUpdate _ _ (buildPolicy (with_pending_policy ctx (Some b)) nowMs).
Proof.
  intros (H1 & H2 & H3 & H4 & H5 & H6 & H7 & H8 & H9 & H10 & H11 & H12).
  unfold buildPolicy. cbn [cx_pendingPolicy with_pending_policy pv_pendingUpdate fmap option_fmap option_map].
  f_equal. unfold pending_view, pending_changes.
  by rewrite H1, H2, H3, H4, H5, H6, H7, H8, H9, H10, H11, H12.
Qed.

Definition no_update (cosign : option bool) : PendingPolicyUpdate := {|
  pp_executesAt := 0; pp_dailySpendingCapUsd := None; pp_maxTransactionAmountUsd := None;
  pp_protocolMode := None; pp_protocols := None; pp_developerFeeRate := None; pp_maxSlippageBps := None;
  pp_timelockDuration := None; pp_allowedDestinations := None; pp_sessionExpirySeconds := None;
  pp_hasProtocolCaps := None; pp_protocolCaps := None; pp_destinationMode := None;
  pp_operatingHours := None; pp_stableBalanceFloor := None; pp_perRecipientDailyCapUsd := None;
  pp_cosignRequired := cosign; pp_cosignSessionPubkey := None; pp_operatorGrantDelaySeconds := None;
  pp_protocolHashes := None |}.

(** A queued removal of the cosign requirement shows as an update without
    changes. *)
Lemma pending_update_hides_changes_witness :
  pv_pendingUpdate _ _ (buildPolicy (with_pending_policy (bare "v" demo_state) (Some (no_update (Some false)))) 0) =
  pv_pendingUpdate _ _ (buildPolicy (with_pending_policy (bare "v" demo_state) (Some (no_update None))) 0) ∧
  pending_changes (no_update (Some false)) = [].
Proof.
  split; [|reflexivity]. apply (pending_update_hides_changes (bare "v" demo_state) 0).
  unfold same_shown. by split_and!.
Defined.

(** Events that change who owns or runs a vault, without a category. *)
Definition unlisted_governance : list string :=
  ["OwnershipTransferInitiated"; "OwnershipTransferAccepted"; "OwnershipTransferCancelled";
   "AgentGrantQueued"; "AgentGrantApplied"; "AgentGrantCancelled"; "AgentAutoRevoked";
   "ObserveOnlyChanged"; "PolicyCosignApproved"; "GraylistEntered"; "GraylistPromoted";
   "PostAssertionsCreated"; "PostAssertionsClosed"].

Lemma unlisted_are_trades : forallb (λ n, bool_decide (categorizeEvent n = Trade)) unlisted_governance = true.
Proof. vm_compute. reflexivity. Qed.

Lemma built_category decoded sig time network item :
  buildActivityItem decoded sig time network = Ok item →
  ai_category item = categorizeEvent (ev_name decoded) ∧ ai_eventType item = ev_name decoded.
Proof.
  unfold buildActivityItem. intros (d & _ & H)%bind_Ok_inv. apply bind_Ok_inv in H as (t & _ & H).
  by injection H as <-.
Qed.

(** The audit trail misses changes of ownership.  Every item that the feed
    builds from an event of an ownership transfer, an agent grant, an automatic
    revocation, the observe-only switch, a cosign approval, the graylist or the
    post-assertions is filed as a trade and does not appear in the governance
    audit trail. *)
Theorem audit_trail_misses_ownership (decoded : DecodedEvent) (sig : string) (time : Z) (network : string)
    (item : VaultActivityItem) (items : list VaultActivityItem) :
  ev_name decoded ∈ unlisted_governance →
  buildActivityItem decoded sig time network = Ok item →
  buildAuditTrail (item :: items) = buildAuditTrail items.
Proof.
  intros Hn Hi. apply built_category in Hi as [Hc _].
  pose proof unlisted_are_trades as Hall. rewrite forallb_forall in Hall.
  specialize (Hall _ (proj1 (list_elem_of_In _ _) Hn)). apply bool_decide_eq_true in Hall.
  unfold buildAuditTrail. cbn. unfold audit_item at 1. by rewrite Hc, Hall.
Qed.

Lemma audit_trail_misses_ownership_witness :
  ∃ item, buildActivityItem {| ev_name := "OwnershipTransferAccepted"; ev_fields := Some [];
            ev_txSignature := None |} "s" 7 "devnet" = Ok item ∧ buildAuditTrail [item] = [].
Proof.
  eexists. split; [vm_compute; reflexivity|].
  apply (audit_trail_misses_ownership {| ev_name := "OwnershipTransferAccepted"; ev_fields := Some [];
    ev_txSignature := None |} "s" 7 "devnet" _ []); [|vm_compute; reflexivity].
  apply (bool_decide_unpack _). vm_compute. exact I.
Defined.

Lemma category_never_transfer decoded sig time network item :
  buildActivityItem decoded sig time network = Ok item →
  mapCategory (ai_category item) (ai_eventType item) ≠ "transfer".
Proof.
  intros H. apply built_category in H as [Hc He]. rewrite Hc, He. intros Hm.
  destruct (bool_decide (ev_name decoded = "AgentTransferExecuted")) eqn:E.
  - apply bool_decide_eq_true in E. rewrite E in Hm. vm_compute in Hm. discriminate Hm.
  - unfold mapCategory in Hm. rewrite E in Hm. by destruct (categorizeEvent _).
Qed.

(** No row is ever a transfer: an agent's payout is filed as a trade before
    its event name is looked at, so filtering the feed by "transfer" finds
    nothing, whatever happened. *)
Theorem transfer_filter_finds_nothing (decoded : list DecodedEvent) (sig : string) (time nowMs : Z)
    (network : string) (items : list VaultActivityItem) (cursor : option string) :
  mapM (λ e, buildActivityItem e sig time network) decoded = Ok items →
  av_rows _ _ (activity_data {| af_agent := None; af_protocol := None; af_status := None;
                                af_timeRange := None; af_type := Some "transfer" |} nowMs
                 {| ap_items := items; ap_nextCursor := cursor |}) = [].
Proof.
  cbn. rewrite (bool_decide_eq_false_2 ("transfer" = "")) by done.
  revert items. induction decoded as [|e decoded IH]; intros items H; cbn in H.
  - by injection H as <-.
  - destruct (buildActivityItem e sig time network) as [item|] eqn:E; [|discriminate H]. cbn in H.
    destruct (mapM _ decoded) as [rest|]; [|discriminate H]. cbn in H. injection H as <-.
    cbn. rewrite bool_decide_eq_false_2 by (by eapply category_never_transfer). by apply IH.
Qed.

Lemma transfer_filter_finds_nothing_witness :
  av_rows _ _ (activity_data {| af_agent := None; af_protocol := None; af_status := None;
                                af_timeRange := None; af_type := Some "transfer" |} 0
    {| ap_items := match mapM (λ e, buildActivityItem e "s" 1 "devnet")
         [{| ev_name := "AgentTransferExecuted"; ev_txSignature := None;
             ev_fields := Some [("amount", JBig 5); ("destination", JStr "d")] |}] with
                   | Ok l => l | Throw _ => [] end; ap_nextCursor := None |}) = [].
Proof.
  apply (transfer_filter_finds_nothing [{| ev_name := "AgentTransferExecuted"; ev_txSignature := None;
             ev_fields := Some [("amount", JBig 5); ("destination", JStr "d")] |}] "s" 1 0 "devnet").
  vm_compute. reflexivity.
Defined.

(** ** Filters, risk and health *)

Lemma filter_if_elem {A} f (p : string → A → bool) rows r :
  r ∈ filter_if f p rows ↔ r ∈ rows ∧ (∀ x, f = Some x → x ≠ "" → p x r = true).
Proof.
  unfold filter_if. destruct f as [x|]; [|naive_solver]. case_bool_decide as Hx; [naive_solver|].
  rewrite !list_elem_of_In, filter_In. naive_solver.
Qed.

(** The activity view shows exactly what was asked for: a row of the page is
    shown if and only if it passes every filter that is set, the counts add up
    to the number of rows, and the volume is the sum of their amounts. *)
Theorem activity_filters_specified (f : ActivityFilters) (nowMs : Z) (page : VaultActivityPage) :
  let view := activity_data f nowMs page in
  (∀ r, r ∈ av_rows _ _ view ↔
     r ∈ buildActivityRows (ap_items page) ∧
     (∀ x, af_agent f = Some x → x ≠ "" → ar_agent _ r = x) ∧
     (∀ x, af_protocol f = Some x → x ≠ "" → ar_protocolId _ r = x ∨ ar_protocol _ r = x) ∧
     (∀ x, af_status f = Some x → x ≠ "" → ar_status _ r = x) ∧
     (∀ x, af_type f = Some x → x ≠ "" → ar_type _ r = x) ∧
     (∀ x, af_timeRange f = Some x → x ≠ "" → nowMs - rangeToMs x ≤ ar_timestamp _ r)) ∧
  av_total _ _ view = Z.of_nat (length (av_rows _ _ view)) ∧
  av_approved _ _ view + av_blocked _ _ view = av_total _ _ view ∧
  av_volume _ _ view = sumZ (map (ar_amount _) (av_rows _ _ view)).
Proof.
  cbv zeta. unfold activity_data. cbn [av_rows av_total av_approved av_blocked av_volume].
  split_and!; [|done|lia|].
  - intros r. unfold apply_filters. rewrite !filter_if_elem.
    setoid_rewrite bool_decide_eq_true. setoid_rewrite orb_true_iff.
    setoid_rewrite bool_decide_eq_true. setoid_rewrite Z.leb_le. naive_solver.
  - generalize (apply_filters f nowMs (buildActivityRows (ap_items page))) as rows. intros rows.
    rewrite <- (Z.add_0_l (sumZ _)). generalize 0.
    induction rows as [|r rows IH]; intros acc; cbn [foldl map]; [unfold sumZ; cbn; lia|]. rewrite IH. unfold sumZ. cbn. lia.
Qed.

Lemma derive_loop_spec alerts w i :
  derive_loop w i alerts =
    if existsb is_critical alerts then "critical"
    else if w || existsb (λ a, bool_decide (al_severity a = Warning)) alerts then "high"
    else if i || existsb (λ a, bool_decide (al_severity a = Info)) alerts then "elevated"
    else "low".
Proof.
  revert w i. induction alerts as [|a alerts IH]; intros w i; cbn [derive_loop existsb].
  - by rewrite !orb_false_r.
  - unfold is_critical at 1. destruct (al_severity a); cbn; [done| |]; rewrite IH;
      by rewrite ?orb_true_r.
Qed.

Lemma raised_critical_alert state vault a :
  a ∈ raised vault state → al_severity a = Critical →
  deriveRiskLevel (evaluateAlertConditions state vault) = "critical".
Proof.
  intros Ha Hs. unfold deriveRiskLevel. rewrite derive_loop_spec.
  replace (existsb is_critical _) with true; [done|]. symmetry. apply existsb_exists.
  exists a. split; [|unfold is_critical; by rewrite Hs].
  apply list_elem_of_In. by apply elem_of_alerts.
Qed.

(** The risk badge is the most severe alert, and a frozen vault or a daily
    budget used to 95 percent is always critical. *)
Theorem risk_level_specified (state : ResolvedVaultState) (vault : string) (nowMs : Z) :
  let alerts := evaluateAlertConditions state vault in
  let level := rm_riskLevel (buildRiskMetrics (bare vault state) nowMs) in
  level = (if existsb is_critical alerts then "critical"
           else if existsb (λ a, bool_decide (al_severity a = Warning)) alerts then "high"
           else if existsb (λ a, bool_decide (al_severity a = Info)) alerts then "elevated"
           else "low") ∧
  (av_status (rs_vault state) = Frozen → level = "critical") ∧
  (0 < cap (rs_globalBudget state) → 0 ≤ spent24h (rs_globalBudget state) →
   95 * cap (rs_globalBudget state) ≤ 100 * spent24h (rs_globalBudget state) → level = "critical").
Proof.
  cbv zeta. unfold buildRiskMetrics, alerts_of. cbn [rm_riskLevel bare cx_alerts cx_state cx_vault default].
  split_and!.
  - unfold deriveRiskLevel. by rewrite derive_loop_spec.
  - intros Hf. apply (raised_critical_alert state vault (alert ("frozen-" +:+ vault) Critical "Vault is paused" None)); [|done]. unfold raised. rewrite Hf. set_solver.
  - intros Hc H0 Hu. apply (raised_critical_alert state vault
      (alert ("cap-critical-" +:+ vault) Critical "Daily budget nearly exhausted" None)); [|done]. unfold raised, cap_alerts.
    rewrite (proj2 (Z.ltb_lt _ _) Hc). unfold utilization. rewrite Z.quot_div_nonneg by lia.
    rewrite (proj2 (Z.leb_le 95 _)); [set_solver|]. apply Z.div_le_lower_bound; lia.
Qed.

Lemma operator_fails_the_posture (state : ResolvedVaultState) :
  Exists (λ a, ae_capability a = FULL_CAPABILITY) (av_agents (rs_vault state)) →
  sp_criticalFailures (getSecurityPosture state) ≠ [].
Proof.
  intros (a & Ha & Hc)%Exists_exists H. unfold getSecurityPosture in H. cbn [sp_criticalFailures] in H.
  rewrite filter_nil_forallb in H. cbn [posture_checks forallb] in H.
  apply andb_true_iff in H as [H _]. unfold is_critical_failure in H. cbn in H.
  rewrite bool_decide_eq_true_2, negb_involutive in H by done. apply negb_true_iff in H.
  cbn [andb] in H. rewrite existsb_false in H.
  specialize (H a Ha). rewrite Hc in H. done.
Qed.

(** An agent that can spend makes a vault critical.  [FULL_CAPABILITY] is the
    Operator tier, the only one that may spend; the check that no agent has it
    is critical, so every vault with an operating agent is shown as critical,
    and is never healthy, whatever its policy. *)
Theorem operating_vaults_are_critical (ctx : OverviewContext) (nowMs nowUnix : Z) :
  cx_posture ctx = None →
  Exists (λ a, ae_capability a = FULL_CAPABILITY) (av_agents (rs_vault (cx_state ctx))) →
  vw_level _ _ (buildVaultState ctx) = "critical" ∧ hd_level _ (buildHealth ctx nowMs) = "critical" ∧
  vh_isHealthy (getVaultHealth (cx_state ctx) nowUnix) = false.
Proof.
  intros Hp Ha. pose proof (operator_fails_the_posture (cx_state ctx) Ha) as Hf.
  assert (Hl : level_of (getSecurityPosture (cx_state ctx)) = "critical")
    by (unfold level_of; by destruct (sp_criticalFailures _)).
  unfold buildVaultState, buildHealth, posture_of. rewrite Hp. cbn [vw_level hd_level default].
  split_and!; [done..|]. unfold getVaultHealth. cbn [vh_isHealthy].
  apply andb_false_iff. right. apply bool_decide_eq_false. intros H.
  rewrite filter_nil_forallb in H. cbn [vault_security_checks forallb] in H.
  apply andb_true_iff in H as [H _]. unfold is_critical_failure in H. cbn in H.
  rewrite bool_decide_eq_true_2, negb_involutive in H by done. apply negb_true_iff in H.
  cbn [andb] in H. rewrite existsb_false in H.
  apply Exists_exists in Ha as (a & Hin & Hc). specialize (H a Hin). by rewrite Hc in H.
Qed.

Lemma operating_vaults_are_critical_witness :
  vw_level _ _ (buildVaultState (bare "v" demo_state)) = "critical" ∧
  vh_isHealthy (getVaultHealth demo_state 0) = false.
Proof.
  destruct (operating_vaults_are_critical (bare "v" demo_state) 0 0) as (H1 & _ & H3);
    [reflexivity | cbn; right; left; reflexivity | split; [exact H1|exact H3]].
Defined.

(** The "blocked transactions" of the health view are its critical alerts: the
    feed is not read, and the last block happened now. *)
Lemma health_counts_alerts_as_blocks ctx nowMs :
  hd_blockedCount24h _ (buildHealth ctx nowMs) = Z.of_nat (length (List.filter is_critical (alerts_of ctx))) ∧
  (∀ activity, buildHealth (with_activity ctx activity) nowMs = buildHealth ctx nowMs) ∧
  (∀ b, hd_lastBlock _ (buildHealth ctx nowMs) = Some b → lb_timestamp _ b = nowMs ∧ lb_amount _ b = 0).
Proof.
  split_and!; [done..|]. intros b. unfold buildHealth. cbn [hd_lastBlock].
  destruct (head _); cbn; [intros [= <-]; done|done].
Qed.
