(* ===== verification/Discovery.v ===== *)
(** * Finding vaults and choosing the next one
      (state-resolver.ts, inscribe.ts, dashboard/discover.ts)

    Vaults are found by asking the node for the program's accounts with a
    given owner, and re-deriving each returned address from the account's own
    immutable seed; a node that cannot answer is replaced by probing the
    owner's first ids.  [findNextVaultId] builds on both to choose the id of a
    new vault. *)

From S2P Require Import Prelude JsMap JsText JsValue Base64 SdkTypes Accounts DashboardJson.

Local Open Scope Z_scope.

(** What a call throws: what the node threw, or an error of the SDK. *)
Inductive call_exn : Type :=
| RpcError (e : jsv)
| SdkError (e : js_exn).

Definition from_sdk {A} (r : result js_exn A) : result call_exn A :=
  match r with Ok a => Ok a | Throw e => Throw (SdkError e) end.
Definition from_rpc {A} (r : result jsv A) : result call_exn A :=
  match r with Ok a => Ok a | Throw e => Throw (RpcError e) end.

Definition to_lower (c : ascii) : ascii :=
  if is_upper c then ascii_of_nat (Z.to_nat (code c + 32)) else c.
Definition toLowerCase (s : string) : string := text (map to_lower (chars s)).

Record VaultLocator : Type := { vl_vaultAddress : string; vl_vaultId : Z }.

(** [e.code === z]. *)
Definition has_code (e : jsv) (z : Z) : bool :=
  match field e "code" with JNum (Int c) => c =? z | _ => false end.

Definition message_of (e : jsv) : string :=
  match e with JErr _ m _ => m | _ => EmptyString end.

Definition isGpaUnsupportedError (err : jsv) : bool :=
  if negb (instanceof_Error err) then false
  else if has_code err (-32601) || has_code err (-32010) then true
  else let msg := toLowerCase (message_of err) in
       includes msg "method not found" || includes msg "not available" ||
       includes msg "not supported" || includes msg "disabled" || includes msg "410".

(** The rate limits of the catch block. *)
Definition is_rate_limit (err : jsv) : bool :=
  has_code err (-32005) || (instanceof_Error err && includes (message_of err) "429").

(** What [atob] throws on a text that is no base64. *)
Definition INVALID_CHARACTER : jsv := JErr CDOMException "Invalid character" [("code", JNum (Int 5))].

(** The node, as one caller sees it, and the generated account decoder: the
    id and the seed key of a vault account, or nothing when decoding throws. *)
Record VaultNode : Type := {
  vn_getProgramAccounts : string → result jsv (list (string * list ascii));
  vn_getMultipleAccounts : list string → result jsv (list bool);
  vn_fetchMaybeAgentVault : string → result jsv (option (Z * nat));
  vn_decodeVault : list Z → option (Z * string);
}.

Section Discovery.
(** [pda authority id] is [getVaultPDA] at the program's address. *)
Context (encode : string → list Z) (derive : string → list (list Z) → string).
Context (node : VaultNode).

Definition vaultPda (authority : string) (vaultId : Z) : string :=
  getVaultPDA encode derive authority vaultId SIGIL_PROGRAM_ADDRESS.

(** An account the node returned: its address, and what its bytes decode to. *)
Definition parse_entry (entry : string * list ascii) : result jsv (list (VaultLocator * string)) :=
  match atob (snd entry) with
  | None => Throw INVALID_CHARACTER
  | Some raw =>
      match vn_decodeVault node raw with
      | None => Ok []
      | Some (vaultId, vaultAuthority) =>
          Ok [({| vl_vaultAddress := fst entry; vl_vaultId := vaultId |}, vaultAuthority)]
      end
  end.

Definition is_derived (p : VaultLocator * string) : Prop :=
  getVaultPdaFromState encode derive
    {| vs_vaultAuthority := snd p; vs_vaultId := vl_vaultId (fst p) |} SIGIL_PROGRAM_ADDRESS =
  vl_vaultAddress (fst p).
#[local] Instance is_derived_dec p : Decision (is_derived p).
Proof. unfold is_derived. apply _. Defined.

Definition by_vault_id (a b : VaultLocator) : bool := vl_vaultId a <=? vl_vaultId b.

Definition gpa_vaults (owner : string) : result jsv (list VaultLocator) :=
  accounts ← vn_getProgramAccounts node owner;
  parsed ← mapM parse_entry accounts;
  Ok (js_sort by_vault_id (map fst (filter is_derived (concat parsed)))).

(** The loop over the replies; a reply too many reads past the list. *)
Fixpoint present_pdas (present : list bool) (pdas : list VaultLocator)
    : result call_exn (list VaultLocator) :=
  match present, pdas with
  | [], _ => Ok []
  | true :: _, [] => Throw (SdkError JsTypeError)
  | false :: present, [] => present_pdas present []
  | b :: present, p :: pdas =>
      rest ← present_pdas present pdas; Ok (if b then p :: rest else rest)
  end.

Definition probe_pdas (owner : string) (cappedProbe : Z) : list VaultLocator :=
  map (λ i, {| vl_vaultAddress := vaultPda owner i; vl_vaultId := i |}) (seqZ 0 cappedProbe).

Definition probeVaultsByOwner (owner : string) (cappedProbe : Z)
    : result call_exn (list VaultLocator) :=
  if cappedProbe =? 0 then Ok [] else
  let pdas := probe_pdas owner cappedProbe in
  present ← from_rpc (vn_getMultipleAccounts node (map vl_vaultAddress pdas));
  present_pdas present pdas.

Definition capped_probe (maxProbe : Z) : Z := Z.min (Z.max 0 maxProbe) 100.

(** Reading [code] of a thrown [null] or [undefined] throws in turn. *)
Definition findVaultsByOwner (owner : string) (maxProbe : Z)
    : result call_exn (list VaultLocator) :=
  let probing := probeVaultsByOwner owner (capped_probe maxProbe) in
  match gpa_vaults owner with
  | Ok [] => probing
  | Ok verified => Ok verified
  | Throw JUndef | Throw JNull => Throw (SdkError JsTypeError)
  | Throw err =>
      if is_rate_limit err then Throw (RpcError err)
      else if isGpaUnsupportedError err then probing
      else Throw (RpcError err)
  end.

(** ** The owner's dashboard list *)

Definition status_name (statusNum : Z) : string :=
  if statusNum =? 0 then "active" else if statusNum =? 1 then "frozen" else "closed".

(** A vault that does not exist or whose account does not decode is left out. *)
Definition describe_vault (v : VaultLocator) : option (DiscoveredVault Z) :=
  match vn_fetchMaybeAgentVault node (vl_vaultAddress v) with
  | Ok (Some (statusNum, agents)) =>
      Some {| dv_address := vl_vaultAddress v; dv_vaultId := vl_vaultId v;
              dv_status := status_name statusNum; dv_agentCount := Z.of_nat agents |}
  | _ => None
  end.

Definition discoverVaults (owner : string) : result call_exn (list (DiscoveredVault Z)) :=
  sdkVaults ← findVaultsByOwner owner 20;
  Ok (omap (M := list) describe_vault sdkVaults).

(** ** The next id *)

Definition VAULT_SLOTS_EXHAUSTED : js_exn := SdkDomainError "SIGIL_ERROR__SDK__VAULT_SLOTS_EXHAUSTED".

Definition vault_exists (owner : string) (i : Z) : result jsv bool :=
  account ← vn_fetchMaybeAgentVault node (vaultPda owner i);
  Ok (match account with Some _ => true | None => false end).

(** The sequential probe: the first id of the list without an account. *)
Fixpoint first_free (owner : string) (ids : list Z) : result jsv (option Z) :=
  match ids with
  | [] => Ok None
  | i :: ids =>
      used ← vault_exists owner i;
      if used : bool then first_free owner ids else Ok (Some i)
  end.

Definition max_vault_id (vaults : list VaultLocator) : Z :=
  foldl (λ maxId v, if maxId <? vl_vaultId v then vl_vaultId v else maxId) 0 vaults.

Definition findNextVaultId (owner : string) : result call_exn Z :=
  free ← from_rpc (first_free owner (seqZ 0 5));
  match free with
  | Some i => Ok i
  | None =>
      vaults ← findVaultsByOwner owner 100;
      if bool_decide (length vaults = 0%nat) then Ok 0 else
      let nextId := max_vault_id vaults + 1 in
      if 256 <=? nextId then Throw (SdkError VAULT_SLOTS_EXHAUSTED) else Ok nextId
  end.

(** ** inscribe *)

Record InscribeOptions : Type := {
  in_network : string;
  in_owner : string;
  in_agent : string;
  in_vaultId : option Z;
}.

Record InscribeResult : Type := {
  ir_vaultAddress : string;
  ir_vaultId : Z;
  ir_policyAddress : string;
  ir_pendingPolicyAddress : string;
  ir_agentAddress : string;
  ir_ownerAddress : string;
}.

Definition OWNER_AGENT_COLLISION : js_exn := SdkDomainError "SIGIL_ERROR__SDK__OWNER_AGENT_COLLISION".

Definition resolve_vault_id (owner : string) (vaultId : option Z) : result call_exn Z :=
  match vaultId with Some i => Ok i | None => findNextVaultId owner end.

Definition inscribe (options : InscribeOptions) : result call_exn InscribeResult :=
  _ ← from_sdk (validateNetwork (in_network options));
  _ ← throw_if (bool_decide (in_owner options = in_agent options)) (SdkError OWNER_AGENT_COLLISION);
  vaultId ← resolve_vault_id (in_owner options) (in_vaultId options);
  let vaultAddress := vaultPda (in_owner options) vaultId in
  Ok {| ir_vaultAddress := vaultAddress;
        ir_vaultId := vaultId;
        ir_policyAddress := getPolicyPDA encode derive vaultAddress SIGIL_PROGRAM_ADDRESS;
        ir_pendingPolicyAddress := getPendingPolicyPDA encode derive vaultAddress SIGIL_PROGRAM_ADDRESS;
        ir_agentAddress := in_agent options;
        ir_ownerAddress := in_owner options |}.
End Discovery.

(** ** Client policies as vault parameters *)

(** The fields of the resolved policies that the mapping reads; the protocols
    in the order in which their set was filled. *)
Record ClientPolicies : Type := {
  cl_spendAmounts : list Z;
  cl_maxTransactionSize : option Z;
  cl_allowedProtocols : option (list string);
}.

Record VaultParams : Type := {
  vp_vaultId : Z;
  vp_dailySpendingCap : Z;
  vp_maxTransactionSize : Z;
  vp_protocolMode : Z;
  vp_protocols : list string;
  vp_feeDestination : string;
  vp_developerFeeRate : Z;
  vp_timelockDuration : Z;
  vp_allowedDestinations : list string;
  vp_maxSlippageBps : Z;
}.

Record VaultParamOpts : Type := {
  vo_developerFeeRate : option Z;
  vo_timelockDuration : option Z;
  vo_allowedDestinations : option (list string);
  vo_maxSlippageBps : option Z;
}.

Definition largest (amounts : list Z) : Z :=
  foldl (λ maxCap amount, if maxCap <? amount then amount else maxCap) 0 amounts.

Definition mapPoliciesToVaultParams (resolved : ClientPolicies) (vaultId : Z) (feeDestination : string)
    (opts : VaultParamOpts) : VaultParams :=
  let maxCap := largest (cl_spendAmounts resolved) in
  let protocols := take 10 (default [] (cl_allowedProtocols resolved)) in {|
  vp_vaultId := vaultId;
  vp_dailySpendingCap := maxCap;
  vp_maxTransactionSize := default maxCap (cl_maxTransactionSize resolved);
  vp_protocolMode := if bool_decide (protocols = []) then 0 else 1;
  vp_protocols := protocols;
  vp_feeDestination := feeDestination;
  vp_developerFeeRate := default 0 (vo_developerFeeRate opts);
  vp_timelockDuration := default 0 (vo_timelockDuration opts);
  vp_allowedDestinations := default [] (vo_allowedDestinations opts);
  vp_maxSlippageBps := default 100 (vo_maxSlippageBps opts) |}.

(** ** Properties *)

(** The running maximum of both loops. *)
Lemma foldl_max_spec {A} (f : A → Z) l m0 :
  let m := foldl (λ m x, if m <? f x then f x else m) m0 l in
  m0 ≤ m ∧ (∀ x, x ∈ l → f x ≤ m) ∧ (m = m0 ∨ ∃ x, x ∈ l ∧ m = f x).
Proof.
  revert m0; induction l as [|a l IH]; intros m0; simpl.
  { split; [lia|]. split; [|by left]. intros x Hx. by apply elem_of_nil in Hx. }
  destruct (IH (if m0 <? f a then f a else m0)) as (H1 & H2 & H3).
  destruct (Z.ltb_spec m0 (f a)); split; try lia.
  - split; [intros x [->|Hx]%elem_of_cons; [done | by apply H2] |].
    destruct H3 as [->|(x & Hx & ->)]; right; [exists a | exists x]; set_solver.
  - split; [intros x [->|Hx]%elem_of_cons; [lia | by apply H2] |].
    destruct H3 as [->|(x & Hx & ->)]; [by left | right; exists x; set_solver].
Qed.

Section Properties.
Context (encode : string → list Z) (derive : string → list (list Z) → string).
Context (node : VaultNode).

Notation pda := (vaultPda encode derive).

Lemma by_vault_id_total x y : by_vault_id x y = false → by_vault_id y x = true.
Proof. unfold by_vault_id. lia. Qed.

Lemma by_vault_id_trans x y z : by_vault_id x y = true → by_vault_id y z = true → by_vault_id x z = true.
Proof. unfold by_vault_id. lia. Qed.

(** An address that the node's account list shows, under the id and seed key
    its own bytes decode to. *)
Definition shown_by_node (owner : string) (v : VaultLocator) (authority : string) : Prop :=
  ∃ accounts data raw, vn_getProgramAccounts node owner = Ok accounts ∧
    (vl_vaultAddress v, data) ∈ accounts ∧ atob data = Some raw ∧
    vn_decodeVault node raw = Some (vl_vaultId v, authority).

Lemma gpa_vaults_genuine owner vs :
  gpa_vaults encode derive node owner = Ok vs →
  js_sorted by_vault_id vs ∧
  ∀ v, v ∈ vs → ∃ authority, vl_vaultAddress v = pda authority (vl_vaultId v) ∧
                              shown_by_node owner v authority.
Proof.
  unfold gpa_vaults. intros H. inv_ok. rename E into Ha, E0 into Hp. split.
  { apply js_sort_sorted; [apply by_vault_id_total | apply by_vault_id_trans]. }
  intros v Hv. rewrite js_sort_perm in Hv.
  apply list_elem_of_fmap in Hv as ([v' authority] & -> & [Hd Hin]%list_elem_of_filter).
  simpl. apply list_elem_of_In, in_concat in Hin as (ys & Hys%list_elem_of_In & Hv%list_elem_of_In).
  apply mapM_Ok_iff in Hp. apply list_elem_of_lookup in Hys as [i Hi].
  destruct (Forall2_lookup_r _ _ _ _ _ Hp Hi) as ([a data] & Hx & Hparse).
  unfold parse_entry in Hparse. simpl in Hparse.
  destruct (atob data) as [raw|] eqn:Eb; [|done].
  destruct (vn_decodeVault node raw) as [[id auth]|] eqn:Ed; injection Hparse as <-;
    [|by apply elem_of_nil in Hv].
  apply list_elem_of_singleton in Hv. injection Hv as -> ->.
  exists auth. split; [symmetry; exact Hd|]. simpl.
  exists x, data, raw. repeat split; [done | | done | done]. by eapply list_elem_of_lookup_2.
Qed.

Lemma present_pdas_sublist present pdas vs :
  present_pdas present pdas = Ok vs → vs `sublist_of` pdas.
Proof.
  revert pdas vs; induction present as [|b present IH]; intros pdas vs H; simpl in H.
  { injection H as <-. apply sublist_nil_l. }
  destruct b, pdas as [|p pdas]; try done; inv_ok.
  - apply sublist_skip. eauto.
  - apply IH in H. by apply sublist_nil_r in H as ->.
  - apply sublist_cons. eauto.
Qed.

Lemma seqZ_map_sorted (f : Z → VaultLocator) len :
  (∀ i, vl_vaultId (f i) = i) → ∀ m, js_sorted by_vault_id (map f (seqZ m len)).
Proof.
  intros Hf. unfold seqZ. intros m.
  rewrite <- list_fmap_compose. generalize (Z.to_nat len). intros n.
  enough (H : ∀ k, js_sorted by_vault_id ((λ i : nat, f (Z.of_nat i + m)) <$> seq k n)) by apply H.
  induction n as [|n IH]; intros k; simpl; constructor; [|apply IH].
  apply Forall_fmap, Forall_forall. intros i Hi%elem_of_seq.
  unfold compose, by_vault_id. rewrite !Hf. lia.
Qed.

Lemma list_sublist_Forall {A} (P : A → Prop) (l k : list A) :
  l `sublist_of` k → Forall P k → Forall P l.
Proof. induction 1; inversion 1; subst; eauto. Qed.

Lemma js_sorted_sublist (l k : list VaultLocator) :
  l `sublist_of` k → js_sorted by_vault_id k → js_sorted by_vault_id l.
Proof.
  induction 1 as [|x l k Hs IH|x l k Hs IH]; intros Hk; [done| |]; inversion Hk; subst; [|eauto].
  constructor; [|eauto]. by eapply list_sublist_Forall.
Qed.

Lemma probe_genuine owner n vs :
  probeVaultsByOwner encode derive node owner n = Ok vs →
  js_sorted by_vault_id vs ∧
  ∀ v, v ∈ vs → vl_vaultAddress v = pda owner (vl_vaultId v) ∧ 0 ≤ vl_vaultId v < n.
Proof.
  unfold probeVaultsByOwner. destruct (n =? 0).
  { intros [= <-]. split; [constructor|]. intros v Hv. by apply elem_of_nil in Hv. }
  intros H. inv_ok. apply present_pdas_sublist in H. split.
  { eapply js_sorted_sublist; [done|]. by apply seqZ_map_sorted. }
  apply Forall_forall. eapply list_sublist_Forall; [done|]. apply Forall_forall.
  intros v (i & -> & Hi%elem_of_seqZ)%list_elem_of_fmap. simpl. split; [done | lia].
Qed.
End Properties.

(** Discovery cannot be pointed at a foreign account: whatever the node
    answers, every vault [findVaultsByOwner] returns sits at the address derived
    from a seed key and its id, where the seed key is the one its own account
    decodes to, or the owner's for an id below 100; and the list is in the order
    of the ids. *)
Theorem discovered_vaults_are_genuine (encode : string → list Z) (derive : string → list (list Z) → string)
    (node : VaultNode) (owner : string) (maxProbe : Z) (vs : list VaultLocator) :
  findVaultsByOwner encode derive node owner maxProbe = Ok vs →
  js_sorted by_vault_id vs ∧
  ∀ v, v ∈ vs → ∃ authority,
    vl_vaultAddress v = vaultPda encode derive authority (vl_vaultId v) ∧
    (shown_by_node node owner v authority ∨ (authority = owner ∧ 0 ≤ vl_vaultId v < 100)).
Proof.
  assert (Hprobe : probeVaultsByOwner encode derive node owner (capped_probe maxProbe) = Ok vs →
    js_sorted by_vault_id vs ∧ ∀ v, v ∈ vs → ∃ authority,
      vl_vaultAddress v = vaultPda encode derive authority (vl_vaultId v) ∧
      (shown_by_node node owner v authority ∨ (authority = owner ∧ 0 ≤ vl_vaultId v < 100))).
  { intros [Hs Hv]%probe_genuine. split; [done|]. intros v [Ha Hi]%Hv. exists owner.
    split; [done|]. right. split; [done|]. unfold capped_probe in Hi. lia. }
  unfold findVaultsByOwner.
  destruct (gpa_vaults encode derive node owner) as [verified|err] eqn:Eg.
  - destruct verified as [|v0 l]; [exact Hprobe|]. intros [= <-].
    apply gpa_vaults_genuine in Eg as [Hs Hv]. split; [done|].
    intros v (a & Ha & Hn)%Hv. eauto.
  - destruct err; try done; split_if; try done; exact Hprobe.
Qed.

(** The node may refuse to list accounts: what is thrown on, and what is
    replaced by probing. *)
Lemma discovery_failures_specified encode derive node owner maxProbe err :
  vn_getProgramAccounts node owner = Throw err → instanceof_Error err = true →
  findVaultsByOwner encode derive node owner maxProbe =
    (if is_rate_limit err || negb (isGpaUnsupportedError err) then Throw (RpcError err)
     else probeVaultsByOwner encode derive node owner (capped_probe maxProbe)).
Proof.
  intros Hg He. unfold findVaultsByOwner, gpa_vaults. rewrite Hg. simpl.
  destruct err; try done. by destruct (is_rate_limit _), (isGpaUnsupportedError _).
Qed.

(** ** The next id *)

Section NextId.
Context (encode : string → list Z) (derive : string → list (list Z) → string).

Lemma first_free_spec node owner ids r :
  first_free encode derive node owner ids = Ok r →
  match r with
  | Some i => ∃ pre post, ids = pre ++ i :: post ∧
      vault_exists encode derive node owner i = Ok false ∧
      Forall (λ j, vault_exists encode derive node owner j = Ok true) pre
  | None => Forall (λ j, vault_exists encode derive node owner j = Ok true) ids
  end.
Proof.
  induction ids as [|i ids IH]; simpl; intros H; [by injection H as <-|].
  inv_ok. rename x into used. destruct used.
  - specialize (IH H). destruct r as [k|]; [|by constructor].
    destruct IH as (pre & post & -> & Hk & Hpre). exists (i :: pre), post. by repeat constructor.
  - injection H as <-. exists [], ids. by repeat constructor.
Qed.
End NextId.

(** The id chosen for a new vault is free in the fast case -- an id below
    five without an account, all smaller ids taken -- and otherwise is one more
    than the largest id discovery reports, below 256; only when discovery
    reports nothing it is 0. *)
Theorem next_vault_id_specified (encode : string → list Z) (derive : string → list (list Z) → string)
    (node : VaultNode) (owner : string) (id : Z) :
  findNextVaultId encode derive node owner = Ok id →
  (0 ≤ id < 5 ∧ vault_exists encode derive node owner id = Ok false ∧
   ∀ j, 0 ≤ j < id → vault_exists encode derive node owner j = Ok true) ∨
  ((∀ j, 0 ≤ j < 5 → vault_exists encode derive node owner j = Ok true) ∧
   ∃ vs, findVaultsByOwner encode derive node owner 100 = Ok vs ∧
     (vs = [] ∧ id = 0 ∨
      vs ≠ [] ∧ 0 < id < 256 ∧ (∀ v, v ∈ vs → vl_vaultId v < id) ∧
      (id = 1 ∨ ∃ v, v ∈ vs ∧ id = vl_vaultId v + 1))).
Proof.
  unfold findNextVaultId. change (seqZ 0 5) with [0; 1; 2; 3; 4].
  destruct (first_free encode derive node owner [0; 1; 2; 3; 4]) as [free|] eqn:Ef; [|done].
  apply first_free_spec in Ef. simpl. destruct free as [i|].
  - intros [= <-]. left. destruct Ef as (pre & post & Hids & Hfree & Hpre).
    rewrite Forall_forall in Hpre.
    do 5 (destruct pre as [|? pre]; [injection Hids as <- _; split; [lia|]; split; [done|];
      intros j Hj; simplify_eq/=; first [lia | apply Hpre; rewrite !elem_of_cons; lia] | injection Hids as <- Hids]).
    by destruct pre.
  - intros H. right. split.
    { intros j Hj. rewrite Forall_forall in Ef. apply Ef. rewrite !elem_of_cons. lia. }
    inv_ok. rename x into vs. exists vs. split; [done|].
    case_bool_decide as Hl; [injection H as <-; left; by apply nil_length_inv in Hl|].
    destruct (Z.leb_spec 256 (max_vault_id vs + 1)); [done|]. injection H as <-. right.
    destruct (foldl_max_spec vl_vaultId vs 0) as (Hmin & Hall & Hsome). fold (max_vault_id vs) in *.
    split; [by intros ->|]. split; [lia|].
    split; [intros v Hv%Hall; lia|]. destruct Hsome as [->|(v & Hv & ->)]; [by left | right; eauto].
Qed.

Lemma fetch_agrees_first_free encode derive node1 node2 owner ids :
  Forall (λ i, vn_fetchMaybeAgentVault node1 (vaultPda encode derive owner i) =
               vn_fetchMaybeAgentVault node2 (vaultPda encode derive owner i)) ids →
  first_free encode derive node1 owner ids = first_free encode derive node2 owner ids.
Proof.
  induction 1 as [|i ids Hi _ IH]; simpl; [done|]. unfold vault_exists. by rewrite Hi, IH.
Qed.

(** A node with the account lists of [n] and other single accounts. *)
Definition with_accounts_at (fetch : string → result jsv (option (Z * nat))) (n : VaultNode) : VaultNode := {|
  vn_getProgramAccounts := vn_getProgramAccounts n;
  vn_getMultipleAccounts := vn_getMultipleAccounts n;
  vn_fetchMaybeAgentVault := fetch;
  vn_decodeVault := vn_decodeVault n |}.

(** Beyond the first five ids the account that the chosen id names is never
    looked at: two worlds that agree on ids 0 to 4 and on the account lists give
    the same id, whatever exists at its address.  (An owner who gave vault 5
    away is told to create vault 5 again: [transferred_vault_id_is_reused].) *)
Theorem next_vault_id_is_not_probed (encode : string → list Z) (derive : string → list (list Z) → string)
    (node : VaultNode) (fetch : string → result jsv (option (Z * nat))) (owner : string) :
  (∀ i, 0 ≤ i < 5 → fetch (vaultPda encode derive owner i) =
                    vn_fetchMaybeAgentVault node (vaultPda encode derive owner i)) →
  findNextVaultId encode derive (with_accounts_at fetch node) owner =
  findNextVaultId encode derive node owner.
Proof.
  intros Hsame. unfold findNextVaultId.
  rewrite (fetch_agrees_first_free _ _ (with_accounts_at fetch node) node); [done|].
  apply Forall_forall. intros i Hi%elem_of_seqZ. by apply Hsame.
Qed.

(** ** A small world *)

Module DiscoveryDemo.
(** Addresses spell their seeds: the authority's letter and the id. *)
Definition encode (a : string) : list Z := map code (chars a).
Definition derive (program : string) (seeds : list (list Z)) : string :=
  text (map (λ z, ascii_of_nat (Z.to_nat z)) (concat (map (take 5) seeds))).
Definition alice : string := "Alice".
Definition vault (i : Z) : string := vaultPda encode derive alice i.
(** Account bytes: the id, then the seed key. *)
Definition decodeVault (raw : list Z) : option (Z * string) :=
  match raw with
  | i :: auth => Some (i, text (map (λ z, ascii_of_nat (Z.to_nat z)) auth))
  | [] => None
  end.
Definition entry (i : Z) : string * list ascii := (vault i, b64_encode (i :: map code (chars alice))).

(** Alice created the vaults 0 to 5 and gave 5 away; the node also lists a
    forged account. *)
Definition node : VaultNode := {|
  vn_getProgramAccounts := λ _,
    Ok (map entry [3; 1; 0; 2; 4] ++ [("Forged", b64_encode (9 :: map code (chars alice)))]);
  vn_getMultipleAccounts := λ l, Ok (map (λ _, false) l);
  vn_fetchMaybeAgentVault := λ a, Ok (if bool_decide (a ∈ map vault (seqZ 0 6)) then Some (0, 1%nat) else None);
  vn_decodeVault := decodeVault |}.
End DiscoveryDemo.

(** Vault 5 exists and belongs to someone else, yet 5 is the id of the next
    vault; the forged account is not returned. *)
Example transferred_vault_id_is_reused :
  let open_ := DiscoveryDemo.node in
  findNextVaultId DiscoveryDemo.encode DiscoveryDemo.derive open_ DiscoveryDemo.alice = Ok 5 ∧
  vault_exists DiscoveryDemo.encode DiscoveryDemo.derive open_ DiscoveryDemo.alice 5 = Ok true ∧
  findVaultsByOwner DiscoveryDemo.encode DiscoveryDemo.derive open_ DiscoveryDemo.alice 20 =
    Ok (map (λ i, {| vl_vaultAddress := DiscoveryDemo.vault i; vl_vaultId := i |}) [0; 1; 2; 3; 4]).
Proof. by vm_compute. Qed.

Lemma discovered_vaults_are_genuine_witness :
  ∃ vs, findVaultsByOwner DiscoveryDemo.encode DiscoveryDemo.derive DiscoveryDemo.node DiscoveryDemo.alice 20 = Ok vs ∧
    js_sorted by_vault_id vs.
Proof.
  eexists. split; [vm_compute; reflexivity|].
  eapply (discovered_vaults_are_genuine DiscoveryDemo.encode DiscoveryDemo.derive DiscoveryDemo.node
            DiscoveryDemo.alice 20). by vm_compute.
Defined.

Lemma next_vault_id_specified_witness :
  (0 ≤ 5 < 5 ∧ vault_exists DiscoveryDemo.encode DiscoveryDemo.derive DiscoveryDemo.node DiscoveryDemo.alice 5 = Ok false ∧
   ∀ j, 0 ≤ j < 5 → vault_exists DiscoveryDemo.encode DiscoveryDemo.derive DiscoveryDemo.node DiscoveryDemo.alice j = Ok true) ∨
  ((∀ j, 0 ≤ j < 5 → vault_exists DiscoveryDemo.encode DiscoveryDemo.derive DiscoveryDemo.node DiscoveryDemo.alice j = Ok true) ∧
   ∃ vs, findVaultsByOwner DiscoveryDemo.encode DiscoveryDemo.derive DiscoveryDemo.node DiscoveryDemo.alice 100 = Ok vs ∧
     (vs = [] ∧ 5 = 0 ∨
      vs ≠ [] ∧ 0 < 5 < 256 ∧ (∀ v, v ∈ vs → vl_vaultId v < 5) ∧
      (5 = 1 ∨ ∃ v, v ∈ vs ∧ 5 = vl_vaultId v + 1))).
Proof. apply next_vault_id_specified. by vm_compute. Defined.

Lemma next_vault_id_is_not_probed_witness :
  findNextVaultId DiscoveryDemo.encode DiscoveryDemo.derive
    (with_accounts_at (λ a, Ok (if bool_decide (a ∈ map DiscoveryDemo.vault (seqZ 0 5)) then Some (0, 1%nat) else None))
       DiscoveryDemo.node) DiscoveryDemo.alice = Ok 5.
Proof.
  rewrite next_vault_id_is_not_probed; [by vm_compute|].
  intros i Hi. assert (i = 0 ∨ i = 1 ∨ i = 2 ∨ i = 3 ∨ i = 4) as Hc by lia.
  by destruct Hc as [->|[->|[->|[->| ->]]]]; vm_compute.
Defined.

(** ** inscribe and the mapped parameters *)

(** [inscribe] fails before any account is read when owner and agent are one
    key, and otherwise names the accounts of the chosen id. *)
Lemma inscribe_specified encode derive node o r :
  inscribe encode derive node o = Ok r →
  ir_ownerAddress r ≠ ir_agentAddress r ∧
  resolve_vault_id encode derive node (in_owner o) (in_vaultId o) = Ok (ir_vaultId r) ∧
  ir_vaultAddress r = vaultPda encode derive (in_owner o) (ir_vaultId r).
Proof. unfold inscribe. intros H. inv_ok. by case_bool_decide. Qed.

(** The mapped parameters: the cap is the largest limit and every listed
    protocol is an allowed one; without protocols the mode is 0. *)
Lemma mapped_params_specified p i fee o :
  let v := mapPoliciesToVaultParams p i fee o in
  (∀ a, a ∈ cl_spendAmounts p → a ≤ vp_dailySpendingCap v) ∧
  (length (vp_protocols v) ≤ 10)%nat ∧
  (∀ a, a ∈ vp_protocols v → a ∈ default [] (cl_allowedProtocols p)) ∧
  (vp_protocolMode v = 0 ↔ default [] (cl_allowedProtocols p) = []).
Proof.
  simpl. destruct (foldl_max_spec id (cl_spendAmounts p) 0) as (_ & Hmax & _).
  split; [exact Hmax|]. split; [rewrite length_take; lia|].
  split; [intros a; apply subseteq_take|]. case_bool_decide as H; [|split; [done|]; intros E; by rewrite E in H].
  split; [|done]. intros _. destruct (default [] (cl_allowedProtocols p)); [done | discriminate].
Qed.
