(* ===== verification/VaultCreation.v ===== *)
(** * Creating a vault (create-vault.ts, presets.ts)

    [createVault] checks the options, chooses the id, fills in defaults, binds
    the resulting policy into a digest and builds the two instructions of the
    creation: [initialize_vault] and the seat of the first agent.  The program
    recomputes the digest from the arguments it receives, so the theorems are
    about both sides: the handler of [initialize_vault] is modelled from
    [programs/sigil/src/instructions/initialize_vault.rs], and a transaction
    that [createVault] builds is accepted by it exactly within the program's
    limits and in the slot the digest names. *)

From S2P Require Import Prelude JsMap JsText JsValue CanonicalEncode PolicyDigest PolicyBinding Money.
From S2P Require Import SdkTypes IntentDigest Base64 Composer StateResolver Rpc Accounts OwnerTx DashboardJson Discovery.

Local Open Scope Z_scope.

(** ** Constants *)

Definition MAX_DEVELOPER_FEE_RATE : Z := 500.
Definition MAX_ALLOWED_PROTOCOLS : nat := 10.
Definition MAX_SLIPPAGE_BPS : Z := 5000.
Definition MIN_TIMELOCK_DURATION : Z := 1800.
Definition MAX_TIMELOCK_DURATION : Z := 172800.
Definition SINGLE_KEY_OPERATOR_DELAY_FLOOR : Z := 600.
Definition PROTOCOL_MODE_ALL : Z := 0.
Definition PROTOCOL_MODE_ALLOWLIST : Z := 1.
Definition PROTOCOL_MODE_DENYLIST : Z := 2.
Definition FULL_CAPABILITY : Z := 2.
Definition FULL_PERMISSIONS : Z := FULL_CAPABILITY.
Definition CAPABILITY_OPERATOR : Z := 2.

Definition INVALID_CAPABILITY : js_exn := SdkDomainError "SIGIL_ERROR__SDK__INVALID_CAPABILITY".

(** ** Options and results *)

(** An optional field is [None] when it is [undefined].  The two caps and the
    timelock are required but checked at run time: [None] is any value of
    another type. *)
Record CreateVaultOptions : Type := {
  co_owner : string;
  co_agent : string;
  co_permissions : option Z;
  co_spendingLimitUsd : option Z;
  co_dailySpendingCapUsd : option Z;
  co_maxTransactionSizeUsd : option Z;
  co_feeDestination : option string;
  co_developerFeeRate : option Z;
  co_protocols : option (list string);
  co_protocolMode : option Z;
  co_protocolCaps : option (list Z);
  co_maxSlippageBps : option Z;
  co_observeOnly : option bool;
  co_timelockDuration : option number;
  co_allowedDestinations : option (list string);
  co_vaultId : option Z;
  co_createdAtSlot : option Z;
  co_operatingHours : option Z;
  co_autoPromoteGrays : option bool;
  co_autoRevokeThreshold : option Z;
  co_stableBalanceFloor : option Z;
  co_perRecipientDailyCapUsd : option Z;
  co_cosignRequired : option bool;
  co_firstOperatorSeating : option string;
}.

(** The arguments of the generated [initialize_vault] builder. *)
Record InitializeVaultArgs : Type := {
  ia_owner : string;
  ia_agentSpendOverlay : string;
  ia_feeDestination : string;
  ia_vaultId : Z;
  ia_dailySpendingCapUsd : Z;
  ia_maxTransactionSizeUsd : Z;
  ia_protocolMode : Z;
  ia_protocols : list string;
  ia_developerFeeRate : Z;
  ia_maxSlippageBps : Z;
  ia_timelockDuration : number;
  ia_allowedDestinations : list string;
  ia_protocolCaps : list Z;
  ia_observeOnly : bool;
  ia_operatingHours : Z;
  ia_autoPromoteGrays : bool;
  ia_autoRevokeThreshold : Z;
  ia_stableBalanceFloor : Z;
  ia_perRecipientDailyCapUsd : Z;
  ia_cosignRequired : bool;
  ia_previewDigest : list Z;
}.

Record QueueAgentGrantArgs : Type := {
  qa_owner : string; qa_vault : string; qa_agent : string; qa_capability : Z; qa_spendingLimitUsd : Z;
}.

Record RegisterAgentArgs : Type := {
  ga_owner : string; ga_vault : string; ga_policy : string; ga_agentSpendOverlay : string;
  ga_agent : string; ga_capability : Z; ga_spendingLimitUsd : Z;
}.

(** The generated builders; their codecs throw on values out of width. *)
Record VaultBuilders : Type := {
  vb_initializeVault : InitializeVaultArgs → result js_exn Ix;
  vb_queueAgentGrant : QueueAgentGrantArgs → result js_exn Ix;
  vb_registerAgent : RegisterAgentArgs → result js_exn Ix;
}.

Record OperatorGrantInfo : Type := {
  og_agent : string;
  og_capability : Z;
  og_delaySeconds : Z;
  og_appliesAfterUnix : option Z;
}.

Record CreateVaultResult : Type := {
  cr_vaultAddress : string;
  cr_vaultId : Z;
  cr_policyAddress : string;
  cr_agentOverlayAddress : string;
  cr_initializeVaultIx : Ix;
  cr_registerAgentIx : option Ix;
  cr_queueAgentGrantIx : option Ix;
  cr_instructions : list Ix;
  cr_operatorGrant : option OperatorGrantInfo;
}.

(** ** createVault *)

(** A required field of the right type. *)
Definition required {A} (v : option A) : result call_exn A :=
  match v with Some a => Ok a | None => Throw (SdkError INVALID_PARAMS) end.

Definition check_capability (permissions : option Z) : result call_exn unit :=
  match permissions with
  | None => Ok tt
  | Some cap => throw_if ((cap <? 0) || (2 <? cap)) (SdkError INVALID_CAPABILITY)
  end.

(** [BigInt] of a number throws unless it is an integer. *)
Definition BigInt_of_number (n : number) : result js_exn Z :=
  match n with Int z => Ok z | _ => Throw JsRangeError end.

Definition opt_protocols (o : CreateVaultOptions) : list string := default [] (co_protocols o).
Definition opt_protocolCaps (o : CreateVaultOptions) : list Z :=
  match co_protocolCaps o with Some caps => caps | None => map (λ _, 0) (opt_protocols o) end.
Definition opt_destinations (o : CreateVaultOptions) : list string := default [] (co_allowedDestinations o).
Definition opt_observeOnly (o : CreateVaultOptions) : bool := default false (co_observeOnly o).

Definition check_allowlist (o : CreateVaultOptions) : result call_exn unit :=
  throw_if (negb (opt_observeOnly o) && bool_decide (length (opt_protocols o) = 0%nat) &&
            bool_decide (length (opt_destinations o) = 0%nat)) (SdkError INVALID_PARAMS).

(** The argument of [computePolicyPreviewDigest]. *)
Definition preview_fields (o : CreateVaultOptions) (dailyCap timelock slot : Z) : PolicyPreviewFields := {|
  dailySpendingCapUsd := dailyCap;
  maxTransactionSizeUsd := default dailyCap (co_maxTransactionSizeUsd o);
  maxSlippageBps := default 100 (co_maxSlippageBps o);
  developerFeeRate := default 0 (co_developerFeeRate o);
  protocolMode := default 1 (co_protocolMode o);
  protocols := opt_protocols o;
  destinationMode := 0;
  allowedDestinations := opt_destinations o;
  timelockDuration := timelock;
  sessionExpirySeconds := 0;
  observeOnly := opt_observeOnly o;
  hasPostAssertions := 0;
  createdAtSlot := slot;
  operatingHours := Some (default 16777215 (co_operatingHours o));
  autoPromoteGrays := Some (default false (co_autoPromoteGrays o));
  autoRevokeThreshold := Some (default 5 (co_autoRevokeThreshold o));
  stableBalanceFloor := Some (default 0 (co_stableBalanceFloor o));
  perRecipientDailyCapUsd := Some (default 0 (co_perRecipientDailyCapUsd o));
  cosignRequired := Some (default false (co_cosignRequired o));
  agentSetHash := None;
  cosignSessionPubkey := None;
  operatorGrantDelaySeconds := None;
  hasProtocolCaps := Some (bool_decide (0 < length (opt_protocolCaps o))%nat);
  protocolCaps := Some (opt_protocolCaps o);
  protocolHashes := None |}.

(** The argument of the builder; its defaults are written a second time. *)
Definition initialize_args (o : CreateVaultOptions) (overlay : string) (vaultId dailyCap : Z)
    (timelock : number) (digest : list Z) : InitializeVaultArgs := {|
  ia_owner := co_owner o;
  ia_agentSpendOverlay := overlay;
  ia_feeDestination := default (co_owner o) (co_feeDestination o);
  ia_vaultId := vaultId;
  ia_dailySpendingCapUsd := dailyCap;
  ia_maxTransactionSizeUsd := default dailyCap (co_maxTransactionSizeUsd o);
  ia_protocolMode := default 1 (co_protocolMode o);
  ia_protocols := opt_protocols o;
  ia_developerFeeRate := default 0 (co_developerFeeRate o);
  ia_maxSlippageBps := default 100 (co_maxSlippageBps o);
  ia_timelockDuration := timelock;
  ia_allowedDestinations := opt_destinations o;
  ia_protocolCaps := opt_protocolCaps o;
  ia_observeOnly := opt_observeOnly o;
  ia_operatingHours := default 16777215 (co_operatingHours o);
  ia_autoPromoteGrays := default false (co_autoPromoteGrays o);
  ia_autoRevokeThreshold := default 5 (co_autoRevokeThreshold o);
  ia_stableBalanceFloor := default 0 (co_stableBalanceFloor o);
  ia_perRecipientDailyCapUsd := default 0 (co_perRecipientDailyCapUsd o);
  ia_cosignRequired := default false (co_cosignRequired o);
  ia_previewDigest := digest |}.

Section Create.
Context (encode : string → list Z) (derive : string → list (list Z) → string).
Context (node : VaultNode) (getSlot : result jsv Z).
Context (sha256 : list Z → list Z) (vb : VaultBuilders).

(** Everything up to the first instruction: the arguments it is built from. *)
Definition prepare (o : CreateVaultOptions) : result call_exn (InitializeVaultArgs * Z) :=
  _ ← throw_if (bool_decide (co_owner o = co_agent o)) (SdkError OWNER_AGENT_COLLISION);
  limit ← required (co_spendingLimitUsd o);
  dailyCap ← required (co_dailySpendingCapUsd o);
  timelock ← required (co_timelockDuration o);
  _ ← from_sdk (validateAgentCapAggregate
        {| vaultDailyCap := dailyCap; existingAgentCaps := []; newAgentCap := limit |});
  _ ← check_capability (co_permissions o);
  vaultId ← resolve_vault_id encode derive node (co_owner o) (co_vaultId o);
  let vaultAddress := vaultPda encode derive (co_owner o) vaultId in
  let overlay := getAgentOverlayPDA encode derive vaultAddress 0 SIGIL_PROGRAM_ADDRESS in
  _ ← check_allowlist o;
  slot ← match co_createdAtSlot o with Some s => Ok s | None => from_rpc getSlot end;
  timelockBig ← from_sdk (BigInt_of_number timelock);
  digest ← from_sdk (computePolicyPreviewDigest sha256 (preview_fields o dailyCap timelockBig slot));
  Ok (initialize_args o overlay vaultId dailyCap timelock digest, limit).

(** The seat of the first agent. *)
Definition seat_agent (o : CreateVaultOptions) (vault policy overlay : string) (limit : Z)
    : result call_exn (option Ix * option Ix * option OperatorGrantInfo) :=
  let capabilityNum := default FULL_PERMISSIONS (co_permissions o) in
  let seating := default "queued-grant" (co_firstOperatorSeating o) in
  let wantsOperator := CAPABILITY_OPERATOR <=? capabilityNum in
  _ ← throw_if (wantsOperator && bool_decide (seating = "immediate")) (SdkError INVALID_PARAMS);
  if wantsOperator then
    ix ← from_sdk (vb_queueAgentGrant vb
      {| qa_owner := co_owner o; qa_vault := vault; qa_agent := co_agent o;
         qa_capability := CAPABILITY_OPERATOR; qa_spendingLimitUsd := limit |});
    Ok (None, Some ix, Some {| og_agent := co_agent o; og_capability := CAPABILITY_OPERATOR;
                               og_delaySeconds := SINGLE_KEY_OPERATOR_DELAY_FLOOR;
                               og_appliesAfterUnix := None |})
  else
    ix ← from_sdk (vb_registerAgent vb
      {| ga_owner := co_owner o; ga_vault := vault; ga_policy := policy; ga_agentSpendOverlay := overlay;
         ga_agent := co_agent o; ga_capability := capabilityNum; ga_spendingLimitUsd := limit |});
    Ok (Some ix, None, None).

Definition createVault (o : CreateVaultOptions) : result call_exn CreateVaultResult :=
  '(args, limit) ← prepare o;
  let vaultAddress := vaultPda encode derive (co_owner o) (ia_vaultId args) in
  let policyAddress := getPolicyPDA encode derive vaultAddress SIGIL_PROGRAM_ADDRESS in
  initIx ← from_sdk (vb_initializeVault vb args);
  '(registerIx, queueIx, grant) ← seat_agent o vaultAddress policyAddress (ia_agentSpendOverlay args) limit;
  Ok {| cr_vaultAddress := vaultAddress;
        cr_vaultId := ia_vaultId args;
        cr_policyAddress := policyAddress;
        cr_agentOverlayAddress := ia_agentSpendOverlay args;
        cr_initializeVaultIx := initIx;
        cr_registerAgentIx := registerIx;
        cr_queueAgentGrantIx := queueIx;
        cr_instructions := initIx :: option_list registerIx ++ option_list queueIx;
        cr_operatorGrant := grant |}.

(** ** createAndSendVault *)

Record CreateAndSendReplies : Type := {
  cs_sign : list Ix → result call_exn string;
  cs_pendingGrant : string → result jsv (option (Z * Z));
}.

(** [Number] of the sum of two on-chain times, which are small. *)
Definition grant_with_time (replies : CreateAndSendReplies) (vault : string) (g : OperatorGrantInfo)
    : OperatorGrantInfo :=
  match cs_pendingGrant replies (getPendingAgentGrantPDA encode derive vault SIGIL_PROGRAM_ADDRESS) with
  | Ok (Some (queuedAt, minDelaySeconds)) =>
      {| og_agent := og_agent g; og_capability := og_capability g; og_delaySeconds := og_delaySeconds g;
         og_appliesAfterUnix := Some (queuedAt + minDelaySeconds) |}
  | _ => g
  end.

(** [buildOwnerTransaction], signing and confirmation are one step here: from
    the instructions to a signature or an error ([OwnerTx], [Rpc]). *)
Definition createAndSendVault (replies : CreateAndSendReplies) (o : CreateVaultOptions)
    : result call_exn (CreateVaultResult * string) :=
  result ← createVault o;
  signature ← cs_sign replies (cr_instructions result);
  Ok ({| cr_vaultAddress := cr_vaultAddress result;
         cr_vaultId := cr_vaultId result;
         cr_policyAddress := cr_policyAddress result;
         cr_agentOverlayAddress := cr_agentOverlayAddress result;
         cr_initializeVaultIx := cr_initializeVaultIx result;
         cr_registerAgentIx := cr_registerAgentIx result;
         cr_queueAgentGrantIx := cr_queueAgentGrantIx result;
         cr_instructions := cr_instructions result;
         cr_operatorGrant := grant_with_time replies (cr_vaultAddress result) <$> cr_operatorGrant result |},
      signature).
End Create.

(** ** The program's [initialize_vault] *)

(** The instruction codec has fixed widths, and addresses are 32-byte keys,
    here in their text form. *)
Definition in_width (w z : Z) : bool := (0 <=? z) && (z <? 2 ^ w).

Definition arrives (a : InitializeVaultArgs) : bool :=
  in_width 64 (ia_vaultId a) && in_width 64 (ia_dailySpendingCapUsd a) &&
  in_width 64 (ia_maxTransactionSizeUsd a) && in_width 8 (ia_protocolMode a) &&
  in_width 16 (ia_developerFeeRate a) && in_width 16 (ia_maxSlippageBps a) &&
  forallb (in_width 64) (ia_protocolCaps a) && in_width 32 (ia_operatingHours a) &&
  in_width 8 (ia_autoRevokeThreshold a) && in_width 64 (ia_stableBalanceFloor a) &&
  in_width 64 (ia_perRecipientDailyCapUsd a).

(** What the handler hashes. *)
Definition program_fields (slot timelock : Z) (a : InitializeVaultArgs) : PolicyPreviewFields := {|
  dailySpendingCapUsd := ia_dailySpendingCapUsd a;
  maxTransactionSizeUsd := ia_maxTransactionSizeUsd a;
  maxSlippageBps := ia_maxSlippageBps a;
  developerFeeRate := ia_developerFeeRate a;
  protocolMode := ia_protocolMode a;
  protocols := ia_protocols a;
  destinationMode := 0;
  allowedDestinations := ia_allowedDestinations a;
  timelockDuration := timelock;
  sessionExpirySeconds := 0;
  observeOnly := ia_observeOnly a;
  hasPostAssertions := 0;
  createdAtSlot := slot;
  operatingHours := Some (ia_operatingHours a);
  autoPromoteGrays := Some (ia_autoPromoteGrays a);
  autoRevokeThreshold := Some (ia_autoRevokeThreshold a);
  stableBalanceFloor := Some (ia_stableBalanceFloor a);
  perRecipientDailyCapUsd := Some (ia_perRecipientDailyCapUsd a);
  cosignRequired := Some (ia_cosignRequired a);
  agentSetHash := None;
  cosignSessionPubkey := Some (PkBytes (replicate 32 0));
  operatorGrantDelaySeconds := Some 0;
  hasProtocolCaps := Some (negb (bool_decide (ia_protocolCaps a = [])));
  protocolCaps := Some (ia_protocolCaps a);
  protocolHashes := Some (replicate 10 (replicate 32 0)) |}.

(** What the handler writes, field by field, to the vault and the policy. *)
Record StoredVault : Type := {
  sv_owner : string; sv_vaultAuthority : string; sv_agents : list string; sv_feeDestination : string;
  sv_vaultId : Z; sv_observeOnly : bool;
  sv_dailySpendingCapUsd : Z; sv_maxTransactionSizeUsd : Z; sv_protocolMode : Z; sv_protocols : list string;
  sv_developerFeeRate : Z; sv_maxSlippageBps : Z; sv_timelockDuration : Z; sv_allowedDestinations : list string;
  sv_hasProtocolCaps : bool; sv_protocolCaps : list Z; sv_sessionExpirySeconds : Z; sv_policyVersion : Z;
  sv_hasPostAssertions : Z; sv_destinationMode : Z; sv_policyPreviewDigest : list Z; sv_createdAtSlot : Z;
  sv_operatingHours : Z; sv_autoPromoteGrays : bool; sv_destinationGraylist : list string;
  sv_autoRevokeThreshold : Z; sv_stableBalanceFloor : Z; sv_perRecipientDailyCapUsd : Z;
  sv_cosignRequired : bool; sv_cosignSessionPubkey : list Z; sv_operatorGrantDelaySeconds : Z;
  sv_protocolHashes : list (list Z);
}.

(** The protocol hashes are not written: the new account is zero. *)
Definition stored_vault (slot timelock : Z) (a : InitializeVaultArgs) : StoredVault := {|
  sv_owner := ia_owner a; sv_vaultAuthority := ia_owner a; sv_agents := [];
  sv_feeDestination := ia_feeDestination a; sv_vaultId := ia_vaultId a; sv_observeOnly := ia_observeOnly a;
  sv_dailySpendingCapUsd := ia_dailySpendingCapUsd a;
  sv_maxTransactionSizeUsd := ia_maxTransactionSizeUsd a;
  sv_protocolMode := ia_protocolMode a;
  sv_protocols := ia_protocols a;
  sv_developerFeeRate := ia_developerFeeRate a;
  sv_maxSlippageBps := ia_maxSlippageBps a;
  sv_timelockDuration := timelock;
  sv_allowedDestinations := ia_allowedDestinations a;
  sv_hasProtocolCaps := negb (bool_decide (ia_protocolCaps a = []));
  sv_protocolCaps := ia_protocolCaps a;
  sv_sessionExpirySeconds := 0;
  sv_policyVersion := 0;
  sv_hasPostAssertions := 0;
  sv_destinationMode := 0;
  sv_policyPreviewDigest := ia_previewDigest a;
  sv_createdAtSlot := slot;
  sv_operatingHours := ia_operatingHours a;
  sv_autoPromoteGrays := ia_autoPromoteGrays a;
  sv_destinationGraylist := [];
  sv_autoRevokeThreshold := ia_autoRevokeThreshold a;
  sv_stableBalanceFloor := ia_stableBalanceFloor a;
  sv_perRecipientDailyCapUsd := ia_perRecipientDailyCapUsd a;
  sv_cosignRequired := ia_cosignRequired a;
  sv_cosignSessionPubkey := replicate 32 0;
  sv_operatorGrantDelaySeconds := 0;
  sv_protocolHashes := replicate 10 (replicate 32 0) |}.

(** The digest fields of a stored vault without agents, as the program's other
    handlers read them back. *)
Definition stored_fields (v : StoredVault) : PolicyPreviewFields := {|
  dailySpendingCapUsd := sv_dailySpendingCapUsd v; maxTransactionSizeUsd := sv_maxTransactionSizeUsd v;
  maxSlippageBps := sv_maxSlippageBps v; developerFeeRate := sv_developerFeeRate v;
  protocolMode := sv_protocolMode v; protocols := sv_protocols v; destinationMode := sv_destinationMode v;
  allowedDestinations := sv_allowedDestinations v; timelockDuration := sv_timelockDuration v;
  sessionExpirySeconds := sv_sessionExpirySeconds v; observeOnly := sv_observeOnly v;
  hasPostAssertions := sv_hasPostAssertions v; createdAtSlot := sv_createdAtSlot v;
  operatingHours := Some (sv_operatingHours v); autoPromoteGrays := Some (sv_autoPromoteGrays v);
  autoRevokeThreshold := Some (sv_autoRevokeThreshold v); stableBalanceFloor := Some (sv_stableBalanceFloor v);
  perRecipientDailyCapUsd := Some (sv_perRecipientDailyCapUsd v); cosignRequired := Some (sv_cosignRequired v);
  agentSetHash := None; cosignSessionPubkey := Some (PkBytes (sv_cosignSessionPubkey v));
  operatorGrantDelaySeconds := Some (sv_operatorGrantDelaySeconds v);
  hasProtocolCaps := Some (sv_hasProtocolCaps v); protocolCaps := Some (sv_protocolCaps v);
  protocolHashes := Some (sv_protocolHashes v) |}.

Definition MALFORMED : string := "InstructionDidNotDeserialize".

(** The limits the handler checks before the digest. *)
Definition check_limits (timelock : Z) (a : InitializeVaultArgs) : result string unit :=
  _ ← throw_if (negb (ia_protocolMode a =? 1)) "InvalidProtocolMode";
  _ ← throw_if (negb (Z.land (ia_operatingHours a) 4278190080 =? 0)) "ErrOutsideOperatingHours";
  _ ← throw_if (negb ((3 <=? ia_autoRevokeThreshold a) && (ia_autoRevokeThreshold a <=? 20)))
        "InvalidPermissions";
  _ ← throw_if (bool_decide (10 < length (ia_protocols a))%nat) "TooManyAllowedProtocols";
  _ ← throw_if (MAX_DEVELOPER_FEE_RATE <? ia_developerFeeRate a) "DeveloperFeeTooHigh";
  _ ← throw_if (MAX_SLIPPAGE_BPS <? ia_maxSlippageBps a) "SlippageBpsTooHigh";
  _ ← throw_if (bool_decide (ia_feeDestination a = SdkTypes.SYSTEM_PROGRAM_ADDRESS)) "InvalidFeeDestination";
  _ ← throw_if (bool_decide (10 < length (ia_allowedDestinations a))%nat) "TooManyDestinations";
  _ ← throw_if (timelock <? MIN_TIMELOCK_DURATION) "TimelockTooShort";
  _ ← throw_if (MAX_TIMELOCK_DURATION <? timelock) "TimelockTooLong";
  throw_if (negb (bool_decide (ia_protocolCaps a = [])) &&
            negb (bool_decide (length (ia_protocolCaps a) = length (ia_protocols a))))
    "ProtocolCapsMismatch".

Section Program.
Context (sha256 : list Z → list Z).

(** The handler, executed in [slot]: the stored accounts, or the program's
    error.  The program's encoder concatenates the fields ([policyEncode]). *)
Definition initialize_vault (slot : Z) (a : InitializeVaultArgs) : result string StoredVault :=
  timelock ← match ia_timelockDuration a with Int z => Ok z | _ => Throw MALFORMED end;
  _ ← throw_if (negb (arrives a) || negb (in_width 64 timelock)) MALFORMED;
  _ ← check_limits timelock a;
  _ ← throw_if (negb (ia_observeOnly a) && bool_decide (ia_protocols a = []) &&
                bool_decide (ia_allowedDestinations a = [])) "ActiveVaultRequiresAllowlist";
  recomputed ← match policyEncode sha256 (program_fields slot timelock a) with Ok b => Ok (sha256 b) | Throw _ => Throw MALFORMED end;
  _ ← throw_if (negb (bool_decide (recomputed = ia_previewDigest a))) "PolicyPreviewMismatch";
  _ ← throw_if (ia_cosignRequired a) "ErrCosignRequired";
  Ok (stored_vault slot timelock a).

(** What [createVault] leaves to the program: the widths, the limits and
    cosigning. *)
Definition program_accepts (a : InitializeVaultArgs) : bool :=
  match ia_timelockDuration a with
  | Int timelock => arrives a && in_width 64 timelock && is_ok (check_limits timelock a) &&
                    negb (ia_cosignRequired a)
  | _ => false
  end.
End Program.

(** ** Presets *)

Definition FLASH_TRADE_PROGRAM : string := "FLASH6Lo6h3iasJKWDs2F8TkW2UKf3s15C8PMGuVfgBn".
Definition JUPITER_LEND_PROGRAM : string := "JLend2fEim9xUFcaHsyGePEoBzFLvkjMi3MnPcSuCdu".
Definition KAMINO_LEND_PROGRAM : string := "KLend2g3cP87ber8CzRaqeECGwNvLFM9acPVcRkRHvM".

Definition FULL_ACCESS_PROTOCOLS : list string := map fst (take MAX_ALLOWED_PROTOCOLS SUPPORTED_PROTOCOLS).

Record VaultPreset : Type := {
  pre_label : string;
  pre_description : string;
  pre_capability : Z;
  pre_permissions : Z;
  pre_dailySpendingCapUsd : Z;
  pre_maxTransactionSizeUsd : Z;
  pre_maxSlippageBps : Z;
  pre_protocolMode : Z;
  pre_protocols : list string;
}.

Definition VAULT_PRESETS : list (string * VaultPreset) := [
  ("jupiter-swap-bot", {| pre_label := "Jupiter Swap Bot";
    pre_description := "Simple swap bot using Jupiter. Operator capability, conservative caps and Jupiter-only allowlist.";
    pre_capability := FULL_CAPABILITY; pre_permissions := FULL_CAPABILITY;
    pre_dailySpendingCapUsd := 500000000; pre_maxTransactionSizeUsd := 100000000;
    pre_maxSlippageBps := 200; pre_protocolMode := PROTOCOL_MODE_ALLOWLIST;
    pre_protocols := [JUPITER_PROGRAM] |});
  ("perps-trader", {| pre_label := "Perps Trader";
    pre_description := "Leveraged trading on Flash Trade and Jupiter. Operator capability, higher caps ($5,000/day, $1,000/tx).";
    pre_capability := FULL_CAPABILITY; pre_permissions := FULL_CAPABILITY;
    pre_dailySpendingCapUsd := 5000000000; pre_maxTransactionSizeUsd := 1000000000;
    pre_maxSlippageBps := 500; pre_protocolMode := PROTOCOL_MODE_ALLOWLIST;
    pre_protocols := [JUPITER_PROGRAM; FLASH_TRADE_PROGRAM] |});
  ("lending-optimizer", {| pre_label := "Lending Optimizer";
    pre_description := "Deposit and withdraw across lending protocols. Operator capability, moderate caps ($2,000/day, $500/tx).";
    pre_capability := FULL_CAPABILITY; pre_permissions := FULL_CAPABILITY;
    pre_dailySpendingCapUsd := 2000000000; pre_maxTransactionSizeUsd := 500000000;
    pre_maxSlippageBps := 100; pre_protocolMode := PROTOCOL_MODE_ALLOWLIST;
    pre_protocols := [JUPITER_PROGRAM; JUPITER_LEND_PROGRAM; KAMINO_LEND_PROGRAM] |});
  ("full-access", {| pre_label := "Full Access";
    pre_description := "Full capability enabled; every Sigil-recognized protocol allow-listed (up to the on-chain max of 10). For experienced users who need maximum flexibility.";
    pre_capability := FULL_CAPABILITY; pre_permissions := FULL_CAPABILITY;
    pre_dailySpendingCapUsd := 10000000000; pre_maxTransactionSizeUsd := 5000000000;
    pre_maxSlippageBps := 500; pre_protocolMode := PROTOCOL_MODE_ALLOWLIST;
    pre_protocols := FULL_ACCESS_PROTOCOLS |})].

Definition getPreset (name : string) : option VaultPreset := jm_get name VAULT_PRESETS.
Definition listPresets : list string := map fst VAULT_PRESETS.

(** The fields a preset contributes to [CreateVaultOptions]. *)
Record PresetFields : Type := {
  pf_permissions : Z;
  pf_dailySpendingCapUsd : Z;
  pf_maxTransactionSizeUsd : Z;
  pf_maxSlippageBps : Z;
  pf_protocolMode : Z;
  pf_protocols : list string;
}.

Definition presetToCreateVaultFields (preset : VaultPreset) : PresetFields := {|
  pf_permissions := pre_permissions preset;
  pf_dailySpendingCapUsd := pre_dailySpendingCapUsd preset;
  pf_maxTransactionSizeUsd := pre_maxTransactionSizeUsd preset;
  pf_maxSlippageBps := pre_maxSlippageBps preset;
  pf_protocolMode := pre_protocolMode preset;
  pf_protocols := pre_protocols preset |}.

(** [null] caps are to be supplied by the caller. *)
Record SafetyPresetFields : Type := {
  sp_timelockDuration : Z;
  sp_spendingLimitUsd : option Z;
  sp_dailySpendingCapUsd : option Z;
}.

Inductive SafetyPresetName : Type := development | production.

Definition SAFETY_PRESETS (name : SafetyPresetName) : SafetyPresetFields :=
  match name with
  | development => {| sp_timelockDuration := 1800; sp_spendingLimitUsd := Some 100000000;
                      sp_dailySpendingCapUsd := Some 500000000 |}
  | production => {| sp_timelockDuration := 86400; sp_spendingLimitUsd := None;
                     sp_dailySpendingCapUsd := None |}
  end.

Record SafetyOverrides : Type := {
  so_timelockDuration : option Z;
  so_spendingLimitUsd : option Z;
  so_dailySpendingCapUsd : option Z;
}.

(** [override ?? preset]. *)
Definition or_preset (override preset : option Z) : option Z :=
  match override with Some v => Some v | None => preset end.

Definition applySafetyPreset (name : SafetyPresetName) (overrides : SafetyOverrides) : SafetyPresetFields := {|
  sp_timelockDuration := default (sp_timelockDuration (SAFETY_PRESETS name)) (so_timelockDuration overrides);
  sp_spendingLimitUsd :=
    or_preset (so_spendingLimitUsd overrides) (sp_spendingLimitUsd (SAFETY_PRESETS name));
  sp_dailySpendingCapUsd :=
    or_preset (so_dailySpendingCapUsd overrides) (sp_dailySpendingCapUsd (SAFETY_PRESETS name)) |}.

Definition requireResolvedSafetyPreset (preset : SafetyPresetFields) : result js_exn (Z * Z * Z) :=
  match sp_spendingLimitUsd preset, sp_dailySpendingCapUsd preset with
  | Some limit, Some cap => Ok (sp_timelockDuration preset, limit, cap)
  | _, _ => Throw (JsError "Safety preset has unresolved caps")
  end.

(** [{ owner, agent, vaultId, createdAtSlot, ...safety, ...preset }]: what the
    documentation of both presets composes. *)
Definition preset_options (owner agent : string) (vaultId slot : Z) (safety : option (Z * Z))
    (f : PresetFields) : CreateVaultOptions := {|
  co_owner := owner; co_agent := agent;
  co_permissions := Some (pf_permissions f);
  co_spendingLimitUsd := snd <$> safety;
  co_dailySpendingCapUsd := Some (pf_dailySpendingCapUsd f);
  co_maxTransactionSizeUsd := Some (pf_maxTransactionSizeUsd f);
  co_feeDestination := None; co_developerFeeRate := None;
  co_protocols := Some (pf_protocols f);
  co_protocolMode := Some (pf_protocolMode f);
  co_protocolCaps := None;
  co_maxSlippageBps := Some (pf_maxSlippageBps f);
  co_observeOnly := None;
  co_timelockDuration := (λ s, Int (fst s)) <$> safety;
  co_allowedDestinations := None;
  co_vaultId := Some vaultId; co_createdAtSlot := Some slot;
  co_operatingHours := None; co_autoPromoteGrays := None; co_autoRevokeThreshold := None;
  co_stableBalanceFloor := None; co_perRecipientDailyCapUsd := None; co_cosignRequired := None;
  co_firstOperatorSeating := None |}.

(** ** The digest agrees with the program's *)

Lemma zero_hash_slots i : hash_slot (replicate 10 (replicate 32 0)) i = hash_slot [] i.
Proof.
  unfold hash_slot. destruct (replicate 10 (replicate 32 0) !! i) as [h|] eqn:E; [|by rewrite lookup_nil].
  by apply lookup_replicate in E as [-> _].
Qed.

Lemma hashes_sized_zero n : hashes_sized (replicate 10 (replicate 32 0)) n = true.
Proof.
  unfold hashes_sized. apply forallb_forall. intros i _. rewrite zero_hash_slots.
  unfold hash_slot. rewrite lookup_nil. by apply bool_decide_eq_true.
Qed.

(** The two lists of defaults, and the constants each side fills in, encode to
    the same bytes. *)
Lemma digest_fields_agree sha256 o dailyCap timelock slot overlay vaultId number digest b :
  policyEncode sha256 (preview_fields o dailyCap timelock slot) = Ok b →
  policyEncode sha256 (program_fields slot timelock
    (initialize_args o overlay vaultId dailyCap number digest)) = Ok b.
Proof.
  intros (p & d & c & Hp & Hd & La & Hc & Lc & Hh & ->)%policyEncode_Ok.
  simpl in Hc. injection Hc as <-. unfold policyEncode.
  cbn [protocols program_fields ia_protocols initialize_args allowedDestinations ia_allowedDestinations].
  cbn [protocols preview_fields allowedDestinations] in Hp, Hd.
  rewrite Hp, Hd. cbn [mbind result_bind agentSetHash cosignSessionPubkey protocolHashes program_fields
    default from_option id cosign_session_bytes].
  cbn [agentSetHash preview_fields default from_option id] in La. rewrite (bool_decide_true (length (EMPTY_AGENT_SET_HASH sha256) = 32%nat)) by exact La. cbn [negb throw_if mbind result_bind].
  rewrite bool_decide_true by done. cbn [negb throw_if mbind result_bind].
  rewrite hashes_sized_zero. cbn [negb throw_if mbind result_bind]. f_equal.
  unfold policyEncoding. simpl. rewrite (map_ext _ _ zero_hash_slots).
  assert (negb (bool_decide (opt_protocolCaps o = [])) = bool_decide (0 < length (opt_protocolCaps o))%nat)
    as -> by by destruct (opt_protocolCaps o). done.
Qed.

(** ** What createVault establishes *)

(** The slot a creation is bound to: the caller's, or the node's. *)
Definition bound_slot (getSlot : result jsv Z) (o : CreateVaultOptions) : result call_exn Z :=
  match co_createdAtSlot o with Some s => Ok s | None => from_rpc getSlot end.

Lemma from_sdk_Ok {A} (r : result js_exn A) a : from_sdk r = Ok a → r = Ok a.
Proof. destruct r; simpl; congruence. Qed.

Lemma BigInt_of_number_Ok n z : from_sdk (BigInt_of_number n) = Ok z → n = Int z.
Proof. by destruct n; simpl; intros [= ->]. Qed.

Lemma required_Ok {A} (v : option A) a : required v = Ok a → v = Some a.
Proof. by destruct v; intros [= ->]. Qed.

Lemma prepare_Ok encode derive node getSlot sha256 o args limit :
  prepare encode derive node getSlot sha256 o = Ok (args, limit) →
  ∃ dailyCap timelock slot b,
    bound_slot getSlot o = Ok slot ∧
    args = initialize_args o (ia_agentSpendOverlay args) (ia_vaultId args) dailyCap (Int timelock) (sha256 b) ∧
    policyEncode sha256 (preview_fields o dailyCap timelock slot) = Ok b ∧
    co_owner o ≠ co_agent o ∧ co_spendingLimitUsd o = Some limit ∧
    0 ≤ limit ≤ dailyCap ∧ check_allowlist o = Ok tt ∧ check_capability (co_permissions o) = Ok tt ∧
    resolve_vault_id encode derive node (co_owner o) (co_vaultId o) = Ok (ia_vaultId args) ∧
    co_dailySpendingCapUsd o = Some dailyCap ∧ co_timelockDuration o = Some (Int timelock).
Proof.
  unfold prepare. intros H. inv_ok. apply bool_decide_eq_false in E.

  repeat match goal with HR : required _ = Ok _ |- _ => apply required_Ok in HR end.
  match goal with HB : from_sdk (BigInt_of_number _) = Ok _ |- _ => apply BigInt_of_number_Ok in HB as -> end.
  match goal with HD : from_sdk (computePolicyPreviewDigest _ _) = Ok _ |- _ =>
    apply from_sdk_Ok in HD; unfold computePolicyPreviewDigest in HD end. inv_ok.
  match goal with HV : from_sdk (validateAgentCapAggregate _) = Ok _ |- _ =>
    apply from_sdk_Ok in HV; unfold validateAgentCapAggregate in HV; simpl in HV; inv_ok end.
  rewrite policyPreviewBuffer_eq in *.
  do 4 eexists. repeat split; eauto; try lia.
  all: match goal with HA : ?c = Ok ?u |- ?c = _ => by destruct u end.
Qed.

Lemma createVault_Ok encode derive node getSlot sha256 vb o r :
  createVault encode derive node getSlot sha256 vb o = Ok r →
  ∃ args limit,
    prepare encode derive node getSlot sha256 o = Ok (args, limit) ∧
    vb_initializeVault vb args = Ok (cr_initializeVaultIx r) ∧
    seat_agent vb o (cr_vaultAddress r) (cr_policyAddress r) (cr_agentOverlayAddress r) limit =
      Ok (cr_registerAgentIx r, cr_queueAgentGrantIx r, cr_operatorGrant r) ∧
    cr_instructions r =
      cr_initializeVaultIx r :: option_list (cr_registerAgentIx r) ++ option_list (cr_queueAgentGrantIx r) ∧
    cr_vaultId r = ia_vaultId args ∧
    cr_vaultAddress r = vaultPda encode derive (co_owner o) (cr_vaultId r).
Proof.
  unfold createVault. destruct (prepare encode derive node getSlot sha256 o) as [[args limit]|]; [|done].
  simpl. intros H. inv_ok. apply from_sdk_Ok in E. destruct x0 as [[reg queue] grant]. inv_ok.
  exists args, limit. by repeat split.
Qed.

(** The handler's answer to the arguments of [createVault], in any slot: once
    the program's own limits hold, only the digest can fail. *)
Lemma initialize_vault_digest sha256 slot o overlay vaultId dailyCap timelock digest b :
  let a := initialize_args o overlay vaultId dailyCap (Int timelock) digest in
  check_allowlist o = Ok tt → program_accepts a = true →
  policyEncode sha256 (preview_fields o dailyCap timelock slot) = Ok b →
  initialize_vault sha256 slot a =
    if bool_decide (sha256 b = digest) then Ok (stored_vault slot timelock a)
    else Throw "PolicyPreviewMismatch".
Proof.
  intros a Hallow Hacc Hb. unfold initialize_vault, program_accepts in *.
  cbn [ia_timelockDuration a initialize_args] in Hacc |- *.
  rewrite !andb_true_iff, negb_true_iff in Hacc. destruct Hacc as [[[Harr Hw] Hlim] Hcos].
  cbn [mbind result_bind]. rewrite Harr, Hw. cbn [negb orb throw_if mbind result_bind].
  destruct (check_limits timelock a) as [[]|]; [|done]. cbn [mbind result_bind].
  assert (negb (ia_observeOnly a) && bool_decide (ia_protocols a = []) &&
          bool_decide (ia_allowedDestinations a = []) = false) as ->.
  { apply throw_if_Ok in Hallow. revert Hallow. simpl.
    destruct (opt_observeOnly o), (opt_protocols o), (opt_destinations o); done. }
  cbn [throw_if mbind result_bind].
  pose proof (digest_fields_agree _ _ _ _ _ overlay vaultId (Int timelock) digest _ Hb) as Hpb.
  fold a in Hpb. rewrite Hpb. cbn [mbind result_bind ia_previewDigest a initialize_args].
  case_bool_decide; [|done]. cbn [negb throw_if mbind result_bind]. by rewrite Hcos.
Qed.

(** C30: The program accepts what [createVault] builds: if the arguments are
    within the program's limits, [initialize_vault], executed in the slot that
    the digest names, recomputes the same digest from the arguments alone --
    although [createVault] and the handler fill in their defaults independently.
    What it stores, field by field, is the policy that was hashed: the owner's
    digest is stored with it, and is the digest of the stored fields, in a fresh
    vault of this owner without agents. *)
Theorem created_vault_is_accepted (encode : string → list Z) (derive : string → list (list Z) → string)
    (node : VaultNode) (getSlot : result jsv Z) (sha256 : list Z → list Z) (vb : VaultBuilders)
    (o : CreateVaultOptions) (r : CreateVaultResult) :
  createVault encode derive node getSlot sha256 vb o = Ok r →
  ∃ args slot timelock,
    vb_initializeVault vb args = Ok (cr_initializeVaultIx r) ∧
    bound_slot getSlot o = Ok slot ∧ ia_timelockDuration args = Int timelock ∧
    (program_accepts args = true →
     ∃ v b, initialize_vault sha256 slot args = Ok v ∧
       stored_fields v = program_fields slot timelock args ∧
       policyEncode sha256 (stored_fields v) = Ok b ∧ sv_policyPreviewDigest v = sha256 b ∧
       sv_owner v = co_owner o ∧ sv_vaultAuthority v = co_owner o ∧ sv_vaultId v = cr_vaultId r ∧
       sv_feeDestination v = default (co_owner o) (co_feeDestination o) ∧
       sv_agents v = [] ∧ sv_policyVersion v = 0 ∧ sv_destinationGraylist v = []).
Proof.
  intros (args & limit & Hprep & Hix & _ & _ & Hid & _)%createVault_Ok.
  apply prepare_Ok in Hprep as (dailyCap & timelock & slot & b & Hslot & Hargs & Hb & _ & _ & _ & Hallow & _).
  exists args, slot, timelock. split; [done|]. split; [done|]. rewrite Hid, Hargs. split; [done|]. intros Hacc.
  exists (stored_vault slot timelock (initialize_args o (ia_agentSpendOverlay args) (ia_vaultId args) dailyCap
    (Int timelock) (sha256 b))), b.
  rewrite (initialize_vault_digest _ _ _ _ _ _ _ _ _ Hallow Hacc Hb), bool_decide_true by done.
  split_and!; try done. by apply (digest_fields_agree _ _ _ _ _ (ia_agentSpendOverlay args) (ia_vaultId args)
    (Int timelock) (sha256 b)).
Qed.

Lemma encoding_in_other_slot sha256 o dailyCap timelock slot slot' b :
  policyEncode sha256 (preview_fields o dailyCap timelock slot) = Ok b →
  ∃ b', policyEncode sha256 (preview_fields o dailyCap timelock slot') = Ok b'.
Proof.
  unfold policyEncode. intros H. inv_ok. cbn [protocols allowedDestinations preview_fields] in *.
  rewrite E, E0. cbn [mbind result_bind agentSetHash cosignSessionPubkey protocolHashes preview_fields] in *.
  rewrite E1, E2. cbn [throw_if mbind result_bind]. rewrite E3, E4. simpl. eauto.
Qed.

Lemma accepted_arrays o overlay vaultId dailyCap timelock timelockBig slot digest :
  program_accepts (initialize_args o overlay vaultId dailyCap timelock digest) = true →
  policy_arrays (preview_fields o dailyCap timelockBig slot).
Proof.
  unfold program_accepts. cbn [ia_timelockDuration initialize_args].
  destruct timelock as [t| |]; [|done..]. rewrite !andb_true_iff. intros [[[_ _] Hlim] _].
  destruct (check_limits t _) eqn:E; [|done]. unfold check_limits in E. inv_ok.
  cbn [ia_protocols ia_allowedDestinations ia_protocolCaps initialize_args] in *.
  repeat match goal with H : bool_decide _ = false |- _ => apply bool_decide_eq_false in H end.
  unfold policy_arrays, js_array. cbn [protocols allowedDestinations protocolCaps preview_fields default from_option id].
  apply andb_false_iff in E as [E%negb_false_iff%bool_decide_eq_true|E%negb_false_iff%bool_decide_eq_true];
    rewrite E; simpl; lia.
Qed.

Lemma slot_changes_encoding sha256 o dailyCap timelock slot slot' b b' :
  policy_arrays (preview_fields o dailyCap timelock slot) →
  policyEncode sha256 (preview_fields o dailyCap timelock slot) = Ok b →
  policyEncode sha256 (preview_fields o dailyCap timelock slot') = Ok b' →
  in_width 64 slot = true → in_width 64 slot' = true → slot ≠ slot' → b ≠ b'.
Proof.
  intros Harr Hb Hb' Hw Hw' Hne <-.
  pose proof (policyEncode_inj _ _ (preview_fields o dailyCap timelock slot') _ Harr Harr Hb Hb') as Hc.
  apply (f_equal createdAtSlot) in Hc. simpl in Hc. unfold in_width in *.
  rewrite !wrap_fits in Hc by (unfold fits; lia). done.
Qed.

(** A creation is good for one slot only: in any other slot the program
    refuses the transaction with a digest mismatch, or the two encodings are a
    collision of the hash. *)
Theorem created_vault_lands_in_its_slot_only (encode : string → list Z)
    (derive : string → list (list Z) → string) (node : VaultNode) (getSlot : result jsv Z)
    (sha256 : list Z → list Z) (o : CreateVaultOptions) (args : InitializeVaultArgs) (limit slot slot' : Z) :
  prepare encode derive node getSlot sha256 o = Ok (args, limit) →
  bound_slot getSlot o = Ok slot → program_accepts args = true →
  in_width 64 slot = true → in_width 64 slot' = true → slot ≠ slot' →
  initialize_vault sha256 slot' args = Throw "PolicyPreviewMismatch" ∨
  ∃ b b', b ≠ b' ∧ sha256 b = sha256 b'.
Proof.
  intros Hprep Hslot Hacc Hw Hw' Hne.
  apply prepare_Ok in Hprep as (dailyCap & timelock & slot0 & b & Hslot0 & Hargs & Hb & _ & _ & _ & Hallow & _).
  rewrite Hslot in Hslot0. injection Hslot0 as <-. rewrite Hargs in Hacc |- *.
  destruct (encoding_in_other_slot _ _ _ _ _ slot' _ Hb) as [b' Hb'].
  rewrite (initialize_vault_digest _ _ _ _ _ _ _ _ _ Hallow Hacc Hb').
  case_bool_decide as Hd; [right; exists b', b | by left]. split; [|done].
  apply not_eq_sym. eauto using slot_changes_encoding, accepted_arrays.
Qed.

(** The first agent: a creation is [initialize_vault] followed by exactly one
    seat.  An operator (the default) is only queued, with the 600 second delay,
    and never registered; a lesser agent is registered at its capability.  The
    seat names the new vault, the agent and the checked limit, which is within
    the daily cap. *)
Theorem first_operator_waits (encode : string → list Z) (derive : string → list (list Z) → string)
    (node : VaultNode) (getSlot : result jsv Z) (sha256 : list Z → list Z) (vb : VaultBuilders)
    (o : CreateVaultOptions) (r : CreateVaultResult) :
  createVault encode derive node getSlot sha256 vb o = Ok r →
  let cap := default 2 (co_permissions o) in
  ∃ limit seat, co_spendingLimitUsd o = Some limit ∧ cr_instructions r = [cr_initializeVaultIx r; seat] ∧
  ((cap = 2 ∧ cr_registerAgentIx r = None ∧ og_delaySeconds <$> cr_operatorGrant r = Some 600 ∧
    vb_queueAgentGrant vb {| qa_owner := co_owner o; qa_vault := cr_vaultAddress r; qa_agent := co_agent o;
      qa_capability := 2; qa_spendingLimitUsd := limit |} = Ok seat) ∨
   ((cap = 0 ∨ cap = 1) ∧ cr_queueAgentGrantIx r = None ∧ cr_operatorGrant r = None ∧
    vb_registerAgent vb {| ga_owner := co_owner o; ga_vault := cr_vaultAddress r;
      ga_policy := cr_policyAddress r; ga_agentSpendOverlay := cr_agentOverlayAddress r;
      ga_agent := co_agent o; ga_capability := cap; ga_spendingLimitUsd := limit |} = Ok seat)).
Proof.
  intros (args & limit & Hprep & _ & Hseat & Hixs & _)%createVault_Ok cap.
  apply prepare_Ok in Hprep as (dailyCap & t & slot & b & _ & _ & _ & _ & Hlimit & _ & _ & Hcap & _).
  exists limit. rewrite Hixs. unfold seat_agent in Hseat.
  assert (0 ≤ cap ≤ 2) as Hrange.
  { unfold cap, check_capability in *. destruct (co_permissions o); simpl in *; [|lia].
    apply throw_if_Ok in Hcap. lia. }
  change (default FULL_PERMISSIONS (co_permissions o)) with cap in Hseat.
  destruct r as [vault vid pol ov init reg queue ixs grant]. simpl in *. unfold CAPABILITY_OPERATOR in *.
  inv_ok. destruct (Z.leb_spec 2 cap); apply bind_Ok_inv in Hseat as (ix & Eix%from_sdk_Ok & [= <- <- <-]);
    exists ix; (split; [done|]; split; [done|]); [left | right]; repeat split; auto; lia.
Qed.

(** ** Presets create vaults *)

Lemma encoding_exists sha256 o dailyCap timelock slot protos dests :
  length (EMPTY_AGENT_SET_HASH sha256) = 32%nat →
  mapM base58Decode32 (opt_protocols o) = Ok protos → mapM base58Decode32 (opt_destinations o) = Ok dests →
  ∃ b, policyEncode sha256 (preview_fields o dailyCap timelock slot) = Ok b.
Proof.
  intros Hlen Hp Hd. unfold policyEncode.
  cbn [protocols allowedDestinations agentSetHash cosignSessionPubkey protocolHashes preview_fields].
  rewrite Hp, Hd. cbn [mbind result_bind default from_option id].
  rewrite (bool_decide_true (length (EMPTY_AGENT_SET_HASH sha256) = 32%nat)) by done.
  cbn [negb throw_if mbind result_bind cosign_session_bytes].
  rewrite bool_decide_true by done. cbn [negb throw_if mbind result_bind].
  assert (hashes_sized [] (length protos) = true) as ->; [|eexists; reflexivity].
  unfold hashes_sized. apply forallb_forall. intros i _. unfold hash_slot. by rewrite lookup_nil.
Qed.

Lemma prepare_succeeds encode derive node getSlot sha256 o limit dailyCap timelock vaultId slot protos dests :
  length (EMPTY_AGENT_SET_HASH sha256) = 32%nat →
  mapM base58Decode32 (opt_protocols o) = Ok protos → mapM base58Decode32 (opt_destinations o) = Ok dests →
  co_owner o ≠ co_agent o → co_spendingLimitUsd o = Some limit → co_dailySpendingCapUsd o = Some dailyCap →
  co_timelockDuration o = Some (Int timelock) → 0 ≤ limit ≤ dailyCap →
  check_capability (co_permissions o) = Ok tt → co_vaultId o = Some vaultId →
  check_allowlist o = Ok tt → co_createdAtSlot o = Some slot →
  ∃ overlay b, prepare encode derive node getSlot sha256 o =
      Ok (initialize_args o overlay vaultId dailyCap (Int timelock) (sha256 b), limit) ∧
    policyEncode sha256 (preview_fields o dailyCap timelock slot) = Ok b.
Proof.
  intros Hlen Hp Hd Hne Hl Hc Ht Hcap Hperm Hid Hallow Hslot.
  destruct (encoding_exists sha256 o dailyCap timelock slot _ _ Hlen Hp Hd) as [b Hb].
  eexists _, b. split; [|done]. unfold prepare, validateAgentCapAggregate, resolve_vault_id.
  rewrite bool_decide_false, Hl, Hc, Ht by done. simpl.
  assert ((dailyCap <? 0) || (limit <? 0) = false) as -> by lia.
  simpl. assert ((dailyCap <? limit) = false) as -> by lia. simpl.
  rewrite Hperm, Hid. simpl. rewrite Hallow, Hslot. simpl.
  unfold computePolicyPreviewDigest. rewrite policyPreviewBuffer_eq, Hb. reflexivity.
Qed.

Definition no_overrides : SafetyOverrides := {|
  so_timelockDuration := None; so_spendingLimitUsd := None; so_dailySpendingCapUsd := None |}.

(** The presets' own obligations, which are closed computations. *)
Definition preset_ok (p : string * VaultPreset) : bool :=
  let f := presetToCreateVaultFields (snd p) in
  is_ok (mapM base58Decode32 (pf_protocols f)) &&
  (100000000 <=? pf_dailySpendingCapUsd f) &&
  is_ok (check_capability (Some (pf_permissions f))) &&
  negb (bool_decide (pf_protocols f = [])) &&
  program_accepts (initialize_args
    (preset_options "owner" "agent" 0 0 (Some (1800, 100000000)) f) "overlay" 0
    (pf_dailySpendingCapUsd f) (Int 1800) []).

Lemma presets_ok : forallb preset_ok VAULT_PRESETS = true.
Proof. vm_compute. reflexivity. Qed.

(** Only the fee destination and the vault's id come from the caller. *)
Lemma preset_accepted owner agent vaultId slot safety f overlay dailyCap timelock digest :
  program_accepts (initialize_args (preset_options "owner" "agent" 0 0 safety f) "overlay" 0
    dailyCap (Int timelock) []) = true →
  owner ≠ SdkTypes.SYSTEM_PROGRAM_ADDRESS → in_width 64 vaultId = true →
  program_accepts (initialize_args (preset_options owner agent vaultId slot safety f) overlay vaultId
    dailyCap (Int timelock) digest) = true.
Proof.
  intros H Ho Hid. unfold program_accepts, arrives, check_limits in *.
  cbn [initialize_args preset_options ia_timelockDuration ia_vaultId ia_feeDestination co_feeDestination co_owner
    default from_option id] in *.
  rewrite Hid, (bool_decide_false (owner = _)) by done. exact H.
Qed.

(** Every vault preset, with the development safety preset, is a complete
    and acceptable configuration: [createVault] prepares the creation for any
    owner and distinct agent, and the program accepts it in the bound slot. *)
Theorem presets_create_vaults (encode : string → list Z) (derive : string → list (list Z) → string)
    (node : VaultNode) (getSlot : result jsv Z) (sha256 : list Z → list Z)
    (owner agent name : string) (vaultId slot : Z) (preset : VaultPreset) :
  length (sha256 (replicate 4 0)) = 32%nat →
  getPreset name = Some preset → owner ≠ agent → owner ≠ SdkTypes.SYSTEM_PROGRAM_ADDRESS →
  in_width 64 vaultId = true →
  ∃ timelock limit cap args,
    requireResolvedSafetyPreset (applySafetyPreset development no_overrides) = Ok (timelock, limit, cap) ∧
    prepare encode derive node getSlot sha256
      (preset_options owner agent vaultId slot (Some (timelock, limit)) (presetToCreateVaultFields preset)) =
      Ok (args, limit) ∧
    initialize_vault sha256 slot args = Ok (stored_vault slot timelock args).
Proof.
  intros Hsha Hp Hne Ho Hid. do 3 eexists.
  apply jm_get_elem, list_elem_of_In in Hp. pose proof presets_ok as Hall.
  rewrite forallb_forall in Hall. apply Hall in Hp. unfold preset_ok in Hp. cbn [snd] in Hp.
  set (f := presetToCreateVaultFields preset) in *. clearbody f.
  rewrite !andb_true_iff, negb_true_iff in Hp. destruct Hp as [[[[Hdec Hcap] Hperm] Hnil] Hacc].
  destruct (mapM base58Decode32 (pf_protocols f)) as [protos|] eqn:Hprotos; [|done].
  destruct (check_capability (Some (pf_permissions f))) as [[]|] eqn:Ecap; [|done].
  apply bool_decide_eq_false in Hnil.
  assert (Hallow : check_allowlist (preset_options owner agent vaultId slot (Some (1800, 100000000)) f) = Ok tt).
  { unfold check_allowlist, opt_protocols. simpl. by destruct (pf_protocols f). }
  edestruct (prepare_succeeds encode derive node getSlot sha256
    (preset_options owner agent vaultId slot (Some (1800, 100000000)) f)) as (overlay & b & Hprep & Hb);
    [exact Hsha | exact Hprotos | reflexivity | done | reflexivity | reflexivity | reflexivity
    | apply Z.leb_le in Hcap; simpl; lia
    | exact Ecap | reflexivity | done | reflexivity |].
  eexists. split; [reflexivity|]. split; [exact Hprep|].
  rewrite (initialize_vault_digest _ _ _ _ _ _ _ _ _ Hallow
    (preset_accepted _ _ _ _ _ _ _ _ _ _ Hacc Ho Hid) Hb). by rewrite bool_decide_true.
Qed.

(** A vault preset alone is no configuration: without a limit and a timelock
    [createVault] refuses it. *)
Lemma preset_alone_is_incomplete encode derive node getSlot sha256 owner agent vaultId slot f :
  owner ≠ agent →
  prepare encode derive node getSlot sha256 (preset_options owner agent vaultId slot None f) =
  Throw (SdkError INVALID_PARAMS).
Proof. intros Hne. unfold prepare. by rewrite bool_decide_false. Qed.

(** The production preset is resolved by the caller's caps and by nothing
    less. *)
Lemma production_needs_caps o :
  is_ok (requireResolvedSafetyPreset (applySafetyPreset production o)) = true ↔
  is_Some (so_spendingLimitUsd o) ∧ is_Some (so_dailySpendingCapUsd o).
Proof.
  destruct o as [t [l|] [c|]]; simpl; split; try done; intros [H1 H2].
  - by destruct H2.
  - by destruct H1.
  - by destruct H1.
Qed.

(** ** Witnesses *)

Module CreationDemo.
Definition plain_ix (tag : Z) : Ix := {|
  ix_programAddress := SIGIL_PROGRAM_ADDRESS; ix_accounts := None; ix_data := Some [tag] |}.
(** Builders that keep what tells the instructions apart. *)
Definition vb : VaultBuilders := {|
  vb_initializeVault := λ a, Ok (plain_ix (ia_vaultId a));
  vb_queueAgentGrant := λ a, Ok (plain_ix (100 + qa_capability a));
  vb_registerAgent := λ a, Ok (plain_ix (200 + ga_capability a)) |}.
Definition slot : Z := 42.
Definition opts : CreateVaultOptions :=
  preset_options DiscoveryDemo.alice "Bob" 7 slot (Some (1800, 100000000))
    (default {| pf_permissions := 0; pf_dailySpendingCapUsd := 0; pf_maxTransactionSizeUsd := 0;
                pf_maxSlippageBps := 0; pf_protocolMode := 0; pf_protocols := [] |}
      (presetToCreateVaultFields <$> getPreset "perps-trader")).
Definition create : result call_exn CreateVaultResult :=
  createVault DiscoveryDemo.encode DiscoveryDemo.derive DiscoveryDemo.node (Throw JNull) checksum32 vb opts.
Definition prepared : result call_exn (InitializeVaultArgs * Z) :=
  prepare DiscoveryDemo.encode DiscoveryDemo.derive DiscoveryDemo.node (Throw JNull) checksum32 opts.
End CreationDemo.

Lemma created_vault_is_accepted_witness :
  ∃ r args slot timelock, CreationDemo.create = Ok r ∧
    vb_initializeVault CreationDemo.vb args = Ok (cr_initializeVaultIx r) ∧
    ia_timelockDuration args = Int timelock ∧
    (program_accepts args = true → is_ok (initialize_vault checksum32 slot args) = true).
Proof.
  destruct CreationDemo.create as [r|] eqn:E; [|exfalso; revert E; vm_compute; discriminate].
  destruct (created_vault_is_accepted _ _ _ _ _ _ _ _ E) as (args & slot & t & H1 & _ & H2 & H3).
  exists r, args, slot, t. split; [reflexivity|]. split; [exact H1|]. split; [exact H2|].
  intros Ha. destruct (H3 Ha) as (v & b & -> & _). reflexivity.
Defined.

Lemma created_vault_lands_in_its_slot_only_witness :
  ∃ args limit, CreationDemo.prepared = Ok (args, limit) ∧
    (initialize_vault checksum32 43 args = Throw "PolicyPreviewMismatch" ∨
     ∃ b b', b ≠ b' ∧ checksum32 b = checksum32 b').
Proof.
  assert (Hacc : match CreationDemo.prepared with Ok (a, _) => program_accepts a | _ => false end = true)
    by (vm_compute; reflexivity).
  destruct CreationDemo.prepared as [[args limit]|] eqn:E; [|discriminate Hacc].
  exists args, limit. split; [reflexivity|].
  unfold CreationDemo.prepared in E.
  exact (created_vault_lands_in_its_slot_only DiscoveryDemo.encode DiscoveryDemo.derive DiscoveryDemo.node
    (Throw JNull) checksum32 CreationDemo.opts args limit 42 43 E eq_refl Hacc eq_refl eq_refl
    ltac:(discriminate)).
Defined.

Lemma first_operator_waits_witness :
  ∃ r limit seat, CreationDemo.create = Ok r ∧ co_spendingLimitUsd CreationDemo.opts = Some limit ∧
    cr_instructions r = [cr_initializeVaultIx r; seat].
Proof.
  destruct CreationDemo.create as [r|] eqn:E; [|exfalso; revert E; vm_compute; discriminate].
  destruct (first_operator_waits _ _ _ _ _ _ _ _ E) as (limit & seat & H1 & H2 & _).
  exists r, limit, seat. exact (conj eq_refl (conj H1 H2)).
Defined.

Lemma presets_create_vaults_witness :
  ∃ preset timelock limit cap args, getPreset "full-access" = Some preset ∧
    requireResolvedSafetyPreset (applySafetyPreset development no_overrides) = Ok (timelock, limit, cap) ∧
    prepare DiscoveryDemo.encode DiscoveryDemo.derive DiscoveryDemo.node (Throw JNull) checksum32
      (preset_options DiscoveryDemo.alice "Bob" 7 42 (Some (timelock, limit))
        (presetToCreateVaultFields preset)) = Ok (args, limit) ∧
    initialize_vault checksum32 42 args = Ok (stored_vault 42 timelock args).
Proof.
  destruct (getPreset "full-access") as [preset|] eqn:E; [|discriminate].
  destruct (presets_create_vaults DiscoveryDemo.encode DiscoveryDemo.derive DiscoveryDemo.node (Throw JNull)
    checksum32 DiscoveryDemo.alice "Bob" "full-access" 7 42 preset) as (t & l & c & a & H); [reflexivity | exact E | discriminate | discriminate | reflexivity |].
  exists preset, t, l, c, a. exact (conj eq_refl H).
Defined.

(** Cosigning at creation passes every check of [createVault] and is refused by
    the program; so is any mode but the allowlist. *)
Definition with_cosign_and_mode (cosign : bool) (mode : Z) (o : CreateVaultOptions) : CreateVaultOptions := {|
  co_owner := co_owner o; co_agent := co_agent o; co_permissions := co_permissions o;
  co_spendingLimitUsd := co_spendingLimitUsd o; co_dailySpendingCapUsd := co_dailySpendingCapUsd o;
  co_maxTransactionSizeUsd := co_maxTransactionSizeUsd o; co_feeDestination := co_feeDestination o;
  co_developerFeeRate := co_developerFeeRate o; co_protocols := co_protocols o;
  co_protocolMode := Some mode; co_protocolCaps := co_protocolCaps o;
  co_maxSlippageBps := co_maxSlippageBps o; co_observeOnly := co_observeOnly o;
  co_timelockDuration := co_timelockDuration o; co_allowedDestinations := co_allowedDestinations o;
  co_vaultId := co_vaultId o; co_createdAtSlot := co_createdAtSlot o;
  co_operatingHours := co_operatingHours o; co_autoPromoteGrays := co_autoPromoteGrays o;
  co_autoRevokeThreshold := co_autoRevokeThreshold o; co_stableBalanceFloor := co_stableBalanceFloor o;
  co_perRecipientDailyCapUsd := co_perRecipientDailyCapUsd o; co_cosignRequired := Some cosign;
  co_firstOperatorSeating := co_firstOperatorSeating o |}.

Definition program_answer (o : CreateVaultOptions) : option (option string) :=
  match prepare DiscoveryDemo.encode DiscoveryDemo.derive DiscoveryDemo.node (Throw JNull) checksum32 o with
  | Ok (args, _) =>
      Some (match initialize_vault checksum32 CreationDemo.slot args with Ok _ => None | Throw e => Some e end)
  | Throw _ => None
  end.

Example unchecked_options :
  program_answer (with_cosign_and_mode false 1 CreationDemo.opts) = Some None ∧
  program_answer (with_cosign_and_mode true 1 CreationDemo.opts) = Some (Some "ErrCosignRequired") ∧
  program_answer (with_cosign_and_mode false 0 CreationDemo.opts) = Some (Some "InvalidProtocolMode").
Proof. by vm_compute. Qed.
