(* ===== verification/Handoff.v ===== *)
(** * The handoff prompt (agent-bootstrap.ts)

    After a vault is created its agent is told, in prose, what it may do.  The
    prompt is one template with named slots, filled in a single pass so that a
    value can never be read as a slot. *)

From S2P Require Import Prelude JsMap JsText JsValue Money.

Local Open Scope Z_scope.

Definition HANDOFF_PROMPT_TEMPLATE : string := "You are an autonomous agent operating a Sigil vault on ${network}.

Your wallet: ${agentAddress}
The vault you control: ${vaultAddress}
Your owner's wallet (read-only reference): ${ownerAddress}

Daily spending limit: ${dailyLimitUsd}
Approved protocols: ${protocolNames}
Permissions: ${capabilityNames}

Use the Sigil MCP tool `seal_transaction` to execute any on-chain action.
The vault will reject any tx that exceeds the rules above — this is by design.

If you need help, use `request_help` to surface a question to your owner.".

Definition getHandoffPromptTemplate : string := HANDOFF_PROMPT_TEMPLATE.

Definition capabilityTierToNames (tier : number) : list string :=
  match tier with
  | Int 1 => ["NonSpending"]
  | Int 2 => ["Spending"; "NonSpending"]
  | _ => []
  end.

Record AgentBootstrapConfig : Type := {
  ab_vaultAddress : string;
  ab_agentAddress : string;
  ab_ownerAddress : string;
  ab_network : string;
  ab_dailyLimitUsd : Z;
  ab_approvedProtocols : list string;
  ab_capabilityTier : number;
}.

Record AgentBootstrap : Type := {
  bs_agentWallet : string;
  bs_vaultPubkey : string;
  bs_onboardingPrompt : string;
  bs_capabilities : list string;
}.

(** [s.replace(/0+$/, "")]. *)
Definition trim_zeros (cs : list ascii) : list ascii :=
  reverse (snd (span (λ c, code c =? 48) (reverse cs))).

Definition formatDailyLimitUsd (amount : Z) : result js_exn string :=
  _ ← throw_if (amount <? 0) JsRangeError;
  let dollars := Z.quot amount 1000000 in
  let fractional := Z.rem amount 1000000 in
  if fractional =? 0 then Ok (text ("$"%char :: bigint_chars dollars))
  else
    let fracStr := trim_zeros (padStart (bigint_chars fractional) 6 "0"%char) in
    Ok (text ("$"%char :: bigint_chars dollars ++ "."%char :: fracStr)).

(** ** The single pass of [replace(/\$\{(\w+)\}/g, ...)] *)

(** A slot at the head of the text: its name and the length of the match. *)
Definition match_slot (cs : list ascii) : option (string * nat) :=
  match cs with
  | a :: b :: rest =>
      if (code a =? 36) && (code b =? 123) then
        let '(name, after) := span is_word rest in
        match name, after with
        | _ :: _, c :: _ => if code c =? 125 then Some (text name, length name + 3)%nat else None
        | _, _ => None
        end
      else None
  | _ => None
  end.

(** [skip] characters belong to the slot just replaced. *)
Fixpoint replace_slots (value : string → option string) (skip : nat) (cs : list ascii) : list ascii :=
  match cs with
  | [] => []
  | c :: rest =>
      match skip with
      | S skip => replace_slots value skip rest
      | O =>
          match match_slot cs with
          | Some (name, len) =>
              match value name with
              | Some v => chars v ++ replace_slots value (len - 1) rest
              | None => take len cs ++ replace_slots value (len - 1) rest
              end
          | None => c :: replace_slots value 0 rest
          end
      end
  end.

Definition composeAgentBootstrap (config : AgentBootstrapConfig) : result js_exn AgentBootstrap :=
  let capabilities := capabilityTierToNames (ab_capabilityTier config) in
  dailyLimitUsd ← formatDailyLimitUsd (ab_dailyLimitUsd config);
  let protocolNames := String.concat ", " (ab_approvedProtocols config) in
  let capabilityNames := String.concat ", " capabilities in
  let subs := [("network", ab_network config); ("agentAddress", ab_agentAddress config);
               ("vaultAddress", ab_vaultAddress config); ("ownerAddress", ab_ownerAddress config);
               ("dailyLimitUsd", dailyLimitUsd); ("protocolNames", protocolNames);
               ("capabilityNames", capabilityNames)] in
  Ok {| bs_agentWallet := ab_agentAddress config;
        bs_vaultPubkey := ab_vaultAddress config;
        bs_onboardingPrompt :=
          text (replace_slots (λ name, jm_get name subs) 0 (chars HANDOFF_PROMPT_TEMPLATE));
        bs_capabilities := capabilities |}.

(** ** Properties *)

(** The prompt as fixed text around the seven values. *)
Definition prompt_text (network agent vault owner limit protocols capabilities : string) : list ascii :=
       chars "You are an autonomous agent operating a Sigil vault on " ++ chars network ++
       chars ".

Your wallet: " ++ chars agent ++ chars "
The vault you control: " ++ chars vault ++ chars "
Your owner's wallet (read-only reference): " ++ chars owner ++ chars "

Daily spending limit: " ++ chars limit ++ chars "
Approved protocols: " ++ chars protocols ++ chars "
Permissions: " ++ chars capabilities ++ chars "

Use the Sigil MCP tool `seal_transaction` to execute any on-chain action.
The vault will reject any tx that exceeds the rules above — this is by design.

If you need help, use `request_help` to surface a question to your owner.".

Lemma template_filled network agent vault owner limit protocols capabilities :
  replace_slots (λ name, jm_get name
    [("network", network); ("agentAddress", agent); ("vaultAddress", vault); ("ownerAddress", owner);
     ("dailyLimitUsd", limit); ("protocolNames", protocols); ("capabilityNames", capabilities)]) 0
    (chars HANDOFF_PROMPT_TEMPLATE) =
  prompt_text network agent vault owner limit protocols capabilities.
Proof. vm_compute. reflexivity. Qed.

(** The prompt is the template with every slot replaced once by its value,
    inserted literally: the text between the values is fixed, so a protocol name
    that contains a slot or a dollar sign changes nothing else.  The call fails
    exactly for a negative limit. *)
Theorem handoff_values_are_literal (config : AgentBootstrapConfig) :
  match composeAgentBootstrap config with
  | Throw e => e = JsRangeError ∧ ab_dailyLimitUsd config < 0
  | Ok b => ∃ limit, formatDailyLimitUsd (ab_dailyLimitUsd config) = Ok limit ∧
      chars (bs_onboardingPrompt b) =
        prompt_text (ab_network config) (ab_agentAddress config) (ab_vaultAddress config)
          (ab_ownerAddress config) limit (String.concat ", " (ab_approvedProtocols config))
          (String.concat ", " (capabilityTierToNames (ab_capabilityTier config)))
  end.
Proof.
  unfold composeAgentBootstrap.
  destruct (formatDailyLimitUsd (ab_dailyLimitUsd config)) as [limit|e] eqn:E; cbn [mbind result_bind].
  - exists limit. split; [done|]. cbn [bs_onboardingPrompt]. by rewrite chars_text, template_filled.
  - unfold formatDailyLimitUsd in E. destruct (Z.ltb_spec (ab_dailyLimitUsd config) 0); [by injection E as <-|].
    simpl in E. by destruct (_ =? 0).
Qed.

(** A hostile protocol name stays where it is. *)
Example hostile_protocol_name :
  bs_onboardingPrompt <$> composeAgentBootstrap {|
    ab_vaultAddress := "V"; ab_agentAddress := "A"; ab_ownerAddress := "O"; ab_network := "devnet";
    ab_dailyLimitUsd := 100500000; ab_approvedProtocols := ["Jupiter"; "$& ${capabilityNames}"];
    ab_capabilityTier := Int 1 |} =
  Ok (text (prompt_text "devnet" "A" "V" "O" "$100.5" "Jupiter, $& ${capabilityNames}" "NonSpending")).
Proof. vm_compute. reflexivity. Qed.

(** ** The limit in the prompt *)

Lemma span_zeros cs :
  ∃ k rest, cs = replicate k "0"%char ++ rest ∧ snd (span (λ c, code c =? 48) cs) = rest ∧
    (∀ c r, rest = c :: r → c ≠ "0"%char).
Proof.
  induction cs as [|c cs (k & rest & -> & Hr & Hh)]; [by exists 0%nat, []|]. simpl.
  destruct (Z.eqb_spec (code c) 48) as [Hc|Hc].
  - assert (c = "0"%char) as -> by by (destruct c as [[] [] [] [] [] [] [] []]).
    exists (S k), rest. split; [done|]. split; [|done]. by destruct (span _ _).
  - exists 0%nat, (c :: replicate k "0"%char ++ rest). split; [done|]. split; [done|].
    intros c' r [= <- _] ->. by apply Hc.
Qed.

Lemma trim_zeros_spec cs :
  ∃ k, cs = trim_zeros cs ++ replicate k "0"%char ∧ (∀ r c, trim_zeros cs = r ++ [c] → c ≠ "0"%char).
Proof.
  destruct (span_zeros (reverse cs)) as (k & rest & Hcs & Hr & Hh). exists k. unfold trim_zeros.
  rewrite Hr. split.
  - apply (f_equal reverse) in Hcs. rewrite reverse_involutive, reverse_app, reverse_replicate in Hcs. done.
  - intros r c H. apply (f_equal reverse) in H. rewrite reverse_involutive, reverse_app in H.
    exact (Hh c (reverse r) H).
Qed.

(** A six-digit fraction without its trailing zeros. *)
Lemma trimmed_fraction frac v :
  Forall is_digit frac → length frac = 6%nat → digits_value frac = v → v ≠ 0 →
  let t := trim_zeros frac in
  t ≠ [] ∧ Forall is_digit t ∧ (length t ≤ 6)%nat ∧ digits_value t * 10 ^ Z.of_nat (6 - length t) = v ∧
  ∀ r c, t = r ++ [c] → c ≠ "0"%char.
Proof.
  intros Hf Hl Hv Hnz t. destruct (trim_zeros_spec frac) as (k & Hk & Hlast). fold t in Hk, Hlast.
  assert (Hlt : (length t + k = 6)%nat) by (rewrite <- Hl, Hk, length_app, length_replicate; done).
  rewrite Hk, digits_value_app, digits_value_zeros, length_replicate in Hv.
  split_and!; [|rewrite Hk in Hf; apply Forall_app in Hf as [Hf' _]; exact Hf' | lia | | done].
  - intros Ht. rewrite Ht in Hv. change (digits_value []) with 0 in Hv. lia.
  - replace (6 - length t)%nat with k by lia. lia.
Qed.

(** The limit the agent reads is the limit that was configured: below 10^21
    base units, parsing the formatted amount gives the amount back, and its
    fraction ends in no zero. *)
Theorem daily_limit_round_trip (amount : Z) :
  0 ≤ amount < 10 ^ 21 →
  ∃ s, formatDailyLimitUsd amount = Ok s ∧ parseUsd (Some s) = Ok amount ∧
    (amount mod 10 ^ 6 ≠ 0 → ∀ r, chars s ≠ r ++ ["0"%char]).
Proof.
  intros Ha. destruct (usd_print_grammar amount Ha) as [(Hw & Hok & Hf & _) Hl].
  unfold formatDailyLimitUsd. replace (amount <? 0) with false by lia. cbn [throw_if mbind result_bind].
  rewrite Z.quot_div_nonneg, Z.rem_mod_nonneg by lia. change 1000000 with (10 ^ 6).
  pose proof (Z.mod_pos_bound amount (10 ^ 6) ltac:(lia)) as Hm.
  assert (Hq : 0 ≤ amount / 10 ^ 6) by (apply Z.div_pos; lia).
  pose proof (proj1 (bigint_digits _ Hq)) as Hvw. pose proof (Z.div_mod amount (10 ^ 6) ltac:(lia)) as Hdm.
  set (whole := bigint_chars (amount / 10 ^ 6)) in *.
  destruct (Z.eqb_spec (amount mod 10 ^ 6) 0) as [Hz|Hnz].
  - eexists. split; [done|]. split; [|done]. rewrite (parseUsd_text _ whole []).
    + f_equal. change (digits_value []) with 0. lia.
    + unfold usd_grammar. split_and!; [done|done|constructor|simpl; lia].
    + rewrite chars_text. unfold usd_text. by rewrite app_nil_r.
  - destruct (trimmed_fraction (padStart (bigint_chars (amount mod 10 ^ 6)) 6 "0"%char) (amount mod 10 ^ 6))
      as (Ht & Hd & Hlen & Hv & Hlast); [done|done| |done|].
    { unfold padStart. by rewrite digits_value_app, digits_value_zeros, (proj1 (bigint_digits _ (proj1 Hm))). }
    set (t := trim_zeros _) in *. eexists. split; [done|]. rewrite chars_text. split.
    + rewrite (parseUsd_text _ whole t); [f_equal; lia | by unfold usd_grammar | rewrite chars_text].
      unfold usd_text. by destruct t.
    + intros _ r Hr. destruct (exists_last Ht) as (r' & c & Hc). rewrite Hc in Hr.
      rewrite !app_comm_cons, app_assoc in Hr. apply app_inj_tail in Hr as [_ Hr]. by eapply Hlast.
Qed.

Lemma daily_limit_round_trip_witness :
  ∃ s, formatDailyLimitUsd 100500000 = Ok s ∧ parseUsd (Some s) = Ok 100500000.
Proof.
  destruct (daily_limit_round_trip 100500000) as (s & H1 & H2 & _); [lia|]. by exists s.
Defined.
