(* ===== verification/VaultPreview.v ===== *)
(** * Previewing a creation (preview-create-vault.ts)

    The onboarding page shows what creating a vault will do before the owner
    signs: the accounts, their rent, the fee, the warnings, and the unsigned
    transaction itself.  The preview mirrors some of the program's limits; the
    theorems say what remains for a previewed transaction to be accepted. *)

From Stdlib Require Import QArith.
From S2P Require Import Prelude JsMap JsText JsValue CanonicalEncode PolicyDigest PolicyBinding Money.
From S2P Require Import SdkTypes IntentDigest Base64 Composer StateResolver Rpc Accounts OwnerTx DashboardJson.
From S2P Require Import Discovery VaultCreation.

Local Open Scope Z_scope.

Definition AGENT_VAULT_SIZE : Z := 676.
Definition POLICY_CONFIG_SIZE : Z := 1649.
Definition SPEND_TRACKER_SIZE : Z := 3328.
Definition AGENT_SPEND_OVERLAY_SIZE : Z := 2688.
Definition DEFAULT_PRIORITY_FEE_MICRO_LAMPORTS : Z := 10000.
Definition LAMPORTS_PER_SOL : Z := 1000000000.
Definition MICRO_LAMPORTS_PER_LAMPORT : Z := 1000000.
Definition DAILY_CAP_HIGH_THRESHOLD : Z := 1000000000000.
Definition MAX_USD_BASE_UNITS : Z := U64_MAX.
Definition MAX_ALLOWED_DESTINATIONS_COUNT : nat := 10.
Definition MAX_SAFE_INTEGER : Z := 9007199254740991.
Definition CU_VAULT_CREATION : Z := 400000.

(** A number that is no integer is [NaN] or an infinity here; every check made
    on these fields treats a fraction the same way. *)
Record PreviewCreateVaultConfig : Type := {
  pc_network : string;
  pc_owner : string;
  pc_agentAddress : string;
  pc_vaultId : Z;
  pc_dailyCapUsd : Z;
  pc_maxTxSizeUsd : Z;
  pc_spendingLimitUsd : Z;
  pc_developerFeeRate : number;
  pc_maxSlippageBps : number;
  pc_timelockDuration : Z;
  pc_protocolMode : Z;
  pc_protocols : list string;
  pc_protocolCaps : list Z;
  pc_allowedDestinations : list string;
  pc_feeDestination : string;
  pc_capabilityTier : option Z;
  pc_solPriceUsd : Z;
  pc_priorityFeeMicroLamports : option number;
  pc_computeUnits : option number;
  pc_blockhash : option Blockhash;
  pc_addressLookupTables : option tables;
}.

Record VaultPdaInfo : Type := {
  pi_name : string; pi_address : string; pi_sizeBytes : Z; pi_rentLamports : Z;
}.

Record PreviewWarning : Type := {
  pw_code : string; pw_severity : string; pw_field : string; pw_suggestedValue : option Z;
}.

Record CreateVaultPreview : Type := {
  pv_pdaList : list VaultPdaInfo;
  pv_rentLamports : Z;
  pv_computeUnits : Z;
  pv_feeLamports : Z;
  pv_totalCostUsd : Z;
  pv_vaultAddress : string;
  pv_unsignedTxBytes : list Z;
  pv_txSizeBytes : Q;
  pv_lastValidBlockHeight : Z;
  pv_warnings : option (list PreviewWarning);
}.

(** ** validateConfig *)

Definition range_if (c : bool) : result call_exn unit := throw_if c (SdkError JsRangeError).

(** [!Number.isInteger(n) || n < 0]. *)
Definition not_natural (n : number) : bool := match n with Int z => z <? 0 | _ => true end.
Definition not_positive (n : number) : bool := match n with Int z => z <=? 0 | _ => true end.
(** The integer behind a checked number. *)
Definition int_value (n : number) : Z := match n with Int z => z | _ => 0 end.

Definition check_protocol_caps (c : PreviewCreateVaultConfig) : result call_exn unit :=
  if bool_decide (0 < length (pc_protocolCaps c))%nat then
    _ ← range_if (negb (pc_protocolMode c =? 1));
    _ ← range_if (negb (bool_decide (length (pc_protocolCaps c) = length (pc_protocols c))));
    _ ← mapM (λ cap, _ ← range_if (cap <? 0); range_if (MAX_USD_BASE_UNITS <? cap)) (pc_protocolCaps c);
    Ok tt
  else Ok tt.

Definition check_lower_bounds (c : PreviewCreateVaultConfig) : result call_exn unit :=
  _ ← range_if (pc_vaultId c <? 0);
  _ ← range_if (pc_dailyCapUsd c <? 0);
  _ ← range_if (pc_maxTxSizeUsd c <? 0);
  _ ← range_if (pc_spendingLimitUsd c <? 0);
  _ ← range_if (pc_solPriceUsd c <=? 0);
  range_if (pc_timelockDuration c <? 0).

Definition check_upper_bounds (c : PreviewCreateVaultConfig) : result call_exn unit :=
  _ ← range_if (MAX_USD_BASE_UNITS <? pc_dailyCapUsd c);
  _ ← range_if (MAX_USD_BASE_UNITS <? pc_maxTxSizeUsd c);
  _ ← range_if (MAX_USD_BASE_UNITS <? pc_spendingLimitUsd c);
  _ ← range_if (MAX_USD_BASE_UNITS <? pc_solPriceUsd c);
  range_if (MAX_SAFE_INTEGER <? pc_timelockDuration c).

Definition check_optional (p : number → bool) (n : option number) : result call_exn unit :=
  match n with Some n => range_if (p n) | None => Ok tt end.

Definition check_program_limits (c : PreviewCreateVaultConfig) : result call_exn unit :=
  _ ← range_if (pc_timelockDuration c <? MIN_TIMELOCK_DURATION);
  _ ← range_if (not_natural (pc_developerFeeRate c));
  _ ← range_if (MAX_DEVELOPER_FEE_RATE <? int_value (pc_developerFeeRate c));
  _ ← range_if (not_natural (pc_maxSlippageBps c));
  _ ← range_if (bool_decide (MAX_ALLOWED_PROTOCOLS < length (pc_protocols c))%nat);
  _ ← range_if (bool_decide (MAX_ALLOWED_DESTINATIONS_COUNT < length (pc_allowedDestinations c))%nat);
  _ ← check_protocol_caps c;
  range_if (bool_decide (pc_feeDestination c = SdkTypes.SYSTEM_PROGRAM_ADDRESS)).

Definition validateConfig (c : PreviewCreateVaultConfig) : result call_exn unit :=
  _ ← from_sdk (validateNetwork (pc_network c));
  _ ← check_lower_bounds c;
  _ ← check_upper_bounds c;
  _ ← check_program_limits c;
  _ ← check_optional not_natural (pc_priorityFeeMicroLamports c);
  check_optional not_positive (pc_computeUnits c).

Definition toBuildNetwork (network : string) : string :=
  if bool_decide (network = "devnet") then "devnet" else "mainnet".

(** ** Rent and warnings *)

Definition check_rent (rent : jsv) : result call_exn Z :=
  match rent with
  | JBig r => if r <=? 0 then Throw (SdkError INVALID_PARAMS) else Ok r
  | _ => Throw (SdkError INVALID_PARAMS)
  end.

Definition fetchRentForSize (getRent : Z → result jsv jsv) (size : Z) : result call_exn Z :=
  rent ← from_rpc (getRent size); check_rent rent.

(** [a.code < b.code] on strings. *)
Definition code_le (a b : PreviewWarning) : bool :=
  match String.compare (pw_code a) (pw_code b) with Gt => false | _ => true end.

Definition warn_if (c : bool) (w : PreviewWarning) : list PreviewWarning := if c then [w] else [].

Definition raised_warnings (c : PreviewCreateVaultConfig) : list PreviewWarning :=
  warn_if (pc_dailyCapUsd c =? 0)
    {| pw_code := "daily_cap_zero"; pw_severity := "info"; pw_field := "dailyCapUsd";
       pw_suggestedValue := None |} ++
  warn_if (DAILY_CAP_HIGH_THRESHOLD <? pc_dailyCapUsd c)
    {| pw_code := "daily_cap_unusually_high"; pw_severity := "warning"; pw_field := "dailyCapUsd";
       pw_suggestedValue := Some DAILY_CAP_HIGH_THRESHOLD |} ++
  warn_if ((pc_protocolMode c =? 1) && bool_decide (length (pc_protocols c) = 0%nat))
    {| pw_code := "no_protocols_approved"; pw_severity := "warning"; pw_field := "protocols";
       pw_suggestedValue := None |} ++
  warn_if (pc_dailyCapUsd c <? pc_maxTxSizeUsd c)
    {| pw_code := "max_tx_exceeds_daily_cap"; pw_severity := "warning"; pw_field := "maxTxSizeUsd";
       pw_suggestedValue := Some (pc_dailyCapUsd c) |}.

Definition buildWarnings (c : PreviewCreateVaultConfig) : list PreviewWarning :=
  js_sort code_le (raised_warnings c).

(** ** previewCreateVault *)

(** The options handed to [createVault]. *)
Definition create_options (c : PreviewCreateVaultConfig) : CreateVaultOptions := {|
  co_owner := pc_owner c;
  co_agent := pc_agentAddress c;
  co_permissions := pc_capabilityTier c;
  co_spendingLimitUsd := Some (pc_spendingLimitUsd c);
  co_dailySpendingCapUsd := Some (pc_dailyCapUsd c);
  co_maxTransactionSizeUsd := Some (pc_maxTxSizeUsd c);
  co_feeDestination := Some (pc_feeDestination c);
  co_developerFeeRate := Some (int_value (pc_developerFeeRate c));
  co_protocols := Some (pc_protocols c);
  co_protocolMode := Some (pc_protocolMode c);
  co_protocolCaps := if bool_decide (0 < length (pc_protocolCaps c))%nat then Some (pc_protocolCaps c) else None;
  co_maxSlippageBps := Some (int_value (pc_maxSlippageBps c));
  co_observeOnly := None;
  co_timelockDuration := Some (Int (pc_timelockDuration c));
  co_allowedDestinations := Some (pc_allowedDestinations c);
  co_vaultId := Some (pc_vaultId c);
  co_createdAtSlot := None;
  co_operatingHours := None; co_autoPromoteGrays := None; co_autoRevokeThreshold := None;
  co_stableBalanceFloor := None; co_perRecipientDailyCapUsd := None; co_cosignRequired := None;
  co_firstOperatorSeating := None |}.

Section Preview.
Context (encode : string → list Z) (derive : string → list (list Z) → string).
Context (node : VaultNode) (getSlot : result jsv Z) (getRent : Z → result jsv jsv).
Context (sha256 : list Z → list Z) (vb : VaultBuilders) (cp : Compiler) (replies : NodeReplies) (rpc : nat).

Definition pda_list (c : PreviewCreateVaultConfig) (vault : string) (rents : Z * Z * Z * Z) : list VaultPdaInfo :=
  let '(vaultRent, policyRent, trackerRent, overlayRent) := rents in
  [{| pi_name := "AgentVault"; pi_address := vault; pi_sizeBytes := AGENT_VAULT_SIZE;
      pi_rentLamports := vaultRent |};
   {| pi_name := "PolicyConfig"; pi_address := getPolicyPDA encode derive vault SIGIL_PROGRAM_ADDRESS;
      pi_sizeBytes := POLICY_CONFIG_SIZE; pi_rentLamports := policyRent |};
   {| pi_name := "SpendTracker"; pi_address := getTrackerPDA encode derive vault SIGIL_PROGRAM_ADDRESS;
      pi_sizeBytes := SPEND_TRACKER_SIZE; pi_rentLamports := trackerRent |};
   {| pi_name := "AgentSpendOverlay"; pi_address := getAgentOverlayPDA encode derive vault 0 SIGIL_PROGRAM_ADDRESS;
      pi_sizeBytes := AGENT_SPEND_OVERLAY_SIZE; pi_rentLamports := overlayRent |}].

(** The four requests run together; of several failures the first in this
    order is reported here. *)
Definition fetch_rents : result call_exn (Z * Z * Z * Z) :=
  vaultRent ← fetchRentForSize getRent AGENT_VAULT_SIZE;
  policyRent ← fetchRentForSize getRent POLICY_CONFIG_SIZE;
  trackerRent ← fetchRentForSize getRent SPEND_TRACKER_SIZE;
  overlayRent ← fetchRentForSize getRent AGENT_SPEND_OVERLAY_SIZE;
  Ok (vaultRent, policyRent, trackerRent, overlayRent).

(** Everything before the transaction is compiled. *)
Definition preview_parts (c : PreviewCreateVaultConfig)
    : result call_exn ((Z * Z * Z * Z) * CreateVaultResult) :=
  _ ← validateConfig c;
  rents ← fetch_rents;
  created ← createVault encode derive node getSlot sha256 vb (create_options c);
  Ok (rents, created).

Definition compute_units (c : PreviewCreateVaultConfig) : Z :=
  default CU_VAULT_CREATION (int_value <$> pc_computeUnits c).
Definition priority_fee (c : PreviewCreateVaultConfig) : Z :=
  default DEFAULT_PRIORITY_FEE_MICRO_LAMPORTS (int_value <$> pc_priorityFeeMicroLamports c).

Definition owner_params (c : PreviewCreateVaultConfig) (created : CreateVaultResult)
    : BuildOwnerTransactionParams := {|
  bo_rpc := rpc;
  bo_owner := pc_owner c;
  bo_instructions := cr_instructions created;
  bo_network := toBuildNetwork (pc_network c);
  bo_computeUnits := Some (compute_units c);
  bo_priorityFeeMicroLamports := Some (priority_fee c);
  bo_addressLookupTables := pc_addressLookupTables c;
  bo_blockhash := pc_blockhash c |}.

Definition total_rent (rents : Z * Z * Z * Z) : Z :=
  let '(a, b, c, d) := rents in a + b + c + d.
Definition fee_lamports (c : PreviewCreateVaultConfig) : Z :=
  Z.quot (priority_fee c * compute_units c) MICRO_LAMPORTS_PER_LAMPORT.
Definition total_cost (c : PreviewCreateVaultConfig) (rents : Z * Z * Z * Z) : Z :=
  Z.quot ((total_rent rents + fee_lamports c) * pc_solPriceUsd c) LAMPORTS_PER_SOL.

Definition previewCreateVault (c : PreviewCreateVaultConfig) (s : OwnerCaches)
    : OwnerCaches * result call_exn CreateVaultPreview :=
  match preview_parts c with
  | Throw e => (s, Throw e)
  | Ok (rents, created) =>
      let '(s, tx) := buildOwnerTransaction cp replies (owner_params c created) s in
      (s, ownerTx ← from_sdk tx;
          bytes ← match atob (ot_wireBase64 ownerTx) with
                  | Some b => Ok b
                  | None => Throw (RpcError INVALID_CHARACTER)
                  end;
          let vaultAddress := vaultPda encode derive (pc_owner c) (pc_vaultId c) in
          let warningsRaw := buildWarnings c in
          Ok {| pv_pdaList := pda_list c vaultAddress rents;
                pv_rentLamports := total_rent rents;
                pv_computeUnits := compute_units c;
                pv_feeLamports := fee_lamports c;
                pv_totalCostUsd := total_cost c rents;
                pv_vaultAddress := vaultAddress;
                pv_unsignedTxBytes := bytes;
                pv_txSizeBytes := ot_txSizeBytes ownerTx;
                pv_lastValidBlockHeight := bh_lastValidBlockHeight (ot_blockhash ownerTx);
                pv_warnings := if bool_decide (0 < length warningsRaw)%nat then Some warningsRaw else None |})
  end.
End Preview.

(** ** What a preview promises *)

Lemma validateConfig_Ok c u :
  validateConfig c = Ok u →
  (0 ≤ pc_dailyCapUsd c ≤ U64_MAX ∧ 0 ≤ pc_maxTxSizeUsd c ≤ U64_MAX ∧ 0 < pc_solPriceUsd c ∧
   MIN_TIMELOCK_DURATION ≤ pc_timelockDuration c ∧ 0 ≤ pc_vaultId c) ∧
  (∃ fee slip, pc_developerFeeRate c = Int fee ∧ 0 ≤ fee ≤ MAX_DEVELOPER_FEE_RATE ∧
     pc_maxSlippageBps c = Int slip ∧ 0 ≤ slip) ∧
  (length (pc_protocols c) ≤ 10)%nat ∧ (length (pc_allowedDestinations c) ≤ 10)%nat ∧
  pc_feeDestination c ≠ SdkTypes.SYSTEM_PROGRAM_ADDRESS ∧ check_protocol_caps c = Ok tt.
Proof.
  unfold validateConfig, check_lower_bounds, check_upper_bounds, check_program_limits, range_if,
    MAX_USD_BASE_UNITS, MAX_ALLOWED_PROTOCOLS, MAX_ALLOWED_DESTINATIONS_COUNT.
  intros H. inv_ok.
  repeat match goal with Hb : bool_decide _ = false |- _ => apply bool_decide_eq_false in Hb end.
  split; [lia|]. split.
  - destruct (pc_developerFeeRate c) as [fee| |], (pc_maxSlippageBps c) as [slip| |]; try done.
    exists fee, slip. simpl in *. repeat split; lia.
  - repeat split; try lia; try done.
    match goal with Hc : check_protocol_caps c = Ok ?u |- _ => by destruct u end.
Qed.

(** The caps as [createVault] passes them on: one per protocol, in width. *)
Lemma preview_caps c :
  check_protocol_caps c = Ok tt →
  let caps := opt_protocolCaps (create_options c) in
  length caps = length (pc_protocols c) ∧ forallb (in_width 64) caps = true.
Proof.
  unfold check_protocol_caps, opt_protocolCaps, opt_protocols. cbn [co_protocolCaps co_protocols create_options].
  case_bool_decide as Hn; intros H; cbn [default from_option id].
  - unfold range_if in H. inv_ok. apply negb_false_iff, bool_decide_eq_true in E0. split; [done|].
    apply forallb_forall. intros cap Hin%list_elem_of_In. apply mapM_Ok_iff in E1.
    apply list_elem_of_lookup in Hin as [i Hi].
    destruct (Forall2_lookup_l _ _ _ _ _ E1 Hi) as (u & _ & Hu). unfold range_if in Hu. inv_ok.
    unfold in_width, MAX_USD_BASE_UNITS, U64_MAX in *. lia.
  - split; [by rewrite length_map|]. apply forallb_forall. intros x (y & <- & _)%in_map_iff. done.
Qed.

(** The limits of the program that [validateConfig] does not mirror. *)
Definition unchecked_limits (c : PreviewCreateVaultConfig) : Prop :=
  pc_protocolMode c = 1 ∧ int_value (pc_maxSlippageBps c) ≤ MAX_SLIPPAGE_BPS ∧
  pc_timelockDuration c ≤ MAX_TIMELOCK_DURATION.

Lemma is_ok_guard {E} (c : bool) (e : E) (k : result E unit) :
  is_ok (throw_if c e ≫= λ _, k) = negb c && is_ok k.
Proof. by destruct c. Qed.

Lemma is_ok_throw_if {E} (c : bool) (e : E) : is_ok (throw_if c e) = negb c.
Proof. by destruct c. Qed.

Lemma preview_accepted_iff c u overlay digest :
  validateConfig c = Ok u → pc_vaultId c < 2 ^ 64 →
  program_accepts (initialize_args (create_options c) overlay (pc_vaultId c) (pc_dailyCapUsd c)
    (Int (pc_timelockDuration c)) digest) = true ↔ unchecked_limits c.
Proof.
  intros (Hb & (fee & slip & Hfee & Hfr & Hslip & Hs0) & Hlp & Hld & Hfd & Hcaps)%validateConfig_Ok Hid.
  apply preview_caps in Hcaps as [Hlen Hw]. unfold unchecked_limits.
  unfold program_accepts, arrives, check_limits.
  cbn [initialize_args create_options ia_timelockDuration ia_vaultId ia_feeDestination ia_protocolMode
    ia_operatingHours ia_autoRevokeThreshold ia_protocols ia_developerFeeRate ia_maxSlippageBps
    ia_allowedDestinations ia_protocolCaps ia_dailySpendingCapUsd ia_maxTransactionSizeUsd ia_stableBalanceFloor
    ia_perRecipientDailyCapUsd ia_cosignRequired co_feeDestination co_protocolMode co_operatingHours
    co_autoRevokeThreshold co_developerFeeRate co_maxSlippageBps co_maxTransactionSizeUsd co_stableBalanceFloor
    co_perRecipientDailyCapUsd co_cosignRequired default from_option id].
  rewrite Hfee, Hslip, Hw, !is_ok_guard, is_ok_throw_if. cbn [int_value].
  change (opt_protocols (create_options c)) with (pc_protocols c).
  change (opt_destinations (create_options c)) with (pc_allowedDestinations c).
  rewrite Hlen, (bool_decide_false (10 < _)%nat), (bool_decide_false (10 < _)%nat),
    (bool_decide_false (pc_feeDestination c = _)), (bool_decide_true (length (pc_protocols c) = _)) by (lia || done).
  rewrite andb_false_r. change (Z.land 16777215 4278190080 =? 0) with true.
  unfold in_width, U64_MAX, MAX_SLIPPAGE_BPS, MAX_TIMELOCK_DURATION, MIN_TIMELOCK_DURATION, MAX_DEVELOPER_FEE_RATE in *.
  rewrite !andb_true_iff, !negb_true_iff. lia.
Qed.

Section Promise.
Context (encode : string → list Z) (derive : string → list (list Z) → string).
Context (node : VaultNode) (getSlot : result jsv Z) (getRent : Z → result jsv jsv).
Context (sha256 : list Z → list Z) (vb : VaultBuilders) (cp : Compiler) (replies : NodeReplies) (rpc : nat).

(** An accepted instruction arrived and was within the limits. *)
Lemma accepted_program_accepts slot args :
  is_ok (initialize_vault sha256 slot args) = true → program_accepts args = true.
Proof.
  destruct (initialize_vault sha256 slot args) as [f|] eqn:E; [|done]. intros _.
  unfold initialize_vault, program_accepts in *.
  destruct (ia_timelockDuration args) as [t| |]; [|done..]. cbn [mbind result_bind] in E.
  apply bind_Ok_inv in E as (? & E1%throw_if_Ok & E). apply bind_Ok_inv in E as (? & E2 & E).
  inv_ok. rewrite E2. apply orb_false_iff in E1 as [->%negb_false_iff ->%negb_false_iff].
  simpl. by apply negb_true_iff.
Qed.

Lemma previewed_creation c rents created :
  preview_parts encode derive node getSlot getRent sha256 vb c = Ok (rents, created) →
  pc_vaultId c < 2 ^ 64 →
  ∃ args slot, getSlot = Ok slot ∧ vb_initializeVault vb args = Ok (cr_initializeVaultIx created) ∧
    (is_ok (initialize_vault sha256 slot args) = true ↔ unchecked_limits c).
Proof.
  unfold preview_parts. intros H Hid. inv_ok. rename E into Hval, E1 into Hcr.
  apply createVault_Ok in Hcr as (args & limit & Hprep & Hix & _ & _).
  apply prepare_Ok in Hprep
    as (dailyCap & timelock & slot & b & Hslot & Hargs & Hb & _ & _ & _ & Hallow & _ & Hvid & Hcap & Htl).
  simpl in Hvid, Hcap, Htl. injection Hvid as Hvid. injection Hcap as <-. injection Htl as <-.
  assert (getSlot = Ok slot) as Hget by (unfold bound_slot in Hslot; simpl in Hslot;
    destruct getSlot; simpl in Hslot; congruence).
  exists args, slot. split; [done|]. split; [done|]. rewrite Hargs, <- Hvid.
  rewrite <- (preview_accepted_iff _ _ (ia_agentSpendOverlay args) (sha256 b) Hval Hid). split.
  - apply accepted_program_accepts.
  - intros Hacc. rewrite (initialize_vault_digest _ _ _ _ _ _ _ _ _ Hallow Hacc Hb). by rewrite bool_decide_true.
Qed.
End Promise.

(** What a preview promises.  The unsigned bytes are the compiled creation
    for the returned block height, and the program, in the slot fetched for the
    preview, accepts its first instruction exactly when three limits hold that
    the preview does not check: allowlist mode, slippage at most 5000 and a
    timelock of at most 48 hours. *)
Theorem preview_leaves_three_limits (encode : string → list Z) (derive : string → list (list Z) → string)
    (node : VaultNode) (getSlot : result jsv Z) (getRent : Z → result jsv jsv) (sha256 : list Z → list Z)
    (vb : VaultBuilders) (cp : Compiler) (replies : NodeReplies) (rpc : nat)
    (c : PreviewCreateVaultConfig) (s s' : OwnerCaches) (p : CreateVaultPreview) :
  previewCreateVault encode derive node getSlot getRent sha256 vb cp replies rpc c s = (s', Ok p) →
  pc_vaultId c < 2 ^ 64 →
  ∃ created args slot, getSlot = Ok slot ∧
    (∃ bh t prefix, atob (cp_wire cp (pc_owner c) bh t (prefix ++ cr_instructions created)) =
        Some (pv_unsignedTxBytes p) ∧ pv_lastValidBlockHeight p = bh_lastValidBlockHeight bh) ∧
    vb_initializeVault vb args = Ok (cr_initializeVaultIx created) ∧
    (is_ok (initialize_vault sha256 slot args) = true ↔ unchecked_limits c).
Proof.
  unfold previewCreateVault. intros H Hid.
  destruct (preview_parts _ _ _ _ _ _ _ c) as [[rents created]|] eqn:Ep; [|done].
  destruct (previewed_creation _ _ _ _ _ _ _ _ _ _ Ep Hid) as (args & slot & Hslot & Hix & Hacc).
  exists created, args, slot. split; [done|]. split; [|done].
  destruct (buildOwnerTransaction cp replies (owner_params rpc c created) s) as [s1 tx] eqn:Etx.
  injection H as _ H. inv_ok. apply from_sdk_Ok in E. rewrite E in Etx.
  apply owner_transaction_is_what_was_asked in Etx as (_ & (prefix & Hixs & _) & (t & Hwire) & _ & _).
  destruct (atob (ot_wireBase64 x)) eqn:Eb; [|done]. injection E0 as <-. simpl.
  exists (ot_blockhash x), t, prefix. simpl in Hixs, Hwire. rewrite <- Hixs. rewrite Hwire in Eb. done.
Qed.

Lemma check_rent_pos r z : check_rent r = Ok z → 0 < z.
Proof. destruct r; try done. simpl. destruct (Z.leb_spec z0 0); [done|]. intros [= <-]. done. Qed.

Lemma fetch_rents_positive getRent a b c d :
  fetch_rents getRent = Ok (a, b, c, d) → 0 < a ∧ 0 < b ∧ 0 < c ∧ 0 < d.
Proof.
  unfold fetch_rents, fetchRentForSize. intros H. inv_ok.
  repeat match goal with Hr : check_rent _ = Ok _ |- _ => apply check_rent_pos in Hr end. done.
Qed.

Lemma fee_nonneg c u : validateConfig c = Ok u → 0 ≤ fee_lamports c.
Proof.
  unfold validateConfig. intros H. inv_ok.
  assert (0 ≤ priority_fee c).
  { unfold priority_fee, check_optional, range_if, DEFAULT_PRIORITY_FEE_MICRO_LAMPORTS in *.
    destruct (pc_priorityFeeMicroLamports c) as [[z| |]|]; simpl; try lia. inv_ok. simpl in *. lia. }
  assert (0 ≤ compute_units c).
  { unfold compute_units, check_optional, range_if, CU_VAULT_CREATION in *.
    destruct (pc_computeUnits c) as [[z| |]|]; simpl; try lia. inv_ok. simpl in *. lia. }
  apply Z.quot_pos; unfold MICRO_LAMPORTS_PER_LAMPORT; nia.
Qed.

(** The cost shown: rent and fee are non-negative, the rent is positive, and
    the dollar amount is the exact product rounded down to a base unit. *)
Theorem preview_cost_is_exact (encode : string → list Z) (derive : string → list (list Z) → string)
    (node : VaultNode) (getSlot : result jsv Z) (getRent : Z → result jsv jsv) (sha256 : list Z → list Z)
    (vb : VaultBuilders) (cp : Compiler) (replies : NodeReplies) (rpc : nat)
    (c : PreviewCreateVaultConfig) (s s' : OwnerCaches) (p : CreateVaultPreview) :
  previewCreateVault encode derive node getSlot getRent sha256 vb cp replies rpc c s = (s', Ok p) →
  pv_rentLamports p = sumZ (map pi_rentLamports (pv_pdaList p)) ∧ 4 ≤ pv_rentLamports p ∧
  0 ≤ pv_feeLamports p ∧
  pv_totalCostUsd p * LAMPORTS_PER_SOL ≤ (pv_rentLamports p + pv_feeLamports p) * pc_solPriceUsd c
    < (pv_totalCostUsd p + 1) * LAMPORTS_PER_SOL.
Proof.
  unfold previewCreateVault. intros H.
  destruct (preview_parts _ _ _ _ _ _ _ c) as [[rents created]|] eqn:Ep; [|done].
  destruct (buildOwnerTransaction cp replies (owner_params rpc c created) s) as [s1 tx].
  injection H as _ H. inv_ok. unfold preview_parts in Ep. inv_ok.
  destruct rents as [[[a b] d] e]. apply fetch_rents_positive in E2. pose proof (fee_nonneg c _ E1) as Hfee.
  apply validateConfig_Ok in E1 as ((_ & _ & Hprice & _) & _). unfold total_cost, total_rent, LAMPORTS_PER_SOL in *. cbn in E2 |- *.
  rewrite Z.quot_div_nonneg by nia. split; [lia|]. split; [lia|]. split; [done|].
  pose proof (Z.div_mod ((a + b + d + e + fee_lamports c) * pc_solPriceUsd c) 1000000000).
  pose proof (Z.mod_pos_bound ((a + b + d + e + fee_lamports c) * pc_solPriceUsd c) 1000000000). lia.
Qed.

(** The warnings, in the order of their codes: each is shown exactly when its
    condition holds. *)
Lemma warnings_specified c :
  buildWarnings c =
    warn_if (DAILY_CAP_HIGH_THRESHOLD <? pc_dailyCapUsd c)
      {| pw_code := "daily_cap_unusually_high"; pw_severity := "warning"; pw_field := "dailyCapUsd";
         pw_suggestedValue := Some DAILY_CAP_HIGH_THRESHOLD |} ++
    warn_if (pc_dailyCapUsd c =? 0)
      {| pw_code := "daily_cap_zero"; pw_severity := "info"; pw_field := "dailyCapUsd";
         pw_suggestedValue := None |} ++
    warn_if (pc_dailyCapUsd c <? pc_maxTxSizeUsd c)
      {| pw_code := "max_tx_exceeds_daily_cap"; pw_severity := "warning"; pw_field := "maxTxSizeUsd";
         pw_suggestedValue := Some (pc_dailyCapUsd c) |} ++
    warn_if ((pc_protocolMode c =? 1) && bool_decide (length (pc_protocols c) = 0%nat))
      {| pw_code := "no_protocols_approved"; pw_severity := "warning"; pw_field := "protocols";
         pw_suggestedValue := None |}.
Proof.
  unfold buildWarnings, raised_warnings.
  by destruct (_ =? 0), (DAILY_CAP_HIGH_THRESHOLD <? _), (_ && _), (pc_dailyCapUsd c <? _).
Qed.

(** ** Witnesses *)

Module PreviewDemo.
Definition config (mode slip timelock : Z) : PreviewCreateVaultConfig := {|
  pc_network := "devnet"; pc_owner := DiscoveryDemo.alice; pc_agentAddress := "Bob"; pc_vaultId := 7;
  pc_dailyCapUsd := 500000000; pc_maxTxSizeUsd := 600000000; pc_spendingLimitUsd := 100000000;
  pc_developerFeeRate := Int 0; pc_maxSlippageBps := Int slip; pc_timelockDuration := timelock;
  pc_protocolMode := mode; pc_protocols := [JUPITER_PROGRAM]; pc_protocolCaps := [];
  pc_allowedDestinations := []; pc_feeDestination := JUPITER_PROGRAM; pc_capabilityTier := None;
  pc_solPriceUsd := 250000000; pc_priorityFeeMicroLamports := None; pc_computeUnits := None;
  pc_blockhash := Some {| bh_blockhash := "hash"; bh_lastValidBlockHeight := 99 |};
  pc_addressLookupTables := Some ∅ |}.
Definition preview (c : PreviewCreateVaultConfig) : OwnerCaches * result call_exn CreateVaultPreview :=
  previewCreateVault DiscoveryDemo.encode DiscoveryDemo.derive DiscoveryDemo.node (Ok 42)
    (λ size, Ok (JBig ((size + 128) * 6960))) checksum32 CreationDemo.vb OwnerTx.Demo.compiler
    OwnerTx.Demo.node 0 c OwnerTx.Demo.caches.
(** What the program makes of the previewed creation. *)
Definition answer (c : PreviewCreateVaultConfig) : option string :=
  match prepare DiscoveryDemo.encode DiscoveryDemo.derive DiscoveryDemo.node (Ok 42) checksum32 (create_options c) with
  | Ok (args, _) => match initialize_vault checksum32 42 args with Ok _ => None | Throw e => Some e end
  | Throw _ => None
  end.
End PreviewDemo.

(** Three configurations pass the preview and are refused by the program. *)
Example refused_previews :
  Forall (λ c, is_ok (snd (PreviewDemo.preview c)) = true)
    [PreviewDemo.config 1 100 1800; PreviewDemo.config 0 100 1800; PreviewDemo.config 1 5001 1800;
     PreviewDemo.config 1 100 172801] ∧
  map PreviewDemo.answer
    [PreviewDemo.config 1 100 1800; PreviewDemo.config 0 100 1800; PreviewDemo.config 1 5001 1800;
     PreviewDemo.config 1 100 172801] =
  [None; Some "InvalidProtocolMode"; Some "SlippageBpsTooHigh"; Some "TimelockTooLong"].
Proof. split; [repeat constructor|]; vm_compute; reflexivity. Qed.

Lemma preview_leaves_three_limits_witness :
  ∃ s' p created args slot, PreviewDemo.preview (PreviewDemo.config 1 100 1800) = (s', Ok p) ∧
    vb_initializeVault CreationDemo.vb args = Ok (cr_initializeVaultIx created) ∧
    (is_ok (initialize_vault checksum32 slot args) = true ↔ unchecked_limits (PreviewDemo.config 1 100 1800)).
Proof.
  assert (Hok : is_ok (snd (PreviewDemo.preview (PreviewDemo.config 1 100 1800))) = true)
    by (vm_compute; reflexivity).
  destruct (PreviewDemo.preview (PreviewDemo.config 1 100 1800)) as [s' [p|e]] eqn:E; [|discriminate Hok].
  unfold PreviewDemo.preview in E.
  destruct (preview_leaves_three_limits _ _ _ _ _ _ _ _ _ _ _ _ _ _ E eq_refl)
    as (created & args & slot & _ & _ & H1 & H2).
  exists s', p, created, args, slot. exact (conj eq_refl (conj H1 H2)).
Defined.

Lemma preview_cost_is_exact_witness :
  ∃ s' p, PreviewDemo.preview (PreviewDemo.config 1 100 1800) = (s', Ok p) ∧
    pv_rentLamports p = sumZ (map pi_rentLamports (pv_pdaList p)).
Proof.
  assert (Hok : is_ok (snd (PreviewDemo.preview (PreviewDemo.config 1 100 1800))) = true)
    by (vm_compute; reflexivity).
  destruct (PreviewDemo.preview (PreviewDemo.config 1 100 1800)) as [s' [p|e]] eqn:E; [|discriminate Hok].
  unfold PreviewDemo.preview in E.
  destruct (preview_cost_is_exact _ _ _ _ _ _ _ _ _ _ _ _ _ _ E) as (H & _).
  exists s', p. exact (conj eq_refl H).
Defined.
