(* ===== verification/Mutations.v ===== *)
(** * The owner's mutations (dashboard/mutations.ts, dashboard/close-vault.ts)

    Every mutation builds an instruction, wraps it in a transaction with the
    compute-budget prefix, signs it and sends it.  The one with content is the
    policy update: it merges the requested changes with the live policy, arms
    or disarms build hashes, and binds the merged policy in the digest that the
    program recomputes.  The program's side is modelled from
    [programs/sigil/src/instructions/queue_policy_update.rs]. *)

From S2P Require Import Prelude JsMap JsText JsValue CanonicalEncode CosignDigest PolicyDigest PolicyBinding.
From S2P Require Import SdkTypes IntentDigest Base64 Composer StateResolver Rpc Accounts OwnerTx DashboardJson.
From S2P Require Import PostAssertion Discovery VaultCreation.

Local Open Scope Z_scope.

(** ** Transactions *)

(** What a mutation throws: an error shaped by [toDxError], or the error as it
    is when it is raised outside a wrapper. *)
Inductive owner_exn : Type :=
| Dx (e : call_exn)
| Plain (e : call_exn).

Definition dx {A} (message : string) : result owner_exn A := Throw (Dx (SdkError (JsError message))).
Definition dx_if (c : bool) (message : string) : result owner_exn unit :=
  throw_if c (Dx (SdkError (JsError message))).
Definition plain {A} (r : result js_exn A) : result owner_exn A :=
  match r with Ok a => Ok a | Throw e => Throw (Plain (SdkError e)) end.
Definition plain_rpc {A} (r : result jsv A) : result owner_exn A :=
  match r with Ok a => Ok a | Throw e => Throw (Plain (RpcError e)) end.

Record TxOpts : Type := {
  to_computeUnits : option Z;
  to_priorityFeeMicroLamports : option Z;
  to_mainnetConfirmed : option bool;
}.

Record SignedTx : Type := {
  st_feePayer : string;
  st_signers : list string;
  st_instructions : list Ix;
}.

(** What a call does to the outside: the transactions handed to the node, and
    its result. *)
Record outcome (A : Type) : Type := { oc_sent : list SignedTx; oc_result : result owner_exn A }.
Arguments oc_sent {A} _.
Arguments oc_result {A} _.

Definition fails {A} (e : owner_exn) : outcome A := {| oc_sent := []; oc_result := Throw e |}.

(** The node, the compute-budget builders and the signing of one call. *)
Record OwnerNode : Type := {
  on_limitIx : Z → Ix;
  on_priceIx : Z → Ix;
  on_blockhash : result jsv Blockhash;
  on_sign : SignedTx → result jsv unit;
  on_send : SignedTx → result jsv string;
  on_accountExists : string → result jsv bool;
}.

(** [f && ...]: an absent fee and a fee of zero are both falsy. *)
Definition budget_prefix (n : OwnerNode) (opts : TxOpts) : list Ix :=
  on_limitIx n (default OwnerTx.CU_OWNER_ACTION (to_computeUnits opts)) ::
  match to_priorityFeeMicroLamports opts with
  | Some fee => if fee =? 0 then [] else [on_priceIx n fee]
  | None => []
  end.

Definition run (n : OwnerNode) (payer : string) (cosigners : list string) (instructions : list Ix)
    (opts : TxOpts) : outcome string :=
  let tx := {| st_feePayer := payer; st_signers := payer :: cosigners;
               st_instructions := budget_prefix n opts ++ instructions |} in
  match on_blockhash n with
  | Throw e => fails (Dx (RpcError e))
  | Ok _ =>
      match on_sign n tx with
      | Throw e => fails (Dx (RpcError e))
      | Ok _ => {| oc_sent := [tx];
                   oc_result := match on_send n tx with Ok s => Ok s | Throw e => Throw (Dx (RpcError e)) end |}
      end
  end.

(** Build, then run. *)
Definition perform (n : OwnerNode) (payer : string) (cosigners : list string) (opts : TxOpts)
    (ix : result owner_exn Ix) : outcome string :=
  match ix with Ok ix => run n payer cosigners [ix] opts | Throw e => fails e end.

(** A partially signed transaction is returned, not sent. *)
Definition buildOwnerPartialSignedTx (n : OwnerNode) (owner : string) (instructions : list Ix) (opts : TxOpts)
    : result owner_exn SignedTx :=
  let tx := {| st_feePayer := owner; st_signers := [owner];
               st_instructions := budget_prefix n opts ++ instructions |} in
  _ ← plain_rpc (on_blockhash n);
  _ ← plain_rpc (on_sign n tx);
  Ok tx.

(** ** Checks *)

Definition requirePositiveAmount (amount : Z) : result owner_exn unit :=
  _ ← dx_if (amount <=? 0) "must be positive";
  dx_if (U64_MAX <? amount) "exceeds u64 maximum".

Definition requireValidAddress (addr : string) : result owner_exn unit :=
  dx_if (bool_decide (String.length addr < 32)%nat || bool_decide (44 < String.length addr)%nat)
    "is not a valid Solana address".

Definition MAX_CAPABILITY : Z := 2.

Definition requireValidPermissions (perms : Z) : result owner_exn unit :=
  _ ← dx_if (perms <? 0) "Capability cannot be negative";
  _ ← dx_if (perms =? 0) "Capability is 0 (Disabled)";
  dx_if (MAX_CAPABILITY <? perms) "Capability exceeds maximum".

Definition isAllZero (bytes : list Z) : bool := forallb (λ b, b =? 0) bytes.

(** Names inherited from [Object.prototype] are no modes and are left out. *)
Definition mapProtocolMode (mode : string) : result owner_exn Z :=
  if bool_decide (mode = "unrestricted") then Ok 0
  else if bool_decide (mode = "whitelist") then Ok 1
  else if bool_decide (mode = "blacklist") then Ok 2
  else dx "Invalid protocolMode".

Definition assertDistinctCosigner (owner cosignSession : string) : result owner_exn unit :=
  _ ← requireValidAddress cosignSession;
  dx_if (bool_decide (cosignSession = owner)) "Cosigner must be distinct from the owner".

Definition READONLY_SIGNER : role_arg := RoleNumber 2.
Definition WRITABLE : role_arg := RoleNumber 1.

Definition append_accounts (ix : Ix) (extra : list AccountMeta) : Ix := {|
  ix_programAddress := ix_programAddress ix;
  ix_accounts := Some (default [] (ix_accounts ix) ++ extra);
  ix_data := ix_data ix |}.

Definition withCosignerSigner (ix : Ix) (cosignSession : string) : Ix :=
  append_accounts ix [{| acc_address := cosignSession; acc_role := READONLY_SIGNER |}].

(** ** The live accounts *)

(** The fields of the policy account that the digests read. *)
Record PolicyAccount : Type := {
  pa_dailySpendingCapUsd : Z;
  pa_maxTransactionSizeUsd : Z;
  pa_maxSlippageBps : Z;
  pa_developerFeeRate : Z;
  pa_protocolMode : Z;
  pa_protocols : list string;
  pa_destinationMode : Z;
  pa_allowedDestinations : list string;
  pa_timelockDuration : Z;
  pa_sessionExpirySeconds : Z;
  pa_hasPostAssertions : Z;
  pa_createdAtSlot : Z;
  pa_operatingHours : Z;
  pa_autoPromoteGrays : bool;
  pa_autoRevokeThreshold : Z;
  pa_stableBalanceFloor : Z;
  pa_perRecipientDailyCapUsd : Z;
  pa_cosignRequired : bool;
  pa_cosignSessionPubkey : string;
  pa_operatorGrantDelaySeconds : Z;
  pa_hasProtocolCaps : bool;
  pa_protocolCaps : list Z;
  pa_protocolHashes : list (list Z);
}.

Record VaultAccount : Type := { va_observeOnly : bool; va_agents : list PolicyDigest.AgentEntry }.

(** [computePolicyPreviewDigest] of the live policy, as the sibling handlers
    bind it. *)
Definition live_fields (p : PolicyAccount) (v : VaultAccount) (hasPostAssertions : Z) (agentSet : list Z)
    : PolicyPreviewFields := {|
  dailySpendingCapUsd := pa_dailySpendingCapUsd p;
  maxTransactionSizeUsd := pa_maxTransactionSizeUsd p;
  maxSlippageBps := pa_maxSlippageBps p;
  developerFeeRate := pa_developerFeeRate p;
  protocolMode := pa_protocolMode p;
  protocols := pa_protocols p;
  destinationMode := pa_destinationMode p;
  allowedDestinations := pa_allowedDestinations p;
  timelockDuration := pa_timelockDuration p;
  sessionExpirySeconds := pa_sessionExpirySeconds p;
  observeOnly := va_observeOnly v;
  hasPostAssertions := hasPostAssertions;
  createdAtSlot := pa_createdAtSlot p;
  operatingHours := Some (pa_operatingHours p);
  autoPromoteGrays := Some (pa_autoPromoteGrays p);
  autoRevokeThreshold := Some (pa_autoRevokeThreshold p);
  stableBalanceFloor := Some (pa_stableBalanceFloor p);
  perRecipientDailyCapUsd := Some (pa_perRecipientDailyCapUsd p);
  cosignRequired := Some (pa_cosignRequired p);
  agentSetHash := Some agentSet;
  cosignSessionPubkey := Some (PkString (pa_cosignSessionPubkey p));
  operatorGrantDelaySeconds := Some (pa_operatorGrantDelaySeconds p);
  hasProtocolCaps := Some (pa_hasProtocolCaps p);
  protocolCaps := Some (pa_protocolCaps p);
  protocolHashes := Some (pa_protocolHashes p) |}.

Definition siblingHandlerExpectedDigest (sha256 : list Z → list Z)
    (fetchPolicy : result jsv PolicyAccount) (fetchVault : result jsv VaultAccount)
    (hasPostAssertions : option Z) : result owner_exn (list Z) :=
  livePolicy ← plain_rpc fetchPolicy;
  liveVault ← plain_rpc fetchVault;
  agentSet ← plain (computeAgentSetHash sha256 (va_agents liveVault));
  plain (computePolicyPreviewDigest sha256
    (live_fields livePolicy liveVault (default (pa_hasPostAssertions livePolicy) hasPostAssertions) agentSet)).

(** ** The policy update *)

Inductive hash_change : Type :=
| Disarm
| Arm (hash : list Z).

(** Absent properties are [None]; a property that is present and [undefined]
    is not represented.  [protocolHashes] is a map in insertion order. *)
Record PolicyChanges : Type := {
  ch_dailyCap : option Z;
  ch_maxPerTrade : option Z;
  ch_approvedApps : option (list string);
  ch_protocolMode : option string;
  ch_hasProtocolCaps : option bool;
  ch_protocolCaps : option (list Z);
  ch_maxSlippageBps : option Z;
  ch_allowedDestinations : option (list string);
  ch_developerFeeRate : option Z;
  ch_sessionExpirySeconds : option Z;
  ch_timelock : option number;
  ch_destinationMode : option Z;
  ch_stableBalanceFloor : option Z;
  ch_perRecipientDailyCapUsd : option Z;
  ch_cosignRequired : option bool;
  ch_cosignSessionPubkey : option string;
  ch_operatorGrantDelaySeconds : option Z;
  ch_protocolHashes : option (list (string * hash_change));
}.

Definition absent {A} (o : option A) : bool := match o with None => true | Some _ => false end.

Definition no_changes (c : PolicyChanges) : bool :=
  absent (ch_dailyCap c) && absent (ch_maxPerTrade c) && absent (ch_approvedApps c) &&
  absent (ch_protocolMode c) && absent (ch_hasProtocolCaps c) && absent (ch_protocolCaps c) &&
  absent (ch_maxSlippageBps c) && absent (ch_allowedDestinations c) && absent (ch_developerFeeRate c) &&
  absent (ch_sessionExpirySeconds c) && absent (ch_timelock c) && absent (ch_destinationMode c) &&
  absent (ch_stableBalanceFloor c) && absent (ch_perRecipientDailyCapUsd c) && absent (ch_cosignRequired c) &&
  absent (ch_cosignSessionPubkey c) && absent (ch_operatorGrantDelaySeconds c) && absent (ch_protocolHashes c).

(** The arguments of the generated [queue_policy_update] builder; [None] is
    [null]. *)
Record QueuePolicyUpdateArgs : Type := {
  qp_owner : string;
  qp_vault : string;
  qp_dailySpendingCapUsd : option Z;
  qp_maxTransactionAmountUsd : option Z;
  qp_protocolMode : option Z;
  qp_protocols : option (list string);
  qp_developerFeeRate : option Z;
  qp_maxSlippageBps : option Z;
  qp_timelockDuration : option Z;
  qp_allowedDestinations : option (list string);
  qp_sessionExpirySeconds : option Z;
  qp_hasProtocolCaps : option bool;
  qp_protocolCaps : option (list Z);
  qp_destinationMode : option Z;
  qp_operatingHours : option Z;
  qp_stableBalanceFloor : option Z;
  qp_perRecipientDailyCapUsd : option Z;
  qp_cosignRequired : option bool;
  qp_cosignSessionPubkey : option string;
  qp_operatorGrantDelaySeconds : option Z;
  qp_protocolHashes : option (list (list Z));
  qp_cosignSession : string;
  qp_newPolicyPreviewDigest : list Z;
}.

Definition check_opt {A} (check : A → result owner_exn unit) (o : option A) : result owner_exn unit :=
  match o with Some a => check a | None => Ok tt end.

(** [n < z]; false for NaN. *)
Definition num_lt (n : number) (z : Z) : bool :=
  match n with Int a => a <? z | Infinite neg => neg | NaN => false end.

Definition check_changes (c : PolicyChanges) : result owner_exn unit :=
  _ ← dx_if (no_changes c) "At least one policy change is required";
  _ ← check_opt (λ t, dx_if (num_lt t 1800) "Timelock must be >= 1800 seconds") (ch_timelock c);
  _ ← check_opt requirePositiveAmount (ch_dailyCap c);
  _ ← check_opt requirePositiveAmount (ch_maxPerTrade c);
  _ ← check_opt (λ r, dx_if (500 <? r) "Developer fee rate cannot exceed 500 BPS") (ch_developerFeeRate c);
  check_opt (λ apps, dx_if (bool_decide (MAX_ALLOWED_PROTOCOLS < length apps)%nat)
    "approvedApps length exceeds on-chain MAX_ALLOWED_PROTOCOLS") (ch_approvedApps c).

Definition DEFAULT_COSIGN_SESSION : string := "11111111111111111111111111111111".

(** [copy.set(h.subarray(0, 32))]. *)
Definition copy32 (h : list Z) : list Z := take 32 h ++ replicate (32 - length (take 32 h)) 0.

(** [seeded[slot] = v]; beyond the end the array grows, with holes. *)
Definition set_slot (seeded : list (list Z)) (slot : nat) (v : list Z) : list (list Z) :=
  if bool_decide (slot < length seeded)%nat then <[slot := v]> seeded
  else seeded ++ replicate (slot - length seeded) [] ++ [v].

Definition arm_one (effProtocols : list string) (entry : string * hash_change) (acc : list (list Z) * bool)
    : result owner_exn (list (list Z) * bool) :=
  let '(seeded, disarms) := acc in
  match list_find (λ p, p = fst entry) effProtocols with
  | None => dx "protocolHashes key is not in the vault's protocol allowlist"
  | Some (slot, _) =>
      match snd entry with
      | Disarm =>
          match seeded !! slot with
          | None => Throw (Plain (SdkError JsTypeError))
          | Some h => Ok (set_slot seeded slot (replicate 32 0), disarms || negb (isAllZero h))
          end
      | Arm value =>
          _ ← dx_if (negb (bool_decide (length value = 32%nat))) "protocolHashes value must be exactly 32 bytes";
          Ok (set_slot seeded slot value, disarms)
      end
  end.

(** A [for ... of] loop that may throw. *)
Fixpoint for_of {E A S : Type} (body : A → S → result E S) (l : list A) (s : S) : result E S :=
  match l with
  | [] => Ok s
  | x :: l => s ← body x s; for_of body l s
  end.

(** The array argument, the digest's array, and whether a pin is lifted. *)
Definition arm_hashes (c : PolicyChanges) (live : PolicyAccount)
    : result owner_exn (option (list (list Z)) * list (list Z) * bool) :=
  match ch_protocolHashes c with
  | None => Ok (None, pa_protocolHashes live, false)
  | Some entries =>
      _ ← dx_if (negb (absent (ch_approvedApps c)))
            "Cannot set protocolHashes together with approvedApps in the same update";
      '(seeded, disarms) ← for_of (arm_one (default (pa_protocols live) (ch_approvedApps c))) entries
                             (map copy32 (pa_protocolHashes live), false);
      Ok (Some seeded, seeded, disarms)
  end.

(** [changes.protocolMode ? mapProtocolMode(...) : null]: the empty text is
    falsy. *)
Definition new_mode (c : PolicyChanges) : result owner_exn (option Z) :=
  match ch_protocolMode c with
  | None => Ok None
  | Some m => if bool_decide (m = EmptyString) then Ok None else m ← mapProtocolMode m; Ok (Some m)
  end.

Definition timelock_arg (c : PolicyChanges) : result owner_exn (option Z) :=
  match ch_timelock c with
  | None => Ok None
  | Some t => z ← plain (BigInt_of_number t); Ok (Some z)
  end.

(** The merged policy whose digest the owner signs. *)
Definition merged_fields (c : PolicyChanges) (live : PolicyAccount) (v : VaultAccount) (mode timelock : option Z)
    (hashes : list (list Z)) (agentSet : list Z) : PolicyPreviewFields := {|
  dailySpendingCapUsd := default (pa_dailySpendingCapUsd live) (ch_dailyCap c);
  maxTransactionSizeUsd := default (pa_maxTransactionSizeUsd live) (ch_maxPerTrade c);
  maxSlippageBps := default (pa_maxSlippageBps live) (ch_maxSlippageBps c);
  developerFeeRate := default (pa_developerFeeRate live) (ch_developerFeeRate c);
  protocolMode := default (pa_protocolMode live) mode;
  protocols := default (pa_protocols live) (ch_approvedApps c);
  destinationMode := default (pa_destinationMode live) (ch_destinationMode c);
  allowedDestinations := default (pa_allowedDestinations live) (ch_allowedDestinations c);
  timelockDuration := default (pa_timelockDuration live) timelock;
  sessionExpirySeconds := default (pa_sessionExpirySeconds live) (ch_sessionExpirySeconds c);
  observeOnly := va_observeOnly v;
  hasPostAssertions := pa_hasPostAssertions live;
  createdAtSlot := pa_createdAtSlot live;
  operatingHours := Some (pa_operatingHours live);
  autoPromoteGrays := Some (pa_autoPromoteGrays live);
  autoRevokeThreshold := Some (pa_autoRevokeThreshold live);
  stableBalanceFloor := Some (default (pa_stableBalanceFloor live) (ch_stableBalanceFloor c));
  perRecipientDailyCapUsd := Some (default (pa_perRecipientDailyCapUsd live) (ch_perRecipientDailyCapUsd c));
  cosignRequired := Some (default (pa_cosignRequired live) (ch_cosignRequired c));
  agentSetHash := Some agentSet;
  cosignSessionPubkey := Some (PkString (default (pa_cosignSessionPubkey live) (ch_cosignSessionPubkey c)));
  operatorGrantDelaySeconds :=
    Some (default (pa_operatorGrantDelaySeconds live) (ch_operatorGrantDelaySeconds c));
  hasProtocolCaps := Some (default (pa_hasProtocolCaps live) (ch_hasProtocolCaps c));
  protocolCaps := Some (default (pa_protocolCaps live) (ch_protocolCaps c));
  protocolHashes := Some hashes |}.

Definition update_args (owner vault : string) (c : PolicyChanges) (mode timelock : option Z)
    (hashes : option (list (list Z))) (cosignSession : string) (digest : list Z) : QueuePolicyUpdateArgs := {|
  qp_owner := owner;
  qp_vault := vault;
  qp_dailySpendingCapUsd := ch_dailyCap c;
  qp_maxTransactionAmountUsd := ch_maxPerTrade c;
  qp_protocolMode := mode;
  qp_protocols := ch_approvedApps c;
  qp_developerFeeRate := ch_developerFeeRate c;
  qp_maxSlippageBps := ch_maxSlippageBps c;
  qp_timelockDuration := timelock;
  qp_allowedDestinations := ch_allowedDestinations c;
  qp_sessionExpirySeconds := ch_sessionExpirySeconds c;
  qp_hasProtocolCaps := ch_hasProtocolCaps c;
  qp_protocolCaps := ch_protocolCaps c;
  qp_destinationMode := ch_destinationMode c;
  qp_operatingHours := None;
  qp_stableBalanceFloor := ch_stableBalanceFloor c;
  qp_perRecipientDailyCapUsd := ch_perRecipientDailyCapUsd c;
  qp_cosignRequired := ch_cosignRequired c;
  qp_cosignSessionPubkey := ch_cosignSessionPubkey c;
  qp_operatorGrantDelaySeconds := ch_operatorGrantDelaySeconds c;
  qp_protocolHashes := hashes;
  qp_cosignSession := cosignSession;
  qp_newPolicyPreviewDigest := digest |}.

(** [buildPolicyUpdateIx] up to the builder: the arguments of the instruction. *)
Definition policy_update_args (sha256 : list Z → list Z)
    (fetchPolicy : result jsv PolicyAccount) (fetchVault : result jsv VaultAccount)
    (owner vault : string) (c : PolicyChanges) (cosignSession : string)
    : result owner_exn QueuePolicyUpdateArgs :=
  _ ← check_changes c;
  livePolicy ← plain_rpc fetchPolicy;
  liveVault ← plain_rpc fetchVault;
  mode ← new_mode c;
  timelock ← timelock_arg c;
  '(hashArg, hashes, disarms) ← arm_hashes c livePolicy;
  _ ← dx_if (disarms && bool_decide (cosignSession = DEFAULT_COSIGN_SESSION) && pa_cosignRequired livePolicy)
        "Disarming protocol_hashes on a cosign-required vault is an elevated mutation";
  agentSet ← plain (computeAgentSetHash sha256 (va_agents liveVault));
  digest ← plain (computePolicyPreviewDigest sha256
             (merged_fields c livePolicy liveVault mode timelock hashes agentSet));
  Ok (update_args owner vault c mode timelock hashArg cosignSession digest).

(** ** The program's [queue_policy_update] *)

Definition MAX_OPERATOR_GRANT_DELAY : Z := 172800.
Definition NO_HASH : list Z := replicate 32 0.

Definition reject_opt {A} (bad : A → bool) (o : option A) (e : string) : result string unit :=
  throw_if (match o with Some a => bad a | None => false end) e.

(** The bounds on the requested values, in the handler's order; [protected] are
    the vault's own accounts. *)
Definition check_update_limits (protected : string → bool) (a : QueuePolicyUpdateArgs) : result string unit :=
  _ ← reject_opt (λ m, negb (m =? 1)) (qp_protocolMode a) "InvalidProtocolMode";
  _ ← reject_opt (λ m, negb (m =? 0)) (qp_destinationMode a) "InvalidDestinationMode";
  _ ← reject_opt (λ l, bool_decide (10 < length l)%nat) (qp_protocols a) "TooManyAllowedProtocols";
  _ ← reject_opt (λ r, 500 <? r) (qp_developerFeeRate a) "DeveloperFeeTooHigh";
  _ ← reject_opt (λ s, 5000 <? s) (qp_maxSlippageBps a) "SlippageBpsTooHigh";
  _ ← reject_opt (λ l, bool_decide (10 < length l)%nat) (qp_allowedDestinations a) "TooManyDestinations";
  _ ← reject_opt (existsb protected) (qp_allowedDestinations a) "ErrDestinationIsProtectedPda";
  _ ← reject_opt (λ t, t <? 1800) (qp_timelockDuration a) "TimelockTooShort";
  _ ← reject_opt (λ t, 172800 <? t) (qp_timelockDuration a) "TimelockTooLong";
  _ ← reject_opt (λ d, MAX_OPERATOR_GRANT_DELAY <? d) (qp_operatorGrantDelaySeconds a)
        "ErrOperatorGrantDelayTooLong";
  _ ← reject_opt (λ k, negb (bool_decide (k = DEFAULT_COSIGN_SESSION)) && bool_decide (k = qp_owner a))
        (qp_cosignSessionPubkey a) "ErrCosignRequired";
  _ ← reject_opt (λ e, (0 <? e) && negb ((5 <=? e) && (e <=? 90))) (qp_sessionExpirySeconds a)
        "InvalidSessionExpiry";
  reject_opt (λ h, negb (Z.land h 4278190080 =? 0)) (qp_operatingHours a) "ErrOutsideOperatingHours".

(** The merged policy on the program's side. *)
Definition effective_fields (a : QueuePolicyUpdateArgs) (p : PolicyAccount) (v : VaultAccount)
    (agentSet : list Z) : PolicyPreviewFields := {|
  dailySpendingCapUsd := default (pa_dailySpendingCapUsd p) (qp_dailySpendingCapUsd a);
  maxTransactionSizeUsd := default (pa_maxTransactionSizeUsd p) (qp_maxTransactionAmountUsd a);
  maxSlippageBps := default (pa_maxSlippageBps p) (qp_maxSlippageBps a);
  developerFeeRate := default (pa_developerFeeRate p) (qp_developerFeeRate a);
  protocolMode := default (pa_protocolMode p) (qp_protocolMode a);
  protocols := default (pa_protocols p) (qp_protocols a);
  destinationMode := default (pa_destinationMode p) (qp_destinationMode a);
  allowedDestinations := default (pa_allowedDestinations p) (qp_allowedDestinations a);
  timelockDuration := default (pa_timelockDuration p) (qp_timelockDuration a);
  sessionExpirySeconds := default (pa_sessionExpirySeconds p) (qp_sessionExpirySeconds a);
  observeOnly := va_observeOnly v;
  hasPostAssertions := pa_hasPostAssertions p;
  createdAtSlot := pa_createdAtSlot p;
  operatingHours := Some (default (pa_operatingHours p) (qp_operatingHours a));
  autoPromoteGrays := Some (pa_autoPromoteGrays p);
  autoRevokeThreshold := Some (pa_autoRevokeThreshold p);
  stableBalanceFloor := Some (default (pa_stableBalanceFloor p) (qp_stableBalanceFloor a));
  perRecipientDailyCapUsd := Some (default (pa_perRecipientDailyCapUsd p) (qp_perRecipientDailyCapUsd a));
  cosignRequired := Some (default (pa_cosignRequired p) (qp_cosignRequired a));
  agentSetHash := Some agentSet;
  cosignSessionPubkey := Some (PkString (default (pa_cosignSessionPubkey p) (qp_cosignSessionPubkey a)));
  operatorGrantDelaySeconds := Some (default (pa_operatorGrantDelaySeconds p) (qp_operatorGrantDelaySeconds a));
  hasProtocolCaps := Some (default (pa_hasProtocolCaps p) (qp_hasProtocolCaps a));
  protocolCaps := Some (default (pa_protocolCaps p) (qp_protocolCaps a));
  protocolHashes := Some (default (pa_protocolHashes p) (qp_protocolHashes a)) |}.

Definition check_caps_alignment (a : QueuePolicyUpdateArgs) (p : PolicyAccount) : result string unit :=
  if default (pa_hasProtocolCaps p) (qp_hasProtocolCaps a) then
    _ ← throw_if (negb (default (pa_protocolMode p) (qp_protocolMode a) =? 1)) "ProtocolCapsMismatch";
    throw_if (negb (bool_decide (length (default (pa_protocolCaps p) (qp_protocolCaps a)) =
                                 length (default (pa_protocols p) (qp_protocols a))))) "ProtocolCapsMismatch"
  else Ok tt.

Definition opt_test {A} (f : A → bool) (o : option A) : bool := match o with Some a => f a | None => false end.

Definition weakens_cap (new live : Z) : bool :=
  if live =? 0 then false else if new =? 0 then true else live <? new.

Definition expands (new live : list string) : bool :=
  bool_decide (length live < length new)%nat || existsb (λ d, negb (bool_decide (d ∈ live))) new.

Definition weakens_caps (new live : list Z) : bool :=
  existsb (λ i, weakens_cap (default 0 (new !! i)) (default 0 (live !! i))) (seq 0 (length new)).

(** A pin that is lifted at its index. *)
Definition disarms_build_hash (a : QueuePolicyUpdateArgs) (p : PolicyAccount) : bool :=
  opt_test (λ eff, existsb (λ i, negb (bool_decide (default NO_HASH (pa_protocolHashes p !! i) = NO_HASH)) &&
                                  bool_decide (default NO_HASH (eff !! i) = NO_HASH)) (seq 0 10))
    (qp_protocolHashes a).

(** The value aligned with the same protocol before and after. *)
Definition same_protocol {A} (test : A → A → bool) (zero : A) (oldP newP : list string) (old new : list A) : bool :=
  existsb (λ i, match oldP !! i with
                | Some p => match list_find (λ q, q = p) newP with
                            | Some (j, _) => test (default zero (old !! i)) (default zero (new !! j))
                            | None => false
                            end
                | None => false
                end) (seq 0 (length oldP)).

Definition disarms_by_identity (a : QueuePolicyUpdateArgs) (p : PolicyAccount) : bool :=
  same_protocol (λ live eff, negb (bool_decide (live = NO_HASH)) && bool_decide (eff = NO_HASH)) NO_HASH
    (pa_protocols p) (default (pa_protocols p) (qp_protocols a))
    (pa_protocolHashes p) (default (pa_protocolHashes p) (qp_protocolHashes a)).

Definition weakens_caps_by_identity (a : QueuePolicyUpdateArgs) (p : PolicyAccount) : bool :=
  default (pa_hasProtocolCaps p) (qp_hasProtocolCaps a) &&
  same_protocol (λ live eff, negb (live =? 0) && ((eff =? 0) || (live <? eff))) 0
    (pa_protocols p) (default (pa_protocols p) (qp_protocols a))
    (pa_protocolCaps p) (default (pa_protocolCaps p) (qp_protocolCaps a)).

Definition reorders_armed (a : QueuePolicyUpdateArgs) (p : PolicyAccount) : bool :=
  opt_test (λ new,
    bool_decide (length new = length (pa_protocols p)) &&
    forallb (λ q, bool_decide (q ∈ pa_protocols p)) new && forallb (λ q, bool_decide (q ∈ new)) (pa_protocols p) &&
    existsb (λ q : string * string, negb (bool_decide (fst q = snd q))) (zip new (pa_protocols p)) &&
    (existsb (λ h, negb (bool_decide (h = NO_HASH))) (pa_protocolHashes p) ||
     (pa_hasProtocolCaps p && existsb (λ c, negb (c =? 0)) (pa_protocolCaps p)))) (qp_protocols a).

Definition is_elevated (a : QueuePolicyUpdateArgs) (p : PolicyAccount) : bool :=
  (pa_cosignRequired p &&
   (opt_test (Z.ltb (pa_dailySpendingCapUsd p)) (qp_dailySpendingCapUsd a) ||
    opt_test (Z.ltb (pa_maxTransactionSizeUsd p)) (qp_maxTransactionAmountUsd a) ||
    opt_test (λ l, expands l (pa_allowedDestinations p)) (qp_allowedDestinations a) ||
    opt_test (λ l, expands l (pa_protocols p)) (qp_protocols a) ||
    opt_test (λ f, f <? pa_stableBalanceFloor p) (qp_stableBalanceFloor a) ||
    opt_test (λ c, weakens_cap c (pa_perRecipientDailyCapUsd p)) (qp_perRecipientDailyCapUsd a) ||
    opt_test negb (qp_hasProtocolCaps a) ||
    opt_test (λ c, weakens_caps c (pa_protocolCaps p)) (qp_protocolCaps a) ||
    weakens_caps_by_identity a p ||
    opt_test (Z.ltb (pa_maxSlippageBps p)) (qp_maxSlippageBps a) ||
    opt_test (Z.ltb (pa_developerFeeRate p)) (qp_developerFeeRate a) ||
    opt_test (λ h, negb (Z.land h (Z.lnot (pa_operatingHours p)) =? 0)) (qp_operatingHours a) ||
    disarms_build_hash a p || disarms_by_identity a p || reorders_armed a p)) ||
  (opt_test negb (qp_cosignRequired a) && pa_cosignRequired p) ||
  opt_test (λ k, pa_cosignRequired p && negb (bool_decide (k = pa_cosignSessionPubkey p)))
    (qp_cosignSessionPubkey a).

Definition check_cosign (a : QueuePolicyUpdateArgs) (p : PolicyAccount) : result string unit :=
  if is_elevated a p then
    _ ← throw_if (bool_decide (qp_cosignSession a = DEFAULT_COSIGN_SESSION)) "ErrCosignRequired";
    _ ← throw_if (bool_decide (qp_cosignSession a = qp_owner a)) "ErrCosignRequired";
    throw_if (negb (bool_decide (qp_cosignSession a = pa_cosignSessionPubkey p))) "ErrCosignRequired"
  else throw_if (negb (bool_decide (qp_cosignSession a = DEFAULT_COSIGN_SESSION))) "InvalidPermissions".

(** The handler up to the writes; the stored change is its arguments. *)
Definition queue_policy_update (sha256 : list Z → list Z) (protected : string → bool) (closed frozen : bool)
    (p : PolicyAccount) (v : VaultAccount) (a : QueuePolicyUpdateArgs) : result string unit :=
  _ ← throw_if closed "VaultAlreadyClosed";
  _ ← throw_if frozen "VaultNotActive";
  _ ← throw_if (pa_timelockDuration p <=? 0) "NoTimelockConfigured";
  _ ← check_update_limits protected a;
  _ ← check_caps_alignment a p;
  _ ← check_cosign a p;
  agentSet ← match computeAgentSetHash sha256 (va_agents v) with Ok h => Ok h | Throw _ => Throw MALFORMED end;
  recomputed ← match policyEncode sha256 (effective_fields a p v agentSet) with
               | Ok b => Ok (sha256 b) | Throw _ => Throw MALFORMED end;
  throw_if (negb (bool_decide (recomputed = qp_newPolicyPreviewDigest a))) "PolicyPreviewMismatch".

(** ** The digest always matches *)

Lemma plain_Ok {A} (r : result js_exn A) a : plain r = Ok a → r = Ok a.
Proof. destruct r; simpl; congruence. Qed.
Lemma plain_rpc_Ok {A} (r : result jsv A) a : plain_rpc r = Ok a → r = Ok a.
Proof. destruct r; simpl; congruence. Qed.

Lemma arm_hashes_agree c live arg hashes disarms :
  arm_hashes c live = Ok (arg, hashes, disarms) → hashes = default (pa_protocolHashes live) arg.
Proof.
  unfold arm_hashes. destruct (ch_protocolHashes c) as [entries|]; [|by intros [= <- <- <-]].
  intros H. inv_ok. destruct x0. by injection H as <- <- <-.
Qed.

Lemma policy_update_args_Ok sha256 fp fv owner vault c cs a :
  policy_update_args sha256 fp fv owner vault c cs = Ok a →
  ∃ live v mode timelock arg hashes disarms agentSet b,
    fp = Ok live ∧ fv = Ok v ∧ check_changes c = Ok tt ∧ arm_hashes c live = Ok (arg, hashes, disarms) ∧
    disarms && bool_decide (cs = DEFAULT_COSIGN_SESSION) && pa_cosignRequired live = false ∧
    computeAgentSetHash sha256 (va_agents v) = Ok agentSet ∧
    policyEncode sha256 (merged_fields c live v mode timelock hashes agentSet) = Ok b ∧
    a = update_args owner vault c mode timelock arg cs (sha256 b).
Proof.
  unfold policy_update_args. intros H. inv_ok. destruct x4 as [[arg hashes] disarms]. inv_ok.
  repeat match goal with
  | Hp : plain_rpc _ = Ok _ |- _ => apply plain_rpc_Ok in Hp
  | Hp : plain _ = Ok _ |- _ => apply plain_Ok in Hp
  end.
  unfold computePolicyPreviewDigest in *. inv_ok. rewrite policyPreviewBuffer_eq in *. subst.
  do 9 eexists. repeat split; eauto; [by destruct x | by eapply throw_if_Ok].
Qed.

(** No guard before the digest raises a digest mismatch. *)
Lemma limits_not_mismatch protected a : check_update_limits protected a ≠ Throw "PolicyPreviewMismatch".
Proof.
  unfold check_update_limits, reject_opt. intros H.
  repeat match type of H with
  | context [throw_if ?b _] => destruct b; [discriminate H|]; cbn [throw_if mbind result_bind] in H
  end; discriminate H.
Qed.

Lemma alignment_not_mismatch a p : check_caps_alignment a p ≠ Throw "PolicyPreviewMismatch".
Proof.
  unfold check_caps_alignment. destruct (default (pa_hasProtocolCaps p) (qp_hasProtocolCaps a)); [|done].
  by destruct (negb (_ =? 1)), (negb (bool_decide _)).
Qed.

Lemma cosign_not_mismatch a p : check_cosign a p ≠ Throw "PolicyPreviewMismatch".
Proof. unfold check_cosign. destruct (is_elevated a p); by repeat case_bool_decide. Qed.

(** The digest the owner signs for a policy change is the one the program
    recomputes: from the same live accounts, the program's independent merge of
    the arguments with the policy never ends in a digest mismatch, whichever
    fields change and whether hashes are armed or not. *)
Theorem policy_update_digest_matches (sha256 : list Z → list Z) (live : PolicyAccount) (v : VaultAccount)
    (owner vault cosignSession : string) (c : PolicyChanges) (a : QueuePolicyUpdateArgs)
    (protected : string → bool) (closed frozen : bool) :
  policy_update_args sha256 (Ok live) (Ok v) owner vault c cosignSession = Ok a →
  queue_policy_update sha256 protected closed frozen live v a ≠ Throw "PolicyPreviewMismatch" ∧
  (is_ok (queue_policy_update sha256 protected closed frozen live v a) = true ↔
   closed = false ∧ frozen = false ∧ 0 < pa_timelockDuration live ∧ is_ok (check_update_limits protected a) = true ∧
   is_ok (check_caps_alignment a live) = true ∧ is_ok (check_cosign a live) = true).
Proof.
  intros (live' & v' & mode & timelock & arg & hashes & disarms & agentSet & b & [= <-] & [= <-] & _ & Harm & _ &
          Hset & Hb & ->)%policy_update_args_Ok.
  apply arm_hashes_agree in Harm. set (a := update_args _ _ _ _ _ _ _ _).
  assert (He : effective_fields a live v agentSet = merged_fields c live v mode timelock hashes agentSet)
    by (rewrite Harm; reflexivity).
  unfold queue_policy_update. rewrite Hset. cbn [mbind result_bind]. rewrite He, Hb. cbn [mbind result_bind].
  change (qp_newPolicyPreviewDigest a) with (sha256 b). rewrite bool_decide_true by done.
  cbn [negb throw_if]. split.
  - destruct closed, frozen; [done..|]. destruct (_ <=? 0); [done|]. cbn [negb throw_if mbind result_bind].
    pose proof (limits_not_mismatch protected a). pose proof (alignment_not_mismatch a live).
    pose proof (cosign_not_mismatch a live).
    destruct (check_update_limits protected a), (check_caps_alignment a live), (check_cosign a live);
      simpl; congruence.
  - destruct closed, frozen; [naive_solver..|]. destruct (Z.leb_spec (pa_timelockDuration live) 0) as [Ht|Ht];
      cbn [negb throw_if mbind result_bind is_ok]; [split; [done | lia]|].
    by destruct (check_update_limits protected a), (check_caps_alignment a live), (check_cosign a live);
      naive_solver.
Qed.

(** ** Arming build hashes *)

(** What an update asks for the protocol at an index. *)
Definition asked (protos : list string) (entries : list (string * hash_change)) (i : nat) : option hash_change :=
  p ← protos !! i; jm_get p entries.

Definition armed_value (ch : hash_change) : list Z := match ch with Disarm => NO_HASH | Arm h => h end.

Lemma arm_one_spec protos k ch seeded d seeded' d' :
  arm_one protos (k, ch) (seeded, d) = Ok (seeded', d') → (length protos ≤ length seeded)%nat →
  ∃ slot old, protos !! slot = Some k ∧ seeded !! slot = Some old ∧
    seeded' = <[slot := armed_value ch]> seeded ∧
    d' = d || match ch with Disarm => negb (isAllZero old) | Arm _ => false end.
Proof.
  unfold arm_one. cbn [fst snd]. destruct (list_find _ protos) as [[slot q]|] eqn:Ef; [|done].
  apply list_find_Some in Ef as (Hp & -> & _). intros H Hl.
  assert (Hlt : (slot < length seeded)%nat) by (apply lookup_lt_Some in Hp; lia).
  destruct (lookup_lt_is_Some_2 seeded slot Hlt) as [old Hold]. exists slot, old.
  assert (Hset : ∀ v, set_slot seeded slot v = <[slot := v]> seeded)
    by (intros v; unfold set_slot; by rewrite bool_decide_true).
  destruct ch as [|h].
  - rewrite Hold, Hset in H. by injection H as <- <-.
  - inv_ok. by rewrite Hset, orb_false_r.
Qed.

Lemma arm_loop_spec protos entries seeded d seeded' d' :
  NoDup protos → jm_wf entries → (length protos ≤ length seeded)%nat →
  for_of (arm_one protos) entries (seeded, d) = Ok (seeded', d') →
  length seeded' = length seeded ∧
  (∀ i, seeded' !! i = match asked protos entries i with Some ch => Some (armed_value ch) | None => seeded !! i end) ∧
  (d' = true ↔ d = true ∨ ∃ i old, asked protos entries i = Some Disarm ∧ seeded !! i = Some old ∧
                                   isAllZero old = false).
Proof.
  intros Hp. revert seeded d; induction entries as [|[k ch] entries IH]; intros seeded d Hwf Hl H; simpl in H.
  { injection H as <- <-. split; [done|]. unfold asked. simpl. split; [intros i; by destruct (protos !! i)|].
    split; [by left|]. intros [?|(i & old & Ha & _)]; [done|]. by destruct (protos !! i). }
  inv_ok. destruct x as [seeded1 d1]. apply arm_one_spec in E as (slot & old & Hslot & Hold & -> & ->); [|done].
  apply NoDup_cons in Hwf as [Hnot Hwf]. apply jm_get_None in Hnot.
  apply IH in H as (Hlen & Hget & Hdis); [|done|by rewrite length_insert].
  rewrite length_insert in Hlen. split; [done|].
  assert (Hasked : ∀ i, asked protos ((k, ch) :: entries) i =
    if decide (i = slot) then Some ch else asked protos entries i).
  { intros i. unfold asked. simpl. destruct (decide (i = slot)) as [->|Hne].
    - rewrite Hslot. simpl. by rewrite bool_decide_true.
    - destruct (protos !! i) as [p|] eqn:Ei; [|done]. simpl. rewrite bool_decide_false; [done|].
      intros <-. by pose proof (NoDup_lookup _ _ _ _ Hp Ei Hslot). }
  assert (Hrest : asked protos entries slot = None) by (unfold asked; by rewrite Hslot).
  split.
  - intros i. rewrite Hget, Hasked. destruct (decide (i = slot)) as [->|Hne].
    + rewrite Hrest, list_lookup_insert_eq; [done|]. by apply lookup_lt_Some in Hold.
    + by rewrite list_lookup_insert_ne.
  - rewrite Hdis, orb_true_iff. split.
    + intros [[?|Hch]|(i & o & Ha & Ho & Hz)]; [by left| |].
      * right. exists slot, old. rewrite Hasked, decide_True by done. destruct ch; [|done].
        by apply negb_true_iff in Hch.
      * right. assert (i ≠ slot) by (intros ->; congruence). exists i, o.
        rewrite Hasked, decide_False by done. by rewrite list_lookup_insert_ne in Ho.
    + intros [?|(i & o & Ha & Ho & Hz)]; [by left; left|]. rewrite Hasked in Ha.
      destruct (decide (i = slot)) as [->|Hne].
      * left. right. injection Ha as ->. assert (o = old) as -> by congruence. by rewrite Hz.
      * right. exists i, o. by rewrite list_lookup_insert_ne.
Qed.

(** The layout of the account: ten 32-byte slots, at most ten protocols, none
    listed twice. *)
Record policy_layout (p : PolicyAccount) : Prop := {
  layout_slots : length (pa_protocolHashes p) = 10%nat;
  layout_sizes : Forall (λ h, length h = 32%nat ∧ bytes_ok h) (pa_protocolHashes p);
  layout_protocols : (length (pa_protocols p) ≤ 10)%nat;
  layout_distinct : NoDup (pa_protocols p);
}.

Lemma copy32_id h : length h = 32%nat → copy32 h = h.
Proof. intros H. unfold copy32. rewrite take_ge by lia. rewrite H. simpl. apply app_nil_r. Qed.

Lemma layout_copy p : policy_layout p → map copy32 (pa_protocolHashes p) = pa_protocolHashes p.
Proof.
  intros Hl. pose proof (layout_sizes p Hl) as Hs. induction Hs as [|h l [Hh _] _ IH]; [done|].
  simpl. by rewrite copy32_id, IH.
Qed.

Lemma isAllZero_spec h : length h = 32%nat → isAllZero h = true ↔ h = NO_HASH.
Proof.
  intros Hl. unfold isAllZero, NO_HASH. rewrite <- Hl. rewrite forallb_forall. split.
  - intros H. clear Hl. induction h as [|b h IH]; [done|]. simpl. f_equal.
    + apply Z.eqb_eq, H. by left.
    + apply IH. intros x Hx. apply H. by right.
  - intros -> x Hx%list_elem_of_In%elem_of_replicate. by destruct Hx as [-> _].
Qed.

(** An update that arms hashes: its array, and the disarm flag of the guard. *)
Lemma armed_update sha256 live v owner vault cs c a entries :
  policy_layout live → jm_wf entries → ch_protocolHashes c = Some entries →
  policy_update_args sha256 (Ok live) (Ok v) owner vault c cs = Ok a →
  ∃ hashes disarms, qp_protocolHashes a = Some hashes ∧ qp_protocols a = None ∧ length hashes = 10%nat ∧
    qp_cosignSession a = cs ∧
    disarms && bool_decide (cs = DEFAULT_COSIGN_SESSION) && pa_cosignRequired live = false ∧
    (∀ i, hashes !! i = match asked (pa_protocols live) entries i with
                        | Some ch => Some (armed_value ch)
                        | None => pa_protocolHashes live !! i
                        end) ∧
    (disarms = true ↔ ∃ i old, asked (pa_protocols live) entries i = Some Disarm ∧
                               pa_protocolHashes live !! i = Some old ∧ isAllZero old = false).
Proof.
  intros Hlay Hwf Hch.
  intros (live' & v' & mode & timelock & arg & hashes & disarms & agentSet & b & [= <-] & _ & _ & Harm & Hguard &
          _ & _ & ->)%policy_update_args_Ok.
  unfold arm_hashes in Harm. rewrite Hch in Harm. destruct (ch_approvedApps c) as [apps|] eqn:Eapps; [done|].
  cbn [absent negb dx_if throw_if mbind result_bind default from_option id] in Harm.
  rewrite layout_copy in Harm by done.
  apply bind_Ok_inv in Harm as ([seeded dis] & Harm & [= <- <- <-]).
  pose proof (layout_protocols live Hlay). pose proof (layout_slots live Hlay).
  apply arm_loop_spec in Harm as (Hlen & Hget & Hdis); [|by apply layout_distinct|done|lia].
  exists seeded, dis. split_and!; [done|by simpl|lia|done|done|done|].
  rewrite Hdis. split; [intros [?|?]; [done|done] | by right].
Qed.

(** Arming build hashes touches only what it names: the array that replaces
    the account's has all ten slots, holds the requested hash for every named
    protocol (zero for a disarmed one) at that protocol's own index, keeps every
    other pin, and never comes with a change of the allowlist it is indexed by. *)
Theorem arming_keeps_other_pins (sha256 : list Z → list Z) (live : PolicyAccount) (v : VaultAccount)
    (owner vault cosignSession : string) (c : PolicyChanges) (a : QueuePolicyUpdateArgs)
    (entries : list (string * hash_change)) :
  policy_layout live → jm_wf entries → ch_protocolHashes c = Some entries →
  policy_update_args sha256 (Ok live) (Ok v) owner vault c cosignSession = Ok a →
  ∃ hashes, qp_protocolHashes a = Some hashes ∧ qp_protocols a = None ∧ length hashes = 10%nat ∧
    ∀ i, hashes !! i = match asked (pa_protocols live) entries i with
                       | Some ch => Some (armed_value ch)
                       | None => pa_protocolHashes live !! i
                       end.
Proof.
  intros Hlay Hwf Hch Ha.
  destruct (armed_update _ _ _ _ _ _ _ _ _ Hlay Hwf Hch Ha) as (hashes & d & H1 & H2 & H3 & _ & _ & H4 & _).
  by exists hashes.
Qed.

(** The guard on lifting a pin.  On a vault that requires cosigning, an
    update built for the standard path lifts no build hash by [disarm]; the one
    way left is to arm the hash of 32 zero bytes, which the program treats as
    lifting the pin. *)
Theorem disarm_guard_misses_zero_hashes (sha256 : list Z → list Z) (live : PolicyAccount) (v : VaultAccount)
    (owner vault : string) (c : PolicyChanges) (a : QueuePolicyUpdateArgs)
    (entries : list (string * hash_change)) :
  policy_layout live → jm_wf entries → ch_protocolHashes c = Some entries → pa_cosignRequired live = true →
  policy_update_args sha256 (Ok live) (Ok v) owner vault c DEFAULT_COSIGN_SESSION = Ok a →
  disarms_build_hash a live = true ↔
  ∃ i old, asked (pa_protocols live) entries i = Some (Arm NO_HASH) ∧
           pa_protocolHashes live !! i = Some old ∧ old ≠ NO_HASH.
Proof.
  intros Hlay Hwf Hch Hcos Ha.
  destruct (armed_update _ _ _ _ _ _ _ _ _ Hlay Hwf Hch Ha)
    as (hashes & d & Hq & _ & Hlen & _ & Hguard & Hget & Hdis).
  rewrite Hcos, bool_decide_true, !andb_true_r in Hguard by done. subst d.
  unfold disarms_build_hash, opt_test. rewrite Hq, existsb_exists.
  pose proof (layout_slots live Hlay) as Hten. split.
  - intros (i & Hi%in_seq & [Hold Hnew%bool_decide_eq_true]%andb_true_iff).
    destruct (lookup_lt_is_Some_2 (pa_protocolHashes live) i) as [old Ho]; [lia|]. rewrite Ho in Hold.
    simpl in Hold. apply negb_true_iff, bool_decide_eq_false in Hold. exists i, old.
    rewrite Hget in Hnew. destruct (asked (pa_protocols live) entries i) as [[|h]|] eqn:Eask.
    + exfalso. assert (false = true); [|done]. apply Hdis. exists i, old. split_and!; [done|done|].
      apply not_true_is_false. intros Hz. apply Hold, isAllZero_spec; [|done].
      pose proof (layout_sizes live Hlay) as Hs. rewrite Forall_forall in Hs.
      apply (Hs old). by eapply list_elem_of_lookup_2.
    + simpl in Hnew. by rewrite Hnew.
    + rewrite Ho in Hnew. simpl in Hnew. congruence.
  - intros (i & old & Hask & Ho & Hne). exists i. split; [apply in_seq; apply lookup_lt_Some in Ho; lia|].
    rewrite Ho, Hget, Hask. simpl. by rewrite bool_decide_false.
Qed.

(** Changing the allowlist alone leaves every build hash at its index: what
    was pinned for the protocol at an index is afterwards pinned for whichever
    protocol the new list has there.  The guard against exactly this
    misalignment only looks at updates that also arm hashes. *)
Theorem allowlist_change_moves_pins (sha256 : list Z → list Z) (live : PolicyAccount) (v : VaultAccount)
    (owner vault cosignSession : string) (c : PolicyChanges) (a : QueuePolicyUpdateArgs)
    (apps : list string) (agentSet : list Z) :
  ch_approvedApps c = Some apps → ch_protocolHashes c = None →
  policy_update_args sha256 (Ok live) (Ok v) owner vault c cosignSession = Ok a →
  protocols (effective_fields a live v agentSet) = apps ∧
  protocolHashes (effective_fields a live v agentSet) = Some (pa_protocolHashes live).
Proof.
  intros Happs Hch.
  intros (live' & v' & mode & timelock & arg & hashes & disarms & aset & b & [= <-] & _ & _ & Harm & _ & _ & _ & ->)
    %policy_update_args_Ok.
  unfold arm_hashes in Harm. rewrite Hch in Harm. injection Harm as <- <- <-. simpl. by rewrite Happs.
Qed.

(** ** Concrete vaults *)

Module MutationDemo.
Definition jupiter : string := "JUP6LkbZbjS1jKKwapdHNy74zcZ3tLUZoi5QNyVTaV4".
Definition token : string := "TokenkegQfeZyiNwAJbNbGKPFXCWuBvf9Ss623VQ5DA".
Definition usdc : string := "EPjFWdd5AufqSSqeM2qN1xzybapC8G4wEGGkZwyTDt1v".
Definition pin : list Z := replicate 32 7.
(** Two protocols, the first with a pinned build. *)
Definition policy (cosign : bool) : PolicyAccount := {|
  pa_dailySpendingCapUsd := 500000000; pa_maxTransactionSizeUsd := 100000000; pa_maxSlippageBps := 100;
  pa_developerFeeRate := 0; pa_protocolMode := 1; pa_protocols := [jupiter; token];
  pa_destinationMode := 0; pa_allowedDestinations := []; pa_timelockDuration := 1800;
  pa_sessionExpirySeconds := 30; pa_hasPostAssertions := 0; pa_createdAtSlot := 42; pa_operatingHours := 16777215;
  pa_autoPromoteGrays := false; pa_autoRevokeThreshold := 5; pa_stableBalanceFloor := 0;
  pa_perRecipientDailyCapUsd := 0; pa_cosignRequired := cosign; pa_cosignSessionPubkey := usdc;
  pa_operatorGrantDelaySeconds := 0; pa_hasProtocolCaps := false; pa_protocolCaps := [];
  pa_protocolHashes := pin :: replicate 9 NO_HASH |}.
Definition account : VaultAccount := {| va_observeOnly := false; va_agents := [] |}.

Definition changes (apps : option (list string)) (entries : option (list (string * hash_change)))
    : PolicyChanges := {|
  ch_dailyCap := None; ch_maxPerTrade := None; ch_approvedApps := apps; ch_protocolMode := None;
  ch_hasProtocolCaps := None; ch_protocolCaps := None; ch_maxSlippageBps := None; ch_allowedDestinations := None;
  ch_developerFeeRate := None; ch_sessionExpirySeconds := None; ch_timelock := None; ch_destinationMode := None;
  ch_stableBalanceFloor := None; ch_perRecipientDailyCapUsd := None; ch_cosignRequired := None;
  ch_cosignSessionPubkey := None; ch_operatorGrantDelaySeconds := None; ch_protocolHashes := entries |}.
Definition nothing : PolicyChanges := changes None None.
Definition hashes (entries : list (string * hash_change)) : PolicyChanges := changes None (Some entries).
Definition apps (l : list string) : PolicyChanges := changes (Some l) None.

Definition args (cosign : bool) (c : PolicyChanges) : result owner_exn QueuePolicyUpdateArgs :=
  policy_update_args checksum32 (Ok (policy cosign)) (Ok account) "Owner" "Vault" c DEFAULT_COSIGN_SESSION.
Definition queued (cosign : bool) (c : PolicyChanges) : result string unit :=
  match args cosign c with
  | Ok a => queue_policy_update checksum32 (λ _, false) false false (policy cosign) account a
  | Throw _ => Throw "client"
  end.

Lemma constant_hash b : 0 ≤ b < 256 → length (replicate 32 b) = 32%nat ∧ bytes_ok (replicate 32 b).
Proof. intros Hb. split; [done|]. by apply Forall_replicate. Qed.

Lemma layout cosign : policy_layout (policy cosign).
Proof.
  split; [done| |simpl; lia|].
  - apply Forall_cons. split; [by apply constant_hash|]. apply Forall_replicate. by apply constant_hash.
  - apply NoDup_cons. split; [rewrite list_elem_of_singleton; discriminate|apply NoDup_singleton].
Defined.
End MutationDemo.
Import MutationDemo.

(** The program accepts an update that swaps the two protocols of a vault
    without cosigning, which moves the pin from the one to the other; the
    guarded route to the same state, arming a hash with the list, is refused. *)
Example swapped_allowlist_is_accepted :
  queued false (apps [token; jupiter]) = Ok tt ∧
  queued true (apps [token; jupiter]) = Throw "ErrCosignRequired" ∧
  queued true (hashes [(jupiter, Disarm)]) = Throw "client" ∧
  queued true (hashes [(jupiter, Arm NO_HASH)]) = Throw "ErrCosignRequired" ∧
  is_ok (args true (hashes [(jupiter, Arm NO_HASH)])) = true ∧
  is_ok (args true nothing) = false.
Proof. by vm_compute. Qed.

(** Arguments that were built, with the equation that says so. *)
Ltac built a E := destruct (args _ _) as [a|] eqn:E; [|exfalso; revert E; vm_compute; discriminate].

Lemma policy_update_digest_matches_witness :
  ∃ a, args false (apps [token]) = Ok a ∧
    queue_policy_update checksum32 (λ _, false) false false (policy false) account a ≠ Throw "PolicyPreviewMismatch".
Proof.
  built a E. exists a. split; [reflexivity|].
  exact (proj1 (policy_update_digest_matches checksum32 (policy false) account "Owner" "Vault"
    DEFAULT_COSIGN_SESSION (apps [token]) a (λ _, false) false false E)).
Defined.

Definition arming : list (string * hash_change) := [(token, Arm (replicate 32 9))].

Lemma arming_wf : jm_wf arming.
Proof. apply NoDup_singleton. Defined.

Lemma arming_keeps_other_pins_witness :
  ∃ a l, args false (hashes arming) = Ok a ∧ qp_protocolHashes a = Some l ∧ l !! 0%nat = Some pin ∧
    l !! 1%nat = Some (replicate 32 9).
Proof.
  built a E. exists a.
  destruct (arming_keeps_other_pins checksum32 (policy false) account "Owner" "Vault" DEFAULT_COSIGN_SESSION
    (hashes arming) a arming (layout false) arming_wf eq_refl E) as (l & H1 & _ & _ & H2).
  exists l. pose proof (H2 0%nat) as H0. pose proof (H2 1%nat) as H3.
  exact (conj eq_refl (conj H1 (conj H0 H3))).
Defined.

Definition zeroing : list (string * hash_change) := [(jupiter, Arm NO_HASH)].

Lemma disarm_guard_misses_zero_hashes_witness :
  ∃ a, args true (hashes zeroing) = Ok a ∧ disarms_build_hash a (policy true) = true.
Proof.
  built a E. exists a. split; [reflexivity|].
  apply (disarm_guard_misses_zero_hashes checksum32 (policy true) account "Owner" "Vault" (hashes zeroing) a zeroing
    (layout true) (NoDup_singleton _) eq_refl eq_refl E).
  exists 0%nat, pin. split; [reflexivity|]. split; [reflexivity|]. discriminate.
Defined.

Lemma allowlist_change_moves_pins_witness :
  ∃ a, args false (apps [token; jupiter]) = Ok a ∧
    protocols (effective_fields a (policy false) account []) = [token; jupiter] ∧
    protocolHashes (effective_fields a (policy false) account []) = Some (pin :: replicate 9 NO_HASH).
Proof.
  built a E. exists a. split; [reflexivity|].
  exact (allowlist_change_moves_pins checksum32 (policy false) account "Owner" "Vault" DEFAULT_COSIGN_SESSION
    (apps [token; jupiter]) a [token; jupiter] [] eq_refl eq_refl E).
Defined.
