(* ===== verification/OwnerClient.v ===== *)
(** * The owner's client (dashboard/index.ts, dashboard/mutations.ts, dashboard/close-vault.ts)

    One definition per mutation on top of [Mutations], and the methods of
    [OwnerClient] that put the mainnet confirmation in front of them.  The
    theorems: an unconfirmed call sends nothing, a call sends at most one
    transaction and it carries exactly the requested instruction, elevated
    calls are signed by two distinct keys, and closing a vault drains the
    pending accounts the node shows. *)

From S2P Require Import Prelude JsMap JsText JsValue CanonicalEncode CosignDigest PolicyDigest PolicyBinding.
From S2P Require Import SdkTypes IntentDigest Base64 Composer StateResolver Rpc Accounts OwnerTx DashboardJson.
From S2P Require Import PostAssertion Discovery VaultCreation Mutations.

Local Open Scope Z_scope.

Record AgentPermsArgs : Type := {
  gp_owner : string; gp_vault : string; gp_agent : string; gp_newCapability : Z;
  gp_spendingLimitUsd : Z; gp_cooldownSeconds : Z; gp_cosignSession : string;
}.

(** The generated builders, by the accounts and arguments the mutations pass. *)
Record OwnerBuilders : Type := {
  ob_freezeVault : string → string → result js_exn Ix;
  ob_reactivateVault : string → string → option string → option Z → result js_exn Ix;
  ob_setObserveOnly : string → string → bool → result js_exn Ix;
  ob_queueAgentGrant : QueueAgentGrantArgs → result js_exn Ix;
  ob_applyAgentGrant : string → string → string → result js_exn Ix;
  ob_cancelAgentGrant : string → string → result js_exn Ix;
  ob_closeVault : string → string → string → result js_exn Ix;
  ob_pauseAgent : string → string → string → string → result js_exn Ix;
  ob_unpauseAgent : string → string → string → string → result js_exn Ix;
  ob_revokeAgent : string → string → string → string → string → result js_exn Ix;
  ob_registerAgent : RegisterAgentArgs → result js_exn Ix;
  ob_depositFunds : string → string → string → Z → result js_exn Ix;
  ob_withdrawFunds : string → string → string → Z → result js_exn Ix;
  ob_queuePolicyUpdate : QueuePolicyUpdateArgs → result js_exn Ix;
  ob_applyPendingPolicy : string → string → result js_exn Ix;
  ob_cancelPendingPolicy : string → string → result js_exn Ix;
  ob_approvePendingPolicy : string → string → result js_exn Ix;
  ob_promoteGraylist : string → string → string → result js_exn Ix;
  ob_recordViolation : string → string → string → Z → result js_exn Ix;
  ob_queueAgentPerms : AgentPermsArgs → result js_exn Ix;
  ob_applyAgentPerms : string → string → string → string → result js_exn Ix;
  ob_cancelAgentPerms : string → string → string → result js_exn Ix;
  ob_createPostAssertions : string → string → entries_arg → list Z → result js_exn Ix;
  ob_closePostAssertions : string → string → list Z → result js_exn Ix;
  ob_initiateOwnership : string → string → string → bool → result js_exn Ix;
  ob_acceptOwnership : string → string → result js_exn Ix;
  ob_acceptOwnershipMultisig : string → string → result js_exn Ix;
  ob_cancelOwnership : string → string → result js_exn Ix;
}.

Definition MAINNET_CONFIRMATION_REQUIRED : js_exn :=
  SdkDomainError "SIGIL_ERROR__SDK__MAINNET_CONFIRMATION_REQUIRED".

(** The digest or instruction of a step that throws a validation error. *)
Definition POST_ASSERTION_INVALID : js_exn := JsError "PostAssertionValidationError".

Section Owner.
Context (encode : string → list Z) (derive : string → list (list Z) → string).
Context (sha256 : list Z → list Z) (ob : OwnerBuilders) (n : OwnerNode).
Context (fetchPolicy : result jsv PolicyAccount) (fetchVault : result jsv VaultAccount).
(** [resolveVaultStateForOwner], as far as [closeVault] reads it: the agents. *)
Context (resolveAgents : result jsv (list string)).
Context (vault : string) (network : string).

Definition overlayPda : string := getAgentOverlayPDA encode derive vault 0 SIGIL_PROGRAM_ADDRESS.
Definition policyPda : string := getPolicyPDA encode derive vault SIGIL_PROGRAM_ADDRESS.
Definition pendingPolicyPda : string := getPendingPolicyPDA encode derive vault SIGIL_PROGRAM_ADDRESS.

Definition derivePendingAgentPermsPDA (agent : string) : string :=
  derive SIGIL_PROGRAM_ADDRESS [seedString "pending_agent_perms"; encode vault; encode agent].
Definition findPendingOwnerPda : string :=
  derive SIGIL_PROGRAM_ADDRESS [seedString "pending_owner"; encode vault].
Definition findPendingAgentGrantPda : string :=
  derive SIGIL_PROGRAM_ADDRESS [seedString "pending_agent_grant"; encode vault].

(** ** Simple mutations *)

Definition freezeVault (owner : string) (opts : TxOpts) : outcome string :=
  perform n owner [] opts (plain (ob_freezeVault ob owner vault)).

Definition resumeVault (owner : string) (newAgent : option (string * Z)) (opts : TxOpts) : outcome string :=
  perform n owner [] opts (plain (ob_reactivateVault ob owner vault (fst <$> newAgent) (snd <$> newAgent))).

Definition reactivateVault (owner : string) (newAgent : option (string * Z)) (opts : TxOpts) : outcome string :=
  resumeVault owner newAgent opts.

Definition setObserveOnly (owner : string) (newValue : bool) (opts : TxOpts) : outcome string :=
  perform n owner [] opts (plain (ob_setObserveOnly ob owner vault newValue)).

Definition queueAgentGrant (owner agent : string) (capability spendingLimitUsd : Z) (opts : TxOpts) : outcome string :=
  perform n owner [] opts (plain (ob_queueAgentGrant ob
    {| qa_owner := owner; qa_vault := vault; qa_agent := agent; qa_capability := capability;
       qa_spendingLimitUsd := spendingLimitUsd |})).

Definition applyAgentGrant (owner : string) (opts : TxOpts) : outcome string :=
  perform n owner [] opts (plain (ob_applyAgentGrant ob owner vault overlayPda)).

Definition cancelAgentGrant (owner : string) (opts : TxOpts) : outcome string :=
  perform n owner [] opts (plain (ob_cancelAgentGrant ob owner vault)).

Definition pauseAgent (owner agent : string) (opts : TxOpts) : outcome string :=
  perform n owner [] opts
    (_ ← requireValidAddress agent; plain (ob_pauseAgent ob owner vault policyPda agent)).

Definition unpauseAgent (owner agent : string) (opts : TxOpts) : outcome string :=
  perform n owner [] opts
    (_ ← requireValidAddress agent; plain (ob_unpauseAgent ob owner vault policyPda agent)).

Definition revokeAgent (owner agent : string) (opts : TxOpts) : outcome string :=
  perform n owner [] opts
    (_ ← requireValidAddress agent; plain (ob_revokeAgent ob owner vault policyPda overlayPda agent)).

Definition addAgent (owner agent : string) (permissions spendingLimit : Z) (opts : TxOpts) : outcome string :=
  perform n owner [] opts
    (_ ← requireValidAddress agent;
     _ ← requireValidPermissions permissions;
     plain (ob_registerAgent ob
       {| ga_owner := owner; ga_vault := vault; ga_policy := policyPda; ga_agentSpendOverlay := overlayPda;
          ga_agent := agent; ga_capability := permissions; ga_spendingLimitUsd := spendingLimit |})).

Definition deposit (owner mint : string) (amount : Z) (opts : TxOpts) : outcome string :=
  perform n owner [] opts
    (_ ← requirePositiveAmount amount; _ ← requireValidAddress mint;
     plain (ob_depositFunds ob owner vault mint amount)).

Definition withdraw (owner mint : string) (amount : Z) (opts : TxOpts) : outcome string :=
  perform n owner [] opts
    (_ ← requirePositiveAmount amount; _ ← requireValidAddress mint;
     plain (ob_withdrawFunds ob owner vault mint amount)).

(** ** Closing *)

(** The pending accounts that may exist, in the order the program drains
    them. *)
Definition pending_candidates (agents : list string) : list string :=
  pendingPolicyPda :: map derivePendingAgentPermsPDA agents ++ [findPendingOwnerPda; findPendingAgentGrantPda].

(** A failed lookup counts as absent. *)
Definition shown (pda : string) : bool := match on_accountExists n pda with Ok b => b | Throw _ => false end.

Definition enumerateExistingPendingPdasForClose : list AccountMeta :=
  map (λ a, {| acc_address := a; acc_role := WRITABLE |})
    (filter (λ a, shown a = true) [findPendingOwnerPda; findPendingAgentGrantPda]).

Definition buildCloseVaultFinalIx (owner : string) : result owner_exn Ix :=
  agents ← plain_rpc resolveAgents;
  ix ← plain (ob_closeVault ob owner vault overlayPda);
  let existing := filter (λ a, shown a = true) (pendingPolicyPda :: map derivePendingAgentPermsPDA agents) in
  let remaining := map (λ a, {| acc_address := a; acc_role := WRITABLE |}) existing ++
                   enumerateExistingPendingPdasForClose in
  Ok (if bool_decide (remaining = []) then ix else append_accounts ix remaining).

Definition close_opts (opts : TxOpts) : TxOpts := {|
  to_computeUnits := Some (default 400000 (to_computeUnits opts));
  to_priorityFeeMicroLamports := to_priorityFeeMicroLamports opts;
  to_mainnetConfirmed := None |}.

Definition closeVault (owner : string) (opts : TxOpts) : outcome string :=
  perform n owner [] (close_opts opts) (buildCloseVaultFinalIx owner).

(** ** Policy *)

Definition buildPolicyUpdateIx (owner : string) (changes : PolicyChanges) (cosignSession : string)
    : result owner_exn Ix :=
  args ← policy_update_args sha256 fetchPolicy fetchVault owner vault changes cosignSession;
  plain (ob_queuePolicyUpdate ob args).

Definition queuePolicyUpdate (owner : string) (changes : PolicyChanges) (opts : TxOpts) : outcome string :=
  perform n owner [] opts (buildPolicyUpdateIx owner changes DEFAULT_COSIGN_SESSION).

Definition queuePolicyElevated (owner : string) (changes : PolicyChanges) (cosigner : string) (opts : TxOpts)
    : outcome string :=
  perform n owner [cosigner] opts
    (_ ← assertDistinctCosigner owner cosigner;
     ix ← buildPolicyUpdateIx owner changes cosigner;
     Ok (withCosignerSigner ix cosigner)).

Record ElevatedCosignBundle : Type := {
  eb_partialTransaction : SignedTx; eb_cosignSession : string; eb_cosignDigest : list Z;
}.

(** [x ?? null]. *)
Definition or_null {A} (o : option A) : CosignDigest.nullish A :=
  match o with Some a => CosignDigest.Val a | None => CosignDigest.Null end.

Definition cosign_fields (c : PolicyChanges) (cosignSession : string) : CosignDigestFields := {|
  CosignDigest.cosignSession := cosignSession;
  CosignDigest.dailySpendingCapUsd := or_null (ch_dailyCap c);
  CosignDigest.maxTransactionAmountUsd := or_null (ch_maxPerTrade c);
  CosignDigest.allowedDestinations := or_null (ch_allowedDestinations c);
  CosignDigest.protocols := or_null (ch_approvedApps c);
  CosignDigest.stableBalanceFloor := or_null (ch_stableBalanceFloor c);
  CosignDigest.perRecipientDailyCapUsd := or_null (ch_perRecipientDailyCapUsd c);
  CosignDigest.hasProtocolCaps := or_null (ch_hasProtocolCaps c);
  CosignDigest.protocolCaps := or_null (ch_protocolCaps c);
  CosignDigest.cosignRequired := or_null (ch_cosignRequired c) |}.

Definition buildQueuePolicyElevated (owner : string) (changes : PolicyChanges) (cosignSession : string)
    (opts : TxOpts) : result owner_exn ElevatedCosignBundle :=
  _ ← assertDistinctCosigner owner cosignSession;
  ix ← buildPolicyUpdateIx owner changes cosignSession;
  partial ← buildOwnerPartialSignedTx n owner [withCosignerSigner ix cosignSession] opts;
  digest ← plain (computeCosignDigest sha256 (cosign_fields changes cosignSession));
  Ok {| eb_partialTransaction := partial; eb_cosignSession := cosignSession; eb_cosignDigest := digest |}.

Definition applyPendingPolicy (owner : string) (opts : TxOpts) : outcome string :=
  perform n owner [] opts (plain (ob_applyPendingPolicy ob owner vault)).

Definition cancelPendingPolicy (owner : string) (opts : TxOpts) : outcome string :=
  perform n owner [] opts (plain (ob_cancelPendingPolicy ob owner vault)).

(** The cosigner pays for and signs its own approval. *)
Definition approvePendingPolicy (cosigner : string) (opts : TxOpts) : outcome string :=
  perform n cosigner [] opts
    (_ ← requireValidAddress cosigner; plain (ob_approvePendingPolicy ob cosigner vault)).

Definition promoteGraylistDestination (owner destination : string) (opts : TxOpts) : outcome string :=
  perform n owner [] opts
    (_ ← requireValidAddress destination; plain (ob_promoteGraylist ob owner vault destination)).

Definition u32 (errorCode : number) : result owner_exn Z :=
  match errorCode with
  | Int z => if (z <? 0) || (4294967295 <? z) then dx "errorCode must be a u32" else Ok z
  | _ => dx "errorCode must be a u32"
  end.

Definition recordAgentViolation (owner agent : string) (errorCode : number) (opts : TxOpts) : outcome string :=
  perform n owner [] opts
    (_ ← requireValidAddress agent; code ← u32 errorCode; plain (ob_recordViolation ob owner vault agent code)).

(** ** Agent permissions *)

Definition perms_args (owner agent : string) (permissions limit cooldown : Z) (cosignSession : string)
    : AgentPermsArgs := {|
  gp_owner := owner; gp_vault := vault; gp_agent := agent; gp_newCapability := permissions;
  gp_spendingLimitUsd := limit; gp_cooldownSeconds := cooldown; gp_cosignSession := cosignSession |}.

Definition queueAgentPermissions (owner agent : string) (permissions limit cooldown : Z) (opts : TxOpts)
    : outcome string :=
  perform n owner [] opts
    (_ ← requireValidAddress agent;
     _ ← requireValidPermissions permissions;
     plain (ob_queueAgentPerms ob (perms_args owner agent permissions limit cooldown DEFAULT_COSIGN_SESSION))).

Definition elevated_perms_ix (owner agent : string) (permissions limit cooldown : Z) (cosignSession : string)
    : result owner_exn Ix :=
  _ ← requireValidAddress agent;
  _ ← requireValidPermissions permissions;
  _ ← assertDistinctCosigner owner cosignSession;
  ix ← plain (ob_queueAgentPerms ob (perms_args owner agent permissions limit cooldown cosignSession));
  Ok (withCosignerSigner ix cosignSession).

Definition queueAgentPermissionsElevated (owner agent : string) (permissions limit cooldown : Z)
    (cosigner : string) (opts : TxOpts) : outcome string :=
  perform n owner [cosigner] opts (elevated_perms_ix owner agent permissions limit cooldown cosigner).

Definition buildQueueAgentPermissionsElevated (owner agent : string) (permissions limit cooldown : Z)
    (cosignSession : string) (opts : TxOpts) : result owner_exn ElevatedCosignBundle :=
  ix ← elevated_perms_ix owner agent permissions limit cooldown cosignSession;
  partial ← buildOwnerPartialSignedTx n owner [ix] opts;
  digest ← plain (computeAgentPermsCosignDigest sha256
             {| CosignDigest.ap_cosignSession := cosignSession; CosignDigest.ap_agent := agent;
                CosignDigest.ap_newCapability := permissions; CosignDigest.ap_spendingLimitUsd := limit;
                CosignDigest.ap_cooldownSeconds := cooldown |});
  Ok {| eb_partialTransaction := partial; eb_cosignSession := cosignSession; eb_cosignDigest := digest |}.

Definition applyAgentPermissions (owner agent : string) (opts : TxOpts) : outcome string :=
  perform n owner [] opts
    (_ ← requireValidAddress agent;
     plain (ob_applyAgentPerms ob owner vault overlayPda (derivePendingAgentPermsPDA agent))).

Definition cancelAgentPermissions (owner agent : string) (opts : TxOpts) : outcome string :=
  perform n owner [] opts
    (_ ← requireValidAddress agent;
     plain (ob_cancelAgentPerms ob owner vault (derivePendingAgentPermsPDA agent))).

(** ** Partially signed owner operations *)

Record CosignedActionBundle : Type := {
  cb_partialTransaction : SignedTx; cb_cosignSession : string;
}.

(** The shape the six builders share: check the cosigner, build, append it as a
    signer, sign as the owner. *)
Definition cosigned (owner cosignSession : string) (opts : TxOpts) (ix : result owner_exn Ix)
    : result owner_exn CosignedActionBundle :=
  _ ← assertDistinctCosigner owner cosignSession;
  ix ← ix;
  partial ← buildOwnerPartialSignedTx n owner [withCosignerSigner ix cosignSession] opts;
  Ok {| cb_partialTransaction := partial; cb_cosignSession := cosignSession |}.

Definition buildCancelAgentGrantElevated (owner cosignSession : string) (opts : TxOpts) :=
  cosigned owner cosignSession opts (plain (ob_cancelAgentGrant ob owner vault)).

Definition buildCancelAgentPermissionsElevated (owner agent cosignSession : string) (opts : TxOpts) :=
  cosigned owner cosignSession opts
    (_ ← requireValidAddress agent;
     plain (ob_cancelAgentPerms ob owner vault (derivePendingAgentPermsPDA agent))).

Definition buildCancelPendingPolicyElevated (owner cosignSession : string) (opts : TxOpts) :=
  cosigned owner cosignSession opts (plain (ob_cancelPendingPolicy ob owner vault)).

Definition buildApplyAgentPermissionsElevated (owner agent cosignSession : string) (opts : TxOpts) :=
  cosigned owner cosignSession opts
    (_ ← requireValidAddress agent;
     plain (ob_applyAgentPerms ob owner vault overlayPda (derivePendingAgentPermsPDA agent))).

Definition buildApplyPendingPolicyElevated (owner cosignSession : string) (opts : TxOpts) :=
  cosigned owner cosignSession opts (plain (ob_applyPendingPolicy ob owner vault)).

Definition buildCloseVaultElevated (owner cosignSession : string) (opts : TxOpts) :=
  cosigned owner cosignSession (close_opts opts) (buildCloseVaultFinalIx owner).

(** The cosigner's wallet signs later: the transaction carries no signature. *)
Record ApprovePendingPolicyReview (P : Type) : Type := {
  rv_unsignedTransaction : SignedTx; rv_pendingPolicy : P; rv_pendingPolicyPda : string;
}.

Definition buildApprovePendingPolicy {P} (fetchPendingPolicyUpdate : string → result jsv P)
    (cosigner : string) (opts : TxOpts) : result owner_exn (ApprovePendingPolicyReview P) :=
  _ ← requireValidAddress cosigner;
  pending ← match fetchPendingPolicyUpdate pendingPolicyPda with
            | Ok p => Ok p
            | Throw _ => dx "No pending policy to approve for vault"
            end;
  ix ← plain (ob_approvePendingPolicy ob cosigner vault);
  tx ← buildOwnerPartialSignedTx n cosigner [ix] opts;
  Ok {| rv_unsignedTransaction := tx; rv_pendingPolicy := pending; rv_pendingPolicyPda := pendingPolicyPda |}.

(** ** Post-execution assertions *)

Definition assertMutationMainnetConfirmed (opts : TxOpts) : result owner_exn unit :=
  throw_if (bool_decide (network = "mainnet") && negb (bool_decide (to_mainnetConfirmed opts = Some true)))
    (Plain (SdkError MAINNET_CONFIRMATION_REQUIRED)).

Definition createPostAssertions (owner : string) (entries : entries_arg) (opts : TxOpts) : outcome string :=
  perform n owner [] opts
    (_ ← match validatePostAssertionEntries entries with
         | Ok _ => Ok tt
         | Throw _ => Throw (Plain (SdkError POST_ASSERTION_INVALID))
         end;
     _ ← assertMutationMainnetConfirmed opts;
     digest ← siblingHandlerExpectedDigest sha256 fetchPolicy fetchVault (Some 1);
     plain (ob_createPostAssertions ob owner vault entries digest)).

Definition closePostAssertions (owner : string) (opts : TxOpts) : outcome string :=
  perform n owner [] opts
    (_ ← assertMutationMainnetConfirmed opts;
     digest ← siblingHandlerExpectedDigest sha256 fetchPolicy fetchVault (Some 0);
     plain (ob_closePostAssertions ob owner vault digest)).

(** ** Ownership transfer *)

Definition initiateOwnershipTransfer (owner newOwner : string) (isMultisigTarget : bool) (opts : TxOpts)
    : outcome string :=
  perform n owner [] opts (plain (ob_initiateOwnership ob owner vault newOwner isMultisigTarget)).

Definition acceptOwnershipTransfer (newOwner : string) (opts : TxOpts) : outcome string :=
  perform n newOwner [] opts (plain (ob_acceptOwnership ob newOwner vault)).

(** The multisig is an account of the instruction; a wallet pays. *)
Definition acceptOwnershipTransferMultisig (multisigPda feePayer : string) (opts : TxOpts) : outcome string :=
  perform n feePayer [] opts (plain (ob_acceptOwnershipMultisig ob multisigPda vault)).

Definition cancelOwnershipTransfer (currentOwner : string) (opts : TxOpts) : outcome string :=
  perform n currentOwner [] opts (plain (ob_cancelOwnership ob currentOwner vault)).

(** ** The client *)

(** The methods that send; their last argument, the options, is the call's. *)
Inductive lifecycle_call : Type :=
| FreezeVault
| ResumeVault (newAgent : option (string * Z))
| ReactivateVault (newAgent : option (string * Z))
| SetObserveOnly (newValue : bool)
| QueueAgentGrant (agent : string) (capability spendingLimitUsd : Z)
| ApplyAgentGrant
| CancelAgentGrant
| CloseVault.

Inductive agent_call : Type :=
| AddAgent (agent : string) (permissions spendingLimit : Z)
| PauseAgent (agent : string)
| UnpauseAgent (agent : string)
| RevokeAgent (agent : string)
| QueueAgentPermissions (agent : string) (permissions spendingLimit : Z)
| QueueAgentPermissionsElevated (agent : string) (permissions spendingLimit cooldown : Z) (cosigner : string)
| ApplyAgentPermissions (agent : string)
| CancelAgentPermissions (agent : string)
| RecordAgentViolation (agent : string) (errorCode : number).

Inductive policy_call : Type :=
| QueuePolicyUpdate (changes : PolicyChanges)
| QueuePolicyElevated (changes : PolicyChanges) (cosigner : string)
| ApplyPendingPolicy
| CancelPendingPolicy
| ApprovePendingPolicy (cosigner : string)
| PromoteGraylistDestination (destination : string).

Inductive ownership_call : Type :=
| InitiateOwnershipTransfer (newOwner : string) (isMultisigTarget : bool)
| AcceptOwnershipTransfer
| AcceptOwnershipTransferMultisig (multisigPda : string)
| CancelOwnershipTransfer.

Inductive owner_call : Type :=
| Lifecycle (c : lifecycle_call)
| Deposit (mint : string) (amount : Z)
| Withdraw (mint : string) (amount : Z)
| Agents (c : agent_call)
| Policy (c : policy_call)
| Ownership (c : ownership_call).

(** What the gate decides; [WarnAndProceed] also logs. *)
Inductive gate_decision : Type := Proceed | WarnAndProceed | Refuse.

Definition assertMainnetConfirmed (requireMainnetConfirmation : option bool) (opts : TxOpts) : gate_decision :=
  if negb (bool_decide (network = "mainnet")) then Proceed
  else
    let gateEnabled := bool_decide (requireMainnetConfirmation = Some true) in
    let explicitOptOut := bool_decide (requireMainnetConfirmation = Some false) in
    let confirmed := bool_decide (to_mainnetConfirmed opts = Some true) in
    if gateEnabled && negb confirmed then Refuse
    else if negb gateEnabled && negb explicitOptOut && bool_decide (to_mainnetConfirmed opts = None)
    then WarnAndProceed
    else Proceed.

Definition lifecycle_method (owner : string) (c : lifecycle_call) (opts : TxOpts) : outcome string :=
  match c with
  | FreezeVault => freezeVault owner opts
  | ResumeVault newAgent => resumeVault owner newAgent opts
  | ReactivateVault newAgent => reactivateVault owner newAgent opts
  | SetObserveOnly newValue => setObserveOnly owner newValue opts
  | QueueAgentGrant agent capability limit => queueAgentGrant owner agent capability limit opts
  | ApplyAgentGrant => applyAgentGrant owner opts
  | CancelAgentGrant => cancelAgentGrant owner opts
  | CloseVault => closeVault owner opts
  end.

(** The client's [queueAgentPermissions] has no cooldown argument: it is 0. *)
Definition agent_method (owner : string) (c : agent_call) (opts : TxOpts) : outcome string :=
  match c with
  | AddAgent agent permissions limit => addAgent owner agent permissions limit opts
  | PauseAgent agent => pauseAgent owner agent opts
  | UnpauseAgent agent => unpauseAgent owner agent opts
  | RevokeAgent agent => revokeAgent owner agent opts
  | QueueAgentPermissions agent permissions limit => queueAgentPermissions owner agent permissions limit 0 opts
  | QueueAgentPermissionsElevated agent permissions limit cooldown cosigner =>
      queueAgentPermissionsElevated owner agent permissions limit cooldown cosigner opts
  | ApplyAgentPermissions agent => applyAgentPermissions owner agent opts
  | CancelAgentPermissions agent => cancelAgentPermissions owner agent opts
  | RecordAgentViolation agent errorCode => recordAgentViolation owner agent errorCode opts
  end.

Definition policy_method (owner : string) (c : policy_call) (opts : TxOpts) : outcome string :=
  match c with
  | QueuePolicyUpdate changes => queuePolicyUpdate owner changes opts
  | QueuePolicyElevated changes cosigner => queuePolicyElevated owner changes cosigner opts
  | ApplyPendingPolicy => applyPendingPolicy owner opts
  | CancelPendingPolicy => cancelPendingPolicy owner opts
  | ApprovePendingPolicy cosigner => approvePendingPolicy cosigner opts
  | PromoteGraylistDestination destination => promoteGraylistDestination owner destination opts
  end.

Definition ownership_method (owner : string) (c : ownership_call) (opts : TxOpts) : outcome string :=
  match c with
  | InitiateOwnershipTransfer newOwner multisig => initiateOwnershipTransfer owner newOwner multisig opts
  | AcceptOwnershipTransfer => acceptOwnershipTransfer owner opts
  | AcceptOwnershipTransferMultisig multisigPda => acceptOwnershipTransferMultisig multisigPda owner opts
  | CancelOwnershipTransfer => cancelOwnershipTransfer owner opts
  end.

Definition mutation (owner : string) (c : owner_call) (opts : TxOpts) : outcome string :=
  match c with
  | Lifecycle c => lifecycle_method owner c opts
  | Deposit mint amount => deposit owner mint amount opts
  | Withdraw mint amount => withdraw owner mint amount opts
  | Agents c => agent_method owner c opts
  | Policy c => policy_method owner c opts
  | Ownership c => ownership_method owner c opts
  end.

(** A method of the client: the gate, then the mutation. *)
Definition client_call (requireMainnetConfirmation : option bool) (owner : string) (c : owner_call)
    (opts : TxOpts) : outcome string :=
  match assertMainnetConfirmed requireMainnetConfirmation opts with
  | Refuse => fails (Plain (SdkError MAINNET_CONFIRMATION_REQUIRED))
  | Proceed | WarnAndProceed => mutation owner c opts
  end.

End Owner.

(** The constructor: a missing part is refused; the confirmation flag is
    copied, so later changes of the configuration do not reach the client. *)
Record OwnerClientConfig : Type := {
  cf_rpc : bool;
  cf_vault : option string;
  cf_owner : option string;
  cf_network : option string;
  cf_requireMainnetConfirmation : option bool;
}.

Record OwnerClient : Type := {
  cl_vault : string; cl_owner : string; cl_network : string; cl_requireMainnetConfirmation : option bool;
}.

Definition present (o : option string) : result js_exn string :=
  match o with
  | Some s => if bool_decide (s = EmptyString) then Throw (SdkDomainError "SIGIL_ERROR__SDK__INVALID_CONFIG")
              else Ok s
  | None => Throw (SdkDomainError "SIGIL_ERROR__SDK__INVALID_CONFIG")
  end.

(** A signer is an object, so an owner is present whatever its address. *)
Definition present_signer (o : option string) : result js_exn string :=
  match o with Some s => Ok s | None => Throw (SdkDomainError "SIGIL_ERROR__SDK__INVALID_CONFIG") end.

Definition createOwnerClient (config : OwnerClientConfig) : result js_exn OwnerClient :=
  _ ← throw_if (negb (cf_rpc config)) (SdkDomainError "SIGIL_ERROR__SDK__INVALID_CONFIG");
  vault ← present (cf_vault config);
  owner ← present_signer (cf_owner config);
  network ← present (cf_network config);
  Ok {| cl_vault := vault; cl_owner := owner; cl_network := network;
        cl_requireMainnetConfirmation := cf_requireMainnetConfirmation config |}.

(** ** The program's side of closing *)

(** Lamports per account, and the owner's balance. *)
Record Rent : Type := { rn_lamports : string → Z; rn_owner : Z }.

(** Move an account's lamports to the owner; the addition is checked. *)
Definition reclaim (pda : string) (r : Rent) : result string Rent :=
  _ ← throw_if (U64_MAX <? rn_owner r + rn_lamports r pda) "Overflow";
  Ok {| rn_lamports := λ a, if bool_decide (a = pda) then 0 else rn_lamports r a;
        rn_owner := rn_owner r + rn_lamports r pda |}.

Definition drain_one (accounts : list string) (pda : string) (r : Rent) : result string Rent :=
  if existsb (λ a, bool_decide (a = pda) && (0 <? rn_lamports r a)) accounts then reclaim pda r else Ok r.

(** [close_vault]'s use of its remaining accounts: a pending policy must come
    first; the others are searched for by address. *)
Definition drain_pending (has_pending_policy : bool) (pending_policy : string) (others accounts : list string)
    (r : Rent) : result string Rent :=
  if has_pending_policy then
    match accounts with
    | [] => Throw "PendingPolicyExists"
    | first :: rest =>
        _ ← throw_if (negb (bool_decide (first = pending_policy) && (0 <? rn_lamports r first)))
              "PendingPolicyExists";
        r ← reclaim first r;
        for_of (drain_one rest) others r
    end
  else for_of (drain_one accounts) others r.

(** [has_bound_cosigner]: the bound key among the accounts that signed. *)
Definition has_bound_cosigner (accounts : list (string * bool)) (cosign_session_pubkey : string) : bool :=
  negb (bool_decide (cosign_session_pubkey = DEFAULT_COSIGN_SESSION)) &&
  existsb (λ ai : string * bool, snd ai && bool_decide (fst ai = cosign_session_pubkey)) accounts.

(** The instructions whose handlers require it on every vault with cosigning. *)
Definition cosign_gated (c : owner_call) : bool :=
  match c with
  | Lifecycle (ResumeVault _) | Lifecycle (ReactivateVault _) | Lifecycle (SetObserveOnly false)
  | Lifecycle (QueueAgentGrant _ _ _) | Lifecycle CancelAgentGrant | Lifecycle CloseVault | Withdraw _ _
  | Agents (UnpauseAgent _) | Agents (CancelAgentPermissions _) | Policy (PromoteGraylistDestination _)
  | Ownership (InitiateOwnershipTransfer _ _) | Ownership CancelOwnershipTransfer => true
  | _ => false
  end.

(** ** Closing reclaims every pending account *)

Definition total (lamports : string → Z) (l : list string) : Z := foldr (λ a acc, lamports a + acc) 0 l.

Lemma drain_one_spec accounts pda r :
  0 ≤ rn_lamports r pda → (0 < rn_lamports r pda → pda ∈ accounts) →
  rn_owner r + rn_lamports r pda ≤ U64_MAX →
  ∃ r', drain_one accounts pda r = Ok r' ∧ rn_owner r' = rn_owner r + rn_lamports r pda ∧
        ∀ a, rn_lamports r' a = if bool_decide (a = pda) then 0 else rn_lamports r a.
Proof.
  intros Hge Hin Hmax. unfold drain_one. destruct (existsb _ accounts) eqn:E.
  - unfold reclaim. destruct (Z.ltb_spec U64_MAX (rn_owner r + rn_lamports r pda)); [lia|]. simpl.
    eexists. split; [reflexivity|]. by simpl.
  - exists r. destruct (Z.ltb_spec 0 (rn_lamports r pda)) as [Hlt|Hle].
    + exfalso. apply not_true_iff_false in E. apply E, existsb_exists. exists pda.
      split; [by apply list_elem_of_In, Hin|]. rewrite bool_decide_true by done. by apply Z.ltb_lt.
    + split_and!; [done|lia|]. intros a. case_bool_decide as Ha; [subst; lia | done].
Qed.

Lemma total_ext f g l : (∀ a, a ∈ l → f a = g a) → total f l = total g l.
Proof.
  induction l as [|x l IH]; intros H; simpl; [done|]. rewrite (H x) by set_solver. f_equal.
  apply IH. set_solver.
Qed.

Lemma total_nonneg f l : (∀ a, a ∈ l → 0 ≤ f a) → 0 ≤ total f l.
Proof.
  induction l as [|x l IH]; intros H; simpl; [done|]. pose proof (H x ltac:(set_solver)).
  assert (0 ≤ total f l) by (apply IH; set_solver). lia.
Qed.

Lemma drain_all_spec accounts others r :
  NoDup others → (∀ a, a ∈ others → 0 ≤ rn_lamports r a ∧ (0 < rn_lamports r a → a ∈ accounts)) →
  rn_owner r + total (rn_lamports r) others ≤ U64_MAX →
  ∃ r', for_of (drain_one accounts) others r = Ok r' ∧ rn_owner r' = rn_owner r + total (rn_lamports r) others ∧
        ∀ a, rn_lamports r' a = if bool_decide (a ∈ others) then 0 else rn_lamports r a.
Proof.
  intros Hnd. revert r. induction Hnd as [|x others Hx Hnd IH]; intros r Hok Hmax; simpl in *.
  { exists r. split_and!; [done|lia|]. done. }
  pose proof (total_nonneg (rn_lamports r) others) as Hnn. specialize (Hnn ltac:(intros; apply Hok; set_solver)).
  destruct (Hok x ltac:(set_solver)) as [Hge Hin].
  destruct (drain_one_spec accounts x r Hge Hin ltac:(lia)) as (r1 & -> & Hown & Hlam). simpl.
  assert (Hsame : total (rn_lamports r1) others = total (rn_lamports r) others).
  { apply total_ext. intros a Ha. rewrite Hlam. rewrite bool_decide_false; [done|]. by intros ->. }
  destruct (IH r1) as (r' & -> & Hown' & Hlam').
  { intros a Ha. rewrite Hlam. rewrite bool_decide_false by (by intros ->). apply Hok. set_solver. }
  { rewrite Hsame. lia. }
  exists r'. split_and!; [done|lia|].
  intros a. rewrite Hlam', Hlam. repeat case_bool_decide; set_solver.
Qed.

Section Closing.
Context (encode : string → list Z) (derive : string → list (list Z) → string).
Context (ob : OwnerBuilders) (n : OwnerNode) (vault owner : string).

Abbreviation candidates := (pending_candidates encode derive vault).
Abbreviation policy_pda := (pendingPolicyPda encode derive vault).

Definition writable (a : string) : AccountMeta := {| acc_address := a; acc_role := WRITABLE |}.

(** The remaining accounts are the shown candidates, in drain order. *)
Lemma close_ix_accounts agents ix ix' :
  ob_closeVault ob owner vault (overlayPda encode derive vault) = Ok ix → ix_accounts ix ≠ None →
  buildCloseVaultFinalIx encode derive ob n (Ok agents) vault owner = Ok ix' →
  ix_accounts ix' = Some (default [] (ix_accounts ix) ++ map writable (filter (λ a, shown n a = true) (candidates agents))).
Proof.
  intros Hb Hacc. unfold buildCloseVaultFinalIx. simpl plain_rpc. rewrite Hb. cbn [mbind result_bind plain].
  intros [= <-]. unfold enumerateExistingPendingPdasForClose. rewrite <- map_app.
  change (map (λ a, {| acc_address := a; acc_role := WRITABLE |})) with (map writable).
  rewrite <- filter_app.
  change ((policy_pda :: map (derivePendingAgentPermsPDA encode derive vault) agents) ++ _) with (candidates agents).
  destruct (filter _ (candidates agents)) as [|a l] eqn:E; simpl.
  - destruct (ix_accounts ix); [|done]. simpl. by rewrite app_nil_r.
  - done.
Qed.

Lemma map_writable l : map acc_address (map writable l) = l.
Proof. rewrite map_map. apply map_id. Qed.

Lemma shown_spec (lam : string → Z) agents :
  (∀ a, a ∈ candidates agents → on_accountExists n a = Ok (0 <? lam a)) →
  ∀ a, a ∈ candidates agents → shown n a = true ↔ 0 < lam a.
Proof. intros H a Ha. unfold shown. rewrite H by done. apply Z.ltb_lt. Qed.

Lemma drain_spec agents r :
  NoDup (candidates agents) →
  (∀ a, a ∈ candidates agents → 0 ≤ rn_lamports r a ∧ on_accountExists n a = Ok (0 <? rn_lamports r a)) →
  rn_owner r + total (rn_lamports r) (candidates agents) ≤ U64_MAX →
  (∀ a, a ∈ candidates agents → shown n a = true ↔ 0 < rn_lamports r a) →
  ∃ r', drain_pending (0 <? rn_lamports r policy_pda) policy_pda (tail (candidates agents))
          (filter (λ a, shown n a = true) (candidates agents)) r = Ok r' ∧
    (∀ a, a ∈ candidates agents → rn_lamports r' a = 0) ∧
    rn_owner r' = rn_owner r + total (rn_lamports r) (candidates agents).
Proof.
  unfold pending_candidates. set (others := map _ agents ++ _). simpl tail.
  intros [Hx Hnd]%NoDup_cons Hnode Hmax Hshown. simpl in Hmax.
  destruct (Hnode policy_pda ltac:(set_solver)) as [Hge _].
  pose proof (total_nonneg (rn_lamports r) others ltac:(intros; apply Hnode; set_solver)).
  unfold drain_pending. rewrite filter_cons. destruct (Z.ltb_spec 0 (rn_lamports r policy_pda)) as [Hlt|Hle].
  - rewrite decide_True by (apply Hshown; set_solver). rewrite bool_decide_true by done.
    apply Z.ltb_lt in Hlt as ->. cbn [andb negb throw_if mbind result_bind]. unfold reclaim.
    destruct (Z.ltb_spec U64_MAX (rn_owner r + rn_lamports r policy_pda)); [lia|].
    cbn [throw_if mbind result_bind]. set (r1 := {| rn_lamports := _ |}).
    assert (Hsame : ∀ a, a ∈ others → rn_lamports r1 a = rn_lamports r a).
    { intros a Ha. simpl. rewrite bool_decide_false; [done|]. by intros ->. }
    destruct (drain_all_spec (filter (λ a, shown n a = true) others) others r1) as (r' & -> & Ho & Hl); [done| | |].
    { intros a Ha. rewrite Hsame by done. split; [apply Hnode; set_solver|]. intros Hp.
      apply list_elem_of_filter. split; [apply Hshown; set_solver | done]. }
    { rewrite (total_ext _ _ _ Hsame). simpl. lia. }
    exists r'. rewrite Ho, (total_ext _ _ _ Hsame). split_and!; [done| |simpl; lia].
    intros a Ha. rewrite Hl. case_bool_decide; [done|]. simpl. rewrite bool_decide_true; [done|set_solver].
  - destruct (drain_all_spec
      (if decide (shown n policy_pda = true) then policy_pda :: filter (λ a, shown n a = true) others
       else filter (λ a, shown n a = true) others) others r) as (r' & -> & Ho & Hl); [done| |lia|].
    { intros a Ha. split; [apply Hnode; set_solver|]. intros Hp.
      assert (a ∈ filter (λ a, shown n a = true) others) as Hin
        by (apply list_elem_of_filter; split; [apply Hshown; set_solver | done]).
      case_decide; [by right | done]. }
    exists r'. rewrite Ho. split_and!; [done| |simpl; lia].
    intros a Ha. rewrite Hl. case_bool_decide; [done|].
    assert (a = policy_pda) as -> by set_solver. lia.
Qed.

(** Closing a vault loses no rent: when the node answers every lookup, the
    instruction's extra accounts make the program's drain succeed, and after it
    no pending account of the vault (queued policy, agent permissions of every
    agent, ownership transfer, agent grant) holds lamports; all of them went to
    the owner. *)
Theorem closing_reclaims_every_pending_account (agents : list string) (ix : Ix) (accs : list AccountMeta)
    (r : Rent) :
  ob_closeVault ob owner vault (overlayPda encode derive vault) = Ok ix → ix_accounts ix = Some accs →
  NoDup (candidates agents) →
  (∀ a, a ∈ candidates agents → 0 ≤ rn_lamports r a ∧ on_accountExists n a = Ok (0 <? rn_lamports r a)) →
  rn_owner r + total (rn_lamports r) (candidates agents) ≤ U64_MAX →
  ∃ ix' remaining r',
    buildCloseVaultFinalIx encode derive ob n (Ok agents) vault owner = Ok ix' ∧
    ix_accounts ix' = Some (accs ++ remaining) ∧ Forall (λ m, acc_role m = WRITABLE) remaining ∧
    drain_pending (0 <? rn_lamports r policy_pda) policy_pda (tail (candidates agents))
      (map acc_address remaining) r = Ok r' ∧
    (∀ a, a ∈ candidates agents → rn_lamports r' a = 0) ∧
    rn_owner r' = rn_owner r + total (rn_lamports r) (candidates agents).
Proof.
  intros Hb Hacc Hnd Hnode Hmax.
  destruct (buildCloseVaultFinalIx encode derive ob n (Ok agents) vault owner) as [ix'|e] eqn:Ex.
  2: { unfold buildCloseVaultFinalIx in Ex. simpl plain_rpc in Ex. by rewrite Hb in Ex. }
  apply (close_ix_accounts agents ix) in Ex as Hix; [|done|congruence].
  rewrite Hacc in Hix. simpl default in Hix. eexists ix', _.
  pose proof (shown_spec (rn_lamports r) agents ltac:(intros; by apply Hnode)) as Hshown.
  destruct (drain_spec agents r Hnd Hnode Hmax Hshown) as (r' & Hd & Hz & Ho). exists r'.
  split_and!; [done|exact Hix| |by rewrite map_writable|done|done].
  apply Forall_forall. intros m (a & -> & _)%list_elem_of_fmap. done.
Qed.

(** A lookup of the queued policy that fails counts as absent, and the program
    then refuses the close. *)
Lemma failed_lookup_blocks_close agents ix ix' e r :
  ob_closeVault ob owner vault (overlayPda encode derive vault) = Ok ix → ix_accounts ix = Some [] →
  NoDup (candidates agents) → on_accountExists n policy_pda = Throw e →
  buildCloseVaultFinalIx encode derive ob n (Ok agents) vault owner = Ok ix' →
  drain_pending true policy_pda (tail (candidates agents)) (map acc_address (default [] (ix_accounts ix'))) r =
  Throw "PendingPolicyExists".
Proof.
  intros Hb Hacc Hnd He Hix. apply (close_ix_accounts agents ix) in Hix; [|done|congruence].
  rewrite Hix, Hacc. cbn [default from_option id app]. rewrite map_writable.
  unfold pending_candidates in *. rewrite filter_cons_False by (unfold shown; by rewrite He).
  apply NoDup_cons in Hnd as [Hx _]. unfold drain_pending.
  match goal with |- context [match ?f with _ => _ end] => destruct f as [|a l] eqn:E; [done|] end.
  assert (a ∈ a :: l) as Hin by left. rewrite <- E in Hin. apply list_elem_of_filter in Hin as [_ Hin].
  rewrite bool_decide_false; [done|]. by intros ->.
Qed.
End Closing.

(** ** Calls *)

Definition address_like (a : string) : Prop := (32 ≤ String.length a ≤ 44)%nat.

(** What the arguments of a call must satisfy before anything is sent. *)
Definition valid_request (owner : string) (c : owner_call) : Prop :=
  match c with
  | Deposit mint amount | Withdraw mint amount => 0 < amount ≤ U64_MAX ∧ address_like mint
  | Agents (AddAgent agent p _) | Agents (QueueAgentPermissions agent p _) => address_like agent ∧ 1 ≤ p ≤ 2
  | Agents (QueueAgentPermissionsElevated agent p _ _ k) =>
      address_like agent ∧ 1 ≤ p ≤ 2 ∧ address_like k ∧ k ≠ owner
  | Agents (PauseAgent agent) | Agents (UnpauseAgent agent) | Agents (RevokeAgent agent)
  | Agents (ApplyAgentPermissions agent) | Agents (CancelAgentPermissions agent) => address_like agent
  | Agents (RecordAgentViolation agent code) => address_like agent ∧ ∃ z, code = Int z ∧ 0 ≤ z < 2 ^ 32
  | Policy (QueuePolicyUpdate changes) => check_changes changes = Ok tt
  | Policy (QueuePolicyElevated changes k) => check_changes changes = Ok tt ∧ address_like k ∧ k ≠ owner
  | Policy (ApprovePendingPolicy k) => address_like k
  | Policy (PromoteGraylistDestination d) => address_like d
  | Lifecycle _ | Policy ApplyPendingPolicy | Policy CancelPendingPolicy | Ownership _ => True
  end.

(** Who signs; the first pays. *)
Definition authorised (owner : string) (c : owner_call) : string * list string :=
  match c with
  | Policy (ApprovePendingPolicy k) => (k, [])
  | Policy (QueuePolicyElevated _ k) | Agents (QueueAgentPermissionsElevated _ _ _ _ k) => (owner, [k])
  | _ => (owner, [])
  end.

Definition call_opts (c : owner_call) (opts : TxOpts) : TxOpts :=
  match c with Lifecycle CloseVault => close_opts opts | _ => opts end.

Lemma requireValidAddress_Ok a u : requireValidAddress a = Ok u → address_like a.
Proof.
  unfold requireValidAddress, dx_if. intros H%throw_if_Ok.
  apply orb_false_iff in H as [H1%bool_decide_eq_false H2%bool_decide_eq_false]. unfold address_like. lia.
Qed.

Lemma requirePositiveAmount_Ok a u : requirePositiveAmount a = Ok u → 0 < a ≤ U64_MAX.
Proof. unfold requirePositiveAmount, dx_if. intros H. inv_ok. destruct (Z.leb_spec a 0), (Z.ltb_spec U64_MAX a); try done. Qed.

Lemma requireValidPermissions_Ok p u : requireValidPermissions p = Ok u → 1 ≤ p ≤ 2.
Proof.
  unfold requireValidPermissions, dx_if, MAX_CAPABILITY. intros H. inv_ok.
  destruct (Z.ltb_spec p 0), (Z.eqb_spec p 0), (Z.ltb_spec 2 p); try done. lia.
Qed.

Lemma assertDistinctCosigner_Ok owner k u : assertDistinctCosigner owner k = Ok u → address_like k ∧ k ≠ owner.
Proof.
  unfold assertDistinctCosigner, dx_if. intros H. inv_ok. split; [by eapply requireValidAddress_Ok|].
  by case_bool_decide.
Qed.

Lemma u32_Ok code z : u32 code = Ok z → code = Int z ∧ 0 ≤ z < 2 ^ 32.
Proof.
  destruct code as [a| |]; simpl; [|done|done]. destruct (Z.ltb_spec a 0), (Z.ltb_spec 4294967295 a); try done.
  intros [= <-]. split; [done|lia].
Qed.

Lemma authorised_distinct owner c payer cosigners :
  valid_request owner c → authorised owner c = (payer, cosigners) → NoDup (payer :: cosigners).
Proof.
  destruct c as [c| | |c|c|c]; try (intros _ [= <- <-]; apply NoDup_singleton);
    destruct c; simpl; intros Hv [= <- <-]; try apply NoDup_singleton;
    apply NoDup_cons; (split; [|apply NoDup_singleton]); intros ->%list_elem_of_singleton; naive_solver.
Qed.

Section Calls.
Context (encode : string → list Z) (derive : string → list (list Z) → string).
Context (sha256 : list Z → list Z) (ob : OwnerBuilders) (n : OwnerNode).
Context (fetchPolicy : result jsv PolicyAccount) (fetchVault : result jsv VaultAccount).
Context (resolveAgents : result jsv (list string)) (vault network : string).

Abbreviation mutate := (mutation encode derive sha256 ob n fetchPolicy fetchVault resolveAgents vault).
Abbreviation call := (client_call encode derive sha256 ob n fetchPolicy fetchVault resolveAgents vault network).

Lemma perform_sent payer cosigners opts r :
  oc_sent (perform n payer cosigners opts r) = [] ∨
  ∃ ix, r = Ok ix ∧ oc_sent (perform n payer cosigners opts r) =
    [{| st_feePayer := payer; st_signers := payer :: cosigners; st_instructions := budget_prefix n opts ++ [ix] |}].
Proof.
  destruct r as [ix|e]; [|by left]. unfold perform, run. destruct (on_blockhash n); [|by left].
  destruct (on_sign n _); [|by left]. right. by exists ix.
Qed.

Lemma perform_Ok payer cosigners opts r s :
  oc_result (perform n payer cosigners opts r) = Ok s →
  ∃ tx, oc_sent (perform n payer cosigners opts r) = [tx] ∧ on_send n tx = Ok s.
Proof.
  destruct r as [ix|e]; [|done]. unfold perform, run. destruct (on_blockhash n); [|done].
  destruct (on_sign n _); [|done]. simpl. intros H. eexists. split; [done|]. revert H. by destruct (on_send n _); simpl; congruence.
Qed.

(** *** What each call asks the program for *)

(** The arguments of a policy update ask for the requested changes and nothing
    else: a value that was not given is not sent. *)
Record update_requested (owner : string) (ch : PolicyChanges) (session : string) (a : QueuePolicyUpdateArgs)
    : Prop := {
  ur_owner : qp_owner a = owner ∧ qp_vault a = vault ∧ qp_cosignSession a = session;
  ur_caps : qp_dailySpendingCapUsd a = ch_dailyCap ch ∧ qp_maxTransactionAmountUsd a = ch_maxPerTrade ch ∧
    qp_hasProtocolCaps a = ch_hasProtocolCaps ch ∧ qp_protocolCaps a = ch_protocolCaps ch ∧
    qp_stableBalanceFloor a = ch_stableBalanceFloor ch ∧ qp_perRecipientDailyCapUsd a = ch_perRecipientDailyCapUsd ch;
  ur_lists : qp_protocols a = ch_approvedApps ch ∧ qp_allowedDestinations a = ch_allowedDestinations ch ∧
    qp_destinationMode a = ch_destinationMode ch;
  ur_rates : qp_developerFeeRate a = ch_developerFeeRate ch ∧ qp_maxSlippageBps a = ch_maxSlippageBps ch ∧
    qp_sessionExpirySeconds a = ch_sessionExpirySeconds ch ∧
    qp_operatorGrantDelaySeconds a = ch_operatorGrantDelaySeconds ch ∧ qp_operatingHours a = None;
  ur_cosign : qp_cosignRequired a = ch_cosignRequired ch ∧ qp_cosignSessionPubkey a = ch_cosignSessionPubkey ch;
  ur_timelock : match ch_timelock ch with
                | Some t => ∃ z, BigInt_of_number t = Ok z ∧ qp_timelockDuration a = Some z
                | None => qp_timelockDuration a = None
                end;
  ur_mode : ch_protocolMode ch = None → qp_protocolMode a = None;
  ur_hashes : ch_protocolHashes ch = None → qp_protocolHashes a = None;
}.

(** The instruction a call asks for: which one of the program's, for which
    accounts and with which arguments. *)
Inductive requested (owner : string) : owner_call → Ix → Prop :=
| rq_freeze ix : ob_freezeVault ob owner vault = Ok ix → requested owner (Lifecycle FreezeVault) ix
| rq_resume new ix : ob_reactivateVault ob owner vault (fst <$> new) (snd <$> new) = Ok ix →
    requested owner (Lifecycle (ResumeVault new)) ix
| rq_reactivate new ix : ob_reactivateVault ob owner vault (fst <$> new) (snd <$> new) = Ok ix →
    requested owner (Lifecycle (ReactivateVault new)) ix
| rq_observe v ix : ob_setObserveOnly ob owner vault v = Ok ix → requested owner (Lifecycle (SetObserveOnly v)) ix
| rq_grant agent capability limit ix :
    ob_queueAgentGrant ob (Build_QueueAgentGrantArgs owner vault agent capability limit) = Ok ix →
    requested owner (Lifecycle (QueueAgentGrant agent capability limit)) ix
| rq_apply_grant ix : ob_applyAgentGrant ob owner vault (overlayPda encode derive vault) = Ok ix →
    requested owner (Lifecycle ApplyAgentGrant) ix
| rq_cancel_grant ix : ob_cancelAgentGrant ob owner vault = Ok ix → requested owner (Lifecycle CancelAgentGrant) ix
| rq_close agents ix0 ix : resolveAgents = Ok agents →
    ob_closeVault ob owner vault (overlayPda encode derive vault) = Ok ix0 →
    let pending := map writable (filter (λ a, shown n a = true) (pending_candidates encode derive vault agents)) in
    ix = (if bool_decide (pending = []) then ix0 else append_accounts ix0 pending) →
    requested owner (Lifecycle CloseVault) ix
| rq_deposit mint amount ix : ob_depositFunds ob owner vault mint amount = Ok ix →
    requested owner (Deposit mint amount) ix
| rq_withdraw mint amount ix : ob_withdrawFunds ob owner vault mint amount = Ok ix →
    requested owner (Withdraw mint amount) ix
| rq_add agent capability limit ix :
    ob_registerAgent ob (Build_RegisterAgentArgs owner vault (policyPda encode derive vault)
      (overlayPda encode derive vault) agent capability limit) = Ok ix →
    requested owner (Agents (AddAgent agent capability limit)) ix
| rq_pause agent ix : ob_pauseAgent ob owner vault (policyPda encode derive vault) agent = Ok ix →
    requested owner (Agents (PauseAgent agent)) ix
| rq_unpause agent ix : ob_unpauseAgent ob owner vault (policyPda encode derive vault) agent = Ok ix →
    requested owner (Agents (UnpauseAgent agent)) ix
| rq_revoke agent ix :
    ob_revokeAgent ob owner vault (policyPda encode derive vault) (overlayPda encode derive vault) agent = Ok ix →
    requested owner (Agents (RevokeAgent agent)) ix
| rq_perms agent capability limit ix :
    ob_queueAgentPerms ob (Build_AgentPermsArgs owner vault agent capability limit 0 DEFAULT_COSIGN_SESSION) = Ok ix →
    requested owner (Agents (QueueAgentPermissions agent capability limit)) ix
| rq_perms_elevated agent capability limit cooldown k ix :
    ob_queueAgentPerms ob (Build_AgentPermsArgs owner vault agent capability limit cooldown k) = Ok ix →
    requested owner (Agents (QueueAgentPermissionsElevated agent capability limit cooldown k)) (withCosignerSigner ix k)
| rq_apply_perms agent ix :
    ob_applyAgentPerms ob owner vault (overlayPda encode derive vault)
      (derivePendingAgentPermsPDA encode derive vault agent) = Ok ix →
    requested owner (Agents (ApplyAgentPermissions agent)) ix
| rq_cancel_perms agent ix :
    ob_cancelAgentPerms ob owner vault (derivePendingAgentPermsPDA encode derive vault agent) = Ok ix →
    requested owner (Agents (CancelAgentPermissions agent)) ix
| rq_violation agent code ix : ob_recordViolation ob owner vault agent code = Ok ix →
    requested owner (Agents (RecordAgentViolation agent (Int code))) ix
| rq_update ch a ix : update_requested owner ch DEFAULT_COSIGN_SESSION a → ob_queuePolicyUpdate ob a = Ok ix →
    requested owner (Policy (QueuePolicyUpdate ch)) ix
| rq_update_elevated ch k a ix : update_requested owner ch k a → ob_queuePolicyUpdate ob a = Ok ix →
    requested owner (Policy (QueuePolicyElevated ch k)) (withCosignerSigner ix k)
| rq_apply ix : ob_applyPendingPolicy ob owner vault = Ok ix → requested owner (Policy ApplyPendingPolicy) ix
| rq_cancel ix : ob_cancelPendingPolicy ob owner vault = Ok ix → requested owner (Policy CancelPendingPolicy) ix
| rq_approve k ix : ob_approvePendingPolicy ob k vault = Ok ix → requested owner (Policy (ApprovePendingPolicy k)) ix
| rq_promote d ix : ob_promoteGraylist ob owner vault d = Ok ix →
    requested owner (Policy (PromoteGraylistDestination d)) ix
| rq_initiate to multisig ix : ob_initiateOwnership ob owner vault to multisig = Ok ix →
    requested owner (Ownership (InitiateOwnershipTransfer to multisig)) ix
| rq_accept ix : ob_acceptOwnership ob owner vault = Ok ix → requested owner (Ownership AcceptOwnershipTransfer) ix
| rq_accept_multisig pda ix : ob_acceptOwnershipMultisig ob pda vault = Ok ix →
    requested owner (Ownership (AcceptOwnershipTransferMultisig pda)) ix
| rq_cancel_transfer ix : ob_cancelOwnership ob owner vault = Ok ix →
    requested owner (Ownership CancelOwnershipTransfer) ix.

Ltac found :=
  repeat match goal with
  | H : requireValidAddress _ = Ok _ |- _ => apply requireValidAddress_Ok in H
  | H : requirePositiveAmount _ = Ok _ |- _ => apply requirePositiveAmount_Ok in H
  | H : requireValidPermissions _ = Ok _ |- _ => apply requireValidPermissions_Ok in H
  | H : assertDistinctCosigner _ _ = Ok _ |- _ => apply assertDistinctCosigner_Ok in H as [? ?]
  | H : u32 _ = Ok _ |- _ => apply u32_Ok in H as [? ?]
  | H : check_changes _ = Ok ?u |- _ => is_var u; destruct u
  | H : plain _ = Ok _ |- _ => apply plain_Ok in H
  | H : plain_rpc _ = Ok _ |- _ => apply plain_rpc_Ok in H
  end.

Ltac performs := eexists; split; [reflexivity|]; intros ix H; inv_ok; found.

Lemma policy_update_requested owner ch k a :
  policy_update_args sha256 fetchPolicy fetchVault owner vault ch k = Ok a → update_requested owner ch k a.
Proof.
  unfold policy_update_args. intros H.
  apply bind_Ok_inv in H as (? & _ & H). apply bind_Ok_inv in H as (live & _ & H).
  apply bind_Ok_inv in H as (v & _ & H). apply bind_Ok_inv in H as (mode & Hm & H).
  apply bind_Ok_inv in H as (timelock & Ht & H). apply bind_Ok_inv in H as ([[arg hashes] disarms] & Ha & H).
  apply bind_Ok_inv in H as (? & _ & H). apply bind_Ok_inv in H as (set & _ & H).
  apply bind_Ok_inv in H as (digest & _ & H). injection H as <-.
  split; cbn; try by split_and!.
  - unfold timelock_arg in Ht. destruct (ch_timelock ch) as [t|]; [|by injection Ht as <-].
    apply bind_Ok_inv in Ht as (z & Hz%plain_Ok & Ht). injection Ht as <-. by exists z.
  - intros Hn. unfold new_mode in Hm. rewrite Hn in Hm. by injection Hm as <-.
  - intros Hn. unfold arm_hashes in Ha. rewrite Hn in Ha. by injection Ha as <- _ _.
Qed.

Lemma update_ix_requested owner ch k ix :
  buildPolicyUpdateIx sha256 ob fetchPolicy fetchVault vault owner ch k = Ok ix →
  check_changes ch = Ok tt ∧ ∃ a, update_requested owner ch k a ∧ ob_queuePolicyUpdate ob a = Ok ix.
Proof.
  unfold buildPolicyUpdateIx. intros H. apply bind_Ok_inv in H as (a & Ha & H%plain_Ok).
  split; [by apply policy_update_args_Ok in Ha as (?&?&?&?&?&?&?&?&?&?&?&?&_)|].
  exists a. split; [by apply policy_update_requested|done].
Qed.

Lemma close_ix_requested owner ix :
  buildCloseVaultFinalIx encode derive ob n resolveAgents vault owner = Ok ix →
  requested owner (Lifecycle CloseVault) ix.
Proof.
  unfold buildCloseVaultFinalIx. intros H. apply bind_Ok_inv in H as (agents & Ha%plain_rpc_Ok & H).
  apply bind_Ok_inv in H as (ix0 & Hb%plain_Ok & H). injection H as <-. eapply rq_close; [done|done|].
  unfold enumerateExistingPendingPdasForClose, pending_candidates.
  change (λ a, {| acc_address := a; acc_role := WRITABLE |}) with writable.
  by rewrite <- map_app, <- filter_app.
Qed.

Lemma lifecycle_method_performs owner c opts :
  ∃ r, mutate owner (Lifecycle c) opts = perform n owner [] (call_opts (Lifecycle c) opts) r ∧
    ∀ ix, r = Ok ix → requested owner (Lifecycle c) ix.
Proof.
  destruct c; simpl; (eexists; split; [reflexivity|]); intros ix H; try apply plain_Ok in H; try by constructor.
  by apply close_ix_requested.
Qed.

Lemma agent_method_performs owner c opts :
  ∃ r, mutate owner (Agents c) opts = perform n (authorised owner (Agents c)).1 (authorised owner (Agents c)).2 opts r ∧
    ∀ ix, r = Ok ix → valid_request owner (Agents c) ∧ requested owner (Agents c) ix.
Proof.
  destruct c; simpl; performs; try (split; [by eauto | by constructor]).
  - unfold elevated_perms_ix in H. inv_ok. found. split; [done|]. by constructor.
  - subst. split; [by eauto|]. by constructor.
Qed.

Lemma policy_method_performs owner c opts :
  ∃ r, mutate owner (Policy c) opts = perform n (authorised owner (Policy c)).1 (authorised owner (Policy c)).2 opts r ∧
    ∀ ix, r = Ok ix → valid_request owner (Policy c) ∧ requested owner (Policy c) ix.
Proof.
  destruct c; simpl; performs; try (split; [by eauto | by constructor]).
  - apply update_ix_requested in H as (Hc & a & Ha & Hb). split; [done|]. by eapply rq_update.
  - match goal with Hb : buildPolicyUpdateIx _ _ _ _ _ _ _ _ = Ok _ |- _ =>
      apply update_ix_requested in Hb as (Hc & a & Ha & Hb) end.
    split; [done|]. by eapply rq_update_elevated.
Qed.

Lemma mutation_performs owner c opts :
  ∃ r, mutate owner c opts = perform n (authorised owner c).1 (authorised owner c).2 (call_opts c opts) r ∧
    ∀ ix, r = Ok ix → valid_request owner c ∧ requested owner c ix.
Proof.
  destruct c as [c| | |c|c|c].
  - destruct (lifecycle_method_performs owner c opts) as (r & Hr & Hix). exists r. split; [done|].
    intros ix H. split; [done|]. by apply Hix.
  - simpl. performs. split; [done|]. by constructor.
  - simpl. performs. split; [done|]. by constructor.
  - apply agent_method_performs.
  - apply policy_method_performs.
  - destruct c; simpl; performs; split; try done; by constructor.
Qed.

(** The mainnet gate holds for the whole surface: a client that requires
    confirmation refuses every sending method on mainnet unless the call says
    [mainnetConfirmed: true], with nothing handed to the node; and a call it
    lets through behaves exactly as the mutation without the gate. *)
Theorem unconfirmed_calls_send_nothing (require : option bool) (owner : string) (c : owner_call) (opts : TxOpts) :
  (require = Some true → network = "mainnet" → to_mainnetConfirmed opts ≠ Some true →
   call require owner c opts = {| oc_sent := []; oc_result := Throw (Plain (SdkError MAINNET_CONFIRMATION_REQUIRED)) |}) ∧
  (require ≠ Some true ∨ network ≠ "mainnet" ∨ to_mainnetConfirmed opts = Some true →
   call require owner c opts = mutate owner c opts).
Proof.
  unfold client_call, assertMainnetConfirmed. split.
  - intros -> -> Hc. rewrite !bool_decide_true by done. by rewrite (bool_decide_false (_ = _)).
  - intros H. destruct (decide (network = "mainnet")) as [Hn|Hn];
      [rewrite (bool_decide_true (network = _)) by done | by rewrite bool_decide_false].
    destruct (decide (require = Some true)) as [->|Hr].
    + rewrite bool_decide_true by done. destruct H as [?|[?|H]]; [done|done|]. by rewrite H.
    + rewrite (bool_decide_false (require = Some true)) by done. simpl. by destruct (_ && _).
Qed.


(** On a vault that requires cosigning, no owner-only method passes the
    program's cosigner gate: whatever accounts the transaction's instruction
    hands to the handler, the bound cosigner, a key other than the owner's, has
    not signed.  For withdrawals, reactivation, unpausing, lifting observe-only,
    queueing a grant, graylist promotion and ownership transfers the client has
    no variant that adds the second signature. *)
Theorem owner_only_calls_fail_the_cosign_gate (require : option bool) (owner bound : string) (c : owner_call)
    (opts : TxOpts) (tx : SignedTx) (accounts : list (string * bool)) :
  cosign_gated c = true → bound ≠ owner → tx ∈ oc_sent (call require owner c opts) →
  (∀ k, (k, true) ∈ accounts → k ∈ st_signers tx) →
  has_bound_cosigner accounts bound = false.
Proof.
  intros Hg Hne Htx Hsig.
  assert (authorised owner c = (owner, [])) as Ha
    by (destruct c as [[| | |[]| | | |]| | |[]|[]|[]]; done).
  destruct (mutation_performs owner c opts) as (r & Hr & _). rewrite Ha in Hr. simpl in Hr.
  assert (st_signers tx = [owner]) as Hs.
  { unfold client_call in Htx. rewrite Hr in Htx.
    destruct (perform_sent owner [] (call_opts c opts) r) as [H0|(ix & _ & H1)];
    destruct (assertMainnetConfirmed _ _ _); rewrite ?H0, ?H1 in Htx; set_solver. }
  unfold has_bound_cosigner. apply andb_false_iff. right. apply not_true_is_false.
  intros ([k b] & Hin%list_elem_of_In & [Hb Hk%bool_decide_eq_true]%andb_true_iff)%existsb_exists.
  simpl in *. subst. apply Hsig in Hin. rewrite Hs in Hin. set_solver.
Qed.
End Calls.

(** ** Concrete calls *)

Module OwnerDemo.
(** Addresses spell their seeds. *)
Definition encode (a : string) : list Z := map code (chars a).
Definition derive (program : string) (seeds : list (list Z)) : string :=
  text (map (λ z, ascii_of_nat (Z.to_nat z)) (concat seeds)).
Definition ix (tag : Z) : Ix := {|
  ix_programAddress := SIGIL_PROGRAM_ADDRESS; ix_accounts := Some [writable "Vault"]; ix_data := Some [tag] |}.
Definition builders : OwnerBuilders := {|
  ob_freezeVault := λ _ _, Ok (ix 1); ob_reactivateVault := λ _ _ _ _, Ok (ix 2);
  ob_setObserveOnly := λ _ _ _, Ok (ix 3); ob_queueAgentGrant := λ _, Ok (ix 4);
  ob_applyAgentGrant := λ _ _ _, Ok (ix 5); ob_cancelAgentGrant := λ _ _, Ok (ix 6);
  ob_closeVault := λ _ _ _, Ok (ix 7); ob_pauseAgent := λ _ _ _ _, Ok (ix 8);
  ob_unpauseAgent := λ _ _ _ _, Ok (ix 9); ob_revokeAgent := λ _ _ _ _ _, Ok (ix 10);
  ob_registerAgent := λ _, Ok (ix 11); ob_depositFunds := λ _ _ _ _, Ok (ix 12);
  ob_withdrawFunds := λ _ _ _ _, Ok (ix 13); ob_queuePolicyUpdate := λ _, Ok (ix 14);
  ob_applyPendingPolicy := λ _ _, Ok (ix 15); ob_cancelPendingPolicy := λ _ _, Ok (ix 16);
  ob_approvePendingPolicy := λ _ _, Ok (ix 17); ob_promoteGraylist := λ _ _ _, Ok (ix 18);
  ob_recordViolation := λ _ _ _ _, Ok (ix 19); ob_queueAgentPerms := λ _, Ok (ix 20);
  ob_applyAgentPerms := λ _ _ _ _, Ok (ix 21); ob_cancelAgentPerms := λ _ _ _, Ok (ix 22);
  ob_createPostAssertions := λ _ _ _ _, Ok (ix 23); ob_closePostAssertions := λ _ _ _, Ok (ix 24);
  ob_initiateOwnership := λ _ _ _ _, Ok (ix 25); ob_acceptOwnership := λ _ _, Ok (ix 26);
  ob_acceptOwnershipMultisig := λ _ _, Ok (ix 27); ob_cancelOwnership := λ _ _, Ok (ix 28) |}.

Definition agents : list string := ["Bob"; "Carol"].
Definition candidates : list string := pending_candidates encode derive "Vault" agents.
(** A queued policy and a queued change for the second agent. *)
Definition lamports (a : string) : Z :=
  if bool_decide (candidates !! 0%nat = Some a) then 2000000
  else if bool_decide (candidates !! 2%nat = Some a) then 1500000 else 0.
Definition node : OwnerNode := {|
  on_limitIx := λ u, ix (1000 + u); on_priceIx := λ f, ix (2000 + f);
  on_blockhash := Ok {| bh_blockhash := "Hash"; bh_lastValidBlockHeight := 100 |};
  on_sign := λ _, Ok tt; on_send := λ _, Ok "Signature";
  on_accountExists := λ a, Ok (0 <? lamports a) |}.
Definition opts (confirmed : option bool) : TxOpts := {|
  to_computeUnits := None; to_priorityFeeMicroLamports := Some 5; to_mainnetConfirmed := confirmed |}.
Definition client (require : option bool) (network : string) (c : owner_call) (o : TxOpts) : outcome string :=
  client_call encode derive checksum32 builders node (Throw JNull) (Throw JNull) (Ok agents) "Vault" network
    require "Owner" c o.
Definition usdc : string := "EPjFWdd5AufqSSqeM2qN1xzybapC8G4wEGGkZwyTDt1v".
End OwnerDemo.

(** A withdrawal is one transaction of three instructions; the gate refuses it
    unconfirmed; an amount of zero is refused before anything is sent; an
    explicit [mainnetConfirmed: false] passes a client without the gate. *)
Example owner_calls :
  let w amount := OwnerDemo.client (Some true) "mainnet" (Withdraw OwnerDemo.usdc amount) in
  map st_signers (oc_sent (w 5 (OwnerDemo.opts (Some true)))) = [["Owner"]] ∧
  map (λ tx, map ix_data (st_instructions tx)) (oc_sent (w 5 (OwnerDemo.opts (Some true)))) =
    [[Some [1000 + OwnerTx.CU_OWNER_ACTION]; Some [2005]; Some [13]]] ∧
  oc_sent (w 5 (OwnerDemo.opts None)) = [] ∧
  oc_sent (w 0 (OwnerDemo.opts (Some true))) = [] ∧
  length (oc_sent (OwnerDemo.client None "mainnet" (Withdraw OwnerDemo.usdc 5) (OwnerDemo.opts (Some false)))) = 1%nat.
Proof. by vm_compute. Qed.

Lemma closing_reclaims_every_pending_account_witness :
  ∃ r', rn_owner r' = 1 + 3500000 ∧ ∀ a, a ∈ OwnerDemo.candidates → rn_lamports r' a = 0.
Proof.
  assert (Hnd : NoDup OwnerDemo.candidates) by (apply (bool_decide_unpack _); vm_compute; exact I).
  destruct (closing_reclaims_every_pending_account OwnerDemo.encode OwnerDemo.derive OwnerDemo.builders
    OwnerDemo.node "Vault" "Owner" OwnerDemo.agents (OwnerDemo.ix 7) [writable "Vault"]
    {| rn_lamports := OwnerDemo.lamports; rn_owner := 1 |} eq_refl eq_refl Hnd) as (ix' & rem & r' & _ & _ & _ & _ & Hz & Ho).
  - intros a _. split; [|reflexivity]. simpl. unfold OwnerDemo.lamports. repeat case_bool_decide; lia.
  - vm_compute. discriminate.
  - exists r'. split; [rewrite Ho; vm_compute; reflexivity | exact Hz].
Defined.

Lemma owner_only_calls_fail_the_cosign_gate_witness :
  ∃ tx, oc_sent (OwnerDemo.client None "mainnet" (Withdraw OwnerDemo.usdc 5) (OwnerDemo.opts None)) = [tx] ∧
    has_bound_cosigner [("Vault", false); ("Owner", true)] "Cosigner" = false.
Proof.
  eexists. split; [vm_compute; reflexivity|].
  eapply (owner_only_calls_fail_the_cosign_gate OwnerDemo.encode OwnerDemo.derive checksum32 OwnerDemo.builders
    OwnerDemo.node (Throw JNull) (Throw JNull) (Ok OwnerDemo.agents) "Vault" "mainnet" None "Owner" "Cosigner"
    (Withdraw OwnerDemo.usdc 5) (OwnerDemo.opts None)); [reflexivity|discriminate| |].
  - vm_compute. left.
  - intros k [Hk|Hk]%elem_of_cons; [discriminate Hk|]. apply list_elem_of_singleton in Hk. injection Hk as ->. left.
Defined.
