(* ===== verification/Tee.v ===== *)
(** * TEE attestation (tee/cache.ts, tee/verify.ts, tee/wallet-types.ts, tee/providers/)

    Before a wallet is trusted its custody is attested: the dispatcher detects
    the provider, asks the provider's verifier, caches verified outcomes for a
    while and enforces the required level.  CBOR, X.509 and ECDSA are the work
    of packages and are parameters; what is done with their answers is modelled
    in full, down to the DER encoding of the raw signature. *)

From Stdlib Require Import Ascii.
From S2P Require Import Prelude JsMap JsText JsValue CanonicalEncode Discovery.

Local Open Scope Z_scope.

(** ** Results *)

Inductive AttestationStatus : Type :=
| CryptographicallyVerified
| ProviderVerified
| ProviderTrusted
| Failed
| Unavailable.

#[export] Instance AttestationStatus_eq_dec : EqDecision AttestationStatus.
Proof. solve_decision. Defined.

Inductive AttestationLevel : Type := provider_trusted | provider_verified | cryptographic.

#[export] Instance AttestationLevel_eq_dec : EqDecision AttestationLevel.
Proof. solve_decision. Defined.

Record NitroPcrValues : Type := {
  pcr0 : option string; pcr1 : option string; pcr2 : option string; pcr3 : option string;
}.

(** The message and [rawAttestation] are for people and are left out. *)
Record AttestationResult : Type := {
  ar_status : AttestationStatus;
  ar_provider : string;
  ar_publicKey : string;
  ar_enclaveType : option string;
  ar_pcrValues : option NitroPcrValues;
  ar_certChainLength : option nat;
  ar_verifiedAt : Z;
}.

Inductive tee_exn : Type :=
| TeeAttestationError (result : option AttestationResult)
| AttestationCertChainError
| AttestationPcrMismatchError (pcrIndex : Z) (expected actual : string).

(** ** The cache *)

Record CacheEntry : Type := { ce_result : AttestationResult; ce_expiresAt : Z }.

Definition DEFAULT_CACHE_TTL_MS : Z := 3600000.
Definition MAX_CACHE_ENTRIES : Z := 1000.

Record AttestationCache : Type := {
  ac_cache : list (string * CacheEntry);
  ac_ttlMs : Z;
  ac_maxEntries : Z;
}.

(** [Number.isFinite(n) && n > 0 ? n : fallback]. *)
Definition positive_or (n : number) (fallback : Z) : Z :=
  match n with Int z => if 0 <? z then z else fallback | _ => fallback end.

Definition new_cache (ttlMs maxEntries : number) : AttestationCache := {|
  ac_cache := [];
  ac_ttlMs := positive_or ttlMs DEFAULT_CACHE_TTL_MS;
  ac_maxEntries := positive_or maxEntries MAX_CACHE_ENTRIES |}.

Definition with_entries (c : AttestationCache) (m : list (string * CacheEntry)) : AttestationCache :=
  {| ac_cache := m; ac_ttlMs := ac_ttlMs c; ac_maxEntries := ac_maxEntries c |}.

Definition cache_get (now : Z) (key : string) (c : AttestationCache) : AttestationCache * option AttestationResult :=
  match jm_get key (ac_cache c) with
  | None => (c, None)
  | Some entry =>
      if ce_expiresAt entry <=? now then (with_entries c (jm_delete key (ac_cache c)), None)
      else (c, Some (ce_result entry))
  end.

(** The oldest key by first insertion. *)
Definition evict_oldest (c : AttestationCache) (key : string) : list (string * CacheEntry) :=
  if (ac_maxEntries c <=? Z.of_nat (length (ac_cache c))) && bool_decide (jm_get key (ac_cache c) = None)
  then match jm_keys (ac_cache c) with
       | oldestKey :: _ => jm_delete oldestKey (ac_cache c)
       | [] => ac_cache c
       end
  else ac_cache c.

Definition cache_set (now : Z) (key : string) (result : AttestationResult) (ttlMs : option number)
    (c : AttestationCache) : AttestationCache :=
  let effectiveTtl := match ttlMs with Some n => positive_or n (ac_ttlMs c) | None => ac_ttlMs c end in
  with_entries c (jm_set key {| ce_result := result; ce_expiresAt := now + effectiveTtl |} (evict_oldest c key)).

Definition cache_delete (key : string) (c : AttestationCache) : AttestationCache * bool :=
  (with_entries c (jm_delete key (ac_cache c)), bool_decide (is_Some (jm_get key (ac_cache c)))).

(** The keys are copied first, so the loop is not disturbed by its deletions. *)
Definition deleteByPrefix (prefix : string) (c : AttestationCache) : AttestationCache * nat :=
  let matching := filter (λ k, startsWith k prefix = true) (jm_keys (ac_cache c)) in
  (with_entries c (foldl (λ m k, jm_delete k m) (ac_cache c) matching), length matching).

Definition clear (c : AttestationCache) : AttestationCache := with_entries c [].

(** ** Signatures *)

(** [while (start < val.length - 1 && val[start] === 0) start++]. *)
Fixpoint strip_zeros (bytes : list Z) : list Z :=
  match bytes with
  | b :: ((_ :: _) as rest) => if b =? 0 then strip_zeros rest else bytes
  | _ => bytes
  end.

Definition encodeInt (bytes : list Z) : list Z :=
  let val := strip_zeros bytes in
  let needsPad := match val with b :: _ => 128 <=? b | [] => false end in
  let len := Z.of_nat (length val) + (if needsPad then 1 else 0) in
  [2; len mod 256] ++ (if needsPad then [0] else []) ++ val.

Definition rawSigToDer (rawSig : list Z) (curveByteLen : nat) : result tee_exn (list Z) :=
  _ ← throw_if (negb (bool_decide (length rawSig = (curveByteLen * 2)%nat))) (TeeAttestationError None);
  let rDer := encodeInt (take curveByteLen rawSig) in
  let sDer := encodeInt (drop curveByteLen rawSig) in
  let seqLen := Z.of_nat (length rDer + length sDer) in
  let header := if seqLen <? 128 then [48; seqLen] else [48; 129; seqLen mod 256] in
  Ok (header ++ rDer ++ sDer).

(** *** A reader of DER signatures, and the round trip *)

Definition read_int (bs : list Z) : option (list Z * list Z) :=
  match bs with
  | tag :: len :: rest =>
      if (tag =? 2) && (len <? 128) && (len <=? Z.of_nat (length rest))
      then Some (take (Z.to_nat len) rest, drop (Z.to_nat len) rest) else None
  | _ => None
  end.

Definition read_header (bs : list Z) : option (list Z) :=
  match bs with
  | tag :: l :: rest =>
      if negb (tag =? 48) then None
      else if l <? 128 then (if l =? Z.of_nat (length rest) then Some rest else None)
      else if l =? 129 then
        match rest with
        | len :: body => if (128 <=? len) && (len =? Z.of_nat (length body)) then Some body else None
        | [] => None
        end
      else None
  | _ => None
  end.

(** The two integers of a signature, as their content bytes. *)
Definition read_signature (bs : list Z) : option (list Z * list Z) :=
  body ← read_header bs;
  '(r, rest) ← read_int body;
  '(s, rest) ← read_int rest;
  if bool_decide (rest = []) then Some (r, s) else None.

Definition be_value (bs : list Z) : Z := foldl (λ acc b, 256 * acc + b) 0 bs.

(** A shortest two's-complement encoding of a number that is not negative. *)
Definition canonical_int (bs : list Z) : Prop :=
  match bs with
  | [] => False
  | [b] => b < 128
  | b :: b' :: _ => b < 128 ∧ (b = 0 → 128 ≤ b')
  end.

Lemma strip_zeros_cons b c rest :
  strip_zeros (b :: c :: rest) = if b =? 0 then strip_zeros (c :: rest) else b :: c :: rest.
Proof. reflexivity. Qed.

Lemma strip_zeros_value bs : be_value (strip_zeros bs) = be_value bs.
Proof.
  induction bs as [|b [|c rest] IH]; [done|done|]. rewrite strip_zeros_cons.
  destruct (Z.eqb_spec b 0) as [->|]; [|done]. rewrite IH. reflexivity.
Qed.

Lemma strip_zeros_length bs : (length (strip_zeros bs) ≤ length bs)%nat.
Proof.
  induction bs as [|b [|c rest] IH]; [done|done|]. rewrite strip_zeros_cons.
  destruct (b =? 0); simpl in *; lia.
Qed.

Lemma strip_zeros_shape bs :
  bs ≠ [] → bytes_ok bs → ∃ b rest, strip_zeros bs = b :: rest ∧ 0 ≤ b < 256 ∧ (rest ≠ [] → b ≠ 0).
Proof.
  induction bs as [|b [|c rest] IH]; intros Hne Hok; [done| |].
  - exists b, []. inversion Hok; subst. by split_and!; try apply H1.
  - rewrite strip_zeros_cons. destruct (Z.eqb_spec b 0) as [->|Hb].
    + apply IH; [done|]. by inversion Hok.
    + exists b, (c :: rest). inversion Hok as [|? ? Hb' _]; subst. by split_and!; try apply Hb'.
Qed.

Lemma read_int_app content rest :
  (length content < 128)%nat → read_int (2 :: Z.of_nat (length content) :: content ++ rest) = Some (content, rest).
Proof.
  intros H. unfold read_int. rewrite length_app. destruct (Z.ltb_spec (Z.of_nat (length content)) 128); [|lia].
  destruct (Z.leb_spec (Z.of_nat (length content)) (Z.of_nat (length content + length rest))); [|lia].
  cbn [Z.eqb Pos.eqb andb]. by rewrite Nat2Z.id, take_app_length, drop_app_length.
Qed.

Lemma encodeInt_read bs rest :
  bs ≠ [] → bytes_ok bs → (length bs ≤ 124)%nat →
  ∃ content, read_int (encodeInt bs ++ rest) = Some (content, rest) ∧ be_value content = be_value bs ∧
    canonical_int content ∧ (length (encodeInt bs) = 2 + length content)%nat ∧ (length content ≤ length bs + 1)%nat.
Proof.
  intros Hne Hok Hlen. destruct (strip_zeros_shape bs Hne Hok) as (b & tl & E & Hb & Hnz).
  pose proof (strip_zeros_length bs) as Hl. rewrite E in Hl. unfold encodeInt. rewrite E.
  set (pad := if 128 <=? b then [0] else []). exists (pad ++ b :: tl).
  assert (Hlc : Z.of_nat (length (b :: tl)) + (if 128 <=? b then 1 else 0) = Z.of_nat (length (pad ++ b :: tl))).
  { rewrite length_app. subst pad. destruct (128 <=? b); simpl length; lia. }
  assert (Hpad : (length (pad ++ b :: tl) ≤ length bs + 1)%nat).
  { rewrite length_app. subst pad. destruct (128 <=? b); simpl length in *; lia. }
  rewrite Hlc, Z.mod_small by lia. split_and!.
  - pose proof (read_int_app (pad ++ b :: tl) rest ltac:(lia)) as Hr. rewrite <- Hr. done.
  - rewrite <- (strip_zeros_value bs), E. subst pad. by destruct (128 <=? b).
  - subst pad. destruct (Z.leb_spec 128 b) as [Hge|Hlt]; simpl; [lia|].
    destruct tl as [|c tl]; [done|]. split; [lia|]. intros ->. by destruct (Hnz ltac:(done)).
  - simpl. by rewrite length_app.
  - done.
Qed.

Lemma read_header_spec body :
  Z.of_nat (length body) < 256 →
  read_header ((if Z.of_nat (length body) <? 128 then [48; Z.of_nat (length body)]
                else [48; 129; Z.of_nat (length body) mod 256]) ++ body) = Some body.
Proof.
  intros Hb. destruct (Z.ltb_spec (Z.of_nat (length body)) 128) as [Hlt|Hge]; cbn [app read_header Z.eqb Pos.eqb negb].
  - apply Z.ltb_lt in Hlt as ->. by rewrite Z.eqb_refl.
  - rewrite Z.mod_small by lia. apply Z.leb_le in Hge as ->. by rewrite Z.eqb_refl.
Qed.

(** The raw signature survives its DER encoding: for every curve whose
    integers fit one-byte lengths (up to 122 bytes each), the encoding of a
    signature of the right length reads back as the same two integers, each in
    its shortest form; a signature of another length is refused. *)
Theorem der_signature_round_trip (rawSig : list Z) (n : nat) :
  (1 ≤ n ≤ 122)%nat → bytes_ok rawSig →
  if bool_decide (length rawSig = (n * 2)%nat) then
    ∃ der r s, rawSigToDer rawSig n = Ok der ∧ read_signature der = Some (r, s) ∧
      be_value r = be_value (take n rawSig) ∧ be_value s = be_value (drop n rawSig) ∧
      canonical_int r ∧ canonical_int s
  else rawSigToDer rawSig n = Throw (TeeAttestationError None).
Proof.
  intros Hn Hok. unfold rawSigToDer. case_bool_decide as Hlen; [|done]. cbn [negb throw_if mbind result_bind].
  assert (Hr : bytes_ok (take n rawSig)) by by apply Forall_take.
  assert (Hs : bytes_ok (drop n rawSig)) by by apply Forall_drop.
  assert (Hlr : length (take n rawSig) = n) by (rewrite length_take; lia).
  assert (Hls : length (drop n rawSig) = n) by (rewrite length_drop; lia).
  assert (take n rawSig ≠ []) by (intros E; rewrite E in Hlr; simpl in Hlr; lia).
  assert (drop n rawSig ≠ []) by (intros E; rewrite E in Hls; simpl in Hls; lia).
  destruct (encodeInt_read (drop n rawSig) []) as (s & Es & Vs & Cs & Ls & Ls'); [done|done|lia|].
  destruct (encodeInt_read (take n rawSig) (encodeInt (drop n rawSig))) as (r & Er & Vr & Cr & Lr & Lr'); [done|done|lia|].
  rewrite app_nil_r in Es. eexists _, r, s. split; [reflexivity|].
  split_and!; [|done..]. unfold read_signature.
  assert (Hh : ∀ body, 0 ≤ Z.of_nat (length body) < 256 →
    read_header ((if Z.of_nat (length body) <? 128 then [48; Z.of_nat (length body)]
                  else [48; 129; Z.of_nat (length body) mod 256]) ++ body) = Some body).
  { intros body Hb. apply read_header_spec; lia. }
  rewrite <- length_app. rewrite Hh by (rewrite length_app; lia). cbn [mbind option_bind]. rewrite Er. cbn [mbind option_bind]. by rewrite Es.
Qed.

(** ** Wallets *)

Inductive attestation_reply (B : Type) : Type :=
| Replied (bundle : option B)
| Rejected (err : jsv)
| RejectedTee (err : tee_exn)
| TimedOut.
Arguments Replied {B} _.
Arguments Rejected {B} _.
Arguments RejectedTee {B} _.
Arguments TimedOut {B}.

Record TurnkeyAttestationBundle : Type := {
  tb_bootProof : jsv;
  tb_appSignature : option jsv;
  tb_appPublicKey : option jsv;
}.

(** The properties of a wallet, as reading them answers: a getter may throw; a
    method is [None] when it is no function.  Reading twice gives the same. *)
Record Wallet : Type := {
  w_publicKey : result jsv jsv;
  w_provider : result jsv (option jsv);
  w_verifyProviderCustody : option (result jsv jsv);
  w_getAttestation : option (attestation_reply TurnkeyAttestationBundle);
}.

Definition VALID_TEE_PROVIDERS : list string := ["crossmint"; "privy"; "turnkey"].

Definition isTeeWallet (w : Wallet) : result jsv bool :=
  provider ← w_provider w;
  Ok match provider with Some (JStr p) => bool_decide (p ∈ VALID_TEE_PROVIDERS) | _ => false end.

Definition provider_text (w : Wallet) : result jsv string :=
  provider ← w_provider w;
  Ok match provider with Some (JStr p) => p | _ => EmptyString end.

Definition detectProvider (w : Wallet) : result jsv (option string) :=
  match isTeeWallet w with
  | Throw e => Throw e
  | Ok false => Ok None
  | Ok true =>
      p ← provider_text w;
      let provider := toLowerCase p in
      Ok (if bool_decide (provider = "crossmint") || bool_decide (provider = "turnkey") ||
             bool_decide (provider = "privy") then Some provider else None)
  end.

(** [None]: the introspection failed. *)
Definition readWalletIdentity (w : Wallet) : option (string * option string) :=
  match w_publicKey w with
  | Ok (JStr publicKey) =>
      if bool_decide (publicKey = EmptyString) then None
      else match detectProvider w with Ok detected => Some (publicKey, detected) | Throw _ => None end
  | _ => None
  end.

(** ** Managed providers *)

Record ManagedProviderConfig : Type := { mp_provider : string; mp_enclaveType : string }.

Definition outcome_of (status : AttestationStatus) (provider publicKey : string) (enclaveType : option string)
    (now : Z) : AttestationResult := {|
  ar_status := status; ar_provider := provider; ar_publicKey := publicKey; ar_enclaveType := enclaveType;
  ar_pcrValues := None; ar_certChainLength := None; ar_verifiedAt := now |}.

Definition managed_verify (config : ManagedProviderConfig) (now : Z) (publicKey : string) (w : Wallet)
    : AttestationResult :=
  let enclave := Some (mp_enclaveType config) in
  match w_verifyProviderCustody w with
  | Some (Ok verified) =>
      if truthy verified then outcome_of ProviderVerified (mp_provider config) publicKey enclave now
      else outcome_of Failed (mp_provider config) publicKey None now
  | Some (Throw _) => outcome_of Failed (mp_provider config) publicKey enclave now
  | None => outcome_of ProviderTrusted (mp_provider config) publicKey enclave now
  end.

Definition verifyCrossmint := managed_verify {| mp_provider := "crossmint"; mp_enclaveType := "tdx" |}.
Definition verifyPrivy := managed_verify {| mp_provider := "privy"; mp_enclaveType := "nitro" |}.

(** ** Turnkey *)

(** What the CBOR decoder returns, as far as the code tells it apart; a tagged
    value may lack its tag. *)
Inductive cbor : Type :=
| CBytes (bs : list Z)
| CArray (l : list cbor)
| CMap (m : list (Z * cbor))
| CObject (m : list (string * cbor))
| CTagged (tag : option Z) (v : cbor)
| CNothing
| COther.

Definition hex_digit (d : Z) : ascii := ascii_of_nat (Z.to_nat (if d <? 10 then 48 + d else 87 + d)).
Definition toHex (bs : list Z) : string :=
  text (concat (map (λ b, [hex_digit (b / 16); hex_digit (b mod 16)]) bs)).

(** [Buffer.from(s, "hex")]: pairs up to the first that is none. *)
Fixpoint fromHex_chars (cs : list ascii) : list Z :=
  match cs with
  | a :: b :: rest => if is_hex a && is_hex b then (16 * hex_value a + hex_value b) :: fromHex_chars rest else []
  | _ => []
  end.
Definition fromHex (s : string) : list Z := fromHex_chars (chars s).

Record CoseSign1 : Type := {
  cs_protected : list Z; cs_unprotected : list (Z * cbor); cs_payload : list Z; cs_signature : list Z;
}.

Definition tee {A} : result tee_exn A := Throw (TeeAttestationError None).
Definition tee_if (c : bool) : result tee_exn unit := throw_if c (TeeAttestationError None).

Definition assertByteString (v : cbor) : result tee_exn (list Z) :=
  match v with CBytes bs => Ok bs | _ => tee end.

(** [new Map(Object.entries(o).map(([k, v]) => [parseInt(k, 10), v]))]; keys that
    are no numbers are not looked up. *)
Definition unprotected_headers (v : cbor) : list (Z * cbor) :=
  match v with
  | CMap m => m
  | CObject m => foldl (λ acc kv, match parseInt 10 (fst kv) with Int z => jm_set z (snd kv) acc | _ => acc end) [] m
  | CArray l => imap (λ i v, (Z.of_nat i, v)) l
  | _ => []
  end.

Definition cose_array (decoded : cbor) : result tee_exn (list cbor) :=
  match decoded with
  | CArray l => Ok l
  | CTagged tag (CArray l) => _ ← tee_if (match tag with Some t => negb (t =? 18) | None => false end); Ok l
  | _ => tee
  end.

(** The parts of the outside world: the CBOR package, the certificates and
    the two signature checks of the crypto library. *)
Record Crypto (Cert : Type) : Type := {
  cr_fromBase64 : string → list Z;
  cr_cborDecode : list Z → result jsv cbor;
  cr_sigStructure : list Z → list Z → list Z;
  cr_parseCert : list Z → result jsv Cert;
  cr_root : Cert;
  cr_checkIssued : Cert → Cert → bool;
  cr_verifyCert : Cert → Cert → bool;
  cr_validFrom : Cert → Z;
  cr_validTo : Cert → Z;
  cr_verifyP384 : Cert → list Z → list Z → bool;
  cr_verifyP256 : list Z → list Z → list Z → result jsv bool;
  (** [Buffer.from] of a value that is no byte string. *)
  cr_bufferFrom : cbor → result jsv (list Z);
}.
Arguments cr_fromBase64 {Cert} _. Arguments cr_cborDecode {Cert} _. Arguments cr_sigStructure {Cert} _.
Arguments cr_parseCert {Cert} _. Arguments cr_root {Cert} _. Arguments cr_checkIssued {Cert} _.
Arguments cr_verifyCert {Cert} _. Arguments cr_validFrom {Cert} _. Arguments cr_validTo {Cert} _.
Arguments cr_verifyP384 {Cert} _. Arguments cr_verifyP256 {Cert} _. Arguments cr_bufferFrom {Cert} _.

(** The surrounding [catch]: any other error becomes a [TeeAttestationError]. *)
Definition or_tee {A} (r : result jsv A) : result tee_exn A := match r with Ok a => Ok a | Throw _ => tee end.

Definition decodeCoseSign1 {Cert} (k : Crypto Cert) (bytes : list Z) : result tee_exn CoseSign1 :=
  decoded ← or_tee (cr_cborDecode k bytes);
  arr ← cose_array decoded;
  match arr with
  | [p; u; c; s] =>
      protected ← assertByteString p;
      payload ← assertByteString c;
      signature ← assertByteString s;
      Ok {| cs_protected := protected; cs_unprotected := unprotected_headers u;
            cs_payload := payload; cs_signature := signature |}
  | _ => tee
  end.

Definition cert_chain_error {A} : result tee_exn A := Throw AttestationCertChainError.

(** One turn of the loop: [cert] against its issuer. *)
Definition check_link {Cert} (k : Crypto Cert) (now : Z) (cert issuer : Cert) : result tee_exn unit :=
  _ ← throw_if (negb (cr_checkIssued k cert issuer)) AttestationCertChainError;
  _ ← throw_if (negb (cr_verifyCert k cert issuer)) AttestationCertChainError;
  throw_if ((now <? cr_validFrom k cert) || (cr_validTo k cert <? now)) AttestationCertChainError.

Fixpoint check_chain {Cert} (k : Crypto Cert) (now : Z) (certs : list Cert) : result tee_exn unit :=
  match certs with
  | [] => Ok tt
  | cert :: rest =>
      _ ← check_link k now cert (match rest with issuer :: _ => issuer | [] => cr_root k end);
      check_chain k now rest
  end.

Definition validateCertChain {Cert} (k : Crypto Cert) (now : Z) (certs : list (list Z)) : result tee_exn Cert :=
  match certs with
  | [] => cert_chain_error
  | _ =>
      x509Certs ← or_tee (mapM (cr_parseCert k) certs);
      _ ← check_chain k now x509Certs;
      _ ← match last x509Certs with
          | Some lastCert =>
              throw_if (negb (cr_checkIssued k lastCert (cr_root k)) || negb (cr_verifyCert k lastCert (cr_root k)))
                AttestationCertChainError
          | None => Ok tt
          end;
      match x509Certs with leaf :: _ => Ok leaf | [] => cert_chain_error end
  end.

(** [attestationDoc.pcrs[index]] of a map or an object. *)
Definition pcr_entry (pcrs : cbor) (index : Z) : cbor :=
  match pcrs with
  | CMap m => default CNothing (jm_get index m)
  | CObject m => default CNothing (jm_get (bigint_toString index) m)
  | CArray l => default CNothing (l !! Z.to_nat index)
  | _ => CNothing
  end.

(** A property of the decoded document; reading one of [undefined] throws. *)
Definition doc_field (doc : cbor) (name : string) : result tee_exn cbor :=
  match doc with
  | CNothing => tee
  | CObject m => Ok (default CNothing (jm_get name m))
  | _ => Ok CNothing
  end.

Definition is_present (v : cbor) : bool := match v with CNothing => false | _ => true end.

Definition buffer_bytes {Cert} (k : Crypto Cert) (v : cbor) : result tee_exn (list Z) :=
  match v with CBytes bs => Ok bs | _ => or_tee (cr_bufferFrom k v) end.

Definition getHex {Cert} (k : Crypto Cert) (pcrs : cbor) (index : Z) : result tee_exn (option string) :=
  let v := pcr_entry pcrs index in
  if is_present v then bs ← buffer_bytes k v; Ok (Some (toHex bs)) else Ok None.

Definition no_pcrs : NitroPcrValues := {| pcr0 := None; pcr1 := None; pcr2 := None; pcr3 := None |}.

Definition extractPcrValues {Cert} (k : Crypto Cert) (doc : cbor) : result tee_exn NitroPcrValues :=
  pcrs ← doc_field doc "pcrs";
  match is_present pcrs with
  | false => Ok no_pcrs
  | true =>
      p0 ← getHex k pcrs 0; p1 ← getHex k pcrs 1; p2 ← getHex k pcrs 2; p3 ← getHex k pcrs 3;
      Ok {| pcr0 := p0; pcr1 := p1; pcr2 := p2; pcr3 := p3 |}
  end.

(** The empty text is falsy. *)
Definition given (o : option string) : option string :=
  match o with Some s => if bool_decide (s = EmptyString) then None else Some s | None => None end.

Definition check_pcr3 (expected : option string) (values : NitroPcrValues) : result tee_exn unit :=
  match given expected with
  | None => Ok tt
  | Some e =>
      match given (pcr3 values) with
      | None => Throw (AttestationPcrMismatchError 3 e "<absent>")
      | Some a => throw_if (negb (bool_decide (toLowerCase a = toLowerCase e))) (AttestationPcrMismatchError 3 e a)
      end
  end.

Definition cert_bytes (v : cbor) : result tee_exn (list Z) :=
  match v with CBytes bs => Ok bs | _ => cert_chain_error end.

Definition cert_buffers (unprotected : list (Z * cbor)) : result tee_exn (list (list Z)) :=
  match jm_get 33 unprotected with
  | Some (CArray certs) => mapM cert_bytes certs
  | _ => cert_chain_error
  end.

Definition MAX_ATTESTATION_BYTES : Z := 65536.

(** The boot proof: the verified document, its measurements and the length of
    the certificate chain. *)
Definition verify_boot {Cert} (k : Crypto Cert) (now : Z) (expectedPcr3 : option string) (bootProof : jsv)
    : result tee_exn (cbor * NitroPcrValues * nat) :=
  proof ← match bootProof with
          | JStr s => if bool_decide (s = EmptyString) then tee else Ok s
          | _ => tee
          end;
  let bootBytes := cr_fromBase64 k proof in
  _ ← tee_if (MAX_ATTESTATION_BYTES <? Z.of_nat (length bootBytes));
  cose ← decodeCoseSign1 k bootBytes;
  certs ← cert_buffers (cs_unprotected cose);
  signingCert ← validateCertChain k now certs;
  derSig ← rawSigToDer (cs_signature cose) 48;
  _ ← tee_if (negb (cr_verifyP384 k signingCert (cr_sigStructure k (cs_protected cose) (cs_payload cose)) derSig));
  doc ← or_tee (cr_cborDecode k (cs_payload cose));
  pcrValues ← extractPcrValues k doc;
  _ ← check_pcr3 expectedPcr3 pcrValues;
  Ok (doc, pcrValues, length certs).

(** [!x || typeof x !== "string"]. *)
Definition text_field (v : jsv) : result tee_exn string :=
  match v with JStr s => if bool_decide (s = EmptyString) then tee else Ok s | _ => tee end.

(** The app proof: a signature of the wallet's key by the app key. *)
Definition verify_app {Cert} (k : Crypto Cert) (publicKey : string) (doc : cbor)
    (appSignature appPublicKey : jsv) : result tee_exn unit :=
  bootKey ← doc_field doc "public_key";
  bootBytes ← match is_present bootKey with true => buffer_bytes k bootKey | false => tee end;
  _ ← tee_if (bool_decide (bootBytes = []));
  sig ← text_field appSignature;
  key ← text_field appPublicKey;
  let appPubKeyBytes := fromHex key in
  _ ← tee_if (negb (bool_decide (length appPubKeyBytes = 65%nat)));
  walletPubKeyBytes ← match base58Decode32 publicKey with Ok bs => Ok bs | Throw _ => tee end;
  appVerified ← or_tee (cr_verifyP256 k appPubKeyBytes walletPubKeyBytes (fromHex sig));
  tee_if (negb appVerified).

Definition verify_bundle {Cert} (k : Crypto Cert) (now : Z) (expectedPcr3 : option string) (publicKey : string)
    (bundle : TurnkeyAttestationBundle) : result tee_exn AttestationResult :=
  '(doc, pcrValues, chain) ← verify_boot k now expectedPcr3 (tb_bootProof bundle);
  _ ← match tb_appSignature bundle, tb_appPublicKey bundle with
      | Some sig, Some key => verify_app k publicKey doc sig key
      | _, _ => Ok tt
      end;
  Ok {| ar_status := CryptographicallyVerified; ar_provider := "turnkey"; ar_publicKey := publicKey;
        ar_enclaveType := Some "nitro"; ar_pcrValues := Some pcrValues; ar_certChainLength := Some chain;
        ar_verifiedAt := now |}.

Definition verifyTurnkey {Cert} (k : Crypto Cert) (now : Z) (expectedPcr3 : option string) (publicKey : string)
    (w : Wallet) : result tee_exn AttestationResult :=
  let plain status := Ok (outcome_of status "turnkey" publicKey (Some "nitro") now) in
  match w_getAttestation w with
  | None => plain Unavailable
  | Some TimedOut => tee
  | Some (RejectedTee e) => Throw e
  | Some (Rejected _) => plain Failed
  | Some (Replied None) => plain Unavailable
  | Some (Replied (Some bundle)) => verify_bundle k now expectedPcr3 publicKey bundle
  end.

(** ** The dispatcher *)

Record AttestationConfig : Type := {
  at_requireAttestation : option bool;
  at_cacheTtlMs : option number;
  at_onVerified : bool;
  at_onDegraded : bool;
  at_expectedPcr3 : option string;
  at_minAttestationLevel : option AttestationLevel;
}.

Definition no_config : AttestationConfig := {|
  at_requireAttestation := None; at_cacheTtlMs := None; at_onVerified := false; at_onDegraded := false;
  at_expectedPcr3 := None; at_minAttestationLevel := None |}.

Definition level_rank (l : AttestationLevel) : Z :=
  match l with provider_trusted => 0 | provider_verified => 1 | cryptographic => 2 end.

Definition status_rank (s : AttestationStatus) : option Z :=
  match s with
  | ProviderTrusted => Some 0
  | ProviderVerified => Some 1
  | CryptographicallyVerified => Some 2
  | Failed | Unavailable => None
  end.

Definition attestationStatusMeetsLevel (s : AttestationStatus) (l : AttestationLevel) : bool :=
  match status_rank s with Some r => level_rank l <=? r | None => false end.

Definition isVerifiedStatus (s : AttestationStatus) : bool :=
  match s with CryptographicallyVerified | ProviderVerified | ProviderTrusted => true | _ => false end.

Definition CACHE_KEY_DELIMITER : string := "|".

Definition cache_key (publicKey : string) (expectedPcr3 : option string) : string :=
  match given expectedPcr3 with
  | Some pcr => String.append publicKey (String.append CACHE_KEY_DELIMITER (String.append "pcr3=" pcr))
  | None => publicKey
  end.

(** A callback that was called; one that throws is logged and ignored. *)
Inductive callback : Type := Verified (r : AttestationResult) | Degraded (r : AttestationResult).

Definition fire (wired : bool) (e : callback) : list callback := if wired then [e] else [].

Section Dispatch.
Context {Cert : Type} (k : Crypto Cert).

Definition route (now : Z) (expectedPcr3 : option string) (publicKey : string) (provider : option string) (w : Wallet)
    : result tee_exn AttestationResult :=
  match provider with
  | None => Ok (outcome_of Unavailable "crossmint" publicKey None now)
  | Some p =>
      if bool_decide (p = "crossmint") then Ok (verifyCrossmint now publicKey w)
      else if bool_decide (p = "privy") then Ok (verifyPrivy now publicKey w)
      else if bool_decide (p = "turnkey") then verifyTurnkey k now expectedPcr3 publicKey w
      else Ok (outcome_of Unavailable p publicKey None now)
  end.

(** The cached outcome, or a new one that is cached when it is verified. *)
Definition attest (now : Z) (config : AttestationConfig) (publicKey : string) (provider : option string) (w : Wallet)
    (cache : AttestationCache) : AttestationCache * result tee_exn AttestationResult :=
  let cacheTtlMs := default (Int DEFAULT_CACHE_TTL_MS) (at_cacheTtlMs config) in
  let useCache := match cacheTtlMs with Int z => 0 <? z | _ => false end in
  let key := cache_key publicKey (at_expectedPcr3 config) in
  let '(cache, cached) := if useCache then cache_get now key cache else (cache, None) in
  match cached with
  | Some result => (cache, Ok result)
  | None =>
      match route now (at_expectedPcr3 config) publicKey provider w with
      | Throw e => (cache, Throw e)
      | Ok result =>
          (if useCache && isVerifiedStatus (ar_status result)
           then cache_set now key result (Some cacheTtlMs) cache else cache, Ok result)
      end
  end.

(** What happens with an outcome: the callbacks, and what the caller gets. *)
Definition enforce (config : AttestationConfig) (requireAttestation : bool) (result : AttestationResult)
    : list callback * Prelude.result tee_exn AttestationResult :=
  let verified := isVerifiedStatus (ar_status result) in
  let effectiveMinLevel := match at_minAttestationLevel config with
                           | Some l => Some l
                           | None => if requireAttestation then Some provider_verified else None
                           end in
  let too_low := match effectiveMinLevel with
                 | Some l => negb (attestationStatusMeetsLevel (ar_status result) l)
                 | None => false
                 end in
  if (requireAttestation && negb verified) || too_low
  then (fire (at_onDegraded config) (Degraded result), Throw (TeeAttestationError (Some result)))
  else if verified then (fire (at_onVerified config) (Verified result), Ok result)
  else (fire (at_onDegraded config) (Degraded result), Ok result).

Definition verifyTeeAttestation (now : Z) (w : Wallet) (config : AttestationConfig) (cache : AttestationCache)
    : AttestationCache * list callback * result tee_exn AttestationResult :=
  let requireAttestation := default true (at_requireAttestation config) in
  if negb requireAttestation && negb (at_onDegraded config) then (cache, [], Throw (TeeAttestationError None))
  else
    match readWalletIdentity w with
    | None =>
        let synthetic := outcome_of Failed "crossmint" "<unreadable>" None now in
        if requireAttestation then (cache, [], Throw (TeeAttestationError (Some synthetic)))
        else (cache, fire (at_onDegraded config) (Degraded synthetic), Ok synthetic)
    | Some (publicKey, provider) =>
        let '(cache, outcome) := attest now config publicKey provider w cache in
        match outcome with
        | Throw e => (cache, [], Throw e)
        | Ok r => let '(events, answer) := enforce config requireAttestation r in (cache, events, answer)
        end
    end.
End Dispatch.

Definition deleteFromAttestationCache (publicKey : string) (cache : AttestationCache) : AttestationCache * bool :=
  let '(cache, directDeleted) := cache_delete publicKey cache in
  let '(cache, prefixDeleted) := deleteByPrefix (String.append publicKey ":") cache in
  (cache, directDeleted || bool_decide (0 < prefixDeleted)%nat).

(** ** What an answer means *)

Lemma enforce_spec config require r :
  match enforce config require r with
  | (events, Ok r') =>
      r' = r ∧
      events = (if isVerifiedStatus (ar_status r) then fire (at_onVerified config) (Verified r)
                else fire (at_onDegraded config) (Degraded r)) ∧
      (require = true →
       attestationStatusMeetsLevel (ar_status r) (default provider_verified (at_minAttestationLevel config)) = true)
  | (events, Throw _) => ∀ x, Verified x ∉ events
  end.
Proof.
  unfold enforce. destruct require, (ar_status r) eqn:Es, (at_minAttestationLevel config) as [[]|]; cbn; try done;
    destruct (at_onDegraded config); cbn; intros x; rewrite ?elem_of_cons; naive_solver set_solver.
Qed.

(** A wallet that is returned as attested meets the required level: unless
    the caller opts out, with a callback that hears of every degradation, the
    status is at least the configured minimum, [provider_verified] when none is
    set.  [onVerified] is told of exactly the verified answers that are returned,
    never of one that is refused. *)
Theorem attested_wallets_meet_their_level {Cert : Type} (k : Crypto Cert) (now : Z) (w : Wallet)
    (config : AttestationConfig) (cache cache' : AttestationCache) (events : list callback)
    (answer : result tee_exn AttestationResult) :
  verifyTeeAttestation k now w config cache = (cache', events, answer) →
  match answer with
  | Ok r =>
      events = (if isVerifiedStatus (ar_status r) then fire (at_onVerified config) (Verified r)
                else fire (at_onDegraded config) (Degraded r)) ∧
      (default true (at_requireAttestation config) = true →
       attestationStatusMeetsLevel (ar_status r) (default provider_verified (at_minAttestationLevel config)) = true) ∧
      (at_requireAttestation config = Some false → at_onDegraded config = true)
  | Throw _ => ∀ r, Verified r ∉ events
  end.
Proof.
  unfold verifyTeeAttestation. destruct (negb _ && negb _) eqn:Eopt.
  { intros [= <- <- <-] r Hr. by apply elem_of_nil in Hr. }
  assert (Hopt : at_requireAttestation config = Some false → at_onDegraded config = true)
    by (intros E; rewrite E in Eopt; by destruct (at_onDegraded config)).
  destruct (readWalletIdentity w) as [[publicKey provider]|].
  - destruct (attest k now config publicKey provider w cache) as [c [r|e]].
    + pose proof (enforce_spec config (default true (at_requireAttestation config)) r) as He.
      destruct (enforce _ _ _) as [ev [r'|e]]; intros [= <- <- <-]; [|done]. naive_solver.
    + intros [= <- <- <-] r Hr. by apply elem_of_nil in Hr.
  - destruct (default true _) eqn:Er; intros [= <- <- <-]; [intros r Hr; by apply elem_of_nil in Hr|].
    simpl. split_and!; [done|done|done].
Qed.

(** ** The cache never answers for something else *)

Lemma chars_append a b : chars (String.append a b) = chars a ++ chars b.
Proof. induction a as [|c a IH]; simpl; [done|]. by rewrite <- IH. Qed.

Lemma latin_chars_inj a b : chars a = chars b → a = b.
Proof.
  revert b; induction a as [|x a IH]; intros [|y b]; simpl; try done.
  intros [= -> H%IH]. by subst.
Qed.

Lemma startsWith_chars s p : startsWith s p = true ↔ ∃ rest, chars s = chars p ++ rest.
Proof.
  unfold startsWith. revert s; induction p as [|x p IH]; intros s; simpl; [destruct s; naive_solver|].
  destruct s as [|y s]; simpl; [naive_solver|]. destruct (ascii_dec x y) as [->|Hne].
  - rewrite IH. split; intros (rest & Hr); exists rest; [by rewrite Hr | by injection Hr].
  - split; [done|]. intros (rest & Hr). injection Hr as Hr _. by destruct Hne.
Qed.

Definition bar : ascii := "|"%char.

(** Base58 text has no bar. *)
Definition no_bar (s : string) : Prop := bar ∉ chars s.

Lemma bar_split (a b x y : list ascii) :
  bar ∉ a → bar ∉ b → a ++ bar :: x = b ++ bar :: y → a = b ∧ x = y.
Proof.
  revert b; induction a as [|c a IH]; intros [|d b]; simpl; intros Ha Hb; [by intros [= ->]| | |].
  - intros [= <- _]. set_solver.
  - intros [= -> _]. set_solver.
  - intros [= -> H]. apply IH in H as [-> ->]; set_solver.
Qed.

Lemma given_given o : given (given o) = given o.
Proof. destruct o as [s|]; simpl; [|done]. case_bool_decide as H; simpl; [done|]. by rewrite bool_decide_false. Qed.

Lemma cache_key_chars pk pcr :
  chars (cache_key pk pcr) =
  match given pcr with Some p => chars pk ++ bar :: chars "pcr3=" ++ chars p | None => chars pk end.
Proof. unfold cache_key. destruct (given pcr); [|done]. by rewrite !chars_append. Qed.

Lemma cache_key_inj pk pcr pk' pcr' :
  no_bar pk → no_bar pk' → cache_key pk pcr = cache_key pk' pcr' → pk = pk' ∧ given pcr = given pcr'.
Proof.
  intros Hb Hb' H%(f_equal chars). rewrite !cache_key_chars in H. unfold no_bar in *.
  destruct (given pcr) as [p|], (given pcr') as [p'|].
  - apply bar_split in H as [H1%latin_chars_inj H2%app_inv_head%latin_chars_inj]; [|done..]. by subst.
  - exfalso. apply Hb'. rewrite <- H. set_solver.
  - exfalso. apply Hb. rewrite H. set_solver.
  - by apply latin_chars_inj in H as ->.
Qed.

(** The measurement that was asked for is the one that was found. *)
Definition pcr3_matches (expected : option string) (r : AttestationResult) : Prop :=
  match given expected with
  | None => True
  | Some e => ∃ values a, ar_pcrValues r = Some values ∧ pcr3 values = Some a ∧ toLowerCase a = toLowerCase e
  end.

(** What is known of an outcome for a public key and an expected measurement. *)
Record vouches (publicKey : string) (expected : option string) (r : AttestationResult) : Prop := {
  vouch_key : ar_publicKey r = publicKey;
  vouch_pcr : ar_status r = CryptographicallyVerified → pcr3_matches expected r;
}.

Record cache_ok (c : AttestationCache) : Prop := {
  cache_wf : jm_wf (ac_cache c);
  cache_bounded : Z.of_nat (length (ac_cache c)) ≤ ac_maxEntries c;
  cache_positive : 0 < ac_maxEntries c;
  cache_vouches : Forall (λ e : string * CacheEntry, ∃ pk pcr, fst e = cache_key pk pcr ∧ no_bar pk ∧
    isVerifiedStatus (ar_status (ce_result (snd e))) = true ∧ vouches pk pcr (ce_result (snd e))) (ac_cache c);
}.

Lemma check_pcr3_matches e values r u :
  check_pcr3 e values = Ok u → ar_pcrValues r = Some values → pcr3_matches e r.
Proof.
  unfold check_pcr3, pcr3_matches. destruct (given e) as [x|]; [|done].
  destruct (given (pcr3 values)) as [a|] eqn:E; [|done]. intros H%throw_if_Ok Hr. exists values, a.
  split_and!; [done| |].
  - destruct (pcr3 values) as [p|]; simpl in E; [|done]. by destruct (bool_decide _).
  - by apply negb_false_iff, bool_decide_eq_true in H.
Qed.

Lemma verify_boot_pcr {Cert} (k : Crypto Cert) now e proof doc values n :
  verify_boot k now e proof = Ok (doc, values, n) → check_pcr3 e values = Ok tt.
Proof. unfold verify_boot. intros H. inv_ok. match goal with Hc : check_pcr3 _ _ = Ok ?u |- _ => by destruct u end. Qed.

Lemma route_vouches {Cert} (k : Crypto Cert) now e pk provider w r :
  route k now e pk provider w = Ok r → vouches pk e r.
Proof.
  unfold route. destruct provider as [p|]; [|by intros [= <-]; split].
  assert (Hm : ∀ cfg, vouches pk e (managed_verify cfg now pk w)).
  { intros cfg. unfold managed_verify. split; destruct (w_verifyProviderCustody w) as [[v|]|]; try destruct (truthy v); done. }
  case_bool_decide; [intros [= <-]; apply Hm|]. case_bool_decide; [intros [= <-]; apply Hm|].
  case_bool_decide; [|by intros [= <-]; split].
  unfold verifyTurnkey. destruct (w_getAttestation w) as [[[b|]| | |]|]; try done; try (by intros [= <-]; split).
  unfold verify_bundle. intros Hb. inv_ok. destruct x as [[doc values] n]. inv_ok. split; [done|]. intros _.
  eapply check_pcr3_matches; [by eapply verify_boot_pcr|done].
Qed.

Lemma cache_get_ok now key c c' o :
  cache_get now key c = (c', o) → cache_ok c →
  cache_ok c' ∧ match o with
                | Some r => isVerifiedStatus (ar_status r) = true ∧
                    ∃ pk pcr, key = cache_key pk pcr ∧ no_bar pk ∧ vouches pk pcr r
                | None => True
                end.
Proof.
  unfold cache_get. intros Hg Hok. destruct (jm_get key (ac_cache c)) as [e|] eqn:E; [|by injection Hg as <- <-].
  destruct (ce_expiresAt e <=? now); injection Hg as <- <-.
  - split; [|done]. destruct Hok as [Hw Hb Hp Hv]. split; simpl.
    + by apply jm_delete_wf.
    + pose proof (sublist_length _ _ (jm_delete_sublist key (ac_cache c))). lia.
    + done.
    + by apply jm_delete_Forall.
  - split; [done|]. apply jm_get_elem in E. pose proof (cache_vouches c Hok) as Hv.
    rewrite Forall_forall in Hv. destruct (Hv _ E) as (pk & pcr & ? & ? & ? & ?). naive_solver.
Qed.

Lemma evict_oldest_length c key :
  cache_ok c → jm_get key (evict_oldest c key) = None →
  Z.of_nat (length (evict_oldest c key)) + 1 ≤ ac_maxEntries c.
Proof.
  intros [Hw Hb Hp _]. unfold evict_oldest, jm_keys.
  destruct (Z.leb_spec (ac_maxEntries c) (Z.of_nat (length (ac_cache c)))); simpl; [|lia].
  case_bool_decide as Hn; [|done]. destruct (ac_cache c) as [|[k0 v0] m]; simpl in *; [lia|].
  rewrite bool_decide_true by done. lia.
Qed.

Lemma cache_set_ok now pk pcr r ttl c :
  cache_ok c → no_bar pk → isVerifiedStatus (ar_status r) = true → vouches pk pcr r →
  cache_ok (cache_set now (cache_key pk pcr) r ttl c).
Proof.
  intros Hok Hbar Hver Hv. set (key := cache_key pk pcr). destruct Hok as [Hw Hb Hp Hvs] eqn:Hokeq.
  assert (He : jm_wf (evict_oldest c key) ∧ (length (evict_oldest c key) ≤ length (ac_cache c))%nat ∧
    ∀ P, Forall P (ac_cache c) → Forall P (evict_oldest c key)).
  { unfold evict_oldest. destruct (_ && _); [|done]. destruct (jm_keys (ac_cache c)) as [|o l]; [done|].
    split_and!; [by apply jm_delete_wf|apply sublist_length, jm_delete_sublist|]. intros P. apply jm_delete_Forall. }
  destruct He as (Hwf & Hlen & HF). split; simpl.
  - by apply jm_set_wf.
  - rewrite jm_set_length. destruct (jm_get key (evict_oldest c key)) eqn:E; [lia|].
    pose proof (evict_oldest_length c key Hok E). lia.
  - done.
  - apply jm_set_Forall; [by exists pk, pcr|]. by apply HF.
Qed.

(** One call keeps the cache and answers for the wallet that was asked about. *)
Lemma attest_vouches {Cert} (k : Crypto Cert) now config pk provider w c c' answer :
  cache_ok c → no_bar pk → attest k now config pk provider w c = (c', answer) →
  cache_ok c' ∧ ∀ r, answer = Ok r → vouches pk (at_expectedPcr3 config) r.
Proof.
  intros Hok Hbar. unfold attest. set (ttl := default _ _). set (use := match ttl with Int z => _ | _ => false end).
  set (key := cache_key pk _).
  assert (Hget : ∀ c1 o, (if use then cache_get now key c else (c, None)) = (c1, o) →
    cache_ok c1 ∧ ∀ r, o = Some r → vouches pk (at_expectedPcr3 config) r).
  { intros c1 o. destruct use; [|by intros [= <- <-]]. intros Hg. apply cache_get_ok in Hg as [Hc Ho]; [|done].
    split; [done|]. intros r ->. destruct Ho as (_ & pk' & pcr' & Hkey & Hb' & [Hv1 Hv2]).
    apply cache_key_inj in Hkey as [-> Hpcr]; [|done..]. split; [done|]. intros Hs%Hv2.
    unfold pcr3_matches in *. by rewrite Hpcr. }
  destruct (if use then _ else _) as [c1 [r|]] eqn:Eg; destruct (Hget _ _ eq_refl) as [Hc1 Ho].
  { intros [= <- <-]. split; [done|]. intros r' [= <-]. by apply Ho. }
  destruct (route k now _ pk provider w) as [r|e] eqn:Er; intros [= <- <-]; [|done].
  apply route_vouches in Er as Hv. split; [|by intros r' [= <-]].
  destruct (use && _) eqn:E; [|done]. apply andb_true_iff in E as [_ Hver]. by apply cache_set_ok.
Qed.

(** A wallet whose public key, when it can be read, is base58 text. *)
Definition base58_key (w : Wallet) : Prop := ∀ pk p, readWalletIdentity w = Some (pk, p) → no_bar pk.

(** The life of the module's cache. *)
Inductive cache_step {Cert : Type} (k : Crypto Cert) : AttestationCache → AttestationCache → Prop :=
| step_verify now w config c c' events answer :
    base58_key w → verifyTeeAttestation k now w config c = (c', events, answer) → cache_step k c c'
| step_delete pk c : cache_step k c (fst (deleteFromAttestationCache pk c))
| step_clear c : cache_step k c (clear c).

Definition reachable_cache {Cert : Type} (k : Crypto Cert) (c : AttestationCache) : Prop :=
  rtc (cache_step k) (new_cache (Int DEFAULT_CACHE_TTL_MS) (Int MAX_CACHE_ENTRIES)) c.

Lemma cache_ok_sub c m :
  cache_ok c → m `sublist_of` ac_cache c → jm_wf m → cache_ok (with_entries c m).
Proof.
  intros [Hw Hb Hp Hv] Hs Hm. split; simpl; [done| |done|].
  - apply sublist_length in Hs. lia.
  - apply Forall_forall. intros e He. rewrite Forall_forall in Hv. apply Hv. by eapply sublist_subseteq in He.
Qed.

Lemma delete_all_sublist (keys : list string) (m : list (string * CacheEntry)) :
  jm_wf m → foldl (λ m k, jm_delete k m) m keys `sublist_of` m ∧ jm_wf (foldl (λ m k, jm_delete k m) m keys).
Proof.
  revert m; induction keys as [|key keys IH]; intros m Hm; simpl; [done|].
  destruct (IH (jm_delete key m)) as [Hs Hw]; [by apply jm_delete_wf|]. split; [|done].
  etransitivity; [done|apply jm_delete_sublist].
Qed.

Lemma verify_keeps_cache {Cert} (k : Crypto Cert) now w config c c' events answer :
  cache_ok c → base58_key w → verifyTeeAttestation k now w config c = (c', events, answer) → cache_ok c'.
Proof.
  intros Hok Hw. unfold verifyTeeAttestation. destruct (_ && _); [by intros [= <- _ _]|].
  destruct (readWalletIdentity w) as [[pk p]|] eqn:Ei; [|destruct (default true _); by intros [= <- _ _]].
  destruct (attest k now config pk p w c) as [c1 a] eqn:Ea.
  apply attest_vouches in Ea as [Hc1 _]; [|done|by eapply Hw].
  destruct a as [r|e]; [destruct (enforce _ _ _)|]; by intros [= <- _ _].
Qed.

Lemma reachable_cache_ok {Cert} (k : Crypto Cert) c : reachable_cache k c → cache_ok c.
Proof.
  intros H. unfold reachable_cache in H. remember (new_cache _ _) as c0 eqn:E.
  assert (cache_ok c0) as H0.
  { subst. split; simpl; [apply NoDup_nil_2|done|done|constructor]. }
  clear E. induction H as [|c0 c1 c2 Hs _ IH]; [done|]. apply IH. destruct Hs as [????????? Hv|pk c|c].
  - by eapply verify_keeps_cache.
  - unfold deleteFromAttestationCache, cache_delete, deleteByPrefix. simpl.
    destruct (delete_all_sublist (filter (λ x, startsWith x (String.append pk ":") = true)
      (jm_keys (jm_delete pk (ac_cache c)))) (jm_delete pk (ac_cache c))) as [Hs Hw]; [by apply jm_delete_wf, cache_wf|].
    apply (cache_ok_sub c); [done| |done]. etransitivity; [done|apply jm_delete_sublist].
  - apply (cache_ok_sub c); [done|apply sublist_nil_l|apply NoDup_nil_2].
Qed.

(** The shared cache never answers for another wallet or another enclave:
    after any history of attestations, deletions and resets, an attestation that
    is returned is for the public key of the wallet at hand, and a cryptographic
    one shows the measurement this caller expects, even when it was cached by a
    caller that expected something else.  The cache stays within its bound. *)
Theorem attestation_is_for_this_wallet {Cert : Type} (k : Crypto Cert) (now : Z) (w : Wallet)
    (config : AttestationConfig) (cache cache' : AttestationCache) (events : list callback) (r : AttestationResult)
    (publicKey : string) (provider : option string) :
  reachable_cache k cache → readWalletIdentity w = Some (publicKey, provider) → no_bar publicKey →
  verifyTeeAttestation k now w config cache = (cache', events, Ok r) →
  ar_publicKey r = publicKey ∧
  (ar_status r = CryptographicallyVerified → pcr3_matches (at_expectedPcr3 config) r) ∧
  Z.of_nat (length (ac_cache cache')) ≤ ac_maxEntries cache'.
Proof.
  intros Hok%reachable_cache_ok Hi Hbar Hv.
  assert (Hc' : cache_ok cache').
  { eapply verify_keeps_cache; [done| |done]. intros pk p Hpk. rewrite Hi in Hpk. by injection Hpk as <- _. }
  unfold verifyTeeAttestation in Hv. destruct (_ && _); [done|]. rewrite Hi in Hv.
  destruct (attest k now config publicKey provider w cache) as [c1 a] eqn:Ea.
  apply attest_vouches in Ea as [_ Ha]; [|done|done]. destruct a as [r0|]; [|done].
  pose proof (enforce_spec config (default true (at_requireAttestation config)) r0) as He.
  destruct (enforce _ _ _) as [ev [r1|]]; [|done]. injection Hv as <- <- <-. destruct He as [-> _].
  destruct (Ha _ eq_refl) as [Hk Hp]. split_and!; [done|done|apply Hc'].
Qed.

(** ** Deleting a wallet from the cache *)

Lemma delete_all_get (keys : list string) (m : list (string * CacheEntry)) key :
  key ∉ keys → jm_get key (foldl (λ m k, jm_delete k m) m keys) = jm_get key m.
Proof.
  revert m; induction keys as [|x keys IH]; intros m Hn; simpl; [done|].
  rewrite IH by set_solver. apply jm_get_delete_ne. set_solver.
Qed.

(** Deleting a wallet from the cache forgets only what was verified without
    an expected measurement: its entries are kept under keys with a bar, and the
    deletion looks for keys with a colon.  An attestation that was cached for an
    expected measurement is therefore still served after the deletion. *)
Theorem deleted_wallet_stays_cached (publicKey pcr : string) (cache : AttestationCache) :
  pcr ≠ EmptyString → jm_wf (ac_cache cache) →
  let cache' := fst (deleteFromAttestationCache publicKey cache) in
  jm_get publicKey (ac_cache cache') = None ∧
  jm_get (cache_key publicKey (Some pcr)) (ac_cache cache') = jm_get (cache_key publicKey (Some pcr)) (ac_cache cache).
Proof.
  intros Hpcr Hw. unfold deleteFromAttestationCache, cache_delete, deleteByPrefix. simpl.
  set (key := cache_key publicKey (Some pcr)).
  assert (Hkey : chars key = chars publicKey ++ bar :: chars "pcr3=" ++ chars pcr).
  { unfold key. rewrite cache_key_chars. simpl given. by rewrite bool_decide_false. }
  rewrite !delete_all_get.
  - split; [by apply jm_get_delete_eq|]. apply jm_get_delete_ne. intros E. rewrite E in Hkey.
    apply (f_equal length) in Hkey. rewrite length_app in Hkey. simpl in Hkey. lia.
  - intros [Hs _]%list_elem_of_filter. apply startsWith_chars in Hs as (rest & Hs).
    rewrite Hkey, chars_append, <- app_assoc in Hs. apply app_inv_head in Hs. discriminate Hs.
  - intros [Hs _]%list_elem_of_filter. apply startsWith_chars in Hs as (rest & Hs).
    rewrite chars_append, <- app_assoc in Hs. apply (f_equal length) in Hs. rewrite length_app in Hs. simpl in Hs. lia.
Qed.

(** ** What a cryptographic attestation proves *)

(** Every certificate is issued and signed by the next, the last by the root,
    and all are in their validity period. *)
Fixpoint trusted_chain {Cert} (k : Crypto Cert) (now : Z) (certs : list Cert) : Prop :=
  match certs with
  | [] => True
  | cert :: rest =>
      let issuer := match rest with next :: _ => next | [] => cr_root k end in
      cr_checkIssued k cert issuer = true ∧ cr_verifyCert k cert issuer = true ∧
      cr_validFrom k cert ≤ now ≤ cr_validTo k cert ∧ trusted_chain k now rest
  end.

Lemma check_chain_spec {Cert} (k : Crypto Cert) now certs :
  check_chain k now certs = Ok tt ↔ trusted_chain k now certs.
Proof.
  induction certs as [|c rest IH]; simpl; [done|]. unfold check_link.
  destruct (cr_checkIssued k c _); simpl; [|naive_solver].
  destruct (cr_verifyCert k c _); simpl; [|naive_solver].
  destruct (Z.ltb_spec now (cr_validFrom k c)); simpl; [split; [done|lia]|].
  destruct (Z.ltb_spec (cr_validTo k c) now); simpl; [split; [done|lia]|].
  rewrite IH. intuition lia.
Qed.

(** The document behind a boot proof: signed by the leaf of a chain that ends at
    the root. *)
Definition boot_document {Cert} (k : Crypto Cert) (now : Z) (proof : string) (doc : cbor) (chain : nat) : Prop :=
  ∃ cose leaf rest der,
    decodeCoseSign1 k (cr_fromBase64 k proof) = Ok cose ∧ trusted_chain k now (leaf :: rest) ∧
    chain = S (length rest) ∧ rawSigToDer (cs_signature cose) 48 = Ok der ∧
    cr_verifyP384 k leaf (cr_sigStructure k (cs_protected cose) (cs_payload cose)) der = true ∧
    cr_cborDecode k (cs_payload cose) = Ok doc.

Lemma or_tee_Ok {A} (r : result jsv A) a : or_tee r = Ok a → r = Ok a.
Proof. destruct r; simpl; [congruence|done]. Qed.

Lemma validateCertChain_Ok {Cert} (k : Crypto Cert) now certs leaf :
  validateCertChain k now certs = Ok leaf → ∃ rest, trusted_chain k now (leaf :: rest) ∧ length certs = S (length rest).
Proof.
  unfold validateCertChain. destruct certs as [|b certs]; [done|]. set (all := b :: certs).
  intros H. apply bind_Ok_inv in H as (x509 & Hp%or_tee_Ok & H). apply bind_Ok_inv in H as ([] & Hc & H).
  apply bind_Ok_inv in H as ([] & _ & H). apply mapM_Ok_iff, Forall2_length in Hp.
  destruct x509 as [|c rest]; [done|]. injection H as ->. exists rest. split; [by apply check_chain_spec|].
  by rewrite Hp.
Qed.

Lemma verify_boot_Ok {Cert} (k : Crypto Cert) now e proof doc values n :
  verify_boot k now e proof = Ok (doc, values, n) →
  ∃ s, proof = JStr s ∧ s ≠ EmptyString ∧ boot_document k now s doc n ∧
    extractPcrValues k doc = Ok values ∧ check_pcr3 e values = Ok tt.
Proof.
  unfold verify_boot. intros H. inv_ok.
  repeat match goal with u : unit |- _ => destruct u end.
  destruct proof as [| | | | |s| | | |]; try done. case_bool_decide as Hs; [done|].
  repeat match goal with Hx : Ok _ = Ok _ |- _ => injection Hx as <- end.
  match goal with Hx : validateCertChain _ _ _ = Ok _ |- _ => apply validateCertChain_Ok in Hx as (rest & Hc & Hl) end.
  repeat match goal with Hx : or_tee _ = Ok _ |- _ => apply or_tee_Ok in Hx
  | Hx : tee_if _ = Ok _ |- _ => apply throw_if_Ok in Hx end.
  exists s. split_and!; [done|done| |done|done]. do 4 eexists. split_and!; try done. by apply negb_false_iff.
Qed.

(** What the document itself says of a measurement: the value under the
    index in its table of measurements, and the bytes it stands for. *)
Definition measurement (doc : cbor) (index : Z) (v : cbor) : Prop :=
  v ≠ CNothing ∧ ∃ fields pcrs, doc = CObject fields ∧ jm_get "pcrs" fields = Some pcrs ∧
    match pcrs with
    | CMap m => jm_get index m = Some v
    | CObject m => jm_get (bigint_toString index) m = Some v
    | CArray l => l !! Z.to_nat index = Some v
    | _ => False
    end.

Definition bytes_of {Cert} (k : Crypto Cert) (v : cbor) (bs : list Z) : Prop :=
  match v with CBytes b => b = bs | _ => cr_bufferFrom k v = Ok bs end.

(** A reported measurement is the one of the document; none is reported only
    when the document has none. *)
Definition reported {Cert} (k : Crypto Cert) (doc : cbor) (index : Z) (o : option string) : Prop :=
  match o with
  | Some h => ∃ v bs, measurement doc index v ∧ bytes_of k v bs ∧ h = toHex bs
  | None => ∀ v, ~ measurement doc index v
  end.

(** The signed document carries the measurement that was expected. *)
Definition document_measures {Cert} (k : Crypto Cert) (doc : cbor) (expected : option string) : Prop :=
  match given expected with
  | None => True
  | Some e => ∃ v bs, measurement doc 3 v ∧ bytes_of k v bs ∧ toLowerCase (toHex bs) = toLowerCase e
  end.

Lemma pcr_entry_measurement fields pcrs index :
  jm_get "pcrs" fields = Some pcrs →
  (pcr_entry pcrs index ≠ CNothing → measurement (CObject fields) index (pcr_entry pcrs index)) ∧
  (∀ v, measurement (CObject fields) index v → v = pcr_entry pcrs index).
Proof.
  intros Hp. split.
  - intros Hn. split; [done|]. exists fields, pcrs. split_and!; [done..|].
    destruct pcrs as [|l|m|m| | |]; simpl in *; try done; [by destruct (l !! _)|by destruct (jm_get _ m)..].
  - intros v (_ & ? & pcrs' & [= <-] & Hp' & Hv). rewrite Hp in Hp'. injection Hp' as <-.
    destruct pcrs; simpl in *; try done; by rewrite Hv.
Qed.

Lemma getHex_reported {Cert} (k : Crypto Cert) fields pcrs index o :
  jm_get "pcrs" fields = Some pcrs → getHex k pcrs index = Ok o → reported k (CObject fields) index o.
Proof.
  intros Hp. destruct (pcr_entry_measurement fields pcrs index Hp) as [Hm Hu]. unfold getHex.
  destruct (pcr_entry pcrs index) as [bs| | | | | |] eqn:E; cbn [is_present buffer_bytes]; intros H.
  6: { injection H as <-. intros v Hv. by apply (proj1 Hv), Hu. }
  1: { injection H as <-. exists (CBytes bs), bs. by split_and!; [apply Hm| |]. }
  all: apply bind_Ok_inv in H as (bs & Hb%or_tee_Ok & H); injection H as <-; eexists _, bs; split_and!; [by apply Hm|done|done].
Qed.

Lemma extractPcrValues_reported {Cert} (k : Crypto Cert) doc values :
  extractPcrValues k doc = Ok values →
  reported k doc 0 (pcr0 values) ∧ reported k doc 1 (pcr1 values) ∧
  reported k doc 2 (pcr2 values) ∧ reported k doc 3 (pcr3 values).
Proof.
  unfold extractPcrValues. intros H. apply bind_Ok_inv in H as (pcrs & Hf & H).
  destruct (is_present pcrs) eqn:Hpr.
  - assert (∃ fields, doc = CObject fields ∧ jm_get "pcrs" fields = Some pcrs) as (fields & -> & Hp).
    { destruct doc as [| | |m| | |]; simpl in Hf; inversion Hf; subst pcrs; try done.
      exists m. split; [done|]. by destruct (jm_get "pcrs" m). }
    inv_ok. cbn. split_and!; by eapply getHex_reported.
  - assert (Hno : ∀ index v, ~ measurement doc index v).
    { intros index v (_ & fields & p & -> & Hp & Hv). simpl in Hf. rewrite Hp in Hf. injection Hf as ->.
      by destruct pcrs. }
    injection H as <-. cbn. by split_and!; intros v; apply Hno.
Qed.

Lemma reported_measures {Cert} (k : Crypto Cert) doc values expected :
  reported k doc 3 (pcr3 values) → check_pcr3 expected values = Ok tt → document_measures k doc expected.
Proof.
  unfold check_pcr3, document_measures. destruct (given expected) as [e|]; [|done].
  destruct (pcr3 values) as [a|]; cbn [given]; [|done]. intros (v & bs & Hm & Hb & ->).
  case_bool_decide as He; [done|]. intros H%throw_if_Ok%negb_false_iff%bool_decide_eq_true. by exists v, bs.
Qed.

(** C39: What "cryptographically verified" rests on: only a Turnkey wallet gets
    it, for a boot proof whose document was signed by the leaf of a certificate
    chain that links up to the built-in root, every certificate being valid now.
    When a measurement is expected, it is the one that this signed document
    holds under index 3, and the four measurements of the answer are the ones
    the document holds under 0 to 3. *)
Theorem cryptographic_attestation_is_sound {Cert : Type} (k : Crypto Cert) (now : Z) (expected : option string)
    (publicKey : string) (provider : option string) (w : Wallet) (r : AttestationResult) :
  route k now expected publicKey provider w = Ok r → ar_status r = CryptographicallyVerified →
  provider = Some "turnkey" ∧
  ∃ bundle proof doc chain values,
    w_getAttestation w = Some (Replied (Some bundle)) ∧ tb_bootProof bundle = JStr proof ∧
    boot_document k now proof doc chain ∧ ar_certChainLength r = Some chain ∧
    document_measures k doc expected ∧ ar_pcrValues r = Some values ∧
    reported k doc 0 (pcr0 values) ∧ reported k doc 1 (pcr1 values) ∧
    reported k doc 2 (pcr2 values) ∧ reported k doc 3 (pcr3 values).
Proof.
  unfold route. destruct provider as [p|]; [|by intros [= <-]].
  assert (Hm : ∀ cfg, ar_status (managed_verify cfg now publicKey w) ≠ CryptographicallyVerified).
  { intros cfg. unfold managed_verify. destruct (w_verifyProviderCustody w) as [[v|]|]; try destruct (truthy v); done. }
  case_bool_decide; [intros [= <-] Hs; by apply Hm in Hs|].
  case_bool_decide; [intros [= <-] Hs; by apply Hm in Hs|].
  case_bool_decide as Hp; [|by intros [= <-]]. subst p. unfold verifyTurnkey.
  destruct (w_getAttestation w) as [[[b|]| | |]|]; try done; try (by intros [= <-]).
  unfold verify_bundle. intros Hb _. inv_ok. destruct x as [[doc values] n]. inv_ok.
  match goal with Hx : verify_boot _ _ _ _ = Ok _ |- _ => apply verify_boot_Ok in Hx as (s & Hs & _ & Hd & Hpcrs & Hc) end.
  apply extractPcrValues_reported in Hpcrs as (Hr0 & Hr1 & Hr2 & Hr3). split; [done|].
  exists b, s, doc, n, values. split_and!; try done. by eapply reported_measures.
Qed.

(** What it does not rest on: the wallet.  A boot proof without app proof is
    accepted for one public key exactly when it is accepted for every other, so
    a proof seen elsewhere attests any wallet; and the app proof is checked
    against the key the bundle itself brings, whatever non-empty key the
    attested document names. *)
Theorem attestation_does_not_bind_the_wallet {Cert : Type} (k : Crypto Cert) (now : Z) (expected : option string)
    (bundle : TurnkeyAttestationBundle) (publicKey publicKey' : string) :
  (tb_appSignature bundle = None ∨ tb_appPublicKey bundle = None →
   is_ok (verify_bundle k now expected publicKey bundle) = is_ok (verify_bundle k now expected publicKey' bundle)) ∧
  (∀ doc doc' b b' sig key,
     doc_field doc "public_key" = Ok (CBytes b) → doc_field doc' "public_key" = Ok (CBytes b') → b ≠ [] → b' ≠ [] →
     verify_app k publicKey doc sig key = verify_app k publicKey doc' sig key).
Proof.
  split.
  - intros H. unfold verify_bundle. destruct (verify_boot _ _ _ _) as [[[doc values] n]|]; [|done].
    by destruct H as [H|H]; rewrite H; simpl; [|destruct (tb_appSignature bundle)].
  - intros doc doc' b b' sig key Hd Hd' Hb Hb'. unfold verify_app. rewrite Hd, Hd'. cbn [mbind result_bind is_present buffer_bytes].
    by rewrite !bool_decide_false.
Qed.

(** ** Concrete wallets *)

Module TeeDemo.
Definition pcr : list Z := replicate 4 171.
Definition doc : cbor := CObject [("pcrs", CMap [(3, CBytes pcr)]); ("public_key", CBytes [4; 1])].
Definition sign1 : cbor :=
  CTagged (Some 18) (CArray [CBytes [1]; CMap [(33, CArray [CBytes [7]; CBytes [8]])]; CBytes [9]; CBytes (replicate 96 200)]).
(** Certificates are numbers: each is issued by the next one, the last by 9. *)
Definition lib : Crypto Z := {|
  cr_fromBase64 := λ s, map code (chars s);
  cr_cborDecode := λ bs, if bool_decide (bs = [9]) then Ok doc else Ok sign1;
  cr_sigStructure := λ p c, p ++ c;
  cr_parseCert := λ bs, Ok (default 0 (head bs));
  cr_root := 9;
  cr_checkIssued := λ c i, i =? c + 1;
  cr_verifyCert := λ c i, i =? c + 1;
  cr_validFrom := λ _, 0; cr_validTo := λ _, 1000000000;
  cr_verifyP384 := λ c msg sig, c =? 7;
  cr_verifyP256 := λ key msg sig, Ok true;
  cr_bufferFrom := λ _, Throw JNull |}.
Definition wallet (publicKey : string) : Wallet := {|
  w_publicKey := Ok (JStr publicKey); w_provider := Ok (Some (JStr "turnkey"));
  w_verifyProviderCustody := None;
  w_getAttestation := Some (Replied (Some
    {| tb_bootProof := JStr "AA"; tb_appSignature := None; tb_appPublicKey := None |})) |}.
Definition config (pcr3 : option string) : AttestationConfig := {|
  at_requireAttestation := None; at_cacheTtlMs := None; at_onVerified := true; at_onDegraded := false;
  at_expectedPcr3 := pcr3; at_minAttestationLevel := Some cryptographic |}.
Definition fresh : AttestationCache := new_cache (Int DEFAULT_CACHE_TTL_MS) (Int MAX_CACHE_ENTRIES).
Definition ask (publicKey : string) (pcr3 : option string) (c : AttestationCache) :=
  verifyTeeAttestation lib 1000 (wallet publicKey) (config pcr3) c.
End TeeDemo.
Import TeeDemo.

(** Two wallets present the same boot proof; both are verified.  The wrong
    measurement is refused, also with a cached attestation at hand.  Of the two
    cached entries one survives the deletion of the wallet. *)
Example attestation_runs :
  let ok x := is_ok (snd x) in
  ok (ask "Alice" (Some "ABABABAB") fresh) = true ∧
  ok (ask "Mallory" (Some "abababab") fresh) = true ∧
  ok (ask "Alice" (Some "00") (fst (fst (ask "Alice" None fresh)))) = false ∧
  map fst (ac_cache (fst (deleteFromAttestationCache "Alice"
    (fst (fst (ask "Alice" (Some "abababab") (fst (fst (ask "Alice" None fresh))))))))) = ["Alice|pcr3=abababab"].
Proof. by vm_compute. Qed.

Lemma der_signature_round_trip_witness :
  ∃ der r s, rawSigToDer (replicate 96 200) 48 = Ok der ∧ read_signature der = Some (r, s) ∧
    be_value r = be_value (replicate 48 200).
Proof.
  assert (Hok : bytes_ok (replicate 96 200)) by (apply Forall_replicate; unfold byte_ok; lia).
  destruct (der_signature_round_trip (replicate 96 200) 48 ltac:(lia) Hok) as (der & r & s & H1 & H2 & H3 & _).
  exists der, r, s. exact (conj H1 (conj H2 H3)).
Defined.

Lemma attested_wallets_meet_their_level_witness :
  ∃ c' events r, ask "Alice" None fresh = (c', events, Ok r) ∧
    attestationStatusMeetsLevel (ar_status r) cryptographic = true.
Proof.
  destruct (ask "Alice" None fresh) as [[c' events] [r|]] eqn:E; [|exfalso; revert E; vm_compute; discriminate].
  exists c', events, r. split; [reflexivity|].
  exact (proj1 (proj2 (attested_wallets_meet_their_level lib 1000 (wallet "Alice") (config None) fresh c' events
    (Ok r) E)) eq_refl).
Defined.

Lemma attestation_is_for_this_wallet_witness :
  ∃ c' events r, ask "Alice" (Some "abababab") fresh = (c', events, Ok r) ∧ ar_publicKey r = "Alice".
Proof.
  destruct (ask "Alice" (Some "abababab") fresh) as [[c' events] [r|]] eqn:E;
    [|exfalso; revert E; vm_compute; discriminate].
  exists c', events, r. split; [reflexivity|].
  assert (Hb : no_bar "Alice") by (apply (bool_decide_unpack _); vm_compute; exact I).
  exact (proj1 (attestation_is_for_this_wallet lib 1000 (wallet "Alice") (config (Some "abababab")) fresh c' events r
    "Alice" (Some "turnkey") (rtc_refl _ _) eq_refl Hb E)).
Defined.

Lemma deleted_wallet_stays_cached_witness :
  ∃ c, c = fst (fst (ask "Alice" (Some "abababab") fresh)) ∧
    jm_get (cache_key "Alice" (Some "abababab")) (ac_cache (fst (deleteFromAttestationCache "Alice" c))) =
    jm_get (cache_key "Alice" (Some "abababab")) (ac_cache c) ∧
    jm_get (cache_key "Alice" (Some "abababab")) (ac_cache c) ≠ None.
Proof.
  eexists. split; [reflexivity|].
  assert (Hw : jm_wf (ac_cache (fst (fst (ask "Alice" (Some "abababab") fresh)))))
    by (apply (bool_decide_unpack _); vm_compute; exact I).
  split; [|vm_compute; discriminate].
  exact (proj2 (deleted_wallet_stays_cached "Alice" "abababab" _ ltac:(discriminate) Hw)).
Defined.

Lemma cryptographic_attestation_is_sound_witness :
  ∃ r chain, route lib 1000 (Some "ABABABAB") "Alice" (Some "turnkey") (wallet "Alice") = Ok r ∧
    ar_certChainLength r = Some chain ∧ toLowerCase (toHex pcr) = toLowerCase "ABABABAB".
Proof.
  destruct (route lib 1000 (Some "ABABABAB") "Alice" (Some "turnkey") (wallet "Alice")) as [r|] eqn:E;
    [|exfalso; revert E; vm_compute; discriminate].
  assert (Hs : ar_status r = CryptographicallyVerified) by (revert E; vm_compute; by intros [= <-]).
  destruct (cryptographic_attestation_is_sound lib 1000 (Some "ABABABAB") "Alice" (Some "turnkey") (wallet "Alice") r
    E Hs) as (_ & b & p & d & chain & values & _ & _ & _ & H & _).
  exists r, chain. exact (conj eq_refl (conj H eq_refl)).
Defined.
