(* ===== verification/PolicyLifecycle.v ===== *)
(** * The life of a policy update: queue, cosign, apply (cosign-helper.ts)

    An owner queues a change of the policy; after the timelock it is applied.
    On a vault that requires cosigning, a change that weakens a guard must first
    be approved by the bound cosigner.  [buildCosignBundle] predicts the digest
    that the program binds to such a change.  The program's side is modelled
    from [queue_policy_update.rs], [approve_pending_policy.rs],
    [apply_pending_policy.rs] and [cancel_pending_policy.rs] as a labelled
    transition system over the vault's accounts; the other instructions are
    interference that may change the status, the agents and the version but no
    guard of the policy.  The theorems: the bundle is what the program stores,
    no guard is weakened without the cosigner's approval of that very change,
    and which queued changes can be applied. *)

From S2P Require Import Prelude JsMap JsText JsValue CanonicalEncode PostAssertion CosignDigest PolicyDigest PolicyBinding.
From S2P Require Import SdkTypes StateResolver VaultCreation Mutations.

Local Open Scope Z_scope.

(** ** [buildCosignBundle] *)

(** The arguments; [ca_owner] is the address of [ownerSigner]. *)
Record CosignArgs : Type := {
  ca_owner : string;
  ca_fields : CosignDigestFields;
}.

Record CosignBundle : Type := { cb_cosignSession : string; cb_cosignDigest : list Z }.

(** [x ?? null] on every optional field. *)
Definition or_null {A} (x : nullish A) : nullish A := match x with Undefined => Null | _ => x end.

Definition nulled (f : CosignDigestFields) : CosignDigestFields := {|
  cosignSession := cosignSession f;
  CosignDigest.dailySpendingCapUsd := or_null (CosignDigest.dailySpendingCapUsd f);
  maxTransactionAmountUsd := or_null (maxTransactionAmountUsd f);
  CosignDigest.allowedDestinations := or_null (CosignDigest.allowedDestinations f);
  CosignDigest.protocols := or_null (CosignDigest.protocols f);
  CosignDigest.stableBalanceFloor := or_null (CosignDigest.stableBalanceFloor f);
  CosignDigest.perRecipientDailyCapUsd := or_null (CosignDigest.perRecipientDailyCapUsd f);
  CosignDigest.hasProtocolCaps := or_null (CosignDigest.hasProtocolCaps f);
  CosignDigest.protocolCaps := or_null (CosignDigest.protocolCaps f);
  CosignDigest.cosignRequired := or_null (CosignDigest.cosignRequired f) |}.

Definition buildCosignBundle (sha256 : list Z → list Z) (args : CosignArgs) : result js_exn CosignBundle :=
  let session := cosignSession (ca_fields args) in
  _ ← throw_if (bool_decide (session = DEFAULT_COSIGN_SESSION))
        (JsError "buildCosignBundle: cosignSessionPubkey is the default pubkey");
  _ ← throw_if (bool_decide (session = ca_owner args))
        (JsError "buildCosignBundle: cosignSessionPubkey equals ownerSigner.address");
  digest ← computeCosignDigest sha256 (nulled (ca_fields args));
  Ok {| cb_cosignSession := session; cb_cosignDigest := digest |}.

(** ** The vault's accounts *)

#[export] Instance VaultStatus_eq_dec : EqDecision VaultStatus.
Proof. solve_decision. Defined.

(** [PendingPolicyUpdate]: the queued arguments and the cosign binding. *)
Record PendingUpdate : Type := {
  pu_args : QueuePolicyUpdateArgs;
  pu_executesAt : Z;
  pu_queuedAtSlot : Z;
  pu_cosignSession : string;
  pu_cosignDigest : list Z;
  pu_approved : bool;
  pu_approvedAtSlot : Z;
  pu_queuedVersion : Z;
}.

Record Chain : Type := {
  c_owner : string;
  c_status : VaultStatus;
  c_vault : VaultAccount;
  c_policy : PolicyAccount;
  c_version : Z;
  c_graylist : list (string * Z);
  c_pending : option PendingUpdate;
}.

Definition with_pending (c : Chain) (pu : option PendingUpdate) : Chain := {|
  c_owner := c_owner c; c_status := c_status c; c_vault := c_vault c; c_policy := c_policy c;
  c_version := c_version c; c_graylist := c_graylist c; c_pending := pu |}.

Definition I64_MAX : Z := 2 ^ 63 - 1.
Definition U64_MAX : Z := 2 ^ 64 - 1.
Definition MAX_APPLY_AGE_SLOTS_TIMELOCKED_ADMIN : Z := 700000.
Definition GRAYLIST_FRICTION_SECONDS : Z := 86400.
Definition MAX_GRAYLIST : nat := 10.

Definition to_nullish {A} (o : option A) : nullish A := match o with Some a => Val a | None => Null end.

(** [CosignDigestFields] as the handlers build it. *)
Definition cosign_fields (session : string) (a : QueuePolicyUpdateArgs) : CosignDigestFields := {|
  cosignSession := session;
  CosignDigest.dailySpendingCapUsd := to_nullish (qp_dailySpendingCapUsd a);
  maxTransactionAmountUsd := to_nullish (qp_maxTransactionAmountUsd a);
  CosignDigest.allowedDestinations := to_nullish (qp_allowedDestinations a);
  CosignDigest.protocols := to_nullish (qp_protocols a);
  CosignDigest.stableBalanceFloor := to_nullish (qp_stableBalanceFloor a);
  CosignDigest.perRecipientDailyCapUsd := to_nullish (qp_perRecipientDailyCapUsd a);
  CosignDigest.hasProtocolCaps := to_nullish (qp_hasProtocolCaps a);
  CosignDigest.protocolCaps := to_nullish (qp_protocolCaps a);
  CosignDigest.cosignRequired := to_nullish (qp_cosignRequired a) |}.

(** The program's [compute_cosign_digest]: the hash of the declarative
    encoding. *)
Definition compute_cosign_digest (sha256 : list Z → list Z) (session : string) (a : QueuePolicyUpdateArgs)
    : result string (list Z) :=
  match cosignEncode (cosign_fields session a) with Ok b => Ok (sha256 b) | Throw _ => Throw MALFORMED end.

(** ** Queueing *)

Definition not_closed (c : Chain) : bool * bool :=
  (bool_decide (c_status c = Closed), bool_decide (c_status c = Frozen)).

Definition bind_cosigner (sha256 : list Z → list Z) (a : QueuePolicyUpdateArgs) (p : PolicyAccount)
    : result string (string * list Z) :=
  if is_elevated a p
  then digest ← compute_cosign_digest sha256 (qp_cosignSession a) a; Ok (qp_cosignSession a, digest)
  else Ok (DEFAULT_COSIGN_SESSION, NO_HASH).

(** The signer is the [owner] account of the instruction; the pending account
    is created, so there is one at a time. *)
Definition queue (sha256 : list Z → list Z) (protected : string → bool) (now slot : Z)
    (a : QueuePolicyUpdateArgs) (c : Chain) : result string Chain :=
  _ ← throw_if (negb (bool_decide (qp_owner a = c_owner c))) "UnauthorizedOwner";
  _ ← throw_if (negb (absent (c_pending c))) "AccountAlreadyInUse";
  let '(closed, frozen) := not_closed c in
  _ ← queue_policy_update sha256 protected closed frozen (c_policy c) (c_vault c) a;
  '(session, digest) ← bind_cosigner sha256 a (c_policy c);
  _ ← throw_if (I64_MAX <? pa_timelockDuration (c_policy c)) "Overflow";
  _ ← throw_if (I64_MAX <? now + pa_timelockDuration (c_policy c)) "Overflow";
  Ok (with_pending c (Some {|
    pu_args := a; pu_executesAt := now + pa_timelockDuration (c_policy c); pu_queuedAtSlot := slot;
    pu_cosignSession := session; pu_cosignDigest := digest;
    pu_approved := false; pu_approvedAtSlot := 0; pu_queuedVersion := c_version c |})).

(** ** Approving and cancelling *)

Definition the_pending (c : Chain) : result string PendingUpdate :=
  match c_pending c with Some pu => Ok pu | None => Throw "AccountNotInitialized" end.

Definition is_active (c : Chain) : bool := bool_decide (c_status c = Active).

Definition approve (now slot : Z) (cosigner : string) (c : Chain) : result string Chain :=
  pu ← the_pending c;
  _ ← throw_if (negb (is_active c)) "VaultNotActive";
  _ ← throw_if (bool_decide (pu_cosignSession pu = DEFAULT_COSIGN_SESSION)) "ErrCosignRequired";
  _ ← throw_if (negb (bool_decide (cosigner = pa_cosignSessionPubkey (c_policy c)))) "ErrCosignRequired";
  _ ← throw_if (pu_approved pu) "ErrCosignRequired";
  _ ← throw_if (negb (c_version c =? pu_queuedVersion pu)) "PolicyVersionMismatch";
  _ ← throw_if (now <? pu_executesAt pu) "TimelockNotExpired";
  Ok (with_pending c (Some {|
    pu_args := pu_args pu; pu_executesAt := pu_executesAt pu; pu_queuedAtSlot := pu_queuedAtSlot pu;
    pu_cosignSession := pu_cosignSession pu; pu_cosignDigest := pu_cosignDigest pu;
    pu_approved := true; pu_approvedAtSlot := slot; pu_queuedVersion := pu_queuedVersion pu |})).

Definition cancel (signer : string) (c : Chain) : result string Chain :=
  _ ← throw_if (negb (bool_decide (signer = c_owner c))) "UnauthorizedOwner";
  _ ← the_pending c;
  Ok (with_pending c None).

(** ** Applying *)

Definition no_cosign (pu : PendingUpdate) : bool :=
  bool_decide (pu_cosignDigest pu = NO_HASH) && bool_decide (pu_cosignSession pu = DEFAULT_COSIGN_SESSION).

(** The approval, the age and the binding of the pending account. *)
Definition check_pending (sha256 : list Z → list Z) (now slot : Z) (c : Chain) (pu : PendingUpdate)
    : result string unit :=
  _ ← throw_if (negb (is_active c)) "VaultNotActive";
  _ ← throw_if (now <? pu_executesAt pu) "TimelockNotExpired";
  _ ← throw_if (negb (no_cosign pu) && negb (pu_approved pu)) "ErrCosignRequired";
  _ ← throw_if (negb (no_cosign pu) && negb (c_version c =? pu_queuedVersion pu)) "PolicyVersionMismatch";
  let anchor := if no_cosign pu then pu_queuedAtSlot pu else pu_approvedAtSlot pu in
  _ ← throw_if (slot <? anchor) "Overflow";
  _ ← throw_if (MAX_APPLY_AGE_SLOTS_TIMELOCKED_ADMIN <=? slot - anchor) "QueuedUpdateExpired";
  if no_cosign pu then Ok tt
  else
    recomputed ← compute_cosign_digest sha256 (pu_cosignSession pu) (pu_args pu);
    throw_if (negb (bool_decide (recomputed = pu_cosignDigest pu))) "ErrCosignRequired".

(** Each field that is present replaces the live one. *)
Definition merge_policy (a : QueuePolicyUpdateArgs) (p : PolicyAccount) : PolicyAccount := {|
  pa_dailySpendingCapUsd := default (pa_dailySpendingCapUsd p) (qp_dailySpendingCapUsd a);
  pa_maxTransactionSizeUsd := default (pa_maxTransactionSizeUsd p) (qp_maxTransactionAmountUsd a);
  pa_maxSlippageBps := default (pa_maxSlippageBps p) (qp_maxSlippageBps a);
  pa_developerFeeRate := default (pa_developerFeeRate p) (qp_developerFeeRate a);
  pa_protocolMode := default (pa_protocolMode p) (qp_protocolMode a);
  pa_protocols := default (pa_protocols p) (qp_protocols a);
  pa_destinationMode := default (pa_destinationMode p) (qp_destinationMode a);
  pa_allowedDestinations := default (pa_allowedDestinations p) (qp_allowedDestinations a);
  pa_timelockDuration := default (pa_timelockDuration p) (qp_timelockDuration a);
  pa_sessionExpirySeconds := default (pa_sessionExpirySeconds p) (qp_sessionExpirySeconds a);
  pa_hasPostAssertions := pa_hasPostAssertions p;
  pa_createdAtSlot := pa_createdAtSlot p;
  pa_operatingHours := default (pa_operatingHours p) (qp_operatingHours a);
  pa_autoPromoteGrays := pa_autoPromoteGrays p;
  pa_autoRevokeThreshold := pa_autoRevokeThreshold p;
  pa_stableBalanceFloor := default (pa_stableBalanceFloor p) (qp_stableBalanceFloor a);
  pa_perRecipientDailyCapUsd := default (pa_perRecipientDailyCapUsd p) (qp_perRecipientDailyCapUsd a);
  pa_cosignRequired := default (pa_cosignRequired p) (qp_cosignRequired a);
  pa_cosignSessionPubkey := default (pa_cosignSessionPubkey p) (qp_cosignSessionPubkey a);
  pa_operatorGrantDelaySeconds := default (pa_operatorGrantDelaySeconds p) (qp_operatorGrantDelaySeconds a);
  pa_hasProtocolCaps := default (pa_hasProtocolCaps p) (qp_hasProtocolCaps a);
  pa_protocolCaps := default (pa_protocolCaps p) (qp_protocolCaps a);
  pa_protocolHashes := default (pa_protocolHashes p) (qp_protocolHashes a) |}.

(** A destination that was not allowed before enters the graylist, or has its
    entry refreshed. *)
Definition gray_one (live : list string) (unlock : Z) (d : string) (gray : list (string * Z))
    : result string (list (string * Z)) :=
  if bool_decide (d ∈ live) then Ok gray
  else if existsb (λ e : string * Z, bool_decide (fst e = d)) gray then Ok (jm_set d unlock gray)
  else
    _ ← throw_if (bool_decide (MAX_GRAYLIST ≤ length gray)%nat) "ErrGraylistFull";
    Ok (gray ++ [(d, unlock)]).

Definition gray_destinations (now : Z) (a : QueuePolicyUpdateArgs) (p : PolicyAccount) (gray : list (string * Z))
    : result string (list (string * Z)) :=
  match qp_allowedDestinations a with
  | None => Ok gray
  | Some dests =>
      _ ← throw_if (negb (pa_autoPromoteGrays p) && (I64_MAX <? now + GRAYLIST_FRICTION_SECONDS)) "Overflow";
      let unlock := if pa_autoPromoteGrays p then now else now + GRAYLIST_FRICTION_SECONDS in
      for_of (gray_one (pa_allowedDestinations p) unlock) dests gray
  end.

(** The checks on the merged policy, in the handler's order. *)
Definition check_merged (owner : string) (v : VaultAccount) (a : QueuePolicyUpdateArgs) (pu : PendingUpdate)
    (p : PolicyAccount) : result string unit :=
  let m := merge_policy a p in
  _ ← throw_if (pa_hasProtocolCaps m && negb (bool_decide (length (pa_protocolCaps m) = length (pa_protocols m))))
        "ProtocolCapsMismatch";
  _ ← reject_opt (λ d, negb (d =? 0)) (qp_destinationMode a) "InvalidDestinationMode";
  _ ← reject_opt (λ h, negb (Z.land h 4278190080 =? 0)) (qp_operatingHours a) "ErrOutsideOperatingHours";
  _ ← reject_opt (λ d, MAX_OPERATOR_GRANT_DELAY <? d) (qp_operatorGrantDelaySeconds a) "ErrOperatorGrantDelayTooLong";
  _ ← throw_if (opt_test negb (qp_cosignRequired a) && pa_cosignRequired p &&
                (negb (bool_decide (pu_cosignSession pu = pa_cosignSessionPubkey p)) ||
                 bool_decide (pu_cosignSession pu = DEFAULT_COSIGN_SESSION))) "ErrCosignRequired";
  _ ← throw_if (negb (bool_decide (pa_cosignSessionPubkey m = DEFAULT_COSIGN_SESSION)) &&
                bool_decide (pa_cosignSessionPubkey m = owner)) "ErrCosignRequired";
  _ ← throw_if (opt_test id (qp_cosignRequired a) &&
                negb (opt_test (λ k, negb (bool_decide (k = DEFAULT_COSIGN_SESSION))) (qp_cosignSessionPubkey a)))
        "ErrCosignRequired";
  _ ← throw_if (pa_cosignRequired m && bool_decide (pa_cosignSessionPubkey m = DEFAULT_COSIGN_SESSION))
        "ErrCosignRequired";
  _ ← reject_opt (λ d, negb (d =? 1)) (qp_protocolMode a) "InvalidProtocolMode";
  throw_if (negb (va_observeOnly v) && bool_decide (pa_protocols m = []) && bool_decide (pa_allowedDestinations m = []))
    "ActiveVaultRequiresAllowlist".

(** The digest over the merged policy. *)
Definition check_digest (sha256 : list Z → list Z) (v : VaultAccount) (a : QueuePolicyUpdateArgs)
    (p : PolicyAccount) : result string unit :=
  agentSet ← match computeAgentSetHash sha256 (va_agents v) with Ok h => Ok h | Throw _ => Throw MALFORMED end;
  let m := merge_policy a p in
  recomputed ← match policyEncode sha256 (live_fields m v (pa_hasPostAssertions m) agentSet) with
               | Ok b => Ok (sha256 b) | Throw _ => Throw MALFORMED end;
  throw_if (negb (bool_decide (recomputed = qp_newPolicyPreviewDigest a))) "PolicyPreviewMismatch".

Definition apply_pending (sha256 : list Z → list Z) (now slot : Z) (signer : string) (c : Chain)
    : result string Chain :=
  _ ← throw_if (negb (bool_decide (signer = c_owner c))) "UnauthorizedOwner";
  pu ← the_pending c;
  let a := pu_args pu in
  let p := c_policy c in
  _ ← check_pending sha256 now slot c pu;
  _ ← reject_opt (λ t, t <? 1800) (qp_timelockDuration a) "TimelockTooShort";
  _ ← reject_opt (λ t, 172800 <? t) (qp_timelockDuration a) "TimelockTooLong";
  gray ← gray_destinations now a p (c_graylist c);
  _ ← check_merged (c_owner c) (c_vault c) a pu p;
  _ ← check_digest sha256 (c_vault c) a p;
  _ ← throw_if (U64_MAX <? c_version c + 1) "Overflow";
  Ok {| c_owner := c_owner c; c_status := c_status c; c_vault := c_vault c; c_policy := merge_policy a p;
        c_version := c_version c + 1; c_graylist := gray; c_pending := None |}.

(** ** The bundle and the queue *)

(** The queued arguments ask for what the bundle was built from. *)
Definition requests (f : CosignDigestFields) (a : QueuePolicyUpdateArgs) : Prop :=
  cosignSession f = qp_cosignSession a ∧
  normalise (CosignDigest.dailySpendingCapUsd f) = qp_dailySpendingCapUsd a ∧
  normalise (maxTransactionAmountUsd f) = qp_maxTransactionAmountUsd a ∧
  normalise (CosignDigest.allowedDestinations f) = qp_allowedDestinations a ∧
  normalise (CosignDigest.protocols f) = qp_protocols a ∧
  normalise (CosignDigest.stableBalanceFloor f) = qp_stableBalanceFloor a ∧
  normalise (CosignDigest.perRecipientDailyCapUsd f) = qp_perRecipientDailyCapUsd a ∧
  normalise (CosignDigest.hasProtocolCaps f) = qp_hasProtocolCaps a ∧
  normalise (CosignDigest.protocolCaps f) = qp_protocolCaps a ∧
  normalise (CosignDigest.cosignRequired f) = qp_cosignRequired a.

Lemma normalise_or_null {A} (x : nullish A) : normalise (or_null x) = normalise x.
Proof. by destruct x. Qed.

Lemma normalise_to_nullish {A} (o : option A) : normalise (to_nullish o) = o.
Proof. by destruct o. Qed.

Lemma requests_encode f a : requests f a →
  cosignEncode (nulled f) = cosignEncode (cosign_fields (qp_cosignSession a) a).
Proof.
  intros (H0 & H1 & H2 & H3 & H4 & H5 & H6 & H7 & H8 & H9).
  unfold cosignEncode, nulled, cosign_fields; simpl.
  rewrite !normalise_or_null, !normalise_to_nullish.
  by rewrite H0, H1, H2, H3, H4, H5, H6, H7, H8, H9.
Qed.

Lemma queue_Ok sha256 protected now slot a c c' :
  queue sha256 protected now slot a c = Ok c' →
  ∃ pu, c' = with_pending c (Some pu) ∧ c_pending c = None ∧ qp_owner a = c_owner c ∧
    queue_policy_update sha256 protected (bool_decide (c_status c = Closed)) (bool_decide (c_status c = Frozen))
      (c_policy c) (c_vault c) a = Ok tt ∧
    bind_cosigner sha256 a (c_policy c) = Ok (pu_cosignSession pu, pu_cosignDigest pu) ∧
    pu_args pu = a ∧ pu_executesAt pu = now + pa_timelockDuration (c_policy c) ∧ pu_queuedAtSlot pu = slot ∧
    pu_approved pu = false ∧ pu_queuedVersion pu = c_version c.
Proof.
  unfold queue. intros H. apply bind_Ok_inv in H as ([] & H1 & H). apply bind_Ok_inv in H as ([] & H2 & H).
  simpl in H. apply bind_Ok_inv in H as ([] & H3 & H). apply bind_Ok_inv in H as ([session digest] & H4 & H).
  apply bind_Ok_inv in H as ([] & _ & H). apply bind_Ok_inv in H as ([] & _ & [= <-]).
  apply throw_if_Ok in H1, H2. apply negb_false_iff, bool_decide_eq_true in H1. apply negb_false_iff in H2.
  eexists. split_and!; [reflexivity| |done|exact H3|exact H4|done..].
  destruct (c_pending c); done.
Qed.

Lemma queue_cosign sha256 protected closed frozen p v a :
  queue_policy_update sha256 protected closed frozen p v a = Ok tt → check_cosign a p = Ok tt.
Proof. unfold queue_policy_update. rewrite !bind_unit_Ok_iff. naive_solver. Qed.

(** What the queue binds, by elevation. *)
Lemma bind_cosigner_spec sha256 a p session digest :
  check_cosign a p = Ok tt → bind_cosigner sha256 a p = Ok (session, digest) →
  if is_elevated a p
  then session = qp_cosignSession a ∧ session = pa_cosignSessionPubkey p ∧ session ≠ DEFAULT_COSIGN_SESSION ∧
       session ≠ qp_owner a ∧ compute_cosign_digest sha256 session a = Ok digest
  else session = DEFAULT_COSIGN_SESSION ∧ digest = NO_HASH ∧ qp_cosignSession a = DEFAULT_COSIGN_SESSION.
Proof.
  unfold check_cosign, bind_cosigner. destruct (is_elevated a p).
  - rewrite !bind_unit_Ok_iff, !throw_if_Ok_iff, negb_false_iff, bool_decide_eq_true, !bool_decide_eq_false.
    intros (H1 & H2 & H3) H. apply bind_Ok_inv in H as (d & Hd & [= <- <-]). done.
  - rewrite throw_if_Ok_iff, negb_false_iff, bool_decide_eq_true. by intros ? [= <- <-].
Qed.

(** A cosign bundle is what the program stores.  When the queued update asks
    for what the bundle was built from, then whatever the vault's state, a queue
    that the program accepts records the bundle's session and exactly the
    bundle's digest, the update is an elevated one and the session is the vault's
    bound cosigner; for an update that is not elevated the queue is refused. *)
Theorem cosign_bundle_is_what_the_program_stores (sha256 : list Z → list Z) (args : CosignArgs) (b : CosignBundle)
    (a : QueuePolicyUpdateArgs) (protected : string → bool) (now slot : Z) (c : Chain) :
  buildCosignBundle sha256 args = Ok b → requests (ca_fields args) a →
  (∀ c', queue sha256 protected now slot a c = Ok c' →
     ∃ pu, c_pending c' = Some pu ∧ pu_cosignSession pu = cb_cosignSession b ∧
       pu_cosignDigest pu = cb_cosignDigest b ∧ is_elevated a (c_policy c) = true ∧
       cb_cosignSession b = pa_cosignSessionPubkey (c_policy c)) ∧
  (is_elevated a (c_policy c) = false → is_ok (queue sha256 protected now slot a c) = false).
Proof.
  intros Hb Hreq. unfold buildCosignBundle in Hb. apply bind_Ok_inv in Hb as ([] & Hd & Hb).
  apply bind_Ok_inv in Hb as ([] & _ & Hb). apply bind_Ok_inv in Hb as (digest & Hdig & [= <-]).
  apply throw_if_Ok, bool_decide_eq_false in Hd. simpl.
  unfold computeCosignDigest in Hdig. rewrite cosignBuffer_eq, (requests_encode _ _ Hreq) in Hdig.
  destruct Hreq as (Hses & _). rewrite Hses in *.
  assert (Hstored : ∀ c', queue sha256 protected now slot a c = Ok c' → ∃ pu, c_pending c' = Some pu ∧
      if is_elevated a (c_policy c)
      then pu_cosignSession pu = qp_cosignSession a ∧ pu_cosignDigest pu = digest ∧
           qp_cosignSession a = pa_cosignSessionPubkey (c_policy c) else False).
  { intros c' (pu & -> & _ & _ & Hq & Hbind & _)%queue_Ok. exists pu. split; [done|].
    apply queue_cosign in Hq. pose proof (bind_cosigner_spec _ _ _ _ _ Hq Hbind) as H.
    destruct (is_elevated a (c_policy c)); [|naive_solver].
    destruct H as (H1 & H2 & _ & _ & H3). rewrite H1 in *. unfold compute_cosign_digest in H3.
    destruct (cosignEncode _); [|done]. naive_solver. }
  split.
  - intros c' (pu & Hpu & H)%Hstored. exists pu. destruct (is_elevated a (c_policy c)); [|done]. naive_solver.
  - intros He. destruct (queue _ _ _ _ _ _) as [c'|] eqn:E; [|done].
    destruct (Hstored c' eq_refl) as (pu & _ & H). by rewrite He in H.
Qed.

(** ** Guards and their order *)

(** [PolicyConfig::get_protocol_cap]: [None] and zero are no limit. *)
Definition get_protocol_cap (p : PolicyAccount) (q : string) : option Z :=
  if pa_hasProtocolCaps p
  then match list_find (λ x, x = q) (pa_protocols p) with
       | Some (i, _) => Some (default 0 (pa_protocolCaps p !! i))
       | None => None
       end
  else None.

(** The build hash that the gate reads for a protocol; zero is no pin. *)
Definition pinned (p : PolicyAccount) (q : string) : list Z :=
  match list_find (λ x, x = q) (pa_protocols p) with
  | Some (i, _) => default NO_HASH (pa_protocolHashes p !! i)
  | None => NO_HASH
  end.

(** A cap under the convention that zero is no limit. *)
Definition cap_le (new old : Z) : Prop := old = 0 ∨ (new ≠ 0 ∧ new ≤ old).

(** No guard of [new] is weaker than that of [old].  The timelock, the session
    length and the delay of operator grants are not among the guards. *)
Record tightens (new old : PolicyAccount) : Prop := {
  t_daily : pa_dailySpendingCapUsd new ≤ pa_dailySpendingCapUsd old;
  t_maxTx : pa_maxTransactionSizeUsd new ≤ pa_maxTransactionSizeUsd old;
  t_destinations : pa_allowedDestinations new ⊆ pa_allowedDestinations old;
  t_protocols : pa_protocols new ⊆ pa_protocols old;
  t_floor : pa_stableBalanceFloor old ≤ pa_stableBalanceFloor new;
  t_recipient : cap_le (pa_perRecipientDailyCapUsd new) (pa_perRecipientDailyCapUsd old);
  t_caps q : q ∈ pa_protocols new →
    cap_le (default 0 (get_protocol_cap new q)) (default 0 (get_protocol_cap old q));
  t_slippage : pa_maxSlippageBps new ≤ pa_maxSlippageBps old;
  t_fee : pa_developerFeeRate new ≤ pa_developerFeeRate old;
  t_hours i : Z.testbit (pa_operatingHours new) i = true → Z.testbit (pa_operatingHours old) i = true;
  t_pins q : q ∈ pa_protocols new → pinned old q ≠ NO_HASH → pinned new q ≠ NO_HASH;
  t_cosign : pa_cosignRequired new = true;
  t_cosigner : pa_cosignSessionPubkey new = pa_cosignSessionPubkey old;
}.

Lemma opt_default {A} (test : A → bool) (R : A → A → Prop) (o : option A) (live : A) :
  R live live → (∀ a, test a = false → R a live) → opt_test test o = false → R (default live o) live.
Proof. intros ? Ht. destruct o; simpl; [apply Ht|done]. Qed.

Lemma weakens_cap_spec new live : weakens_cap new live = false ↔ cap_le new live.
Proof.
  unfold weakens_cap, cap_le. destruct (Z.eqb_spec live 0); [naive_solver|].
  destruct (Z.eqb_spec new 0); [|rewrite Z.ltb_ge]; intuition (lia || congruence).
Qed.

Lemma expands_spec new live : expands new live = false → new ⊆ live.
Proof.
  unfold expands. rewrite orb_false_iff. intros [_ H] d Hd.
  destruct (decide (d ∈ live)) as [|Hn]; [done|]. rewrite <-not_true_iff_false in H. destruct H.
  apply existsb_exists. exists d. split; [by apply list_elem_of_In|]. by rewrite bool_decide_false.
Qed.

Lemma same_protocol_spec {A} (test : A → A → bool) zero oldP newP old new q i j :
  same_protocol test zero oldP newP old new = false →
  list_find (λ x, x = q) oldP = Some (i, q) → list_find (λ x, x = q) newP = Some (j, q) →
  test (default zero (old !! i)) (default zero (new !! j)) = false.
Proof.
  unfold same_protocol. intros H Hi Hj. apply not_true_iff_false. intros Ht. rewrite <-not_true_iff_false in H.
  destruct H. apply existsb_exists. exists i. pose proof Hi as (Hl & _ & _)%list_find_Some.
  split; [apply in_seq; apply lookup_lt_Some in Hl; lia|]. by rewrite Hl, Hj.
Qed.

Lemma find_member (q : string) l : q ∈ l → ∃ i, list_find (λ x, x = q) l = Some (i, q).
Proof.
  intros Hq. destruct (list_find_elem_of (λ x, x = q) l q Hq eq_refl) as [[i y] H].
  pose proof H as (_ & -> & _)%list_find_Some. by exists i.
Qed.

Lemma hours_spec new live : Z.land new (Z.lnot live) = 0 →
  ∀ i, Z.testbit new i = true → Z.testbit live i = true.
Proof.
  intros H i Hi. destruct (Z.ltb_spec i 0) as [Hneg|Hpos]; [by rewrite Z.testbit_neg_r in Hi|].
  assert (Z.testbit (Z.land new (Z.lnot live)) i = false) as Hb by (rewrite H; apply Z.testbit_0_l).
  rewrite Z.land_spec, Hi, Z.lnot_spec in Hb by lia. simpl in Hb. by apply negb_false_iff in Hb.
Qed.

(** The two checks by identity: a protocol that stays keeps its cap and its
    pin. *)
Lemma caps_by_identity a p q :
  weakens_caps_by_identity a p = false → opt_test negb (qp_hasProtocolCaps a) = false →
  q ∈ pa_protocols (merge_policy a p) → q ∈ pa_protocols p →
  cap_le (default 0 (get_protocol_cap (merge_policy a p) q)) (default 0 (get_protocol_cap p q)).
Proof.
  intros Hw Hhas Hnew Hold. unfold get_protocol_cap.
  destruct (find_member q _ Hold) as [i Hi]. destruct (find_member q _ Hnew) as [j Hj]. rewrite Hi, Hj.
  destruct (pa_hasProtocolCaps p) eqn:Eh; [|by left].
  assert (Heff : pa_hasProtocolCaps (merge_policy a p) = true)
    by (simpl; rewrite Eh; destruct (qp_hasProtocolCaps a) as [[]|]; done).
  rewrite Heff. unfold weakens_caps_by_identity in Hw. simpl in Heff. rewrite Heff in Hw.
  apply (same_protocol_spec _ _ _ _ _ _ _ _ _ Hw Hi) in Hj. simpl in *. unfold cap_le.
  destruct (Z.eqb_spec (default 0 (pa_protocolCaps p !! i)) 0); [by left|]. right.
  apply orb_false_iff in Hj as [H1 H2]. apply Z.eqb_neq in H1. apply Z.ltb_ge in H2. done.
Qed.

Lemma pins_by_identity a p q :
  disarms_by_identity a p = false → q ∈ pa_protocols (merge_policy a p) → q ∈ pa_protocols p →
  pinned p q ≠ NO_HASH → pinned (merge_policy a p) q ≠ NO_HASH.
Proof.
  intros Hw Hnew Hold. unfold pinned.
  destruct (find_member q _ Hold) as [i Hi]. destruct (find_member q _ Hnew) as [j Hj]. rewrite Hi, Hj.
  apply (same_protocol_spec _ _ _ _ _ _ _ _ _ Hw Hi) in Hj. intros Hp. simpl in *.
  rewrite bool_decide_false in Hj by done. simpl in Hj. by apply bool_decide_eq_false in Hj.
Qed.

Lemma default_subset (o : option (list string)) live :
  opt_test (λ l, expands l live) o = false → default live o ⊆ live.
Proof. destruct o; simpl; [apply expands_spec|done]. Qed.

Lemma not_elevated_tightens a p :
  pa_cosignRequired p = true → is_elevated a p = false → tightens (merge_policy a p) p.
Proof.
  intros Hreq. unfold is_elevated. rewrite Hreq, andb_true_l, andb_true_r, !orb_false_iff.
  intros ((((((((((((((((H1 & H2) & H3) & H4) & H5) & H6) & H7) & H8) & H9) & H10) & H11) & H12
    ) & _) & H14) & _) & H16) & H17).
  pose proof (default_subset _ _ H4) as Hsub.
  split; simpl.
  - revert H1. apply (opt_default _ Z.le); [lia|]. intros z. by rewrite Z.ltb_ge.
  - revert H2. apply (opt_default _ Z.le); [lia|]. intros z. by rewrite Z.ltb_ge.
  - by apply default_subset.
  - done.
  - revert H5. apply (opt_default _ (λ x y, y ≤ x)); [lia|]. intros z. by rewrite Z.ltb_ge.
  - revert H6. apply (opt_default _ cap_le); [|intros z; by rewrite weakens_cap_spec].
    unfold cap_le. destruct (decide (pa_perRecipientDailyCapUsd p = 0)); [by left|right; lia].
  - intros q Hq. apply caps_by_identity; [done..|by apply Hsub].
  - revert H10. apply (opt_default _ Z.le); [lia|]. intros z. by rewrite Z.ltb_ge.
  - revert H11. apply (opt_default _ Z.le); [lia|]. intros z. by rewrite Z.ltb_ge.
  - revert H12. apply (opt_default _ (λ x y, ∀ i, Z.testbit x i = true → Z.testbit y i = true)); [done|].
    intros z. rewrite negb_false_iff, Z.eqb_eq. apply hours_spec.
  - intros q Hq. apply pins_by_identity; [done..|by apply Hsub].
  - destruct (qp_cosignRequired a) as [[]|]; done.
  - destruct (qp_cosignSessionPubkey a) as [k|]; [|done]. simpl in H17.
    by apply negb_false_iff, bool_decide_eq_true in H17.
Qed.

(** ** The transition system *)

Inductive label : Type :=
| Queued (a : QueuePolicyUpdateArgs)
| Approved (cosigner : string)
| Applied
| Cancelled
| Elsewhere.

(** The other instructions set the post-assertion flag of the policy and no
    guard of it. *)
Definition with_post_assertions (p : PolicyAccount) (n : Z) : PolicyAccount := {|
  pa_dailySpendingCapUsd := pa_dailySpendingCapUsd p; pa_maxTransactionSizeUsd := pa_maxTransactionSizeUsd p;
  pa_maxSlippageBps := pa_maxSlippageBps p; pa_developerFeeRate := pa_developerFeeRate p;
  pa_protocolMode := pa_protocolMode p; pa_protocols := pa_protocols p;
  pa_destinationMode := pa_destinationMode p; pa_allowedDestinations := pa_allowedDestinations p;
  pa_timelockDuration := pa_timelockDuration p; pa_sessionExpirySeconds := pa_sessionExpirySeconds p;
  pa_hasPostAssertions := n; pa_createdAtSlot := pa_createdAtSlot p;
  pa_operatingHours := pa_operatingHours p; pa_autoPromoteGrays := pa_autoPromoteGrays p;
  pa_autoRevokeThreshold := pa_autoRevokeThreshold p; pa_stableBalanceFloor := pa_stableBalanceFloor p;
  pa_perRecipientDailyCapUsd := pa_perRecipientDailyCapUsd p; pa_cosignRequired := pa_cosignRequired p;
  pa_cosignSessionPubkey := pa_cosignSessionPubkey p;
  pa_operatorGrantDelaySeconds := pa_operatorGrantDelaySeconds p; pa_hasProtocolCaps := pa_hasProtocolCaps p;
  pa_protocolCaps := pa_protocolCaps p; pa_protocolHashes := pa_protocolHashes p |}.

(** The interference also covers the status, the agents, the version and the
    graylist; a transfer of ownership is outside the system. *)
Definition elsewhere (st : VaultStatus) (v : VaultAccount) (n version : Z) (gray : list (string * Z)) (c : Chain)
    : Chain := {|
  c_owner := c_owner c; c_status := st; c_vault := v; c_policy := with_post_assertions (c_policy c) n;
  c_version := version; c_graylist := gray; c_pending := c_pending c |}.

Inductive step (sha256 : list Z → list Z) (protected : string → bool) : Chain → label → Chain → Prop :=
| queue_step now slot a c c' : queue sha256 protected now slot a c = Ok c' → step sha256 protected c (Queued a) c'
| approve_step now slot k c c' : approve now slot k c = Ok c' → step sha256 protected c (Approved k) c'
| apply_step now slot signer c c' :
    apply_pending sha256 now slot signer c = Ok c' → step sha256 protected c Applied c'
| cancel_step signer c c' : cancel signer c = Ok c' → step sha256 protected c Cancelled c'
| elsewhere_step st v n version gray c : step sha256 protected c Elsewhere (elsewhere st v n version gray c).

(** Runs, with the newest label first. *)
Inductive run (sha256 : list Z → list Z) (protected : string → bool) (c0 : Chain) : list label → Chain → Prop :=
| run_nil : run sha256 protected c0 [] c0
| run_step hist l c c' :
    run sha256 protected c0 hist c → step sha256 protected c l c' → run sha256 protected c0 (l :: hist) c'.

Definition quiet : list label → Prop := Forall (λ l, l = Elsewhere).

(** Since it was queued, nothing but interference happened to the update, apart
    from the approval by [k]. *)
Definition queued_since (hist : list label) (a : QueuePolicyUpdateArgs) : Prop :=
  ∃ l1 l2, hist = l1 ++ Queued a :: l2 ∧ quiet l1.

Definition approved_since (hist : list label) (k : string) (a : QueuePolicyUpdateArgs) : Prop :=
  ∃ l1 l2, hist = l1 ++ Approved k :: l2 ∧ quiet l1 ∧ queued_since l2 a.

(** The invariant of the pending account. *)
Record pending_ok (hist : list label) (c : Chain) (pu : PendingUpdate) : Prop := {
  po_history : if pu_approved pu then approved_since hist (pa_cosignSessionPubkey (c_policy c)) (pu_args pu)
               else queued_since hist (pu_args pu);
  po_session : is_elevated (pu_args pu) (c_policy c) = true →
    pu_cosignSession pu = pa_cosignSessionPubkey (c_policy c) ∧ pu_cosignSession pu ≠ DEFAULT_COSIGN_SESSION ∧
    pu_cosignSession pu ≠ c_owner c;
}.

Definition chain_ok (hist : list label) (c : Chain) : Prop := ∀ pu, c_pending c = Some pu → pending_ok hist c pu.

Lemma the_pending_Ok c pu : the_pending c = Ok pu → c_pending c = Some pu.
Proof. unfold the_pending. destruct (c_pending c); naive_solver. Qed.

Lemma queue_preserves sha256 protected now slot a c c' hist :
  queue sha256 protected now slot a c = Ok c' → chain_ok (Queued a :: hist) c'.
Proof.
  intros (pu & -> & _ & Hown & Hq & Hb & <- & _ & _ & Happ & _)%queue_Ok pu' [= <-]. apply queue_cosign in Hq.
  pose proof (bind_cosigner_spec _ _ _ _ _ Hq Hb) as Hs. split; simpl.
  - rewrite Happ. exists [], hist. split; [done|apply Forall_nil_2].
  - intros He. rewrite He in Hs. destruct Hs as (H1 & H2 & H3 & H4 & _). rewrite <-Hown. naive_solver.
Qed.

Lemma approve_preserves now slot k c c' hist :
  approve now slot k c = Ok c' → chain_ok hist c → chain_ok (Approved k :: hist) c'.
Proof.
  unfold approve. intros H Hok. apply bind_Ok_inv in H as (pu & Hpu & H). apply the_pending_Ok in Hpu.
  do 2 apply bind_Ok_inv in H as ([] & _ & H). apply bind_Ok_inv in H as ([] & Hk & H).
  apply bind_Ok_inv in H as ([] & Happ & H). do 2 apply bind_Ok_inv in H as ([] & _ & H). injection H as <-.
  apply throw_if_Ok in Hk, Happ. apply negb_false_iff, bool_decide_eq_true in Hk as ->.
  destruct (Hok pu Hpu) as [Hh Hs]. rewrite Happ in Hh. intros pu' [= <-]. split; simpl; [|exact Hs].
  exists [], hist. split; [done|]. split; [apply Forall_nil_2|done].
Qed.

Lemma elsewhere_preserves st v n version gray c hist :
  chain_ok hist c → chain_ok (Elsewhere :: hist) (elsewhere st v n version gray c).
Proof.
  intros Hok pu Hpu. destruct (Hok pu Hpu) as [Hh Hs]. split; [|exact Hs]. simpl.
  assert (Hq : ∀ h a, queued_since h a → queued_since (Elsewhere :: h) a).
  { intros h a (l1 & l2 & -> & Hl). exists (Elsewhere :: l1), l2. split; [done|by apply Forall_cons_2]. }
  destruct (pu_approved pu); [|by apply Hq]. destruct Hh as (l1 & l2 & -> & Hl & H).
  exists (Elsewhere :: l1), l2. split_and!; [done|by apply Forall_cons_2|done].
Qed.

Lemma apply_Ok sha256 now slot signer c c' :
  apply_pending sha256 now slot signer c = Ok c' →
  ∃ pu, c_pending c = Some pu ∧ c_policy c' = merge_policy (pu_args pu) (c_policy c) ∧ c_pending c' = None ∧
    check_pending sha256 now slot c pu = Ok tt.
Proof.
  unfold apply_pending. intros H. apply bind_Ok_inv in H as ([] & _ & H). apply bind_Ok_inv in H as (pu & Hpu & H).
  apply bind_Ok_inv in H as ([] & Hc & H). do 2 apply bind_Ok_inv in H as ([] & _ & H).
  apply bind_Ok_inv in H as (gray & _ & H). do 3 apply bind_Ok_inv in H as ([] & _ & H). injection H as <-.
  exists pu. split_and!; [by apply the_pending_Ok|done|done|done].
Qed.

Lemma run_reaches sha256 protected c0 hist c :
  c_pending c0 = None → run sha256 protected c0 hist c → chain_ok hist c.
Proof.
  intros H0. induction 1 as [|hist l c c' _ IH Hstep]; [intros pu; congruence|].
  inversion Hstep as [now slot a ? ? H|now slot k ? ? H|now slot s ? ? H|s ? ? H|]; subst.
  - by eapply queue_preserves.
  - by eapply approve_preserves.
  - apply apply_Ok in H as (pu & _ & _ & H & _). intros pu' Hp. congruence.
  - unfold cancel in H. apply bind_Ok_inv in H as ([] & _ & H). apply bind_Ok_inv in H as (pu & _ & [= <-]).
    by intros pu'.
  - by apply elsewhere_preserves.
Qed.

(** C19: No guard is weakened behind the cosigner's back.  Start from a vault with
    no pending update and let it run through any interleaving of queueing,
    approving, applying, cancelling and the other instructions but the transfer
    of ownership ([Ownership]).  When an update
    is applied to a vault that requires cosigning and the new policy is weaker in
    any guard (a cap, an allowlist, the floor, slippage, fee, hours, a build pin,
    the cosigning itself), then it is the last update queued, and since it was
    queued the bound cosigner, who is not the owner, approved it. *)
Theorem weakened_policy_was_cosigned (sha256 : list Z → list Z) (protected : string → bool) (c0 c c' : Chain)
    (hist : list label) (now slot : Z) (signer : string) :
  c_pending c0 = None → run sha256 protected c0 hist c →
  apply_pending sha256 now slot signer c = Ok c' →
  pa_cosignRequired (c_policy c) = true → ¬ tightens (c_policy c') (c_policy c) →
  ∃ a, c_policy c' = merge_policy a (c_policy c) ∧
    approved_since hist (pa_cosignSessionPubkey (c_policy c)) a ∧ pa_cosignSessionPubkey (c_policy c) ≠ c_owner c.
Proof.
  intros H0 Hrun (pu & Hpu & Hm & _ & Hc)%apply_Ok Hreq Hweak. exists (pu_args pu). split; [done|].
  destruct (run_reaches _ _ _ _ _ H0 Hrun pu Hpu) as [Hh Hs].
  destruct (is_elevated (pu_args pu) (c_policy c)) eqn:He.
  2: { destruct Hweak. rewrite Hm. by apply not_elevated_tightens. }
  destruct (Hs eq_refl) as (Hk & Hd & Hown). rewrite <-Hk. split; [|done].
  unfold check_pending in Hc. rewrite !bind_unit_Ok_iff, !throw_if_Ok_iff in Hc. destruct Hc as (_ & _ & Happ & _).
  assert (Hn : no_cosign pu = false) by (unfold no_cosign; rewrite (bool_decide_false (_ = DEFAULT_COSIGN_SESSION));
    [apply andb_false_r|done]).
  rewrite Hn in Happ. apply negb_false_iff in Happ. by rewrite Happ, <-Hk in Hh.
Qed.

(** ** Which queued updates can be applied *)

Lemma is_ok_bind_unit {E A} (m : result E unit) (k : result E A) :
  is_ok (_ ← m; k) = true ↔ m = Ok tt ∧ is_ok k = true.
Proof. destruct m as [[]|]; simpl; naive_solver. Qed.

Lemma and_compat (A B C D : Prop) : (A ↔ C) → (B ↔ D) → (A ∧ B ↔ C ∧ D).
Proof. tauto. Qed.

(** The live digest of the merged policy is the one the queue recomputed. *)
Lemma effective_is_merged a p v agentSet :
  effective_fields a p v agentSet = live_fields (merge_policy a p) v (pa_hasPostAssertions p) agentSet.
Proof. reflexivity. Qed.

(** Every check of [apply_pending] that the queue has already made. *)
Lemma queue_implies sha256 protected closed frozen p v a :
  queue_policy_update sha256 protected closed frozen p v a = Ok tt →
  closed = false ∧ frozen = false ∧
  reject_opt (λ t, t <? 1800) (qp_timelockDuration a) "TimelockTooShort" = Ok tt ∧
  reject_opt (λ t, 172800 <? t) (qp_timelockDuration a) "TimelockTooLong" = Ok tt ∧
  check_digest sha256 v a p = Ok tt ∧
  (∀ owner pu, (is_elevated a p = true → pu_cosignSession pu = pa_cosignSessionPubkey p ∧
                               pu_cosignSession pu ≠ DEFAULT_COSIGN_SESSION) →
     let m := merge_policy a p in
     check_merged owner v a pu p = Ok tt ↔
       (pa_cosignSessionPubkey m = DEFAULT_COSIGN_SESSION ∨ pa_cosignSessionPubkey m ≠ owner) ∧
       (qp_cosignRequired a = Some true → ∃ k, qp_cosignSessionPubkey a = Some k ∧ k ≠ DEFAULT_COSIGN_SESSION) ∧
       (pa_cosignRequired m = true → pa_cosignSessionPubkey m ≠ DEFAULT_COSIGN_SESSION) ∧
       (va_observeOnly v = true ∨ pa_protocols m ≠ [] ∨ pa_allowedDestinations m ≠ [])).
Proof.
  unfold queue_policy_update, check_update_limits. rewrite !bind_unit_Ok_iff, !throw_if_Ok_iff.
  intros (Hcl & Hfr & _ & (Hpm & Hdm & _ & _ & _ & _ & _ & Ht1 & Ht2 & Hdel & _ & _ & Hh) & Hcaps & _ & Hdig).
  split_and!; [done..|by rewrite <-Hdig|]. intros owner pu Hel. set (m := merge_policy a p).
  assert (Hdis : opt_test negb (qp_cosignRequired a) && pa_cosignRequired p &&
     (negb (bool_decide (pu_cosignSession pu = pa_cosignSessionPubkey p)) ||
      bool_decide (pu_cosignSession pu = DEFAULT_COSIGN_SESSION)) = false).
  { destruct (opt_test negb (qp_cosignRequired a) && pa_cosignRequired p) eqn:E; [|done].
    destruct Hel as [-> Hd]; [unfold is_elevated; rewrite E; by rewrite orb_true_r|].
    by rewrite bool_decide_true, bool_decide_false by done. }
  assert (Hal : pa_hasProtocolCaps m && negb (bool_decide (length (pa_protocolCaps m) = length (pa_protocols m)))
     = false).
  { unfold check_caps_alignment in Hcaps. subst m. simpl. destruct (default _ (qp_hasProtocolCaps a)); [|done].
    rewrite bind_unit_Ok_iff, !throw_if_Ok_iff in Hcaps. by destruct Hcaps as [_ ->]. }
  unfold check_merged. fold m. cbv zeta. clearbody m. rewrite Hdm, Hh, Hdel, Hpm, Hdis, Hal. simpl.
  rewrite !bind_unit_Ok_iff, !throw_if_Ok_iff.
  apply and_compat; [|apply and_compat; [|apply and_compat]].
  - rewrite andb_false_iff, negb_false_iff, bool_decide_eq_true, bool_decide_eq_false. done.
  - clear. destruct (qp_cosignRequired a) as [[]|]; simpl; [|by split..].
    destruct (qp_cosignSessionPubkey a) as [k|]; simpl.
    + rewrite negb_involutive, bool_decide_eq_false. split; [by exists k|].
      intros H. by destruct (H eq_refl) as (? & [= <-] & ?).
    + split; [done|]. intros H. by destruct (H eq_refl) as (? & ? & _).
  - destruct (pa_cosignRequired m); simpl; [|split; [by intros _ H|done]].
    rewrite bool_decide_eq_false. split; [done|intros H; by apply H].
  - destruct (va_observeOnly v); simpl; [split; [by left|done]|].
    rewrite andb_false_iff, !bool_decide_eq_false. split; [by right|]. by intros [|].
Qed.

(** An elevated update waits for its cosigner; the others are ready. *)
Definition cosigned (now slot : Z) (c : Chain) (a : QueuePolicyUpdateArgs) (queued : Chain) : result string Chain :=
  if is_elevated a (c_policy c) then approve now slot (pa_cosignSessionPubkey (c_policy c)) queued else Ok queued.

(** After the timelock the bound cosigner can approve, and then the pending
    account passes its own checks until the window closes. *)
Lemma cosigned_ready sha256 protected now0 slot0 a c c1 now now' slot slot' :
  queue sha256 protected now0 slot0 a c = Ok c1 → now0 + pa_timelockDuration (c_policy c) ≤ now → now ≤ now' →
  slot0 ≤ slot → slot ≤ slot' < slot0 + MAX_APPLY_AGE_SLOTS_TIMELOCKED_ADMIN →
  ∃ pu, cosigned now slot c a c1 = Ok (with_pending c (Some pu)) ∧ pu_args pu = a ∧
    check_pending sha256 now' slot' (with_pending c (Some pu)) pu = Ok tt ∧
    (is_elevated a (c_policy c) = true → pu_cosignSession pu = pa_cosignSessionPubkey (c_policy c) ∧
                                         pu_cosignSession pu ≠ DEFAULT_COSIGN_SESSION).
Proof.
  intros (pu & -> & _ & _ & Hq & Hb & Hargs & Hex & Hsl & Happ & Hver)%queue_Ok Hnow Hnow' Hs0 Hs.
  pose proof (bind_cosigner_spec _ _ _ _ _ (queue_cosign _ _ _ _ _ _ _ Hq) Hb) as Hsp.
  apply queue_implies in Hq as (Hcl & Hfr & _). apply bool_decide_eq_false in Hcl, Hfr.
  assert (Hact : c_status c = Active) by (by destruct (c_status c)).
  assert (Ht : (now <? pu_executesAt pu) = false) by (apply Z.ltb_ge; lia).
  assert (Ht' : (now' <? pu_executesAt pu) = false) by (apply Z.ltb_ge; lia).
  unfold cosigned, check_pending, is_active. destruct (is_elevated a (c_policy c)).
  - destruct Hsp as (_ & Hk & Hd & _ & Hdig). unfold approve, is_active. simpl.
    rewrite Hact, Ht, Happ, Hver, Z.eqb_refl, (bool_decide_false _ Hd), !bool_decide_true by done. simpl.
    eexists. split; [reflexivity|]. split; [done|]. split; [|done].
    unfold no_cosign. simpl. rewrite (bool_decide_false (_ = DEFAULT_COSIGN_SESSION)), andb_false_r by done. simpl.
    rewrite Ht', Z.eqb_refl. simpl. rewrite Hargs, Hdig. simpl. rewrite bool_decide_true by done.
    rewrite (proj2 (Z.ltb_ge slot' slot)), (proj2 (Z.leb_gt _ _)); [done|lia..].
  - destruct Hsp as (Hk & Hd & _). exists pu. split; [done|]. split; [done|]. split; [|done].
    unfold no_cosign. rewrite !bool_decide_true by done. simpl. rewrite Ht', Hsl. simpl.
    rewrite (proj2 (Z.ltb_ge slot' slot0)), (proj2 (Z.leb_gt _ _)); [done|lia..].
Qed.

(** C29: Which queued updates take effect, on a vault that is not touched in
    between.  Once the program has accepted an update at [now0], the bound
    cosigner of an elevated one can approve it at any time [now] after the
    timelock; and at any later time [now'] before the window closes, the vault's
    owner, status, agents, policy, version and pending update being what they
    were, the owner's apply succeeds exactly when: the graylist has room, a key
    newly bound as cosigner is not the owner's, cosigning is enabled only together
    with a key and never left without one, an active vault keeps a destination or a
    protocol, and the version counter does not overflow.  What it leaves is the
    policy merged with the update, under the next version and with nothing
    pending. *)
Theorem queued_update_takes_effect (sha256 : list Z → list Z) (protected : string → bool)
    (now0 slot0 now now' slot slot' : Z) (a : QueuePolicyUpdateArgs) (c c1 : Chain) :
  queue sha256 protected now0 slot0 a c = Ok c1 → now0 + pa_timelockDuration (c_policy c) ≤ now → now ≤ now' →
  slot0 ≤ slot → slot ≤ slot' < slot0 + MAX_APPLY_AGE_SLOTS_TIMELOCKED_ADMIN →
  ∃ c2, cosigned now slot c a c1 = Ok c2 ∧
    let m := merge_policy a (c_policy c) in
    (is_ok (apply_pending sha256 now' slot' (c_owner c) c2) = true ↔
      is_ok (gray_destinations now' a (c_policy c) (c_graylist c)) = true ∧
      (pa_cosignSessionPubkey m = DEFAULT_COSIGN_SESSION ∨ pa_cosignSessionPubkey m ≠ c_owner c) ∧
      (qp_cosignRequired a = Some true → ∃ k, qp_cosignSessionPubkey a = Some k ∧ k ≠ DEFAULT_COSIGN_SESSION) ∧
      (pa_cosignRequired m = true → pa_cosignSessionPubkey m ≠ DEFAULT_COSIGN_SESSION) ∧
      (va_observeOnly (c_vault c) = true ∨ pa_protocols m ≠ [] ∨ pa_allowedDestinations m ≠ []) ∧
      c_version c < U64_MAX) ∧
    (∀ c3, apply_pending sha256 now' slot' (c_owner c) c2 = Ok c3 →
      c_policy c3 = m ∧ c_version c3 = c_version c + 1 ∧ c_pending c3 = None ∧ c_vault c3 = c_vault c).
Proof.
  intros Hq Hnow Hnow' Hs0 Hs.
  destruct (cosigned_ready _ _ _ _ _ _ _ _ _ _ _ Hq Hnow Hnow' Hs0 Hs) as (pu & Hc & Ha & Hp & Hses).
  exists (with_pending c (Some pu)). split; [exact Hc|]. cbv zeta.
  apply queue_Ok in Hq as (_ & _ & _ & _ & Hq & _).
  apply queue_implies in Hq as (_ & _ & Ht1 & Ht2 & Hd & Hm). specialize (Hm (c_owner c) pu Hses). split.
  - unfold apply_pending. rewrite is_ok_bind_unit. simpl. rewrite is_ok_bind_unit, Ha, Ht1, Ht2. simpl.
    rewrite bool_decide_true by done. simpl. rewrite Hp.
    destruct (gray_destinations _ _ _ _) as [gray|]; simpl; [|naive_solver].
    rewrite !is_ok_bind_unit, Hm, Hd, throw_if_Ok_iff, Z.ltb_ge. simpl. clear. intuition (auto || lia).
  - intros c3 H. unfold apply_pending in H. simpl in H. inv_ok. done.
Qed.

(** Cosigning turned on without a key.  The client builds the update and the
    program queues it, but no apply of it ever succeeds, whatever the state of
    the vault, even one that still holds an earlier key. *)
Theorem enabling_cosign_without_key_is_stuck (sha256 : list Z → list Z) (live : PolicyAccount) (v : VaultAccount)
    (owner vault session : string) (changes : PolicyChanges) (a : QueuePolicyUpdateArgs)
    (now slot : Z) (signer : string) (c : Chain) (pu : PendingUpdate) :
  policy_update_args sha256 (Ok live) (Ok v) owner vault changes session = Ok a →
  ch_cosignRequired changes = Some true → ch_cosignSessionPubkey changes = None →
  c_pending c = Some pu → pu_args pu = a → is_ok (apply_pending sha256 now slot signer c) = false.
Proof.
  intros (live' & v' & mode & timelock & arg & hashes & disarms & agentSet & b & _ & _ & _ & _ & _ & _ & _ & ->)%policy_update_args_Ok.
  intros Hreq Hkey Hpu Hargs. apply not_true_iff_false. unfold apply_pending, the_pending.
  rewrite is_ok_bind_unit, Hpu. simpl. rewrite !is_ok_bind_unit, Hargs. intros (_ & _ & _ & _ & H).
  destruct (gray_destinations _ _ _ _) as [gray|]; [|done]. simpl in H. rewrite is_ok_bind_unit in H.
  destruct H as [H _]. unfold check_merged in H. rewrite !bind_unit_Ok_iff, !throw_if_Ok_iff in H.
  destruct H as (_ & _ & _ & _ & _ & _ & H & _). simpl in H. by rewrite Hreq, Hkey in H.
Qed.

Module LifecycleDemo.
Definition owner : string := "So11111111111111111111111111111111111111112".
Definition cosigner : string := MutationDemo.usdc.

Definition vault (cosign : bool) : Chain := {|
  c_owner := owner; c_status := Active; c_vault := MutationDemo.account; c_policy := MutationDemo.policy cosign;
  c_version := 3; c_graylist := []; c_pending := None |}.

(** A third protocol for a vault that requires cosigning. *)
Definition widening : PolicyChanges := MutationDemo.apps [MutationDemo.jupiter; MutationDemo.token; cosigner].

(** Turning cosigning on, with or without a key. *)
Definition enabling (key : option string) : PolicyChanges := {|
  ch_dailyCap := None; ch_maxPerTrade := None; ch_approvedApps := None; ch_protocolMode := None;
  ch_hasProtocolCaps := None; ch_protocolCaps := None; ch_maxSlippageBps := None; ch_allowedDestinations := None;
  ch_developerFeeRate := None; ch_sessionExpirySeconds := None; ch_timelock := None; ch_destinationMode := None;
  ch_stableBalanceFloor := None; ch_perRecipientDailyCapUsd := None; ch_cosignRequired := Some true;
  ch_cosignSessionPubkey := key; ch_operatorGrantDelaySeconds := None; ch_protocolHashes := None |}.

Definition request (cosign : bool) (changes : PolicyChanges) (session : string)
    : result owner_exn QueuePolicyUpdateArgs :=
  policy_update_args checksum32 (Ok (MutationDemo.policy cosign)) (Ok MutationDemo.account) owner "Vault" changes
    session.

Definition bundle_args : CosignArgs := {| ca_owner := owner; ca_fields := {|
  cosignSession := cosigner; CosignDigest.dailySpendingCapUsd := Undefined; maxTransactionAmountUsd := Null;
  CosignDigest.allowedDestinations := Undefined;
  CosignDigest.protocols := Val [MutationDemo.jupiter; MutationDemo.token; cosigner];
  CosignDigest.stableBalanceFloor := Undefined; CosignDigest.perRecipientDailyCapUsd := Undefined;
  CosignDigest.hasProtocolCaps := Undefined; CosignDigest.protocolCaps := Undefined;
  CosignDigest.cosignRequired := Undefined |} |}.

(** Queue at time 0, approve (or not) after the timelock, apply. *)
Definition life (cosign approved : bool) (changes : PolicyChanges) (session : string) : result string Chain :=
  match request cosign changes session with
  | Throw _ => Throw "client"
  | Ok a =>
      c1 ← queue checksum32 (λ _, false) 0 10 a (vault cosign);
      c2 ← (if approved : bool then approve 1800 20 cosigner c1 else Ok c1);
      apply_pending checksum32 1800 30 owner c2
  end.
Definition protocols_after (r : result string Chain) : result string nat :=
  c ← r; Ok (length (pa_protocols (c_policy c))).
End LifecycleDemo.
Import LifecycleDemo.

(** A widening needs its session at the queue and the approval at the apply;
    cosigning that is turned on without a key is queued and can never be
    applied. *)
Example lives :
  protocols_after (life true true widening cosigner) = Ok 3%nat ∧
  protocols_after (life true false widening cosigner) = Throw "ErrCosignRequired" ∧
  protocols_after (life true true widening DEFAULT_COSIGN_SESSION) = Throw "ErrCosignRequired" ∧
  protocols_after (life false false widening DEFAULT_COSIGN_SESSION) = Ok 3%nat ∧
  protocols_after (life false false widening cosigner) = Throw "InvalidPermissions" ∧
  protocols_after (life false false (enabling None) DEFAULT_COSIGN_SESSION) = Throw "ErrCosignRequired" ∧
  protocols_after (life false false (enabling (Some cosigner)) DEFAULT_COSIGN_SESSION) = Ok 2%nat.
Proof. by vm_compute. Qed.

(** The request that the demonstrations queue. *)
Definition queued_demo (cosign : bool) (changes : PolicyChanges) (session : string) : result string Chain :=
  match request cosign changes session with
  | Throw _ => Throw "client"
  | Ok a => queue checksum32 (λ _, false) 0 10 a (vault cosign)
  end.

(** The built arguments [a] and the queued state [c1]. *)
Ltac queued_with a c1 E Hq cosign changes session :=
  assert (Hq : is_ok (queued_demo cosign changes session) = true) by (vm_compute; reflexivity);
  unfold queued_demo in Hq;
  destruct (request cosign changes session) as [a|] eqn:E; [|discriminate Hq];
  destruct (queue checksum32 (λ _, false) 0 10 a (vault cosign)) as [c1|] eqn:Ec; [clear Hq; rename Ec into Hq|discriminate Hq].

Lemma requests_demo a : request true widening cosigner = Ok a → requests (ca_fields bundle_args) a.
Proof.
  unfold request. intros H. apply policy_update_args_Ok in H.
  destruct H as (live & v & mode & timelock & arg & hashes & disarms & agentSet & b & _ & _ & _ & _ & _ & _ & _ & ->).
  repeat split.
Qed.

Lemma cosign_bundle_is_what_the_program_stores_witness :
  ∃ b a c' pu, buildCosignBundle checksum32 bundle_args = Ok b ∧
    queue checksum32 (λ _, false) 0 10 a (vault true) = Ok c' ∧ c_pending c' = Some pu ∧
    pu_cosignDigest pu = cb_cosignDigest b.
Proof.
  assert (Eb : is_ok (buildCosignBundle checksum32 bundle_args) = true) by (vm_compute; reflexivity).
  destruct (buildCosignBundle checksum32 bundle_args) as [b|] eqn:E; [clear Eb|discriminate Eb].
  queued_with a c1 Ea Hq true widening cosigner.
  destruct (proj1 (cosign_bundle_is_what_the_program_stores checksum32 bundle_args b a (λ _, false) 0 10 (vault true)
    E (requests_demo a Ea)) c1 Hq) as (pu & H1 & _ & H2 & _).
  exists b, a, c1, pu. exact (conj eq_refl (conj Hq (conj H1 H2))).
Defined.

Lemma queued_update_takes_effect_witness :
  ∃ a c1 c2, queue checksum32 (λ _, false) 0 10 a (vault true) = Ok c1 ∧
    cosigned 1800 20 (vault true) a c1 = Ok c2.
Proof.
  queued_with a c1 Ea Hq true widening cosigner.
  assert (Ht : 0 + pa_timelockDuration (c_policy (vault true)) ≤ 1800) by (apply Z.leb_le; reflexivity).
  assert (Hs : 20 ≤ 30 < 10 + MAX_APPLY_AGE_SLOTS_TIMELOCKED_ADMIN)
    by (split; [apply Z.leb_le|apply Z.ltb_lt]; reflexivity).
  destruct (queued_update_takes_effect checksum32 (λ _, false) 0 10 1800 1900 20 30 a (vault true) c1 Hq Ht
    ltac:(apply Z.leb_le; reflexivity) ltac:(apply Z.leb_le; reflexivity) Hs) as (c2 & H & _).
  exists a, c1, c2. exact (conj Hq H).
Defined.

(** The approved widening, step by step. *)
Definition widened (c2 c3 : Chain) : bool :=
  pa_cosignRequired (c_policy c2) && bool_decide (cosigner ∈ pa_protocols (c_policy c3)) &&
  bool_decide (cosigner ∉ pa_protocols (c_policy c2)).

Definition approved_demo : bool :=
  match queued_demo true widening cosigner with
  | Throw _ => false
  | Ok c1 => match approve 1800 20 cosigner c1 with
             | Throw _ => false
             | Ok c2 => match apply_pending checksum32 1800 30 owner c2 with
                        | Throw _ => false
                        | Ok c3 => widened c2 c3
                        end
             end
  end.

Lemma widened_weakens c2 c3 : widened c2 c3 = true →
  pa_cosignRequired (c_policy c2) = true ∧ ¬ tightens (c_policy c3) (c_policy c2).
Proof.
  unfold widened. rewrite !andb_true_iff, !bool_decide_eq_true. intros [[Hr Hin] Hout]. split; [done|].
  intros Ht. by apply Hout, (t_protocols _ _ Ht).
Qed.

Lemma weakened_policy_was_cosigned_witness :
  ∃ c2 c3 hist a, run checksum32 (λ _, false) (vault true) hist c2 ∧
    apply_pending checksum32 1800 30 owner c2 = Ok c3 ∧
    approved_since hist (pa_cosignSessionPubkey (c_policy c2)) a.
Proof.
  assert (Hd : approved_demo = true) by (vm_compute; reflexivity). unfold approved_demo in Hd.
  queued_with a c1 Ea Hq true widening cosigner.
  assert (Hd' : queued_demo true widening cosigner = Ok c1) by (unfold queued_demo; rewrite Ea; exact Hq).
  rewrite Hd' in Hd. destruct (approve 1800 20 cosigner c1) as [c2|] eqn:E2; [|discriminate Hd].
  destruct (apply_pending checksum32 1800 30 owner c2) as [c3|] eqn:E3; [|discriminate Hd].
  destruct (widened_weakens c2 c3 Hd) as [Hr Hw].
  pose proof (run_step _ _ _ _ _ _ _ (run_step _ _ _ _ _ _ _ (run_nil checksum32 (λ _, false) (vault true))
    (queue_step _ _ _ _ _ _ _ Hq)) (approve_step _ _ _ _ _ _ _ E2)) as Hrun.
  destruct (weakened_policy_was_cosigned checksum32 (λ _, false) (vault true) c2 c3 _ 1800 30 owner eq_refl Hrun E3
    Hr Hw) as (a' & _ & H & _).
  eexists c2, c3, _, a'. exact (conj Hrun (conj E3 H)).
Defined.

Lemma enabling_cosign_without_key_is_stuck_witness :
  ∃ c1, queued_demo false (enabling None) DEFAULT_COSIGN_SESSION = Ok c1 ∧
    is_ok (apply_pending checksum32 1800 30 owner c1) = false.
Proof.
  queued_with a c1 Ea Hq false (enabling None) DEFAULT_COSIGN_SESSION.
  exists c1. split; [unfold queued_demo; rewrite Ea; exact Hq|].
  destruct (queue_Ok _ _ _ _ _ _ _ Hq) as (pu & Hc & _ & _ & _ & _ & Hargs & _).
  assert (Hp : c_pending c1 = Some pu) by (rewrite Hc; reflexivity).
  exact (enabling_cosign_without_key_is_stuck checksum32 (MutationDemo.policy false) MutationDemo.account owner "Vault"
    DEFAULT_COSIGN_SESSION (enabling None) a 1800 30 owner c1 pu Ea eq_refl eq_refl Hp Hargs).
Defined.
