(* ===== verification/VerifiedBuild.v ===== *)
(** * The verified-build gate (program-hash.ts, policy/verified-build.ts)

    An owner pins the hash of a protocol's deployed executable; the program
    recomputes it on every use and refuses a build that differs.  The chain has
    four links: [getProgramDataHash] reads and hashes the executable, the policy
    update carries the hash to the account, [seal] supplies the program-data
    account, and the program's [enforce_verified_build_if_armed] compares.  The
    theorem composes them. *)

From S2P Require Import Prelude JsMap JsText JsValue CanonicalEncode PostAssertion CosignDigest PolicyDigest PolicyBinding.
From S2P Require Import Base64 SdkTypes IntentDigest StateResolver Seal VaultCreation Mutations PolicyLifecycle.

Local Open Scope Z_scope.

Definition BPF_LOADER_UPGRADEABLE_PROGRAM_ID : string := "BPFLoaderUpgradeab1e11111111111111111111111".
Definition PROGRAM_DATA_HEADER_LEN : nat := 45.

(** ** The client *)

(** An account as [getAccountInfo] returns it: [ra_data] is the base64 text. *)
Record RpcAccount : Type := { ra_owner : string; ra_data : list ascii }.

Section Client.
(** The address encoder, the address derivation and the hash. *)
Context (encode : string → list Z) (derive : string → list (list Z) → string) (sha256 : list Z → list Z).

Definition getProgramDataAddress (programId : string) : string :=
  derive BPF_LOADER_UPGRADEABLE_PROGRAM_ID [encode programId].

(** What [getProgramDataHash] throws. *)
Inductive hash_exn : Type := RpcFailure (e : jsv) | NotFound | WrongOwner | InvalidCharacter | TooSmall.

Definition base64ToUint8 (base64 : list ascii) : result hash_exn (list Z) :=
  match atob base64 with Some bytes => Ok bytes | None => Throw InvalidCharacter end.

Definition getProgramDataHash (getAccountInfo : string → result jsv (option RpcAccount)) (programId : string)
    : result hash_exn (list Z) :=
  let programDataAddress := getProgramDataAddress programId in
  match getAccountInfo programDataAddress with
  | Throw e => Throw (RpcFailure e)
  | Ok None => Throw NotFound
  | Ok (Some value) =>
      _ ← throw_if (negb (bool_decide (ra_owner value = BPF_LOADER_UPGRADEABLE_PROGRAM_ID))) WrongOwner;
      data ← base64ToUint8 (ra_data value);
      _ ← throw_if (bool_decide (length data ≤ PROGRAM_DATA_HEADER_LEN)%nat) TooSmall;
      Ok (sha256 (drop PROGRAM_DATA_HEADER_LEN data))
  end.

Definition computeVerifiedBuildHash := getProgramDataHash.

(** ** The ledger and the program *)

Record LedgerAccount : Type := { la_owner : string; la_data : list Z }.

(** An account that does not exist is owned by the system program and empty. *)
Definition SYSTEM_PROGRAM : string := "11111111111111111111111111111111".
Definition account_info (ledger : string → option LedgerAccount) (key : string) : LedgerAccount :=
  default {| la_owner := SYSTEM_PROGRAM; la_data := [] |} (ledger key).

(** A node that serves the ledger. *)
Definition node_of (ledger : string → option LedgerAccount) (key : string) : result jsv (option RpcAccount) :=
  Ok (a ← ledger key; Some {| ra_owner := la_owner a; ra_data := b64_encode (la_data a) |}).

Definition enforce_program_build_hash (ledger : string → option LedgerAccount) (key target : string)
    (expected : list Z) : result string unit :=
  let info := account_info ledger key in
  _ ← throw_if (negb (bool_decide (key = getProgramDataAddress target))) "ErrProgramDataUnresolvable";
  _ ← throw_if (negb (bool_decide (la_owner info = BPF_LOADER_UPGRADEABLE_PROGRAM_ID))) "ErrProgramDataUnresolvable";
  _ ← throw_if (bool_decide (length (la_data info) ≤ PROGRAM_DATA_HEADER_LEN)%nat) "ErrProgramDataUnresolvable";
  throw_if (negb (bool_decide (sha256 (drop PROGRAM_DATA_HEADER_LEN (la_data info)) = expected)))
    "ErrProgramBuildMismatch".

Definition enforce_verified_build_if_armed (ledger : string → option LedgerAccount) (p : PolicyAccount)
    (target : string) (remaining_accounts : list string) : result string unit :=
  match list_find (λ q, q = target) (pa_protocols p) with
  | None => Throw "ProtocolNotAllowed"
  | Some (idx, _) =>
      match pa_protocolHashes p !! idx with
      | None => Ok tt
      | Some expected =>
          if bool_decide (expected = NO_HASH) then Ok tt
          else match list_find (λ k, k = getProgramDataAddress target) remaining_accounts with
               | None => Throw "ErrProgramDataUnresolvable"
               | Some (_, key) => enforce_program_build_hash ledger key target expected
               end
      end
  end.

(** ** What is deployed *)

(** The executable of a program, when it is an upgradeable deployment. *)
Definition deployed_elf (ledger : string → option LedgerAccount) (target : string) : option (list Z) :=
  let info := account_info ledger (getProgramDataAddress target) in
  if bool_decide (la_owner info = BPF_LOADER_UPGRADEABLE_PROGRAM_ID) &&
     bool_decide (PROGRAM_DATA_HEADER_LEN < length (la_data info))%nat
  then Some (drop PROGRAM_DATA_HEADER_LEN (la_data info)) else None.

(** A hash is produced only over a deployed executable. *)
Lemma hash_is_of_deployed ledger target :
  (∀ k a, ledger k = Some a → bytes_ok (la_data a)) →
  match getProgramDataHash (node_of ledger) target with
  | Ok h => ∃ elf, deployed_elf ledger target = Some elf ∧ h = sha256 elf
  | Throw _ => deployed_elf ledger target = None
  end.
Proof.
  intros Hok. unfold getProgramDataHash, node_of, deployed_elf, account_info.
  destruct (ledger (getProgramDataAddress target)) as [a|] eqn:E; simpl; [|done].
  destruct (bool_decide (la_owner a = _)) eqn:Eo; simpl; [|done].
  unfold base64ToUint8. rewrite atob_encode by eauto. simpl.
  destruct (decide (length (la_data a) ≤ PROGRAM_DATA_HEADER_LEN)%nat) as [Hle|Hgt].
  - rewrite bool_decide_true by done. simpl. rewrite bool_decide_false; [done|lia].
  - rewrite bool_decide_false by done. simpl. rewrite bool_decide_true by lia. by eexists.
Qed.

(** The program's comparison on the account that the seal supplies. *)
Lemma gate_on_supplied ledger target expected :
  enforce_program_build_hash ledger (getProgramDataAddress target) target expected =
  match deployed_elf ledger target with
  | None => Throw "ErrProgramDataUnresolvable"
  | Some elf => if bool_decide (sha256 elf = expected) then Ok tt else Throw "ErrProgramBuildMismatch"
  end.
Proof.
  unfold enforce_program_build_hash, deployed_elf. rewrite (bool_decide_true (getProgramDataAddress _ = _)) by done. simpl.
  destruct (bool_decide (la_owner _ = _)); simpl; [|done].
  destruct (decide (length (la_data (account_info ledger (getProgramDataAddress target))) ≤ PROGRAM_DATA_HEADER_LEN)%nat)
    as [Hle|Hgt].
  - rewrite (bool_decide_true (length _ ≤ _)%nat) by done. simpl.
    rewrite (bool_decide_false (_ < length _)%nat) by lia. done.
  - rewrite (bool_decide_false (length _ ≤ _)%nat) by done. simpl.
    rewrite (bool_decide_true (_ < length _)%nat) by lia.
    by destruct (bool_decide (sha256 _ = expected)).
Qed.
End Client.

(** ** From the pin to the gate *)

(** Arming is refused for a program that is not on the allowlist and for a value
    that is not a 32-byte hash. *)
Lemma armed_is_listed sha256 live v owner vault session changes a target h :
  ch_protocolHashes changes = Some [(target, Arm h)] →
  policy_update_args sha256 (Ok live) (Ok v) owner vault changes session = Ok a →
  target ∈ pa_protocols live ∧ length h = 32%nat.
Proof.
  intros Hch H. apply policy_update_args_Ok in H.
  destruct H as (live' & v' & mode & timelock & arg & hashes & disarms & agentSet & b & [= <-] & _ & _ & Harm & _).
  unfold arm_hashes in Harm. rewrite Hch in Harm. destruct (ch_approvedApps changes); [done|].
  cbn [absent negb dx_if throw_if mbind result_bind default from_option id] in Harm.
  apply bind_Ok_inv in Harm as ([seeded dis] & Harm & _). simpl in Harm.
  apply bind_Ok_inv in Harm as ([seeded1 d1] & Harm & _).
  destruct (list_find _ _) as [[i q]|] eqn:Ef; [|done]. apply list_find_Some in Ef as (Hi & -> & _).
  apply bind_Ok_inv in Harm as ([] & Hlen & _). apply throw_if_Ok, negb_false_iff, bool_decide_eq_true in Hlen.
  split; [by eapply list_elem_of_lookup_2|done].
Qed.

(** The policy after the update is applied: the allowlist is unchanged and the
    target's own slot holds the hash. *)
Lemma armed_slot sha256 live v owner vault session changes a target h :
  policy_layout live → ch_protocolHashes changes = Some [(target, Arm h)] →
  policy_update_args sha256 (Ok live) (Ok v) owner vault changes session = Ok a →
  ∃ i, list_find (λ q, q = target) (pa_protocols (merge_policy a live)) = Some (i, target) ∧
       pa_protocolHashes (merge_policy a live) !! i = Some h.
Proof.
  intros Hlay Hch Ha. destruct (armed_is_listed _ _ _ _ _ _ _ _ _ _ Hch Ha) as [Hin _].
  assert (Hwf : jm_wf [(target, Arm h)]) by apply NoDup_singleton.
  destruct (armed_update _ _ _ _ _ _ _ _ _ Hlay Hwf Hch Ha) as (hashes & d & H1 & H2 & _ & _ & _ & Hget & _).
  simpl. rewrite H1, H2. simpl. destruct (find_member target _ Hin) as [i Hi]. exists i. split; [done|].
  rewrite Hget. apply list_find_Some in Hi as (Hl & _ & _). unfold asked. rewrite Hl. simpl.
  by rewrite bool_decide_true.
Qed.

(** C22: A pinned program cannot be swapped for another build.  The client hashes
    the target's executable as it is deployed, the owner's update arms that hash,
    and the update is applied.  From then on, for a transaction sealed from the
    new policy, the program's gate accepts the target exactly when the executable
    deployed at that moment has the hash of the one that was deployed when the
    pin was made; any other build is refused, and so is a target that no longer
    is an upgradeable deployment. *)
Theorem pinned_build_is_enforced (encode : string → list Z) (derive : string → list (list Z) → string)
    (sha256 : list Z → list Z) (before after : string → option LedgerAccount) (target owner vault session : string)
    (h : list Z) (changes : PolicyChanges) (a : QueuePolicyUpdateArgs) (c c' : Chain) (pu : PendingUpdate)
    (now slot : Z) (signer : string) (w : World) (state : ResolvedVaultState) :
  (∀ k acc, before k = Some acc → bytes_ok (la_data acc)) →
  computeVerifiedBuildHash encode derive sha256 (node_of before) target = Ok h →
  h ≠ NO_HASH → policy_layout (c_policy c) →
  ch_protocolHashes changes = Some [(target, Arm h)] →
  policy_update_args sha256 (Ok (c_policy c)) (Ok (c_vault c)) owner vault changes session = Ok a →
  c_pending c = Some pu → pu_args pu = a → apply_pending sha256 now slot signer c = Ok c' →
  pol_protocols (rs_policy state) = pa_protocols (c_policy c') →
  pol_protocolHashes (rs_policy state) = pa_protocolHashes (c_policy c') →
  w_getProgramDataAddress w = getProgramDataAddress encode derive →
  ∃ elf, deployed_elf encode derive before target = Some elf ∧
    enforce_verified_build_if_armed encode derive sha256 after (c_policy c') target (verified_build w state target) =
    match deployed_elf encode derive after target with
    | None => Throw "ErrProgramDataUnresolvable"
    | Some now_deployed =>
        if bool_decide (sha256 now_deployed = sha256 elf) then Ok tt else Throw "ErrProgramBuildMismatch"
    end.
Proof.
  intros Hbytes Hh Hnz Hlay Hch Ha Hpu Hargs (pu' & Hpu' & Hm & _)%apply_Ok Hp Hhs Hw.
  assert (pu' = pu) as -> by congruence. rewrite Hargs in Hm. destruct (armed_is_listed _ _ _ _ _ _ _ _ _ _ Hch Ha) as [_ Hlen].
  pose proof (hash_is_of_deployed encode derive sha256 before target Hbytes) as Hd.
  unfold computeVerifiedBuildHash in Hh. rewrite Hh in Hd. destruct Hd as (elf & Helf & ->). exists elf. split; [done|].
  destruct (armed_slot _ _ _ _ _ _ _ _ _ _ Hlay Hch Ha) as (i & Hi & Hslot). rewrite <-Hm in Hi, Hslot.
  unfold enforce_verified_build_if_armed, verified_build. rewrite Hp, Hhs, Hi, Hslot, Hw.
  rewrite bool_decide_false by done.
  assert (Harmed : existsb (λ b, negb (b =? 0)) (sha256 elf) = true).
  { destruct (existsb _ _) eqn:E; [done|]. destruct Hnz. apply (isAllZero_spec _ Hlen).
    unfold isAllZero. apply forallb_forall. intros b Hb. apply negb_false_iff. apply not_true_iff_false. intros Hneg.
    apply not_true_iff_false in E. destruct E. apply existsb_exists. by exists b. }
  rewrite Harmed. simpl. rewrite decide_True by done. simpl. apply gate_on_supplied.
Qed.

Module BuildDemo.
Definition encode (s : string) : list Z := map code (chars s).
Definition derive (_ : string) (_ : list (list Z)) : string := "ProgramData".
Definition deployed (elf : list Z) (key : string) : option LedgerAccount :=
  if bool_decide (key = "ProgramData")
  then Some {| la_owner := BPF_LOADER_UPGRADEABLE_PROGRAM_ID; la_data := replicate 45 3 ++ elf |} else None.

Definition audited : list Z := [127; 69; 76; 70; 2].
Definition hostile : list Z := [127; 69; 76; 70; 6].
Definition pin : list Z := checksum32 audited.
Definition target : string := MutationDemo.token.

Definition changes : PolicyChanges := MutationDemo.hashes [(target, Arm pin)].
Definition no_session : string := DEFAULT_COSIGN_SESSION.

(** The vault before the apply, and after it. *)
Definition waiting : option Chain :=
  match queued_demo false changes no_session with Ok c => Some c | Throw _ => None end.
Definition armed (c : Chain) : result string Chain := apply_pending checksum32 1800 30 LifecycleDemo.owner c.

Definition sealed_from (p : PolicyAccount) : ResolvedVaultState :=
  let s := Seal.Demo.state in {|
  rs_vault := rs_vault s;
  rs_policy := {|
    pol_dailySpendingCapUsd := 2000000; pol_maxTransactionSizeUsd := 2000000;
    pol_hasProtocolCaps := false; pol_protocols := pa_protocols p; pol_protocolCaps := [];
    pol_protocolMode := 1; pol_protocolHashes := pa_protocolHashes p; pol_developerFeeRate := 500;
    pol_stableBalanceFloor := 0; pol_policyVersion := 4;
    pol_destinationMode := 0; pol_allowedDestinations := []; pol_timelockDuration := 1800;
    pol_maxSlippageBps := 100; pol_sessionExpirySeconds := 30; pol_cosignRequired := false;
    pol_cosignSessionPubkey := ""; pol_perRecipientDailyCapUsd := 0; pol_operatorGrantDelaySeconds := 0;
    pol_destinationGraylist := [] |};
  rs_tracker := None; rs_overlay := None; rs_globalBudget := rs_globalBudget s;
  rs_agentBudget := None; rs_allAgentBudgets := rs_allAgentBudgets s; rs_protocolBudgets := [];
  rs_maxTransactionUsd := 2000000; rs_usdc := 5000000; rs_usdt := 0; rs_resolvedAtTimestamp := 0 |}.

Definition seal_world : World :=
  let w := Seal.Demo.world in {|
  w_hookSkips := w_hookSkips w; w_cacheAgeMs := w_cacheAgeMs w; w_resolve := w_resolve w; w_plugins := w_plugins w;
  w_deriveAta := w_deriveAta w; w_bytesToAddress := w_bytesToAddress w;
  w_getProgramDataAddress := getProgramDataAddress encode derive; w_fetch := w_fetch w;
  w_blockhash := w_blockhash w; w_altVerified := w_altVerified w; w_accountData := w_accountData w;
  w_cuLimitIx := w_cuLimitIx w; w_cuPriceIx := w_cuPriceIx w; w_validateIx := w_validateIx w;
  w_finalizeIx := w_finalizeIx w; w_wire := w_wire w; w_sha256 := w_sha256 w |}.

(** The gate on a vault whose pin has been applied. *)
Definition gate (c' : Chain) (elf : list Z) : result string unit :=
  enforce_verified_build_if_armed encode derive checksum32 (deployed elf) (c_policy c') target
    (verified_build seal_world (sealed_from (c_policy c')) target).
Definition gated (elf : list Z) : result string unit :=
  match waiting with None => Throw "queue" | Some c => c' ← armed c; gate c' elf end.
End BuildDemo.
Import BuildDemo.

(** The audited build passes; a build that differs in one byte does not. *)
Example gate_examples : gated audited = Ok tt ∧ gated hostile = Throw "ErrProgramBuildMismatch".
Proof. by vm_compute. Qed.

Lemma pinned_build_is_enforced_witness :
  ∃ c', gate c' hostile = Throw "ErrProgramBuildMismatch".
Proof.
  queued_with a c Ea Hq false changes no_session.
  assert (Hd : match waiting with None => false | Some c => is_ok (armed c) end = true) by (vm_compute; reflexivity).
  unfold waiting, queued_demo in Hd. rewrite Ea, Hq in Hd. unfold armed in Hd.
  destruct (apply_pending checksum32 1800 30 LifecycleDemo.owner c) as [c'|] eqn:Hap; [|discriminate Hd].
  destruct (queue_Ok _ _ _ _ _ _ _ Hq) as (pu & Hc & _ & _ & _ & _ & Hargs & _).
  assert (Hp : c_pending c = Some pu) by (rewrite Hc; reflexivity).
  assert (Hlay : policy_layout (c_policy c)) by (rewrite Hc; exact (MutationDemo.layout false)).
  assert (Ha : policy_update_args checksum32 (Ok (c_policy c)) (Ok (c_vault c)) LifecycleDemo.owner "Vault" changes
    no_session = Ok a) by (rewrite Hc; exact Ea).
  assert (Hbytes : ∀ k acc, deployed audited k = Some acc → bytes_ok (la_data acc)).
  { intros k acc. unfold deployed. destruct (bool_decide _); [|discriminate]. intros [= <-].
    apply (bool_decide_unpack _). vm_compute. exact I. }
  assert (Hnz : pin ≠ NO_HASH) by (vm_compute; discriminate).
  destruct (pinned_build_is_enforced encode derive checksum32 (deployed audited) (deployed hostile) target
    LifecycleDemo.owner "Vault" no_session pin changes a c c' pu 1800 30 LifecycleDemo.owner seal_world
    (sealed_from (c_policy c')) Hbytes eq_refl Hnz Hlay eq_refl Ha Hp Hargs Hap eq_refl eq_refl eq_refl)
    as (elf & He & Hg).
  assert (E : Some elf = Some audited) by (rewrite <-He; vm_compute; reflexivity). injection E as ->.
  exists c'. unfold gate. rewrite Hg. vm_compute. reflexivity.
Defined.
