(* ===== verification/Portfolio.v ===== *)
(** * Portfolios (portfolio-analytics.ts, protocol-analytics.ts, getVaultSummary)

    What an owner sees across vaults: a summary per vault, the totals over all
    of them, the ranking of the agents, the combined time series and the use of
    each protocol.  The node's answers are arguments.  The theorems: nothing is
    lost and nothing is counted twice. *)

From Stdlib Require Import Sorted.
From S2P Require Import Prelude JsMap JsText JsValue SdkTypes StateResolver Formatting.
From S2P Require Import Tokens Analytics EventTable Events AgentErrors DxErrors DashboardJson Dashboard.

Local Open Scope Z_scope.

(** ** The summary of a vault (vault-analytics.ts) *)

Record VaultSummary : Type := {
  su_address : string;
  su_owner : string;
  su_vaultId : Z;
  su_health : VaultHealth;
  su_pnl : VaultPnL;
  su_tokenBalances : list (TokenBalance Z);
  su_totalValueUsd : Z;
  su_state : ResolvedVaultState;
  su_stats : VaultStats;
}.

Definition with_pending_flag (h : VaultHealth) (pending : bool) : VaultHealth := {|
  vh_status := vh_status h; vh_isHealthy := vh_isHealthy h; vh_agentCount := vh_agentCount h;
  vh_pausedAgentCount := vh_pausedAgentCount h; vh_capUtilization := vh_capUtilization h;
  vh_capRemaining := vh_capRemaining h; vh_capResetsIn := vh_capResetsIn h; vh_timeToCap := vh_timeToCap h;
  vh_hasTimelock := vh_hasTimelock h; vh_timelockDuration := vh_timelockDuration h;
  vh_hasPendingPolicyChange := pending; vh_lastActivityTimestamp := vh_lastActivityTimestamp h;
  vh_securityChecks := vh_securityChecks h |}.

(** The error of a rejected promise. *)
Definition rejection {A} (r : result jsv A) : list jsv := match r with Ok _ => [] | Throw e => [e] end.

(** [Promise.all] of the four reads: with several rejections the one that
    arrived first ([pick]) is thrown. *)
Definition getVaultSummary (isSolanaError : jsv → Z → bool) (pick : list jsv → jsv) (vault : string) (vaultId : Z)
    (state : result jsv ResolvedVaultState) (pnl : result jsv VaultPnL)
    (balances : result jsv (list (TokenBalance Z))) (pendingPolicy : result jsv (option PendingPolicyUpdate))
    : result jsv VaultSummary :=
  let pending := or_missing isSolanaError pendingPolicy in
  match state, pnl, balances, pending with
  | Ok st, Ok pl, Ok tb, Ok pe =>
      Ok {| su_address := vault; su_owner := av_owner (rs_vault st); su_vaultId := vaultId;
            su_health := with_pending_flag (getVaultHealth st (rs_resolvedAtTimestamp st))
                           (match pe with Some _ => true | None => false end);
            su_pnl := pl; su_tokenBalances := tb; su_totalValueUsd := rs_usdc st + rs_usdt st;
            su_state := st; su_stats := vault_stats st |}
  | _, _, _, _ => Throw (pick (rejection state ++ rejection pnl ++ rejection balances ++ rejection pending))
  end.

(** ** Totals *)

Record Totals : Type := {
  to_vaultCount : nat;
  to_activeVaultCount : nat;
  to_totalValueUsd : Z;
  to_totalAgents : nat;
  to_totalSpend24h : Z;
  to_totalVolume : Z;
  to_totalFeesCollected : Z;
  to_totalPnl : Z;
  to_totalDeposited : Z;
  to_totalWithdrawn : Z;
  to_overallPnlPercent : signed_double;
}.

Record Portfolio : Type := {
  po_vaults : list VaultSummary;
  po_totals : Totals;
  po_topVaultByValue : option string;
  po_topVaultBySpending : option string;
}.

(** The accumulators of the loop; the percentage is set after it. *)
Definition no_totals : Totals := {|
  to_vaultCount := 0; to_activeVaultCount := 0; to_totalValueUsd := 0; to_totalAgents := 0; to_totalSpend24h := 0;
  to_totalVolume := 0; to_totalFeesCollected := 0; to_totalPnl := 0; to_totalDeposited := 0; to_totalWithdrawn := 0;
  to_overallPnlPercent := (false, zero) |}.

Definition spent (v : VaultSummary) : Z := spent24h (rs_globalBudget (su_state v)).

Definition add_vault (t : Totals) (v : VaultSummary) : Totals := {|
  to_vaultCount := to_vaultCount t;
  to_activeVaultCount := if bool_decide (vh_status (su_health v) = "Active") then S (to_activeVaultCount t)
                         else to_activeVaultCount t;
  to_totalValueUsd := to_totalValueUsd t + su_totalValueUsd v;
  to_totalAgents := to_totalAgents t + vh_agentCount (su_health v);
  to_totalSpend24h := to_totalSpend24h t + spent v;
  to_totalVolume := to_totalVolume t + vs_totalVolume (su_stats v);
  to_totalFeesCollected := to_totalFeesCollected t + vs_totalFeesCollected (su_stats v);
  to_totalPnl := to_totalPnl t + pl_pnl (su_pnl v);
  to_totalDeposited := to_totalDeposited t + pl_totalDeposited (su_pnl v);
  to_totalWithdrawn := to_totalWithdrawn t + pl_totalWithdrawn (su_pnl v);
  to_overallPnlPercent := to_overallPnlPercent t |}.

(** The strict maximum so far: it starts at zero. *)
Definition add_top (value : VaultSummary → Z) (acc : option string * Z) (v : VaultSummary) : option string * Z :=
  if snd acc <? value v then (Some (su_address v), value v) else acc.

Definition aggregatePortfolio (vaults : list VaultSummary) : Portfolio :=
  match vaults with
  | [] => {| po_vaults := []; po_totals := no_totals; po_topVaultByValue := None; po_topVaultBySpending := None |}
  | _ =>
      let t := foldl add_vault no_totals vaults in
      let netInvestment := to_totalDeposited t - to_totalWithdrawn t in {|
      po_vaults := vaults;
      po_totals := {|
        to_vaultCount := length vaults; to_activeVaultCount := to_activeVaultCount t;
        to_totalValueUsd := to_totalValueUsd t; to_totalAgents := to_totalAgents t;
        to_totalSpend24h := to_totalSpend24h t; to_totalVolume := to_totalVolume t;
        to_totalFeesCollected := to_totalFeesCollected t; to_totalPnl := to_totalPnl t;
        to_totalDeposited := to_totalDeposited t; to_totalWithdrawn := to_totalWithdrawn t;
        to_overallPnlPercent := computePnlPercent (to_totalPnl t) netInvestment |};
      po_topVaultByValue := fst (foldl (add_top su_totalValueUsd) (None, 0) vaults);
      po_topVaultBySpending := fst (foldl (add_top spent) (None, 0) vaults) |}
  end.

Record PortfolioOverview : Type := { ov_portfolio : Portfolio; ov_alerts : list Alert }.

(** [Promise.allSettled], keeping what was fulfilled. *)
Definition fulfilled {A} (rs : list (result jsv A)) : list A :=
  omap (λ r, match r with Ok a => Some a | Throw _ => None end) rs.

Definition getPortfolioOverview (discovered : result jsv (list string)) (summary : string → result jsv VaultSummary)
    : result jsv PortfolioOverview :=
  addresses ← discovered;
  match addresses with
  | [] => Ok {| ov_portfolio := aggregatePortfolio []; ov_alerts := [] |}
  | _ =>
      let vaults := fulfilled (map summary addresses) in
      Ok {| ov_portfolio := aggregatePortfolio vaults;
            ov_alerts := concat (map (λ v, evaluateAlertConditions (su_state v) (su_address v)) vaults) |}
  end.

(** ** Agents across vaults *)

Record CrossVaultAgentRanking : Type := {
  cr_agent : string; cr_vaultAddress : string; cr_vaultId : Z; cr_spend24h : Z; cr_lifetimeSpend : Z;
  cr_capUtilization : double; cr_paused : bool; cr_rank : nat;
}.

(** A resolved vault with its address and number. *)
Record VaultRef : Type := { vr_address : string; vr_vaultId : Z; vr_state : ResolvedVaultState }.

Section Ranking.
Context (bytesToAddress : list Z → option string).

(** The slot is searched by address and read when the array reaches it. *)
Definition slot_lifetime (overlay : option AgentSpendOverlay) (agent : string) : Z :=
  match overlay with
  | None => 0
  | Some o => match list_find (λ e, bytesToAddress (ac_agent e) = Some agent) (ov_entries o) with
              | Some (slotIdx, _) => default 0 (ov_lifetimeSpend o !! slotIdx)
              | None => 0
              end
  end.

Definition ranking_row (v : VaultRef) (p : string * EffectiveBudget) : option CrossVaultAgentRanking :=
  match list_find (λ a, ae_pubkey a = p.1) (av_agents (rs_vault (vr_state v))) with
  | None => None
  | Some (_, entry) => Some {|
      cr_agent := p.1; cr_vaultAddress := vr_address v; cr_vaultId := vr_vaultId v; cr_spend24h := spent24h p.2;
      cr_lifetimeSpend := slot_lifetime (rs_overlay (vr_state v)) p.1;
      cr_capUtilization := computeUtilizationPercent (spent24h p.2) (cap p.2);
      cr_paused := ae_paused entry; cr_rank := 0 |}
  end.

Definition ranking_rows (v : VaultRef) : list CrossVaultAgentRanking :=
  omap (ranking_row v) (agent_budgets (vr_state v)).

Definition more_spent (a b : CrossVaultAgentRanking) : bool := cr_spend24h b <=? cr_spend24h a.

Definition ranked (i : nat) (r : CrossVaultAgentRanking) : CrossVaultAgentRanking := {|
  cr_agent := cr_agent r; cr_vaultAddress := cr_vaultAddress r; cr_vaultId := cr_vaultId r;
  cr_spend24h := cr_spend24h r; cr_lifetimeSpend := cr_lifetimeSpend r; cr_capUtilization := cr_capUtilization r;
  cr_paused := cr_paused r; cr_rank := S i |}.

Definition getAgentLeaderboardAcrossVaults (vaultStates : list VaultRef) : list CrossVaultAgentRanking :=
  imap ranked (js_sort more_spent (concat (map ranking_rows vaultStates))).

Definition ref_of (v : VaultSummary) : VaultRef :=
  {| vr_address := su_address v; vr_vaultId := su_vaultId v; vr_state := su_state v |}.

Definition getCrossVaultAgentRanking (overview : PortfolioOverview) : list CrossVaultAgentRanking :=
  imap ranked (js_sort more_spent (concat (map (λ v, ranking_rows (ref_of v)) (po_vaults (ov_portfolio overview))))).
End Ranking.

(** ** The combined time series *)

Record EpochData : Type := { ed_totalUsd : Z; ed_vaultBreakdown : list (string * Z) }.
Definition no_epoch : EpochData := {| ed_totalUsd := 0; ed_vaultBreakdown := [] |}.

(** [map.set(k, f(map.get(k) ?? d))]. *)
Definition jm_update {K V} `{EqDecision K} (k : K) (d : V) (f : V → V) (m : list (K * V)) : list (K * V) :=
  jm_set k (f (default d (jm_get k m))) m.

Definition add_amount (address : string) (usd : Z) (e : EpochData) : EpochData := {|
  ed_totalUsd := ed_totalUsd e + usd;
  ed_vaultBreakdown := jm_update address 0 (λ x, x + usd) (ed_vaultBreakdown e) |}.

Definition add_epoch (address : string) (m : list (Z * EpochData)) (epoch : SpendingEpoch) : list (Z * EpochData) :=
  jm_update (sp_timestamp epoch) no_epoch (add_amount address (sp_usdAmount epoch)) m.

Record Series : Type := { se_epochs : list (Z * EpochData); se_spend : Z; se_cap : Z }.

Definition add_series (nowUnix : Z) (s : Series) (v : VaultRef) : Series :=
  let st := vr_state v in {|
  se_epochs := match rs_tracker st with
               | None => se_epochs s
               | Some t => foldl (add_epoch (vr_address v)) (se_epochs s) (getSpendingHistory (Some t) nowUnix)
               end;
  se_spend := se_spend s + spent24h (rs_globalBudget st);
  se_cap := se_cap s + cap (rs_globalBudget st) |}.

Record PortfolioTimeSeries : Type := {
  ts_spendingByEpoch : list (Z * EpochData);
  ts_totalSpend24h : Z;
  ts_totalCap24h : Z;
  ts_utilization : double;
}.

Definition earlier (a b : Z * EpochData) : bool := fst a <=? fst b.

Definition getPortfolioTimeSeries (vaultStates : list VaultRef) (nowUnix : Z) : PortfolioTimeSeries :=
  let s := foldl (add_series nowUnix) {| se_epochs := []; se_spend := 0; se_cap := 0 |} vaultStates in {|
  ts_spendingByEpoch := js_sort earlier (se_epochs s);
  ts_totalSpend24h := se_spend s; ts_totalCap24h := se_cap s;
  ts_utilization := computeUtilizationPercent (se_spend s) (se_cap s) |}.

(** ** Protocols (protocol-analytics.ts) *)

Record ProtocolBreakdownItem : Type := {
  pi_protocol : string; pi_protocolName : string; pi_spent24h : Z; pi_cap : option Z; pi_utilization : double;
  pi_percentOfTotalSpend : double;
}.

Definition getProtocolBreakdown (state : ResolvedVaultState) : list ProtocolBreakdownItem :=
  map (λ pb, let b := pb_budget pb in {|
    pi_protocol := pb_protocol pb; pi_protocolName := resolveProtocolName (pb_protocol pb);
    pi_spent24h := spent24h b; pi_cap := if 0 <? cap b then Some (cap b) else None;
    pi_utilization := computeUtilizationPercent (spent24h b) (cap b);
    pi_percentOfTotalSpend := computeUtilizationPercent (spent24h b) (spent24h (rs_globalBudget state)) |})
    (rs_protocolBudgets state).

Record ProtocolUse : Type := { us_vaultCount : nat; us_totalSpend : Z }.

Definition use_protocol (m : list (string * ProtocolUse)) (pb : ProtocolBudget) : list (string * ProtocolUse) :=
  jm_update (pb_protocol pb) {| us_vaultCount := 0; us_totalSpend := 0 |}
    (λ u, {| us_vaultCount := S (us_vaultCount u); us_totalSpend := us_totalSpend u + spent24h (pb_budget pb) |}) m.

Record PlatformProtocolUsage : Type := {
  pu_protocol : string; pu_protocolName : string; pu_vaultCount : nat; pu_totalSpend24h : Z;
}.

Definition usage_row (p : string * ProtocolUse) : PlatformProtocolUsage := {|
  pu_protocol := p.1; pu_protocolName := resolveProtocolName p.1; pu_vaultCount := us_vaultCount p.2;
  pu_totalSpend24h := us_totalSpend p.2 |}.

Definition more_used (a b : PlatformProtocolUsage) : bool := pu_totalSpend24h b <=? pu_totalSpend24h a.

Definition getProtocolUsageAcrossVaults (discovered : result jsv (list string))
    (resolve : string → result jsv ResolvedVaultState) : result jsv (list PlatformProtocolUsage) :=
  addresses ← discovered;
  let states := fulfilled (map resolve addresses) in
  Ok (js_sort more_used (map usage_row (foldl use_protocol [] (concat (map rs_protocolBudgets states))))).

(** ** Sums over maps *)

Lemma sumZ_jm_set {K V} `{EqDecision K} (g : K * V → Z) k v (m : list (K * V)) :
  sumZ (map g (jm_set k v m)) =
  sumZ (map g m) + g (k, v) - match jm_get k m with Some v' => g (k, v') | None => 0 end.
Proof.
  unfold sumZ. induction m as [|[k' v'] m IH]; simpl; [lia|].
  destruct (decide (k' = k)) as [->|Hne].
  - rewrite !bool_decide_true by done. simpl. lia.
  - rewrite !bool_decide_false by done. simpl. rewrite IH. lia.
Qed.

(** An update adds to the sum what it adds to its own entry. *)
Lemma sumZ_jm_update {K V} `{EqDecision K} (g : V → Z) k (d : V) f (m : list (K * V)) x :
  g d = 0 → (∀ v, g (f v) = g v + x) →
  sumZ (map (λ p, g p.2) (jm_update k d f m)) = sumZ (map (λ p, g p.2) m) + x.
Proof.
  intros Hd Hf. unfold jm_update. rewrite sumZ_jm_set. simpl. rewrite Hf.
  destruct (jm_get k m); simpl; lia.
Qed.

Lemma jm_update_Forall {K V} `{EqDecision K} (P : V → Prop) k (d : V) f (m : list (K * V)) :
  P d → (∀ v, P v → P (f v)) → Forall (λ p, P p.2) m → Forall (λ p, P p.2) (jm_update k d f m).
Proof.
  intros Hd Hf Hm. apply (jm_set_Forall (λ p, P p.2)); [|done]. simpl. apply Hf.
  destruct (jm_get k m) as [v|] eqn:E; simpl; [|done].
  apply jm_get_elem in E. rewrite Forall_forall in Hm. by apply (Hm (k, v)).
Qed.

Lemma sumZ_perm l l' : l ≡ₚ l' → sumZ l = sumZ l'.
Proof. unfold sumZ. induction 1; simpl; lia. Qed.

Lemma sumZ_cons x l : sumZ (x :: l) = x + sumZ l.
Proof. done. Qed.

Lemma sumZ_concat ls : sumZ (concat ls) = sumZ (map sumZ ls).
Proof. induction ls as [|l ls IH]; [done|]. cbn [concat map]. rewrite sumZ_app, sumZ_cons. lia. Qed.

(** ** Totals are sums *)

Lemma add_vault_sums vs t :
  let s := foldl add_vault t vs in
  to_totalValueUsd s = to_totalValueUsd t + sumZ (map su_totalValueUsd vs) ∧
  to_totalSpend24h s = to_totalSpend24h t + sumZ (map spent vs) ∧
  to_totalVolume s = to_totalVolume t + sumZ (map (λ v, vs_totalVolume (su_stats v)) vs) ∧
  to_totalFeesCollected s = to_totalFeesCollected t + sumZ (map (λ v, vs_totalFeesCollected (su_stats v)) vs) ∧
  to_totalPnl s = to_totalPnl t + sumZ (map (λ v, pl_pnl (su_pnl v)) vs) ∧
  to_totalDeposited s = to_totalDeposited t + sumZ (map (λ v, pl_totalDeposited (su_pnl v)) vs) ∧
  to_totalWithdrawn s = to_totalWithdrawn t + sumZ (map (λ v, pl_totalWithdrawn (su_pnl v)) vs) ∧
  to_totalAgents s = (to_totalAgents t + sum_list (map (λ v, vh_agentCount (su_health v)) vs))%nat ∧
  to_activeVaultCount s =
    (to_activeVaultCount t + length (filter (λ v, vh_status (su_health v) = "Active") vs))%nat.
Proof.
  cbv zeta. revert t. induction vs as [|v vs IH]; intros t; simpl; [unfold sumZ; simpl; split_and!; lia|].
  destruct (IH (add_vault t v)) as (H1 & H2 & H3 & H4 & H5 & H6 & H7 & H8 & H9). simpl in *.
  rewrite filter_cons. unfold sumZ in *. simpl. split_and!; [lia..|].
  rewrite H9. destruct (decide (vh_status (su_health v) = "Active")).
  - rewrite bool_decide_true by done. simpl. lia.
  - rewrite bool_decide_false by done. done.
Qed.

(** The vault on top: the largest value, if any is positive. *)
Definition is_top (value : VaultSummary → Z) (vs : list VaultSummary) (top : option string) : Prop :=
  match top with
  | Some a => ∃ v, v ∈ vs ∧ su_address v = a ∧ 0 < value v ∧ ∀ u, u ∈ vs → value u ≤ value v
  | None => ∀ u, u ∈ vs → value u ≤ 0
  end.

Lemma add_top_spec value vs :
  let r := foldl (add_top value) (None, 0) vs in
  is_top value vs (fst r) ∧ 0 ≤ snd r ∧
  match fst r with Some a => ∃ v, v ∈ vs ∧ su_address v = a ∧ value v = snd r | None => snd r = 0 end ∧
  (∀ u, u ∈ vs → value u ≤ snd r).
Proof.
  cbv zeta. induction vs as [|v vs IH] using rev_ind; [simpl; split_and!; try done; intros u []%elem_of_nil|].
  rewrite foldl_app. simpl. destruct (foldl _ _ vs) as [o z] eqn:E. simpl in IH.
  destruct IH as (Ht & Hz & Ho & Hmax). unfold add_top. simpl. destruct (Z.ltb_spec z (value v)) as [Hlt|Hge]; simpl.
  - assert (Hall : ∀ u, u ∈ vs ++ [v] → value u ≤ value v).
    { intros u [Hu| ->%list_elem_of_singleton]%elem_of_app; [specialize (Hmax u Hu); lia|lia]. }
    assert (Hin : v ∈ vs ++ [v]) by (apply elem_of_app; right; by apply list_elem_of_singleton).
    split_and!; [exists v; split_and!; [done|done|lia|done]|lia|by exists v|done].
  - assert (Hall : ∀ u, u ∈ vs ++ [v] → value u ≤ z).
    { intros u [Hu| ->%list_elem_of_singleton]%elem_of_app; [by apply Hmax|lia]. }
    destruct o as [a|]; simpl in *.
    + destruct Ho as (x & Hx & Ha & Hv). assert (Hin : x ∈ vs ++ [v]) by (apply elem_of_app; by left).
      split_and!; [|done|by exists x|done].
      destruct Ht as (y & Hy & Hay & Hpos & Hy').
      exists x. split_and!; [done|done|specialize (Hy' x Hx); pose proof (Hmax y Hy); lia|].
      intros u Hu. specialize (Hall u Hu). lia.
    + subst z. by split_and!.
Qed.

(** The portfolio is the sum of the vaults that answered.  Whatever subset of
    the summaries fails, the overview holds those that succeeded, in order; every
    total is the sum over exactly them, and the vaults on top have the largest
    positive value and the largest positive spending. *)
Theorem portfolio_is_the_sum_of_its_vaults (addresses : list string) (summary : string → result jsv VaultSummary) :
  ∃ o, getPortfolioOverview (Ok addresses) summary = Ok o ∧
    let vs := fulfilled (map summary addresses) in
    let t := po_totals (ov_portfolio o) in
    po_vaults (ov_portfolio o) = vs ∧ to_vaultCount t = length vs ∧
    to_totalValueUsd t = sumZ (map su_totalValueUsd vs) ∧
    to_totalSpend24h t = sumZ (map spent vs) ∧
    to_totalVolume t = sumZ (map (λ v, vs_totalVolume (su_stats v)) vs) ∧
    to_totalFeesCollected t = sumZ (map (λ v, vs_totalFeesCollected (su_stats v)) vs) ∧
    to_totalPnl t = sumZ (map (λ v, pl_pnl (su_pnl v)) vs) ∧
    to_totalAgents t = sum_list (map (λ v, vh_agentCount (su_health v)) vs) ∧
    to_activeVaultCount t = length (filter (λ v, vh_status (su_health v) = "Active") vs) ∧
    is_top su_totalValueUsd vs (po_topVaultByValue (ov_portfolio o)) ∧
    is_top spent vs (po_topVaultBySpending (ov_portfolio o)) ∧
    ov_alerts o = concat (map (λ v, evaluateAlertConditions (su_state v) (su_address v)) vs).
Proof.
  cbv zeta. assert (Hempty : ∀ value, is_top value [] None) by (intros value u []%elem_of_nil).
  destruct addresses as [|a addresses]; [eexists; split; [reflexivity|]; split_and!; by try apply Hempty|].
  unfold getPortfolioOverview. cbn [mbind result_bind]. set (vs := fulfilled _). eexists. split; [reflexivity|].
  cbn [ov_portfolio ov_alerts]. destruct vs as [|v vs]; [split_and!; by try apply Hempty|].
  destruct (add_vault_sums (v :: vs) no_totals) as (H1 & H2 & H3 & H4 & H5 & _ & _ & H8 & H9).
  pose proof (proj1 (add_top_spec su_totalValueUsd (v :: vs))) as Hv.
  pose proof (proj1 (add_top_spec spent (v :: vs))) as Hs.
  unfold aggregatePortfolio.
  cbn [po_vaults po_totals po_topVaultByValue po_topVaultBySpending to_vaultCount to_totalValueUsd to_totalSpend24h
       to_totalVolume to_totalFeesCollected to_totalPnl to_totalAgents to_activeVaultCount] in *.
  split_and!; done.
Qed.

(** ** The time series conserves spending *)

Record series_ok (m : list (Z * EpochData)) : Prop := {
  so_keys : jm_wf m;
  so_breakdown : Forall (λ p, ed_totalUsd p.2 = sumZ (map snd (ed_vaultBreakdown p.2))) m;
}.

Definition series_total (m : list (Z * EpochData)) : Z := sumZ (map (λ p, ed_totalUsd p.2) m).

Lemma add_epoch_ok address m epoch :
  series_ok m → series_ok (add_epoch address m epoch) ∧
  series_total (add_epoch address m epoch) = series_total m + sp_usdAmount epoch.
Proof.
  intros [Hk Hb]. split; [split|].
  - by apply jm_set_wf.
  - unfold add_epoch.
    apply (jm_update_Forall (λ e, ed_totalUsd e = sumZ (map snd (ed_vaultBreakdown e)))); [done| |done].
    intros e He. simpl. rewrite He. symmetry.
    apply (sumZ_jm_update (λ x : Z, x)); [done|]. done.
  - unfold series_total, add_epoch. by apply (sumZ_jm_update ed_totalUsd).
Qed.

Definition history_of (now : Z) (v : VaultRef) : list SpendingEpoch := getSpendingHistory (rs_tracker (vr_state v)) now.

Lemma add_epochs_ok address es m :
  series_ok m → series_ok (foldl (add_epoch address) m es) ∧
  series_total (foldl (add_epoch address) m es) = series_total m + sumZ (map sp_usdAmount es).
Proof.
  revert m. induction es as [|e es IH]; intros m Hm; simpl; [split; [done|]; unfold sumZ; simpl; lia|].
  destruct (add_epoch_ok address m e Hm) as [Hm' Ht]. destruct (IH _ Hm') as [? Ht']. split; [done|].
  rewrite Ht', Ht. unfold sumZ. simpl. lia.
Qed.

Lemma add_series_ok now vs s :
  series_ok (se_epochs s) →
  series_ok (se_epochs (foldl (add_series now) s vs)) ∧
  series_total (se_epochs (foldl (add_series now) s vs)) =
    series_total (se_epochs s) + sumZ (map (λ v, sumZ (map sp_usdAmount (history_of now v))) vs) ∧
  se_spend (foldl (add_series now) s vs) =
    se_spend s + sumZ (map (λ v, spent24h (rs_globalBudget (vr_state v))) vs) ∧
  se_cap (foldl (add_series now) s vs) = se_cap s + sumZ (map (λ v, cap (rs_globalBudget (vr_state v))) vs).
Proof.
  revert s. induction vs as [|v vs IH]; intros s Hs; [cbn [foldl map]; change (sumZ []) with 0; split_and!; [done|lia..]|].
  cbn [foldl map]. rewrite !sumZ_cons.
  assert (Hstep : series_ok (se_epochs (add_series now s v)) ∧
    series_total (se_epochs (add_series now s v)) =
      series_total (se_epochs s) + sumZ (map sp_usdAmount (history_of now v))).
  { unfold add_series, history_of. cbn [se_epochs]. destruct (rs_tracker (vr_state v)) as [t|].
    - by apply add_epochs_ok.
    - split; [done|]. cbn [getSpendingHistory map]. change (sumZ []) with 0. lia. }
  destruct Hstep as [Hok Ht]. destruct (IH _ Hok) as (H1 & H2 & H3 & H4).
  split_and!; [done|lia| |]; [rewrite H3|rewrite H4]; cbn [add_series se_spend se_cap]; lia.
Qed.

Lemma sorted_keys (m : list (Z * EpochData)) :
  js_sorted earlier m → NoDup (map fst m) → StronglySorted Z.lt (map fst m).
Proof.
  induction 1 as [|p m Hp _ IH]; [constructor|]. cbn [map]. intros [Hnot Hd]%NoDup_cons. constructor; [by apply IH|].
  apply Forall_map. apply Forall_forall. intros q Hq. rewrite Forall_forall in Hp. specialize (Hp q Hq).
  unfold earlier in Hp. apply Z.leb_le in Hp. assert (fst p ≠ fst q); [|simpl; lia].
  intros E. apply Hnot. rewrite E. by apply list_elem_of_fmap_2.
Qed.

(** The combined chart neither loses nor duplicates spending.  The points are
    in strictly increasing time, one per epoch; each point's total is the sum of
    its breakdown over the vaults; and all points together hold exactly what the
    histories of all vaults hold, also when two vaults share epochs or one vault
    appears twice. *)
Theorem portfolio_series_conserves_spending (vaultStates : list VaultRef) (now : Z) :
  let r := getPortfolioTimeSeries vaultStates now in
  StronglySorted Z.lt (map fst (ts_spendingByEpoch r)) ∧
  (∀ t e, (t, e) ∈ ts_spendingByEpoch r → ed_totalUsd e = sumZ (map snd (ed_vaultBreakdown e))) ∧
  sumZ (map (λ p, ed_totalUsd p.2) (ts_spendingByEpoch r)) =
    sumZ (map (λ v, sumZ (map sp_usdAmount (history_of now v))) vaultStates) ∧
  ts_totalSpend24h r = sumZ (map (λ v, spent24h (rs_globalBudget (vr_state v))) vaultStates) ∧
  ts_totalCap24h r = sumZ (map (λ v, cap (rs_globalBudget (vr_state v))) vaultStates).
Proof.
  cbv zeta. unfold getPortfolioTimeSeries. cbn [ts_spendingByEpoch ts_totalSpend24h ts_totalCap24h].
  assert (H0 : series_ok []) by (split; [apply NoDup_nil_2|apply Forall_nil_2]).
  destruct (add_series_ok now vaultStates {| se_epochs := []; se_spend := 0; se_cap := 0 |} H0)
    as ([Hk Hb] & Ht & Hs & Hc). set (m := se_epochs _) in *.
  pose proof (js_sort_perm earlier m) as Hp. split_and!; [| | |exact Hs|exact Hc].
  - apply sorted_keys; [|rewrite Hp; exact Hk]. apply js_sort_sorted.
    + intros x y. unfold earlier. rewrite Z.leb_gt, Z.leb_le. lia.
    + intros x y z. unfold earlier. rewrite !Z.leb_le. lia.
  - intros t e He. rewrite Hp in He. rewrite Forall_forall in Hb. by apply (Hb (t, e)).
  - rewrite (sumZ_perm _ (map (λ p, ed_totalUsd p.2) m)); [exact Ht|]. by rewrite Hp.
Qed.

(** ** Protocols and rankings are complete *)

Lemma use_protocol_ok pbs m :
  jm_wf m → jm_wf (foldl use_protocol m pbs) ∧
  sumZ (map (λ p, us_totalSpend p.2) (foldl use_protocol m pbs)) =
    sumZ (map (λ p, us_totalSpend p.2) m) + sumZ (map (λ pb, spent24h (pb_budget pb)) pbs) ∧
  sumZ (map (λ p, Z.of_nat (us_vaultCount p.2)) (foldl use_protocol m pbs)) =
    sumZ (map (λ p, Z.of_nat (us_vaultCount p.2)) m) + Z.of_nat (length pbs).
Proof.
  revert m. induction pbs as [|pb pbs IH]; intros m Hm; [cbn [foldl map length]; change (sumZ []) with 0; split_and!; [done|lia..]|].
  cbn [foldl map length]. assert (Hm' : jm_wf (use_protocol m pb)) by (by apply jm_set_wf).
  destruct (IH _ Hm') as (H1 & H2 & H3). rewrite sumZ_cons. split; [done|]. rewrite H2, H3. unfold use_protocol.
  rewrite (sumZ_jm_update us_totalSpend _ _ _ _ (spent24h (pb_budget pb))) by done.
  rewrite (sumZ_jm_update (λ u, Z.of_nat (us_vaultCount u)) _ _ _ _ 1) by (done || (intros; simpl; lia)). lia.
Qed.

(** Each protocol is listed once, the busiest first, and the rows together hold
    all the spending of the vaults that answered. *)
Theorem protocol_usage_conserves_spending (addresses : list string) (resolve : string → result jsv ResolvedVaultState) :
  ∃ rows, getProtocolUsageAcrossVaults (Ok addresses) resolve = Ok rows ∧
    let states := fulfilled (map resolve addresses) in
    NoDup (map pu_protocol rows) ∧ js_sorted more_used rows ∧
    sumZ (map pu_totalSpend24h rows) =
      sumZ (map (λ s, sumZ (map (λ pb, spent24h (pb_budget pb)) (rs_protocolBudgets s))) states) ∧
    sumZ (map (λ r, Z.of_nat (pu_vaultCount r)) rows) =
      sumZ (map (λ s, Z.of_nat (length (rs_protocolBudgets s))) states).
Proof.
  cbv zeta. eexists. split; [reflexivity|]. set (states := fulfilled _).
  destruct (use_protocol_ok (concat (map rs_protocolBudgets states)) [] (NoDup_nil_2)) as (Hk & Hs & Hn).
  set (m := foldl _ _ _) in *. pose proof (js_sort_perm more_used (map usage_row m)) as Hp.
  assert (Hmap : ∀ {B} (f : PlatformProtocolUsage → B) (g : string * ProtocolUse → B),
    (∀ p, f (usage_row p) = g p) → map f (js_sort more_used (map usage_row m)) ≡ₚ map g m).
  { intros B f g Hfg. rewrite Hp, map_map. by erewrite map_ext. }
  split_and!.
  - by rewrite (Hmap _ pu_protocol fst).
  - apply js_sort_sorted; unfold more_used; intros *; rewrite ?Z.leb_gt, ?Z.leb_le; lia.
  - rewrite (sumZ_perm _ _ (Hmap _ pu_totalSpend24h (λ p, us_totalSpend p.2) (λ _, eq_refl))), Hs.
    rewrite concat_map, map_map, sumZ_concat, map_map. done.
  - rewrite (sumZ_perm _ _ (Hmap _ (λ r, Z.of_nat (pu_vaultCount r)) (λ p, Z.of_nat (us_vaultCount p.2)) (λ _, eq_refl))).
    rewrite Hn. clear. change (sumZ (map _ [])) with 0. induction states as [|s states IH]; [done|].
    cbn [concat map]. rewrite length_app, sumZ_cons. lia.
Qed.

(** The row without its rank. *)
Definition unrank (r : CrossVaultAgentRanking) : CrossVaultAgentRanking := {|
  cr_agent := cr_agent r; cr_vaultAddress := cr_vaultAddress r; cr_vaultId := cr_vaultId r;
  cr_spend24h := cr_spend24h r; cr_lifetimeSpend := cr_lifetimeSpend r; cr_capUtilization := cr_capUtilization r;
  cr_paused := cr_paused r; cr_rank := 0 |}.

Lemma unrank_rows bytesToAddress v : Forall (λ r, unrank r = r) (ranking_rows bytesToAddress v).
Proof.
  apply Forall_forall. intros r (p & _ & Hr)%list_elem_of_omap. unfold ranking_row in Hr.
  destruct (list_find _ _) as [[i entry]|]; [|done]. by injection Hr as <-.
Qed.

(** Every agent of every vault is ranked once: ranks count from one, spending
    falls with the rank, and the two functions that rank agree. *)
Theorem agent_ranking_is_complete (bytesToAddress : list Z → option string) (overview : PortfolioOverview) :
  let rows := getCrossVaultAgentRanking bytesToAddress overview in
  let refs := map ref_of (po_vaults (ov_portfolio overview)) in
  rows = getAgentLeaderboardAcrossVaults bytesToAddress refs ∧
  map unrank rows ≡ₚ concat (map (ranking_rows bytesToAddress) refs) ∧
  map cr_rank rows = seq 1 (length rows) ∧
  (∀ i j a b, (i ≤ j)%nat → rows !! i = Some a → rows !! j = Some b → cr_spend24h b ≤ cr_spend24h a).
Proof.
  cbv zeta. set (vs := po_vaults (ov_portfolio overview)).
  assert (Heq : concat (map (λ v, ranking_rows bytesToAddress (ref_of v)) vs) =
    concat (map (ranking_rows bytesToAddress) (map ref_of vs))) by (by rewrite map_map).
  split; [unfold getCrossVaultAgentRanking, getAgentLeaderboardAcrossVaults; by fold vs; rewrite Heq|].
  unfold getCrossVaultAgentRanking. fold vs. rewrite Heq. set (all := concat _).
  assert (Hun : Forall (λ r, unrank r = r) all).
  { apply Forall_concat, Forall_map, Forall_forall. intros v _. apply unrank_rows. }
  pose proof (js_sort_perm more_spent all) as Hp.
  assert (Hsorted : js_sorted more_spent (js_sort more_spent all)).
  { apply js_sort_sorted; unfold more_spent; intros *; rewrite ?Z.leb_gt, ?Z.leb_le; lia. }
  set (l := js_sort more_spent all) in *. split_and!.
  - assert (Hl : map unrank (imap ranked l) = map unrank l).
    { apply list_eq. intros i. rewrite !list_lookup_fmap, list_lookup_imap. by destruct (l !! i). }
    rewrite Hl, Hp. clear Hp Hsorted Hl. induction Hun as [|r all' Hr _ IH]; [done|]. cbn [map]. by rewrite Hr, IH.
  - rewrite length_imap. apply list_eq. intros i. rewrite list_lookup_fmap, list_lookup_imap.
    destruct (decide (i < length l)%nat) as [Hi|Hi].
    + destruct (lookup_lt_is_Some_2 l i Hi) as [r Hr]. rewrite Hr, lookup_seq_lt by done. done.
    + rewrite lookup_ge_None_2 by lia. rewrite lookup_seq_ge by lia. done.
  - intros i j a b Hij Ha Hb. rewrite list_lookup_imap in Ha, Hb.
    destruct (l !! i) as [x|] eqn:Ex; [|done]. destruct (l !! j) as [y|] eqn:Ey; [|done].
    injection Ha as <-. injection Hb as <-. simpl.
    destruct (decide (i = j)) as [->|Hne]; [rewrite Ex in Ey; injection Ey as <-; lia|].
    assert (Hm : more_spent x y = true)
      by (eapply (js_sorted_lookup more_spent); [exact Hsorted| |exact Ex|exact Ey]; lia).
    unfold more_spent in Hm. by apply Z.leb_le in Hm.
Qed.
