(* ===== verification/Compliance.v ===== *)
(** * Compliance metrics (advanced-analytics.ts)

    The report functions over decoded events: execution quality, deviation
    from what was authorised, sandwich coverage, idle capital, latency of a
    grant's first use and use of the granted permissions, with the velocity of
    a cap.  Amounts are the program's u64 and timestamps lie below [2^53], so
    [Number] of a timestamp is exact.  The theorems say what each report counts,
    and where two reports count the same sessions differently. *)

From S2P Require Import Prelude JsMap JsText JsValue SdkTypes StateResolver Formatting Tokens Analytics Portfolio.

Local Open Scope Z_scope.

(** ** Events *)

(** The fields of an event of that name. *)
Definition named_fields (name : string) (e : DecodedEvent) : option fields_t :=
  if bool_decide (ev_name e = name) then ev_fields e else None.

(** [fields.agent]: an address, or undefined. *)
Definition agent_field (f : fields_t) : option string :=
  match field (JObj f) "agent" with JStr a => Some a | _ => None end.

Definition big_or_zero (f : fields_t) (k : string) : Z :=
  match field (JObj f) k with JBig z => z | _ => 0 end.

(** [e.name === name && e.fields?.agent]: an empty address is falsy. *)
Definition agent_of (name : string) (e : DecodedEvent) : option string :=
  match named_fields name e with
  | Some f => match agent_field f with Some a => if bool_decide (a = "") then None else Some a | None => None end
  | None => None
  end.

(** Each authorisation with the first of the next four events that [pick]
    accepts: the two loops of the reports that pair sessions. *)
Definition first_finalized {A} (pick : fields_t → fields_t → option A) (auth : fields_t) (next : list DecodedEvent)
    : option A :=
  head (omap (λ e, match named_fields "SessionFinalized" e with Some fin => pick auth fin | None => None end) next).

Fixpoint pair_sessions {A} (pick : fields_t → fields_t → option A) (events : list DecodedEvent) : list A :=
  match events with
  | [] => []
  | e :: rest =>
      match named_fields "ActionAuthorized" e with
      | None => pair_sessions pick rest
      | Some auth => match first_finalized pick auth (take 4 rest) with
                     | Some p => p :: pair_sessions pick rest
                     | None => pair_sessions pick rest
                     end
      end
  end.

(** ** getSlippageEfficiency *)

(** An amount missing from the authorisation is [undefined]. *)
Record Trade : Type := { tr_agent : option string; tr_authorized : option Z; tr_actual : Z }.

Definition pick_trade (auth fin : fields_t) : option Trade :=
  if bool_decide (agent_field auth = agent_field fin)
  then Some {| tr_agent := agent_field auth;
               tr_authorized := match field (JObj auth) "usdAmount" with JBig z => Some z | _ => None end;
               tr_actual := big_or_zero fin "actualSpendUsd" |}
  else None.

(** The loss of a trade and its basis points; none for an authorisation of zero,
    and mixing a bigint with [undefined] throws. *)
Definition trade_loss (t : Trade) : result js_exn (option (Z * double)) :=
  match tr_authorized t with
  | None => Throw JsTypeError
  | Some authorized =>
      if authorized =? 0 then Ok None
      else let diff := if authorized <? tr_actual t then tr_actual t - authorized else 0 in
           Ok (Some (diff, Number_of (Z.quot (diff * 10000) authorized)))
  end.

Record AgentSlippage : Type := {
  as_agent : option string; as_avgSlippageBps : double; as_worstSlippageBps : double; as_tradeCount : nat;
  as_estimatedWasteUsd : Z;
}.

Definition max_double (a b : double) : double := if double_ge a b then a else b.

(** A row and the basis points it adds to the vault's total. *)
Definition slippage_row (p : option string * list Trade) : result js_exn (AgentSlippage * double) :=
  losses ← mapM trade_loss p.2;
  let ls := omap id losses in
  let totalBps := foldl double_add zero (map snd ls) in
  Ok ({| as_agent := p.1; as_avgSlippageBps := double_div totalBps (Number_of (Z.of_nat (length p.2)));
         as_worstSlippageBps := foldl max_double zero (map snd ls); as_tradeCount := length p.2;
         as_estimatedWasteUsd := foldl Z.add 0 (map fst ls) |}, totalBps).

Record SlippageReport : Type := { sr_byAgent : list AgentSlippage; sr_vaultAvgSlippageBps : double }.

Definition group_trades (trades : list Trade) : list (option string * list Trade) :=
  foldl (λ m t, jm_update (tr_agent t) [] (λ ts, ts ++ [t]) m) [] trades.

Definition getSlippageEfficiency (events : list DecodedEvent) : result js_exn SlippageReport :=
  rows ← mapM slippage_row (group_trades (pair_sessions pick_trade events));
  let totalTrades := sum_list (map (λ r, as_tradeCount r.1) rows) in
  Ok {| sr_byAgent := map fst rows;
        sr_vaultAvgSlippageBps := if bool_decide (0 < totalTrades)%nat
          then double_div (foldl double_add zero (map snd rows)) (Number_of (Z.of_nat totalTrades)) else zero |}.

(** ** getCapVelocity *)

Inductive risk : Type := RiskLow | RiskModerate | RiskHigh | RiskCritical.

#[export] Instance risk_eq_dec : EqDecision risk.
Proof. solve_decision. Defined.

Record CapVelocityReport : Type := {
  cv_currentRate : Z; cv_avgRate : Z; cv_acceleration : double; cv_projectedCapHitTime : option double;
  cv_riskLevel : risk;
}.

(** [x - y] where [y <= x]. *)
Definition double_sub : double → double → double := double_op (λ a b c d, (a * d - c * b, b * d)).

Definition is_recent (currentEpoch : Z) (b : EpochBucket) : bool :=
  (currentEpoch - 3 <=? eb_epochId b) && (eb_epochId b <=? currentEpoch) && (0 <? eb_usdAmount b).

Definition cap_risk (util : double) (acceleration : double) (untilHit : option double) : risk :=
  let fast := negb (double_ge (Finite 3 (-1)) acceleration) in
  let soon := match untilHit with Some s => negb (double_ge s (Number_of 3600)) | None => false end in
  if double_ge util (Number_of 95) || soon then RiskCritical
  else if double_ge util (Number_of 80) && fast then RiskHigh
  else if double_ge util (Number_of 50) || fast then RiskModerate
  else RiskLow.

Definition getCapVelocity (tracker : option SpendTracker) (nowUnix : Z) (b : EffectiveBudget) : CapVelocityReport :=
  let currentEpoch := Z.quot nowUnix EPOCH_DURATION in
  let recent := match tracker with
                | Some t => filter (λ x, is_recent currentEpoch x = true) (st_buckets t)
                | None => []
                end in
  let recentSum := foldl Z.add 0 (map eb_usdAmount recent) in
  let currentRate := match recent with [] => 0 | _ => Z.quot (recentSum * 6) (Z.of_nat (length recent)) end in
  let avgRate := Z.quot (spent24h b) 24 in
  let acceleration := if 0 <? avgRate then double_div (Number_of currentRate) (Number_of avgRate) else zero in
  let projected := if (0 <? currentRate) && (0 <? remaining b)
                   then let hoursRemaining := double_div (Number_of (remaining b)) (Number_of currentRate) in
                        Some (double_add (Number_of nowUnix) (double_mul_int hoursRemaining 3600))
                   else None in
  let util := if 0 <? cap b then Number_of (Z.quot (spent24h b * 100) (cap b)) else zero in
  {| cv_currentRate := currentRate; cv_avgRate := avgRate; cv_acceleration := acceleration;
     cv_projectedCapHitTime := projected;
     cv_riskLevel := cap_risk util acceleration (option_map (λ t, double_sub t (Number_of nowUnix)) projected) |}.

(** ** getSessionDeviationRate *)

Record Pair : Type := { pr_agent : option string; pr_authorized : Z; pr_actual : Z }.

Definition pick_pair (auth fin : fields_t) : option Pair :=
  let finActual := big_or_zero fin "actualSpendUsd" in
  let authAmount := big_or_zero auth "usdAmount" in
  if bool_decide (agent_field auth = agent_field fin) && (0 <? finActual)
  then Some {| pr_agent := agent_field auth; pr_authorized := authAmount; pr_actual := finActual |}
  else None.

Record Deviation : Type := {
  de_agent : option string; de_authorizedAmount : Z; de_actualSpend : Z; de_deviationBps : double;
}.

Record DeviationReport : Type := {
  dr_totalSessions : nat; dr_deviatedSessions : nat; dr_deviationRate : double; dr_maxDeviationBps : double;
  dr_deviations : list Deviation;
}.

Definition deviation (p : Pair) : option Deviation :=
  if pr_authorized p =? 0 then None
  else if pr_authorized p <? pr_actual p then
    let bps := Number_of (Z.quot ((pr_actual p - pr_authorized p) * 10000) (pr_authorized p)) in
    if double_gt bps 200
    then Some {| de_agent := pr_agent p; de_authorizedAmount := pr_authorized p; de_actualSpend := pr_actual p;
                 de_deviationBps := bps |}
    else None
  else None.

(** [(n / total) * 100]. *)
Definition percentage (n total : nat) : double :=
  double_mul_int (double_div (Number_of (Z.of_nat n)) (Number_of (Z.of_nat total))) 100.

Definition getSessionDeviationRate (events : list DecodedEvent) : DeviationReport :=
  let pairs := pair_sessions pick_pair events in
  let deviations := omap deviation pairs in
  {| dr_totalSessions := length pairs; dr_deviatedSessions := length deviations;
     dr_deviationRate := if bool_decide (0 < length pairs)%nat then percentage (length deviations) (length pairs)
                         else zero;
     dr_maxDeviationBps := foldl max_double zero (map de_deviationBps deviations);
     dr_deviations := deviations |}.

(** ** getIdleCapitalDuration *)

Record IdleCapitalReport : Type := {
  ic_avgIdleHours : double; ic_maxIdleHours : double; ic_lastActivityTimestamp : Z; ic_idleSinceHours : signed_double;
}.

Definition trade_time (e : DecodedEvent) : option Z :=
  if bool_decide (ev_name e = "SessionFinalized") || bool_decide (ev_name e = "ActionAuthorized")
  then match ev_fields e with
       | Some f => match field (JObj f) "timestamp" with JBig z => Some z | _ => None end
       | None => None
       end
  else None.

Fixpoint gaps (ts : list Z) : list Z :=
  match ts with
  | a :: (b :: _) as rest => (b - a) :: gaps rest
  | _ => []
  end.

(** [Math.round((s / 3600) * 10) / 10] of a non-negative [s]. *)
Definition round_hours (s : double) : double :=
  match Math_round (double_mul_int (double_div s (Number_of 3600)) 10) with
  | Some z => double_div (Number_of z) (Number_of 10)
  | None => Infinity
  end.

(** [Math.round] of [- x]: halves are rounded up, so towards zero. *)
Definition Math_round_neg (x : double) : option Z :=
  match x with
  | Infinity => None
  | Finite m e => if 0 <=? e then Some (m * 2 ^ e)
                  else let d := 2 ^ (- e) in Some (- ((d - 2 * m) / (2 * d)))
  end.

(** The hours since the last activity; negative when it lies in the future. *)
Definition idle_hours (s : Z) : signed_double :=
  if 0 <=? s then (false, round_hours (Number_of s))
  else (true, match Math_round_neg (double_mul_int (double_div (Number_of (- s)) (Number_of 3600)) 10) with
              | Some z => double_div (Number_of z) (Number_of 10)
              | None => Infinity
              end).

Definition getIdleCapitalDuration (events : list DecodedEvent) (nowUnix : Z) : IdleCapitalReport :=
  let tradeTimestamps := js_sort Z.leb (omap trade_time events) in
  match last tradeTimestamps with
  | None => {| ic_avgIdleHours := zero; ic_maxIdleHours := zero; ic_lastActivityTimestamp := 0;
               ic_idleSinceHours := (false, zero) |}
  | Some lastTimestamp =>
      let gs := gaps tradeTimestamps in
      let avgGap := match gs with
                    | [] => zero
                    | _ => double_div (Number_of (foldl Z.add 0 gs)) (Number_of (Z.of_nat (length gs)))
                    end in
      {| ic_avgIdleHours := round_hours avgGap;
         ic_maxIdleHours := round_hours (Number_of (foldl Z.max 0 gs));
         ic_lastActivityTimestamp := lastTimestamp;
         ic_idleSinceHours := idle_hours (nowUnix - lastTimestamp) |}
  end.

(** ** getPermissionEscalationLatency *)

(** A number: [None] is [NaN], which every comparison rejects. *)
Definition num : Type := option Z.
Definition js_Number (v : jsv) : num := match v with JBig z | JNum (Int z) => Some z | _ => None end.
Definition num_minus (a b : num) : num := match a, b with Some x, Some y => Some (x - y) | _, _ => None end.
Definition num_lt (a : num) (z : Z) : bool := match a with Some x => x <? z | None => false end.

Record Escalation : Type := {
  es_agent : option string; es_grantTimestamp : num; es_firstUseTimestamp : option num; es_latencySeconds : option num;
  es_suspicious : bool;
}.

(** [Number(appliedAt ?? timestamp ?? 0)]. *)
Definition grant_time (f : fields_t) : num :=
  js_Number (nullish (nullish (field (JObj f) "appliedAt") (field (JObj f) "timestamp")) (JNum (Int 0))).

(** The search reads [fields?.agent], so an event without fields has none. *)
Definition used_by (agent : option string) (e : DecodedEvent) : bool :=
  bool_decide (ev_name e = "ActionAuthorized") &&
  bool_decide (match ev_fields e with Some f => agent_field f | None => None end = agent).

(** [fields!.timestamp] of the use that was found. *)
Definition event_time (e : DecodedEvent) : result js_exn num :=
  match ev_fields e with Some f => Ok (js_Number (field (JObj f) "timestamp")) | None => Throw JsTypeError end.

Definition first_use (agent : option string) (later : list DecodedEvent) : result js_exn (option num) :=
  match head (filter (λ e, used_by agent e = true) later) with
  | Some e => t ← event_time e; Ok (Some t)
  | None => Ok None
  end.

Definition escalation (f : fields_t) (later : list DecodedEvent) : result js_exn Escalation :=
  let agent := agent_field f in
  let grantTimestamp := grant_time f in
  firstUse ← first_use agent later;
  let latency := option_map (λ t, num_minus t grantTimestamp) firstUse in
  Ok {| es_agent := agent; es_grantTimestamp := grantTimestamp; es_firstUseTimestamp := firstUse;
        es_latencySeconds := latency;
        es_suspicious := match latency with Some l => num_lt l 60 | None => false end |}.

Fixpoint getPermissionEscalationLatency (events : list DecodedEvent) : result js_exn (list Escalation) :=
  match events with
  | [] => Ok []
  | e :: rest =>
      match named_fields "AgentPermissionsChangeApplied" e with
      | Some f => x ← escalation f rest; xs ← getPermissionEscalationLatency rest; Ok (x :: xs)
      | None => getPermissionEscalationLatency rest
      end
  end.

(** ** getInstructionCoverageRatio *)

Record CoverageReport : Type := { cg_totalComposed : nat; cg_orphanedValidates : nat; cg_coverageRate : double }.

Definition count_by_agent (name : string) (events : list DecodedEvent) : list (string * nat) :=
  foldl (λ m a, jm_update a 0%nat S m) [] (omap (agent_of name) events).

Definition getInstructionCoverageRatio (events : list DecodedEvent) : CoverageReport :=
  let authorized := count_by_agent "ActionAuthorized" events in
  let finalized := count_by_agent "SessionFinalized" events in
  let paired := λ p : string * nat, Nat.min p.2 (default 0%nat (jm_get p.1 finalized)) in
  let totalComposed := sum_list (map paired authorized) in
  let orphaned := sum_list (map (λ p, (p.2 - paired p)%nat) authorized) in
  let total := (totalComposed + orphaned)%nat in
  {| cg_totalComposed := totalComposed; cg_orphanedValidates := orphaned;
     cg_coverageRate := if bool_decide (0 < total)%nat then percentage totalComposed total else Number_of 100 |}.

(** ** getPermissionUtilizationRate *)

Definition action_label (f : fields_t) : string :=
  if 0 <? big_or_zero f "amount" then "Spending" else "NonSpending".

(** [Set.add], which keeps the order of first insertion. *)
Definition set_add (x : string) (s : list string) : list string := if bool_decide (x ∈ s) then s else s ++ [x].

Definition action_usage (events : list DecodedEvent) : list (string * list string) :=
  foldl (λ m e, match named_fields "ActionAuthorized" e, agent_of "ActionAuthorized" e with
                | Some f, Some a => jm_update a [] (set_add (action_label f)) m
                | _, _ => m
                end) [] events.

Definition CAPABILITY_GRANTS (capability : Z) : list string :=
  if capability =? 1 then ["NonSpending"]
  else if capability =? 2 then ["Spending"; "NonSpending"]
  else [].

Record AgentUtilization : Type := {
  au_agent : string; au_grantedPermissions : list string; au_exercisedPermissions : list string;
  au_utilizationRate : double; au_unusedPermissions : list string;
}.

Record PermissionUtilization : Type := {
  pz_byAgent : list AgentUtilization; pz_mostUsed : option string; pz_leastUsed : option string;
}.

Definition agent_utilization (usage : list (string * list string)) (a : AgentEntry) : AgentUtilization :=
  let granted := CAPABILITY_GRANTS (ae_capability a) in
  let exercised := default [] (jm_get (ae_pubkey a) usage) in
  let exercisedArr := filter (λ x, x ∈ granted) exercised in {|
  au_agent := ae_pubkey a; au_grantedPermissions := granted; au_exercisedPermissions := exercisedArr;
  au_utilizationRate := if bool_decide (0 < length granted)%nat then percentage (length exercisedArr) (length granted)
                        else zero;
  au_unusedPermissions := filter (λ x, x ∉ exercised) granted |}.

(** The strict extremes over the counts, in the order of the map. *)
Definition most_used (counts : list (string * nat)) : option string :=
  fst (foldl (λ acc p, if bool_decide (acc.2 < p.2)%nat then (Some p.1, p.2) else acc) (None, 0%nat) counts).

Definition least_used (counts : list (string * nat)) : option string :=
  fst (foldl (λ acc p, if match acc.2 with Some n => bool_decide (p.2 < n)%nat | None => true end
                       then (Some p.1, Some p.2) else acc) (None, None) counts).

Definition getPermissionUtilizationRate (agents : list AgentEntry) (events : list DecodedEvent)
    : PermissionUtilization :=
  let usage := action_usage events in
  let rows := map (agent_utilization usage) agents in
  let counts := foldl (λ m a, jm_update a 0%nat S m) [] (concat (map au_exercisedPermissions rows)) in
  {| pz_byAgent := rows; pz_mostUsed := most_used counts; pz_leastUsed := least_used counts |}.

(** ** Comparing whole numbers *)

(** A whole number from [2^53] on rounds to a double that is no smaller than [2^53]. *)
Lemma Number_of_large z :
  2 ^ 53 ≤ z → Number_of z = Infinity ∨ ∃ m e, Number_of z = Finite m e ∧ 0 ≤ e ∧ 2 ^ 53 ≤ m * 2 ^ e.
Proof.
  intros Hz. unfold Number_of, to_double. rewrite (proj2 (Z.eqb_neq z 0)) by lia.
  assert (Hl : 53 ≤ Z.log2 z) by (rewrite <- (Z.log2_pow2 53) by lia; by apply Z.log2_le_mono).
  assert (He : ulp_expo z 1 = Z.log2 z - 52).
  { unfold ulp_expo. change (Z.log2 1) with 0. rewrite Z.sub_0_r. unfold scale_den, scale_num.
    rewrite (proj2 (Z.leb_gt (Z.log2 z) 0)) by lia. pose proof (Z.log2_spec z ltac:(lia)).
    rewrite (proj2 (Z.leb_le (1 * 2 ^ Z.log2 z) z)) by lia. lia. }
  rewrite He. set (e := Z.log2 z - 52) in *. unfold scale_num, scale_den.
  rewrite (proj2 (Z.leb_gt e 0)) by lia. rewrite Z.mul_1_l.
  destruct (1024 <? _); [by left|]. right. eexists _, e. split; [done|]. split; [lia|].
  assert (H2 : 2 ^ 52 ≤ round_even z (2 ^ e)).
  { assert (2 ^ 52 ≤ z / 2 ^ e).
    { apply Z.div_le_lower_bound; [apply Z.pow_pos_nonneg; lia|]. rewrite <- Z.pow_add_r by lia.
      replace (e + 52) with (Z.log2 z) by lia. by apply Z.log2_spec; lia. }
    unfold round_even. destruct (_ <? _); [done|]. destruct (_ <? _); [lia|]. destruct (Z.even _); lia. }
  assert (2 ≤ 2 ^ e) by (apply (Z.pow_le_mono_r 2 1); lia).
  change (2 ^ 53) with (2 ^ 52 * 2). nia.
Qed.

Lemma double_gt_Number z k : 0 ≤ z → 0 ≤ k < 2 ^ 53 → double_gt (Number_of z) k = (k <? z).
Proof.
  intros Hz Hk. destruct (Z.lt_ge_cases z (2 ^ 53)) as [Hs|Hl].
  - destruct (Number_of_exact z) as (m & e & -> & He & ->); [lia|]. unfold double_gt, double_num, double_den.
    destruct (Z.leb_spec 0 e); [assert (e = 0) as -> by lia; simpl; by rewrite !Z.mul_1_r|].
    assert (0 < 2 ^ (- e)) by (apply Z.pow_pos_nonneg; lia).
    apply eq_true_iff_eq. rewrite !Z.ltb_lt. nia.
  - rewrite (proj2 (Z.ltb_lt k z)) by lia.
    destruct (Number_of_large z Hl) as [->|(m & e & -> & He & Hm)]; [done|].
    unfold double_gt, double_num, double_den. rewrite (proj2 (Z.leb_le 0 e) He). apply Z.ltb_lt. lia.
Qed.

Lemma double_ge_Number z k : 0 ≤ z → 0 < k < 2 ^ 53 → double_ge (Number_of z) (Number_of k) = (k <=? z).
Proof.
  intros Hz Hk. destruct (Number_of_exact k) as (mk & ek & -> & Hek & ->); [lia|].
  assert (Hd : double_num (k * 2 ^ (- ek)) ek = k * double_den ek ∧ 0 < double_den ek).
  { unfold double_num, double_den. destruct (Z.leb_spec 0 ek); [assert (ek = 0) as -> by lia; simpl; lia|].
    split; [done|]. apply Z.pow_pos_nonneg; lia. }
  destruct Hd as [Hd Hpos]. pose proof (double_gt_Number z (k - 1) Hz ltac:(lia)) as Hgt.
  destruct (Number_of z) as [m e|] eqn:E; simpl; [|symmetry; apply Z.leb_le; simpl in Hgt; symmetry in Hgt;
    apply Z.ltb_lt in Hgt; lia].
  rewrite Hd. destruct (Z.lt_ge_cases z (2 ^ 53)) as [Hs|Hl].
  - destruct (Number_of_exact z) as (m' & e' & E' & He & Hm'); [lia|].
    rewrite E in E'. injection E' as <- <-. subst m. unfold double_num, double_den in *.
    destruct (Z.leb_spec 0 e); [assert (e = 0) as -> by lia; simpl|];
      [|assert (0 < 2 ^ (- e)) by (apply Z.pow_pos_nonneg; lia)];
      apply eq_true_iff_eq; rewrite !Z.leb_le; split; intros; destruct (0 <=? ek); nia.
  - rewrite (proj2 (Z.leb_le k z)) by lia.
    destruct (Number_of_large z Hl) as [E'|(m' & e' & E' & He & Hm)]; rewrite E in E'; [done|].
    injection E' as <- <-. unfold double_num, double_den in *. rewrite (proj2 (Z.leb_le 0 e) He).
    apply Z.leb_le. destruct (0 <=? ek); nia.
Qed.

(** ** What is paired *)

Lemma pair_sessions_elem {A} (pick : fields_t → fields_t → option A) events p :
  p ∈ pair_sessions pick events ↔
  ∃ i e auth, events !! i = Some e ∧ named_fields "ActionAuthorized" e = Some auth ∧
    first_finalized pick auth (take 4 (drop (S i) events)) = Some p.
Proof.
  induction events as [|e rest IH].
  { split; [by intros ?%not_elem_of_nil|]. by intros (i & e & auth & ? & _). }
  assert (Hstep : (∃ i e' auth, rest !! i = Some e' ∧ named_fields "ActionAuthorized" e' = Some auth ∧
      first_finalized pick auth (take 4 (drop (S i) rest)) = Some p) ↔
    ∃ i e' auth, (e :: rest) !! S i = Some e' ∧ named_fields "ActionAuthorized" e' = Some auth ∧
      first_finalized pick auth (take 4 (drop (S (S i)) (e :: rest))) = Some p) by done.
  rewrite Hstep in IH. clear Hstep. cbn [pair_sessions].
  destruct (named_fields "ActionAuthorized" e) as [auth|] eqn:Ea;
    [destruct (first_finalized pick auth (take 4 rest)) as [q|] eqn:Eq|];
    rewrite ?elem_of_cons, IH; (split; [|intros ([|i] & e' & auth' & He & Ha & Hf)]).
  - intros [->|(i & H)]; [exists 0%nat, e, auth; cbn [drop]; by rewrite drop_0|by exists (S i)].
  - left. injection He as <-. rewrite Ea in Ha. injection Ha as <-. cbn [drop] in Hf. rewrite drop_0 in Hf. congruence.
  - right. by exists i, e', auth'.
  - intros (i & H). by exists (S i).
  - injection He as <-. rewrite Ea in Ha. injection Ha as <-. cbn [drop] in Hf. rewrite drop_0 in Hf. congruence.
  - by exists i, e', auth'.
  - intros (i & H). by exists (S i).
  - injection He as <-. congruence.
  - by exists i, e', auth'.
Qed.

(** *** Deviation *)

(** The basis points are rounded down before they are compared, so a deviation
    begins at 201 of them. *)
Definition overspends (p : Pair) : Prop :=
  0 < pr_authorized p ∧ 201 * pr_authorized p ≤ 10000 * (pr_actual p - pr_authorized p).

#[export] Instance overspends_dec p : Decision (overspends p).
Proof. unfold overspends. apply _. Defined.

Lemma deviation_iff p : 0 ≤ pr_authorized p → is_Some (deviation p) ↔ overspends p.
Proof.
  intros Hn. unfold deviation, overspends. destruct (Z.eqb_spec (pr_authorized p) 0) as [->|Hz].
  { split; [by intros [? ?]|lia]. }
  destruct (Z.ltb_spec (pr_authorized p) (pr_actual p)) as [Hlt|Hge].
  2: { split; [by intros [? ?]|lia]. }
  set (n := (pr_actual p - pr_authorized p) * 10000). assert (0 ≤ n) by (unfold n; lia).
  rewrite Z.quot_div_nonneg by lia. rewrite double_gt_Number; [|apply Z.div_pos; lia|lia].
  destruct (Z.ltb_spec 200 (n / pr_authorized p)) as [Hd|Hd].
  - split; [intros _|by eexists]. split; [lia|].
    pose proof (Z.mul_div_le n (pr_authorized p)). unfold n in *. nia.
  - split; [by intros [? ?]|]. intros [_ Hb].
    assert (201 ≤ n / pr_authorized p); [|lia]. apply Z.div_le_lower_bound; unfold n; lia.
Qed.

Lemma omap_filter_length {A B} (f : A → option B) (P : A → Prop) `{∀ x, Decision (P x)} (l : list A) :
  Forall (λ x, is_Some (f x) ↔ P x) l → length (omap f l) = length (filter P l).
Proof.
  induction 1 as [|x l Hx _ IH]; [done|]. rewrite filter_cons. cbn [omap list_omap].
  destruct (decide (P x)) as [Hp|Hp].
  - apply Hx in Hp as [y ->]. simpl. by rewrite <- IH.
  - destruct (f x); [exfalso; naive_solver|]. done.
Qed.

(** A report on deviations counts exactly the sessions that spent at least 2.01 percent
    more than was authorised; spending less than authorised is never a
    deviation, nor is any spending against an authorisation of zero. *)
Theorem deviations_are_overspends (events : list DecodedEvent) :
  Forall (λ p, 0 ≤ pr_authorized p) (pair_sessions pick_pair events) →
  dr_deviatedSessions (getSessionDeviationRate events) =
    length (filter overspends (pair_sessions pick_pair events)) ∧
  Forall (λ d, de_authorizedAmount d < de_actualSpend d) (dr_deviations (getSessionDeviationRate events)).
Proof.
  intros Hn. split.
  - simpl. apply omap_filter_length. eapply Forall_impl; [exact Hn|]. intros p. apply deviation_iff.
  - simpl. apply Forall_forall. intros d (p & Hp & Hd)%list_elem_of_omap. unfold deviation in Hd.
    destruct (_ =? _); [done|]. destruct (Z.ltb_spec (pr_authorized p) (pr_actual p)); [|done].
    destruct (double_gt _ _); [|done]. by injection Hd as <-.
Qed.

(** *** Coverage *)

Lemma jm_get_update {K V} `{EqDecision K} (k k' : K) (d : V) f m :
  jm_get k' (jm_update k d f m) = if decide (k = k') then Some (f (default d (jm_get k m))) else jm_get k' m.
Proof.
  unfold jm_update. destruct (decide (k = k')) as [->|Hne]; [apply jm_get_set_eq|by apply jm_get_set_ne].
Qed.

Definition occurrences (a : string) (l : list string) : nat := length (filter (λ x, x = a) l).

Lemma counts_spec l m : 
  jm_wf m → let m' := foldl (λ m a, jm_update a 0%nat S m) m l in
  jm_wf m' ∧ (∀ a, default 0%nat (jm_get a m') = (default 0 (jm_get a m) + occurrences a l)%nat) ∧
  sum_list (map snd m') = (sum_list (map snd m) + length l)%nat.
Proof.
  cbv zeta. revert m. induction l as [|a l IH]; intros m Hm; simpl.
  { split; [done|]. split; [intros a; unfold occurrences; simpl; lia|lia]. }
  destruct (IH (jm_update a 0%nat S m)) as (Hw & Hg & Hs); [by apply jm_set_wf|]. split; [done|]. split.
  - intros b. rewrite Hg, jm_get_update. unfold occurrences. rewrite filter_cons.
    destruct (decide (a = b)) as [->|]; simpl; lia.
  - rewrite Hs. enough (sum_list (map snd (jm_update a 0%nat S m)) = S (sum_list (map snd m))) by lia.
    clear. unfold jm_update. induction m as [|[k n] m IH]; simpl; [done|].
    destruct (decide (k = a)) as [->|Hne]; [rewrite !bool_decide_true by done; simpl; lia|].
    rewrite !bool_decide_false by done. simpl. rewrite IH. lia.
Qed.

Lemma count_by_agent_spec name events :
  let l := omap (agent_of name) events in
  jm_wf (count_by_agent name events) ∧
  (∀ a, default 0%nat (jm_get a (count_by_agent name events)) = occurrences a l) ∧
  sum_list (map snd (count_by_agent name events)) = length l.
Proof. cbv zeta. destruct (counts_spec (omap (agent_of name) events) []) as (A & B & C); [constructor|]. done. Qed.

(** Two maps with the same totals per key: the sum over the shared keys is bounded by the second's. *)
Lemma sum_min_bound (m f : list (string * nat)) :
  jm_wf m → (sum_list (map (λ p, Nat.min p.2 (default 0%nat (jm_get p.1 f))) m) ≤ sum_list (map snd f))%nat.
Proof.
  revert f. induction m as [|[k n] m IH]; intros f Hm; simpl; [lia|].
  apply NoDup_cons in Hm as [Hk Hm].
  assert (Hdel : sum_list (map (λ p, Nat.min p.2 (default 0%nat (jm_get p.1 f))) m) =
    sum_list (map (λ p, Nat.min p.2 (default 0%nat (jm_get p.1 (jm_delete k f)))) m)).
  { f_equal. apply map_ext_in. intros [k' n'] Hin. simpl. rewrite jm_get_delete_ne; [done|].
    intros Heq. apply Hk, list_elem_of_In, in_map_iff. exists (k', n'). simpl. split; [congruence|done]. }
  rewrite Hdel. specialize (IH (jm_delete k f) Hm).
  enough (sum_list (map snd f) = (default 0 (jm_get k f) + sum_list (map snd (jm_delete k f)))%nat) by lia.
  clear. induction f as [|[k' n'] f IH]; simpl; [done|]. destruct (decide (k' = k)) as [->|Hne].
  - by rewrite !bool_decide_true.
  - rewrite !bool_decide_false by done. simpl. lia.
Qed.

Lemma sum_list_split {A} (f g : A → nat) l :
  sum_list (map (λ x, f x + g x)%nat l) = (sum_list (map f l) + sum_list (map g l))%nat.
Proof. induction l as [|x l IH]; simpl; [done|]. rewrite IH. lia. Qed.

(** The coverage report accounts for every authorisation once, as composed or
    as orphaned; it never composes more sessions than were finalised, and it
    reports full coverage exactly when no agent has more authorisations than
    finalisations. *)
Theorem coverage_accounts_for_every_authorisation (events : list DecodedEvent) :
  let r := getInstructionCoverageRatio events in
  let authorised := omap (agent_of "ActionAuthorized") events in
  let finalised := omap (agent_of "SessionFinalized") events in
  (cg_totalComposed r + cg_orphanedValidates r = length authorised)%nat ∧
  (cg_totalComposed r ≤ length finalised)%nat ∧
  (cg_orphanedValidates r = 0%nat ↔ ∀ a, (occurrences a authorised ≤ occurrences a finalised)%nat).
Proof.
  cbv zeta. unfold getInstructionCoverageRatio. cbn [cg_totalComposed cg_orphanedValidates].
  destruct (count_by_agent_spec "ActionAuthorized" events) as (Hw & Hg & Hs).
  destruct (count_by_agent_spec "SessionFinalized" events) as (Hw' & Hg' & Hs').
  set (m := count_by_agent "ActionAuthorized" events) in *. set (f := count_by_agent "SessionFinalized" events) in *.
  split_and!.
  - rewrite <- sum_list_split. rewrite <- Hs. f_equal. apply map_ext. intros [k n]. simpl. lia.
  - rewrite <- Hs'. by apply sum_min_bound.
  - assert (Hz : ∀ (g : string * nat → nat) l, sum_list (map g l) = 0%nat ↔ Forall (λ p, g p = 0%nat) l).
    { intros g l. induction l as [|x l IH]; simpl; [by split|]. rewrite Forall_cons, <- IH. lia. }
    rewrite Hz. clear Hz. rewrite Forall_forall. split.
    + intros H a. rewrite <- Hg, <- Hg'. destruct (jm_get a m) as [n|] eqn:E; simpl; [|lia].
      apply jm_get_elem in E. specialize (H _ E). simpl in H. lia.
    + intros H [a n] Hin. simpl. specialize (H a). rewrite <- Hg, <- Hg' in H.
      rewrite (jm_elem_get _ _ _ Hw Hin) in H. simpl in H. lia.
Qed.

(** *** Two reports on the same sessions *)

Definition authorised (agent : string) (usd timestamp : Z) : DecodedEvent := {|
  ev_name := "ActionAuthorized"; ev_txSignature := None;
  ev_fields := Some [("agent", JStr agent); ("usdAmount", JBig usd); ("timestamp", JBig timestamp)] |}.
Definition finalised (agent : string) (usd : Z) : DecodedEvent := {|
  ev_name := "SessionFinalized"; ev_txSignature := None;
  ev_fields := Some [("agent", JStr agent); ("actualSpendUsd", JBig usd)] |}.

(** The two authorisations of one agent before its only finalisation: the coverage
    report finds one composed session and one orphan, while the deviation and
    slippage reports pair the finalisation with both authorisations and count
    its spending twice. *)
Theorem one_finalisation_is_paired_twice (agent : string) (x y z t u : Z) :
  agent ≠ "" → 0 < z →
  let events := [authorised agent x t; authorised agent y u; finalised agent z] in
  cg_totalComposed (getInstructionCoverageRatio events) = 1%nat ∧
  cg_orphanedValidates (getInstructionCoverageRatio events) = 1%nat ∧
  dr_totalSessions (getSessionDeviationRate events) = 2%nat ∧
  map tr_actual (pair_sessions pick_trade events) = [z; z].
Proof.
  intros Ha Hz events.
  assert (Hf : pair_sessions pick_pair events =
    [{| pr_agent := Some agent; pr_authorized := x; pr_actual := z |};
     {| pr_agent := Some agent; pr_authorized := y; pr_actual := z |}]).
  { assert (Hp : ∀ a b, pick_pair [("agent", JStr agent); ("usdAmount", JBig a); ("timestamp", JBig b)]
      [("agent", JStr agent); ("actualSpendUsd", JBig z)] =
      Some {| pr_agent := Some agent; pr_authorized := a; pr_actual := z |}).
    { intros a b. unfold pick_pair. rewrite bool_decide_true by done. unfold big_or_zero. simpl.
      by rewrite (proj2 (Z.ltb_lt 0 z) Hz). }
    unfold events. simpl. unfold first_finalized. simpl. by rewrite !Hp. }
  assert (Ht : map tr_actual (pair_sessions pick_trade events) = [z; z]).
  { unfold events. simpl. unfold first_finalized. simpl. unfold pick_trade. by rewrite !bool_decide_true by done. }
  assert (Hag : ∀ name e a, ev_fields e = Some a → agent_field a = Some agent →
    agent_of name e = if bool_decide (ev_name e = name) then Some agent else None).
  { intros name e a He Hf'. unfold agent_of, named_fields. destruct (bool_decide _); [|done].
    rewrite He, Hf'. by rewrite bool_decide_false. }
  assert (Hc : count_by_agent "ActionAuthorized" events = [(agent, 2%nat)] ∧
    count_by_agent "SessionFinalized" events = [(agent, 1%nat)]).
  { unfold count_by_agent, events. cbn [omap list_omap]. erewrite !Hag by done. simpl.
    unfold jm_update. simpl. by rewrite !bool_decide_true by done. }
  destruct Hc as [Hc1 Hc2]. unfold getInstructionCoverageRatio. rewrite Hc1, Hc2. cbn [cg_totalComposed cg_orphanedValidates].
  unfold getSessionDeviationRate. rewrite Hf. simpl. by rewrite !bool_decide_true by done.
Qed.

(** *** Slippage *)

(** What a trade spent beyond its authorisation; nothing when the authorisation is zero or unknown. *)
Definition excess (t : Trade) : Z :=
  match tr_authorized t with Some a => if a =? 0 then 0 else Z.max 0 (tr_actual t - a) | None => 0 end.

Lemma trade_losses ts losses :
  mapM trade_loss ts = Ok losses → foldl Z.add 0 (map fst (omap id losses)) = sumZ (map excess ts).
Proof.
  intros H%mapM_Ok_iff. rewrite foldl_add_sumZ.
  induction H as [|t l ts losses Ht _ IH]; [done|].
  cbn [map]. rewrite sumZ_cons. unfold trade_loss in Ht. unfold excess at 1.
  destruct (tr_authorized t) as [a|]; [|done]. destruct (a =? 0).
  { injection Ht as <-. cbn [omap list_omap id]. lia. }
  injection Ht as <-. cbn [omap list_omap id map fst]. rewrite sumZ_cons.
  destruct (Z.ltb_spec a (tr_actual t)); lia.
Qed.

Lemma group_trades_sum (g : Trade → Z) trades m :
  sumZ (map (λ p : option string * list Trade, sumZ (map g p.2))
    (foldl (λ m t, jm_update (tr_agent t) [] (λ ts, ts ++ [t]) m) m trades)) =
  sumZ (map (λ p, sumZ (map g p.2)) m) + sumZ (map g trades).
Proof.
  revert m. induction trades as [|t trades IH]; intros m; cbn [foldl map]; [change (sumZ []) with 0; lia|].
  rewrite IH, sumZ_cons, (sumZ_jm_update (λ ts, sumZ (map g ts)) _ _ _ _ (g t)); [lia|done|].
  intros ts. rewrite map_app, sumZ_app. cbn [map]. rewrite sumZ_cons. change (sumZ []) with 0. lia.
Qed.

(** The slippage report spreads the paired trades over the agents: every trade
    is in one row, and the wasted dollars of the rows add up to what the trades
    spent beyond their authorisations. *)
Theorem slippage_conserves_trades (events : list DecodedEvent) (r : SlippageReport) :
  getSlippageEfficiency events = Ok r →
  let trades := pair_sessions pick_trade events in
  sumZ (map (λ a, Z.of_nat (as_tradeCount a)) (sr_byAgent r)) = Z.of_nat (length trades) ∧
  sumZ (map as_estimatedWasteUsd (sr_byAgent r)) = sumZ (map excess trades).
Proof.
  intros H. cbv zeta. set (trades := pair_sessions pick_trade events). unfold getSlippageEfficiency in H.
  fold trades in H. apply bind_Ok_inv in H as (rows & Hr & [= <-]). cbn [sr_byAgent].
  apply mapM_Ok_iff in Hr.
  assert (Hrow : Forall2 (λ p q, as_tradeCount q.1 = length p.2 ∧ as_estimatedWasteUsd q.1 = sumZ (map excess p.2))
    (group_trades trades) rows).
  { eapply Forall2_impl; [exact Hr|]. intros p q Hq. unfold slippage_row in Hq.
    apply bind_Ok_inv in Hq as (losses & Hl & [= <-]). simpl. split; [done|]. by apply trade_losses. }
  assert (Hsum : ∀ (f : AgentSlippage → Z) (g : Trade → Z),
    (∀ p q, as_tradeCount q = length p ∧ as_estimatedWasteUsd q = sumZ (map excess p) → f q = sumZ (map g p)) →
    sumZ (map f (map fst rows)) = sumZ (map g trades)).
  { intros f g Hfg. pose proof (group_trades_sum g trades []) as Hg. cbn [map] in Hg.
    change (sumZ []) with 0 in Hg. rewrite Z.add_0_l in Hg. rewrite <- Hg. rewrite map_map. unfold group_trades in Hrow.
    clear -Hrow Hfg. induction Hrow as [|p q ps qs Hpq _ IH]; [done|]. cbn [map].
    rewrite !sumZ_cons, IH. by rewrite (Hfg p.2 q.1). }
  split.
  - rewrite (Hsum _ (λ _, 1)).
    + clear. induction trades as [|t ts IH]; [done|]. cbn [map length]. rewrite sumZ_cons, IH. lia.
    + intros p q [-> _]. clear. induction p as [|t ts IH]; [done|]. cbn [map length]. rewrite sumZ_cons, <- IH. lia.
  - apply Hsum. by intros p q [_ ->].
Qed.

(** *** Grants and their use *)

(** Every applied permission change is reported, in order, with the first
    later authorisation of its agent; it is suspicious exactly when that use came
    less than a minute after the grant, a use dated before it included. *)
Theorem escalations_specified (events : list DecodedEvent) (es : list Escalation) :
  getPermissionEscalationLatency events = Ok es →
  map es_agent es = map agent_field (omap (named_fields "AgentPermissionsChangeApplied") events) ∧
  Forall (λ e, es_suspicious e = true ↔
    ∃ g u, es_grantTimestamp e = Some g ∧ es_firstUseTimestamp e = Some (Some u) ∧ u < g + 60) es.
Proof.
  revert es. induction events as [|e rest IH]; intros es H; simpl in H; [by injection H as <-|].
  cbn [omap list_omap]. destruct (named_fields _ e) as [f|]; [|by apply IH].
  apply bind_Ok_inv in H as (x & Hx & H). apply bind_Ok_inv in H as (xs & Hxs & [= <-]).
  destruct (IH xs Hxs) as [Ha Hf]. unfold escalation in Hx. apply bind_Ok_inv in Hx as (u & Hu & [= <-]).
  cbn [map es_agent]. split; [by rewrite Ha|]. constructor; [|done]. simpl.
  destruct u as [[u|]|]; simpl; [|naive_solver..]. destruct (grant_time f) as [g|]; simpl; [|naive_solver].
  rewrite Z.ltb_lt. split; [intros; exists g, u; split_and!; [done..|lia]|]. intros (? & ? & [= <-] & [= <-] & ?). lia.
Qed.

Lemma label_add_spec x s : NoDup s → NoDup (set_add x s) ∧ ∀ y, y ∈ set_add x s ↔ y = x ∨ y ∈ s.
Proof.
  intros Hs. unfold set_add. destruct (decide (x ∈ s)) as [Hx|Hx].
  - rewrite bool_decide_true by done. set_solver.
  - rewrite bool_decide_false by done. split; [|set_solver].
    apply NoDup_app. split; [done|]. split; [set_solver|apply NoDup_singleton].
Qed.

(** An agent's actions of that kind. *)
Definition did (agent label : string) (e : DecodedEvent) : Prop :=
  agent_of "ActionAuthorized" e = Some agent ∧
  ∃ f, named_fields "ActionAuthorized" e = Some f ∧ action_label f = label.

Lemma action_usage_spec agent label events m :
  Forall (λ p, NoDup p.2) m →
  let m' := foldl (λ m e, match named_fields "ActionAuthorized" e, agent_of "ActionAuthorized" e with
                          | Some f, Some a => jm_update a [] (set_add (action_label f)) m
                          | _, _ => m
                          end) m events in
  Forall (λ p, NoDup p.2) m' ∧
  (label ∈ default [] (jm_get agent m') ↔ label ∈ default [] (jm_get agent m) ∨ Exists (did agent label) events).
Proof.
  cbv zeta. revert m. induction events as [|e events IH]; intros m Hm; cbn [foldl].
  { split; [done|]. rewrite Exists_nil. tauto. }
  rewrite Exists_cons. unfold did at 1.
  destruct (named_fields _ e) as [f|]; [|destruct (IH m Hm) as [? ->]; naive_solver].
  destruct (agent_of _ e) as [a|]; [|destruct (IH m Hm) as [? ->]; naive_solver].
  destruct (IH (jm_update a [] (set_add (action_label f)) m)) as [Hn ->].
  { apply (jm_update_Forall (λ s, NoDup s)); [constructor| |done]. intros s Hs. by apply label_add_spec. }
  split; [done|]. rewrite jm_get_update. destruct (decide (a = agent)) as [->|Hne]; [|naive_solver].
  assert (Hs : NoDup (default [] (jm_get agent m))).
  { destruct (jm_get agent m) as [s|] eqn:E; simpl; [|constructor]. apply jm_get_elem in E.
    rewrite Forall_forall in Hm. by apply (Hm (agent, s)). }
  cbn [default]. rewrite (proj2 (label_add_spec (action_label f) _ Hs) label). naive_solver.
Qed.

Lemma used_labels agent label events :
  NoDup (default [] (jm_get agent (action_usage events))) ∧
  (label ∈ default [] (jm_get agent (action_usage events)) ↔ Exists (did agent label) events).
Proof.
  destruct (action_usage_spec agent label events [] (Forall_nil_2 _)) as [Hn Hi]. fold (action_usage events) in Hn, Hi.
  split; [|rewrite Hi; set_solver]. destruct (jm_get agent (action_usage events)) as [s|] eqn:E; simpl; [|constructor].
  apply jm_get_elem in E. rewrite Forall_forall in Hn. by apply (Hn (agent, s)).
Qed.

(** A row of the permission report splits the granted permissions into those the events
    show the agent using and those they do not; a kind of action the agent was
    not granted appears in neither, even when the agent used it. *)
Theorem permission_rows_split_the_grant (agents : list AgentEntry) (events : list DecodedEvent) :
  Forall2 (λ a r,
    au_agent r = ae_pubkey a ∧
    au_grantedPermissions r = CAPABILITY_GRANTS (ae_capability a) ∧
    au_exercisedPermissions r ++ au_unusedPermissions r ≡ₚ au_grantedPermissions r ∧
    (∀ label, label ∈ au_exercisedPermissions r ↔
       label ∈ au_grantedPermissions r ∧ Exists (did (ae_pubkey a) label) events))
    agents (pz_byAgent (getPermissionUtilizationRate agents events)).
Proof.
  cbn [getPermissionUtilizationRate pz_byAgent]. induction agents as [|a agents IH]; [constructor|].
  constructor; [|exact IH]. unfold agent_utilization.
  cbn [au_agent au_grantedPermissions au_exercisedPermissions au_unusedPermissions].
  set (granted := CAPABILITY_GRANTS (ae_capability a)). set (used := default [] (jm_get (ae_pubkey a) (action_usage events))).
  assert (Hg : NoDup granted).
  { unfold granted, CAPABILITY_GRANTS. destruct (_ =? _); [apply NoDup_singleton|]. destruct (_ =? _); [|constructor].
    by apply NoDup_cons; split; [set_solver|apply NoDup_singleton]. }
  assert (Hu : NoDup used) by apply (used_labels _ "").
  split_and!; [done..| |].
  - apply NoDup_Permutation; [|done|intros x; rewrite elem_of_app, !list_elem_of_filter; destruct (decide (x ∈ used)); tauto].
    apply NoDup_app. split; [by apply NoDup_filter|]. split; [|by apply NoDup_filter].
    intros x [_ Hx]%list_elem_of_filter [Hn _]%list_elem_of_filter. done.
  - intros label. rewrite list_elem_of_filter. unfold used. by rewrite (proj2 (used_labels _ label events)).
Qed.

(** *** Velocity *)

(** A vault that has spent its cap is at critical risk whatever its rate, and a
    vault at low risk has spent less than half of it. *)
Theorem cap_risk_follows_use (tracker : option SpendTracker) (nowUnix : Z) (b : EffectiveBudget) :
  0 ≤ spent24h b → 0 < cap b →
  let r := cv_riskLevel (getCapVelocity tracker nowUnix b) in
  (95 * cap b ≤ 100 * spent24h b → r = RiskCritical) ∧ (r = RiskLow → 2 * spent24h b < cap b).
Proof.
  intros Hs Hc. cbv zeta. unfold getCapVelocity. cbn [cv_riskLevel]. rewrite (proj2 (Z.ltb_lt 0 (cap b)) Hc).
  set (hit := option_map _ _). set (acc := if 0 <? Z.quot (spent24h b) 24 then _ else _).
  unfold cap_risk. rewrite Z.quot_div_nonneg by lia. set (u := spent24h b * 100 / cap b).
  assert (0 ≤ u) by (apply Z.div_pos; lia). rewrite !double_ge_Number by lia. split.
  - intros Hu95. rewrite (proj2 (Z.leb_le 95 u)); [done|]. apply Z.div_le_lower_bound; lia.
  - intros H'. destruct (Z.leb_spec 50 u) as [|Hu].
    + simpl in H'. by repeat case_match.
    + assert (spent24h b * 100 < cap b * (u + 1)); [|nia].
      pose proof (Z.mul_succ_div_gt (spent24h b * 100) (cap b) Hc). unfold u. lia.
Qed.

(** ** Witnesses *)

Definition demo_events : list DecodedEvent := [
  authorised "A" 1000 50; finalised "A" 1030; authorised "B" 500 70; finalised "B" 400;
  {| ev_name := "AgentPermissionsChangeApplied"; ev_txSignature := None;
     ev_fields := Some [("agent", JStr "B"); ("appliedAt", JBig 100)] |};
  authorised "B" 0 130].

Example compliance_reports :
  dr_deviatedSessions (getSessionDeviationRate demo_events) = 1%nat ∧
  cg_orphanedValidates (getInstructionCoverageRatio demo_events) = 1%nat ∧
  map es_suspicious (match getPermissionEscalationLatency demo_events with Ok es => es | Throw _ => [] end) = [true] ∧
  ic_lastActivityTimestamp (getIdleCapitalDuration demo_events 4000) = 130 ∧
  ic_idleSinceHours (getIdleCapitalDuration demo_events 3730) = (false, Number_of 1).
Proof. vm_compute. done. Qed.

Lemma deviations_are_overspends_witness :
  length (filter overspends (pair_sessions pick_pair demo_events)) = 1%nat.
Proof.
  rewrite <- (proj1 (deviations_are_overspends demo_events ltac:(vm_compute; repeat constructor; intros [=]))).
  by vm_compute.
Defined.

Lemma one_finalisation_is_paired_twice_witness :
  dr_totalSessions (getSessionDeviationRate [authorised "A" 1 2; authorised "A" 3 4; finalised "A" 5]) = 2%nat.
Proof. apply (one_finalisation_is_paired_twice "A" 1 3 5 2 4); [done|lia]. Defined.

Lemma slippage_conserves_trades_witness :
  match getSlippageEfficiency demo_events with
  | Ok r => sumZ (map as_estimatedWasteUsd (sr_byAgent r)) = 30
  | Throw _ => False
  end.
Proof.
  destruct (getSlippageEfficiency demo_events) as [r|] eqn:E; [|by vm_compute in E].
  rewrite (proj2 (slippage_conserves_trades demo_events r E)). by vm_compute.
Defined.

Lemma escalations_specified_witness :
  match getPermissionEscalationLatency demo_events with
  | Ok es => map es_agent es = [Some "B"]
  | Throw _ => False
  end.
Proof.
  destruct (getPermissionEscalationLatency demo_events) as [es|] eqn:E; [|by vm_compute in E].
  rewrite (proj1 (escalations_specified demo_events es E)). by vm_compute.
Defined.

Lemma cap_risk_follows_use_witness :
  cv_riskLevel (getCapVelocity None 0 {| spent24h := 96; cap := 100; remaining := 4 |}) = RiskCritical.
Proof. apply (cap_risk_follows_use None 0 {| spent24h := 96; cap := 100; remaining := 4 |}); simpl; lia. Defined.
