(* ===== verification/Custody.v ===== *)
(** * Custody adapters (sdk/custody: turnkey, privy and crossmint)

    A wallet whose key lives with a custodian.  Each adapter has a REST client
    for its service and a wallet over the client; the three wallets are the same
    code, so [Wallets] models it once over the interface [SDKClient] and each
    service is an implementation of the interface.  The service is a function of
    the request and of its own state; an operation also yields the requests it
    sent.  Texts of error messages are not modelled.  A field of an answer is a
    string or absent, as the services document. *)

From S2P Require Import Prelude JsMap JsText JsValue Base64 Tee.

Local Open Scope Z_scope.
Local Infix "+++" := String.append (at level 60, right associativity).

(** ** Requests *)

Record Request : Type := {
  rq_method : string;
  rq_url : string;
  rq_headers : list (string * string);
  rq_body : option jsv;
}.

(** [json()] and [text()] may reject. *)
Record Response : Type := { rp_status : Z; rp_json : result jsv jsv; rp_text : result jsv string }.

Definition res_ok (r : Response) : bool := (200 <=? rp_status r) && (rp_status r <=? 299).

Inductive custody_exn : Type :=
| ApiError (operation : string) (status : Z)
| MissingField (operation : string)
| RequestRejected (reason : jsv)
| NullAnswer
| ConfigError (field : string)
| InvalidPublicKey
| UndecodableTransaction.

(** ** Text *)

Definition hex_upper (d : Z) : ascii := ascii_of_nat (Z.to_nat (if d <? 10 then 48 + d else 55 + d)).

Definition percent (b : Z) : list ascii := ["%"%char; hex_upper (b / 16); hex_upper (b mod 16)].

(** The characters [encodeURIComponent] leaves: letters, digits and [-_.!~*'()]. *)
Definition uri_unreserved (c : ascii) : bool :=
  is_upper c || is_lower c || is_digit c ||
  bool_decide (code c ∈ [45; 95; 46; 33; 126; 42; 39; 40; 41]).

(** The UTF-8 bytes of a code unit below 256, percent-encoded. *)
Definition uri_char (c : ascii) : list ascii :=
  if uri_unreserved c then [c]
  else if code c <? 128 then percent (code c)
  else percent (192 + code c / 64) ++ percent (128 + code c mod 64).

Definition encodeURIComponent (s : string) : string := text (concat (map uri_char (chars s))).

(** [s.replace(/\/$/, "")]. *)
Definition strip_slash (s : string) : string :=
  match rev (chars s) with
  | c :: r => if bool_decide (c = "/"%char) then text (rev r) else s
  | [] => s
  end.

Definition blank (s : option string) : bool := bool_decide (trim (chars (default "" s)) = []).

(** [a || b] on strings. *)
Definition or_text (a : option string) (b : string) : string :=
  match a with Some s => if bool_decide (s = "") then b else s | None => b end.
Definition or_undefined (a : option string) : option string :=
  match a with Some s => if bool_decide (s = "") then None else Some s | None => None end.

Definition str_field (v : jsv) (k : string) : option string :=
  match field v k with JStr s => or_undefined (Some s) | _ => None end.

(** JSON text of the bodies that are stamped: strings, objects and arrays. *)
Definition json_escape (c : ascii) : list ascii :=
  if code c =? 34 then chars "\" ++ [c] else if code c =? 92 then chars "\\"
  else if code c =? 8 then chars "\b" else if code c =? 12 then chars "\f"
  else if code c =? 10 then chars "\n" else if code c =? 13 then chars "\r" else if code c =? 9 then chars "\t"
  else if code c <? 32 then chars "\u00" ++ [hex_digit (code c / 16); hex_digit (code c mod 16)]
  else [c].

Definition quote_mark : ascii := ascii_of_nat 34.
Definition json_text (s : string) : list ascii := quote_mark :: concat (map json_escape (chars s)) ++ [quote_mark].

Fixpoint join (sep : ascii) (ls : list (list ascii)) : list ascii :=
  match ls with
  | [] => []
  | [l] => l
  | l :: ls => l ++ sep :: join sep ls
  end.

Fixpoint JSON_stringify (v : jsv) : list ascii :=
  match v with
  | JStr s => json_text s
  | JArr l => "["%char :: join ","%char (map JSON_stringify l) ++ ["]"%char]
  | JObj fs => "{"%char :: join ","%char (map (λ p, json_text p.1 ++ ":"%char :: JSON_stringify p.2) fs) ++ ["}"%char]
  | _ => chars (js_String v)
  end.

(** ** Sending *)

Section Sending.
Context {W : Type} (fetch : Request → W → result jsv Response * W).

(** What was sent, the answer, and the service afterwards. *)
Definition M (A : Type) : Type := W → list Request * result custody_exn A * W.

Definition ret {A} (a : A) : M A := λ w, ([], Ok a, w).
Definition fail {A} (e : custody_exn) : M A := λ w, ([], Throw e, w).
Definition bind {A B} (m : M A) (k : A → M B) : M B := λ w,
  let '(sent, a, w) := m w in
  match a with
  | Ok a => let '(sent', b, w) := k a w in (sent ++ sent', b, w)
  | Throw e => (sent, Throw e, w)
  end.
Definition of_js {A} (r : result jsv A) : M A := match r with Ok a => ret a | Throw e => fail (RequestRejected e) end.

Definition send (r : Request) : M Response := λ w,
  let '(a, w) := fetch r w in ([r], match a with Ok x => Ok x | Throw e => Throw (RequestRejected e) end, w).

(** The shape every call of the three clients has: a status that is no success
    throws after its text was read, and the answer is parsed. *)
Definition json_of (operation : string) (res : Response) : M jsv :=
  if res_ok res then of_js (rp_json res)
  else bind (of_js (rp_text res)) (λ _, fail (ApiError operation (rp_status res))).

Definition call (operation : string) (r : Request) : M jsv := bind (send r) (json_of operation).

(** Reading a property of the answer, which throws when the answer is null. *)
Definition answer_field (data : jsv) (k : string) : M jsv :=
  match data with JNull | JUndef => fail NullAnswer | _ => ret (field data k) end.

Definition present {A} (operation : string) (a : option A) : M A :=
  match a with Some x => ret x | None => fail (MissingField operation) end.

(** ** The interface of a client *)

(** Creating yields the wallet's identifier and address; looking one up yields
    its address; signing takes and yields base64 text. *)
Record SDKClient : Type := {
  sdk_create : M (string * string);
  sdk_get : string → M string;
  sdk_sign : string → string → M string;
}.

(** ** Turnkey *)

Context (sha256 : list Z → list Z) (utf8 : list ascii → list Z) (p256_sign : string → list Z → list Z).

(** [sign("sha256", data)] hashes its argument before signing. *)
Definition node_sign (key : string) (data : list Z) : list Z := p256_sign key (sha256 data).

Definition createStamp (body : list ascii) (apiKeyId apiPrivateKey : string) : list ascii :=
  let hash := sha256 (utf8 body) in
  JSON_stringify (JObj [("publicKey", JStr apiKeyId); ("signature", JStr (toHex (node_sign apiPrivateKey hash)));
                        ("scheme", JStr "SIGNATURE_SCHEME_TK_API_P256")]).

Record TurnkeyREST : Type := {
  tk_organizationId : string; tk_apiKeyId : string; tk_apiPrivateKey : string; tk_baseUrl : string;
}.
Definition new_TurnkeyREST (organizationId apiKeyId apiPrivateKey baseUrl : string) : TurnkeyREST := {|
  tk_organizationId := organizationId; tk_apiKeyId := apiKeyId; tk_apiPrivateKey := apiPrivateKey;
  tk_baseUrl := strip_slash baseUrl |}.

Definition stampedRequest (c : TurnkeyREST) (path : string) (body : jsv) : M jsv :=
  let stamp := createStamp (JSON_stringify body) (tk_apiKeyId c) (tk_apiPrivateKey c) in
  call "Turnkey API" {| rq_method := "POST"; rq_url := tk_baseUrl c +++ path;
    rq_headers := [("Content-Type", "application/json"); ("X-Stamp", text stamp)]; rq_body := Some body |}.

Definition turnkey_create (c : TurnkeyREST) (now : Z) (walletName : string) : M (string * string) :=
  bind (stampedRequest c "/public/v1/submit/create_wallet" (JObj [
    ("type", JStr "ACTIVITY_TYPE_CREATE_WALLET"); ("timestampMs", JStr (bigint_toString now));
    ("organizationId", JStr (tk_organizationId c));
    ("parameters", JObj [("walletName", JStr walletName);
      ("accounts", JArr [JObj [("curve", JStr "CURVE_ED25519"); ("pathFormat", JStr "PATH_FORMAT_BIP32");
        ("path", JStr "m/44'/501'/0'/0'"); ("addressFormat", JStr "ADDRESS_FORMAT_SOLANA")]])])]))
  (λ data, bind (answer_field data "activity") (λ activity,
    let walletResult := field (field activity "result") "createWalletResult" in
    let walletId := str_field walletResult "walletId" in
    let address := match field walletResult "addresses" with
                   | JArr (a :: _) => str_field a "address"
                   | _ => None
                   end in
    match walletId, address with
    | Some i, Some a => ret (i, a)
    | _, _ => fail (MissingField "Turnkey wallet creation")
    end)).

Definition is_solana_account (a : jsv) : bool :=
  match field a "addressFormat" with JStr s => bool_decide (s = "ADDRESS_FORMAT_SOLANA") | _ => false end.

Definition turnkey_get (c : TurnkeyREST) (walletId : string) : M string :=
  bind (stampedRequest c "/public/v1/query/get_wallet_accounts"
    (JObj [("organizationId", JStr (tk_organizationId c)); ("walletId", JStr walletId)]))
  (λ data, bind (answer_field data "accounts") (λ accounts,
    let solanaAccount := match accounts with
                         | JArr l => head (filter (λ a, is_solana_account a = true) l)
                         | _ => None
                         end in
    present "Turnkey wallet lookup" (match solanaAccount with Some a => str_field a "address" | None => None end))).

Definition turnkey_sign_body (c : TurnkeyREST) (now : Z) (walletId transaction : string) : jsv := JObj [
  ("type", JStr "ACTIVITY_TYPE_SIGN_TRANSACTION"); ("timestampMs", JStr (bigint_toString now));
  ("organizationId", JStr (tk_organizationId c));
  ("parameters", JObj [("signWith", JStr walletId); ("unsignedTransaction", JStr transaction);
    ("type", JStr "TRANSACTION_TYPE_SOLANA")])].

Definition turnkey_sign (c : TurnkeyREST) (now : Z) (walletId transaction : string) : M string :=
  bind (stampedRequest c "/public/v1/submit/sign_transaction" (turnkey_sign_body c now walletId transaction))
  (λ data, bind (answer_field data "activity") (λ activity,
    present "Turnkey signing" (str_field (field (field activity "result") "signTransactionResult") "signedTransaction"))).

Definition turnkey_client (c : TurnkeyREST) (now : Z) : SDKClient := {|
  sdk_create := turnkey_create c now ("sigil-agent-" +++ bigint_toString now);
  sdk_get := turnkey_get c;
  sdk_sign := turnkey_sign c now |}.

(** ** Privy *)

Record PrivyREST : Type := { pv_appId : string; pv_appSecret : string; pv_baseUrl : string }.
Definition new_PrivyREST (appId appSecret baseUrl : string) : PrivyREST :=
  {| pv_appId := appId; pv_appSecret := appSecret; pv_baseUrl := strip_slash baseUrl |}.

Definition authHeaders (c : PrivyREST) : list (string * string) :=
  let credentials := text (b64_encode (utf8 (chars (pv_appId c +++ ":" +++ pv_appSecret c)))) in
  [("Authorization", "Basic " +++ credentials); ("privy-app-id", pv_appId c); ("Content-Type", "application/json")].

Definition privy_request (c : PrivyREST) (method path : string) (body : option jsv) : Request := {|
  rq_method := method; rq_url := pv_baseUrl c +++ path; rq_headers := authHeaders c; rq_body := body |}.

(** [data.id] and [data.address], both required. *)
Definition privy_wallet (operation : string) (data : jsv) : M (string * string) :=
  bind (answer_field data "id") (λ _,
    match str_field data "id", str_field data "address" with
    | Some i, Some a => ret (i, a)
    | _, _ => fail (MissingField operation)
    end).

Definition privy_create (c : PrivyREST) (chainType : string) : M (string * string) :=
  bind (call "Privy wallet creation" (privy_request c "POST" "/v1/wallets" (Some (JObj [("chain_type", JStr chainType)]))))
    (privy_wallet "Privy wallet creation").

Definition privy_get (c : PrivyREST) (walletId : string) : M string :=
  bind (bind (call "Privy get wallet" (privy_request c "GET" ("/v1/wallets/" +++ encodeURIComponent walletId) None))
    (privy_wallet "Privy wallet lookup")) (λ w, ret w.2).

Definition is_wallet_entry (address : string) (a : jsv) : bool :=
  match field a "address", field a "type" with
  | JStr x, JStr t => bool_decide (x = address) && bool_decide (t = "wallet")
  | _, _ => false
  end.

(** A linked wallet without an identifier is found under the empty one. *)
Definition getWalletByAddress (c : PrivyREST) (address : string) : M (option (string * string)) :=
  bind (send (privy_request c "GET" ("/v1/users?wallet_address=" +++ encodeURIComponent address) None)) (λ res,
    if rp_status res =? 404 then ret None
    else bind (json_of "Privy wallet address lookup" res) (λ data,
      bind (answer_field data "linked_accounts") (λ linkedAccounts,
        let walletEntry := match linkedAccounts with
                           | JArr l => head (filter (λ a, is_wallet_entry address a = true) l)
                           | _ => None
                           end in
        match walletEntry with
        | Some e => ret (Some (default "" (str_field e "wallet_id"), address))
        | None => ret match str_field data "id", str_field data "address" with
                      | Some i, Some a => Some (i, a)
                      | _, _ => None
                      end
        end))).

Definition privy_sign (c : PrivyREST) (walletId transaction : string) : M string :=
  bind (call "Privy transaction signing" (privy_request c "POST" ("/v1/wallets/" +++ encodeURIComponent walletId +++ "/rpc")
    (Some (JObj [("chain_type", JStr "solana"); ("method", JStr "signTransaction");
                 ("params", JObj [("transaction", JStr transaction)])]))))
  (λ data, bind (answer_field data "data") (λ d, present "Privy signing" (str_field d "signed_transaction"))).

Definition privy_client (c : PrivyREST) : SDKClient := {|
  sdk_create := privy_create c "solana"; sdk_get := privy_get c; sdk_sign := privy_sign c |}.

(** ** Crossmint *)

Record CrossmintREST : Type := { cm_apiKey : string; cm_baseUrl : string }.
Definition new_CrossmintREST (apiKey baseUrl : string) : CrossmintREST :=
  {| cm_apiKey := apiKey; cm_baseUrl := strip_slash baseUrl |}.

(** The chain is a parameter of the call and no part of the request. *)
Definition crossmint_create (c : CrossmintREST) (chain signerType : string) (linkedUser : option string)
    : M (string * string) :=
  let body := [("type", JStr "solana-mpc-wallet"); ("config", JObj [("adminSigner", JObj [("type", JStr signerType)])])]
              ++ match or_undefined linkedUser with Some u => [("linkedUser", JStr u)] | None => [] end in
  bind (call "Crossmint wallet creation" {| rq_method := "POST"; rq_url := cm_baseUrl c +++ "/api/2022-06-09/wallets";
    rq_headers := [("X-API-KEY", cm_apiKey c); ("Content-Type", "application/json")]; rq_body := Some (JObj body) |})
  (λ data, bind (answer_field data "address") (λ _,
    bind (present "Crossmint wallet creation" (str_field data "address")) (λ address,
      ret (or_text (str_field data "locator") ("wallet:" +++ address), address)))).

Definition crossmint_get (c : CrossmintREST) (locator : string) : M string :=
  bind (call "Crossmint get wallet" {| rq_method := "GET";
    rq_url := cm_baseUrl c +++ "/api/2022-06-09/wallets/" +++ encodeURIComponent locator;
    rq_headers := [("X-API-KEY", cm_apiKey c)]; rq_body := None |})
  (λ data, bind (answer_field data "address") (λ _, present "Crossmint wallet lookup" (str_field data "address"))).

Definition crossmint_sign (c : CrossmintREST) (locator transaction : string) : M string :=
  bind (call "Crossmint transaction signing" {| rq_method := "POST";
    rq_url := cm_baseUrl c +++ "/api/2022-06-09/wallets/" +++ encodeURIComponent locator +++ "/transactions";
    rq_headers := [("X-API-KEY", cm_apiKey c); ("Content-Type", "application/json")];
    rq_body := Some (JObj [("params", JObj [("transaction", JStr transaction); ("encoding", JStr "base64")])]) |})
  (λ data, bind (answer_field data "signedTransaction") (λ _,
    present "Crossmint signing" (str_field data "signedTransaction"))).

Definition crossmint_client (c : CrossmintREST) (chain signerType : string) (linkedUser : option string)
    : SDKClient := {|
  sdk_create := crossmint_create c chain signerType linkedUser; sdk_get := crossmint_get c; sdk_sign := crossmint_sign c |}.

(** ** The wallets *)

Context {K Tx : Type} (PublicKey : string → option K) (toBase58 : K → string)
  (serialize : Tx → list Z) (deserialize : Tx → list Z → option Tx) (from_base64 : list ascii → list Z).

Record CustodyWallet : Type := { cw_publicKey : K; cw_id : string; cw_provider : string }.

Definition create_wallet (client : SDKClient) (provider : string) (existing : option string) : M CustodyWallet :=
  bind match or_undefined existing with
       | Some i => bind (sdk_get client i) (λ a, ret (i, a))
       | None => sdk_create client
       end
  (λ w, match PublicKey w.2 with
        | Some k => ret {| cw_publicKey := k; cw_id := w.1; cw_provider := provider |}
        | None => fail InvalidPublicKey
        end).

(** [deserialize] reads the class of the transaction that was passed in. *)
Definition signTransaction (client : SDKClient) (w : CustodyWallet) (tx : Tx) : M Tx :=
  let serialized := text (b64_encode (serialize tx)) in
  bind (sdk_sign client (cw_id w) serialized) (λ signedTransaction,
    match deserialize tx (from_base64 (chars signedTransaction)) with
    | Some signed => ret signed
    | None => fail UndecodableTransaction
    end).

Fixpoint signAllTransactions (client : SDKClient) (w : CustodyWallet) (txs : list Tx) : M (list Tx) :=
  match txs with
  | [] => ret []
  | tx :: txs => bind (signTransaction client w tx) (λ signed,
                   bind (signAllTransactions client w txs) (λ rest, ret (signed :: rest)))
  end.

Definition verifyProviderCustody (client : SDKClient) (w : CustodyWallet) : M bool :=
  bind (sdk_get client (cw_id w)) (λ address, ret (bool_decide (address = toBase58 (cw_publicKey w)))).

(** ** Configurations *)

Record TurnkeyWalletConfig : Type := {
  tc_organizationId : option string; tc_apiKeyId : option string; tc_apiPrivateKey : option string;
  tc_walletId : option string; tc_baseUrl : option string;
}.
Record PrivyWalletConfig : Type := {
  pc_appId : option string; pc_appSecret : option string; pc_walletId : option string; pc_baseUrl : option string;
}.
Record CrossmintWalletConfig : Type := {
  cc_apiKey : option string; cc_locator : option string; cc_chain : option string; cc_signerType : option string;
  cc_baseUrl : option string; cc_linkedUser : option string;
}.

Definition require_text (field : string) (s : option string) : result custody_exn unit :=
  throw_if (blank s) (ConfigError field).

Definition validate_turnkey (c : TurnkeyWalletConfig) : result custody_exn unit :=
  _ ← require_text "organizationId" (tc_organizationId c);
  _ ← require_text "apiKeyId" (tc_apiKeyId c);
  require_text "apiPrivateKey" (tc_apiPrivateKey c).
Definition validate_privy (c : PrivyWalletConfig) : result custody_exn unit :=
  _ ← require_text "appId" (pc_appId c);
  require_text "appSecret" (pc_appSecret c).
Definition validate_crossmint (c : CrossmintWalletConfig) : result custody_exn unit :=
  require_text "apiKey" (cc_apiKey c).

Definition checked {A} (r : result custody_exn unit) (m : M A) : M A :=
  match r with Ok _ => m | Throw e => fail e end.

Definition turnkey (now : Z) (c : TurnkeyWalletConfig) (client : option SDKClient) : M CustodyWallet :=
  checked (validate_turnkey c)
    (let rest := new_TurnkeyREST (default "" (tc_organizationId c)) (default "" (tc_apiKeyId c))
                   (default "" (tc_apiPrivateKey c)) (or_text (tc_baseUrl c) "https://api.turnkey.com") in
     create_wallet (default (turnkey_client rest now) client) "turnkey" (tc_walletId c)).

Definition privy (c : PrivyWalletConfig) (client : option SDKClient) : M CustodyWallet :=
  checked (validate_privy c)
    (let rest := new_PrivyREST (default "" (pc_appId c)) (default "" (pc_appSecret c))
                   (or_text (pc_baseUrl c) "https://api.privy.io") in
     create_wallet (default (privy_client rest) client) "privy" (pc_walletId c)).

Definition crossmint (c : CrossmintWalletConfig) (client : option SDKClient) : M CustodyWallet :=
  checked (validate_crossmint c)
    (let rest := new_CrossmintREST (default "" (cc_apiKey c)) (or_text (cc_baseUrl c) "https://www.crossmint.com") in
     create_wallet (default (crossmint_client rest (or_text (cc_chain c) "solana")
       (or_text (cc_signerType c) "api-key") (cc_linkedUser c)) client) "crossmint" (cc_locator c)).

(** *** From the environment *)

Definition env_required (env : string → option string) (key : string) : result custody_exn string :=
  match or_undefined (env key) with Some s => Ok s | None => Throw (ConfigError key) end.

Definition turnkey_configFromEnv (env : string → option string) : result custody_exn TurnkeyWalletConfig :=
  organizationId ← env_required env "TURNKEY_ORGANIZATION_ID";
  apiKeyId ← env_required env "TURNKEY_API_KEY_ID";
  apiPrivateKey ← env_required env "TURNKEY_API_PRIVATE_KEY";
  Ok {| tc_organizationId := Some organizationId; tc_apiKeyId := Some apiKeyId;
        tc_apiPrivateKey := Some apiPrivateKey; tc_walletId := or_undefined (env "TURNKEY_WALLET_ID");
        tc_baseUrl := or_undefined (env "TURNKEY_BASE_URL") |}.

Definition privy_configFromEnv (env : string → option string) : result custody_exn PrivyWalletConfig :=
  appId ← env_required env "PRIVY_APP_ID";
  appSecret ← env_required env "PRIVY_APP_SECRET";
  Ok {| pc_appId := Some appId; pc_appSecret := Some appSecret; pc_walletId := or_undefined (env "PRIVY_WALLET_ID");
        pc_baseUrl := or_undefined (env "PRIVY_BASE_URL") |}.

Definition crossmint_configFromEnv (env : string → option string) : result custody_exn CrossmintWalletConfig :=
  apiKey ← env_required env "CROSSMINT_API_KEY";
  let signerType := or_undefined (env "CROSSMINT_SIGNER_TYPE") in
  _ ← throw_if (match signerType with
                | Some s => negb (bool_decide (s = "api-key")) && negb (bool_decide (s = "evm-keypair"))
                | None => false
                end) (ConfigError "CROSSMINT_SIGNER_TYPE");
  Ok {| cc_apiKey := Some apiKey; cc_locator := or_undefined (env "CROSSMINT_WALLET_LOCATOR"); cc_chain := None;
        cc_signerType := signerType; cc_baseUrl := or_undefined (env "CROSSMINT_BASE_URL");
        cc_linkedUser := or_undefined (env "CROSSMINT_LINKED_USER") |}.

Definition turnkeyFromEnv (env : string → option string) (now : Z) (client : option SDKClient) : M CustodyWallet :=
  match turnkey_configFromEnv env with Ok c => turnkey now c client | Throw e => fail e end.
Definition privyFromEnv (env : string → option string) (client : option SDKClient) : M CustodyWallet :=
  match privy_configFromEnv env with Ok c => privy c client | Throw e => fail e end.
Definition crossmintFromEnv (env : string → option string) (client : option SDKClient) : M CustodyWallet :=
  match crossmint_configFromEnv env with Ok c => crossmint c client | Throw e => fail e end.

(** ** Where requests go *)

(** Every request of a computation satisfies [P]. *)
Definition sends {A} (P : Request → Prop) (m : M A) : Prop := ∀ w, Forall P (m w).1.1.

Lemma sends_ret {A} P (a : A) : sends P (ret a).
Proof. intros w. constructor. Qed.
Lemma sends_fail {A} P e : sends P (@fail A e).
Proof. intros w. constructor. Qed.
Lemma sends_of_js {A} P (r : result jsv A) : sends P (of_js r).
Proof. destruct r; [apply sends_ret|apply sends_fail]. Qed.
Lemma sends_bind {A B} P (m : M A) (k : A → M B) : sends P m → (∀ a, sends P (k a)) → sends P (bind m k).
Proof.
  intros Hm Hk w. unfold bind. specialize (Hm w). destruct (m w) as [[sent [a|e]] w']; [|done].
  specialize (Hk a w'). destruct (k a w') as [[sent' b] w'']. simpl in *. by apply Forall_app.
Qed.
Lemma sends_call (P : Request → Prop) operation r : P r → sends P (call operation r).
Proof.
  intros Hr. apply sends_bind.
  - intros w. unfold send. destruct (fetch r w). by repeat constructor.
  - intros res. unfold json_of. destruct (res_ok res); [apply sends_of_js|].
    apply sends_bind; [apply sends_of_js|intros; apply sends_fail].
Qed.

Ltac sends_tac :=
  repeat first
    [ apply sends_ret | apply sends_fail | apply sends_call
    | apply sends_bind; [|intros ?]
    | match goal with
      | |- sends _ (match ?x with _ => _ end) => destruct x
      | |- sends _ (answer_field ?d _) => unfold answer_field
      | |- sends _ (present _ ?o) => unfold present
      end ].

Lemma prefix_append s t : startsWith (s +++ t) s = true.
Proof.
  unfold startsWith. induction s as [|c s IH]; [by destruct t|]. simpl.
  destruct (ascii_dec c c); [done|congruence].
Qed.

Definition stays_at (baseUrl : string) (r : Request) : Prop := startsWith (rq_url r) (strip_slash baseUrl) = true.

Definition client_stays_at (baseUrl : string) (client : SDKClient) : Prop :=
  sends (stays_at baseUrl) (sdk_create client) ∧
  (∀ i, sends (stays_at baseUrl) (sdk_get client i)) ∧
  (∀ i t, sends (stays_at baseUrl) (sdk_sign client i t)).

(** Whatever the service answers, a client sends its requests, which carry the
    credentials, to the configured address and nowhere else. *)
Theorem requests_stay_at_the_service (baseUrl o i k a s key ch st : string) (u : option string) (now : Z) :
  client_stays_at baseUrl (turnkey_client (new_TurnkeyREST o i k baseUrl) now) ∧
  client_stays_at baseUrl (privy_client (new_PrivyREST a s baseUrl)) ∧
  client_stays_at baseUrl (crossmint_client (new_CrossmintREST key baseUrl) ch st u).
Proof.
  unfold client_stays_at. cbn [sdk_create sdk_get sdk_sign turnkey_client privy_client crossmint_client].
  unfold turnkey_create, turnkey_get, turnkey_sign, stampedRequest, privy_create, privy_get, privy_sign, privy_wallet,
    privy_request, crossmint_create, crossmint_get, crossmint_sign.
  split_and!; intros; sends_tac; apply prefix_append.
Qed.

(** ** Which wallet a request names *)

(** The first character of an encoded text, and the rest. *)
Definition uri_byte (cs : list ascii) : option (Z * list ascii) :=
  match cs with
  | p :: a :: b :: r => if bool_decide (p = "%"%char) then Some (16 * hex_value a + hex_value b, r) else None
  | _ => None
  end.
Definition uri_next (cs : list ascii) : option (ascii * list ascii) :=
  match uri_byte cs with
  | Some (x, r) =>
      if x <? 128 then Some (ascii_of_nat (Z.to_nat x), r)
      else match uri_byte r with
           | Some (y, r) => Some (ascii_of_nat (Z.to_nat (64 * (x - 192) + (y - 128))), r)
           | None => None
           end
  | None => match cs with c :: r => Some (c, r) | [] => None end
  end.

Definition uri_check (c : ascii) : bool :=
  match uri_char c with
  | [d] => bool_decide (d = c) && negb (bool_decide (c = "%"%char))
  | l => bool_decide (uri_next l = Some (c, []))
  end && forallb (λ d, uri_unreserved d || bool_decide (d = "%"%char)) (uri_char c).

Lemma uri_checks c : uri_check c = true.
Proof. by destruct c as [[] [] [] [] [] [] [] []]; vm_compute. Qed.

Lemma uri_byte_app l x r s : uri_byte l = Some (x, r) → uri_byte (l ++ s) = Some (x, r ++ s).
Proof. destruct l as [|p [|a [|b l]]]; simpl; try done. destruct (bool_decide _); [|done]. by intros [= <- <-]. Qed.

Lemma uri_next_char c r : uri_next (uri_char c ++ r) = Some (c, r).
Proof.
  pose proof (uri_checks c) as H. unfold uri_check in H. apply andb_true_iff in H as [H _].
  destruct (uri_char c) as [|d [|d' l]] eqn:E; [done| |].
  - apply andb_true_iff in H as [Hd Hp]. apply bool_decide_eq_true in Hd as ->.
    apply negb_true_iff, bool_decide_eq_false in Hp.
    unfold uri_next, uri_byte. destruct r as [|a [|b r]]; simpl; [done..|]. by rewrite bool_decide_false.
  - apply bool_decide_eq_true in H. unfold uri_next in *.
    destruct (uri_byte (d :: d' :: l)) as [[x r1]|] eqn:E1; [|by injection H].
    rewrite (uri_byte_app _ _ _ r E1). destruct (x <? 128); [by injection H as <- ->|].
    destruct (uri_byte r1) as [[y r2]|] eqn:E2; [|done]. rewrite (uri_byte_app _ _ _ r E2).
    by injection H as <- ->.
Qed.

Lemma uri_encoded c : Forall (λ d, d ≠ "/"%char ∧ d ≠ "?"%char) (uri_char c).
Proof.
  pose proof (uri_checks c) as H. unfold uri_check in H. apply andb_true_iff in H as [_ H].
  apply Forall_forall. intros d Hd%list_elem_of_In. rewrite forallb_forall in H. specialize (H d Hd).
  apply orb_true_iff in H as [H|H]; [|by apply bool_decide_eq_true in H as ->]. split; intros ->; by vm_compute in H.
Qed.

Lemma encoded_text_inj l1 l2 : concat (map uri_char l1) = concat (map uri_char l2) → l1 = l2.
Proof.
  revert l2. induction l1 as [|c l1 IH]; intros [|d l2] H; simpl in H; [done|..].
  - pose proof (uri_next_char d (concat (map uri_char l2))) as Hn. by rewrite <- H in Hn.
  - pose proof (uri_next_char c (concat (map uri_char l1))) as Hn. by rewrite H in Hn.
  - pose proof (uri_next_char c (concat (map uri_char l1))) as Hn. rewrite H, uri_next_char in Hn.
    injection Hn as -> Hr. f_equal. by apply IH.
Qed.

Lemma chars_encodeURIComponent s : chars (encodeURIComponent s) = concat (map uri_char (chars s)).
Proof. unfold encodeURIComponent. apply chars_text. Qed.

Lemma encoded_no_slash s : Forall (λ d, d ≠ "/"%char ∧ d ≠ "?"%char) (chars (encodeURIComponent s)).
Proof.
  rewrite chars_encodeURIComponent. apply Forall_concat, Forall_map, Forall_forall. intros c _. apply uri_encoded.
Qed.

(** The end of an encoded text is where the next slash is. *)
Lemma no_slash_split (l1 l2 r1 r2 : list ascii) :
  Forall (λ d, d ≠ "/"%char ∧ d ≠ "?"%char) l1 → Forall (λ d, d ≠ "/"%char ∧ d ≠ "?"%char) l2 →
  head r1 = Some "/"%char ∨ r1 = [] → head r2 = Some "/"%char ∨ r2 = [] →
  l1 ++ r1 = l2 ++ r2 → l1 = l2 ∧ r1 = r2.
Proof.
  intros H1. revert l2. induction H1 as [|c l1 [Hc _] _ IH]; intros l2 H2 E1 E2 H; destruct H2 as [|d l2 [Hd _] H2]; simpl in H.
  - done.
  - destruct E1 as [E1| ->]; [|done]. rewrite H in E1. by injection E1.
  - destruct E2 as [E2| ->]; [|done]. rewrite <- H in E2. by injection E2.
  - injection H as -> H. destruct (IH l2 H2 E1 E2 H) as [-> ->]. done.
Qed.

Lemma url_names_its_wallet (base path i j s t : string) :
  head (chars s) = Some "/"%char ∨ s = "" → head (chars t) = Some "/"%char ∨ t = "" →
  base +++ path +++ encodeURIComponent i +++ s = base +++ path +++ encodeURIComponent j +++ t → i = j ∧ s = t.
Proof.
  intros Hs Ht H. apply (f_equal chars) in H. rewrite !chars_append in H. apply app_inv_head, app_inv_head in H.
  destruct (no_slash_split _ _ (chars s) (chars t) (encoded_no_slash i) (encoded_no_slash j)) as [E1 E2].
  - destruct Hs as [Hs| ->]; [by left|by right].
  - destruct Ht as [Ht| ->]; [by left|by right].
  - done.
  - rewrite !chars_encodeURIComponent in E1. split; apply latin_chars_inj; [by apply encoded_text_inj|done].
Qed.

(** The request a computation starts with. *)
Definition first_sent {A} (m : M A) (w : W) : option Request := head (m w).1.1.

Lemma first_sent_call {A} operation r (k : jsv → M A) w : first_sent (bind (call operation r) k) w = Some r.
Proof.
  unfold first_sent, call, bind, send. destruct (fetch r w) as [[res|e] w']; simpl; [|done].
  destruct (json_of operation res w') as [[sent [data|e]] w'']; simpl; [|done].
  destruct (k data w'') as [[? ?] ?]. done.
Qed.

(** A request to sign names its wallet and no other: the first request of a signing
    determines the wallet it is for, and the transaction with it, for each of
    the three services.  An identifier cannot lead out of its place in the address. *)
Theorem signing_requests_name_their_wallet (i j t u : string) (w w' : W) (now : Z)
    (tk : TurnkeyREST) (pv : PrivyREST) (cm : CrossmintREST) (ch st : string) (user : option string) :
  (first_sent (sdk_sign (turnkey_client tk now) i t) w = first_sent (sdk_sign (turnkey_client tk now) j u) w' →
     i = j ∧ t = u) ∧
  (first_sent (sdk_sign (privy_client pv) i t) w = first_sent (sdk_sign (privy_client pv) j u) w' → i = j ∧ t = u) ∧
  (first_sent (sdk_sign (crossmint_client cm ch st user) i t) w =
     first_sent (sdk_sign (crossmint_client cm ch st user) j u) w' → i = j ∧ t = u).
Proof.
  cbn [sdk_sign turnkey_client privy_client crossmint_client]. unfold turnkey_sign, stampedRequest, privy_sign, crossmint_sign.
  rewrite !first_sent_call. split_and!; intros [= H]; unfold privy_request in *; try done.
  - split; [|congruence]. by apply (url_names_its_wallet (pv_baseUrl pv) "/v1/wallets/" i j "/rpc" "/rpc"); auto.
  - split; [|congruence].
    by apply (url_names_its_wallet (cm_baseUrl cm) "/api/2022-06-09/wallets/" i j "/transactions" "/transactions"); auto.
Qed.

(** ** The wallet against its service *)

Section Wallets.
Context (key_text : ∀ a k, PublicKey a = Some k → toBase58 k = a).

(** A wallet opened for an existing identifier is in custody exactly as long as
    the service still answers the address it answered then. *)
Theorem opened_wallet_custody (client : SDKClient) (provider id : string) (w w1 : W) (wallet : CustodyWallet)
    (sent : list Request) :
  id ≠ "" → create_wallet client provider (Some id) w = (sent, Ok wallet, w1) →
  cw_id wallet = id ∧
  ∃ address, (sdk_get client id w).1.2 = Ok address ∧ toBase58 (cw_publicKey wallet) = address ∧
    ∀ w2, (verifyProviderCustody client wallet w2).1.2 =
          match (sdk_get client id w2).1.2 with
          | Ok a => Ok (bool_decide (a = address))
          | Throw e => Throw e
          end.
Proof.
  intros Hid H. unfold create_wallet in H. cbn [or_undefined] in H. rewrite bool_decide_false in H by done.
  unfold bind in H at 1 2. destruct (sdk_get client id w) as [[s [a|e]] w'] eqn:E; [|done]. simpl in H.
  destruct (PublicKey a) as [k|] eqn:Ek; [|done]. injection H as _ <- _. simpl. split; [done|].
  exists a. rewrite (key_text a k Ek). split_and!; [done..|]. intros w2. unfold verifyProviderCustody, bind. simpl.
  rewrite (key_text a k Ek). destruct (sdk_get client id w2) as [[s2 [a2|e]] w2']; done.
Qed.

Context (from_base64_encode : ∀ bs, bytes_ok bs → from_base64 (b64_encode bs) = bs).
Context (serialize_bytes : ∀ tx, bytes_ok (serialize tx)).
Context (deserialize_serialize : ∀ tx tx', deserialize tx (serialize tx') = Some tx').

(** A signing sends the bytes of the transaction it was given and returns the
    transaction the service answers, whatever that is: the two are not compared. *)
Theorem signed_transaction_is_the_answer (client : SDKClient) (wallet : CustodyWallet) (tx tx' : Tx) (w w' : W)
    (sent : list Request) :
  sdk_sign client (cw_id wallet) (text (b64_encode (serialize tx))) w =
    (sent, Ok (text (b64_encode (serialize tx'))), w') →
  signTransaction client wallet tx w = (sent, Ok tx', w').
Proof.
  intros H. unfold signTransaction, bind. rewrite H, chars_text, from_base64_encode, deserialize_serialize by done.
  simpl. by rewrite app_nil_r.
Qed.
End Wallets.

(** A batch is signed in order and stops at the first failure: what follows is never
    sent, and the signatures obtained before it are lost with the error. *)
Theorem batch_stops_at_the_first_failure (client : SDKClient) (wallet : CustodyWallet) (done_ rest : list Tx) (tx : Tx)
    (w w1 w2 : W) (sent sent' : list Request) (signed : list Tx) (e : custody_exn) :
  signAllTransactions client wallet done_ w = (sent, Ok signed, w1) →
  signTransaction client wallet tx w1 = (sent', Throw e, w2) →
  length signed = length done_ ∧
  signAllTransactions client wallet (done_ ++ tx :: rest) w = (sent ++ sent', Throw e, w2).
Proof.
  revert w sent signed. induction done_ as [|t ts IH]; intros w sent signed Ha Ht; cbn [signAllTransactions app] in *.
  - injection Ha as <- <- <-. split; [done|]. unfold bind. by rewrite Ht.
  - unfold bind in Ha at 1. unfold bind at 1.
    destruct (signTransaction client wallet t w) as [[s [x|ex]] wx]; [|done].
    unfold bind in Ha. unfold bind. destruct (signAllTransactions client wallet ts wx) as [[s' [xs|ex]] wy] eqn:E; [|done].
    simpl in Ha. injection Ha as <- <- <-. destruct (IH wx s' xs E Ht) as [Hl Hr]. split; [simpl; lia|].
    rewrite Hr. by rewrite app_nil_r, app_assoc.
Qed.

(** Missing credentials stop the opening of a wallet before anything is sent. *)
Theorem blank_credentials_send_nothing (now : Z) (tc : TurnkeyWalletConfig) (pc : PrivyWalletConfig)
    (cc : CrossmintWalletConfig) (ct cp cx : option SDKClient) (w : W) :
  (blank (tc_organizationId tc) || blank (tc_apiKeyId tc) || blank (tc_apiPrivateKey tc) = true →
     ∃ f, turnkey now tc ct w = ([], Throw (ConfigError f), w)) ∧
  (blank (pc_appId pc) || blank (pc_appSecret pc) = true → ∃ f, privy pc cp w = ([], Throw (ConfigError f), w)) ∧
  (blank (cc_apiKey cc) = true → crossmint cc cx w = ([], Throw (ConfigError "apiKey"), w)).
Proof.
  unfold turnkey, privy, crossmint, validate_turnkey, validate_privy, validate_crossmint, require_text.
  split_and!.
  - destruct (blank (tc_organizationId tc)); [by eexists|]. destruct (blank (tc_apiKeyId tc)); [by eexists|].
    destruct (blank (tc_apiPrivateKey tc)); [by eexists|done].
  - destruct (blank (pc_appId pc)); [by eexists|]. destruct (blank (pc_appSecret pc)); [by eexists|done].
  - by intros ->.
Qed.
End Sending.

(** ** Attestation *)

(** The adapter's wallet as the kit's attestation sees it: the key is an object
    of the Solana library and no text; only Crossmint's adapter has
    [getAttestation], which answers null. *)
Definition kit_wallet {K} (w : CustodyWallet (K := K)) (custody : result jsv bool) : Wallet := {|
  w_publicKey := Ok (JObj []);
  w_provider := Ok (Some (JStr (cw_provider w)));
  w_verifyProviderCustody := Some match custody with Ok b => Ok (JBool b) | Throw e => Throw e end;
  w_getAttestation := if bool_decide (cw_provider w = "crossmint") then Some (Replied None) else None |}.

(** No wallet of the three adapters is ever attested: verification refuses it,
    or where the caller opted out reports it as failed, whatever the custodian
    confirms. *)
Theorem custody_wallets_are_never_attested {K Cert : Type} (k : Crypto Cert) (now : Z) (w : CustodyWallet (K := K))
    (custody : result jsv bool) (config : AttestationConfig) (cache : AttestationCache) :
  let '(cache', events, answer) := verifyTeeAttestation k now (kit_wallet w custody) config cache in
  cache' = cache ∧ (∀ r, Verified r ∉ events) ∧
  match answer with
  | Ok r => ar_status r = Failed ∧ at_requireAttestation config = Some false
  | Throw (TeeAttestationError _) => True
  | Throw _ => False
  end.
Proof.
  unfold verifyTeeAttestation. change (readWalletIdentity (kit_wallet w custody)) with (@None (string * option string)).
  destruct (at_requireAttestation config) as [[]|], (at_onDegraded config); simpl; split_and?; try done;
    intros r Hr; try (by apply not_elem_of_nil in Hr); by apply list_elem_of_singleton in Hr.
Qed.

(** ** Witnesses *)

Module CustodyDemo.
(** A Privy service that looks up one wallet and signs one transaction; after that it fails. *)
Definition signed : list ascii := ["s"%char; "g"%char].
Definition bytes (tx : list ascii) : list Z := map code tx.
Definition service (r : Request) (w : nat) : result jsv Response * nat :=
  (Ok {| rp_status := if bool_decide (w < 2)%nat then 200 else 500;
         rp_json := Ok (JObj [("id", JStr "w1"); ("address", JStr "Addr");
                              ("data", JObj [("signed_transaction", JStr (text (b64_encode (bytes signed))))])]);
         rp_text := Ok "" |}, S w).
Definition rest : PrivyREST := new_PrivyREST "app" "secret" "https://api.privy.io/".
Definition client : SDKClient := privy_client service (map code) rest.
Definition PublicKey (a : string) : option string := if bool_decide (a = "") then None else Some a.
Definition deserialize (_ : list ascii) (bs : list Z) : option (list ascii) :=
  Some (map (λ b, ascii_of_nat (Z.to_nat b)) bs).
Definition from_base64 (cs : list ascii) : list Z := default [] (atob cs).
Definition wallet : CustodyWallet (K := string) :=
  {| cw_publicKey := "Addr"; cw_id := "w1"; cw_provider := "privy" |}.

Lemma key_text a k : PublicKey a = Some k → k = a.
Proof. unfold PublicKey. destruct (bool_decide _); [done|]. by intros [= <-]. Qed.
Lemma bytes_are_bytes tx : bytes_ok (bytes tx).
Proof.
  unfold bytes, bytes_ok. apply Forall_map, Forall_forall. intros c _. unfold code. pose proof (nat_ascii_bounded c) as Hb. unfold byte_ok. apply Nat2Z.inj_lt in Hb. simpl in Hb. lia.
Qed.
Lemma from_base64_encode bs : bytes_ok bs → from_base64 (b64_encode bs) = bs.
Proof. intros H. unfold from_base64. by rewrite atob_encode. Qed.
Lemma deserialize_bytes (tx tx' : list ascii) : deserialize tx (bytes tx') = Some tx'.
Proof.
  unfold deserialize, bytes. rewrite map_map. f_equal. induction tx' as [|c l IH]; [done|]. cbn [map]. rewrite IH. f_equal.
  unfold code. by rewrite Nat2Z.id, ascii_nat_embedding.
Qed.
Definition sign (tx : list ascii) (w : nat) := signTransaction bytes deserialize from_base64 client wallet tx w.
End CustodyDemo.

Import CustodyDemo.

Example opened : (create_wallet PublicKey client "privy" (Some "w1") 0%nat).1.2 = Ok wallet.
Proof. by vm_compute. Qed.

Lemma opened_wallet_custody_witness :
  (verifyProviderCustody (λ k : string, k) client wallet 1%nat).1.2 = Ok true.
Proof.
  destruct (create_wallet PublicKey client "privy" (Some "w1") 0%nat) as [[sent a] w1] eqn:E.
  assert (Ha : a = Ok wallet) by (rewrite <- opened, E; done). subst a.
  destruct (opened_wallet_custody PublicKey (λ k, k) key_text client "privy" "w1" 0%nat w1 wallet sent
    ltac:(done) E) as (_ & address & Hget & <- & Hv).
  rewrite Hv. by vm_compute.
Defined.

Lemma signed_transaction_is_the_answer_witness : (sign [ "t"%char ] 0%nat).1.2 = Ok signed.
Proof.
  unfold sign. destruct (sdk_sign client "w1" (text (b64_encode (bytes ["t"%char]))) 0%nat) as [[sent a] w'] eqn:E.
  assert (Ha : a = Ok (text (b64_encode (bytes signed)))).
  { transitivity (sdk_sign client "w1" (text (b64_encode (bytes ["t"%char]))) 0%nat).1.2; [by rewrite E|by vm_compute]. }
  subst a. by rewrite (signed_transaction_is_the_answer bytes deserialize from_base64 from_base64_encode bytes_are_bytes
    deserialize_bytes client wallet ["t"%char] signed 0%nat w' sent E).
Defined.

Lemma batch_stops_at_the_first_failure_witness :
  (signAllTransactions bytes deserialize from_base64 client wallet [["a"%char]; ["b"%char]; ["c"%char]; ["d"%char]] 0%nat).1.2
  = Throw (ApiError "Privy transaction signing" 500).
Proof.
  destruct (signAllTransactions bytes deserialize from_base64 client wallet [["a"%char]; ["b"%char]] 0%nat)
    as [[sent a] w1] eqn:E1.
  assert (Ha : (a, w1) = (Ok [signed; signed], 2%nat)).
  { transitivity (let r := signAllTransactions bytes deserialize from_base64 client wallet [["a"%char]; ["b"%char]] 0%nat in
      (r.1.2, r.2)); [by rewrite E1|by vm_compute]. }
  injection Ha as -> ->. destruct (sign ["c"%char] 2%nat) as [[sent' b] w2] eqn:E2.
  assert (Hb : b = Throw (ApiError "Privy transaction signing" 500)).
  { transitivity (sign ["c"%char] 2%nat).1.2; [by rewrite E2|by vm_compute]. }
  subst b. destruct (batch_stops_at_the_first_failure bytes deserialize from_base64 client wallet
    [["a"%char]; ["b"%char]] [["d"%char]] ["c"%char] 0%nat 2%nat w2 sent sent' _ _ E1 E2) as [_ H].
  change [["a"%char]; ["b"%char]; ["c"%char]; ["d"%char]] with ([["a"%char]; ["b"%char]] ++ ["c"%char] :: [["d"%char]]).
  by rewrite H.
Defined.
