(* ===== verification/Ownership.v ===== *)
(** * Ownership transfer and multisig detection

    ownership-transfer.ts, session-mint.ts, multisig-detection.ts and
    squads-detection.ts: the builders of the four transfer instructions, and the
    probe that tells whether an owner is a Squads multisig.  The builders are
    thin, so what makes them correct is the program they address: its initiate,
    accept, cancel, freeze and reactivate handlers are a transition system here,
    and the theorems are about runs of it.  Reactivation is modelled without a
    new agent; other instructions appear only as the policy changes they make to
    the cosign binding. *)

From S2P Require Import Prelude JsMap JsText JsValue CanonicalEncode CosignDigest Base64 Accounts.
From S2P Require Import Mutations OwnerClient PolicyLifecycle.

Local Open Scope Z_scope.

(** ** The builders *)

Record InitiateInputs : Type := {
  in_owner : string; in_vault : string; in_policy : string; in_pending : string; in_auditLogSuccess : string;
  in_newOwner : string; in_isMultisigTarget : bool;
}.
Record AcceptInputs : Type := {
  ac_newOwner : string; ac_vault : string; ac_policy : string; ac_pending : string; ac_auditLogSuccess : string;
}.
Record AcceptMultisigInputs : Type := {
  am_multisigPda : string; am_vault : string; am_policy : string; am_pending : string; am_auditLogSuccess : string;
}.
Record CancelInputs : Type := {
  ca_currentOwner : string; ca_vault : string; ca_policy : string; ca_pending : string; ca_auditLogSuccess : string;
}.
Record MintSessionInputs : Type := {
  ms_owner : string; ms_vault : string; ms_agent : string; ms_capability : Z; ms_spendingLimitUsd : Z;
  ms_policy : string; ms_agentSpendOverlay : string; ms_auditLogSuccess : string; ms_slotHashesSysvar : option string;
}.

Definition SLOT_HASHES_SYSVAR : string := "SysvarS1otHashes111111111111111111111111111".
Definition SYSTEM_PROGRAM : string := "11111111111111111111111111111111".

(** An instruction names its accounts in the program's order; the signer comes
    first, the slot-hashes sysvar and the system program last. *)
Inductive ownership_ix : Type :=
| InitiateIx (accounts : list string) (newOwner : string) (isMultisigTarget : bool)
| AcceptIx (accounts : list string)
| AcceptMultisigIx (accounts : list string)
| CancelIx (accounts : list string).

Record RegisterAgentIx : Type := {
  ra_accounts : list string; ra_agent : string; ra_capability : Z; ra_spendingLimitUsd : Z;
}.

Definition buildInitiateOwnershipTransferIx (i : InitiateInputs) : ownership_ix :=
  InitiateIx [in_owner i; in_vault i; in_policy i; in_pending i; in_auditLogSuccess i; SLOT_HASHES_SYSVAR;
              SYSTEM_PROGRAM] (in_newOwner i) (in_isMultisigTarget i).
Definition buildAcceptOwnershipTransferIx (i : AcceptInputs) : ownership_ix :=
  AcceptIx [ac_newOwner i; ac_vault i; ac_policy i; ac_pending i; ac_auditLogSuccess i; SLOT_HASHES_SYSVAR;
            SYSTEM_PROGRAM].
Definition buildAcceptOwnershipTransferMultisigIx (i : AcceptMultisigInputs) : ownership_ix :=
  AcceptMultisigIx [am_multisigPda i; am_vault i; am_policy i; am_pending i; am_auditLogSuccess i; SLOT_HASHES_SYSVAR;
                    SYSTEM_PROGRAM].
Definition buildCancelOwnershipTransferIx (i : CancelInputs) : ownership_ix :=
  CancelIx [ca_currentOwner i; ca_vault i; ca_policy i; ca_pending i; ca_auditLogSuccess i; SLOT_HASHES_SYSVAR;
            SYSTEM_PROGRAM].
Definition mintSessionForAgent (i : MintSessionInputs) : RegisterAgentIx := {|
  ra_accounts := [ms_owner i; ms_vault i; ms_policy i; ms_agentSpendOverlay i; ms_auditLogSuccess i;
                  default SLOT_HASHES_SYSVAR (ms_slotHashesSysvar i)];
  ra_agent := ms_agent i; ra_capability := ms_capability i; ra_spendingLimitUsd := ms_spendingLimitUsd i |}.

(** ** The program *)

Inductive vault_status : Type := Active | Frozen | Closed.
#[export] Instance vault_status_eq_dec : EqDecision vault_status.
Proof. solve_decision. Defined.

Record PendingOwnershipTransfer : Type := {
  po_currentOwner : string; po_newOwner : string; po_queuedAt : Z; po_minDelaySeconds : Z;
  po_isMultisigTarget : bool; po_queuedAtSlot : Z;
}.
Definition DEFAULT_MIN_DELAY : Z := 172800.

(** The parts of the vault and of its policy that the handlers read or write. *)
Record Vault : Type := {
  v_owner : string; v_status : vault_status; v_frozenAt : Z; v_hasAgents : bool; v_hasAllowlist : bool;
  v_cosignRequired : bool; v_cosignKey : string; v_policyVersion : Z; v_transfer : option PendingOwnershipTransfer;
}.

Definition with_transfer (t : option PendingOwnershipTransfer) (v : Vault) : Vault := {|
  v_owner := v_owner v; v_status := v_status v; v_frozenAt := v_frozenAt v; v_hasAgents := v_hasAgents v;
  v_hasAllowlist := v_hasAllowlist v; v_cosignRequired := v_cosignRequired v; v_cosignKey := v_cosignKey v;
  v_policyVersion := v_policyVersion v; v_transfer := t |}.

(** A signed account of the transaction beyond the named ones. *)
Definition remaining_accounts : Type := list (string * bool).

Section Program.
Context (vaultKey policyPda pendingPda auditPda : string).

(** The seeds of the vault, the policy, the pending transfer and the audit log. *)
Definition seeds_ok (accounts : list string) : bool :=
  bool_decide (drop 1 accounts = [vaultKey; policyPda; pendingPda; auditPda; SLOT_HASHES_SYSVAR; SYSTEM_PROGRAM]).
Definition signs (signer : string) (accounts : list string) : bool := bool_decide (head accounts = Some signer).

Definition SPL_TOKEN_PROGRAM : string := "TokenkegQfeZyiNwAJbNbGKPFXCWuBvf9Ss623VQ5DA".
Definition OWNERSHIP_BLOCKLIST : list string := [
  DEFAULT_COSIGN_SESSION; SIGIL_PROGRAM_ADDRESS; SPL_TOKEN_PROGRAM; "SysvarC1ock11111111111111111111111111111111";
  SLOT_HASHES_SYSVAR; "SysvarRent111111111111111111111111111111111"].

Definition is_active (v : Vault) : bool := bool_decide (v_status v = Active).

(** The cosigner is present, and no second signer is the new owner. *)
Definition initiate_cosign (owner newOwner : string) (remaining : remaining_accounts) (v : Vault) : result string unit :=
  if v_cosignRequired v then
    _ ← throw_if (negb (has_bound_cosigner remaining (v_cosignKey v))) "ErrCosignRequired";
    throw_if (existsb (λ ai : string * bool, snd ai && negb (bool_decide (fst ai = owner)) &&
                                           bool_decide (fst ai = newOwner)) remaining) "ErrInvalidOwnershipTarget"
  else Ok tt.

Definition initiate (now slot : Z) (signer : string) (accounts : list string) (newOwner : string) (isMultisigTarget : bool)
    (remaining : remaining_accounts) (v : Vault) : result string Vault :=
  _ ← throw_if (negb (signs signer accounts)) "AccountNotSigner";
  _ ← throw_if (negb (bool_decide (signer = v_owner v))) "UnauthorizedOwner";
  _ ← throw_if (negb (seeds_ok accounts)) "ConstraintSeeds";
  _ ← throw_if (match v_transfer v with Some _ => true | None => false end) "AccountAlreadyInUse";
  _ ← throw_if (negb (is_active v)) "VaultNotActive";
  _ ← throw_if isMultisigTarget "ErrMultisigCustodyUnsupported";
  _ ← throw_if (bool_decide (newOwner ∈ OWNERSHIP_BLOCKLIST)) "ErrInvalidOwnershipTarget";
  _ ← throw_if (bool_decide (newOwner = v_owner v)) "ErrInvalidOwnershipTarget";
  _ ← initiate_cosign signer newOwner remaining v;
  Ok (with_transfer (Some {|
        po_currentOwner := signer; po_newOwner := newOwner; po_queuedAt := now;
        po_minDelaySeconds := DEFAULT_MIN_DELAY; po_isMultisigTarget := isMultisigTarget; po_queuedAtSlot := slot |}) v).

Definition the_transfer (v : Vault) : result string PendingOwnershipTransfer :=
  match v_transfer v with Some t => Ok t | None => Throw "AccountNotInitialized" end.

(** Arithmetic on signed 64-bit timestamps and unsigned 64-bit counters. *)
Definition fits_i64 (z : Z) : bool := (- 2 ^ 63 <=? z) && (z <? 2 ^ 63).

Definition accept (now slot : Z) (signer : string) (accounts : list string) (v : Vault) : result string Vault :=
  _ ← throw_if (negb (signs signer accounts)) "AccountNotSigner";
  _ ← throw_if (negb (seeds_ok accounts)) "ConstraintSeeds";
  t ← the_transfer v;
  _ ← throw_if (negb (is_active v)) "VaultNotActive";
  _ ← throw_if (negb (bool_decide (signer = po_newOwner t))) "ErrPendingOwnershipNotReady";
  _ ← throw_if (negb (bool_decide (po_currentOwner t = v_owner v))) "ErrPendingOwnershipNotReady";
  _ ← throw_if (po_isMultisigTarget t) "ErrPendingOwnershipNotReady";
  _ ← throw_if (slot <? po_queuedAtSlot t) "Overflow";
  _ ← throw_if (MAX_APPLY_AGE_SLOTS_TIMELOCKED_ADMIN <=? slot - po_queuedAtSlot t) "QueuedUpdateExpired";
  _ ← throw_if (negb (fits_i64 (now - po_queuedAt t))) "Overflow";
  _ ← throw_if (now - po_queuedAt t <? po_minDelaySeconds t) "ErrPendingOwnershipNotReady";
  _ ← throw_if (v_policyVersion v + 1 =? 2 ^ 64) "Overflow";
  let collapsed := bool_decide (v_cosignKey v = signer) in
  Ok {| v_owner := signer; v_status := v_status v; v_frozenAt := v_frozenAt v; v_hasAgents := v_hasAgents v;
        v_hasAllowlist := v_hasAllowlist v;
        v_cosignRequired := if collapsed then false else v_cosignRequired v;
        v_cosignKey := if collapsed then DEFAULT_COSIGN_SESSION else v_cosignKey v;
        v_policyVersion := v_policyVersion v + 1; v_transfer := None |}.

(** Disabled: it reads nothing and refuses. *)
Definition accept_multisig (accounts : list string) (v : Vault) : result string Vault :=
  Throw "ErrMultisigCustodyUnsupported".

Definition cosign_gate (remaining : remaining_accounts) (v : Vault) : result string unit :=
  throw_if (v_cosignRequired v && negb (has_bound_cosigner remaining (v_cosignKey v))) "ErrCosignRequired".

Definition cancel_transfer (signer : string) (accounts : list string) (remaining : remaining_accounts) (v : Vault)
    : result string Vault :=
  _ ← throw_if (negb (signs signer accounts)) "AccountNotSigner";
  _ ← throw_if (negb (seeds_ok accounts)) "ConstraintSeeds";
  t ← the_transfer v;
  _ ← throw_if (negb (is_active v)) "VaultNotActive";
  _ ← throw_if (negb (bool_decide (signer = po_currentOwner t))) "UnauthorizedOwner";
  _ ← cosign_gate remaining v;
  Ok (with_transfer None v).

(** The transfer is closed when its account is passed first. *)
Definition freeze (now : Z) (signer : string) (remaining : remaining_accounts) (v : Vault) : result string Vault :=
  _ ← throw_if (negb (bool_decide (signer = v_owner v))) "UnauthorizedOwner";
  _ ← throw_if (negb (is_active v)) "VaultNotActive";
  let drained := match remaining with (a, _) :: _ => bool_decide (a = pendingPda) | [] => false end in
  Ok {| v_owner := v_owner v; v_status := Frozen; v_frozenAt := now; v_hasAgents := v_hasAgents v;
        v_hasAllowlist := v_hasAllowlist v; v_cosignRequired := v_cosignRequired v; v_cosignKey := v_cosignKey v;
        v_policyVersion := v_policyVersion v; v_transfer := if drained then None else v_transfer v |}.

Definition REACTIVATE_COOLDOWN_SECONDS : Z := 300.

Definition reactivate (now : Z) (signer : string) (remaining : remaining_accounts) (v : Vault) : result string Vault :=
  _ ← throw_if (negb (bool_decide (signer = v_owner v))) "UnauthorizedOwner";
  _ ← throw_if (negb (bool_decide (v_status v = Frozen))) "VaultNotFrozen";
  _ ← cosign_gate remaining v;
  _ ← throw_if (v_frozenAt v <=? 0) "VaultNotFrozen";
  _ ← throw_if (now - v_frozenAt v <? REACTIVATE_COOLDOWN_SECONDS) "ErrReactivateCooldownActive";
  _ ← throw_if (negb (v_hasAgents v)) "NoAgentRegistered";
  _ ← throw_if (negb (v_hasAllowlist v)) "ActiveVaultRequiresAllowlist";
  _ ← throw_if (v_policyVersion v + 1 =? 2 ^ 64) "Overflow";
  Ok {| v_owner := v_owner v; v_status := Active; v_frozenAt := v_frozenAt v; v_hasAgents := v_hasAgents v;
        v_hasAllowlist := v_hasAllowlist v; v_cosignRequired := v_cosignRequired v; v_cosignKey := v_cosignKey v;
        v_policyVersion := v_policyVersion v + 1; v_transfer := v_transfer v |}.

(** What applying a policy does to the cosign binding, under the checks it makes
    of the merged policy. *)
Definition policy_change (required : bool) (key : string) (v : Vault) : result string Vault :=
  _ ← throw_if (negb (bool_decide (key = DEFAULT_COSIGN_SESSION)) && bool_decide (key = v_owner v)) "ErrCosignRequired";
  _ ← throw_if (required && bool_decide (key = DEFAULT_COSIGN_SESSION)) "ErrCosignRequired";
  _ ← throw_if (v_policyVersion v + 1 =? 2 ^ 64) "Overflow";
  Ok {| v_owner := v_owner v; v_status := v_status v; v_frozenAt := v_frozenAt v; v_hasAgents := v_hasAgents v;
        v_hasAllowlist := v_hasAllowlist v; v_cosignRequired := required; v_cosignKey := key;
        v_policyVersion := v_policyVersion v + 1; v_transfer := v_transfer v |}.

(** ** Transactions *)

Inductive tx : Type :=
| Transfer (now slot : Z) (signer : string) (ix : ownership_ix) (remaining : remaining_accounts)
| Freeze (now : Z) (signer : string) (remaining : remaining_accounts)
| Reactivate (now : Z) (signer : string) (remaining : remaining_accounts)
| PolicyChange (required : bool) (key : string).

Definition exec (t : tx) (v : Vault) : result string Vault :=
  match t with
  | Transfer now slot signer (InitiateIx accounts newOwner multisig) remaining =>
      initiate now slot signer accounts newOwner multisig remaining v
  | Transfer now slot signer (AcceptIx accounts) _ => accept now slot signer accounts v
  | Transfer _ _ _ (AcceptMultisigIx accounts) _ => accept_multisig accounts v
  | Transfer _ _ signer (CancelIx accounts) remaining => cancel_transfer signer accounts remaining v
  | Freeze now signer remaining => freeze now signer remaining v
  | Reactivate now signer remaining => reactivate now signer remaining v
  | PolicyChange required key => policy_change required key v
  end.

(** The transactions that landed, in order. *)
Fixpoint run_txs (ts : list tx) (v : Vault) : result string Vault :=
  match ts with
  | [] => Ok v
  | t :: ts => v ← exec t v; run_txs ts v
  end.

(** ** The owner and the cosigner stay two *)

(** A vault that requires cosigning has a bound cosigner, and it is not the owner. *)
Definition two_factors (v : Vault) : Prop :=
  v_cosignRequired v = true → v_cosignKey v ≠ DEFAULT_COSIGN_SESSION ∧ v_cosignKey v ≠ v_owner v.

(** Peel the guards of a handler that succeeded. *)
Ltac peel H :=
  repeat match type of H with
  | mbind (λ _, _) (throw_if _ _) = Ok _ => let G := fresh "G" in apply bind_Ok_inv in H as (? & G & H); apply throw_if_Ok in G
  | mbind (λ _, _) _ = Ok _ => let G := fresh "G" in apply bind_Ok_inv in H as (? & G & H)
  end.

Lemma initiate_Ok now slot signer accounts newOwner multisig remaining v v' :
  initiate now slot signer accounts newOwner multisig remaining v = Ok v' →
  signer = v_owner v ∧ v_transfer v = None ∧ multisig = false ∧ newOwner ≠ v_owner v ∧ newOwner ∉ OWNERSHIP_BLOCKLIST ∧
  initiate_cosign signer newOwner remaining v = Ok tt ∧
  v' = with_transfer (Some {|
        po_currentOwner := signer; po_newOwner := newOwner; po_queuedAt := now;
        po_minDelaySeconds := DEFAULT_MIN_DELAY; po_isMultisigTarget := multisig; po_queuedAtSlot := slot |}) v.
Proof.
  intros H. unfold initiate in H. peel H. injection H as <-.
  apply negb_false_iff, bool_decide_eq_true in G0. apply bool_decide_eq_false in G5, G6.
  destruct (v_transfer v); [done|]. by destruct x7.
Qed.

Lemma accept_Ok now slot signer accounts v v' :
  accept now slot signer accounts v = Ok v' →
  ∃ t, v_transfer v = Some t ∧ signer = po_newOwner t ∧ po_currentOwner t = v_owner v ∧ po_isMultisigTarget t = false ∧
    v_status v = Active ∧ 0 ≤ slot - po_queuedAtSlot t < MAX_APPLY_AGE_SLOTS_TIMELOCKED_ADMIN ∧
    po_queuedAt t + po_minDelaySeconds t ≤ now ∧ v_owner v' = signer ∧ v_transfer v' = None ∧
    v_cosignRequired v' = (if bool_decide (v_cosignKey v = signer) then false else v_cosignRequired v) ∧
    v_cosignKey v' = (if bool_decide (v_cosignKey v = signer) then DEFAULT_COSIGN_SESSION else v_cosignKey v).
Proof.
  intros H. unfold accept in H. peel H. injection H as <-. unfold the_transfer in G1.
  destruct (v_transfer v) as [t|]; [|done]. injection G1 as ->. exists x1.
  apply negb_false_iff, bool_decide_eq_true in G2, G3, G4. apply Z.ltb_ge in G6, G9. apply Z.leb_gt in G7.
  split_and!; try done; simpl; lia.
Qed.

Lemma exec_two_factors t v v' : exec t v = Ok v' → two_factors v → two_factors v'.
Proof.
  destruct t as [now slot signer [accounts newOwner multisig|accounts|accounts|accounts] remaining|now signer remaining|
    now signer remaining|required key]; cbn [exec]; intros H Hv.
  - apply initiate_Ok in H as (_ & _ & _ & _ & _ & _ & ->). exact Hv.
  - apply accept_Ok in H as (t & _ & _ & _ & _ & _ & _ & _ & Ho & _ & Hr & Hk). unfold two_factors.
    rewrite Ho, Hr, Hk. destruct (decide (v_cosignKey v = signer)) as [E|E]; [by rewrite !bool_decide_true|].
    rewrite !bool_decide_false by done. intros Hc. by destruct (Hv Hc).
  - done.
  - unfold cancel_transfer in H. peel H. by injection H as <-.
  - unfold freeze in H. peel H. by injection H as <-.
  - unfold reactivate in H. peel H. by injection H as <-.
  - unfold policy_change in H. peel H. injection H as <-. unfold two_factors. simpl. intros ->.
    simpl in G0. apply bool_decide_eq_false in G0. split; [done|]. intros ->.
    rewrite (bool_decide_false (v_owner v = DEFAULT_COSIGN_SESSION)) in G by done. by rewrite bool_decide_true in G.
Qed.

Lemma run_txs_app ts ts' v : run_txs (ts ++ ts') v = (w ← run_txs ts v; run_txs ts' w).
Proof.
  revert v. induction ts as [|t ts IH]; intros v; [done|]. cbn [app run_txs].
  destruct (exec t v) as [w|e]; [apply IH|done].
Qed.

Lemma run_two_factors ts v v' : run_txs ts v = Ok v' → two_factors v → two_factors v'.
Proof.
  revert v. induction ts as [|t ts IH]; intros v H Hv; cbn [run_txs] in H; [by injection H as <-|].
  apply bind_Ok_inv in H as (w & Hw & H). by apply (IH w), (exec_two_factors t v).
Qed.

(** ** A new owner was named, cosigned and waited for *)

(** The transaction that queued a transfer, and the state it ran in. *)
Definition named (v0 : Vault) (ts : list tx) (t : PendingOwnershipTransfer) : Prop :=
  ∃ before after accounts remaining v1,
    ts = before ++ Transfer (po_queuedAt t) (po_queuedAtSlot t) (po_currentOwner t)
                     (InitiateIx accounts (po_newOwner t) false) remaining :: after ∧
    run_txs before v0 = Ok v1 ∧ v_owner v1 = po_currentOwner t ∧
    (v_cosignRequired v1 = true →
       has_bound_cosigner remaining (v_cosignKey v1) = true ∧ v_cosignKey v1 ≠ po_newOwner t) ∧
    Forall (λ x, ¬ ∃ now slot s ix r, x = Transfer now slot s ix r) after.

(** The invariant of the runs from a vault without a transfer. *)
Definition justified (v0 : Vault) (ts : list tx) (v : Vault) : Prop :=
  match v_transfer v with
  | None => True
  | Some t => named v0 ts t ∧ po_currentOwner t = v_owner v ∧ po_minDelaySeconds t = DEFAULT_MIN_DELAY
  end.

Lemma initiate_names v0 ts v now slot signer accounts newOwner multisig remaining v' :
  run_txs ts v0 = Ok v → two_factors v →
  initiate now slot signer accounts newOwner multisig remaining v = Ok v' →
  justified v0 (ts ++ [Transfer now slot signer (InitiateIx accounts newOwner multisig) remaining]) v'.
Proof.
  intros Hr Htf H. apply initiate_Ok in H as (-> & _ & -> & Hne & _ & Hc & ->). unfold justified. cbn.
  split_and!; [|done..]. exists ts, [], accounts, remaining, v. cbn. split_and!; [done..| |constructor].
  intros Hreq. destruct (Htf Hreq) as [_ Hown]. unfold initiate_cosign in Hc. rewrite Hreq in Hc. peel Hc.
  apply negb_false_iff in G. split; [done|]. intros Heq. apply throw_if_Ok in Hc.
  unfold has_bound_cosigner in G. apply andb_true_iff in G as [_ G].
  apply existsb_exists in G as ((a & s) & Hin & Hs). simpl in Hs. apply andb_true_iff in Hs as [-> Ha].
  apply bool_decide_eq_true in Ha as ->. apply not_true_iff_false in Hc. apply Hc, existsb_exists.
  exists (v_cosignKey v, true). simpl. rewrite (bool_decide_false (v_cosignKey v = v_owner v)) by done.
  by rewrite bool_decide_true.
Qed.

Lemma named_later v0 ts x t : (¬ ∃ now slot s ix r, x = Transfer now slot s ix r) → named v0 ts t → named v0 (ts ++ [x]) t.
Proof.
  intros Hx (before & after & accounts & remaining & v1 & -> & Hr & Ho & Hc & Ha).
  exists before, (after ++ [x]), accounts, remaining, v1. split_and!; [by rewrite <- app_assoc|done..|].
  apply Forall_app. by repeat constructor.
Qed.

(** A step that leaves the transfer and the owner alone keeps the invariant. *)
Lemma justified_later v0 ts x v v' :
  (¬ ∃ now slot s ix r, x = Transfer now slot s ix r) →
  v_owner v' = v_owner v → (v_transfer v' = v_transfer v ∨ v_transfer v' = None) →
  justified v0 ts v → justified v0 (ts ++ [x]) v'.
Proof.
  intros Hx Ho [Ht|Ht]; unfold justified; rewrite Ht, ?Ho; [|done]. destruct (v_transfer v) as [t|]; [|done].
  intros (Hn & ? & ?). split_and!; [by apply named_later|done..].
Qed.

Lemma exec_justified v0 ts t v v' :
  run_txs ts v0 = Ok v → two_factors v → exec t v = Ok v' → justified v0 ts v → justified v0 (ts ++ [t]) v'.
Proof.
  intros Hr Htf H Hj.
  destruct t as [now slot signer [accounts newOwner multisig|accounts|accounts|accounts] remaining|now signer remaining|
    now signer remaining|required key]; cbn [exec] in H.
  - by apply (initiate_names v0 ts v).
  - apply accept_Ok in H as (t & _ & _ & _ & _ & _ & _ & _ & _ & Hn & _). unfold justified. by rewrite Hn.
  - done.
  - unfold cancel_transfer in H. peel H. by injection H as <-.
  - unfold freeze in H. peel H. injection H as <-. apply (justified_later v0 ts _ v); [naive_solver|done| |exact Hj].
    destruct remaining as [|[a s] r]; [by left|]. cbn [v_transfer].
    destruct (bool_decide (a = pendingPda)); [by right|by left].
  - unfold reactivate in H. peel H. injection H as <-. apply (justified_later v0 ts _ v); [naive_solver|done|by left|exact Hj].
  - unfold policy_change in H. peel H. injection H as <-. apply (justified_later v0 ts _ v); [naive_solver|done|by left|exact Hj].
Qed.

Lemma run_justified v0 ts v :
  v_transfer v0 = None → two_factors v0 → run_txs ts v0 = Ok v → justified v0 ts v.
Proof.
  intros Hn Htf. revert v. induction ts as [|t ts IH] using rev_ind; intros v H.
  { injection H as <-. unfold justified. by rewrite Hn. }
  rewrite run_txs_app in H. apply bind_Ok_inv in H as (w & Hw & H). cbn [run_txs] in H.
  apply bind_Ok_inv in H as (w' & Hw' & [= <-]). eapply exec_justified; eauto using run_two_factors.
Qed.

(** C20: Nobody becomes the owner of a vault without the owner, the cosigner and
    two days.  In every history of a vault, the transaction that changes the
    owner is an acceptance signed by the new one; an initiation signed by the
    old owner named that key at least 48 hours and less than 700000 slots
    before, no other transfer instruction landed in between, and when the vault
    required cosigning the bound cosigner signed the initiation and is not the
    new owner.  Owner and cosigner are different keys throughout. *)
Theorem new_owners_were_named_and_cosigned (v0 v v' : Vault) (ts : list tx) (t : tx) :
  v_transfer v0 = None → two_factors v0 →
  run_txs ts v0 = Ok v → exec t v = Ok v' →
  two_factors v' ∧
  (v_owner v' ≠ v_owner v →
   ∃ now slot accounts remaining p,
     t = Transfer now slot (v_owner v') (AcceptIx accounts) remaining ∧
     po_newOwner p = v_owner v' ∧ po_currentOwner p = v_owner v ∧ named v0 ts p ∧
     po_queuedAt p + 172800 ≤ now ∧ 0 ≤ slot - po_queuedAtSlot p < 700000).
Proof.
  intros Hn Htf Hr H. split; [eauto using exec_two_factors, run_two_factors|]. intros Hne.
  pose proof (run_justified v0 ts v Hn Htf Hr) as Hj.
  destruct t as [now slot signer [accounts newOwner multisig|accounts|accounts|accounts] remaining|now signer remaining|
    now signer remaining|required key]; cbn [exec] in H.
  - apply initiate_Ok in H as (_ & _ & _ & _ & _ & _ & ->). done.
  - apply accept_Ok in H as (p & Hp & Hs & Hc & _ & _ & Hslot & Hnow & Ho & _).
    unfold justified in Hj. rewrite Hp in Hj. destruct Hj as (Hnamed & _ & Hd).
    exists now, slot, accounts, remaining, p. rewrite Hd in Hnow. rewrite Ho.
    unfold DEFAULT_MIN_DELAY, MAX_APPLY_AGE_SLOTS_TIMELOCKED_ADMIN in *. split_and!; try done; lia.
  - done.
  - unfold cancel_transfer in H. peel H. by injection H as <-.
  - unfold freeze in H. peel H. by injection H as <-.
  - unfold reactivate in H. peel H. by injection H as <-.
  - unfold policy_change in H. peel H. by injection H as <-.
Qed.

Lemma accept_lands (v : Vault) (t : PendingOwnershipTransfer) (i : AcceptInputs) (now slot : Z)
    (r : remaining_accounts) :
  v_transfer v = Some t → v_status v = Active → po_currentOwner t = v_owner v → po_isMultisigTarget t = false →
  po_minDelaySeconds t = DEFAULT_MIN_DELAY → v_policyVersion v + 1 ≠ 2 ^ 64 →
  0 ≤ po_queuedAt t → po_queuedAt t + 172800 ≤ now < 2 ^ 63 → 0 ≤ slot - po_queuedAtSlot t < 700000 →
  ac_newOwner i = po_newOwner t → ac_vault i = vaultKey → ac_policy i = policyPda → ac_pending i = pendingPda →
  ac_auditLogSuccess i = auditPda →
  ∃ v', exec (Transfer now slot (po_newOwner t) (buildAcceptOwnershipTransferIx i) r) v = Ok v' ∧
        v_owner v' = po_newOwner t ∧ v_transfer v' = None.
Proof.
  intros Ht Hs Ho Hm Hd Hv Hq0 Hnow Hslot E1 E2 E3 E4 E5. cbn [exec buildAcceptOwnershipTransferIx]. unfold accept.
  assert (signs (po_newOwner t) [ac_newOwner i; ac_vault i; ac_policy i; ac_pending i; ac_auditLogSuccess i;
    SLOT_HASHES_SYSVAR; SYSTEM_PROGRAM] = true) as -> by (unfold signs; rewrite E1; by apply bool_decide_true).
  assert (seeds_ok [ac_newOwner i; ac_vault i; ac_policy i; ac_pending i; ac_auditLogSuccess i;
    SLOT_HASHES_SYSVAR; SYSTEM_PROGRAM] = true) as ->
    by (unfold seeds_ok; cbn [drop]; rewrite E2, E3, E4, E5; by apply bool_decide_true).
  assert (is_active v = true) as -> by (unfold is_active; rewrite Hs; by apply bool_decide_true).
  unfold the_transfer. rewrite Ht. cbn [negb throw_if mbind result_bind].
  rewrite (bool_decide_true (po_newOwner t = po_newOwner t)), (bool_decide_true (po_currentOwner t = v_owner v)) by done.
  rewrite Hm, Hd. cbn [negb throw_if mbind result_bind]. unfold DEFAULT_MIN_DELAY, MAX_APPLY_AGE_SLOTS_TIMELOCKED_ADMIN.
  rewrite (proj2 (Z.ltb_ge slot (po_queuedAtSlot t))) by lia. rewrite (proj2 (Z.leb_gt 700000 _)) by lia.
  assert (fits_i64 (now - po_queuedAt t) = true) as ->
    by (unfold fits_i64; apply andb_true_iff; rewrite Z.leb_le, Z.ltb_lt; lia).
  rewrite (proj2 (Z.ltb_ge (now - po_queuedAt t) 172800)) by lia. rewrite (proj2 (Z.eqb_neq _ _)) by done.
  by eexists.
Qed.

(** A named owner can take the vault.  When an active vault has a transfer
    queued by its owner, the acceptance the client builds for the named key lands once
    48 hours have passed and before 700000 slots have, and makes that key the owner. *)
Theorem named_owner_can_accept (v : Vault) (t : PendingOwnershipTransfer) (i : AcceptInputs) (now slot : Z)
    (r : remaining_accounts) :
  v_transfer v = Some t → v_status v = Active → po_currentOwner t = v_owner v → po_isMultisigTarget t = false →
  po_minDelaySeconds t = DEFAULT_MIN_DELAY → v_policyVersion v + 1 ≠ 2 ^ 64 →
  0 ≤ po_queuedAt t → po_queuedAt t + 172800 ≤ now < 2 ^ 63 → 0 ≤ slot - po_queuedAtSlot t < 700000 →
  ac_newOwner i = po_newOwner t → ac_vault i = vaultKey → ac_policy i = policyPda → ac_pending i = pendingPda →
  ac_auditLogSuccess i = auditPda →
  ∃ v', exec (Transfer now slot (po_newOwner t) (buildAcceptOwnershipTransferIx i) r) v = Ok v' ∧
        v_owner v' = po_newOwner t ∧ v_transfer v' = None.
Proof. intros. by apply accept_lands. Qed.

(** *** Freezing *)

(** The client's freeze passes no further account. *)
Definition sdk_freeze (now : Z) (owner : string) : tx := Freeze now owner [].
(** The freeze that also closes a pending transfer. *)
Definition full_freeze (now : Z) (owner : string) : tx := Freeze now owner [(pendingPda, false)].

Definition is_initiation (x : tx) : bool :=
  match x with Transfer _ _ _ (InitiateIx _ _ _) _ => true | _ => false end.

Lemma no_transfer_keeps_owner x v v' :
  is_initiation x = false → v_transfer v = None → exec x v = Ok v' → v_owner v' = v_owner v ∧ v_transfer v' = None.
Proof.
  intros Hi Ht H.
  destruct x as [now slot signer [accounts newOwner multisig|accounts|accounts|accounts] remaining|now signer remaining|
    now signer remaining|required key]; cbn [exec] in H; try done.
  - apply accept_Ok in H as (t & Hp & _). congruence.
  - unfold cancel_transfer in H. peel H. injection H as <-. done.
  - unfold freeze in H. peel H. injection H as <-. simpl. rewrite Ht.
    destruct remaining as [|[a s] r]; [done|]. by destruct (bool_decide (a = pendingPda)).
  - unfold reactivate in H. peel H. injection H as <-. done.
  - unfold policy_change in H. peel H. injection H as <-. done.
Qed.

(** A freeze from the client does not stop a queued transfer.  The program
    closes a pending transfer only when its account is passed first: then the
    owner stays until someone initiates again.  The client passes no account, so
    after its freeze and a reactivation the queued key still takes the vault. *)
Theorem client_freeze_keeps_the_transfer (v : Vault) (t : PendingOwnershipTransfer) (i : AcceptInputs)
    (f r now slot : Z) :
  v_transfer v = Some t → v_status v = Active → po_currentOwner t = v_owner v → po_isMultisigTarget t = false →
  po_minDelaySeconds t = DEFAULT_MIN_DELAY → v_cosignRequired v = false → v_hasAgents v = true → v_hasAllowlist v = true →
  v_policyVersion v + 2 < 2 ^ 64 → 0 ≤ po_queuedAt t → po_queuedAt t + 172800 ≤ now < 2 ^ 63 →
  0 ≤ slot - po_queuedAtSlot t < 700000 → 0 < f → f + 300 ≤ r →
  ac_newOwner i = po_newOwner t → ac_vault i = vaultKey → ac_policy i = policyPda → ac_pending i = pendingPda →
  ac_auditLogSuccess i = auditPda →
  (∃ v', run_txs [sdk_freeze f (v_owner v); Reactivate r (v_owner v) [];
                  Transfer now slot (po_newOwner t) (buildAcceptOwnershipTransferIx i) []] v = Ok v' ∧
         v_owner v' = po_newOwner t) ∧
  (∀ ts v', Forall (λ x, is_initiation x = false) ts → run_txs (full_freeze f (v_owner v) :: ts) v = Ok v' →
            v_owner v' = v_owner v).
Proof.
  intros Ht Hs Ho Hm Hd Hc Ha Hl Hv Hq Hnow Hslot Hf Hr E1 E2 E3 E4 E5. split.
  - assert (Hfz : exec (sdk_freeze f (v_owner v)) v = Ok {| v_owner := v_owner v; v_status := Frozen; v_frozenAt := f;
      v_hasAgents := true; v_hasAllowlist := true; v_cosignRequired := false; v_cosignKey := v_cosignKey v;
      v_policyVersion := v_policyVersion v; v_transfer := Some t |}).
    { cbn. unfold freeze, is_active. rewrite Hs, Ht, Hc, Ha, Hl. by rewrite !bool_decide_true. }
    cbn [run_txs]. rewrite Hfz. cbn [mbind result_bind exec]. unfold reactivate at 1, cosign_gate.
    cbn [v_owner v_status v_frozenAt v_hasAgents v_hasAllowlist v_cosignRequired v_cosignKey v_policyVersion v_transfer].
    rewrite !bool_decide_true by done. cbn [negb andb throw_if mbind result_bind].
    rewrite (proj2 (Z.leb_gt f 0)) by lia. rewrite (proj2 (Z.ltb_ge (r - f) REACTIVATE_COOLDOWN_SECONDS))
      by (unfold REACTIVATE_COOLDOWN_SECONDS; lia).
    rewrite (proj2 (Z.eqb_neq (v_policyVersion v + 1) _)) by lia. cbn [throw_if mbind result_bind].
    match goal with |- context [accept _ _ _ _ ?w] => set (w1 := w) end.
    destruct (accept_lands w1 t i now slot []) as (v' & Hx & Hown & _); simpl; try done; try lia.
    exists v'. cbn [exec] in Hx. unfold buildAcceptOwnershipTransferIx in *. by rewrite Hx.
  - intros ts v' Hts H. cbn [run_txs] in H. apply bind_Ok_inv in H as (w & Hw & H).
    assert (Hw' : v_owner w = v_owner v ∧ v_transfer w = None).
    { cbn [exec full_freeze] in Hw. unfold freeze in Hw. peel Hw. injection Hw as <-. simpl. by rewrite bool_decide_true. }
    destruct Hw' as [<- Hn]. clear Hw. revert w Hn H.
    induction Hts as [|x ts Hx _ IH]; intros w Hn H; cbn [run_txs] in H; [by injection H as <-|].
    apply bind_Ok_inv in H as (w' & Hw' & H). destruct (no_transfer_keeps_owner x w w' Hx Hn Hw') as [<- Hn'].
    by apply IH.
Qed.

(** The multisig path of the client is closed: the program refuses every
    initiation built for a multisig target and every multisig acceptance. *)
Theorem multisig_path_is_closed (i : InitiateInputs) (j : AcceptMultisigInputs) (now slot : Z) (signer : string)
    (r : remaining_accounts) (v v' : Vault) :
  exec (Transfer now slot signer (buildAcceptOwnershipTransferMultisigIx j) r) v = Throw "ErrMultisigCustodyUnsupported" ∧
  (exec (Transfer now slot signer (buildInitiateOwnershipTransferIx i) r) v = Ok v' → in_isMultisigTarget i = false).
Proof. split; [done|]. cbn [exec buildInitiateOwnershipTransferIx]. by intros (_ & _ & ? & _)%initiate_Ok. Qed.
End Program.

(** ** Detecting a Squads multisig *)

Definition SQUADS_V4_PROGRAM_ID : string := "SQDS4ep65T869zMMBKyuUq6aD6EgTu8psMjkvj52pCf".

(** What [getAccountInfo] answers: the owning program and the data field. *)
Record AccountInfo : Type := { ai_owner : string; ai_data : jsv }.
Definition account_answer : Type := result jsv (option AccountInfo).

Record SquadsDetectionResult : Type := {
  sq_isSquadsMultisig : bool; sq_programOwner : option string; sq_detectionMethod : string;
}.

Definition detectSquadsV4Owner (response : account_answer) : SquadsDetectionResult :=
  match response with
  | Ok None => {| sq_isSquadsMultisig := false; sq_programOwner := None; sq_detectionMethod := "account-missing" |}
  | Ok (Some a) => {| sq_isSquadsMultisig := bool_decide (ai_owner a = SQUADS_V4_PROGRAM_ID);
                      sq_programOwner := Some (ai_owner a); sq_detectionMethod := "program-owner" |}
  | Throw _ => {| sq_isSquadsMultisig := false; sq_programOwner := None; sq_detectionMethod := "rpc-failure" |}
  end.

Record MultisigDetectionResult : Type := {
  md_base : SquadsDetectionResult; md_hasMultisigDiscriminator : bool; md_isSquadsV4Multisig : bool;
}.

Section Detection.
Context (sha256 : list Z → list Z).

Definition SQUADS_V4_MULTISIG_DISCRIMINATOR : list Z := take 8 (sha256 (map code (chars "account:Multisig"))).

(** The bytes of a base64 answer, when it has that shape. *)
Definition account_bytes (response : account_answer) : option (list Z) :=
  match response with
  | Ok (Some a) => match ai_data a with JArr (JStr base64 :: _) => atob (chars base64) | _ => None end
  | _ => None
  end.

(** The account is read a second time for its data. *)
Definition isSquadsV4Owned (first second : account_answer) : MultisigDetectionResult :=
  let base := detectSquadsV4Owner first in
  let matches := sq_isSquadsMultisig base &&
    match account_bytes second with
    | Some bytes => bool_decide (8 ≤ length bytes)%nat && bool_decide (take 8 bytes = SQUADS_V4_MULTISIG_DISCRIMINATOR)
    | None => false
    end in
  {| md_base := base; md_hasMultisigDiscriminator := matches; md_isSquadsV4Multisig := matches |}.

(** The probe fails closed: it reports a multisig exactly when the first read shows an account of
    the Squads program and the second shows data that begin with the multisig
    discriminator.  A missing account, a failed read or other data is no multisig. *)
Theorem multisig_detection_fails_closed (first second : account_answer) :
  md_isSquadsV4Multisig (isSquadsV4Owned first second) = true ↔
  (∃ a, first = Ok (Some a) ∧ ai_owner a = SQUADS_V4_PROGRAM_ID) ∧
  (∃ b base64 rest bytes, second = Ok (Some b) ∧ ai_data b = JArr (JStr base64 :: rest) ∧
     atob (chars base64) = Some bytes ∧ (8 ≤ length bytes)%nat ∧ take 8 bytes = SQUADS_V4_MULTISIG_DISCRIMINATOR).
Proof.
  unfold isSquadsV4Owned. cbn [md_isSquadsV4Multisig]. rewrite andb_true_iff. apply and_compat.
  - destruct first as [[a|]|e]; cbn; [|naive_solver..]. rewrite bool_decide_eq_true. naive_solver.
  - unfold account_bytes. destruct second as [[b|]|e]; cbn; [|naive_solver..]. split.
    + destruct (ai_data b) as [| | | | | | |[|[| | | | |s | | | |] l]| |] eqn:E; try done.
      destruct (atob (chars s)) as [bytes|] eqn:Eb; [|done]. rewrite andb_true_iff, !bool_decide_eq_true.
      intros [? ?]. by exists b, s, l, bytes.
    + intros (b' & s & l & bytes & [= <-] & -> & -> & Hl & Ht). by rewrite !bool_decide_true.
Qed.
End Detection.

(** ** Witnesses *)

Module OwnershipDemo.
Definition vault : Vault := {|
  v_owner := "Owner"; v_status := Active; v_frozenAt := 0; v_hasAgents := true; v_hasAllowlist := true;
  v_cosignRequired := true; v_cosignKey := "Cosigner"; v_policyVersion := 1; v_transfer := None |}.
Definition initiation : tx := Transfer 1000 50 "Owner" (buildInitiateOwnershipTransferIx {|
  in_owner := "Owner"; in_vault := "Vault"; in_policy := "Policy"; in_pending := "Pending"; in_auditLogSuccess := "Audit";
  in_newOwner := "New"; in_isMultisigTarget := false |}) [("Cosigner", true)].
Definition accept_inputs : AcceptInputs := {|
  ac_newOwner := "New"; ac_vault := "Vault"; ac_policy := "Policy"; ac_pending := "Pending"; ac_auditLogSuccess := "Audit" |}.
Definition acceptance : tx := Transfer 180000 600 "New" (buildAcceptOwnershipTransferIx accept_inputs) [].
Definition pending : PendingOwnershipTransfer := {|
  po_currentOwner := "Owner"; po_newOwner := "New"; po_queuedAt := 1000; po_minDelaySeconds := 172800;
  po_isMultisigTarget := false; po_queuedAtSlot := 50 |}.
(** The same vault without cosigning and with the transfer queued. *)
Definition queued : Vault := {|
  v_owner := "Owner"; v_status := Active; v_frozenAt := 0; v_hasAgents := true; v_hasAllowlist := true;
  v_cosignRequired := false; v_cosignKey := "11111111111111111111111111111111"; v_policyVersion := 1;
  v_transfer := Some pending |}.
Definition run_demo := run_txs "Vault" "Policy" "Pending" "Audit".
Definition exec_demo := exec "Vault" "Policy" "Pending" "Audit".
End OwnershipDemo.
Import OwnershipDemo.

Example transfer_runs :
  match run_demo [initiation; acceptance] vault with Ok v => v_owner v = "New" | Throw _ => False end ∧
  run_demo [initiation; initiation] vault = Throw "AccountAlreadyInUse" ∧
  run_demo [initiation; Transfer 1100 60 "New" (buildAcceptOwnershipTransferIx accept_inputs) []] vault
    = Throw "ErrPendingOwnershipNotReady".
Proof. by vm_compute. Qed.

Lemma new_owners_were_named_and_cosigned_witness :
  match run_demo [initiation] vault with
  | Ok v => match exec_demo acceptance v with Ok v' => two_factors v' ∧ v_owner v' = "New" | Throw _ => False end
  | Throw _ => False
  end.
Proof.
  destruct (run_demo [initiation] vault) as [v|] eqn:E; [|by vm_compute in E].
  destruct (exec_demo acceptance v) as [v'|] eqn:E';
    [|vm_compute in E; injection E as <-; by vm_compute in E'].
  destruct (new_owners_were_named_and_cosigned "Vault" "Policy" "Pending" "Audit" vault v v' [initiation] acceptance
    eq_refl ltac:(by vm_compute; intros _; split) E E') as [Htf _].
  split; [exact Htf|]. vm_compute in E. injection E as <-. vm_compute in E'. by injection E' as <-.
Defined.

Lemma named_owner_can_accept_witness :
  ∃ v', exec_demo (Transfer 180000 600 "New" (buildAcceptOwnershipTransferIx accept_inputs) []) queued = Ok v' ∧
        v_owner v' = "New" ∧ v_transfer v' = None.
Proof.
  apply (named_owner_can_accept "Vault" "Policy" "Pending" "Audit" queued pending accept_inputs 180000 600 []);
    simpl; try done; lia.
Defined.

Lemma client_freeze_keeps_the_transfer_witness :
  ∃ v', run_demo [sdk_freeze 2000 "Owner"; Reactivate 2300 "Owner" [];
                  Transfer 180000 600 "New" (buildAcceptOwnershipTransferIx accept_inputs) []] queued = Ok v' ∧
        v_owner v' = "New".
Proof.
  apply (proj1 (client_freeze_keeps_the_transfer "Vault" "Policy" "Pending" "Audit" queued pending accept_inputs
    2000 2300 180000 600 eq_refl eq_refl eq_refl eq_refl eq_refl eq_refl eq_refl eq_refl ltac:(by vm_compute)
    ltac:(simpl; lia) ltac:(simpl; lia) ltac:(simpl; lia) ltac:(lia) ltac:(lia) eq_refl eq_refl eq_refl eq_refl eq_refl)).
Defined.
