(* ===== verification/Diagnosis.v ===== *)
(** * Diagnosing a failed simulation (simulation.ts)

    The table of the program's errors that a simulation may meet, and the
    search of the logs for the first of them.  The theorems: the table names
    every error as the program does, a code in the logs is recognised in either
    of the two forms the runtime prints, and the first match in the logs wins
    whoever printed it. *)

From S2P Require Import Prelude JsMap JsText JsValue ErrorTable.

Local Open Scope Z_scope.

Record Diagnosis : Type := { dg_name : string; dg_suggestion : string }.
Notation diagnosis := Build_Diagnosis (only parsing).

Definition ANCHOR_6000 : list (Z * Diagnosis) := [
  (6000, diagnosis "VaultNotActive"
    "Check vault status — must be Active.");
  (6001, diagnosis "UnauthorizedAgent"
    "Signer is not a registered agent.");
  (6002, diagnosis "UnauthorizedOwner"
    "Only the vault owner can call this.");
  (6003, diagnosis "UnsupportedToken"
    "Use USDC or USDT.");
  (6004, diagnosis "ProtocolNotAllowed"
    "Protocol not in vault's allowlist.");
  (6005, diagnosis "TransactionTooLarge"
    "Break into smaller parts.");
  (6006, diagnosis "SpendingCapExceeded"
    "Rolling 24h spending cap exceeded.");
  (6007, diagnosis "SessionNotAuthorized"
    "Call validate_and_authorize first.");
  (6008, diagnosis "InvalidSession"
    "Session does not belong to this vault.");
  (6009, diagnosis "TooManyAllowedProtocols"
    "Reduce allowed protocols (max 10).");
  (6010, diagnosis "AgentAlreadyRegistered"
    "Agent is already registered for this vault.");
  (6011, diagnosis "NoAgentRegistered"
    "Register an agent first.");
  (6012, diagnosis "VaultNotFrozen"
    "Vault must be frozen to reactivate.");
  (6013, diagnosis "VaultAlreadyClosed"
    "Vault is already closed.");
  (6014, diagnosis "InsufficientBalance"
    "Insufficient vault balance for withdrawal.");
  (6015, diagnosis "DeveloperFeeTooHigh"
    "Developer fee rate exceeds max (5 BPS).");
  (6016, diagnosis "InvalidFeeDestination"
    "Fee destination account invalid.");
  (6017, diagnosis "InvalidProtocolTreasury"
    "Protocol treasury does not match expected address.");
  (6018, diagnosis "InvalidAgentKey"
    "Agent cannot be the zero address.");
  (6019, diagnosis "AgentIsOwner"
    "Agent cannot be the vault owner.");
  (6020, diagnosis "Overflow"
    "Arithmetic overflow — amount too large.");
  (6021, diagnosis "InvalidTokenAccount"
    "Token account wrong owner or mint.");
  (6022, diagnosis "TimelockNotExpired"
    "Wait for timelock period to expire.");
  (6023, diagnosis "NoTimelockConfigured"
    "No timelock configured on this vault.");
  (6024, diagnosis "DestinationNotAllowed"
    "Destination not in allowed list.");
  (6025, diagnosis "TooManyDestinations"
    "Too many destinations (max 10).");
  (6026, diagnosis "InvalidProtocolMode"
    "Protocol mode must be 0, 1, or 2.");
  (6027, diagnosis "CpiCallNotAllowed"
    "Must be top-level instruction (no CPI).");
  (6028, diagnosis "MissingFinalizeInstruction"
    "Include finalize_session in transaction.");
  (6029, diagnosis "NonTrackedSwapMustReturnStablecoin"
    "Non-stablecoin swap must return stablecoin.");
  (6030, diagnosis "UnauthorizedTokenTransfer"
    "Top-level SPL Token transfer not allowed between validate and finalize.");
  (6031, diagnosis "SlippageBpsTooHigh"
    "Slippage BPS exceeds maximum (5000 = 50%).");
  (6032, diagnosis "ProtocolMismatch"
    "DeFi instruction program doesn't match declared target_protocol.");
  (6033, diagnosis "TooManyDeFiInstructions"
    "Non-stablecoin swap allows exactly one DeFi instruction.");
  (6034, diagnosis "MaxAgentsReached"
    "Remove an agent first (max 10).");
  (6035, diagnosis "InsufficientPermissions"
    "Agent lacks permission for this action type.")].

Definition ANCHOR_6036 : list (Z * Diagnosis) := [
  (6036, diagnosis "InvalidPermissions"
    "Permission bitmask contains invalid bits.");
  (6037, diagnosis "InvalidConstraintConfig"
    "Constraint configuration exceeds bounds.");
  (6038, diagnosis "AgentSpendLimitExceeded"
    "Agent rolling 24h spend exceeds per-agent limit.");
  (6039, diagnosis "OverlaySlotExhausted"
    "Per-agent overlay full — cannot register agent with spending limit.");
  (6040, diagnosis "AgentSlotNotFound"
    "Agent has spending limit but no overlay tracking slot.");
  (6041, diagnosis "UnauthorizedTokenApproval"
    "Unauthorized SPL Token Approve between validate and finalize.");
  (6042, diagnosis "InvalidSessionExpiry"
    "Session expiry slots out of range (10-450).");
  (6043, diagnosis "ProtocolCapExceeded"
    "Per-protocol counter slot allocation exhausted (max 10 protocols tracked). Wait for an existing slot's 24h window to elapse, or reuse one of the protocols already tracked.");
  (6044, diagnosis "ProtocolCapsMismatch"
    "protocol_caps length must match protocols length.");
  (6045, diagnosis "PendingPolicyExists"
    "Apply or cancel pending policy update before closing vault.");
  (6046, diagnosis "AgentPaused"
    "Agent is paused — unpause before executing actions.");
  (6047, diagnosis "AgentAlreadyPaused"
    "Agent is already paused.");
  (6048, diagnosis "AgentNotPaused"
    "Agent is not paused.");
  (6049, diagnosis "UnauthorizedPostFinalizeInstruction"
    "UnauthorizedPostFinalizeInstruction — see Sigil error-code documentation.");
  (6050, diagnosis "UnexpectedBalanceDecrease"
    "UnexpectedBalanceDecrease — see Sigil error-code documentation.");
  (6051, diagnosis "TimelockTooShort"
    "TimelockTooShort — see Sigil error-code documentation.");
  (6052, diagnosis "PolicyVersionMismatch"
    "PolicyVersionMismatch — see Sigil error-code documentation.");
  (6053, diagnosis "ActiveSessionsExist"
    "ActiveSessionsExist — see Sigil error-code documentation.");
  (6054, diagnosis "PostAssertionFailed"
    "PostAssertionFailed — see Sigil error-code documentation.");
  (6055, diagnosis "InvalidPostAssertionIndex"
    "InvalidPostAssertionIndex — see Sigil error-code documentation.");
  (6056, diagnosis "UnauthorizedPreValidateInstruction"
    "UnauthorizedPreValidateInstruction — see Sigil error-code documentation.");
  (6057, diagnosis "SnapshotNotCaptured"
    "SnapshotNotCaptured — see Sigil error-code documentation.");
  (6058, diagnosis "InvalidConstraintOperator"
    "InvalidConstraintOperator — see Sigil error-code documentation.");
  (6059, diagnosis "ZeroCopyVaultMismatch"
    "ZeroCopyVaultMismatch — see Sigil error-code documentation.");
  (6060, diagnosis "QueuedUpdateExpired"
    "Queued update is too old — re-queue via queue_policy_update / queue_constraints_update / queue_close_constraints / queue_agent_permissions_update / queue_agent_grant / initiate_ownership_transfer (CH-1 audit 2026-05-23 extended to timelocked-admin PDAs).");
  (6061, diagnosis "AccountWritabilityMismatch"
    "Account writability flag does not match constraint requirement.");
  (6062, diagnosis "SysvarScanBoundExceeded"
    "Sysvar instruction scan exceeded the per-tx safety bound — reduce transaction size.");
  (6063, diagnosis "AsyncFulfillmentNotPermitted"
    "Async-fulfillment program is not permitted in V1 (Jupiter Perps, Drift, Drift JIT). Keeper-deferred fills cannot be measured by finalize_session.");
  (6064, diagnosis "ConfidentialTransferBlocked"
    "Token-2022 ConfidentialTransfer not permitted between validate and finalize.");
  (6065, diagnosis "PermanentDelegateBlocked"
    "Token-2022 PermanentDelegate not permitted between validate and finalize.");
  (6066, diagnosis "TransferHookBlocked"
    "Token-2022 TransferHook not permitted between validate and finalize.");
  (6067, diagnosis "LamportDrainBlocked"
    "Token-2022 destructive-balance ix (opcodes 38/45/46) not permitted between validate and finalize.")].

Definition ANCHOR_6068 : list (Z * Diagnosis) := [
  (6068, diagnosis "BatchInstructionBlocked"
    "Token-2022 Batch instruction (opcode 255) is blocked — wraps inner instructions and bypasses byte-0 blocklist.");
  (6069, diagnosis "InvalidDestinationMode"
    "Invalid destination mode — must be 0 (Restricted) or 1 (OpenWithCap).");
  (6085, diagnosis "ErrStableFloorViolation"
    "Stable balance floor violated — the combined USDC+USDT vault balance after this transaction would drop below policy.stable_balance_floor. Reduce the transfer amount or deposit more stablecoin before retrying.");
  (6086, diagnosis "ErrDailyCapExceeded"
    "Per-protocol daily cap exceeded — this protocol's rolling 24h spending cap would be exceeded. Reduce the amount, route through a different allowlisted protocol, or wait for the rolling window to release capacity.");
  (6087, diagnosis "ErrRecipientCapExceeded"
    "Per-recipient daily cap exceeded — the recipient's rolling 24h outflow would breach policy.per_recipient_daily_cap_usd. Reduce the amount, route to a different allowed destination, or wait for the rolling window to release capacity.");
  (6088, diagnosis "ErrMintDeltaCapExceeded"
    "R-1 MintDeltaCap: vault-mint balance decreased by more than the policy's `max_net_decrease` for this mint. Reduce the outflow, raise the cap on PolicyConfig, or split into smaller transactions.");
  (6089, diagnosis "MintDeltaCapMisconfigured"
    "R-1 MintDeltaCap target account is missing, has a mint mismatch, or has owner != vault. Re-derive the target token account and re-check the PolicyConfig entry.");
  (6090, diagnosis "ErrAtaAuthorityChanged"
    "R-2 AtaAuthorityPin: a vault-owned token account had its authority changed or was closed/reinitialized mid-sandwich. Re-check that no foreign instruction is touching the vault's ATAs in this transaction.");
  (6091, diagnosis "ErrOutputBelowFloor"
    "R-3 OutputBalanceFloor: the post-execution balance increase fell below the configured `min_increase` floor. Adjust slippage settings or raise the floor, then retry.");
  (6092, diagnosis "ErrDeclarationInconsistent"
    "R-4 DeclarationConsistency: the recipient/mint declared on validate_and_authorize does not match the actual CPI account-meta. Re-derive the declared accounts from the same accounts the DeFi instruction will consume.");
  (6093, diagnosis "IxMetaCountExceeded"
    "Foreign instruction exceeded the account-meta processing budget (destination check: max 24 writable metas). Use a shorter route — Sigil reverts an unguardable route rather than reshaping it.");
  (6094, diagnosis "ErrPendingOwnershipExists"
    "An ownership transfer is already pending. Cancel the existing transfer with `cancelOwnershipTransfer` before initiating a new one.");
  (6095, diagnosis "ErrPendingOwnershipNotReady"
    "Ownership transfer timelock has not elapsed. Wait for the 48h cool-down to expire before calling `acceptOwnershipTransfer`.");
  (6096, diagnosis "ErrInvalidFreezeReason"
    "freeze_reason value must be one of {0, 1, 2}. Re-check the FreezeReason discriminant on freezeVault.");
  (6097, diagnosis "ErrReactivateCooldownActive"
    "Reactivate requires a 5-minute observation cooldown to elapse since the freeze. Wait, then retry.");
  (6098, diagnosis "ErrInvalidOwnershipTarget"
    "new_owner cannot be a system/program/sysvar address (Council ISC-128). Pass a real wallet pubkey.");
  (6099, diagnosis "ErrTooManyRevokePairs"
    "freeze_internal MAX_REVOKE_PAIRS = 10 exceeded (Council ISC-136). Split the freeze into multiple transactions revoking ≤10 token-account pairs each.");
  (6100, diagnosis "ErrPostAssertionsNotClosed"
    "PostExecutionAssertions PDA still active. Call `closePostAssertions` before closing the vault or creating a new assertions set.");
  (6101, diagnosis "ErrDestinationIsProtectedPda"
    "Destination is a Sigil-protected PDA — rejected at queue time. Pick a different recipient that is not a Sigil-owned account.");
  (6102, diagnosis "ErrIntentDigestMismatch"
    "AL3 intent-digest mismatch — the preview digest signed at seal time does not match the executed bundle. Re-build the seal with the live instructions and re-sign.");
  (6103, diagnosis "ErrPendingAgentGrantDigestMismatch"
    "PendingAgentGrant digest mismatch between queue and apply. The agent grant state changed between queue and apply — re-queue with the current vault state.");
  (6104, diagnosis "ErrReactivateCosignRequiredForFullCapability"
    "Reactivate with a FULL_CAPABILITY new agent requires cosign. Pass a cosigner signature to `reactivateVault`, or use a lower capability tier for the new agent.")].
Definition ANCHOR_ERROR_MAP : list (Z * Diagnosis) := ANCHOR_6000 ++ ANCHOR_6036 ++ ANCHOR_6068.

Definition anchor_entry (code : number) : option Diagnosis :=
  match code with Int c => jm_get c ANCHOR_ERROR_MAP | _ => None end.

(** ** Searching the logs *)

(** [log.match(/Error Code: (\w+)\.\s*Error Number: (\d+)/)] at this position:
    no shorter run of word characters can be followed by the dot. *)
Definition named_here (s : string) : option (string * string) :=
  if startsWith s "Error Code: " then
    let '(name, rest) := span is_word (chars (drop_prefix "Error Code: " s)) in
    match name, rest with
    | _ :: _, "."%char :: rest =>
        let rest := text (span is_space rest).2 in
        if startsWith rest "Error Number: " then
          match (span is_digit (chars (drop_prefix "Error Number: " rest))).1 with
          | [] => None
          | digits => Some (text name, text digits)
          end
        else None
    | _, _ => None
    end
  else None.

Fixpoint match_named (s : string) : option (string * string) :=
  match named_here s with
  | Some m => Some m
  | None => match s with EmptyString => None | String _ s' => match_named s' end
  end.

Record AnchorError : Type := { an_code : number; an_name : string }.

Definition parse_line (log : string) : option AnchorError :=
  match match_named log with
  | Some (name, digits) => Some {| an_code := parseInt 10 digits; an_name := name |}
  | None =>
      match match_hex "custom program error: 0x" log with
      | Some hex =>
          let code := parseInt 16 (text hex) in
          Some {| an_code := code;
                  an_name := match anchor_entry code with
                             | Some e => dg_name e
                             | None => "UnknownError(" +:+ num_toString code +:+ ")"
                             end |}
      | None => None
      end
  end.

Definition parseAnchorError (logs : list string) : option AnchorError := head (omap parse_line logs).

(** The error part of a simulation that failed; the message is the node's. *)
Record SimulationError : Type := {
  se_anchorCode : option number; se_anchorName : option string; se_suggestion : option string;
}.

Definition simulation_error (logs : list string) : SimulationError :=
  let anchorError := parseAnchorError logs in
  let mapEntry := match anchorError with Some e => anchor_entry (an_code e) | None => None end in
  {| se_anchorCode := option_map an_code anchorError;
     se_anchorName := match anchorError with Some e => Some (an_name e) | None => option_map dg_name mapEntry end;
     se_suggestion := option_map dg_suggestion mapEntry |}.

(** ** The table against the program *)

Definition entry_agrees (p : Z * Diagnosis) : bool :=
  (6000 <=? p.1) && bool_decide (SigilError_variants !! Z.to_nat (p.1 - 6000) = Some (dg_name (snd p))) &&
  bool_decide (option_map em_name (jm_get p.1 ON_CHAIN_ERROR_MAP) = Some (dg_name p.2)).

Lemma entries_agree : forallb entry_agrees ANCHOR_ERROR_MAP && bool_decide (NoDup (map fst ANCHOR_ERROR_MAP)) = true.
Proof. by vm_compute. Qed.

(** The two forms of a code in a log line. *)
Definition hex_line (program : string) (c : Z) : string :=
  "Program " +:+ program +:+ " failed: custom program error: 0x" +:+
  text (map (λ d, if d <? 10 then digit_char d else ascii_of_nat (Z.to_nat (87 + d)))
    [c / 4096; c / 256 mod 16; c / 16 mod 16; c mod 16]).

Definition code_diagnosed (c : Z) : bool :=
  match parseAnchorError [hex_line "X" c], SigilError_variants !! Z.to_nat (c - 6000) with
  | Some e, Some name =>
      bool_decide (an_code e = Int c) &&
      match jm_get c ANCHOR_ERROR_MAP with
      | Some d => bool_decide (an_name e = name) &&
                  bool_decide (se_suggestion (simulation_error [hex_line "X" c]) = Some (dg_suggestion d))
      | None => bool_decide (an_name e = "UnknownError(" +:+ bigint_toString c +:+ ")") &&
                bool_decide (se_suggestion (simulation_error [hex_line "X" c]) = None)
      end
  | _, _ => false
  end.

Definition program_codes : list Z := map (λ i, 6000 + Z.of_nat i) (seq 0 (length SigilError_variants)).

Lemma codes_diagnosed : forallb code_diagnosed program_codes = true.
Proof. by vm_compute. Qed.

(** Every entry of the simulation's table carries the name the program and the agent-error
    table give that code, and no code occurs twice. *)
Theorem diagnosis_table_agrees (c : Z) (d : Diagnosis) :
  jm_get c ANCHOR_ERROR_MAP = Some d →
  SigilError_variants !! Z.to_nat (c - 6000) = Some (dg_name d) ∧
  option_map em_name (jm_get c ON_CHAIN_ERROR_MAP) = Some (dg_name d).
Proof.
  intros H%jm_get_elem. pose proof entries_agree as [Ha _]%andb_true_iff. rewrite forallb_forall in Ha.
  specialize (Ha (c, d) ltac:(by apply list_elem_of_In)). unfold entry_agrees in Ha. simpl in Ha.
  rewrite !andb_true_iff, !bool_decide_eq_true in Ha. naive_solver.
Qed.

(** A code the runtime prints in hexadecimal is recognised for every error of the program; it
    is named and explained exactly when the table has it. *)
Theorem program_codes_are_diagnosed (c : Z) (name : string) :
  6000 ≤ c → SigilError_variants !! Z.to_nat (c - 6000) = Some name →
  ∃ e, parseAnchorError [hex_line "X" c] = Some e ∧ an_code e = Int c ∧
    match jm_get c ANCHOR_ERROR_MAP with
    | Some d => an_name e = name ∧ se_suggestion (simulation_error [hex_line "X" c]) = Some (dg_suggestion d)
    | None => an_name e = "UnknownError(" +:+ bigint_toString c +:+ ")" ∧
              se_suggestion (simulation_error [hex_line "X" c]) = None
    end.
Proof.
  intros Hc Hn. pose proof codes_diagnosed as H. rewrite forallb_forall in H.
  assert (Hin : In c program_codes).
  { unfold program_codes. apply in_map_iff. exists (Z.to_nat (c - 6000)). split; [lia|].
    apply in_seq. apply lookup_lt_Some in Hn. lia. }
  specialize (H c Hin). unfold code_diagnosed in H. rewrite Hn in H.
  destruct (parseAnchorError [hex_line "X" c]) as [e|]; [|done]. exists e. split; [done|].
  apply andb_true_iff in H as [He H]. apply bool_decide_eq_true in He. split; [done|].
  destruct (jm_get c ANCHOR_ERROR_MAP); apply andb_true_iff in H as [H1 H2]; by apply bool_decide_eq_true in H1, H2.
Qed.

(** The first line that matches decides, whichever program printed it: a line of an inner program hides the
    error of the program that failed. *)
Theorem first_line_decides (before after : list string) (line : string) (e : AnchorError) :
  Forall (λ l, parse_line l = None) before → parse_line line = Some e →
  parseAnchorError (before ++ line :: after) = Some e.
Proof.
  intros Hb Hl. unfold parseAnchorError. induction Hb as [|l ls Hn _ IH]; cbn [app omap list_omap].
  - by rewrite Hl.
  - by rewrite Hn.
Qed.

Example diagnoses :
  parseAnchorError ["Program log: AnchorError occurred. Error Code: SpendingCapExceeded. Error Number: 6006. Error Message: x.";
                    hex_line "X" 6006] = Some {| an_code := Int 6006; an_name := "SpendingCapExceeded" |} ∧
  option_map an_name (parseAnchorError [hex_line "X" 6117]) = Some "UnknownError(6117)".
Proof. by vm_compute. Qed.

Lemma diagnosis_table_agrees_witness : SigilError_variants !! 6%nat = Some "SpendingCapExceeded".
Proof.
  destruct (jm_get 6006 ANCHOR_ERROR_MAP) as [d|] eqn:E; [|by vm_compute in E].
  pose proof (proj1 (diagnosis_table_agrees 6006 d E)) as H. vm_compute in E. injection E as <-. exact H.
Defined.

Lemma program_codes_are_diagnosed_witness :
  ∃ e, parseAnchorError [hex_line "X" 6117] = Some e ∧ an_code e = Int 6117.
Proof.
  destruct (program_codes_are_diagnosed 6117 "ErrProgramBuildMismatch" ltac:(lia) ltac:(by vm_compute)) as (e & H1 & H2 & _).
  by exists e.
Defined.

Lemma first_line_decides_witness :
  option_map an_name (parseAnchorError ["quiet"; hex_line "Inner" 6000; hex_line "Sigil" 6006]) = Some "VaultNotActive".
Proof.
  change ["quiet"; hex_line "Inner" 6000; hex_line "Sigil" 6006]
    with (["quiet"] ++ hex_line "Inner" 6000 :: [hex_line "Sigil" 6006]).
  rewrite (first_line_decides ["quiet"] [hex_line "Sigil" 6006] (hex_line "Inner" 6000)
    {| an_code := Int 6000; an_name := "VaultNotActive" |}); [done| |by vm_compute].
  repeat constructor.
Defined.
