(* ===== verification/AuditLog.v ===== *)
(** * The on-chain audit log and its reader ([sdk/kit/src/audit-log.ts])

    Two rings per vault: 128 entries for what succeeded, 64 for sessions that
    had expired when they were finalised.  Modelled are the writers (the entry
    each handler of the program builds, [utils/audit_log.rs], and the [append]
    of [state/audit_log_success.rs] and [state/audit_log_rejected.rs]) and the
    reader ([orderCircularEntries], [toView], the two fetches).

    The abstract log is an unbounded list of entries.  The refinement: after
    any run of the program from a new vault, what the client reads is the most
    recent part of that list, oldest first; and entries written to the
    rejected ring, which anyone can cause, displace nothing in the other. *)

From S2P Require Import Prelude.

Local Open Scope Z_scope.

(** ** Data *)

Record AuditEntry : Type := {
  ae_subject : list Z;
  ae_balanceDeltaIn : Z;
  ae_balanceDeltaOut : Z;
  ae_timestamp : Z;
  ae_slotHash : list Z;
  ae_blockhash : list Z;
  ae_discriminator : Z;
}.

Definition zero_entry : AuditEntry := {|
  ae_subject := replicate 32 0; ae_balanceDeltaIn := 0; ae_balanceDeltaOut := 0; ae_timestamp := 0;
  ae_slotHash := replicate 4 0; ae_blockhash := replicate 3 0; ae_discriminator := 0 |}.

(** One ring; the success and the rejected account differ in the length of
    [entries] only. *)
Record AuditLog : Type := {
  al_vault : list Z;
  al_entries : list AuditEntry;
  al_head : Z;
  al_count : Z;
}.

Definition AUDIT_LOG_SUCCESS_CAPACITY : nat := 128.
Definition AUDIT_LOG_REJECTED_CAPACITY : nat := 64.

(** The discriminators the program declares, by the name of the constant. *)
Definition program_discriminators : list (string * Z) := [
  ("RESERVED_ZERO", 0); ("VALIDATE", 1); ("FINALIZE_SUCCESS", 2); ("DEPOSIT", 3);
  ("WITHDRAW", 4); ("FREEZE", 5); ("REACTIVATE", 6); ("OWNERSHIP_INITIATE", 7);
  ("OWNERSHIP_ACCEPT", 8); ("OWNERSHIP_CANCEL", 9); ("PAUSE_AGENT", 10); ("UNPAUSE_AGENT", 11);
  ("REVOKE_AGENT", 12); ("REGISTER_AGENT", 13); ("POLICY_APPLY", 14); ("CONSTRAINTS_APPLY", 15);
  ("FINALIZE_REJECT", 16); ("AGENT_GRANT_QUEUE", 17); ("AGENT_GRANT_APPLY", 18);
  ("AGENT_GRANT_CANCEL", 19); ("AGENT_PERMS_APPLY", 20); ("CONSTRAINTS_CLOSE_APPLY", 21);
  ("AGENT_AUTO_REVOKED", 22); ("AGENT_TRANSFER", 23)].

(** The ones the client exports. *)
Definition client_discriminators : list (string * Z) := [
  ("RESERVED_ZERO", 0); ("VALIDATE", 1); ("FINALIZE_SUCCESS", 2); ("DEPOSIT", 3);
  ("WITHDRAW", 4); ("FREEZE", 5); ("REACTIVATE", 6); ("OWNERSHIP_INITIATE", 7);
  ("OWNERSHIP_ACCEPT", 8); ("OWNERSHIP_CANCEL", 9); ("PAUSE_AGENT", 10); ("UNPAUSE_AGENT", 11);
  ("REVOKE_AGENT", 12); ("REGISTER_AGENT", 13); ("POLICY_APPLY", 14); ("CONSTRAINTS_APPLY", 15);
  ("FINALIZE_REJECT", 16); ("AGENT_GRANT_QUEUE", 17); ("AGENT_GRANT_APPLY", 18);
  ("AGENT_GRANT_CANCEL", 19); ("AGENT_PERMS_APPLY", 20); ("CONSTRAINTS_CLOSE_APPLY", 21);
  ("AGENT_AUTO_REVOKED", 22)].

(** ** The program's side *)

(** [append], on a ring of [capacity] entries; [head] and [count] are bytes. *)
Definition append (capacity : nat) (log : AuditLog) (entry : AuditEntry) : AuditLog :=
  let cap := Z.of_nat capacity in
  let idx := Z.to_nat (al_head log mod cap) in
  {| al_vault := al_vault log;
     al_entries := <[idx := entry]> (al_entries log);
     al_head := wrap 8 ((al_head log + 1) mod cap);
     al_count := if al_count log <? cap then Z.min (al_count log + 1) 255 else al_count log |}.

(** The account as [initialize_vault] leaves it. *)
Definition new_log (capacity : nat) (vault : list Z) : AuditLog := {|
  al_vault := vault; al_entries := replicate capacity zero_entry; al_head := 0; al_count := 0 |}.

(** The bytes of the slot-hashes sysvar to the head pair an entry stores. *)
Definition read_slot_hash_head (data : list Z) : list Z * list Z :=
  let zeros := (replicate 4 0, replicate 3 0) in
  if bool_decide (length data < 8)%nat then zeros else
  let n := le_value (take 8 data) in
  if (n =? 0) || bool_decide (length data < 8 + 8 + 32)%nat then zeros else
  (take 4 (drop 8 data), take 3 (drop 16 data)).

(** What an instruction sees of the chain. *)
Record Sysvars : Type := { sv_unix_timestamp : Z; sv_slot_hashes : list Z }.

Definition build_audit_entry (discriminator : Z) (subject : list Z)
    (balance_delta_in balance_delta_out : Z) (sv : Sysvars) : AuditEntry :=
  let '(slot_hash, blockhash) := read_slot_hash_head (sv_slot_hashes sv) in
  {| ae_subject := subject;
     ae_balanceDeltaIn := balance_delta_in;
     ae_balanceDeltaOut := balance_delta_out;
     ae_timestamp := sv_unix_timestamp sv;
     ae_slotHash := slot_hash;
     ae_blockhash := blockhash;
     ae_discriminator := discriminator |}.

(** [amount.min(i64::MAX as u64) as i64]. *)
Definition clamp_i64 (amount : Z) : Z := Z.min amount (2 ^ 63 - 1).

(** The two accounts of one vault, as the handlers receive them. *)
Record AuditLogs : Type := { lg_vault : list Z; lg_success : AuditLog; lg_rejected : AuditLog }.

Abbreviation Audit := (Sysvars → AuditLogs → result string AuditLogs).

(** The block every audited handler ends with: build the entry, check that the
    ring is this vault's, append. *)
Definition write_success (discriminator : Z) (subject : list Z) (delta_in delta_out : Z) : Audit :=
  λ sv logs,
  let entry := build_audit_entry discriminator subject delta_in delta_out sv in
  _ ← throw_if (negb (bool_decide (al_vault (lg_success logs) = lg_vault logs))) "ZeroCopyVaultMismatch";
  Ok {| lg_vault := lg_vault logs;
        lg_success := append AUDIT_LOG_SUCCESS_CAPACITY (lg_success logs) entry;
        lg_rejected := lg_rejected logs |}.

Definition write_rejected (discriminator : Z) (subject : list Z) (delta_in delta_out : Z) : Audit :=
  λ sv logs,
  let entry := build_audit_entry discriminator subject delta_in delta_out sv in
  _ ← throw_if (negb (bool_decide (al_vault (lg_rejected logs) = lg_vault logs))) "ZeroCopyVaultMismatch";
  Ok {| lg_vault := lg_vault logs;
        lg_success := lg_success logs;
        lg_rejected := append AUDIT_LOG_REJECTED_CAPACITY (lg_rejected logs) entry |}.

Definition deposit_funds_audit (mint : list Z) (amount : Z) : Audit :=
  write_success 3 mint (clamp_i64 amount) 0.
Definition withdraw_funds_audit (mint : list Z) (amount : Z) : Audit :=
  write_success 4 mint 0 (clamp_i64 amount).
Definition freeze_vault_audit : Audit := λ sv logs, write_success 5 (lg_vault logs) 0 0 sv logs.
Definition reactivate_vault_audit : Audit := λ sv logs, write_success 6 (lg_vault logs) 0 0 sv logs.
Definition initiate_ownership_audit (new_owner : list Z) : Audit := write_success 7 new_owner 0 0.
Definition accept_ownership_audit (new_owner : list Z) : Audit := write_success 8 new_owner 0 0.
Definition cancel_ownership_audit (new_owner : list Z) : Audit := write_success 9 new_owner 0 0.
Definition pause_agent_audit (agent : list Z) : Audit := write_success 10 agent 0 0.
Definition unpause_agent_audit (agent : list Z) : Audit := write_success 11 agent 0 0.
Definition revoke_agent_audit (agent : list Z) : Audit := write_success 12 agent 0 0.
Definition register_agent_audit (agent : list Z) : Audit := write_success 13 agent 0 0.
Definition apply_policy_audit : Audit := λ sv logs, write_success 14 (lg_vault logs) 0 0 sv logs.
Definition queue_agent_grant_audit (agent : list Z) : Audit := write_success 17 agent 0 0.
Definition apply_agent_grant_audit (agent : list Z) : Audit := write_success 18 agent 0 0.
Definition cancel_agent_grant_audit (agent : list Z) : Audit := write_success 19 agent 0 0.
Definition apply_agent_permissions_audit (agent : list Z) : Audit := write_success 20 agent 0 0.

(** Only a violation that trips the threshold leaves an entry. *)
Definition record_agent_violation_audit (agent : list Z) (tripped : bool) : Audit := λ sv logs,
  if tripped then write_success 22 agent 0 0 sv logs else Ok logs.

Definition agent_transfer_audit (recipient : list Z) (amount : Z) : Audit :=
  write_success 23 recipient 0 (clamp_i64 amount).

Definition finalize_session_audit (is_expired spend_is_inflow : bool) (protocol : list Z)
    (actual_spend_tracked : Z) : Audit :=
  let measured := clamp_i64 actual_spend_tracked in
  let '(delta_in, delta_out) := if spend_is_inflow then (measured, 0) else (0, measured) in
  if is_expired then write_rejected 16 protocol delta_in delta_out
  else write_success 2 protocol delta_in delta_out.

(** The audited calls. *)
Inductive AuditedCall : Type :=
| deposit_funds (mint : list Z) (amount : Z)
| withdraw_funds (mint : list Z) (amount : Z)
| freeze_vault
| reactivate_vault
| initiate_ownership_transfer (new_owner : list Z)
| accept_ownership_transfer (new_owner : list Z)
| cancel_ownership_transfer (new_owner : list Z)
| pause_agent (agent : list Z)
| unpause_agent (agent : list Z)
| revoke_agent (agent : list Z)
| register_agent (agent : list Z)
| apply_pending_policy
| queue_agent_grant (agent : list Z)
| apply_agent_grant (agent : list Z)
| cancel_agent_grant (agent : list Z)
| apply_agent_permissions_update (agent : list Z)
| record_agent_violation (agent : list Z) (tripped : bool)
| agent_transfer (recipient : list Z) (amount : Z)
| finalize_session (is_expired spend_is_inflow : bool) (protocol : list Z) (spend : Z).

Definition audit (call : AuditedCall) : Audit :=
  match call with
  | deposit_funds m n => deposit_funds_audit m n
  | withdraw_funds m n => withdraw_funds_audit m n
  | freeze_vault => freeze_vault_audit
  | reactivate_vault => reactivate_vault_audit
  | initiate_ownership_transfer o => initiate_ownership_audit o
  | accept_ownership_transfer o => accept_ownership_audit o
  | cancel_ownership_transfer o => cancel_ownership_audit o
  | pause_agent a => pause_agent_audit a
  | unpause_agent a => unpause_agent_audit a
  | revoke_agent a => revoke_agent_audit a
  | register_agent a => register_agent_audit a
  | apply_pending_policy => apply_policy_audit
  | queue_agent_grant a => queue_agent_grant_audit a
  | apply_agent_grant a => apply_agent_grant_audit a
  | cancel_agent_grant a => cancel_agent_grant_audit a
  | apply_agent_permissions_update a => apply_agent_permissions_audit a
  | record_agent_violation a t => record_agent_violation_audit a t
  | agent_transfer r n => agent_transfer_audit r n
  | finalize_session x i p n => finalize_session_audit x i p n
  end.

(** A history: each call with the chain it ran on. *)
Fixpoint run (history : list (Sysvars * AuditedCall)) (logs : AuditLogs) : result string AuditLogs :=
  match history with
  | [] => Ok logs
  | (sv, call) :: history => logs ← audit call sv logs; run history logs
  end.

(** ** The client's side *)

Section order.
Context {T : Type}.

(** [raw[i]]: undefined outside the array. *)
Definition js_at (raw : list T) (i : Z) : option T :=
  if i <? 0 then None else raw !! Z.to_nat i.

Definition orderCircularEntries (raw : list T) (head count capacity : Z) : list (option T) :=
  if count <=? 0 then [] else
  if count <? capacity then Some <$> take (Z.to_nat count) raw else
  (λ i, js_at raw (Z.rem (head + i) capacity)) <$> seqZ 0 capacity.
End order.

Record AuditLogView : Type := {
  vw_vault : list Z;
  vw_head : Z;
  vw_count : Z;
  vw_entries : list (option AuditEntry);
}.

Definition toView (raw : AuditLog) (capacity : Z) : AuditLogView := {|
  vw_vault := al_vault raw;
  vw_head := al_head raw;
  vw_count := al_count raw;
  vw_entries := orderCircularEntries (al_entries raw) (al_head raw) (al_count raw) capacity |}.

(** The generated fetch: the decoded account, or an error when there is none. *)
Abbreviation FetchRaw := (string → result js_exn AuditLog).

Definition fetchAuditLogSuccess (fetchRawSuccess : FetchRaw) (pda : string) : result js_exn AuditLogView :=
  raw ← fetchRawSuccess pda; Ok (toView raw 128).

Definition fetchAuditLogRejected (fetchRawRejected : FetchRaw) (pda : string) : result js_exn AuditLogView :=
  raw ← fetchRawRejected pda; Ok (toView raw 64).

Definition subjectBytes (entry : AuditEntry) : list Z := ae_subject entry.

(** ** The abstract log *)

Inductive Ring : Type := SuccessRing | RejectedRing.

#[export] Instance Ring_eq_dec : EqDecision Ring.
Proof. solve_decision. Defined.

(** What a call leaves behind: the ring, the kind, the subject and the two
    amounts. *)
Definition recorded (vault : list Z) (call : AuditedCall) : option (Ring * (Z * list Z * Z * Z)) :=
  match call with
  | deposit_funds m n => Some (SuccessRing, (3, m, clamp_i64 n, 0))
  | withdraw_funds m n => Some (SuccessRing, (4, m, 0, clamp_i64 n))
  | freeze_vault => Some (SuccessRing, (5, vault, 0, 0))
  | reactivate_vault => Some (SuccessRing, (6, vault, 0, 0))
  | initiate_ownership_transfer o => Some (SuccessRing, (7, o, 0, 0))
  | accept_ownership_transfer o => Some (SuccessRing, (8, o, 0, 0))
  | cancel_ownership_transfer o => Some (SuccessRing, (9, o, 0, 0))
  | pause_agent a => Some (SuccessRing, (10, a, 0, 0))
  | unpause_agent a => Some (SuccessRing, (11, a, 0, 0))
  | revoke_agent a => Some (SuccessRing, (12, a, 0, 0))
  | register_agent a => Some (SuccessRing, (13, a, 0, 0))
  | apply_pending_policy => Some (SuccessRing, (14, vault, 0, 0))
  | queue_agent_grant a => Some (SuccessRing, (17, a, 0, 0))
  | apply_agent_grant a => Some (SuccessRing, (18, a, 0, 0))
  | cancel_agent_grant a => Some (SuccessRing, (19, a, 0, 0))
  | apply_agent_permissions_update a => Some (SuccessRing, (20, a, 0, 0))
  | record_agent_violation a tripped => if tripped then Some (SuccessRing, (22, a, 0, 0)) else None
  | agent_transfer r n => Some (SuccessRing, (23, r, 0, clamp_i64 n))
  | finalize_session expired inflow p n =>
      Some (if expired then RejectedRing else SuccessRing,
            (if expired then 16 else 2, p, if inflow then clamp_i64 n else 0, if inflow then 0 else clamp_i64 n))
  end.

Definition entry_of (sv : Sysvars) (w : Z * list Z * Z * Z) : AuditEntry :=
  let '(d, s, i, o) := w in build_audit_entry d s i o sv.

(** The unbounded log of one ring. *)
Definition log_of (r : Ring) (vault : list Z) (history : list (Sysvars * AuditedCall)) : list AuditEntry :=
  omap (λ '(sv, call), '(r', w) ← recorded vault call; if decide (r' = r) then Some (entry_of sv w) else None)
    history.

(** The last [n] elements. *)
Definition lastn {A} (n : nat) (l : list A) : list A := drop (length l - n) l.

(** ** The ring represents the end of the log *)

Lemma mod_apart (cap i j : nat) : (i < j)%nat → (j < i + cap)%nat → (i mod cap ≠ j mod cap)%nat.
Proof.
  intros Hij Hj E.
  pose proof (Nat.div_mod_eq i cap). pose proof (Nat.div_mod_eq j cap).
  assert (cap * (j / cap) - cap * (i / cap) = j - i)%nat as Hd by lia.
  destruct (Nat.le_gt_cases (j / cap) (i / cap)); nia.
Qed.

Record represents (cap : nat) (log : AuditLog) (es : list AuditEntry) : Prop := {
  rp_size : length (al_entries log) = cap;
  rp_head : al_head log = Z.of_nat (length es mod cap);
  rp_count : al_count log = Z.of_nat (length es `min` cap);
  rp_entry i e : (length es - cap ≤ i)%nat → es !! i = Some e → al_entries log !! (i mod cap)%nat = Some e;
}.

Section ring.
Context (cap : nat) (Hcap : (0 < cap < 256)%nat).

Lemma new_log_represents vault : represents cap (new_log cap vault) [].
Proof using Hcap.
  constructor; simpl; [apply length_replicate| |done|done].
  by rewrite Nat.Div0.mod_0_l.
Qed.

Lemma next_head n :
  wrap 8 ((Z.of_nat (n mod cap) + 1) mod Z.of_nat cap) = Z.of_nat (S n mod cap).
Proof using Hcap.
  replace (Z.of_nat (n mod cap) + 1) with (Z.of_nat (n mod cap + 1)) by lia.
  rewrite <- Nat2Z.inj_mod, Nat.Div0.add_mod_idemp_l, Nat.add_1_r.
  apply wrap_fits. pose proof (Nat.mod_upper_bound (S n) cap).
  unfold fits. change (2 ^ 8) with 256. lia.
Qed.

Lemma append_represents log es e :
  represents cap log es → represents cap (append cap log e) (es ++ [e]).
Proof using Hcap.
  intros [Hs Hh Hc He]. pose proof (Nat.mod_upper_bound (length es) cap) as Hm.
  constructor; simpl; rewrite ?Hh, ?Hc.
  - by rewrite length_insert.
  - by rewrite length_app, Nat.add_1_r, next_head.
  - rewrite length_app. cbn [length]. destruct (Z.ltb_spec (Z.of_nat (length es `min` cap)) (Z.of_nat cap)); lia.
  - intros i x Hi Hx. rewrite length_app in Hi. simpl in Hi.
    rewrite <- Nat2Z.inj_mod, Nat2Z.id, Nat.Div0.mod_mod.
    destruct (decide (i = length es)) as [->|Hne].
    + rewrite list_lookup_middle in Hx by done. rewrite list_lookup_insert_eq by lia. done.
    + assert (i < length es)%nat.
      { apply lookup_lt_Some in Hx. rewrite length_app in Hx. simpl in Hx. lia. }
      rewrite list_lookup_insert_ne by (intros E; symmetry in E; eapply (mod_apart cap); [| |exact E]; lia).
      apply He; [lia|]. by rewrite lookup_app_l in Hx.
Qed.

(** What the client reads off a ring that represents [es]. *)
Lemma read_represents log es :
  represents cap log es →
  orderCircularEntries (al_entries log) (al_head log) (al_count log) (Z.of_nat cap) = Some <$> lastn cap es.
Proof using Hcap.
  intros [Hs Hh Hc He]. unfold orderCircularEntries, lastn. rewrite Hh, Hc.
  destruct (Z.leb_spec (Z.of_nat (length es `min` cap)) 0).
  { destruct es as [|x es]; [done|]. cbn [length] in *. exfalso. lia. }
  apply list_eq. intros i. rewrite list_lookup_fmap, lookup_drop.
  destruct (Z.ltb_spec (Z.of_nat (length es `min` cap)) (Z.of_nat cap)).
  - rewrite list_lookup_fmap. f_equal.
    replace (length es - cap + i)%nat with i by lia.
    destruct (decide (i < length es)%nat) as [Hi|Hi].
    + rewrite lookup_take_lt by lia. destruct (lookup_lt_is_Some_2 es i Hi) as [x Hx].
      rewrite Hx. rewrite <- (He i x) by (done || lia). by rewrite Nat.mod_small by lia.
    + rewrite lookup_take_ge, lookup_ge_None_2 by lia. done.
  - rewrite list_lookup_fmap. destruct (decide (i < cap)%nat) as [Hi|Hi].
    + rewrite lookup_seqZ_lt by lia. simpl.
      destruct (lookup_lt_is_Some_2 es (length es - cap + i)) as [x Hx]; [lia|].
      rewrite Hx. simpl. f_equal. rewrite <- (He (length es - cap + i)%nat x) by (done || lia). unfold js_at.
      rewrite Z.rem_mod_nonneg by lia.
      replace (Z.of_nat (length es mod cap) + (0 + Z.of_nat i)) with (Z.of_nat (length es mod cap + i)) by lia.
      rewrite <- Nat2Z.inj_mod. destruct (Z.ltb_spec (Z.of_nat ((length es mod cap + i) mod cap)) 0); [lia|]. rewrite Nat2Z.id. f_equal.
      rewrite Nat.Div0.add_mod_idemp_l.
      replace (length es + i)%nat with (length es - cap + i + 1 * cap)%nat by lia.
      by rewrite Nat.Div0.mod_add.
    + rewrite lookup_seqZ_ge by lia. by rewrite lookup_ge_None_2 by lia.
Qed.
End ring.

(** ** The simulation *)

Definition new_logs (vault : list Z) : AuditLogs := {|
  lg_vault := vault;
  lg_success := new_log AUDIT_LOG_SUCCESS_CAPACITY vault;
  lg_rejected := new_log AUDIT_LOG_REJECTED_CAPACITY vault |}.

Record simulates (logs : AuditLogs) (vault : list Z) (good bad : list AuditEntry) : Prop := {
  sm_vault : lg_vault logs = vault ∧ al_vault (lg_success logs) = vault ∧ al_vault (lg_rejected logs) = vault;
  sm_good : represents AUDIT_LOG_SUCCESS_CAPACITY (lg_success logs) good;
  sm_bad : represents AUDIT_LOG_REJECTED_CAPACITY (lg_rejected logs) bad;
}.

Lemma write_success_simulates d s i o sv logs vault good bad :
  simulates logs vault good bad →
  ∃ logs', write_success d s i o sv logs = Ok logs' ∧
           simulates logs' vault (good ++ [entry_of sv (d, s, i, o)]) bad.
Proof.
  intros [(<- & Hs & Hr) Hg Hb]. unfold write_success. rewrite Hs, bool_decide_true by done.
  eexists. split; [done|]. constructor; simpl; [done| |done].
  apply append_represents; [|done]. unfold AUDIT_LOG_SUCCESS_CAPACITY. lia.
Qed.

Lemma write_rejected_simulates d s i o sv logs vault good bad :
  simulates logs vault good bad →
  ∃ logs', write_rejected d s i o sv logs = Ok logs' ∧
           simulates logs' vault good (bad ++ [entry_of sv (d, s, i, o)]).
Proof.
  intros [(<- & Hs & Hr) Hg Hb]. unfold write_rejected. rewrite Hr, bool_decide_true by done.
  eexists. split; [done|]. constructor; simpl; [done|done|].
  apply append_represents; [|done]. unfold AUDIT_LOG_REJECTED_CAPACITY. lia.
Qed.

(** One call, concretely and abstractly. *)
Lemma audit_simulates call sv logs vault good bad :
  simulates logs vault good bad →
  ∃ logs', audit call sv logs = Ok logs' ∧
           simulates logs' vault (good ++ log_of SuccessRing vault [(sv, call)])
                                 (bad ++ log_of RejectedRing vault [(sv, call)]).
Proof.
  intros H. pose proof (sm_vault _ _ _ _ H) as (Hv & _).
  destruct call as [| | | | | | | | | | | | | | | | ? [] | | [] []];
    cbv [audit freeze_vault_audit reactivate_vault_audit apply_policy_audit record_agent_violation_audit
         finalize_session_audit]; rewrite ?Hv; cbn -[write_success write_rejected entry_of];
    rewrite ?app_nil_r; first
      [ by apply write_success_simulates | by apply write_rejected_simulates | by eexists ].
Qed.

Lemma log_of_cons r vault c history : log_of r vault (c :: history) = log_of r vault [c] ++ log_of r vault history.
Proof. unfold log_of. cbn [omap list_omap]. by case_match. Qed.

Lemma run_simulates history logs vault good bad :
  simulates logs vault good bad →
  ∃ logs', run history logs = Ok logs' ∧
           simulates logs' vault (good ++ log_of SuccessRing vault history)
                                 (bad ++ log_of RejectedRing vault history).
Proof.
  revert logs good bad. induction history as [|[sv call] history IH]; intros logs good bad H.
  { rewrite !app_nil_r. by eexists. }
  destruct (audit_simulates call sv logs vault good bad H) as (logs1 & E1 & H1).
  destruct (IH logs1 _ _ H1) as (logs2 & E2 & H2).
  exists logs2. cbn [run]. rewrite E1. split; [done|].
  by rewrite (log_of_cons SuccessRing), (log_of_cons RejectedRing), !(assoc_L _).
Qed.

Lemma new_logs_simulate vault : simulates (new_logs vault) vault [] [].
Proof.
  constructor; [done| |]; apply new_log_represents; unfold AUDIT_LOG_SUCCESS_CAPACITY, AUDIT_LOG_REJECTED_CAPACITY; lia.
Qed.

Lemma view_represents cap log es vault :
  (0 < cap < 256)%nat → represents cap log es → al_vault log = vault →
  toView log (Z.of_nat cap) = {|
    vw_vault := vault; vw_head := Z.of_nat (length es mod cap);
    vw_count := Z.of_nat (length es `min` cap); vw_entries := Some <$> lastn cap es |}.
Proof.
  intros Hcap H <-. unfold toView. rewrite (read_represents cap Hcap log es H).
  by rewrite (rp_head _ _ _ H), (rp_count _ _ _ H).
Qed.

(** C33: Whatever audited calls a vault has made, none of them fails for the
    log's sake, and the client's two readers return exactly the entries those
    calls should have left: the last 128 successes and the last 64 rejections,
    oldest first, each with its kind, subject, amounts, time and slot. *)
Theorem audit_readers_show_recent_history vault history pda :
  ∃ logs, run history (new_logs vault) = Ok logs ∧
  (let good := log_of SuccessRing vault history in
   fetchAuditLogSuccess (λ _, Ok (lg_success logs)) pda = Ok {|
     vw_vault := vault; vw_head := Z.of_nat (length good mod 128);
     vw_count := Z.of_nat (length good `min` 128); vw_entries := Some <$> lastn 128 good |}) ∧
  (let bad := log_of RejectedRing vault history in
   fetchAuditLogRejected (λ _, Ok (lg_rejected logs)) pda = Ok {|
     vw_vault := vault; vw_head := Z.of_nat (length bad mod 64);
     vw_count := Z.of_nat (length bad `min` 64); vw_entries := Some <$> lastn 64 bad |}).
Proof.
  destruct (run_simulates history _ vault _ _ (new_logs_simulate vault)) as (logs & E & [(_ & Hs & Hr) Hg Hb]).
  exists logs. split; [done|]. split; cbv zeta.
  - unfold fetchAuditLogSuccess. cbn [mbind result_bind]. change 128 with (Z.of_nat 128).
    by rewrite (view_represents 128 _ _ vault ltac:(lia) Hg Hs).
  - unfold fetchAuditLogRejected. cbn [mbind result_bind]. change 64 with (Z.of_nat 64).
    by rewrite (view_represents 64 _ _ vault ltac:(lia) Hb Hr).
Qed.

(** ** Who can displace an entry *)

Definition is_rejection (c : Sysvars * AuditedCall) : bool :=
  match c.2 with finalize_session true _ _ _ => true | _ => false end.

Lemma log_without_rejections vault history :
  log_of SuccessRing vault (filter (λ c, negb (is_rejection c)) history) = log_of SuccessRing vault history.
Proof.
  induction history as [|c history IH]; [done|].
  rewrite filter_cons, (log_of_cons _ _ c). destruct c as [sv call].
  case_decide as H; [by rewrite log_of_cons, IH|]. rewrite IH.
  destruct call as [| | | | | | | | | | | | | | | | | |[]]; first [done | by destruct H].
Qed.

(** Finalising expired sessions, which anybody may do and as often as they
    like, changes nothing in what the owner reads of the successes: the reader
    returns what it would have returned had none of those calls happened. *)
Theorem expired_sessions_hide_nothing vault history pda :
  ∃ logs logs',
    run history (new_logs vault) = Ok logs ∧
    run (filter (λ c, negb (is_rejection c)) history) (new_logs vault) = Ok logs' ∧
    fetchAuditLogSuccess (λ _, Ok (lg_success logs)) pda =
    fetchAuditLogSuccess (λ _, Ok (lg_success logs')) pda.
Proof.
  destruct (run_simulates history _ vault _ _ (new_logs_simulate vault)) as (logs & E & [(_ & Hs & _) Hg _]).
  destruct (run_simulates (filter (λ c, negb (is_rejection c)) history) _ vault _ _ (new_logs_simulate vault))
    as (logs' & E' & [(_ & Hs' & _) Hg' _]).
  exists logs, logs'. split; [done|]. split; [done|].
  rewrite log_without_rejections in Hg'.
  unfold fetchAuditLogSuccess. cbn [mbind result_bind]. change 128 with (Z.of_nat 128).
  by rewrite (view_represents 128 _ _ vault ltac:(lia) Hg Hs), (view_represents 128 _ _ vault ltac:(lia) Hg' Hs').
Qed.

(** The successes, on the other hand, are displaced by further successes, and
    an agent makes those: 128 transfers push a freeze out of the log. *)
Definition agent_transfers (n : nat) : list (Sysvars * AuditedCall) :=
  replicate n ({| sv_unix_timestamp := 0; sv_slot_hashes := [] |}, agent_transfer [9] 1).

Example transfers_displace_owner_actions :
  let history := ({| sv_unix_timestamp := 0; sv_slot_hashes := [] |}, freeze_vault) :: agent_transfers 128 in
  match run history (new_logs [7]) with
  | Ok logs => forallb (λ e, match e with Some e => ae_discriminator e =? 23 | None => false end)
                 (vw_entries (toView (lg_success logs) 128)) = true
  | Throw _ => False
  end.
Proof. vm_compute. reflexivity. Qed.

(** ** The constants *)

Definition value_of (name : string) (table : list (string * Z)) : option Z :=
  p ← list_find (λ p : string * Z, p.1 = name) table; Some p.2.2.

(** Every discriminator the client names is the program's, but one the
    program writes has no name in the client: the agent's transfer, the main
    way money leaves a vault. *)
Theorem client_misses_agent_transfers :
  Forall (λ p : string * Z, value_of p.1 program_discriminators = Some p.2) client_discriminators ∧
  filter (λ p : string * Z, value_of p.1 client_discriminators = None) program_discriminators =
    [("AGENT_TRANSFER", 23)].
Proof. split; [repeat constructor|vm_compute; reflexivity]. Qed.
