(* ===== verification/X402Payment.v ===== *)
(** * Paying: the transfer, the signature and the settlement ([sdk/kit/src/x402])

    Steps 13 to 17 of [shieldedFetch] and its composition with the decision
    modelled in [X402Flow]: the TransferChecked instruction
    ([transfer-builder.ts]), the one transaction the wallet signs, the requests
    that carry it, the settlement header, the on-chain poll of
    [confirmSettlementOnChain] and the events of [audit-trail.ts].

    A run returns the new state, the list of what it did to the outside (the
    requests, the transaction signed, the polls, the events) and the result.
    Address derivation, compiling and signing, base58 and [JSON.parse] are
    arguments; the callback [onPayment] is one that returns.

    The theorems: whatever the server answers, at most one transaction is
    signed, it is the checked transfer and nothing else, and every request
    after the first carries it; the settlement poll ends; and two ways for a
    server to be paid without the payment being counted. *)

From Stdlib Require Import QArith.
From S2P Require Import Prelude JsText Base64 SdkTypes IntentDigest Inspector Shield X402 X402Flow Rpc Tokens.
Import Shield.

Local Open Scope Z_scope.

(** ** The transfer *)

Definition TRANSFER_CHECKED_DISCRIMINATOR : Z := 12.

(** [data[i] = Number(amount & 0xff); amount >>= 8], eight times. *)
Fixpoint amount_bytes (n : nat) (amount : Z) : list Z :=
  match n with
  | O => []
  | S n => Z.land amount 255 :: amount_bytes n (Z.shiftr amount 8)
  end.

(** The ten bytes; a byte array keeps a number modulo 256. *)
Definition transfer_data (amount decimals : Z) : list Z :=
  TRANSFER_CHECKED_DISCRIMINATOR :: amount_bytes 8 amount ++ [wrap 8 decimals].

Section build.
Context (deriveAta : string → string → result js_exn string).

(** [from], [payTo], [asset], [amount] and [decimals]. *)
Definition buildX402TransferInstruction (from payTo asset : string) (amount decimals : Z) : result js_exn Ix :=
  sourceAta ← deriveAta from asset;
  destAta ← deriveAta payTo asset;
  Ok {| ix_programAddress := TOKEN_PROGRAM_ADDRESS;
     ix_accounts := Some [
       {| acc_address := sourceAta; acc_role := RoleNumber 1 |};
       {| acc_address := asset; acc_role := RoleNumber 0 |};
       {| acc_address := destAta; acc_role := RoleNumber 1 |};
       {| acc_address := from; acc_role := RoleNumber 2 |}];
     ix_data := Some (transfer_data amount decimals) |}.
End build.

Definition transferToInspectable (ix : Ix) : InspectableInstruction := {|
  ii_programAddress := Some (ix_programAddress ix);
  ii_accounts := map (λ a, Some (acc_address a)) <$> ix_accounts ix;
  ii_data := ix_data ix |}.

(** ** Events and effects *)

Inductive denial : Type :=
| DeniedByPolicy (violations : list x402_violation)
| SignatureMismatch (expected got : string)
| ServerReturned (status : Z).

Record X402PaymentEvent : Type := {
  pe_timestamp : Z;
  pe_url : string;
  pe_payTo : string;
  pe_asset : string;
  pe_amount : string;
  pe_paid : bool;
  pe_deniedReason : option denial;
  pe_settlement : option SettleResponse;
  pe_nonce : option string;
  pe_durationMs : Z;
}.

(** [now1] and [now2] are the two readings of the clock. *)
Definition createPaymentEvent (now1 now2 startTime : Z) (url : string) (sel : PaymentRequirements)
    (paid : bool) (deniedReason : option denial) (settlement : option SettleResponse)
    (nonce : option string) : X402PaymentEvent := {|
  pe_timestamp := now1; pe_url := url; pe_payTo := pr_payTo sel; pe_asset := pr_asset sel;
  pe_amount := pr_amount sel; pe_paid := paid; pe_deniedReason := deniedReason;
  pe_settlement := settlement; pe_nonce := nonce; pe_durationMs := now2 - startTime |}.

(** The message that is signed. *)
Record TxMessage : Type := { tm_feePayer : string; tm_blockhash : string; tm_instructions : list Ix }.

(** [{ x402Version: 2, resource, accepted, payload: { transaction } }] *)
Record PaymentPayload : Type := { pp_accepted : PaymentRequirements; pp_transaction : list ascii }.

Inductive effect : Type :=
| Request (payment : option PaymentPayload)
| Signed (tx : TxMessage) (wire : list ascii)
| Polled (signature : string)
| Emitted (event : X402PaymentEvent).

Definition emitPaymentEvent (onPayment : bool) (event : X402PaymentEvent) : list effect :=
  if onPayment then [Emitted event] else [].

(** ** The settlement poll *)

(** The delay after poll [i], in milliseconds. *)
Fixpoint settle_delay (i : nat) : Q :=
  match i with
  | O => 500%Q
  | S i => let d := (settle_delay i * (3 # 2))%Q in if Qle_bool d 3000 then d else 3000%Q
  end.

(** [clock i] is the reading before poll [i], [status i] its answer. *)
Fixpoint confirm_loop (clock : nat → Z) (status : nat → result js_exn (option SignatureStatusValue))
    (deadline : Z) (fuel i : nat) : option (result js_exn confirmation) :=
  match fuel with
  | O => None
  | S fuel =>
      if clock i <? deadline then
        match status i with
        | Throw e => Some (Throw e)
        | Ok (Some s) =>
            if ss_err s then Some (Ok failed) else
            if bool_decide (ss_confirmationStatus s = "confirmed") ||
               bool_decide (ss_confirmationStatus s = "finalized")
            then Some (Ok confirmed) else confirm_loop clock status deadline fuel (S i)
        | Ok None => confirm_loop clock status deadline fuel (S i)
        end
      else Some (Ok timeout)
  end.

(** A poll takes half a second at least. *)
Definition settle_polls (timeoutMs : Z) : nat := S (S (Z.to_nat (timeoutMs / 500))).

Definition confirmSettlementOnChain (start timeoutMs : Z) (clock : nat → Z)
    (status : nat → result js_exn (option SignatureStatusValue)) : result js_exn confirmation :=
  default (Ok timeout) (confirm_loop clock status (start + timeoutMs) (settle_polls timeoutMs) 0).

(** ** The flow *)

(** What the outside answers during one run. *)
Record World : Type := {
  wo_startTime : Z;
  wo_nows : Z * Z;
  wo_clock : nat → Z;
  wo_first : first_response;
  wo_blockhash : result js_exn string;
  wo_statuses : nat → Z;
  wo_paymentResponse : nat → option string;
  wo_recordNow : Z;
  wo_pollStart : Z;
  wo_pollClock : nat → Z;
  wo_signatureStatus : string → nat → result js_exn (option SignatureStatusValue);
  wo_readings : readings * readings;
  wo_eventNow : nat → Z * Z;
}.

(** [response.x402] with the status of the response. *)
Record X402Response : Type := {
  xr_status : Z;
  xr_paid : bool;
  xr_amountPaid : string;
  xr_asset : string;
  xr_payTo : string;
  xr_settlement : option SettleResponse;
}.

Inductive outcome : Type :=
| PassedThrough
| DryRunResponse (selected : PaymentRequirements)
| Responded (response : X402Response).

Section flow.
Context {E : Type} `{NonceStorage E}.
Context (parseUrl : string → option string) (decode : string → option json).
Context (deriveAta : string → string → result js_exn string) (base58 : list Z → string).
(** Compiling, signing and encoding a message. *)
Context (signAndEncode : TxMessage → result js_exn (list ascii)).

(** A decoded PAYMENT-RESPONSE is used as the type it is cast to. *)
Definition opt_str (v : json) (field : string) : option string :=
  match js_get v field with Ok (Some (JStr s)) => Some s | _ => None end.

Definition settlement_of (v : json) : option SettleResponse :=
  match v with
  | JNull => None
  | _ => Some {| sr_success := match js_get v "success" with Ok (Some (JBool b)) => b | _ => false end;
                 sr_transaction := opt_str v "transaction";
                 sr_network := opt_str v "network";
                 sr_errorReason := opt_str v "errorReason" |}
  end.

Definition decodePaymentResponseHeader (header : string) : result x402_exn (option SettleResponse) :=
  match decode header with
  | None => Throw (X402ParseError "failed to decode PAYMENT-RESPONSE header")
  | Some v => Ok (settlement_of v)
  end.

(** Step 16: a header that cannot be decoded is ignored, and the warnings of
    [validateSettlement] are only logged. *)
Definition read_settlement (header : option string) : option SettleResponse :=
  match truthy_str header with
  | None => None
  | Some h => match decodePaymentResponseHeader h with Ok s => s | Throw _ => None end
  end.

(** The first signature of the wire format: 64 bytes after the count. *)
Definition expectedTxSig (wire : list ascii) : option string :=
  match atob wire with
  | None => None
  | Some bytes => if bool_decide (64 < length bytes)%nat then Some (base58 (take 64 (drop 1 bytes))) else None
  end.

Definition payment_message (signer blockhash : string) (transferIx : Ix) : TxMessage :=
  {| tm_feePayer := signer; tm_blockhash := blockhash; tm_instructions := [transferIx] |}.

(** The decimals put into the instruction. *)
Definition payment_decimals (asset : string) : Z :=
  default 6 (rt_decimals <$> resolveToken asset "mainnet-beta").

(** Steps 13 and 14, up to the signature: what is signed, and its text. *)
Definition sign_payment (w : World) (signer : string) (sel : PaymentRequirements) (amount : Z)
    : result js_exn (TxMessage * list ascii) :=
  transferIx ← buildX402TransferInstruction deriveAta signer (pr_payTo sel) (pr_asset sel) amount
                 (payment_decimals (pr_asset sel));
  blockhash ← wo_blockhash w;
  let tx := payment_message signer blockhash transferIx in
  wire ← signAndEncode tx;
  Ok (tx, wire).

Definition mismatch_event (w : World) (url : string) (sel : PaymentRequirements)
    (expected : option string) (settlement : option SettleResponse) : option X402PaymentEvent :=
  match truthy_str expected, truthy_str (s ← settlement; sr_transaction s) with
  | Some e, Some t =>
      if bool_decide (t = e) then None
      else Some (createPaymentEvent (wo_eventNow w 0%nat).1 (wo_eventNow w 0%nat).2 (wo_startTime w) url sel true
                   (Some (SignatureMismatch e t)) None None)
  | _, _ => None
  end.

Definition response (sel : PaymentRequirements) (status : Z) (paid : bool)
    (settlement : option SettleResponse) : X402Response := {|
  xr_status := status; xr_paid := paid; xr_amountPaid := pr_amount sel; xr_asset := pr_asset sel;
  xr_payTo := pr_payTo sel; xr_settlement := settlement |}.

(** The signature polled for: the one the server names. *)
Definition poll_target (config : option X402Config) (settlement : option SettleResponse) : option string :=
  if default true (c ← config; xc_confirmPayment c) then truthy_str (s ← settlement; sr_transaction s)
  else None.

Definition poll_answer (w : World) (timeoutMs : Z) (target : option string) : result js_exn confirmation :=
  match target with
  | Some t => confirmSettlementOnChain (wo_pollStart w) timeoutMs (wo_pollClock w) (wo_signatureStatus w t)
  | None => Ok timeout
  end.

(** Steps 16 and 17, after [send_payment] ended with [status]. *)
Definition finish (w : World) (url : string) (config : option X402Config) (timeoutMs : Z) (onPayment : bool)
    (sel : PaymentRequirements) (amount status : Z) (expected : option string)
    (settlement : option SettleResponse) (s : flow_state (E := E))
    : flow_state (E := E) * list effect * result x402_exn outcome :=
  let event paid reason st nonce :=
    createPaymentEvent (wo_eventNow w 1%nat).1 (wo_eventNow w 1%nat).2 (wo_startTime w) url sel paid reason st nonce in
  let warned := match mismatch_event w url sel expected settlement with
                | Some e => emitPaymentEvent onPayment e
                | None => []
                end in
  let tx := s ← settlement; sr_transaction s in
  let settle_with confirm :=
    settle parseUrl (wo_recordNow w) (wo_readings w).1 (wo_readings w).2 url config sel amount status tx
      confirm s in
  if negb (is_2xx status) then
    ((settle_with timeout).1,
     warned ++ emitPaymentEvent onPayment (event false (Some (ServerReturned status)) None None),
     Ok (Responded (response sel status false settlement)))
  else
    let target := poll_target config settlement in
    let polled := match target with Some t => [Polled t] | None => [] end in
    match poll_answer w timeoutMs target with
    | Throw e => ((settle_with failed).1, warned ++ polled, Throw (X402Js e))
    | Ok c =>
        ((settle_with c).1,
         warned ++ polled ++ emitPaymentEvent onPayment
           (event true None settlement
              (Some (buildKey parseUrl url (pr_payTo sel) (pr_amount sel)))),
         Ok (Responded (response sel status true settlement)))
    end.

(** Steps 13 to 17. *)
Definition pay (w : World) (signer url : string) (config : option X402Config) (timeoutMs : Z)
    (onPayment : bool) (sel : PaymentRequirements) (amount : Z) (s : flow_state (E := E))
    : flow_state (E := E) * list effect * result x402_exn outcome :=
  match sign_payment w signer sel amount with
  | Throw e => (s, [], Throw (X402Js e))
  | Ok (tx, wire) =>
      let payload := {| pp_accepted := sel; pp_transaction := wire |} in
      let '(requests, status) := send_payment config (wo_statuses w) in
      let settlement := read_settlement (wo_paymentResponse w (requests - 1)%nat) in
      let '(s, effects, r) :=
        finish w url config timeoutMs onPayment sel amount status (expectedTxSig wire) settlement s in
      (s, Signed tx wire :: replicate requests (Request (Some payload)) ++ effects, r)
  end.

(** The event of a payment the policy denies, with the option that was
    selected. *)
Definition denial_event (w : World) (signer url : string) (config : option X402Config)
    (s : flow_state (E := E)) : option X402PaymentEvent :=
  header ← truthy_str (fr_paymentRequired (wo_first w));
  match decodePaymentRequiredHeader decode header ≫= λ accepts, selectPaymentOption accepts config with
  | Throw _ => None
  | Ok sel =>
      ctx ← fs_shield s;
      match evaluateX402Payment (wo_nows w).2 (wo_clock w) sel ctx config (Some signer) with
      | Throw _ => None
      | Ok vs => Some (createPaymentEvent (wo_eventNow w 0%nat).1 (wo_eventNow w 0%nat).2 (wo_startTime w) url sel false
                         (Some (DeniedByPolicy vs)) None None)
      end
  end.

Definition is_denied (e : x402_exn) : bool :=
  match e with X402PaymentError reason => bool_decide (reason = "denied by policy") | _ => false end.

Definition shieldedFetch (w : World) (signer url : string) (config : option X402Config) (timeoutMs : Z)
    (onPayment : bool) (opts : fetch_options) (s : flow_state (E := E))
    : flow_state (E := E) * list effect * result x402_exn outcome :=
  let first := if is_ok (check_url url config) then [Request None] else [] in
  let '(s1, d) := preflight parseUrl decode (wo_nows w) (wo_clock w) signer url config opts (wo_first w) s in
  match d with
  | Throw e =>
      (s1, first ++ (if is_denied e
                     then match denial_event w signer url config s with
                          | Some ev => emitPaymentEvent onPayment ev | None => [] end
                     else []), Throw e)
  | Ok Passthrough => (s1, first, Ok PassedThrough)
  | Ok (DryRun sel) => (s1, first, Ok (DryRunResponse sel))
  | Ok (Pay sel amount) =>
      let '(s2, effects, r) := pay w signer url config timeoutMs onPayment sel amount s1 in
      (s2, first ++ effects, r)
  end.
End flow.

(** ** What the transfer says *)

Lemma amount_bytes_le n amount : amount_bytes n amount = le_bytes n amount.
Proof.
  revert amount. induction n as [|n IH]; intros amount; [done|]. cbn [amount_bytes].
  change (le_bytes (S n) amount) with (amount mod 256 :: le_bytes n (amount / 256)).
  change 255 with (Z.ones 8). rewrite Z.land_ones, Z.shiftr_div_pow2, IH by lia. done.
Qed.

(** The one transfer of a payment. *)
Definition payment_transfer (signer asset src dst : string) (amount : Z) : TokenTransferInfo := {|
  ti_mint := Some (Some asset); ti_amount := amount; ti_source := Some src;
  ti_destination := Some dst; ti_authority := Some signer |}.

Lemma built_transfer deriveAta from payTo asset amount decimals ix :
  buildX402TransferInstruction deriveAta from payTo asset amount decimals = Ok ix →
  ∃ src dst, deriveAta from asset = Ok src ∧ deriveAta payTo asset = Ok dst ∧
    transferToInspectable ix =
      transfer_checked_ix TOKEN_PROGRAM_ADDRESS amount (wrap 8 decimals) src asset dst from [].
Proof.
  unfold buildX402TransferInstruction. intros H. inv_ok. exists x, x0. split_and!; [done|done|].
  unfold transferToInspectable, transfer_checked_ix. cbn [ix_programAddress ix_accounts ix_data].
  unfold transfer_data. by rewrite amount_bytes_le.
Qed.

Lemma transfer_analysis ix asset src dst from amount decimals :
  transferToInspectable ix = transfer_checked_ix TOKEN_PROGRAM_ADDRESS amount decimals src asset dst from [] →
  fits 64 amount →
  let a := analyzeInstructions [transferToInspectable ix] from in
  ia_tokenTransfers a = [payment_transfer from asset src dst amount] ∧ ia_estimatedValue a = amount.
Proof.
  intros -> Hf. cbv zeta.
  destruct (transfer_of_encoded TOKEN_PROGRAM_ADDRESS amount decimals src asset dst from []
    ltac:(by left) Hf) as [_ Ht].
  destruct (analysis_with_transfer [] _ [] from _ Ht) as [H1 H2]. rewrite app_nil_l in H1, H2.
  rewrite H1, H2. split; [done|].
  unfold outgoing_amount. cbn [ti_authority ti_amount]. rewrite bool_decide_true by done.
  change (ia_estimatedValue (analyzeInstructions [] from)) with 0. lia.
Qed.

(** The transfer built for a payment reads back as what was asked: the
    inspector finds in it one transfer of the asset, of exactly the amount,
    from the signer's token account to the recipient's, and counts the amount
    as leaving the signer. *)
Theorem built_transfer_reads_back deriveAta from payTo asset amount decimals ix :
  fits 64 amount →
  buildX402TransferInstruction deriveAta from payTo asset amount decimals = Ok ix →
  ∃ src dst, deriveAta from asset = Ok src ∧ deriveAta payTo asset = Ok dst ∧
    let a := analyzeInstructions [transferToInspectable ix] from in
    ia_tokenTransfers a = [payment_transfer from asset src dst amount] ∧ ia_estimatedValue a = amount.
Proof.
  intros Hf H. destruct (built_transfer _ _ _ _ _ _ _ H) as (src & dst & Hs & Hd & Hi).
  exists src, dst. split; [done|]. split; [done|]. by eapply transfer_analysis.
Qed.

(** ** What is signed and sent *)

Definition is_signed (e : effect) : bool := match e with Signed _ _ => true | _ => false end.
Definition quiet (e : effect) : Prop := match e with Emitted _ | Polled _ => True | _ => False end.

(** Neither a signature nor a request with one. *)
Definition silent (e : effect) : Prop := quiet e ∨ e = Request None.

Lemma quiet_silent fx : Forall quiet fx → Forall silent fx.
Proof. intros Hq. eapply Forall_impl; [exact Hq|]. by left. Qed.

Lemma silent_filter fx : Forall silent fx → filter (λ e, is_signed e) fx = [].
Proof.
  intros Hf. apply filter_none. eapply Forall_impl; [exact Hf|]. intros e [Hq| ->] Hs; [by destruct e|done].
Qed.

Lemma silent_none fx : Forall silent fx →
  (∀ tx wire, Signed tx wire ∉ fx) ∧ (∀ p, Request (Some p) ∉ fx).
Proof. rewrite Forall_forall. intros Hf. by split; intros ? *; intros [Hq|Hq]%Hf. Qed.

(** A run that signs once and then sends that one transaction. *)
Lemma one_signature before tx wire m p after :
  Forall silent before → Forall silent after →
  let fx := before ++ Signed tx wire :: replicate m (Request (Some p)) ++ after in
  length (filter (λ e, is_signed e) fx) = 1%nat ∧
  (∀ tx' wire', Signed tx' wire' ∈ fx → tx' = tx ∧ wire' = wire) ∧
  (∀ p', Request (Some p') ∈ fx → p' = p).
Proof.
  intros Hb Ha. cbv zeta. destruct (silent_none _ Hb) as [Hb1 Hb2], (silent_none _ Ha) as [Ha1 Ha2].
  split_and!.
  - rewrite filter_app, filter_cons_True, filter_app, (silent_filter before), (silent_filter after),
      (filter_none _ (replicate m _)) by (done || apply Forall_replicate; by intros ?). done.
  - intros tx' wire' [H1|[[= <- <-]|[H1|H1]%elem_of_app]%elem_of_cons]%elem_of_app; [by apply Hb1 in H1|done| |by apply Ha1 in H1].
    by apply elem_of_replicate in H1 as [? _].
  - intros p' [H1|[H1|[H1|H1]%elem_of_app]%elem_of_cons]%elem_of_app; [by apply Hb2 in H1|done| |by apply Ha2 in H1].
    apply elem_of_replicate in H1 as [[= <-] _]. done.
Qed.

Lemma emit_quiet b e : Forall quiet (emitPaymentEvent b e).
Proof. destruct b; repeat constructor. Qed.

Section runs.
Context {E : Type} `{NonceStorage E}.
Context (parseUrl : string → option string) (decode : string → option json).
Context (deriveAta : string → string → result js_exn string) (base58 : list Z → string).
Context (signAndEncode : TxMessage → result js_exn (list ascii)).

Lemma finish_quiet w url config t b sel n status expected settlement (s : flow_state (E := E)) :
  Forall quiet (finish parseUrl w url config t b sel n status expected settlement s).1.2.
Proof.
  unfold finish.
  assert (Forall quiet (match mismatch_event w url sel expected settlement with
                        | Some e => emitPaymentEvent b e | None => [] end)) as Hw
    by (case_match; [apply emit_quiet|constructor]).
  destruct (negb _); cbn [fst snd]; [apply Forall_app; split; [done|apply emit_quiet]|].
  set (target := poll_target config settlement).
  assert (Forall quiet (match target with Some u => [Polled u] | None => [] end)) as Hp
    by (destruct target; repeat constructor).
  destruct (poll_answer w t target); cbn [fst snd];
    repeat (apply Forall_app; split); auto using emit_quiet.
Qed.

(** The shape of a payment's effects. *)
Lemma pay_shape w signer url config t b sel n (s : flow_state (E := E)) s' fx r :
  pay parseUrl decode deriveAta base58 signAndEncode w signer url config t b sel n s = (s', fx, r) →
  fx = [] ∨ ∃ tx wire m rest,
    sign_payment deriveAta signAndEncode w signer sel n = Ok (tx, wire) ∧
    fx = Signed tx wire :: replicate m (Request (Some {| pp_accepted := sel; pp_transaction := wire |})) ++ rest ∧
    Forall quiet rest.
Proof.
  unfold pay. destruct (sign_payment deriveAta signAndEncode w signer sel n) as [[tx wire]|e] eqn:Hs.
  2: { intros [= <- <- <-]. by left. }
  destruct (send_payment config (wo_statuses w)) as [m status]. cbn [fst snd].
  pose proof (finish_quiet w url config t b sel n status (expectedTxSig base58 wire)
    (read_settlement decode (wo_paymentResponse w (m - 1)%nat)) s) as Hq.
  destruct (finish _ _ _ _ _ _ _ _ _ _ _ _) as [[s2 effects] r2]. intros [= <- <- <-].
  right. by exists tx, wire, m, effects.
Qed.

Lemma sign_payment_inv w signer sel n tx wire :
  sign_payment deriveAta signAndEncode w signer sel n = Ok (tx, wire) →
  ∃ ix bh, buildX402TransferInstruction deriveAta signer (pr_payTo sel) (pr_asset sel) n
             (payment_decimals (pr_asset sel)) = Ok ix ∧
    tx = {| tm_feePayer := signer; tm_blockhash := bh; tm_instructions := [ix] |} ∧
    signAndEncode tx = Ok wire.
Proof.
  unfold sign_payment. intros (ix & Hb & H0)%bind_Ok_inv. apply bind_Ok_inv in H0 as (bh & _ & H0).
  apply bind_Ok_inv in H0 as (wire' & Hw & [= <- <-]). by exists ix, bh.
Qed.

(** What may be signed: the checked transfer, alone in its transaction. *)
Definition signs_checked_transfer (w : World) (signer url : string) (config : option X402Config)
    (opts : fetch_options) (s : flow_state (E := E)) (tx : TxMessage) (wire : list ascii) : Prop :=
  ∃ sel n ix bh src dst,
    payment_checked parseUrl decode (wo_nows w) (wo_clock w) signer url config opts (wo_first w) s sel n ∧
    tx = {| tm_feePayer := signer; tm_blockhash := bh; tm_instructions := [ix] |} ∧
    signAndEncode tx = Ok wire ∧
    deriveAta signer (pr_asset sel) = Ok src ∧ deriveAta (pr_payTo sel) (pr_asset sel) = Ok dst ∧
    ia_tokenTransfers (analyzeInstructions (map transferToInspectable (tm_instructions tx)) signer) =
      [payment_transfer signer (pr_asset sel) src dst n] ∧
    ia_estimatedValue (analyzeInstructions (map transferToInspectable (tm_instructions tx)) signer) = n.

Lemma signed_is_checked w signer url config opts s s1 sel n tx wire :
  preflight parseUrl decode (wo_nows w) (wo_clock w) signer url config opts (wo_first w) s =
    (s1, Ok (Pay sel n)) →
  sign_payment deriveAta signAndEncode w signer sel n = Ok (tx, wire) →
  signs_checked_transfer w signer url config opts s tx wire.
Proof.
  intros Hp Hs. apply preflight_Pay in Hp. apply sign_payment_inv in Hs as (ix & bh & Hb & Ht & Hw).
  destruct (built_transfer _ _ _ _ _ _ _ Hb) as (src & dst & Hsrc & Hdst & Hi).
  exists sel, n, ix, bh, src, dst.
  pose proof (pc_amount _ _ _ _ _ _ _ _ _ _ _ _ Hp) as [_ Hn].
  destruct (transfer_analysis ix (pr_asset sel) src dst signer n _ Hi) as [H1 H2].
  { split; [lia|]. change (2 ^ 64) with (U64_MAX + 1). lia. }
  split_and!; try done; by rewrite Ht.
Qed.
(** Either nothing was signed, or one payment was, and only it was sent. *)
Lemma fetch_shape w signer url config t b opts (s s' : flow_state (E := E)) fx r :
  shieldedFetch parseUrl decode deriveAta base58 signAndEncode w signer url config t b opts s = (s', fx, r) →
  Forall silent fx ∨
  ∃ s1 sel n tx wire before m rest,
    preflight parseUrl decode (wo_nows w) (wo_clock w) signer url config opts (wo_first w) s =
      (s1, Ok (Pay sel n)) ∧
    sign_payment deriveAta signAndEncode w signer sel n = Ok (tx, wire) ∧
    fx = before ++ Signed tx wire ::
         replicate m (Request (Some {| pp_accepted := sel; pp_transaction := wire |})) ++ rest ∧
    Forall silent before ∧ Forall silent rest.
Proof.
  unfold shieldedFetch. set (first := if is_ok _ then _ else _).
  assert (Forall silent first) as Hfirst
    by (unfold first; destruct (is_ok _); repeat constructor; by right).
  destruct (preflight _ _ _ _ _ _ _ _ _ _) as [s1 [[|sel|sel n]|e]] eqn:Hp; intros Hrun.
  - left. injection Hrun as _ <- _. done.
  - left. injection Hrun as _ <- _. done.
  - destruct (pay _ _ _ _ _ _ _ _ _ _ _ _ _ _) as [[s2 effects] r2] eqn:Hpay. injection Hrun as _ <- _.
    destruct (pay_shape _ _ _ _ _ _ _ _ _ _ _ _ Hpay) as [->|(tx & wire & m & rest & Hs & -> & Hq)].
    + left. by rewrite app_nil_r.
    + right. exists s1, sel, n, tx, wire, first, m, rest. split_and!; auto using quiet_silent.
  - left. injection Hrun as _ <- _. apply Forall_app. split; [done|].
    destruct (is_denied e); [|constructor]. destruct (denial_event _ _ _ _ _); [|constructor].
    apply quiet_silent, emit_quiet.
Qed.
End runs.

(** C21: Whatever a server answers, one [shieldedFetch] signs at most one
    transaction.  It holds a single instruction, the transfer of an amount
    that passed every check from the signer's account of the offered asset to
    the account of the offered recipient, and nothing else; and a request that
    carries a payment carries that transaction, so retrying never pays twice. *)
Theorem x402_signs_one_checked_transfer {E} `{NonceStorage E} parseUrl decode deriveAta base58 signAndEncode
    w signer url config timeoutMs onPayment opts (s s' : flow_state (E := E)) fx r :
  shieldedFetch parseUrl decode deriveAta base58 signAndEncode w signer url config timeoutMs onPayment opts s =
    (s', fx, r) →
  (length (filter (λ e, is_signed e) fx) ≤ 1)%nat ∧
  (∀ tx wire, Signed tx wire ∈ fx →
     signs_checked_transfer parseUrl decode deriveAta signAndEncode w signer url config opts s tx wire) ∧
  (∀ p, Request (Some p) ∈ fx → ∃ tx, Signed tx (pp_transaction p) ∈ fx).
Proof.
  intros Hrun.
  destruct (fetch_shape _ _ _ _ _ _ _ _ _ _ _ _ _ _ _ _ Hrun)
    as [Hq|(s1 & sel & n & tx & wire & before & m & rest & Hp & Hs & -> & Hb & Ha)].
  - destruct (silent_none _ Hq) as [H1 H2]. rewrite (silent_filter _ Hq).
    split_and!; [simpl; lia| |]; intros; exfalso; [by eapply H1|by eapply H2].
  - destruct (one_signature before tx wire m {| pp_accepted := sel; pp_transaction := wire |} rest Hb Ha)
      as (H1 & H2 & H3).
    split_and!; [lia| |].
    + intros tx' wire' [-> ->]%H2. by eapply signed_is_checked.
    + intros p ->%H3. exists tx. set_solver.
Qed.

(** ** The settlement poll ends *)

Lemma settle_delay_floor i : (500 <= settle_delay i)%Q.
Proof.
  induction i as [|i IH]; cbn [settle_delay]; [apply Qle_refl|].
  destruct (Qle_bool _ _); [|by vm_compute].
  apply (Qle_trans _ (500 * (3 # 2))); [by vm_compute|]. apply Qmult_le_compat_r; [done|by vm_compute].
Qed.

Section poll_ends.
Context (clock : nat → Z) (status : nat → result js_exn (option SignatureStatusValue)).
(** The timer does not fire early. *)
Context (Hsleep : ∀ i, (inject_Z (clock i) + settle_delay i <= inject_Z (clock (S i)))%Q).

Lemma poll_clock_grows i : clock 0 + 500 * Z.of_nat i ≤ clock i.
Proof using Hsleep.
  induction i as [|i IH]; [lia|].
  assert (clock i + 500 ≤ clock (S i)); [|lia].
  rewrite Zle_Qle, inject_Z_plus. eapply Qle_trans; [|apply Hsleep].
  apply Qplus_le_compat; [apply Qle_refl|apply settle_delay_floor].
Qed.

(** What a poll that ended has seen. *)
Definition settle_explained (deadline : Z) (r : result js_exn confirmation) : Prop :=
  match r with
  | Ok confirmed => ∃ i s, status i = Ok (Some s) ∧ ss_err s = false ∧
      (ss_confirmationStatus s = "confirmed" ∨ ss_confirmationStatus s = "finalized")
  | Ok failed => ∃ i s, status i = Ok (Some s) ∧ ss_err s = true
  | Ok timeout => ∃ i, deadline ≤ clock i
  | Throw e => ∃ i, status i = Throw e
  end.

Lemma confirm_loop_decides deadline n fuel i :
  deadline ≤ clock n → (i ≤ n < i + fuel)%nat →
  ∃ r, confirm_loop clock status deadline fuel i = Some r ∧ settle_explained deadline r.
Proof.
  intros Hn. revert i. induction fuel as [|fuel IH]; intros i Hi; [lia|]. cbn [confirm_loop].
  destruct (Z.ltb_spec (clock i) deadline) as [Hlt|Hge]; [|eexists; split; [done|]; by exists i].
  assert (i ≠ n) by (intros ->; lia).
  destruct (status i) as [[s|]|e] eqn:Hs; [|by apply IH; lia|eexists; split; [done|]; by exists i].
  destruct (ss_err s) eqn:He; [eexists; split; [done|]; by exists i, s|].
  destruct (bool_decide (ss_confirmationStatus s = "confirmed") || _) eqn:Hc; [|by apply IH; lia].
  eexists; split; [done|]. exists i, s. split_and!; [done|done|].
  apply orb_true_iff in Hc as [Hc|Hc]; apply bool_decide_eq_true in Hc; auto.
Qed.
End poll_ends.

(** The poll for a settlement always ends: when its timer sleeps as long
    as it was told to, the polls that fit into the timeout are enough, and the
    verdict is what the node reported, or the deadline. *)
Theorem settlement_poll_ends clock status start timeoutMs :
  (∀ i, (inject_Z (clock i) + settle_delay i <= inject_Z (clock (S i)))%Q) → start ≤ clock 0%nat →
  ∃ r, confirm_loop clock status (start + timeoutMs) (settle_polls timeoutMs) 0 = Some r ∧
       confirmSettlementOnChain start timeoutMs clock status = r ∧
       settle_explained clock status (start + timeoutMs) r.
Proof.
  intros Hsleep Hstart.
  destruct (confirm_loop_decides clock status (start + timeoutMs) (S (Z.to_nat (timeoutMs / 500)))
    (settle_polls timeoutMs) 0) as (r & Hr & He).
  - pose proof (poll_clock_grows clock Hsleep (S (Z.to_nat (timeoutMs / 500)))).
    pose proof (Z.div_mod timeoutMs 500 ltac:(lia)). pose proof (Z.mod_pos_bound timeoutMs 500 ltac:(lia)). lia.
  - unfold settle_polls. lia.
  - exists r. split_and!; [done| |done]. unfold confirmSettlementOnChain. by rewrite Hr.
Qed.

Lemma settlement_poll_ends_witness :
  ∃ r, confirmSettlementOnChain 0 10000 (λ i, 3000 * Z.of_nat i) (λ _, Ok None) = r ∧ r = Ok timeout.
Proof.
  destruct (settlement_poll_ends (λ i, 3000 * Z.of_nat i) (λ _, Ok None) 0 10000) as (r & _ & Hr & _).
  - intros i. replace (3000 * Z.of_nat (S i)) with (3000 * Z.of_nat i + 3000) by lia.
    rewrite (inject_Z_plus _ 3000). apply Qplus_le_compat; [apply Qle_refl|].
    destruct i as [|i]; [by vm_compute|]. cbn [settle_delay]. destruct (Qle_bool _ _) eqn:Hq; [by apply Qle_bool_iff|apply Qle_refl].
  - simpl. lia.
  - exists r. split; [done|]. by rewrite <- Hr.
Defined.

(** ** What is recorded *)

Section recorded.
Context {E : Type} `{NonceStorage E}.
Context (parseUrl : string → option string).

Lemma finish_unpaid w url config t b sel n status expected settlement (s : flow_state (E := E)) :
  is_2xx status = false →
  (finish parseUrl w url config t b sel n status expected settlement s).1.1 = s.
Proof. intros Hs. unfold finish, settle. by rewrite Hs. Qed.

Lemma finish_failed w url config t b sel n status expected settlement (s : flow_state (E := E)) target :
  is_2xx status = true → poll_target config settlement = Some target →
  (poll_answer w t (Some target) = Ok failed ∨ ∃ e, poll_answer w t (Some target) = Throw e) →
  fs_shield (finish parseUrl w url config t b sel n status expected settlement s).1.1 = fs_shield s.
Proof.
  intros Hs Ht Ha. unfold finish. rewrite Hs, Ht. cbn [negb].
  unfold poll_target in Ht. destruct (default true _) eqn:Hc; [|done].
  assert (fs_shield (settle parseUrl (wo_recordNow w) (wo_readings w).1 (wo_readings w).2 url config sel n
    status (s0 ← settlement; sr_transaction s0) failed s).1 = fs_shield s) as Hf.
  { unfold settle, note_spend, note_amount. rewrite Hs. cbn [negb fst fs_shield].
    rewrite (proj2 (note_nonce_keeps _ _ _ _ _ _)), Hc, Ht. by destruct (fs_shield s). }
  destruct Ha as [-> | [e ->]]; done.
Qed.
End recorded.

(** Whether a payment counts is the server's word.  The signed transaction
    is out of the wallet's hands, yet nothing at all is recorded when the last
    answer is not a success, and the shield's total does not move when the
    settlement names any signature, be it not the one that was signed, whose
    status on chain is a failure, or for which the node's answer is an error:
    the cumulative cap does not bind a server that answers so. *)
Theorem payment_counts_on_the_servers_word {E} `{NonceStorage E} parseUrl decode deriveAta base58 signAndEncode
    w signer url config timeoutMs onPayment sel amount (s s' : flow_state (E := E)) fx r tx wire target :
  sign_payment deriveAta signAndEncode w signer sel amount = Ok (tx, wire) →
  pay parseUrl decode deriveAta base58 signAndEncode w signer url config timeoutMs onPayment sel amount s =
    (s', fx, r) →
  let '(requests, status) := send_payment config (wo_statuses w) in
  let settlement := read_settlement decode (wo_paymentResponse w (requests - 1)%nat) in
  Signed tx wire ∈ fx ∧
  (is_2xx status = false → s' = s) ∧
  (is_2xx status = true → poll_target config settlement = Some target →
   (poll_answer w timeoutMs (Some target) = Ok failed ∨ ∃ e, poll_answer w timeoutMs (Some target) = Throw e) →
   fs_shield s' = fs_shield s).
Proof.
  intros Hs. unfold pay. rewrite Hs. destruct (send_payment config (wo_statuses w)) as [requests status].
  cbv zeta. destruct (finish _ _ _ _ _ _ _ _ _ _ _ _) as [[s2 effects] r2] eqn:Hf. intros [= <- <- <-].
  split_and!; [by left| |].
  - intros H2. pose proof (finish_unpaid parseUrl w url config timeoutMs onPayment sel amount status
      (expectedTxSig base58 wire) (read_settlement decode (wo_paymentResponse w (requests - 1)%nat)) s H2) as Hu.
    by rewrite Hf in Hu.
  - intros H2 Ht Ha. pose proof (finish_failed parseUrl w url config timeoutMs onPayment sel amount status
      (expectedTxSig base58 wire) (read_settlement decode (wo_paymentResponse w (requests - 1)%nat)) s target H2 Ht Ha) as Hu.
    by rewrite Hf in Hu.
Qed.

(** With a callback configured every finished payment is reported: the run
    ends with an event that agrees with the response on the recipient, the
    asset, the amount and whether it was paid, and paid means that the server
    answered with success. *)
Theorem every_payment_is_reported {E} `{NonceStorage E} parseUrl decode deriveAta base58 signAndEncode
    w signer url config timeoutMs sel amount (s s' : flow_state (E := E)) fx resp :
  pay parseUrl decode deriveAta base58 signAndEncode w signer url config timeoutMs true sel amount s =
    (s', fx, Ok (Responded resp)) →
  ∃ e, last fx = Some (Emitted e) ∧ pe_paid e = xr_paid resp ∧ xr_paid resp = is_2xx (xr_status resp) ∧
    pe_payTo e = xr_payTo resp ∧ pe_asset e = xr_asset resp ∧ pe_amount e = xr_amountPaid resp ∧
    pe_url e = url.
Proof.
  unfold pay. destruct (sign_payment _ _ _ _ _ _) as [[tx wire]|]; [|done].
  destruct (send_payment config (wo_statuses w)) as [requests status].
  unfold finish. destruct (is_2xx status) eqn:H2; cbn [negb].
  - destruct (poll_answer _ _ _) as [c|]; [|done]. intros [= <- <- <-]. eexists.
    rewrite app_comm_cons, !(assoc_L (++)), last_snoc. by split_and!.
  - intros [= <- <- <-]. eexists. rewrite app_comm_cons, !(assoc_L (++)), last_snoc. by split_and!.
Qed.

(** Every token known to the SDK is paid with six decimals, because the
    table is looked up by symbol and the payment names a mint; the tokens that
    have not six are refused on chain by the checked transfer. *)
Theorem x402_assumes_six_decimals :
  Forall (λ p : string * TokenEntry, payment_decimals (te_mainnet p.2) = 6) WELL_KNOWN_TOKENS ∧
  map fst (filter (λ p : string * TokenEntry, te_decimals p.2 ≠ 6) WELL_KNOWN_TOKENS) =
    ["SOL"; "WSOL"; "BONK"; "JITO"].
Proof. split; [repeat constructor|by vm_compute]. Qed.

(** ** A concrete payment *)

Definition demo_ata (owner mint : string) : result js_exn string := Ok (owner +:+ "/" +:+ mint).
Definition demo_base58 (bytes : list Z) : string := "ours".
Definition demo_wire : list ascii := b64_encode (1 :: replicate 64 7 ++ [0]).
Definition demo_sign (tx : TxMessage) : result js_exn (list ascii) := Ok demo_wire.

(** The server accepts the payment and names a transaction of its own that
    failed on chain. *)
Definition forged_header (header : string) : option json :=
  if bool_decide (header = "h") then Some demo_json
  else Some (JObj [("success", JBool true); ("transaction", JStr "forged")]).

Definition demo_world : World := {|
  wo_startTime := 10; wo_nows := (10, 11); wo_clock := λ _, 11; wo_first := demo_resp;
  wo_blockhash := Ok "bh"; wo_statuses := λ _, 200; wo_paymentResponse := λ _, Some "r";
  wo_recordNow := 12; wo_pollStart := 12; wo_pollClock := λ i, 12 + 3000 * Z.of_nat i;
  wo_signatureStatus := λ _ _, Ok (Some {| ss_err := true; ss_confirmationStatus := "finalized" |});
  wo_readings := (demo_rd 12 0%nat, demo_rd 12 0%nat); wo_eventNow := λ _, (13, 13) |}.

Definition demo_tx : TxMessage := {|
  tm_feePayer := "me"; tm_blockhash := "bh";
  tm_instructions := [{|
    ix_programAddress := TOKEN_PROGRAM_ADDRESS;
    ix_accounts := Some [
      {| acc_address := "me/USDC"; acc_role := RoleNumber 1 |};
      {| acc_address := "USDC"; acc_role := RoleNumber 0 |};
      {| acc_address := "dest/USDC"; acc_role := RoleNumber 1 |};
      {| acc_address := "me"; acc_role := RoleNumber 2 |}];
    ix_data := Some [12; 232; 3; 0; 0; 0; 0; 0; 0; 6] |}] |}.

Definition demo_run : flow_state (E := Empty_set) * list effect * result x402_exn outcome :=
  shieldedFetch (λ _, None) forged_header demo_ata demo_base58 demo_sign demo_world "me" "https://api"
    (Some demo_config) 10000 true demo_opts demo_flow.

Lemma built_transfer_reads_back_witness :
  ∃ ix, buildX402TransferInstruction demo_ata "me" "dest" "USDC" 1000 6 = Ok ix ∧
    ia_estimatedValue (analyzeInstructions [transferToInspectable ix] "me") = 1000.
Proof.
  eexists. split; [reflexivity|].
  destruct (built_transfer_reads_back demo_ata "me" "dest" "USDC" 1000 6 _ ltac:(by vm_compute) eq_refl)
    as (src & dst & _ & _ & _ & Hv). exact Hv.
Defined.

Lemma x402_signs_one_checked_transfer_witness :
  Signed demo_tx demo_wire ∈ demo_run.1.2 ∧
  signs_checked_transfer (λ _, None) forged_header demo_ata demo_sign demo_world "me" "https://api"
    (Some demo_config) demo_opts demo_flow demo_tx demo_wire.
Proof.
  assert (Signed demo_tx demo_wire ∈ demo_run.1.2) as Hin by (vm_compute; right; left).
  split; [exact Hin|].
  destruct demo_run as [[s' fx] r] eqn:Hrun.
  destruct (x402_signs_one_checked_transfer (λ _, None) forged_header demo_ata demo_base58 demo_sign demo_world
    "me" "https://api" (Some demo_config) 10000 true demo_opts demo_flow s' fx r Hrun) as (_ & H & _).
  apply H. exact Hin.
Defined.

(** The flow above, after its decision. *)
Definition demo_pay : flow_state (E := Empty_set) * list effect * result x402_exn outcome :=
  pay (λ _, None) forged_header demo_ata demo_base58 demo_sign demo_world "me" "https://api"
    (Some demo_config) 10000 true demo_sel 1000 demo_flow.

Lemma payment_counts_on_the_servers_word_witness :
  Signed demo_tx demo_wire ∈ demo_pay.1.2 ∧ fs_shield demo_pay.1.1 = fs_shield demo_flow.
Proof.
  destruct demo_pay as [[s' fx] r] eqn:Hrun. cbn [fst snd].
  destruct (payment_counts_on_the_servers_word (λ _, None) forged_header demo_ata demo_base58 demo_sign
    demo_world "me" "https://api" (Some demo_config) 10000 true demo_sel 1000 demo_flow s' fx r demo_tx
    demo_wire "forged" eq_refl Hrun) as (Hin & _ & H).
  split; [exact Hin|]. apply H; [reflexivity|reflexivity|]. left. reflexivity.
Defined.

Lemma every_payment_is_reported_witness :
  ∃ e, last demo_pay.1.2 = Some (Emitted e) ∧ pe_paid e = true ∧ pe_amount e = "1000".
Proof.
  destruct demo_pay as [[s' fx] r] eqn:Hrun. pose proof (f_equal snd Hrun) as Hr. vm_compute in Hr. subst r.
  destruct (every_payment_is_reported (λ _, None) forged_header demo_ata demo_base58 demo_sign demo_world
    "me" "https://api" (Some demo_config) 10000 demo_sel 1000 demo_flow s' fx _ Hrun)
    as (e & Hl & Hp & _ & _ & _ & Ha & _).
  exists e. split; [exact Hl|]. split; [exact Hp|exact Ha].
Defined.
