(* ===== verification/PriorityFees.v ===== *)
(** * Priority fees ([sdk/kit/src/priority-fees.ts])

    The estimator of the price per compute unit: Helius, then the node's recent
    fees, then a constant, with a cache per level.  The endpoints are arguments
    that answer or throw; the model records which of them is asked.  Numbers of
    the configuration are non-negative.

    The theorems: no sequence of calls ever returns more than the configured
    maximum; a cached answer is returned without asking anybody; the fee taken
    from the node's sample is the nearest-rank percentile of the positive fees,
    the rounding of the floating-point index notwithstanding; and the strategy
    "static" asks the node all the same. *)

From S2P Require Import Prelude JsText JsMap JsValue Formatting.

Local Open Scope Z_scope.

Inductive PriorityLevel : Type := low | medium | high | very_high.

#[export] Instance PriorityLevel_eq_dec : EqDecision PriorityLevel.
Proof. solve_decision. Defined.

Inductive Strategy : Type := auto_ | helius | rpc_ | static.

#[export] Instance Strategy_eq_dec : EqDecision Strategy.
Proof. solve_decision. Defined.

Record PriorityFeeConfig : Type := {
  pf_strategy : option Strategy;
  pf_cacheTtlMs : option Z;
  pf_fallbackMicroLamports : option double;
  pf_defaultLevel : option PriorityLevel;
  pf_maxMicroLamports : option double;
}.

Definition LEVEL_PERCENTILES (l : PriorityLevel) : Z :=
  match l with low => 25 | medium => 50 | high => 75 | very_high => 95 end.

Definition HELIUS_LEVELS (l : PriorityLevel) : string :=
  match l with low => "Low" | medium => "Medium" | high => "High" | very_high => "VeryHigh" end.

Record CacheEntry : Type := { ce_microLamports : double; ce_expiresAt : Z }.

Record PriorityFeeEstimator : Type := {
  es_strategy : Strategy;
  es_cacheTtlMs : Z;
  es_fallback : double;
  es_defaultLevel : PriorityLevel;
  es_max : double;
  es_cache : list (PriorityLevel * CacheEntry);
  es_hasRpc : bool;
  es_isHelius : bool;
}.

(** [/helius/i.test(endpoint)]: the test on upper-cased text. *)
Definition names_helius (endpoint : string) : bool := includes (toUpperCase endpoint) "HELIUS".

Definition new_PriorityFeeEstimator (rpcEndpoint : string) (hasRpc : bool) (config : option PriorityFeeConfig)
    : PriorityFeeEstimator :=
  let strategy := default auto_ (c ← config; pf_strategy c) in
  {| es_strategy := strategy;
     es_cacheTtlMs := default 10000 (c ← config; pf_cacheTtlMs c);
     es_fallback := default (Number_of 10000) (c ← config; pf_fallbackMicroLamports c);
     es_defaultLevel := default high (c ← config; pf_defaultLevel c);
     es_max := default (Number_of 1000000) (c ← config; pf_maxMicroLamports c);
     es_cache := [];
     es_hasRpc := hasRpc;
     es_isHelius := if bool_decide (strategy = auto_) then names_helius rpcEndpoint
                    else bool_decide (strategy = helius) |}.

(** ** The layers *)

(** The smallest whole number that is not less. *)
Definition ceil_frac (num den : Z) : Z := - ((- num) / den).

Definition Math_ceil (x : double) : double :=
  match x with
  | Infinity => Infinity
  | Finite m e => Number_of (ceil_frac (double_num m e) (double_den e))
  end.

Definition Math_min (x y : double) : double := if double_ge y x then x else y.

(** [json?.result?.priorityFeeEstimate]: a number with its sign, or something
    else. *)
Inductive estimate_field : Type :=
| FieldNumber (negative : bool) (x : double)
| FieldOther.

Record HeliusReply : Type := { hr_ok : bool; hr_estimate : estimate_field }.

(** [Throw] when the request or its body cannot be had. *)
Definition estimateHelius (reply : result js_exn HeliusReply) : option double :=
  match reply with
  | Throw _ => None
  | Ok r =>
      if negb (hr_ok r) then None else
      match hr_estimate r with
      | FieldNumber negative x => if negative && negb (double_ge zero x) then None else Some (Math_ceil x)
      | FieldOther => None
      end
  end.

Definition le_double (x y : double) : bool := double_ge y x.

(** [Math.min(Math.ceil((percentile / 100) * length) - 1, length - 1)] *)
Definition fee_index (level : PriorityLevel) (length : nat) : Z :=
  let x := double_mul (double_div (Number_of (LEVEL_PERCENTILES level)) (Number_of 100))
             (Number_of (Z.of_nat length)) in
  match x with
  | Infinity => Z.of_nat length - 1
  | Finite m e => Z.min (ceil_frac (double_num m e) (double_den e) - 1) (Z.of_nat length - 1)
  end.

(** The positive fees of the sample. *)
Definition positive_fees (fees : list Z) : list double :=
  filter (λ x, double_gt x 0 = true) (map Number_of fees).

(** [None] in the reply is a missing list. *)
Definition estimateRpc (fallback : double) (level : PriorityLevel) (reply : result js_exn (option (list Z)))
    : option double :=
  match reply with
  | Throw _ => None
  | Ok None => None
  | Ok (Some fees) =>
      if bool_decide (length fees = 0%nat) then None else
      let sorted := js_sort le_double (positive_fees fees) in
      if bool_decide (length sorted = 0%nat) then Some fallback else
      sorted !! Z.to_nat (fee_index level (length sorted))
  end.

(** ** One call *)

(** What the outside answers during a call, and the two readings of the clock. *)
Record Replies : Type := {
  re_now : Z;
  re_helius : result js_exn HeliusReply;
  re_fees : result js_exn (option (list Z));
  re_later : Z;
}.

Inductive asked : Type := AskedHelius (priorityLevel : string) | AskedNode.

Definition estimate (level : option PriorityLevel) (w : Replies) (e : PriorityFeeEstimator)
    : PriorityFeeEstimator * list asked * double :=
  let targetLevel := default (es_defaultLevel e) level in
  let fresh c := re_now w <? ce_expiresAt c in
  match (c ← jm_get targetLevel (es_cache e); if fresh c then Some c else None) with
  | Some c => (e, [], ce_microLamports c)
  | None =>
      let '(calls1, fee1) := if es_isHelius e
        then ([AskedHelius (HELIUS_LEVELS targetLevel)], estimateHelius (re_helius w)) else ([], None) in
      let '(calls2, fee2) := match fee1 with
        | Some f => ([], Some f)
        | None => if es_hasRpc e then ([AskedNode], estimateRpc (es_fallback e) targetLevel (re_fees w))
                  else ([], None)
        end in
      let fee := Math_min (default (es_fallback e) fee2) (es_max e) in
      ({| es_strategy := es_strategy e; es_cacheTtlMs := es_cacheTtlMs e; es_fallback := es_fallback e;
          es_defaultLevel := es_defaultLevel e; es_max := es_max e;
          es_cache := jm_set targetLevel
            {| ce_microLamports := fee; ce_expiresAt := re_later w + es_cacheTtlMs e |} (es_cache e);
          es_hasRpc := es_hasRpc e; es_isHelius := es_isHelius e |}, calls1 ++ calls2, fee)
  end.

(** Calls one after the other. *)
Fixpoint estimates (calls : list (option PriorityLevel * Replies)) (e : PriorityFeeEstimator)
    : PriorityFeeEstimator * list double :=
  match calls with
  | [] => (e, [])
  | (level, w) :: calls =>
      let '(e1, _, fee) := estimate level w e in
      let '(e2, fees) := estimates calls e1 in (e2, fee :: fees)
  end.

(** ** The maximum *)

Lemma double_den_pos e : 0 < double_den e.
Proof. unfold double_den. destruct (Z.leb_spec 0 e); [lia|]. apply Z.pow_pos_nonneg; lia. Qed.

Lemma double_ge_refl x : double_ge x x = true.
Proof. destruct x; simpl; [|done]. apply Z.leb_refl. Qed.

Lemma double_ge_total x y : double_ge x y = false → double_ge y x = true.
Proof. destruct x as [m e|], y as [m' e'|]; simpl; try done. intros H%Z.leb_gt. apply Z.leb_le. lia. Qed.

Lemma double_ge_trans x y z : double_ge x y = true → double_ge y z = true → double_ge x z = true.
Proof.
  destruct x as [m e|], y as [m' e'|], z as [m'' e''|]; simpl; try done.
  intros H1%Z.leb_le H2%Z.leb_le. apply Z.leb_le.
  pose proof (double_den_pos e). pose proof (double_den_pos e'). pose proof (double_den_pos e'').
  apply (Z.mul_le_mono_pos_r _ _ (double_den e')); [done|]. nia.
Qed.

Lemma Math_min_le x y : double_ge y (Math_min x y) = true.
Proof. unfold Math_min. destruct (double_ge y x) eqn:H; [done|apply double_ge_refl]. Qed.

(** Every cached fee is within the maximum. *)
Definition capped (max : double) (e : PriorityFeeEstimator) : Prop :=
  es_max e = max ∧ Forall (λ p, double_ge max (ce_microLamports p.2) = true) (es_cache e).

Lemma estimate_capped max level w e e' calls fee :
  capped max e → estimate level w e = (e', calls, fee) → capped max e' ∧ double_ge max fee = true.
Proof.
  intros [Hm Hc]. unfold estimate.
  destruct (c ← jm_get _ _; _) as [c|] eqn:Hg.
  - intros [= <- <- <-]. split; [done|].
    destruct (jm_get _ _) as [c'|] eqn:Hj; simpl in Hg; [|done]. destruct (_ <? _); [|done]. injection Hg as ->.
    apply jm_get_elem in Hj. rewrite Forall_forall in Hc. by apply (Hc _ Hj).
  - destruct (if es_isHelius e then _ else _) as [c1 f1].
    destruct (match f1 with Some f => _ | None => _ end) as [c2 f2]. intros [= <- <- <-].
    rewrite Hm. split; [|apply Math_min_le]. split; [done|]. cbn [es_cache].
    apply jm_set_Forall; [|done]. apply Math_min_le.
Qed.

Lemma estimates_capped max calls e e' fees :
  capped max e → estimates calls e = (e', fees) → Forall (λ f, double_ge max f = true) fees.
Proof.
  revert e fees. induction calls as [|[level w] calls IH]; intros e fees Hc H; cbn [estimates] in H.
  { injection H as _ <-. constructor. }
  destruct (estimate level w e) as [[e1 cs] fee] eqn:He.
  destruct (estimates calls e1) as [e2 rest] eqn:Hr. injection H as <- <-.
  destruct (estimate_capped _ _ _ _ _ _ _ Hc He) as [Hc1 Hf]. constructor; [done|by eapply IH].
Qed.

(** C40: However often an estimator is asked, for whatever levels and whatever
    the services answer, it never returns more than the configured maximum,
    one million micro-lamports unless the caller says otherwise. *)
Theorem fee_never_exceeds_the_maximum endpoint hasRpc config calls :
  let max := default (Number_of 1000000) (c ← config; pf_maxMicroLamports c) in
  Forall (λ fee, double_ge max fee = true)
    (estimates calls (new_PriorityFeeEstimator endpoint hasRpc config)).2.
Proof.
  cbv zeta. destruct (estimates _ _) as [e' fees] eqn:H.
  eapply estimates_capped; [|exact H]. split; [done|constructor].
Qed.

(** An answer younger than its time to live is given again without asking
    anybody, and the estimator does not change. *)
Theorem fresh_fee_is_not_asked_again level w w' e :
  let '(e1, _, fee) := estimate level w e in
  (jm_get (default (es_defaultLevel e) level) (es_cache e) = None →
   re_now w' < re_later w + es_cacheTtlMs e →
   estimate level w' e1 = (e1, [], fee)).
Proof.
  unfold estimate at 1.
  destruct (c ← jm_get _ _; _) as [c|] eqn:Hg.
  { intros Hn. by rewrite Hn in Hg. }
  destruct (if es_isHelius e then _ else _) as [c1 f1].
  destruct (match f1 with Some f => _ | None => _ end) as [c2 f2].
  intros _ Ht. unfold estimate. cbn [es_defaultLevel es_cache]. rewrite jm_get_set_eq. cbn [mbind option_bind ce_expiresAt].
  destruct (Z.ltb_spec (re_now w') (re_later w + es_cacheTtlMs e)); [done|lia].
Qed.

(** ** The percentile *)

Lemma le_double_total x y : le_double x y = false → le_double y x = true.
Proof. apply double_ge_total. Qed.

Lemma le_double_trans x y z : le_double x y = true → le_double y z = true → le_double x z = true.
Proof. unfold le_double. intros H1 H2. by eapply double_ge_trans. Qed.

Lemma sorted_split a v b :
  js_sorted le_double (a ++ v :: b) →
  Forall (λ x, le_double x v = true) a ∧ Forall (λ x, le_double v x = true) b.
Proof.
  induction a as [|x a IH]; simpl; inversion 1 as [|? ? Hx Hl]; subst; [by split|].
  apply Forall_app in Hx as [Hxa Hxb]. apply Forall_cons in Hxb as [Hxv _].
  destruct (IH Hl) as [Ha Hb]. split; [by constructor|done].
Qed.

(** How many of the fees are at most [v], and how many are below it. *)
Definition at_most (v : double) (l : list double) : Z := Z.of_nat (length (filter (λ x, le_double x v = true) l)).
Definition below (v : double) (l : list double) : Z := Z.of_nat (length (filter (λ x, le_double v x = false) l)).

Lemma filter_all {A} (P : A → Prop) `{!∀ x, Decision (P x)} (l : list A) : Forall P l → filter P l = l.
Proof. induction 1; rewrite ?filter_cons_True by done; [done|by f_equal]. Qed.

Lemma rank_counts l k v :
  js_sort le_double l !! k = Some v → Z.of_nat k + 1 ≤ at_most v l ∧ below v l ≤ Z.of_nat k.
Proof.
  intros Hk. pose proof (js_sort_sorted le_double le_double_total le_double_trans l) as Hs.
  pose proof (js_sort_perm le_double l) as Hperm. unfold at_most, below.
  rewrite <- (Permutation_length (filter_Permutation _ _ _ Hperm)).
  rewrite <- (Permutation_length (filter_Permutation (λ x, le_double v x = false) _ _ Hperm)).
  pose proof (take_drop_middle _ _ _ Hk) as Hm. rewrite <- Hm in Hs |- *.
  destruct (sorted_split _ _ _ Hs) as [Ha Hb].
  assert (length (take k (js_sort le_double l)) = k) as Hl.
  { rewrite length_take. apply lookup_lt_Some in Hk. lia. }
  rewrite !filter_app, !length_app. split.
  - rewrite (filter_all _ (take k _)) by done. rewrite filter_cons_True by apply double_ge_refl. cbn [length]. lia.
  - rewrite (filter_none _ (v :: _)).
    + pose proof (length_filter (λ x, le_double v x = false) (take k (js_sort le_double l))). cbn [length]. lia.
    + constructor; [by rewrite (double_ge_refl v : le_double v v = true)|].
      eapply Forall_impl; [exact Hb|]. by intros x ->.
Qed.

(** The node reports at most 150 slots. *)
Definition MAX_SAMPLE : nat := 150.

Definition index_exact (level : PriorityLevel) (n : nat) : bool :=
  fee_index level n =? (LEVEL_PERCENTILES level * Z.of_nat n + 99) / 100 - 1.

Lemma index_exact_all :
  forallb (λ level, forallb (index_exact level) (seq 1 MAX_SAMPLE)) [low; medium; high; very_high] = true.
Proof. vm_compute. reflexivity. Qed.

Lemma fee_index_exact level n :
  (1 ≤ n ≤ MAX_SAMPLE)%nat → fee_index level n = (LEVEL_PERCENTILES level * Z.of_nat n + 99) / 100 - 1.
Proof.
  intros Hn. pose proof index_exact_all as H. rewrite forallb_forall in H.
  specialize (H level ltac:(destruct level; simpl; auto 6)). rewrite forallb_forall in H.
  apply Z.eqb_eq, H, in_seq. lia.
Qed.

(** From a sample the node can report, the fee chosen is the nearest-rank
    percentile of the positive fees in it: at least the level's share of them
    is not above it and less than that share is below it.  The index is
    computed in floating point with 0.95, which is no binary fraction, and is
    exact for every size the sample can have. *)
Theorem sampled_fee_is_the_percentile fallback level fees :
  let sample := positive_fees fees in
  (1 ≤ length sample ≤ MAX_SAMPLE)%nat →
  ∃ fee, estimateRpc fallback level (Ok (Some fees)) = Some fee ∧ fee ∈ sample ∧
    LEVEL_PERCENTILES level * Z.of_nat (length sample) ≤ 100 * at_most fee sample ∧
    100 * below fee sample < LEVEL_PERCENTILES level * Z.of_nat (length sample).
Proof.
  cbv zeta. intros Hn. unfold estimateRpc.
  pose proof (js_sort_perm le_double (positive_fees fees)) as Hp.
  pose proof (Permutation_length Hp) as Hl.
  rewrite bool_decide_false; cycle 1.
  { intros H0. apply nil_length_inv in H0 as ->. simpl in Hn. lia. }
  rewrite bool_decide_false by lia. rewrite Hl, fee_index_exact by done.
  set (p := LEVEL_PERCENTILES level). set (n := Z.of_nat (length (positive_fees fees))).
  assert (1 ≤ p ≤ 100) by (by destruct level).
  pose proof (Z.div_mod (p * n + 99) 100 ltac:(lia)). pose proof (Z.mod_pos_bound (p * n + 99) 100 ltac:(lia)).
  assert (1 ≤ p * n) by nia. assert (p * n ≤ 100 * n) by nia.
  destruct (lookup_lt_is_Some_2 (js_sort le_double (positive_fees fees)) (Z.to_nat ((p * n + 99) / 100 - 1)))
    as [fee Hfee]; [lia|].
  exists fee. destruct (rank_counts _ _ _ Hfee) as [Hat Hbelow]. split_and!; [done| |lia|lia].
  rewrite <- Hp. by eapply list_elem_of_lookup_2.
Qed.

Lemma sampled_fee_is_the_percentile_witness :
  (1 ≤ length (positive_fees [700; 0; 100; 300]%Z))%nat ∧
  estimateRpc zero medium (Ok (Some [700; 0; 100; 300])) = Some (Number_of 300) ∧
  100 * below (Number_of 300) (positive_fees [700; 0; 100; 300]) < 50 * 3.
Proof.
  split; [vm_compute; lia|].
  destruct (sampled_fee_is_the_percentile zero medium [700; 0; 100; 300]) as (fee & He & _ & _ & Hb).
  { vm_compute. lia. }
  assert (fee = Number_of 300) as -> by (vm_compute in He; injection He as <-; reflexivity).
  split; [exact He|exact Hb].
Defined.

Example fee_is_cached_for_ten_seconds :
  let e := new_PriorityFeeEstimator "https://rpc" true None in
  let w now := {| re_now := now; re_helius := Throw JsTypeError; re_fees := Ok (Some [500]); re_later := now |} in
  let '(e1, calls, fee) := estimate None (w 0) e in
  calls = [AskedNode] ∧ estimate None (w 9999) e1 = (e1, [], fee) ∧
  (estimate None (w 10000) e1).1.2 = [AskedNode].
Proof. vm_compute. done. Qed.

(** ** The strategy *)

(** Of the four strategies only two are told apart.  An estimator told to
    use the constant asks the node whenever it has one, exactly as one told to
    ask the node: the same questions and the same fee. *)
Theorem static_strategy_asks_the_node endpoint level w :
  let with_strategy s := Some {| pf_strategy := Some s; pf_cacheTtlMs := None; pf_fallbackMicroLamports := None;
                                 pf_defaultLevel := None; pf_maxMicroLamports := None |} in
  let ask s := estimate level w (new_PriorityFeeEstimator endpoint true (with_strategy s)) in
  (ask static).1.2 = [AskedNode] ∧ (ask static).1.2 = (ask rpc_).1.2 ∧ (ask static).2 = (ask rpc_).2.
Proof. done. Qed.
