(* ===== verification/Protocols.v ===== *)
(** * Protocol tiers and composer helpers ([protocol-resolver.ts], [integrations/compose-errors.ts])

    [resolveProtocol] explains to a caller whether a program may be used and
    what to do when it may not; [seal] decides with [isProtocolAllowed] alone.
    The theorems: where the two agree, and when the advice that comes with a
    refusal helps.  The second part is the checked conversion to [bigint] that
    generated composers read their amounts with. *)

From Stdlib Require String.
From S2P Require Import Prelude JsText Registry SdkTypes StateResolver Seal.

Local Open Scope Z_scope.

(** ** Tiers *)

Inductive ProtocolTier : Type := KNOWN | DEFAULT | NOT_ALLOWED.

#[export] Instance ProtocolTier_eq_dec : EqDecision ProtocolTier.
Proof. solve_decision. Defined.

Inductive escalation_type : Type :=
| not_in_allowlist | no_handler_no_constraints | no_handler_has_constraints | not_in_allowlist_and_no_handler.

(** [requiredActions]: the two things a caller can be told to do. *)
Inductive required_action : Type :=
| AddToAllowlist (programId : string)
| ConfigureConstraints (programId : string).

Record EscalationInfo : Type := { ei_type : escalation_type; ei_requiredActions : list required_action }.

Record ProtocolResolution : Type := {
  pn_tier : ProtocolTier;
  pn_programId : string;
  pn_displayName : string;
  pn_constraintsConfigured : option bool;
  pn_escalation : option EscalationInfo;
}.

Definition refused (programId displayName : string) (t : escalation_type) (actions : list required_action)
    : ProtocolResolution := {|
  pn_tier := NOT_ALLOWED; pn_programId := programId; pn_displayName := displayName;
  pn_constraintsConfigured := None;
  pn_escalation := Some {| ei_type := t; ei_requiredActions := actions |} |}.

(** No known protocol has an empty name, so the test on the name is the test
    on its presence ([known_names_are_not_empty]). *)
Definition resolveProtocol (programId : string) (policy : PolicyConfig) (constraintsConfigured : bool)
    : ProtocolResolution :=
  let allowed := isProtocolAllowed programId policy in
  match map_get KNOWN_PROTOCOLS programId with
  | Some knownName =>
      if negb allowed then refused programId knownName not_in_allowlist [AddToAllowlist programId]
      else {| pn_tier := KNOWN; pn_programId := programId; pn_displayName := knownName;
              pn_constraintsConfigured := None; pn_escalation := None |}
  | None =>
      if allowed && constraintsConfigured
      then {| pn_tier := DEFAULT; pn_programId := programId; pn_displayName := programId;
              pn_constraintsConfigured := Some true; pn_escalation := None |}
      else if allowed && negb constraintsConfigured
      then refused programId programId no_handler_no_constraints [ConfigureConstraints programId]
      else refused programId programId not_in_allowlist_and_no_handler
             [AddToAllowlist programId; ConfigureConstraints programId]
  end.

Lemma known_names_are_not_empty : Forall (λ p : string * string, p.2 ≠ "") KNOWN_PROTOCOLS.
Proof. repeat constructor; done. Qed.

(** Doing what an action says. *)
Definition with_protocols (policy : PolicyConfig) (protocols : list string) : PolicyConfig := {|
  pol_dailySpendingCapUsd := pol_dailySpendingCapUsd policy;
  pol_maxTransactionSizeUsd := pol_maxTransactionSizeUsd policy;
  pol_hasProtocolCaps := pol_hasProtocolCaps policy;
  pol_protocols := protocols;
  pol_protocolCaps := pol_protocolCaps policy;
  pol_protocolMode := pol_protocolMode policy;
  pol_protocolHashes := pol_protocolHashes policy;
  pol_developerFeeRate := pol_developerFeeRate policy;
  pol_stableBalanceFloor := pol_stableBalanceFloor policy;
  pol_policyVersion := pol_policyVersion policy;
  pol_destinationMode := pol_destinationMode policy;
  pol_allowedDestinations := pol_allowedDestinations policy;
  pol_timelockDuration := pol_timelockDuration policy;
  pol_maxSlippageBps := pol_maxSlippageBps policy;
  pol_sessionExpirySeconds := pol_sessionExpirySeconds policy;
  pol_cosignRequired := pol_cosignRequired policy;
  pol_cosignSessionPubkey := pol_cosignSessionPubkey policy;
  pol_perRecipientDailyCapUsd := pol_perRecipientDailyCapUsd policy;
  pol_operatorGrantDelaySeconds := pol_operatorGrantDelaySeconds policy;
  pol_destinationGraylist := pol_destinationGraylist policy |}.

Definition perform (st : PolicyConfig * bool) (a : required_action) : PolicyConfig * bool :=
  match a with
  | AddToAllowlist p => (with_protocols st.1 (pol_protocols st.1 ++ [p]), st.2)
  | ConfigureConstraints _ => (st.1, true)
  end.

Definition follow (r : ProtocolResolution) (policy : PolicyConfig) (constraints : bool) : PolicyConfig * bool :=
  foldl perform (policy, constraints) (default [] (ei_requiredActions <$> pn_escalation r)).

Lemma allowed_after_adding p policy :
  pol_protocolMode policy = 1 → isProtocolAllowed p (with_protocols policy (pol_protocols policy ++ [p])) = true.
Proof.
  intros Hm. unfold isProtocolAllowed. cbn [pol_protocolMode pol_protocols with_protocols]. rewrite Hm.
  cbn [Z.eqb]. apply bool_decide_eq_true. set_solver.
Qed.

(** The resolution and the gate of [seal] agree except in one case: a
    program that passes the gate is refused by the resolution exactly when it
    is unknown to the SDK and the vault has no constraints, which [seal] does
    not look at; and what the gate refuses the resolution refuses, with the
    reason and the actions. *)
Theorem resolution_refines_the_gate p policy constraints :
  let r := resolveProtocol p policy constraints in
  (isProtocolAllowed p policy = false → pn_tier r = NOT_ALLOWED) ∧
  (isProtocolAllowed p policy = true →
     (pn_tier r = NOT_ALLOWED ↔ map_get KNOWN_PROTOCOLS p = None ∧ constraints = false)) ∧
  (pn_tier r = NOT_ALLOWED ↔ is_Some (pn_escalation r)) ∧
  (pn_tier r = KNOWN ↔ isProtocolAllowed p policy = true ∧ is_Some (map_get KNOWN_PROTOCOLS p)).
Proof.
  cbv zeta. unfold resolveProtocol.
  destruct (isProtocolAllowed p policy), (map_get KNOWN_PROTOCOLS p) as [name|], constraints;
    cbn [negb andb refused pn_tier pn_escalation]; split_and!; try done;
    (split; [intros Hx|intros Hx]); try done; try naive_solver; try (by destruct Hx).
Qed.

(** In an allowlist the advice works: whoever adds the program or
    configures the constraints, as the refusal says, is no longer refused.
    With any other list the advice to add the program never helps: there a
    listed program is a forbidden one. *)
Theorem following_the_advice p policy constraints :
  let r := resolveProtocol p policy constraints in
  let '(policy', constraints') := follow r policy constraints in
  (pol_protocolMode policy = 1 → pn_tier (resolveProtocol p policy' constraints') ≠ NOT_ALLOWED) ∧
  (pol_protocolMode policy ≠ 0 → pol_protocolMode policy ≠ 1 → isProtocolAllowed p policy = false →
     pn_tier (resolveProtocol p policy' constraints') = NOT_ALLOWED).
Proof.
  cbv zeta. unfold follow.
  assert (pol_protocolMode policy ≠ 0 → pol_protocolMode policy ≠ 1 →
    isProtocolAllowed p (with_protocols policy (pol_protocols policy ++ [p])) = false) as Hdeny.
  { intros H0 H1. unfold isProtocolAllowed. cbn [pol_protocolMode pol_protocols with_protocols].
    apply Z.eqb_neq in H0, H1. rewrite H0, H1. rewrite bool_decide_true by set_solver. done. }
  pose proof (allowed_after_adding p policy) as Hadd.
  unfold resolveProtocol at 1.
  destruct (isProtocolAllowed p policy) eqn:Ha, (map_get KNOWN_PROTOCOLS p) as [name|] eqn:Hk, constraints;
    cbn [negb andb refused pn_escalation option_fmap fmap option_map default ei_requiredActions foldl perform fst snd id];
    unfold resolveProtocol; rewrite Hk, ?Ha; (split; [intros Hm; rewrite ?Hadd by done; done|]);
    intros H0 H1 H2; rewrite ?Hdeny by done; done.
Qed.

(** ** The checked conversion of composers *)

(** [None] and [null] are refused; other falsy values are values. *)
Definition requireField {A E} (errorFactory : string → E) (name : string) (value : option A) : result E A :=
  match value with None => Throw (errorFactory name) | Some v => Ok v end.

(** An argument of type [unknown]; a number is a whole number or not one. *)
Inductive unknown_arg : Type :=
| ArgBigint (z : Z)
| ArgInteger (z : Z)
| ArgNotInteger
| ArgString (s : string)
| ArgOther.

Definition MAX_SAFE_INTEGER : Z := 2 ^ 53 - 1.

(** [/^-?[0-9]+$/] *)
Definition decimal_text (cs : list ascii) : bool :=
  let digits := match cs with "-"%char :: ds => ds | _ => cs end in
  negb (bool_decide (length digits = 0%nat)) && forallb is_digit digits.

Definition safeBigInt {E} (errorFactory : string → unknown_arg → E) (name : string) (value : unknown_arg)
    : result E Z :=
  match value with
  | ArgBigint z => Ok z
  | ArgInteger z => if Z.abs z <=? MAX_SAFE_INTEGER then Ok z else Throw (errorFactory name value)
  | ArgString s =>
      if decimal_text (chars s)
      then match BigInt s with Some z => Ok z | None => Throw (errorFactory name value) end
      else Throw (errorFactory name value)
  | ArgNotInteger | ArgOther => Throw (errorFactory name value)
  end.

(** The number a decimal text writes. *)
Inductive writes_integer : list ascii → Z → Prop :=
| writes_plain ds : ds ≠ [] → Forall is_digit ds → writes_integer ds (digits_value ds)
| writes_minus ds : ds ≠ [] → Forall is_digit ds → writes_integer ("-"%char :: ds) (- digits_value ds).

Lemma digit_not_minus c : is_digit c → c ≠ "-"%char.
Proof. by intros H ->. Qed.

Lemma decimal_text_plain ds : ds ≠ [] → Forall is_digit ds → decimal_text ds = true.
Proof.
  intros Hne Hd. unfold decimal_text. destruct Hd as [|c ds Hc Hd]; [done|].
  assert (match c with "-"%char => ds | _ => c :: ds end = c :: ds) as Heq.
  { pose proof (digit_not_minus c Hc). destruct c as [[] [] [] [] [] [] [] []]; done. }
  rewrite Heq. apply andb_true_iff. split; [done|]. simpl. apply andb_true_iff. split; [by apply Is_true_true|].
  apply forallb_forall. intros x Hx. rewrite Forall_forall in Hd. apply Is_true_true, Hd. by apply list_elem_of_In.
Qed.

Lemma decimal_text_minus ds : ds ≠ [] → Forall is_digit ds → decimal_text ("-"%char :: ds) = true.
Proof.
  intros Hne Hd. unfold decimal_text. apply andb_true_iff. split.
  - rewrite bool_decide_false; [done|]. by intros H%nil_length_inv.
  - apply forallb_forall. intros x Hx. rewrite Forall_forall in Hd. apply Is_true_true, Hd. by apply list_elem_of_In.
Qed.

Lemma digits_of_forallb ds : negb (bool_decide (length ds = 0%nat)) && forallb is_digit ds = true →
  ds ≠ [] ∧ Forall is_digit ds.
Proof.
  intros [Hn Hf]%andb_true_iff. split; [by intros ->|].
  rewrite Forall_forall. intros x Hx. rewrite forallb_forall in Hf. apply Is_true_true, Hf. by apply list_elem_of_In.
Qed.

(** The text the test lets through is the text that writes a number, and
    [BigInt] reads that number. *)
Lemma decimal_text_spec cs n :
  decimal_text cs = true ∧ BigInt_chars cs = Some n ↔ writes_integer cs n.
Proof.
  assert (∀ ds, ds ≠ [] → Forall is_digit ds → BigInt_chars ("-"%char :: ds) = Some (- digits_value ds)) as Hneg.
  { intros ds Hne Hd. unfold BigInt_chars. rewrite trim_digits.
    - cbv iota. by rewrite radix_digits.
    - constructor; [reflexivity|]. eapply Forall_impl; [exact Hd|apply digit_not_space]. }
  split.
  - intros [Ht Hb]. destruct cs as [|c cs]; [done|]. destruct (decide (c = "-"%char)) as [->|Hc].
    + apply digits_of_forallb in Ht as [Hne Hd]. rewrite Hneg in Hb by done. injection Hb as <-. by constructor.
    + assert (match c with "-"%char => cs | _ => c :: cs end = c :: cs) as Heq
        by (destruct c as [[] [] [] [] [] [] [] []]; done).
      unfold decimal_text in Ht. rewrite Heq in Ht. apply digits_of_forallb in Ht as [Hne Hd].
      rewrite BigInt_digits in Hb by done. injection Hb as <-. by constructor.
  - intros [ds Hne Hd|ds Hne Hd].
    + split; [by apply decimal_text_plain|by apply BigInt_digits].
    + split; [by apply decimal_text_minus|by apply Hneg].
Qed.

(** What an argument means as an integer, if it means one. *)
Definition means (v : unknown_arg) (n : Z) : Prop :=
  match v with
  | ArgBigint z => z = n
  | ArgInteger z => z = n ∧ - MAX_SAFE_INTEGER ≤ z ≤ MAX_SAFE_INTEGER
  | ArgString s => writes_integer (chars s) n
  | ArgNotInteger | ArgOther => False
  end.

(** The conversion never guesses: it returns a number exactly when the
    argument is a bigint, a whole number that doubles represent exactly, or
    decimal text, and then that number; everything else is the caller's error.
    Every integer printed as text reads back. *)
Theorem safe_bigint_is_exact {E} (errorFactory : string → unknown_arg → E) name :
  (∀ v n, safeBigInt errorFactory name v = Ok n ↔ means v n) ∧
  (∀ v, (∀ n, ¬ means v n) → safeBigInt errorFactory name v = Throw (errorFactory name v)) ∧
  (∀ z, safeBigInt errorFactory name (ArgString (bigint_toString z)) = Ok z).
Proof.
  assert (∀ v n, safeBigInt errorFactory name v = Ok n ↔ means v n) as Hiff.
  { intros [z|z| |s|] n; simpl; try (split; [intros [=]|done]; done).
    - split; [by intros [= ->]|by intros ->].
    - destruct (Z.leb_spec (Z.abs z) MAX_SAFE_INTEGER).
      + split; [intros [= ->]; split; [done|lia]|by intros [-> _]].
      + split; [done|lia].
    - rewrite <- decimal_text_spec. unfold BigInt. destruct (decimal_text (chars s)); [|naive_solver].
      destruct (BigInt_chars (chars s)); naive_solver. }
  split_and!; [done| |].
  - intros v Hn. destruct (safeBigInt errorFactory name v) as [n|e] eqn:Hv; [by apply Hiff, Hn in Hv|].
    destruct v; simpl in Hv; repeat case_match; congruence.
  - intros z. apply Hiff. simpl. apply decimal_text_spec. pose proof (BigInt_of_toString z) as Hb.
    unfold BigInt in Hb. split; [|done]. unfold bigint_toString. rewrite chars_text.
    destruct (decide (0 ≤ z)) as [Hz|Hz].
    + destruct (bigint_digits z Hz) as (_ & Hd & Hne). by apply decimal_text_plain.
    + destruct (bigint_digits (- z)) as (_ & Hd & Hne); [lia|]. rewrite bigint_chars_neg by lia.
      by apply decimal_text_minus.
Qed.
