(* ===== verification/SpendLedger.v ===== *)
(** * The program's spend ledger, and the client's copy of it

    The accounting the on-chain program does for every dollar that leaves a
    vault: the ring of 144 ten-minute buckets ([state/tracker.rs]), the hourly
    ring per agent ([state/agent_spend_overlay.rs]), and the blocks of
    [finalize_session] and [agent_transfer] that check the caps and record the
    spend.  Integers keep their widths: i64 operations saturate, u64 additions
    are checked, sums are u128.

    The client computes budgets from the same accounts ([StateResolver]).  The
    theorems: client and program agree on the rolling spend, so an amount
    passes the program's daily check exactly when it is within the budget the
    client shows; over any history the program accepts, a day that starts on a
    ten-minute mark never exceeds the cap and no day exceeds twice the cap; and
    twice the cap is reached, because the first spend in a ten-minute bucket
    discards the bucket 24 hours before it, of which up to ten minutes still
    count. *)

From S2P Require Import Prelude SdkTypes StateResolver.

Local Open Scope Z_scope.

(** ** Machine arithmetic *)

Definition I64_MAX : Z := 2 ^ 63 - 1.
Definition sat_i64 (z : Z) : Z := Z.max (- 2 ^ 63) (Z.min I64_MAX z).
Definition sat_u128 (z : Z) : Z := Z.min (2 ^ 128 - 1) z.
Definition checked_add (a b : Z) : result string Z := if U64_MAX <? a + b then Throw "Overflow" else Ok (a + b).

(** ** The vault's ring *)

Definition MAX_BUCKETS : nat := 144.

Definition zero_bucket : EpochBucket := {| eb_epochId := 0; eb_usdAmount := 0 |}.

Definition record_spend (now usd_amount : Z) (t : SpendTracker) : result string SpendTracker :=
  _ ← throw_if (now <=? 0) "InvalidSession";
  let current_epoch := Z.quot now EPOCH_DURATION in
  let idx := Z.to_nat (Z.rem current_epoch NUM_EPOCHS) in
  let bucket := default zero_bucket (st_buckets t !! idx) in
  let bucket := if eb_epochId bucket =? current_epoch then bucket
                else {| eb_epochId := current_epoch; eb_usdAmount := 0 |} in
  amount ← checked_add (eb_usdAmount bucket) usd_amount;
  Ok {| st_buckets := <[idx := {| eb_epochId := eb_epochId bucket; eb_usdAmount := amount |}]> (st_buckets t);
        st_protocolCounters := st_protocolCounters t;
        st_lastWriteEpoch := current_epoch |}.

Definition rolling_bucket (current_epoch window_start_ts total : Z) (bucket : EpochBucket) : Z :=
  if eb_usdAmount bucket =? 0 then total else
  let bucket_start := sat_i64 (eb_epochId bucket * EPOCH_DURATION) in
  let bucket_end := sat_i64 (bucket_start + EPOCH_DURATION) in
  if (bucket_end <=? window_start_ts) || (current_epoch <? eb_epochId bucket) then total else
  if window_start_ts <=? bucket_start then sat_u128 (total + eb_usdAmount bucket)
  else
    let overlap := bucket_end - window_start_ts in
    let scaled := Z.quot (sat_u128 (eb_usdAmount bucket * overlap)) EPOCH_DURATION in
    sat_u128 (total + scaled).

Definition get_rolling_24h_usd (t : SpendTracker) (now : Z) : Z :=
  if now <=? 0 then 0 else
  let current_epoch := Z.quot now EPOCH_DURATION in
  if NUM_EPOCHS <? sat_i64 (current_epoch - st_lastWriteEpoch t) then 0 else
  let window_start_ts := sat_i64 (now - ROLLING_WINDOW_SECONDS) in
  let total := foldl (rolling_bucket current_epoch window_start_ts) 0 (st_buckets t) in
  if U64_MAX <? total then U64_MAX else total.

(** ** Protocol counters *)

Definition get_protocol_spend (t : SpendTracker) (protocol : list Z) (now : Z) : Z :=
  if now <=? 0 then 0 else
  let current_epoch := Z.quot now EPOCH_DURATION in
  match list_find (λ c, pc_protocol c = protocol) (st_protocolCounters t) with
  | Some (_, c) => if sat_i64 (current_epoch - pc_windowStart c) <? NUM_EPOCHS then pc_windowSpend c else 0
  | None => 0
  end.

Definition with_counter (t : SpendTracker) (i : nat) (c : ProtocolCounter) : SpendTracker := {|
  st_buckets := st_buckets t; st_protocolCounters := <[i := c]> (st_protocolCounters t);
  st_lastWriteEpoch := st_lastWriteEpoch t |}.

Definition record_protocol_spend (now : Z) (protocol : list Z) (usd_amount : Z) (t : SpendTracker)
    : result string SpendTracker :=
  _ ← throw_if (now <=? 0) "InvalidSession";
  let current_epoch := Z.quot now EPOCH_DURATION in
  let fresh := {| pc_protocol := protocol; pc_windowStart := current_epoch; pc_windowSpend := usd_amount |} in
  match list_find (λ c, pc_protocol c = protocol) (st_protocolCounters t) with
  | Some (i, c) =>
      if NUM_EPOCHS <=? sat_i64 (current_epoch - pc_windowStart c) then Ok (with_counter t i fresh)
      else spend ← checked_add (pc_windowSpend c) usd_amount;
           Ok (with_counter t i {| pc_protocol := protocol; pc_windowStart := pc_windowStart c;
                                   pc_windowSpend := spend |})
  | None =>
      match list_find (λ c, pc_protocol c = replicate 32 0) (st_protocolCounters t) with
      | Some (i, _) => Ok (with_counter t i fresh)
      | None => Throw "ProtocolCapExceeded"
      end
  end.

(** ** The agents' rings *)

(** The buckets that became stale since the last write are cleared. *)
Definition zero_gap_buckets (current_epoch : Z) (e : AgentContributionEntry) : list Z :=
  let gap := sat_i64 (current_epoch - ac_lastWriteEpoch e) in
  if gap <=? 0 then ac_contributions e else
  if Z.of_nat OVERLAY_NUM_EPOCHS <=? gap then replicate OVERLAY_NUM_EPOCHS 0 else
  foldl (λ cs offset,
    let epoch := sat_i64 (ac_lastWriteEpoch e + offset) in
    <[Z.to_nat (Z.rem epoch (Z.of_nat OVERLAY_NUM_EPOCHS)) := 0]> cs)
    (ac_contributions e) (seqZ 1 gap).

Definition record_contribution (now usd_amount : Z) (e : AgentContributionEntry)
    : result string AgentContributionEntry :=
  _ ← throw_if (now <=? 0) "InvalidSession";
  let current_epoch := Z.quot now OVERLAY_EPOCH_DURATION in
  let cs := zero_gap_buckets current_epoch e in
  let idx := Z.to_nat (Z.rem current_epoch (Z.of_nat OVERLAY_NUM_EPOCHS)) in
  total ← checked_add (default 0 (cs !! idx)) usd_amount;
  Ok {| ac_agent := ac_agent e; ac_lastWriteEpoch := current_epoch; ac_contributions := <[idx := total]> cs |}.

(** The backward loop of [get_agent_rolling_24h_usd]. *)
Fixpoint agent_rolling_loop (n : nat) (k : Z) (e : AgentContributionEntry)
    (current_epoch window_start_ts total : Z) : Z :=
  match n with
  | O => total
  | S n =>
      let epoch_for_k := sat_i64 (ac_lastWriteEpoch e - k) in
      if epoch_for_k <? 0 then total else
      let bucket_start := sat_i64 (epoch_for_k * OVERLAY_EPOCH_DURATION) in
      let bucket_end := sat_i64 (bucket_start + OVERLAY_EPOCH_DURATION) in
      if bucket_end <=? window_start_ts then total else
      if current_epoch <? epoch_for_k then agent_rolling_loop n (k + 1) e current_epoch window_start_ts total else
      let idx := Z.to_nat (Z.rem epoch_for_k (Z.of_nat OVERLAY_NUM_EPOCHS)) in
      let contribution := default 0 (ac_contributions e !! idx) in
      if contribution =? 0 then agent_rolling_loop n (k + 1) e current_epoch window_start_ts total else
      let total :=
        if window_start_ts <=? bucket_start then sat_u128 (total + contribution)
        else let overlap := sat_i64 (bucket_end - window_start_ts) in
             sat_u128 (total + Z.quot (sat_u128 (contribution * overlap)) OVERLAY_EPOCH_DURATION) in
      agent_rolling_loop n (k + 1) e current_epoch window_start_ts total
  end.

Definition get_agent_rolling_24h_usd (e : AgentContributionEntry) (now : Z) : Z :=
  if now <=? 0 then 0 else
  let current_epoch := Z.quot now OVERLAY_EPOCH_DURATION in
  if Z.of_nat OVERLAY_NUM_EPOCHS <? sat_i64 (current_epoch - ac_lastWriteEpoch e) then 0 else
  let total := agent_rolling_loop OVERLAY_NUM_EPOCHS 0 e current_epoch
                 (sat_i64 (now - ROLLING_WINDOW_SECONDS)) 0 in
  if U64_MAX <? total then U64_MAX else total.

(** ** Charging a spend *)

(** The accounts a spend changes. *)
Record Ledger : Type := { ld_tracker : SpendTracker; ld_overlay : AgentSpendOverlay }.

Section charge.
(** The 32 bytes of a key. *)
Context (to_bytes : string → list Z).

Definition find_agent_slot (o : AgentSpendOverlay) (agent : string) : option (nat * AgentContributionEntry) :=
  list_find (λ e, ac_agent e = to_bytes agent) (ov_entries o).

Definition daily_check (policy : PolicyConfig) (now amount : Z) (t : SpendTracker) : result string unit :=
  new_total ← checked_add (get_rolling_24h_usd t now) amount;
  throw_if (pol_dailySpendingCapUsd policy <? new_total) "SpendingCapExceeded".

(** The agent's check, and the entry of the agent with the spend recorded. *)
Definition agent_check (limit now amount : Z) (e : AgentContributionEntry) : result string AgentContributionEntry :=
  _ ← (if 0 <? limit
       then new_agent ← checked_add (get_agent_rolling_24h_usd e now) amount;
            throw_if (limit <? new_agent) "AgentSpendLimitExceeded"
       else Ok tt);
  record_contribution now amount e.

Definition with_entry (o : AgentSpendOverlay) (i : nat) (e : AgentContributionEntry) : AgentSpendOverlay := {|
  ov_entries := <[i := e]> (ov_entries o); ov_lifetimeSpend := ov_lifetimeSpend o;
  ov_lifetimeTxCount := ov_lifetimeTxCount o |}.

(** [lifetime_spend] and [lifetime_tx_count] of the slot. *)
Definition bump_lifetime (o : AgentSpendOverlay) (i : nat) (amount : Z) : result string AgentSpendOverlay :=
  spend ← checked_add (default 0 (ov_lifetimeSpend o !! i)) amount;
  count ← checked_add (default 0 (default [] (ov_lifetimeTxCount o) !! i)) 1;
  Ok {| ov_entries := ov_entries o; ov_lifetimeSpend := <[i := spend]> (ov_lifetimeSpend o);
        ov_lifetimeTxCount := Some (<[i := count]> (default [] (ov_lifetimeTxCount o))) |}.

Definition get_agent (agents : list AgentEntry) (agent : string) : result string AgentEntry :=
  match list_find (λ a, ae_pubkey a = agent) agents with
  | Some (_, a) => Ok a
  | None => Throw "UnauthorizedAgent"
  end.

Definition get_protocol_cap (policy : PolicyConfig) (protocol : string) : option Z :=
  if negb (pol_hasProtocolCaps policy) then None else
  '(i, _) ← list_find (λ p, p = protocol) (pol_protocols policy);
  Some (default 0 (pol_protocolCaps policy !! i)).

Definition protocol_check (policy : PolicyConfig) (now amount : Z) (protocol : string) (t : SpendTracker)
    : result string unit :=
  match get_protocol_cap policy protocol with
  | Some cap_ =>
      if 0 <? cap_
      then new_proto ← checked_add (get_protocol_spend t (to_bytes protocol) now) amount;
           throw_if (cap_ <? new_proto) "ErrDailyCapExceeded"
      else Ok tt
  | None => Ok tt
  end.

(** The cap block of [finalize_session]: [amount] is what left the vault, or
    came in for a non-stablecoin input. *)
Definition finalize_charge (policy : PolicyConfig) (agents : list AgentEntry) (agent protocol : string)
    (now amount : Z) (l : Ledger) : result string Ledger :=
  _ ← throw_if (pol_maxTransactionSizeUsd policy <? amount) "TransactionTooLarge";
  _ ← daily_check policy now amount (ld_tracker l);
  agent_entry ← get_agent agents agent;
  overlay ← match find_agent_slot (ld_overlay l) agent with
            | Some (slot, e) =>
                e ← agent_check (ae_spendingLimitUsd agent_entry) now amount e;
                bump_lifetime (with_entry (ld_overlay l) slot e) slot amount
            | None =>
                _ ← throw_if (0 <? ae_spendingLimitUsd agent_entry) "AgentSlotNotFound";
                Ok (ld_overlay l)
            end;
  _ ← protocol_check policy now amount protocol (ld_tracker l);
  tracker ← record_spend now amount (ld_tracker l);
  tracker ← (if pol_hasProtocolCaps policy
             then record_protocol_spend now (to_bytes protocol) amount tracker else Ok tracker);
  Ok {| ld_tracker := tracker; ld_overlay := overlay |}.

(** The cap block of [agent_transfer], before the recipient's cap. *)
Definition transfer_charge (policy : PolicyConfig) (agents : list AgentEntry) (agent : string)
    (now amount : Z) (l : Ledger) : result string Ledger :=
  agent_entry ← get_agent agents agent;
  _ ← throw_if (pol_maxTransactionSizeUsd policy <? amount) "TransactionTooLarge";
  _ ← daily_check policy now amount (ld_tracker l);
  overlay ← match find_agent_slot (ld_overlay l) agent with
            | Some (slot, e) =>
                e ← agent_check (ae_spendingLimitUsd agent_entry) now amount e;
                Ok (with_entry (ld_overlay l) slot e)
            | None =>
                _ ← throw_if (0 <? ae_spendingLimitUsd agent_entry) "AgentSlotNotFound";
                Ok (ld_overlay l)
            end;
  tracker ← record_spend now amount (ld_tracker l);
  Ok {| ld_tracker := tracker; ld_overlay := overlay |}.
End charge.

(** ** Client and program compute the same *)

Definition MAX_EPOCH : Z := 10 ^ 15.

(** Accounts as the program leaves them: 144 buckets, amounts of 64 bits,
    epochs of a clock this side of thirty million years. *)
Record widths_ok (t : SpendTracker) : Prop := {
  tk_size : length (st_buckets t) = MAX_BUCKETS;
  tk_bucket : Forall (λ b, 0 ≤ eb_epochId b ≤ MAX_EPOCH ∧ 0 ≤ eb_usdAmount b ≤ U64_MAX) (st_buckets t);
  tk_last : 0 ≤ st_lastWriteEpoch t ≤ MAX_EPOCH;
}.

Definition clock_ok (now : Z) : Prop := 0 < now ≤ MAX_EPOCH * 600.

Lemma sat_i64_id z : - 2 ^ 63 ≤ z ≤ I64_MAX → sat_i64 z = z.
Proof. unfold sat_i64. lia. Qed.

Lemma sat_u128_id z : z < 2 ^ 128 → sat_u128 z = z.
Proof. unfold sat_u128. lia. Qed.

Ltac widths := unfold I64_MAX, MAX_EPOCH, U64_MAX, EPOCH_DURATION, OVERLAY_EPOCH_DURATION,
  ROLLING_WINDOW_SECONDS, NUM_EPOCHS, OVERLAY_NUM_EPOCHS in *; lia.

Lemma epoch_bounds now : clock_ok now → Z.quot now 600 = now / 600 ∧ 0 ≤ now / 600 ≤ MAX_EPOCH.
Proof.
  intros [H1 H2]. split; [apply Z.quot_div_nonneg; lia|].
  pose proof (Z.div_pos now 600). split; [lia|]. apply Z.div_le_upper_bound; [lia|]. lia.
Qed.

(** One bucket. *)
Lemma bucket_agrees now c acc b :
  clock_ok now → 0 ≤ c → 0 ≤ eb_epochId b ≤ MAX_EPOCH → 0 ≤ eb_usdAmount b ≤ U64_MAX →
  0 ≤ acc → acc + U64_MAX < 2 ^ 128 →
  rolling_bucket c (sat_i64 (now - ROLLING_WINDOW_SECONDS)) acc b = add_bucket c (window_start now) acc b ∧
  acc ≤ add_bucket c (window_start now) acc b ≤ acc + eb_usdAmount b.
Proof.
  intros Hnow Hc He Hu Ha Hs. unfold clock_ok in Hnow. unfold rolling_bucket, add_bucket, window_start.
  rewrite (sat_i64_id (now - _)), (sat_i64_id (eb_epochId b * _)), (sat_i64_id (eb_epochId b * _ + _)) by widths.
  destruct (Z.eqb_spec (eb_usdAmount b) 0) as [H0|H0]; [lia|].
  set (st := eb_epochId b * EPOCH_DURATION). assert (0 ≤ st) by (unfold st; widths).
  destruct (Z.ltb_spec ROLLING_WINDOW_SECONDS now) as [Hw|Hw].
  - destruct ((st + EPOCH_DURATION <=? now - ROLLING_WINDOW_SECONDS) || (c <? eb_epochId b)) eqn:Eout; [lia|].
    destruct (Z.leb_spec (now - ROLLING_WINDOW_SECONDS) st); [rewrite sat_u128_id by lia; lia|].
    apply orb_false_iff in Eout as [Eo _]. apply Z.leb_gt in Eo.
    set (ov := st + EPOCH_DURATION - (now - ROLLING_WINDOW_SECONDS)).
    assert (0 < ov < 600) by (unfold ov; widths).
    rewrite (sat_u128_id (eb_usdAmount b * ov)) by (unfold U64_MAX in *; nia).
    rewrite Z.quot_div_nonneg by (unfold EPOCH_DURATION; nia).
    assert (0 ≤ eb_usdAmount b * ov / EPOCH_DURATION ≤ eb_usdAmount b).
    { split; [apply Z.div_pos; unfold EPOCH_DURATION; nia|].
      apply Z.div_le_upper_bound; unfold EPOCH_DURATION; nia. }
    rewrite sat_u128_id by lia. lia.
  - replace (st + EPOCH_DURATION <=? now - ROLLING_WINDOW_SECONDS) with false by (symmetry; apply Z.leb_gt; widths).
    replace (st + EPOCH_DURATION <=? 0) with false by (symmetry; apply Z.leb_gt; widths).
    replace (now - ROLLING_WINDOW_SECONDS <=? st) with true by (symmetry; apply Z.leb_le; widths).
    replace (0 <=? st) with true by (symmetry; apply Z.leb_le; lia). cbn [orb].
    destruct (c <? eb_epochId b); [lia|]. rewrite sat_u128_id by lia. lia.
Qed.

Lemma buckets_agree now c bs acc :
  clock_ok now → 0 ≤ c →
  Forall (λ b, 0 ≤ eb_epochId b ≤ MAX_EPOCH ∧ 0 ≤ eb_usdAmount b ≤ U64_MAX) bs →
  0 ≤ acc → acc + Z.of_nat (length bs) * U64_MAX < 2 ^ 128 →
  foldl (rolling_bucket c (sat_i64 (now - ROLLING_WINDOW_SECONDS))) acc bs =
  foldl (add_bucket c (window_start now)) acc bs.
Proof.
  intros Hnow Hc Hbs. revert acc. induction Hbs as [|b bs [He Hu] Hbs IH]; intros acc Ha Hs; [done|].
  cbn [foldl length] in *.
  destruct (bucket_agrees now c acc b) as [-> Hr]; try done; [unfold U64_MAX in *; nia|].
  apply IH; [lia|]. unfold U64_MAX in *. lia.
Qed.

(** The rolling spend of the vault. *)
Lemma rolling_agrees t now :
  widths_ok t → clock_ok now → get_rolling_24h_usd t now = getRolling24hUsd t now.
Proof.
  intros [Hs Hb Hl] Hnow. unfold get_rolling_24h_usd, getRolling24hUsd, clamp_u64.
  destruct (now <=? 0); [done|].
  destruct (epoch_bounds now Hnow) as [Hq Hc]. unfold EPOCH_DURATION at 1 2. rewrite Hq.
  rewrite (sat_i64_id (now / 600 - _)) by widths.
  change EPOCH_DURATION with 600. rewrite Hq.
  destruct (NUM_EPOCHS <? now / 600 - st_lastWriteEpoch t); [done|].
  rewrite (buckets_agree now (now / 600) (st_buckets t) 0); try done; [lia|].
  rewrite Hs. unfold MAX_BUCKETS, U64_MAX. lia.
Qed.

(** ** Histories *)

(** Accepted spends, newest first: the time and the amount. *)
Abbreviation History := (list (Z * Z)).

Definition sum_if (p : Z → bool) (h : History) : Z := sumZ (map (λ x, if p x.1 then x.2 else 0) h).

(** What was spent in one bucket, in a run of buckets, in the 24 hours up to a
    time. *)
Definition epoch_of (now : Z) : Z := now / 600.
Definition spent_in (e : Z) : History → Z := sum_if (λ t, epoch_of t =? e).
Definition spent_epochs (lo hi : Z) : History → Z := sum_if (λ t, (lo <=? epoch_of t) && (epoch_of t <=? hi)).
Definition spent_day (now : Z) : History → Z := sum_if (λ t, (now - 86400 <? t) && (t <=? now)).

Lemma sum_if_cons p t a h : sum_if p ((t, a) :: h) = (if p t then a else 0) + sum_if p h.
Proof. done. Qed.

Lemma sum_if_le p q h :
  Forall (λ x, 0 ≤ x.2) h → Forall (λ x, p x.1 = true → q x.1 = true) h → sum_if p h ≤ sum_if q h.
Proof.
  intros Hn Hi. unfold sum_if. apply sumZ_le. intros x Hx. rewrite Forall_forall in Hn, Hi.
  specialize (Hn x Hx). specialize (Hi x Hx). destruct (p x.1), (q x.1); naive_solver lia.
Qed.

Lemma sum_if_zero p h : Forall (λ x, p x.1 = false) h → sum_if p h = 0.
Proof. intros Hf. apply sumZ_zero. intros x Hx. rewrite Forall_forall in Hf. by rewrite (Hf x Hx). Qed.

Lemma sum_if_nonneg p h : Forall (λ x, 0 ≤ x.2) h → 0 ≤ sum_if p h.
Proof.
  intros Hn. apply sumZ_nonneg, Forall_map. eapply Forall_impl; [exact Hn|]. intros x Hx. simpl. by destruct (p x.1).
Qed.

Lemma sum_if_split p q h :
  Forall (λ x, 0 ≤ x.2) h → sum_if (λ t, p t || q t) h ≤ sum_if p h + sum_if q h.
Proof.
  induction 1 as [|[t a] h Ha _ IH]; [done|]. rewrite !sum_if_cons. simpl in Ha.
  destruct (p t), (q t); simpl; lia.
Qed.

(** The buckets of a run, one after the other. *)
Lemma spent_epochs_buckets lo n h :
  spent_epochs lo (lo + Z.of_nat n - 1) h = sumZ (map (λ e, spent_in e h) (seqZ lo (Z.of_nat n))).
Proof.
  induction h as [|[t a] h IH].
  { by rewrite sumZ_zero. }
  unfold spent_epochs, spent_in in *. rewrite sum_if_cons, IH. clear IH.
  set (f := λ e, sum_if (λ t, epoch_of t =? e) h).
  assert (∀ l, NoDup l → sumZ (map (λ e, sum_if (λ t, epoch_of t =? e) ((t, a) :: h)) l) =
    (if bool_decide (epoch_of t ∈ l) then a else 0) + sumZ (map f l)) as Hl.
  { induction 1 as [|e l Hnin _ IH]; [done|]. cbn [map]. change (sumZ (?x :: ?y)) with (x + sumZ y).
    rewrite IH, sum_if_cons. fold (f e).
    destruct (Z.eqb_spec (epoch_of t) e) as [<-|Hne].
    - rewrite bool_decide_false, bool_decide_true by set_solver. lia.
    - rewrite (bool_decide_ext (epoch_of t ∈ e :: l) (epoch_of t ∈ l)) by set_solver. lia. }
  rewrite Hl by apply NoDup_seqZ. f_equal.
  rewrite (bool_decide_ext _ (lo ≤ epoch_of t < lo + Z.of_nat n)) by apply elem_of_seqZ.
  destruct (Z.leb_spec lo (epoch_of t)), (Z.leb_spec (epoch_of t) (lo + Z.of_nat n - 1)); simpl;
    case_bool_decide; lia.
Qed.

(** ** The ring holds the last 144 buckets of the history *)

Definition bucket_at (t : SpendTracker) (e : Z) : EpochBucket :=
  default zero_bucket (st_buckets t !! Z.to_nat (e mod NUM_EPOCHS)).

Record ring (t : SpendTracker) (h : History) : Prop := {
  rg_size : length (st_buckets t) = MAX_BUCKETS;
  rg_bucket : Forall (λ b, 0 ≤ eb_epochId b ≤ st_lastWriteEpoch t ∧ 0 ≤ eb_usdAmount b ≤ U64_MAX) (st_buckets t);
  rg_last : 0 ≤ st_lastWriteEpoch t ≤ MAX_EPOCH;
  rg_times : Forall (λ x, 0 ≤ epoch_of x.1 ≤ st_lastWriteEpoch t) h;
  rg_amounts : Forall (λ x : Z * Z, 0 ≤ x.2) h;
  rg_spent e : st_lastWriteEpoch t - NUM_EPOCHS < e ≤ st_lastWriteEpoch t →
    spent_in e h = if eb_epochId (bucket_at t e) =? e then eb_usdAmount (bucket_at t e) else 0;
}.

Definition new_tracker (counters : list ProtocolCounter) : SpendTracker := {|
  st_buckets := replicate MAX_BUCKETS zero_bucket; st_protocolCounters := counters; st_lastWriteEpoch := 0 |}.

Lemma bucket_at_new counters e : bucket_at (new_tracker counters) e = zero_bucket.
Proof.
  unfold bucket_at. change (st_buckets _) with (replicate MAX_BUCKETS zero_bucket).
  destruct (replicate MAX_BUCKETS zero_bucket !! Z.to_nat (e mod NUM_EPOCHS)) eqn:Hl; [|done].
  by apply lookup_replicate in Hl as [-> _].
Qed.

Lemma new_tracker_ring counters : ring (new_tracker counters) [].
Proof.
  constructor; simpl st_lastWriteEpoch; [apply length_replicate|apply Forall_replicate; by vm_compute|done|constructor|constructor|].
  intros e _. rewrite bucket_at_new. by destruct (_ =? _).
Qed.

(** A bucket outside the history's epochs. *)
Lemma spent_in_later e h last : Forall (λ x, 0 ≤ epoch_of x.1 ≤ last) h → last < e → spent_in e h = 0.
Proof.
  intros Hh He. apply sum_if_zero. eapply Forall_impl; [exact Hh|]. intros x Hx. simpl in Hx. apply Z.eqb_neq. lia.
Qed.

Lemma ring_bucket t h e :
  ring t h → bucket_at t e ∈ st_buckets t ∧
  st_buckets t !! Z.to_nat (e mod NUM_EPOCHS) = Some (bucket_at t e).
Proof.
  intros Hr. pose proof (Z.mod_pos_bound e NUM_EPOCHS ltac:(done)) as Hm.
  destruct (lookup_lt_is_Some_2 (st_buckets t) (Z.to_nat (e mod NUM_EPOCHS))) as [b Hb].
  { rewrite (rg_size _ _ Hr). unfold MAX_BUCKETS, NUM_EPOCHS in *. lia. }
  unfold bucket_at. rewrite Hb. split; [by eapply list_elem_of_lookup_2|done].
Qed.

(** What the ring says of any epoch up to a later one. *)
Lemma ring_spent t h c e :
  ring t h → st_lastWriteEpoch t ≤ c → c - NUM_EPOCHS < e ≤ c →
  spent_in e h = if eb_epochId (bucket_at t e) =? e then eb_usdAmount (bucket_at t e) else 0.
Proof.
  intros Hr Hc He. destruct (Z.le_gt_cases e (st_lastWriteEpoch t)) as [Hle|Hgt].
  { apply (rg_spent _ _ Hr). lia. }
  rewrite (spent_in_later e h (st_lastWriteEpoch t)); [|apply (rg_times _ _ Hr)|lia].
  destruct (ring_bucket t h e Hr) as [Hin _]. pose proof (rg_bucket _ _ Hr) as Hb.
  rewrite Forall_forall in Hb. specialize (Hb _ Hin). simpl in Hb.
  destruct (Z.eqb_spec (eb_epochId (bucket_at t e)) e); lia.
Qed.

Lemma bucket_at_record t h e c b amount counters :
  ring t h → c - NUM_EPOCHS < e ≤ c →
  bucket_at {| st_buckets := <[Z.to_nat (c mod NUM_EPOCHS) := b]> (st_buckets t);
               st_protocolCounters := counters; st_lastWriteEpoch := amount |} e =
  if e =? c then b else bucket_at t e.
Proof.
  intros Hr He. pose proof (Z.mod_pos_bound c NUM_EPOCHS ltac:(done)) as Hm.
  unfold bucket_at. cbn [st_buckets].
  destruct (Z.eqb_spec e c) as [->|Hne].
  - rewrite list_lookup_insert_eq; [done|]. rewrite (rg_size _ _ Hr). unfold MAX_BUCKETS, NUM_EPOCHS in *. lia.
  - rewrite list_lookup_insert_ne; [done|]. intros Heq.
    pose proof (Z.mod_pos_bound e NUM_EPOCHS ltac:(done)).
    assert (e mod NUM_EPOCHS = c mod NUM_EPOCHS) as Hmod by (unfold NUM_EPOCHS in *; lia).
    pose proof (Z.div_mod e NUM_EPOCHS ltac:(done)). pose proof (Z.div_mod c NUM_EPOCHS ltac:(done)).
    unfold NUM_EPOCHS in *. nia.
Qed.

(** Recording a spend appends it to the history the ring holds. *)
Lemma record_spend_ring t h now amount t' :
  ring t h → clock_ok now → st_lastWriteEpoch t ≤ epoch_of now → 0 ≤ amount →
  record_spend now amount t = Ok t' → ring t' ((now, amount) :: h).
Proof.
  intros Hr Hnow Hlast Ha Hrec. destruct (epoch_bounds now Hnow) as [Hq Hc]. unfold record_spend in Hrec.
  change EPOCH_DURATION with 600 in Hrec. rewrite Hq in Hrec. fold (epoch_of now) in Hrec, Hc.
  set (c := epoch_of now) in *. rewrite Z.rem_mod_nonneg in Hrec by (unfold NUM_EPOCHS; lia).
  fold (bucket_at t c) in Hrec. apply bind_Ok_inv in Hrec as (u & _ & Hrec).
  pose proof (ring_spent t h c c Hr Hlast ltac:(unfold NUM_EPOCHS; lia)) as Hsp.
  destruct (ring_bucket t h c Hr) as [Hin _]. pose proof (rg_bucket _ _ Hr) as Hb.
  assert (∃ old, old = spent_in c h ∧ 0 ≤ old ∧
    (if eb_epochId (bucket_at t c) =? c then bucket_at t c else {| eb_epochId := c; eb_usdAmount := 0 |}) =
    {| eb_epochId := c; eb_usdAmount := old |}) as (old & Hold & Hpos & Hnew).
  { exists (spent_in c h). split; [done|]. rewrite Hsp. rewrite Forall_forall in Hb. specialize (Hb _ Hin). simpl in Hb.
    destruct (Z.eqb_spec (eb_epochId (bucket_at t c)) c) as [He|]; [|done]. split; [lia|].
    destruct (bucket_at t c); simpl in *; by subst. }
  rewrite Hnew in Hrec. cbn [eb_usdAmount eb_epochId] in Hrec.
  apply bind_Ok_inv in Hrec as (new & Hadd & [= <-]). unfold checked_add in Hadd.
  destruct (Z.ltb_spec U64_MAX (old + amount)) as [|Hmax]; [done|]. injection Hadd as <-.
  constructor; cbn [st_buckets st_lastWriteEpoch].
  - rewrite length_insert. apply (rg_size _ _ Hr).
  - apply Forall_insert; [|simpl; lia]. eapply Forall_impl; [exact Hb|]. intros x Hx. simpl in *. lia.
  - lia.
  - constructor; [simpl; unfold c in *; lia|]. eapply Forall_impl; [apply (rg_times _ _ Hr)|]. intros x Hx. simpl in *. lia.
  - constructor; [done|apply (rg_amounts _ _ Hr)].
  - intros e He. rewrite (bucket_at_record t h e c) by done. unfold spent_in at 1. rewrite sum_if_cons.
    fold (spent_in e h). fold c. destruct (Z.eqb_spec e c) as [->|Hne].
    + cbn [eb_epochId eb_usdAmount]. rewrite !Z.eqb_refl. lia.
    + replace (c =? e) with false by (symmetry; apply Z.eqb_neq; lia).
      rewrite <- (ring_spent t h c e Hr Hlast He). lia.
Qed.

(** ** The rolling sum covers the last 144 buckets *)

Lemma sumZ_perm_map {A} (f : A → Z) l l' : l ≡ₚ l' → sumZ (map f l) = sumZ (map f l').
Proof. unfold sumZ. induction 1; simpl; lia. Qed.

(** The indices of 144 consecutive epochs are the indices of the ring. *)
Lemma ring_indices lo :
  map (λ e, Z.to_nat (e mod NUM_EPOCHS)) (seqZ lo (Z.of_nat MAX_BUCKETS)) ≡ₚ seq 0 MAX_BUCKETS.
Proof.
  apply submseteq_length_Permutation; [|by rewrite length_map, length_seqZ, length_seq, Nat2Z.id].
  apply NoDup_submseteq.
  - apply NoDup_fmap_2_strong; [|apply NoDup_seqZ].
    intros x y [Hx1 Hx2]%elem_of_seqZ [Hy1 Hy2]%elem_of_seqZ Heq. unfold MAX_BUCKETS, NUM_EPOCHS in *.
    pose proof (Z.mod_pos_bound x 144 ltac:(lia)). pose proof (Z.mod_pos_bound y 144 ltac:(lia)).
    pose proof (Z.div_mod x 144 ltac:(lia)). pose proof (Z.div_mod y 144 ltac:(lia)). nia.
  - intros i Hi. apply list_elem_of_fmap in Hi as (e & -> & _). apply elem_of_seq.
    pose proof (Z.mod_pos_bound e NUM_EPOCHS ltac:(done)). unfold MAX_BUCKETS, NUM_EPOCHS in *. lia.
Qed.

Lemma sum_over_epochs (f : EpochBucket → Z) t h lo :
  ring t h → sumZ (map f (st_buckets t)) = sumZ (map (λ e, f (bucket_at t e)) (seqZ lo (Z.of_nat MAX_BUCKETS))).
Proof.
  intros Hr. set (g := λ i : nat, f (default zero_bucket (st_buckets t !! i))).
  change (λ e, f (bucket_at t e)) with (λ e, g (Z.to_nat (e mod NUM_EPOCHS))).
  rewrite <- (map_map (λ e, Z.to_nat (e mod NUM_EPOCHS)) g), (sumZ_perm_map g _ _ (ring_indices lo)).
  rewrite <- (rg_size _ _ Hr). unfold g. clear. induction (st_buckets t) as [|b bs IH] using rev_ind; [done|].
  rewrite length_app, seq_app, !map_app, !sumZ_app, IH. cbn [length seq map].
  rewrite (list_lookup_middle bs [] b) by lia. f_equal. f_equal. apply map_ext_in. intros i Hi%in_seq.
  rewrite lookup_app_l by lia. done.
Qed.

Lemma ring_reference t h now :
  ring t h → clock_ok now →
  get_rolling_24h_usd t now = Z.min U64_MAX (sumZ (map (λ b,
    bucket_share EPOCH_DURATION (window_start now) (epoch_of now) (eb_epochId b) (eb_usdAmount b)) (st_buckets t))).
Proof.
  intros Hr Hnow. destruct Hr as [H1 H2 H3 H4 H5 H6]. rewrite rolling_agrees; [| |done].
  - rewrite getRolling24hUsd_reference; [|split; [lia|]|by destruct Hnow].
    + unfold rolling_reference, vault_buckets. by rewrite map_map.
    + eapply Forall_impl; [exact H2|]. intros b Hb. simpl in *. lia.
  - constructor; [done| |done]. eapply Forall_impl; [exact H2|]. intros b Hb. simpl in *. lia.
Qed.

(** The spends of the last 144 buckets count in full. *)
Lemma rolling_covers t h now :
  ring t h → clock_ok now → st_lastWriteEpoch t ≤ epoch_of now →
  spent_epochs (epoch_of now - 143) (epoch_of now) h ≤ U64_MAX →
  spent_epochs (epoch_of now - 143) (epoch_of now) h ≤ get_rolling_24h_usd t now.
Proof.
  intros Hr Hnow Hlast Hu. rewrite (ring_reference t h now Hr Hnow).
  apply Z.min_glb; [done|]. set (c := epoch_of now) in *.
  rewrite (sum_over_epochs _ t h (c - 143) Hr).
  replace (spent_epochs (c - 143) c h) with (spent_epochs (c - 143) (c - 143 + Z.of_nat MAX_BUCKETS - 1) h)
    by (f_equal; unfold MAX_BUCKETS; lia).
  rewrite spent_epochs_buckets. apply sumZ_le. intros e [He1 He2]%elem_of_seqZ. unfold MAX_BUCKETS in He2.
  rewrite (ring_spent t h c e Hr Hlast) by (unfold NUM_EPOCHS; lia).
  destruct (ring_bucket t h e Hr) as [Hin _]. pose proof (rg_bucket _ _ Hr) as Hb.
  rewrite Forall_forall in Hb. specialize (Hb _ Hin). simpl in Hb.
  destruct (Z.eqb_spec (eb_epochId (bucket_at t e)) e) as [Heq|]; [|apply bucket_share_nonneg; [done|lia]].
  rewrite Heq, bucket_share_inside; [lia|done| |lia].
  destruct (epoch_bounds now Hnow) as [_ Hc]. unfold window_start, ROLLING_WINDOW_SECONDS, EPOCH_DURATION.
  pose proof (Z.mul_succ_div_gt now 600 ltac:(lia)). unfold c, epoch_of in *. destruct (_ <? _); lia.
Qed.

(** ** Runs of the program *)

Section runs.
Context (to_bytes : string → list Z).

(** A vault from its creation: every accepted spend, by either handler, under
    any policy whose daily cap is within [cap], at times that do not go
    back. *)
Inductive ledger_run (cap : Z) : History → Ledger → Z → Prop :=
| run_new counters overlay : ledger_run cap [] {| ld_tracker := new_tracker counters; ld_overlay := overlay |} 0
| run_finalize h l last policy agents agent protocol now amount l' :
    ledger_run cap h l last → last ≤ now → clock_ok now → 0 ≤ amount → pol_dailySpendingCapUsd policy ≤ cap →
    finalize_charge to_bytes policy agents agent protocol now amount l = Ok l' →
    ledger_run cap ((now, amount) :: h) l' now
| run_transfer h l last policy agents agent now amount l' :
    ledger_run cap h l last → last ≤ now → clock_ok now → 0 ≤ amount → pol_dailySpendingCapUsd policy ≤ cap →
    transfer_charge to_bytes policy agents agent now amount l = Ok l' →
    ledger_run cap ((now, amount) :: h) l' now.

(** Two trackers with the same ring. *)
Definition same_ring (t t' : SpendTracker) : Prop :=
  st_buckets t = st_buckets t' ∧ st_lastWriteEpoch t = st_lastWriteEpoch t'.

Lemma record_protocol_spend_ring now p amount t t' :
  record_protocol_spend now p amount t = Ok t' → same_ring t t'.
Proof.
  unfold record_protocol_spend. intros (u & _ & H)%bind_Ok_inv.
  destruct (list_find _ _) as [[i c]|].
  - destruct (_ <=? _); [injection H as <-; done|]. apply bind_Ok_inv in H as (s & _ & [= <-]). done.
  - destruct (list_find _ _) as [[i c]|]; [injection H as <-; done|done].
Qed.

Lemma finalize_charge_inv policy agents agent protocol now amount l l' :
  finalize_charge to_bytes policy agents agent protocol now amount l = Ok l' →
  daily_check policy now amount (ld_tracker l) = Ok tt ∧
  ∃ t, record_spend now amount (ld_tracker l) = Ok t ∧ same_ring t (ld_tracker l').
Proof.
  unfold finalize_charge. intros (u & _ & H)%bind_Ok_inv.
  apply bind_Ok_inv in H as ([] & Hd & H). split; [done|].
  apply bind_Ok_inv in H as (e & _ & H). apply bind_Ok_inv in H as (o & _ & H).
  apply bind_Ok_inv in H as (p & _ & H). apply bind_Ok_inv in H as (t & Ht & H).
  apply bind_Ok_inv in H as (t' & Ht' & [= <-]). exists t. split; [done|].
  destruct (pol_hasProtocolCaps policy); [by eapply record_protocol_spend_ring|by injection Ht' as ->].
Qed.

Lemma transfer_charge_inv policy agents agent now amount l l' :
  transfer_charge to_bytes policy agents agent now amount l = Ok l' →
  daily_check policy now amount (ld_tracker l) = Ok tt ∧
  ∃ t, record_spend now amount (ld_tracker l) = Ok t ∧ same_ring t (ld_tracker l').
Proof.
  unfold transfer_charge. intros (e & _ & H)%bind_Ok_inv. apply bind_Ok_inv in H as (u & _ & H).
  apply bind_Ok_inv in H as ([] & Hd & H). split; [done|].
  apply bind_Ok_inv in H as (o & _ & H). apply bind_Ok_inv in H as (t & Ht & [= <-]). by exists t.
Qed.

Lemma daily_check_inv policy now amount t :
  daily_check policy now amount t = Ok tt →
  get_rolling_24h_usd t now + amount ≤ pol_dailySpendingCapUsd policy.
Proof.
  unfold daily_check, checked_add. intros (n & Hn & H%throw_if_Ok)%bind_Ok_inv.
  destruct (U64_MAX <? _); [done|]. injection Hn as <-. lia.
Qed.

Lemma ring_ext t t' h : same_ring t t' → ring t h → ring t' h.
Proof.
  intros [Hb Hl] [H1 H2 H3 H4 H5 H6]. constructor; rewrite <- ?Hb, <- ?Hl; try done.
  intros e He. rewrite (H6 e He). unfold bucket_at. by rewrite Hb.
Qed.

(** What holds after every run. *)
Record run_invariant (cap : Z) (h : History) (l : Ledger) (last : Z) : Prop := {
  ri_ring : ring (ld_tracker l) h;
  ri_last : st_lastWriteEpoch (ld_tracker l) ≤ epoch_of last;
  ri_cap c : spent_epochs (c - 143) c h ≤ cap;
}.

Lemma spend_invariant cap h l last policy now amount t l' :
  cap ≤ U64_MAX → run_invariant cap h l last →
  last ≤ now → clock_ok now → 0 ≤ amount → pol_dailySpendingCapUsd policy ≤ cap →
  daily_check policy now amount (ld_tracker l) = Ok tt →
  record_spend now amount (ld_tracker l) = Ok t → same_ring t (ld_tracker l') →
  run_invariant cap ((now, amount) :: h) l' now.
Proof.
  intros Hu [Hr Hl Hc] Ht Hnow Ha Hp Hd%daily_check_inv Hrec Hsame.
  assert (st_lastWriteEpoch (ld_tracker l) ≤ epoch_of now) as Hle.
  { etransitivity; [exact Hl|]. apply Z.div_le_mono; lia. }
  pose proof (record_spend_ring _ _ _ _ _ Hr Hnow Hle Ha Hrec) as Hr'.
  pose proof (ring_ext _ _ _ Hsame Hr') as Hr''. constructor; [done| |].
  - destruct Hsame as [_ <-]. unfold record_spend in Hrec. apply bind_Ok_inv in Hrec as (u & _ & Hrec).
    apply bind_Ok_inv in Hrec as (n & _ & [= <-]). cbn [st_lastWriteEpoch].
    destruct (epoch_bounds now Hnow) as [Hq _]. change EPOCH_DURATION with 600. rewrite Hq. done.
  - pose proof (rolling_covers _ _ _ Hr Hnow Hle ltac:(specialize (Hc (epoch_of now)); lia)) as Hcov.
    intros c. unfold spent_epochs at 1. rewrite sum_if_cons. fold (spent_epochs (c - 143) c h).
    destruct (Z.leb_spec (epoch_of now) c) as [Hnc|Hnc]; cycle 1.
    { rewrite andb_false_r. specialize (Hc c). lia. }
    rewrite andb_true_r. destruct (Z.leb_spec (c - 143) (epoch_of now)); [|specialize (Hc c); lia].
    assert (spent_epochs (c - 143) c h ≤ spent_epochs (epoch_of now - 143) (epoch_of now) h); [|lia].
    apply sum_if_le; [apply (rg_amounts _ _ Hr)|].
    eapply Forall_impl; [apply (rg_times _ _ Hr)|]. intros x Hx Hin. simpl in Hx.
    apply andb_true_iff in Hin as [H1 H2]. apply andb_true_iff. split; apply Z.leb_le; lia.
Qed.

Lemma run_holds cap h l last : 0 ≤ cap ≤ U64_MAX → ledger_run cap h l last → run_invariant cap h l last.
Proof.
  intros Hcap. induction 1 as [counters overlay|h l last policy agents agent protocol now amount l' _ IH Ht Hnow Ha Hp Hc|
    h l last policy agents agent now amount l' _ IH Ht Hnow Ha Hp Hc].
  - constructor; [apply new_tracker_ring|done|]. intros c. apply Hcap.
  - destruct (finalize_charge_inv _ _ _ _ _ _ _ _ Hc) as (Hd & t & Hrec & Hs).
    eapply (spend_invariant cap h l last policy now amount t); try done; lia.
  - destruct (transfer_charge_inv _ _ _ _ _ _ _ Hc) as (Hd & t & Hrec & Hs).
    eapply (spend_invariant cap h l last policy now amount t); try done; lia.
Qed.
End runs.

Lemma day_epochs now h :
  Forall (λ x : Z * Z, 0 ≤ x.2) h →
  spent_day now h ≤ spent_epochs (epoch_of now - 143) (epoch_of now) h +
                    spent_epochs (epoch_of now - 144 - 143) (epoch_of now - 144) h.
Proof.
  intros Hn. set (c := epoch_of now).
  etransitivity; [|apply (sum_if_split _ _ h Hn)]. apply sum_if_le; [done|].
  apply Forall_forall. intros x _ [H1%Z.ltb_lt H2%Z.leb_le]%andb_true_iff. unfold c, epoch_of.
  pose proof (Z.div_mod now 600 ltac:(lia)). pose proof (Z.mod_pos_bound now 600 ltac:(lia)).
  pose proof (Z.div_mod x.1 600 ltac:(lia)). pose proof (Z.mod_pos_bound x.1 600 ltac:(lia)).
  apply orb_true_iff. destruct (Z.le_gt_cases (now / 600 - 143) (x.1 / 600)); [left|right];
    apply andb_true_iff; split; apply Z.leb_le; lia.
Qed.

(** C8: The daily cap, on chain and over any history: in 144 consecutive
    ten-minute buckets, a day that starts on a ten-minute mark, the program
    never lets more than the cap leave the vault; in no 24 hours whatever does
    it let more than twice the cap leave. *)
Theorem ledger_bounds_every_day to_bytes cap h l last :
  0 ≤ cap ≤ U64_MAX → ledger_run to_bytes cap h l last →
  (∀ c, spent_epochs (c - 143) c h ≤ cap) ∧ (∀ now, spent_day now h ≤ 2 * cap).
Proof.
  intros Hcap Hrun. destruct (run_holds _ _ _ _ _ Hcap Hrun) as [Hr _ Hc]. split; [done|].
  intros now. pose proof (day_epochs now h (rg_amounts _ _ Hr)).
  pose proof (Hc (epoch_of now)). pose proof (Hc (epoch_of now - 144)). lia.
Qed.

(** ** Twice the cap in a day *)

Definition demo_policy (cap_ : Z) : PolicyConfig := {|
  pol_dailySpendingCapUsd := cap_; pol_maxTransactionSizeUsd := cap_; pol_hasProtocolCaps := false;
  pol_protocols := ["jup"]; pol_protocolCaps := []; pol_protocolMode := 1; pol_protocolHashes := [];
  pol_developerFeeRate := 0; pol_stableBalanceFloor := 0; pol_policyVersion := 1; pol_destinationMode := 0;
  pol_allowedDestinations := []; pol_timelockDuration := 1800; pol_maxSlippageBps := 100;
  pol_sessionExpirySeconds := 30; pol_cosignRequired := false; pol_cosignSessionPubkey := "";
  pol_perRecipientDailyCapUsd := 0; pol_operatorGrantDelaySeconds := 0; pol_destinationGraylist := [] |}.

Definition demo_agents : list AgentEntry :=
  [{| ae_pubkey := "agent"; ae_spendingLimitUsd := 0; ae_capability := 2; ae_paused := false |}].

Definition demo_ledger : Ledger := {|
  ld_tracker := new_tracker [];
  ld_overlay := {| ov_entries := []; ov_lifetimeSpend := []; ov_lifetimeTxCount := None |} |}.

(** A tracker of which one bucket was ever written. *)
Definition one_bucket (i : nat) (b : EpochBucket) (last : Z) : SpendTracker := {|
  st_buckets := <[i := b]> (replicate MAX_BUCKETS zero_bucket); st_protocolCounters := [];
  st_lastWriteEpoch := last |}.

Lemma rolling_zeros c ws n acc : foldl (rolling_bucket c ws) acc (replicate n zero_bucket) = acc.
Proof. induction n; [done|]. by cbn [replicate foldl]. Qed.

Lemma one_bucket_rolling i b last c now :
  (i < MAX_BUCKETS)%nat → Z.quot now EPOCH_DURATION = c →
  get_rolling_24h_usd (one_bucket i b last) now ≤
  Z.max 0 (rolling_bucket c (sat_i64 (now - ROLLING_WINDOW_SECONDS)) 0 b).
Proof.
  intros Hi Hc. unfold get_rolling_24h_usd. rewrite Hc. cbn [one_bucket st_lastWriteEpoch st_buckets].
  destruct (Z.leb_spec now 0); [lia|]. destruct (_ <? _); [lia|].
  rewrite (insert_replicate_lt _ _ _ _ Hi), foldl_app. cbn [foldl]. rewrite !rolling_zeros.
  destruct (Z.ltb_spec U64_MAX (rolling_bucket c (sat_i64 (now - ROLLING_WINDOW_SECONDS)) 0 b)); lia.
Qed.

(** Writing to the one bucket, which keeps its amount if its epoch is the
    current one. *)
Lemma one_bucket_record i b last c now amount :
  (i < MAX_BUCKETS)%nat → 0 < now → Z.quot now EPOCH_DURATION = c → Z.to_nat (Z.rem c NUM_EPOCHS) = i →
  let old := if eb_epochId b =? c then eb_usdAmount b else 0 in
  old + amount ≤ U64_MAX →
  record_spend now amount (one_bucket i b last) = Ok (one_bucket i {| eb_epochId := c; eb_usdAmount := old + amount |} c).
Proof.
  intros Hi Hn Hc Hx old Hu. unfold record_spend. rewrite Hc, Hx. cbn [one_bucket st_buckets st_protocolCounters].
  destruct (Z.leb_spec now 0); [lia|]. cbn [throw_if mbind result_bind].
  rewrite list_lookup_insert_eq by (by rewrite length_replicate). cbn [default from_option id]. cbv zeta.
  assert (E : (if eb_epochId b =? c then b else {| eb_epochId := c; eb_usdAmount := 0 |}) =
    {| eb_epochId := c; eb_usdAmount := old |}).
  { subst old. destruct (Z.eqb_spec (eb_epochId b) c) as [<-|]; [by destruct b|done]. }
  rewrite E. unfold checked_add. cbn [eb_usdAmount eb_epochId]. destruct (Z.ltb_spec U64_MAX (old + amount)); [lia|].
  cbn [mbind result_bind]. unfold one_bucket. by rewrite list_insert_insert_eq.
Qed.

(** A spend of an agent without a limit, under a policy with nothing but its
    cap. *)
Lemma demo_charge_Ok cap_ now amount i b last c :
  (i < MAX_BUCKETS)%nat → 0 < now → Z.quot now EPOCH_DURATION = c → Z.to_nat (Z.rem c NUM_EPOCHS) = i →
  cap_ ≤ U64_MAX →
  let old := if eb_epochId b =? c then eb_usdAmount b else 0 in
  old + amount ≤ cap_ → Z.max 0 (rolling_bucket c (sat_i64 (now - ROLLING_WINDOW_SECONDS)) 0 b) + amount ≤ cap_ →
  finalize_charge (λ _, []) (demo_policy cap_) demo_agents "agent" "jup" now amount
    {| ld_tracker := one_bucket i b last; ld_overlay := ld_overlay demo_ledger |} =
  Ok {| ld_tracker := one_bucket i {| eb_epochId := c; eb_usdAmount := old + amount |} c;
        ld_overlay := ld_overlay demo_ledger |}.
Proof.
  intros Hi Hn Hc Hx Hu old Ho Hr. unfold finalize_charge.
  cbn [demo_policy pol_maxTransactionSizeUsd ld_tracker ld_overlay]. unfold daily_check, checked_add.
  pose proof (one_bucket_rolling i b last c now Hi Hc) as Hb.
  destruct (Z.ltb_spec cap_ amount); [lia|]. cbn [throw_if mbind result_bind].
  destruct (Z.ltb_spec U64_MAX (get_rolling_24h_usd (one_bucket i b last) now + amount)); [lia|].
  cbn [mbind result_bind pol_dailySpendingCapUsd demo_policy].
  destruct (Z.ltb_spec cap_ (get_rolling_24h_usd (one_bucket i b last) now + amount)); [lia|].
  rewrite (one_bucket_record i b last c now amount Hi Hn Hc Hx) by (fold old; lia). reflexivity.
Qed.

(** The bucket of 24 hours ago, one second into the bucket that replaces it:
    599 of its 600 seconds count, so less than all of it. *)
Lemma replaced_bucket_share e cap :
  0 ≤ e ≤ MAX_EPOCH → 1 ≤ cap ≤ U64_MAX →
  0 ≤ rolling_bucket (e + 144) (sat_i64 (600 * e + 1)) 0 {| eb_epochId := e; eb_usdAmount := cap |} ≤ cap - 1.
Proof.
  intros He Hc. unfold rolling_bucket. cbn [eb_epochId eb_usdAmount].
  destruct (Z.eqb_spec cap 0); [lia|]. unfold EPOCH_DURATION.
  rewrite (sat_i64_id (e * 600)), (sat_i64_id (e * 600 + 600)), (sat_i64_id (600 * e + 1)) by widths.
  destruct (Z.leb_spec (e * 600 + 600) (600 * e + 1)); [lia|]. destruct (Z.ltb_spec (e + 144) e); [lia|]. cbn [orb].
  destruct (Z.leb_spec (600 * e + 1) (e * 600)); [lia|].
  replace (e * 600 + 600 - (600 * e + 1)) with 599 by lia.
  rewrite (sat_u128_id (cap * 599)) by widths. rewrite Z.quot_div_nonneg by lia.
  assert (0 ≤ cap * 599 / 600 ≤ cap - 1) as Hd.
  { split; [apply Z.div_pos; lia|]. apply Z.lt_le_pred, Z.div_lt_upper_bound; lia. }
  rewrite sat_u128_id by widths. lia.
Qed.

(** A bucket that starts in the window counts in full. *)
Lemma current_bucket_share c now a :
  0 ≤ c ≤ MAX_EPOCH → clock_ok now → now - ROLLING_WINDOW_SECONDS ≤ 600 * c → 0 ≤ a ≤ U64_MAX →
  rolling_bucket c (sat_i64 (now - ROLLING_WINDOW_SECONDS)) 0 {| eb_epochId := c; eb_usdAmount := a |} = a.
Proof.
  intros Hc Hn Hw Ha. unfold clock_ok in Hn. unfold rolling_bucket. cbn [eb_epochId eb_usdAmount].
  destruct (Z.eqb_spec a 0); [lia|]. unfold EPOCH_DURATION.
  rewrite (sat_i64_id (c * 600)), (sat_i64_id (c * 600 + 600)), (sat_i64_id (now - _)) by widths.
  destruct (Z.leb_spec (c * 600 + 600) (now - ROLLING_WINDOW_SECONDS)); [lia|].
  destruct (Z.ltb_spec c c); [lia|]. cbn [orb]. destruct (Z.leb_spec (now - ROLLING_WINDOW_SECONDS) (c * 600)); [|lia].
  rewrite sat_u128_id by widths. lia.
Qed.

Lemma spent_day_recent now t a h : now - 86400 < t ≤ now → spent_day now ((t, a) :: h) = a + spent_day now h.
Proof.
  intros H. unfold spent_day. rewrite sum_if_cons.
  destruct (Z.ltb_spec (now - 86400) t), (Z.leb_spec t now); try lia. done.
Qed.

(** C27: Twice the cap can leave within 24 hours, for every cap and from every
    ten-minute bucket [e] on.  The first spend in a bucket reuses the place of the
    bucket 24 hours before it, of which a part still counts; from then on that
    part is forgotten.  So the program accepts the whole cap in the last second of
    bucket [e], and 85802 seconds later, in the bucket that takes its place, one
    base unit and then the cap less one. *)
Theorem cap_is_spent_twice_in_a_day (cap e : Z) :
  1 ≤ cap ≤ U64_MAX → 0 ≤ e ≤ MAX_EPOCH - 145 →
  let first := 600 * e + 599 in
  let later := first + 85802 in
  let h := [(later, cap - 1); (later, 1); (first, cap)] in
  (∃ l, ledger_run (λ _, []) cap h l later) ∧ later - first < 86400 ∧ spent_day later h = 2 * cap.
Proof.
  intros Hcap He first later h.
  assert (Hq1 : Z.quot first EPOCH_DURATION = e)
    by (subst first; unfold EPOCH_DURATION; clear h; Z.to_euclidean_division_equations; lia).
  assert (Hq2 : Z.quot later EPOCH_DURATION = e + 144)
    by (subst later first; unfold EPOCH_DURATION; clear h; Z.to_euclidean_division_equations; lia).
  set (i := Z.to_nat (Z.rem e NUM_EPOCHS)).
  assert (Hi : (i < MAX_BUCKETS)%nat)
    by (subst i; unfold NUM_EPOCHS, MAX_BUCKETS; clear h; Z.to_euclidean_division_equations; lia).
  assert (Hi2 : Z.to_nat (Z.rem (e + 144) NUM_EPOCHS) = i)
    by (subst i; unfold NUM_EPOCHS; clear h Hq1 Hq2 Hi; Z.to_euclidean_division_equations; lia).
  split; [|split; [lia|]].
  2: { subst h. rewrite !spent_day_recent by lia. unfold spent_day, sum_if, sumZ. simpl. lia. }
  assert (Hclock : clock_ok first ∧ clock_ok later) by (subst later first; unfold clock_ok; widths).
  pose proof (replaced_bucket_share e cap ltac:(lia) Hcap) as Hshare.
  replace (600 * e + 1) with (later - ROLLING_WINDOW_SECONDS) in Hshare
    by (subst later first; unfold ROLLING_WINDOW_SECONDS; lia).
  assert (H1 := demo_charge_Ok cap first cap i zero_bucket 0 e Hi ltac:(lia) Hq1 eq_refl ltac:(lia)).
  assert (H2 := demo_charge_Ok cap later 1 i {| eb_epochId := e; eb_usdAmount := cap |} e (e + 144) Hi ltac:(lia)
    Hq2 Hi2 ltac:(lia)).
  assert (H3 := demo_charge_Ok cap later (cap - 1) i {| eb_epochId := e + 144; eb_usdAmount := 1 |} (e + 144) (e + 144)
    Hi ltac:(lia) Hq2 Hi2 ltac:(lia)).
  cbn [zero_bucket eb_epochId eb_usdAmount] in H1, H2, H3. rewrite Z.eqb_refl in H3.
  change (rolling_bucket e _ 0 _) with 0 in H1. replace (if 0 =? e then 0 else 0) with 0 in H1 by (by destruct (0 =? e)).
  replace (e =? e + 144) with false in H2 by (symmetry; apply Z.eqb_neq; lia).
  assert (Hstart : ledger_run (λ _, []) cap []
    {| ld_tracker := one_bucket i zero_bucket 0; ld_overlay := ld_overlay demo_ledger |} 0).
  { unfold one_bucket. rewrite insert_replicate. apply run_new. }
  destruct Hclock as [Hk1 Hk2]. eexists. subst h.
  rewrite (current_bucket_share (e + 144) later 1) in H3 by (done || (subst later first; widths)).
  eapply (run_finalize _ _ _ _ later); [|lia|done|lia| |apply H3; lia]; [|simpl; lia].
  eapply (run_finalize _ _ _ _ first); [|lia|done|lia| |apply H2; lia]; [|simpl; lia].
  eapply (run_finalize _ _ _ _ 0); [exact Hstart|lia|done|lia| |apply H1; lia]; [simpl; lia].
Qed.

Lemma cap_is_spent_twice_in_a_day_witness :
  (∃ l, ledger_run (λ _, []) 1000000 [(686401, 999999); (686401, 1); (600599, 1000000)] l 686401) ∧
  spent_day 686401 [(686401, 999999); (686401, 1); (600599, 1000000)] = 2000000.
Proof.
  destruct (cap_is_spent_twice_in_a_day 1000000 1000) as (H & _ & H'); [unfold U64_MAX; lia|unfold MAX_EPOCH; lia|].
  exact (conj H H').
Defined.

Lemma ledger_bounds_every_day_witness :
  ∃ h l, ledger_run (λ _, []) 1000000 h l 600599 ∧ spent_epochs (1000 - 143) 1000 h = 1000000 ∧
         spent_epochs (1000 - 143) 1000 h ≤ 1000000.
Proof.
  destruct (finalize_charge (λ _, []) (demo_policy 1000000) demo_agents "agent" "jup" 600599 1000000 demo_ledger)
    as [l1|] eqn:H1; [|vm_compute in H1; discriminate H1].
  assert (ledger_run (λ _, []) 1000000 [(600599, 1000000)] l1 600599) as Hrun.
  { eapply (run_finalize _ _ _ demo_ledger 0); [apply run_new|lia|done|lia| |exact H1]. done. }
  exists [(600599, 1000000)], l1. split; [exact Hrun|]. split; [reflexivity|].
  refine (proj1 (ledger_bounds_every_day (λ _, []) 1000000 _ l1 600599 _ Hrun) 1000).
  unfold U64_MAX. lia.
Defined.

(** ** The client's budget *)

(** The client's budget is the program's decision: on an account as the
    program leaves it and at the same time, an amount passes the program's
    daily check exactly when it is at most what the client shows as
    remaining. *)
Theorem client_budget_predicts_the_program t policy now amount :
  widths_ok t → clock_ok now → 0 < amount → pol_dailySpendingCapUsd policy ≤ U64_MAX →
  is_ok (daily_check policy now amount t) = true ↔
  amount ≤ remaining (budget_of (getRolling24hUsd t now) (pol_dailySpendingCapUsd policy)).
Proof.
  intros Ht Hnow Ha Hcap. unfold daily_check, checked_add. rewrite (rolling_agrees t now Ht Hnow).
  set (spent := getRolling24hUsd t now). set (cap_ := pol_dailySpendingCapUsd policy) in *.
  unfold budget_of. cbn [remaining].
  destruct (Z.ltb_spec U64_MAX (spent + amount)); cbn [mbind result_bind is_ok].
  - split; [done|]. destruct (Z.ltb_spec spent cap_); lia.
  - destruct (Z.ltb_spec cap_ (spent + amount)); cbn [throw_if is_ok];
      (split; [intros Hx|intros Hx]); try done; destruct (Z.ltb_spec spent cap_); lia.
Qed.

Lemma client_budget_predicts_the_program_witness :
  is_ok (daily_check (demo_policy 1000) 600 1000 (new_tracker [])) = true.
Proof.
  apply (client_budget_predicts_the_program (new_tracker []) (demo_policy 1000) 600 1000).
  - constructor; [reflexivity|apply Forall_replicate; vm_compute; intuition discriminate|vm_compute; intuition discriminate].
  - split; [lia|vm_compute; discriminate].
  - lia.
  - vm_compute. discriminate.
  - vm_compute. discriminate.
Defined.

(** ** The agent's ring, and the protocol counters *)

Record entry_widths (e : AgentContributionEntry) : Prop := {
  ew_last : 0 ≤ ac_lastWriteEpoch e ≤ MAX_EPOCH / 6;
  ew_size : length (ac_contributions e) = OVERLAY_NUM_EPOCHS;
  ew_amounts : Forall (λ a, 0 ≤ a ≤ U64_MAX) (ac_contributions e);
}.

Lemma ring_slot (cs : list Z) epoch :
  length cs = OVERLAY_NUM_EPOCHS → 0 ≤ epoch →
  ∃ a, cs !! Z.to_nat (Z.rem epoch (Z.of_nat OVERLAY_NUM_EPOCHS)) = Some a ∧ a ∈ cs.
Proof.
  intros Hl He. rewrite Z.rem_mod_nonneg by (unfold OVERLAY_NUM_EPOCHS; lia).
  pose proof (Z.mod_pos_bound epoch 24 ltac:(lia)). change (Z.of_nat OVERLAY_NUM_EPOCHS) with 24.
  destruct (lookup_lt_is_Some_2 cs (Z.to_nat (epoch mod 24))) as [a Ha].
  { rewrite Hl. unfold OVERLAY_NUM_EPOCHS. lia. }
  exists a. split; [done|by eapply list_elem_of_lookup_2].
Qed.

(** The two windows differ only before the first day of the clock. *)
Lemma windows_agree now start dur :
  clock_ok now → 0 ≤ start → 0 < dur →
  (start + dur <=? sat_i64 (now - ROLLING_WINDOW_SECONDS)) = (start + dur <=? window_start now) ∧
  (sat_i64 (now - ROLLING_WINDOW_SECONDS) <=? start) = (window_start now <=? start) ∧
  (start < window_start now → sat_i64 (now - ROLLING_WINDOW_SECONDS) = window_start now).
Proof.
  intros Hnow Hs Hd. unfold clock_ok in Hnow. rewrite sat_i64_id by widths. unfold window_start.
  destruct (Z.ltb_spec ROLLING_WINDOW_SECONDS now); [done|].
  split_and!; [| |lia].
  - transitivity false; [apply Z.leb_gt; lia|symmetry; apply Z.leb_gt; lia].
  - transitivity true; [apply Z.leb_le; lia|symmetry; apply Z.leb_le; lia].
Qed.

Lemma agent_loop_agrees now c e n k acc :
  clock_ok now → entry_widths e → 0 ≤ k ≤ 24 - Z.of_nat n →
  0 ≤ acc → acc + Z.of_nat n * U64_MAX < 2 ^ 128 →
  agent_loop n k e c (window_start now) acc =
  Ok (agent_rolling_loop n k e c (sat_i64 (now - ROLLING_WINDOW_SECONDS)) acc).
Proof.
  intros Hnow He. revert k acc. induction n as [|n IH]; intros k acc Hk Ha Hs; [done|].
  cbn [agent_loop agent_rolling_loop]. pose proof (ew_last _ He) as Hl.
  assert (MAX_EPOCH / 6 ≤ MAX_EPOCH) by (by vm_compute).
  rewrite (sat_i64_id (ac_lastWriteEpoch e - k)) by widths.
  set (ep := ac_lastWriteEpoch e - k). destruct (Z.ltb_spec ep 0) as [|Hep]; [done|].
  assert (ep * 3600 ≤ MAX_EPOCH / 6 * 3600) by (unfold ep; lia). assert (MAX_EPOCH / 6 * 3600 ≤ 2 ^ 60) by (by vm_compute).
  rewrite (sat_i64_id (ep * _)), (sat_i64_id (ep * _ + _)) by (unfold OVERLAY_EPOCH_DURATION; widths).
  change OVERLAY_EPOCH_DURATION with 3600.
  destruct (windows_agree now (ep * 3600) 3600 Hnow ltac:(lia) ltac:(lia)) as (-> & -> & Hw).
  destruct (Z.leb_spec (ep * 3600 + 3600) (window_start now)) as [|Hin]; [done|].
  cbn [Nat2Z.inj_succ] in Hs. unfold U64_MAX in Hs.
  destruct (c <? ep); [apply IH; unfold U64_MAX; lia|].
  destruct (ring_slot (ac_contributions e) ep (ew_size _ He) Hep) as (a & -> & Hina). cbn [default].
  pose proof (ew_amounts _ He) as Hamt. rewrite Forall_forall in Hamt. specialize (Hamt _ Hina). unfold U64_MAX in Hamt.
  unfold id. destruct (Z.eqb_spec a 0); [apply IH; unfold U64_MAX; lia|].
  destruct (Z.leb_spec (window_start now) (ep * 3600)) as [|Hb].
  - rewrite (sat_u128_id (acc + a)) by lia. apply IH; unfold U64_MAX; lia.
  - rewrite Hw in * by done. set (ov := ep * 3600 + 3600 - window_start now). assert (0 < ov < 3600) by (unfold ov; lia).
    rewrite (sat_i64_id ov) by widths. rewrite (sat_u128_id (a * ov)) by nia.
    rewrite Z.quot_div_nonneg by nia.
    assert (0 ≤ a * ov / 3600 ≤ a) by (split; [apply Z.div_pos; nia|apply Z.div_le_upper_bound; nia]).
    rewrite sat_u128_id by lia. apply IH; unfold U64_MAX; lia.
Qed.

Lemma agent_rolling_agrees e now :
  entry_widths e → clock_ok now → getAgentRolling24hUsd e now = Ok (get_agent_rolling_24h_usd e now).
Proof.
  intros He Hnow. unfold getAgentRolling24hUsd, get_agent_rolling_24h_usd, clamp_u64.
  destruct (now <=? 0); [done|]. unfold clock_ok in Hnow.
  assert (0 ≤ Z.quot now OVERLAY_EPOCH_DURATION ≤ MAX_EPOCH).
  { unfold OVERLAY_EPOCH_DURATION. rewrite Z.quot_div_nonneg by lia. split; [apply Z.div_pos; lia|].
    apply Z.div_le_upper_bound; unfold MAX_EPOCH in *; lia. }
  pose proof (ew_last _ He). assert (MAX_EPOCH / 6 ≤ MAX_EPOCH) by (by vm_compute).
  rewrite (sat_i64_id (Z.quot now _ - _)) by widths.
  destruct (Z.of_nat OVERLAY_NUM_EPOCHS <? _); [done|].
  rewrite (agent_loop_agrees now); try done; unfold OVERLAY_NUM_EPOCHS, U64_MAX; lia.
Qed.

Section protocols.
Context (to_bytes : string → list Z) (Hlen : ∀ a, length (to_bytes a) = 32%nat).

Lemma bytes_match bytes a :
  length bytes = 32%nat → bytesMatchAddress to_bytes bytes a = true ↔ bytes = to_bytes a.
Proof using Hlen.
  intros Hb. unfold bytesMatchAddress. rewrite Hb, Hlen, bool_decide_true by done. rewrite forallb_forall. split.
  - intros H. apply list_eq. intros i. destruct (decide (i < 32)%nat) as [Hi|Hi].
    + apply (bool_decide_eq_true (bytes !! i = to_bytes a !! i)), H, in_seq. lia.
    + rewrite !lookup_ge_None_2 by (rewrite ?Hlen; lia). done.
  - intros -> i _. by apply bool_decide_eq_true.
Qed.

Lemma protocol_spend_agrees t protocol now :
  clock_ok now → Forall (λ c, length (pc_protocol c) = 32%nat ∧ 0 ≤ pc_windowStart c ≤ MAX_EPOCH) (st_protocolCounters t) →
  getProtocolSpend to_bytes t protocol now = get_protocol_spend t (to_bytes protocol) now.
Proof using Hlen.
  intros Hnow Hc. unfold getProtocolSpend, get_protocol_spend. destruct (now <=? 0); [done|].
  destruct (epoch_bounds now Hnow) as [Hq He]. change EPOCH_DURATION with 600. rewrite Hq.
  induction Hc as [|c cs [Hl Hw] Hcs IH]; [done|]. cbn [list_find].
  pose proof (bytes_match (pc_protocol c) protocol Hl) as Hm.
  destruct (decide (pc_protocol c = to_bytes protocol)) as [Heq|Hne].
  - rewrite decide_True by (by apply Is_true_true, Hm). rewrite sat_i64_id by widths. done.
  - rewrite decide_False by (intros Hx%Is_true_true; tauto).
    destruct (list_find _ cs) as [[i x]|], (list_find (λ c, pc_protocol c = to_bytes protocol) cs) as [[j y]|]; exact IH.
Qed.
End protocols.

(** C32: Client and program agree on every rolling spend they both compute from
    the same accounts at the same time: the vault's, an agent's, and a
    protocol's.  The client's big integers never meet the saturations of the
    program's machine integers. *)
Theorem client_reads_the_programs_ledger to_bytes t e protocol now :
  (∀ a, length (to_bytes a) = 32%nat) → clock_ok now → widths_ok t → entry_widths e →
  Forall (λ c, length (pc_protocol c) = 32%nat ∧ 0 ≤ pc_windowStart c ≤ MAX_EPOCH) (st_protocolCounters t) →
  getRolling24hUsd t now = get_rolling_24h_usd t now ∧
  getAgentRolling24hUsd e now = Ok (get_agent_rolling_24h_usd e now) ∧
  getProtocolSpend to_bytes t protocol now = get_protocol_spend t (to_bytes protocol) now.
Proof.
  intros Hlen Hnow Ht He Hc. split_and!.
  - symmetry. by apply rolling_agrees.
  - by apply agent_rolling_agrees.
  - by apply protocol_spend_agrees.
Qed.

(** ** The agent's limit *)

Definition demo_entry : AgentContributionEntry := {|
  ac_agent := []; ac_lastWriteEpoch := 0; ac_contributions := replicate 24 0 |}.

Definition agent_charges (limit : Z) (spends : list (Z * Z)) : result string AgentContributionEntry :=
  foldl (λ r s, e ← r; agent_check limit s.1 s.2 e) (Ok demo_entry) spends.

(** An agent's limit has the same gap, an hour wide: the limit at the end
    of an hour, one base unit at the start of the hour that takes its place,
    and the limit once more are all accepted within 23 hours. *)
Theorem agent_limit_is_spent_twice_in_23_hours :
  is_ok (agent_charges 1000000 [(363599, 1000000); (446401, 1); (446401, 999999)]) = true ∧
  is_ok (agent_charges 1000000 [(363599, 1000000); (446401, 1000000)]) = false ∧
  446401 - 363599 = 23 * 3600 + 2.
Proof. vm_compute. done. Qed.

Lemma client_reads_the_programs_ledger_witness :
  getRolling24hUsd (new_tracker []) 600 = get_rolling_24h_usd (new_tracker []) 600.
Proof.
  apply (client_reads_the_programs_ledger (λ _, replicate 32 0) (new_tracker []) demo_entry "p" 600).
  - reflexivity.
  - split; [lia|vm_compute; discriminate].
  - constructor; [reflexivity|apply Forall_replicate; vm_compute; intuition discriminate|vm_compute; intuition discriminate].
  - constructor; [vm_compute; intuition discriminate|reflexivity|apply Forall_replicate; vm_compute; intuition discriminate].
  - constructor.
Defined.
