(* ===== verification/SealedSpend.v ===== *)
(** * Sealing against the program's ledger

    [seal] refuses a bundle whose amount with fees does not fit the remaining
    daily budget; [finalize_session] charges what was measured, with fees
    computed on it.  This file puts the two together: a bundle sealed against
    the vault's accounts passes the program's daily check at that time for
    whatever it really spends, up to the amount it declared.  The other limits
    of the program are not looked at by [seal]. *)

From S2P Require Import Prelude SdkTypes StateResolver Composer Seal SpendLedger.

Local Open Scope Z_scope.

(** ** The fees of [finalize_session] *)

Definition checked_mul (a b : Z) : result string Z := if U64_MAX <? a * b then Throw "Overflow" else Ok (a * b).

Definition ceil_fee (amount rate : Z) : result string Z :=
  product ← checked_mul amount rate;
  sum ← checked_add product (FEE_DENOM - 1);
  Ok (sum / FEE_DENOM).

(** What leaves the vault for a measured spend. *)
Definition net_value_out (policy : PolicyConfig) (actual_spend : Z) : result string Z :=
  protocol_fee ← ceil_fee actual_spend PROTOCOL_FEE_RATE;
  developer_fee ← ceil_fee actual_spend (pol_developerFeeRate policy);
  with_protocol ← checked_add actual_spend protocol_fee;
  checked_add with_protocol developer_fee.

(** The stablecoin branch of [finalize_session]: the fees, then the caps. *)
Definition finalize_spend (to_bytes : string → list Z) (policy : PolicyConfig) (agents : list AgentEntry)
    (agent protocol : string) (now actual_spend : Z) (l : Ledger) : result string Ledger :=
  amount ← net_value_out policy actual_spend;
  finalize_charge to_bytes policy agents agent protocol now amount l.

(** Amounts whose fees stay within 64 bits: ten billion dollars. *)
Definition MAX_FEE_AMOUNT : Z := 10 ^ 16.

Lemma ceil_fee_client amount rate :
  0 ≤ amount ≤ MAX_FEE_AMOUNT → 0 ≤ rate ≤ 500 → ceil_fee amount rate = Ok (ceilFee amount rate).
Proof.
  intros Ha Hr. unfold MAX_FEE_AMOUNT in Ha. unfold ceil_fee, checked_mul, checked_add, ceilFee, FEE_DENOM.
  assert (0 ≤ amount * rate ≤ 10 ^ 16 * 500) by nia.
  destruct (Z.ltb_spec U64_MAX (amount * rate)); [unfold U64_MAX in *; lia|]. cbn [mbind result_bind].
  destruct (Z.ltb_spec U64_MAX (amount * rate + (1000000 - 1))); [unfold U64_MAX in *; lia|]. cbn [mbind result_bind].
  rewrite Z.quot_div_nonneg by lia. do 2 f_equal. lia.
Qed.

Lemma ceilFee_mono a b rate : 0 ≤ a ≤ b → 0 ≤ rate → ceilFee a rate ≤ ceilFee b rate.
Proof.
  intros Hab Hr. unfold ceilFee, FEE_DENOM. rewrite !Z.quot_div_nonneg by nia.
  apply Z.div_le_mono; [lia|]. nia.
Qed.

Lemma ceilFee_small amount rate :
  0 ≤ amount ≤ MAX_FEE_AMOUNT → 0 ≤ rate ≤ 500 → 0 ≤ ceilFee amount rate ≤ MAX_FEE_AMOUNT.
Proof.
  intros Ha Hr. pose proof (ceilFee_bounds amount rate ltac:(lia) ltac:(lia)) as Hb.
  unfold FEE_DENOM, MAX_FEE_AMOUNT in *. nia.
Qed.

Lemma net_value_out_client policy actual :
  0 ≤ actual ≤ MAX_FEE_AMOUNT → 0 ≤ pol_developerFeeRate policy ≤ 500 →
  net_value_out policy actual =
    Ok (actual + ceilFee actual PROTOCOL_FEE_RATE + ceilFee actual (pol_developerFeeRate policy)).
Proof.
  intros Ha Hr. unfold net_value_out.
  rewrite !ceil_fee_client by (done || (unfold PROTOCOL_FEE_RATE; lia)). cbn [mbind result_bind].
  pose proof (ceilFee_small actual PROTOCOL_FEE_RATE Ha ltac:(unfold PROTOCOL_FEE_RATE; lia)).
  pose proof (ceilFee_small actual (pol_developerFeeRate policy) Ha Hr).
  unfold checked_add, MAX_FEE_AMOUNT in *.
  destruct (Z.ltb_spec U64_MAX (actual + ceilFee actual PROTOCOL_FEE_RATE)); [unfold U64_MAX in *; lia|].
  cbn [mbind result_bind].
  destruct (Z.ltb_spec U64_MAX (actual + ceilFee actual PROTOCOL_FEE_RATE + ceilFee actual (pol_developerFeeRate policy)));
    [unfold U64_MAX in *; lia|done].
Qed.

(** The budget a resolved state carries. *)
Lemma resolved_budget enc vault policy t overlay usdc usdt agent now state :
  resolveVaultState enc (Some vault) (Some policy) (Some t) overlay usdc usdt agent now = Ok state →
  rs_policy state = policy ∧
  rs_globalBudget state = budget_of (getRolling24hUsd t now) (pol_dailySpendingCapUsd policy).
Proof. unfold resolveVaultState. by intros ([a b] & _ & [= <-])%bind_Ok_inv. Qed.

Lemma within_budget_passes t policy now amount :
  widths_ok t → clock_ok now → 0 < amount → pol_dailySpendingCapUsd policy ≤ U64_MAX →
  amount ≤ remaining (budget_of (getRolling24hUsd t now) (pol_dailySpendingCapUsd policy)) →
  daily_check policy now amount t = Ok tt.
Proof.
  intros Ht Hnow Ha Hcap Hb. unfold daily_check, checked_add. rewrite (rolling_agrees t now Ht Hnow).
  unfold budget_of in Hb. cbn [remaining] in Hb.
  destruct (Z.ltb_spec (getRolling24hUsd t now) (pol_dailySpendingCapUsd policy)); [|lia].
  destruct (Z.ltb_spec U64_MAX (getRolling24hUsd t now + amount)); [lia|]. cbn [mbind result_bind].
  destruct (Z.ltb_spec (pol_dailySpendingCapUsd policy) (getRolling24hUsd t now + amount)); [lia|done].
Qed.

(** C9: Sealing implies the daily check.  When [seal] accepts a spend against
    the state resolved from the vault's accounts, the program's daily check,
    on those accounts and at that time, accepts whatever the bundle then
    really spends up to the declared amount, with the fees the program
    computes on it. *)
Theorem sealed_spend_passes_the_daily_check w params r enc vault policy t overlay usdc usdt now actual :
  seal w params = Ok r →
  resolve_state w params =
    resolveVaultState enc (Some vault) (Some policy) (Some t) overlay usdc usdt (sp_agent params) now →
  widths_ok t → clock_ok now → pol_dailySpendingCapUsd policy ≤ U64_MAX →
  0 ≤ pol_developerFeeRate policy ≤ 500 → 0 < actual ≤ sp_amount params → sp_amount params ≤ MAX_FEE_AMOUNT →
  ∃ out, net_value_out policy actual = Ok out ∧ actual ≤ out ∧ daily_check policy now out t = Ok tt.
Proof.
  intros [p]%seal_Ok Hres Ht Hnow Hcap Hrate Hact Hmax.
  pose proof (pt_checked _ _ _ p) as Hc. pose proof (sc_state _ _ _ _ Hc) as Hstate.
  rewrite Hres in Hstate. apply resolved_budget in Hstate as [Hpol Hbud].
  pose proof (sc_headroom _ _ _ _ Hc ltac:(lia)) as Hroom. unfold totalWithFees in Hroom. rewrite Hbud, Hpol in Hroom.
  pose proof (ceilFee_mono actual (sp_amount params) PROTOCOL_FEE_RATE ltac:(lia) ltac:(done)).
  pose proof (ceilFee_mono actual (sp_amount params) (pol_developerFeeRate policy) ltac:(lia) ltac:(lia)).
  pose proof (ceilFee_small actual PROTOCOL_FEE_RATE ltac:(lia) ltac:(unfold PROTOCOL_FEE_RATE; lia)).
  pose proof (ceilFee_small actual (pol_developerFeeRate policy) ltac:(lia) Hrate).
  rewrite net_value_out_client by (done || lia). eexists. split; [done|]. split; [lia|].
  apply within_budget_passes; try done; lia.
Qed.

(** ** A concrete seal *)

Definition with_resolve (w : World) (r : result js_exn ResolvedVaultState) : World := {|
  w_hookSkips := w_hookSkips w; w_cacheAgeMs := w_cacheAgeMs w; w_resolve := r; w_plugins := w_plugins w;
  w_deriveAta := w_deriveAta w; w_bytesToAddress := w_bytesToAddress w;
  w_getProgramDataAddress := w_getProgramDataAddress w; w_fetch := w_fetch w; w_blockhash := w_blockhash w;
  w_altVerified := w_altVerified w; w_accountData := w_accountData w; w_cuLimitIx := w_cuLimitIx w;
  w_cuPriceIx := w_cuPriceIx w; w_validateIx := w_validateIx w; w_finalizeIx := w_finalizeIx w;
  w_wire := w_wire w; w_sha256 := w_sha256 w |}.

Definition demo_resolved : result js_exn ResolvedVaultState :=
  resolveVaultState (λ _, []) (Some (rs_vault Demo.state)) (Some (rs_policy Demo.state))
    (Some (new_tracker [])) None None None (sp_agent Demo.params) 600.

Definition demo_seal_world : World := with_resolve Demo.world demo_resolved.

Lemma sealed_spend_passes_the_daily_check_witness :
  is_ok (seal demo_seal_world Demo.params) = true ∧
  ∃ out, net_value_out (rs_policy Demo.state) 900000 = Ok out ∧ 900000 ≤ out ∧
         daily_check (rs_policy Demo.state) 600 out (new_tracker []) = Ok tt.
Proof.
  destruct (seal demo_seal_world Demo.params) as [r|] eqn:Hseal; [|vm_compute in Hseal; discriminate Hseal].
  split; [reflexivity|].
  refine (sealed_spend_passes_the_daily_check demo_seal_world Demo.params r (λ _, [])
    (rs_vault Demo.state) (rs_policy Demo.state) (new_tracker []) None None None 600 900000 Hseal eq_refl
    _ _ _ _ _ _).
  - constructor; [reflexivity|apply Forall_replicate; vm_compute; intuition discriminate|vm_compute; intuition discriminate].
  - split; [lia|vm_compute; discriminate].
  - vm_compute. discriminate.
  - vm_compute. intuition discriminate.
  - vm_compute. intuition discriminate.
  - vm_compute. discriminate.
Defined.

(** ** What [seal] leaves to the program *)

Definition tight_policy : PolicyConfig := {|
  pol_dailySpendingCapUsd := 2000000; pol_maxTransactionSizeUsd := 500000;
  pol_hasProtocolCaps := false; pol_protocols := [JUPITER_PROGRAM]; pol_protocolCaps := [];
  pol_protocolMode := 1; pol_protocolHashes := []; pol_developerFeeRate := 500;
  pol_stableBalanceFloor := 0; pol_policyVersion := 3; pol_destinationMode := 0;
  pol_allowedDestinations := []; pol_timelockDuration := 3600; pol_maxSlippageBps := 100;
  pol_sessionExpirySeconds := 60; pol_cosignRequired := false; pol_cosignSessionPubkey := "";
  pol_perRecipientDailyCapUsd := 0; pol_operatorGrantDelaySeconds := 0; pol_destinationGraylist := [] |}.

(** [seal] looks at the daily cap only.  A bundle above the vault's limit
    per transaction is sealed without complaint, and the program then refuses
    it: the agent learns of the limit by paying for a failed transaction. *)
Theorem seal_leaves_the_transaction_limit :
  is_ok (seal (with_resolve Demo.world
    (resolveVaultState (λ _, []) (Some (rs_vault Demo.state)) (Some tight_policy)
       (Some (new_tracker [])) None None None (sp_agent Demo.params) 600)) Demo.params) = true ∧
  finalize_spend (λ _, []) tight_policy (av_agents (rs_vault Demo.state)) (sp_agent Demo.params) JUPITER_PROGRAM
    600 (sp_amount Demo.params) {| ld_tracker := new_tracker []; ld_overlay := ld_overlay demo_ledger |} =
  Throw "TransactionTooLarge".
Proof. split; vm_compute; reflexivity. Qed.
