(* ===== verification/AgentTransfer.v ===== *)
(** * The program's agent_transfer

    The whole handler of [instructions/agent_transfer.rs]: the guards, the caps
    of [SpendLedger], the ten per-recipient counters of [state/tracker.rs], the
    fees, the token movements, the balance floor, the audit entry and the
    vault's statistics.  The token program is third-party: it is the class
    [TokenProgram], with what the handler relies on in [LawfulTokens], and an
    instance for the witnesses.

    The theorems: an accepted transfer moves exactly its amount, to an allowed
    destination and the two fee accounts, and leaves the floor; over any
    history a recipient gets at most the cap in a window and at most twice the
    cap in any 24 hours; and what the client's [buildAgentTransfer] refuses the
    program refuses too. *)

From S2P Require Import Prelude SdkTypes IntentDigest StateResolver Seal OwnerTx AuditLog SpendLedger SealedSpend.

Local Open Scope Z_scope.

(** ** The per-recipient counters *)

Record RecipientCounter : Type := { rc_recipient : list Z; rc_windowStart : Z; rc_windowSpend : Z }.

#[global] Instance RecipientCounter_eq_dec : EqDecision RecipientCounter.
Proof. solve_decision. Defined.

(** [per_recipient] and [per_recipient_count] of the tracker. *)
Record Recipients : Type := { rt_entries : list RecipientCounter; rt_count : Z }.

Definition MAX_PER_RECIPIENT_ENTRIES : nat := 10.

Definition is_expired (now : Z) (c : RecipientCounter) : bool :=
  ROLLING_WINDOW_SECONDS <=? sat_i64 (now - rc_windowStart c).

(** The slots in use, and the slot of a recipient. *)
Definition active (r : Recipients) : nat := Z.to_nat (rt_count r) `min` length (rt_entries r).

Definition find_recipient (r : Recipients) (recipient : list Z) : option (nat * RecipientCounter) :=
  list_find (λ c, rc_recipient c = recipient) (take (active r) (rt_entries r)).

Definition get_recipient_spend (now : Z) (recipient : list Z) (r : Recipients) : Z :=
  if now <=? 0 then 0 else
  match find_recipient r recipient with
  | Some (_, c) => if ROLLING_WINDOW_SECONDS <=? sat_i64 (now - rc_windowStart c) then 0 else rc_windowSpend c
  | None => 0
  end.

Definition with_slot (i : nat) (c : RecipientCounter) (r : Recipients) : Recipients := {|
  rt_entries := <[i := c]> (rt_entries r); rt_count := rt_count r |}.

(** The expired entry with the oldest window, of all slots. *)
Definition oldest_step (now : Z) (best : option nat * Z) (x : nat * RecipientCounter) : option nat * Z :=
  if is_expired now x.2 && (rc_windowStart x.2 <? best.2) then (Some x.1, rc_windowStart x.2) else best.

Definition oldest_expired (now : Z) (r : Recipients) : option nat :=
  fst (foldl (oldest_step now) (None, I64_MAX)
         (zip (seq 0 MAX_PER_RECIPIENT_ENTRIES) (rt_entries r))).

Definition record_recipient_spend (now : Z) (recipient : list Z) (usd_amount : Z) (r : Recipients)
    : result string Recipients :=
  _ ← throw_if (now <=? 0) "InvalidSession";
  let fresh := {| rc_recipient := recipient; rc_windowStart := now; rc_windowSpend := usd_amount |} in
  match find_recipient r recipient with
  | Some (i, c) =>
      if is_expired now c then Ok (with_slot i fresh r)
      else spend ← checked_add (rc_windowSpend c) usd_amount;
           Ok (with_slot i {| rc_recipient := rc_recipient c; rc_windowStart := rc_windowStart c;
                              rc_windowSpend := spend |} r)
  | None =>
      if bool_decide (active r < MAX_PER_RECIPIENT_ENTRIES)%nat
      then _ ← throw_if (rt_count r =? 255) "Overflow";
           Ok {| rt_entries := <[active r := fresh]> (rt_entries r); rt_count := rt_count r + 1 |}
      else match oldest_expired now r with
           | Some i => Ok (with_slot i fresh r)
           | None => Throw "ErrRecipientCapExceeded"
           end
  end.

(** The block of the handler: only an armed cap is checked and recorded. *)
Definition recipient_charge (policy : PolicyConfig) (now : Z) (recipient : list Z) (usd_amount : Z)
    (r : Recipients) : result string Recipients :=
  if 0 <? pol_perRecipientDailyCapUsd policy
  then new_total ← checked_add (get_recipient_spend now recipient r) usd_amount;
       _ ← throw_if (pol_perRecipientDailyCapUsd policy <? new_total) "ErrRecipientCapExceeded";
       record_recipient_spend now recipient usd_amount r
  else Ok r.

(** ** Tokens *)

Record TokenAccount : Type := { tk_mint : string; tk_owner : string; tk_amount : Z; tk_frozen : bool }.

Abbreviation Tokens := (gmap string TokenAccount).

(** The transfer instruction of the token program: source, destination,
    authority, amount. *)
Class TokenProgram : Type := token_transfer : Tokens → string → string → string → Z → result string Tokens.

Definition add_to (a : TokenAccount) (n : Z) : TokenAccount := {|
  tk_mint := tk_mint a; tk_owner := tk_owner a; tk_amount := tk_amount a + n; tk_frozen := tk_frozen a |}.

(** What a transfer that succeeds does. *)
Class LawfulTokens (T : TokenProgram) : Prop := {
  transfer_moves w w' from to authority n :
    token_transfer w from to authority n = Ok w' →
    ∃ a b, w !! from = Some a ∧ w !! to = Some b ∧ 0 ≤ n ≤ tk_amount a ∧
      w' = if bool_decide (from = to) then w
           else <[to := add_to b n]> (<[from := add_to a (- n)]> w);
}.

(** ** The handler *)

(** The accounts of one vault. *)
Record VaultState : Type := {
  vs_key : string;
  vs_vault : AgentVault;
  vs_policy : PolicyConfig;
  vs_ledger : Ledger;
  vs_recipients : Recipients;
  vs_logs : AuditLogs;
}.

(** The keys an instruction names. *)
Record TransferKeys : Type := {
  tr_agent : string;
  tr_vaultToken : string;
  tr_mint : string;
  tr_destination : string;
  tr_feeDestination : option string;
  tr_treasury : option string;
  tr_remaining : list string;
}.

Definition checked_sub (a b : Z) : result string Z := if a <? b then Throw "Overflow" else Ok (a - b).

Definition USD_DECIMALS : Z := 6.

Definition stablecoin_to_usd (amount token_decimals : Z) : result string Z :=
  if token_decimals =? USD_DECIMALS then Ok amount else
  if token_decimals <? USD_DECIMALS then checked_mul amount (10 ^ (USD_DECIMALS - token_decimals)) else
  _ ← throw_if (U64_MAX <? 10 ^ (token_decimals - USD_DECIMALS)) "Overflow";
  Ok (amount / 10 ^ (token_decimals - USD_DECIMALS)).

Definition is_destination_allowed (policy : PolicyConfig) (owner : string) : bool :=
  (pol_destinationMode policy =? 0) && bool_decide (owner ∈ pol_allowedDestinations policy).

Definition is_destination_graylisted (policy : PolicyConfig) (destination : string) (now : Z) : bool :=
  match list_find (λ e, e.1 = destination) (pol_destinationGraylist policy) with
  | Some (_, e) => now <? e.2
  | None => false
  end.

Definition CAPABILITY_OPERATOR : Z := 2.

Section handler.
Context `{TokenProgram}.
(** The 32 bytes of a key; the decimals of a mint account; the two mints the
    program is built for; the fee treasury of the build. *)
Context (to_bytes : string → list Z) (decimals : string → option Z) (usdc usdt treasury : string).

Definition is_stablecoin_mint (mint : string) : bool := bool_decide (mint = usdc) || bool_decide (mint = usdt).

Definition the_account (w : Tokens) (key : string) : result string TokenAccount :=
  match w !! key with Some a => Ok a | None => Throw "AccountNotInitialized" end.

(** The accounts Anchor loads before the handler runs: the source, the decimals
    of its mint, the destination. *)
Definition load_accounts (k : TransferKeys) (s : VaultState) (w : Tokens)
    : result string (TokenAccount * Z * TokenAccount) :=
  _ ← throw_if (negb (bool_decide (tr_agent k ∈ (ae_pubkey <$> av_agents (vs_vault s))))) "UnauthorizedAgent";
  src ← the_account w (tr_vaultToken k);
  _ ← throw_if (negb (bool_decide (tk_owner src = vs_key s))) "InvalidTokenAccount";
  d ← match decimals (tr_mint k) with Some d => Ok d | None => Throw "AccountNotInitialized" end;
  _ ← throw_if (negb (bool_decide (tr_mint k = tk_mint src))) "InvalidTokenAccount";
  dst ← the_account w (tr_destination k);
  _ ← match tr_feeDestination k with Some f => _ ← the_account w f; Ok tt | None => Ok tt end;
  _ ← match tr_treasury k with Some f => _ ← the_account w f; Ok tt | None => Ok tt end;
  Ok (src, d, dst).

(** Steps 0 to 7: who, what and where; the amount in dollars. *)
Definition transfer_guards (top_level : bool) (now amount expected_policy_version : Z) (k : TransferKeys)
    (s : VaultState) (src dst : TokenAccount) (d : Z) : result string Z :=
  _ ← throw_if (negb top_level) "CpiCallNotAllowed";
  _ ← throw_if (negb (pol_policyVersion (vs_policy s) =? expected_policy_version)) "PolicyVersionMismatch";
  _ ← match av_status (vs_vault s) with Active => Ok tt | _ => Throw "VaultNotActive" end;
  agent_entry ← get_agent (av_agents (vs_vault s)) (tr_agent k);
  _ ← throw_if (ae_paused agent_entry) "AgentPaused";
  _ ← throw_if (ae_capability agent_entry <? CAPABILITY_OPERATOR) "InsufficientPermissions";
  _ ← throw_if (amount <=? 0) "TransactionTooLarge";
  _ ← throw_if (negb (is_stablecoin_mint (tk_mint src))) "UnsupportedToken";
  _ ← throw_if (negb (is_destination_allowed (vs_policy s) (tk_owner dst))) "DestinationNotAllowed";
  _ ← throw_if (is_destination_graylisted (vs_policy s) (tk_owner dst) now) "ErrGraylistFriction";
  _ ← throw_if (negb (bool_decide (tk_mint dst = tk_mint src))) "InvalidTokenAccount";
  stablecoin_to_usd amount d.

(** A fee to the account the instruction names for it, which must be the
    payee's and of the same mint. *)
Definition pay_fee (err payee mint source vault : string) (account : option string) (fee : Z)
    (loaded w : Tokens) : result string Tokens :=
  if 0 <? fee then
    match account with
    | None => Throw err
    | Some key =>
        a ← the_account loaded key;
        _ ← throw_if (negb (bool_decide (tk_owner a = payee))) err;
        _ ← throw_if (negb (bool_decide (tk_mint a = mint))) err;
        token_transfer w source key vault fee
    end
  else Ok w.

(** The three transfers: the net amount, the protocol's and the developer's
    fee. *)
Definition move_tokens (k : TransferKeys) (s : VaultState) (src : TokenAccount) (amount : Z) (w : Tokens)
    : result string (Z * Tokens) :=
  protocol_fee ← ceil_fee amount PROTOCOL_FEE_RATE;
  developer_fee ← ceil_fee amount (pol_developerFeeRate (vs_policy s));
  rest ← checked_sub amount protocol_fee;
  net_amount ← checked_sub rest developer_fee;
  w1 ← token_transfer w (tr_vaultToken k) (tr_destination k) (vs_key s) net_amount;
  w2 ← pay_fee "InvalidProtocolTreasury" treasury (tk_mint src) (tr_vaultToken k) (vs_key s)
         (tr_treasury k) protocol_fee w w1;
  w3 ← pay_fee "InvalidFeeDestination" (av_feeDestination (vs_vault s)) (tk_mint src) (tr_vaultToken k)
         (vs_key s) (tr_feeDestination k) developer_fee w w2;
  Ok (developer_fee, w3).

Definition MAX_STABLE_FLOOR_WALK_ITERATIONS : nat := 16.

(** A token account of the vault that counts for the floor. *)
Definition counts (vault : string) (a : TokenAccount) : bool :=
  bool_decide (tk_owner a = vault) && is_stablecoin_mint (tk_mint a).

(** The walk over the remaining accounts: [seen] are the keys counted so far. *)
Fixpoint floor_walk (vault src_mint : string) (w : Tokens) (iterations : nat) (seen : list string)
    (combined : Z) (remaining : list string) : result string Z :=
  match remaining with
  | [] => Ok combined
  | key :: rest =>
      _ ← throw_if (bool_decide (MAX_STABLE_FLOOR_WALK_ITERATIONS ≤ iterations)%nat) "IxMetaCountExceeded";
      if bool_decide (key ∈ seen) then floor_walk vault src_mint w (S iterations) seen combined rest else
      match w !! key with
      | None => floor_walk vault src_mint w (S iterations) seen combined rest
      | Some a =>
          if negb (counts vault a) || bool_decide (tk_mint a = src_mint)
          then floor_walk vault src_mint w (S iterations) seen combined rest
          else combined' ← checked_add combined (tk_amount a);
               floor_walk vault src_mint w (S iterations) (key :: seen) combined' rest
      end
  end.

Definition floor_check (k : TransferKeys) (s : VaultState) (src : TokenAccount) (w : Tokens) : result string unit :=
  let floor := pol_stableBalanceFloor (vs_policy s) in
  if 0 <? floor then
    source ← match w !! tr_vaultToken k with
             | Some a => if counts (vs_key s) a then checked_add 0 (tk_amount a) else Ok 0
             | None => Ok 0
             end;
    combined ← floor_walk (vs_key s) (tk_mint src) w 0 [tr_vaultToken k] source (tr_remaining k);
    throw_if (combined <? floor) "ErrStableFloorViolation"
  else Ok tt.

(** The vault's statistics. *)
Definition with_stats (amount developer_fee : Z) (v : AgentVault) : result string AgentVault :=
  txs ← checked_add (av_totalTransactions v) 1;
  volume ← checked_add (av_totalVolume v) amount;
  fees ← (if 0 <? developer_fee then checked_add (av_totalFeesCollected v) developer_fee
          else Ok (av_totalFeesCollected v));
  Ok {| av_agents := av_agents v; av_status := av_status v; av_feeDestination := av_feeDestination v;
        av_owner := av_owner v; av_totalVolume := volume; av_totalFeesCollected := fees;
        av_observeOnly := av_observeOnly v; av_totalDepositedUsd := av_totalDepositedUsd v;
        av_totalWithdrawnUsd := av_totalWithdrawnUsd v; av_totalTransactions := txs;
        av_createdAt := av_createdAt v |}.

Definition agent_transfer (top_level : bool) (sv : Sysvars) (amount expected_policy_version : Z)
    (k : TransferKeys) (s : VaultState) (w : Tokens) : result string (VaultState * Tokens) :=
  let now := sv_unix_timestamp sv in
  '(src, d, dst) ← load_accounts k s w;
  usd_amount ← transfer_guards top_level now amount expected_policy_version k s src dst d;
  ledger ← transfer_charge to_bytes (vs_policy s) (av_agents (vs_vault s)) (tr_agent k) now usd_amount (vs_ledger s);
  recipients ← recipient_charge (vs_policy s) now (to_bytes (tk_owner dst)) usd_amount (vs_recipients s);
  '(developer_fee, w') ← move_tokens k s src amount w;
  _ ← floor_check k s src w';
  logs ← agent_transfer_audit (to_bytes (tk_owner dst)) amount sv (vs_logs s);
  vault ← with_stats amount developer_fee (vs_vault s);
  Ok ({| vs_key := vs_key s; vs_vault := vault; vs_policy := vs_policy s; vs_ledger := ledger;
         vs_recipients := recipients; vs_logs := logs |}, w').
End handler.

(** ** What an accepted transfer does *)

Definition balance (w : Tokens) (key : string) : Z := from_option tk_amount 0 (w !! key).

Definition at_key (key : string) (n : Z) (key' : string) : Z := if bool_decide (key' = key) then n else 0.

(** Token amounts are not negative. *)
Definition tokens_ok (w : Tokens) : Prop := map_Forall (λ _ a, 0 ≤ tk_amount a) w.

(** What the vault holds in stablecoins. *)
Definition stables (usdc usdt vault : string) (w : Tokens) : Z :=
  sumZ (map (λ x, tk_amount x.2) (filter (λ x, counts usdc usdt vault x.2) (map_to_list w))).

Section accepted.
Context `{LawfulTokens}.

Lemma transfer_balance w w' from to authority n key :
  token_transfer w from to authority n = Ok w' →
  balance w' key = balance w key + at_key to n key - at_key from n key.
Proof.
  intros (a & b & Ha & Hb & Hn & ->)%transfer_moves. unfold at_key, balance.
  case_bool_decide as Hft; [subst; lia|].
  destruct (decide (key = to)) as [->|Ht].
  { rewrite lookup_insert_eq, Hb, !bool_decide_decide, decide_True, decide_False by done. simpl. lia. }
  rewrite lookup_insert_ne by done. rewrite (bool_decide_eq_false_2 (key = to)) by done.
  destruct (decide (key = from)) as [->|Hf].
  { rewrite lookup_insert_eq, Ha, bool_decide_eq_true_2 by done. simpl. lia. }
  rewrite lookup_insert_ne, bool_decide_eq_false_2 by done. lia.
Qed.

Lemma transfer_keeps w w' from to authority n :
  token_transfer w from to authority n = Ok w' → tokens_ok w → tokens_ok w'.
Proof.
  intros (a & b & Ha & Hb & Hn & ->)%transfer_moves Hw. case_bool_decide; [done|].
  apply map_Forall_insert_2; [pose proof (Hw _ _ Hb); simpl in *; lia|].
  apply map_Forall_insert_2; [simpl; lia|done].
Qed.

Lemma pay_fee_spec err payee mint source vault account fee loaded w w' :
  0 ≤ fee → pay_fee err payee mint source vault account fee loaded w = Ok w' →
  (tokens_ok w → tokens_ok w') ∧
  (∀ key, balance w' key = balance w key + match account with Some f => at_key f fee key | None => 0 end
                                         - at_key source fee key) ∧
  (0 < fee → ∃ f a, account = Some f ∧ loaded !! f = Some a ∧ tk_owner a = payee ∧ tk_mint a = mint).
Proof.
  intros Hfee. unfold pay_fee. destruct (Z.ltb_spec 0 fee) as [Hpos|Hz].
  - destruct account as [f|]; [|done]. unfold the_account. intros H1. inv_ok.
    destruct (loaded !! f) as [a|] eqn:Ea; [|done]. inv_ok.
    repeat match goal with E : negb _ = false |- _ => apply negb_false_iff, bool_decide_eq_true in E end.
    split_and!; [by eapply transfer_keeps|intros key; by eapply transfer_balance|]. eauto 10.
  - intros [= <-]. assert (fee = 0) as -> by lia. split_and!; [done| |lia].
    intros key. unfold at_key. destruct account; repeat case_bool_decide; lia.
Qed.

Lemma ceil_fee_nonneg amount rate fee : 0 ≤ amount → 0 ≤ rate → ceil_fee amount rate = Ok fee → 0 ≤ fee.
Proof.
  intros Ha Hr. unfold ceil_fee, checked_mul, checked_add. intros Hf. inv_ok.
  destruct (U64_MAX <? amount * rate); [done|]. inv_ok.
  destruct (U64_MAX <? _); [done|]. inv_ok. apply Z.div_pos; unfold FEE_DENOM; nia.
Qed.

Lemma checked_sub_Ok a b c : checked_sub a b = Ok c → c = a - b ∧ b ≤ a.
Proof. unfold checked_sub. destruct (Z.ltb_spec a b); [done|]. intros [= <-]. lia. Qed.

(** The exact movement: the source pays the amount, the destination gets what
    the fees leave. *)
Definition moved (k : TransferKeys) (amount protocol_fee developer_fee : Z) (key : string) : Z :=
  at_key (tr_destination k) (amount - protocol_fee - developer_fee) key +
  match tr_treasury k with Some f => at_key f protocol_fee key | None => 0 end +
  match tr_feeDestination k with Some f => at_key f developer_fee key | None => 0 end -
  at_key (tr_vaultToken k) amount key.

Lemma move_tokens_spec treasury k s src amount w dev w' :
  0 < amount → 0 ≤ pol_developerFeeRate (vs_policy s) →
  move_tokens treasury k s src amount w = Ok (dev, w') →
  (tokens_ok w → tokens_ok w') ∧
  ∃ fee, ceil_fee amount PROTOCOL_FEE_RATE = Ok fee ∧
    ceil_fee amount (pol_developerFeeRate (vs_policy s)) = Ok dev ∧ 0 ≤ fee ∧ 0 ≤ dev ∧ fee + dev ≤ amount ∧
    (0 < fee → ∃ f a, tr_treasury k = Some f ∧ w !! f = Some a ∧ tk_owner a = treasury) ∧
    (0 < dev → ∃ f a, tr_feeDestination k = Some f ∧ w !! f = Some a ∧
                      tk_owner a = av_feeDestination (vs_vault s)) ∧
    ∀ key, balance w' key = balance w key + moved k amount fee dev key.
Proof.
  intros Ha Hr Hm. unfold move_tokens in Hm.
  apply bind_Ok_inv in Hm as (fee & Efee & Hm). apply bind_Ok_inv in Hm as (dev' & Edev & Hm).
  apply bind_Ok_inv in Hm as (rest & [-> Hs1]%checked_sub_Ok & Hm).
  apply bind_Ok_inv in Hm as (net & [-> Hs2]%checked_sub_Ok & Hm).
  apply bind_Ok_inv in Hm as (w1 & E1 & Hm). apply bind_Ok_inv in Hm as (w2 & E2 & Hm).
  apply bind_Ok_inv in Hm as (w3 & E3 & [= -> ->]).
  pose proof (ceil_fee_nonneg amount PROTOCOL_FEE_RATE fee ltac:(lia) ltac:(done) Efee).
  pose proof (ceil_fee_nonneg amount _ dev ltac:(lia) Hr Edev).
  apply pay_fee_spec in E2 as (K2 & B2 & P2); [|done]. apply pay_fee_spec in E3 as (K3 & B3 & P3); [|done].
  split; [intros Hw; apply K3, K2; by eapply transfer_keeps|].
  exists fee. split_and!; try done; [lia| | |].
  - intros (f & a & ?)%P2. exists f, a. naive_solver.
  - intros (f & a & ?)%P3. exists f, a. naive_solver.
  - intros key. rewrite B3, B2, (transfer_balance _ _ _ _ _ _ key E1). unfold moved, at_key.
    destruct (bool_decide (key = tr_vaultToken k)); lia.
Qed.
End accepted.

(** ** The floor *)

Section floor.
Context (usdc usdt vault : string).

(** What an account counts for. *)
Definition held (w : Tokens) (key : string) : Z :=
  match w !! key with Some a => if counts usdc usdt vault a then tk_amount a else 0 | None => 0 end.

Lemma stables_delete w key : stables usdc usdt vault w = held w key + stables usdc usdt vault (delete key w).
Proof.
  unfold held, stables. destruct (w !! key) as [a|] eqn:E.
  - rewrite <- (sumZ_perm_map _ (filter (λ x, counts usdc usdt vault x.2) ((key, a) :: map_to_list (delete key w)))).
    + rewrite filter_cons. cbn [snd]. destruct (counts usdc usdt vault a);
        [rewrite decide_True by done; simpl; lia | by rewrite decide_False by (intros [])].
    + apply filter_Permutation. by apply map_to_list_delete.
  - by rewrite delete_id.
Qed.

Lemma held_sum w keys :
  tokens_ok w → NoDup keys → sumZ (map (held w) keys) ≤ stables usdc usdt vault w.
Proof.
  intros Hw Hd. revert w Hw. induction Hd as [|key keys Hk Hd IH]; intros w Hw.
  - apply sumZ_nonneg, Forall_map, Forall_forall. intros [i a] [_ Hx%elem_of_map_to_list]%list_elem_of_filter.
    by apply (Hw i a).
  - rewrite (stables_delete w key). simpl.
    assert (sumZ (map (held w) keys) = sumZ (map (held (delete key w)) keys)) as ->.
    { f_equal. apply map_ext_in. intros i Hi%list_elem_of_In. unfold held. rewrite lookup_delete_ne; [done|].
      by intros ->. }
    specialize (IH (delete key w) ltac:(by apply map_Forall_delete)). lia.
Qed.

Lemma floor_walk_bound w src_mint n seen combined remaining total :
  tokens_ok w → NoDup seen → combined ≤ sumZ (map (held w) seen) →
  floor_walk usdc usdt vault src_mint w n seen combined remaining = Ok total →
  total ≤ stables usdc usdt vault w.
Proof.
  intros Hw. revert n seen combined. induction remaining as [|key rest IH]; intros n seen combined Hd Hc Hf.
  - injection Hf as <-. pose proof (held_sum w seen Hw Hd). lia.
  - cbn [floor_walk] in Hf. apply bind_Ok_inv in Hf as (u & _ & Hf).
    case_bool_decide as Hs; [by eapply IH|]. destruct (w !! key) as [a|] eqn:Ea; [|by eapply IH].
    destruct (negb _ || _) eqn:Ec; [by eapply IH|]. apply orb_false_iff in Ec as [Ec%negb_false_iff _].
    apply bind_Ok_inv in Hf as (c' & Hc' & Hf). unfold checked_add in Hc'.
    destruct (U64_MAX <? _); [done|]. injection Hc' as <-.
    eapply IH; [|  |exact Hf]; [by constructor|].
    simpl. unfold held at 1. rewrite Ea, Ec. lia.
Qed.

Lemma floor_check_bound k s src w :
  tokens_ok w → vs_key s = vault → floor_check usdc usdt k s src w = Ok tt →
  0 < pol_stableBalanceFloor (vs_policy s) → pol_stableBalanceFloor (vs_policy s) ≤ stables usdc usdt vault w.
Proof.
  intros Hw Hkey Hf Hpos. unfold floor_check in Hf. rewrite Hkey in Hf. rewrite (proj2 (Z.ltb_lt _ _) Hpos) in Hf.
  apply bind_Ok_inv in Hf as (source & Hs & Hf). apply bind_Ok_inv in Hf as (combined & Hc & Hf%throw_if_Ok).
  apply Z.ltb_ge in Hf. etransitivity; [exact Hf|].
  eapply (floor_walk_bound w); [done|apply NoDup_singleton| |exact Hc]. simpl. unfold held.
  destruct (w !! tr_vaultToken k) as [a|]; [|injection Hs as <-; lia].
  destruct (counts _ _ _ a); [|injection Hs as <-; lia].
  unfold checked_add in Hs. destruct (U64_MAX <? _); [done|]. injection Hs as <-. lia.
Qed.
End floor.

(** What the handler's acceptance says, piece by piece. *)
Lemma agent_transfer_inv `{TokenProgram} to_bytes decimals usdc usdt treasury top sv amount version k s w s' w' :
  agent_transfer to_bytes decimals usdc usdt treasury top sv amount version k s w = Ok (s', w') →
  ∃ src d dst usd dev,
    load_accounts decimals k s w = Ok (src, d, dst) ∧
    transfer_guards usdc usdt top (sv_unix_timestamp sv) amount version k s src dst d = Ok usd ∧
    transfer_charge to_bytes (vs_policy s) (av_agents (vs_vault s)) (tr_agent k) (sv_unix_timestamp sv) usd
      (vs_ledger s) = Ok (vs_ledger s') ∧
    recipient_charge (vs_policy s) (sv_unix_timestamp sv) (to_bytes (tk_owner dst)) usd (vs_recipients s) =
      Ok (vs_recipients s') ∧
    move_tokens treasury k s src amount w = Ok (dev, w') ∧
    floor_check usdc usdt k s src w' = Ok tt ∧
    agent_transfer_audit (to_bytes (tk_owner dst)) amount sv (vs_logs s) = Ok (vs_logs s').
Proof.
  unfold agent_transfer. intros ([[src d] dst] & El & Hx)%bind_Ok_inv.
  apply bind_Ok_inv in Hx as (usd & Eg & Hx). apply bind_Ok_inv in Hx as (l & Ec & Hx).
  apply bind_Ok_inv in Hx as (r & Er & Hx). apply bind_Ok_inv in Hx as ([dev w1] & Em & Hx).
  apply bind_Ok_inv in Hx as ([] & Ef & Hx). apply bind_Ok_inv in Hx as (lg & Ea & Hx).
  apply bind_Ok_inv in Hx as (v & Es & [= <- <-]). exists src, d, dst, usd, dev. done.
Qed.

Lemma load_accounts_inv decimals k s w src d dst :
  load_accounts decimals k s w = Ok (src, d, dst) →
  w !! tr_vaultToken k = Some src ∧ w !! tr_destination k = Some dst ∧ tk_owner src = vs_key s ∧
  tk_mint src = tr_mint k ∧ decimals (tr_mint k) = Some d.
Proof.
  unfold load_accounts, the_account. intros (u & _ & Hx)%bind_Ok_inv.
  apply bind_Ok_inv in Hx as (a & Ea & Hx). apply bind_Ok_inv in Hx as (u1 & Eo%throw_if_Ok & Hx).
  apply bind_Ok_inv in Hx as (d' & Ed & Hx). apply bind_Ok_inv in Hx as (u2 & Em%throw_if_Ok & Hx).
  apply bind_Ok_inv in Hx as (b & Eb & Hx). apply bind_Ok_inv in Hx as (u3 & _ & Hx).
  apply bind_Ok_inv in Hx as (u4 & _ & [= -> -> ->]).
  apply negb_false_iff, bool_decide_eq_true in Eo. apply negb_false_iff, bool_decide_eq_true in Em.
  destruct (w !! tr_vaultToken k); [|done]. destruct (w !! tr_destination k); [|done].
  destruct (decimals (tr_mint k)); [|done]. by simplify_eq.
Qed.

Lemma transfer_guards_inv usdc usdt top now amount version k s src dst d usd :
  transfer_guards usdc usdt top now amount version k s src dst d = Ok usd →
  top = true ∧ version = pol_policyVersion (vs_policy s) ∧ av_status (vs_vault s) = Active ∧
  (∃ e, get_agent (av_agents (vs_vault s)) (tr_agent k) = Ok e ∧ ae_paused e = false ∧ 2 ≤ ae_capability e) ∧
  0 < amount ∧ is_stablecoin_mint usdc usdt (tk_mint src) = true ∧
  tk_owner dst ∈ pol_allowedDestinations (vs_policy s) ∧ pol_destinationMode (vs_policy s) = 0 ∧
  is_destination_graylisted (vs_policy s) (tk_owner dst) now = false ∧
  tk_mint dst = tk_mint src ∧ stablecoin_to_usd amount d = Ok usd.
Proof.
  unfold transfer_guards, is_destination_allowed, CAPABILITY_OPERATOR. intros Hx. inv_ok.
  destruct (av_status (vs_vault s)); try done.
  repeat match goal with
  | E : negb _ = false |- _ => apply negb_false_iff in E
  | E : _ && _ = true |- _ => apply andb_true_iff in E as [? ?]
  | E : bool_decide _ = true |- _ => apply bool_decide_eq_true in E
  | E : (_ =? _) = true |- _ => apply Z.eqb_eq in E
  | E : (_ <? _) = false |- _ => apply Z.ltb_ge in E
  | E : (_ <=? _) = false |- _ => apply Z.leb_gt in E
  end.
  split_and!; eauto.
Qed.

(** C12: A transfer the program accepts pays what it says and nothing else.  The
    call is a top-level one by a running operator of an active vault, under
    the policy version it names, to a wallet on the owner's allowlist that is
    not in its waiting period.  Every token account changes by exactly its
    share: the vault's account loses the amount, the wallet gets the amount
    less the two fees, and the fees go to the treasury and to the vault's fee
    destination.  When a floor is set, the vault still holds at least the
    floor in stablecoins. *)
Theorem accepted_transfer_pays_what_it_says `{LawfulTokens} to_bytes decimals usdc usdt treasury top sv amount
    version k s w s' w' :
  tokens_ok w → 0 ≤ pol_developerFeeRate (vs_policy s) →
  agent_transfer to_bytes decimals usdc usdt treasury top sv amount version k s w = Ok (s', w') →
  top = true ∧ version = pol_policyVersion (vs_policy s) ∧ av_status (vs_vault s) = Active ∧
  (∃ e, get_agent (av_agents (vs_vault s)) (tr_agent k) = Ok e ∧ ae_paused e = false ∧ 2 ≤ ae_capability e) ∧
  (∃ dst, w !! tr_destination k = Some dst ∧ tk_owner dst ∈ pol_allowedDestinations (vs_policy s) ∧
     is_destination_graylisted (vs_policy s) (tk_owner dst) (sv_unix_timestamp sv) = false) ∧
  (∃ fee dev, ceil_fee amount PROTOCOL_FEE_RATE = Ok fee ∧
     ceil_fee amount (pol_developerFeeRate (vs_policy s)) = Ok dev ∧ fee + dev ≤ amount ∧
     (0 < fee → ∃ f a, tr_treasury k = Some f ∧ w !! f = Some a ∧ tk_owner a = treasury) ∧
     (0 < dev → ∃ f a, tr_feeDestination k = Some f ∧ w !! f = Some a ∧
                       tk_owner a = av_feeDestination (vs_vault s)) ∧
     ∀ key, balance w' key = balance w key + moved k amount fee dev key) ∧
  (0 < pol_stableBalanceFloor (vs_policy s) →
     pol_stableBalanceFloor (vs_policy s) ≤ stables usdc usdt (vs_key s) w').
Proof.
  intros Hw Hr (src & d & dst & usd & dev & El & Eg & _ & _ & Em & Ef & _)%agent_transfer_inv.
  apply load_accounts_inv in El as (_ & Hd & _).
  apply transfer_guards_inv in Eg as (-> & -> & Hs & He & Ha & _ & Hin & _ & Hg & _ & _).
  destruct (move_tokens_spec _ _ _ _ _ _ _ _ Ha Hr Em) as (Hk & fee & Hfee & Hdev & _ & _ & Hsum & Ht & Hf & Hb).
  split_and!; try done.
  - by exists dst.
  - exists fee, dev. done.
  - apply (floor_check_bound usdc usdt (vs_key s) k s src w'); auto.
Qed.

(** ** What a recipient gets *)

(** One recipient's payments, with the start of its last window. *)
Record windowed (cap ws : Z) (g : History) : Prop := {
  wd_amounts : Forall (λ x, 0 ≤ x.2) g;
  wd_within : Forall (λ x, x.1 < ws + 86400) g;
  wd_since : sum_if (λ t, ws <=? t) g ≤ cap;
  wd_before : sum_if (λ t, (ws - 86400 <=? t) && (t <? ws)) g ≤ cap;
  wd_day t : spent_day t g ≤ 2 * cap;
}.

Lemma interval_split lo ws g :
  Forall (λ x, 0 ≤ x.2) g → ws - 86400 ≤ lo →
  sum_if (λ t, lo <=? t) g ≤ sum_if (λ t, (ws - 86400 <=? t) && (t <? ws)) g + sum_if (λ t, ws <=? t) g.
Proof.
  intros Hn Hlo. etransitivity; [|apply (sum_if_split _ _ g Hn)]. apply sum_if_le; [done|].
  apply Forall_forall. intros x _ Hx%Z.leb_le.
  destruct (Z.leb_spec ws x.1), (Z.leb_spec (ws - 86400) x.1), (Z.ltb_spec x.1 ws); simpl; lia || done.
Qed.

Lemma spent_day_cons t now a g :
  spent_day t ((now, a) :: g) =
  (if (t - 86400 <? now) && (now <=? t) then a else 0) + spent_day t g.
Proof. apply sum_if_cons. Qed.

Lemma spent_day_since t g :
  Forall (λ x, 0 ≤ x.2) g → spent_day t g ≤ sum_if (λ t', t - 86400 <=? t') g.
Proof.
  intros Hn. apply sum_if_le; [done|]. apply Forall_forall.
  intros x _ [H1%Z.ltb_lt _]%andb_true_iff. apply Z.leb_le. lia.
Qed.

Lemma windowed_same cap ws g now a :
  windowed cap ws g → ws ≤ now < ws + 86400 → 0 ≤ a → sum_if (λ t, ws <=? t) g + a ≤ cap →
  windowed cap ws ((now, a) :: g).
Proof.
  intros [Hn Hw Hs Hb Hd] Hnow Ha Hc. constructor; try by constructor.
  - constructor; [simpl; lia|done].
  - rewrite sum_if_cons. destruct (ws <=? now); lia.
  - rewrite sum_if_cons. destruct (Z.ltb_spec now ws); [lia|]. rewrite andb_false_r. lia.
  - intros t. rewrite spent_day_cons. specialize (Hd t).
    destruct (Z.ltb_spec (t - 86400) now), (Z.leb_spec now t); simpl; try lia.
    pose proof (spent_day_since t g Hn). pose proof (interval_split (t - 86400) ws g Hn). lia.
Qed.

Lemma windowed_next cap ws g now a :
  windowed cap ws g → ws + 86400 ≤ now → 0 ≤ a ≤ cap → windowed cap now ((now, a) :: g).
Proof.
  intros [Hn Hw Hs Hb Hd] Hnow Ha.
  assert (sum_if (λ t, now <=? t) g = 0) as Hz.
  { apply sum_if_zero. eapply Forall_impl; [exact Hw|]. simpl. intros x Hx. apply Z.leb_gt. lia. }
  assert (∀ q, (∀ t, q t = true → now - 86400 ≤ t) → sum_if q g ≤ cap) as Hq.
  { intros q Hq. etransitivity; [|exact Hs]. apply sum_if_le; [done|]. apply Forall_forall.
    intros x _ Hx%Hq. apply Z.leb_le. lia. }
  constructor.
  - constructor; [simpl; lia|done].
  - constructor; [simpl; lia|]. eapply Forall_impl; [exact Hw|]. simpl. lia.
  - rewrite sum_if_cons, Hz, Z.leb_refl. lia.
  - rewrite sum_if_cons, Z.ltb_irrefl, andb_false_r. apply Hq. intros t [H1%Z.leb_le _]%andb_true_iff. lia.
  - intros t. rewrite spent_day_cons. specialize (Hd t).
    destruct (Z.ltb_spec (t - 86400) now), (Z.leb_spec now t); simpl; try lia.
    assert (spent_day t g ≤ cap); [|lia].
    apply Hq. intros t' [H1%Z.ltb_lt _]%andb_true_iff. lia.
Qed.

Lemma windowed_first cap now a : 0 ≤ a ≤ cap → windowed cap now [(now, a)].
Proof.
  intros Ha. constructor; [repeat constructor; simpl; lia|repeat constructor; simpl; lia| | |].
  - rewrite sum_if_cons, Z.leb_refl. change (sum_if _ []) with 0. lia.
  - rewrite sum_if_cons, Z.ltb_irrefl, andb_false_r. change (sum_if _ []) with 0. lia.
  - intros t. rewrite spent_day_cons. change (spent_day t []) with 0. destruct (_ && _); lia.
Qed.

(** ** The counters *)

Abbreviation slots r := (take (active r) (rt_entries r)).

Record recipients_ok (r : Recipients) : Prop := {
  ro_size : length (rt_entries r) = MAX_PER_RECIPIENT_ENTRIES;
  ro_count : 0 ≤ rt_count r ≤ 10;
  ro_distinct : NoDup (rc_recipient <$> slots r);
  ro_clock : Forall (λ c, 0 ≤ rc_windowStart c ≤ MAX_EPOCH * 600) (rt_entries r);
}.

Definition new_recipients : Recipients := {|
  rt_entries := replicate MAX_PER_RECIPIENT_ENTRIES
                  {| rc_recipient := replicate 32 0; rc_windowStart := 0; rc_windowSpend := 0 |};
  rt_count := 0 |}.

Lemma new_recipients_ok : recipients_ok new_recipients.
Proof. constructor; [done|simpl; lia|constructor|]. apply Forall_replicate. unfold MAX_EPOCH. simpl. lia. Qed.

Lemma is_expired_spec now c :
  clock_ok now → 0 ≤ rc_windowStart c ≤ MAX_EPOCH * 600 →
  is_expired now c = (rc_windowStart c + 86400 <=? now).
Proof.
  unfold clock_ok. intros Hn Hc. unfold is_expired. rewrite sat_i64_id by widths. unfold ROLLING_WINDOW_SECONDS.
  destruct (Z.leb_spec 86400 (now - rc_windowStart c)), (Z.leb_spec (rc_windowStart c + 86400) now); lia || done.
Qed.

Lemma slot_clock r c : recipients_ok r → c ∈ slots r → 0 ≤ rc_windowStart c ≤ MAX_EPOCH * 600.
Proof.
  intros Hr (i & [Hi _]%lookup_take_Some)%list_elem_of_lookup. pose proof (ro_clock _ Hr) as Hf.
  rewrite Forall_forall in Hf. apply Hf. by eapply list_elem_of_lookup_2.
Qed.

Lemma slot_unique r c c' :
  recipients_ok r → c ∈ slots r → c' ∈ slots r → rc_recipient c = rc_recipient c' → c = c'.
Proof.
  intros Hr (i & Hi)%list_elem_of_lookup (j & Hj)%list_elem_of_lookup Heq.
  assert (i = j) as ->; [|by simplify_eq].
  eapply (NoDup_lookup _ _ _ (rc_recipient c) (ro_distinct _ Hr)); rewrite list_lookup_fmap;
    [rewrite Hi|rewrite Hj]; simpl; congruence.
Qed.

Lemma oldest_expired_spec now r i :
  length (rt_entries r) = MAX_PER_RECIPIENT_ENTRIES → oldest_expired now r = Some i →
  ∃ c, rt_entries r !! i = Some c ∧ is_expired now c = true.
Proof.
  intros Hsz. unfold oldest_expired.
  assert (∀ xs best, Forall (λ x, rt_entries r !! x.1 = Some x.2) xs →
    (∀ j, best.1 = Some j → ∃ c, rt_entries r !! j = Some c ∧ is_expired now c = true) →
    ∀ j, fst (foldl (oldest_step now) best xs) = Some j → ∃ c, rt_entries r !! j = Some c ∧ is_expired now c = true)
    as Hfold.
  { induction xs as [|x xs IH]; intros best Hxs Hb j; [apply Hb|]. inversion_clear Hxs as [|? ? Hx Hxs'].
    apply IH; [done|]. unfold oldest_step. destruct (_ && _) eqn:E; [|done].
    apply andb_true_iff in E as [E _]. intros j' [= <-]. eauto. }
  apply Hfold; [|done]. apply Forall_lookup. intros j [n c] [Hn Hc]%lookup_zip_Some.
  apply lookup_seq in Hn as [-> _]. exact Hc.
Qed.

Lemma NoDup_insert_new {A} (l : list A) i x : NoDup l → x ∉ l → NoDup (<[i := x]> l).
Proof.
  intros Hd Hx. apply NoDup_alt. intros j k y Hj Hk.
  apply list_lookup_insert_Some in Hj as [(-> & <- & _)|[Hij Hj]];
    apply list_lookup_insert_Some in Hk as [(-> & Hy & _)|[Hik Hk]]; try done; subst.
  - by apply list_elem_of_lookup_2 in Hk.
  - by apply list_elem_of_lookup_2 in Hj.
  - by eapply NoDup_lookup.
Qed.

Lemma slots_with_slot r i c' :
  (i < active r)%nat → slots (with_slot i c' r) = <[i := c']> (slots r).
Proof.
  intros Hi. unfold active, with_slot in *. cbn [rt_entries rt_count]. rewrite length_insert.
  by rewrite take_insert_lt.
Qed.

(** One slot in use is overwritten. *)
Lemma put_slot r i c c' :
  recipients_ok r → slots r !! i = Some c → 0 ≤ rc_windowStart c' ≤ MAX_EPOCH * 600 →
  rc_recipient c' = rc_recipient c ∨ rc_recipient c' ∉ rc_recipient <$> slots r →
  recipients_ok (with_slot i c' r) ∧ c' ∈ slots (with_slot i c' r) ∧
  ∀ x, rc_recipient x ≠ rc_recipient c' →
    (x ∈ slots (with_slot i c' r) → x ∈ slots r) ∧ (x ∈ slots r → x ∈ slots (with_slot i c' r) ∨ x = c).
Proof.
  intros [Hsz Hct Hd Hck] Hi Hc' Hkey.
  pose proof (lookup_lt_Some _ _ _ Hi) as Hlt. rewrite length_take in Hlt.
  pose proof (slots_with_slot r i c' ltac:(lia)) as Hs. split_and!.
  - constructor; [cbn; by rewrite length_insert|done| |exact (Forall_insert _ _ _ _ Hck Hc')].
    rewrite Hs, list_fmap_insert. destruct Hkey as [Hkey|Hkey]; [|by apply NoDup_insert_new].
    rewrite list_insert_id; [done|]. rewrite list_lookup_fmap, Hi, Hkey. done.
  - rewrite Hs. apply list_elem_of_insert. rewrite length_take. lia.
  - intros x Hx. rewrite Hs. split.
    + intros (j & [(-> & <- & _)|[_ Hj]]%list_lookup_insert_Some)%list_elem_of_lookup; [done|].
      by eapply list_elem_of_lookup_2.
    + intros (j & Hj)%list_elem_of_lookup. destruct (decide (i = j)) as [->|Hij]; [right; by simplify_eq|].
      left. apply (list_elem_of_lookup_2 _ j). by rewrite list_lookup_insert_ne.
Qed.

(** One more slot is used. *)
Lemma add_slot r c' :
  recipients_ok r → (active r < MAX_PER_RECIPIENT_ENTRIES)%nat → 0 ≤ rc_windowStart c' ≤ MAX_EPOCH * 600 →
  rc_recipient c' ∉ rc_recipient <$> slots r →
  let r' := {| rt_entries := <[active r := c']> (rt_entries r); rt_count := rt_count r + 1 |} in
  recipients_ok r' ∧ slots r' = slots r ++ [c'].
Proof.
  intros [Hsz Hct Hd Hck] Hlt Hc' Hkey r'. unfold MAX_PER_RECIPIENT_ENTRIES in *.
  assert (active r = Z.to_nat (rt_count r)) as Hac by (unfold active in *; lia).
  assert (active r' = S (active r)) as Hac'.
  { unfold active at 1, r'. cbn [rt_entries rt_count]. rewrite length_insert. lia. }
  assert (slots r' = slots r ++ [c']) as Hs.
  { rewrite Hac'. unfold r' at 1. cbn [rt_entries].
    rewrite (take_S_r _ _ c') by (apply list_lookup_insert_eq; lia). by rewrite take_insert_ge by lia. }
  split; [|done]. constructor; [cbn; by rewrite length_insert|cbn; lia| |exact (Forall_insert _ _ _ _ Hck Hc')].
  rewrite Hs, fmap_app. apply NoDup_app. split_and!; [done| |apply NoDup_singleton].
  intros x Hx ->%list_elem_of_singleton. done.
Qed.

Lemma find_recipient_Some r rcp i c :
  find_recipient r rcp = Some (i, c) → slots r !! i = Some c ∧ rc_recipient c = rcp.
Proof. unfold find_recipient. by intros (Hi & Hc & _)%list_find_Some. Qed.

Lemma find_recipient_None r rcp : find_recipient r rcp = None → rcp ∉ rc_recipient <$> slots r.
Proof.
  unfold find_recipient. rewrite list_find_None, Forall_forall.
  intros Hf (c & -> & Hc)%list_elem_of_fmap. by apply (Hf c).
Qed.

(** The counter a payment leaves, and the counters of the others. *)
Lemma record_spec now rcp a r r' :
  recipients_ok r → clock_ok now → record_recipient_spend now rcp a r = Ok r' →
  recipients_ok r' ∧
  (∃ c', c' ∈ slots r' ∧ rc_recipient c' = rcp ∧
     ((∃ i c, find_recipient r rcp = Some (i, c) ∧ is_expired now c = false ∧
         rc_windowStart c' = rc_windowStart c ∧ rc_windowSpend c' = rc_windowSpend c + a) ∨
      (match find_recipient r rcp with Some (_, c) => is_expired now c = true | None => True end ∧
         rc_windowStart c' = now ∧ rc_windowSpend c' = a))) ∧
  (∀ x, rc_recipient x ≠ rcp →
     (x ∈ slots r' → x ∈ slots r) ∧ (x ∈ slots r → x ∈ slots r' ∨ is_expired now x = true)).
Proof.
  intros Hr Hnow. unfold record_recipient_spend. intros (u & _ & H1)%bind_Ok_inv.
  set (fresh := {| rc_recipient := rcp; rc_windowStart := now; rc_windowSpend := a |}) in *.
  assert (0 ≤ rc_windowStart fresh ≤ MAX_EPOCH * 600) as Hfresh by (destruct Hnow; simpl; lia).
  destruct (find_recipient r rcp) as [[i c]|] eqn:Ef.
  - apply find_recipient_Some in Ef as [Hi <-].
    pose proof (slot_clock r c Hr ltac:(by eapply list_elem_of_lookup_2)) as Hwc.
    assert (∀ x, rc_recipient x ≠ rc_recipient c → x ≠ c) as Hne by congruence.
    destruct (is_expired now c) eqn:Ex.
    + injection H1 as <-. destruct (put_slot r i c fresh Hr Hi Hfresh) as (Hok & Hin & Ho); [by left|].
      split_and!; [done| |intros x Hx; destruct (Ho x Hx); naive_solver]. eauto 10.
    + apply bind_Ok_inv in H1 as (s & Es & [= <-]). unfold checked_add in Es.
      destruct (U64_MAX <? _); [done|]. injection Es as <-.
      set (c' := {| rc_recipient := rc_recipient c; rc_windowStart := rc_windowStart c;
                    rc_windowSpend := rc_windowSpend c + a |}).
      destruct (put_slot r i c c' Hr Hi Hwc) as (Hok & Hin & Ho); [by left|].
      split_and!; [done| |intros x Hx; destruct (Ho x Hx); naive_solver].
      exists c'. split; [exact Hin|]. split; [done|]. left. exists i, c. split_and!; done.
  - apply find_recipient_None in Ef. case_bool_decide as Hlt.
    + apply bind_Ok_inv in H1 as (v & _ & [= <-]).
      destruct (add_slot r fresh Hr Hlt Hfresh Ef) as [Hok Hs]. rewrite Hs. split_and!; [done| |].
      * exists fresh. split; [set_solver|]. eauto.
      * intros x Hx. rewrite elem_of_app, list_elem_of_singleton. naive_solver.
    + destruct (oldest_expired now r) as [i|] eqn:Eo; [|done]. injection H1 as <-.
      apply oldest_expired_spec in Eo as (c & Hi & Hx); [|apply Hr].
      assert (slots r !! i = Some c) as Hi'.
      { rewrite lookup_take_lt; [done|]. apply lookup_lt_Some in Hi. rewrite (ro_size _ Hr) in Hi. lia. }
      destruct (put_slot r i c fresh Hr Hi' Hfresh (or_intror Ef)) as (Hok & Hin & Ho).
      split_and!; [done|eauto 10|]. intros x Hxr. destruct (Ho x Hxr); naive_solver.
Qed.

(** What the counters know of one recipient's payments. *)
Definition tracked (cap : Z) (r : Recipients) (rcp : list Z) (g : History) (last : Z) : Prop :=
  (g = [] ∧ rcp ∉ rc_recipient <$> slots r) ∨
  ∃ ws, windowed cap ws g ∧ ws ≤ last ∧
    ((∃ c, c ∈ slots r ∧ rc_recipient c = rcp ∧ rc_windowStart c = ws ∧
           rc_windowSpend c = sum_if (λ t, ws <=? t) g) ∨
     (rcp ∉ rc_recipient <$> slots r ∧ ws + 86400 ≤ last)).

Lemma since_new cap ws g now a :
  windowed cap ws g → ws + 86400 ≤ now → sum_if (λ t, now <=? t) ((now, a) :: g) = a.
Proof.
  intros Hw Hn. rewrite sum_if_cons, Z.leb_refl, sum_if_zero; [lia|].
  eapply Forall_impl; [apply (wd_within _ _ _ Hw)|]. simpl. intros x Hx. apply Z.leb_gt. lia.
Qed.

Lemma recipient_charge_inv policy now rcp a r r' :
  0 < pol_perRecipientDailyCapUsd policy → recipient_charge policy now rcp a r = Ok r' →
  get_recipient_spend now rcp r + a ≤ pol_perRecipientDailyCapUsd policy ∧
  record_recipient_spend now rcp a r = Ok r'.
Proof.
  intros Hp. unfold recipient_charge, checked_add. rewrite (proj2 (Z.ltb_lt _ _) Hp). intros Hx.
  apply bind_Ok_inv in Hx as (t & Et & Hx). apply bind_Ok_inv in Hx as (u & Hc%throw_if_Ok & Hx).
  destruct (U64_MAX <? _); [done|]. injection Et as <-. apply Z.ltb_ge in Hc. done.
Qed.

(** The recipient that is paid. *)
Lemma tracked_paid cap policy r r' rcp g last now a :
  recipients_ok r → clock_ok now → last ≤ now → 0 ≤ a → 0 < pol_perRecipientDailyCapUsd policy ≤ cap →
  tracked cap r rcp g last → recipient_charge policy now rcp a r = Ok r' →
  tracked cap r' rcp ((now, a) :: g) now.
Proof.
  intros Hr Hnow Hlast Ha Hcap Ht [Hget Hrec]%recipient_charge_inv; [|lia].
  destruct (record_spec _ _ _ _ _ Hr Hnow Hrec) as (_ & (c' & Hc' & Hk' & Hcase) & _).
  right. unfold get_recipient_spend in Hget. rewrite (proj2 (Z.leb_gt now 0)) in Hget by (destruct Hnow; lia).
  destruct (find_recipient r rcp) as [[i c]|] eqn:Ef.
  - apply find_recipient_Some in Ef as [Hi Hkey].
    assert (c ∈ slots r) as Hin by (by eapply list_elem_of_lookup_2).
    destruct Ht as [[_ []]|(ws & Hw & Hws & [(c0 & Hin0 & Hk0 & Hs0 & Hsum)|[[] _]])];
      [subst; by apply list_elem_of_fmap_2| |subst; by apply list_elem_of_fmap_2].
    assert (c0 = c) as -> by (eapply slot_unique; eauto; congruence).
    pose proof (is_expired_spec now c Hnow (slot_clock r c Hr Hin)) as Hexp. unfold is_expired in Hcase, Hexp.
    rewrite Hexp in Hget, Hcase. destruct (Z.leb_spec (rc_windowStart c + 86400) now) as [He|He].
    + destruct Hcase as [(? & ? & [= -> ->] & Hf & _)|(_ & Hs' & Hsp)]; [congruence|].
      exists now. split; [eapply (windowed_next cap ws); lia || done|]. split; [done|]. left. exists c'.
      rewrite (since_new cap ws) by (lia || done). done.
    + destruct Hcase as [(? & ? & [= <- <-] & _ & Hs' & Hsp)|(Hf & _)]; [|congruence].
      exists ws. split; [apply windowed_same; lia || done|]. split; [lia|]. left. exists c'.
      rewrite sum_if_cons, (proj2 (Z.leb_le ws now)) by lia. split_and!; try done; lia.
  - destruct Hcase as [(? & ? & ? & _)|(_ & Hs' & Hsp)]; [done|].
    assert (0 ≤ a ≤ cap) as Hac by lia. exists now.
    destruct Ht as [[-> _]|(ws & Hw & Hws & [(c0 & Hin0 & Hk0 & _)|[_ Hold]])].
    + split; [by apply windowed_first|]. split; [done|]. left. exists c'.
      rewrite sum_if_cons, Z.leb_refl. change (sum_if _ []) with 0. split_and!; try done; lia.
    + destruct (find_recipient_None _ _ Ef). rewrite <- Hk0. by apply list_elem_of_fmap_2.
    + split; [eapply (windowed_next cap ws); lia || done|]. split; [done|]. left. exists c'.
      rewrite (since_new cap ws) by (lia || done). done.
Qed.

(** The others. *)
Lemma tracked_other cap r r' rcp rcp' g last now a :
  recipients_ok r → clock_ok now → last ≤ now → rcp' ≠ rcp →
  tracked cap r rcp' g last → record_recipient_spend now rcp a r = Ok r' → tracked cap r' rcp' g now.
Proof.
  intros Hr Hnow Hlast Hne Ht Hrec.
  destruct (record_spec _ _ _ _ _ Hr Hnow Hrec) as (_ & _ & Ho).
  assert (rcp' ∉ rc_recipient <$> slots r → rcp' ∉ rc_recipient <$> slots r') as Hstay.
  { intros Hn (c & -> & Hc)%list_elem_of_fmap. apply Hn. apply list_elem_of_fmap_2. by apply (Ho c Hne). }
  destruct Ht as [[-> Hn]|(ws & Hw & Hws & Hcase)]; [left; auto|]. right. exists ws.
  split; [done|]. split; [lia|]. destruct Hcase as [(c & Hc & <- & Hs & Hsum)|[Hn Hold]]; [|right; auto with lia].
  destruct (decide (c ∈ slots r')) as [Hin|Hout]; [left; by exists c|]. right.
  destruct (proj2 (Ho c Hne) Hc) as [?|He]; [done|]. split.
  - intros (c2 & Heq & Hc2)%list_elem_of_fmap. apply Hout.
    rewrite (slot_unique r c c2); [done|done|done| |done]. apply (Ho c2); congruence.
  - rewrite is_expired_spec in He; [apply Z.leb_le in He; lia|done|by eapply slot_clock].
Qed.

(** ** Histories of transfers *)

(** Accepted transfers, newest first: time, wallet, dollars. *)
Abbreviation Payments := (list (Z * list Z * Z)).

Definition paid_to (rcp : list Z) (h : Payments) : History :=
  map (λ x, (x.1.1, x.2)) (filter (λ x, x.1.2 = rcp) h).

Lemma paid_to_cons rcp now rcp' usd h :
  paid_to rcp ((now, rcp', usd) :: h) =
  if decide (rcp' = rcp) then (now, usd) :: paid_to rcp h else paid_to rcp h.
Proof. unfold paid_to. rewrite filter_cons. simpl. by case_decide. Qed.

Section payments.
Context `{TokenProgram} (to_bytes : string → list Z) (decimals : string → option Z) (usdc usdt treasury : string).

(** The transfers of one vault since its creation, with the per-recipient cap
    always armed and at most [cap]; whatever happens to the vault between two
    transfers leaves the counters, and clocks do not go back. *)
Inductive payment_run (cap : Z) : Payments → Recipients → Z → Prop :=
| paid_none : payment_run cap [] new_recipients 0
| paid_one h s last top sv amount version k w s' w' dst d usd :
    payment_run cap h (vs_recipients s) last →
    last ≤ sv_unix_timestamp sv → clock_ok (sv_unix_timestamp sv) →
    0 < pol_perRecipientDailyCapUsd (vs_policy s) ≤ cap →
    agent_transfer to_bytes decimals usdc usdt treasury top sv amount version k s w = Ok (s', w') →
    w !! tr_destination k = Some dst → decimals (tr_mint k) = Some d → stablecoin_to_usd amount d = Ok usd →
    payment_run cap ((sv_unix_timestamp sv, to_bytes (tk_owner dst), usd) :: h) (vs_recipients s')
      (sv_unix_timestamp sv).

Lemma stablecoin_to_usd_nonneg amount d usd : 0 < amount → stablecoin_to_usd amount d = Ok usd → 0 ≤ usd.
Proof.
  intros Ha. unfold stablecoin_to_usd, checked_mul. destruct (d =? USD_DECIMALS); [intros [= <-]; lia|].
  destruct (Z.ltb_spec d USD_DECIMALS) as [Hd|Hd].
  - destruct (U64_MAX <? _); [done|]. intros [= <-]. pose proof (Z.pow_pos_nonneg 10 (USD_DECIMALS - d)). nia.
  - intros (u & _ & [= <-])%bind_Ok_inv. apply Z.div_pos; [lia|]. apply Z.pow_pos_nonneg; lia.
Qed.

Lemma payment_run_tracked cap h r last :
  payment_run cap h r last → recipients_ok r ∧ ∀ rcp, tracked cap r rcp (paid_to rcp h) last.
Proof.
  induction 1 as [|h s last top sv amount version k w s' w' dst d usd _ [Hok IH] Hlast Hnow Hcap Ht Hdst Hd Husd].
  { split; [apply new_recipients_ok|]. intros rcp. left. split; [done|]. apply not_elem_of_nil. }
  apply agent_transfer_inv in Ht as (src & d' & dst' & usd' & dev & El & Eg & _ & Er & _).
  apply load_accounts_inv in El as (_ & Hdst' & _ & _ & Hd').
  apply transfer_guards_inv in Eg as (_ & _ & _ & _ & Ha & _ & _ & _ & _ & _ & Husd'). simplify_eq.
  rewrite Husd in Husd'. injection Husd' as <-.
  pose proof (stablecoin_to_usd_nonneg _ _ _ Ha Husd) as Hnn.
  pose proof (proj2 (recipient_charge_inv _ _ _ _ _ _ (proj1 Hcap) Er)) as Hrec.
  split; [by eapply record_spec|]. intros rcp. rewrite paid_to_cons. case_decide as Heq.
  - subst rcp. by apply (tracked_paid cap (vs_policy s) (vs_recipients s) _ _ _ last).
  - by eapply (tracked_other cap (vs_recipients s) _ (to_bytes (tk_owner dst')) rcp _ last).
Qed.
End payments.

(** C13: The per-recipient cap, over any history of accepted transfers of agents
    (sessions charge the same counters when they are finalised, and are not in
    these histories): in no 24 hours does a wallet get more than twice the cap, however many wallets are
    paid, in whatever order, and whichever slots are reused. *)
Theorem recipients_get_at_most_twice_the_cap `{TokenProgram} to_bytes decimals usdc usdt treasury cap h r last
    wallet now :
  0 ≤ cap → payment_run to_bytes decimals usdc usdt treasury cap h r last →
  spent_day now (paid_to (to_bytes wallet) h) ≤ 2 * cap.
Proof.
  intros Hcap [_ Ht]%payment_run_tracked. destruct (Ht (to_bytes wallet)) as [[-> _]|(ws & Hw & _)].
  - change (spent_day now []) with 0. lia.
  - apply (wd_day _ _ _ Hw).
Qed.

(** ** A token program *)

Definition spl_transfer (w : Tokens) (from to authority : string) (n : Z) : result string Tokens :=
  match w !! from, w !! to with
  | Some a, Some b =>
      _ ← throw_if (negb ((0 <=? n) && (n <=? tk_amount a))) "InsufficientFunds";
      _ ← throw_if (negb (bool_decide (tk_mint a = tk_mint b))) "MintMismatch";
      _ ← throw_if (negb (bool_decide (tk_owner a = authority))) "OwnerMismatch";
      _ ← throw_if (tk_frozen a || tk_frozen b) "AccountFrozen";
      Ok (if bool_decide (from = to) then w else <[to := add_to b n]> (<[from := add_to a (- n)]> w))
  | _, _ => Throw "InvalidAccountData"
  end.

#[global] Instance spl_tokens : TokenProgram := spl_transfer.

#[global] Instance spl_lawful : LawfulTokens spl_tokens.
Proof.
  constructor. intros w w' from to authority n. unfold token_transfer, spl_tokens, spl_transfer.
  destruct (w !! from) as [a|]; [|done]. destruct (w !! to) as [b|]; [|done]. intros Hx. inv_ok.
  apply negb_false_iff, andb_true_iff in E as [H1%Z.leb_le H2%Z.leb_le]. exists a, b. done.
Qed.

(** ** A vault that pays *)

Module Paying.
Definition to_bytes (s : string) : list Z := map (λ c, Z.of_nat (nat_of_ascii c)) (String.list_ascii_of_string s).
Definition decimals (mint : string) : option Z := Some 6.

Definition policy (graylist : list (string * Z)) : PolicyConfig := {|
  pol_dailySpendingCapUsd := 100000000; pol_maxTransactionSizeUsd := 100000000; pol_hasProtocolCaps := false;
  pol_protocols := []; pol_protocolCaps := []; pol_protocolMode := 1; pol_protocolHashes := [];
  pol_developerFeeRate := 500; pol_stableBalanceFloor := 1000000; pol_policyVersion := 7; pol_destinationMode := 0;
  pol_allowedDestinations := ["bob"]; pol_timelockDuration := 1800; pol_maxSlippageBps := 100;
  pol_sessionExpirySeconds := 30; pol_cosignRequired := false; pol_cosignSessionPubkey := "";
  pol_perRecipientDailyCapUsd := 1000000; pol_operatorGrantDelaySeconds := 0;
  pol_destinationGraylist := graylist |}.

Definition vault (capability : Z) : AgentVault := {|
  av_agents := [{| ae_pubkey := "agent"; ae_spendingLimitUsd := 0; ae_capability := capability; ae_paused := false |}];
  av_status := Active; av_feeDestination := "dev"; av_owner := "owner"; av_totalVolume := 0;
  av_totalFeesCollected := 0; av_observeOnly := false; av_totalDepositedUsd := 0;
  av_totalWithdrawnUsd := 0; av_totalTransactions := 0; av_createdAt := 0 |}.

Definition state (capability : Z) (graylist : list (string * Z)) : VaultState := {|
  vs_key := "vault"; vs_vault := vault capability; vs_policy := policy graylist; vs_ledger := demo_ledger;
  vs_recipients := new_recipients; vs_logs := new_logs (to_bytes "vault") |}.

Definition account (owner : string) (amount : Z) : TokenAccount := {|
  tk_mint := USDC_MINT_MAINNET; tk_owner := owner; tk_amount := amount; tk_frozen := false |}.

Definition tokens : Tokens :=
  <["vault usdc" := account "vault" 50000000]> (<["bob usdc" := account "bob" 0]>
  (<["dev usdc" := account "dev" 0]> (<["treasury usdc" := account PROTOCOL_TREASURY 0]> ∅))).

Definition keys : TransferKeys := {|
  tr_agent := "agent"; tr_vaultToken := "vault usdc"; tr_mint := USDC_MINT_MAINNET;
  tr_destination := "bob usdc"; tr_feeDestination := Some "dev usdc"; tr_treasury := Some "treasury usdc";
  tr_remaining := [] |}.

Definition pay (now amount : Z) (s : VaultState) (w : Tokens) : result string (VaultState * Tokens) :=
  agent_transfer to_bytes decimals USDC_MINT_MAINNET USDT_MINT_MAINNET PROTOCOL_TREASURY true
    {| sv_unix_timestamp := now; sv_slot_hashes := [] |} amount 7 keys s w.

Definition start : VaultState := state 2 [].

Definition after (r : result string (VaultState * Tokens)) : VaultState * Tokens :=
  match r with Ok x => x | Throw _ => (start, tokens) end.

(** One payment of a dollar. *)
Definition paid : VaultState * Tokens := after (pay 600 1000000 start tokens).
End Paying.

Lemma paid_ok : Paying.pay 600 1000000 Paying.start Paying.tokens = Ok Paying.paid.
Proof. vm_compute. reflexivity. Qed.

Lemma accepted_transfer_pays_what_it_says_witness :
  ∃ s' w', Paying.pay 600 1000000 Paying.start Paying.tokens = Ok (s', w') ∧
    balance w' "vault usdc" = 49000000 ∧ balance w' "bob usdc" = 999300 ∧
    balance w' "treasury usdc" = 200 ∧ balance w' "dev usdc" = 500 ∧
    1000000 ≤ stables USDC_MINT_MAINNET USDT_MINT_MAINNET "vault" w'.
Proof.
  pose proof paid_ok as Hpay. destruct Paying.paid as [s' w'].
  assert (tokens_ok Paying.tokens) as Hok by (repeat apply map_Forall_insert_2; try done; apply map_Forall_empty).
  assert (0 ≤ pol_developerFeeRate (vs_policy Paying.start)) as Hrate by (vm_compute; discriminate).
  destruct (accepted_transfer_pays_what_it_says _ _ _ _ _ _ _ _ _ _ _ _ _ _ Hok Hrate Hpay)
    as (_ & _ & _ & _ & _ & (fee & dev & Hfee & Hdev & _ & _ & _ & Hb) & Hfloor).
  assert (fee = 200) as -> by (vm_compute in Hfee; congruence).
  assert (dev = 500) as -> by (vm_compute in Hdev; congruence).
  exists s', w'. split; [exact Hpay|]. split_and!; [rewrite Hb; reflexivity..|]. apply Hfloor. vm_compute. done.
Defined.

(** Time, destination and mint of the demo's transfers. *)
Lemma paying_step cap h s w last now amount s' w' :
  payment_run Paying.to_bytes Paying.decimals USDC_MINT_MAINNET USDT_MINT_MAINNET PROTOCOL_TREASURY cap h
    (vs_recipients s) last →
  last ≤ now → clock_ok now → 0 < pol_perRecipientDailyCapUsd (vs_policy s) ≤ cap →
  tk_owner <$> w !! "bob usdc" = Some "bob" → Paying.pay now amount s w = Ok (s', w') →
  payment_run Paying.to_bytes Paying.decimals USDC_MINT_MAINNET USDT_MINT_MAINNET PROTOCOL_TREASURY cap
    ((now, Paying.to_bytes "bob", amount) :: h) (vs_recipients s') now.
Proof.
  intros Hrun Hl Hn Hc Hw Hp. destruct (w !! "bob usdc") as [dst|] eqn:Hd; [|done]. injection Hw as <-.
  exact (paid_one _ _ _ _ _ cap h s last true {| sv_unix_timestamp := now; sv_slot_hashes := [] |} amount 7
    Paying.keys w s' w' dst 6 amount Hrun Hl Hn Hc Hp Hd eq_refl eq_refl).
Qed.

Lemma recipients_get_at_most_twice_the_cap_witness :
  ∃ h r, payment_run Paying.to_bytes Paying.decimals USDC_MINT_MAINNET USDT_MINT_MAINNET PROTOCOL_TREASURY
           1000000 h r 600 ∧
    spent_day 600 (paid_to (Paying.to_bytes "bob") h) = 1000000 ∧
    spent_day 600 (paid_to (Paying.to_bytes "bob") h) ≤ 2 * 1000000.
Proof.
  pose proof paid_ok as Hpay. destruct Paying.paid as [s' w'].
  eapply paying_step in Hpay; [|apply (paid_none _ _ _ _ _ 1000000)|lia|done|vm_compute; done|reflexivity].
  eexists _, _. split; [exact Hpay|]. split; [reflexivity|].
  apply (recipients_get_at_most_twice_the_cap _ _ _ _ _ 1000000 _ _ _ "bob" 600 ltac:(lia) Hpay).
Defined.

(** Ten base units, then the rest of the cap a second before the window ends,
    then a whole cap when it has ended. *)
Module Twice.
Definition one := Paying.after (Paying.pay 600 10 Paying.start Paying.tokens).
Definition two := Paying.after (Paying.pay 86999 999990 one.1 one.2).
Definition three := Paying.after (Paying.pay 87000 1000000 two.1 two.2).
End Twice.

(** The per-recipient cap is not a rolling one.  A window starts with the
    first payment and is forgotten whole 24 hours later: ten base units, then
    the rest of the cap a second before the window ends, then a whole cap when
    it has ended, gives a wallet twice the cap less ten base units within two
    seconds. *)
Theorem recipient_cap_is_paid_twice_in_two_seconds :
  ∃ h r, payment_run Paying.to_bytes Paying.decimals USDC_MINT_MAINNET USDT_MINT_MAINNET PROTOCOL_TREASURY
           1000000 h r 87000 ∧
    sum_if (λ t, 86999 <=? t) (paid_to (Paying.to_bytes "bob") h) = 1999990.
Proof.
  eexists [(87000, Paying.to_bytes "bob", 1000000); (86999, Paying.to_bytes "bob", 999990);
           (600, Paying.to_bytes "bob", 10)], (vs_recipients Twice.three.1).
  split; [|vm_compute; reflexivity].
  apply (paying_step _ _ Twice.two.1 Twice.two.2 86999 _ _ _ Twice.three.2);
    [|lia|done|vm_compute; done|vm_compute; reflexivity|vm_compute; reflexivity].
  apply (paying_step _ _ Twice.one.1 Twice.one.2 600 _ _ _ Twice.two.2);
    [|lia|done|vm_compute; done|vm_compute; reflexivity|vm_compute; reflexivity].
  apply (paying_step _ _ Paying.start Paying.tokens 0 _ _ _ Twice.one.2);
    [apply paid_none|lia|done|vm_compute; done|reflexivity|vm_compute; reflexivity].
Qed.

(** ** Against the client *)

(** C26: What the client's pre-flight refuses the program refuses too.  When the
    client has read the accounts as they are, its instruction names the
    agent, the mint and the recipient's account, and the program is built for
    the client's network, then a transfer that [buildAgentTransfer] refuses
    would have been refused by [agent_transfer] as well: no check of the
    client is stricter than the program's. *)
Theorem client_refuses_only_what_the_program_refuses `{TokenProgram} deriveAta overlayPda transferIx resolved opts
    to_bytes decimals usdc usdt treasury top sv version k s w e :
  (∀ mint, is_stablecoin_mint usdc usdt mint = isStablecoinMint mint (at_net opts)) →
  vs_vault s = rs_vault (default resolved (at_cachedState opts)) →
  vs_policy s = rs_policy (default resolved (at_cachedState opts)) →
  tr_agent k = at_agent opts → tr_mint k = at_tokenMint opts →
  (∀ dst, w !! tr_destination k = Some dst → tk_owner dst = at_destination opts) →
  buildAgentTransfer deriveAta overlayPda transferIx (Ok resolved) opts = Throw e →
  is_ok (agent_transfer to_bytes decimals usdc usdt treasury top sv (at_amount opts) version k s w) = false.
Proof.
  intros Hnet Hv Hp Hagent Hmint Hdst Hb.
  destruct (agent_transfer _ _ _ _ _ _ _ _ _ _ _ _) as [[s' w']|] eqn:Hx; [exfalso|done].
  apply agent_transfer_inv in Hx as (src & d & dst & usd & dev & El & Eg & _).
  apply load_accounts_inv in El as (_ & Hd & _ & Hm & _).
  apply transfer_guards_inv in Eg as (_ & _ & Hs & (a & Ha & Hpa & Hca) & Hamt & Hst & Hin & Hmode & _ & _ & _).
  rewrite (Hdst _ Hd), Hp in Hin. rewrite Hm, Hmint, Hnet in Hst. rewrite Hv in Hs, Ha. rewrite Hp in Hmode.
  unfold get_agent in Ha. rewrite Hagent in Ha. unfold buildAgentTransfer, check_transfer_agent in Hb.
  rewrite (proj2 (Z.leb_gt _ _) Hamt), Hst in Hb. cbn [throw_if negb mbind result_bind] in Hb.
  replace (match at_cachedState opts with Some s0 => Ok s0 | None => Ok resolved end)
    with (Ok (E := js_exn) (default resolved (at_cachedState opts))) in Hb by (by destruct (at_cachedState opts)).
  cbn [mbind result_bind] in Hb. rewrite Hs in Hb.
  destruct (list_find _ _) as [[i a']|]; [|done]. injection Ha as ->.
  rewrite Hpa, (proj2 (Z.eqb_neq (ae_capability a) 0)), Hmode, bool_decide_true in Hb by (done || lia). done.
Qed.

(** A client's options for the demo. *)
Definition paying_options : BuildAgentTransferOptions := {|
  at_vault := "vault"; at_agent := "agent"; at_destination := "mallory"; at_amount := 1000000;
  at_tokenMint := USDC_MINT_MAINNET; at_network := "mainnet"; at_cachedState := None |}.

Definition paying_resolved (s : VaultState) : ResolvedVaultState := {|
  rs_vault := vs_vault s; rs_policy := vs_policy s; rs_tracker := None; rs_overlay := None;
  rs_globalBudget := {| spent24h := 0; cap := 0; remaining := 0 |}; rs_agentBudget := None;
  rs_allAgentBudgets := ∅; rs_protocolBudgets := []; rs_maxTransactionUsd := 0; rs_usdc := 0; rs_usdt := 0;
  rs_resolvedAtTimestamp := 0 |}.

Definition build_with (opts : BuildAgentTransferOptions) (s : VaultState) : result js_exn Ix :=
  buildAgentTransfer (λ o m, o) id (λ a, OwnerTx.Demo.ix (aa_amount a)) (Ok (paying_resolved s)) opts.

(** To somebody who is not on the allowlist. *)
Definition mallory_tokens : Tokens := <["bob usdc" := Paying.account "mallory" 0]> Paying.tokens.

Lemma client_refuses_only_what_the_program_refuses_witness :
  build_with paying_options Paying.start = Throw (sdk "INVALID_PARAMS") ∧
  is_ok (Paying.pay 600 1000000 Paying.start mallory_tokens) = false.
Proof.
  split; [reflexivity|].
  eapply (client_refuses_only_what_the_program_refuses (λ o m, o) id (λ a, OwnerTx.Demo.ix (aa_amount a))
    (paying_resolved Paying.start) paying_options); try reflexivity.
  intros dst Hd. vm_compute in Hd. injection Hd as <-. reflexivity.
Defined.

(** The converse fails for two checks the client's documentation lists as
    the program's but does not make itself: it builds a transfer for an
    observer, whom the program refuses, and one to a wallet that is still in
    its waiting period. *)
Theorem client_leaves_two_checks :
  let opts := {| at_vault := "vault"; at_agent := "agent"; at_destination := "bob"; at_amount := 1000000;
                 at_tokenMint := USDC_MINT_MAINNET; at_network := "mainnet"; at_cachedState := None |} in
  is_ok (build_with opts (Paying.state 1 [])) = true ∧
  Paying.pay 600 1000000 (Paying.state 1 []) Paying.tokens = Throw "InsufficientPermissions" ∧
  is_ok (build_with opts (Paying.state 2 [("bob", 700)])) = true ∧
  Paying.pay 600 1000000 (Paying.state 2 [("bob", 700)]) Paying.tokens = Throw "ErrGraylistFriction".
Proof. vm_compute. done. Qed.
