(* ===== verification/Quickstart.v ===== *)
(** * The facade (sigil.ts, vault-handle.ts)

    [Sigil.quickstart] creates a vault, builds a handle on it and funds it;
    [Sigil.fromVault] builds a handle on a vault that exists; the handle's owner
    methods need an owner signer.  The calls are those of [VaultCreation],
    [Client] and [OwnerClient]; what each of them asks of the network is a
    parameter.

    The theorems: what quickstart reports is what was sent and confirmed; after
    the vault was created a failed deposit still returns the handle, whatever
    its cause under the one name rpc-failure; but a handle that cannot be built
    (another cluster, a bad plugin list) loses the address of a vault that
    exists. *)

From S2P Require Import Prelude JsMap JsText JsValue CanonicalEncode PolicyDigest PolicyBinding SdkTypes IntentDigest.
From S2P Require Import Base64 StateResolver Composer Rpc Seal Accounts OwnerTx Client.
From S2P Require Import Discovery VaultCreation Mutations OwnerClient.

Local Open Scope Z_scope.

(** What both constructors of a handle take. *)
Record HandleArgs : Type := {
  ha_rpc : option nat;
  ha_vault : string;
  ha_agent : string;
  ha_owner : option string;
  ha_network : string;
  ha_hooks : option SealHooks;
  ha_plugins : option (option (list plugin_arg));
  ha_skipGenesisAssertion : bool;
}.

(** [SigilVault], with its internal state. *)
Record SigilVault : Type := {
  sv_address : string;
  sv_network : string;
  sv_agent : string;
  sv_owner : option string;
  sv_client : Client.Client * ClientCaches;
  sv_config : Client.SigilClientConfig;
  sv_ownerClient : option OwnerClient.OwnerClient;
}.

Definition client_config (a : HandleArgs) : Client.SigilClientConfig := {|
  Client.cf_rpc := ha_rpc a; Client.cf_vault := ha_vault a; Client.cf_agent := ha_agent a;
  Client.cf_network := ha_network a; cf_blockhashTtlMs := None; cf_hooks := ha_hooks a;
  cf_plugins := ha_plugins a; Client.cf_requireMainnetConfirmation := None;
  cf_skipGenesisAssertion := ha_skipGenesisAssertion a |}.

Definition owner_config (a : HandleArgs) (owner : string) : OwnerClient.OwnerClientConfig := {|
  OwnerClient.cf_rpc := bool_decide (is_Some (ha_rpc a)); OwnerClient.cf_vault := Some (ha_vault a);
  cf_owner := Some owner; OwnerClient.cf_network := Some (ha_network a);
  OwnerClient.cf_requireMainnetConfirmation := None |}.

(** [buildInternalState] and the private constructor: the plugins, the
    genesis hash and the client, the owner's client. *)
Definition buildInternalState (a : HandleArgs) (replies : nat → result js_exn jsv) (cache : genesis_cache)
    : genesis_cache * result js_exn SigilVault :=
  match (match ha_plugins a with Some l => validatePluginList l | None => Ok [] end) with
  | Throw e => (cache, Throw e)
  | Ok _ =>
      let '(cache, (_, client)) := createSigilClientAsync (client_config a) replies cache in
      (cache,
       client ← client;
       ownerClient ← match ha_owner a with
                     | Some owner => oc ← createOwnerClient (owner_config a owner); Ok (Some oc)
                     | None => Ok None
                     end;
       Ok {| sv_address := ha_vault a; sv_network := ha_network a; sv_agent := ha_agent a;
             sv_owner := ha_owner a; sv_client := client; sv_config := client_config a;
             sv_ownerClient := ownerClient |})
  end.

(** [Sigil.fromVault]. *)
Definition fromVault : HandleArgs → (nat → result js_exn jsv) → genesis_cache →
    genesis_cache * result js_exn SigilVault := buildInternalState.

(** ** Owner methods of the handle *)

Section facade.
(** The parameters of the calls the facade makes. *)
Context (encode : string → list Z) (derive : string → list (list Z) → string).
Context (sha256 : list Z → list Z) (ob : OwnerBuilders) (n : OwnerNode).
Context (fetchPolicy : result jsv PolicyAccount) (fetchVault : result jsv VaultAccount).
Context (resolveAgents : result jsv (list string)).
Context (node : VaultNode) (getSlot : result jsv Z) (vb : VaultBuilders) (replies : CreateAndSendReplies).

(** A method that needs the owner: without one nothing is sent. *)
Definition owner_method (v : SigilVault) (c : owner_call) (opts : TxOpts) : outcome string :=
  match requireOwnerClient (sv_ownerClient v) with
  | Throw e => fails (Plain (SdkError e))
  | Ok oc => client_call encode derive sha256 ob n fetchPolicy fetchVault resolveAgents
               (OwnerClient.cl_vault oc) (OwnerClient.cl_network oc)
               (OwnerClient.cl_requireMainnetConfirmation oc) (cl_owner oc) c opts
  end.

Definition freeze (v : SigilVault) (opts : TxOpts) : outcome string := owner_method v (Lifecycle FreezeVault) opts.
Definition fund (v : SigilVault) (mint : string) (amount : Z) (opts : TxOpts) : outcome string :=
  owner_method v (Deposit mint amount) opts.

(** ** Quickstart *)

Record SigilQuickstartOptions : Type := {
  qo_create : CreateVaultOptions;
  qo_rpc : option nat;
  qo_network : string;
  qo_initialFundingUsd : option Z;
  qo_fundingMint : option string;
  qo_hooks : option SealHooks;
  qo_plugins : option (option (list plugin_arg));
  qo_skipGenesisAssertion : bool;
}.

Inductive not_funded : Type := Skipped | InsufficientBalance | RpcFailure | PolicyReject.

Inductive FundedOutcome : Type :=
| Funded (signature : string) (amountDepositedUsd : Z)
| NotFunded (reason : not_funded) (error : option owner_exn).

Record SigilQuickstartResult : Type := {
  qr_vault : SigilVault;
  qr_funded : FundedOutcome;
  qr_createVault : string;
  qr_fund : option string;
}.

Definition handle_args (o : SigilQuickstartOptions) (vault : string) : HandleArgs := {|
  ha_rpc := qo_rpc o; ha_vault := vault; ha_agent := VaultCreation.co_agent (qo_create o);
  ha_owner := Some (VaultCreation.co_owner (qo_create o)); ha_network := qo_network o; ha_hooks := qo_hooks o;
  ha_plugins := qo_plugins o; ha_skipGenesisAssertion := qo_skipGenesisAssertion o |}.

Definition no_opts : TxOpts := {|
  to_computeUnits := None; to_priorityFeeMicroLamports := None; to_mainnetConfirmed := None |}.

Definition funding_mint (o : SigilQuickstartOptions) : string :=
  default (if bool_decide (qo_network o = "mainnet") then USDC_MINT_MAINNET else USDC_MINT_DEVNET) (qo_fundingMint o).

(** Step 3, on the handle. *)
Definition fund_step (o : SigilQuickstartOptions) (v : SigilVault) (created : string) : SigilQuickstartResult :=
  let amount := default 0 (qo_initialFundingUsd o) in
  if amount =? 0
  then {| qr_vault := v; qr_funded := NotFunded Skipped None; qr_createVault := created; qr_fund := None |}
  else match oc_result (fund v (funding_mint o) amount no_opts) with
       | Ok signature => {| qr_vault := v; qr_funded := Funded signature amount; qr_createVault := created;
                            qr_fund := Some signature |}
       | Throw e => {| qr_vault := v; qr_funded := NotFunded RpcFailure (Some e); qr_createVault := created;
                       qr_fund := None |}
       end.

Definition quickstart (o : SigilQuickstartOptions) (genesis : nat → result js_exn jsv) (cache : genesis_cache)
    : genesis_cache * result call_exn SigilQuickstartResult :=
  match createAndSendVault encode derive node getSlot sha256 vb replies (qo_create o) with
  | Throw e => (cache, Throw e)
  | Ok (created, signature) =>
      let '(cache, state) := buildInternalState (handle_args o (cr_vaultAddress created)) genesis cache in
      (cache, v ← from_sdk state; Ok (fund_step o v signature))
  end.
End facade.

(** ** Properties *)

Section properties.
Context (encode : string → list Z) (derive : string → list (list Z) → string).
Context (sha256 : list Z → list Z) (ob : OwnerBuilders) (n : OwnerNode).
Context (fetchPolicy : result jsv PolicyAccount) (fetchVault : result jsv VaultAccount).
Context (resolveAgents : result jsv (list string)).
Context (node : VaultNode) (getSlot : result jsv Z) (vb : VaultBuilders) (replies : CreateAndSendReplies).

Abbreviation create := (createAndSendVault encode derive node getSlot sha256 vb replies).
Abbreviation start := (quickstart encode derive sha256 ob n fetchPolicy fetchVault resolveAgents
                         node getSlot vb replies).
Abbreviation the_fund := (fund encode derive sha256 ob n fetchPolicy fetchVault resolveAgents).

(** What a handle that was built is. *)
Lemma buildInternalState_Ok a genesis cache cache' v :
  buildInternalState a genesis cache = (cache', Ok v) →
  sv_address v = ha_vault a ∧ sv_network v = ha_network a ∧
  (ha_network a = "devnet" ∨ ha_network a = "mainnet") ∧
  (ha_skipGenesisAssertion a = false →
     cache' !! default 0%nat (ha_rpc a) = Some (expected_genesis (ha_network a))) ∧
  sv_ownerClient v = (λ owner, {|
    OwnerClient.cl_vault := ha_vault a; cl_owner := owner; OwnerClient.cl_network := ha_network a;
    OwnerClient.cl_requireMainnetConfirmation := None |}) <$> ha_owner a.
Proof.
  unfold buildInternalState, createSigilClientAsync.
  destruct (match ha_plugins a with Some l => validatePluginList l | None => Ok [] end); [|done].
  cbn [client_config cf_skipGenesisAssertion Client.cf_rpc Client.cf_network].
  set (P := createSigilClient (client_config a)).
  assert (∀ c, P = Ok c → ha_network a = "devnet" ∨ ha_network a = "mainnet") as Hnet.
  { subst P. unfold createSigilClient. intros c Hc. inv_ok.
    match goal with E : _ && _ = false |- _ => apply andb_false_iff in E; rename E into Hn end.
    by rewrite !negb_false_iff, !bool_decide_eq_true in Hn. }
  assert (∀ oc', match ha_owner a with
                | Some owner => oc ← createOwnerClient (owner_config a owner); Ok (Some oc)
                | None => Ok None
                end = Ok oc' → oc' = (λ owner, {|
    OwnerClient.cl_vault := ha_vault a; cl_owner := owner; OwnerClient.cl_network := ha_network a;
    OwnerClient.cl_requireMainnetConfirmation := None |}) <$> ha_owner a) as Hoc.
  { intros oc'. destruct (ha_owner a) as [owner|]; [|by intros [= <-]].
    unfold createOwnerClient, present, present_signer, owner_config. cbn. intros Hx. inv_ok.
    repeat case_bool_decide; try done. by simplify_eq. }
  destruct (ha_skipGenesisAssertion a).
  - intros [= <- Hx]. inv_ok. split_and!; [done|done|by eapply Hnet|done|by apply Hoc].
  - destruct (assertGenesisHash _ _ _ _) as [cache1 r] eqn:Eg. intros [= <- Hx].
    destruct r as [[]|]; [|done]. cbn [mbind result_bind] in Hx. inv_ok.
    apply assertGenesisHash_Ok in Eg as [Eg _]. split_and!; [done|done|by eapply Hnet|done|by apply Hoc].
Qed.

(** A handle's deposit is the owner's. *)
Lemma fund_is_deposit v oc mint amount :
  sv_ownerClient v = Some oc → OwnerClient.cl_requireMainnetConfirmation oc = None →
  the_fund v mint amount no_opts = deposit ob n (OwnerClient.cl_vault oc) (cl_owner oc) mint amount no_opts.
Proof.
  intros Hv Hc. unfold fund, owner_method. rewrite Hv. cbn [requireOwnerClient].
  unfold client_call, assertMainnetConfirmed. rewrite Hc. destruct (negb (bool_decide _)); done.
Qed.

(** A deposit that succeeds is one transaction of the owner's, with the deposit
    as its last instruction. *)
Lemma deposit_Ok vault owner mint amount signature :
  oc_result (deposit ob n vault owner mint amount no_opts) = Ok signature →
  0 < amount ∧ ∃ ix tx, ob_depositFunds ob owner vault mint amount = Ok ix ∧
    oc_sent (deposit ob n vault owner mint amount no_opts) = [tx] ∧ st_signers tx = [owner] ∧
    last (st_instructions tx) = Some ix ∧ on_send n tx = Ok signature.
Proof.
  unfold deposit, perform.
  destruct (_ ← requirePositiveAmount amount; _) as [ix|] eqn:Eix; [|done].
  apply bind_Ok_inv in Eix as ([] & Ep & Eix). apply bind_Ok_inv in Eix as (u & _ & Eix).
  unfold requirePositiveAmount, dx_if in Ep. inv_ok. apply Z.leb_gt in E.
  unfold plain in Eix. destruct (ob_depositFunds _ _ _ _ _) as [ix'|]; [|done]. injection Eix as ->.
  unfold run. destruct (on_blockhash n); [|done]. set (tx := {| st_feePayer := owner; st_signers := _; st_instructions := _ |}).
  destruct (on_sign n tx); [|done]. destruct (on_send n tx) as [sg|] eqn:Es; [|done]. cbn. intros [= <-].
  split; [done|]. exists ix, tx. split_and!; done.
Qed.

(** What quickstart reports is what happened.  The vault of the handle is
    the one whose creation was confirmed under the reported signature, on the
    configured cluster; [funded] with a signature means that exactly one
    transaction of the owner's was sent, ending in the deposit of that positive
    amount into that vault, and confirmed under that signature; skipped means
    that no amount was asked for; and a deposit that failed returns the handle
    with the error and no funding signature. *)
Theorem quickstart_reports_what_happened o genesis cache cache' r :
  start o genesis cache = (cache', Ok r) →
  ∃ created, create (qo_create o) = Ok (created, qr_createVault r) ∧
    sv_address (qr_vault r) = cr_vaultAddress created ∧ sv_network (qr_vault r) = qo_network o ∧
    (qo_skipGenesisAssertion o = false →
       cache' !! default 0%nat (qo_rpc o) = Some (expected_genesis (qo_network o))) ∧
    let deposited := the_fund (qr_vault r) (funding_mint o) (default 0 (qo_initialFundingUsd o)) no_opts in
    match qr_funded r with
    | Funded signature amount =>
        qo_initialFundingUsd o = Some amount ∧ 0 < amount ∧ qr_fund r = Some signature ∧
        ∃ ix tx, ob_depositFunds ob (VaultCreation.co_owner (qo_create o)) (cr_vaultAddress created)
                   (funding_mint o) amount = Ok ix ∧
          oc_sent deposited = [tx] ∧ st_signers tx = [VaultCreation.co_owner (qo_create o)] ∧
          last (st_instructions tx) = Some ix ∧ on_send n tx = Ok signature
    | NotFunded Skipped _ => default 0 (qo_initialFundingUsd o) = 0 ∧ qr_fund r = None
    | NotFunded RpcFailure (Some e) =>
        default 0 (qo_initialFundingUsd o) ≠ 0 ∧ qr_fund r = None ∧ oc_result deposited = Throw e
    | NotFunded _ _ => False
    end.
Proof.
  unfold quickstart. destruct (create (qo_create o)) as [[created signature]|] eqn:Ec; [|done].
  destruct (buildInternalState _ _ _) as [cache1 state] eqn:Eb. intros [= <- Hr].
  apply bind_Ok_inv in Hr as (v & Hv & [= <-]). destruct state as [v'|]; [|done]. injection Hv as ->.
  apply buildInternalState_Ok in Eb as (Ha & Hn & _ & Hg & Hoc). cbn in Ha, Hn, Hg, Hoc.
  exists created. unfold fund_step. destruct (Z.eqb_spec (default 0 (qo_initialFundingUsd o)) 0) as [Hz|Hz].
  { cbn. done. }
  destruct (oc_result (the_fund v (funding_mint o) (default 0 (qo_initialFundingUsd o)) no_opts)) as [sg|e] eqn:Ef;
    cbn [qr_vault qr_funded qr_createVault qr_fund]; [|rewrite Ef; done].
  erewrite fund_is_deposit in Ef |- *; [|exact Hoc|done|exact Hoc|done].
  destruct (deposit_Ok _ _ _ _ _ Ef) as (Hpos & ix & tx & Hix). split_and!; try done.
  - destruct (qo_initialFundingUsd o); [done|simpl in Hpos; lia].
  - exists ix, tx. exact Hix.
Qed.

(** A negative amount is refused by the client itself, and that too is reported
    as a failure of the node. *)
Lemma refused_deposit vault owner mint amount :
  amount ≤ 0 → oc_sent (deposit ob n vault owner mint amount no_opts) = [] ∧
               is_ok (oc_result (deposit ob n vault owner mint amount no_opts)) = false.
Proof.
  intros Ha. unfold deposit, perform, requirePositiveAmount, dx_if.
  by rewrite (proj2 (Z.leb_le amount 0) Ha).
Qed.

(** The reason of a failed deposit says nothing.  Of the four reasons the
    result type names only two are ever given; a deposit the client itself
    refuses without asking the node is reported as a failure of the node. *)
Theorem failed_funding_is_called_an_rpc_failure o genesis cache cache' r :
  start o genesis cache = (cache', Ok r) →
  (∀ e, qr_funded r ≠ NotFunded InsufficientBalance e ∧ qr_funded r ≠ NotFunded PolicyReject e) ∧
  (default 0 (qo_initialFundingUsd o) < 0 →
     oc_sent (the_fund (qr_vault r) (funding_mint o) (default 0 (qo_initialFundingUsd o)) no_opts) = [] ∧
     ∃ e, qr_funded r = NotFunded RpcFailure (Some e)).
Proof.
  unfold quickstart. destruct (create (qo_create o)) as [[created signature]|]; [|done].
  destruct (buildInternalState _ _ _) as [cache1 state] eqn:Eb. intros [= <- Hr].
  apply bind_Ok_inv in Hr as (v & Hv & [= <-]). destruct state as [v'|]; [|done]. injection Hv as ->.
  apply buildInternalState_Ok in Eb as (_ & _ & _ & _ & Hoc). cbn in Hoc. unfold fund_step.
  destruct (Z.eqb_spec (default 0 (qo_initialFundingUsd o)) 0) as [Hz|Hz]; [split; [done|lia]|].
  split; [by destruct (oc_result _)|]. intros Hneg.
  destruct (refused_deposit (cr_vaultAddress created) (VaultCreation.co_owner (qo_create o)) (funding_mint o)
    (default 0 (qo_initialFundingUsd o)) ltac:(lia)) as [Hs Hr].
  pose proof (fund_is_deposit v _ (funding_mint o) (default 0 (qo_initialFundingUsd o)) Hoc eq_refl) as Hf.
  cbn in Hf. rewrite Hf. destruct (oc_result _) as [|e]; [done|]. cbn [qr_vault qr_funded]. rewrite Hf. eauto.
Qed.
End properties.

(** ** A quickstart *)

Module QuickstartDemo.
Definition replies : CreateAndSendReplies := {| cs_sign := λ _, Ok "created"; cs_pendingGrant := λ _, Ok None |}.

Definition options (funding : option Z) (plugins : option (option (list plugin_arg))) : SigilQuickstartOptions := {|
  qo_create := CreationDemo.opts; qo_rpc := Some 1%nat; qo_network := "mainnet";
  qo_initialFundingUsd := funding; qo_fundingMint := None; qo_hooks := None; qo_plugins := plugins;
  qo_skipGenesisAssertion := false |}.

Definition genesis (hash : string) (_ : nat) : result js_exn jsv := Ok (JStr hash).

Abbreviation go o hash := (quickstart DiscoveryDemo.encode DiscoveryDemo.derive checksum32 OwnerDemo.builders
  OwnerDemo.node (Throw JNull) (Throw JNull) (Ok []) DiscoveryDemo.node (Throw JNull) CreationDemo.vb replies o
  (genesis hash) (∅ : genesis_cache)).
End QuickstartDemo.

Lemma demo_funded :
  match (QuickstartDemo.go (QuickstartDemo.options (Some 5) None) SOLANA_MAINNET_GENESIS_HASH).2 with
  | Ok r => Some (qr_createVault r, qr_funded r) | Throw _ => None end = Some ("created", Funded "Signature" 5).
Proof. vm_compute. reflexivity. Qed.

Lemma quickstart_reports_what_happened_witness :
  ∃ cache r, QuickstartDemo.go (QuickstartDemo.options (Some 5) None) SOLANA_MAINNET_GENESIS_HASH = (cache, Ok r) ∧
    qr_createVault r = "created" ∧ qr_funded r = Funded "Signature" 5 ∧
    cache !! 1%nat = Some SOLANA_MAINNET_GENESIS_HASH.
Proof.
  pose proof demo_funded as Hf.
  destruct (QuickstartDemo.go (QuickstartDemo.options (Some 5) None) SOLANA_MAINNET_GENESIS_HASH)
    as [cache [r|e]] eqn:E; [|discriminate Hf].
  injection Hf as Hc Hf. exists cache, r. split; [reflexivity|]. split; [exact Hc|]. split; [exact Hf|].
  destruct (quickstart_reports_what_happened _ _ _ _ _ _ _ _ _ _ _ _ _ _ _ _ _ E) as (created & _ & _ & _ & Hg & _).
  exact (Hg eq_refl).
Defined.

Lemma demo_negative :
  is_ok (QuickstartDemo.go (QuickstartDemo.options (Some (-5)) None) SOLANA_MAINNET_GENESIS_HASH).2 = true.
Proof. vm_compute. reflexivity. Qed.

Lemma failed_funding_is_called_an_rpc_failure_witness :
  ∃ cache r e, QuickstartDemo.go (QuickstartDemo.options (Some (-5)) None) SOLANA_MAINNET_GENESIS_HASH = (cache, Ok r) ∧
    qr_funded r = NotFunded RpcFailure (Some e).
Proof.
  pose proof demo_negative as Hok.
  destruct (QuickstartDemo.go (QuickstartDemo.options (Some (-5)) None) SOLANA_MAINNET_GENESIS_HASH)
    as [cache [r|e]] eqn:E; [|discriminate Hok].
  destruct (failed_funding_is_called_an_rpc_failure _ _ _ _ _ _ _ _ _ _ _ _ _ _ _ _ _ E) as [_ Hneg].
  destruct (Hneg eq_refl) as (_ & e & He). exists cache, r, e. exact (conj eq_refl He).
Defined.

(** A vault can be created and lost.  The cluster and the plugins are
    checked after the vault exists on chain: with a node of another cluster, or
    with two plugins of the same name, the creation is confirmed and quickstart
    throws, without the vault's address; neither check needs the vault. *)
Theorem created_vault_is_lost :
  let twin := PluginObject (Some "limit") (Some (λ _ _, PluginAllow)) in
  let created := createAndSendVault DiscoveryDemo.encode DiscoveryDemo.derive DiscoveryDemo.node (Throw JNull) checksum32
                   CreationDemo.vb QuickstartDemo.replies CreationDemo.opts in
  is_ok created = true ∧
  (QuickstartDemo.go (QuickstartDemo.options None None) SOLANA_DEVNET_GENESIS_HASH).2 =
    Throw (SdkError INVALID_NETWORK_CODE) ∧
  (QuickstartDemo.go (QuickstartDemo.options None (Some (Some [twin; twin]))) SOLANA_MAINNET_GENESIS_HASH).2 =
    Throw (SdkError INVALID_CONFIG) ∧
  is_ok (QuickstartDemo.go (QuickstartDemo.options None (Some (Some [twin]))) SOLANA_MAINNET_GENESIS_HASH).2 = true.
Proof. vm_compute. split_and!; done. Qed.
