(* ===== verification/KitCodec.v ===== *)
(** * The codecs of the generated client

    The files under [sdk/kit/src/generated] describe every instruction, account
    and event of the program by an expression over the codecs of the chain
    library: numbers, booleans, addresses, byte arrays, options, arrays and
    structs.  This file has that expression language ([codec]), the JavaScript
    values it reads and writes ([val]), and the interface of the library: [Kit]
    has the two functions the generated code calls, [LawfulKit] what its
    documentation says of each combinator.  From the laws of the parts the file
    proves that a whole codec reads back what it writes and, where its size is
    fixed, writes exactly that many bytes.  [plain_kit] is one library that
    meets the laws. *)
From S2P Require Import Prelude.

Local Open Scope Z_scope.

(** ** Codec expressions and values *)

Inductive prim : Type :=
| PUint (width : nat)      (* getU8Encoder .. getU64Encoder: little endian *)
| PI64                     (* getI64Encoder *)
| PBool                    (* getBooleanEncoder *)
| PAddress                 (* getAddressEncoder *)
| PFixed (n : nat)         (* fixEncoderSize(getBytesEncoder(), n) *)
| PSized                   (* addEncoderSizePrefix(getBytesEncoder(), getU32Encoder()) *)
| PEnum (variants : nat).  (* getEnumEncoder of an enum with that many variants *)

#[export] Instance prim_eq_dec : EqDecision prim.
Proof. solve_decision. Defined.

Inductive codec : Type :=
| CPrim (p : prim)
| COption (c : codec)                     (* getOptionEncoder(c) *)
| CArray (size : option nat) (c : codec)  (* getArrayEncoder(c), getArrayEncoder(c, { size }) *)
| CStruct (fields : list (string * codec)).  (* getStructEncoder(fields) *)

Inductive val : Type :=
| VInt (z : Z)
| VBool (b : bool)
| VAddress (a : string)
| VBytes (bs : list Z)
| VNone
| VSome (v : val)
| VArray (l : list val)
| VObject (fields : list (string * val)).

(** Induction on codecs, through the fields of structs. *)
Section CodecInduction.
Context (P : codec → Prop).
Hypothesis on_prim : ∀ p, P (CPrim p).
Hypothesis on_option : ∀ c, P c → P (COption c).
Hypothesis on_array : ∀ n c, P c → P (CArray n c).
Hypothesis on_struct : ∀ fs, Forall (λ f, P f.2) fs → P (CStruct fs).

Fixpoint codec_nested_ind (c : codec) : P c :=
  match c with
  | CPrim p => on_prim p
  | COption c => on_option c (codec_nested_ind c)
  | CArray n c => on_array n c (codec_nested_ind c)
  | CStruct fs =>
      on_struct fs ((fix go (fs : list (string * codec)) : Forall (λ f, P f.2) fs :=
        match fs with
        | [] => List.Forall_nil _
        | (k, c) :: fs => Forall_cons_2 _ (k, c) fs (codec_nested_ind c) (go fs)
        end) fs)
  end.
End CodecInduction.

(** [o[k]] *)
Fixpoint field (k : string) (o : list (string * val)) : option val :=
  match o with
  | [] => None
  | (k', v) :: o => if bool_decide (k = k') then Some v else field k o
  end.

(** Every struct names each of its fields once. *)
Fixpoint wf (c : codec) : bool :=
  match c with
  | CPrim _ => true
  | COption c | CArray _ c => wf c
  | CStruct fs => bool_decide (NoDup fs.*1) && forallb (λ f, wf f.2) fs
  end.

(** The number of bytes of a codec whose size does not depend on the value. *)
Definition prim_size (p : prim) : option nat :=
  match p with
  | PUint n | PFixed n => Some n
  | PI64 => Some 8%nat
  | PBool | PEnum _ => Some 1%nat
  | PAddress => Some 32%nat
  | PSized => None
  end.

Fixpoint fixed_size (c : codec) : option nat :=
  match c with
  | CPrim p => prim_size p
  | COption _ | CArray None _ => None
  | CArray (Some n) c => k ← fixed_size c; Some (n * k)%nat
  | CStruct fs =>
      (fix go fs := match fs with
                    | [] => Some 0%nat
                    | f :: fs => a ← fixed_size f.2; b ← go fs; Some (a + b)%nat
                    end) fs
  end.

(** ** The chain library *)

Class Kit : Type := {
  kit_encode : codec → val → result js_exn (list Z);
  kit_read : codec → list Z → result js_exn (val * list Z);
  valid_address : string → bool;
}.

Section Kit.
Context `{Kit}.

(** [decode(bytes)] reads from the start and leaves what follows. *)
Definition kit_decode (c : codec) (bs : list Z) : result js_exn val := fst <$> kit_read c bs.

Definition signed (z : Z) : bool := (- 2 ^ 63 <=? z) && (z <? 2 ^ 63).
Definition unsigned (bits z : Z) : bool := (0 <=? z) && (z <? 2 ^ bits).
Definition is_bytes (bs : list Z) : bool := forallb (λ b, (0 <=? b) && (b <? 256)) bs.

(** The values a codec is written for: the TypeScript type of its argument,
    with the range of each number. *)
Definition prim_ok (p : prim) (v : val) : bool :=
  match p, v with
  | PUint n, VInt z => unsigned (8 * Z.of_nat n) z
  | PI64, VInt z => signed z
  | PBool, VBool _ => true
  | PAddress, VAddress a => valid_address a
  | PFixed n, VBytes bs => bool_decide (length bs = n) && is_bytes bs
  | PSized, VBytes bs => (Z.of_nat (length bs) <? 2 ^ 32) && is_bytes bs
  | PEnum n, VInt z => (0 <=? z) && (z <? Z.of_nat n `min` 256)
  | _, _ => false
  end.

Definition size_ok (size : option nat) (l : list val) : bool :=
  match size with
  | Some n => bool_decide (length l = n)
  | None => Z.of_nat (length l) <? 2 ^ 32
  end.

Fixpoint typed (c : codec) (v : val) : bool :=
  match c, v with
  | CPrim p, v => prim_ok p v
  | COption _, VNone => true
  | COption c, VSome v => typed c v
  | CArray n c, VArray l => size_ok n l && forallb (typed c) l
  | CStruct fs, VObject o =>
      (fix go fs o := match fs, o with
                      | [], [] => true
                      | f :: fs, kv :: o => bool_decide (f.1 = kv.1) && typed f.2 kv.2 && go fs o
                      | _, _ => false
                      end) fs o
  | _, _ => false
  end.

(** The fields of a struct one after the other, each read from the object by
    its name. *)
Fixpoint encode_fields (fs : list (string * codec)) (o : list (string * val)) : result js_exn (list Z) :=
  match fs with
  | [] => Ok []
  | (k, c) :: fs =>
      match field k o with
      | None => Throw JsTypeError
      | Some v => bs ← kit_encode c v; more ← encode_fields fs o; Ok (bs ++ more)
      end
  end.

Fixpoint read_fields (fs : list (string * codec)) (bs : list Z)
    : result js_exn (list (string * val) * list Z) :=
  match fs with
  | [] => Ok ([], bs)
  | (k, c) :: fs =>
      '(v, bs) ← kit_read c bs;
      '(o, bs) ← read_fields fs bs;
      Ok ((k, v) :: o, bs)
  end.

Fixpoint encode_items (c : codec) (l : list val) : result js_exn (list Z) :=
  match l with
  | [] => Ok []
  | v :: l => bs ← kit_encode c v; more ← encode_items c l; Ok (bs ++ more)
  end.

Fixpoint read_items (c : codec) (n : nat) (bs : list Z) : result js_exn (list val * list Z) :=
  match n with
  | O => Ok ([], bs)
  | S n =>
      '(v, bs) ← kit_read c bs;
      '(l, bs) ← read_items c n bs;
      Ok (v :: l, bs)
  end.

(** [c] reads back [v] from what it writes, whatever follows. *)
Definition reads_back (c : codec) (v : val) : Prop :=
  ∃ bs, kit_encode c v = Ok bs ∧ (∀ rest, kit_read c (bs ++ rest) = Ok (v, rest)) ∧
        (∀ n, fixed_size c = Some n → length bs = n).
End Kit.

(** What the documentation of the library says of its codecs. *)
Class LawfulKit (K : Kit) : Prop := {
  law_prim : ∀ p v, prim_ok p v = true → reads_back (CPrim p) v;
  law_fixed_bytes : ∀ n bs, prim_ok (PFixed n) (VBytes bs) = true →
    kit_encode (CPrim (PFixed n)) (VBytes bs) = Ok bs;
  law_struct_encode : ∀ fs o, Forall (λ k, is_Some (field k o)) fs.*1 →
    kit_encode (CStruct fs) (VObject o) = encode_fields fs o;
  law_struct_read : ∀ fs bs,
    kit_read (CStruct fs) bs = ('(o, rest) ← read_fields fs bs; Ok (VObject o, rest));
  law_array_encode : ∀ n c l, length l = n →
    kit_encode (CArray (Some n) c) (VArray l) = encode_items c l;
  law_array_read : ∀ n c bs,
    kit_read (CArray (Some n) c) bs = ('(l, rest) ← read_items c n bs; Ok (VArray l, rest));
  law_list_encode : ∀ c l,
    kit_encode (CArray None c) (VArray l) =
      (prefix ← kit_encode (CPrim (PUint 4)) (VInt (Z.of_nat (length l))); items ← encode_items c l; Ok (prefix ++ items));
  law_list_read : ∀ c bs,
    kit_read (CArray None c) bs =
      ('(n, rest) ← kit_read (CPrim (PUint 4)) bs;
       match n with
       | VInt n => '(l, rest) ← read_items c (Z.to_nat n) rest; Ok (VArray l, rest)
       | _ => Throw JsTypeError
       end);
  law_none_encode : ∀ c, kit_encode (COption c) VNone = kit_encode (CPrim PBool) (VBool false);
  law_some_encode : ∀ c v,
    kit_encode (COption c) (VSome v) =
      (tag ← kit_encode (CPrim PBool) (VBool true); bs ← kit_encode c v; Ok (tag ++ bs));
  law_option_read : ∀ c bs,
    kit_read (COption c) bs =
      ('(tag, rest) ← kit_read (CPrim PBool) bs;
       match tag with
       | VBool true => '(v, rest) ← kit_read c rest; Ok (VSome v, rest)
       | VBool false => Ok (VNone, rest)
       | _ => Throw JsTypeError
       end);
}.

Section RoundTrip.
Context `{K : Kit, !LawfulKit K}.

Lemma read_bind_ok {A B} (m : result js_exn A) (a : A) (k : A → result js_exn B) :
  m = Ok a → m ≫= k = k a.
Proof. by intros ->. Qed.

(** The items of an array read back when each of them does. *)
Lemma items_read_back c l :
  Forall (reads_back c) l →
  ∃ bs, encode_items c l = Ok bs ∧
        (∀ rest, read_items c (length l) (bs ++ rest) = Ok (l, rest)) ∧
        (∀ n, fixed_size c = Some n → length bs = (length l * n)%nat).
Proof.
  induction 1 as [|v l (b & Hb & Rb & Sb) _ (bs & Hbs & Rbs & Sbs)]; cbn.
  { exists []. eauto. }
  rewrite Hb; cbn. rewrite Hbs; cbn. eexists; split; [done|split].
  - intros rest. rewrite <- app_assoc, Rb; cbn. by rewrite Rbs.
  - intros n Hn. rewrite length_app, (Sb _ Hn), (Sbs _ Hn). lia.
Qed.

(** The object [o] has the fields of [fs], in their order and with values that
    read back. *)
Inductive fields_read_back : list (string * codec) → list (string * val) → Prop :=
| fields_nil : fields_read_back [] []
| fields_cons k c v fs o :
    reads_back c v → fields_read_back fs o → fields_read_back ((k, c) :: fs) ((k, v) :: o).

Lemma fields_keys fs o : fields_read_back fs o → o.*1 = fs.*1.
Proof. induction 1; cbn; congruence. Qed.

(** What a struct writes only depends on the fields it names. *)
Lemma encode_fields_ext fs o o' :
  Forall (λ k, field k o = field k o') fs.*1 → encode_fields fs o = encode_fields fs o'.
Proof.
  induction fs as [|[k c] fs IH]; cbn; [done|]. intros [Hk Hfs]%Forall_cons.
  rewrite Hk. destruct (field k o'); [|done]. by rewrite (IH Hfs).
Qed.

Lemma field_skip k k' v o : k ≠ k' → field k ((k', v) :: o) = field k o.
Proof. intros Hk. cbn. by rewrite bool_decide_false. Qed.

Lemma field_head k v o : field k ((k, v) :: o) = Some v.
Proof. cbn. by rewrite bool_decide_true. Qed.

Lemma encode_fields_skip fs k v o :
  k ∉ fs.*1 → encode_fields fs ((k, v) :: o) = encode_fields fs o.
Proof.
  intros Hk. apply encode_fields_ext, Forall_forall. intros k' Hk'.
  apply field_skip. intros ->. done.
Qed.

Lemma fields_roundtrip fs o :
  NoDup fs.*1 → fields_read_back fs o →
  ∃ bs, encode_fields fs o = Ok bs ∧
        (∀ rest, read_fields fs (bs ++ rest) = Ok (o, rest)) ∧
        (∀ n, fixed_size (CStruct fs) = Some n → length bs = n).
Proof.
  intros Hd Hf. induction Hf as [|k c v fs o (b & Hb & Rb & Sb) Hf IH].
  { exists []. cbn. split; [done|split; [done|]]. by intros n [= <-]. }
  cbn in Hd. apply NoDup_cons in Hd as [Hk Hd]. destruct (IH Hd) as (bs & Hbs & Rbs & Sbs).
  exists (b ++ bs). cbn [encode_fields read_fields]. rewrite field_head, encode_fields_skip by done.
  rewrite Hb; cbn. rewrite Hbs; cbn. split; [done|split].
  - intros rest. rewrite <- app_assoc, Rb; cbn. by rewrite Rbs.
  - intros n. destruct (fixed_size c) as [a|]; [|done]. cbn. cbn in Sbs.
    match goal with |- context [?g fs] => destruct (g fs) as [m|] end; [|done]. cbn.
    intros [= <-]. rewrite length_app, (Sb a eq_refl), (Sbs m eq_refl). done.
Qed.

Lemma field_present fs o : fields_read_back fs o → NoDup fs.*1 → Forall (λ k, is_Some (field k o)) fs.*1.
Proof.
  intros Hf Hd. apply Forall_forall. rewrite <- (fields_keys _ _ Hf). clear Hf Hd.
  induction o as [|[k v] o IH]; cbn; [by intros ? ?%not_elem_of_nil|].
  intros k' [->|Hk']%elem_of_cons; cbn; case_bool_decide; eauto; done.
Qed.

Lemma struct_reads_back fs o :
  NoDup fs.*1 → fields_read_back fs o → reads_back (CStruct fs) (VObject o).
Proof.
  intros Hd Hf. destruct (fields_roundtrip fs o Hd Hf) as (bs & Hbs & Rbs & Sbs).
  exists bs. rewrite law_struct_encode by eauto using field_present. split; [done|split; [|done]].
  intros rest. by rewrite law_struct_read, Rbs.
Qed.

Lemma array_reads_back n c l :
  size_ok n l = true → Forall (reads_back c) l → reads_back (CArray n c) (VArray l).
Proof.
  intros Hn Hl. destruct (items_read_back c l Hl) as (bs & Hbs & Rbs & Sbs). destruct n as [n|]; cbn in Hn.
  - apply bool_decide_eq_true in Hn. exists bs. rewrite law_array_encode by done. split; [done|split].
    + intros rest. rewrite law_array_read. by rewrite <- Hn, Rbs.
    + cbn. intros m. destruct (fixed_size c) as [k|]; [|done]. cbn. intros [= <-].
      rewrite <- Hn. by apply Sbs.
  - assert (Hp : prim_ok (PUint 4) (VInt (Z.of_nat (length l))) = true).
    { cbn. unfold unsigned. apply andb_true_intro; split; [apply Z.leb_le; lia|done]. }
    destruct (law_prim _ _ Hp) as (p & Ep & Rp & _).
    exists (p ++ bs). rewrite law_list_encode, Ep; cbn. rewrite Hbs. split; [done|split; [|done]].
    intros rest. rewrite law_list_read, <- app_assoc, Rp; cbn. by rewrite Nat2Z.id, Rbs.
Qed.

Lemma option_reads_back c v : reads_back c v → reads_back (COption c) (VSome v).
Proof.
  intros (bs & Hbs & Rbs & _). destruct (law_prim PBool (VBool true) eq_refl) as (p & Ep & Rp & _).
  exists (p ++ bs). rewrite law_some_encode, Ep; cbn. rewrite Hbs. split; [done|split; [|done]].
  intros rest. rewrite law_option_read, <- app_assoc, Rp; cbn. by rewrite Rbs.
Qed.

Lemma none_reads_back c : reads_back (COption c) VNone.
Proof.
  destruct (law_prim PBool (VBool false) eq_refl) as (p & Ep & Rp & _).
  exists p. rewrite law_none_encode, Ep. split; [done|split; [|done]].
  intros rest. by rewrite law_option_read, Rp.
Qed.

Lemma typed_struct_inv fs o :
  Forall (λ f, ∀ v, wf f.2 = true → typed f.2 v = true → reads_back f.2 v) fs →
  forallb (λ f, wf f.2) fs = true → typed (CStruct fs) (VObject o) = true → fields_read_back fs o.
Proof.
  intros Hfs. revert o. induction Hfs as [|[k c] fs Hc Hfs IH]; intros [|[k' v] o]; cbn; try done.
  { by constructor. }
  rewrite !andb_true_iff. intros [Hw Hws] [[->%bool_decide_eq_true Ht] Hts].
  constructor; [by apply Hc|]. by apply IH.
Qed.

(** Every well-formed codec reads back every value of its type. *)
Lemma codec_reads_back c v : wf c = true → typed c v = true → reads_back c v.
Proof.
  revert v. induction c as [p|c IH|n c IH|fs IH] using codec_nested_ind; intros v Hw Ht.
  - by apply law_prim.
  - destruct v; try discriminate; [apply none_reads_back|]. by apply option_reads_back, IH.
  - destruct v; try discriminate. cbn in Ht. apply andb_true_iff in Ht as [Hn Hl].
    apply array_reads_back; [done|]. apply Forall_forall. intros x Hx%list_elem_of_In.
    apply IH; [done|]. by apply (proj1 (forallb_forall _ _) Hl).
  - destruct v; try discriminate. cbn in Hw. apply andb_true_iff in Hw as [Hd%bool_decide_eq_true Hw].
    apply struct_reads_back; [done|]. by apply typed_struct_inv.
Qed.
End RoundTrip.

(** ** A library that meets the laws

    Numbers little endian, an address the 32 characters of its name. *)

Definition plain_address (a : string) : bool := bool_decide (String.length a = 32%nat).
Definition address_bytes (a : string) : list Z := Z.of_N ∘ N_of_ascii <$> String.list_ascii_of_string a.
Definition bytes_address (bs : list Z) : string :=
  String.string_of_list_ascii (ascii_of_N ∘ Z.to_N <$> bs).

Definition plain_prim_encode (p : prim) (v : val) : result js_exn (list Z) :=
  match p, v with
  | PUint n, VInt z => Ok (le_bytes n z)
  | PI64, VInt z => Ok (le_bytes 8 (wrap 64 z))
  | PBool, VBool b => Ok [if b then 1 else 0]
  | PAddress, VAddress a => Ok (address_bytes a)
  | PFixed n, VBytes bs => Ok (take n (bs ++ replicate n 0))
  | PSized, VBytes bs => Ok (le_bytes 4 (Z.of_nat (length bs)) ++ bs)
  | PEnum _, VInt z => Ok [z]
  | _, _ => Throw JsTypeError
  end.

Definition read_bytes (n : nat) (bs : list Z) : result js_exn (list Z * list Z) :=
  if (length bs <? n)%nat then Throw JsRangeError else Ok (take n bs, drop n bs).

Definition plain_prim_read (p : prim) (bs : list Z) : result js_exn (val * list Z) :=
  match p with
  | PUint n => '(b, r) ← read_bytes n bs; Ok (VInt (le_value b), r)
  | PI64 =>
      '(b, r) ← read_bytes 8 bs;
      Ok (VInt (let z := le_value b in if z <? 2 ^ 63 then z else z - 2 ^ 64), r)
  | PBool => '(b, r) ← read_bytes 1 bs; Ok (VBool (bool_decide (b = [1])), r)
  | PAddress => '(b, r) ← read_bytes 32 bs; Ok (VAddress (bytes_address b), r)
  | PFixed n => '(b, r) ← read_bytes n bs; Ok (VBytes b, r)
  | PSized =>
      '(b, r) ← read_bytes 4 bs;
      '(b, r) ← read_bytes (Z.to_nat (le_value b)) r;
      Ok (VBytes b, r)
  | PEnum _ => '(b, r) ← read_bytes 1 bs; Ok (VInt (le_value b), r)
  end.

Fixpoint plain_encode (c : codec) (v : val) {struct c} : result js_exn (list Z) :=
  match c, v with
  | CPrim p, v => plain_prim_encode p v
  | COption _, VNone => Ok [0]
  | COption c, VSome v => bs ← plain_encode c v; Ok (1 :: bs)
  | CArray n c, VArray l =>
      items ← (fix go l := match l with
                           | [] => Ok []
                           | v :: l => bs ← plain_encode c v; more ← go l; Ok (bs ++ more)
                           end) l;
      Ok ((if n is None then le_bytes 4 (Z.of_nat (length l)) else []) ++ items)
  | CStruct fs, VObject o =>
      (fix go (fs : list (string * codec)) := match fs with
                    | [] => Ok []
                    | (k, c) :: fs =>
                        match field k o with
                        | None => Throw JsTypeError
                        | Some v => bs ← plain_encode c v; more ← go fs; Ok (bs ++ more)
                        end
                    end) fs
  | _, _ => Throw JsTypeError
  end.

Fixpoint plain_read (c : codec) (bs : list Z) {struct c} : result js_exn (val * list Z) :=
  match c with
  | CPrim p => plain_prim_read p bs
  | COption c =>
      '(tag, r) ← plain_prim_read PBool bs;
      match tag with
      | VBool true => '(v, r) ← plain_read c r; Ok (VSome v, r)
      | _ => Ok (VNone, r)
      end
  | CArray n c =>
      let items := fix go (k : nat) bs := match k with
                                          | O => Ok ([], bs)
                                          | S k => '(v, bs) ← plain_read c bs; '(l, bs) ← go k bs; Ok (v :: l, bs)
                                          end in
      match n with
      | Some n => '(l, r) ← items n bs; Ok (VArray l, r)
      | None =>
          '(b, r) ← read_bytes 4 bs;
          '(l, r) ← items (Z.to_nat (le_value b)) r;
          Ok (VArray l, r)
      end
  | CStruct fs =>
      '(o, r) ← (fix go (fs : list (string * codec)) bs := match fs with
                                     | [] => Ok ([], bs)
                                     | (k, c) :: fs =>
                                         '(v, bs) ← plain_read c bs;
                                         '(o, bs) ← go fs bs;
                                         Ok ((k, v) :: o, bs)
                                     end) fs bs;
      Ok (VObject o, r)
  end.

#[export] Instance plain_kit : Kit := {|
  kit_encode := plain_encode;
  kit_read := plain_read;
  valid_address := plain_address;
|}.

Lemma read_bytes_app n bs rest : length bs = n → read_bytes n (bs ++ rest) = Ok (bs, rest).
Proof.
  intros <-. unfold read_bytes. rewrite length_app.
  destruct (Nat.ltb_spec (length bs + length rest) (length bs)); [lia|].
  by rewrite take_app_length, drop_app_length.
Qed.

Lemma length_address_bytes a : length (address_bytes a) = String.length a.
Proof. unfold address_bytes. rewrite length_fmap. induction a; cbn; congruence. Qed.

Lemma address_bytes_back a : bytes_address (address_bytes a) = a.
Proof.
  unfold bytes_address, address_bytes. rewrite <- list_fmap_compose.
  rewrite (list_fmap_ext _ id _).
  - by rewrite list_fmap_id, String.string_of_list_ascii_of_string.
  - intros i x _. unfold compose. cbn. by rewrite N2Z.id, ascii_N_embedding.
Qed.

Lemma plain_prim_ok p v : prim_ok p v = true → reads_back (CPrim p) v.
Proof.
  intros Hv. unfold reads_back. cbn [kit_encode kit_read plain_kit plain_encode plain_read fixed_size].
  destruct p as [n| | | |n| |n], v as [z|b|a|bs| | | |]; cbn in Hv |- *; try discriminate Hv;
    (eexists; split; [reflexivity|split; [intros rest|intros m Hm; simplify_eq]]).
  - rewrite read_bytes_app by apply length_le_bytes. cbn. rewrite le_value_le_bytes.
    unfold unsigned in Hv. rewrite Z.mod_small; [done|lia].
  - apply length_le_bytes.
  - rewrite (read_bytes_app 8) by apply length_le_bytes. cbn [mbind result_bind].
    rewrite le_value_le_bytes. change (8 * Z.of_nat 8) with 64. unfold wrap. rewrite Zmod_mod.
    unfold signed in Hv. do 3 f_equal. destruct (Z.ltb_spec z 0).
    + rewrite <- (Z_mod_plus_full z 1), Z.mod_small by lia.
      destruct (Z.ltb_spec (z + 1 * 2 ^ 64) (2 ^ 63)); lia.
    + rewrite Z.mod_small by lia. destruct (Z.ltb_spec z (2 ^ 63)); lia.
  - done.
  - rewrite (read_bytes_app 1) by done. cbn. by destruct b.
  - done.
  - apply bool_decide_eq_true in Hv. rewrite read_bytes_app by by rewrite length_address_bytes.
    cbn. by rewrite address_bytes_back.
  - apply bool_decide_eq_true in Hv. by rewrite length_address_bytes.
  - apply andb_true_iff in Hv as [Hl%bool_decide_eq_true _]. rewrite take_app_le, take_ge by lia.
    by rewrite read_bytes_app.
  - apply andb_true_iff in Hv as [Hl%bool_decide_eq_true _]. by rewrite take_app_le, take_ge by lia.
  - apply andb_true_iff in Hv as [Hl _]. rewrite <- app_assoc, (read_bytes_app 4) by apply length_le_bytes.
    cbn [mbind result_bind]. rewrite le_value_le_bytes, Z.mod_small by lia.
    by rewrite Nat2Z.id, read_bytes_app.
  - rewrite (read_bytes_app 1) by done. cbn. do 3 f_equal. lia.
  - done.
Qed.

Lemma plain_items c l :
  (fix go l := match l with
               | [] => Ok []
               | v :: l => bs ← plain_encode c v; more ← go l; Ok (bs ++ more)
               end) l = encode_items c l.
Proof. induction l as [|v l IH]; [done|]. cbn. by rewrite IH. Qed.

#[export] Instance plain_kit_lawful : LawfulKit plain_kit.
Proof.
  split.
  - apply plain_prim_ok.
  - intros n bs [Hl%bool_decide_eq_true _]%andb_true_iff. cbn. by rewrite take_app_le, take_ge by lia.
  - intros fs o _. cbn. induction fs as [|[k c] fs IH]; [done|]. cbn. by rewrite IH.
  - done.
  - intros n c l _. cbn. rewrite plain_items. by destruct (encode_items c l).
  - intros n c bs. cbn. f_equal. revert bs. induction n as [|n IH]; intros bs; [done|]. cbn.
    destruct (plain_read c bs) as [[v r]|]; [cbn|done]. by rewrite IH.
  - intros c l. cbn. rewrite plain_items. by destruct (encode_items c l).
  - intros c bs. cbn. destruct (read_bytes 4 bs) as [[b r]|]; [cbn|done]. f_equal.
    generalize (Z.to_nat (le_value b)) as n. intros n. revert r.
    induction n as [|n IH]; intros r; [done|]. cbn.
    destruct (plain_read c r) as [[v r']|]; [cbn|done]. by rewrite IH.
  - done.
  - intros c v. cbn. by destruct (plain_encode c v).
  - intros c bs. cbn. by destruct (read_bytes 1 bs) as [[b r]|].
Qed.
