(* ===== verification/ProgramClient.v ===== *)
(** * The builders and parsers of the generated client

    Every file of [sdk/kit/src/generated/instructions] has the same code with
    other tables: an encoder that adds the discriminator to the arguments, two
    builders (one derives the accounts it can, the other takes them), and a
    parser.  This file has that code, as functions of the tables; the tables are
    in [GeneratedInstructions].  [ClientCore] is the interface of the library the
    generated code calls for account metas and derived addresses. *)
From S2P Require Import Prelude IntentDigest Accounts KitCodec.

Local Open Scope Z_scope.

(** ** The account values a builder works on *)

(** [ResolvedInstructionAccount.value] when it is not null: an address, a
    derived address with its bump, or a signer. *)
Inductive resolved : Type :=
| RAddress (a : string)
| RDerived (a : string) (bump : Z)
| RSigner (a : string).

Definition resolved_address (r : resolved) : string :=
  match r with RAddress a | RDerived a _ | RSigner a => a end.
Definition is_signer (r : resolved) : bool :=
  match r with RSigner _ => true | _ => false end.

(** [AccountRole]: 0 read-only, 1 writable, 2 and 3 the same for signers. *)
Definition role_number (isWritable signer : bool) : Z :=
  (if isWritable then 1 else 0) + (if signer then 2 else 0).

Definition meta_of (isWritable : bool) (r : resolved) : AccountMeta :=
  {| acc_address := resolved_address r; acc_role := RoleNumber (role_number isWritable (is_signer r)) |}.

(** The meta that stands for an account left out. *)
Definition placeholder (programAddress : string) : AccountMeta :=
  {| acc_address := programAddress; acc_role := RoleNumber 0 |}.

(** The functions of the client library: [getAccountMeta] is the result of
    [getAccountMetaFactory(programAddress, 'programId')]. *)
Class ClientCore : Type := {
  getAccountMeta : string → string → option resolved → bool → result js_exn AccountMeta;
  getAddressFromResolvedInstructionAccount : string → option resolved → result js_exn string;
  getNonNullResolvedInstructionInput : string → option val → result js_exn val;
  getProgramDerivedAddress : string → list (list Z) → result js_exn (string * Z);
  getBytesEncoder_encode : list Z → result js_exn (list Z);
  containsBytes : list Z → list Z → nat → bool;
}.

(** What its documentation says.  An address is derived for at most sixteen
    seeds of at most 32 bytes. *)
Class LawfulCore (K : Kit) (C : ClientCore) : Prop := {
  law_meta_absent : ∀ program name w, getAccountMeta program name None w = Ok (placeholder program);
  law_meta_present : ∀ program name r w, getAccountMeta program name (Some r) w = Ok (meta_of w r);
  law_address_absent : ∀ name, is_ok (getAddressFromResolvedInstructionAccount name None) = false;
  law_address_present : ∀ name r,
    getAddressFromResolvedInstructionAccount name (Some r) = Ok (resolved_address r);
  law_input_absent : ∀ name, is_ok (getNonNullResolvedInstructionInput name None) = false;
  law_input_present : ∀ name v, getNonNullResolvedInstructionInput name (Some v) = Ok v;
  law_derives : ∀ program seeds,
    (length seeds ≤ 16)%nat → Forall (λ s, (length s ≤ 32)%nat) seeds →
    ∃ a bump, getProgramDerivedAddress program seeds = Ok (a, bump) ∧ valid_address a = true;
  law_raw_bytes : ∀ bs, getBytesEncoder_encode bs = Ok bs;
  law_contains_bytes : ∀ data bs,
    containsBytes data bs 0 = bool_decide (take (length bs) data = bs);
}.

(** ** Tables *)

(** [transformEncoder(getStructEncoder(fields), (value) => ({ ...value,
    discriminator }))]. *)
Record TaggedEncoder : Type := { te_struct : list (string * codec); te_discriminator : list Z }.

Inductive seed : Type :=
| SBytes (bs : list Z)                 (* getBytesEncoder().encode(new Uint8Array([...])) *)
| SAccount (name : string)             (* getAddressEncoder().encode(... accounts.name.value) *)
| SArg (name : string) (c : codec).    (* encode(... args.name) *)

Inductive account_default : Type :=
| DAddress (a : string)
| DDerived (program : option string) (seeds : list seed).

Record Builder : Type := {
  b_accounts : list (string * bool);               (* originalAccounts and isWritable *)
  b_defaults : list (string * account_default);    (* the [if (!accounts.name.value)] in their order *)
  b_metas : list string;                           (* the accounts of the instruction *)
  b_data : TaggedEncoder;
}.

(** The input type of a builder: for each account whether it may be left out
    and whether it is a signer; the names of the arguments. *)
Record InputType : Type := {
  it_accounts : list (string * bool * bool);
  it_args : list string;
}.

Record Parser : Type := {
  p_expected : nat;
  p_accounts : list (string * bool);    (* the account and whether [getNextOptionalAccount] reads it *)
  p_data : list (string * codec);
}.

Record ParsedIx : Type := {
  px_programAddress : string;
  px_accounts : list (string * option AccountMeta);
  px_data : val;
}.

Definition INSUFFICIENT_ACCOUNT_METAS : js_exn :=
  SdkDomainError "SOLANA_ERROR__PROGRAM_CLIENTS__INSUFFICIENT_ACCOUNT_METAS".

(** [name] in a table. *)
Fixpoint entry {A} (name : string) (l : list (string * A)) : option A :=
  match l with
  | [] => None
  | (n, a) :: l => if bool_decide (name = n) then Some a else entry name l
  end.

Abbreviation values := (gmap string resolved).
Abbreviation object := (list (string * val)).

(** ** The code *)
Section Client.
Context `{K : Kit} `{C : ClientCore}.

Definition encode_tagged (e : TaggedEncoder) (args : object) : result js_exn (list Z) :=
  kit_encode (CStruct (te_struct e)) (VObject (args ++ [("discriminator", VBytes (te_discriminator e))])).

(** [originalAccounts]: only the accounts of the instruction are read. *)
Definition original_accounts (b : Builder) (input : values) : values :=
  filter (λ kv, kv.1 ∈ (b_accounts b).*1) input.

Definition seed_bytes (args : object) (accounts : values) (s : seed) : result js_exn (list Z) :=
  match s with
  | SBytes bs => getBytesEncoder_encode bs
  | SAccount name =>
      a ← getAddressFromResolvedInstructionAccount name (accounts !! name);
      kit_encode (CPrim PAddress) (VAddress a)
  | SArg name c =>
      v ← getNonNullResolvedInstructionInput name (field name args);
      kit_encode c v
  end.

Definition default_value (programAddress : string) (args : object) (accounts : values) (d : account_default)
    : result js_exn resolved :=
  match d with
  | DAddress a => Ok (RAddress a)
  | DDerived program seeds =>
      bs ← mapM (seed_bytes args accounts) seeds;
      '(a, bump) ← getProgramDerivedAddress (default programAddress program) bs;
      Ok (RDerived a bump)
  end.

Fixpoint resolve_defaults (programAddress : string) (args : object)
    (ds : list (string * account_default)) (accounts : values) : result js_exn values :=
  match ds with
  | [] => Ok accounts
  | (name, d) :: ds =>
      match accounts !! name with
      | Some _ => resolve_defaults programAddress args ds accounts
      | None =>
          r ← default_value programAddress args accounts d;
          resolve_defaults programAddress args ds (<[name := r]> accounts)
      end
  end.

Definition resolve_accounts (b : Builder) (input : values) (args : object) (config : option string)
    : result js_exn values :=
  resolve_defaults (default SIGIL_PROGRAM_ADDRESS config) args (b_defaults b) (original_accounts b input).

Definition account_meta (b : Builder) (programAddress : string) (accounts : values) (name : string)
    : result js_exn AccountMeta :=
  match entry name (b_accounts b) with
  | None => Throw JsTypeError
  | Some isWritable => getAccountMeta programAddress name (accounts !! name) isWritable
  end.

Definition build (b : Builder) (input : values) (args : object) (config : option string)
    : result js_exn Ix :=
  let programAddress := default SIGIL_PROGRAM_ADDRESS config in
  accounts ← resolve_accounts b input args config;
  metas ← mapM (account_meta b programAddress accounts) (b_metas b);
  data ← encode_tagged (b_data b) args;
  Ok {| ix_programAddress := programAddress; ix_accounts := Some metas; ix_data := Some data |}.

(** [getNextAccount] and [getNextOptionalAccount], one after the other. *)
Fixpoint next_accounts (names : list (string * bool)) (metas : list AccountMeta)
    : result js_exn (list (string * option AccountMeta)) :=
  match names with
  | [] => Ok []
  | (name, optional) :: names =>
      meta ← match head metas, optional with
             | Some m, true => Ok (if bool_decide (acc_address m = SIGIL_PROGRAM_ADDRESS) then None else Some m)
             | Some m, false => Ok (Some m)
             | None, true => Throw JsTypeError
             | None, false => Ok None
             end;
      rest ← next_accounts names (tail metas);
      Ok ((name, meta) :: rest)
  end.

Definition parse (p : Parser) (programAddress : string) (metas : list AccountMeta) (data : list Z)
    : result js_exn ParsedIx :=
  _ ← throw_if (length metas <? p_expected p)%nat INSUFFICIENT_ACCOUNT_METAS;
  accounts ← next_accounts (p_accounts p) metas;
  data ← kit_decode (CStruct (p_data p)) data;
  Ok {| px_programAddress := programAddress; px_accounts := accounts; px_data := data |}.

End Client.

(** ** What the tables of one instruction must agree on *)

Fixpoint codec_eqb (c d : codec) : bool :=
  match c, d with
  | CPrim p, CPrim q => bool_decide (p = q)
  | COption c, COption d => codec_eqb c d
  | CArray n c, CArray m d => bool_decide (n = m) && codec_eqb c d
  | CStruct fs, CStruct gs =>
      (fix go (fs gs : list (string * codec)) :=
         match fs, gs with
         | [], [] => true
         | (k, c) :: fs, (l, d) :: gs => bool_decide (k = l) && codec_eqb c d && go fs gs
         | _, _ => false
         end) fs gs
  | _, _ => false
  end.

Lemma codec_eqb_eq c d : codec_eqb c d = true → c = d.
Proof.
  revert d. induction c as [p|c IH|n c IH|fs IH] using codec_nested_ind; intros [q|d|m d|gs]; cbn; try done.
  - by intros ->%bool_decide_eq_true.
  - by intros ->%IH.
  - by intros [->%bool_decide_eq_true ->%IH]%andb_true_iff.
  - intros H. f_equal. revert gs H. induction IH as [|[k c] fs Hc _ IHfs]; intros [|[l d] gs]; cbn; try done.
    rewrite !andb_true_iff. intros [[->%bool_decide_eq_true Hd] H]. apply Hc in Hd; cbn in Hd; subst d. f_equal. by apply IHfs.
Qed.

(** The encoder and the decoder have the same fields, each named once, and the
    first is the eight-byte discriminator. *)
Definition data_agrees (e : TaggedEncoder) (p : list (string * codec)) : bool :=
  codec_eqb (CStruct (te_struct e)) (CStruct p) && wf (CStruct p) &&
  match p with
  | (k, c) :: _ => bool_decide (k = "discriminator") && codec_eqb c (CPrim (PFixed 8))
  | [] => false
  end &&
  bool_decide (length (te_discriminator e) = 8%nat) && is_bytes (te_discriminator e).

Definition optional_names (p : Parser) : list string := (filter (λ a, a.2 = true) (p_accounts p)).*1.
Definition required_names (it : InputType) : list string :=
  (filter (λ a, a.1.2 = false) (it_accounts it)).*1.*1.

(** The parser reads the accounts the builder writes, and the ones it takes as
    optional have no default. *)
Definition parser_agrees (b : Builder) (p : Parser) : bool :=
  bool_decide (b_metas b = (p_accounts p).*1) &&
  bool_decide (p_expected p = length (p_accounts p)) &&
  forallb (λ n, bool_decide (n ∈ (b_accounts b).*1)) (b_metas b) &&
  forallb (λ n, bool_decide (n ∉ (b_defaults b).*1)) (optional_names p) &&
  data_agrees (b_data b) (p_data p).

(** The seeds of a default name accounts known by then and arguments of the
    instruction, and are few and short enough to derive an address. *)
Definition seed_known (fs : list (string * codec)) (known : list string) (s : seed) : bool :=
  match s with
  | SBytes bs => (length bs <=? 32)%nat
  | SAccount n => bool_decide (n ∈ known)
  | SArg n c =>
      match entry n fs, fixed_size c with
      | Some d, Some k => codec_eqb c d && (k <=? 32)%nat
      | _, _ => false
      end
  end.

Definition default_known (fs : list (string * codec)) (known : list string) (d : account_default) : bool :=
  match d with
  | DAddress _ => true
  | DDerived _ seeds => (length seeds <=? 16)%nat && forallb (seed_known fs known) seeds
  end.

Fixpoint defaults_known (fs : list (string * codec)) (known : list string)
    (ds : list (string * account_default)) : bool :=
  match ds with
  | [] => true
  | (n, d) :: ds =>
      default_known fs known d &&
      defaults_known fs (match d with DDerived _ _ => n :: known | DAddress _ => known end) ds
  end.

(** Every account of the instruction is required by the input type, has a
    default or is optional; the defaults can be computed in their order. *)
Definition input_agrees (b : Builder) (it : InputType) (p : Parser) : bool :=
  bool_decide (NoDup (b_defaults b).*1) &&
  forallb (λ n, bool_decide (n ∈ (b_accounts b).*1)) (required_names it) &&
  forallb (λ n, bool_decide (n ∈ required_names it ∨ n ∈ (b_defaults b).*1 ∨ n ∈ optional_names p)) (b_metas b) &&
  bool_decide (it_args it = (tail (te_struct (b_data b))).*1) &&
  defaults_known (tail (te_struct (b_data b))) (required_names it) (b_defaults b).

Lemma forallb_decided {A} (P : A → Prop) `{!∀ x, Decision (P x)} (l : list A) :
  forallb (λ x, bool_decide (P x)) l = true ↔ Forall P l.
Proof.
  rewrite forallb_forall, Forall_forall.
  split; intros Hl x Hx; [apply (bool_decide_eq_true_1 _)|apply bool_decide_eq_true_2];
    apply Hl; by apply list_elem_of_In.
Qed.

(** ** What the code then does *)
Section Laws.
Context `{K : Kit} `{C : ClientCore} `{!LawfulKit K, !LawfulCore K C}.

Lemma field_app_l k o o' : k ∉ o.*1 → field k (o ++ o') = field k o'.
Proof.
  induction o as [|[l v] o IH]; cbn; [done|]. intros [Hl Ho]%not_elem_of_cons.
  rewrite bool_decide_false by done. by apply IH.
Qed.

Lemma field_app_last k l v o : k ≠ l → field k (o ++ [(l, v)]) = field k o.
Proof.
  intros Hk. induction o as [|[l' v'] o IH]; cbn; [by rewrite bool_decide_false|]. by rewrite IH.
Qed.

(** [{ ...args, discriminator }] has the fields of [{ discriminator, ...args }]
    when no argument has that name. *)
Lemma field_moved k l v o : l ∉ o.*1 → field k (o ++ [(l, v)]) = field k ((l, v) :: o).
Proof.
  intros Hl. destruct (decide (k = l)) as [->|Hk].
  - rewrite field_app_l by done. by rewrite !field_head.
  - by rewrite field_app_last, field_skip.
Qed.

Lemma typed_fields fs o :
  wf (CStruct fs) = true → typed (CStruct fs) (VObject o) = true → fields_read_back fs o.
Proof.
  cbn [wf]. intros [_ Hw]%andb_true_iff Ht. apply typed_struct_inv; [|done|done].
  apply Forall_forall. intros f _ v. apply codec_reads_back.
Qed.

Lemma data_agrees_inv e p :
  data_agrees e p = true →
  ∃ fs, te_struct e = p ∧ p = ("discriminator", CPrim (PFixed 8)) :: fs ∧
        NoDup p.*1 ∧ wf (CStruct fs) = true ∧
        prim_ok (PFixed 8) (VBytes (te_discriminator e)) = true.
Proof.
  unfold data_agrees. rewrite !andb_true_iff.
  intros [[[[[= Hp]%codec_eqb_eq Hw] Hd] Hl] Hb]. destruct p as [|[k c] fs]; [done|].
  apply andb_true_iff in Hd as [->%bool_decide_eq_true ->%codec_eqb_eq].
  exists fs. cbn in Hw. apply andb_true_iff in Hw as [Hn%bool_decide_eq_true Hw].
  split; [done|split; [done|split; [done|split]]].
  - cbn. apply andb_true_iff. split; [|done]. apply bool_decide_eq_true. cbn in Hn. by apply NoDup_cons in Hn as [_ ?].
  - cbn. by apply andb_true_iff.
Qed.

(** The arguments of an instruction, or the fields of an account, come back
    with the discriminator in front of them. *)
Lemma tagged_roundtrip e p args :
  data_agrees e p = true → typed (CStruct (tail (te_struct e))) (VObject args) = true →
  ∃ bs, encode_tagged e args = Ok bs ∧ take 8 bs = te_discriminator e ∧
        kit_decode (CStruct p) bs = Ok (VObject (("discriminator", VBytes (te_discriminator e)) :: args)) ∧
        (∀ n, fixed_size (CStruct p) = Some n → length bs = n).
Proof.
  intros (fs & He & Hp & Hn & Hw & Hd)%data_agrees_inv Ht. rewrite He, Hp in Ht. cbn [tail] in Ht.
  pose proof (typed_fields _ _ Hw Ht) as Hfs.
  set (tag := ("discriminator", VBytes (te_discriminator e))).
  assert (Hf : fields_read_back p (tag :: args)).
  { rewrite Hp. constructor; [by apply law_prim|done]. }
  assert (Ha : "discriminator" ∉ args.*1).
  { rewrite (fields_keys _ _ Hfs). rewrite Hp in Hn. cbn in Hn. by apply NoDup_cons in Hn as [? _]. }
  destruct (fields_roundtrip p _ Hn Hf) as (bs & Hbs & Rbs & Sbs). exists bs.
  assert (He' : encode_fields p (args ++ [tag]) = encode_fields p (tag :: args)).
  { apply encode_fields_ext, Forall_forall. intros k _. by apply field_moved. }
  unfold encode_tagged. fold tag. rewrite He, law_struct_encode.
  - rewrite He'. split; [done|split; [|split; [|done]]].
    + rewrite Hp in Hbs. cbn [encode_fields] in Hbs. unfold tag in Hbs; rewrite field_head, law_fixed_bytes in Hbs by done.
      cbn in Hbs. destruct (encode_fields fs _) as [more|]; [|done]. injection Hbs as <-.
      apply take_app_length'. cbn in Hd. by apply andb_true_iff in Hd as [?%bool_decide_eq_true _].
    + unfold kit_decode. rewrite law_struct_read. specialize (Rbs []). rewrite app_nil_r in Rbs. by rewrite Rbs.
  - eapply Forall_impl; [apply (field_present p (tag :: args) Hf Hn)|].
    intros k. cbn beta. unfold tag. by rewrite (field_moved k "discriminator" _ args Ha).
Qed.

(** The meta the instruction has for an account. *)
Definition final_meta (b : Builder) (programAddress : string) (accounts : values) (name : string) : AccountMeta :=
  match accounts !! name with
  | None => placeholder programAddress
  | Some r => meta_of (default false (entry name (b_accounts b))) r
  end.

Lemma entry_in {A} name (l : list (string * A)) : name ∈ l.*1 → is_Some (entry name l).
Proof.
  induction l as [|[n a] l IH]; cbn; [by intros ?%not_elem_of_nil|].
  intros [->|Hn]%elem_of_cons; case_bool_decide; eauto; done.
Qed.

Lemma metas_built b program accounts names :
  Forall (λ n, n ∈ (b_accounts b).*1) names →
  mapM (account_meta b program accounts) names = Ok (final_meta b program accounts <$> names).
Proof.
  intros Hn. apply mapM_Ok_iff. induction Hn as [|n names Hn _ IH]; cbn; [done|]. constructor; [|done].
  unfold account_meta, final_meta. destruct (entry_in _ _ Hn) as [w ->]. cbn.
  destruct (accounts !! n); by rewrite ?law_meta_absent, ?law_meta_present.
Qed.

(** What the parser shows for an account. *)
Definition parsed_account (b : Builder) (accounts : values) (a : string * bool) : string * option AccountMeta :=
  (a.1, if a.2 && bool_decide (accounts !! a.1 = None) then None
        else Some (final_meta b SIGIL_PROGRAM_ADDRESS accounts a.1)).

Lemma next_accounts_map (g : string → AccountMeta) names :
  next_accounts names (g <$> names.*1) =
    Ok ((λ a, (a.1, if a.2 && bool_decide (acc_address (g a.1) = SIGIL_PROGRAM_ADDRESS) then None
                    else Some (g a.1))) <$> names).
Proof.
  induction names as [|[n o] names IH]; [done|]. cbn [next_accounts fmap list_fmap fst snd head tail].
  rewrite IH. destruct o; [|done]. by destruct (bool_decide _).
Qed.

Lemma next_accounts_built b accounts names :
  Forall (λ a, a.2 = true → ∀ r, accounts !! a.1 = Some r → resolved_address r ≠ SIGIL_PROGRAM_ADDRESS) names →
  next_accounts names (final_meta b SIGIL_PROGRAM_ADDRESS accounts <$> names.*1) =
    Ok (parsed_account b accounts <$> names).
Proof.
  rewrite next_accounts_map. intros Hn. f_equal. induction Hn as [|[n o] names Hn _ IH]; [done|].
  cbn [fmap list_fmap]. rewrite IH. f_equal. unfold parsed_account. cbn [fst snd] in *. destruct o; [|done].
  destruct (accounts !! n) as [r|] eqn:E.
  - assert (acc_address (final_meta b SIGIL_PROGRAM_ADDRESS accounts n) ≠ SIGIL_PROGRAM_ADDRESS).
    { unfold final_meta. rewrite E. cbn. by apply Hn. }
    by rewrite bool_decide_false.
  - rewrite bool_decide_true; [done|]. unfold final_meta. by rewrite E.
Qed.

Lemma parser_agrees_inv b p :
  parser_agrees b p = true →
  b_metas b = (p_accounts p).*1 ∧ p_expected p = length (p_accounts p) ∧
  Forall (λ n, n ∈ (b_accounts b).*1) (b_metas b) ∧
  Forall (λ n, n ∉ (b_defaults b).*1) (optional_names p) ∧ data_agrees (b_data b) (p_data p) = true.
Proof.
  unfold parser_agrees. rewrite !andb_true_iff, !bool_decide_eq_true, !forallb_decided.
  tauto.
Qed.

(** Defaults leave the accounts that are there, and the ones they do not name. *)
Lemma resolve_defaults_other program args ds accounts accounts' n :
  resolve_defaults program args ds accounts = Ok accounts' → n ∉ ds.*1 → accounts' !! n = accounts !! n.
Proof.
  revert accounts. induction ds as [|[m d] ds IH]; intros accounts; cbn [resolve_defaults fmap list_fmap fst].
  { by intros [= ->]. }
  intros H [Hn Hds]%not_elem_of_cons. destruct (accounts !! m); [by apply IH|]. inv_ok.
  rewrite (IH _ H Hds). by rewrite lookup_insert_ne.
Qed.

Lemma original_lookup b input n :
  n ∈ (b_accounts b).*1 → original_accounts b input !! n = input !! n.
Proof.
  intros Hn. unfold original_accounts. destruct (input !! n) as [r|] eqn:E.
  - by apply map_lookup_filter_Some.
  - apply map_lookup_filter_None. by left.
Qed.

(** An optional account of the instruction is the one of the input, if any. *)
Lemma resolved_optional b p input args config accounts n :
  parser_agrees b p = true → resolve_accounts b input args config = Ok accounts →
  n ∈ optional_names p → accounts !! n = input !! n.
Proof.
  intros (Hm & _ & Ha & Ho & _)%parser_agrees_inv Hr Hn. unfold resolve_accounts in Hr.
  rewrite (resolve_defaults_other _ _ _ _ _ n Hr) by by apply (proj1 (Forall_forall _ _) Ho).
  apply original_lookup. apply (proj1 (Forall_forall _ _) Ha). rewrite Hm.
  unfold optional_names in Hn. apply list_elem_of_fmap in Hn as (a & -> & Ha').
  apply list_elem_of_fmap. exists a. split; [done|]. by apply list_elem_of_filter in Ha' as [_ ?].
Qed.

(** With the accounts resolved and arguments of the right types, the builder
    returns. *)
Lemma build_resolved b p input args config accounts :
  parser_agrees b p = true →
  typed (CStruct (tail (te_struct (b_data b)))) (VObject args) = true →
  resolve_accounts b input args config = Ok accounts →
  ∃ data, encode_tagged (b_data b) args = Ok data ∧
    build b input args config =
      Ok {| ix_programAddress := default SIGIL_PROGRAM_ADDRESS config;
            ix_accounts := Some (final_meta b (default SIGIL_PROGRAM_ADDRESS config) accounts <$> b_metas b);
            ix_data := Some data |}.
Proof.
  intros (_ & _ & Ha & _ & Hd)%parser_agrees_inv Ht Hr.
  destruct (tagged_roundtrip _ _ _ Hd Ht) as (data & He & _). exists data. split; [done|].
  unfold build. cbn zeta. rewrite Hr. cbn [mbind result_bind].
  rewrite metas_built by done. cbn [mbind result_bind]. by rewrite He.
Qed.

(** The instruction a builder returns, and what its parser reads back from it. *)
Lemma build_parse b p input args accounts :
  parser_agrees b p = true →
  typed (CStruct (tail (te_struct (b_data b)))) (VObject args) = true →
  (∀ n r, n ∈ optional_names p → input !! n = Some r → resolved_address r ≠ SIGIL_PROGRAM_ADDRESS) →
  resolve_accounts b input args None = Ok accounts →
  ∃ data,
    build b input args None = Ok {| ix_programAddress := SIGIL_PROGRAM_ADDRESS;
                                    ix_accounts := Some (final_meta b SIGIL_PROGRAM_ADDRESS accounts <$> b_metas b);
                                    ix_data := Some data |} ∧
    take 8 data = te_discriminator (b_data b) ∧
    parse p SIGIL_PROGRAM_ADDRESS (final_meta b SIGIL_PROGRAM_ADDRESS accounts <$> b_metas b) data =
      Ok {| px_programAddress := SIGIL_PROGRAM_ADDRESS;
            px_accounts := parsed_account b accounts <$> p_accounts p;
            px_data := VObject (("discriminator", VBytes (te_discriminator (b_data b))) :: args) |}.
Proof.
  intros Hag Ht Ho Hr. pose proof (parser_agrees_inv _ _ Hag) as (Hm & Hx & Ha & _ & Hd).
  destruct (tagged_roundtrip _ _ _ Hd Ht) as (data & He & Htk & Hdec & _). exists data. split; [|split; [done|]].
  - destruct (build_resolved _ _ _ _ _ _ Hag Ht Hr) as (data' & He' & Hb). rewrite He in He'. injection He' as <-. exact Hb.
  - unfold parse. rewrite length_fmap, Hm, length_fmap, Hx, Nat.ltb_irrefl. cbn [throw_if mbind result_bind].
    rewrite next_accounts_built; [cbn [mbind result_bind]; by rewrite Hdec|].
    apply Forall_forall. intros [n o] Hin Hopt r Hs. cbn in Hopt, Hs. subst o. apply (Ho n r).
    + apply list_elem_of_fmap. exists (n, true). split; [done|]. by apply list_elem_of_filter.
    + rewrite <- Hs. symmetry. eapply resolved_optional; [done..|].
      apply list_elem_of_fmap. exists (n, true). split; [done|]. by apply list_elem_of_filter.
Qed.

(** ** Every default can be computed *)

Lemma field_typed fs o n c :
  wf (CStruct fs) = true → typed (CStruct fs) (VObject o) = true → entry n fs = Some c →
  ∃ v, field n o = Some v ∧ reads_back c v.
Proof.
  intros Hw Ht. pose proof (typed_fields _ _ Hw Ht) as Hf. clear Hw Ht.
  induction Hf as [|k d v fs o Hv _ IH]; cbn; [done|]. case_bool_decide; [|done]. intros [= ->]. eauto.
Qed.

(** The accounts of [known] have valid addresses. *)
Definition all_valid (known : list string) (accounts : values) : Prop :=
  Forall (λ n, ∃ r, accounts !! n = Some r ∧ valid_address (resolved_address r) = true) known.

Lemma seed_computed fs known args accounts s :
  wf (CStruct fs) = true → typed (CStruct fs) (VObject args) = true →
  all_valid known accounts → seed_known fs known s = true →
  ∃ bs, seed_bytes args accounts s = Ok bs ∧ (length bs ≤ 32)%nat.
Proof.
  intros Hw Ht Hk. destruct s as [bs|n|n c]; cbn.
  - intros Hl%Nat.leb_le. rewrite law_raw_bytes. eauto.
  - intros Hn%bool_decide_eq_true. destruct (proj1 (Forall_forall _ _) Hk n Hn) as (r & Hr & Hv).
    rewrite Hr, law_address_present. cbn.
    destruct (law_prim PAddress (VAddress (resolved_address r)) Hv) as (bs & Hbs & _ & Hs).
    exists bs. split; [done|]. by rewrite (Hs 32%nat).
  - destruct (entry n fs) as [d|] eqn:En; [|done]. destruct (fixed_size c) as [k|] eqn:Ek; [|done].
    intros [<-%codec_eqb_eq Hl%Nat.leb_le]%andb_true_iff.
    destruct (field_typed _ _ _ _ Hw Ht En) as (v & Hv & bs & Hbs & _ & Hs).
    rewrite Hv, law_input_present. cbn. exists bs. split; [done|]. by rewrite (Hs _ Ek).
Qed.

Lemma seeds_computed fs known args accounts seeds :
  wf (CStruct fs) = true → typed (CStruct fs) (VObject args) = true →
  all_valid known accounts → forallb (seed_known fs known) seeds = true →
  ∃ l, mapM (seed_bytes args accounts) seeds = Ok l ∧ Forall (λ s, (length s ≤ 32)%nat) l.
Proof.
  intros Hw Ht Hk. induction seeds as [|s seeds IH]; cbn [forallb]; [by exists []|].
  intros [Hs Hss]%andb_true_iff. destruct (IH Hss) as (l & Hl & Fl).
  destruct (seed_computed _ _ _ _ s Hw Ht Hk Hs) as (bs & Hbs & Hlen).
  exists (bs :: l). split; [|by constructor]. apply mapM_Ok_iff. constructor; [done|]. by apply mapM_Ok_iff.
Qed.

Lemma default_computed program fs known args accounts d :
  wf (CStruct fs) = true → typed (CStruct fs) (VObject args) = true →
  all_valid known accounts → default_known fs known d = true →
  ∃ r, default_value program args accounts d = Ok r ∧
       (match d with DDerived _ _ => valid_address (resolved_address r) = true | _ => True end).
Proof.
  intros Hw Ht Hk. destruct d as [a|prog seeds]; cbn; [eauto|].
  intros [Hn%Nat.leb_le Hs]%andb_true_iff.
  destruct (seeds_computed _ _ _ _ _ Hw Ht Hk Hs) as (l & Hl & Fl). rewrite Hl. cbn.
  apply mapM_Ok_length in Hl.
  destruct (law_derives (default program prog) l) as (a & bump & Ha & Hv); [lia|done|].
  rewrite Ha. cbn. eauto.
Qed.

(** What is resolved after the defaults: what was there, and every default. *)
Lemma defaults_computed program fs args ds known accounts :
  wf (CStruct fs) = true → typed (CStruct fs) (VObject args) = true →
  NoDup ds.*1 → defaults_known fs known ds = true → all_valid known accounts →
  (∀ n r, n ∈ ds.*1 → accounts !! n = Some r → valid_address (resolved_address r) = true) →
  ∃ accounts', resolve_defaults program args ds accounts = Ok accounts' ∧
    ∀ n, is_Some (accounts !! n) ∨ n ∈ ds.*1 → is_Some (accounts' !! n).
Proof.
  intros Hw Ht. revert known accounts.
  induction ds as [|[m d] ds IH]; intros known accounts; cbn [fmap list_fmap fst defaults_known resolve_defaults].
  { intros _ _ _ _. exists accounts. split; [done|]. intros n [?|?%not_elem_of_nil]; done. }
  intros [Hm Hd]%NoDup_cons [Hdk Hds]%andb_true_iff Hk Hv.
  assert (Hnext : ∃ accounts1,
    (accounts1 = accounts ∧ is_Some (accounts !! m) ∨
     ∃ r, accounts !! m = None ∧ default_value program args accounts d = Ok r ∧ accounts1 = <[m := r]> accounts) ∧
    all_valid (match d with DDerived _ _ => m :: known | DAddress _ => known end) accounts1).
  { destruct (accounts !! m) as [r|] eqn:E.
    - exists accounts. split; [eauto|]. destruct d; [done|]. constructor; [|done].
      exists r. split; [done|]. apply (Hv m); [apply elem_of_cons; by left|done].
    - destruct (default_computed program _ _ _ _ d Hw Ht Hk Hdk) as (r & Hr & Hrv).
      exists (<[m := r]> accounts). split; [eauto 6|].
      assert (all_valid known (<[m := r]> accounts)) as Hk'.
      { eapply Forall_impl; [exact Hk|]. intros n (r' & Hr' & Hv'). exists r'. split; [|done].
        rewrite lookup_insert_ne; [done|congruence]. }
      destruct d; [done|]. constructor; [|done]. exists r. by rewrite lookup_insert_eq. }
  destruct Hnext as (accounts1 & Hstep & Hk1).
  destruct (IH _ accounts1 Hd Hds Hk1) as (accounts' & Hr & Hall).
  { intros n r Hn Hs. apply (Hv n r); [apply elem_of_cons; by right|].
    destruct Hstep as [[-> _]|(r' & _ & _ & ->)]; [done|].
    rewrite lookup_insert_ne in Hs; [done|]. intros ->. done. }
  exists accounts'. split.
  - destruct Hstep as [[-> [r E]]|(r & -> & -> & ->)]; [by rewrite E|done].
  - intros n Hn. apply Hall. destruct Hstep as [[-> E]|(r & _ & _ & ->)].
    + destruct Hn as [?|[->|?]%elem_of_cons]; eauto.
    + destruct (decide (n = m)) as [->|Hnm]; [left; rewrite lookup_insert_eq; eauto|].
      rewrite lookup_insert_ne by done. destruct Hn as [?|[->|?]%elem_of_cons]; eauto; done.
Qed.

(** With the required accounts in the input, every account of the instruction
    but the optional ones is resolved. *)
Lemma accounts_resolved b it p input args config :
  parser_agrees b p = true → input_agrees b it p = true →
  typed (CStruct (tail (te_struct (b_data b)))) (VObject args) = true →
  (∀ n, n ∈ required_names it → is_Some (input !! n)) →
  (∀ n r, input !! n = Some r → valid_address (resolved_address r) = true) →
  ∃ accounts, resolve_accounts b input args config = Ok accounts ∧
    ∀ n, n ∈ b_metas b → is_Some (accounts !! n) ∨ n ∈ optional_names p.
Proof.
  intros (_ & _ & _ & _ & (fs & He & Hp & _ & Hw & _)%data_agrees_inv)%parser_agrees_inv.
  unfold input_agrees. rewrite !andb_true_iff, !forallb_decided, !bool_decide_eq_true.
  rewrite He, Hp. cbn [tail]. intros [[[[Hd Hreq] Hcov] _] Hdk] Ht Hin Hval.
  destruct (defaults_computed (default SIGIL_PROGRAM_ADDRESS config) fs args (b_defaults b)
              (required_names it) (original_accounts b input) Hw Ht Hd Hdk) as (accounts & Hr & Hall).
  { apply Forall_forall. intros n Hn. destruct (Hin n Hn) as [r Hn'].
    exists r. split; [|by apply (Hval n)].
    rewrite original_lookup; [done|]. by apply (proj1 (Forall_forall _ _) Hreq). }
  { intros n r _ [Hr _]%map_lookup_filter_Some. by apply (Hval n). }
  exists accounts. split; [done|]. intros n Hn.
  destruct (proj1 (Forall_forall _ _) Hcov n Hn) as [Hn'|[Hn'|Hn']]; [left|left|by right].
  - apply Hall. left. rewrite original_lookup; [by apply Hin|]. by apply (proj1 (Forall_forall _ _) Hreq).
  - apply Hall. by right.
Qed.

(** ** What a default is in the end *)

Lemma resolve_defaults_keeps program args ds accounts accounts' n r :
  resolve_defaults program args ds accounts = Ok accounts' → accounts !! n = Some r → accounts' !! n = Some r.
Proof.
  revert accounts. induction ds as [|[m d] ds IH]; intros accounts; cbn [resolve_defaults]; [by intros [= ->]|].
  destruct (accounts !! m) eqn:E; [by apply IH|]. intros H Hn. inv_ok. apply (IH _ H).
  rewrite lookup_insert_ne; [done|congruence].
Qed.

(** More accounts do not change a seed. *)
Lemma seed_bytes_mono args accounts accounts' s bs :
  (∀ n r, accounts !! n = Some r → accounts' !! n = Some r) →
  seed_bytes args accounts s = Ok bs → seed_bytes args accounts' s = Ok bs.
Proof.
  intros Hle. destruct s as [bs'|n|n c]; cbn; try done. destruct (accounts !! n) as [r|] eqn:E.
  - by rewrite (Hle _ _ E).
  - pose proof (law_address_absent n) as Hn. intros H. inv_ok. by rewrite E0 in Hn.
Qed.

Lemma seeds_mono args accounts accounts' seeds l :
  (∀ n r, accounts !! n = Some r → accounts' !! n = Some r) →
  mapM (seed_bytes args accounts) seeds = Ok l → mapM (seed_bytes args accounts') seeds = Ok l.
Proof.
  intros Hle. rewrite !mapM_Ok_iff. intros Hl. eapply Forall2_impl; [exact Hl|].
  intros s bs. by apply seed_bytes_mono.
Qed.

Lemma default_value_mono program args accounts accounts' d r :
  (∀ n r, accounts !! n = Some r → accounts' !! n = Some r) →
  default_value program args accounts d = Ok r → default_value program args accounts' d = Ok r.
Proof.
  intros Hle. destruct d as [a|prog seeds]; cbn; [done|].
  destruct (mapM (seed_bytes args accounts) seeds) as [l|] eqn:E; [|done].
  by rewrite (seeds_mono _ _ _ _ _ Hle E).
Qed.

(** An account left to its default has the value of the default, computed from
    the accounts as they are in the end. *)
Lemma default_final program args ds accounts accounts' n d :
  entry n ds = Some d → accounts !! n = None →
  resolve_defaults program args ds accounts = Ok accounts' →
  ∃ r, accounts' !! n = Some r ∧ default_value program args accounts' d = Ok r.
Proof.
  revert accounts. induction ds as [|[m e] ds IH]; intros accounts; cbn [entry resolve_defaults]; [done|].
  case_bool_decide as Hnm.
  - subst m. intros [= ->] Hn. rewrite Hn. intros H. inv_ok. exists x.
    pose proof (resolve_defaults_keeps _ _ _ _ _ n x H (lookup_insert_eq _ _ _)) as Hx. split; [done|].
    eapply default_value_mono; [|exact E]. intros k r Hk. eapply resolve_defaults_keeps; [exact H|].
    rewrite lookup_insert_ne; [done|congruence].
  - intros He Hn. destruct (accounts !! m) eqn:Em; [by apply IH|]. intros H. inv_ok.
    apply (IH (<[m := x]> accounts) He); [|done]. by rewrite lookup_insert_ne.
Qed.
End Laws.

(** ** Which of the client's kinds some bytes are

    [identifySigilInstruction] and [identifySigilAccount] test the first eight
    bytes against one discriminator after the other. *)
Fixpoint identify `{Kit} `{ClientCore} {A} (tests : list (list Z * A)) (unknown : js_exn) (data : list Z)
    : result js_exn A :=
  match tests with
  | [] => Throw unknown
  | (bytes, a) :: tests =>
      tag ← kit_encode (CPrim (PFixed 8)) (VBytes bytes);
      if containsBytes data tag 0 then Ok a else identify tests unknown data
  end.

(** Eight bytes each, all different. *)
Definition tests_ok {A} (tests : list (list Z * A)) : bool :=
  bool_decide (NoDup tests.*1) &&
  forallb (λ t, bool_decide (length t.1 = 8%nat) && is_bytes t.1) tests.

Lemma identify_tag `{K : Kit} `{C : ClientCore} `{!LawfulKit K, !LawfulCore K C} {A}
    (tests : list (list Z * A)) unknown data tag a :
  tests_ok tests = true → (tag, a) ∈ tests → take 8 data = tag → identify tests unknown data = Ok a.
Proof.
  unfold tests_ok. rewrite andb_true_iff, bool_decide_eq_true. intros [Hn Hb] Hin Ht.
  induction tests as [|[bytes b] tests IH]; [by apply not_elem_of_nil in Hin|].
  cbn in Hn, Hb. apply NoDup_cons in Hn as [Hbs Hn]. apply andb_true_iff in Hb as [Hb Hbt]. cbn [identify].
  rewrite law_fixed_bytes by done. cbn [mbind result_bind]. rewrite law_contains_bytes.
  apply andb_true_iff in Hb as [->%bool_decide_eq_true _]. rewrite Ht.
  apply elem_of_cons in Hin as [[= -> ->]|Hin]; [by rewrite bool_decide_true|].
  rewrite bool_decide_false; [by apply IH|]. intros ->. apply Hbs.
  apply list_elem_of_fmap. by exists (bytes, a).
Qed.

Lemma identify_unknown `{K : Kit} `{C : ClientCore} `{!LawfulKit K, !LawfulCore K C} {A}
    (tests : list (list Z * A)) unknown data :
  tests_ok tests = true → take 8 data ∉ tests.*1 → identify tests unknown data = Throw unknown.
Proof.
  unfold tests_ok. rewrite andb_true_iff. intros [_ Hb] Ht.
  induction tests as [|[bytes b] tests IH]; [done|].
  cbn in Hb, Ht. apply not_elem_of_cons in Ht as [Ht Hts]. apply andb_true_iff in Hb as [Hb Hbt]. cbn [identify].
  rewrite law_fixed_bytes by done. cbn [mbind result_bind]. rewrite law_contains_bytes.
  apply andb_true_iff in Hb as [->%bool_decide_eq_true _].
  rewrite bool_decide_false by done. by apply IH.
Qed.

(** ** A library that meets the laws

    An address is derived by cutting its seeds to 32 bytes. *)
Definition plain_derive (seeds : list (list Z)) : string :=
  bytes_address (take 32 (concat seeds ++ replicate 32 100)).

#[export] Instance plain_core : ClientCore := {|
  getAccountMeta := λ program _ r w,
    Ok (match r with None => placeholder program | Some r => meta_of w r end);
  getAddressFromResolvedInstructionAccount := λ _ r,
    match r with None => Throw JsTypeError | Some r => Ok (resolved_address r) end;
  getNonNullResolvedInstructionInput := λ _ v,
    match v with None => Throw JsTypeError | Some v => Ok v end;
  getProgramDerivedAddress := λ _ seeds, Ok (plain_derive seeds, 255);
  getBytesEncoder_encode := λ bs, Ok bs;
  containsBytes := λ data bs offset, bool_decide (take (length bs) (drop offset data) = bs);
|}.

Lemma length_bytes_address bs : String.length (bytes_address bs) = length bs.
Proof. unfold bytes_address. induction bs as [|b bs IH]; cbn; [done|]. by f_equal. Qed.

#[export] Instance plain_core_lawful : LawfulCore plain_kit plain_core.
Proof.
  split; try done. intros program seeds _ _. exists (plain_derive seeds), 255. split; [done|].
  cbn. unfold plain_address, plain_derive. apply bool_decide_eq_true_2.
  rewrite length_bytes_address, length_take, length_app, length_replicate. lia.
Qed.
