(* ===== verification/GeneratedTypes.v ===== *)
(** * The types, accounts and events of the generated client

    The codecs of [sdk/kit/src/generated/types] and [sdk/kit/src/generated/accounts],
    field by field: the encoder and the decoder of each are two lists in the
    source, and two definitions here.  An account's encoder adds its
    discriminator to the value; [get...Size] is the size the file states.
    [SigilAccount] and [identifySigilAccount] are the account half of
    [generated/programs/sigil.ts].  The theorems show that each account reads
    back, is identified by its first eight bytes and has the stated size. *)
From S2P Require Import Prelude IntentDigest KitCodec ProgramClient.

(** The constructors of the library, under the names the generated code uses. *)
Abbreviation getU8Encoder := (CPrim (PUint 1)).
Abbreviation getU16Encoder := (CPrim (PUint 2)).
Abbreviation getU32Encoder := (CPrim (PUint 4)).
Abbreviation getU64Encoder := (CPrim (PUint 8)).
Abbreviation getI64Encoder := (CPrim PI64).
Abbreviation getBooleanEncoder := (CPrim PBool).
Abbreviation getAddressEncoder := (CPrim PAddress).
Abbreviation fixEncoderSize n := (CPrim (PFixed n)).
Abbreviation sizedBytesEncoder := (CPrim PSized).
Abbreviation getOptionEncoder c := (COption c).
Abbreviation getArrayEncoder n c := (CArray n c).
Abbreviation getStructEncoder fs := (CStruct fs).
Abbreviation getU8Decoder := (CPrim (PUint 1)).
Abbreviation getU16Decoder := (CPrim (PUint 2)).
Abbreviation getU32Decoder := (CPrim (PUint 4)).
Abbreviation getU64Decoder := (CPrim (PUint 8)).
Abbreviation getI64Decoder := (CPrim PI64).
Abbreviation getBooleanDecoder := (CPrim PBool).
Abbreviation getAddressDecoder := (CPrim PAddress).
Abbreviation fixDecoderSize n := (CPrim (PFixed n)).
Abbreviation sizedBytesDecoder := (CPrim PSized).
Abbreviation getOptionDecoder c := (COption c).
Abbreviation getArrayDecoder n c := (CArray n c).
Abbreviation getStructDecoder fs := (CStruct fs).

(** ** Types and events *)

Definition getActionAuthorizedEncoder : codec := getStructEncoder [
  ("vault", getAddressEncoder); ("agent", getAddressEncoder); ("tokenMint", getAddressEncoder);
  ("amount", getU64Encoder); ("usdAmount", getU64Encoder); ("protocol", getAddressEncoder);
  ("rollingSpendUsdAfter", getU64Encoder); ("dailyCapUsd", getU64Encoder);
  ("delegated", getBooleanEncoder); ("timestamp", getI64Encoder)].

Definition getActionAuthorizedDecoder : codec := getStructDecoder [
  ("vault", getAddressDecoder); ("agent", getAddressDecoder); ("tokenMint", getAddressDecoder);
  ("amount", getU64Decoder); ("usdAmount", getU64Decoder); ("protocol", getAddressDecoder);
  ("rollingSpendUsdAfter", getU64Decoder); ("dailyCapUsd", getU64Decoder);
  ("delegated", getBooleanDecoder); ("timestamp", getI64Decoder)].

Definition getAgentAutoRevokedEncoder : codec := getStructEncoder [
  ("vault", getAddressEncoder); ("agent", getAddressEncoder); ("threshold", getU8Encoder);
  ("consecutiveFailures", getU8Encoder); ("timestamp", getI64Encoder)].

Definition getAgentAutoRevokedDecoder : codec := getStructDecoder [
  ("vault", getAddressDecoder); ("agent", getAddressDecoder); ("threshold", getU8Decoder);
  ("consecutiveFailures", getU8Decoder); ("timestamp", getI64Decoder)].

Definition getAgentContributionEntryEncoder : codec := getStructEncoder [
  ("agent", fixEncoderSize 32); ("lastWriteEpoch", getI64Encoder);
  ("contributions", getArrayEncoder (Some 24%nat) getU64Encoder)].

Definition getAgentContributionEntryDecoder : codec := getStructDecoder [
  ("agent", fixDecoderSize 32); ("lastWriteEpoch", getI64Decoder);
  ("contributions", getArrayDecoder (Some 24%nat) getU64Decoder)].

Definition getAgentEntryEncoder : codec := getStructEncoder [
  ("pubkey", getAddressEncoder); ("capability", getU8Encoder); ("spendingLimitUsd", getU64Encoder);
  ("paused", getBooleanEncoder); ("consecutiveFailures", getU8Encoder);
  ("reserved", fixEncoderSize 6)].

Definition getAgentEntryDecoder : codec := getStructDecoder [
  ("pubkey", getAddressDecoder); ("capability", getU8Decoder); ("spendingLimitUsd", getU64Decoder);
  ("paused", getBooleanDecoder); ("consecutiveFailures", getU8Decoder);
  ("reserved", fixDecoderSize 6)].

Definition getAgentGrantAppliedEncoder : codec := getStructEncoder [
  ("vault", getAddressEncoder); ("agent", getAddressEncoder); ("capability", getU8Encoder);
  ("spendingLimitUsd", getU64Encoder); ("queuedAt", getI64Encoder); ("appliedAt", getI64Encoder);
  ("newPolicyVersion", getU64Encoder)].

Definition getAgentGrantAppliedDecoder : codec := getStructDecoder [
  ("vault", getAddressDecoder); ("agent", getAddressDecoder); ("capability", getU8Decoder);
  ("spendingLimitUsd", getU64Decoder); ("queuedAt", getI64Decoder); ("appliedAt", getI64Decoder);
  ("newPolicyVersion", getU64Decoder)].

Definition getAgentGrantCancelledEncoder : codec := getStructEncoder [
  ("vault", getAddressEncoder); ("owner", getAddressEncoder);
  ("cancelledAgent", getAddressEncoder); ("timestamp", getI64Encoder)].

Definition getAgentGrantCancelledDecoder : codec := getStructDecoder [
  ("vault", getAddressDecoder); ("owner", getAddressDecoder);
  ("cancelledAgent", getAddressDecoder); ("timestamp", getI64Decoder)].

Definition getAgentGrantQueuedEncoder : codec := getStructEncoder [
  ("vault", getAddressEncoder); ("agent", getAddressEncoder); ("capability", getU8Encoder);
  ("spendingLimitUsd", getU64Encoder); ("queuedAt", getI64Encoder); ("executesAt", getI64Encoder)].

Definition getAgentGrantQueuedDecoder : codec := getStructDecoder [
  ("vault", getAddressDecoder); ("agent", getAddressDecoder); ("capability", getU8Decoder);
  ("spendingLimitUsd", getU64Decoder); ("queuedAt", getI64Decoder); ("executesAt", getI64Decoder)].

Definition getAgentPausedEventEncoder : codec := getStructEncoder [
  ("vault", getAddressEncoder); ("agent", getAddressEncoder); ("timestamp", getI64Encoder)].

Definition getAgentPausedEventDecoder : codec := getStructDecoder [
  ("vault", getAddressDecoder); ("agent", getAddressDecoder); ("timestamp", getI64Decoder)].

Definition getAgentPermissionsChangeAppliedEncoder : codec := getStructEncoder [
  ("vault", getAddressEncoder); ("agent", getAddressEncoder); ("appliedAt", getI64Encoder)].

Definition getAgentPermissionsChangeAppliedDecoder : codec := getStructDecoder [
  ("vault", getAddressDecoder); ("agent", getAddressDecoder); ("appliedAt", getI64Decoder)].

Definition getAgentPermissionsChangeCancelledEncoder : codec := getStructEncoder [
  ("vault", getAddressEncoder); ("agent", getAddressEncoder)].

Definition getAgentPermissionsChangeCancelledDecoder : codec := getStructDecoder [
  ("vault", getAddressDecoder); ("agent", getAddressDecoder)].

Definition getAgentPermissionsChangeQueuedEncoder : codec := getStructEncoder [
  ("vault", getAddressEncoder); ("agent", getAddressEncoder); ("executesAt", getI64Encoder)].

Definition getAgentPermissionsChangeQueuedDecoder : codec := getStructDecoder [
  ("vault", getAddressDecoder); ("agent", getAddressDecoder); ("executesAt", getI64Decoder)].

Definition getAgentRegisteredEncoder : codec := getStructEncoder [
  ("vault", getAddressEncoder); ("agent", getAddressEncoder); ("capability", getU8Encoder);
  ("spendingLimitUsd", getU64Encoder); ("timestamp", getI64Encoder)].

Definition getAgentRegisteredDecoder : codec := getStructDecoder [
  ("vault", getAddressDecoder); ("agent", getAddressDecoder); ("capability", getU8Decoder);
  ("spendingLimitUsd", getU64Decoder); ("timestamp", getI64Decoder)].

Definition getAgentRevokedEncoder : codec := getStructEncoder [
  ("vault", getAddressEncoder); ("agent", getAddressEncoder); ("remainingAgents", getU8Encoder);
  ("timestamp", getI64Encoder)].

Definition getAgentRevokedDecoder : codec := getStructDecoder [
  ("vault", getAddressDecoder); ("agent", getAddressDecoder); ("remainingAgents", getU8Decoder);
  ("timestamp", getI64Decoder)].

Definition getAgentSpendLimitCheckedEncoder : codec := getStructEncoder [
  ("vault", getAddressEncoder); ("agent", getAddressEncoder); ("agentRollingSpend", getU64Encoder);
  ("spendingLimitUsd", getU64Encoder); ("amount", getU64Encoder); ("timestamp", getI64Encoder)].

Definition getAgentSpendLimitCheckedDecoder : codec := getStructDecoder [
  ("vault", getAddressDecoder); ("agent", getAddressDecoder); ("agentRollingSpend", getU64Decoder);
  ("spendingLimitUsd", getU64Decoder); ("amount", getU64Decoder); ("timestamp", getI64Decoder)].

Definition getAgentTransferExecutedEncoder : codec := getStructEncoder [
  ("vault", getAddressEncoder); ("destination", getAddressEncoder); ("amount", getU64Encoder);
  ("mint", getAddressEncoder)].

Definition getAgentTransferExecutedDecoder : codec := getStructDecoder [
  ("vault", getAddressDecoder); ("destination", getAddressDecoder); ("amount", getU64Decoder);
  ("mint", getAddressDecoder)].

Definition getAgentUnpausedEventEncoder : codec := getStructEncoder [
  ("vault", getAddressEncoder); ("agent", getAddressEncoder); ("timestamp", getI64Encoder)].

Definition getAgentUnpausedEventDecoder : codec := getStructDecoder [
  ("vault", getAddressDecoder); ("agent", getAddressDecoder); ("timestamp", getI64Decoder)].

Definition getAuditEntryEncoder : codec := getStructEncoder [
  ("subject", fixEncoderSize 32); ("balanceDeltaIn", getI64Encoder);
  ("balanceDeltaOut", getI64Encoder); ("timestamp", getI64Encoder); ("slotHash", fixEncoderSize 4);
  ("blockhash", fixEncoderSize 3); ("discriminator", getU8Encoder)].

Definition getAuditEntryDecoder : codec := getStructDecoder [
  ("subject", fixDecoderSize 32); ("balanceDeltaIn", getI64Decoder);
  ("balanceDeltaOut", getI64Decoder); ("timestamp", getI64Decoder); ("slotHash", fixDecoderSize 4);
  ("blockhash", fixDecoderSize 3); ("discriminator", getU8Decoder)].

Definition getDelegationRevokedEncoder : codec := getStructEncoder [
  ("vault", getAddressEncoder); ("tokenAccount", getAddressEncoder); ("timestamp", getI64Encoder)].

Definition getDelegationRevokedDecoder : codec := getStructDecoder [
  ("vault", getAddressDecoder); ("tokenAccount", getAddressDecoder); ("timestamp", getI64Decoder)].

Definition getDestinationGraylistEntryEncoder : codec := getStructEncoder [
  ("destination", getAddressEncoder); ("unlockUnix", getI64Encoder)].

Definition getDestinationGraylistEntryDecoder : codec := getStructDecoder [
  ("destination", getAddressDecoder); ("unlockUnix", getI64Decoder)].

Definition getEpochBucketEncoder : codec := getStructEncoder [
  ("epochId", getI64Encoder); ("usdAmount", getU64Encoder)].

Definition getEpochBucketDecoder : codec := getStructDecoder [
  ("epochId", getI64Decoder); ("usdAmount", getU64Decoder)].

Definition getFeesCollectedEncoder : codec := getStructEncoder [
  ("vault", getAddressEncoder); ("tokenMint", getAddressEncoder);
  ("protocolFeeAmount", getU64Encoder); ("developerFeeAmount", getU64Encoder);
  ("protocolFeeRate", getU16Encoder); ("developerFeeRate", getU16Encoder);
  ("transactionAmount", getU64Encoder); ("protocolTreasury", getAddressEncoder);
  ("developerFeeDestination", getAddressEncoder); ("cumulativeDeveloperFees", getU64Encoder);
  ("timestamp", getI64Encoder)].

Definition getFeesCollectedDecoder : codec := getStructDecoder [
  ("vault", getAddressDecoder); ("tokenMint", getAddressDecoder);
  ("protocolFeeAmount", getU64Decoder); ("developerFeeAmount", getU64Decoder);
  ("protocolFeeRate", getU16Decoder); ("developerFeeRate", getU16Decoder);
  ("transactionAmount", getU64Decoder); ("protocolTreasury", getAddressDecoder);
  ("developerFeeDestination", getAddressDecoder); ("cumulativeDeveloperFees", getU64Decoder);
  ("timestamp", getI64Decoder)].

Definition getFundsDepositedEncoder : codec := getStructEncoder [
  ("vault", getAddressEncoder); ("tokenMint", getAddressEncoder); ("amount", getU64Encoder);
  ("timestamp", getI64Encoder)].

Definition getFundsDepositedDecoder : codec := getStructDecoder [
  ("vault", getAddressDecoder); ("tokenMint", getAddressDecoder); ("amount", getU64Decoder);
  ("timestamp", getI64Decoder)].

Definition getFundsWithdrawnEncoder : codec := getStructEncoder [
  ("vault", getAddressEncoder); ("tokenMint", getAddressEncoder); ("amount", getU64Encoder);
  ("destination", getAddressEncoder); ("timestamp", getI64Encoder)].

Definition getFundsWithdrawnDecoder : codec := getStructDecoder [
  ("vault", getAddressDecoder); ("tokenMint", getAddressDecoder); ("amount", getU64Decoder);
  ("destination", getAddressDecoder); ("timestamp", getI64Decoder)].

Definition getGraylistEnteredEncoder : codec := getStructEncoder [
  ("vault", getAddressEncoder); ("destination", getAddressEncoder); ("unlockUnix", getI64Encoder);
  ("autoPromoted", getBooleanEncoder); ("timestamp", getI64Encoder)].

Definition getGraylistEnteredDecoder : codec := getStructDecoder [
  ("vault", getAddressDecoder); ("destination", getAddressDecoder); ("unlockUnix", getI64Decoder);
  ("autoPromoted", getBooleanDecoder); ("timestamp", getI64Decoder)].

Definition getGraylistPromotedEncoder : codec := getStructEncoder [
  ("vault", getAddressEncoder); ("destination", getAddressEncoder);
  ("promoted", getBooleanEncoder); ("timestamp", getI64Encoder)].

Definition getGraylistPromotedDecoder : codec := getStructDecoder [
  ("vault", getAddressDecoder); ("destination", getAddressDecoder);
  ("promoted", getBooleanDecoder); ("timestamp", getI64Decoder)].

Definition getObserveOnlyChangedEncoder : codec := getStructEncoder [
  ("vault", getAddressEncoder); ("oldValue", getBooleanEncoder); ("newValue", getBooleanEncoder);
  ("newPolicyVersion", getU64Encoder); ("newPolicyPreviewDigest", fixEncoderSize 32);
  ("timestamp", getI64Encoder)].

Definition getObserveOnlyChangedDecoder : codec := getStructDecoder [
  ("vault", getAddressDecoder); ("oldValue", getBooleanDecoder); ("newValue", getBooleanDecoder);
  ("newPolicyVersion", getU64Decoder); ("newPolicyPreviewDigest", fixDecoderSize 32);
  ("timestamp", getI64Decoder)].

Definition getOwnershipTransferAcceptedEncoder : codec := getStructEncoder [
  ("vault", getAddressEncoder); ("previousOwner", getAddressEncoder);
  ("newOwner", getAddressEncoder); ("viaMultisig", getBooleanEncoder); ("timestamp", getI64Encoder)].

Definition getOwnershipTransferAcceptedDecoder : codec := getStructDecoder [
  ("vault", getAddressDecoder); ("previousOwner", getAddressDecoder);
  ("newOwner", getAddressDecoder); ("viaMultisig", getBooleanDecoder); ("timestamp", getI64Decoder)].

Definition getOwnershipTransferCancelledEncoder : codec := getStructEncoder [
  ("vault", getAddressEncoder); ("currentOwner", getAddressEncoder);
  ("cancelledNewOwner", getAddressEncoder); ("timestamp", getI64Encoder)].

Definition getOwnershipTransferCancelledDecoder : codec := getStructDecoder [
  ("vault", getAddressDecoder); ("currentOwner", getAddressDecoder);
  ("cancelledNewOwner", getAddressDecoder); ("timestamp", getI64Decoder)].

Definition getOwnershipTransferInitiatedEncoder : codec := getStructEncoder [
  ("vault", getAddressEncoder); ("currentOwner", getAddressEncoder);
  ("newOwner", getAddressEncoder); ("queuedAt", getI64Encoder);
  ("isMultisigTarget", getBooleanEncoder)].

Definition getOwnershipTransferInitiatedDecoder : codec := getStructDecoder [
  ("vault", getAddressDecoder); ("currentOwner", getAddressDecoder);
  ("newOwner", getAddressDecoder); ("queuedAt", getI64Decoder);
  ("isMultisigTarget", getBooleanDecoder)].

Definition getPerRecipientCounterEncoder : codec := getStructEncoder [
  ("recipient", fixEncoderSize 32); ("windowStart", getI64Encoder);
  ("windowSpendUsd", getU64Encoder)].

Definition getPerRecipientCounterDecoder : codec := getStructDecoder [
  ("recipient", fixDecoderSize 32); ("windowStart", getI64Decoder);
  ("windowSpendUsd", getU64Decoder)].

Definition getPolicyChangeAppliedEncoder : codec := getStructEncoder [
  ("vault", getAddressEncoder); ("appliedAt", getI64Encoder)].

Definition getPolicyChangeAppliedDecoder : codec := getStructDecoder [
  ("vault", getAddressDecoder); ("appliedAt", getI64Decoder)].

Definition getPolicyChangeCancelledEncoder : codec := getStructEncoder [
  ("vault", getAddressEncoder)].

Definition getPolicyChangeCancelledDecoder : codec := getStructDecoder [
  ("vault", getAddressDecoder)].

Definition getPolicyChangeQueuedEncoder : codec := getStructEncoder [
  ("vault", getAddressEncoder); ("executesAt", getI64Encoder)].

Definition getPolicyChangeQueuedDecoder : codec := getStructDecoder [
  ("vault", getAddressDecoder); ("executesAt", getI64Decoder)].

Definition getPolicyCosignApprovedEncoder : codec := getStructEncoder [
  ("vault", getAddressEncoder); ("cosigner", getAddressEncoder); ("approvedAtSlot", getU64Encoder)].

Definition getPolicyCosignApprovedDecoder : codec := getStructDecoder [
  ("vault", getAddressDecoder); ("cosigner", getAddressDecoder); ("approvedAtSlot", getU64Decoder)].

Definition getPostAssertionCheckedEncoder : codec := getStructEncoder [
  ("vault", getAddressEncoder); ("entryIndex", getU8Encoder); ("passed", getBooleanEncoder);
  ("timestamp", getI64Encoder)].

Definition getPostAssertionCheckedDecoder : codec := getStructDecoder [
  ("vault", getAddressDecoder); ("entryIndex", getU8Decoder); ("passed", getBooleanDecoder);
  ("timestamp", getI64Decoder)].

Definition getPostAssertionEntryEncoder : codec := getStructEncoder [
  ("targetAccount", getAddressEncoder); ("offset", getU16Encoder); ("valueLen", getU8Encoder);
  ("operator", getU8Encoder); ("expectedValue", sizedBytesEncoder);
  ("assertionMode", getU8Encoder); ("auxValue", fixEncoderSize 8); ("auxByte", getU8Encoder)].

Definition getPostAssertionEntryDecoder : codec := getStructDecoder [
  ("targetAccount", getAddressDecoder); ("offset", getU16Decoder); ("valueLen", getU8Decoder);
  ("operator", getU8Decoder); ("expectedValue", sizedBytesDecoder);
  ("assertionMode", getU8Decoder); ("auxValue", fixDecoderSize 8); ("auxByte", getU8Decoder)].

Definition getPostAssertionEntryZCEncoder : codec := getStructEncoder [
  ("targetAccount", fixEncoderSize 32); ("offset", getU16Encoder); ("valueLen", getU8Encoder);
  ("operator", getU8Encoder); ("expectedValue", fixEncoderSize 32);
  ("assertionMode", getU8Encoder); ("auxValue", fixEncoderSize 8); ("auxByte", getU8Encoder)].

Definition getPostAssertionEntryZCDecoder : codec := getStructDecoder [
  ("targetAccount", fixDecoderSize 32); ("offset", getU16Decoder); ("valueLen", getU8Decoder);
  ("operator", getU8Decoder); ("expectedValue", fixDecoderSize 32);
  ("assertionMode", getU8Decoder); ("auxValue", fixDecoderSize 8); ("auxByte", getU8Decoder)].

Definition getPostAssertionsClosedEncoder : codec := getStructEncoder [
  ("vault", getAddressEncoder); ("timestamp", getI64Encoder)].

Definition getPostAssertionsClosedDecoder : codec := getStructDecoder [
  ("vault", getAddressDecoder); ("timestamp", getI64Decoder)].

Definition getPostAssertionsCreatedEncoder : codec := getStructEncoder [
  ("vault", getAddressEncoder); ("entryCount", getU8Encoder); ("timestamp", getI64Encoder)].

Definition getPostAssertionsCreatedDecoder : codec := getStructDecoder [
  ("vault", getAddressDecoder); ("entryCount", getU8Decoder); ("timestamp", getI64Decoder)].

Definition getProtocolSpendCounterEncoder : codec := getStructEncoder [
  ("protocol", fixEncoderSize 32); ("windowStart", getI64Encoder); ("windowSpend", getU64Encoder)].

Definition getProtocolSpendCounterDecoder : codec := getStructDecoder [
  ("protocol", fixDecoderSize 32); ("windowStart", getI64Decoder); ("windowSpend", getU64Decoder)].

Definition getSessionFinalizedEncoder : codec := getStructEncoder [
  ("vault", getAddressEncoder); ("agent", getAddressEncoder); ("success", getBooleanEncoder);
  ("isExpired", getBooleanEncoder); ("timestamp", getI64Encoder);
  ("actualSpendUsd", getU64Encoder); ("balanceAfterUsd", getU64Encoder)].

Definition getSessionFinalizedDecoder : codec := getStructDecoder [
  ("vault", getAddressDecoder); ("agent", getAddressDecoder); ("success", getBooleanDecoder);
  ("isExpired", getBooleanDecoder); ("timestamp", getI64Decoder);
  ("actualSpendUsd", getU64Decoder); ("balanceAfterUsd", getU64Decoder)].

Definition getVaultClosedEncoder : codec := getStructEncoder [
  ("vault", getAddressEncoder); ("owner", getAddressEncoder); ("timestamp", getI64Encoder)].

Definition getVaultClosedDecoder : codec := getStructDecoder [
  ("vault", getAddressDecoder); ("owner", getAddressDecoder); ("timestamp", getI64Decoder)].

Definition getVaultCreatedEncoder : codec := getStructEncoder [
  ("vault", getAddressEncoder); ("owner", getAddressEncoder); ("vaultId", getU64Encoder);
  ("timestamp", getI64Encoder)].

Definition getVaultCreatedDecoder : codec := getStructDecoder [
  ("vault", getAddressDecoder); ("owner", getAddressDecoder); ("vaultId", getU64Decoder);
  ("timestamp", getI64Decoder)].

Definition getVaultFrozenEncoder : codec := getStructEncoder [
  ("vault", getAddressEncoder); ("owner", getAddressEncoder); ("agentsPreserved", getU8Encoder);
  ("sessionsRevoked", getU32Encoder); ("timestamp", getI64Encoder); ("freezeReason", getU8Encoder)].

Definition getVaultFrozenDecoder : codec := getStructDecoder [
  ("vault", getAddressDecoder); ("owner", getAddressDecoder); ("agentsPreserved", getU8Decoder);
  ("sessionsRevoked", getU32Decoder); ("timestamp", getI64Decoder); ("freezeReason", getU8Decoder)].

Definition getVaultReactivatedEncoder : codec := getStructEncoder [
  ("vault", getAddressEncoder); ("newAgent", getOptionEncoder getAddressEncoder);
  ("newAgentCapability", getOptionEncoder getU8Encoder); ("timestamp", getI64Encoder)].

Definition getVaultReactivatedDecoder : codec := getStructDecoder [
  ("vault", getAddressDecoder); ("newAgent", getOptionDecoder getAddressDecoder);
  ("newAgentCapability", getOptionDecoder getU8Decoder); ("timestamp", getI64Decoder)].

Inductive VaultStatus : Type := Active | Frozen | Closed.
Definition getVaultStatusEncoder : codec := CPrim (PEnum 3).
Definition getVaultStatusDecoder : codec := CPrim (PEnum 3).

(** The types the program writes, with their two codecs. *)
Definition type_codecs : list (string * codec * codec) := [
  ("ActionAuthorized", getActionAuthorizedEncoder, getActionAuthorizedDecoder);
  ("AgentAutoRevoked", getAgentAutoRevokedEncoder, getAgentAutoRevokedDecoder);
  ("AgentContributionEntry", getAgentContributionEntryEncoder, getAgentContributionEntryDecoder);
  ("AgentEntry", getAgentEntryEncoder, getAgentEntryDecoder);
  ("AgentGrantApplied", getAgentGrantAppliedEncoder, getAgentGrantAppliedDecoder);
  ("AgentGrantCancelled", getAgentGrantCancelledEncoder, getAgentGrantCancelledDecoder);
  ("AgentGrantQueued", getAgentGrantQueuedEncoder, getAgentGrantQueuedDecoder);
  ("AgentPausedEvent", getAgentPausedEventEncoder, getAgentPausedEventDecoder);
  ("AgentPermissionsChangeApplied", getAgentPermissionsChangeAppliedEncoder, getAgentPermissionsChangeAppliedDecoder);
  ("AgentPermissionsChangeCancelled", getAgentPermissionsChangeCancelledEncoder, getAgentPermissionsChangeCancelledDecoder);
  ("AgentPermissionsChangeQueued", getAgentPermissionsChangeQueuedEncoder, getAgentPermissionsChangeQueuedDecoder);
  ("AgentRegistered", getAgentRegisteredEncoder, getAgentRegisteredDecoder);
  ("AgentRevoked", getAgentRevokedEncoder, getAgentRevokedDecoder);
  ("AgentSpendLimitChecked", getAgentSpendLimitCheckedEncoder, getAgentSpendLimitCheckedDecoder);
  ("AgentTransferExecuted", getAgentTransferExecutedEncoder, getAgentTransferExecutedDecoder);
  ("AgentUnpausedEvent", getAgentUnpausedEventEncoder, getAgentUnpausedEventDecoder);
  ("AuditEntry", getAuditEntryEncoder, getAuditEntryDecoder);
  ("DelegationRevoked", getDelegationRevokedEncoder, getDelegationRevokedDecoder);
  ("DestinationGraylistEntry", getDestinationGraylistEntryEncoder, getDestinationGraylistEntryDecoder);
  ("EpochBucket", getEpochBucketEncoder, getEpochBucketDecoder);
  ("FeesCollected", getFeesCollectedEncoder, getFeesCollectedDecoder);
  ("FundsDeposited", getFundsDepositedEncoder, getFundsDepositedDecoder);
  ("FundsWithdrawn", getFundsWithdrawnEncoder, getFundsWithdrawnDecoder);
  ("GraylistEntered", getGraylistEnteredEncoder, getGraylistEnteredDecoder);
  ("GraylistPromoted", getGraylistPromotedEncoder, getGraylistPromotedDecoder);
  ("ObserveOnlyChanged", getObserveOnlyChangedEncoder, getObserveOnlyChangedDecoder);
  ("OwnershipTransferAccepted", getOwnershipTransferAcceptedEncoder, getOwnershipTransferAcceptedDecoder);
  ("OwnershipTransferCancelled", getOwnershipTransferCancelledEncoder, getOwnershipTransferCancelledDecoder);
  ("OwnershipTransferInitiated", getOwnershipTransferInitiatedEncoder, getOwnershipTransferInitiatedDecoder);
  ("PerRecipientCounter", getPerRecipientCounterEncoder, getPerRecipientCounterDecoder);
  ("PolicyChangeApplied", getPolicyChangeAppliedEncoder, getPolicyChangeAppliedDecoder);
  ("PolicyChangeCancelled", getPolicyChangeCancelledEncoder, getPolicyChangeCancelledDecoder);
  ("PolicyChangeQueued", getPolicyChangeQueuedEncoder, getPolicyChangeQueuedDecoder);
  ("PolicyCosignApproved", getPolicyCosignApprovedEncoder, getPolicyCosignApprovedDecoder);
  ("PostAssertionChecked", getPostAssertionCheckedEncoder, getPostAssertionCheckedDecoder);
  ("PostAssertionEntry", getPostAssertionEntryEncoder, getPostAssertionEntryDecoder);
  ("PostAssertionEntryZC", getPostAssertionEntryZCEncoder, getPostAssertionEntryZCDecoder);
  ("PostAssertionsClosed", getPostAssertionsClosedEncoder, getPostAssertionsClosedDecoder);
  ("PostAssertionsCreated", getPostAssertionsCreatedEncoder, getPostAssertionsCreatedDecoder);
  ("ProtocolSpendCounter", getProtocolSpendCounterEncoder, getProtocolSpendCounterDecoder);
  ("SessionFinalized", getSessionFinalizedEncoder, getSessionFinalizedDecoder);
  ("VaultClosed", getVaultClosedEncoder, getVaultClosedDecoder);
  ("VaultCreated", getVaultCreatedEncoder, getVaultCreatedDecoder);
  ("VaultFrozen", getVaultFrozenEncoder, getVaultFrozenDecoder);
  ("VaultReactivated", getVaultReactivatedEncoder, getVaultReactivatedDecoder);
  ("VaultStatus", getVaultStatusEncoder, getVaultStatusDecoder)].

(** ** Accounts *)

Definition AGENT_SPEND_OVERLAY_DISCRIMINATOR : list Z := [126; 248; 13; 218; 101; 148; 135; 44]%Z.

Definition getAgentSpendOverlayEncoder : TaggedEncoder := {|
  te_struct := [
    ("discriminator", fixEncoderSize 8); ("vault", getAddressEncoder);
    ("entries", getArrayEncoder (Some 10%nat) getAgentContributionEntryEncoder);
    ("bump", getU8Encoder); ("padding", fixEncoderSize 7);
    ("lifetimeSpend", getArrayEncoder (Some 10%nat) getU64Encoder);
    ("lifetimeTxCount", getArrayEncoder (Some 10%nat) getU64Encoder);
    ("cooldownSeconds", getArrayEncoder (Some 10%nat) getU64Encoder);
    ("lastActionUnix", getArrayEncoder (Some 10%nat) getI64Encoder)];
  te_discriminator := AGENT_SPEND_OVERLAY_DISCRIMINATOR;
|}.

Definition getAgentSpendOverlayDecoder : list (string * codec) := [
  ("discriminator", fixDecoderSize 8); ("vault", getAddressDecoder);
  ("entries", getArrayDecoder (Some 10%nat) getAgentContributionEntryDecoder);
  ("bump", getU8Decoder); ("padding", fixDecoderSize 7);
  ("lifetimeSpend", getArrayDecoder (Some 10%nat) getU64Decoder);
  ("lifetimeTxCount", getArrayDecoder (Some 10%nat) getU64Decoder);
  ("cooldownSeconds", getArrayDecoder (Some 10%nat) getU64Decoder);
  ("lastActionUnix", getArrayDecoder (Some 10%nat) getI64Decoder)].

Definition getAgentSpendOverlaySize : nat := 2688.

Definition AGENT_VAULT_DISCRIMINATOR : list Z := [232; 220; 237; 164; 157; 9; 215; 194]%Z.

Definition getAgentVaultEncoder : TaggedEncoder := {|
  te_struct := [
    ("discriminator", fixEncoderSize 8); ("owner", getAddressEncoder); ("vaultId", getU64Encoder);
    ("agents", getArrayEncoder None getAgentEntryEncoder); ("feeDestination", getAddressEncoder);
    ("status", getVaultStatusEncoder); ("bump", getU8Encoder); ("createdAt", getI64Encoder);
    ("totalTransactions", getU64Encoder); ("totalVolume", getU64Encoder);
    ("totalFeesCollected", getU64Encoder); ("totalDepositedUsd", getU64Encoder);
    ("totalWithdrawnUsd", getU64Encoder); ("totalFailedTransactions", getU64Encoder);
    ("activeSessions", getU8Encoder); ("observeOnly", getBooleanEncoder);
    ("frozenAtTimestamp", getI64Encoder); ("freezeReason", getU8Encoder);
    ("ownerType", getU8Encoder); ("vaultAuthority", getAddressEncoder)];
  te_discriminator := AGENT_VAULT_DISCRIMINATOR;
|}.

Definition getAgentVaultDecoder : list (string * codec) := [
  ("discriminator", fixDecoderSize 8); ("owner", getAddressDecoder); ("vaultId", getU64Decoder);
  ("agents", getArrayDecoder None getAgentEntryDecoder); ("feeDestination", getAddressDecoder);
  ("status", getVaultStatusDecoder); ("bump", getU8Decoder); ("createdAt", getI64Decoder);
  ("totalTransactions", getU64Decoder); ("totalVolume", getU64Decoder);
  ("totalFeesCollected", getU64Decoder); ("totalDepositedUsd", getU64Decoder);
  ("totalWithdrawnUsd", getU64Decoder); ("totalFailedTransactions", getU64Decoder);
  ("activeSessions", getU8Decoder); ("observeOnly", getBooleanDecoder);
  ("frozenAtTimestamp", getI64Decoder); ("freezeReason", getU8Decoder);
  ("ownerType", getU8Decoder); ("vaultAuthority", getAddressDecoder)].

Definition AUDIT_LOG_REJECTED_DISCRIMINATOR : list Z := [211; 117; 26; 31; 160; 74; 242; 204]%Z.

Definition getAuditLogRejectedEncoder : TaggedEncoder := {|
  te_struct := [
    ("discriminator", fixEncoderSize 8); ("vault", getAddressEncoder);
    ("entries", getArrayEncoder (Some 64%nat) getAuditEntryEncoder); ("head", getU8Encoder);
    ("count", getU8Encoder); ("padding", fixEncoderSize 13); ("bump", getU8Encoder)];
  te_discriminator := AUDIT_LOG_REJECTED_DISCRIMINATOR;
|}.

Definition getAuditLogRejectedDecoder : list (string * codec) := [
  ("discriminator", fixDecoderSize 8); ("vault", getAddressDecoder);
  ("entries", getArrayDecoder (Some 64%nat) getAuditEntryDecoder); ("head", getU8Decoder);
  ("count", getU8Decoder); ("padding", fixDecoderSize 13); ("bump", getU8Decoder)].

Definition getAuditLogRejectedSize : nat := 4152.

Definition AUDIT_LOG_SUCCESS_DISCRIMINATOR : list Z := [225; 112; 129; 30; 0; 111; 84; 75]%Z.

Definition getAuditLogSuccessEncoder : TaggedEncoder := {|
  te_struct := [
    ("discriminator", fixEncoderSize 8); ("vault", getAddressEncoder);
    ("entries", getArrayEncoder (Some 128%nat) getAuditEntryEncoder); ("head", getU8Encoder);
    ("count", getU8Encoder); ("padding", fixEncoderSize 13); ("bump", getU8Encoder)];
  te_discriminator := AUDIT_LOG_SUCCESS_DISCRIMINATOR;
|}.

Definition getAuditLogSuccessDecoder : list (string * codec) := [
  ("discriminator", fixDecoderSize 8); ("vault", getAddressDecoder);
  ("entries", getArrayDecoder (Some 128%nat) getAuditEntryDecoder); ("head", getU8Decoder);
  ("count", getU8Decoder); ("padding", fixDecoderSize 13); ("bump", getU8Decoder)].

Definition getAuditLogSuccessSize : nat := 8248.

Definition PENDING_AGENT_GRANT_DISCRIMINATOR : list Z := [164; 188; 119; 39; 18; 133; 78; 66]%Z.

Definition getPendingAgentGrantEncoder : TaggedEncoder := {|
  te_struct := [
    ("discriminator", fixEncoderSize 8); ("vault", getAddressEncoder);
    ("agent", getAddressEncoder); ("capability", getU8Encoder);
    ("spendingLimitUsd", getU64Encoder); ("queuedAt", getI64Encoder);
    ("minDelaySeconds", getU64Encoder); ("bump", getU8Encoder); ("padding", fixEncoderSize 6);
    ("pendingContentDigest", fixEncoderSize 32); ("queuedAtSlot", getU64Encoder)];
  te_discriminator := PENDING_AGENT_GRANT_DISCRIMINATOR;
|}.

Definition getPendingAgentGrantDecoder : list (string * codec) := [
  ("discriminator", fixDecoderSize 8); ("vault", getAddressDecoder); ("agent", getAddressDecoder);
  ("capability", getU8Decoder); ("spendingLimitUsd", getU64Decoder); ("queuedAt", getI64Decoder);
  ("minDelaySeconds", getU64Decoder); ("bump", getU8Decoder); ("padding", fixDecoderSize 6);
  ("pendingContentDigest", fixDecoderSize 32); ("queuedAtSlot", getU64Decoder)].

Definition getPendingAgentGrantSize : nat := 144.

Definition PENDING_AGENT_PERMISSIONS_UPDATE_DISCRIMINATOR : list Z := [137; 132; 60; 184; 171; 184; 194; 56]%Z.

Definition getPendingAgentPermissionsUpdateEncoder : TaggedEncoder := {|
  te_struct := [
    ("discriminator", fixEncoderSize 8); ("vault", getAddressEncoder);
    ("agent", getAddressEncoder); ("newCapability", getU8Encoder);
    ("reservedCap", fixEncoderSize 7); ("spendingLimitUsd", getU64Encoder);
    ("queuedAt", getI64Encoder); ("executesAt", getI64Encoder); ("queuedAtSlot", getU64Encoder);
    ("bump", getU8Encoder); ("cooldownSeconds", getU64Encoder);
    ("cosignDigest", fixEncoderSize 32); ("cosignSession", getAddressEncoder)];
  te_discriminator := PENDING_AGENT_PERMISSIONS_UPDATE_DISCRIMINATOR;
|}.

Definition getPendingAgentPermissionsUpdateDecoder : list (string * codec) := [
  ("discriminator", fixDecoderSize 8); ("vault", getAddressDecoder); ("agent", getAddressDecoder);
  ("newCapability", getU8Decoder); ("reservedCap", fixDecoderSize 7);
  ("spendingLimitUsd", getU64Decoder); ("queuedAt", getI64Decoder); ("executesAt", getI64Decoder);
  ("queuedAtSlot", getU64Decoder); ("bump", getU8Decoder); ("cooldownSeconds", getU64Decoder);
  ("cosignDigest", fixDecoderSize 32); ("cosignSession", getAddressDecoder)].

Definition getPendingAgentPermissionsUpdateSize : nat := 185.

Definition PENDING_OWNERSHIP_TRANSFER_DISCRIMINATOR : list Z := [205; 223; 35; 217; 245; 217; 152; 38]%Z.

Definition getPendingOwnershipTransferEncoder : TaggedEncoder := {|
  te_struct := [
    ("discriminator", fixEncoderSize 8); ("vault", getAddressEncoder);
    ("currentOwner", getAddressEncoder); ("newOwner", getAddressEncoder);
    ("queuedAt", getI64Encoder); ("minDelaySeconds", getU64Encoder);
    ("isMultisigTarget", getBooleanEncoder); ("bump", getU8Encoder); ("padding", fixEncoderSize 6);
    ("queuedAtSlot", getU64Encoder)];
  te_discriminator := PENDING_OWNERSHIP_TRANSFER_DISCRIMINATOR;
|}.

Definition getPendingOwnershipTransferDecoder : list (string * codec) := [
  ("discriminator", fixDecoderSize 8); ("vault", getAddressDecoder);
  ("currentOwner", getAddressDecoder); ("newOwner", getAddressDecoder);
  ("queuedAt", getI64Decoder); ("minDelaySeconds", getU64Decoder);
  ("isMultisigTarget", getBooleanDecoder); ("bump", getU8Decoder); ("padding", fixDecoderSize 6);
  ("queuedAtSlot", getU64Decoder)].

Definition getPendingOwnershipTransferSize : nat := 136.

Definition PENDING_POLICY_UPDATE_DISCRIMINATOR : list Z := [77; 255; 2; 51; 79; 237; 183; 239]%Z.

Definition getPendingPolicyUpdateEncoder : TaggedEncoder := {|
  te_struct := [
    ("discriminator", fixEncoderSize 8); ("vault", getAddressEncoder); ("queuedAt", getI64Encoder);
    ("executesAt", getI64Encoder); ("queuedAtSlot", getU64Encoder);
    ("dailySpendingCapUsd", getOptionEncoder getU64Encoder);
    ("maxTransactionAmountUsd", getOptionEncoder getU64Encoder);
    ("protocolMode", getOptionEncoder getU8Encoder);
    ("protocols", getOptionEncoder (getArrayEncoder None getAddressEncoder));
    ("developerFeeRate", getOptionEncoder getU16Encoder);
    ("maxSlippageBps", getOptionEncoder getU16Encoder);
    ("timelockDuration", getOptionEncoder getU64Encoder);
    ("allowedDestinations", getOptionEncoder (getArrayEncoder None getAddressEncoder));
    ("sessionExpirySeconds", getOptionEncoder getU64Encoder);
    ("hasProtocolCaps", getOptionEncoder getBooleanEncoder);
    ("protocolCaps", getOptionEncoder (getArrayEncoder None getU64Encoder));
    ("destinationMode", getOptionEncoder getU8Encoder); ("bump", getU8Encoder);
    ("operatingHours", getOptionEncoder getU32Encoder); ("cosignDigest", fixEncoderSize 32);
    ("cosignSession", getAddressEncoder); ("newPolicyPreviewDigest", fixEncoderSize 32);
    ("stableBalanceFloor", getOptionEncoder getU64Encoder);
    ("perRecipientDailyCapUsd", getOptionEncoder getU64Encoder);
    ("cosignRequired", getOptionEncoder getBooleanEncoder);
    ("cosignSessionPubkey", getOptionEncoder getAddressEncoder);
    ("operatorGrantDelaySeconds", getOptionEncoder getU64Encoder);
    ("cosignApproved", getBooleanEncoder); ("approvedAtSlot", getU64Encoder);
    ("queuedPolicyVersion", getU64Encoder);
    ("protocolHashes", getOptionEncoder (getArrayEncoder (Some 10%nat) (fixEncoderSize 32)))];
  te_discriminator := PENDING_POLICY_UPDATE_DISCRIMINATOR;
|}.

Definition getPendingPolicyUpdateDecoder : list (string * codec) := [
  ("discriminator", fixDecoderSize 8); ("vault", getAddressDecoder); ("queuedAt", getI64Decoder);
  ("executesAt", getI64Decoder); ("queuedAtSlot", getU64Decoder);
  ("dailySpendingCapUsd", getOptionDecoder getU64Decoder);
  ("maxTransactionAmountUsd", getOptionDecoder getU64Decoder);
  ("protocolMode", getOptionDecoder getU8Decoder);
  ("protocols", getOptionDecoder (getArrayDecoder None getAddressDecoder));
  ("developerFeeRate", getOptionDecoder getU16Decoder);
  ("maxSlippageBps", getOptionDecoder getU16Decoder);
  ("timelockDuration", getOptionDecoder getU64Decoder);
  ("allowedDestinations", getOptionDecoder (getArrayDecoder None getAddressDecoder));
  ("sessionExpirySeconds", getOptionDecoder getU64Decoder);
  ("hasProtocolCaps", getOptionDecoder getBooleanDecoder);
  ("protocolCaps", getOptionDecoder (getArrayDecoder None getU64Decoder));
  ("destinationMode", getOptionDecoder getU8Decoder); ("bump", getU8Decoder);
  ("operatingHours", getOptionDecoder getU32Decoder); ("cosignDigest", fixDecoderSize 32);
  ("cosignSession", getAddressDecoder); ("newPolicyPreviewDigest", fixDecoderSize 32);
  ("stableBalanceFloor", getOptionDecoder getU64Decoder);
  ("perRecipientDailyCapUsd", getOptionDecoder getU64Decoder);
  ("cosignRequired", getOptionDecoder getBooleanDecoder);
  ("cosignSessionPubkey", getOptionDecoder getAddressDecoder);
  ("operatorGrantDelaySeconds", getOptionDecoder getU64Decoder);
  ("cosignApproved", getBooleanDecoder); ("approvedAtSlot", getU64Decoder);
  ("queuedPolicyVersion", getU64Decoder);
  ("protocolHashes", getOptionDecoder (getArrayDecoder (Some 10%nat) (fixDecoderSize 32)))].

Definition POLICY_CONFIG_DISCRIMINATOR : list Z := [219; 7; 79; 84; 175; 51; 148; 146]%Z.

Definition getPolicyConfigEncoder : TaggedEncoder := {|
  te_struct := [
    ("discriminator", fixEncoderSize 8); ("vault", getAddressEncoder);
    ("dailySpendingCapUsd", getU64Encoder); ("maxTransactionSizeUsd", getU64Encoder);
    ("protocolMode", getU8Encoder); ("protocols", getArrayEncoder None getAddressEncoder);
    ("developerFeeRate", getU16Encoder); ("maxSlippageBps", getU16Encoder);
    ("timelockDuration", getU64Encoder);
    ("allowedDestinations", getArrayEncoder None getAddressEncoder);
    ("hasPendingPolicy", getBooleanEncoder); ("hasProtocolCaps", getBooleanEncoder);
    ("protocolCaps", getArrayEncoder None getU64Encoder); ("sessionExpirySeconds", getU64Encoder);
    ("bump", getU8Encoder); ("policyVersion", getU64Encoder); ("hasPostAssertions", getU8Encoder);
    ("destinationMode", getU8Encoder); ("policyPreviewDigest", fixEncoderSize 32);
    ("createdAtSlot", getU64Encoder); ("operatingHours", getU32Encoder);
    ("destinationGraylist", getArrayEncoder None getDestinationGraylistEntryEncoder);
    ("autoPromoteGrays", getBooleanEncoder); ("autoRevokeThreshold", getU8Encoder);
    ("stableBalanceFloor", getU64Encoder); ("perRecipientDailyCapUsd", getU64Encoder);
    ("cosignRequired", getBooleanEncoder); ("cosignSessionPubkey", getAddressEncoder);
    ("operatorGrantDelaySeconds", getU64Encoder);
    ("protocolHashes", getArrayEncoder (Some 10%nat) (fixEncoderSize 32))];
  te_discriminator := POLICY_CONFIG_DISCRIMINATOR;
|}.

Definition getPolicyConfigDecoder : list (string * codec) := [
  ("discriminator", fixDecoderSize 8); ("vault", getAddressDecoder);
  ("dailySpendingCapUsd", getU64Decoder); ("maxTransactionSizeUsd", getU64Decoder);
  ("protocolMode", getU8Decoder); ("protocols", getArrayDecoder None getAddressDecoder);
  ("developerFeeRate", getU16Decoder); ("maxSlippageBps", getU16Decoder);
  ("timelockDuration", getU64Decoder);
  ("allowedDestinations", getArrayDecoder None getAddressDecoder);
  ("hasPendingPolicy", getBooleanDecoder); ("hasProtocolCaps", getBooleanDecoder);
  ("protocolCaps", getArrayDecoder None getU64Decoder); ("sessionExpirySeconds", getU64Decoder);
  ("bump", getU8Decoder); ("policyVersion", getU64Decoder); ("hasPostAssertions", getU8Decoder);
  ("destinationMode", getU8Decoder); ("policyPreviewDigest", fixDecoderSize 32);
  ("createdAtSlot", getU64Decoder); ("operatingHours", getU32Decoder);
  ("destinationGraylist", getArrayDecoder None getDestinationGraylistEntryDecoder);
  ("autoPromoteGrays", getBooleanDecoder); ("autoRevokeThreshold", getU8Decoder);
  ("stableBalanceFloor", getU64Decoder); ("perRecipientDailyCapUsd", getU64Decoder);
  ("cosignRequired", getBooleanDecoder); ("cosignSessionPubkey", getAddressDecoder);
  ("operatorGrantDelaySeconds", getU64Decoder);
  ("protocolHashes", getArrayDecoder (Some 10%nat) (fixDecoderSize 32))].

Definition POST_EXECUTION_ASSERTIONS_DISCRIMINATOR : list Z := [1; 104; 4; 208; 143; 120; 4; 77]%Z.

Definition getPostExecutionAssertionsEncoder : TaggedEncoder := {|
  te_struct := [
    ("discriminator", fixEncoderSize 8); ("vault", fixEncoderSize 32);
    ("entries", getArrayEncoder (Some 8%nat) getPostAssertionEntryZCEncoder);
    ("entryCount", getU8Encoder); ("bump", getU8Encoder); ("padding", fixEncoderSize 6)];
  te_discriminator := POST_EXECUTION_ASSERTIONS_DISCRIMINATOR;
|}.

Definition getPostExecutionAssertionsDecoder : list (string * codec) := [
  ("discriminator", fixDecoderSize 8); ("vault", fixDecoderSize 32);
  ("entries", getArrayDecoder (Some 8%nat) getPostAssertionEntryZCDecoder);
  ("entryCount", getU8Decoder); ("bump", getU8Decoder); ("padding", fixDecoderSize 6)].

Definition getPostExecutionAssertionsSize : nat := 672.

Definition SESSION_AUTHORITY_DISCRIMINATOR : list Z := [48; 9; 30; 120; 134; 35; 172; 170]%Z.

Definition getSessionAuthorityEncoder : TaggedEncoder := {|
  te_struct := [
    ("discriminator", fixEncoderSize 8); ("vault", getAddressEncoder);
    ("agent", getAddressEncoder); ("authorized", getBooleanEncoder);
    ("authorizedAmount", getU64Encoder); ("authorizedToken", getAddressEncoder);
    ("authorizedProtocol", getAddressEncoder); ("expiresAtTimestamp", getI64Encoder);
    ("delegated", getBooleanEncoder); ("delegationTokenAccount", getAddressEncoder);
    ("protocolFee", getU64Encoder); ("developerFee", getU64Encoder);
    ("outputMint", getAddressEncoder); ("stablecoinBalanceBefore", getU64Encoder);
    ("bump", getU8Encoder);
    ("assertionSnapshots", getArrayEncoder (Some 8%nat) (fixEncoderSize 32));
    ("snapshotLens", fixEncoderSize 8); ("nonce", getU64Encoder);
    ("outputStablecoinAccount", getAddressEncoder); ("outputSwapAccount", getAddressEncoder);
    ("outputSwapMint", getAddressEncoder); ("outputSwapBalanceBefore", getU64Encoder)];
  te_discriminator := SESSION_AUTHORITY_DISCRIMINATOR;
|}.

Definition getSessionAuthorityDecoder : list (string * codec) := [
  ("discriminator", fixDecoderSize 8); ("vault", getAddressDecoder); ("agent", getAddressDecoder);
  ("authorized", getBooleanDecoder); ("authorizedAmount", getU64Decoder);
  ("authorizedToken", getAddressDecoder); ("authorizedProtocol", getAddressDecoder);
  ("expiresAtTimestamp", getI64Decoder); ("delegated", getBooleanDecoder);
  ("delegationTokenAccount", getAddressDecoder); ("protocolFee", getU64Decoder);
  ("developerFee", getU64Decoder); ("outputMint", getAddressDecoder);
  ("stablecoinBalanceBefore", getU64Decoder); ("bump", getU8Decoder);
  ("assertionSnapshots", getArrayDecoder (Some 8%nat) (fixDecoderSize 32));
  ("snapshotLens", fixDecoderSize 8); ("nonce", getU64Decoder);
  ("outputStablecoinAccount", getAddressDecoder); ("outputSwapAccount", getAddressDecoder);
  ("outputSwapMint", getAddressDecoder); ("outputSwapBalanceBefore", getU64Decoder)].

Definition getSessionAuthoritySize : nat := 619.

Definition SPEND_TRACKER_DISCRIMINATOR : list Z := [180; 17; 195; 180; 162; 207; 239; 205]%Z.

Definition getSpendTrackerEncoder : TaggedEncoder := {|
  te_struct := [
    ("discriminator", fixEncoderSize 8); ("vault", getAddressEncoder);
    ("buckets", getArrayEncoder (Some 144%nat) getEpochBucketEncoder);
    ("protocolCounters", getArrayEncoder (Some 10%nat) getProtocolSpendCounterEncoder);
    ("lastWriteEpoch", getI64Encoder); ("bump", getU8Encoder); ("padding", fixEncoderSize 7);
    ("perRecipient", getArrayEncoder (Some 10%nat) getPerRecipientCounterEncoder);
    ("perRecipientCount", getU8Encoder); ("paddingRecipient", fixEncoderSize 7)];
  te_discriminator := SPEND_TRACKER_DISCRIMINATOR;
|}.

Definition getSpendTrackerDecoder : list (string * codec) := [
  ("discriminator", fixDecoderSize 8); ("vault", getAddressDecoder);
  ("buckets", getArrayDecoder (Some 144%nat) getEpochBucketDecoder);
  ("protocolCounters", getArrayDecoder (Some 10%nat) getProtocolSpendCounterDecoder);
  ("lastWriteEpoch", getI64Decoder); ("bump", getU8Decoder); ("padding", fixDecoderSize 7);
  ("perRecipient", getArrayDecoder (Some 10%nat) getPerRecipientCounterDecoder);
  ("perRecipientCount", getU8Decoder); ("paddingRecipient", fixDecoderSize 7)].

Definition getSpendTrackerSize : nat := 3328.

(** ** Reading accounts from the chain

    The chain library's two requests, and the functions each account file has:
    [decode...] keeps a missing account missing, [fetch...] refuses it. *)
Class ChainReader : Type := {
  fetchEncodedAccount : string → result js_exn (option (list Z));
  fetchEncodedAccounts : list string → result js_exn (list (option (list Z)));
}.

Definition ACCOUNT_NOT_FOUND : js_exn := SdkDomainError "SOLANA_ERROR__ACCOUNTS__ACCOUNT_NOT_FOUND".
Definition ACCOUNTS_NOT_FOUND : js_exn := SdkDomainError "SOLANA_ERROR__ACCOUNTS__ONE_OR_MORE_ACCOUNTS_NOT_FOUND".

Definition decodeAccount `{Kit} (data : option (list Z)) (decoder : list (string * codec)) : result js_exn (option val) :=
  match data with
  | None => Ok None
  | Some bs => v ← kit_decode (CStruct decoder) bs; Ok (Some v)
  end.

Definition assertAccountExists (m : option val) : result js_exn val :=
  match m with None => Throw ACCOUNT_NOT_FOUND | Some v => Ok v end.

Definition assertAccountsExist (ms : list (option val)) : result js_exn (list val) :=
  match mapM id ms with None => Throw ACCOUNTS_NOT_FOUND | Some vs => Ok vs end.

Section Fetch.
Context `{Kit} `{ChainReader}.

Definition decodeAgentSpendOverlay (data : option (list Z)) : result js_exn (option val) := decodeAccount data getAgentSpendOverlayDecoder.
Definition fetchMaybeAgentSpendOverlay (address : string) : result js_exn (option val) :=
  data ← fetchEncodedAccount address; decodeAgentSpendOverlay data.
Definition fetchAgentSpendOverlay (address : string) : result js_exn val :=
  m ← fetchMaybeAgentSpendOverlay address; assertAccountExists m.
Definition fetchAllMaybeAgentSpendOverlay (addresses : list string) : result js_exn (list (option val)) :=
  ds ← fetchEncodedAccounts addresses; mapM decodeAgentSpendOverlay ds.
Definition fetchAllAgentSpendOverlay (addresses : list string) : result js_exn (list val) :=
  ms ← fetchAllMaybeAgentSpendOverlay addresses; assertAccountsExist ms.

Definition decodeAgentVault (data : option (list Z)) : result js_exn (option val) := decodeAccount data getAgentVaultDecoder.
Definition fetchMaybeAgentVault (address : string) : result js_exn (option val) :=
  data ← fetchEncodedAccount address; decodeAgentVault data.
Definition fetchAgentVault (address : string) : result js_exn val :=
  m ← fetchMaybeAgentVault address; assertAccountExists m.
Definition fetchAllMaybeAgentVault (addresses : list string) : result js_exn (list (option val)) :=
  ds ← fetchEncodedAccounts addresses; mapM decodeAgentVault ds.
Definition fetchAllAgentVault (addresses : list string) : result js_exn (list val) :=
  ms ← fetchAllMaybeAgentVault addresses; assertAccountsExist ms.

Definition decodeAuditLogRejected (data : option (list Z)) : result js_exn (option val) := decodeAccount data getAuditLogRejectedDecoder.
Definition fetchMaybeAuditLogRejected (address : string) : result js_exn (option val) :=
  data ← fetchEncodedAccount address; decodeAuditLogRejected data.
Definition fetchAuditLogRejected (address : string) : result js_exn val :=
  m ← fetchMaybeAuditLogRejected address; assertAccountExists m.
Definition fetchAllMaybeAuditLogRejected (addresses : list string) : result js_exn (list (option val)) :=
  ds ← fetchEncodedAccounts addresses; mapM decodeAuditLogRejected ds.
Definition fetchAllAuditLogRejected (addresses : list string) : result js_exn (list val) :=
  ms ← fetchAllMaybeAuditLogRejected addresses; assertAccountsExist ms.

Definition decodeAuditLogSuccess (data : option (list Z)) : result js_exn (option val) := decodeAccount data getAuditLogSuccessDecoder.
Definition fetchMaybeAuditLogSuccess (address : string) : result js_exn (option val) :=
  data ← fetchEncodedAccount address; decodeAuditLogSuccess data.
Definition fetchAuditLogSuccess (address : string) : result js_exn val :=
  m ← fetchMaybeAuditLogSuccess address; assertAccountExists m.
Definition fetchAllMaybeAuditLogSuccess (addresses : list string) : result js_exn (list (option val)) :=
  ds ← fetchEncodedAccounts addresses; mapM decodeAuditLogSuccess ds.
Definition fetchAllAuditLogSuccess (addresses : list string) : result js_exn (list val) :=
  ms ← fetchAllMaybeAuditLogSuccess addresses; assertAccountsExist ms.

Definition decodePendingAgentGrant (data : option (list Z)) : result js_exn (option val) := decodeAccount data getPendingAgentGrantDecoder.
Definition fetchMaybePendingAgentGrant (address : string) : result js_exn (option val) :=
  data ← fetchEncodedAccount address; decodePendingAgentGrant data.
Definition fetchPendingAgentGrant (address : string) : result js_exn val :=
  m ← fetchMaybePendingAgentGrant address; assertAccountExists m.
Definition fetchAllMaybePendingAgentGrant (addresses : list string) : result js_exn (list (option val)) :=
  ds ← fetchEncodedAccounts addresses; mapM decodePendingAgentGrant ds.
Definition fetchAllPendingAgentGrant (addresses : list string) : result js_exn (list val) :=
  ms ← fetchAllMaybePendingAgentGrant addresses; assertAccountsExist ms.

Definition decodePendingAgentPermissionsUpdate (data : option (list Z)) : result js_exn (option val) := decodeAccount data getPendingAgentPermissionsUpdateDecoder.
Definition fetchMaybePendingAgentPermissionsUpdate (address : string) : result js_exn (option val) :=
  data ← fetchEncodedAccount address; decodePendingAgentPermissionsUpdate data.
Definition fetchPendingAgentPermissionsUpdate (address : string) : result js_exn val :=
  m ← fetchMaybePendingAgentPermissionsUpdate address; assertAccountExists m.
Definition fetchAllMaybePendingAgentPermissionsUpdate (addresses : list string) : result js_exn (list (option val)) :=
  ds ← fetchEncodedAccounts addresses; mapM decodePendingAgentPermissionsUpdate ds.
Definition fetchAllPendingAgentPermissionsUpdate (addresses : list string) : result js_exn (list val) :=
  ms ← fetchAllMaybePendingAgentPermissionsUpdate addresses; assertAccountsExist ms.

Definition decodePendingOwnershipTransfer (data : option (list Z)) : result js_exn (option val) := decodeAccount data getPendingOwnershipTransferDecoder.
Definition fetchMaybePendingOwnershipTransfer (address : string) : result js_exn (option val) :=
  data ← fetchEncodedAccount address; decodePendingOwnershipTransfer data.
Definition fetchPendingOwnershipTransfer (address : string) : result js_exn val :=
  m ← fetchMaybePendingOwnershipTransfer address; assertAccountExists m.
Definition fetchAllMaybePendingOwnershipTransfer (addresses : list string) : result js_exn (list (option val)) :=
  ds ← fetchEncodedAccounts addresses; mapM decodePendingOwnershipTransfer ds.
Definition fetchAllPendingOwnershipTransfer (addresses : list string) : result js_exn (list val) :=
  ms ← fetchAllMaybePendingOwnershipTransfer addresses; assertAccountsExist ms.

Definition decodePendingPolicyUpdate (data : option (list Z)) : result js_exn (option val) := decodeAccount data getPendingPolicyUpdateDecoder.
Definition fetchMaybePendingPolicyUpdate (address : string) : result js_exn (option val) :=
  data ← fetchEncodedAccount address; decodePendingPolicyUpdate data.
Definition fetchPendingPolicyUpdate (address : string) : result js_exn val :=
  m ← fetchMaybePendingPolicyUpdate address; assertAccountExists m.
Definition fetchAllMaybePendingPolicyUpdate (addresses : list string) : result js_exn (list (option val)) :=
  ds ← fetchEncodedAccounts addresses; mapM decodePendingPolicyUpdate ds.
Definition fetchAllPendingPolicyUpdate (addresses : list string) : result js_exn (list val) :=
  ms ← fetchAllMaybePendingPolicyUpdate addresses; assertAccountsExist ms.

Definition decodePolicyConfig (data : option (list Z)) : result js_exn (option val) := decodeAccount data getPolicyConfigDecoder.
Definition fetchMaybePolicyConfig (address : string) : result js_exn (option val) :=
  data ← fetchEncodedAccount address; decodePolicyConfig data.
Definition fetchPolicyConfig (address : string) : result js_exn val :=
  m ← fetchMaybePolicyConfig address; assertAccountExists m.
Definition fetchAllMaybePolicyConfig (addresses : list string) : result js_exn (list (option val)) :=
  ds ← fetchEncodedAccounts addresses; mapM decodePolicyConfig ds.
Definition fetchAllPolicyConfig (addresses : list string) : result js_exn (list val) :=
  ms ← fetchAllMaybePolicyConfig addresses; assertAccountsExist ms.

Definition decodePostExecutionAssertions (data : option (list Z)) : result js_exn (option val) := decodeAccount data getPostExecutionAssertionsDecoder.
Definition fetchMaybePostExecutionAssertions (address : string) : result js_exn (option val) :=
  data ← fetchEncodedAccount address; decodePostExecutionAssertions data.
Definition fetchPostExecutionAssertions (address : string) : result js_exn val :=
  m ← fetchMaybePostExecutionAssertions address; assertAccountExists m.
Definition fetchAllMaybePostExecutionAssertions (addresses : list string) : result js_exn (list (option val)) :=
  ds ← fetchEncodedAccounts addresses; mapM decodePostExecutionAssertions ds.
Definition fetchAllPostExecutionAssertions (addresses : list string) : result js_exn (list val) :=
  ms ← fetchAllMaybePostExecutionAssertions addresses; assertAccountsExist ms.

Definition decodeSessionAuthority (data : option (list Z)) : result js_exn (option val) := decodeAccount data getSessionAuthorityDecoder.
Definition fetchMaybeSessionAuthority (address : string) : result js_exn (option val) :=
  data ← fetchEncodedAccount address; decodeSessionAuthority data.
Definition fetchSessionAuthority (address : string) : result js_exn val :=
  m ← fetchMaybeSessionAuthority address; assertAccountExists m.
Definition fetchAllMaybeSessionAuthority (addresses : list string) : result js_exn (list (option val)) :=
  ds ← fetchEncodedAccounts addresses; mapM decodeSessionAuthority ds.
Definition fetchAllSessionAuthority (addresses : list string) : result js_exn (list val) :=
  ms ← fetchAllMaybeSessionAuthority addresses; assertAccountsExist ms.

Definition decodeSpendTracker (data : option (list Z)) : result js_exn (option val) := decodeAccount data getSpendTrackerDecoder.
Definition fetchMaybeSpendTracker (address : string) : result js_exn (option val) :=
  data ← fetchEncodedAccount address; decodeSpendTracker data.
Definition fetchSpendTracker (address : string) : result js_exn val :=
  m ← fetchMaybeSpendTracker address; assertAccountExists m.
Definition fetchAllMaybeSpendTracker (addresses : list string) : result js_exn (list (option val)) :=
  ds ← fetchEncodedAccounts addresses; mapM decodeSpendTracker ds.
Definition fetchAllSpendTracker (addresses : list string) : result js_exn (list val) :=
  ms ← fetchAllMaybeSpendTracker addresses; assertAccountsExist ms.
End Fetch.

(** ** The accounts of [programs/sigil.ts] *)

Inductive SigilAccount : Type :=
| AgentSpendOverlayAccount
| AgentVaultAccount
| AuditLogRejectedAccount
| AuditLogSuccessAccount
| PendingAgentGrantAccount
| PendingAgentPermissionsUpdateAccount
| PendingOwnershipTransferAccount
| PendingPolicyUpdateAccount
| PolicyConfigAccount
| PostExecutionAssertionsAccount
| SessionAuthorityAccount
| SpendTrackerAccount.

(** The tests of [identifySigilAccount], in their order. *)
Definition account_tests : list (list Z * SigilAccount) := [
  ([126; 248; 13; 218; 101; 148; 135; 44]%Z, AgentSpendOverlayAccount);
  ([232; 220; 237; 164; 157; 9; 215; 194]%Z, AgentVaultAccount);
  ([211; 117; 26; 31; 160; 74; 242; 204]%Z, AuditLogRejectedAccount);
  ([225; 112; 129; 30; 0; 111; 84; 75]%Z, AuditLogSuccessAccount);
  ([164; 188; 119; 39; 18; 133; 78; 66]%Z, PendingAgentGrantAccount);
  ([137; 132; 60; 184; 171; 184; 194; 56]%Z, PendingAgentPermissionsUpdateAccount);
  ([205; 223; 35; 217; 245; 217; 152; 38]%Z, PendingOwnershipTransferAccount);
  ([77; 255; 2; 51; 79; 237; 183; 239]%Z, PendingPolicyUpdateAccount);
  ([219; 7; 79; 84; 175; 51; 148; 146]%Z, PolicyConfigAccount);
  ([1; 104; 4; 208; 143; 120; 4; 77]%Z, PostExecutionAssertionsAccount);
  ([48; 9; 30; 120; 134; 35; 172; 170]%Z, SessionAuthorityAccount);
  ([180; 17; 195; 180; 162; 207; 239; 205]%Z, SpendTrackerAccount)].

Definition account_encoder (a : SigilAccount) : TaggedEncoder :=
  match a with
  | AgentSpendOverlayAccount => getAgentSpendOverlayEncoder
  | AgentVaultAccount => getAgentVaultEncoder
  | AuditLogRejectedAccount => getAuditLogRejectedEncoder
  | AuditLogSuccessAccount => getAuditLogSuccessEncoder
  | PendingAgentGrantAccount => getPendingAgentGrantEncoder
  | PendingAgentPermissionsUpdateAccount => getPendingAgentPermissionsUpdateEncoder
  | PendingOwnershipTransferAccount => getPendingOwnershipTransferEncoder
  | PendingPolicyUpdateAccount => getPendingPolicyUpdateEncoder
  | PolicyConfigAccount => getPolicyConfigEncoder
  | PostExecutionAssertionsAccount => getPostExecutionAssertionsEncoder
  | SessionAuthorityAccount => getSessionAuthorityEncoder
  | SpendTrackerAccount => getSpendTrackerEncoder
  end.

Definition account_decoder (a : SigilAccount) : list (string * codec) :=
  match a with
  | AgentSpendOverlayAccount => getAgentSpendOverlayDecoder
  | AgentVaultAccount => getAgentVaultDecoder
  | AuditLogRejectedAccount => getAuditLogRejectedDecoder
  | AuditLogSuccessAccount => getAuditLogSuccessDecoder
  | PendingAgentGrantAccount => getPendingAgentGrantDecoder
  | PendingAgentPermissionsUpdateAccount => getPendingAgentPermissionsUpdateDecoder
  | PendingOwnershipTransferAccount => getPendingOwnershipTransferDecoder
  | PendingPolicyUpdateAccount => getPendingPolicyUpdateDecoder
  | PolicyConfigAccount => getPolicyConfigDecoder
  | PostExecutionAssertionsAccount => getPostExecutionAssertionsDecoder
  | SessionAuthorityAccount => getSessionAuthorityDecoder
  | SpendTrackerAccount => getSpendTrackerDecoder
  end.

Definition account_fetch `{Kit} `{ChainReader} (a : SigilAccount) : string → result js_exn val :=
  match a with
  | AgentSpendOverlayAccount => fetchAgentSpendOverlay
  | AgentVaultAccount => fetchAgentVault
  | AuditLogRejectedAccount => fetchAuditLogRejected
  | AuditLogSuccessAccount => fetchAuditLogSuccess
  | PendingAgentGrantAccount => fetchPendingAgentGrant
  | PendingAgentPermissionsUpdateAccount => fetchPendingAgentPermissionsUpdate
  | PendingOwnershipTransferAccount => fetchPendingOwnershipTransfer
  | PendingPolicyUpdateAccount => fetchPendingPolicyUpdate
  | PolicyConfigAccount => fetchPolicyConfig
  | PostExecutionAssertionsAccount => fetchPostExecutionAssertions
  | SessionAuthorityAccount => fetchSessionAuthority
  | SpendTrackerAccount => fetchSpendTracker
  end.

Definition account_fetch_all `{Kit} `{ChainReader} (a : SigilAccount) : list string → result js_exn (list val) :=
  match a with
  | AgentSpendOverlayAccount => fetchAllAgentSpendOverlay
  | AgentVaultAccount => fetchAllAgentVault
  | AuditLogRejectedAccount => fetchAllAuditLogRejected
  | AuditLogSuccessAccount => fetchAllAuditLogSuccess
  | PendingAgentGrantAccount => fetchAllPendingAgentGrant
  | PendingAgentPermissionsUpdateAccount => fetchAllPendingAgentPermissionsUpdate
  | PendingOwnershipTransferAccount => fetchAllPendingOwnershipTransfer
  | PendingPolicyUpdateAccount => fetchAllPendingPolicyUpdate
  | PolicyConfigAccount => fetchAllPolicyConfig
  | PostExecutionAssertionsAccount => fetchAllPostExecutionAssertions
  | SessionAuthorityAccount => fetchAllSessionAuthority
  | SpendTrackerAccount => fetchAllSpendTracker
  end.

(** [get...Size], for the accounts whose size is fixed. *)
Definition account_size (a : SigilAccount) : option nat :=
  match a with
  | AgentSpendOverlayAccount => Some getAgentSpendOverlaySize
  | AuditLogRejectedAccount => Some getAuditLogRejectedSize
  | AuditLogSuccessAccount => Some getAuditLogSuccessSize
  | PendingAgentGrantAccount => Some getPendingAgentGrantSize
  | PendingAgentPermissionsUpdateAccount => Some getPendingAgentPermissionsUpdateSize
  | PendingOwnershipTransferAccount => Some getPendingOwnershipTransferSize
  | PostExecutionAssertionsAccount => Some getPostExecutionAssertionsSize
  | SessionAuthorityAccount => Some getSessionAuthoritySize
  | SpendTrackerAccount => Some getSpendTrackerSize
  | _ => None
  end.

Definition all_accounts : list SigilAccount := [
  AgentSpendOverlayAccount; AgentVaultAccount; AuditLogRejectedAccount; AuditLogSuccessAccount;
  PendingAgentGrantAccount; PendingAgentPermissionsUpdateAccount; PendingOwnershipTransferAccount;
  PendingPolicyUpdateAccount; PolicyConfigAccount; PostExecutionAssertionsAccount;
  SessionAuthorityAccount; SpendTrackerAccount].

Definition FAILED_TO_IDENTIFY_ACCOUNT : js_exn :=
  SdkDomainError "SOLANA_ERROR__PROGRAM_CLIENTS__FAILED_TO_IDENTIFY_ACCOUNT".

Definition identifySigilAccount `{Kit} `{ClientCore} (data : list Z) : result js_exn SigilAccount :=
  identify account_tests FAILED_TO_IDENTIFY_ACCOUNT data.

(** ** What the tables give *)

Lemma account_codecs_agree a : data_agrees (account_encoder a) (account_decoder a) = true.
Proof. destruct a; vm_compute; reflexivity. Qed.

Lemma account_tests_ok : tests_ok account_tests = true.
Proof. vm_compute. reflexivity. Qed.

Lemma account_tests_in a : (te_discriminator (account_encoder a), a) ∈ account_tests.
Proof. apply list_elem_of_In. destruct a; vm_compute; tauto. Qed.

Lemma account_sizes a n : account_size a = Some n → fixed_size (CStruct (account_decoder a)) = Some n.
Proof. destruct a; intros [= <-]; vm_compute; reflexivity. Qed.

Lemma type_codecs_agree :
  Forall (λ t, codec_eqb t.1.2 t.2 && wf t.2 = true) type_codecs.
Proof. repeat (apply Forall_cons; split; [vm_compute; reflexivity|]). apply Forall_nil_2. Qed.

Section Accounts.
Context `{K : Kit} `{C : ClientCore} `{!LawfulKit K, !LawfulCore K C}.

(** The fields of an account without its discriminator. *)
Definition account_value (a : SigilAccount) (v : list (string * val)) : Prop :=
  typed (CStruct (tail (te_struct (account_encoder a)))) (VObject v) = true.

(** An account comes back.  Whatever the kind of the account and the values
    of its fields, its encoder writes bytes that [identifySigilAccount] gives
    back as that kind, that its decoder reads back field by field behind the
    discriminator, and that are as many as the size function of the kind says
    where it has one. *)
Theorem accounts_read_back (a : SigilAccount) (v : list (string * val)) :
  account_value a v →
  ∃ bs, encode_tagged (account_encoder a) v = Ok bs ∧
    identifySigilAccount bs = Ok a ∧
    kit_decode (CStruct (account_decoder a)) bs =
      Ok (VObject (("discriminator", VBytes (te_discriminator (account_encoder a))) :: v)) ∧
    (∀ n, account_size a = Some n → length bs = n).
Proof.
  intros Hv.
  destruct (tagged_roundtrip _ _ _ (account_codecs_agree a) Hv) as (bs & He & Ht & Hd & Hs).
  exists bs. split; [done|split; [|split; [done|]]].
  - apply (identify_tag _ _ _ _ _ account_tests_ok (account_tests_in a) Ht).
  - intros n Hn. by apply Hs, account_sizes.
Qed.

(** Bytes that start with none of the twelve discriminators are refused. *)
Lemma other_bytes_are_no_account data :
  take 8 data ∉ account_tests.*1 → identifySigilAccount data = Throw FAILED_TO_IDENTIFY_ACCOUNT.
Proof. apply identify_unknown, account_tests_ok. Qed.

(** Every type and event reads back what its encoder writes. *)
Lemma types_read_back name e d v :
  (name, e, d) ∈ type_codecs → typed e v = true →
  ∃ bs, kit_encode e v = Ok bs ∧ kit_decode d bs = Ok v.
Proof.
  intros Hin Hv. pose proof (proj1 (Forall_forall _ _) type_codecs_agree _ Hin) as H. cbn in H.
  apply andb_true_iff in H as [->%codec_eqb_eq Hw].
  destruct (codec_reads_back _ _ Hw Hv) as (bs & Hb & Hr & _). exists bs. split; [done|].
  unfold kit_decode. specialize (Hr []). rewrite app_nil_r in Hr. by rewrite Hr.
Qed.

(** What the chain stores, and that both requests show it, the second for many
    addresses at once and in their order. *)
Class LawfulReader (R : ChainReader) (stored : string → option (list Z)) : Prop := {
  law_fetch : ∀ address, fetchEncodedAccount address = Ok (stored address);
  law_fetch_all : ∀ addresses, fetchEncodedAccounts addresses = Ok (stored <$> addresses);
}.

Context `{R : ChainReader} (stored : string → option (list Z)) `{!LawfulReader R stored}.

Lemma fetch_is_decode a address :
  account_fetch a address =
    match stored address with
    | None => Throw ACCOUNT_NOT_FOUND
    | Some bs => kit_decode (CStruct (account_decoder a)) bs
    end.
Proof.
  transitivity (m ← (data ← fetchEncodedAccount address; decodeAccount data (account_decoder a));
                assertAccountExists m); [by destruct a|].
  rewrite law_fetch. cbn. destruct (stored address) as [bs|]; [|done]. cbn.
  by destruct (kit_decode _ bs).
Qed.

Lemma fetch_all_shape a addresses :
  account_fetch_all a addresses =
    (ms ← (ds ← fetchEncodedAccounts addresses; mapM (λ d, decodeAccount d (account_decoder a)) ds);
     assertAccountsExist ms).
Proof. by destruct a. Qed.

Lemma decode_stored a addresses vs :
  Forall2 (λ address v, account_fetch a address = Ok v) addresses vs →
  mapM (λ d, decodeAccount d (account_decoder a)) (stored <$> addresses) = Ok (Some <$> vs).
Proof.
  intros Hall. apply mapM_Ok_iff. induction Hall as [|address v addresses vs Hv _ IH]; cbn; [done|].
  constructor; [|done]. rewrite fetch_is_decode in Hv. destruct (stored address) as [bs|]; [|done].
  cbn. by rewrite Hv.
Qed.

Lemma mapM_id_some {A} (l : list A) : mapM id (Some <$> l) = Some l.
Proof. apply mapM_Some. induction l; by constructor. Qed.

(** Many accounts at once are the accounts one by one; one that is missing makes
    the whole request fail. *)
Lemma fetch_all_is_each a addresses vs :
  Forall2 (λ address v, account_fetch a address = Ok v) addresses vs →
  account_fetch_all a addresses = Ok vs.
Proof.
  intros Hall. rewrite fetch_all_shape, law_fetch_all. cbn [mbind result_bind].
  rewrite (decode_stored a _ _ Hall). cbn [mbind result_bind]. unfold assertAccountsExist.
  by rewrite mapM_id_some.
Qed.

(** An account that was written is fetched as it was written. *)
Lemma written_accounts_are_fetched a v bs address :
  account_value a v → encode_tagged (account_encoder a) v = Ok bs → stored address = Some bs →
  account_fetch a address =
    Ok (VObject (("discriminator", VBytes (te_discriminator (account_encoder a))) :: v)).
Proof.
  intros Hv He Hs. rewrite fetch_is_decode, Hs.
  destruct (tagged_roundtrip _ _ _ (account_codecs_agree a) Hv) as (bs' & He' & _ & Hd & _).
  rewrite He in He'. by injection He' as <-.
Qed.
End Accounts.

(** ** Witness *)

(** An address of 32 characters. *)
Definition demo_address : string := "vault-address-of-32-characters-A".

Definition demo_grant : list (string * val) := [
  ("vault", VAddress demo_address); ("agent", VAddress demo_address); ("capability", VInt 2%Z);
  ("spendingLimitUsd", VInt 500000000%Z); ("queuedAt", VInt 1700000000%Z); ("minDelaySeconds", VInt 3600%Z);
  ("bump", VInt 254%Z); ("padding", VBytes (replicate 6 0%Z)); ("pendingContentDigest", VBytes (replicate 32 7%Z));
  ("queuedAtSlot", VInt 250000000%Z)].

Lemma accounts_read_back_witness :
  account_value PendingAgentGrantAccount demo_grant ∧
  ∃ bs, encode_tagged (account_encoder PendingAgentGrantAccount) demo_grant = Ok bs ∧
    identifySigilAccount bs = Ok PendingAgentGrantAccount ∧ length bs = 144%nat.
Proof.
  assert (Hv : account_value PendingAgentGrantAccount demo_grant) by (vm_compute; reflexivity).
  split; [exact Hv|].
  destruct (accounts_read_back PendingAgentGrantAccount demo_grant Hv) as (bs & He & Hi & _ & Hs).
  exists bs. split; [exact He|split; [exact Hi|]]. apply Hs. vm_compute. reflexivity.
Defined.
