(* ===== verification/GeneratedInstructions.v ===== *)
(** * The instructions of the generated client

    The tables of [sdk/kit/src/generated/instructions]: for each instruction its
    discriminator, the encoder and the decoder of its data, the two input types,
    the two builders and the parser, read by the functions of [ProgramClient]. *)
From S2P Require Import Prelude KitCodec ProgramClient GeneratedTypes.

(** ** [acceptOwnershipTransfer] *)

Definition ACCEPT_OWNERSHIP_TRANSFER_DISCRIMINATOR : list Z := [30; 187; 65; 5; 93; 131; 38; 208]%Z.

Definition getAcceptOwnershipTransferInstructionDataEncoder : TaggedEncoder := {|
  te_struct := [
    ("discriminator", fixEncoderSize 8)];
  te_discriminator := ACCEPT_OWNERSHIP_TRANSFER_DISCRIMINATOR;
|}.

Definition getAcceptOwnershipTransferInstructionDataDecoder : list (string * codec) := [
  ("discriminator", fixDecoderSize 8)].

Definition AcceptOwnershipTransferAsyncInput : InputType := {|
  it_accounts := [
    ("newOwner", false, true); ("vault", false, false); ("policy", true, false);
    ("pending", true, false); ("auditLogSuccess", true, false); ("slotHashesSysvar", true, false);
    ("systemProgram", true, false)];
  it_args := [];
|}.

Definition AcceptOwnershipTransferInput : InputType := {|
  it_accounts := [
    ("newOwner", false, true); ("vault", false, false); ("policy", false, false);
    ("pending", false, false); ("auditLogSuccess", false, false);
    ("slotHashesSysvar", true, false); ("systemProgram", true, false)];
  it_args := [];
|}.

Definition getAcceptOwnershipTransferInstructionAsync : Builder := {|
  b_accounts := [
    ("newOwner", true); ("vault", true); ("policy", true); ("pending", true);
    ("auditLogSuccess", true); ("slotHashesSysvar", false); ("systemProgram", false)];
  b_defaults := [
    ("policy", DDerived None [
      SBytes [112; 111; 108; 105; 99; 121]%Z; SAccount "vault"]);
    ("pending", DDerived None [
      SBytes [112; 101; 110; 100; 105; 110; 103; 95; 111; 119; 110; 101; 114]%Z; SAccount "vault"]);
    ("auditLogSuccess", DDerived None [
      SBytes [97; 117; 100; 105; 116; 95; 115; 117; 99; 99; 101; 115; 115]%Z; SAccount "vault"]);
    ("slotHashesSysvar", DAddress "SysvarS1otHashes111111111111111111111111111");
    ("systemProgram", DAddress "11111111111111111111111111111111")];
  b_metas := [
    "newOwner"; "vault"; "policy"; "pending"; "auditLogSuccess"; "slotHashesSysvar"; "systemProgram"];
  b_data := getAcceptOwnershipTransferInstructionDataEncoder;
|}.

Definition getAcceptOwnershipTransferInstruction : Builder := {|
  b_accounts := [
    ("newOwner", true); ("vault", true); ("policy", true); ("pending", true);
    ("auditLogSuccess", true); ("slotHashesSysvar", false); ("systemProgram", false)];
  b_defaults := [
    ("slotHashesSysvar", DAddress "SysvarS1otHashes111111111111111111111111111");
    ("systemProgram", DAddress "11111111111111111111111111111111")];
  b_metas := [
    "newOwner"; "vault"; "policy"; "pending"; "auditLogSuccess"; "slotHashesSysvar"; "systemProgram"];
  b_data := getAcceptOwnershipTransferInstructionDataEncoder;
|}.

Definition parseAcceptOwnershipTransferInstruction : Parser := {|
  p_expected := 7;
  p_accounts := [
    ("newOwner", false); ("vault", false); ("policy", false); ("pending", false);
    ("auditLogSuccess", false); ("slotHashesSysvar", false); ("systemProgram", false)];
  p_data := getAcceptOwnershipTransferInstructionDataDecoder;
|}.

(** ** [acceptOwnershipTransferMultisig] *)

Definition ACCEPT_OWNERSHIP_TRANSFER_MULTISIG_DISCRIMINATOR : list Z := [112; 147; 61; 110; 221; 182; 203; 99]%Z.

Definition getAcceptOwnershipTransferMultisigInstructionDataEncoder : TaggedEncoder := {|
  te_struct := [
    ("discriminator", fixEncoderSize 8)];
  te_discriminator := ACCEPT_OWNERSHIP_TRANSFER_MULTISIG_DISCRIMINATOR;
|}.

Definition getAcceptOwnershipTransferMultisigInstructionDataDecoder : list (string * codec) := [
  ("discriminator", fixDecoderSize 8)].

Definition AcceptOwnershipTransferMultisigAsyncInput : InputType := {|
  it_accounts := [
    ("multisigPda", false, false); ("vault", false, false); ("policy", true, false);
    ("pending", true, false); ("auditLogSuccess", true, false); ("slotHashesSysvar", true, false);
    ("systemProgram", true, false)];
  it_args := [];
|}.

Definition AcceptOwnershipTransferMultisigInput : InputType := {|
  it_accounts := [
    ("multisigPda", false, false); ("vault", false, false); ("policy", false, false);
    ("pending", false, false); ("auditLogSuccess", false, false);
    ("slotHashesSysvar", true, false); ("systemProgram", true, false)];
  it_args := [];
|}.

Definition getAcceptOwnershipTransferMultisigInstructionAsync : Builder := {|
  b_accounts := [
    ("multisigPda", true); ("vault", true); ("policy", true); ("pending", true);
    ("auditLogSuccess", true); ("slotHashesSysvar", false); ("systemProgram", false)];
  b_defaults := [
    ("policy", DDerived None [
      SBytes [112; 111; 108; 105; 99; 121]%Z; SAccount "vault"]);
    ("pending", DDerived None [
      SBytes [112; 101; 110; 100; 105; 110; 103; 95; 111; 119; 110; 101; 114]%Z; SAccount "vault"]);
    ("auditLogSuccess", DDerived None [
      SBytes [97; 117; 100; 105; 116; 95; 115; 117; 99; 99; 101; 115; 115]%Z; SAccount "vault"]);
    ("slotHashesSysvar", DAddress "SysvarS1otHashes111111111111111111111111111");
    ("systemProgram", DAddress "11111111111111111111111111111111")];
  b_metas := [
    "multisigPda"; "vault"; "policy"; "pending"; "auditLogSuccess"; "slotHashesSysvar";
    "systemProgram"];
  b_data := getAcceptOwnershipTransferMultisigInstructionDataEncoder;
|}.

Definition getAcceptOwnershipTransferMultisigInstruction : Builder := {|
  b_accounts := [
    ("multisigPda", true); ("vault", true); ("policy", true); ("pending", true);
    ("auditLogSuccess", true); ("slotHashesSysvar", false); ("systemProgram", false)];
  b_defaults := [
    ("slotHashesSysvar", DAddress "SysvarS1otHashes111111111111111111111111111");
    ("systemProgram", DAddress "11111111111111111111111111111111")];
  b_metas := [
    "multisigPda"; "vault"; "policy"; "pending"; "auditLogSuccess"; "slotHashesSysvar";
    "systemProgram"];
  b_data := getAcceptOwnershipTransferMultisigInstructionDataEncoder;
|}.

Definition parseAcceptOwnershipTransferMultisigInstruction : Parser := {|
  p_expected := 7;
  p_accounts := [
    ("multisigPda", false); ("vault", false); ("policy", false); ("pending", false);
    ("auditLogSuccess", false); ("slotHashesSysvar", false); ("systemProgram", false)];
  p_data := getAcceptOwnershipTransferMultisigInstructionDataDecoder;
|}.

(** ** [agentTransfer] *)

Definition AGENT_TRANSFER_DISCRIMINATOR : list Z := [199; 111; 151; 49; 124; 13; 150; 44]%Z.

Definition getAgentTransferInstructionDataEncoder : TaggedEncoder := {|
  te_struct := [
    ("discriminator", fixEncoderSize 8); ("amount", getU64Encoder);
    ("expectedPolicyVersion", getU64Encoder)];
  te_discriminator := AGENT_TRANSFER_DISCRIMINATOR;
|}.

Definition getAgentTransferInstructionDataDecoder : list (string * codec) := [
  ("discriminator", fixDecoderSize 8); ("amount", getU64Decoder);
  ("expectedPolicyVersion", getU64Decoder)].

Definition AgentTransferAsyncInput : InputType := {|
  it_accounts := [
    ("agent", false, true); ("vault", false, false); ("policy", true, false);
    ("tracker", true, false); ("agentSpendOverlay", false, false);
    ("vaultTokenAccount", false, false); ("tokenMintAccount", false, false);
    ("destinationTokenAccount", false, false); ("feeDestinationTokenAccount", true, false);
    ("protocolTreasuryTokenAccount", true, false); ("tokenProgram", true, false);
    ("auditLogSuccess", true, false); ("slotHashesSysvar", true, false)];
  it_args := [
    "amount"; "expectedPolicyVersion"];
|}.

Definition AgentTransferInput : InputType := {|
  it_accounts := [
    ("agent", false, true); ("vault", false, false); ("policy", false, false);
    ("tracker", false, false); ("agentSpendOverlay", false, false);
    ("vaultTokenAccount", false, false); ("tokenMintAccount", false, false);
    ("destinationTokenAccount", false, false); ("feeDestinationTokenAccount", true, false);
    ("protocolTreasuryTokenAccount", true, false); ("tokenProgram", true, false);
    ("auditLogSuccess", false, false); ("slotHashesSysvar", true, false)];
  it_args := [
    "amount"; "expectedPolicyVersion"];
|}.

Definition getAgentTransferInstructionAsync : Builder := {|
  b_accounts := [
    ("agent", true); ("vault", true); ("policy", false); ("tracker", true);
    ("agentSpendOverlay", true); ("vaultTokenAccount", true); ("tokenMintAccount", false);
    ("destinationTokenAccount", true); ("feeDestinationTokenAccount", true);
    ("protocolTreasuryTokenAccount", true); ("tokenProgram", false); ("auditLogSuccess", true);
    ("slotHashesSysvar", false)];
  b_defaults := [
    ("policy", DDerived None [
      SBytes [112; 111; 108; 105; 99; 121]%Z; SAccount "vault"]);
    ("tracker", DDerived None [
      SBytes [116; 114; 97; 99; 107; 101; 114]%Z; SAccount "vault"]);
    ("tokenProgram", DAddress "TokenkegQfeZyiNwAJbNbGKPFXCWuBvf9Ss623VQ5DA");
    ("auditLogSuccess", DDerived None [
      SBytes [97; 117; 100; 105; 116; 95; 115; 117; 99; 99; 101; 115; 115]%Z; SAccount "vault"]);
    ("slotHashesSysvar", DAddress "SysvarS1otHashes111111111111111111111111111")];
  b_metas := [
    "agent"; "vault"; "policy"; "tracker"; "agentSpendOverlay"; "vaultTokenAccount";
    "tokenMintAccount"; "destinationTokenAccount"; "feeDestinationTokenAccount";
    "protocolTreasuryTokenAccount"; "tokenProgram"; "auditLogSuccess"; "slotHashesSysvar"];
  b_data := getAgentTransferInstructionDataEncoder;
|}.

Definition getAgentTransferInstruction : Builder := {|
  b_accounts := [
    ("agent", true); ("vault", true); ("policy", false); ("tracker", true);
    ("agentSpendOverlay", true); ("vaultTokenAccount", true); ("tokenMintAccount", false);
    ("destinationTokenAccount", true); ("feeDestinationTokenAccount", true);
    ("protocolTreasuryTokenAccount", true); ("tokenProgram", false); ("auditLogSuccess", true);
    ("slotHashesSysvar", false)];
  b_defaults := [
    ("tokenProgram", DAddress "TokenkegQfeZyiNwAJbNbGKPFXCWuBvf9Ss623VQ5DA");
    ("slotHashesSysvar", DAddress "SysvarS1otHashes111111111111111111111111111")];
  b_metas := [
    "agent"; "vault"; "policy"; "tracker"; "agentSpendOverlay"; "vaultTokenAccount";
    "tokenMintAccount"; "destinationTokenAccount"; "feeDestinationTokenAccount";
    "protocolTreasuryTokenAccount"; "tokenProgram"; "auditLogSuccess"; "slotHashesSysvar"];
  b_data := getAgentTransferInstructionDataEncoder;
|}.

Definition parseAgentTransferInstruction : Parser := {|
  p_expected := 13;
  p_accounts := [
    ("agent", false); ("vault", false); ("policy", false); ("tracker", false);
    ("agentSpendOverlay", false); ("vaultTokenAccount", false); ("tokenMintAccount", false);
    ("destinationTokenAccount", false); ("feeDestinationTokenAccount", true);
    ("protocolTreasuryTokenAccount", true); ("tokenProgram", false); ("auditLogSuccess", false);
    ("slotHashesSysvar", false)];
  p_data := getAgentTransferInstructionDataDecoder;
|}.

(** ** [applyAgentGrant] *)

Definition APPLY_AGENT_GRANT_DISCRIMINATOR : list Z := [236; 230; 108; 143; 155; 71; 185; 87]%Z.

Definition getApplyAgentGrantInstructionDataEncoder : TaggedEncoder := {|
  te_struct := [
    ("discriminator", fixEncoderSize 8)];
  te_discriminator := APPLY_AGENT_GRANT_DISCRIMINATOR;
|}.

Definition getApplyAgentGrantInstructionDataDecoder : list (string * codec) := [
  ("discriminator", fixDecoderSize 8)].

Definition ApplyAgentGrantAsyncInput : InputType := {|
  it_accounts := [
    ("owner", false, true); ("vault", false, false); ("policy", true, false);
    ("pending", true, false); ("agentSpendOverlay", false, false);
    ("auditLogSuccess", true, false); ("slotHashesSysvar", true, false)];
  it_args := [];
|}.

Definition ApplyAgentGrantInput : InputType := {|
  it_accounts := [
    ("owner", false, true); ("vault", false, false); ("policy", false, false);
    ("pending", false, false); ("agentSpendOverlay", false, false);
    ("auditLogSuccess", false, false); ("slotHashesSysvar", true, false)];
  it_args := [];
|}.

Definition getApplyAgentGrantInstructionAsync : Builder := {|
  b_accounts := [
    ("owner", true); ("vault", true); ("policy", true); ("pending", true);
    ("agentSpendOverlay", true); ("auditLogSuccess", true); ("slotHashesSysvar", false)];
  b_defaults := [
    ("policy", DDerived None [
      SBytes [112; 111; 108; 105; 99; 121]%Z; SAccount "vault"]);
    ("pending", DDerived None [
      SBytes [112; 101; 110; 100; 105; 110; 103; 95; 97; 103; 101; 110; 116; 95; 103; 114; 97; 110; 116]%Z;
      SAccount "vault"]);
    ("auditLogSuccess", DDerived None [
      SBytes [97; 117; 100; 105; 116; 95; 115; 117; 99; 99; 101; 115; 115]%Z; SAccount "vault"]);
    ("slotHashesSysvar", DAddress "SysvarS1otHashes111111111111111111111111111")];
  b_metas := [
    "owner"; "vault"; "policy"; "pending"; "agentSpendOverlay"; "auditLogSuccess";
    "slotHashesSysvar"];
  b_data := getApplyAgentGrantInstructionDataEncoder;
|}.

Definition getApplyAgentGrantInstruction : Builder := {|
  b_accounts := [
    ("owner", true); ("vault", true); ("policy", true); ("pending", true);
    ("agentSpendOverlay", true); ("auditLogSuccess", true); ("slotHashesSysvar", false)];
  b_defaults := [
    ("slotHashesSysvar", DAddress "SysvarS1otHashes111111111111111111111111111")];
  b_metas := [
    "owner"; "vault"; "policy"; "pending"; "agentSpendOverlay"; "auditLogSuccess";
    "slotHashesSysvar"];
  b_data := getApplyAgentGrantInstructionDataEncoder;
|}.

Definition parseApplyAgentGrantInstruction : Parser := {|
  p_expected := 7;
  p_accounts := [
    ("owner", false); ("vault", false); ("policy", false); ("pending", false);
    ("agentSpendOverlay", false); ("auditLogSuccess", false); ("slotHashesSysvar", false)];
  p_data := getApplyAgentGrantInstructionDataDecoder;
|}.

(** ** [applyAgentPermissionsUpdate] *)

Definition APPLY_AGENT_PERMISSIONS_UPDATE_DISCRIMINATOR : list Z := [234; 166; 205; 3; 28; 166; 221; 240]%Z.

Definition getApplyAgentPermissionsUpdateInstructionDataEncoder : TaggedEncoder := {|
  te_struct := [
    ("discriminator", fixEncoderSize 8)];
  te_discriminator := APPLY_AGENT_PERMISSIONS_UPDATE_DISCRIMINATOR;
|}.

Definition getApplyAgentPermissionsUpdateInstructionDataDecoder : list (string * codec) := [
  ("discriminator", fixDecoderSize 8)].

Definition ApplyAgentPermissionsUpdateAsyncInput : InputType := {|
  it_accounts := [
    ("owner", false, true); ("vault", false, false); ("policy", true, false);
    ("pendingAgentPerms", false, false); ("agentSpendOverlay", false, false);
    ("auditLogSuccess", true, false); ("slotHashesSysvar", true, false)];
  it_args := [];
|}.

Definition ApplyAgentPermissionsUpdateInput : InputType := {|
  it_accounts := [
    ("owner", false, true); ("vault", false, false); ("policy", false, false);
    ("pendingAgentPerms", false, false); ("agentSpendOverlay", false, false);
    ("auditLogSuccess", false, false); ("slotHashesSysvar", true, false)];
  it_args := [];
|}.

Definition getApplyAgentPermissionsUpdateInstructionAsync : Builder := {|
  b_accounts := [
    ("owner", true); ("vault", true); ("policy", true); ("pendingAgentPerms", true);
    ("agentSpendOverlay", true); ("auditLogSuccess", true); ("slotHashesSysvar", false)];
  b_defaults := [
    ("policy", DDerived None [
      SBytes [112; 111; 108; 105; 99; 121]%Z; SAccount "vault"]);
    ("auditLogSuccess", DDerived None [
      SBytes [97; 117; 100; 105; 116; 95; 115; 117; 99; 99; 101; 115; 115]%Z; SAccount "vault"]);
    ("slotHashesSysvar", DAddress "SysvarS1otHashes111111111111111111111111111")];
  b_metas := [
    "owner"; "vault"; "policy"; "pendingAgentPerms"; "agentSpendOverlay"; "auditLogSuccess";
    "slotHashesSysvar"];
  b_data := getApplyAgentPermissionsUpdateInstructionDataEncoder;
|}.

Definition getApplyAgentPermissionsUpdateInstruction : Builder := {|
  b_accounts := [
    ("owner", true); ("vault", true); ("policy", true); ("pendingAgentPerms", true);
    ("agentSpendOverlay", true); ("auditLogSuccess", true); ("slotHashesSysvar", false)];
  b_defaults := [
    ("slotHashesSysvar", DAddress "SysvarS1otHashes111111111111111111111111111")];
  b_metas := [
    "owner"; "vault"; "policy"; "pendingAgentPerms"; "agentSpendOverlay"; "auditLogSuccess";
    "slotHashesSysvar"];
  b_data := getApplyAgentPermissionsUpdateInstructionDataEncoder;
|}.

Definition parseApplyAgentPermissionsUpdateInstruction : Parser := {|
  p_expected := 7;
  p_accounts := [
    ("owner", false); ("vault", false); ("policy", false); ("pendingAgentPerms", false);
    ("agentSpendOverlay", false); ("auditLogSuccess", false); ("slotHashesSysvar", false)];
  p_data := getApplyAgentPermissionsUpdateInstructionDataDecoder;
|}.

(** ** [applyPendingPolicy] *)

Definition APPLY_PENDING_POLICY_DISCRIMINATOR : list Z := [114; 212; 19; 227; 89; 199; 74; 62]%Z.

Definition getApplyPendingPolicyInstructionDataEncoder : TaggedEncoder := {|
  te_struct := [
    ("discriminator", fixEncoderSize 8)];
  te_discriminator := APPLY_PENDING_POLICY_DISCRIMINATOR;
|}.

Definition getApplyPendingPolicyInstructionDataDecoder : list (string * codec) := [
  ("discriminator", fixDecoderSize 8)].

Definition ApplyPendingPolicyAsyncInput : InputType := {|
  it_accounts := [
    ("owner", false, true); ("vault", false, false); ("policy", true, false);
    ("pendingPolicy", true, false); ("auditLogSuccess", true, false);
    ("slotHashesSysvar", true, false); ("systemProgram", true, false)];
  it_args := [];
|}.

Definition ApplyPendingPolicyInput : InputType := {|
  it_accounts := [
    ("owner", false, true); ("vault", false, false); ("policy", false, false);
    ("pendingPolicy", false, false); ("auditLogSuccess", false, false);
    ("slotHashesSysvar", true, false); ("systemProgram", true, false)];
  it_args := [];
|}.

Definition getApplyPendingPolicyInstructionAsync : Builder := {|
  b_accounts := [
    ("owner", true); ("vault", false); ("policy", true); ("pendingPolicy", true);
    ("auditLogSuccess", true); ("slotHashesSysvar", false); ("systemProgram", false)];
  b_defaults := [
    ("policy", DDerived None [
      SBytes [112; 111; 108; 105; 99; 121]%Z; SAccount "vault"]);
    ("pendingPolicy", DDerived None [
      SBytes [112; 101; 110; 100; 105; 110; 103; 95; 112; 111; 108; 105; 99; 121]%Z;
      SAccount "vault"]);
    ("auditLogSuccess", DDerived None [
      SBytes [97; 117; 100; 105; 116; 95; 115; 117; 99; 99; 101; 115; 115]%Z; SAccount "vault"]);
    ("slotHashesSysvar", DAddress "SysvarS1otHashes111111111111111111111111111");
    ("systemProgram", DAddress "11111111111111111111111111111111")];
  b_metas := [
    "owner"; "vault"; "policy"; "pendingPolicy"; "auditLogSuccess"; "slotHashesSysvar";
    "systemProgram"];
  b_data := getApplyPendingPolicyInstructionDataEncoder;
|}.

Definition getApplyPendingPolicyInstruction : Builder := {|
  b_accounts := [
    ("owner", true); ("vault", false); ("policy", true); ("pendingPolicy", true);
    ("auditLogSuccess", true); ("slotHashesSysvar", false); ("systemProgram", false)];
  b_defaults := [
    ("slotHashesSysvar", DAddress "SysvarS1otHashes111111111111111111111111111");
    ("systemProgram", DAddress "11111111111111111111111111111111")];
  b_metas := [
    "owner"; "vault"; "policy"; "pendingPolicy"; "auditLogSuccess"; "slotHashesSysvar";
    "systemProgram"];
  b_data := getApplyPendingPolicyInstructionDataEncoder;
|}.

Definition parseApplyPendingPolicyInstruction : Parser := {|
  p_expected := 7;
  p_accounts := [
    ("owner", false); ("vault", false); ("policy", false); ("pendingPolicy", false);
    ("auditLogSuccess", false); ("slotHashesSysvar", false); ("systemProgram", false)];
  p_data := getApplyPendingPolicyInstructionDataDecoder;
|}.

(** ** [approvePendingPolicy] *)

Definition APPROVE_PENDING_POLICY_DISCRIMINATOR : list Z := [151; 218; 153; 6; 155; 67; 8; 200]%Z.

Definition getApprovePendingPolicyInstructionDataEncoder : TaggedEncoder := {|
  te_struct := [
    ("discriminator", fixEncoderSize 8)];
  te_discriminator := APPROVE_PENDING_POLICY_DISCRIMINATOR;
|}.

Definition getApprovePendingPolicyInstructionDataDecoder : list (string * codec) := [
  ("discriminator", fixDecoderSize 8)].

Definition ApprovePendingPolicyAsyncInput : InputType := {|
  it_accounts := [
    ("cosigner", false, true); ("vault", false, false); ("policy", true, false);
    ("pendingPolicy", true, false)];
  it_args := [];
|}.

Definition ApprovePendingPolicyInput : InputType := {|
  it_accounts := [
    ("cosigner", false, true); ("vault", false, false); ("policy", false, false);
    ("pendingPolicy", false, false)];
  it_args := [];
|}.

Definition getApprovePendingPolicyInstructionAsync : Builder := {|
  b_accounts := [
    ("cosigner", false); ("vault", false); ("policy", false); ("pendingPolicy", true)];
  b_defaults := [
    ("policy", DDerived None [
      SBytes [112; 111; 108; 105; 99; 121]%Z; SAccount "vault"]);
    ("pendingPolicy", DDerived None [
      SBytes [112; 101; 110; 100; 105; 110; 103; 95; 112; 111; 108; 105; 99; 121]%Z;
      SAccount "vault"])];
  b_metas := [
    "cosigner"; "vault"; "policy"; "pendingPolicy"];
  b_data := getApprovePendingPolicyInstructionDataEncoder;
|}.

Definition getApprovePendingPolicyInstruction : Builder := {|
  b_accounts := [
    ("cosigner", false); ("vault", false); ("policy", false); ("pendingPolicy", true)];
  b_defaults := [];
  b_metas := [
    "cosigner"; "vault"; "policy"; "pendingPolicy"];
  b_data := getApprovePendingPolicyInstructionDataEncoder;
|}.

Definition parseApprovePendingPolicyInstruction : Parser := {|
  p_expected := 4;
  p_accounts := [
    ("cosigner", false); ("vault", false); ("policy", false); ("pendingPolicy", false)];
  p_data := getApprovePendingPolicyInstructionDataDecoder;
|}.

(** ** [cancelAgentGrant] *)

Definition CANCEL_AGENT_GRANT_DISCRIMINATOR : list Z := [193; 182; 191; 195; 80; 150; 140; 196]%Z.

Definition getCancelAgentGrantInstructionDataEncoder : TaggedEncoder := {|
  te_struct := [
    ("discriminator", fixEncoderSize 8)];
  te_discriminator := CANCEL_AGENT_GRANT_DISCRIMINATOR;
|}.

Definition getCancelAgentGrantInstructionDataDecoder : list (string * codec) := [
  ("discriminator", fixDecoderSize 8)].

Definition CancelAgentGrantAsyncInput : InputType := {|
  it_accounts := [
    ("owner", false, true); ("vault", false, false); ("policy", true, false);
    ("pending", true, false); ("auditLogSuccess", true, false); ("slotHashesSysvar", true, false);
    ("systemProgram", true, false)];
  it_args := [];
|}.

Definition CancelAgentGrantInput : InputType := {|
  it_accounts := [
    ("owner", false, true); ("vault", false, false); ("policy", false, false);
    ("pending", false, false); ("auditLogSuccess", false, false);
    ("slotHashesSysvar", true, false); ("systemProgram", true, false)];
  it_args := [];
|}.

Definition getCancelAgentGrantInstructionAsync : Builder := {|
  b_accounts := [
    ("owner", true); ("vault", false); ("policy", false); ("pending", true);
    ("auditLogSuccess", true); ("slotHashesSysvar", false); ("systemProgram", false)];
  b_defaults := [
    ("policy", DDerived None [
      SBytes [112; 111; 108; 105; 99; 121]%Z; SAccount "vault"]);
    ("pending", DDerived None [
      SBytes [112; 101; 110; 100; 105; 110; 103; 95; 97; 103; 101; 110; 116; 95; 103; 114; 97; 110; 116]%Z;
      SAccount "vault"]);
    ("auditLogSuccess", DDerived None [
      SBytes [97; 117; 100; 105; 116; 95; 115; 117; 99; 99; 101; 115; 115]%Z; SAccount "vault"]);
    ("slotHashesSysvar", DAddress "SysvarS1otHashes111111111111111111111111111");
    ("systemProgram", DAddress "11111111111111111111111111111111")];
  b_metas := [
    "owner"; "vault"; "policy"; "pending"; "auditLogSuccess"; "slotHashesSysvar"; "systemProgram"];
  b_data := getCancelAgentGrantInstructionDataEncoder;
|}.

Definition getCancelAgentGrantInstruction : Builder := {|
  b_accounts := [
    ("owner", true); ("vault", false); ("policy", false); ("pending", true);
    ("auditLogSuccess", true); ("slotHashesSysvar", false); ("systemProgram", false)];
  b_defaults := [
    ("slotHashesSysvar", DAddress "SysvarS1otHashes111111111111111111111111111");
    ("systemProgram", DAddress "11111111111111111111111111111111")];
  b_metas := [
    "owner"; "vault"; "policy"; "pending"; "auditLogSuccess"; "slotHashesSysvar"; "systemProgram"];
  b_data := getCancelAgentGrantInstructionDataEncoder;
|}.

Definition parseCancelAgentGrantInstruction : Parser := {|
  p_expected := 7;
  p_accounts := [
    ("owner", false); ("vault", false); ("policy", false); ("pending", false);
    ("auditLogSuccess", false); ("slotHashesSysvar", false); ("systemProgram", false)];
  p_data := getCancelAgentGrantInstructionDataDecoder;
|}.

(** ** [cancelAgentPermissionsUpdate] *)

Definition CANCEL_AGENT_PERMISSIONS_UPDATE_DISCRIMINATOR : list Z := [92; 232; 92; 115; 110; 238; 235; 55]%Z.

Definition getCancelAgentPermissionsUpdateInstructionDataEncoder : TaggedEncoder := {|
  te_struct := [
    ("discriminator", fixEncoderSize 8)];
  te_discriminator := CANCEL_AGENT_PERMISSIONS_UPDATE_DISCRIMINATOR;
|}.

Definition getCancelAgentPermissionsUpdateInstructionDataDecoder : list (string * codec) := [
  ("discriminator", fixDecoderSize 8)].

Definition CancelAgentPermissionsUpdateAsyncInput : InputType := {|
  it_accounts := [
    ("owner", false, true); ("vault", false, false); ("policy", true, false);
    ("pendingAgentPerms", false, false)];
  it_args := [];
|}.

Definition CancelAgentPermissionsUpdateInput : InputType := {|
  it_accounts := [
    ("owner", false, true); ("vault", false, false); ("policy", false, false);
    ("pendingAgentPerms", false, false)];
  it_args := [];
|}.

Definition getCancelAgentPermissionsUpdateInstructionAsync : Builder := {|
  b_accounts := [
    ("owner", true); ("vault", false); ("policy", false); ("pendingAgentPerms", true)];
  b_defaults := [
    ("policy", DDerived None [
      SBytes [112; 111; 108; 105; 99; 121]%Z; SAccount "vault"])];
  b_metas := [
    "owner"; "vault"; "policy"; "pendingAgentPerms"];
  b_data := getCancelAgentPermissionsUpdateInstructionDataEncoder;
|}.

Definition getCancelAgentPermissionsUpdateInstruction : Builder := {|
  b_accounts := [
    ("owner", true); ("vault", false); ("policy", false); ("pendingAgentPerms", true)];
  b_defaults := [];
  b_metas := [
    "owner"; "vault"; "policy"; "pendingAgentPerms"];
  b_data := getCancelAgentPermissionsUpdateInstructionDataEncoder;
|}.

Definition parseCancelAgentPermissionsUpdateInstruction : Parser := {|
  p_expected := 4;
  p_accounts := [
    ("owner", false); ("vault", false); ("policy", false); ("pendingAgentPerms", false)];
  p_data := getCancelAgentPermissionsUpdateInstructionDataDecoder;
|}.

(** ** [cancelOwnershipTransfer] *)

Definition CANCEL_OWNERSHIP_TRANSFER_DISCRIMINATOR : list Z := [2; 184; 195; 105; 138; 142; 154; 75]%Z.

Definition getCancelOwnershipTransferInstructionDataEncoder : TaggedEncoder := {|
  te_struct := [
    ("discriminator", fixEncoderSize 8)];
  te_discriminator := CANCEL_OWNERSHIP_TRANSFER_DISCRIMINATOR;
|}.

Definition getCancelOwnershipTransferInstructionDataDecoder : list (string * codec) := [
  ("discriminator", fixDecoderSize 8)].

Definition CancelOwnershipTransferAsyncInput : InputType := {|
  it_accounts := [
    ("currentOwner", false, true); ("vault", false, false); ("policy", true, false);
    ("pending", true, false); ("auditLogSuccess", true, false); ("slotHashesSysvar", true, false);
    ("systemProgram", true, false)];
  it_args := [];
|}.

Definition CancelOwnershipTransferInput : InputType := {|
  it_accounts := [
    ("currentOwner", false, true); ("vault", false, false); ("policy", false, false);
    ("pending", false, false); ("auditLogSuccess", false, false);
    ("slotHashesSysvar", true, false); ("systemProgram", true, false)];
  it_args := [];
|}.

Definition getCancelOwnershipTransferInstructionAsync : Builder := {|
  b_accounts := [
    ("currentOwner", true); ("vault", false); ("policy", false); ("pending", true);
    ("auditLogSuccess", true); ("slotHashesSysvar", false); ("systemProgram", false)];
  b_defaults := [
    ("policy", DDerived None [
      SBytes [112; 111; 108; 105; 99; 121]%Z; SAccount "vault"]);
    ("pending", DDerived None [
      SBytes [112; 101; 110; 100; 105; 110; 103; 95; 111; 119; 110; 101; 114]%Z; SAccount "vault"]);
    ("auditLogSuccess", DDerived None [
      SBytes [97; 117; 100; 105; 116; 95; 115; 117; 99; 99; 101; 115; 115]%Z; SAccount "vault"]);
    ("slotHashesSysvar", DAddress "SysvarS1otHashes111111111111111111111111111");
    ("systemProgram", DAddress "11111111111111111111111111111111")];
  b_metas := [
    "currentOwner"; "vault"; "policy"; "pending"; "auditLogSuccess"; "slotHashesSysvar";
    "systemProgram"];
  b_data := getCancelOwnershipTransferInstructionDataEncoder;
|}.

Definition getCancelOwnershipTransferInstruction : Builder := {|
  b_accounts := [
    ("currentOwner", true); ("vault", false); ("policy", false); ("pending", true);
    ("auditLogSuccess", true); ("slotHashesSysvar", false); ("systemProgram", false)];
  b_defaults := [
    ("slotHashesSysvar", DAddress "SysvarS1otHashes111111111111111111111111111");
    ("systemProgram", DAddress "11111111111111111111111111111111")];
  b_metas := [
    "currentOwner"; "vault"; "policy"; "pending"; "auditLogSuccess"; "slotHashesSysvar";
    "systemProgram"];
  b_data := getCancelOwnershipTransferInstructionDataEncoder;
|}.

Definition parseCancelOwnershipTransferInstruction : Parser := {|
  p_expected := 7;
  p_accounts := [
    ("currentOwner", false); ("vault", false); ("policy", false); ("pending", false);
    ("auditLogSuccess", false); ("slotHashesSysvar", false); ("systemProgram", false)];
  p_data := getCancelOwnershipTransferInstructionDataDecoder;
|}.

(** ** [cancelPendingPolicy] *)

Definition CANCEL_PENDING_POLICY_DISCRIMINATOR : list Z := [153; 36; 104; 200; 50; 94; 207; 33]%Z.

Definition getCancelPendingPolicyInstructionDataEncoder : TaggedEncoder := {|
  te_struct := [
    ("discriminator", fixEncoderSize 8)];
  te_discriminator := CANCEL_PENDING_POLICY_DISCRIMINATOR;
|}.

Definition getCancelPendingPolicyInstructionDataDecoder : list (string * codec) := [
  ("discriminator", fixDecoderSize 8)].

Definition CancelPendingPolicyAsyncInput : InputType := {|
  it_accounts := [
    ("owner", false, true); ("vault", false, false); ("policy", true, false);
    ("pendingPolicy", true, false)];
  it_args := [];
|}.

Definition CancelPendingPolicyInput : InputType := {|
  it_accounts := [
    ("owner", false, true); ("vault", false, false); ("policy", false, false);
    ("pendingPolicy", false, false)];
  it_args := [];
|}.

Definition getCancelPendingPolicyInstructionAsync : Builder := {|
  b_accounts := [
    ("owner", true); ("vault", false); ("policy", true); ("pendingPolicy", true)];
  b_defaults := [
    ("policy", DDerived None [
      SBytes [112; 111; 108; 105; 99; 121]%Z; SAccount "vault"]);
    ("pendingPolicy", DDerived None [
      SBytes [112; 101; 110; 100; 105; 110; 103; 95; 112; 111; 108; 105; 99; 121]%Z;
      SAccount "vault"])];
  b_metas := [
    "owner"; "vault"; "policy"; "pendingPolicy"];
  b_data := getCancelPendingPolicyInstructionDataEncoder;
|}.

Definition getCancelPendingPolicyInstruction : Builder := {|
  b_accounts := [
    ("owner", true); ("vault", false); ("policy", true); ("pendingPolicy", true)];
  b_defaults := [];
  b_metas := [
    "owner"; "vault"; "policy"; "pendingPolicy"];
  b_data := getCancelPendingPolicyInstructionDataEncoder;
|}.

Definition parseCancelPendingPolicyInstruction : Parser := {|
  p_expected := 4;
  p_accounts := [
    ("owner", false); ("vault", false); ("policy", false); ("pendingPolicy", false)];
  p_data := getCancelPendingPolicyInstructionDataDecoder;
|}.

(** ** [closePostAssertions] *)

Definition CLOSE_POST_ASSERTIONS_DISCRIMINATOR : list Z := [226; 172; 252; 173; 29; 236; 59; 248]%Z.

Definition getClosePostAssertionsInstructionDataEncoder : TaggedEncoder := {|
  te_struct := [
    ("discriminator", fixEncoderSize 8); ("expectedDigest", fixEncoderSize 32)];
  te_discriminator := CLOSE_POST_ASSERTIONS_DISCRIMINATOR;
|}.

Definition getClosePostAssertionsInstructionDataDecoder : list (string * codec) := [
  ("discriminator", fixDecoderSize 8); ("expectedDigest", fixDecoderSize 32)].

Definition ClosePostAssertionsAsyncInput : InputType := {|
  it_accounts := [
    ("owner", false, true); ("vault", false, false); ("policy", true, false);
    ("postAssertions", true, false); ("systemProgram", true, false)];
  it_args := [
    "expectedDigest"];
|}.

Definition ClosePostAssertionsInput : InputType := {|
  it_accounts := [
    ("owner", false, true); ("vault", false, false); ("policy", false, false);
    ("postAssertions", false, false); ("systemProgram", true, false)];
  it_args := [
    "expectedDigest"];
|}.

Definition getClosePostAssertionsInstructionAsync : Builder := {|
  b_accounts := [
    ("owner", true); ("vault", true); ("policy", true); ("postAssertions", true);
    ("systemProgram", false)];
  b_defaults := [
    ("policy", DDerived None [
      SBytes [112; 111; 108; 105; 99; 121]%Z; SAccount "vault"]);
    ("postAssertions", DDerived None [
      SBytes [112; 111; 115; 116; 95; 97; 115; 115; 101; 114; 116; 105; 111; 110; 115]%Z;
      SAccount "vault"]);
    ("systemProgram", DAddress "11111111111111111111111111111111")];
  b_metas := [
    "owner"; "vault"; "policy"; "postAssertions"; "systemProgram"];
  b_data := getClosePostAssertionsInstructionDataEncoder;
|}.

Definition getClosePostAssertionsInstruction : Builder := {|
  b_accounts := [
    ("owner", true); ("vault", true); ("policy", true); ("postAssertions", true);
    ("systemProgram", false)];
  b_defaults := [
    ("systemProgram", DAddress "11111111111111111111111111111111")];
  b_metas := [
    "owner"; "vault"; "policy"; "postAssertions"; "systemProgram"];
  b_data := getClosePostAssertionsInstructionDataEncoder;
|}.

Definition parseClosePostAssertionsInstruction : Parser := {|
  p_expected := 5;
  p_accounts := [
    ("owner", false); ("vault", false); ("policy", false); ("postAssertions", false);
    ("systemProgram", false)];
  p_data := getClosePostAssertionsInstructionDataDecoder;
|}.

(** ** [closeVault] *)

Definition CLOSE_VAULT_DISCRIMINATOR : list Z := [141; 103; 17; 126; 72; 75; 29; 29]%Z.

Definition getCloseVaultInstructionDataEncoder : TaggedEncoder := {|
  te_struct := [
    ("discriminator", fixEncoderSize 8)];
  te_discriminator := CLOSE_VAULT_DISCRIMINATOR;
|}.

Definition getCloseVaultInstructionDataDecoder : list (string * codec) := [
  ("discriminator", fixDecoderSize 8)].

Definition CloseVaultAsyncInput : InputType := {|
  it_accounts := [
    ("owner", false, true); ("vault", false, false); ("policy", true, false);
    ("tracker", true, false); ("agentSpendOverlay", false, false);
    ("auditLogSuccess", true, false); ("auditLogRejected", true, false);
    ("systemProgram", true, false)];
  it_args := [];
|}.

Definition CloseVaultInput : InputType := {|
  it_accounts := [
    ("owner", false, true); ("vault", false, false); ("policy", false, false);
    ("tracker", false, false); ("agentSpendOverlay", false, false);
    ("auditLogSuccess", false, false); ("auditLogRejected", false, false);
    ("systemProgram", true, false)];
  it_args := [];
|}.

Definition getCloseVaultInstructionAsync : Builder := {|
  b_accounts := [
    ("owner", true); ("vault", true); ("policy", true); ("tracker", true);
    ("agentSpendOverlay", true); ("auditLogSuccess", true); ("auditLogRejected", true);
    ("systemProgram", false)];
  b_defaults := [
    ("policy", DDerived None [
      SBytes [112; 111; 108; 105; 99; 121]%Z; SAccount "vault"]);
    ("tracker", DDerived None [
      SBytes [116; 114; 97; 99; 107; 101; 114]%Z; SAccount "vault"]);
    ("auditLogSuccess", DDerived None [
      SBytes [97; 117; 100; 105; 116; 95; 115; 117; 99; 99; 101; 115; 115]%Z; SAccount "vault"]);
    ("auditLogRejected", DDerived None [
      SBytes [97; 117; 100; 105; 116; 95; 114; 101; 106; 101; 99; 116; 101; 100]%Z; SAccount "vault"]);
    ("systemProgram", DAddress "11111111111111111111111111111111")];
  b_metas := [
    "owner"; "vault"; "policy"; "tracker"; "agentSpendOverlay"; "auditLogSuccess";
    "auditLogRejected"; "systemProgram"];
  b_data := getCloseVaultInstructionDataEncoder;
|}.

Definition getCloseVaultInstruction : Builder := {|
  b_accounts := [
    ("owner", true); ("vault", true); ("policy", true); ("tracker", true);
    ("agentSpendOverlay", true); ("auditLogSuccess", true); ("auditLogRejected", true);
    ("systemProgram", false)];
  b_defaults := [
    ("systemProgram", DAddress "11111111111111111111111111111111")];
  b_metas := [
    "owner"; "vault"; "policy"; "tracker"; "agentSpendOverlay"; "auditLogSuccess";
    "auditLogRejected"; "systemProgram"];
  b_data := getCloseVaultInstructionDataEncoder;
|}.

Definition parseCloseVaultInstruction : Parser := {|
  p_expected := 8;
  p_accounts := [
    ("owner", false); ("vault", false); ("policy", false); ("tracker", false);
    ("agentSpendOverlay", false); ("auditLogSuccess", false); ("auditLogRejected", false);
    ("systemProgram", false)];
  p_data := getCloseVaultInstructionDataDecoder;
|}.

(** ** [createPostAssertions] *)

Definition CREATE_POST_ASSERTIONS_DISCRIMINATOR : list Z := [204; 21; 218; 182; 202; 140; 239; 63]%Z.

Definition getCreatePostAssertionsInstructionDataEncoder : TaggedEncoder := {|
  te_struct := [
    ("discriminator", fixEncoderSize 8);
    ("entries", getArrayEncoder None getPostAssertionEntryEncoder);
    ("expectedDigest", fixEncoderSize 32)];
  te_discriminator := CREATE_POST_ASSERTIONS_DISCRIMINATOR;
|}.

Definition getCreatePostAssertionsInstructionDataDecoder : list (string * codec) := [
  ("discriminator", fixDecoderSize 8);
  ("entries", getArrayDecoder None getPostAssertionEntryDecoder);
  ("expectedDigest", fixDecoderSize 32)].

Definition CreatePostAssertionsAsyncInput : InputType := {|
  it_accounts := [
    ("owner", false, true); ("vault", false, false); ("policy", true, false);
    ("postAssertions", true, false); ("systemProgram", true, false)];
  it_args := [
    "entries"; "expectedDigest"];
|}.

Definition CreatePostAssertionsInput : InputType := {|
  it_accounts := [
    ("owner", false, true); ("vault", false, false); ("policy", false, false);
    ("postAssertions", false, false); ("systemProgram", true, false)];
  it_args := [
    "entries"; "expectedDigest"];
|}.

Definition getCreatePostAssertionsInstructionAsync : Builder := {|
  b_accounts := [
    ("owner", true); ("vault", true); ("policy", true); ("postAssertions", true);
    ("systemProgram", false)];
  b_defaults := [
    ("policy", DDerived None [
      SBytes [112; 111; 108; 105; 99; 121]%Z; SAccount "vault"]);
    ("postAssertions", DDerived None [
      SBytes [112; 111; 115; 116; 95; 97; 115; 115; 101; 114; 116; 105; 111; 110; 115]%Z;
      SAccount "vault"]);
    ("systemProgram", DAddress "11111111111111111111111111111111")];
  b_metas := [
    "owner"; "vault"; "policy"; "postAssertions"; "systemProgram"];
  b_data := getCreatePostAssertionsInstructionDataEncoder;
|}.

Definition getCreatePostAssertionsInstruction : Builder := {|
  b_accounts := [
    ("owner", true); ("vault", true); ("policy", true); ("postAssertions", true);
    ("systemProgram", false)];
  b_defaults := [
    ("systemProgram", DAddress "11111111111111111111111111111111")];
  b_metas := [
    "owner"; "vault"; "policy"; "postAssertions"; "systemProgram"];
  b_data := getCreatePostAssertionsInstructionDataEncoder;
|}.

Definition parseCreatePostAssertionsInstruction : Parser := {|
  p_expected := 5;
  p_accounts := [
    ("owner", false); ("vault", false); ("policy", false); ("postAssertions", false);
    ("systemProgram", false)];
  p_data := getCreatePostAssertionsInstructionDataDecoder;
|}.

(** ** [depositFunds] *)

Definition DEPOSIT_FUNDS_DISCRIMINATOR : list Z := [202; 39; 52; 211; 53; 20; 250; 88]%Z.

Definition getDepositFundsInstructionDataEncoder : TaggedEncoder := {|
  te_struct := [
    ("discriminator", fixEncoderSize 8); ("amount", getU64Encoder)];
  te_discriminator := DEPOSIT_FUNDS_DISCRIMINATOR;
|}.

Definition getDepositFundsInstructionDataDecoder : list (string * codec) := [
  ("discriminator", fixDecoderSize 8); ("amount", getU64Decoder)].

Definition DepositFundsAsyncInput : InputType := {|
  it_accounts := [
    ("owner", false, true); ("vault", false, false); ("mint", false, false);
    ("ownerTokenAccount", true, false); ("vaultTokenAccount", true, false);
    ("auditLogSuccess", true, false); ("slotHashesSysvar", true, false);
    ("tokenProgram", true, false); ("associatedTokenProgram", true, false);
    ("systemProgram", true, false)];
  it_args := [
    "amount"];
|}.

Definition DepositFundsInput : InputType := {|
  it_accounts := [
    ("owner", false, true); ("vault", false, false); ("mint", false, false);
    ("ownerTokenAccount", false, false); ("vaultTokenAccount", false, false);
    ("auditLogSuccess", false, false); ("slotHashesSysvar", true, false);
    ("tokenProgram", true, false); ("associatedTokenProgram", true, false);
    ("systemProgram", true, false)];
  it_args := [
    "amount"];
|}.

Definition getDepositFundsInstructionAsync : Builder := {|
  b_accounts := [
    ("owner", true); ("vault", true); ("mint", false); ("ownerTokenAccount", true);
    ("vaultTokenAccount", true); ("auditLogSuccess", true); ("slotHashesSysvar", false);
    ("tokenProgram", false); ("associatedTokenProgram", false); ("systemProgram", false)];
  b_defaults := [
    ("ownerTokenAccount", DDerived (Some "ATokenGPvbdGVxr1b2hvZbsiqW5xWH25efTNsLJA8knL") [
      SAccount "owner";
      SBytes [6; 221; 246; 225; 215; 101; 161; 147; 217; 203; 225; 70; 206; 235; 121; 172; 28; 180; 133; 237; 95; 91; 55; 145; 58; 140; 245; 133; 126; 255; 0; 169]%Z;
      SAccount "mint"]);
    ("vaultTokenAccount", DDerived (Some "ATokenGPvbdGVxr1b2hvZbsiqW5xWH25efTNsLJA8knL") [
      SAccount "vault";
      SBytes [6; 221; 246; 225; 215; 101; 161; 147; 217; 203; 225; 70; 206; 235; 121; 172; 28; 180; 133; 237; 95; 91; 55; 145; 58; 140; 245; 133; 126; 255; 0; 169]%Z;
      SAccount "mint"]);
    ("auditLogSuccess", DDerived None [
      SBytes [97; 117; 100; 105; 116; 95; 115; 117; 99; 99; 101; 115; 115]%Z; SAccount "vault"]);
    ("slotHashesSysvar", DAddress "SysvarS1otHashes111111111111111111111111111");
    ("tokenProgram", DAddress "TokenkegQfeZyiNwAJbNbGKPFXCWuBvf9Ss623VQ5DA");
    ("associatedTokenProgram", DAddress "ATokenGPvbdGVxr1b2hvZbsiqW5xWH25efTNsLJA8knL");
    ("systemProgram", DAddress "11111111111111111111111111111111")];
  b_metas := [
    "owner"; "vault"; "mint"; "ownerTokenAccount"; "vaultTokenAccount"; "auditLogSuccess";
    "slotHashesSysvar"; "tokenProgram"; "associatedTokenProgram"; "systemProgram"];
  b_data := getDepositFundsInstructionDataEncoder;
|}.

Definition getDepositFundsInstruction : Builder := {|
  b_accounts := [
    ("owner", true); ("vault", true); ("mint", false); ("ownerTokenAccount", true);
    ("vaultTokenAccount", true); ("auditLogSuccess", true); ("slotHashesSysvar", false);
    ("tokenProgram", false); ("associatedTokenProgram", false); ("systemProgram", false)];
  b_defaults := [
    ("slotHashesSysvar", DAddress "SysvarS1otHashes111111111111111111111111111");
    ("tokenProgram", DAddress "TokenkegQfeZyiNwAJbNbGKPFXCWuBvf9Ss623VQ5DA");
    ("associatedTokenProgram", DAddress "ATokenGPvbdGVxr1b2hvZbsiqW5xWH25efTNsLJA8knL");
    ("systemProgram", DAddress "11111111111111111111111111111111")];
  b_metas := [
    "owner"; "vault"; "mint"; "ownerTokenAccount"; "vaultTokenAccount"; "auditLogSuccess";
    "slotHashesSysvar"; "tokenProgram"; "associatedTokenProgram"; "systemProgram"];
  b_data := getDepositFundsInstructionDataEncoder;
|}.

Definition parseDepositFundsInstruction : Parser := {|
  p_expected := 10;
  p_accounts := [
    ("owner", false); ("vault", false); ("mint", false); ("ownerTokenAccount", false);
    ("vaultTokenAccount", false); ("auditLogSuccess", false); ("slotHashesSysvar", false);
    ("tokenProgram", false); ("associatedTokenProgram", false); ("systemProgram", false)];
  p_data := getDepositFundsInstructionDataDecoder;
|}.

(** ** [finalizeSession] *)

Definition FINALIZE_SESSION_DISCRIMINATOR : list Z := [34; 148; 144; 47; 37; 130; 206; 161]%Z.

Definition getFinalizeSessionInstructionDataEncoder : TaggedEncoder := {|
  te_struct := [
    ("discriminator", fixEncoderSize 8)];
  te_discriminator := FINALIZE_SESSION_DISCRIMINATOR;
|}.

Definition getFinalizeSessionInstructionDataDecoder : list (string * codec) := [
  ("discriminator", fixDecoderSize 8)].

Definition FinalizeSessionAsyncInput : InputType := {|
  it_accounts := [
    ("payer", false, true); ("vault", false, false); ("session", false, false);
    ("sessionRentRecipient", false, false); ("policy", true, false); ("tracker", true, false);
    ("agentSpendOverlay", false, false); ("vaultTokenAccount", true, false);
    ("outputStablecoinAccount", true, false); ("outputSwapAccount", true, false);
    ("protocolTreasuryTokenAccount", true, false); ("feeDestinationTokenAccount", true, false);
    ("tokenProgram", true, false); ("systemProgram", true, false);
    ("instructionsSysvar", true, false); ("auditLogSuccess", true, false);
    ("auditLogRejected", true, false); ("slotHashesSysvar", true, false)];
  it_args := [];
|}.

Definition FinalizeSessionInput : InputType := {|
  it_accounts := [
    ("payer", false, true); ("vault", false, false); ("session", false, false);
    ("sessionRentRecipient", false, false); ("policy", false, false); ("tracker", false, false);
    ("agentSpendOverlay", false, false); ("vaultTokenAccount", true, false);
    ("outputStablecoinAccount", true, false); ("outputSwapAccount", true, false);
    ("protocolTreasuryTokenAccount", true, false); ("feeDestinationTokenAccount", true, false);
    ("tokenProgram", true, false); ("systemProgram", true, false);
    ("instructionsSysvar", true, false); ("auditLogSuccess", false, false);
    ("auditLogRejected", false, false); ("slotHashesSysvar", true, false)];
  it_args := [];
|}.

Definition getFinalizeSessionInstructionAsync : Builder := {|
  b_accounts := [
    ("payer", true); ("vault", true); ("session", true); ("sessionRentRecipient", true);
    ("policy", false); ("tracker", true); ("agentSpendOverlay", true); ("vaultTokenAccount", true);
    ("outputStablecoinAccount", true); ("outputSwapAccount", true);
    ("protocolTreasuryTokenAccount", true); ("feeDestinationTokenAccount", true);
    ("tokenProgram", false); ("systemProgram", false); ("instructionsSysvar", false);
    ("auditLogSuccess", true); ("auditLogRejected", true); ("slotHashesSysvar", false)];
  b_defaults := [
    ("policy", DDerived None [
      SBytes [112; 111; 108; 105; 99; 121]%Z; SAccount "vault"]);
    ("tracker", DDerived None [
      SBytes [116; 114; 97; 99; 107; 101; 114]%Z; SAccount "vault"]);
    ("tokenProgram", DAddress "TokenkegQfeZyiNwAJbNbGKPFXCWuBvf9Ss623VQ5DA");
    ("systemProgram", DAddress "11111111111111111111111111111111");
    ("instructionsSysvar", DAddress "Sysvar1nstructions1111111111111111111111111");
    ("auditLogSuccess", DDerived None [
      SBytes [97; 117; 100; 105; 116; 95; 115; 117; 99; 99; 101; 115; 115]%Z; SAccount "vault"]);
    ("auditLogRejected", DDerived None [
      SBytes [97; 117; 100; 105; 116; 95; 114; 101; 106; 101; 99; 116; 101; 100]%Z; SAccount "vault"]);
    ("slotHashesSysvar", DAddress "SysvarS1otHashes111111111111111111111111111")];
  b_metas := [
    "payer"; "vault"; "session"; "sessionRentRecipient"; "policy"; "tracker"; "agentSpendOverlay";
    "vaultTokenAccount"; "outputStablecoinAccount"; "outputSwapAccount";
    "protocolTreasuryTokenAccount"; "feeDestinationTokenAccount"; "tokenProgram"; "systemProgram";
    "instructionsSysvar"; "auditLogSuccess"; "auditLogRejected"; "slotHashesSysvar"];
  b_data := getFinalizeSessionInstructionDataEncoder;
|}.

Definition getFinalizeSessionInstruction : Builder := {|
  b_accounts := [
    ("payer", true); ("vault", true); ("session", true); ("sessionRentRecipient", true);
    ("policy", false); ("tracker", true); ("agentSpendOverlay", true); ("vaultTokenAccount", true);
    ("outputStablecoinAccount", true); ("outputSwapAccount", true);
    ("protocolTreasuryTokenAccount", true); ("feeDestinationTokenAccount", true);
    ("tokenProgram", false); ("systemProgram", false); ("instructionsSysvar", false);
    ("auditLogSuccess", true); ("auditLogRejected", true); ("slotHashesSysvar", false)];
  b_defaults := [
    ("tokenProgram", DAddress "TokenkegQfeZyiNwAJbNbGKPFXCWuBvf9Ss623VQ5DA");
    ("systemProgram", DAddress "11111111111111111111111111111111");
    ("instructionsSysvar", DAddress "Sysvar1nstructions1111111111111111111111111");
    ("slotHashesSysvar", DAddress "SysvarS1otHashes111111111111111111111111111")];
  b_metas := [
    "payer"; "vault"; "session"; "sessionRentRecipient"; "policy"; "tracker"; "agentSpendOverlay";
    "vaultTokenAccount"; "outputStablecoinAccount"; "outputSwapAccount";
    "protocolTreasuryTokenAccount"; "feeDestinationTokenAccount"; "tokenProgram"; "systemProgram";
    "instructionsSysvar"; "auditLogSuccess"; "auditLogRejected"; "slotHashesSysvar"];
  b_data := getFinalizeSessionInstructionDataEncoder;
|}.

Definition parseFinalizeSessionInstruction : Parser := {|
  p_expected := 18;
  p_accounts := [
    ("payer", false); ("vault", false); ("session", false); ("sessionRentRecipient", false);
    ("policy", false); ("tracker", false); ("agentSpendOverlay", false);
    ("vaultTokenAccount", true); ("outputStablecoinAccount", true); ("outputSwapAccount", true);
    ("protocolTreasuryTokenAccount", true); ("feeDestinationTokenAccount", true);
    ("tokenProgram", false); ("systemProgram", false); ("instructionsSysvar", false);
    ("auditLogSuccess", false); ("auditLogRejected", false); ("slotHashesSysvar", false)];
  p_data := getFinalizeSessionInstructionDataDecoder;
|}.

(** ** [freezeVault] *)

Definition FREEZE_VAULT_DISCRIMINATOR : list Z := [144; 211; 63; 236; 97; 31; 170; 175]%Z.

Definition getFreezeVaultInstructionDataEncoder : TaggedEncoder := {|
  te_struct := [
    ("discriminator", fixEncoderSize 8)];
  te_discriminator := FREEZE_VAULT_DISCRIMINATOR;
|}.

Definition getFreezeVaultInstructionDataDecoder : list (string * codec) := [
  ("discriminator", fixDecoderSize 8)].

Definition FreezeVaultAsyncInput : InputType := {|
  it_accounts := [
    ("owner", false, true); ("vault", false, false); ("auditLogSuccess", true, false);
    ("slotHashesSysvar", true, false); ("tokenProgram", true, false)];
  it_args := [];
|}.

Definition FreezeVaultInput : InputType := {|
  it_accounts := [
    ("owner", false, true); ("vault", false, false); ("auditLogSuccess", false, false);
    ("slotHashesSysvar", true, false); ("tokenProgram", true, false)];
  it_args := [];
|}.

Definition getFreezeVaultInstructionAsync : Builder := {|
  b_accounts := [
    ("owner", false); ("vault", true); ("auditLogSuccess", true); ("slotHashesSysvar", false);
    ("tokenProgram", false)];
  b_defaults := [
    ("auditLogSuccess", DDerived None [
      SBytes [97; 117; 100; 105; 116; 95; 115; 117; 99; 99; 101; 115; 115]%Z; SAccount "vault"]);
    ("slotHashesSysvar", DAddress "SysvarS1otHashes111111111111111111111111111");
    ("tokenProgram", DAddress "TokenkegQfeZyiNwAJbNbGKPFXCWuBvf9Ss623VQ5DA")];
  b_metas := [
    "owner"; "vault"; "auditLogSuccess"; "slotHashesSysvar"; "tokenProgram"];
  b_data := getFreezeVaultInstructionDataEncoder;
|}.

Definition getFreezeVaultInstruction : Builder := {|
  b_accounts := [
    ("owner", false); ("vault", true); ("auditLogSuccess", true); ("slotHashesSysvar", false);
    ("tokenProgram", false)];
  b_defaults := [
    ("slotHashesSysvar", DAddress "SysvarS1otHashes111111111111111111111111111");
    ("tokenProgram", DAddress "TokenkegQfeZyiNwAJbNbGKPFXCWuBvf9Ss623VQ5DA")];
  b_metas := [
    "owner"; "vault"; "auditLogSuccess"; "slotHashesSysvar"; "tokenProgram"];
  b_data := getFreezeVaultInstructionDataEncoder;
|}.

Definition parseFreezeVaultInstruction : Parser := {|
  p_expected := 5;
  p_accounts := [
    ("owner", false); ("vault", false); ("auditLogSuccess", false); ("slotHashesSysvar", false);
    ("tokenProgram", false)];
  p_data := getFreezeVaultInstructionDataDecoder;
|}.

(** ** [initializeVault] *)

Definition INITIALIZE_VAULT_DISCRIMINATOR : list Z := [48; 191; 163; 44; 71; 129; 63; 164]%Z.

Definition getInitializeVaultInstructionDataEncoder : TaggedEncoder := {|
  te_struct := [
    ("discriminator", fixEncoderSize 8); ("vaultId", getU64Encoder);
    ("dailySpendingCapUsd", getU64Encoder); ("maxTransactionSizeUsd", getU64Encoder);
    ("protocolMode", getU8Encoder); ("protocols", getArrayEncoder None getAddressEncoder);
    ("developerFeeRate", getU16Encoder); ("maxSlippageBps", getU16Encoder);
    ("timelockDuration", getU64Encoder);
    ("allowedDestinations", getArrayEncoder None getAddressEncoder);
    ("protocolCaps", getArrayEncoder None getU64Encoder); ("observeOnly", getBooleanEncoder);
    ("operatingHours", getU32Encoder); ("autoPromoteGrays", getBooleanEncoder);
    ("autoRevokeThreshold", getU8Encoder); ("stableBalanceFloor", getU64Encoder);
    ("perRecipientDailyCapUsd", getU64Encoder); ("cosignRequired", getBooleanEncoder);
    ("previewDigest", fixEncoderSize 32)];
  te_discriminator := INITIALIZE_VAULT_DISCRIMINATOR;
|}.

Definition getInitializeVaultInstructionDataDecoder : list (string * codec) := [
  ("discriminator", fixDecoderSize 8); ("vaultId", getU64Decoder);
  ("dailySpendingCapUsd", getU64Decoder); ("maxTransactionSizeUsd", getU64Decoder);
  ("protocolMode", getU8Decoder); ("protocols", getArrayDecoder None getAddressDecoder);
  ("developerFeeRate", getU16Decoder); ("maxSlippageBps", getU16Decoder);
  ("timelockDuration", getU64Decoder);
  ("allowedDestinations", getArrayDecoder None getAddressDecoder);
  ("protocolCaps", getArrayDecoder None getU64Decoder); ("observeOnly", getBooleanDecoder);
  ("operatingHours", getU32Decoder); ("autoPromoteGrays", getBooleanDecoder);
  ("autoRevokeThreshold", getU8Decoder); ("stableBalanceFloor", getU64Decoder);
  ("perRecipientDailyCapUsd", getU64Decoder); ("cosignRequired", getBooleanDecoder);
  ("previewDigest", fixDecoderSize 32)].

Definition InitializeVaultAsyncInput : InputType := {|
  it_accounts := [
    ("owner", false, true); ("vault", true, false); ("policy", true, false);
    ("tracker", true, false); ("agentSpendOverlay", false, false);
    ("auditLogSuccess", true, false); ("auditLogRejected", true, false);
    ("feeDestination", false, false); ("systemProgram", true, false)];
  it_args := [
    "vaultId"; "dailySpendingCapUsd"; "maxTransactionSizeUsd"; "protocolMode"; "protocols";
    "developerFeeRate"; "maxSlippageBps"; "timelockDuration"; "allowedDestinations";
    "protocolCaps"; "observeOnly"; "operatingHours"; "autoPromoteGrays"; "autoRevokeThreshold";
    "stableBalanceFloor"; "perRecipientDailyCapUsd"; "cosignRequired"; "previewDigest"];
|}.

Definition InitializeVaultInput : InputType := {|
  it_accounts := [
    ("owner", false, true); ("vault", false, false); ("policy", false, false);
    ("tracker", false, false); ("agentSpendOverlay", false, false);
    ("auditLogSuccess", false, false); ("auditLogRejected", false, false);
    ("feeDestination", false, false); ("systemProgram", true, false)];
  it_args := [
    "vaultId"; "dailySpendingCapUsd"; "maxTransactionSizeUsd"; "protocolMode"; "protocols";
    "developerFeeRate"; "maxSlippageBps"; "timelockDuration"; "allowedDestinations";
    "protocolCaps"; "observeOnly"; "operatingHours"; "autoPromoteGrays"; "autoRevokeThreshold";
    "stableBalanceFloor"; "perRecipientDailyCapUsd"; "cosignRequired"; "previewDigest"];
|}.

Definition getInitializeVaultInstructionAsync : Builder := {|
  b_accounts := [
    ("owner", true); ("vault", true); ("policy", true); ("tracker", true);
    ("agentSpendOverlay", true); ("auditLogSuccess", true); ("auditLogRejected", true);
    ("feeDestination", false); ("systemProgram", false)];
  b_defaults := [
    ("vault", DDerived None [
      SBytes [118; 97; 117; 108; 116]%Z; SAccount "owner"; SArg "vaultId" getU64Encoder]);
    ("policy", DDerived None [
      SBytes [112; 111; 108; 105; 99; 121]%Z; SAccount "vault"]);
    ("tracker", DDerived None [
      SBytes [116; 114; 97; 99; 107; 101; 114]%Z; SAccount "vault"]);
    ("auditLogSuccess", DDerived None [
      SBytes [97; 117; 100; 105; 116; 95; 115; 117; 99; 99; 101; 115; 115]%Z; SAccount "vault"]);
    ("auditLogRejected", DDerived None [
      SBytes [97; 117; 100; 105; 116; 95; 114; 101; 106; 101; 99; 116; 101; 100]%Z; SAccount "vault"]);
    ("systemProgram", DAddress "11111111111111111111111111111111")];
  b_metas := [
    "owner"; "vault"; "policy"; "tracker"; "agentSpendOverlay"; "auditLogSuccess";
    "auditLogRejected"; "feeDestination"; "systemProgram"];
  b_data := getInitializeVaultInstructionDataEncoder;
|}.

Definition getInitializeVaultInstruction : Builder := {|
  b_accounts := [
    ("owner", true); ("vault", true); ("policy", true); ("tracker", true);
    ("agentSpendOverlay", true); ("auditLogSuccess", true); ("auditLogRejected", true);
    ("feeDestination", false); ("systemProgram", false)];
  b_defaults := [
    ("systemProgram", DAddress "11111111111111111111111111111111")];
  b_metas := [
    "owner"; "vault"; "policy"; "tracker"; "agentSpendOverlay"; "auditLogSuccess";
    "auditLogRejected"; "feeDestination"; "systemProgram"];
  b_data := getInitializeVaultInstructionDataEncoder;
|}.

Definition parseInitializeVaultInstruction : Parser := {|
  p_expected := 9;
  p_accounts := [
    ("owner", false); ("vault", false); ("policy", false); ("tracker", false);
    ("agentSpendOverlay", false); ("auditLogSuccess", false); ("auditLogRejected", false);
    ("feeDestination", false); ("systemProgram", false)];
  p_data := getInitializeVaultInstructionDataDecoder;
|}.

(** ** [initiateOwnershipTransfer] *)

Definition INITIATE_OWNERSHIP_TRANSFER_DISCRIMINATOR : list Z := [22; 108; 197; 103; 223; 145; 132; 65]%Z.

Definition getInitiateOwnershipTransferInstructionDataEncoder : TaggedEncoder := {|
  te_struct := [
    ("discriminator", fixEncoderSize 8); ("newOwner", getAddressEncoder);
    ("isMultisigTarget", getBooleanEncoder)];
  te_discriminator := INITIATE_OWNERSHIP_TRANSFER_DISCRIMINATOR;
|}.

Definition getInitiateOwnershipTransferInstructionDataDecoder : list (string * codec) := [
  ("discriminator", fixDecoderSize 8); ("newOwner", getAddressDecoder);
  ("isMultisigTarget", getBooleanDecoder)].

Definition InitiateOwnershipTransferAsyncInput : InputType := {|
  it_accounts := [
    ("owner", false, true); ("vault", false, false); ("policy", true, false);
    ("pending", true, false); ("auditLogSuccess", true, false); ("slotHashesSysvar", true, false);
    ("systemProgram", true, false)];
  it_args := [
    "newOwner"; "isMultisigTarget"];
|}.

Definition InitiateOwnershipTransferInput : InputType := {|
  it_accounts := [
    ("owner", false, true); ("vault", false, false); ("policy", false, false);
    ("pending", false, false); ("auditLogSuccess", false, false);
    ("slotHashesSysvar", true, false); ("systemProgram", true, false)];
  it_args := [
    "newOwner"; "isMultisigTarget"];
|}.

Definition getInitiateOwnershipTransferInstructionAsync : Builder := {|
  b_accounts := [
    ("owner", true); ("vault", false); ("policy", false); ("pending", true);
    ("auditLogSuccess", true); ("slotHashesSysvar", false); ("systemProgram", false)];
  b_defaults := [
    ("policy", DDerived None [
      SBytes [112; 111; 108; 105; 99; 121]%Z; SAccount "vault"]);
    ("pending", DDerived None [
      SBytes [112; 101; 110; 100; 105; 110; 103; 95; 111; 119; 110; 101; 114]%Z; SAccount "vault"]);
    ("auditLogSuccess", DDerived None [
      SBytes [97; 117; 100; 105; 116; 95; 115; 117; 99; 99; 101; 115; 115]%Z; SAccount "vault"]);
    ("slotHashesSysvar", DAddress "SysvarS1otHashes111111111111111111111111111");
    ("systemProgram", DAddress "11111111111111111111111111111111")];
  b_metas := [
    "owner"; "vault"; "policy"; "pending"; "auditLogSuccess"; "slotHashesSysvar"; "systemProgram"];
  b_data := getInitiateOwnershipTransferInstructionDataEncoder;
|}.

Definition getInitiateOwnershipTransferInstruction : Builder := {|
  b_accounts := [
    ("owner", true); ("vault", false); ("policy", false); ("pending", true);
    ("auditLogSuccess", true); ("slotHashesSysvar", false); ("systemProgram", false)];
  b_defaults := [
    ("slotHashesSysvar", DAddress "SysvarS1otHashes111111111111111111111111111");
    ("systemProgram", DAddress "11111111111111111111111111111111")];
  b_metas := [
    "owner"; "vault"; "policy"; "pending"; "auditLogSuccess"; "slotHashesSysvar"; "systemProgram"];
  b_data := getInitiateOwnershipTransferInstructionDataEncoder;
|}.

Definition parseInitiateOwnershipTransferInstruction : Parser := {|
  p_expected := 7;
  p_accounts := [
    ("owner", false); ("vault", false); ("policy", false); ("pending", false);
    ("auditLogSuccess", false); ("slotHashesSysvar", false); ("systemProgram", false)];
  p_data := getInitiateOwnershipTransferInstructionDataDecoder;
|}.

(** ** [pauseAgent] *)

Definition PAUSE_AGENT_DISCRIMINATOR : list Z := [148; 32; 1; 26; 147; 122; 178; 140]%Z.

Definition getPauseAgentInstructionDataEncoder : TaggedEncoder := {|
  te_struct := [
    ("discriminator", fixEncoderSize 8); ("agentToPause", getAddressEncoder)];
  te_discriminator := PAUSE_AGENT_DISCRIMINATOR;
|}.

Definition getPauseAgentInstructionDataDecoder : list (string * codec) := [
  ("discriminator", fixDecoderSize 8); ("agentToPause", getAddressDecoder)].

Definition PauseAgentAsyncInput : InputType := {|
  it_accounts := [
    ("owner", false, true); ("vault", false, false); ("policy", true, false);
    ("auditLogSuccess", true, false); ("slotHashesSysvar", true, false)];
  it_args := [
    "agentToPause"];
|}.

Definition PauseAgentInput : InputType := {|
  it_accounts := [
    ("owner", false, true); ("vault", false, false); ("policy", false, false);
    ("auditLogSuccess", false, false); ("slotHashesSysvar", true, false)];
  it_args := [
    "agentToPause"];
|}.

Definition getPauseAgentInstructionAsync : Builder := {|
  b_accounts := [
    ("owner", false); ("vault", true); ("policy", true); ("auditLogSuccess", true);
    ("slotHashesSysvar", false)];
  b_defaults := [
    ("policy", DDerived None [
      SBytes [112; 111; 108; 105; 99; 121]%Z; SAccount "vault"]);
    ("auditLogSuccess", DDerived None [
      SBytes [97; 117; 100; 105; 116; 95; 115; 117; 99; 99; 101; 115; 115]%Z; SAccount "vault"]);
    ("slotHashesSysvar", DAddress "SysvarS1otHashes111111111111111111111111111")];
  b_metas := [
    "owner"; "vault"; "policy"; "auditLogSuccess"; "slotHashesSysvar"];
  b_data := getPauseAgentInstructionDataEncoder;
|}.

Definition getPauseAgentInstruction : Builder := {|
  b_accounts := [
    ("owner", false); ("vault", true); ("policy", true); ("auditLogSuccess", true);
    ("slotHashesSysvar", false)];
  b_defaults := [
    ("slotHashesSysvar", DAddress "SysvarS1otHashes111111111111111111111111111")];
  b_metas := [
    "owner"; "vault"; "policy"; "auditLogSuccess"; "slotHashesSysvar"];
  b_data := getPauseAgentInstructionDataEncoder;
|}.

Definition parsePauseAgentInstruction : Parser := {|
  p_expected := 5;
  p_accounts := [
    ("owner", false); ("vault", false); ("policy", false); ("auditLogSuccess", false);
    ("slotHashesSysvar", false)];
  p_data := getPauseAgentInstructionDataDecoder;
|}.

(** ** [promoteGraylistDestination] *)

Definition PROMOTE_GRAYLIST_DESTINATION_DISCRIMINATOR : list Z := [227; 87; 73; 141; 202; 251; 202; 228]%Z.

Definition getPromoteGraylistDestinationInstructionDataEncoder : TaggedEncoder := {|
  te_struct := [
    ("discriminator", fixEncoderSize 8); ("destination", getAddressEncoder)];
  te_discriminator := PROMOTE_GRAYLIST_DESTINATION_DISCRIMINATOR;
|}.

Definition getPromoteGraylistDestinationInstructionDataDecoder : list (string * codec) := [
  ("discriminator", fixDecoderSize 8); ("destination", getAddressDecoder)].

Definition PromoteGraylistDestinationAsyncInput : InputType := {|
  it_accounts := [
    ("owner", false, true); ("vault", false, false); ("policy", true, false)];
  it_args := [
    "destination"];
|}.

Definition PromoteGraylistDestinationInput : InputType := {|
  it_accounts := [
    ("owner", false, true); ("vault", false, false); ("policy", false, false)];
  it_args := [
    "destination"];
|}.

Definition getPromoteGraylistDestinationInstructionAsync : Builder := {|
  b_accounts := [
    ("owner", false); ("vault", false); ("policy", true)];
  b_defaults := [
    ("policy", DDerived None [
      SBytes [112; 111; 108; 105; 99; 121]%Z; SAccount "vault"])];
  b_metas := [
    "owner"; "vault"; "policy"];
  b_data := getPromoteGraylistDestinationInstructionDataEncoder;
|}.

Definition getPromoteGraylistDestinationInstruction : Builder := {|
  b_accounts := [
    ("owner", false); ("vault", false); ("policy", true)];
  b_defaults := [];
  b_metas := [
    "owner"; "vault"; "policy"];
  b_data := getPromoteGraylistDestinationInstructionDataEncoder;
|}.

Definition parsePromoteGraylistDestinationInstruction : Parser := {|
  p_expected := 3;
  p_accounts := [
    ("owner", false); ("vault", false); ("policy", false)];
  p_data := getPromoteGraylistDestinationInstructionDataDecoder;
|}.

(** ** [queueAgentGrant] *)

Definition QUEUE_AGENT_GRANT_DISCRIMINATOR : list Z := [136; 162; 54; 49; 167; 254; 200; 26]%Z.

Definition getQueueAgentGrantInstructionDataEncoder : TaggedEncoder := {|
  te_struct := [
    ("discriminator", fixEncoderSize 8); ("agent", getAddressEncoder);
    ("capability", getU8Encoder); ("spendingLimitUsd", getU64Encoder)];
  te_discriminator := QUEUE_AGENT_GRANT_DISCRIMINATOR;
|}.

Definition getQueueAgentGrantInstructionDataDecoder : list (string * codec) := [
  ("discriminator", fixDecoderSize 8); ("agent", getAddressDecoder); ("capability", getU8Decoder);
  ("spendingLimitUsd", getU64Decoder)].

Definition QueueAgentGrantAsyncInput : InputType := {|
  it_accounts := [
    ("owner", false, true); ("vault", false, false); ("policy", true, false);
    ("pending", true, false); ("auditLogSuccess", true, false); ("slotHashesSysvar", true, false);
    ("systemProgram", true, false)];
  it_args := [
    "agent"; "capability"; "spendingLimitUsd"];
|}.

Definition QueueAgentGrantInput : InputType := {|
  it_accounts := [
    ("owner", false, true); ("vault", false, false); ("policy", false, false);
    ("pending", false, false); ("auditLogSuccess", false, false);
    ("slotHashesSysvar", true, false); ("systemProgram", true, false)];
  it_args := [
    "agent"; "capability"; "spendingLimitUsd"];
|}.

Definition getQueueAgentGrantInstructionAsync : Builder := {|
  b_accounts := [
    ("owner", true); ("vault", false); ("policy", false); ("pending", true);
    ("auditLogSuccess", true); ("slotHashesSysvar", false); ("systemProgram", false)];
  b_defaults := [
    ("policy", DDerived None [
      SBytes [112; 111; 108; 105; 99; 121]%Z; SAccount "vault"]);
    ("pending", DDerived None [
      SBytes [112; 101; 110; 100; 105; 110; 103; 95; 97; 103; 101; 110; 116; 95; 103; 114; 97; 110; 116]%Z;
      SAccount "vault"]);
    ("auditLogSuccess", DDerived None [
      SBytes [97; 117; 100; 105; 116; 95; 115; 117; 99; 99; 101; 115; 115]%Z; SAccount "vault"]);
    ("slotHashesSysvar", DAddress "SysvarS1otHashes111111111111111111111111111");
    ("systemProgram", DAddress "11111111111111111111111111111111")];
  b_metas := [
    "owner"; "vault"; "policy"; "pending"; "auditLogSuccess"; "slotHashesSysvar"; "systemProgram"];
  b_data := getQueueAgentGrantInstructionDataEncoder;
|}.

Definition getQueueAgentGrantInstruction : Builder := {|
  b_accounts := [
    ("owner", true); ("vault", false); ("policy", false); ("pending", true);
    ("auditLogSuccess", true); ("slotHashesSysvar", false); ("systemProgram", false)];
  b_defaults := [
    ("slotHashesSysvar", DAddress "SysvarS1otHashes111111111111111111111111111");
    ("systemProgram", DAddress "11111111111111111111111111111111")];
  b_metas := [
    "owner"; "vault"; "policy"; "pending"; "auditLogSuccess"; "slotHashesSysvar"; "systemProgram"];
  b_data := getQueueAgentGrantInstructionDataEncoder;
|}.

Definition parseQueueAgentGrantInstruction : Parser := {|
  p_expected := 7;
  p_accounts := [
    ("owner", false); ("vault", false); ("policy", false); ("pending", false);
    ("auditLogSuccess", false); ("slotHashesSysvar", false); ("systemProgram", false)];
  p_data := getQueueAgentGrantInstructionDataDecoder;
|}.

(** ** [queueAgentPermissionsUpdate] *)

Definition QUEUE_AGENT_PERMISSIONS_UPDATE_DISCRIMINATOR : list Z := [182; 37; 105; 181; 28; 195; 223; 167]%Z.

Definition getQueueAgentPermissionsUpdateInstructionDataEncoder : TaggedEncoder := {|
  te_struct := [
    ("discriminator", fixEncoderSize 8); ("agent", getAddressEncoder);
    ("newCapability", getU8Encoder); ("spendingLimitUsd", getU64Encoder);
    ("cooldownSeconds", getU64Encoder); ("cosignSession", getAddressEncoder)];
  te_discriminator := QUEUE_AGENT_PERMISSIONS_UPDATE_DISCRIMINATOR;
|}.

Definition getQueueAgentPermissionsUpdateInstructionDataDecoder : list (string * codec) := [
  ("discriminator", fixDecoderSize 8); ("agent", getAddressDecoder);
  ("newCapability", getU8Decoder); ("spendingLimitUsd", getU64Decoder);
  ("cooldownSeconds", getU64Decoder); ("cosignSession", getAddressDecoder)].

Definition QueueAgentPermissionsUpdateAsyncInput : InputType := {|
  it_accounts := [
    ("owner", false, true); ("vault", false, false); ("policy", true, false);
    ("pendingAgentPerms", true, false); ("systemProgram", true, false)];
  it_args := [
    "agent"; "newCapability"; "spendingLimitUsd"; "cooldownSeconds"; "cosignSession"];
|}.

Definition QueueAgentPermissionsUpdateInput : InputType := {|
  it_accounts := [
    ("owner", false, true); ("vault", false, false); ("policy", false, false);
    ("pendingAgentPerms", false, false); ("systemProgram", true, false)];
  it_args := [
    "agent"; "newCapability"; "spendingLimitUsd"; "cooldownSeconds"; "cosignSession"];
|}.

Definition getQueueAgentPermissionsUpdateInstructionAsync : Builder := {|
  b_accounts := [
    ("owner", true); ("vault", false); ("policy", false); ("pendingAgentPerms", true);
    ("systemProgram", false)];
  b_defaults := [
    ("policy", DDerived None [
      SBytes [112; 111; 108; 105; 99; 121]%Z; SAccount "vault"]);
    ("pendingAgentPerms", DDerived None [
      SBytes [112; 101; 110; 100; 105; 110; 103; 95; 97; 103; 101; 110; 116; 95; 112; 101; 114; 109; 115]%Z;
      SAccount "vault"; SArg "agent" getAddressEncoder]);
    ("systemProgram", DAddress "11111111111111111111111111111111")];
  b_metas := [
    "owner"; "vault"; "policy"; "pendingAgentPerms"; "systemProgram"];
  b_data := getQueueAgentPermissionsUpdateInstructionDataEncoder;
|}.

Definition getQueueAgentPermissionsUpdateInstruction : Builder := {|
  b_accounts := [
    ("owner", true); ("vault", false); ("policy", false); ("pendingAgentPerms", true);
    ("systemProgram", false)];
  b_defaults := [
    ("systemProgram", DAddress "11111111111111111111111111111111")];
  b_metas := [
    "owner"; "vault"; "policy"; "pendingAgentPerms"; "systemProgram"];
  b_data := getQueueAgentPermissionsUpdateInstructionDataEncoder;
|}.

Definition parseQueueAgentPermissionsUpdateInstruction : Parser := {|
  p_expected := 5;
  p_accounts := [
    ("owner", false); ("vault", false); ("policy", false); ("pendingAgentPerms", false);
    ("systemProgram", false)];
  p_data := getQueueAgentPermissionsUpdateInstructionDataDecoder;
|}.

(** ** [queuePolicyUpdate] *)

Definition QUEUE_POLICY_UPDATE_DISCRIMINATOR : list Z := [149; 18; 76; 197; 179; 193; 91; 77]%Z.

Definition getQueuePolicyUpdateInstructionDataEncoder : TaggedEncoder := {|
  te_struct := [
    ("discriminator", fixEncoderSize 8); ("dailySpendingCapUsd", getOptionEncoder getU64Encoder);
    ("maxTransactionAmountUsd", getOptionEncoder getU64Encoder);
    ("protocolMode", getOptionEncoder getU8Encoder);
    ("protocols", getOptionEncoder (getArrayEncoder None getAddressEncoder));
    ("developerFeeRate", getOptionEncoder getU16Encoder);
    ("maxSlippageBps", getOptionEncoder getU16Encoder);
    ("timelockDuration", getOptionEncoder getU64Encoder);
    ("allowedDestinations", getOptionEncoder (getArrayEncoder None getAddressEncoder));
    ("sessionExpirySeconds", getOptionEncoder getU64Encoder);
    ("hasProtocolCaps", getOptionEncoder getBooleanEncoder);
    ("protocolCaps", getOptionEncoder (getArrayEncoder None getU64Encoder));
    ("destinationMode", getOptionEncoder getU8Encoder);
    ("operatingHours", getOptionEncoder getU32Encoder);
    ("stableBalanceFloor", getOptionEncoder getU64Encoder);
    ("perRecipientDailyCapUsd", getOptionEncoder getU64Encoder);
    ("cosignRequired", getOptionEncoder getBooleanEncoder);
    ("cosignSessionPubkey", getOptionEncoder getAddressEncoder);
    ("operatorGrantDelaySeconds", getOptionEncoder getU64Encoder);
    ("protocolHashes", getOptionEncoder (getArrayEncoder (Some 10%nat) (fixEncoderSize 32)));
    ("cosignSession", getAddressEncoder); ("newPolicyPreviewDigest", fixEncoderSize 32)];
  te_discriminator := QUEUE_POLICY_UPDATE_DISCRIMINATOR;
|}.

Definition getQueuePolicyUpdateInstructionDataDecoder : list (string * codec) := [
  ("discriminator", fixDecoderSize 8); ("dailySpendingCapUsd", getOptionDecoder getU64Decoder);
  ("maxTransactionAmountUsd", getOptionDecoder getU64Decoder);
  ("protocolMode", getOptionDecoder getU8Decoder);
  ("protocols", getOptionDecoder (getArrayDecoder None getAddressDecoder));
  ("developerFeeRate", getOptionDecoder getU16Decoder);
  ("maxSlippageBps", getOptionDecoder getU16Decoder);
  ("timelockDuration", getOptionDecoder getU64Decoder);
  ("allowedDestinations", getOptionDecoder (getArrayDecoder None getAddressDecoder));
  ("sessionExpirySeconds", getOptionDecoder getU64Decoder);
  ("hasProtocolCaps", getOptionDecoder getBooleanDecoder);
  ("protocolCaps", getOptionDecoder (getArrayDecoder None getU64Decoder));
  ("destinationMode", getOptionDecoder getU8Decoder);
  ("operatingHours", getOptionDecoder getU32Decoder);
  ("stableBalanceFloor", getOptionDecoder getU64Decoder);
  ("perRecipientDailyCapUsd", getOptionDecoder getU64Decoder);
  ("cosignRequired", getOptionDecoder getBooleanDecoder);
  ("cosignSessionPubkey", getOptionDecoder getAddressDecoder);
  ("operatorGrantDelaySeconds", getOptionDecoder getU64Decoder);
  ("protocolHashes", getOptionDecoder (getArrayDecoder (Some 10%nat) (fixDecoderSize 32)));
  ("cosignSession", getAddressDecoder); ("newPolicyPreviewDigest", fixDecoderSize 32)].

Definition QueuePolicyUpdateAsyncInput : InputType := {|
  it_accounts := [
    ("owner", false, true); ("vault", false, false); ("policy", true, false);
    ("pendingPolicy", true, false); ("systemProgram", true, false)];
  it_args := [
    "dailySpendingCapUsd"; "maxTransactionAmountUsd"; "protocolMode"; "protocols";
    "developerFeeRate"; "maxSlippageBps"; "timelockDuration"; "allowedDestinations";
    "sessionExpirySeconds"; "hasProtocolCaps"; "protocolCaps"; "destinationMode"; "operatingHours";
    "stableBalanceFloor"; "perRecipientDailyCapUsd"; "cosignRequired"; "cosignSessionPubkey";
    "operatorGrantDelaySeconds"; "protocolHashes"; "cosignSession"; "newPolicyPreviewDigest"];
|}.

Definition QueuePolicyUpdateInput : InputType := {|
  it_accounts := [
    ("owner", false, true); ("vault", false, false); ("policy", false, false);
    ("pendingPolicy", false, false); ("systemProgram", true, false)];
  it_args := [
    "dailySpendingCapUsd"; "maxTransactionAmountUsd"; "protocolMode"; "protocols";
    "developerFeeRate"; "maxSlippageBps"; "timelockDuration"; "allowedDestinations";
    "sessionExpirySeconds"; "hasProtocolCaps"; "protocolCaps"; "destinationMode"; "operatingHours";
    "stableBalanceFloor"; "perRecipientDailyCapUsd"; "cosignRequired"; "cosignSessionPubkey";
    "operatorGrantDelaySeconds"; "protocolHashes"; "cosignSession"; "newPolicyPreviewDigest"];
|}.

Definition getQueuePolicyUpdateInstructionAsync : Builder := {|
  b_accounts := [
    ("owner", true); ("vault", false); ("policy", true); ("pendingPolicy", true);
    ("systemProgram", false)];
  b_defaults := [
    ("policy", DDerived None [
      SBytes [112; 111; 108; 105; 99; 121]%Z; SAccount "vault"]);
    ("pendingPolicy", DDerived None [
      SBytes [112; 101; 110; 100; 105; 110; 103; 95; 112; 111; 108; 105; 99; 121]%Z;
      SAccount "vault"]);
    ("systemProgram", DAddress "11111111111111111111111111111111")];
  b_metas := [
    "owner"; "vault"; "policy"; "pendingPolicy"; "systemProgram"];
  b_data := getQueuePolicyUpdateInstructionDataEncoder;
|}.

Definition getQueuePolicyUpdateInstruction : Builder := {|
  b_accounts := [
    ("owner", true); ("vault", false); ("policy", true); ("pendingPolicy", true);
    ("systemProgram", false)];
  b_defaults := [
    ("systemProgram", DAddress "11111111111111111111111111111111")];
  b_metas := [
    "owner"; "vault"; "policy"; "pendingPolicy"; "systemProgram"];
  b_data := getQueuePolicyUpdateInstructionDataEncoder;
|}.

Definition parseQueuePolicyUpdateInstruction : Parser := {|
  p_expected := 5;
  p_accounts := [
    ("owner", false); ("vault", false); ("policy", false); ("pendingPolicy", false);
    ("systemProgram", false)];
  p_data := getQueuePolicyUpdateInstructionDataDecoder;
|}.

(** ** [reactivateVault] *)

Definition REACTIVATE_VAULT_DISCRIMINATOR : list Z := [245; 50; 143; 70; 114; 220; 25; 251]%Z.

Definition getReactivateVaultInstructionDataEncoder : TaggedEncoder := {|
  te_struct := [
    ("discriminator", fixEncoderSize 8); ("newAgent", getOptionEncoder getAddressEncoder);
    ("newAgentCapability", getOptionEncoder getU8Encoder)];
  te_discriminator := REACTIVATE_VAULT_DISCRIMINATOR;
|}.

Definition getReactivateVaultInstructionDataDecoder : list (string * codec) := [
  ("discriminator", fixDecoderSize 8); ("newAgent", getOptionDecoder getAddressDecoder);
  ("newAgentCapability", getOptionDecoder getU8Decoder)].

Definition ReactivateVaultAsyncInput : InputType := {|
  it_accounts := [
    ("owner", false, true); ("vault", false, false); ("policy", true, false);
    ("auditLogSuccess", true, false); ("slotHashesSysvar", true, false)];
  it_args := [
    "newAgent"; "newAgentCapability"];
|}.

Definition ReactivateVaultInput : InputType := {|
  it_accounts := [
    ("owner", false, true); ("vault", false, false); ("policy", false, false);
    ("auditLogSuccess", false, false); ("slotHashesSysvar", true, false)];
  it_args := [
    "newAgent"; "newAgentCapability"];
|}.

Definition getReactivateVaultInstructionAsync : Builder := {|
  b_accounts := [
    ("owner", false); ("vault", true); ("policy", true); ("auditLogSuccess", true);
    ("slotHashesSysvar", false)];
  b_defaults := [
    ("policy", DDerived None [
      SBytes [112; 111; 108; 105; 99; 121]%Z; SAccount "vault"]);
    ("auditLogSuccess", DDerived None [
      SBytes [97; 117; 100; 105; 116; 95; 115; 117; 99; 99; 101; 115; 115]%Z; SAccount "vault"]);
    ("slotHashesSysvar", DAddress "SysvarS1otHashes111111111111111111111111111")];
  b_metas := [
    "owner"; "vault"; "policy"; "auditLogSuccess"; "slotHashesSysvar"];
  b_data := getReactivateVaultInstructionDataEncoder;
|}.

Definition getReactivateVaultInstruction : Builder := {|
  b_accounts := [
    ("owner", false); ("vault", true); ("policy", true); ("auditLogSuccess", true);
    ("slotHashesSysvar", false)];
  b_defaults := [
    ("slotHashesSysvar", DAddress "SysvarS1otHashes111111111111111111111111111")];
  b_metas := [
    "owner"; "vault"; "policy"; "auditLogSuccess"; "slotHashesSysvar"];
  b_data := getReactivateVaultInstructionDataEncoder;
|}.

Definition parseReactivateVaultInstruction : Parser := {|
  p_expected := 5;
  p_accounts := [
    ("owner", false); ("vault", false); ("policy", false); ("auditLogSuccess", false);
    ("slotHashesSysvar", false)];
  p_data := getReactivateVaultInstructionDataDecoder;
|}.

(** ** [recordAgentViolation] *)

Definition RECORD_AGENT_VIOLATION_DISCRIMINATOR : list Z := [131; 113; 120; 227; 219; 36; 160; 109]%Z.

Definition getRecordAgentViolationInstructionDataEncoder : TaggedEncoder := {|
  te_struct := [
    ("discriminator", fixEncoderSize 8); ("agent", getAddressEncoder); ("errorCode", getU32Encoder)];
  te_discriminator := RECORD_AGENT_VIOLATION_DISCRIMINATOR;
|}.

Definition getRecordAgentViolationInstructionDataDecoder : list (string * codec) := [
  ("discriminator", fixDecoderSize 8); ("agent", getAddressDecoder); ("errorCode", getU32Decoder)].

Definition RecordAgentViolationAsyncInput : InputType := {|
  it_accounts := [
    ("owner", false, true); ("vault", false, false); ("policy", true, false);
    ("auditLogSuccess", true, false); ("slotHashesSysvar", true, false)];
  it_args := [
    "agent"; "errorCode"];
|}.

Definition RecordAgentViolationInput : InputType := {|
  it_accounts := [
    ("owner", false, true); ("vault", false, false); ("policy", false, false);
    ("auditLogSuccess", false, false); ("slotHashesSysvar", true, false)];
  it_args := [
    "agent"; "errorCode"];
|}.

Definition getRecordAgentViolationInstructionAsync : Builder := {|
  b_accounts := [
    ("owner", false); ("vault", true); ("policy", true); ("auditLogSuccess", true);
    ("slotHashesSysvar", false)];
  b_defaults := [
    ("policy", DDerived None [
      SBytes [112; 111; 108; 105; 99; 121]%Z; SAccount "vault"]);
    ("auditLogSuccess", DDerived None [
      SBytes [97; 117; 100; 105; 116; 95; 115; 117; 99; 99; 101; 115; 115]%Z; SAccount "vault"]);
    ("slotHashesSysvar", DAddress "SysvarS1otHashes111111111111111111111111111")];
  b_metas := [
    "owner"; "vault"; "policy"; "auditLogSuccess"; "slotHashesSysvar"];
  b_data := getRecordAgentViolationInstructionDataEncoder;
|}.

Definition getRecordAgentViolationInstruction : Builder := {|
  b_accounts := [
    ("owner", false); ("vault", true); ("policy", true); ("auditLogSuccess", true);
    ("slotHashesSysvar", false)];
  b_defaults := [
    ("slotHashesSysvar", DAddress "SysvarS1otHashes111111111111111111111111111")];
  b_metas := [
    "owner"; "vault"; "policy"; "auditLogSuccess"; "slotHashesSysvar"];
  b_data := getRecordAgentViolationInstructionDataEncoder;
|}.

Definition parseRecordAgentViolationInstruction : Parser := {|
  p_expected := 5;
  p_accounts := [
    ("owner", false); ("vault", false); ("policy", false); ("auditLogSuccess", false);
    ("slotHashesSysvar", false)];
  p_data := getRecordAgentViolationInstructionDataDecoder;
|}.

(** ** [registerAgent] *)

Definition REGISTER_AGENT_DISCRIMINATOR : list Z := [135; 157; 66; 195; 2; 113; 175; 30]%Z.

Definition getRegisterAgentInstructionDataEncoder : TaggedEncoder := {|
  te_struct := [
    ("discriminator", fixEncoderSize 8); ("agent", getAddressEncoder);
    ("capability", getU8Encoder); ("spendingLimitUsd", getU64Encoder)];
  te_discriminator := REGISTER_AGENT_DISCRIMINATOR;
|}.

Definition getRegisterAgentInstructionDataDecoder : list (string * codec) := [
  ("discriminator", fixDecoderSize 8); ("agent", getAddressDecoder); ("capability", getU8Decoder);
  ("spendingLimitUsd", getU64Decoder)].

Definition RegisterAgentAsyncInput : InputType := {|
  it_accounts := [
    ("owner", false, true); ("vault", false, false); ("policy", true, false);
    ("agentSpendOverlay", false, false); ("auditLogSuccess", true, false);
    ("slotHashesSysvar", true, false)];
  it_args := [
    "agent"; "capability"; "spendingLimitUsd"];
|}.

Definition RegisterAgentInput : InputType := {|
  it_accounts := [
    ("owner", false, true); ("vault", false, false); ("policy", false, false);
    ("agentSpendOverlay", false, false); ("auditLogSuccess", false, false);
    ("slotHashesSysvar", true, false)];
  it_args := [
    "agent"; "capability"; "spendingLimitUsd"];
|}.

Definition getRegisterAgentInstructionAsync : Builder := {|
  b_accounts := [
    ("owner", false); ("vault", true); ("policy", true); ("agentSpendOverlay", true);
    ("auditLogSuccess", true); ("slotHashesSysvar", false)];
  b_defaults := [
    ("policy", DDerived None [
      SBytes [112; 111; 108; 105; 99; 121]%Z; SAccount "vault"]);
    ("auditLogSuccess", DDerived None [
      SBytes [97; 117; 100; 105; 116; 95; 115; 117; 99; 99; 101; 115; 115]%Z; SAccount "vault"]);
    ("slotHashesSysvar", DAddress "SysvarS1otHashes111111111111111111111111111")];
  b_metas := [
    "owner"; "vault"; "policy"; "agentSpendOverlay"; "auditLogSuccess"; "slotHashesSysvar"];
  b_data := getRegisterAgentInstructionDataEncoder;
|}.

Definition getRegisterAgentInstruction : Builder := {|
  b_accounts := [
    ("owner", false); ("vault", true); ("policy", true); ("agentSpendOverlay", true);
    ("auditLogSuccess", true); ("slotHashesSysvar", false)];
  b_defaults := [
    ("slotHashesSysvar", DAddress "SysvarS1otHashes111111111111111111111111111")];
  b_metas := [
    "owner"; "vault"; "policy"; "agentSpendOverlay"; "auditLogSuccess"; "slotHashesSysvar"];
  b_data := getRegisterAgentInstructionDataEncoder;
|}.

Definition parseRegisterAgentInstruction : Parser := {|
  p_expected := 6;
  p_accounts := [
    ("owner", false); ("vault", false); ("policy", false); ("agentSpendOverlay", false);
    ("auditLogSuccess", false); ("slotHashesSysvar", false)];
  p_data := getRegisterAgentInstructionDataDecoder;
|}.

(** ** [revokeAgent] *)

Definition REVOKE_AGENT_DISCRIMINATOR : list Z := [227; 60; 209; 125; 240; 117; 163; 73]%Z.

Definition getRevokeAgentInstructionDataEncoder : TaggedEncoder := {|
  te_struct := [
    ("discriminator", fixEncoderSize 8); ("agentToRemove", getAddressEncoder)];
  te_discriminator := REVOKE_AGENT_DISCRIMINATOR;
|}.

Definition getRevokeAgentInstructionDataDecoder : list (string * codec) := [
  ("discriminator", fixDecoderSize 8); ("agentToRemove", getAddressDecoder)].

Definition RevokeAgentAsyncInput : InputType := {|
  it_accounts := [
    ("owner", false, true); ("vault", false, false); ("policy", true, false);
    ("agentSpendOverlay", false, false); ("auditLogSuccess", true, false);
    ("slotHashesSysvar", true, false)];
  it_args := [
    "agentToRemove"];
|}.

Definition RevokeAgentInput : InputType := {|
  it_accounts := [
    ("owner", false, true); ("vault", false, false); ("policy", false, false);
    ("agentSpendOverlay", false, false); ("auditLogSuccess", false, false);
    ("slotHashesSysvar", true, false)];
  it_args := [
    "agentToRemove"];
|}.

Definition getRevokeAgentInstructionAsync : Builder := {|
  b_accounts := [
    ("owner", false); ("vault", true); ("policy", true); ("agentSpendOverlay", true);
    ("auditLogSuccess", true); ("slotHashesSysvar", false)];
  b_defaults := [
    ("policy", DDerived None [
      SBytes [112; 111; 108; 105; 99; 121]%Z; SAccount "vault"]);
    ("auditLogSuccess", DDerived None [
      SBytes [97; 117; 100; 105; 116; 95; 115; 117; 99; 99; 101; 115; 115]%Z; SAccount "vault"]);
    ("slotHashesSysvar", DAddress "SysvarS1otHashes111111111111111111111111111")];
  b_metas := [
    "owner"; "vault"; "policy"; "agentSpendOverlay"; "auditLogSuccess"; "slotHashesSysvar"];
  b_data := getRevokeAgentInstructionDataEncoder;
|}.

Definition getRevokeAgentInstruction : Builder := {|
  b_accounts := [
    ("owner", false); ("vault", true); ("policy", true); ("agentSpendOverlay", true);
    ("auditLogSuccess", true); ("slotHashesSysvar", false)];
  b_defaults := [
    ("slotHashesSysvar", DAddress "SysvarS1otHashes111111111111111111111111111")];
  b_metas := [
    "owner"; "vault"; "policy"; "agentSpendOverlay"; "auditLogSuccess"; "slotHashesSysvar"];
  b_data := getRevokeAgentInstructionDataEncoder;
|}.

Definition parseRevokeAgentInstruction : Parser := {|
  p_expected := 6;
  p_accounts := [
    ("owner", false); ("vault", false); ("policy", false); ("agentSpendOverlay", false);
    ("auditLogSuccess", false); ("slotHashesSysvar", false)];
  p_data := getRevokeAgentInstructionDataDecoder;
|}.

(** ** [setObserveOnly] *)

Definition SET_OBSERVE_ONLY_DISCRIMINATOR : list Z := [36; 88; 141; 35; 179; 134; 54; 12]%Z.

Definition getSetObserveOnlyInstructionDataEncoder : TaggedEncoder := {|
  te_struct := [
    ("discriminator", fixEncoderSize 8); ("newValue", getBooleanEncoder)];
  te_discriminator := SET_OBSERVE_ONLY_DISCRIMINATOR;
|}.

Definition getSetObserveOnlyInstructionDataDecoder : list (string * codec) := [
  ("discriminator", fixDecoderSize 8); ("newValue", getBooleanDecoder)].

Definition SetObserveOnlyAsyncInput : InputType := {|
  it_accounts := [
    ("vault", false, false); ("policy", true, false); ("owner", false, true)];
  it_args := [
    "newValue"];
|}.

Definition SetObserveOnlyInput : InputType := {|
  it_accounts := [
    ("vault", false, false); ("policy", false, false); ("owner", false, true)];
  it_args := [
    "newValue"];
|}.

Definition getSetObserveOnlyInstructionAsync : Builder := {|
  b_accounts := [
    ("vault", true); ("policy", true); ("owner", false)];
  b_defaults := [
    ("policy", DDerived None [
      SBytes [112; 111; 108; 105; 99; 121]%Z; SAccount "vault"])];
  b_metas := [
    "vault"; "policy"; "owner"];
  b_data := getSetObserveOnlyInstructionDataEncoder;
|}.

Definition getSetObserveOnlyInstruction : Builder := {|
  b_accounts := [
    ("vault", true); ("policy", true); ("owner", false)];
  b_defaults := [];
  b_metas := [
    "vault"; "policy"; "owner"];
  b_data := getSetObserveOnlyInstructionDataEncoder;
|}.

Definition parseSetObserveOnlyInstruction : Parser := {|
  p_expected := 3;
  p_accounts := [
    ("vault", false); ("policy", false); ("owner", false)];
  p_data := getSetObserveOnlyInstructionDataDecoder;
|}.

(** ** [unpauseAgent] *)

Definition UNPAUSE_AGENT_DISCRIMINATOR : list Z := [46; 125; 165; 212; 241; 143; 190; 95]%Z.

Definition getUnpauseAgentInstructionDataEncoder : TaggedEncoder := {|
  te_struct := [
    ("discriminator", fixEncoderSize 8); ("agentToUnpause", getAddressEncoder)];
  te_discriminator := UNPAUSE_AGENT_DISCRIMINATOR;
|}.

Definition getUnpauseAgentInstructionDataDecoder : list (string * codec) := [
  ("discriminator", fixDecoderSize 8); ("agentToUnpause", getAddressDecoder)].

Definition UnpauseAgentAsyncInput : InputType := {|
  it_accounts := [
    ("owner", false, true); ("vault", false, false); ("policy", true, false);
    ("auditLogSuccess", true, false); ("slotHashesSysvar", true, false)];
  it_args := [
    "agentToUnpause"];
|}.

Definition UnpauseAgentInput : InputType := {|
  it_accounts := [
    ("owner", false, true); ("vault", false, false); ("policy", false, false);
    ("auditLogSuccess", false, false); ("slotHashesSysvar", true, false)];
  it_args := [
    "agentToUnpause"];
|}.

Definition getUnpauseAgentInstructionAsync : Builder := {|
  b_accounts := [
    ("owner", false); ("vault", true); ("policy", true); ("auditLogSuccess", true);
    ("slotHashesSysvar", false)];
  b_defaults := [
    ("policy", DDerived None [
      SBytes [112; 111; 108; 105; 99; 121]%Z; SAccount "vault"]);
    ("auditLogSuccess", DDerived None [
      SBytes [97; 117; 100; 105; 116; 95; 115; 117; 99; 99; 101; 115; 115]%Z; SAccount "vault"]);
    ("slotHashesSysvar", DAddress "SysvarS1otHashes111111111111111111111111111")];
  b_metas := [
    "owner"; "vault"; "policy"; "auditLogSuccess"; "slotHashesSysvar"];
  b_data := getUnpauseAgentInstructionDataEncoder;
|}.

Definition getUnpauseAgentInstruction : Builder := {|
  b_accounts := [
    ("owner", false); ("vault", true); ("policy", true); ("auditLogSuccess", true);
    ("slotHashesSysvar", false)];
  b_defaults := [
    ("slotHashesSysvar", DAddress "SysvarS1otHashes111111111111111111111111111")];
  b_metas := [
    "owner"; "vault"; "policy"; "auditLogSuccess"; "slotHashesSysvar"];
  b_data := getUnpauseAgentInstructionDataEncoder;
|}.

Definition parseUnpauseAgentInstruction : Parser := {|
  p_expected := 5;
  p_accounts := [
    ("owner", false); ("vault", false); ("policy", false); ("auditLogSuccess", false);
    ("slotHashesSysvar", false)];
  p_data := getUnpauseAgentInstructionDataDecoder;
|}.

(** ** [validateAndAuthorize] *)

Definition VALIDATE_AND_AUTHORIZE_DISCRIMINATOR : list Z := [22; 183; 48; 222; 218; 11; 197; 152]%Z.

Definition getValidateAndAuthorizeInstructionDataEncoder : TaggedEncoder := {|
  te_struct := [
    ("discriminator", fixEncoderSize 8); ("tokenMint", getAddressEncoder);
    ("amount", getU64Encoder); ("targetProtocol", getAddressEncoder);
    ("expectedPolicyVersion", getU64Encoder); ("expectedNonce", getU64Encoder);
    ("expectedIntentDigest", fixEncoderSize 32)];
  te_discriminator := VALIDATE_AND_AUTHORIZE_DISCRIMINATOR;
|}.

Definition getValidateAndAuthorizeInstructionDataDecoder : list (string * codec) := [
  ("discriminator", fixDecoderSize 8); ("tokenMint", getAddressDecoder); ("amount", getU64Decoder);
  ("targetProtocol", getAddressDecoder); ("expectedPolicyVersion", getU64Decoder);
  ("expectedNonce", getU64Decoder); ("expectedIntentDigest", fixDecoderSize 32)].

Definition ValidateAndAuthorizeAsyncInput : InputType := {|
  it_accounts := [
    ("agent", false, true); ("vault", false, false); ("policy", true, false);
    ("tracker", true, false); ("agentSpendOverlay", false, false); ("session", true, false);
    ("vaultTokenAccount", false, false); ("tokenMintAccount", false, false);
    ("outputStablecoinAccount", true, false); ("outputSwapAccount", true, false);
    ("tokenProgram", true, false); ("systemProgram", true, false);
    ("instructionsSysvar", true, false)];
  it_args := [
    "tokenMint"; "amount"; "targetProtocol"; "expectedPolicyVersion"; "expectedNonce";
    "expectedIntentDigest"];
|}.

Definition ValidateAndAuthorizeInput : InputType := {|
  it_accounts := [
    ("agent", false, true); ("vault", false, false); ("policy", false, false);
    ("tracker", false, false); ("agentSpendOverlay", false, false); ("session", false, false);
    ("vaultTokenAccount", false, false); ("tokenMintAccount", false, false);
    ("outputStablecoinAccount", true, false); ("outputSwapAccount", true, false);
    ("tokenProgram", true, false); ("systemProgram", true, false);
    ("instructionsSysvar", true, false)];
  it_args := [
    "tokenMint"; "amount"; "targetProtocol"; "expectedPolicyVersion"; "expectedNonce";
    "expectedIntentDigest"];
|}.

Definition getValidateAndAuthorizeInstructionAsync : Builder := {|
  b_accounts := [
    ("agent", true); ("vault", true); ("policy", false); ("tracker", true);
    ("agentSpendOverlay", true); ("session", true); ("vaultTokenAccount", true);
    ("tokenMintAccount", false); ("outputStablecoinAccount", true); ("outputSwapAccount", true);
    ("tokenProgram", false); ("systemProgram", false); ("instructionsSysvar", false)];
  b_defaults := [
    ("policy", DDerived None [
      SBytes [112; 111; 108; 105; 99; 121]%Z; SAccount "vault"]);
    ("tracker", DDerived None [
      SBytes [116; 114; 97; 99; 107; 101; 114]%Z; SAccount "vault"]);
    ("session", DDerived None [
      SBytes [115; 101; 115; 115; 105; 111; 110]%Z; SAccount "vault"; SAccount "agent";
      SArg "tokenMint" getAddressEncoder]);
    ("tokenProgram", DAddress "TokenkegQfeZyiNwAJbNbGKPFXCWuBvf9Ss623VQ5DA");
    ("systemProgram", DAddress "11111111111111111111111111111111");
    ("instructionsSysvar", DAddress "Sysvar1nstructions1111111111111111111111111")];
  b_metas := [
    "agent"; "vault"; "policy"; "tracker"; "agentSpendOverlay"; "session"; "vaultTokenAccount";
    "tokenMintAccount"; "outputStablecoinAccount"; "outputSwapAccount"; "tokenProgram";
    "systemProgram"; "instructionsSysvar"];
  b_data := getValidateAndAuthorizeInstructionDataEncoder;
|}.

Definition getValidateAndAuthorizeInstruction : Builder := {|
  b_accounts := [
    ("agent", true); ("vault", true); ("policy", false); ("tracker", true);
    ("agentSpendOverlay", true); ("session", true); ("vaultTokenAccount", true);
    ("tokenMintAccount", false); ("outputStablecoinAccount", true); ("outputSwapAccount", true);
    ("tokenProgram", false); ("systemProgram", false); ("instructionsSysvar", false)];
  b_defaults := [
    ("tokenProgram", DAddress "TokenkegQfeZyiNwAJbNbGKPFXCWuBvf9Ss623VQ5DA");
    ("systemProgram", DAddress "11111111111111111111111111111111");
    ("instructionsSysvar", DAddress "Sysvar1nstructions1111111111111111111111111")];
  b_metas := [
    "agent"; "vault"; "policy"; "tracker"; "agentSpendOverlay"; "session"; "vaultTokenAccount";
    "tokenMintAccount"; "outputStablecoinAccount"; "outputSwapAccount"; "tokenProgram";
    "systemProgram"; "instructionsSysvar"];
  b_data := getValidateAndAuthorizeInstructionDataEncoder;
|}.

Definition parseValidateAndAuthorizeInstruction : Parser := {|
  p_expected := 13;
  p_accounts := [
    ("agent", false); ("vault", false); ("policy", false); ("tracker", false);
    ("agentSpendOverlay", false); ("session", false); ("vaultTokenAccount", false);
    ("tokenMintAccount", false); ("outputStablecoinAccount", true); ("outputSwapAccount", true);
    ("tokenProgram", false); ("systemProgram", false); ("instructionsSysvar", false)];
  p_data := getValidateAndAuthorizeInstructionDataDecoder;
|}.

(** ** [withdrawFunds] *)

Definition WITHDRAW_FUNDS_DISCRIMINATOR : list Z := [241; 36; 29; 111; 208; 31; 104; 217]%Z.

Definition getWithdrawFundsInstructionDataEncoder : TaggedEncoder := {|
  te_struct := [
    ("discriminator", fixEncoderSize 8); ("amount", getU64Encoder)];
  te_discriminator := WITHDRAW_FUNDS_DISCRIMINATOR;
|}.

Definition getWithdrawFundsInstructionDataDecoder : list (string * codec) := [
  ("discriminator", fixDecoderSize 8); ("amount", getU64Decoder)].

Definition WithdrawFundsAsyncInput : InputType := {|
  it_accounts := [
    ("owner", false, true); ("vault", false, false); ("policy", true, false);
    ("mint", false, false); ("vaultTokenAccount", true, false); ("ownerTokenAccount", true, false);
    ("auditLogSuccess", true, false); ("slotHashesSysvar", true, false);
    ("tokenProgram", true, false)];
  it_args := [
    "amount"];
|}.

Definition WithdrawFundsInput : InputType := {|
  it_accounts := [
    ("owner", false, true); ("vault", false, false); ("policy", false, false);
    ("mint", false, false); ("vaultTokenAccount", false, false);
    ("ownerTokenAccount", false, false); ("auditLogSuccess", false, false);
    ("slotHashesSysvar", true, false); ("tokenProgram", true, false)];
  it_args := [
    "amount"];
|}.

Definition getWithdrawFundsInstructionAsync : Builder := {|
  b_accounts := [
    ("owner", true); ("vault", true); ("policy", false); ("mint", false);
    ("vaultTokenAccount", true); ("ownerTokenAccount", true); ("auditLogSuccess", true);
    ("slotHashesSysvar", false); ("tokenProgram", false)];
  b_defaults := [
    ("policy", DDerived None [
      SBytes [112; 111; 108; 105; 99; 121]%Z; SAccount "vault"]);
    ("vaultTokenAccount", DDerived (Some "ATokenGPvbdGVxr1b2hvZbsiqW5xWH25efTNsLJA8knL") [
      SAccount "vault";
      SBytes [6; 221; 246; 225; 215; 101; 161; 147; 217; 203; 225; 70; 206; 235; 121; 172; 28; 180; 133; 237; 95; 91; 55; 145; 58; 140; 245; 133; 126; 255; 0; 169]%Z;
      SAccount "mint"]);
    ("ownerTokenAccount", DDerived (Some "ATokenGPvbdGVxr1b2hvZbsiqW5xWH25efTNsLJA8knL") [
      SAccount "owner";
      SBytes [6; 221; 246; 225; 215; 101; 161; 147; 217; 203; 225; 70; 206; 235; 121; 172; 28; 180; 133; 237; 95; 91; 55; 145; 58; 140; 245; 133; 126; 255; 0; 169]%Z;
      SAccount "mint"]);
    ("auditLogSuccess", DDerived None [
      SBytes [97; 117; 100; 105; 116; 95; 115; 117; 99; 99; 101; 115; 115]%Z; SAccount "vault"]);
    ("slotHashesSysvar", DAddress "SysvarS1otHashes111111111111111111111111111");
    ("tokenProgram", DAddress "TokenkegQfeZyiNwAJbNbGKPFXCWuBvf9Ss623VQ5DA")];
  b_metas := [
    "owner"; "vault"; "policy"; "mint"; "vaultTokenAccount"; "ownerTokenAccount";
    "auditLogSuccess"; "slotHashesSysvar"; "tokenProgram"];
  b_data := getWithdrawFundsInstructionDataEncoder;
|}.

Definition getWithdrawFundsInstruction : Builder := {|
  b_accounts := [
    ("owner", true); ("vault", true); ("policy", false); ("mint", false);
    ("vaultTokenAccount", true); ("ownerTokenAccount", true); ("auditLogSuccess", true);
    ("slotHashesSysvar", false); ("tokenProgram", false)];
  b_defaults := [
    ("slotHashesSysvar", DAddress "SysvarS1otHashes111111111111111111111111111");
    ("tokenProgram", DAddress "TokenkegQfeZyiNwAJbNbGKPFXCWuBvf9Ss623VQ5DA")];
  b_metas := [
    "owner"; "vault"; "policy"; "mint"; "vaultTokenAccount"; "ownerTokenAccount";
    "auditLogSuccess"; "slotHashesSysvar"; "tokenProgram"];
  b_data := getWithdrawFundsInstructionDataEncoder;
|}.

Definition parseWithdrawFundsInstruction : Parser := {|
  p_expected := 9;
  p_accounts := [
    ("owner", false); ("vault", false); ("policy", false); ("mint", false);
    ("vaultTokenAccount", false); ("ownerTokenAccount", false); ("auditLogSuccess", false);
    ("slotHashesSysvar", false); ("tokenProgram", false)];
  p_data := getWithdrawFundsInstructionDataDecoder;
|}.
