(* ===== verification/GeneratedClient.v ===== *)
(** * The generated client

    [generated/programs/sigil.ts]: the instructions of the program, how one is
    identified by its first eight bytes and parsed, and the client plugin.  The
    theorems put the tables of [GeneratedInstructions] through the code of
    [ProgramClient]: an instruction built from a complete input is never short of
    an account, and is read back with the accounts and the arguments it was built
    from; under another program address the optional accounts are not. *)
From S2P Require Import Prelude IntentDigest Accounts KitCodec ProgramClient GeneratedTypes GeneratedInstructions.

Inductive SigilInstruction : Type :=
| AcceptOwnershipTransfer
| AcceptOwnershipTransferMultisig
| AgentTransfer
| ApplyAgentGrant
| ApplyAgentPermissionsUpdate
| ApplyPendingPolicy
| ApprovePendingPolicy
| CancelAgentGrant
| CancelAgentPermissionsUpdate
| CancelOwnershipTransfer
| CancelPendingPolicy
| ClosePostAssertions
| CloseVault
| CreatePostAssertions
| DepositFunds
| FinalizeSession
| FreezeVault
| InitializeVault
| InitiateOwnershipTransfer
| PauseAgent
| PromoteGraylistDestination
| QueueAgentGrant
| QueueAgentPermissionsUpdate
| QueuePolicyUpdate
| ReactivateVault
| RecordAgentViolation
| RegisterAgent
| RevokeAgent
| SetObserveOnly
| UnpauseAgent
| ValidateAndAuthorize
| WithdrawFunds.

(** The tests of [identifySigilInstruction], in their order. *)
Definition instruction_tests_1 : list (list Z * SigilInstruction) := [
  ([30; 187; 65; 5; 93; 131; 38; 208]%Z, AcceptOwnershipTransfer);
  ([112; 147; 61; 110; 221; 182; 203; 99]%Z, AcceptOwnershipTransferMultisig);
  ([199; 111; 151; 49; 124; 13; 150; 44]%Z, AgentTransfer);
  ([236; 230; 108; 143; 155; 71; 185; 87]%Z, ApplyAgentGrant);
  ([234; 166; 205; 3; 28; 166; 221; 240]%Z, ApplyAgentPermissionsUpdate);
  ([114; 212; 19; 227; 89; 199; 74; 62]%Z, ApplyPendingPolicy);
  ([151; 218; 153; 6; 155; 67; 8; 200]%Z, ApprovePendingPolicy);
  ([193; 182; 191; 195; 80; 150; 140; 196]%Z, CancelAgentGrant);
  ([92; 232; 92; 115; 110; 238; 235; 55]%Z, CancelAgentPermissionsUpdate);
  ([2; 184; 195; 105; 138; 142; 154; 75]%Z, CancelOwnershipTransfer);
  ([153; 36; 104; 200; 50; 94; 207; 33]%Z, CancelPendingPolicy);
  ([226; 172; 252; 173; 29; 236; 59; 248]%Z, ClosePostAssertions)].

Definition instruction_tests_2 : list (list Z * SigilInstruction) := [
  ([141; 103; 17; 126; 72; 75; 29; 29]%Z, CloseVault);
  ([204; 21; 218; 182; 202; 140; 239; 63]%Z, CreatePostAssertions);
  ([202; 39; 52; 211; 53; 20; 250; 88]%Z, DepositFunds);
  ([34; 148; 144; 47; 37; 130; 206; 161]%Z, FinalizeSession);
  ([144; 211; 63; 236; 97; 31; 170; 175]%Z, FreezeVault);
  ([48; 191; 163; 44; 71; 129; 63; 164]%Z, InitializeVault);
  ([22; 108; 197; 103; 223; 145; 132; 65]%Z, InitiateOwnershipTransfer);
  ([148; 32; 1; 26; 147; 122; 178; 140]%Z, PauseAgent);
  ([227; 87; 73; 141; 202; 251; 202; 228]%Z, PromoteGraylistDestination);
  ([136; 162; 54; 49; 167; 254; 200; 26]%Z, QueueAgentGrant);
  ([182; 37; 105; 181; 28; 195; 223; 167]%Z, QueueAgentPermissionsUpdate);
  ([149; 18; 76; 197; 179; 193; 91; 77]%Z, QueuePolicyUpdate)].

Definition instruction_tests_3 : list (list Z * SigilInstruction) := [
  ([245; 50; 143; 70; 114; 220; 25; 251]%Z, ReactivateVault);
  ([131; 113; 120; 227; 219; 36; 160; 109]%Z, RecordAgentViolation);
  ([135; 157; 66; 195; 2; 113; 175; 30]%Z, RegisterAgent);
  ([227; 60; 209; 125; 240; 117; 163; 73]%Z, RevokeAgent);
  ([36; 88; 141; 35; 179; 134; 54; 12]%Z, SetObserveOnly);
  ([46; 125; 165; 212; 241; 143; 190; 95]%Z, UnpauseAgent);
  ([22; 183; 48; 222; 218; 11; 197; 152]%Z, ValidateAndAuthorize);
  ([241; 36; 29; 111; 208; 31; 104; 217]%Z, WithdrawFunds)].

Definition instruction_tests : list (list Z * SigilInstruction) := instruction_tests_1 ++ instruction_tests_2 ++ instruction_tests_3.

(** The switch of [parseSigilInstruction]: the parser of each case. *)
Definition instruction_parser (i : SigilInstruction) : Parser :=
  match i with
  | AcceptOwnershipTransfer => parseAcceptOwnershipTransferInstruction
  | AcceptOwnershipTransferMultisig => parseAcceptOwnershipTransferMultisigInstruction
  | AgentTransfer => parseAgentTransferInstruction
  | ApplyAgentGrant => parseApplyAgentGrantInstruction
  | ApplyAgentPermissionsUpdate => parseApplyAgentPermissionsUpdateInstruction
  | ApplyPendingPolicy => parseApplyPendingPolicyInstruction
  | ApprovePendingPolicy => parseApprovePendingPolicyInstruction
  | CancelAgentGrant => parseCancelAgentGrantInstruction
  | CancelAgentPermissionsUpdate => parseCancelAgentPermissionsUpdateInstruction
  | CancelOwnershipTransfer => parseCancelOwnershipTransferInstruction
  | CancelPendingPolicy => parseCancelPendingPolicyInstruction
  | ClosePostAssertions => parseClosePostAssertionsInstruction
  | CloseVault => parseCloseVaultInstruction
  | CreatePostAssertions => parseCreatePostAssertionsInstruction
  | DepositFunds => parseDepositFundsInstruction
  | FinalizeSession => parseFinalizeSessionInstruction
  | FreezeVault => parseFreezeVaultInstruction
  | InitializeVault => parseInitializeVaultInstruction
  | InitiateOwnershipTransfer => parseInitiateOwnershipTransferInstruction
  | PauseAgent => parsePauseAgentInstruction
  | PromoteGraylistDestination => parsePromoteGraylistDestinationInstruction
  | QueueAgentGrant => parseQueueAgentGrantInstruction
  | QueueAgentPermissionsUpdate => parseQueueAgentPermissionsUpdateInstruction
  | QueuePolicyUpdate => parseQueuePolicyUpdateInstruction
  | ReactivateVault => parseReactivateVaultInstruction
  | RecordAgentViolation => parseRecordAgentViolationInstruction
  | RegisterAgent => parseRegisterAgentInstruction
  | RevokeAgent => parseRevokeAgentInstruction
  | SetObserveOnly => parseSetObserveOnlyInstruction
  | UnpauseAgent => parseUnpauseAgentInstruction
  | ValidateAndAuthorize => parseValidateAndAuthorizeInstruction
  | WithdrawFunds => parseWithdrawFundsInstruction
  end.

Definition async_builder (i : SigilInstruction) : Builder :=
  match i with
  | AcceptOwnershipTransfer => getAcceptOwnershipTransferInstructionAsync
  | AcceptOwnershipTransferMultisig => getAcceptOwnershipTransferMultisigInstructionAsync
  | AgentTransfer => getAgentTransferInstructionAsync
  | ApplyAgentGrant => getApplyAgentGrantInstructionAsync
  | ApplyAgentPermissionsUpdate => getApplyAgentPermissionsUpdateInstructionAsync
  | ApplyPendingPolicy => getApplyPendingPolicyInstructionAsync
  | ApprovePendingPolicy => getApprovePendingPolicyInstructionAsync
  | CancelAgentGrant => getCancelAgentGrantInstructionAsync
  | CancelAgentPermissionsUpdate => getCancelAgentPermissionsUpdateInstructionAsync
  | CancelOwnershipTransfer => getCancelOwnershipTransferInstructionAsync
  | CancelPendingPolicy => getCancelPendingPolicyInstructionAsync
  | ClosePostAssertions => getClosePostAssertionsInstructionAsync
  | CloseVault => getCloseVaultInstructionAsync
  | CreatePostAssertions => getCreatePostAssertionsInstructionAsync
  | DepositFunds => getDepositFundsInstructionAsync
  | FinalizeSession => getFinalizeSessionInstructionAsync
  | FreezeVault => getFreezeVaultInstructionAsync
  | InitializeVault => getInitializeVaultInstructionAsync
  | InitiateOwnershipTransfer => getInitiateOwnershipTransferInstructionAsync
  | PauseAgent => getPauseAgentInstructionAsync
  | PromoteGraylistDestination => getPromoteGraylistDestinationInstructionAsync
  | QueueAgentGrant => getQueueAgentGrantInstructionAsync
  | QueueAgentPermissionsUpdate => getQueueAgentPermissionsUpdateInstructionAsync
  | QueuePolicyUpdate => getQueuePolicyUpdateInstructionAsync
  | ReactivateVault => getReactivateVaultInstructionAsync
  | RecordAgentViolation => getRecordAgentViolationInstructionAsync
  | RegisterAgent => getRegisterAgentInstructionAsync
  | RevokeAgent => getRevokeAgentInstructionAsync
  | SetObserveOnly => getSetObserveOnlyInstructionAsync
  | UnpauseAgent => getUnpauseAgentInstructionAsync
  | ValidateAndAuthorize => getValidateAndAuthorizeInstructionAsync
  | WithdrawFunds => getWithdrawFundsInstructionAsync
  end.

Definition sync_builder (i : SigilInstruction) : Builder :=
  match i with
  | AcceptOwnershipTransfer => getAcceptOwnershipTransferInstruction
  | AcceptOwnershipTransferMultisig => getAcceptOwnershipTransferMultisigInstruction
  | AgentTransfer => getAgentTransferInstruction
  | ApplyAgentGrant => getApplyAgentGrantInstruction
  | ApplyAgentPermissionsUpdate => getApplyAgentPermissionsUpdateInstruction
  | ApplyPendingPolicy => getApplyPendingPolicyInstruction
  | ApprovePendingPolicy => getApprovePendingPolicyInstruction
  | CancelAgentGrant => getCancelAgentGrantInstruction
  | CancelAgentPermissionsUpdate => getCancelAgentPermissionsUpdateInstruction
  | CancelOwnershipTransfer => getCancelOwnershipTransferInstruction
  | CancelPendingPolicy => getCancelPendingPolicyInstruction
  | ClosePostAssertions => getClosePostAssertionsInstruction
  | CloseVault => getCloseVaultInstruction
  | CreatePostAssertions => getCreatePostAssertionsInstruction
  | DepositFunds => getDepositFundsInstruction
  | FinalizeSession => getFinalizeSessionInstruction
  | FreezeVault => getFreezeVaultInstruction
  | InitializeVault => getInitializeVaultInstruction
  | InitiateOwnershipTransfer => getInitiateOwnershipTransferInstruction
  | PauseAgent => getPauseAgentInstruction
  | PromoteGraylistDestination => getPromoteGraylistDestinationInstruction
  | QueueAgentGrant => getQueueAgentGrantInstruction
  | QueueAgentPermissionsUpdate => getQueueAgentPermissionsUpdateInstruction
  | QueuePolicyUpdate => getQueuePolicyUpdateInstruction
  | ReactivateVault => getReactivateVaultInstruction
  | RecordAgentViolation => getRecordAgentViolationInstruction
  | RegisterAgent => getRegisterAgentInstruction
  | RevokeAgent => getRevokeAgentInstruction
  | SetObserveOnly => getSetObserveOnlyInstruction
  | UnpauseAgent => getUnpauseAgentInstruction
  | ValidateAndAuthorize => getValidateAndAuthorizeInstruction
  | WithdrawFunds => getWithdrawFundsInstruction
  end.

Definition async_input (i : SigilInstruction) : InputType :=
  match i with
  | AcceptOwnershipTransfer => AcceptOwnershipTransferAsyncInput
  | AcceptOwnershipTransferMultisig => AcceptOwnershipTransferMultisigAsyncInput
  | AgentTransfer => AgentTransferAsyncInput
  | ApplyAgentGrant => ApplyAgentGrantAsyncInput
  | ApplyAgentPermissionsUpdate => ApplyAgentPermissionsUpdateAsyncInput
  | ApplyPendingPolicy => ApplyPendingPolicyAsyncInput
  | ApprovePendingPolicy => ApprovePendingPolicyAsyncInput
  | CancelAgentGrant => CancelAgentGrantAsyncInput
  | CancelAgentPermissionsUpdate => CancelAgentPermissionsUpdateAsyncInput
  | CancelOwnershipTransfer => CancelOwnershipTransferAsyncInput
  | CancelPendingPolicy => CancelPendingPolicyAsyncInput
  | ClosePostAssertions => ClosePostAssertionsAsyncInput
  | CloseVault => CloseVaultAsyncInput
  | CreatePostAssertions => CreatePostAssertionsAsyncInput
  | DepositFunds => DepositFundsAsyncInput
  | FinalizeSession => FinalizeSessionAsyncInput
  | FreezeVault => FreezeVaultAsyncInput
  | InitializeVault => InitializeVaultAsyncInput
  | InitiateOwnershipTransfer => InitiateOwnershipTransferAsyncInput
  | PauseAgent => PauseAgentAsyncInput
  | PromoteGraylistDestination => PromoteGraylistDestinationAsyncInput
  | QueueAgentGrant => QueueAgentGrantAsyncInput
  | QueueAgentPermissionsUpdate => QueueAgentPermissionsUpdateAsyncInput
  | QueuePolicyUpdate => QueuePolicyUpdateAsyncInput
  | ReactivateVault => ReactivateVaultAsyncInput
  | RecordAgentViolation => RecordAgentViolationAsyncInput
  | RegisterAgent => RegisterAgentAsyncInput
  | RevokeAgent => RevokeAgentAsyncInput
  | SetObserveOnly => SetObserveOnlyAsyncInput
  | UnpauseAgent => UnpauseAgentAsyncInput
  | ValidateAndAuthorize => ValidateAndAuthorizeAsyncInput
  | WithdrawFunds => WithdrawFundsAsyncInput
  end.

Definition sync_input (i : SigilInstruction) : InputType :=
  match i with
  | AcceptOwnershipTransfer => AcceptOwnershipTransferInput
  | AcceptOwnershipTransferMultisig => AcceptOwnershipTransferMultisigInput
  | AgentTransfer => AgentTransferInput
  | ApplyAgentGrant => ApplyAgentGrantInput
  | ApplyAgentPermissionsUpdate => ApplyAgentPermissionsUpdateInput
  | ApplyPendingPolicy => ApplyPendingPolicyInput
  | ApprovePendingPolicy => ApprovePendingPolicyInput
  | CancelAgentGrant => CancelAgentGrantInput
  | CancelAgentPermissionsUpdate => CancelAgentPermissionsUpdateInput
  | CancelOwnershipTransfer => CancelOwnershipTransferInput
  | CancelPendingPolicy => CancelPendingPolicyInput
  | ClosePostAssertions => ClosePostAssertionsInput
  | CloseVault => CloseVaultInput
  | CreatePostAssertions => CreatePostAssertionsInput
  | DepositFunds => DepositFundsInput
  | FinalizeSession => FinalizeSessionInput
  | FreezeVault => FreezeVaultInput
  | InitializeVault => InitializeVaultInput
  | InitiateOwnershipTransfer => InitiateOwnershipTransferInput
  | PauseAgent => PauseAgentInput
  | PromoteGraylistDestination => PromoteGraylistDestinationInput
  | QueueAgentGrant => QueueAgentGrantInput
  | QueueAgentPermissionsUpdate => QueueAgentPermissionsUpdateInput
  | QueuePolicyUpdate => QueuePolicyUpdateInput
  | ReactivateVault => ReactivateVaultInput
  | RecordAgentViolation => RecordAgentViolationInput
  | RegisterAgent => RegisterAgentInput
  | RevokeAgent => RevokeAgentInput
  | SetObserveOnly => SetObserveOnlyInput
  | UnpauseAgent => UnpauseAgentInput
  | ValidateAndAuthorize => ValidateAndAuthorizeInput
  | WithdrawFunds => WithdrawFundsInput
  end.

Definition all_instructions : list SigilInstruction := [
  AcceptOwnershipTransfer; AcceptOwnershipTransferMultisig; AgentTransfer; ApplyAgentGrant;
  ApplyAgentPermissionsUpdate; ApplyPendingPolicy; ApprovePendingPolicy; CancelAgentGrant;
  CancelAgentPermissionsUpdate; CancelOwnershipTransfer; CancelPendingPolicy; ClosePostAssertions;
  CloseVault; CreatePostAssertions; DepositFunds; FinalizeSession; FreezeVault; InitializeVault;
  InitiateOwnershipTransfer; PauseAgent; PromoteGraylistDestination; QueueAgentGrant;
  QueueAgentPermissionsUpdate; QueuePolicyUpdate; ReactivateVault; RecordAgentViolation;
  RegisterAgent; RevokeAgent; SetObserveOnly; UnpauseAgent; ValidateAndAuthorize; WithdrawFunds].

(** The two ways to build an instruction: [get...InstructionAsync] and
    [get...Instruction]. *)
Inductive flavour : Type := Async | Sync.

Definition instruction_builder (f : flavour) (i : SigilInstruction) : Builder :=
  match f with Async => async_builder i | Sync => sync_builder i end.
Definition instruction_input (f : flavour) (i : SigilInstruction) : InputType :=
  match f with Async => async_input i | Sync => sync_input i end.

Definition FAILED_TO_IDENTIFY_INSTRUCTION : js_exn :=
  SdkDomainError "SOLANA_ERROR__PROGRAM_CLIENTS__FAILED_TO_IDENTIFY_INSTRUCTION".
Definition EXPECTED_TO_HAVE_ACCOUNTS : js_exn := SdkDomainError "SOLANA_ERROR__INSTRUCTION__EXPECTED_TO_HAVE_ACCOUNTS".

Section GeneratedClient.
Context `{K : Kit} `{C : ClientCore}.

Definition identifySigilInstruction (data : list Z) : result js_exn SigilInstruction :=
  identify instruction_tests FAILED_TO_IDENTIFY_INSTRUCTION data.

Definition parseSigilInstruction (ix : Ix) : result js_exn (SigilInstruction * ParsedIx) :=
  match ix_data ix with
  | None => Throw JsTypeError
  | Some data =>
      i ← identifySigilInstruction data;
      match ix_accounts ix with
      | None => Throw EXPECTED_TO_HAVE_ACCOUNTS
      | Some metas => p ← parse (instruction_parser i) (ix_programAddress ix) metas data; Ok (i, p)
      end
  end.
End GeneratedClient.

(** ** What the tables give *)

Lemma parsers_agree f i : parser_agrees (instruction_builder f i) (instruction_parser i) = true.
Proof. destruct f, i; vm_compute; reflexivity. Qed.

Lemma inputs_agree f i :
  input_agrees (instruction_builder f i) (instruction_input f i) (instruction_parser i) = true.
Proof. destruct f, i; vm_compute; reflexivity. Qed.

Lemma instruction_tests_ok : tests_ok instruction_tests = true.
Proof. vm_compute. reflexivity. Qed.

Lemma instruction_tests_in f i :
  (te_discriminator (b_data (instruction_builder f i)), i) ∈ instruction_tests.
Proof. apply list_elem_of_In. destruct f, i; vm_compute; tauto. Qed.

(** ** The theorems *)
Section Theorems.
Context `{K : Kit} `{C : ClientCore} `{!LawfulKit K, !LawfulCore K C}.

(** The arguments of the instruction: a value of its type for each. *)
Definition arguments (i : SigilInstruction) (args : list (string * val)) : Prop :=
  typed (CStruct (tail (te_struct (b_data (async_builder i))))) (VObject args) = true.

(** The input has the accounts its type requires, and addresses are addresses. *)
Definition complete (f : flavour) (i : SigilInstruction) (input : gmap string resolved) : Prop :=
  (∀ n, n ∈ required_names (instruction_input f i) → is_Some (input !! n)) ∧
  (∀ n r, input !! n = Some r → valid_address (resolved_address r) = true).

(** No optional account is given as the program itself. *)
Definition no_placeholder (i : SigilInstruction) (input : gmap string resolved) : Prop :=
  ∀ n r, n ∈ optional_names (instruction_parser i) → input !! n = Some r →
         resolved_address r ≠ SIGIL_PROGRAM_ADDRESS.

Lemma same_arguments f i args :
  arguments i args → typed (CStruct (tail (te_struct (b_data (instruction_builder f i))))) (VObject args) = true.
Proof. by destruct f, i. Qed.

(** A complete input is enough.  Whatever the instruction and the builder,
    the accounts the input type asks for and arguments of the right types give
    an instruction: every default can be computed from what is known by then,
    under any program address, and the only accounts the instruction has the
    program stand in for are optional ones. *)
Theorem complete_inputs_build (f : flavour) (i : SigilInstruction) (input : gmap string resolved)
    (args : list (string * val)) (config : option string) :
  complete f i input → arguments i args →
  ∃ accounts ix, resolve_accounts (instruction_builder f i) input args config = Ok accounts ∧
    build (instruction_builder f i) input args config = Ok ix ∧
    ix_accounts ix = Some (final_meta (instruction_builder f i) (ix_programAddress ix) accounts <$>
                           b_metas (instruction_builder f i)) ∧
    ∀ n, n ∈ b_metas (instruction_builder f i) → accounts !! n = None →
         n ∈ optional_names (instruction_parser i).
Proof.
  intros [Hin Hval] Hargs%(same_arguments f).
  destruct (accounts_resolved _ _ _ input args config (parsers_agree f i) (inputs_agree f i) Hargs Hin Hval)
    as (accounts & Hr & Hall).
  destruct (build_resolved _ _ _ _ _ _ (parsers_agree f i) Hargs Hr) as (data & _ & Hb).
  exists accounts. eexists. split; [done|split; [exact Hb|split; [done|]]].
  intros n Hn Hnone. destruct (Hall n Hn) as [[r Hr']|?]; [congruence|done].
Qed.

(** C25: An instruction comes back.  What either builder makes for the program out
    of typed arguments, with no optional account that is the program itself,
    [parseSigilInstruction] gives back as the same instruction, with the same
    arguments behind the discriminator and every account under its name as it
    was resolved; an optional account that was left out is shown as missing. *)
Theorem built_instructions_parse_back (f : flavour) (i : SigilInstruction) (input : gmap string resolved)
    (args : list (string * val)) (ix : Ix) :
  arguments i args → no_placeholder i input →
  build (instruction_builder f i) input args None = Ok ix →
  ∃ accounts, resolve_accounts (instruction_builder f i) input args None = Ok accounts ∧
    parseSigilInstruction ix = Ok (i, {|
      px_programAddress := SIGIL_PROGRAM_ADDRESS;
      px_accounts := parsed_account (instruction_builder f i) accounts <$> p_accounts (instruction_parser i);
      px_data := VObject (("discriminator", VBytes (te_discriminator (b_data (instruction_builder f i)))) :: args) |}).
Proof.
  intros Hargs%(same_arguments f) Hopt Hb.
  destruct (resolve_accounts (instruction_builder f i) input args None) as [accounts|e] eqn:Hr;
    [|unfold build in Hb; cbn zeta in Hb; by rewrite Hr in Hb].
  exists accounts. split; [done|].
  destruct (build_parse _ _ input args accounts (parsers_agree f i) Hargs Hopt Hr) as (data & Hb' & Ht & Hp).
  rewrite Hb in Hb'. injection Hb' as ->. unfold parseSigilInstruction. cbn [ix_data ix_accounts ix_programAddress].
  unfold identifySigilInstruction.
  rewrite (identify_tag _ _ _ _ _ instruction_tests_ok (instruction_tests_in f i) Ht).
  cbn [mbind result_bind]. by rewrite Hp.
Qed.

(** The parsers only know one program address.  A builder puts the program
    address of its configuration in the place of an optional account that was
    left out, but the parser takes an account for missing only when it is the
    address in the source: built for another deployment of the program, the same
    instruction is read back with that program as a given account. *)
Theorem other_deployments_show_missing_accounts (f : flavour) (i : SigilInstruction)
    (input : gmap string resolved) (args : list (string * val)) (program n : string) (ix : Ix) :
  arguments i args → program ≠ SIGIL_PROGRAM_ADDRESS →
  n ∈ optional_names (instruction_parser i) → input !! n = None →
  build (instruction_builder f i) input args (Some program) = Ok ix →
  ∃ px, parseSigilInstruction ix = Ok (i, px) ∧ (n, Some (placeholder program)) ∈ px_accounts px.
Proof.
  intros Hargs%(same_arguments f) Hp Hn Hnone Hb.
  pose proof (parser_agrees_inv _ _ (parsers_agree f i)) as (Hm & Hx & Ha & _ & Hd).
  destruct (tagged_roundtrip _ _ _ Hd Hargs) as (data & He & Ht & Hdec & _).
  destruct (resolve_accounts (instruction_builder f i) input args (Some program)) as [accounts|e] eqn:Hr;
    [|unfold build in Hb; cbn zeta in Hb; by rewrite Hr in Hb].
  destruct (build_resolved _ _ _ _ _ _ (parsers_agree f i) Hargs Hr) as (data' & He' & Hb').
  rewrite He in He'. injection He' as <-. rewrite Hb in Hb'. injection Hb' as ->. eexists. split.
  - unfold parseSigilInstruction, identifySigilInstruction. cbn [ix_data ix_accounts ix_programAddress].
    rewrite (identify_tag _ _ _ _ _ instruction_tests_ok (instruction_tests_in f i) Ht). cbn [mbind result_bind].
    unfold parse. rewrite length_fmap, Hm, length_fmap, Hx, Nat.ltb_irrefl. cbn [throw_if mbind result_bind].
    rewrite next_accounts_map. cbn [mbind result_bind]. rewrite Hdec. reflexivity.
  - cbn [px_accounts]. pose proof (resolved_optional _ _ _ _ _ _ n (parsers_agree f i) Hr Hn) as Hl.
    apply list_elem_of_fmap in Hn as ([n' o] & -> & [Ho Hin]%list_elem_of_filter).
    apply list_elem_of_fmap. exists (n', o). split; [|done]. cbn [fst snd] in *. unfold final_meta.
    rewrite Hl, Hnone. cbn. by rewrite bool_decide_false, andb_false_r.
Qed.
End Theorems.

(** ** The client plugin *)

(** [sigilProgram()]: each method builds the instruction of its name from the
    input; [finalizeSession] puts the payer of the client in when the input has
    none. *)
Definition plugin_input (payer : resolved) (i : SigilInstruction) (input : gmap string resolved)
    : gmap string resolved :=
  match i with
  | FinalizeSession => match input !! "payer" with Some _ => input | None => <["payer" := payer]> input end
  | _ => input
  end.

Definition plugin_instruction `{Kit} `{ClientCore} (payer : resolved) (i : SigilInstruction)
    (input : gmap string resolved) (args : list (string * val)) : result js_exn Ix :=
  build (async_builder i) (plugin_input payer i input) args None.

(** The plugin ends a session without being told who pays. *)
Lemma plugin_finalizes `{K : Kit} `{C : ClientCore} `{!LawfulKit K, !LawfulCore K C} payer input :
  (∀ n, n ∈ required_names FinalizeSessionAsyncInput → n ≠ "payer" → is_Some (input !! n)) →
  (∀ n r, input !! n = Some r → valid_address (resolved_address r) = true) →
  valid_address (resolved_address payer) = true →
  is_ok (plugin_instruction payer FinalizeSession input []) = true.
Proof.
  intros Hin Hval Hp. unfold plugin_instruction.
  assert (Hc : complete Async FinalizeSession (plugin_input payer FinalizeSession input)).
  { cbn [plugin_input]. destruct (input !! "payer") as [r|] eqn:E; split.
    - intros n Hn. destruct (decide (n = "payer")) as [->|?]; [by rewrite E|by apply Hin].
    - exact Hval.
    - intros n Hn. destruct (decide (n = "payer")) as [->|?]; [by rewrite lookup_insert_eq|].
      rewrite lookup_insert_ne by done. by apply Hin.
    - intros n r [[<- <-]|[_ Hn]]%lookup_insert_Some; [done|by apply (Hval n)]. }
  destruct (accounts_resolved _ _ _ _ [] None (parsers_agree Async FinalizeSession)
              (inputs_agree Async FinalizeSession) eq_refl (proj1 Hc) (proj2 Hc)) as (accounts & Hr & _).
  destruct (build_resolved _ _ _ [] _ _ (parsers_agree Async FinalizeSession) eq_refl Hr) as (data & _ & Hb).
  cbn [instruction_builder] in Hb. by rewrite Hb.
Qed.

(** ** Witnesses *)

Definition demo_agent : string := "agent-address-of-32-characters-A".
Definition demo_source : string := "source-token-account-of-32-chars".
Definition demo_mint : string := "mint-address-of-32-characters-AA".
Definition demo_target : string := "target-token-account-of-32-chars".
Definition demo_overlay : string := "overlay-address-of-32-characters".

(** A transfer that leaves out everything that may be left out. *)
Definition demo_transfer : gmap string resolved := list_to_map [
  ("agent", RSigner demo_agent); ("vault", RAddress demo_address); ("agentSpendOverlay", RAddress demo_overlay);
  ("vaultTokenAccount", RAddress demo_source); ("tokenMintAccount", RAddress demo_mint);
  ("destinationTokenAccount", RAddress demo_target)].

Definition demo_args : list (string * val) := [("amount", VInt 25000000); ("expectedPolicyVersion", VInt 7)].

Definition demo_ix : Ix := Eval vm_compute in
  match build (async_builder AgentTransfer) demo_transfer demo_args None with
  | Ok ix => ix
  | Throw _ => {| ix_programAddress := ""; ix_accounts := None; ix_data := None |}
  end.

Definition demo_other : Ix := Eval vm_compute in
  match build (async_builder AgentTransfer) demo_transfer demo_args (Some demo_overlay) with
  | Ok ix => ix
  | Throw _ => {| ix_programAddress := ""; ix_accounts := None; ix_data := None |}
  end.

Lemma demo_built : build (async_builder AgentTransfer) demo_transfer demo_args None = Ok demo_ix.
Proof. vm_compute. reflexivity. Qed.

Lemma demo_built_elsewhere :
  build (async_builder AgentTransfer) demo_transfer demo_args (Some demo_overlay) = Ok demo_other.
Proof. vm_compute. reflexivity. Qed.

Lemma demo_valid n r : demo_transfer !! n = Some r → valid_address (resolved_address r) = true.
Proof.
  unfold demo_transfer. intros H%elem_of_list_to_map_2.
  repeat (apply elem_of_cons in H as [[= -> ->]|H]; [vm_compute; reflexivity|]). by apply not_elem_of_nil in H.
Qed.

Lemma demo_complete : complete Async AgentTransfer demo_transfer.
Proof.
  split; [|exact demo_valid]. apply Forall_forall.
  change (required_names (instruction_input Async AgentTransfer)) with
    ["agent"; "vault"; "agentSpendOverlay"; "vaultTokenAccount"; "tokenMintAccount"; "destinationTokenAccount"].
  repeat (apply Forall_cons; split; [vm_compute; eexists; reflexivity|]). apply Forall_nil_2.
Qed.

Lemma demo_arguments : arguments AgentTransfer demo_args.
Proof. vm_compute. reflexivity. Qed.

Lemma demo_no_placeholder : no_placeholder AgentTransfer demo_transfer.
Proof.
  intros n r. change (optional_names (instruction_parser AgentTransfer)) with
    ["feeDestinationTokenAccount"; "protocolTreasuryTokenAccount"].
  intros [->|[->|H%not_elem_of_nil]%elem_of_cons]%elem_of_cons Hr; [vm_compute in Hr; discriminate..|done].
Qed.

Lemma complete_inputs_build_witness :
  complete Async AgentTransfer demo_transfer ∧
  ∃ accounts ix, resolve_accounts (async_builder AgentTransfer) demo_transfer demo_args None = Ok accounts ∧
    build (async_builder AgentTransfer) demo_transfer demo_args None = Ok ix.
Proof.
  split; [exact demo_complete|].
  destruct (complete_inputs_build Async AgentTransfer demo_transfer demo_args None demo_complete demo_arguments)
    as (accounts & ix & Hr & Hb & _).
  exists accounts, ix. split; [exact Hr|exact Hb].
Defined.

Lemma built_instructions_parse_back_witness :
  no_placeholder AgentTransfer demo_transfer ∧
  ∃ px, parseSigilInstruction demo_ix = Ok (AgentTransfer, px) ∧
    px_data px = VObject (("discriminator", VBytes AGENT_TRANSFER_DISCRIMINATOR) :: demo_args).
Proof.
  split; [exact demo_no_placeholder|].
  destruct (built_instructions_parse_back Async AgentTransfer demo_transfer demo_args demo_ix
              demo_arguments demo_no_placeholder demo_built) as (accounts & _ & Hp).
  eexists. split; [exact Hp|reflexivity].
Defined.

Lemma other_deployments_show_missing_accounts_witness :
  demo_transfer !! "feeDestinationTokenAccount" = None ∧
  ∃ px, parseSigilInstruction demo_other = Ok (AgentTransfer, px) ∧
    ("feeDestinationTokenAccount", Some (placeholder demo_overlay)) ∈ px_accounts px.
Proof.
  split; [vm_compute; reflexivity|].
  apply (other_deployments_show_missing_accounts Async AgentTransfer demo_transfer demo_args demo_overlay
           "feeDestinationTokenAccount" demo_other demo_arguments);
    [discriminate|change (optional_names (instruction_parser AgentTransfer)) with
       ["feeDestinationTokenAccount"; "protocolTreasuryTokenAccount"]; apply elem_of_cons; left; reflexivity
    |vm_compute; reflexivity|exact demo_built_elsewhere].
Defined.
