(* ===== verification/ProgramInterface.v ===== *)
(** * The interface of the program, and the generated client against it

    What the client has to agree with, from the program's own sources: the
    accounts of each instruction ([#[derive(Accounts)]] in [instructions/]) with
    the constraints [mut], [Signer], [Option], [seeds], [address] and
    [associated_token], the arguments of each entry point ([lib.rs]), and the
    structs of [state/] and [events.rs].  The theorems show that an instruction
    the client builds has the accounts the program checks for, in its order and
    with the addresses it derives, and that the client's codecs have the fields
    of the program's structs. *)
From S2P Require Import Prelude IntentDigest Accounts KitCodec ProgramClient GeneratedTypes.
From S2P Require Import GeneratedInstructions GeneratedClient.

(** ** Rust types and account constraints *)

Inductive rust_type : Type :=
| RU8 | RU16 | RU32 | RU64 | RI64 | RBool | RPubkey
| ROption (t : rust_type)
| RVec (t : rust_type)
| RArray (t : rust_type) (n : nat)
| RStruct (fields : list (string * rust_type))
| REnum (variants : nat).

Inductive rust_seed : Type :=
| RBytes (bs : list Z)                   (* b"policy" *)
| RSlice (bs : list Z)                   (* &[0u8] *)
| RKey (account : string)                (* vault.key().as_ref() *)
| RArg (name : string)                   (* token_mint.as_ref(), a Pubkey argument *)
| RArgLe (name : string)                 (* vault_id.to_le_bytes(), a u64 argument *)
| RField (account name : string).        (* a field of the account itself *)

Inductive pin : Type :=
| Unpinned
| PinSeeds (seeds : list rust_seed)      (* seeds = [...] *)
| PinAddress (address : string)          (* address = ..., Program<'info, ...> *)
| PinAta (authority mint : string).      (* associated_token::authority, associated_token::mint *)

Record ProgramAccount : Type := pa {
  pa_name : string; pa_mut : bool; pa_signer : bool; pa_optional : bool; pa_pin : pin;
  pa_has_one : list string;                (* has_one = ..., checked on the account's contents *)
}.

(** The addresses of the sysvars and programs the constraints name. *)
Definition SLOT_HASHES_ID : string := "SysvarS1otHashes111111111111111111111111111".
Definition INSTRUCTIONS_ID : string := "Sysvar1nstructions1111111111111111111111111".
Definition SYSTEM_ID : string := "11111111111111111111111111111111".
Definition TOKEN_ID : string := "TokenkegQfeZyiNwAJbNbGKPFXCWuBvf9Ss623VQ5DA".
Definition ASSOCIATED_TOKEN_ID : string := "ATokenGPvbdGVxr1b2hvZbsiqW5xWH25efTNsLJA8knL".
(** The bytes of [TOKEN_ID]. *)
Definition TOKEN_ID_BYTES : list Z :=
  [6; 221; 246; 225; 215; 101; 161; 147; 217; 203; 225; 70; 206; 235; 121; 172; 28; 180; 133; 237; 95; 91; 55; 145;
   58; 140; 245; 133; 126; 255; 0; 169]%Z.

(** ** The structs of the program: [state/] and [events.rs] *)

Definition ActionAuthorized_layout : list (string * rust_type) := [
  ("vault", RPubkey); ("agent", RPubkey); ("token_mint", RPubkey); ("amount", RU64);
  ("usd_amount", RU64); ("protocol", RPubkey); ("rolling_spend_usd_after", RU64);
  ("daily_cap_usd", RU64); ("delegated", RBool); ("timestamp", RI64)].

Definition AgentAutoRevoked_layout : list (string * rust_type) := [
  ("vault", RPubkey); ("agent", RPubkey); ("threshold", RU8); ("consecutive_failures", RU8);
  ("timestamp", RI64)].

Definition AgentContributionEntry_layout : list (string * rust_type) := [
  ("agent", RArray RU8 32); ("last_write_epoch", RI64); ("contributions", RArray RU64 24)].

Definition AgentEntry_layout : list (string * rust_type) := [
  ("pubkey", RPubkey); ("capability", RU8); ("spending_limit_usd", RU64); ("paused", RBool);
  ("consecutive_failures", RU8); ("_reserved", RArray RU8 6)].

Definition AgentGrantApplied_layout : list (string * rust_type) := [
  ("vault", RPubkey); ("agent", RPubkey); ("capability", RU8); ("spending_limit_usd", RU64);
  ("queued_at", RI64); ("applied_at", RI64); ("new_policy_version", RU64)].

Definition AgentGrantCancelled_layout : list (string * rust_type) := [
  ("vault", RPubkey); ("owner", RPubkey); ("cancelled_agent", RPubkey); ("timestamp", RI64)].

Definition AgentGrantQueued_layout : list (string * rust_type) := [
  ("vault", RPubkey); ("agent", RPubkey); ("capability", RU8); ("spending_limit_usd", RU64);
  ("queued_at", RI64); ("executes_at", RI64)].

Definition AgentPausedEvent_layout : list (string * rust_type) := [
  ("vault", RPubkey); ("agent", RPubkey); ("timestamp", RI64)].

Definition AgentPermissionsChangeApplied_layout : list (string * rust_type) := [
  ("vault", RPubkey); ("agent", RPubkey); ("applied_at", RI64)].

Definition AgentPermissionsChangeCancelled_layout : list (string * rust_type) := [
  ("vault", RPubkey); ("agent", RPubkey)].

Definition AgentPermissionsChangeQueued_layout : list (string * rust_type) := [
  ("vault", RPubkey); ("agent", RPubkey); ("executes_at", RI64)].

Definition AgentRegistered_layout : list (string * rust_type) := [
  ("vault", RPubkey); ("agent", RPubkey); ("capability", RU8); ("spending_limit_usd", RU64);
  ("timestamp", RI64)].

Definition AgentRevoked_layout : list (string * rust_type) := [
  ("vault", RPubkey); ("agent", RPubkey); ("remaining_agents", RU8); ("timestamp", RI64)].

Definition AgentSpendLimitChecked_layout : list (string * rust_type) := [
  ("vault", RPubkey); ("agent", RPubkey); ("agent_rolling_spend", RU64);
  ("spending_limit_usd", RU64); ("amount", RU64); ("timestamp", RI64)].

Definition AgentTransferExecuted_layout : list (string * rust_type) := [
  ("vault", RPubkey); ("destination", RPubkey); ("amount", RU64); ("mint", RPubkey)].

Definition AgentUnpausedEvent_layout : list (string * rust_type) := [
  ("vault", RPubkey); ("agent", RPubkey); ("timestamp", RI64)].

Definition AuditEntry_layout : list (string * rust_type) := [
  ("subject", RArray RU8 32); ("balance_delta_in", RI64); ("balance_delta_out", RI64);
  ("timestamp", RI64); ("slot_hash", RArray RU8 4); ("blockhash", RArray RU8 3);
  ("discriminator", RU8)].

Definition DelegationRevoked_layout : list (string * rust_type) := [
  ("vault", RPubkey); ("token_account", RPubkey); ("timestamp", RI64)].

Definition DestinationGraylistEntry_layout : list (string * rust_type) := [
  ("destination", RPubkey); ("unlock_unix", RI64)].

Definition EpochBucket_layout : list (string * rust_type) := [
  ("epoch_id", RI64); ("usd_amount", RU64)].

Definition FeesCollected_layout : list (string * rust_type) := [
  ("vault", RPubkey); ("token_mint", RPubkey); ("protocol_fee_amount", RU64);
  ("developer_fee_amount", RU64); ("protocol_fee_rate", RU16); ("developer_fee_rate", RU16);
  ("transaction_amount", RU64); ("protocol_treasury", RPubkey);
  ("developer_fee_destination", RPubkey); ("cumulative_developer_fees", RU64); ("timestamp", RI64)].

Definition FundsDeposited_layout : list (string * rust_type) := [
  ("vault", RPubkey); ("token_mint", RPubkey); ("amount", RU64); ("timestamp", RI64)].

Definition FundsWithdrawn_layout : list (string * rust_type) := [
  ("vault", RPubkey); ("token_mint", RPubkey); ("amount", RU64); ("destination", RPubkey);
  ("timestamp", RI64)].

Definition GraylistEntered_layout : list (string * rust_type) := [
  ("vault", RPubkey); ("destination", RPubkey); ("unlock_unix", RI64); ("auto_promoted", RBool);
  ("timestamp", RI64)].

Definition GraylistPromoted_layout : list (string * rust_type) := [
  ("vault", RPubkey); ("destination", RPubkey); ("promoted", RBool); ("timestamp", RI64)].

Definition ObserveOnlyChanged_layout : list (string * rust_type) := [
  ("vault", RPubkey); ("old_value", RBool); ("new_value", RBool); ("new_policy_version", RU64);
  ("new_policy_preview_digest", RArray RU8 32); ("timestamp", RI64)].

Definition OwnershipTransferAccepted_layout : list (string * rust_type) := [
  ("vault", RPubkey); ("previous_owner", RPubkey); ("new_owner", RPubkey); ("via_multisig", RBool);
  ("timestamp", RI64)].

Definition OwnershipTransferCancelled_layout : list (string * rust_type) := [
  ("vault", RPubkey); ("current_owner", RPubkey); ("cancelled_new_owner", RPubkey);
  ("timestamp", RI64)].

Definition OwnershipTransferInitiated_layout : list (string * rust_type) := [
  ("vault", RPubkey); ("current_owner", RPubkey); ("new_owner", RPubkey); ("queued_at", RI64);
  ("is_multisig_target", RBool)].

Definition PerRecipientCounter_layout : list (string * rust_type) := [
  ("recipient", RArray RU8 32); ("window_start", RI64); ("window_spend_usd", RU64)].

Definition PolicyChangeApplied_layout : list (string * rust_type) := [
  ("vault", RPubkey); ("applied_at", RI64)].

Definition PolicyChangeCancelled_layout : list (string * rust_type) := [
  ("vault", RPubkey)].

Definition PolicyChangeQueued_layout : list (string * rust_type) := [
  ("vault", RPubkey); ("executes_at", RI64)].

Definition PolicyCosignApproved_layout : list (string * rust_type) := [
  ("vault", RPubkey); ("cosigner", RPubkey); ("approved_at_slot", RU64)].

Definition PostAssertionChecked_layout : list (string * rust_type) := [
  ("vault", RPubkey); ("entry_index", RU8); ("passed", RBool); ("timestamp", RI64)].

Definition PostAssertionEntry_layout : list (string * rust_type) := [
  ("target_account", RPubkey); ("offset", RU16); ("value_len", RU8); ("operator", RU8);
  ("expected_value", RVec RU8); ("assertion_mode", RU8); ("aux_value", RArray RU8 8);
  ("aux_byte", RU8)].

Definition PostAssertionEntryZC_layout : list (string * rust_type) := [
  ("target_account", RArray RU8 32); ("offset", RU16); ("value_len", RU8); ("operator", RU8);
  ("expected_value", RArray RU8 32); ("assertion_mode", RU8); ("aux_value", RArray RU8 8);
  ("aux_byte", RU8)].

Definition PostAssertionsClosed_layout : list (string * rust_type) := [
  ("vault", RPubkey); ("timestamp", RI64)].

Definition PostAssertionsCreated_layout : list (string * rust_type) := [
  ("vault", RPubkey); ("entry_count", RU8); ("timestamp", RI64)].

Definition ProtocolSpendCounter_layout : list (string * rust_type) := [
  ("protocol", RArray RU8 32); ("window_start", RI64); ("window_spend", RU64)].

Definition SessionFinalized_layout : list (string * rust_type) := [
  ("vault", RPubkey); ("agent", RPubkey); ("success", RBool); ("is_expired", RBool);
  ("timestamp", RI64); ("actual_spend_usd", RU64); ("balance_after_usd", RU64)].

Definition VaultClosed_layout : list (string * rust_type) := [
  ("vault", RPubkey); ("owner", RPubkey); ("timestamp", RI64)].

Definition VaultCreated_layout : list (string * rust_type) := [
  ("vault", RPubkey); ("owner", RPubkey); ("vault_id", RU64); ("timestamp", RI64)].

Definition VaultFrozen_layout : list (string * rust_type) := [
  ("vault", RPubkey); ("owner", RPubkey); ("agents_preserved", RU8); ("sessions_revoked", RU32);
  ("timestamp", RI64); ("freeze_reason", RU8)].

Definition VaultReactivated_layout : list (string * rust_type) := [
  ("vault", RPubkey); ("new_agent", ROption RPubkey); ("new_agent_capability", ROption RU8);
  ("timestamp", RI64)].

Definition AgentSpendOverlay_layout : list (string * rust_type) := [
  ("vault", RPubkey); ("entries", RArray (RStruct AgentContributionEntry_layout) 10);
  ("bump", RU8); ("_padding", RArray RU8 7); ("lifetime_spend", RArray RU64 10);
  ("lifetime_tx_count", RArray RU64 10); ("cooldown_seconds", RArray RU64 10);
  ("last_action_unix", RArray RI64 10)].

Definition AgentVault_layout : list (string * rust_type) := [
  ("owner", RPubkey); ("vault_id", RU64); ("agents", RVec (RStruct AgentEntry_layout));
  ("fee_destination", RPubkey); ("status", REnum 3); ("bump", RU8); ("created_at", RI64);
  ("total_transactions", RU64); ("total_volume", RU64); ("total_fees_collected", RU64);
  ("total_deposited_usd", RU64); ("total_withdrawn_usd", RU64);
  ("total_failed_transactions", RU64); ("active_sessions", RU8); ("observe_only", RBool);
  ("frozen_at_timestamp", RI64); ("freeze_reason", RU8); ("owner_type", RU8);
  ("vault_authority", RPubkey)].

Definition AuditLogRejected_layout : list (string * rust_type) := [
  ("vault", RPubkey); ("entries", RArray (RStruct AuditEntry_layout) 64); ("head", RU8);
  ("count", RU8); ("_padding", RArray RU8 13); ("bump", RU8)].

Definition AuditLogSuccess_layout : list (string * rust_type) := [
  ("vault", RPubkey); ("entries", RArray (RStruct AuditEntry_layout) 128); ("head", RU8);
  ("count", RU8); ("_padding", RArray RU8 13); ("bump", RU8)].

Definition PendingAgentGrant_layout : list (string * rust_type) := [
  ("vault", RPubkey); ("agent", RPubkey); ("capability", RU8); ("spending_limit_usd", RU64);
  ("queued_at", RI64); ("min_delay_seconds", RU64); ("bump", RU8); ("_padding", RArray RU8 6);
  ("pending_content_digest", RArray RU8 32); ("queued_at_slot", RU64)].

Definition PendingAgentPermissionsUpdate_layout : list (string * rust_type) := [
  ("vault", RPubkey); ("agent", RPubkey); ("new_capability", RU8); ("_reserved_cap", RArray RU8 7);
  ("spending_limit_usd", RU64); ("queued_at", RI64); ("executes_at", RI64);
  ("queued_at_slot", RU64); ("bump", RU8); ("cooldown_seconds", RU64);
  ("cosign_digest", RArray RU8 32); ("cosign_session", RPubkey)].

Definition PendingOwnershipTransfer_layout : list (string * rust_type) := [
  ("vault", RPubkey); ("current_owner", RPubkey); ("new_owner", RPubkey); ("queued_at", RI64);
  ("min_delay_seconds", RU64); ("is_multisig_target", RBool); ("bump", RU8);
  ("_padding", RArray RU8 6); ("queued_at_slot", RU64)].

Definition PendingPolicyUpdate_layout : list (string * rust_type) := [
  ("vault", RPubkey); ("queued_at", RI64); ("executes_at", RI64); ("queued_at_slot", RU64);
  ("daily_spending_cap_usd", ROption RU64); ("max_transaction_amount_usd", ROption RU64);
  ("protocol_mode", ROption RU8); ("protocols", ROption (RVec RPubkey));
  ("developer_fee_rate", ROption RU16); ("max_slippage_bps", ROption RU16);
  ("timelock_duration", ROption RU64); ("allowed_destinations", ROption (RVec RPubkey));
  ("session_expiry_seconds", ROption RU64); ("has_protocol_caps", ROption RBool);
  ("protocol_caps", ROption (RVec RU64)); ("destination_mode", ROption RU8); ("bump", RU8);
  ("operating_hours", ROption RU32); ("cosign_digest", RArray RU8 32); ("cosign_session", RPubkey);
  ("new_policy_preview_digest", RArray RU8 32); ("stable_balance_floor", ROption RU64);
  ("per_recipient_daily_cap_usd", ROption RU64); ("cosign_required", ROption RBool);
  ("cosign_session_pubkey", ROption RPubkey); ("operator_grant_delay_seconds", ROption RU64);
  ("cosign_approved", RBool); ("approved_at_slot", RU64); ("queued_policy_version", RU64);
  ("protocol_hashes", ROption (RArray (RArray RU8 32) 10))].

Definition PolicyConfig_layout : list (string * rust_type) := [
  ("vault", RPubkey); ("daily_spending_cap_usd", RU64); ("max_transaction_size_usd", RU64);
  ("protocol_mode", RU8); ("protocols", RVec RPubkey); ("developer_fee_rate", RU16);
  ("max_slippage_bps", RU16); ("timelock_duration", RU64); ("allowed_destinations", RVec RPubkey);
  ("has_pending_policy", RBool); ("has_protocol_caps", RBool); ("protocol_caps", RVec RU64);
  ("session_expiry_seconds", RU64); ("bump", RU8); ("policy_version", RU64);
  ("has_post_assertions", RU8); ("destination_mode", RU8);
  ("policy_preview_digest", RArray RU8 32); ("created_at_slot", RU64); ("operating_hours", RU32);
  ("destination_graylist", RVec (RStruct DestinationGraylistEntry_layout));
  ("auto_promote_grays", RBool); ("auto_revoke_threshold", RU8); ("stable_balance_floor", RU64);
  ("per_recipient_daily_cap_usd", RU64); ("cosign_required", RBool);
  ("cosign_session_pubkey", RPubkey); ("operator_grant_delay_seconds", RU64);
  ("protocol_hashes", RArray (RArray RU8 32) 10)].

Definition PostExecutionAssertions_layout : list (string * rust_type) := [
  ("vault", RArray RU8 32); ("entries", RArray (RStruct PostAssertionEntryZC_layout) 8);
  ("entry_count", RU8); ("bump", RU8); ("_padding", RArray RU8 6)].

Definition SessionAuthority_layout : list (string * rust_type) := [
  ("vault", RPubkey); ("agent", RPubkey); ("authorized", RBool); ("authorized_amount", RU64);
  ("authorized_token", RPubkey); ("authorized_protocol", RPubkey); ("expires_at_timestamp", RI64);
  ("delegated", RBool); ("delegation_token_account", RPubkey); ("protocol_fee", RU64);
  ("developer_fee", RU64); ("output_mint", RPubkey); ("stablecoin_balance_before", RU64);
  ("bump", RU8); ("assertion_snapshots", RArray (RArray RU8 32) 8);
  ("snapshot_lens", RArray RU8 8); ("nonce", RU64); ("output_stablecoin_account", RPubkey);
  ("output_swap_account", RPubkey); ("output_swap_mint", RPubkey);
  ("output_swap_balance_before", RU64)].

Definition SpendTracker_layout : list (string * rust_type) := [
  ("vault", RPubkey); ("buckets", RArray (RStruct EpochBucket_layout) 144);
  ("protocol_counters", RArray (RStruct ProtocolSpendCounter_layout) 10);
  ("last_write_epoch", RI64); ("bump", RU8); ("_padding", RArray RU8 7);
  ("per_recipient", RArray (RStruct PerRecipientCounter_layout) 10); ("per_recipient_count", RU8);
  ("_padding_recipient", RArray RU8 7)].

(** The struct behind each account of the client. *)
Definition account_layout (a : SigilAccount) : list (string * rust_type) :=
  match a with
  | AgentSpendOverlayAccount => AgentSpendOverlay_layout
  | AgentVaultAccount => AgentVault_layout
  | AuditLogRejectedAccount => AuditLogRejected_layout
  | AuditLogSuccessAccount => AuditLogSuccess_layout
  | PendingAgentGrantAccount => PendingAgentGrant_layout
  | PendingAgentPermissionsUpdateAccount => PendingAgentPermissionsUpdate_layout
  | PendingOwnershipTransferAccount => PendingOwnershipTransfer_layout
  | PendingPolicyUpdateAccount => PendingPolicyUpdate_layout
  | PolicyConfigAccount => PolicyConfig_layout
  | PostExecutionAssertionsAccount => PostExecutionAssertions_layout
  | SessionAuthorityAccount => SessionAuthority_layout
  | SpendTrackerAccount => SpendTracker_layout
  end.

(** The struct behind each type of the client. *)
Definition type_layouts : list (string * rust_type) := [
  ("ActionAuthorized", RStruct ActionAuthorized_layout);
  ("AgentAutoRevoked", RStruct AgentAutoRevoked_layout);
  ("AgentContributionEntry", RStruct AgentContributionEntry_layout);
  ("AgentEntry", RStruct AgentEntry_layout);
  ("AgentGrantApplied", RStruct AgentGrantApplied_layout);
  ("AgentGrantCancelled", RStruct AgentGrantCancelled_layout);
  ("AgentGrantQueued", RStruct AgentGrantQueued_layout);
  ("AgentPausedEvent", RStruct AgentPausedEvent_layout);
  ("AgentPermissionsChangeApplied", RStruct AgentPermissionsChangeApplied_layout);
  ("AgentPermissionsChangeCancelled", RStruct AgentPermissionsChangeCancelled_layout);
  ("AgentPermissionsChangeQueued", RStruct AgentPermissionsChangeQueued_layout);
  ("AgentRegistered", RStruct AgentRegistered_layout);
  ("AgentRevoked", RStruct AgentRevoked_layout);
  ("AgentSpendLimitChecked", RStruct AgentSpendLimitChecked_layout);
  ("AgentTransferExecuted", RStruct AgentTransferExecuted_layout);
  ("AgentUnpausedEvent", RStruct AgentUnpausedEvent_layout);
  ("AuditEntry", RStruct AuditEntry_layout);
  ("DelegationRevoked", RStruct DelegationRevoked_layout);
  ("DestinationGraylistEntry", RStruct DestinationGraylistEntry_layout);
  ("EpochBucket", RStruct EpochBucket_layout);
  ("FeesCollected", RStruct FeesCollected_layout);
  ("FundsDeposited", RStruct FundsDeposited_layout);
  ("FundsWithdrawn", RStruct FundsWithdrawn_layout);
  ("GraylistEntered", RStruct GraylistEntered_layout);
  ("GraylistPromoted", RStruct GraylistPromoted_layout);
  ("ObserveOnlyChanged", RStruct ObserveOnlyChanged_layout);
  ("OwnershipTransferAccepted", RStruct OwnershipTransferAccepted_layout);
  ("OwnershipTransferCancelled", RStruct OwnershipTransferCancelled_layout);
  ("OwnershipTransferInitiated", RStruct OwnershipTransferInitiated_layout);
  ("PerRecipientCounter", RStruct PerRecipientCounter_layout);
  ("PolicyChangeApplied", RStruct PolicyChangeApplied_layout);
  ("PolicyChangeCancelled", RStruct PolicyChangeCancelled_layout);
  ("PolicyChangeQueued", RStruct PolicyChangeQueued_layout);
  ("PolicyCosignApproved", RStruct PolicyCosignApproved_layout);
  ("PostAssertionChecked", RStruct PostAssertionChecked_layout);
  ("PostAssertionEntry", RStruct PostAssertionEntry_layout);
  ("PostAssertionEntryZC", RStruct PostAssertionEntryZC_layout);
  ("PostAssertionsClosed", RStruct PostAssertionsClosed_layout);
  ("PostAssertionsCreated", RStruct PostAssertionsCreated_layout);
  ("ProtocolSpendCounter", RStruct ProtocolSpendCounter_layout);
  ("SessionFinalized", RStruct SessionFinalized_layout);
  ("VaultClosed", RStruct VaultClosed_layout);
  ("VaultCreated", RStruct VaultCreated_layout);
  ("VaultFrozen", RStruct VaultFrozen_layout);
  ("VaultReactivated", RStruct VaultReactivated_layout);
  ("VaultStatus", REnum 3)].

(** ** The instructions of the program: [lib.rs] and [instructions/] *)

Definition accept_ownership_transfer_accounts : list ProgramAccount := [
  pa "new_owner" true true false Unpinned [];
  pa "vault" true false false (PinSeeds [RBytes [118; 97; 117; 108; 116]%Z; RField "vault" "vault_authority"; RField "vault" "vault_id"]) [];
  pa "policy" true false false (PinSeeds [RBytes [112; 111; 108; 105; 99; 121]%Z; RKey "vault"]) [];
  pa "pending" true false false (PinSeeds [RBytes [112; 101; 110; 100; 105; 110; 103; 95; 111; 119; 110; 101; 114]%Z; RKey "vault"]) ["vault"];
  pa "audit_log_success" true false false (PinSeeds [RBytes [97; 117; 100; 105; 116; 95; 115; 117; 99; 99; 101; 115; 115]%Z; RKey "vault"]) [];
  pa "slot_hashes_sysvar" false false false (PinAddress SLOT_HASHES_ID) [];
  pa "system_program" false false false (PinAddress SYSTEM_ID) []].

Definition accept_ownership_transfer_args : list (string * rust_type) := [].

Definition accept_ownership_transfer_multisig_accounts : list ProgramAccount := [
  pa "multisig_pda" true false false Unpinned [];
  pa "vault" true false false (PinSeeds [RBytes [118; 97; 117; 108; 116]%Z; RField "vault" "vault_authority"; RField "vault" "vault_id"]) [];
  pa "policy" true false false (PinSeeds [RBytes [112; 111; 108; 105; 99; 121]%Z; RKey "vault"]) [];
  pa "pending" true false false (PinSeeds [RBytes [112; 101; 110; 100; 105; 110; 103; 95; 111; 119; 110; 101; 114]%Z; RKey "vault"]) ["vault"];
  pa "audit_log_success" true false false (PinSeeds [RBytes [97; 117; 100; 105; 116; 95; 115; 117; 99; 99; 101; 115; 115]%Z; RKey "vault"]) [];
  pa "slot_hashes_sysvar" false false false (PinAddress SLOT_HASHES_ID) [];
  pa "system_program" false false false (PinAddress SYSTEM_ID) []].

Definition accept_ownership_transfer_multisig_args : list (string * rust_type) := [].

Definition agent_transfer_accounts : list ProgramAccount := [
  pa "agent" true true false Unpinned [];
  pa "vault" true false false (PinSeeds [RBytes [118; 97; 117; 108; 116]%Z; RField "vault" "vault_authority"; RField "vault" "vault_id"]) [];
  pa "policy" false false false (PinSeeds [RBytes [112; 111; 108; 105; 99; 121]%Z; RKey "vault"]) ["vault"];
  pa "tracker" true false false (PinSeeds [RBytes [116; 114; 97; 99; 107; 101; 114]%Z; RKey "vault"]) [];
  pa "agent_spend_overlay" true false false (PinSeeds [RBytes [97; 103; 101; 110; 116; 95; 115; 112; 101; 110; 100]%Z; RKey "vault"; RSlice [0]%Z]) [];
  pa "vault_token_account" true false false Unpinned [];
  pa "token_mint_account" false false false Unpinned [];
  pa "destination_token_account" true false false Unpinned [];
  pa "fee_destination_token_account" true false true Unpinned [];
  pa "protocol_treasury_token_account" true false true Unpinned [];
  pa "token_program" false false false (PinAddress TOKEN_ID) [];
  pa "audit_log_success" true false false (PinSeeds [RBytes [97; 117; 100; 105; 116; 95; 115; 117; 99; 99; 101; 115; 115]%Z; RKey "vault"]) [];
  pa "slot_hashes_sysvar" false false false (PinAddress SLOT_HASHES_ID) []].

Definition agent_transfer_args : list (string * rust_type) := [
  ("amount", RU64); ("expected_policy_version", RU64)].

Definition apply_agent_grant_accounts : list ProgramAccount := [
  pa "owner" true true false Unpinned [];
  pa "vault" true false false (PinSeeds [RBytes [118; 97; 117; 108; 116]%Z; RField "vault" "vault_authority"; RField "vault" "vault_id"]) ["owner"];
  pa "policy" true false false (PinSeeds [RBytes [112; 111; 108; 105; 99; 121]%Z; RKey "vault"]) [];
  pa "pending" true false false (PinSeeds [RBytes [112; 101; 110; 100; 105; 110; 103; 95; 97; 103; 101; 110; 116; 95; 103; 114; 97; 110; 116]%Z; RKey "vault"]) ["vault"];
  pa "agent_spend_overlay" true false false (PinSeeds [RBytes [97; 103; 101; 110; 116; 95; 115; 112; 101; 110; 100]%Z; RKey "vault"; RSlice [0]%Z]) [];
  pa "audit_log_success" true false false (PinSeeds [RBytes [97; 117; 100; 105; 116; 95; 115; 117; 99; 99; 101; 115; 115]%Z; RKey "vault"]) [];
  pa "slot_hashes_sysvar" false false false (PinAddress SLOT_HASHES_ID) []].

Definition apply_agent_grant_args : list (string * rust_type) := [].

Definition apply_agent_permissions_update_accounts : list ProgramAccount := [
  pa "owner" true true false Unpinned [];
  pa "vault" true false false (PinSeeds [RBytes [118; 97; 117; 108; 116]%Z; RField "vault" "vault_authority"; RField "vault" "vault_id"]) [];
  pa "policy" true false false (PinSeeds [RBytes [112; 111; 108; 105; 99; 121]%Z; RKey "vault"]) ["vault"];
  pa "pending_agent_perms" true false false (PinSeeds [RBytes [112; 101; 110; 100; 105; 110; 103; 95; 97; 103; 101; 110; 116; 95; 112; 101; 114; 109; 115]%Z; RKey "vault"; RField "pending_agent_perms" "agent"]) [];
  pa "agent_spend_overlay" true false false (PinSeeds [RBytes [97; 103; 101; 110; 116; 95; 115; 112; 101; 110; 100]%Z; RKey "vault"; RSlice [0]%Z]) [];
  pa "audit_log_success" true false false (PinSeeds [RBytes [97; 117; 100; 105; 116; 95; 115; 117; 99; 99; 101; 115; 115]%Z; RKey "vault"]) [];
  pa "slot_hashes_sysvar" false false false (PinAddress SLOT_HASHES_ID) []].

Definition apply_agent_permissions_update_args : list (string * rust_type) := [].

Definition apply_pending_policy_accounts : list ProgramAccount := [
  pa "owner" true true false Unpinned [];
  pa "vault" false false false (PinSeeds [RBytes [118; 97; 117; 108; 116]%Z; RField "vault" "vault_authority"; RField "vault" "vault_id"]) ["owner"];
  pa "policy" true false false (PinSeeds [RBytes [112; 111; 108; 105; 99; 121]%Z; RKey "vault"]) ["vault"];
  pa "pending_policy" true false false (PinSeeds [RBytes [112; 101; 110; 100; 105; 110; 103; 95; 112; 111; 108; 105; 99; 121]%Z; RKey "vault"]) ["vault"];
  pa "audit_log_success" true false false (PinSeeds [RBytes [97; 117; 100; 105; 116; 95; 115; 117; 99; 99; 101; 115; 115]%Z; RKey "vault"]) [];
  pa "slot_hashes_sysvar" false false false (PinAddress SLOT_HASHES_ID) [];
  pa "system_program" false false false (PinAddress SYSTEM_ID) []].

Definition apply_pending_policy_args : list (string * rust_type) := [].

Definition approve_pending_policy_accounts : list ProgramAccount := [
  pa "cosigner" false true false Unpinned [];
  pa "vault" false false false (PinSeeds [RBytes [118; 97; 117; 108; 116]%Z; RField "vault" "vault_authority"; RField "vault" "vault_id"]) [];
  pa "policy" false false false (PinSeeds [RBytes [112; 111; 108; 105; 99; 121]%Z; RKey "vault"]) ["vault"];
  pa "pending_policy" true false false (PinSeeds [RBytes [112; 101; 110; 100; 105; 110; 103; 95; 112; 111; 108; 105; 99; 121]%Z; RKey "vault"]) ["vault"]].

Definition approve_pending_policy_args : list (string * rust_type) := [].

Definition cancel_agent_grant_accounts : list ProgramAccount := [
  pa "owner" true true false Unpinned [];
  pa "vault" false false false (PinSeeds [RBytes [118; 97; 117; 108; 116]%Z; RField "vault" "vault_authority"; RField "vault" "vault_id"]) ["owner"];
  pa "policy" false false false (PinSeeds [RBytes [112; 111; 108; 105; 99; 121]%Z; RKey "vault"]) [];
  pa "pending" true false false (PinSeeds [RBytes [112; 101; 110; 100; 105; 110; 103; 95; 97; 103; 101; 110; 116; 95; 103; 114; 97; 110; 116]%Z; RKey "vault"]) ["vault"];
  pa "audit_log_success" true false false (PinSeeds [RBytes [97; 117; 100; 105; 116; 95; 115; 117; 99; 99; 101; 115; 115]%Z; RKey "vault"]) [];
  pa "slot_hashes_sysvar" false false false (PinAddress SLOT_HASHES_ID) [];
  pa "system_program" false false false (PinAddress SYSTEM_ID) []].

Definition cancel_agent_grant_args : list (string * rust_type) := [].

Definition cancel_agent_permissions_update_accounts : list ProgramAccount := [
  pa "owner" true true false Unpinned [];
  pa "vault" false false false (PinSeeds [RBytes [118; 97; 117; 108; 116]%Z; RField "vault" "vault_authority"; RField "vault" "vault_id"]) ["owner"];
  pa "policy" false false false (PinSeeds [RBytes [112; 111; 108; 105; 99; 121]%Z; RKey "vault"]) [];
  pa "pending_agent_perms" true false false (PinSeeds [RBytes [112; 101; 110; 100; 105; 110; 103; 95; 97; 103; 101; 110; 116; 95; 112; 101; 114; 109; 115]%Z; RKey "vault"; RField "pending_agent_perms" "agent"]) []].

Definition cancel_agent_permissions_update_args : list (string * rust_type) := [].

Definition cancel_ownership_transfer_accounts : list ProgramAccount := [
  pa "current_owner" true true false Unpinned [];
  pa "vault" false false false (PinSeeds [RBytes [118; 97; 117; 108; 116]%Z; RField "vault" "vault_authority"; RField "vault" "vault_id"]) [];
  pa "policy" false false false (PinSeeds [RBytes [112; 111; 108; 105; 99; 121]%Z; RKey "vault"]) [];
  pa "pending" true false false (PinSeeds [RBytes [112; 101; 110; 100; 105; 110; 103; 95; 111; 119; 110; 101; 114]%Z; RKey "vault"]) ["vault"];
  pa "audit_log_success" true false false (PinSeeds [RBytes [97; 117; 100; 105; 116; 95; 115; 117; 99; 99; 101; 115; 115]%Z; RKey "vault"]) [];
  pa "slot_hashes_sysvar" false false false (PinAddress SLOT_HASHES_ID) [];
  pa "system_program" false false false (PinAddress SYSTEM_ID) []].

Definition cancel_ownership_transfer_args : list (string * rust_type) := [].

Definition cancel_pending_policy_accounts : list ProgramAccount := [
  pa "owner" true true false Unpinned [];
  pa "vault" false false false (PinSeeds [RBytes [118; 97; 117; 108; 116]%Z; RField "vault" "vault_authority"; RField "vault" "vault_id"]) ["owner"];
  pa "policy" true false false (PinSeeds [RBytes [112; 111; 108; 105; 99; 121]%Z; RKey "vault"]) ["vault"];
  pa "pending_policy" true false false (PinSeeds [RBytes [112; 101; 110; 100; 105; 110; 103; 95; 112; 111; 108; 105; 99; 121]%Z; RKey "vault"]) ["vault"]].

Definition cancel_pending_policy_args : list (string * rust_type) := [].

Definition close_post_assertions_accounts : list ProgramAccount := [
  pa "owner" true true false Unpinned [];
  pa "vault" true false false (PinSeeds [RBytes [118; 97; 117; 108; 116]%Z; RField "vault" "vault_authority"; RField "vault" "vault_id"]) ["owner"];
  pa "policy" true false false (PinSeeds [RBytes [112; 111; 108; 105; 99; 121]%Z; RKey "vault"]) [];
  pa "post_assertions" true false false (PinSeeds [RBytes [112; 111; 115; 116; 95; 97; 115; 115; 101; 114; 116; 105; 111; 110; 115]%Z; RKey "vault"]) [];
  pa "system_program" false false false (PinAddress SYSTEM_ID) []].

Definition close_post_assertions_args : list (string * rust_type) := [
  ("expected_digest", RArray RU8 32)].

Definition close_vault_accounts : list ProgramAccount := [
  pa "owner" true true false Unpinned [];
  pa "vault" true false false (PinSeeds [RBytes [118; 97; 117; 108; 116]%Z; RField "vault" "vault_authority"; RField "vault" "vault_id"]) ["owner"];
  pa "policy" true false false (PinSeeds [RBytes [112; 111; 108; 105; 99; 121]%Z; RKey "vault"]) ["vault"];
  pa "tracker" true false false (PinSeeds [RBytes [116; 114; 97; 99; 107; 101; 114]%Z; RKey "vault"]) [];
  pa "agent_spend_overlay" true false false (PinSeeds [RBytes [97; 103; 101; 110; 116; 95; 115; 112; 101; 110; 100]%Z; RKey "vault"; RSlice [0]%Z]) [];
  pa "audit_log_success" true false false (PinSeeds [RBytes [97; 117; 100; 105; 116; 95; 115; 117; 99; 99; 101; 115; 115]%Z; RKey "vault"]) [];
  pa "audit_log_rejected" true false false (PinSeeds [RBytes [97; 117; 100; 105; 116; 95; 114; 101; 106; 101; 99; 116; 101; 100]%Z; RKey "vault"]) [];
  pa "system_program" false false false (PinAddress SYSTEM_ID) []].

Definition close_vault_args : list (string * rust_type) := [].

Definition create_post_assertions_accounts : list ProgramAccount := [
  pa "owner" true true false Unpinned [];
  pa "vault" true false false (PinSeeds [RBytes [118; 97; 117; 108; 116]%Z; RField "vault" "vault_authority"; RField "vault" "vault_id"]) ["owner"];
  pa "policy" true false false (PinSeeds [RBytes [112; 111; 108; 105; 99; 121]%Z; RKey "vault"]) [];
  pa "post_assertions" true false false (PinSeeds [RBytes [112; 111; 115; 116; 95; 97; 115; 115; 101; 114; 116; 105; 111; 110; 115]%Z; RKey "vault"]) [];
  pa "system_program" false false false (PinAddress SYSTEM_ID) []].

Definition create_post_assertions_args : list (string * rust_type) := [
  ("entries", RVec (RStruct PostAssertionEntry_layout)); ("expected_digest", RArray RU8 32)].

Definition deposit_funds_accounts : list ProgramAccount := [
  pa "owner" true true false Unpinned [];
  pa "vault" true false false (PinSeeds [RBytes [118; 97; 117; 108; 116]%Z; RField "vault" "vault_authority"; RField "vault" "vault_id"]) ["owner"];
  pa "mint" false false false Unpinned [];
  pa "owner_token_account" true false false (PinAta "owner" "mint") [];
  pa "vault_token_account" true false false (PinAta "vault" "mint") [];
  pa "audit_log_success" true false false (PinSeeds [RBytes [97; 117; 100; 105; 116; 95; 115; 117; 99; 99; 101; 115; 115]%Z; RKey "vault"]) [];
  pa "slot_hashes_sysvar" false false false (PinAddress SLOT_HASHES_ID) [];
  pa "token_program" false false false (PinAddress TOKEN_ID) [];
  pa "associated_token_program" false false false (PinAddress ASSOCIATED_TOKEN_ID) [];
  pa "system_program" false false false (PinAddress SYSTEM_ID) []].

Definition deposit_funds_args : list (string * rust_type) := [
  ("amount", RU64)].

Definition finalize_session_accounts : list ProgramAccount := [
  pa "payer" true true false Unpinned [];
  pa "vault" true false false (PinSeeds [RBytes [118; 97; 117; 108; 116]%Z; RField "vault" "vault_authority"; RField "vault" "vault_id"]) [];
  pa "session" true false false (PinSeeds [RBytes [115; 101; 115; 115; 105; 111; 110]%Z; RKey "vault"; RField "session" "agent"; RField "session" "authorized_token"]) ["vault"];
  pa "session_rent_recipient" true false false Unpinned [];
  pa "policy" false false false (PinSeeds [RBytes [112; 111; 108; 105; 99; 121]%Z; RKey "vault"]) [];
  pa "tracker" true false false (PinSeeds [RBytes [116; 114; 97; 99; 107; 101; 114]%Z; RKey "vault"]) [];
  pa "agent_spend_overlay" true false false (PinSeeds [RBytes [97; 103; 101; 110; 116; 95; 115; 112; 101; 110; 100]%Z; RKey "vault"; RSlice [0]%Z]) [];
  pa "vault_token_account" true false true Unpinned [];
  pa "output_stablecoin_account" true false true Unpinned [];
  pa "output_swap_account" true false true Unpinned [];
  pa "protocol_treasury_token_account" true false true Unpinned [];
  pa "fee_destination_token_account" true false true Unpinned [];
  pa "token_program" false false false (PinAddress TOKEN_ID) [];
  pa "system_program" false false false (PinAddress SYSTEM_ID) [];
  pa "instructions_sysvar" false false false (PinAddress INSTRUCTIONS_ID) [];
  pa "audit_log_success" true false false (PinSeeds [RBytes [97; 117; 100; 105; 116; 95; 115; 117; 99; 99; 101; 115; 115]%Z; RKey "vault"]) [];
  pa "audit_log_rejected" true false false (PinSeeds [RBytes [97; 117; 100; 105; 116; 95; 114; 101; 106; 101; 99; 116; 101; 100]%Z; RKey "vault"]) [];
  pa "slot_hashes_sysvar" false false false (PinAddress SLOT_HASHES_ID) []].

Definition finalize_session_args : list (string * rust_type) := [].

Definition freeze_vault_accounts : list ProgramAccount := [
  pa "owner" false true false Unpinned [];
  pa "vault" true false false (PinSeeds [RBytes [118; 97; 117; 108; 116]%Z; RField "vault" "vault_authority"; RField "vault" "vault_id"]) ["owner"];
  pa "audit_log_success" true false false (PinSeeds [RBytes [97; 117; 100; 105; 116; 95; 115; 117; 99; 99; 101; 115; 115]%Z; RKey "vault"]) [];
  pa "slot_hashes_sysvar" false false false (PinAddress SLOT_HASHES_ID) [];
  pa "token_program" false false false (PinAddress TOKEN_ID) []].

Definition freeze_vault_args : list (string * rust_type) := [].

Definition initialize_vault_accounts : list ProgramAccount := [
  pa "owner" true true false Unpinned [];
  pa "vault" true false false (PinSeeds [RBytes [118; 97; 117; 108; 116]%Z; RKey "owner"; RArgLe "vault_id"]) [];
  pa "policy" true false false (PinSeeds [RBytes [112; 111; 108; 105; 99; 121]%Z; RKey "vault"]) [];
  pa "tracker" true false false (PinSeeds [RBytes [116; 114; 97; 99; 107; 101; 114]%Z; RKey "vault"]) [];
  pa "agent_spend_overlay" true false false (PinSeeds [RBytes [97; 103; 101; 110; 116; 95; 115; 112; 101; 110; 100]%Z; RKey "vault"; RSlice [0]%Z]) [];
  pa "audit_log_success" true false false (PinSeeds [RBytes [97; 117; 100; 105; 116; 95; 115; 117; 99; 99; 101; 115; 115]%Z; RKey "vault"]) [];
  pa "audit_log_rejected" true false false (PinSeeds [RBytes [97; 117; 100; 105; 116; 95; 114; 101; 106; 101; 99; 116; 101; 100]%Z; RKey "vault"]) [];
  pa "fee_destination" false false false Unpinned [];
  pa "system_program" false false false (PinAddress SYSTEM_ID) []].

Definition initialize_vault_args : list (string * rust_type) := [
  ("vault_id", RU64); ("daily_spending_cap_usd", RU64); ("max_transaction_size_usd", RU64);
  ("protocol_mode", RU8); ("protocols", RVec RPubkey); ("developer_fee_rate", RU16);
  ("max_slippage_bps", RU16); ("timelock_duration", RU64); ("allowed_destinations", RVec RPubkey);
  ("protocol_caps", RVec RU64); ("observe_only", RBool); ("operating_hours", RU32);
  ("auto_promote_grays", RBool); ("auto_revoke_threshold", RU8); ("stable_balance_floor", RU64);
  ("per_recipient_daily_cap_usd", RU64); ("cosign_required", RBool);
  ("preview_digest", RArray RU8 32)].

Definition initiate_ownership_transfer_accounts : list ProgramAccount := [
  pa "owner" true true false Unpinned [];
  pa "vault" false false false (PinSeeds [RBytes [118; 97; 117; 108; 116]%Z; RField "vault" "vault_authority"; RField "vault" "vault_id"]) ["owner"];
  pa "policy" false false false (PinSeeds [RBytes [112; 111; 108; 105; 99; 121]%Z; RKey "vault"]) [];
  pa "pending" true false false (PinSeeds [RBytes [112; 101; 110; 100; 105; 110; 103; 95; 111; 119; 110; 101; 114]%Z; RKey "vault"]) [];
  pa "audit_log_success" true false false (PinSeeds [RBytes [97; 117; 100; 105; 116; 95; 115; 117; 99; 99; 101; 115; 115]%Z; RKey "vault"]) [];
  pa "slot_hashes_sysvar" false false false (PinAddress SLOT_HASHES_ID) [];
  pa "system_program" false false false (PinAddress SYSTEM_ID) []].

Definition initiate_ownership_transfer_args : list (string * rust_type) := [
  ("new_owner", RPubkey); ("is_multisig_target", RBool)].

Definition pause_agent_accounts : list ProgramAccount := [
  pa "owner" false true false Unpinned [];
  pa "vault" true false false (PinSeeds [RBytes [118; 97; 117; 108; 116]%Z; RField "vault" "vault_authority"; RField "vault" "vault_id"]) ["owner"];
  pa "policy" true false false (PinSeeds [RBytes [112; 111; 108; 105; 99; 121]%Z; RKey "vault"]) [];
  pa "audit_log_success" true false false (PinSeeds [RBytes [97; 117; 100; 105; 116; 95; 115; 117; 99; 99; 101; 115; 115]%Z; RKey "vault"]) [];
  pa "slot_hashes_sysvar" false false false (PinAddress SLOT_HASHES_ID) []].

Definition pause_agent_args : list (string * rust_type) := [
  ("agent_to_pause", RPubkey)].

Definition promote_graylist_destination_accounts : list ProgramAccount := [
  pa "owner" false true false Unpinned [];
  pa "vault" false false false (PinSeeds [RBytes [118; 97; 117; 108; 116]%Z; RField "vault" "vault_authority"; RField "vault" "vault_id"]) ["owner"];
  pa "policy" true false false (PinSeeds [RBytes [112; 111; 108; 105; 99; 121]%Z; RKey "vault"]) ["vault"]].

Definition promote_graylist_destination_args : list (string * rust_type) := [
  ("destination", RPubkey)].

Definition queue_agent_grant_accounts : list ProgramAccount := [
  pa "owner" true true false Unpinned [];
  pa "vault" false false false (PinSeeds [RBytes [118; 97; 117; 108; 116]%Z; RField "vault" "vault_authority"; RField "vault" "vault_id"]) ["owner"];
  pa "policy" false false false (PinSeeds [RBytes [112; 111; 108; 105; 99; 121]%Z; RKey "vault"]) [];
  pa "pending" true false false (PinSeeds [RBytes [112; 101; 110; 100; 105; 110; 103; 95; 97; 103; 101; 110; 116; 95; 103; 114; 97; 110; 116]%Z; RKey "vault"]) [];
  pa "audit_log_success" true false false (PinSeeds [RBytes [97; 117; 100; 105; 116; 95; 115; 117; 99; 99; 101; 115; 115]%Z; RKey "vault"]) [];
  pa "slot_hashes_sysvar" false false false (PinAddress SLOT_HASHES_ID) [];
  pa "system_program" false false false (PinAddress SYSTEM_ID) []].

Definition queue_agent_grant_args : list (string * rust_type) := [
  ("agent", RPubkey); ("capability", RU8); ("spending_limit_usd", RU64)].

Definition queue_agent_permissions_update_accounts : list ProgramAccount := [
  pa "owner" true true false Unpinned [];
  pa "vault" false false false (PinSeeds [RBytes [118; 97; 117; 108; 116]%Z; RField "vault" "vault_authority"; RField "vault" "vault_id"]) ["owner"];
  pa "policy" false false false (PinSeeds [RBytes [112; 111; 108; 105; 99; 121]%Z; RKey "vault"]) ["vault"];
  pa "pending_agent_perms" true false false (PinSeeds [RBytes [112; 101; 110; 100; 105; 110; 103; 95; 97; 103; 101; 110; 116; 95; 112; 101; 114; 109; 115]%Z; RKey "vault"; RArg "agent"]) [];
  pa "system_program" false false false (PinAddress SYSTEM_ID) []].

Definition queue_agent_permissions_update_args : list (string * rust_type) := [
  ("agent", RPubkey); ("new_capability", RU8); ("spending_limit_usd", RU64);
  ("cooldown_seconds", RU64); ("cosign_session", RPubkey)].

Definition queue_policy_update_accounts : list ProgramAccount := [
  pa "owner" true true false Unpinned [];
  pa "vault" false false false (PinSeeds [RBytes [118; 97; 117; 108; 116]%Z; RField "vault" "vault_authority"; RField "vault" "vault_id"]) ["owner"];
  pa "policy" true false false (PinSeeds [RBytes [112; 111; 108; 105; 99; 121]%Z; RKey "vault"]) ["vault"];
  pa "pending_policy" true false false (PinSeeds [RBytes [112; 101; 110; 100; 105; 110; 103; 95; 112; 111; 108; 105; 99; 121]%Z; RKey "vault"]) [];
  pa "system_program" false false false (PinAddress SYSTEM_ID) []].

Definition queue_policy_update_args : list (string * rust_type) := [
  ("daily_spending_cap_usd", ROption RU64); ("max_transaction_amount_usd", ROption RU64);
  ("protocol_mode", ROption RU8); ("protocols", ROption (RVec RPubkey));
  ("developer_fee_rate", ROption RU16); ("max_slippage_bps", ROption RU16);
  ("timelock_duration", ROption RU64); ("allowed_destinations", ROption (RVec RPubkey));
  ("session_expiry_seconds", ROption RU64); ("has_protocol_caps", ROption RBool);
  ("protocol_caps", ROption (RVec RU64)); ("destination_mode", ROption RU8);
  ("operating_hours", ROption RU32); ("stable_balance_floor", ROption RU64);
  ("per_recipient_daily_cap_usd", ROption RU64); ("cosign_required", ROption RBool);
  ("cosign_session_pubkey", ROption RPubkey); ("operator_grant_delay_seconds", ROption RU64);
  ("protocol_hashes", ROption (RArray (RArray RU8 32) 10)); ("cosign_session", RPubkey);
  ("new_policy_preview_digest", RArray RU8 32)].

Definition reactivate_vault_accounts : list ProgramAccount := [
  pa "owner" false true false Unpinned [];
  pa "vault" true false false (PinSeeds [RBytes [118; 97; 117; 108; 116]%Z; RField "vault" "vault_authority"; RField "vault" "vault_id"]) ["owner"];
  pa "policy" true false false (PinSeeds [RBytes [112; 111; 108; 105; 99; 121]%Z; RKey "vault"]) [];
  pa "audit_log_success" true false false (PinSeeds [RBytes [97; 117; 100; 105; 116; 95; 115; 117; 99; 99; 101; 115; 115]%Z; RKey "vault"]) [];
  pa "slot_hashes_sysvar" false false false (PinAddress SLOT_HASHES_ID) []].

Definition reactivate_vault_args : list (string * rust_type) := [
  ("new_agent", ROption RPubkey); ("new_agent_capability", ROption RU8)].

Definition record_agent_violation_accounts : list ProgramAccount := [
  pa "owner" false true false Unpinned [];
  pa "vault" true false false (PinSeeds [RBytes [118; 97; 117; 108; 116]%Z; RField "vault" "vault_authority"; RField "vault" "vault_id"]) ["owner"];
  pa "policy" true false false (PinSeeds [RBytes [112; 111; 108; 105; 99; 121]%Z; RKey "vault"]) ["vault"];
  pa "audit_log_success" true false false (PinSeeds [RBytes [97; 117; 100; 105; 116; 95; 115; 117; 99; 99; 101; 115; 115]%Z; RKey "vault"]) [];
  pa "slot_hashes_sysvar" false false false (PinAddress SLOT_HASHES_ID) []].

Definition record_agent_violation_args : list (string * rust_type) := [
  ("agent", RPubkey); ("error_code", RU32)].

Definition register_agent_accounts : list ProgramAccount := [
  pa "owner" false true false Unpinned [];
  pa "vault" true false false (PinSeeds [RBytes [118; 97; 117; 108; 116]%Z; RField "vault" "vault_authority"; RField "vault" "vault_id"]) ["owner"];
  pa "policy" true false false (PinSeeds [RBytes [112; 111; 108; 105; 99; 121]%Z; RKey "vault"]) [];
  pa "agent_spend_overlay" true false false (PinSeeds [RBytes [97; 103; 101; 110; 116; 95; 115; 112; 101; 110; 100]%Z; RKey "vault"; RSlice [0]%Z]) [];
  pa "audit_log_success" true false false (PinSeeds [RBytes [97; 117; 100; 105; 116; 95; 115; 117; 99; 99; 101; 115; 115]%Z; RKey "vault"]) [];
  pa "slot_hashes_sysvar" false false false (PinAddress SLOT_HASHES_ID) []].

Definition register_agent_args : list (string * rust_type) := [
  ("agent", RPubkey); ("capability", RU8); ("spending_limit_usd", RU64)].

Definition revoke_agent_accounts : list ProgramAccount := [
  pa "owner" false true false Unpinned [];
  pa "vault" true false false (PinSeeds [RBytes [118; 97; 117; 108; 116]%Z; RField "vault" "vault_authority"; RField "vault" "vault_id"]) ["owner"];
  pa "policy" true false false (PinSeeds [RBytes [112; 111; 108; 105; 99; 121]%Z; RKey "vault"]) [];
  pa "agent_spend_overlay" true false false (PinSeeds [RBytes [97; 103; 101; 110; 116; 95; 115; 112; 101; 110; 100]%Z; RKey "vault"; RSlice [0]%Z]) [];
  pa "audit_log_success" true false false (PinSeeds [RBytes [97; 117; 100; 105; 116; 95; 115; 117; 99; 99; 101; 115; 115]%Z; RKey "vault"]) [];
  pa "slot_hashes_sysvar" false false false (PinAddress SLOT_HASHES_ID) []].

Definition revoke_agent_args : list (string * rust_type) := [
  ("agent_to_remove", RPubkey)].

Definition set_observe_only_accounts : list ProgramAccount := [
  pa "vault" true false false (PinSeeds [RBytes [118; 97; 117; 108; 116]%Z; RField "vault" "vault_authority"; RField "vault" "vault_id"]) ["owner"];
  pa "policy" true false false (PinSeeds [RBytes [112; 111; 108; 105; 99; 121]%Z; RKey "vault"]) ["vault"];
  pa "owner" false true false Unpinned []].

Definition set_observe_only_args : list (string * rust_type) := [
  ("new_value", RBool)].

Definition unpause_agent_accounts : list ProgramAccount := [
  pa "owner" false true false Unpinned [];
  pa "vault" true false false (PinSeeds [RBytes [118; 97; 117; 108; 116]%Z; RField "vault" "vault_authority"; RField "vault" "vault_id"]) ["owner"];
  pa "policy" true false false (PinSeeds [RBytes [112; 111; 108; 105; 99; 121]%Z; RKey "vault"]) [];
  pa "audit_log_success" true false false (PinSeeds [RBytes [97; 117; 100; 105; 116; 95; 115; 117; 99; 99; 101; 115; 115]%Z; RKey "vault"]) [];
  pa "slot_hashes_sysvar" false false false (PinAddress SLOT_HASHES_ID) []].

Definition unpause_agent_args : list (string * rust_type) := [
  ("agent_to_unpause", RPubkey)].

Definition validate_and_authorize_accounts : list ProgramAccount := [
  pa "agent" true true false Unpinned [];
  pa "vault" true false false (PinSeeds [RBytes [118; 97; 117; 108; 116]%Z; RField "vault" "vault_authority"; RField "vault" "vault_id"]) [];
  pa "policy" false false false (PinSeeds [RBytes [112; 111; 108; 105; 99; 121]%Z; RKey "vault"]) ["vault"];
  pa "tracker" true false false (PinSeeds [RBytes [116; 114; 97; 99; 107; 101; 114]%Z; RKey "vault"]) [];
  pa "agent_spend_overlay" true false false (PinSeeds [RBytes [97; 103; 101; 110; 116; 95; 115; 112; 101; 110; 100]%Z; RKey "vault"; RSlice [0]%Z]) [];
  pa "session" true false false (PinSeeds [RBytes [115; 101; 115; 115; 105; 111; 110]%Z; RKey "vault"; RKey "agent"; RArg "token_mint"]) [];
  pa "vault_token_account" true false false Unpinned [];
  pa "token_mint_account" false false false Unpinned [];
  pa "output_stablecoin_account" true false true Unpinned [];
  pa "output_swap_account" true false true Unpinned [];
  pa "token_program" false false false (PinAddress TOKEN_ID) [];
  pa "system_program" false false false (PinAddress SYSTEM_ID) [];
  pa "instructions_sysvar" false false false (PinAddress INSTRUCTIONS_ID) []].

Definition validate_and_authorize_args : list (string * rust_type) := [
  ("token_mint", RPubkey); ("amount", RU64); ("target_protocol", RPubkey);
  ("expected_policy_version", RU64); ("expected_nonce", RU64);
  ("expected_intent_digest", RArray RU8 32)].

Definition withdraw_funds_accounts : list ProgramAccount := [
  pa "owner" true true false Unpinned [];
  pa "vault" true false false (PinSeeds [RBytes [118; 97; 117; 108; 116]%Z; RField "vault" "vault_authority"; RField "vault" "vault_id"]) ["owner"];
  pa "policy" false false false (PinSeeds [RBytes [112; 111; 108; 105; 99; 121]%Z; RKey "vault"]) [];
  pa "mint" false false false Unpinned [];
  pa "vault_token_account" true false false (PinAta "vault" "mint") [];
  pa "owner_token_account" true false false (PinAta "owner" "mint") [];
  pa "audit_log_success" true false false (PinSeeds [RBytes [97; 117; 100; 105; 116; 95; 115; 117; 99; 99; 101; 115; 115]%Z; RKey "vault"]) [];
  pa "slot_hashes_sysvar" false false false (PinAddress SLOT_HASHES_ID) [];
  pa "token_program" false false false (PinAddress TOKEN_ID) []].

Definition withdraw_funds_args : list (string * rust_type) := [
  ("amount", RU64)].

Definition program_accounts (i : SigilInstruction) : list ProgramAccount :=
  match i with
  | AcceptOwnershipTransfer => accept_ownership_transfer_accounts
  | AcceptOwnershipTransferMultisig => accept_ownership_transfer_multisig_accounts
  | AgentTransfer => agent_transfer_accounts
  | ApplyAgentGrant => apply_agent_grant_accounts
  | ApplyAgentPermissionsUpdate => apply_agent_permissions_update_accounts
  | ApplyPendingPolicy => apply_pending_policy_accounts
  | ApprovePendingPolicy => approve_pending_policy_accounts
  | CancelAgentGrant => cancel_agent_grant_accounts
  | CancelAgentPermissionsUpdate => cancel_agent_permissions_update_accounts
  | CancelOwnershipTransfer => cancel_ownership_transfer_accounts
  | CancelPendingPolicy => cancel_pending_policy_accounts
  | ClosePostAssertions => close_post_assertions_accounts
  | CloseVault => close_vault_accounts
  | CreatePostAssertions => create_post_assertions_accounts
  | DepositFunds => deposit_funds_accounts
  | FinalizeSession => finalize_session_accounts
  | FreezeVault => freeze_vault_accounts
  | InitializeVault => initialize_vault_accounts
  | InitiateOwnershipTransfer => initiate_ownership_transfer_accounts
  | PauseAgent => pause_agent_accounts
  | PromoteGraylistDestination => promote_graylist_destination_accounts
  | QueueAgentGrant => queue_agent_grant_accounts
  | QueueAgentPermissionsUpdate => queue_agent_permissions_update_accounts
  | QueuePolicyUpdate => queue_policy_update_accounts
  | ReactivateVault => reactivate_vault_accounts
  | RecordAgentViolation => record_agent_violation_accounts
  | RegisterAgent => register_agent_accounts
  | RevokeAgent => revoke_agent_accounts
  | SetObserveOnly => set_observe_only_accounts
  | UnpauseAgent => unpause_agent_accounts
  | ValidateAndAuthorize => validate_and_authorize_accounts
  | WithdrawFunds => withdraw_funds_accounts
  end.

Definition program_args (i : SigilInstruction) : list (string * rust_type) :=
  match i with
  | AcceptOwnershipTransfer => accept_ownership_transfer_args
  | AcceptOwnershipTransferMultisig => accept_ownership_transfer_multisig_args
  | AgentTransfer => agent_transfer_args
  | ApplyAgentGrant => apply_agent_grant_args
  | ApplyAgentPermissionsUpdate => apply_agent_permissions_update_args
  | ApplyPendingPolicy => apply_pending_policy_args
  | ApprovePendingPolicy => approve_pending_policy_args
  | CancelAgentGrant => cancel_agent_grant_args
  | CancelAgentPermissionsUpdate => cancel_agent_permissions_update_args
  | CancelOwnershipTransfer => cancel_ownership_transfer_args
  | CancelPendingPolicy => cancel_pending_policy_args
  | ClosePostAssertions => close_post_assertions_args
  | CloseVault => close_vault_args
  | CreatePostAssertions => create_post_assertions_args
  | DepositFunds => deposit_funds_args
  | FinalizeSession => finalize_session_args
  | FreezeVault => freeze_vault_args
  | InitializeVault => initialize_vault_args
  | InitiateOwnershipTransfer => initiate_ownership_transfer_args
  | PauseAgent => pause_agent_args
  | PromoteGraylistDestination => promote_graylist_destination_args
  | QueueAgentGrant => queue_agent_grant_args
  | QueueAgentPermissionsUpdate => queue_agent_permissions_update_args
  | QueuePolicyUpdate => queue_policy_update_args
  | ReactivateVault => reactivate_vault_args
  | RecordAgentViolation => record_agent_violation_args
  | RegisterAgent => register_agent_args
  | RevokeAgent => revoke_agent_args
  | SetObserveOnly => set_observe_only_args
  | UnpauseAgent => unpause_agent_args
  | ValidateAndAuthorize => validate_and_authorize_args
  | WithdrawFunds => withdraw_funds_args
  end.

(** ** From Rust to the client *)

Definition upper (c : ascii) : ascii :=
  let n := N_of_ascii c in if ((97 <=? n) && (n <=? 122))%N then ascii_of_N (n - 32)%N else c.

(** [snake_case] to [camelCase], as the client is generated. *)
Fixpoint camel_from (started capital : bool) (s : string) : string :=
  match s with
  | EmptyString => EmptyString
  | String "_" s => camel_from started started s
  | String c s => String (if capital then upper c else c) (camel_from true false s)
  end.
Definition camel (s : string) : string := camel_from false false s.

(** The bytes of a Rust value: Borsh for arguments, plain accounts and events,
    the memory of the struct for zero-copy accounts. *)
Fixpoint rust_codec (t : rust_type) : codec :=
  match t with
  | RU8 => CPrim (PUint 1) | RU16 => CPrim (PUint 2) | RU32 => CPrim (PUint 4) | RU64 => CPrim (PUint 8)
  | RI64 => CPrim PI64
  | RBool => CPrim PBool
  | RPubkey => CPrim PAddress
  | ROption t => COption (rust_codec t)
  | RVec RU8 => CPrim PSized
  | RVec t => CArray None (rust_codec t)
  | RArray RU8 n => CPrim (PFixed n)
  | RArray t n => CArray (Some n) (rust_codec t)
  | RStruct fs => CStruct ((fix go fs := match fs with
                                         | [] => []
                                         | (n, t) :: fs => (camel n, rust_codec t) :: go fs
                                         end) fs)
  | REnum n => CPrim (PEnum n)
  end.

Definition rust_fields (fs : list (string * rust_type)) : list (string * codec) :=
  (λ f, (camel f.1, rust_codec f.2)) <$> fs.

(** Size and alignment of a zero-copy struct, if its fields follow each other
    without a gap. *)
Fixpoint packed (t : rust_type) : option (nat * nat) :=
  match t with
  | RU8 | RBool => Some (1, 1) | RU16 => Some (2, 2) | RU32 => Some (4, 4) | RU64 | RI64 => Some (8, 8)
  | RPubkey => Some (32, 1)
  | RArray t n => '(s, a) ← packed t; Some (n * s, a)
  | RStruct fs =>
      '(size, align) ← (fix go (offset align : nat) fs :=
        match fs with
        | [] => Some (offset, align)
        | (_, t) :: fs =>
            '(s, a) ← packed t;
            if Nat.eqb (offset mod a) 0 then go (offset + s) (Nat.max align a) fs else None
        end) 0 1 fs;
      if Nat.eqb (size mod align) 0 then Some (size, align) else None
  | REnum _ | ROption _ | RVec _ => None
  end.

(** The accounts the program maps as zero-copy ([AccountLoader]). *)
Definition zero_copy : list SigilAccount :=
  [AgentSpendOverlayAccount; AuditLogRejectedAccount; AuditLogSuccessAccount; PostExecutionAssertionsAccount;
   SpendTrackerAccount].

(** ** The codecs of the client are the layouts of the program *)

Definition fields_eqb (fs gs : list (string * codec)) : bool := codec_eqb (CStruct fs) (CStruct gs).

Lemma fields_eqb_eq fs gs : fields_eqb fs gs = true → fs = gs.
Proof. by intros [= ->]%codec_eqb_eq. Qed.

Lemma type_layouts_agree :
  Forall (λ t, ∃ l, entry t.1.1 type_layouts = Some l ∧ t.2 = rust_codec l) type_codecs.
Proof.
  repeat (apply Forall_cons; split; [eexists; split; [vm_compute; reflexivity|apply codec_eqb_eq; vm_compute; reflexivity]|]).
  apply Forall_nil_2.
Qed.

(** C34: One layout on both sides.  The data of every instruction has, behind
    the discriminator, the arguments of the program's entry point in their order
    and with their types; every account decoder has the fields of the program's
    struct, every type and event too; and the structs the program maps straight
    into memory have no padding of the compiler's between their fields, so that
    the decoder, which knows of none, reads them at the right offsets. *)
Theorem client_layouts_are_the_programs :
  (∀ f i, tail (te_struct (b_data (instruction_builder f i))) = rust_fields (program_args i)) ∧
  (∀ a, tail (account_decoder a) = rust_fields (account_layout a)) ∧
  Forall (λ t, ∃ l, entry t.1.1 type_layouts = Some l ∧ t.2 = rust_codec l) type_codecs ∧
  Forall (λ a, ∃ n align, packed (RStruct (account_layout a)) = Some (n, align) ∧
                          account_size a = Some (8 + n)%nat) zero_copy.
Proof.
  split; [|split; [|split; [exact type_layouts_agree|]]].
  - intros f i. apply fields_eqb_eq. destruct f, i; vm_compute; reflexivity.
  - intros a. apply fields_eqb_eq. destruct a; vm_compute; reflexivity.
  - repeat (apply Forall_cons; split; [do 2 eexists; split; vm_compute; reflexivity|]). apply Forall_nil_2.
Qed.

(** ** The checks of the program on the accounts of an instruction *)

Definition writable (m : AccountMeta) : Prop :=
  acc_role m = RoleNumber 1 ∨ acc_role m = RoleNumber 3.
Definition signs (m : AccountMeta) : Prop :=
  acc_role m = RoleNumber 2 ∨ acc_role m = RoleNumber 3.

(** An optional account may be the program itself: it is then left out. *)
Definition left_out (a : ProgramAccount) (m : AccountMeta) : Prop :=
  pa_optional a = true ∧ acc_address m = SIGIL_PROGRAM_ADDRESS.

(** [mut] and [Signer]. *)
Definition flags_hold (a : ProgramAccount) (m : AccountMeta) : Prop :=
  (pa_mut a = true → writable m) ∧ (pa_signer a = true → signs m).

(** A seed of a constraint as one of the client; none for a field of an account. *)
Definition seed_of (s : rust_seed) : option seed :=
  match s with
  | RBytes bs | RSlice bs => Some (SBytes bs)
  | RKey a => Some (SAccount (camel a))
  | RArg n => Some (SArg (camel n) (CPrim PAddress))
  | RArgLe n => Some (SArg (camel n) (CPrim (PUint 8)))
  | RField _ _ => None
  end.

(** The accounts of an instruction under the names of the program's struct. *)
Definition given (specs : list ProgramAccount) (metas : list AccountMeta) : gmap string resolved :=
  list_to_map (zip (camel ∘ pa_name <$> specs) (RAddress ∘ acc_address <$> metas)).

Section Checks.
Context `{K : Kit} `{C : ClientCore}.

Definition derived_from (program : string) (seeds : list seed) (args : list (string * val))
    (accounts : gmap string resolved) (address : string) : Prop :=
  ∃ bs bump, mapM (seed_bytes args accounts) seeds = Ok bs ∧
             getProgramDerivedAddress program bs = Ok (address, bump).

(** The address constraint of an account.  Seeds that are fields of accounts
    are not known to the client and are left to the chain. *)
Definition pin_holds (args : list (string * val)) (accounts : gmap string resolved)
    (p : pin) (m : AccountMeta) : Prop :=
  match p with
  | Unpinned => True
  | PinSeeds seeds =>
      match mapM seed_of seeds with
      | Some seeds => derived_from SIGIL_PROGRAM_ADDRESS seeds args accounts (acc_address m)
      | None => True
      end
  | PinAddress a => acc_address m = a
  | PinAta authority mint =>
      derived_from ASSOCIATED_TOKEN_ID [SAccount (camel authority); SBytes TOKEN_ID_BYTES; SAccount (camel mint)]
        args accounts (acc_address m)
  end.
End Checks.

(** ** The tables against the checks *)

Definition pin_default (p : pin) : option account_default :=
  match p with
  | Unpinned => None
  | PinSeeds seeds => DDerived None <$> mapM seed_of seeds
  | PinAddress a => Some (DAddress a)
  | PinAta authority mint =>
      Some (DDerived (Some ASSOCIATED_TOKEN_ID)
              [SAccount (camel authority); SBytes TOKEN_ID_BYTES; SAccount (camel mint)])
  end.

Definition seed_eqb (s t : seed) : bool :=
  match s, t with
  | SBytes a, SBytes b => bool_decide (a = b)
  | SAccount a, SAccount b => bool_decide (a = b)
  | SArg n c, SArg m d => bool_decide (n = m) && codec_eqb c d
  | _, _ => false
  end.

Fixpoint seeds_eqb (ss ts : list seed) : bool :=
  match ss, ts with
  | [], [] => true
  | s :: ss, t :: ts => seed_eqb s t && seeds_eqb ss ts
  | _, _ => false
  end.

Definition default_eqb (d e : account_default) : bool :=
  match d, e with
  | DAddress a, DAddress b => bool_decide (a = b)
  | DDerived p ss, DDerived q ts => bool_decide (p = q) && seeds_eqb ss ts
  | _, _ => false
  end.

Lemma seed_eqb_eq s t : seed_eqb s t = true → s = t.
Proof.
  destruct s, t; cbn; try done; [by intros ->%bool_decide_eq_true..|].
  by intros [->%bool_decide_eq_true ->%codec_eqb_eq]%andb_true_iff.
Qed.

Lemma seeds_eqb_eq ss ts : seeds_eqb ss ts = true → ss = ts.
Proof.
  revert ts. induction ss as [|s ss IH]; intros [|t ts]; cbn; try done.
  by intros [->%seed_eqb_eq ->%IH]%andb_true_iff.
Qed.

Lemma default_eqb_eq d e : default_eqb d e = true → d = e.
Proof.
  destruct d, e; cbn; try done; [by intros ->%bool_decide_eq_true|].
  by intros [->%bool_decide_eq_true ->%seeds_eqb_eq]%andb_true_iff.
Qed.

Definition signer_names (it : InputType) : list string := (filter (λ a, a.2 = true) (it_accounts it)).*1.*1.

(** One account of the program against the client's tables: its flags, and its
    default, which is the one its constraint prescribes; an account without a
    default is in the input or optional. *)
Definition account_agrees (b : Builder) (it : InputType) (p : Parser) (a : ProgramAccount) : bool :=
  let n := camel (pa_name a) in
  bool_decide (entry n (b_accounts b) = Some (pa_mut a)) &&
  (negb (pa_signer a) || bool_decide (n ∈ signer_names it ∧ n ∉ (b_defaults b).*1)) &&
  bool_decide (entry n (p_accounts p) = Some (pa_optional a)) &&
  match entry n (b_defaults b) with
  | Some d => match pin_default (pa_pin a) with Some e => default_eqb d e | None => false end
  | None => true
  end.

(** The seeds of every default are accounts of the instruction. *)
Definition seeds_inside (b : Builder) : bool :=
  forallb (λ d, match d.2 with
                | DDerived _ seeds =>
                    forallb (λ s, match s with SAccount n => bool_decide (n ∈ b_metas b) | _ => true end) seeds
                | DAddress _ => true
                end) (b_defaults b).

Definition interface_agrees (f : flavour) (i : SigilInstruction) : bool :=
  bool_decide (b_metas (instruction_builder f i) = camel ∘ pa_name <$> program_accounts i) &&
  bool_decide (NoDup (b_metas (instruction_builder f i))) &&
  seeds_inside (instruction_builder f i) &&
  forallb (account_agrees (instruction_builder f i) (instruction_input f i) (instruction_parser i)) (program_accounts i).

Lemma interfaces_agree f i : interface_agrees f i = true.
Proof. destruct f, i; vm_compute; reflexivity. Qed.

Section Refinement.
Context `{K : Kit} `{C : ClientCore} `{!LawfulKit K, !LawfulCore K C}.

(** The accounts of the input that must sign are signers. *)
Definition signed (f : flavour) (i : SigilInstruction) (input : gmap string resolved) : Prop :=
  ∀ n r, n ∈ signer_names (instruction_input f i) → input !! n = Some r → is_signer r = true.

Lemma interface_inv f i :
  b_metas (instruction_builder f i) = camel ∘ pa_name <$> program_accounts i ∧
  NoDup (b_metas (instruction_builder f i)) ∧ seeds_inside (instruction_builder f i) = true ∧
  ∀ a, a ∈ program_accounts i →
    account_agrees (instruction_builder f i) (instruction_input f i) (instruction_parser i) a = true.
Proof.
  pose proof (interfaces_agree f i) as H. unfold interface_agrees in H.
  rewrite !andb_true_iff, !bool_decide_eq_true in H. destruct H as [[[H1 H2] H3] H4].
  split; [done|split; [done|split; [done|]]]. intros a Ha.
  apply (proj1 (forallb_forall _ _) H4). by apply list_elem_of_In.
Qed.

Lemma account_agrees_inv b it p a :
  account_agrees b it p a = true →
  let n := camel (pa_name a) in
  entry n (b_accounts b) = Some (pa_mut a) ∧
  (pa_signer a = true → n ∈ signer_names it ∧ n ∉ (b_defaults b).*1) ∧
  entry n (p_accounts p) = Some (pa_optional a) ∧
  (∀ d, entry n (b_defaults b) = Some d → pin_default (pa_pin a) = Some d).
Proof.
  unfold account_agrees. cbn zeta. rewrite !andb_true_iff, orb_true_iff, !bool_decide_eq_true.
  intros [[[H1 H2] H3] H4]. split; [done|split; [|split; [done|]]].
  - intros Hs. rewrite Hs in H2. by destruct H2 as [?|?].
  - intros d Hd. rewrite Hd in H4. destruct (pin_default _) as [e|]; [|done]. by rewrite (default_eqb_eq _ _ H4).
Qed.

Lemma entry_unique {A} n (l : list (string * A)) a :
  NoDup l.*1 → (n, a) ∈ l → entry n l = Some a.
Proof.
  induction l as [|[m b] l IH]; cbn; [by intros _ ?%not_elem_of_nil|].
  intros [Hm Hd]%NoDup_cons [[= -> ->]|Hin]%elem_of_cons; case_bool_decide as E; try done.
  - subst. contradict Hm. apply list_elem_of_fmap. by exists (m, a).
  - by apply IH.
Qed.

Lemma entry_none {A} n (l : list (string * A)) : entry n l = None → n ∉ l.*1.
Proof. intros He Hn. destruct (entry_in _ _ Hn) as [a Ha]. congruence. Qed.

Lemma original_none b input n : input !! n = None → original_accounts b input !! n = None.
Proof. intros Hn. apply map_lookup_filter_None. by left. Qed.

(** The accounts of the instruction by name are the resolved ones. *)
Lemma given_lookup specs (g : string → AccountMeta) n :
  NoDup (camel ∘ pa_name <$> specs) → n ∈ (camel ∘ pa_name <$> specs) →
  given specs (g <$> (camel ∘ pa_name <$> specs)) !! n = Some (RAddress (acc_address (g n))).
Proof.
  intros Hd Hn. unfold given. apply elem_of_list_to_map_1.
  - rewrite fst_zip; [done|]. by rewrite !length_fmap.
  - apply list_elem_of_lookup in Hn as [k Hk]. apply list_elem_of_lookup. exists k.
    apply lookup_zip_with_Some. eexists _, _. split; [reflexivity|split; [done|]].
    by rewrite !list_lookup_fmap, <- (list_lookup_fmap _ specs), Hk.
Qed.

Lemma entry_elem {A} n (l : list (string * A)) a : entry n l = Some a → (n, a) ∈ l.
Proof.
  induction l as [|[m b] l IH]; cbn; [done|].
  case_bool_decide as E; [subst; intros [= ->]|intros H]; apply elem_of_cons; eauto.
Qed.

(** The accounts in the seeds of a default are accounts of the instruction. *)
Lemma default_seeds_inside f i n prog seeds :
  entry n (b_defaults (instruction_builder f i)) = Some (DDerived prog seeds) →
  Forall (λ s, match s with SAccount n => n ∈ b_metas (instruction_builder f i) | _ => True end) seeds.
Proof.
  intros He%entry_elem. destruct (interface_inv f i) as (_ & _ & Hin & _).
  unfold seeds_inside in Hin. rewrite forallb_forall in Hin.
  specialize (Hin _ (proj1 (list_elem_of_In _ _) He)). cbn in Hin. rewrite forallb_forall in Hin.
  apply Forall_forall. intros s Hs. specialize (Hin s (proj1 (list_elem_of_In _ _) Hs)).
  destruct s; [done| |done]. by apply bool_decide_eq_true in Hin.
Qed.

(** They are read off the instruction as they were resolved. *)
Lemma seed_given f i args accounts s bs :
  let b := instruction_builder f i in
  match s with SAccount n => n ∈ b_metas b | _ => True end →
  seed_bytes args accounts s = Ok bs →
  seed_bytes args (given (program_accounts i) (final_meta b SIGIL_PROGRAM_ADDRESS accounts <$> b_metas b)) s = Ok bs.
Proof.
  cbn zeta. destruct (interface_inv f i) as (Hm & Hd & _). rewrite Hm in Hd |- *.
  destruct s as [x|m|m c]; cbn; [done| |done]. intros Hn Hb. rewrite given_lookup by done. unfold final_meta.
  destruct (accounts !! m) as [r|] eqn:E.
  - by rewrite law_address_present in Hb |- *.
  - pose proof (law_address_absent m) as Ha. inv_ok. by rewrite E0 in Ha.
Qed.

Lemma seeds_given f i args accounts n prog seeds l :
  let b := instruction_builder f i in
  entry n (b_defaults b) = Some (DDerived prog seeds) →
  mapM (seed_bytes args accounts) seeds = Ok l →
  mapM (seed_bytes args (given (program_accounts i) (final_meta b SIGIL_PROGRAM_ADDRESS accounts <$> b_metas b)))
    seeds = Ok l.
Proof.
  cbn zeta. intros Hs%default_seeds_inside Hl. apply mapM_Ok_iff in Hl. apply mapM_Ok_iff.
  induction Hl as [|s bs seeds l Hb _ IH]; [constructor|]. apply Forall_cons in Hs as [Hs Hss].
  constructor; [by apply seed_given|by apply IH].
Qed.

(** The address a default gives meets the constraint it was made for. *)
Lemma default_pinned f i args accounts n d r p :
  let b := instruction_builder f i in
  entry n (b_defaults b) = Some d → pin_default p = Some d → accounts !! n = Some r →
  default_value SIGIL_PROGRAM_ADDRESS args accounts d = Ok r →
  pin_holds args (given (program_accounts i) (final_meta b SIGIL_PROGRAM_ADDRESS accounts <$> b_metas b)) p
    (final_meta b SIGIL_PROGRAM_ADDRESS accounts n).
Proof.
  cbn zeta. intros He Hp Hn Hv. unfold final_meta at 2. rewrite Hn. cbn [acc_address meta_of].
  destruct p as [|seeds|a|authority mint]; cbn [pin_default pin_holds] in Hp |- *; [done| | |].
  - destruct (mapM seed_of seeds) as [ss|]; [|done]. injection Hp as <-. cbn in Hv.
    destruct (mapM (seed_bytes args accounts) ss) as [l|] eqn:E; [|done]. cbn in Hv.
    destruct (getProgramDerivedAddress _ l) as [[a bump]|] eqn:Ea; [|done]. injection Hv as <-.
    exists l, bump. split; [by eapply seeds_given|done].
  - injection Hp as <-. by injection Hv as <-.
  - injection Hp as <-. cbn [default_value] in Hv.
    destruct (mapM (seed_bytes args accounts) _) as [l|] eqn:E; [|done]. cbn in Hv.
    destruct (getProgramDerivedAddress _ l) as [[a bump]|] eqn:Ea; [|done]. injection Hv as <-.
    exists l, bump. split; [by eapply seeds_given|done].
Qed.

Lemma flags_of f i input args accounts a r :
  let b := instruction_builder f i in
  account_agrees b (instruction_input f i) (instruction_parser i) a = true →
  camel (pa_name a) ∈ b_metas b → signed f i input →
  resolve_accounts b input args None = Ok accounts → accounts !! camel (pa_name a) = Some r →
  flags_hold a (final_meta b SIGIL_PROGRAM_ADDRESS accounts (camel (pa_name a))).
Proof.
  cbn zeta. intros (He & Hs & _ & _)%account_agrees_inv Hin Hsig Hr Hn. unfold final_meta. rewrite Hn, He.
  split; cbn.
  - intros ->. unfold writable. cbn. destruct (is_signer r); cbn; auto.
  - intros [Hsn Hnd]%Hs. unfold resolve_accounts in Hr. rewrite (resolve_defaults_other _ _ _ _ _ _ Hr Hnd) in Hn.
    apply map_lookup_filter_Some in Hn as [Hn _]. unfold signs. cbn. rewrite (Hsig _ _ Hsn Hn).
    destruct (pa_mut a); cbn; auto.
Qed.

(** C24: What the client builds, the program accepts as accounts.  An
    instruction built from a complete and signed input has as many accounts as
    the program's struct, in its order; each is left out where the struct lets it
    be, or is writable and signs wherever the struct says so, and if the input
    did not name it, it is at the address the constraint of the struct gives for
    the other accounts and the arguments of this very instruction. *)
Theorem built_accounts_pass_the_programs_checks (f : flavour) (i : SigilInstruction)
    (input : gmap string resolved) (args : list (string * val)) (ix : Ix) :
  complete f i input → signed f i input → arguments i args →
  build (instruction_builder f i) input args None = Ok ix →
  ∃ metas, ix_accounts ix = Some metas ∧ length metas = length (program_accounts i) ∧
    ∀ k a m, program_accounts i !! k = Some a → metas !! k = Some m →
      left_out a m ∨
      (flags_hold a m ∧
       (input !! camel (pa_name a) = None → pin_holds args (given (program_accounts i) metas) (pa_pin a) m)).
Proof.
  intros [Hin Hval] Hsig Hargs%(same_arguments f) Hb.
  destruct (accounts_resolved _ _ _ input args None (parsers_agree f i) (inputs_agree f i) Hargs Hin Hval)
    as (accounts & Hr & Hall).
  destruct (build_resolved _ _ _ _ _ _ (parsers_agree f i) Hargs Hr) as (data & _ & Hb').
  rewrite Hb in Hb'. injection Hb' as ->. cbn [ix_accounts default].
  destruct (interface_inv f i) as (Hm & Hd & _ & Hag). eexists. split; [reflexivity|].
  split; [by rewrite length_fmap, Hm, length_fmap|]. intros k a m Ha Hk.
  assert (Hka : b_metas (instruction_builder f i) !! k = Some (camel (pa_name a))).
  { rewrite Hm. by rewrite list_lookup_fmap, Ha. }
  rewrite list_lookup_fmap, Hka in Hk. injection Hk as <-. apply list_elem_of_lookup_2 in Hka.
  specialize (Hag a (list_elem_of_lookup_2 _ _ _ Ha)).
  pose proof (account_agrees_inv _ _ _ _ Hag) as (_ & _ & Ho & Hpin).
  destruct (accounts !! camel (pa_name a)) as [r|] eqn:En.
  - right. split; [by eapply flags_of|]. intros Hnone.
    destruct (entry (camel (pa_name a)) (b_defaults (instruction_builder f i))) as [d|] eqn:Ed.
    + destruct (default_final _ _ _ _ _ _ _ Ed (original_none _ _ _ Hnone) Hr) as (r' & Hr' & Hv).
      eapply default_pinned; [exact Ed|by apply Hpin|exact Hr'|exact Hv].
    + unfold resolve_accounts in Hr.
      rewrite (resolve_defaults_other _ _ _ _ _ _ Hr (entry_none _ _ Ed)), original_none in En by done. done.
  - left. destruct (Hall _ Hka) as [[r Hr']|Hopt]; [congruence|]. split; [|unfold final_meta; by rewrite En].
    apply list_elem_of_fmap in Hopt as ([n o] & Hn & [Ho' Hin']%list_elem_of_filter). cbn in Hn, Ho'. subst n o.
    pose proof (parser_agrees_inv _ _ (parsers_agree f i)) as (Hpm & _).
    rewrite (entry_unique _ _ true) in Ho; [by injection Ho|by rewrite <- Hpm|done].
Qed.
End Refinement.

(** ** Witness *)

Lemma demo_signed : signed Async AgentTransfer demo_transfer.
Proof.
  intros n r. change (signer_names (instruction_input Async AgentTransfer)) with ["agent"].
  intros ->%list_elem_of_singleton Hr. vm_compute in Hr. by injection Hr as <-.
Qed.

Lemma built_accounts_pass_the_programs_checks_witness :
  complete Async AgentTransfer demo_transfer ∧ signed Async AgentTransfer demo_transfer ∧
  ∃ metas, ix_accounts demo_ix = Some metas ∧ length metas = 13%nat.
Proof.
  split; [exact demo_complete|split; [exact demo_signed|]].
  destruct (built_accounts_pass_the_programs_checks Async AgentTransfer demo_transfer demo_args demo_ix
              demo_complete demo_signed demo_arguments demo_built) as (metas & Hm & Hl & _).
  exists metas. split; [exact Hm|exact Hl].
Defined.
