(* ===== verification/Idl.v ===== *)
(** * The published interface of the program

    [target/types/sigil.ts], the description the client is generated from and
    the tests are typed with: each instruction with its discriminator, accounts
    and arguments, the discriminators of accounts and events, the error codes and
    the types; and [generated/errors/sigil.ts], the error constants and messages
    of the generated client.  The theorem shows that this description is the
    program's: that of the account structs, entry points and layouts of
    [ProgramInterface], of the client's discriminators and of the error and event
    tables other components use. *)
From S2P Require Import Prelude IntentDigest KitCodec ProgramClient GeneratedTypes.
From S2P Require Import GeneratedInstructions GeneratedClient ProgramInterface EventTable.

Inductive idl_type : Type :=
| IU8 | IU16 | IU32 | IU64 | II64 | IBool | IPubkey | IBytes
| IOption (t : idl_type)
| IVec (t : idl_type)
| IArray (t : idl_type) (n : nat)
| IDefined (name : string).

Inductive idl_seed : Type :=
| IConst (bs : list Z)
| IAccount (path : string)
| IArg (path : string).

(** The flags are false and the lists empty where the description leaves them
    out; a derived address has its seeds and, if it is not this program's, the
    bytes of the program. *)
Record IdlAccount : Type := ia {
  ia_name : string; ia_writable : bool; ia_signer : bool; ia_optional : bool;
  ia_address : option string; ia_pda : option (list idl_seed * option (list Z)); ia_relations : list string;
}.

Record IdlInstruction : Type := {
  ii_name : string; ii_discriminator : list Z; ii_accounts : list IdlAccount; ii_args : list (string * idl_type);
}.

Inductive IdlTypeDef : Type :=
| IdlStruct (bytemuck : bool) (fields : list (string * idl_type))
| IdlEnum (variants : nat).

Definition idl_acceptOwnershipTransfer_accounts : list IdlAccount := [
  ia "newOwner" true true false None None [];
  ia "vault" true false false None (Some ([IConst [118; 97; 117; 108; 116]%Z; IAccount "vault.vault_authority"; IAccount "vault.vault_id"], None)) ["pending"];
  ia "policy" true false false None (Some ([IConst [112; 111; 108; 105; 99; 121]%Z; IAccount "vault"], None)) [];
  ia "pending" true false false None (Some ([IConst [112; 101; 110; 100; 105; 110; 103; 95; 111; 119; 110; 101; 114]%Z; IAccount "vault"], None)) [];
  ia "auditLogSuccess" true false false None (Some ([IConst [97; 117; 100; 105; 116; 95; 115; 117; 99; 99; 101; 115; 115]%Z; IAccount "vault"], None)) [];
  ia "slotHashesSysvar" false false false (Some "SysvarS1otHashes111111111111111111111111111") None [];
  ia "systemProgram" false false false (Some "11111111111111111111111111111111") None []].

Definition idl_acceptOwnershipTransfer : IdlInstruction := {|
  ii_name := "acceptOwnershipTransfer";
  ii_discriminator := [30; 187; 65; 5; 93; 131; 38; 208]%Z;
  ii_accounts := idl_acceptOwnershipTransfer_accounts;
  ii_args := [];
|}.

Definition idl_acceptOwnershipTransferMultisig_accounts : list IdlAccount := [
  ia "multisigPda" true false false None None [];
  ia "vault" true false false None (Some ([IConst [118; 97; 117; 108; 116]%Z; IAccount "vault.vault_authority"; IAccount "vault.vault_id"], None)) ["pending"];
  ia "policy" true false false None (Some ([IConst [112; 111; 108; 105; 99; 121]%Z; IAccount "vault"], None)) [];
  ia "pending" true false false None (Some ([IConst [112; 101; 110; 100; 105; 110; 103; 95; 111; 119; 110; 101; 114]%Z; IAccount "vault"], None)) [];
  ia "auditLogSuccess" true false false None (Some ([IConst [97; 117; 100; 105; 116; 95; 115; 117; 99; 99; 101; 115; 115]%Z; IAccount "vault"], None)) [];
  ia "slotHashesSysvar" false false false (Some "SysvarS1otHashes111111111111111111111111111") None [];
  ia "systemProgram" false false false (Some "11111111111111111111111111111111") None []].

Definition idl_acceptOwnershipTransferMultisig : IdlInstruction := {|
  ii_name := "acceptOwnershipTransferMultisig";
  ii_discriminator := [112; 147; 61; 110; 221; 182; 203; 99]%Z;
  ii_accounts := idl_acceptOwnershipTransferMultisig_accounts;
  ii_args := [];
|}.

Definition idl_agentTransfer_accounts : list IdlAccount := [
  ia "agent" true true false None None [];
  ia "vault" true false false None (Some ([IConst [118; 97; 117; 108; 116]%Z; IAccount "vault.vault_authority"; IAccount "vault.vault_id"], None)) ["policy"];
  ia "policy" false false false None (Some ([IConst [112; 111; 108; 105; 99; 121]%Z; IAccount "vault"], None)) [];
  ia "tracker" true false false None (Some ([IConst [116; 114; 97; 99; 107; 101; 114]%Z; IAccount "vault"], None)) [];
  ia "agentSpendOverlay" true false false None None [];
  ia "vaultTokenAccount" true false false None None [];
  ia "tokenMintAccount" false false false None None [];
  ia "destinationTokenAccount" true false false None None [];
  ia "feeDestinationTokenAccount" true false true None None [];
  ia "protocolTreasuryTokenAccount" true false true None None [];
  ia "tokenProgram" false false false (Some "TokenkegQfeZyiNwAJbNbGKPFXCWuBvf9Ss623VQ5DA") None [];
  ia "auditLogSuccess" true false false None (Some ([IConst [97; 117; 100; 105; 116; 95; 115; 117; 99; 99; 101; 115; 115]%Z; IAccount "vault"], None)) [];
  ia "slotHashesSysvar" false false false (Some "SysvarS1otHashes111111111111111111111111111") None []].

Definition idl_agentTransfer : IdlInstruction := {|
  ii_name := "agentTransfer";
  ii_discriminator := [199; 111; 151; 49; 124; 13; 150; 44]%Z;
  ii_accounts := idl_agentTransfer_accounts;
  ii_args := [
    ("amount", IU64); ("expectedPolicyVersion", IU64)];
|}.

Definition idl_applyAgentGrant_accounts : list IdlAccount := [
  ia "owner" true true false None None ["vault"];
  ia "vault" true false false None (Some ([IConst [118; 97; 117; 108; 116]%Z; IAccount "vault.vault_authority"; IAccount "vault.vault_id"], None)) ["pending"];
  ia "policy" true false false None (Some ([IConst [112; 111; 108; 105; 99; 121]%Z; IAccount "vault"], None)) [];
  ia "pending" true false false None (Some ([IConst [112; 101; 110; 100; 105; 110; 103; 95; 97; 103; 101; 110; 116; 95; 103; 114; 97; 110; 116]%Z; IAccount "vault"], None)) [];
  ia "agentSpendOverlay" true false false None None [];
  ia "auditLogSuccess" true false false None (Some ([IConst [97; 117; 100; 105; 116; 95; 115; 117; 99; 99; 101; 115; 115]%Z; IAccount "vault"], None)) [];
  ia "slotHashesSysvar" false false false (Some "SysvarS1otHashes111111111111111111111111111") None []].

Definition idl_applyAgentGrant : IdlInstruction := {|
  ii_name := "applyAgentGrant";
  ii_discriminator := [236; 230; 108; 143; 155; 71; 185; 87]%Z;
  ii_accounts := idl_applyAgentGrant_accounts;
  ii_args := [];
|}.

Definition idl_applyAgentPermissionsUpdate_accounts : list IdlAccount := [
  ia "owner" true true false None None [];
  ia "vault" true false false None (Some ([IConst [118; 97; 117; 108; 116]%Z; IAccount "vault.vault_authority"; IAccount "vault.vault_id"], None)) ["policy"];
  ia "policy" true false false None (Some ([IConst [112; 111; 108; 105; 99; 121]%Z; IAccount "vault"], None)) [];
  ia "pendingAgentPerms" true false false None (Some ([IConst [112; 101; 110; 100; 105; 110; 103; 95; 97; 103; 101; 110; 116; 95; 112; 101; 114; 109; 115]%Z; IAccount "vault"; IAccount "pending_agent_perms.agent"], None)) [];
  ia "agentSpendOverlay" true false false None None [];
  ia "auditLogSuccess" true false false None (Some ([IConst [97; 117; 100; 105; 116; 95; 115; 117; 99; 99; 101; 115; 115]%Z; IAccount "vault"], None)) [];
  ia "slotHashesSysvar" false false false (Some "SysvarS1otHashes111111111111111111111111111") None []].

Definition idl_applyAgentPermissionsUpdate : IdlInstruction := {|
  ii_name := "applyAgentPermissionsUpdate";
  ii_discriminator := [234; 166; 205; 3; 28; 166; 221; 240]%Z;
  ii_accounts := idl_applyAgentPermissionsUpdate_accounts;
  ii_args := [];
|}.

Definition idl_applyPendingPolicy_accounts : list IdlAccount := [
  ia "owner" true true false None None ["vault"];
  ia "vault" false false false None (Some ([IConst [118; 97; 117; 108; 116]%Z; IAccount "vault.vault_authority"; IAccount "vault.vault_id"], None)) ["policy"; "pendingPolicy"];
  ia "policy" true false false None (Some ([IConst [112; 111; 108; 105; 99; 121]%Z; IAccount "vault"], None)) [];
  ia "pendingPolicy" true false false None (Some ([IConst [112; 101; 110; 100; 105; 110; 103; 95; 112; 111; 108; 105; 99; 121]%Z; IAccount "vault"], None)) [];
  ia "auditLogSuccess" true false false None (Some ([IConst [97; 117; 100; 105; 116; 95; 115; 117; 99; 99; 101; 115; 115]%Z; IAccount "vault"], None)) [];
  ia "slotHashesSysvar" false false false (Some "SysvarS1otHashes111111111111111111111111111") None [];
  ia "systemProgram" false false false (Some "11111111111111111111111111111111") None []].

Definition idl_applyPendingPolicy : IdlInstruction := {|
  ii_name := "applyPendingPolicy";
  ii_discriminator := [114; 212; 19; 227; 89; 199; 74; 62]%Z;
  ii_accounts := idl_applyPendingPolicy_accounts;
  ii_args := [];
|}.

Definition idl_approvePendingPolicy_accounts : list IdlAccount := [
  ia "cosigner" false true false None None [];
  ia "vault" false false false None (Some ([IConst [118; 97; 117; 108; 116]%Z; IAccount "vault.vault_authority"; IAccount "vault.vault_id"], None)) ["policy"; "pendingPolicy"];
  ia "policy" false false false None (Some ([IConst [112; 111; 108; 105; 99; 121]%Z; IAccount "vault"], None)) [];
  ia "pendingPolicy" true false false None (Some ([IConst [112; 101; 110; 100; 105; 110; 103; 95; 112; 111; 108; 105; 99; 121]%Z; IAccount "vault"], None)) []].

Definition idl_approvePendingPolicy : IdlInstruction := {|
  ii_name := "approvePendingPolicy";
  ii_discriminator := [151; 218; 153; 6; 155; 67; 8; 200]%Z;
  ii_accounts := idl_approvePendingPolicy_accounts;
  ii_args := [];
|}.

Definition idl_cancelAgentGrant_accounts : list IdlAccount := [
  ia "owner" true true false None None ["vault"];
  ia "vault" false false false None (Some ([IConst [118; 97; 117; 108; 116]%Z; IAccount "vault.vault_authority"; IAccount "vault.vault_id"], None)) ["pending"];
  ia "policy" false false false None (Some ([IConst [112; 111; 108; 105; 99; 121]%Z; IAccount "vault"], None)) [];
  ia "pending" true false false None (Some ([IConst [112; 101; 110; 100; 105; 110; 103; 95; 97; 103; 101; 110; 116; 95; 103; 114; 97; 110; 116]%Z; IAccount "vault"], None)) [];
  ia "auditLogSuccess" true false false None (Some ([IConst [97; 117; 100; 105; 116; 95; 115; 117; 99; 99; 101; 115; 115]%Z; IAccount "vault"], None)) [];
  ia "slotHashesSysvar" false false false (Some "SysvarS1otHashes111111111111111111111111111") None [];
  ia "systemProgram" false false false (Some "11111111111111111111111111111111") None []].

Definition idl_cancelAgentGrant : IdlInstruction := {|
  ii_name := "cancelAgentGrant";
  ii_discriminator := [193; 182; 191; 195; 80; 150; 140; 196]%Z;
  ii_accounts := idl_cancelAgentGrant_accounts;
  ii_args := [];
|}.

Definition idl_cancelAgentPermissionsUpdate_accounts : list IdlAccount := [
  ia "owner" true true false None None ["vault"];
  ia "vault" false false false None (Some ([IConst [118; 97; 117; 108; 116]%Z; IAccount "vault.vault_authority"; IAccount "vault.vault_id"], None)) [];
  ia "policy" false false false None (Some ([IConst [112; 111; 108; 105; 99; 121]%Z; IAccount "vault"], None)) [];
  ia "pendingAgentPerms" true false false None (Some ([IConst [112; 101; 110; 100; 105; 110; 103; 95; 97; 103; 101; 110; 116; 95; 112; 101; 114; 109; 115]%Z; IAccount "vault"; IAccount "pending_agent_perms.agent"], None)) []].

Definition idl_cancelAgentPermissionsUpdate : IdlInstruction := {|
  ii_name := "cancelAgentPermissionsUpdate";
  ii_discriminator := [92; 232; 92; 115; 110; 238; 235; 55]%Z;
  ii_accounts := idl_cancelAgentPermissionsUpdate_accounts;
  ii_args := [];
|}.

Definition idl_cancelOwnershipTransfer_accounts : list IdlAccount := [
  ia "currentOwner" true true false None None [];
  ia "vault" false false false None (Some ([IConst [118; 97; 117; 108; 116]%Z; IAccount "vault.vault_authority"; IAccount "vault.vault_id"], None)) ["pending"];
  ia "policy" false false false None (Some ([IConst [112; 111; 108; 105; 99; 121]%Z; IAccount "vault"], None)) [];
  ia "pending" true false false None (Some ([IConst [112; 101; 110; 100; 105; 110; 103; 95; 111; 119; 110; 101; 114]%Z; IAccount "vault"], None)) [];
  ia "auditLogSuccess" true false false None (Some ([IConst [97; 117; 100; 105; 116; 95; 115; 117; 99; 99; 101; 115; 115]%Z; IAccount "vault"], None)) [];
  ia "slotHashesSysvar" false false false (Some "SysvarS1otHashes111111111111111111111111111") None [];
  ia "systemProgram" false false false (Some "11111111111111111111111111111111") None []].

Definition idl_cancelOwnershipTransfer : IdlInstruction := {|
  ii_name := "cancelOwnershipTransfer";
  ii_discriminator := [2; 184; 195; 105; 138; 142; 154; 75]%Z;
  ii_accounts := idl_cancelOwnershipTransfer_accounts;
  ii_args := [];
|}.

Definition idl_cancelPendingPolicy_accounts : list IdlAccount := [
  ia "owner" true true false None None ["vault"];
  ia "vault" false false false None (Some ([IConst [118; 97; 117; 108; 116]%Z; IAccount "vault.vault_authority"; IAccount "vault.vault_id"], None)) ["policy"; "pendingPolicy"];
  ia "policy" true false false None (Some ([IConst [112; 111; 108; 105; 99; 121]%Z; IAccount "vault"], None)) [];
  ia "pendingPolicy" true false false None (Some ([IConst [112; 101; 110; 100; 105; 110; 103; 95; 112; 111; 108; 105; 99; 121]%Z; IAccount "vault"], None)) []].

Definition idl_cancelPendingPolicy : IdlInstruction := {|
  ii_name := "cancelPendingPolicy";
  ii_discriminator := [153; 36; 104; 200; 50; 94; 207; 33]%Z;
  ii_accounts := idl_cancelPendingPolicy_accounts;
  ii_args := [];
|}.

Definition idl_closePostAssertions_accounts : list IdlAccount := [
  ia "owner" true true false None None ["vault"];
  ia "vault" true false false None (Some ([IConst [118; 97; 117; 108; 116]%Z; IAccount "vault.vault_authority"; IAccount "vault.vault_id"], None)) [];
  ia "policy" true false false None (Some ([IConst [112; 111; 108; 105; 99; 121]%Z; IAccount "vault"], None)) [];
  ia "postAssertions" true false false None (Some ([IConst [112; 111; 115; 116; 95; 97; 115; 115; 101; 114; 116; 105; 111; 110; 115]%Z; IAccount "vault"], None)) [];
  ia "systemProgram" false false false (Some "11111111111111111111111111111111") None []].

Definition idl_closePostAssertions : IdlInstruction := {|
  ii_name := "closePostAssertions";
  ii_discriminator := [226; 172; 252; 173; 29; 236; 59; 248]%Z;
  ii_accounts := idl_closePostAssertions_accounts;
  ii_args := [
    ("expectedDigest", IArray IU8 32)];
|}.

Definition idl_closeVault_accounts : list IdlAccount := [
  ia "owner" true true false None None ["vault"];
  ia "vault" true false false None (Some ([IConst [118; 97; 117; 108; 116]%Z; IAccount "vault.vault_authority"; IAccount "vault.vault_id"], None)) ["policy"];
  ia "policy" true false false None (Some ([IConst [112; 111; 108; 105; 99; 121]%Z; IAccount "vault"], None)) [];
  ia "tracker" true false false None (Some ([IConst [116; 114; 97; 99; 107; 101; 114]%Z; IAccount "vault"], None)) [];
  ia "agentSpendOverlay" true false false None None [];
  ia "auditLogSuccess" true false false None (Some ([IConst [97; 117; 100; 105; 116; 95; 115; 117; 99; 99; 101; 115; 115]%Z; IAccount "vault"], None)) [];
  ia "auditLogRejected" true false false None (Some ([IConst [97; 117; 100; 105; 116; 95; 114; 101; 106; 101; 99; 116; 101; 100]%Z; IAccount "vault"], None)) [];
  ia "systemProgram" false false false (Some "11111111111111111111111111111111") None []].

Definition idl_closeVault : IdlInstruction := {|
  ii_name := "closeVault";
  ii_discriminator := [141; 103; 17; 126; 72; 75; 29; 29]%Z;
  ii_accounts := idl_closeVault_accounts;
  ii_args := [];
|}.

Definition idl_createPostAssertions_accounts : list IdlAccount := [
  ia "owner" true true false None None ["vault"];
  ia "vault" true false false None (Some ([IConst [118; 97; 117; 108; 116]%Z; IAccount "vault.vault_authority"; IAccount "vault.vault_id"], None)) [];
  ia "policy" true false false None (Some ([IConst [112; 111; 108; 105; 99; 121]%Z; IAccount "vault"], None)) [];
  ia "postAssertions" true false false None (Some ([IConst [112; 111; 115; 116; 95; 97; 115; 115; 101; 114; 116; 105; 111; 110; 115]%Z; IAccount "vault"], None)) [];
  ia "systemProgram" false false false (Some "11111111111111111111111111111111") None []].

Definition idl_createPostAssertions : IdlInstruction := {|
  ii_name := "createPostAssertions";
  ii_discriminator := [204; 21; 218; 182; 202; 140; 239; 63]%Z;
  ii_accounts := idl_createPostAssertions_accounts;
  ii_args := [
    ("entries", IVec (IDefined "postAssertionEntry")); ("expectedDigest", IArray IU8 32)];
|}.

Definition idl_depositFunds_accounts : list IdlAccount := [
  ia "owner" true true false None None ["vault"];
  ia "vault" true false false None (Some ([IConst [118; 97; 117; 108; 116]%Z; IAccount "vault.vault_authority"; IAccount "vault.vault_id"], None)) [];
  ia "mint" false false false None None [];
  ia "ownerTokenAccount" true false false None (Some ([IAccount "owner"; IConst [6; 221; 246; 225; 215; 101; 161; 147; 217; 203; 225; 70; 206; 235; 121; 172; 28; 180; 133; 237; 95; 91; 55; 145; 58; 140; 245; 133; 126; 255; 0; 169]%Z; IAccount "mint"], (Some [140; 151; 37; 143; 78; 36; 137; 241; 187; 61; 16; 41; 20; 142; 13; 131; 11; 90; 19; 153; 218; 255; 16; 132; 4; 142; 123; 216; 219; 233; 248; 89]%Z))) [];
  ia "vaultTokenAccount" true false false None (Some ([IAccount "vault"; IConst [6; 221; 246; 225; 215; 101; 161; 147; 217; 203; 225; 70; 206; 235; 121; 172; 28; 180; 133; 237; 95; 91; 55; 145; 58; 140; 245; 133; 126; 255; 0; 169]%Z; IAccount "mint"], (Some [140; 151; 37; 143; 78; 36; 137; 241; 187; 61; 16; 41; 20; 142; 13; 131; 11; 90; 19; 153; 218; 255; 16; 132; 4; 142; 123; 216; 219; 233; 248; 89]%Z))) [];
  ia "auditLogSuccess" true false false None (Some ([IConst [97; 117; 100; 105; 116; 95; 115; 117; 99; 99; 101; 115; 115]%Z; IAccount "vault"], None)) [];
  ia "slotHashesSysvar" false false false (Some "SysvarS1otHashes111111111111111111111111111") None [];
  ia "tokenProgram" false false false (Some "TokenkegQfeZyiNwAJbNbGKPFXCWuBvf9Ss623VQ5DA") None [];
  ia "associatedTokenProgram" false false false (Some "ATokenGPvbdGVxr1b2hvZbsiqW5xWH25efTNsLJA8knL") None [];
  ia "systemProgram" false false false (Some "11111111111111111111111111111111") None []].

Definition idl_depositFunds : IdlInstruction := {|
  ii_name := "depositFunds";
  ii_discriminator := [202; 39; 52; 211; 53; 20; 250; 88]%Z;
  ii_accounts := idl_depositFunds_accounts;
  ii_args := [
    ("amount", IU64)];
|}.

Definition idl_finalizeSession_accounts : list IdlAccount := [
  ia "payer" true true false None None [];
  ia "vault" true false false None (Some ([IConst [118; 97; 117; 108; 116]%Z; IAccount "vault.vault_authority"; IAccount "vault.vault_id"], None)) ["session"];
  ia "session" true false false None (Some ([IConst [115; 101; 115; 115; 105; 111; 110]%Z; IAccount "vault"; IAccount "session.agent"; IAccount "session.authorized_token"], None)) [];
  ia "sessionRentRecipient" true false false None None [];
  ia "policy" false false false None (Some ([IConst [112; 111; 108; 105; 99; 121]%Z; IAccount "vault"], None)) [];
  ia "tracker" true false false None (Some ([IConst [116; 114; 97; 99; 107; 101; 114]%Z; IAccount "vault"], None)) [];
  ia "agentSpendOverlay" true false false None None [];
  ia "vaultTokenAccount" true false true None None [];
  ia "outputStablecoinAccount" true false true None None [];
  ia "outputSwapAccount" true false true None None [];
  ia "protocolTreasuryTokenAccount" true false true None None [];
  ia "feeDestinationTokenAccount" true false true None None [];
  ia "tokenProgram" false false false (Some "TokenkegQfeZyiNwAJbNbGKPFXCWuBvf9Ss623VQ5DA") None [];
  ia "systemProgram" false false false (Some "11111111111111111111111111111111") None [];
  ia "instructionsSysvar" false false false (Some "Sysvar1nstructions1111111111111111111111111") None [];
  ia "auditLogSuccess" true false false None (Some ([IConst [97; 117; 100; 105; 116; 95; 115; 117; 99; 99; 101; 115; 115]%Z; IAccount "vault"], None)) [];
  ia "auditLogRejected" true false false None (Some ([IConst [97; 117; 100; 105; 116; 95; 114; 101; 106; 101; 99; 116; 101; 100]%Z; IAccount "vault"], None)) [];
  ia "slotHashesSysvar" false false false (Some "SysvarS1otHashes111111111111111111111111111") None []].

Definition idl_finalizeSession : IdlInstruction := {|
  ii_name := "finalizeSession";
  ii_discriminator := [34; 148; 144; 47; 37; 130; 206; 161]%Z;
  ii_accounts := idl_finalizeSession_accounts;
  ii_args := [];
|}.

Definition idl_freezeVault_accounts : list IdlAccount := [
  ia "owner" false true false None None ["vault"];
  ia "vault" true false false None (Some ([IConst [118; 97; 117; 108; 116]%Z; IAccount "vault.vault_authority"; IAccount "vault.vault_id"], None)) [];
  ia "auditLogSuccess" true false false None (Some ([IConst [97; 117; 100; 105; 116; 95; 115; 117; 99; 99; 101; 115; 115]%Z; IAccount "vault"], None)) [];
  ia "slotHashesSysvar" false false false (Some "SysvarS1otHashes111111111111111111111111111") None [];
  ia "tokenProgram" false false false (Some "TokenkegQfeZyiNwAJbNbGKPFXCWuBvf9Ss623VQ5DA") None []].

Definition idl_freezeVault : IdlInstruction := {|
  ii_name := "freezeVault";
  ii_discriminator := [144; 211; 63; 236; 97; 31; 170; 175]%Z;
  ii_accounts := idl_freezeVault_accounts;
  ii_args := [];
|}.

Definition idl_initializeVault_accounts : list IdlAccount := [
  ia "owner" true true false None None [];
  ia "vault" true false false None (Some ([IConst [118; 97; 117; 108; 116]%Z; IAccount "owner"; IArg "vaultId"], None)) [];
  ia "policy" true false false None (Some ([IConst [112; 111; 108; 105; 99; 121]%Z; IAccount "vault"], None)) [];
  ia "tracker" true false false None (Some ([IConst [116; 114; 97; 99; 107; 101; 114]%Z; IAccount "vault"], None)) [];
  ia "agentSpendOverlay" true false false None None [];
  ia "auditLogSuccess" true false false None (Some ([IConst [97; 117; 100; 105; 116; 95; 115; 117; 99; 99; 101; 115; 115]%Z; IAccount "vault"], None)) [];
  ia "auditLogRejected" true false false None (Some ([IConst [97; 117; 100; 105; 116; 95; 114; 101; 106; 101; 99; 116; 101; 100]%Z; IAccount "vault"], None)) [];
  ia "feeDestination" false false false None None [];
  ia "systemProgram" false false false (Some "11111111111111111111111111111111") None []].

Definition idl_initializeVault : IdlInstruction := {|
  ii_name := "initializeVault";
  ii_discriminator := [48; 191; 163; 44; 71; 129; 63; 164]%Z;
  ii_accounts := idl_initializeVault_accounts;
  ii_args := [
    ("vaultId", IU64); ("dailySpendingCapUsd", IU64); ("maxTransactionSizeUsd", IU64);
    ("protocolMode", IU8); ("protocols", IVec IPubkey); ("developerFeeRate", IU16);
    ("maxSlippageBps", IU16); ("timelockDuration", IU64); ("allowedDestinations", IVec IPubkey);
    ("protocolCaps", IVec IU64); ("observeOnly", IBool); ("operatingHours", IU32);
    ("autoPromoteGrays", IBool); ("autoRevokeThreshold", IU8); ("stableBalanceFloor", IU64);
    ("perRecipientDailyCapUsd", IU64); ("cosignRequired", IBool); ("previewDigest", IArray IU8 32)];
|}.

Definition idl_initiateOwnershipTransfer_accounts : list IdlAccount := [
  ia "owner" true true false None None ["vault"];
  ia "vault" false false false None (Some ([IConst [118; 97; 117; 108; 116]%Z; IAccount "vault.vault_authority"; IAccount "vault.vault_id"], None)) [];
  ia "policy" false false false None (Some ([IConst [112; 111; 108; 105; 99; 121]%Z; IAccount "vault"], None)) [];
  ia "pending" true false false None (Some ([IConst [112; 101; 110; 100; 105; 110; 103; 95; 111; 119; 110; 101; 114]%Z; IAccount "vault"], None)) [];
  ia "auditLogSuccess" true false false None (Some ([IConst [97; 117; 100; 105; 116; 95; 115; 117; 99; 99; 101; 115; 115]%Z; IAccount "vault"], None)) [];
  ia "slotHashesSysvar" false false false (Some "SysvarS1otHashes111111111111111111111111111") None [];
  ia "systemProgram" false false false (Some "11111111111111111111111111111111") None []].

Definition idl_initiateOwnershipTransfer : IdlInstruction := {|
  ii_name := "initiateOwnershipTransfer";
  ii_discriminator := [22; 108; 197; 103; 223; 145; 132; 65]%Z;
  ii_accounts := idl_initiateOwnershipTransfer_accounts;
  ii_args := [
    ("newOwner", IPubkey); ("isMultisigTarget", IBool)];
|}.

Definition idl_pauseAgent_accounts : list IdlAccount := [
  ia "owner" false true false None None ["vault"];
  ia "vault" true false false None (Some ([IConst [118; 97; 117; 108; 116]%Z; IAccount "vault.vault_authority"; IAccount "vault.vault_id"], None)) [];
  ia "policy" true false false None (Some ([IConst [112; 111; 108; 105; 99; 121]%Z; IAccount "vault"], None)) [];
  ia "auditLogSuccess" true false false None (Some ([IConst [97; 117; 100; 105; 116; 95; 115; 117; 99; 99; 101; 115; 115]%Z; IAccount "vault"], None)) [];
  ia "slotHashesSysvar" false false false (Some "SysvarS1otHashes111111111111111111111111111") None []].

Definition idl_pauseAgent : IdlInstruction := {|
  ii_name := "pauseAgent";
  ii_discriminator := [148; 32; 1; 26; 147; 122; 178; 140]%Z;
  ii_accounts := idl_pauseAgent_accounts;
  ii_args := [
    ("agentToPause", IPubkey)];
|}.

Definition idl_promoteGraylistDestination_accounts : list IdlAccount := [
  ia "owner" false true false None None ["vault"];
  ia "vault" false false false None (Some ([IConst [118; 97; 117; 108; 116]%Z; IAccount "vault.vault_authority"; IAccount "vault.vault_id"], None)) ["policy"];
  ia "policy" true false false None (Some ([IConst [112; 111; 108; 105; 99; 121]%Z; IAccount "vault"], None)) []].

Definition idl_promoteGraylistDestination : IdlInstruction := {|
  ii_name := "promoteGraylistDestination";
  ii_discriminator := [227; 87; 73; 141; 202; 251; 202; 228]%Z;
  ii_accounts := idl_promoteGraylistDestination_accounts;
  ii_args := [
    ("destination", IPubkey)];
|}.

Definition idl_queueAgentGrant_accounts : list IdlAccount := [
  ia "owner" true true false None None ["vault"];
  ia "vault" false false false None (Some ([IConst [118; 97; 117; 108; 116]%Z; IAccount "vault.vault_authority"; IAccount "vault.vault_id"], None)) [];
  ia "policy" false false false None (Some ([IConst [112; 111; 108; 105; 99; 121]%Z; IAccount "vault"], None)) [];
  ia "pending" true false false None (Some ([IConst [112; 101; 110; 100; 105; 110; 103; 95; 97; 103; 101; 110; 116; 95; 103; 114; 97; 110; 116]%Z; IAccount "vault"], None)) [];
  ia "auditLogSuccess" true false false None (Some ([IConst [97; 117; 100; 105; 116; 95; 115; 117; 99; 99; 101; 115; 115]%Z; IAccount "vault"], None)) [];
  ia "slotHashesSysvar" false false false (Some "SysvarS1otHashes111111111111111111111111111") None [];
  ia "systemProgram" false false false (Some "11111111111111111111111111111111") None []].

Definition idl_queueAgentGrant : IdlInstruction := {|
  ii_name := "queueAgentGrant";
  ii_discriminator := [136; 162; 54; 49; 167; 254; 200; 26]%Z;
  ii_accounts := idl_queueAgentGrant_accounts;
  ii_args := [
    ("agent", IPubkey); ("capability", IU8); ("spendingLimitUsd", IU64)];
|}.

Definition idl_queueAgentPermissionsUpdate_accounts : list IdlAccount := [
  ia "owner" true true false None None ["vault"];
  ia "vault" false false false None (Some ([IConst [118; 97; 117; 108; 116]%Z; IAccount "vault.vault_authority"; IAccount "vault.vault_id"], None)) ["policy"];
  ia "policy" false false false None (Some ([IConst [112; 111; 108; 105; 99; 121]%Z; IAccount "vault"], None)) [];
  ia "pendingAgentPerms" true false false None (Some ([IConst [112; 101; 110; 100; 105; 110; 103; 95; 97; 103; 101; 110; 116; 95; 112; 101; 114; 109; 115]%Z; IAccount "vault"; IArg "agent"], None)) [];
  ia "systemProgram" false false false (Some "11111111111111111111111111111111") None []].

Definition idl_queueAgentPermissionsUpdate : IdlInstruction := {|
  ii_name := "queueAgentPermissionsUpdate";
  ii_discriminator := [182; 37; 105; 181; 28; 195; 223; 167]%Z;
  ii_accounts := idl_queueAgentPermissionsUpdate_accounts;
  ii_args := [
    ("agent", IPubkey); ("newCapability", IU8); ("spendingLimitUsd", IU64);
    ("cooldownSeconds", IU64); ("cosignSession", IPubkey)];
|}.

Definition idl_queuePolicyUpdate_accounts : list IdlAccount := [
  ia "owner" true true false None None ["vault"];
  ia "vault" false false false None (Some ([IConst [118; 97; 117; 108; 116]%Z; IAccount "vault.vault_authority"; IAccount "vault.vault_id"], None)) ["policy"];
  ia "policy" true false false None (Some ([IConst [112; 111; 108; 105; 99; 121]%Z; IAccount "vault"], None)) [];
  ia "pendingPolicy" true false false None (Some ([IConst [112; 101; 110; 100; 105; 110; 103; 95; 112; 111; 108; 105; 99; 121]%Z; IAccount "vault"], None)) [];
  ia "systemProgram" false false false (Some "11111111111111111111111111111111") None []].

Definition idl_queuePolicyUpdate : IdlInstruction := {|
  ii_name := "queuePolicyUpdate";
  ii_discriminator := [149; 18; 76; 197; 179; 193; 91; 77]%Z;
  ii_accounts := idl_queuePolicyUpdate_accounts;
  ii_args := [
    ("dailySpendingCapUsd", IOption IU64); ("maxTransactionAmountUsd", IOption IU64);
    ("protocolMode", IOption IU8); ("protocols", IOption (IVec IPubkey));
    ("developerFeeRate", IOption IU16); ("maxSlippageBps", IOption IU16);
    ("timelockDuration", IOption IU64); ("allowedDestinations", IOption (IVec IPubkey));
    ("sessionExpirySeconds", IOption IU64); ("hasProtocolCaps", IOption IBool);
    ("protocolCaps", IOption (IVec IU64)); ("destinationMode", IOption IU8);
    ("operatingHours", IOption IU32); ("stableBalanceFloor", IOption IU64);
    ("perRecipientDailyCapUsd", IOption IU64); ("cosignRequired", IOption IBool);
    ("cosignSessionPubkey", IOption IPubkey); ("operatorGrantDelaySeconds", IOption IU64);
    ("protocolHashes", IOption (IArray (IArray IU8 32) 10)); ("cosignSession", IPubkey);
    ("newPolicyPreviewDigest", IArray IU8 32)];
|}.

Definition idl_reactivateVault_accounts : list IdlAccount := [
  ia "owner" false true false None None ["vault"];
  ia "vault" true false false None (Some ([IConst [118; 97; 117; 108; 116]%Z; IAccount "vault.vault_authority"; IAccount "vault.vault_id"], None)) [];
  ia "policy" true false false None (Some ([IConst [112; 111; 108; 105; 99; 121]%Z; IAccount "vault"], None)) [];
  ia "auditLogSuccess" true false false None (Some ([IConst [97; 117; 100; 105; 116; 95; 115; 117; 99; 99; 101; 115; 115]%Z; IAccount "vault"], None)) [];
  ia "slotHashesSysvar" false false false (Some "SysvarS1otHashes111111111111111111111111111") None []].

Definition idl_reactivateVault : IdlInstruction := {|
  ii_name := "reactivateVault";
  ii_discriminator := [245; 50; 143; 70; 114; 220; 25; 251]%Z;
  ii_accounts := idl_reactivateVault_accounts;
  ii_args := [
    ("newAgent", IOption IPubkey); ("newAgentCapability", IOption IU8)];
|}.

Definition idl_recordAgentViolation_accounts : list IdlAccount := [
  ia "owner" false true false None None ["vault"];
  ia "vault" true false false None (Some ([IConst [118; 97; 117; 108; 116]%Z; IAccount "vault.vault_authority"; IAccount "vault.vault_id"], None)) ["policy"];
  ia "policy" true false false None (Some ([IConst [112; 111; 108; 105; 99; 121]%Z; IAccount "vault"], None)) [];
  ia "auditLogSuccess" true false false None (Some ([IConst [97; 117; 100; 105; 116; 95; 115; 117; 99; 99; 101; 115; 115]%Z; IAccount "vault"], None)) [];
  ia "slotHashesSysvar" false false false (Some "SysvarS1otHashes111111111111111111111111111") None []].

Definition idl_recordAgentViolation : IdlInstruction := {|
  ii_name := "recordAgentViolation";
  ii_discriminator := [131; 113; 120; 227; 219; 36; 160; 109]%Z;
  ii_accounts := idl_recordAgentViolation_accounts;
  ii_args := [
    ("agent", IPubkey); ("errorCode", IU32)];
|}.

Definition idl_registerAgent_accounts : list IdlAccount := [
  ia "owner" false true false None None ["vault"];
  ia "vault" true false false None (Some ([IConst [118; 97; 117; 108; 116]%Z; IAccount "vault.vault_authority"; IAccount "vault.vault_id"], None)) [];
  ia "policy" true false false None (Some ([IConst [112; 111; 108; 105; 99; 121]%Z; IAccount "vault"], None)) [];
  ia "agentSpendOverlay" true false false None None [];
  ia "auditLogSuccess" true false false None (Some ([IConst [97; 117; 100; 105; 116; 95; 115; 117; 99; 99; 101; 115; 115]%Z; IAccount "vault"], None)) [];
  ia "slotHashesSysvar" false false false (Some "SysvarS1otHashes111111111111111111111111111") None []].

Definition idl_registerAgent : IdlInstruction := {|
  ii_name := "registerAgent";
  ii_discriminator := [135; 157; 66; 195; 2; 113; 175; 30]%Z;
  ii_accounts := idl_registerAgent_accounts;
  ii_args := [
    ("agent", IPubkey); ("capability", IU8); ("spendingLimitUsd", IU64)];
|}.

Definition idl_revokeAgent_accounts : list IdlAccount := [
  ia "owner" false true false None None ["vault"];
  ia "vault" true false false None (Some ([IConst [118; 97; 117; 108; 116]%Z; IAccount "vault.vault_authority"; IAccount "vault.vault_id"], None)) [];
  ia "policy" true false false None (Some ([IConst [112; 111; 108; 105; 99; 121]%Z; IAccount "vault"], None)) [];
  ia "agentSpendOverlay" true false false None None [];
  ia "auditLogSuccess" true false false None (Some ([IConst [97; 117; 100; 105; 116; 95; 115; 117; 99; 99; 101; 115; 115]%Z; IAccount "vault"], None)) [];
  ia "slotHashesSysvar" false false false (Some "SysvarS1otHashes111111111111111111111111111") None []].

Definition idl_revokeAgent : IdlInstruction := {|
  ii_name := "revokeAgent";
  ii_discriminator := [227; 60; 209; 125; 240; 117; 163; 73]%Z;
  ii_accounts := idl_revokeAgent_accounts;
  ii_args := [
    ("agentToRemove", IPubkey)];
|}.

Definition idl_setObserveOnly_accounts : list IdlAccount := [
  ia "vault" true false false None (Some ([IConst [118; 97; 117; 108; 116]%Z; IAccount "vault.vault_authority"; IAccount "vault.vault_id"], None)) ["policy"];
  ia "policy" true false false None (Some ([IConst [112; 111; 108; 105; 99; 121]%Z; IAccount "vault"], None)) [];
  ia "owner" false true false None None ["vault"]].

Definition idl_setObserveOnly : IdlInstruction := {|
  ii_name := "setObserveOnly";
  ii_discriminator := [36; 88; 141; 35; 179; 134; 54; 12]%Z;
  ii_accounts := idl_setObserveOnly_accounts;
  ii_args := [
    ("newValue", IBool)];
|}.

Definition idl_unpauseAgent_accounts : list IdlAccount := [
  ia "owner" false true false None None ["vault"];
  ia "vault" true false false None (Some ([IConst [118; 97; 117; 108; 116]%Z; IAccount "vault.vault_authority"; IAccount "vault.vault_id"], None)) [];
  ia "policy" true false false None (Some ([IConst [112; 111; 108; 105; 99; 121]%Z; IAccount "vault"], None)) [];
  ia "auditLogSuccess" true false false None (Some ([IConst [97; 117; 100; 105; 116; 95; 115; 117; 99; 99; 101; 115; 115]%Z; IAccount "vault"], None)) [];
  ia "slotHashesSysvar" false false false (Some "SysvarS1otHashes111111111111111111111111111") None []].

Definition idl_unpauseAgent : IdlInstruction := {|
  ii_name := "unpauseAgent";
  ii_discriminator := [46; 125; 165; 212; 241; 143; 190; 95]%Z;
  ii_accounts := idl_unpauseAgent_accounts;
  ii_args := [
    ("agentToUnpause", IPubkey)];
|}.

Definition idl_validateAndAuthorize_accounts : list IdlAccount := [
  ia "agent" true true false None None [];
  ia "vault" true false false None (Some ([IConst [118; 97; 117; 108; 116]%Z; IAccount "vault.vault_authority"; IAccount "vault.vault_id"], None)) ["policy"];
  ia "policy" false false false None (Some ([IConst [112; 111; 108; 105; 99; 121]%Z; IAccount "vault"], None)) [];
  ia "tracker" true false false None (Some ([IConst [116; 114; 97; 99; 107; 101; 114]%Z; IAccount "vault"], None)) [];
  ia "agentSpendOverlay" true false false None None [];
  ia "session" true false false None (Some ([IConst [115; 101; 115; 115; 105; 111; 110]%Z; IAccount "vault"; IAccount "agent"; IArg "tokenMint"], None)) [];
  ia "vaultTokenAccount" true false false None None [];
  ia "tokenMintAccount" false false false None None [];
  ia "outputStablecoinAccount" true false true None None [];
  ia "outputSwapAccount" true false true None None [];
  ia "tokenProgram" false false false (Some "TokenkegQfeZyiNwAJbNbGKPFXCWuBvf9Ss623VQ5DA") None [];
  ia "systemProgram" false false false (Some "11111111111111111111111111111111") None [];
  ia "instructionsSysvar" false false false (Some "Sysvar1nstructions1111111111111111111111111") None []].

Definition idl_validateAndAuthorize : IdlInstruction := {|
  ii_name := "validateAndAuthorize";
  ii_discriminator := [22; 183; 48; 222; 218; 11; 197; 152]%Z;
  ii_accounts := idl_validateAndAuthorize_accounts;
  ii_args := [
    ("tokenMint", IPubkey); ("amount", IU64); ("targetProtocol", IPubkey);
    ("expectedPolicyVersion", IU64); ("expectedNonce", IU64);
    ("expectedIntentDigest", IArray IU8 32)];
|}.

Definition idl_withdrawFunds_accounts : list IdlAccount := [
  ia "owner" true true false None None ["vault"];
  ia "vault" true false false None (Some ([IConst [118; 97; 117; 108; 116]%Z; IAccount "vault.vault_authority"; IAccount "vault.vault_id"], None)) [];
  ia "policy" false false false None (Some ([IConst [112; 111; 108; 105; 99; 121]%Z; IAccount "vault"], None)) [];
  ia "mint" false false false None None [];
  ia "vaultTokenAccount" true false false None (Some ([IAccount "vault"; IConst [6; 221; 246; 225; 215; 101; 161; 147; 217; 203; 225; 70; 206; 235; 121; 172; 28; 180; 133; 237; 95; 91; 55; 145; 58; 140; 245; 133; 126; 255; 0; 169]%Z; IAccount "mint"], (Some [140; 151; 37; 143; 78; 36; 137; 241; 187; 61; 16; 41; 20; 142; 13; 131; 11; 90; 19; 153; 218; 255; 16; 132; 4; 142; 123; 216; 219; 233; 248; 89]%Z))) [];
  ia "ownerTokenAccount" true false false None (Some ([IAccount "owner"; IConst [6; 221; 246; 225; 215; 101; 161; 147; 217; 203; 225; 70; 206; 235; 121; 172; 28; 180; 133; 237; 95; 91; 55; 145; 58; 140; 245; 133; 126; 255; 0; 169]%Z; IAccount "mint"], (Some [140; 151; 37; 143; 78; 36; 137; 241; 187; 61; 16; 41; 20; 142; 13; 131; 11; 90; 19; 153; 218; 255; 16; 132; 4; 142; 123; 216; 219; 233; 248; 89]%Z))) [];
  ia "auditLogSuccess" true false false None (Some ([IConst [97; 117; 100; 105; 116; 95; 115; 117; 99; 99; 101; 115; 115]%Z; IAccount "vault"], None)) [];
  ia "slotHashesSysvar" false false false (Some "SysvarS1otHashes111111111111111111111111111") None [];
  ia "tokenProgram" false false false (Some "TokenkegQfeZyiNwAJbNbGKPFXCWuBvf9Ss623VQ5DA") None []].

Definition idl_withdrawFunds : IdlInstruction := {|
  ii_name := "withdrawFunds";
  ii_discriminator := [241; 36; 29; 111; 208; 31; 104; 217]%Z;
  ii_accounts := idl_withdrawFunds_accounts;
  ii_args := [
    ("amount", IU64)];
|}.

Definition idl_instruction (i : SigilInstruction) : IdlInstruction :=
  match i with
  | AcceptOwnershipTransfer => idl_acceptOwnershipTransfer
  | AcceptOwnershipTransferMultisig => idl_acceptOwnershipTransferMultisig
  | AgentTransfer => idl_agentTransfer
  | ApplyAgentGrant => idl_applyAgentGrant
  | ApplyAgentPermissionsUpdate => idl_applyAgentPermissionsUpdate
  | ApplyPendingPolicy => idl_applyPendingPolicy
  | ApprovePendingPolicy => idl_approvePendingPolicy
  | CancelAgentGrant => idl_cancelAgentGrant
  | CancelAgentPermissionsUpdate => idl_cancelAgentPermissionsUpdate
  | CancelOwnershipTransfer => idl_cancelOwnershipTransfer
  | CancelPendingPolicy => idl_cancelPendingPolicy
  | ClosePostAssertions => idl_closePostAssertions
  | CloseVault => idl_closeVault
  | CreatePostAssertions => idl_createPostAssertions
  | DepositFunds => idl_depositFunds
  | FinalizeSession => idl_finalizeSession
  | FreezeVault => idl_freezeVault
  | InitializeVault => idl_initializeVault
  | InitiateOwnershipTransfer => idl_initiateOwnershipTransfer
  | PauseAgent => idl_pauseAgent
  | PromoteGraylistDestination => idl_promoteGraylistDestination
  | QueueAgentGrant => idl_queueAgentGrant
  | QueueAgentPermissionsUpdate => idl_queueAgentPermissionsUpdate
  | QueuePolicyUpdate => idl_queuePolicyUpdate
  | ReactivateVault => idl_reactivateVault
  | RecordAgentViolation => idl_recordAgentViolation
  | RegisterAgent => idl_registerAgent
  | RevokeAgent => idl_revokeAgent
  | SetObserveOnly => idl_setObserveOnly
  | UnpauseAgent => idl_unpauseAgent
  | ValidateAndAuthorize => idl_validateAndAuthorize
  | WithdrawFunds => idl_withdrawFunds
  end.

Definition idl_accounts : list (string * list Z) := [
  ("agentSpendOverlay", [126; 248; 13; 218; 101; 148; 135; 44]%Z);
  ("agentVault", [232; 220; 237; 164; 157; 9; 215; 194]%Z);
  ("auditLogRejected", [211; 117; 26; 31; 160; 74; 242; 204]%Z);
  ("auditLogSuccess", [225; 112; 129; 30; 0; 111; 84; 75]%Z);
  ("pendingAgentGrant", [164; 188; 119; 39; 18; 133; 78; 66]%Z);
  ("pendingAgentPermissionsUpdate", [137; 132; 60; 184; 171; 184; 194; 56]%Z);
  ("pendingOwnershipTransfer", [205; 223; 35; 217; 245; 217; 152; 38]%Z);
  ("pendingPolicyUpdate", [77; 255; 2; 51; 79; 237; 183; 239]%Z);
  ("policyConfig", [219; 7; 79; 84; 175; 51; 148; 146]%Z);
  ("postExecutionAssertions", [1; 104; 4; 208; 143; 120; 4; 77]%Z);
  ("sessionAuthority", [48; 9; 30; 120; 134; 35; 172; 170]%Z);
  ("spendTracker", [180; 17; 195; 180; 162; 207; 239; 205]%Z)].

Definition idl_events_1 : list (string * list Z) := [
  ("actionAuthorized", [85; 90; 59; 218; 126; 8; 179; 63]%Z);
  ("agentAutoRevoked", [13; 133; 66; 153; 126; 96; 191; 221]%Z);
  ("agentGrantApplied", [153; 242; 206; 79; 159; 174; 239; 134]%Z);
  ("agentGrantCancelled", [139; 15; 84; 63; 70; 46; 233; 130]%Z);
  ("agentGrantQueued", [216; 52; 141; 102; 184; 100; 174; 121]%Z);
  ("agentPausedEvent", [39; 74; 148; 94; 198; 166; 121; 23]%Z);
  ("agentPermissionsChangeApplied", [233; 247; 103; 30; 130; 173; 196; 183]%Z);
  ("agentPermissionsChangeCancelled", [107; 21; 129; 77; 1; 136; 68; 216]%Z);
  ("agentPermissionsChangeQueued", [211; 242; 237; 217; 72; 52; 150; 80]%Z);
  ("agentRegistered", [191; 78; 217; 54; 232; 100; 189; 85]%Z);
  ("agentRevoked", [12; 251; 249; 166; 122; 83; 162; 116]%Z);
  ("agentSpendLimitChecked", [107; 128; 60; 144; 163; 83; 45; 215]%Z)].

Definition idl_events_2 : list (string * list Z) := [
  ("agentTransferExecuted", [88; 52; 117; 69; 112; 152; 167; 40]%Z);
  ("agentUnpausedEvent", [218; 187; 253; 124; 79; 192; 42; 181]%Z);
  ("delegationRevoked", [59; 158; 142; 49; 164; 116; 220; 8]%Z);
  ("feesCollected", [233; 23; 117; 225; 107; 178; 254; 8]%Z);
  ("fundsDeposited", [157; 209; 100; 95; 59; 100; 3; 68]%Z);
  ("fundsWithdrawn", [56; 130; 230; 154; 35; 92; 11; 118]%Z);
  ("graylistEntered", [71; 189; 127; 11; 219; 84; 46; 219]%Z);
  ("graylistPromoted", [169; 36; 32; 86; 203; 34; 0; 36]%Z);
  ("observeOnlyChanged", [180; 209; 162; 85; 197; 205; 231; 170]%Z);
  ("ownershipTransferAccepted", [170; 218; 124; 19; 70; 121; 99; 8]%Z);
  ("ownershipTransferCancelled", [120; 203; 162; 145; 180; 57; 253; 23]%Z);
  ("ownershipTransferInitiated", [181; 32; 40; 60; 60; 64; 235; 29]%Z)].

Definition idl_events_3 : list (string * list Z) := [
  ("policyChangeApplied", [104; 89; 5; 100; 180; 202; 52; 73]%Z);
  ("policyChangeCancelled", [200; 158; 226; 255; 25; 211; 30; 151]%Z);
  ("policyChangeQueued", [73; 231; 182; 136; 141; 120; 32; 79]%Z);
  ("policyCosignApproved", [139; 96; 150; 34; 139; 198; 228; 31]%Z);
  ("postAssertionChecked", [166; 106; 92; 10; 195; 60; 247; 125]%Z);
  ("postAssertionsClosed", [7; 20; 224; 102; 80; 60; 78; 11]%Z);
  ("postAssertionsCreated", [49; 89; 152; 110; 58; 20; 68; 31]%Z);
  ("sessionFinalized", [33; 12; 242; 91; 206; 42; 163; 235]%Z);
  ("vaultClosed", [238; 129; 38; 228; 227; 118; 249; 215]%Z);
  ("vaultCreated", [117; 25; 120; 254; 75; 236; 78; 115]%Z);
  ("vaultFrozen", [13; 199; 172; 111; 88; 10; 151; 247]%Z);
  ("vaultReactivated", [197; 52; 160; 147; 159; 89; 90; 28]%Z)].

Definition idl_events : list (string * list Z) := idl_events_1 ++ idl_events_2 ++ idl_events_3.

Definition idl_errors_1 : list (Z * string * string) := [
  (6000%Z, "vaultNotActive",
   "Vault is not active");
  (6001%Z, "unauthorizedAgent",
   "Unauthorized: signer is not the registered agent");
  (6002%Z, "unauthorizedOwner",
   "Unauthorized: signer is not the vault owner");
  (6003%Z, "unsupportedToken",
   "Token is not a supported stablecoin (only USDC and USDT)");
  (6004%Z, "protocolNotAllowed",
   "Protocol not allowed by policy");
  (6005%Z, "transactionTooLarge",
   "Transaction exceeds maximum single transaction size");
  (6006%Z, "spendingCapExceeded",
   "Rolling 24h spending cap would be exceeded");
  (6007%Z, "sessionNotAuthorized",
   "Session not authorized");
  (6008%Z, "invalidSession",
   "Invalid session: does not belong to this vault");
  (6009%Z, "tooManyAllowedProtocols",
   "Policy configuration invalid: too many allowed protocols");
  (6010%Z, "agentAlreadyRegistered",
   "Agent already registered for this vault");
  (6011%Z, "noAgentRegistered",
   "No agent registered for this vault");
  (6012%Z, "vaultNotFrozen",
   "Vault is not frozen (expected frozen for reactivation)");
  (6013%Z, "vaultAlreadyClosed",
   "Vault is already closed");
  (6014%Z, "insufficientBalance",
   "Insufficient vault balance for withdrawal");
  (6015%Z, "developerFeeTooHigh",
   "Developer fee rate exceeds maximum (500 / 1,000,000 = 5 BPS)");
  (6016%Z, "invalidFeeDestination",
   "Fee destination account invalid");
  (6017%Z, "invalidProtocolTreasury",
   "Protocol treasury account does not match expected address");
  (6018%Z, "invalidAgentKey",
   "Invalid agent: cannot be the zero address");
  (6019%Z, "agentIsOwner",
   "Invalid agent: agent cannot be the vault owner");
  (6020%Z, "overflow",
   "Arithmetic overflow");
  (6021%Z, "invalidTokenAccount",
   "Token account does not belong to vault or has wrong mint");
  (6022%Z, "timelockNotExpired",
   "Timelock period has not expired yet");
  (6023%Z, "noTimelockConfigured",
   "No timelock configured on this vault")].

Definition idl_errors_2 : list (Z * string * string) := [
  (6024%Z, "destinationNotAllowed",
   "Destination not in allowed list");
  (6025%Z, "tooManyDestinations",
   "Too many destinations (max 10)");
  (6026%Z, "invalidProtocolMode",
   "Invalid protocol mode (must be 1 = ALLOWLIST)");
  (6027%Z, "cpiCallNotAllowed",
   "Instruction must be top-level (CPI calls not allowed)");
  (6028%Z, "missingFinalizeInstruction",
   "Transaction must include finalize_session after validate");
  (6029%Z, "nonTrackedSwapMustReturnStablecoin",
   "Non-stablecoin swap must return stablecoin (balance did not increase)");
  (6030%Z, "unauthorizedTokenTransfer",
   "Top-level SPL Token transfer not allowed between validate and finalize");
  (6031%Z, "slippageBpsTooHigh",
   "Slippage BPS exceeds maximum (5000 = 50%)");
  (6032%Z, "protocolMismatch",
   "DeFi instruction program does not match declared target_protocol");
  (6033%Z, "tooManyDeFiInstructions",
   "Spending allows at most one DeFi instruction");
  (6034%Z, "maxAgentsReached",
   "Maximum agents per vault reached (limit: 10)");
  (6035%Z, "insufficientPermissions",
   "Agent lacks permission for this action type");
  (6036%Z, "invalidPermissions",
   "Permission bitmask contains invalid bits");
  (6037%Z, "invalidConstraintConfig",
   "Invalid constraint configuration: bounds exceeded");
  (6038%Z, "agentSpendLimitExceeded",
   "Agent rolling 24h spend exceeds per-agent spending limit");
  (6039%Z, "overlaySlotExhausted",
   "Per-agent overlay is full; cannot register agent with spending limit");
  (6040%Z, "agentSlotNotFound",
   "Agent has per-agent spending limit but no overlay tracking slot");
  (6041%Z, "unauthorizedTokenApproval",
   "Unauthorized SPL Token Approve between validate and finalize");
  (6042%Z, "invalidSessionExpiry",
   "Session expiry seconds out of range (5-90)");
  (6043%Z, "protocolCapExceeded",
   "Per-protocol rolling 24h spending cap would be exceeded — LEGACY counter exhaustion path. New rolling-24h amount-based cap rejections use 6086 ErrDailyCapExceeded");
  (6044%Z, "protocolCapsMismatch",
   "protocol_caps length must match protocols length when has_protocol_caps is true");
  (6045%Z, "pendingPolicyExists",
   "Pending policy update must be applied or cancelled before closing vault");
  (6046%Z, "agentPaused",
   "Agent is paused and cannot execute actions");
  (6047%Z, "agentAlreadyPaused",
   "Agent is already paused")].

Definition idl_errors_3 : list (Z * string * string) := [
  (6048%Z, "agentNotPaused",
   "Agent is not paused");
  (6049%Z, "unauthorizedPostFinalizeInstruction",
   "Instructions after finalize_session must be ComputeBudget or SystemProgram only");
  (6050%Z, "unexpectedBalanceDecrease",
   "Vault balance decreased more than delegated amount — potential CPI attack");
  (6051%Z, "timelockTooShort",
   "Timelock duration below minimum (1800 seconds / 30 minutes)");
  (6052%Z, "policyVersionMismatch",
   "Policy version mismatch — policy changed since agent's last RPC read");
  (6053%Z, "activeSessionsExist",
   "Cannot close vault with active sessions (finalize pending sessions first)");
  (6054%Z, "postAssertionFailed",
   "Post-execution assertion failed: account state did not satisfy constraint");
  (6055%Z, "invalidPostAssertionIndex",
   "Post-assertion constraint references invalid instruction index");
  (6056%Z, "unauthorizedPreValidateInstruction",
   "Non-infrastructure instruction detected before validate_and_authorize");
  (6057%Z, "snapshotNotCaptured",
   "Delta assertion snapshot was not captured in validate_and_authorize");
  (6058%Z, "invalidConstraintOperator",
   "Constraint operator value is not a valid ConstraintOperator discriminant");
  (6059%Z, "zeroCopyVaultMismatch",
   "Zero-copy account vault key mismatch (defense-in-depth)");
  (6060%Z, "queuedUpdateExpired",
   "Queued update is too old (>MAX_APPLY_AGE_SLOTS / >MAX_APPLY_AGE_SLOTS_TIMELOCKED_ADMIN) — re-queue via the matching queue/initiate ix (queue_policy_update, queue_agent_permissions_update, queue_agent_grant, or initiate_ownership_transfer) to apply. Defends against durable-nonce pre-signing (CH-1 audit 2026-05-23 extended scope to timelocked-admin PDAs).");
  (6061%Z, "accountWritabilityMismatch",
   "Account writability flag does not match constraint requirement");
  (6062%Z, "sysvarScanBoundExceeded",
   "Sysvar instruction scan exceeded the per-tx safety bound");
  (6063%Z, "asyncFulfillmentNotPermitted",
   "Async-fulfillment program is not permitted in V1 (Jupiter Perps, Drift, Drift JIT). Spending cannot be measured because keeper submits the actual transfer in a separate transaction after finalize_session returns.");
  (6064%Z, "confidentialTransferBlocked",
   "Token-2022 ConfidentialTransfer not permitted between validate and finalize");
  (6065%Z, "permanentDelegateBlocked",
   "Token-2022 PermanentDelegate not permitted between validate and finalize");
  (6066%Z, "transferHookBlocked",
   "Token-2022 TransferHook not permitted between validate and finalize");
  (6067%Z, "lamportDrainBlocked",
   "Token-2022 destructive-balance ix (opcodes 38/45/46) not permitted between validate and finalize");
  (6068%Z, "batchInstructionBlocked",
   "Token-2022 Batch instruction (opcode 255) is blocked outright — wraps inner instructions and bypasses byte-0 blocklist");
  (6069%Z, "invalidDestinationMode",
   "Invalid destination mode (must be 0 = RESTRICTED)");
  (6070%Z, "invalidCapability",
   "Invalid agent capability value (must be 0 = Disabled, 1 = Observer, or 2 = Operator)");
  (6071%Z, "policyPreviewMismatch",
   "Policy preview digest mismatch — caller's signed digest differs from recomputed canonical digest")].

Definition idl_errors_4 : list (Z * string * string) := [
  (6072%Z, "observeOnlyModeBlocksExecute",
   "Vault is in observe_only mode — validate_and_authorize is blocked");
  (6073%Z, "activeVaultRequiresAllowlist",
   "Active (non-observe_only) vault must have at least one protocol or destination on the allowlist");
  (6074%Z, "errMintNotPinned",
   "Deposit mint is not a build-time-pinned stablecoin (USDC or USDT)");
  (6075%Z, "errOutsideOperatingHours",
   "Current UTC hour is outside the policy's operating_hours bitmask");
  (6076%Z, "errCooldownActive",
   "Agent cooldown period has not elapsed since the last action");
  (6077%Z, "errGraylistFriction",
   "Destination is graylisted (24h friction window — awaiting promote_graylist_destination or unlock)");
  (6078%Z, "errGraylistFull",
   "Destination graylist is full (max 10 entries) — wait for an existing entry to unlock or promote");
  (6079%Z, "errToken2022ExtensionForbidden",
   "Token-2022 mint has a forbidden extension (only MemoTransfer + MetadataPointer allowed)");
  (6080%Z, "errCosignRequired",
   "Elevated policy mutation requires an owner-signed cosigning session");
  (6081%Z, "errAutoRevoked",
   "Agent capability auto-revoked after consecutive policy-violation failures; owner must re-enable");
  (6082%Z, "errSandwichIntegrity",
   "Bundle integrity violation: multiple validate_and_authorize instructions for the same (vault, agent, mint) tuple in one transaction");
  (6083%Z, "errProtectedWritable",
   "Protected Sigil PDA passed as writable to a foreign instruction between validate and finalize");
  (6084%Z, "errSessionNonceMismatch",
   "Session nonce mismatch — caller's expected_nonce does not match the session's stored nonce (durable-nonce replay defense)");
  (6085%Z, "errStableFloorViolation",
   "Stable balance floor violated — combined USDC+USDT balance dropped below policy.stable_balance_floor");
  (6086%Z, "errDailyCapExceeded",
   "Per-protocol daily spending cap would be exceeded (rolling 24h)");
  (6087%Z, "errRecipientCapExceeded",
   "Per-recipient daily cap exceeded — recipient outflow would breach policy.per_recipient_daily_cap_usd within the rolling 24h window, or per_recipient array full with no expired slot to evict");
  (6088%Z, "errMintDeltaCapExceeded",
   "R-1 MintDeltaCap: vault-mint balance decreased by more than max_net_decrease");
  (6089%Z, "mintDeltaCapMisconfigured",
   "R-1 MintDeltaCap misconfigured — target account missing, mint mismatch, or owner not vault");
  (6090%Z, "errAtaAuthorityChanged",
   "R-2 AtaAuthorityPin: vault-owned token account authority changed or account closed/reinitialized mid-sandwich");
  (6091%Z, "errOutputBelowFloor",
   "R-3 OutputBalanceFloor: post-execution balance increase fell below the configured min_increase floor");
  (6092%Z, "errDeclarationInconsistent",
   "R-4 DeclarationConsistency: declared recipient/mint does not match CPI account-meta");
  (6093%Z, "ixMetaCountExceeded",
   "Foreign instruction exceeded the account-meta processing budget; the bundle is rejected rather than partially inspected");
  (6094%Z, "errPendingOwnershipExists",
   "An ownership transfer is already pending; cancel it first");
  (6095%Z, "errPendingOwnershipNotReady",
   "Ownership transfer timelock has not elapsed")].

Definition idl_errors_5 : list (Z * string * string) := [
  (6096%Z, "errInvalidFreezeReason",
   "freeze_reason value out of {{0,1,2}}");
  (6097%Z, "errReactivateCooldownActive",
   "Reactivate requires 5-minute observation cooldown to elapse");
  (6098%Z, "errInvalidOwnershipTarget",
   "new_owner cannot be system/program/sysvar addresses (Council ISC-128)");
  (6099%Z, "errTooManyRevokePairs",
   "freeze_internal MAX_REVOKE_PAIRS = 10 exceeded (Council ISC-136)");
  (6100%Z, "errPostAssertionsNotClosed",
   "PostExecutionAssertions PDA still active — call close_post_assertions first");
  (6101%Z, "errDestinationIsProtectedPda",
   "Destination is a Sigil-protected PDA — rejected at queue time");
  (6102%Z, "errIntentDigestMismatch",
   "AL3 intent-digest mismatch — preview digest does not match executed bundle");
  (6103%Z, "errPendingAgentGrantDigestMismatch",
   "PendingAgentGrant digest mismatch between queue and apply");
  (6104%Z, "errReactivateCosignRequiredForFullCapability",
   "Reactivate with FULL_CAPABILITY new agent requires cosign");
  (6105%Z, "destinationAccountUnresolvable",
   "Writable DeFi account could not be resolved in remaining_accounts — destination set incomplete");
  (6106%Z, "errToken2022OutputMintUnresolvable",
   "Vault-owned Token-2022 output ATA's mint is absent from remaining_accounts or not Token-2022-owned — cannot vet extensions");
  (6107%Z, "errOperatorGrantRequiresTimelock",
   "OPERATOR grant requires the timelock queue path on this vault — use queue_agent_grant");
  (6108%Z, "errOperatorGrantDelayTooLong",
   "operator_grant_delay_seconds exceeds the maximum (48h) — would brick grant applicability");
  (6109%Z, "invalidOwnerType",
   "vault.owner_type is not a recognized discriminant (expected 0=EOA or 1=multisig)");
  (6110%Z, "spendAccountingUnderflow",
   "finalize spend accounting underflow: collected fees exceed realized stablecoin outflow");
  (6111%Z, "errMultisigCustodyUnsupported",
   "Squads multisig ownership custody is not supported in V1 (use a standard EOA owner)");
  (6112%Z, "errOutputNotVaultOwned",
   "M1: stablecoin-input swap output must land in a vault-owned account and increase (value redirection / unacquired spend rejected)");
  (6113%Z, "errFinalizeMetaUnresolvable",
   "Finalize completeness: a writable DeFi account meta is absent from remaining_accounts (F-Q1b — omission would dodge per-recipient/output attribution)");
  (6114%Z, "errDeFiInstructionNotAdjacentToFinalize",
   "The counted DeFi instruction must sit immediately before finalize_session (no interleaved instruction) so finalize's attribution walks bind to the correct instruction");
  (6115%Z, "errUnmeasurableSpend",
   "Spending session produced no measurable in-transaction vault outcome (no stablecoin movement and no vault-owned acquisition) — async/keeper-settled or unmeasurable; recording 0 spend is rejected");
  (6116%Z, "errProgramDataUnresolvable",
   "Verified-build gate: the target protocol's ProgramData account is missing/unresolvable while a build hash is armed — cannot vet the deployed build (fail-closed)");
  (6117%Z, "errProgramBuildMismatch",
   "Verified-build gate: the target protocol's deployed ELF hash does not match the owner-pinned build hash — the on-chain build changed (re-pin via queue_policy_update after re-audit)");
  (6118%Z, "timelockTooLong",
   "Timelock duration exceeds the maximum (MAX_TIMELOCK_DURATION = 172_800s / 48h) — a longer timelock could never mature inside the policy-apply freshness window (brick); choose a value <= 48h")].

Definition idl_errors : list (Z * string * string) := idl_errors_1 ++ idl_errors_2 ++ idl_errors_3 ++ idl_errors_4 ++ idl_errors_5.

Definition idl_type_actionAuthorized : IdlTypeDef := IdlStruct false [
  ("vault", IPubkey); ("agent", IPubkey); ("tokenMint", IPubkey); ("amount", IU64);
  ("usdAmount", IU64); ("protocol", IPubkey); ("rollingSpendUsdAfter", IU64);
  ("dailyCapUsd", IU64); ("delegated", IBool); ("timestamp", II64)].

Definition idl_type_agentAutoRevoked : IdlTypeDef := IdlStruct false [
  ("vault", IPubkey); ("agent", IPubkey); ("threshold", IU8); ("consecutiveFailures", IU8);
  ("timestamp", II64)].

Definition idl_type_agentContributionEntry : IdlTypeDef := IdlStruct true [
  ("agent", IArray IU8 32); ("lastWriteEpoch", II64); ("contributions", IArray IU64 24)].

Definition idl_type_agentEntry : IdlTypeDef := IdlStruct false [
  ("pubkey", IPubkey); ("capability", IU8); ("spendingLimitUsd", IU64); ("paused", IBool);
  ("consecutiveFailures", IU8); ("reserved", IArray IU8 6)].

Definition idl_type_agentGrantApplied : IdlTypeDef := IdlStruct false [
  ("vault", IPubkey); ("agent", IPubkey); ("capability", IU8); ("spendingLimitUsd", IU64);
  ("queuedAt", II64); ("appliedAt", II64); ("newPolicyVersion", IU64)].

Definition idl_type_agentGrantCancelled : IdlTypeDef := IdlStruct false [
  ("vault", IPubkey); ("owner", IPubkey); ("cancelledAgent", IPubkey); ("timestamp", II64)].

Definition idl_type_agentGrantQueued : IdlTypeDef := IdlStruct false [
  ("vault", IPubkey); ("agent", IPubkey); ("capability", IU8); ("spendingLimitUsd", IU64);
  ("queuedAt", II64); ("executesAt", II64)].

Definition idl_type_agentPausedEvent : IdlTypeDef := IdlStruct false [
  ("vault", IPubkey); ("agent", IPubkey); ("timestamp", II64)].

Definition idl_type_agentPermissionsChangeApplied : IdlTypeDef := IdlStruct false [
  ("vault", IPubkey); ("agent", IPubkey); ("appliedAt", II64)].

Definition idl_type_agentPermissionsChangeCancelled : IdlTypeDef := IdlStruct false [
  ("vault", IPubkey); ("agent", IPubkey)].

Definition idl_type_agentPermissionsChangeQueued : IdlTypeDef := IdlStruct false [
  ("vault", IPubkey); ("agent", IPubkey); ("executesAt", II64)].

Definition idl_type_agentRegistered : IdlTypeDef := IdlStruct false [
  ("vault", IPubkey); ("agent", IPubkey); ("capability", IU8); ("spendingLimitUsd", IU64);
  ("timestamp", II64)].

Definition idl_type_agentRevoked : IdlTypeDef := IdlStruct false [
  ("vault", IPubkey); ("agent", IPubkey); ("remainingAgents", IU8); ("timestamp", II64)].

Definition idl_type_agentSpendLimitChecked : IdlTypeDef := IdlStruct false [
  ("vault", IPubkey); ("agent", IPubkey); ("agentRollingSpend", IU64); ("spendingLimitUsd", IU64);
  ("amount", IU64); ("timestamp", II64)].

Definition idl_type_agentSpendOverlay : IdlTypeDef := IdlStruct true [
  ("vault", IPubkey); ("entries", IArray (IDefined "agentContributionEntry") 10); ("bump", IU8);
  ("padding", IArray IU8 7); ("lifetimeSpend", IArray IU64 10);
  ("lifetimeTxCount", IArray IU64 10); ("cooldownSeconds", IArray IU64 10);
  ("lastActionUnix", IArray II64 10)].

Definition idl_type_agentTransferExecuted : IdlTypeDef := IdlStruct false [
  ("vault", IPubkey); ("destination", IPubkey); ("amount", IU64); ("mint", IPubkey)].

Definition idl_type_agentUnpausedEvent : IdlTypeDef := IdlStruct false [
  ("vault", IPubkey); ("agent", IPubkey); ("timestamp", II64)].

Definition idl_type_agentVault : IdlTypeDef := IdlStruct false [
  ("owner", IPubkey); ("vaultId", IU64); ("agents", IVec (IDefined "agentEntry"));
  ("feeDestination", IPubkey); ("status", IDefined "vaultStatus"); ("bump", IU8);
  ("createdAt", II64); ("totalTransactions", IU64); ("totalVolume", IU64);
  ("totalFeesCollected", IU64); ("totalDepositedUsd", IU64); ("totalWithdrawnUsd", IU64);
  ("totalFailedTransactions", IU64); ("activeSessions", IU8); ("observeOnly", IBool);
  ("frozenAtTimestamp", II64); ("freezeReason", IU8); ("ownerType", IU8);
  ("vaultAuthority", IPubkey)].

Definition idl_type_auditEntry : IdlTypeDef := IdlStruct true [
  ("subject", IArray IU8 32); ("balanceDeltaIn", II64); ("balanceDeltaOut", II64);
  ("timestamp", II64); ("slotHash", IArray IU8 4); ("blockhash", IArray IU8 3);
  ("discriminator", IU8)].

Definition idl_type_auditLogRejected : IdlTypeDef := IdlStruct true [
  ("vault", IPubkey); ("entries", IArray (IDefined "auditEntry") 64); ("head", IU8);
  ("count", IU8); ("padding", IArray IU8 13); ("bump", IU8)].

Definition idl_type_auditLogSuccess : IdlTypeDef := IdlStruct true [
  ("vault", IPubkey); ("entries", IArray (IDefined "auditEntry") 128); ("head", IU8);
  ("count", IU8); ("padding", IArray IU8 13); ("bump", IU8)].

Definition idl_type_delegationRevoked : IdlTypeDef := IdlStruct false [
  ("vault", IPubkey); ("tokenAccount", IPubkey); ("timestamp", II64)].

Definition idl_type_destinationGraylistEntry : IdlTypeDef := IdlStruct false [
  ("destination", IPubkey); ("unlockUnix", II64)].

Definition idl_type_epochBucket : IdlTypeDef := IdlStruct true [
  ("epochId", II64); ("usdAmount", IU64)].

Definition idl_type_feesCollected : IdlTypeDef := IdlStruct false [
  ("vault", IPubkey); ("tokenMint", IPubkey); ("protocolFeeAmount", IU64);
  ("developerFeeAmount", IU64); ("protocolFeeRate", IU16); ("developerFeeRate", IU16);
  ("transactionAmount", IU64); ("protocolTreasury", IPubkey); ("developerFeeDestination", IPubkey);
  ("cumulativeDeveloperFees", IU64); ("timestamp", II64)].

Definition idl_type_fundsDeposited : IdlTypeDef := IdlStruct false [
  ("vault", IPubkey); ("tokenMint", IPubkey); ("amount", IU64); ("timestamp", II64)].

Definition idl_type_fundsWithdrawn : IdlTypeDef := IdlStruct false [
  ("vault", IPubkey); ("tokenMint", IPubkey); ("amount", IU64); ("destination", IPubkey);
  ("timestamp", II64)].

Definition idl_type_graylistEntered : IdlTypeDef := IdlStruct false [
  ("vault", IPubkey); ("destination", IPubkey); ("unlockUnix", II64); ("autoPromoted", IBool);
  ("timestamp", II64)].

Definition idl_type_graylistPromoted : IdlTypeDef := IdlStruct false [
  ("vault", IPubkey); ("destination", IPubkey); ("promoted", IBool); ("timestamp", II64)].

Definition idl_type_observeOnlyChanged : IdlTypeDef := IdlStruct false [
  ("vault", IPubkey); ("oldValue", IBool); ("newValue", IBool); ("newPolicyVersion", IU64);
  ("newPolicyPreviewDigest", IArray IU8 32); ("timestamp", II64)].

Definition idl_type_ownershipTransferAccepted : IdlTypeDef := IdlStruct false [
  ("vault", IPubkey); ("previousOwner", IPubkey); ("newOwner", IPubkey); ("viaMultisig", IBool);
  ("timestamp", II64)].

Definition idl_type_ownershipTransferCancelled : IdlTypeDef := IdlStruct false [
  ("vault", IPubkey); ("currentOwner", IPubkey); ("cancelledNewOwner", IPubkey); ("timestamp", II64)].

Definition idl_type_ownershipTransferInitiated : IdlTypeDef := IdlStruct false [
  ("vault", IPubkey); ("currentOwner", IPubkey); ("newOwner", IPubkey); ("queuedAt", II64);
  ("isMultisigTarget", IBool)].

Definition idl_type_pendingAgentGrant : IdlTypeDef := IdlStruct false [
  ("vault", IPubkey); ("agent", IPubkey); ("capability", IU8); ("spendingLimitUsd", IU64);
  ("queuedAt", II64); ("minDelaySeconds", IU64); ("bump", IU8); ("padding", IArray IU8 6);
  ("pendingContentDigest", IArray IU8 32); ("queuedAtSlot", IU64)].

Definition idl_type_pendingAgentPermissionsUpdate : IdlTypeDef := IdlStruct false [
  ("vault", IPubkey); ("agent", IPubkey); ("newCapability", IU8); ("reservedCap", IArray IU8 7);
  ("spendingLimitUsd", IU64); ("queuedAt", II64); ("executesAt", II64); ("queuedAtSlot", IU64);
  ("bump", IU8); ("cooldownSeconds", IU64); ("cosignDigest", IArray IU8 32);
  ("cosignSession", IPubkey)].

Definition idl_type_pendingOwnershipTransfer : IdlTypeDef := IdlStruct false [
  ("vault", IPubkey); ("currentOwner", IPubkey); ("newOwner", IPubkey); ("queuedAt", II64);
  ("minDelaySeconds", IU64); ("isMultisigTarget", IBool); ("bump", IU8); ("padding", IArray IU8 6);
  ("queuedAtSlot", IU64)].

Definition idl_type_pendingPolicyUpdate : IdlTypeDef := IdlStruct false [
  ("vault", IPubkey); ("queuedAt", II64); ("executesAt", II64); ("queuedAtSlot", IU64);
  ("dailySpendingCapUsd", IOption IU64); ("maxTransactionAmountUsd", IOption IU64);
  ("protocolMode", IOption IU8); ("protocols", IOption (IVec IPubkey));
  ("developerFeeRate", IOption IU16); ("maxSlippageBps", IOption IU16);
  ("timelockDuration", IOption IU64); ("allowedDestinations", IOption (IVec IPubkey));
  ("sessionExpirySeconds", IOption IU64); ("hasProtocolCaps", IOption IBool);
  ("protocolCaps", IOption (IVec IU64)); ("destinationMode", IOption IU8); ("bump", IU8);
  ("operatingHours", IOption IU32); ("cosignDigest", IArray IU8 32); ("cosignSession", IPubkey);
  ("newPolicyPreviewDigest", IArray IU8 32); ("stableBalanceFloor", IOption IU64);
  ("perRecipientDailyCapUsd", IOption IU64); ("cosignRequired", IOption IBool);
  ("cosignSessionPubkey", IOption IPubkey); ("operatorGrantDelaySeconds", IOption IU64);
  ("cosignApproved", IBool); ("approvedAtSlot", IU64); ("queuedPolicyVersion", IU64);
  ("protocolHashes", IOption (IArray (IArray IU8 32) 10))].

Definition idl_type_perRecipientCounter : IdlTypeDef := IdlStruct true [
  ("recipient", IArray IU8 32); ("windowStart", II64); ("windowSpendUsd", IU64)].

Definition idl_type_policyChangeApplied : IdlTypeDef := IdlStruct false [
  ("vault", IPubkey); ("appliedAt", II64)].

Definition idl_type_policyChangeCancelled : IdlTypeDef := IdlStruct false [
  ("vault", IPubkey)].

Definition idl_type_policyChangeQueued : IdlTypeDef := IdlStruct false [
  ("vault", IPubkey); ("executesAt", II64)].

Definition idl_type_policyConfig : IdlTypeDef := IdlStruct false [
  ("vault", IPubkey); ("dailySpendingCapUsd", IU64); ("maxTransactionSizeUsd", IU64);
  ("protocolMode", IU8); ("protocols", IVec IPubkey); ("developerFeeRate", IU16);
  ("maxSlippageBps", IU16); ("timelockDuration", IU64); ("allowedDestinations", IVec IPubkey);
  ("hasPendingPolicy", IBool); ("hasProtocolCaps", IBool); ("protocolCaps", IVec IU64);
  ("sessionExpirySeconds", IU64); ("bump", IU8); ("policyVersion", IU64);
  ("hasPostAssertions", IU8); ("destinationMode", IU8); ("policyPreviewDigest", IArray IU8 32);
  ("createdAtSlot", IU64); ("operatingHours", IU32);
  ("destinationGraylist", IVec (IDefined "destinationGraylistEntry")); ("autoPromoteGrays", IBool);
  ("autoRevokeThreshold", IU8); ("stableBalanceFloor", IU64); ("perRecipientDailyCapUsd", IU64);
  ("cosignRequired", IBool); ("cosignSessionPubkey", IPubkey); ("operatorGrantDelaySeconds", IU64);
  ("protocolHashes", IArray (IArray IU8 32) 10)].

Definition idl_type_policyCosignApproved : IdlTypeDef := IdlStruct false [
  ("vault", IPubkey); ("cosigner", IPubkey); ("approvedAtSlot", IU64)].

Definition idl_type_postAssertionChecked : IdlTypeDef := IdlStruct false [
  ("vault", IPubkey); ("entryIndex", IU8); ("passed", IBool); ("timestamp", II64)].

Definition idl_type_postAssertionEntry : IdlTypeDef := IdlStruct false [
  ("targetAccount", IPubkey); ("offset", IU16); ("valueLen", IU8); ("operator", IU8);
  ("expectedValue", IBytes); ("assertionMode", IU8); ("auxValue", IArray IU8 8); ("auxByte", IU8)].

Definition idl_type_postAssertionEntryZc : IdlTypeDef := IdlStruct true [
  ("targetAccount", IArray IU8 32); ("offset", IU16); ("valueLen", IU8); ("operator", IU8);
  ("expectedValue", IArray IU8 32); ("assertionMode", IU8); ("auxValue", IArray IU8 8);
  ("auxByte", IU8)].

Definition idl_type_postAssertionsClosed : IdlTypeDef := IdlStruct false [
  ("vault", IPubkey); ("timestamp", II64)].

Definition idl_type_postAssertionsCreated : IdlTypeDef := IdlStruct false [
  ("vault", IPubkey); ("entryCount", IU8); ("timestamp", II64)].

Definition idl_type_postExecutionAssertions : IdlTypeDef := IdlStruct true [
  ("vault", IArray IU8 32); ("entries", IArray (IDefined "postAssertionEntryZc") 8);
  ("entryCount", IU8); ("bump", IU8); ("padding", IArray IU8 6)].

Definition idl_type_protocolSpendCounter : IdlTypeDef := IdlStruct true [
  ("protocol", IArray IU8 32); ("windowStart", II64); ("windowSpend", IU64)].

Definition idl_type_sessionAuthority : IdlTypeDef := IdlStruct false [
  ("vault", IPubkey); ("agent", IPubkey); ("authorized", IBool); ("authorizedAmount", IU64);
  ("authorizedToken", IPubkey); ("authorizedProtocol", IPubkey); ("expiresAtTimestamp", II64);
  ("delegated", IBool); ("delegationTokenAccount", IPubkey); ("protocolFee", IU64);
  ("developerFee", IU64); ("outputMint", IPubkey); ("stablecoinBalanceBefore", IU64);
  ("bump", IU8); ("assertionSnapshots", IArray (IArray IU8 32) 8); ("snapshotLens", IArray IU8 8);
  ("nonce", IU64); ("outputStablecoinAccount", IPubkey); ("outputSwapAccount", IPubkey);
  ("outputSwapMint", IPubkey); ("outputSwapBalanceBefore", IU64)].

Definition idl_type_sessionFinalized : IdlTypeDef := IdlStruct false [
  ("vault", IPubkey); ("agent", IPubkey); ("success", IBool); ("isExpired", IBool);
  ("timestamp", II64); ("actualSpendUsd", IU64); ("balanceAfterUsd", IU64)].

Definition idl_type_spendTracker : IdlTypeDef := IdlStruct true [
  ("vault", IPubkey); ("buckets", IArray (IDefined "epochBucket") 144);
  ("protocolCounters", IArray (IDefined "protocolSpendCounter") 10); ("lastWriteEpoch", II64);
  ("bump", IU8); ("padding", IArray IU8 7);
  ("perRecipient", IArray (IDefined "perRecipientCounter") 10); ("perRecipientCount", IU8);
  ("paddingRecipient", IArray IU8 7)].

Definition idl_type_vaultClosed : IdlTypeDef := IdlStruct false [
  ("vault", IPubkey); ("owner", IPubkey); ("timestamp", II64)].

Definition idl_type_vaultCreated : IdlTypeDef := IdlStruct false [
  ("vault", IPubkey); ("owner", IPubkey); ("vaultId", IU64); ("timestamp", II64)].

Definition idl_type_vaultFrozen : IdlTypeDef := IdlStruct false [
  ("vault", IPubkey); ("owner", IPubkey); ("agentsPreserved", IU8); ("sessionsRevoked", IU32);
  ("timestamp", II64); ("freezeReason", IU8)].

Definition idl_type_vaultReactivated : IdlTypeDef := IdlStruct false [
  ("vault", IPubkey); ("newAgent", IOption IPubkey); ("newAgentCapability", IOption IU8);
  ("timestamp", II64)].

Definition idl_type_vaultStatus : IdlTypeDef := IdlEnum 3.

Definition idl_types : list (string * IdlTypeDef) := [
  ("actionAuthorized", idl_type_actionAuthorized);
  ("agentAutoRevoked", idl_type_agentAutoRevoked);
  ("agentContributionEntry", idl_type_agentContributionEntry);
  ("agentEntry", idl_type_agentEntry);
  ("agentGrantApplied", idl_type_agentGrantApplied);
  ("agentGrantCancelled", idl_type_agentGrantCancelled);
  ("agentGrantQueued", idl_type_agentGrantQueued);
  ("agentPausedEvent", idl_type_agentPausedEvent);
  ("agentPermissionsChangeApplied", idl_type_agentPermissionsChangeApplied);
  ("agentPermissionsChangeCancelled", idl_type_agentPermissionsChangeCancelled);
  ("agentPermissionsChangeQueued", idl_type_agentPermissionsChangeQueued);
  ("agentRegistered", idl_type_agentRegistered);
  ("agentRevoked", idl_type_agentRevoked);
  ("agentSpendLimitChecked", idl_type_agentSpendLimitChecked);
  ("agentSpendOverlay", idl_type_agentSpendOverlay);
  ("agentTransferExecuted", idl_type_agentTransferExecuted);
  ("agentUnpausedEvent", idl_type_agentUnpausedEvent);
  ("agentVault", idl_type_agentVault);
  ("auditEntry", idl_type_auditEntry);
  ("auditLogRejected", idl_type_auditLogRejected);
  ("auditLogSuccess", idl_type_auditLogSuccess);
  ("delegationRevoked", idl_type_delegationRevoked);
  ("destinationGraylistEntry", idl_type_destinationGraylistEntry);
  ("epochBucket", idl_type_epochBucket);
  ("feesCollected", idl_type_feesCollected);
  ("fundsDeposited", idl_type_fundsDeposited);
  ("fundsWithdrawn", idl_type_fundsWithdrawn);
  ("graylistEntered", idl_type_graylistEntered);
  ("graylistPromoted", idl_type_graylistPromoted);
  ("observeOnlyChanged", idl_type_observeOnlyChanged);
  ("ownershipTransferAccepted", idl_type_ownershipTransferAccepted);
  ("ownershipTransferCancelled", idl_type_ownershipTransferCancelled);
  ("ownershipTransferInitiated", idl_type_ownershipTransferInitiated);
  ("pendingAgentGrant", idl_type_pendingAgentGrant);
  ("pendingAgentPermissionsUpdate", idl_type_pendingAgentPermissionsUpdate);
  ("pendingOwnershipTransfer", idl_type_pendingOwnershipTransfer);
  ("pendingPolicyUpdate", idl_type_pendingPolicyUpdate);
  ("perRecipientCounter", idl_type_perRecipientCounter);
  ("policyChangeApplied", idl_type_policyChangeApplied);
  ("policyChangeCancelled", idl_type_policyChangeCancelled);
  ("policyChangeQueued", idl_type_policyChangeQueued);
  ("policyConfig", idl_type_policyConfig);
  ("policyCosignApproved", idl_type_policyCosignApproved);
  ("postAssertionChecked", idl_type_postAssertionChecked);
  ("postAssertionEntry", idl_type_postAssertionEntry);
  ("postAssertionEntryZc", idl_type_postAssertionEntryZc);
  ("postAssertionsClosed", idl_type_postAssertionsClosed);
  ("postAssertionsCreated", idl_type_postAssertionsCreated);
  ("postExecutionAssertions", idl_type_postExecutionAssertions);
  ("protocolSpendCounter", idl_type_protocolSpendCounter);
  ("sessionAuthority", idl_type_sessionAuthority);
  ("sessionFinalized", idl_type_sessionFinalized);
  ("spendTracker", idl_type_spendTracker);
  ("vaultClosed", idl_type_vaultClosed);
  ("vaultCreated", idl_type_vaultCreated);
  ("vaultFrozen", idl_type_vaultFrozen);
  ("vaultReactivated", idl_type_vaultReactivated);
  ("vaultStatus", idl_type_vaultStatus)].

(** ** [generated/errors/sigil.ts] *)

Definition error_constants_1 : list (string * Z) := [
  ("SIGIL_ERROR__VAULT_NOT_ACTIVE", 6000%Z); ("SIGIL_ERROR__UNAUTHORIZED_AGENT", 6001%Z);
  ("SIGIL_ERROR__UNAUTHORIZED_OWNER", 6002%Z); ("SIGIL_ERROR__UNSUPPORTED_TOKEN", 6003%Z);
  ("SIGIL_ERROR__PROTOCOL_NOT_ALLOWED", 6004%Z); ("SIGIL_ERROR__TRANSACTION_TOO_LARGE", 6005%Z);
  ("SIGIL_ERROR__SPENDING_CAP_EXCEEDED", 6006%Z); ("SIGIL_ERROR__SESSION_NOT_AUTHORIZED", 6007%Z);
  ("SIGIL_ERROR__INVALID_SESSION", 6008%Z); ("SIGIL_ERROR__TOO_MANY_ALLOWED_PROTOCOLS", 6009%Z);
  ("SIGIL_ERROR__AGENT_ALREADY_REGISTERED", 6010%Z); ("SIGIL_ERROR__NO_AGENT_REGISTERED", 6011%Z);
  ("SIGIL_ERROR__VAULT_NOT_FROZEN", 6012%Z); ("SIGIL_ERROR__VAULT_ALREADY_CLOSED", 6013%Z);
  ("SIGIL_ERROR__INSUFFICIENT_BALANCE", 6014%Z); ("SIGIL_ERROR__DEVELOPER_FEE_TOO_HIGH", 6015%Z);
  ("SIGIL_ERROR__INVALID_FEE_DESTINATION", 6016%Z);
  ("SIGIL_ERROR__INVALID_PROTOCOL_TREASURY", 6017%Z); ("SIGIL_ERROR__INVALID_AGENT_KEY", 6018%Z);
  ("SIGIL_ERROR__AGENT_IS_OWNER", 6019%Z); ("SIGIL_ERROR__OVERFLOW", 6020%Z);
  ("SIGIL_ERROR__INVALID_TOKEN_ACCOUNT", 6021%Z); ("SIGIL_ERROR__TIMELOCK_NOT_EXPIRED", 6022%Z);
  ("SIGIL_ERROR__NO_TIMELOCK_CONFIGURED", 6023%Z);
  ("SIGIL_ERROR__DESTINATION_NOT_ALLOWED", 6024%Z); ("SIGIL_ERROR__TOO_MANY_DESTINATIONS", 6025%Z);
  ("SIGIL_ERROR__INVALID_PROTOCOL_MODE", 6026%Z); ("SIGIL_ERROR__CPI_CALL_NOT_ALLOWED", 6027%Z);
  ("SIGIL_ERROR__MISSING_FINALIZE_INSTRUCTION", 6028%Z);
  ("SIGIL_ERROR__NON_TRACKED_SWAP_MUST_RETURN_STABLECOIN", 6029%Z);
  ("SIGIL_ERROR__UNAUTHORIZED_TOKEN_TRANSFER", 6030%Z);
  ("SIGIL_ERROR__SLIPPAGE_BPS_TOO_HIGH", 6031%Z); ("SIGIL_ERROR__PROTOCOL_MISMATCH", 6032%Z);
  ("SIGIL_ERROR__TOO_MANY_DE_FI_INSTRUCTIONS", 6033%Z);
  ("SIGIL_ERROR__MAX_AGENTS_REACHED", 6034%Z); ("SIGIL_ERROR__INSUFFICIENT_PERMISSIONS", 6035%Z);
  ("SIGIL_ERROR__INVALID_PERMISSIONS", 6036%Z); ("SIGIL_ERROR__INVALID_CONSTRAINT_CONFIG", 6037%Z);
  ("SIGIL_ERROR__AGENT_SPEND_LIMIT_EXCEEDED", 6038%Z);
  ("SIGIL_ERROR__OVERLAY_SLOT_EXHAUSTED", 6039%Z)].

Definition error_constants_2 : list (string * Z) := [
  ("SIGIL_ERROR__AGENT_SLOT_NOT_FOUND", 6040%Z);
  ("SIGIL_ERROR__UNAUTHORIZED_TOKEN_APPROVAL", 6041%Z);
  ("SIGIL_ERROR__INVALID_SESSION_EXPIRY", 6042%Z); ("SIGIL_ERROR__PROTOCOL_CAP_EXCEEDED", 6043%Z);
  ("SIGIL_ERROR__PROTOCOL_CAPS_MISMATCH", 6044%Z); ("SIGIL_ERROR__PENDING_POLICY_EXISTS", 6045%Z);
  ("SIGIL_ERROR__AGENT_PAUSED", 6046%Z); ("SIGIL_ERROR__AGENT_ALREADY_PAUSED", 6047%Z);
  ("SIGIL_ERROR__AGENT_NOT_PAUSED", 6048%Z);
  ("SIGIL_ERROR__UNAUTHORIZED_POST_FINALIZE_INSTRUCTION", 6049%Z);
  ("SIGIL_ERROR__UNEXPECTED_BALANCE_DECREASE", 6050%Z);
  ("SIGIL_ERROR__TIMELOCK_TOO_SHORT", 6051%Z); ("SIGIL_ERROR__POLICY_VERSION_MISMATCH", 6052%Z);
  ("SIGIL_ERROR__ACTIVE_SESSIONS_EXIST", 6053%Z); ("SIGIL_ERROR__POST_ASSERTION_FAILED", 6054%Z);
  ("SIGIL_ERROR__INVALID_POST_ASSERTION_INDEX", 6055%Z);
  ("SIGIL_ERROR__UNAUTHORIZED_PRE_VALIDATE_INSTRUCTION", 6056%Z);
  ("SIGIL_ERROR__SNAPSHOT_NOT_CAPTURED", 6057%Z);
  ("SIGIL_ERROR__INVALID_CONSTRAINT_OPERATOR", 6058%Z);
  ("SIGIL_ERROR__ZERO_COPY_VAULT_MISMATCH", 6059%Z);
  ("SIGIL_ERROR__QUEUED_UPDATE_EXPIRED", 6060%Z);
  ("SIGIL_ERROR__ACCOUNT_WRITABILITY_MISMATCH", 6061%Z);
  ("SIGIL_ERROR__SYSVAR_SCAN_BOUND_EXCEEDED", 6062%Z);
  ("SIGIL_ERROR__ASYNC_FULFILLMENT_NOT_PERMITTED", 6063%Z);
  ("SIGIL_ERROR__CONFIDENTIAL_TRANSFER_BLOCKED", 6064%Z);
  ("SIGIL_ERROR__PERMANENT_DELEGATE_BLOCKED", 6065%Z);
  ("SIGIL_ERROR__TRANSFER_HOOK_BLOCKED", 6066%Z); ("SIGIL_ERROR__LAMPORT_DRAIN_BLOCKED", 6067%Z);
  ("SIGIL_ERROR__BATCH_INSTRUCTION_BLOCKED", 6068%Z);
  ("SIGIL_ERROR__INVALID_DESTINATION_MODE", 6069%Z); ("SIGIL_ERROR__INVALID_CAPABILITY", 6070%Z);
  ("SIGIL_ERROR__POLICY_PREVIEW_MISMATCH", 6071%Z);
  ("SIGIL_ERROR__OBSERVE_ONLY_MODE_BLOCKS_EXECUTE", 6072%Z);
  ("SIGIL_ERROR__ACTIVE_VAULT_REQUIRES_ALLOWLIST", 6073%Z);
  ("SIGIL_ERROR__ERR_MINT_NOT_PINNED", 6074%Z);
  ("SIGIL_ERROR__ERR_OUTSIDE_OPERATING_HOURS", 6075%Z);
  ("SIGIL_ERROR__ERR_COOLDOWN_ACTIVE", 6076%Z); ("SIGIL_ERROR__ERR_GRAYLIST_FRICTION", 6077%Z);
  ("SIGIL_ERROR__ERR_GRAYLIST_FULL", 6078%Z);
  ("SIGIL_ERROR__ERR_TOKEN2022_EXTENSION_FORBIDDEN", 6079%Z)].

Definition error_constants_3 : list (string * Z) := [
  ("SIGIL_ERROR__ERR_COSIGN_REQUIRED", 6080%Z); ("SIGIL_ERROR__ERR_AUTO_REVOKED", 6081%Z);
  ("SIGIL_ERROR__ERR_SANDWICH_INTEGRITY", 6082%Z); ("SIGIL_ERROR__ERR_PROTECTED_WRITABLE", 6083%Z);
  ("SIGIL_ERROR__ERR_SESSION_NONCE_MISMATCH", 6084%Z);
  ("SIGIL_ERROR__ERR_STABLE_FLOOR_VIOLATION", 6085%Z);
  ("SIGIL_ERROR__ERR_DAILY_CAP_EXCEEDED", 6086%Z);
  ("SIGIL_ERROR__ERR_RECIPIENT_CAP_EXCEEDED", 6087%Z);
  ("SIGIL_ERROR__ERR_MINT_DELTA_CAP_EXCEEDED", 6088%Z);
  ("SIGIL_ERROR__MINT_DELTA_CAP_MISCONFIGURED", 6089%Z);
  ("SIGIL_ERROR__ERR_ATA_AUTHORITY_CHANGED", 6090%Z);
  ("SIGIL_ERROR__ERR_OUTPUT_BELOW_FLOOR", 6091%Z);
  ("SIGIL_ERROR__ERR_DECLARATION_INCONSISTENT", 6092%Z);
  ("SIGIL_ERROR__IX_META_COUNT_EXCEEDED", 6093%Z);
  ("SIGIL_ERROR__ERR_PENDING_OWNERSHIP_EXISTS", 6094%Z);
  ("SIGIL_ERROR__ERR_PENDING_OWNERSHIP_NOT_READY", 6095%Z);
  ("SIGIL_ERROR__ERR_INVALID_FREEZE_REASON", 6096%Z);
  ("SIGIL_ERROR__ERR_REACTIVATE_COOLDOWN_ACTIVE", 6097%Z);
  ("SIGIL_ERROR__ERR_INVALID_OWNERSHIP_TARGET", 6098%Z);
  ("SIGIL_ERROR__ERR_TOO_MANY_REVOKE_PAIRS", 6099%Z);
  ("SIGIL_ERROR__ERR_POST_ASSERTIONS_NOT_CLOSED", 6100%Z);
  ("SIGIL_ERROR__ERR_DESTINATION_IS_PROTECTED_PDA", 6101%Z);
  ("SIGIL_ERROR__ERR_INTENT_DIGEST_MISMATCH", 6102%Z);
  ("SIGIL_ERROR__ERR_PENDING_AGENT_GRANT_DIGEST_MISMATCH", 6103%Z);
  ("SIGIL_ERROR__ERR_REACTIVATE_COSIGN_REQUIRED_FOR_FULL_CAPABILITY", 6104%Z);
  ("SIGIL_ERROR__DESTINATION_ACCOUNT_UNRESOLVABLE", 6105%Z);
  ("SIGIL_ERROR__ERR_TOKEN2022_OUTPUT_MINT_UNRESOLVABLE", 6106%Z);
  ("SIGIL_ERROR__ERR_OPERATOR_GRANT_REQUIRES_TIMELOCK", 6107%Z);
  ("SIGIL_ERROR__ERR_OPERATOR_GRANT_DELAY_TOO_LONG", 6108%Z);
  ("SIGIL_ERROR__INVALID_OWNER_TYPE", 6109%Z); ("SIGIL_ERROR__SPEND_ACCOUNTING_UNDERFLOW", 6110%Z);
  ("SIGIL_ERROR__ERR_MULTISIG_CUSTODY_UNSUPPORTED", 6111%Z);
  ("SIGIL_ERROR__ERR_OUTPUT_NOT_VAULT_OWNED", 6112%Z);
  ("SIGIL_ERROR__ERR_FINALIZE_META_UNRESOLVABLE", 6113%Z);
  ("SIGIL_ERROR__ERR_DE_FI_INSTRUCTION_NOT_ADJACENT_TO_FINALIZE", 6114%Z);
  ("SIGIL_ERROR__ERR_UNMEASURABLE_SPEND", 6115%Z);
  ("SIGIL_ERROR__ERR_PROGRAM_DATA_UNRESOLVABLE", 6116%Z);
  ("SIGIL_ERROR__ERR_PROGRAM_BUILD_MISMATCH", 6117%Z); ("SIGIL_ERROR__TIMELOCK_TOO_LONG", 6118%Z)].

Definition error_constants : list (string * Z) := error_constants_1 ++ error_constants_2 ++ error_constants_3.

Definition sigilErrorMessages_1 : list (string * string) := [
  ("SIGIL_ERROR__ACCOUNT_WRITABILITY_MISMATCH",
   "Account writability flag does not match constraint requirement");
  ("SIGIL_ERROR__ACTIVE_SESSIONS_EXIST",
   "Cannot close vault with active sessions (finalize pending sessions first)");
  ("SIGIL_ERROR__ACTIVE_VAULT_REQUIRES_ALLOWLIST",
   "Active (non-observe_only) vault must have at least one protocol or destination on the allowlist");
  ("SIGIL_ERROR__AGENT_ALREADY_PAUSED",
   "Agent is already paused");
  ("SIGIL_ERROR__AGENT_ALREADY_REGISTERED",
   "Agent already registered for this vault");
  ("SIGIL_ERROR__AGENT_IS_OWNER",
   "Invalid agent: agent cannot be the vault owner");
  ("SIGIL_ERROR__AGENT_NOT_PAUSED",
   "Agent is not paused");
  ("SIGIL_ERROR__AGENT_PAUSED",
   "Agent is paused and cannot execute actions");
  ("SIGIL_ERROR__AGENT_SLOT_NOT_FOUND",
   "Agent has per-agent spending limit but no overlay tracking slot");
  ("SIGIL_ERROR__AGENT_SPEND_LIMIT_EXCEEDED",
   "Agent rolling 24h spend exceeds per-agent spending limit");
  ("SIGIL_ERROR__ASYNC_FULFILLMENT_NOT_PERMITTED",
   "Async-fulfillment program is not permitted in V1 (Jupiter Perps, Drift, Drift JIT). Spending cannot be measured because keeper submits the actual transfer in a separate transaction after finalize_session returns.");
  ("SIGIL_ERROR__BATCH_INSTRUCTION_BLOCKED",
   "Token-2022 Batch instruction (opcode 255) is blocked outright — wraps inner instructions and bypasses byte-0 blocklist");
  ("SIGIL_ERROR__CONFIDENTIAL_TRANSFER_BLOCKED",
   "Token-2022 ConfidentialTransfer not permitted between validate and finalize");
  ("SIGIL_ERROR__CPI_CALL_NOT_ALLOWED",
   "Instruction must be top-level (CPI calls not allowed)");
  ("SIGIL_ERROR__DESTINATION_ACCOUNT_UNRESOLVABLE",
   "Writable DeFi account could not be resolved in remaining_accounts — destination set incomplete");
  ("SIGIL_ERROR__DESTINATION_NOT_ALLOWED",
   "Destination not in allowed list");
  ("SIGIL_ERROR__DEVELOPER_FEE_TOO_HIGH",
   "Developer fee rate exceeds maximum (500 / 1,000,000 = 5 BPS)");
  ("SIGIL_ERROR__ERR_ATA_AUTHORITY_CHANGED",
   "R-2 AtaAuthorityPin: vault-owned token account authority changed or account closed/reinitialized mid-sandwich");
  ("SIGIL_ERROR__ERR_AUTO_REVOKED",
   "Agent capability auto-revoked after consecutive policy-violation failures; owner must re-enable");
  ("SIGIL_ERROR__ERR_COOLDOWN_ACTIVE",
   "Agent cooldown period has not elapsed since the last action");
  ("SIGIL_ERROR__ERR_COSIGN_REQUIRED",
   "Elevated policy mutation requires an owner-signed cosigning session");
  ("SIGIL_ERROR__ERR_DAILY_CAP_EXCEEDED",
   "Per-protocol daily spending cap would be exceeded (rolling 24h)");
  ("SIGIL_ERROR__ERR_DECLARATION_INCONSISTENT",
   "R-4 DeclarationConsistency: declared recipient/mint does not match CPI account-meta");
  ("SIGIL_ERROR__ERR_DE_FI_INSTRUCTION_NOT_ADJACENT_TO_FINALIZE",
   "The counted DeFi instruction must sit immediately before finalize_session (no interleaved instruction) so finalize's attribution walks bind to the correct instruction");
  ("SIGIL_ERROR__ERR_DESTINATION_IS_PROTECTED_PDA",
   "Destination is a Sigil-protected PDA — rejected at queue time");
  ("SIGIL_ERROR__ERR_FINALIZE_META_UNRESOLVABLE",
   "Finalize completeness: a writable DeFi account meta is absent from remaining_accounts (F-Q1b — omission would dodge per-recipient/output attribution)");
  ("SIGIL_ERROR__ERR_GRAYLIST_FRICTION",
   "Destination is graylisted (24h friction window — awaiting promote_graylist_destination or unlock)");
  ("SIGIL_ERROR__ERR_GRAYLIST_FULL",
   "Destination graylist is full (max 10 entries) — wait for an existing entry to unlock or promote");
  ("SIGIL_ERROR__ERR_INTENT_DIGEST_MISMATCH",
   "AL3 intent-digest mismatch — preview digest does not match executed bundle");
  ("SIGIL_ERROR__ERR_INVALID_FREEZE_REASON",
   "freeze_reason value out of {{0,1,2}}");
  ("SIGIL_ERROR__ERR_INVALID_OWNERSHIP_TARGET",
   "new_owner cannot be system/program/sysvar addresses (Council ISC-128)");
  ("SIGIL_ERROR__ERR_MINT_DELTA_CAP_EXCEEDED",
   "R-1 MintDeltaCap: vault-mint balance decreased by more than max_net_decrease");
  ("SIGIL_ERROR__ERR_MINT_NOT_PINNED",
   "Deposit mint is not a build-time-pinned stablecoin (USDC or USDT)");
  ("SIGIL_ERROR__ERR_MULTISIG_CUSTODY_UNSUPPORTED",
   "Squads multisig ownership custody is not supported in V1 (use a standard EOA owner)");
  ("SIGIL_ERROR__ERR_OPERATOR_GRANT_DELAY_TOO_LONG",
   "operator_grant_delay_seconds exceeds the maximum (48h) — would brick grant applicability");
  ("SIGIL_ERROR__ERR_OPERATOR_GRANT_REQUIRES_TIMELOCK",
   "OPERATOR grant requires the timelock queue path on this vault — use queue_agent_grant");
  ("SIGIL_ERROR__ERR_OUTPUT_BELOW_FLOOR",
   "R-3 OutputBalanceFloor: post-execution balance increase fell below the configured min_increase floor");
  ("SIGIL_ERROR__ERR_OUTPUT_NOT_VAULT_OWNED",
   "M1: stablecoin-input swap output must land in a vault-owned account and increase (value redirection / unacquired spend rejected)");
  ("SIGIL_ERROR__ERR_OUTSIDE_OPERATING_HOURS",
   "Current UTC hour is outside the policy's operating_hours bitmask");
  ("SIGIL_ERROR__ERR_PENDING_AGENT_GRANT_DIGEST_MISMATCH",
   "PendingAgentGrant digest mismatch between queue and apply")].

Definition sigilErrorMessages_2 : list (string * string) := [
  ("SIGIL_ERROR__ERR_PENDING_OWNERSHIP_EXISTS",
   "An ownership transfer is already pending; cancel it first");
  ("SIGIL_ERROR__ERR_PENDING_OWNERSHIP_NOT_READY",
   "Ownership transfer timelock has not elapsed");
  ("SIGIL_ERROR__ERR_POST_ASSERTIONS_NOT_CLOSED",
   "PostExecutionAssertions PDA still active — call close_post_assertions first");
  ("SIGIL_ERROR__ERR_PROGRAM_BUILD_MISMATCH",
   "Verified-build gate: the target protocol's deployed ELF hash does not match the owner-pinned build hash — the on-chain build changed (re-pin via queue_policy_update after re-audit)");
  ("SIGIL_ERROR__ERR_PROGRAM_DATA_UNRESOLVABLE",
   "Verified-build gate: the target protocol's ProgramData account is missing/unresolvable while a build hash is armed — cannot vet the deployed build (fail-closed)");
  ("SIGIL_ERROR__ERR_PROTECTED_WRITABLE",
   "Protected Sigil PDA passed as writable to a foreign instruction between validate and finalize");
  ("SIGIL_ERROR__ERR_REACTIVATE_COOLDOWN_ACTIVE",
   "Reactivate requires 5-minute observation cooldown to elapse");
  ("SIGIL_ERROR__ERR_REACTIVATE_COSIGN_REQUIRED_FOR_FULL_CAPABILITY",
   "Reactivate with FULL_CAPABILITY new agent requires cosign");
  ("SIGIL_ERROR__ERR_RECIPIENT_CAP_EXCEEDED",
   "Per-recipient daily cap exceeded — recipient outflow would breach policy.per_recipient_daily_cap_usd within the rolling 24h window, or per_recipient array full with no expired slot to evict");
  ("SIGIL_ERROR__ERR_SANDWICH_INTEGRITY",
   "Bundle integrity violation: multiple validate_and_authorize instructions for the same (vault, agent, mint) tuple in one transaction");
  ("SIGIL_ERROR__ERR_SESSION_NONCE_MISMATCH",
   "Session nonce mismatch — caller's expected_nonce does not match the session's stored nonce (durable-nonce replay defense)");
  ("SIGIL_ERROR__ERR_STABLE_FLOOR_VIOLATION",
   "Stable balance floor violated — combined USDC+USDT balance dropped below policy.stable_balance_floor");
  ("SIGIL_ERROR__ERR_TOKEN2022_EXTENSION_FORBIDDEN",
   "Token-2022 mint has a forbidden extension (only MemoTransfer + MetadataPointer allowed)");
  ("SIGIL_ERROR__ERR_TOKEN2022_OUTPUT_MINT_UNRESOLVABLE",
   "Vault-owned Token-2022 output ATA's mint is absent from remaining_accounts or not Token-2022-owned — cannot vet extensions");
  ("SIGIL_ERROR__ERR_TOO_MANY_REVOKE_PAIRS",
   "freeze_internal MAX_REVOKE_PAIRS = 10 exceeded (Council ISC-136)");
  ("SIGIL_ERROR__ERR_UNMEASURABLE_SPEND",
   "Spending session produced no measurable in-transaction vault outcome (no stablecoin movement and no vault-owned acquisition) — async/keeper-settled or unmeasurable; recording 0 spend is rejected");
  ("SIGIL_ERROR__INSUFFICIENT_BALANCE",
   "Insufficient vault balance for withdrawal");
  ("SIGIL_ERROR__INSUFFICIENT_PERMISSIONS",
   "Agent lacks permission for this action type");
  ("SIGIL_ERROR__INVALID_AGENT_KEY",
   "Invalid agent: cannot be the zero address");
  ("SIGIL_ERROR__INVALID_CAPABILITY",
   "Invalid agent capability value (must be 0 = Disabled, 1 = Observer, or 2 = Operator)");
  ("SIGIL_ERROR__INVALID_CONSTRAINT_CONFIG",
   "Invalid constraint configuration: bounds exceeded");
  ("SIGIL_ERROR__INVALID_CONSTRAINT_OPERATOR",
   "Constraint operator value is not a valid ConstraintOperator discriminant");
  ("SIGIL_ERROR__INVALID_DESTINATION_MODE",
   "Invalid destination mode (must be 0 = RESTRICTED)");
  ("SIGIL_ERROR__INVALID_FEE_DESTINATION",
   "Fee destination account invalid");
  ("SIGIL_ERROR__INVALID_OWNER_TYPE",
   "vault.owner_type is not a recognized discriminant (expected 0=EOA or 1=multisig)");
  ("SIGIL_ERROR__INVALID_PERMISSIONS",
   "Permission bitmask contains invalid bits");
  ("SIGIL_ERROR__INVALID_POST_ASSERTION_INDEX",
   "Post-assertion constraint references invalid instruction index");
  ("SIGIL_ERROR__INVALID_PROTOCOL_MODE",
   "Invalid protocol mode (must be 1 = ALLOWLIST)");
  ("SIGIL_ERROR__INVALID_PROTOCOL_TREASURY",
   "Protocol treasury account does not match expected address");
  ("SIGIL_ERROR__INVALID_SESSION",
   "Invalid session: does not belong to this vault");
  ("SIGIL_ERROR__INVALID_SESSION_EXPIRY",
   "Session expiry seconds out of range (5-90)");
  ("SIGIL_ERROR__INVALID_TOKEN_ACCOUNT",
   "Token account does not belong to vault or has wrong mint");
  ("SIGIL_ERROR__IX_META_COUNT_EXCEEDED",
   "Foreign instruction exceeded the account-meta processing budget; the bundle is rejected rather than partially inspected");
  ("SIGIL_ERROR__LAMPORT_DRAIN_BLOCKED",
   "Token-2022 destructive-balance ix (opcodes 38/45/46) not permitted between validate and finalize");
  ("SIGIL_ERROR__MAX_AGENTS_REACHED",
   "Maximum agents per vault reached (limit: 10)");
  ("SIGIL_ERROR__MINT_DELTA_CAP_MISCONFIGURED",
   "R-1 MintDeltaCap misconfigured — target account missing, mint mismatch, or owner not vault");
  ("SIGIL_ERROR__MISSING_FINALIZE_INSTRUCTION",
   "Transaction must include finalize_session after validate");
  ("SIGIL_ERROR__NO_AGENT_REGISTERED",
   "No agent registered for this vault");
  ("SIGIL_ERROR__NON_TRACKED_SWAP_MUST_RETURN_STABLECOIN",
   "Non-stablecoin swap must return stablecoin (balance did not increase)");
  ("SIGIL_ERROR__NO_TIMELOCK_CONFIGURED",
   "No timelock configured on this vault")].

Definition sigilErrorMessages_3 : list (string * string) := [
  ("SIGIL_ERROR__OBSERVE_ONLY_MODE_BLOCKS_EXECUTE",
   "Vault is in observe_only mode — validate_and_authorize is blocked");
  ("SIGIL_ERROR__OVERFLOW",
   "Arithmetic overflow");
  ("SIGIL_ERROR__OVERLAY_SLOT_EXHAUSTED",
   "Per-agent overlay is full; cannot register agent with spending limit");
  ("SIGIL_ERROR__PENDING_POLICY_EXISTS",
   "Pending policy update must be applied or cancelled before closing vault");
  ("SIGIL_ERROR__PERMANENT_DELEGATE_BLOCKED",
   "Token-2022 PermanentDelegate not permitted between validate and finalize");
  ("SIGIL_ERROR__POLICY_PREVIEW_MISMATCH",
   "Policy preview digest mismatch — caller's signed digest differs from recomputed canonical digest");
  ("SIGIL_ERROR__POLICY_VERSION_MISMATCH",
   "Policy version mismatch — policy changed since agent's last RPC read");
  ("SIGIL_ERROR__POST_ASSERTION_FAILED",
   "Post-execution assertion failed: account state did not satisfy constraint");
  ("SIGIL_ERROR__PROTOCOL_CAP_EXCEEDED",
   "Per-protocol rolling 24h spending cap would be exceeded — LEGACY counter exhaustion path. New rolling-24h amount-based cap rejections use 6086 ErrDailyCapExceeded");
  ("SIGIL_ERROR__PROTOCOL_CAPS_MISMATCH",
   "protocol_caps length must match protocols length when has_protocol_caps is true");
  ("SIGIL_ERROR__PROTOCOL_MISMATCH",
   "DeFi instruction program does not match declared target_protocol");
  ("SIGIL_ERROR__PROTOCOL_NOT_ALLOWED",
   "Protocol not allowed by policy");
  ("SIGIL_ERROR__QUEUED_UPDATE_EXPIRED",
   "Queued update is too old (>MAX_APPLY_AGE_SLOTS / >MAX_APPLY_AGE_SLOTS_TIMELOCKED_ADMIN) — re-queue via the matching queue/initiate ix (queue_policy_update, queue_agent_permissions_update, queue_agent_grant, or initiate_ownership_transfer) to apply. Defends against durable-nonce pre-signing (CH-1 audit 2026-05-23 extended scope to timelocked-admin PDAs).");
  ("SIGIL_ERROR__SESSION_NOT_AUTHORIZED",
   "Session not authorized");
  ("SIGIL_ERROR__SLIPPAGE_BPS_TOO_HIGH",
   "Slippage BPS exceeds maximum (5000 = 50%)");
  ("SIGIL_ERROR__SNAPSHOT_NOT_CAPTURED",
   "Delta assertion snapshot was not captured in validate_and_authorize");
  ("SIGIL_ERROR__SPEND_ACCOUNTING_UNDERFLOW",
   "finalize spend accounting underflow: collected fees exceed realized stablecoin outflow");
  ("SIGIL_ERROR__SPENDING_CAP_EXCEEDED",
   "Rolling 24h spending cap would be exceeded");
  ("SIGIL_ERROR__SYSVAR_SCAN_BOUND_EXCEEDED",
   "Sysvar instruction scan exceeded the per-tx safety bound");
  ("SIGIL_ERROR__TIMELOCK_NOT_EXPIRED",
   "Timelock period has not expired yet");
  ("SIGIL_ERROR__TIMELOCK_TOO_LONG",
   "Timelock duration exceeds the maximum (MAX_TIMELOCK_DURATION = 172_800s / 48h) — a longer timelock could never mature inside the policy-apply freshness window (brick); choose a value <= 48h");
  ("SIGIL_ERROR__TIMELOCK_TOO_SHORT",
   "Timelock duration below minimum (1800 seconds / 30 minutes)");
  ("SIGIL_ERROR__TOO_MANY_ALLOWED_PROTOCOLS",
   "Policy configuration invalid: too many allowed protocols");
  ("SIGIL_ERROR__TOO_MANY_DE_FI_INSTRUCTIONS",
   "Spending allows at most one DeFi instruction");
  ("SIGIL_ERROR__TOO_MANY_DESTINATIONS",
   "Too many destinations (max 10)");
  ("SIGIL_ERROR__TRANSACTION_TOO_LARGE",
   "Transaction exceeds maximum single transaction size");
  ("SIGIL_ERROR__TRANSFER_HOOK_BLOCKED",
   "Token-2022 TransferHook not permitted between validate and finalize");
  ("SIGIL_ERROR__UNAUTHORIZED_AGENT",
   "Unauthorized: signer is not the registered agent");
  ("SIGIL_ERROR__UNAUTHORIZED_OWNER",
   "Unauthorized: signer is not the vault owner");
  ("SIGIL_ERROR__UNAUTHORIZED_POST_FINALIZE_INSTRUCTION",
   "Instructions after finalize_session must be ComputeBudget or SystemProgram only");
  ("SIGIL_ERROR__UNAUTHORIZED_PRE_VALIDATE_INSTRUCTION",
   "Non-infrastructure instruction detected before validate_and_authorize");
  ("SIGIL_ERROR__UNAUTHORIZED_TOKEN_APPROVAL",
   "Unauthorized SPL Token Approve between validate and finalize");
  ("SIGIL_ERROR__UNAUTHORIZED_TOKEN_TRANSFER",
   "Top-level SPL Token transfer not allowed between validate and finalize");
  ("SIGIL_ERROR__UNEXPECTED_BALANCE_DECREASE",
   "Vault balance decreased more than delegated amount — potential CPI attack");
  ("SIGIL_ERROR__UNSUPPORTED_TOKEN",
   "Token is not a supported stablecoin (only USDC and USDT)");
  ("SIGIL_ERROR__VAULT_ALREADY_CLOSED",
   "Vault is already closed");
  ("SIGIL_ERROR__VAULT_NOT_ACTIVE",
   "Vault is not active");
  ("SIGIL_ERROR__VAULT_NOT_FROZEN",
   "Vault is not frozen (expected frozen for reactivation)");
  ("SIGIL_ERROR__ZERO_COPY_VAULT_MISMATCH",
   "Zero-copy account vault key mismatch (defense-in-depth)")].

Definition sigilErrorMessages : list (string * string) := sigilErrorMessages_1 ++ sigilErrorMessages_2 ++ sigilErrorMessages_3.

(** [NODE_ENV] is read when the module is loaded, to make the table, and again
    at every call; a code without a message gives [undefined]. *)
Definition getSigilErrorMessage (production_at_load production : bool) (code : Z) : result js_exn (option string) :=
  if production then Ok (Some "Error message not available in production bundles.")
  else if production_at_load then Throw JsTypeError
  else Ok (c ← head (filter (λ e, e.2 = code) error_constants); entry c.1 sigilErrorMessages).

(** ** The description read as codecs, constraints and names *)

(** The codec of a type; [fuel] bounds the depth of named types, which is two. *)
Fixpoint idl_codec (fuel : nat) (t : idl_type) {struct fuel} : option codec :=
  match fuel with
  | O => None
  | S fuel =>
      match t with
      | IU8 => Some (CPrim (PUint 1)) | IU16 => Some (CPrim (PUint 2)) | IU32 => Some (CPrim (PUint 4))
      | IU64 => Some (CPrim (PUint 8)) | II64 => Some (CPrim PI64) | IBool => Some (CPrim PBool)
      | IPubkey => Some (CPrim PAddress) | IBytes => Some (CPrim PSized)
      | IOption t => COption <$> idl_codec fuel t
      | IVec t => CArray None <$> idl_codec fuel t
      | IArray IU8 n => Some (CPrim (PFixed n))
      | IArray t n => CArray (Some n) <$> idl_codec fuel t
      | IDefined name =>
          d ← entry name idl_types;
          match d with
          | IdlEnum n => Some (CPrim (PEnum n))
          | IdlStruct _ fs => CStruct <$> mapM (λ f, c ← idl_codec fuel f.2; Some (f.1, c)) fs
          end
      end
  end.

Definition idl_fields (fs : list (string * idl_type)) : option (list (string * codec)) :=
  mapM (λ f, c ← idl_codec 10 f.2; Some (f.1, c)) fs.

(** A seed as the description writes it; it has no word for a slice of bytes. *)
Definition idl_seed_of (s : rust_seed) : option idl_seed :=
  match s with
  | RBytes bs => Some (IConst bs)
  | RSlice _ => None
  | RKey a => Some (IAccount (camel a))
  | RArg n | RArgLe n => Some (IArg (camel n))
  | RField a f => Some (IAccount (a +:+ "." +:+ f))
  end.

(** The bytes of [ASSOCIATED_TOKEN_ID]. *)
Definition ASSOCIATED_TOKEN_BYTES : list Z :=
  [140; 151; 37; 143; 78; 36; 137; 241; 187; 61; 16; 41; 20; 142; 13; 131; 11; 90; 19; 153; 218; 255; 16; 132; 4;
   142; 123; 216; 219; 233; 248; 89]%Z.

(** What the description says of an account of the program: its flags, where its
    address comes from if it can say so, and the accounts whose [has_one] names it. *)
Definition idl_account_of (specs : list ProgramAccount) (a : ProgramAccount) : IdlAccount := {|
  ia_name := camel (pa_name a); ia_writable := pa_mut a; ia_signer := pa_signer a; ia_optional := pa_optional a;
  ia_address := match pa_pin a with PinAddress x => Some x | _ => None end;
  ia_pda := match pa_pin a with
            | PinSeeds ss => ss ← mapM idl_seed_of ss; Some (ss, None)
            | PinAta authority mint =>
                Some ([IAccount (camel authority); IConst TOKEN_ID_BYTES; IAccount (camel mint)],
                      Some ASSOCIATED_TOKEN_BYTES)
            | _ => None
            end;
  ia_relations := camel ∘ pa_name <$> filter (λ b, pa_name a ∈ pa_has_one b) specs;
|}.

Definition lower (c : ascii) : ascii :=
  let n := N_of_ascii c in if ((65 <=? n) && (n <=? 90))%N then ascii_of_N (n + 32)%N else c.
Definition is_capital (c : ascii) : bool := negb (bool_decide (lower c = c)).

(** The name of a type in the description: it starts with a small letter, and a
    capital after a capital is made small ([PostAssertionEntryZC]). *)
Fixpoint type_name_from (after_capital : bool) (s : string) : string :=
  match s with
  | EmptyString => EmptyString
  | String c s => String (if after_capital then lower c else c) (type_name_from (is_capital c) s)
  end.
Definition uncapitalised (s : string) : string := type_name_from true s.
Definition capitalised (s : string) : string := match s with String c s => String (upper c) s | s => s end.

(** [VaultNotActive] as [VAULT_NOT_ACTIVE]. *)
Fixpoint screaming_from (first : bool) (s : string) : string :=
  match s with
  | EmptyString => EmptyString
  | String c s =>
      let rest := String (upper c) (screaming_from false s) in
      if is_capital c && negb first then String "_" rest else rest
  end.

Definition hex_digit (n : Z) : ascii := ascii_of_N (Z.to_N (if (n <? 10)%Z then 48 + n else 87 + n)).
Definition hex_text (bs : list Z) : string :=
  foldr (λ b s, String (hex_digit (b / 16)) (String (hex_digit (b mod 16)) s)) EmptyString bs.

(** ** Agreement *)

#[local] Instance idl_seed_eq_dec : EqDecision idl_seed.
Proof. solve_decision. Defined.
#[local] Instance IdlAccount_eq_dec : EqDecision IdlAccount.
Proof. solve_decision. Defined.

(** One instruction: name, discriminator, accounts and arguments. *)
Definition describes (d : IdlInstruction) (i : SigilInstruction) : Prop :=
  ii_discriminator d = te_discriminator (b_data (async_builder i)) ∧
  ii_accounts d = idl_account_of (program_accounts i) <$> program_accounts i ∧
  idl_fields (ii_args d) = Some (rust_fields (program_args i)).

Definition optional_fields_eqb (a : option (list (string * codec))) (b : list (string * codec)) : bool :=
  match a with Some a => fields_eqb a b | None => false end.

Lemma optional_fields_eqb_eq a b : optional_fields_eqb a b = true → a = Some b.
Proof. destruct a; [|done]. by intros ->%fields_eqb_eq. Qed.

Lemma instructions_described i : describes (idl_instruction i) i.
Proof.
  split; [destruct i; vm_compute; reflexivity|split].
  - apply (bool_decide_eq_true_1 _). destruct i; vm_compute; reflexivity.
  - apply optional_fields_eqb_eq. destruct i; vm_compute; reflexivity.
Qed.

Definition struct_described (name : string) (layout : list (string * rust_type)) : Prop :=
  ∃ b fs, entry name idl_types = Some (IdlStruct b fs) ∧ idl_fields fs = Some (rust_fields layout).

Definition struct_check (name : string) (layout : list (string * rust_type)) : bool :=
  match entry name idl_types with
  | Some (IdlStruct _ fs) => optional_fields_eqb (idl_fields fs) (rust_fields layout)
  | _ => false
  end.

Lemma struct_check_ok name layout : struct_check name layout = true → struct_described name layout.
Proof.
  unfold struct_check. destruct (entry name idl_types) as [[b fs|]|] eqn:E; [|done|done].
  intros Hf. exists b, fs. split; [done|]. by apply optional_fields_eqb_eq.
Qed.

Definition account_described (d : string * list Z) (a : SigilAccount) : Prop :=
  d.2 = te_discriminator (account_encoder a) ∧ struct_described d.1 (account_layout a).

Lemma accounts_described : Forall2 account_described idl_accounts all_accounts.
Proof.
  assert (H : Forall2 (λ d a, bool_decide (d.2 = te_discriminator (account_encoder a)) &&
                              struct_check d.1 (account_layout a) = true) idl_accounts all_accounts).
  { repeat apply Forall2_cons_2; [vm_compute; reflexivity..|apply Forall2_nil_2]. }
  eapply Forall2_impl; [exact H|]. intros d a [Hd%bool_decide_eq_true Hs]%andb_true_iff.
  split; [done|]. by apply struct_check_ok.
Qed.

Definition type_described (t : string * rust_type) : Prop :=
  match t.2 with
  | RStruct layout => struct_described (uncapitalised t.1) layout
  | REnum n => entry (uncapitalised t.1) idl_types = Some (IdlEnum n)
  | _ => False
  end.

Definition type_check (t : string * rust_type) : bool :=
  match t.2 with
  | RStruct layout => struct_check (uncapitalised t.1) layout
  | REnum n => match entry (uncapitalised t.1) idl_types with Some (IdlEnum m) => Nat.eqb n m | _ => false end
  | _ => false
  end.

Lemma types_described : Forall type_described type_layouts.
Proof.
  assert (H : forallb type_check type_layouts = true) by (vm_compute; reflexivity).
  apply Forall_forall. intros t Ht%list_elem_of_In. pose proof (proj1 (forallb_forall _ _) H t Ht) as Hc.
  clear H Ht. unfold type_check in Hc. unfold type_described. destruct t.2 as [| | | | | | | | | |layout|n]; try discriminate Hc.
  - by apply struct_check_ok.
  - destruct (entry _ idl_types) as [[|m]|]; [done| |done]. by apply Nat.eqb_eq in Hc as ->.
Qed.

(** The message of every code the description has. *)
Lemma messages_described :
  Forall (λ e, getSigilErrorMessage false false e.1.1 = Ok (Some e.2)) idl_errors.
Proof.
  assert (H : forallb (λ e, match getSigilErrorMessage false false e.1.1 with
                            | Ok (Some m) => String.eqb m e.2
                            | _ => false
                            end) idl_errors = true) by (vm_compute; reflexivity).
  apply Forall_forall. intros e He%list_elem_of_In. pose proof (proj1 (forallb_forall _ _) H e He) as Hm.
  cbv beta in Hm. destruct (getSigilErrorMessage _ _ _) as [[m|]|]; [|done|done]. by apply String.eqb_eq in Hm as ->.
Qed.

(** One interface.  The published description is the program's and the
    client's: every instruction has the client's discriminator, and the accounts
    of the program's struct with their flags, addresses, seeds and [has_one]
    relations, and the arguments of the entry point; accounts and types have the
    layouts of the program's structs; the events are the ones the SDK decodes by
    discriminator; the error codes are the ones its error map, the constants and
    the messages of the client have. *)
Theorem the_idl_is_the_interface :
  (∀ i, describes (idl_instruction i) i) ∧
  Forall2 account_described idl_accounts all_accounts ∧
  Forall type_described type_layouts ∧
  (λ e, (hex_text e.2, capitalised e.1)) <$> idl_events = EVENT_DISCRIMINATOR_MAP ∧
  (λ e, (e.1.1, capitalised e.1.2)) <$> idl_errors = IDL_ERROR_MAP ∧
  (λ e, ("SIGIL_ERROR__" +:+ screaming_from true (capitalised e.1.2), e.1.1)) <$> idl_errors = error_constants ∧
  Forall (λ e, getSigilErrorMessage false false e.1.1 = Ok (Some e.2)) idl_errors.
Proof.
  split; [exact instructions_described|]. split; [exact accounts_described|]. split; [exact types_described|].
  split; [vm_compute; reflexivity|]. split; [vm_compute; reflexivity|]. split; [vm_compute; reflexivity|].
  exact messages_described.
Qed.
