(* ===== verification/SakPlugin.v ===== *)
(** * The agent-kit plugin

    [packages/plugins/src/sak]: the bridge that makes a transaction signer of a
    custody adapter ([signer.ts]), the choice between the two kinds of agent
    ([index.ts]), and the three actions a model may call ([actions/]): a swap
    through Jupiter, a transfer and a status report.  The client the actions run
    on is the interface [ClientApi]; [client_api] gives it with the client of
    [Client].  The theorems show that signatures come back one per transaction
    and of the right size, and that a swap executes what was quoted, once. *)
From S2P Require Import Prelude JsMap JsText JsValue IntentDigest Tokens Formatting AgentErrors StateResolver ProgramClient.
From S2P Require Client.

Local Open Scope Z_scope.

(** ** The signer of a custody adapter *)

(** What [adapter.sign] resolves to: bytes, or a value of another type. *)
Inductive signature_value : Type :=
| SigBytes (bs : list Z)
| SigOther (type : string).

Definition SIGNATURE_INVALID : js_exn := SdkDomainError "SIGIL_ERROR__SDK__SIGNATURE_INVALID".

Section Signer.
Context {E : Type} (fromSdk : js_exn → E).

(** [sign] may answer differently each time it is asked: it has the number of
    the call. *)
Record CustodyAdapter : Type := {
  ca_getPublicKey : string;
  ca_sign : nat → list Z → result E signature_value;
}.

Definition check_signature (v : signature_value) : result E (list Z) :=
  match v with
  | SigOther _ => Throw (fromSdk SIGNATURE_INVALID)
  | SigBytes bs => if bool_decide (length bs = 64%nat) then Ok bs else Throw (fromSdk SIGNATURE_INVALID)
  end.

(** The loop of [signTransactions]; each result maps the one address to the
    signature. *)
Fixpoint sign_from (adapter : CustodyAdapter) (call : nat) (transactions : list (list Z))
    : result E (list (string * list Z)) :=
  match transactions with
  | [] => Ok []
  | messageBytes :: transactions =>
      v ← ca_sign adapter call messageBytes;
      sig ← check_signature v;
      rest ← sign_from adapter (S call) transactions;
      Ok ((ca_getPublicKey adapter, sig) :: rest)
  end.

Record Signer : Type := {
  sg_address : string;
  sg_signTransactions : list (list Z) → result E (list (string * list Z));
}.

Definition custodyAdapterToTransactionSigner (adapter : CustodyAdapter) : Signer := {|
  sg_address := ca_getPublicKey adapter;
  sg_signTransactions := sign_from adapter 0;
|}.

(** What the caller passes as [agent]: an object with these members. *)
Record AgentArg : Type := {
  aa_getPublicKey : option string;
  aa_sign : option (nat → list Z → result E signature_value);
  aa_address : option string;
  aa_signTransactions : list (list Z) → result E (list (string * list Z));
}.

Definition isCustodyAdapter (a : AgentArg) : option CustodyAdapter :=
  match aa_getPublicKey a, aa_sign a, aa_address a with
  | Some key, Some sign, None => Some {| ca_getPublicKey := key; ca_sign := sign |}
  | _, _, _ => None
  end.

Definition plugin_signer (a : AgentArg) : Signer :=
  match isCustodyAdapter a with
  | Some adapter => custodyAdapterToTransactionSigner adapter
  | None => {| sg_address := default "" (aa_address a); sg_signTransactions := aa_signTransactions a |}
  end.

Lemma check_signature_ok v bs : check_signature v = Ok bs → v = SigBytes bs ∧ length bs = 64%nat.
Proof. destruct v as [b|]; cbn; [|done]. case_bool_decide; [|done]. by intros [= <-]. Qed.

Lemma sign_from_all adapter call transactions sigs :
  sign_from adapter call transactions = Ok sigs →
  length sigs = length transactions ∧
  ∀ i tx, transactions !! i = Some tx →
    ∃ sig, sigs !! i = Some (ca_getPublicKey adapter, sig) ∧ length sig = 64%nat ∧
           ca_sign adapter (call + i) tx = Ok (SigBytes sig).
Proof.
  revert call sigs. induction transactions as [|tx transactions IH]; intros call sigs; cbn.
  { intros [= <-]. split; [done|]. intros i tx Hi. by rewrite lookup_nil in Hi. }
  intros H. inv_ok. destruct (IH _ _ E2) as [Hl Hall]. apply check_signature_ok in E1 as [-> Hs].
  split; [cbn; by rewrite Hl|]. intros [|i] tx' Hi.
  - injection Hi as <-. exists x0. by rewrite Nat.add_0_r.
  - destruct (Hall i tx' Hi) as (sig & H1 & H2 & H3). exists sig. split; [done|split; [done|]].
    by replace (call + S i)%nat with (S call + i)%nat by lia.
Qed.

(** One signature for each transaction.  When the signer of a custody
    adapter returns, it has a signature for every transaction in the order they
    were given, each under the adapter's address, of 64 bytes and the very answer
    of the adapter for the bytes of that transaction. *)
Theorem custody_signatures_match_the_transactions (adapter : CustodyAdapter) (transactions : list (list Z))
    (sigs : list (string * list Z)) :
  sg_signTransactions (custodyAdapterToTransactionSigner adapter) transactions = Ok sigs →
  length sigs = length transactions ∧
  ∀ i tx, transactions !! i = Some tx →
    ∃ sig, sigs !! i = Some (sg_address (custodyAdapterToTransactionSigner adapter), sig) ∧
           length sig = 64%nat ∧ ca_sign adapter i tx = Ok (SigBytes sig).
Proof. apply (sign_from_all adapter 0). Qed.

(** A value that is no 64-byte array is refused, and nothing after it signed. *)
Lemma bad_signature_is_refused adapter call tx v transactions :
  ca_sign adapter call tx = Ok v → (∀ bs, v = SigBytes bs → length bs ≠ 64%nat) →
  sign_from adapter call (tx :: transactions) = Throw (fromSdk SIGNATURE_INVALID).
Proof.
  intros Hs Hv. cbn. rewrite Hs. cbn. destruct v as [bs|t]; cbn; [|done].
  by rewrite bool_decide_false by by apply Hv.
Qed.
End Signer.
Arguments CustodyAdapter : clear implicits.

(** ** The actions *)

Definition toResolvedNetwork (network : string) : string :=
  if bool_decide (network = "mainnet") then "mainnet-beta" else "devnet".

(** What the actions ask of the client. *)
Record ExecuteCall : Type := {
  ec_instructions : list Ix; ec_tokenMint : string; ec_amount : Z; ec_protocolAltAddresses : list string;
}.
Record TransferCall : Type := { tc_destination : string; tc_amount : Z; tc_tokenMint : string }.
Record ResolvedBudget : Type := { rb_globalBudget : EffectiveBudget; rb_agentBudget : option EffectiveBudget }.

Class ClientApi : Type := {
  api_network : string;
  api_vault : string;
  api_agent : string;
  api_execute : ExecuteCall → result jsv string;
  api_transfer : TransferCall → result jsv string;
  api_budget : result jsv ResolvedBudget;
}.

(** [{ success: false, error, recovery }]: the two fields are read from the
    agent error; an error thrown in the catch block rejects the call. *)
Inductive outcome (A : Type) : Type :=
| Success (a : A)
| Failure (error recovery : jsv)
| Rejects (e : js_exn).
Arguments Success {_} _.
Arguments Rejects {_} _.
Arguments Failure {_} _ _.

Definition failed {A} (err : jsv) : outcome A :=
  match toAgentError err [] with
  | Ok agentErr => Failure (JsValue.field agentErr "message") (JsValue.field agentErr "recovery_actions")
  | Throw e => Rejects e
  end.

(** The catch blocks answer: the conversion never throws. *)
Lemma failed_answers {A} (err : jsv) : ∃ message recovery, failed (A := A) err = Failure message recovery.
Proof. unfold failed. destruct (toAgentError_is_agent_error err []) as (v & -> & _). eauto. Qed.

Definition thrown (e : string) : jsv := JErr CError e [].

(** *** Swap *)

Record JupiterAccount : Type := { ja_pubkey : string; ja_isSigner : bool; ja_isWritable : bool }.
Record JupiterIx : Type := { ji_programId : string; ji_accounts : option (list JupiterAccount); ji_data : string }.

(** The interface the response is read as: every field may be missing. *)
Record JupiterSwapResponse : Type := {
  js_computeBudgetInstructions : option (list JupiterIx);
  js_setupInstructions : option (list JupiterIx);
  js_swapInstruction : option JupiterIx;
  js_cleanupInstruction : option JupiterIx;
  js_otherInstructions : option (list JupiterIx);
  js_addressLookupTableAddresses : option (list string);
}.

Record SwapInput : Type := {
  sw_inputMint : string; sw_outputMint : string; sw_amount : amount_number; sw_slippageBps : option Z;
}.

(** An HTTP reply: its status and what [json()] gives. *)
Record Reply (A : Type) : Type := { re_status : Z; re_json : result jsv A }.
Arguments re_status {_} _.
Arguments re_json {_} _.

Section Actions.
Context (from_base64 : string → list Z).   (* Buffer.from(data, 'base64') *)

Definition toKitAccount (a : JupiterAccount) : AccountMeta :=
  {| acc_address := ja_pubkey a; acc_role := RoleNumber (role_number (ja_isWritable a) (ja_isSigner a)) |}.

Definition toKitInstruction (ix : JupiterIx) : Ix := {|
  ix_programAddress := ji_programId ix;
  ix_accounts := Some (toKitAccount <$> default [] (ji_accounts ix));
  ix_data := Some (from_base64 (ji_data ix));
|}.

Definition parseJupiterSwapResponse (raw : JupiterSwapResponse) : list Ix * list string :=
  let all := default [] (js_setupInstructions raw) ++ option_list (js_swapInstruction raw) ++
             option_list (js_cleanupInstruction raw) ++ default [] (js_otherInstructions raw) in
  (toKitInstruction <$> all, default [] (js_addressLookupTableAddresses raw)).

(** The two requests to Jupiter: the URL of the quote, and what is posted to
    [/swap-instructions] (the quote and the agent's address). *)
Context `{api : ClientApi} (jupiterApiUrl : string)
        (getQuote : string → result jsv (Reply jsv))
        (postSwap : string → jsv → string → result jsv (Reply JupiterSwapResponse))
        (message : js_exn → jsv).

Definition ok {A} (r : Reply A) : bool := (200 <=? re_status r) && (re_status r <=? 299).

Definition lift {A} (r : result js_exn A) : result jsv A :=
  match r with Ok a => Ok a | Throw e => Throw (message e) end.

(** The mint and the amount in base units of a token the model names. *)
Definition resolved_mint (name : string) : string :=
  match resolveToken name (toResolvedNetwork api_network) with Some t => rt_mint t | None => name end.
Definition resolved_decimals (name : string) : Z :=
  match resolveToken name (toResolvedNetwork api_network) with Some t => rt_decimals t | None => 6 end.

Definition quote_url (inputMint outputMint : string) (baseAmount : Z) (slippageBps : option Z) : string :=
  jupiterApiUrl +:+ "/quote?inputMint=" +:+ inputMint +:+ "&outputMint=" +:+ outputMint +:+
  "&amount=" +:+ bigint_toString baseAmount +:+ "&slippageBps=" +:+ bigint_toString (default 50 slippageBps).

(** The handler up to the execution. *)
Definition prepare_swap (input : SwapInput) : result jsv ExecuteCall :=
  let inputMint := resolved_mint (sw_inputMint input) in
  let outputMint := resolved_mint (sw_outputMint input) in
  baseAmount ← lift (toBaseUnits (NumberArg (sw_amount input)) (resolved_decimals (sw_inputMint input)));
  quoteRes ← getQuote (quote_url inputMint outputMint baseAmount (sw_slippageBps input));
  _ ← throw_if (negb (ok quoteRes)) (thrown ("Jupiter quote failed: " +:+ bigint_toString (re_status quoteRes)));
  quote ← re_json quoteRes;
  ixRes ← postSwap (jupiterApiUrl +:+ "/swap-instructions") quote api_agent;
  _ ← throw_if (negb (ok ixRes))
        (thrown ("Jupiter swap-instructions failed: " +:+ bigint_toString (re_status ixRes)));
  ixData ← re_json ixRes;
  let '(instructions, tables) := parseJupiterSwapResponse ixData in
  _ ← throw_if (bool_decide (instructions = []))
        (thrown "Jupiter returned no swap instructions. The quote may be invalid or the route unavailable.");
  Ok {| ec_instructions := instructions; ec_tokenMint := inputMint; ec_amount := baseAmount;
        ec_protocolAltAddresses := tables |}.

(** The whole handler: what it asked the client to execute, and its answer (the
    signature and the two mints). *)
Definition swap_handler (input : SwapInput) : list ExecuteCall * outcome (string * string * string) :=
  match prepare_swap input with
  | Throw e => ([], failed e)
  | Ok call =>
      ([call], match api_execute call with
               | Throw e => failed e
               | Ok signature =>
                   Success (signature, resolved_mint (sw_inputMint input), resolved_mint (sw_outputMint input))
               end)
  end.

(** *** Transfer and status *)

Record TransferInput : Type := { ti_destination : string; ti_amount : amount_number; ti_mint : option string }.

Definition prepare_transfer (input : TransferInput) : result jsv TransferCall :=
  let name := default "USDC" (ti_mint input) in
  baseAmount ← lift (toBaseUnits (NumberArg (ti_amount input)) (resolved_decimals name));
  Ok {| tc_destination := ti_destination input; tc_amount := baseAmount; tc_tokenMint := resolved_mint name |}.

(** The signature, the destination and the mint. *)
Definition transfer_handler (input : TransferInput) : list TransferCall * outcome (string * string * string) :=
  match prepare_transfer input with
  | Throw e => ([], failed e)
  | Ok call =>
      ([call], match api_transfer call with
               | Throw e => failed e
               | Ok signature => Success (signature, ti_destination input, tc_tokenMint call)
               end)
  end.

(** Remaining, limit and spent. *)
Definition budget_texts (b : EffectiveBudget) : result jsv (string * string * string) :=
  r ← lift (formatUsd (remaining b) 6);
  l ← lift (formatUsd (cap b) 6);
  s ← lift (formatUsd (spent24h b) 6);
  Ok (r, l, s).

Definition status_body : result jsv (string * (string * string * string) * (string * string * string)) :=
  budget ← api_budget;
  global ← budget_texts (rb_globalBudget budget);
  agent ← match rb_agentBudget budget with
          | Some b => budget_texts b
          | None => Ok ("unlimited", "unlimited", "$0.00")
          end;
  Ok (api_vault, global, agent).

Definition status_handler : outcome (string * (string * string * string) * (string * string * string)) :=
  match status_body with Ok r => Success r | Throw e => failed e end.

(** ** What a swap does *)

(** A swap executes what was quoted.  Whatever the replies, the handler
    executes at most once.  If it executes, the quote was asked for the very
    mint and base amount that are declared to the client, the amount being the
    model's in the units of the resolved token; both replies were successes, the
    second for that quote and the agent's own address; and the instructions are
    those of the reply in its order of execution, without its compute budget
    ones. *)
Theorem swap_executes_what_was_quoted (input : SwapInput) (call : ExecuteCall) :
  call ∈ (swap_handler input).1 →
  (swap_handler input).1 = [call] ∧
  ec_tokenMint call = resolved_mint (sw_inputMint input) ∧
  toBaseUnits (NumberArg (sw_amount input)) (resolved_decimals (sw_inputMint input)) = Ok (ec_amount call) ∧
  ∃ quoteRes quote ixRes raw,
    getQuote (quote_url (ec_tokenMint call) (resolved_mint (sw_outputMint input)) (ec_amount call)
                        (sw_slippageBps input)) = Ok quoteRes ∧
    ok quoteRes = true ∧ re_json quoteRes = Ok quote ∧
    postSwap (jupiterApiUrl +:+ "/swap-instructions") quote api_agent = Ok ixRes ∧
    ok ixRes = true ∧ re_json ixRes = Ok raw ∧
    (ec_instructions call, ec_protocolAltAddresses call) = parseJupiterSwapResponse raw ∧
    ec_instructions call ≠ [].
Proof.
  unfold swap_handler. destruct (prepare_swap input) as [c|e] eqn:Hp; cbn [fst];
    [|by intros ?%not_elem_of_nil]. intros ->%list_elem_of_singleton. split; [done|].
  unfold prepare_swap in Hp. cbn zeta in Hp. inv_ok.
  destruct (parseJupiterSwapResponse x5) as [instructions tables] eqn:Epar. inv_ok.
  cbn [ec_tokenMint ec_amount ec_instructions ec_protocolAltAddresses]. split; [done|split].
  - unfold lift in E. destruct (toBaseUnits _ _); [by injection E as ->|done].
  - exists x0, x2, x3, x5. apply negb_false_iff in E1, E4. apply bool_decide_eq_false in E6.
    repeat (split; [done|]). done.
Qed.

(** The answer names a signature only if the client gave it for that call. *)
Lemma swap_success_is_executed input signature m1 m2 :
  (swap_handler input).2 = Success (signature, m1, m2) →
  ∃ call, (swap_handler input).1 = [call] ∧ api_execute call = Ok signature.
Proof.
  unfold swap_handler. destruct (prepare_swap input) as [call|e]; cbn [snd fst];
    [|by destruct (failed_answers (A := string * string * string) e) as (? & ? & ->)].
  destruct (api_execute call) eqn:E; [|by destruct (failed_answers (A := string * string * string) e) as (? & ? & ->)].
  intros [= -> _ _]. eauto.
Qed.

(** No compute budget instruction of the reply reaches the client. *)
Lemma compute_budget_is_dropped raw cb :
  parseJupiterSwapResponse raw =
  parseJupiterSwapResponse {|
    js_computeBudgetInstructions := cb; js_setupInstructions := js_setupInstructions raw;
    js_swapInstruction := js_swapInstruction raw; js_cleanupInstruction := js_cleanupInstruction raw;
    js_otherInstructions := js_otherInstructions raw;
    js_addressLookupTableAddresses := js_addressLookupTableAddresses raw |}.
Proof. done. Qed.

(** A transfer pays the amount the model gave, in the units of the token, to the
    address it gave, once. *)
Lemma transfer_is_what_was_asked input call :
  call ∈ (transfer_handler input).1 →
  (transfer_handler input).1 = [call] ∧ tc_destination call = ti_destination input ∧
  tc_tokenMint call = resolved_mint (default "USDC" (ti_mint input)) ∧
  toBaseUnits (NumberArg (ti_amount input)) (resolved_decimals (default "USDC" (ti_mint input))) =
    Ok (tc_amount call).
Proof.
  unfold transfer_handler. destruct (prepare_transfer input) as [c|e] eqn:Hp; cbn [fst];
    [|by intros ?%not_elem_of_nil]. intros ->%list_elem_of_singleton. split; [done|].
  unfold prepare_transfer in Hp. cbn zeta in Hp. inv_ok. cbn. split; [done|split; [done|]].
  unfold lift in E. destruct (toBaseUnits _ _); [by injection E as ->|done].
Qed.

(** A route without a swap is executed.  The handler refuses a reply with
    no instructions at all, not one without the swap: with a setup instruction
    left, it executes the rest under the full amount of the quote, and reports a
    swap if the client does not object. *)
Theorem route_without_swap_is_executed (input : SwapInput) (base : Z) (quoteRes : Reply jsv) (quote : jsv)
    (ixRes : Reply JupiterSwapResponse) (raw : JupiterSwapResponse) (ix : JupiterIx) (setup : list JupiterIx) :
  toBaseUnits (NumberArg (sw_amount input)) (resolved_decimals (sw_inputMint input)) = Ok base →
  getQuote (quote_url (resolved_mint (sw_inputMint input)) (resolved_mint (sw_outputMint input)) base
                      (sw_slippageBps input)) = Ok quoteRes →
  ok quoteRes = true → re_json quoteRes = Ok quote →
  postSwap (jupiterApiUrl +:+ "/swap-instructions") quote api_agent = Ok ixRes →
  ok ixRes = true → re_json ixRes = Ok raw →
  js_swapInstruction raw = None → js_setupInstructions raw = Some (ix :: setup) →
  ∃ call, (swap_handler input).1 = [call] ∧ ec_amount call = base ∧
    ec_instructions call = toKitInstruction <$> (ix :: setup) ++ option_list (js_cleanupInstruction raw) ++
                                               default [] (js_otherInstructions raw).
Proof.
  intros Hb Hq Hqo Hqj Hi Hio Hij Hsw Hset. unfold swap_handler, prepare_swap. cbn zeta.
  rewrite Hb. cbn [lift mbind result_bind]. rewrite Hq. cbn [mbind result_bind]. rewrite Hqo. cbn [negb throw_if mbind result_bind].
  rewrite Hqj. cbn [mbind result_bind]. rewrite Hi. cbn [mbind result_bind]. rewrite Hio. cbn [negb throw_if mbind result_bind].
  rewrite Hij. cbn [mbind result_bind]. unfold parseJupiterSwapResponse. rewrite Hsw, Hset. cbn [default option_list app].
  rewrite bool_decide_false by done. cbn [throw_if mbind result_bind]. eexists. split; [reflexivity|]. done.
Qed.

(** A mint is not its symbol.  A token given by its address is taken to
    have six decimals: one wrapped SOL, named by its symbol, is 1,000,000,000
    base units, and named by its address 1,000,000, for the same mint. *)
Theorem a_mint_is_not_its_symbol :
  resolved_mint WSOL_MINT = resolved_mint "SOL" ∧
  toBaseUnits (NumberArg (Amount (to_double 1 1))) (resolved_decimals "SOL") = Ok 1000000000 ∧
  toBaseUnits (NumberArg (Amount (to_double 1 1))) (resolved_decimals WSOL_MINT) = Ok 1000000.
Proof.
  unfold resolved_mint, resolved_decimals, toResolvedNetwork.
  destruct (bool_decide (api_network = "mainnet")); vm_compute; auto.
Qed.
End Actions.

(** ** The plugin on the client of the kit

    [createSigilPlugin] makes the client with [createSigilClient], without hooks
    or plugins, and the actions pass no options besides the ones of their calls. *)

Definition plugin_config (rpc : option nat) (vault agent network : string) : Client.SigilClientConfig := {|
  Client.cf_rpc := rpc; Client.cf_vault := vault; Client.cf_agent := agent; Client.cf_network := network;
  Client.cf_blockhashTtlMs := None; Client.cf_hooks := None; Client.cf_plugins := None;
  Client.cf_requireMainnetConfirmation := None; Client.cf_skipGenesisAssertion := false |}.

Definition seal_options (confirm : Rpc.SendAndConfirmOptions) (call : ExecuteCall) : Client.ClientSealOpts := {|
  Client.co_instructions := ec_instructions call; Client.co_tokenMint := ec_tokenMint call;
  Client.co_amount := ec_amount call; Client.co_targetProtocol := None; Client.co_computeUnits := None;
  Client.co_priorityFeeMicroLamports := None; Client.co_outputStablecoinAccount := None;
  Client.co_outputSwapMint := None; Client.co_protocolAltAddresses := ec_protocolAltAddresses call;
  Client.co_addressLookupTables := None; Client.co_cachedState := None; Client.co_maxCacheAgeMs := None;
  Client.co_additionalAtaReplacements := []; Client.co_hooks := None; Client.co_mainnetConfirmed := None;
  Client.co_confirmOptions := confirm |}.

Definition client_execute (c : Client.Client) (w : Client.CallWorld) (config : Client.SigilClientConfig)
    (confirm : Rpc.SendAndConfirmOptions) (s : Client.ClientCaches) (call : ExecuteCall) : result jsv string :=
  match (Client.executeAndConfirm c w config (seal_options confirm call) s).2.2 with
  | Ok r => Ok (Client.er_signature r)
  | Throw (Client.Bare e) => Throw (Client.exn_value w e)
  | Throw (Client.Wrapped v) => Throw v
  end.

(** The plugin never asks for mainnet to be confirmed: the client it makes only
    warns. *)
Lemma plugin_mainnet_warns c rpc vault agent s :
  Client.createSigilClient (plugin_config rpc vault agent "mainnet") = Ok (c, s) →
  Client.mainnet_gate c None = ([Client.EvWarn "mainnet"], Ok tt).
Proof.
  unfold Client.createSigilClient, plugin_config. cbn. destruct rpc; [|done]. cbn.
  destruct (bool_decide (vault = "")); [done|]. destruct (bool_decide (agent = "")); [done|]. cbn.
  by intros [= <- _].
Qed.

(** ** Witnesses *)

Definition demo_adapter : CustodyAdapter js_exn :=
  {| ca_getPublicKey := "agent"; ca_sign := λ k _, Ok (SigBytes (replicate 64 (Z.of_nat k))) |}.

Lemma custody_signatures_match_the_transactions_witness :
  ∃ sigs, sg_signTransactions (custodyAdapterToTransactionSigner id demo_adapter) [[1; 2]; [3]] = Ok sigs ∧
    length sigs = 2%nat.
Proof.
  eexists. split; [vm_compute; reflexivity|].
  apply (custody_signatures_match_the_transactions id demo_adapter [[1; 2]; [3]]). vm_compute. reflexivity.
Defined.

Definition demo_jupiter (program : string) : JupiterIx :=
  {| ji_programId := program; ji_accounts := None; ji_data := "" |}.

Definition demo_route (swap : option JupiterIx) : JupiterSwapResponse := {|
  js_computeBudgetInstructions := Some [demo_jupiter "budget"]; js_setupInstructions := Some [demo_jupiter "setup"];
  js_swapInstruction := swap; js_cleanupInstruction := None; js_otherInstructions := None;
  js_addressLookupTableAddresses := None |}.

#[local] Instance demo_api : ClientApi := {|
  api_network := "mainnet"; api_vault := "vault"; api_agent := "agent"; api_execute := λ _, Ok "signature";
  api_transfer := λ _, Ok "signature"; api_budget := Throw JUndef |}.

Definition demo_swap : SwapInput :=
  {| sw_inputMint := "USDC"; sw_outputMint := "SOL"; sw_amount := Amount (to_double 25 1); sw_slippageBps := None |}.

Abbreviation demo_handler route :=
  (swap_handler (λ _, []) "https://jup" (λ _, Ok {| re_status := 200; re_json := Ok JNull |})
     (λ _ _ _, Ok {| re_status := 200; re_json := Ok route |}) (λ _, JUndef) demo_swap).

Definition demo_call : ExecuteCall := Eval vm_compute in
  match (demo_handler (demo_route (Some (demo_jupiter "jupiter")))).1 with
  | [c] => c
  | _ => {| ec_instructions := []; ec_tokenMint := ""; ec_amount := 0; ec_protocolAltAddresses := [] |}
  end.

Lemma swap_executes_what_was_quoted_witness :
  demo_call ∈ (demo_handler (demo_route (Some (demo_jupiter "jupiter")))).1 ∧
  toBaseUnits (NumberArg (sw_amount demo_swap)) (resolved_decimals "USDC") = Ok (ec_amount demo_call).
Proof.
  assert (H : demo_call ∈ (demo_handler (demo_route (Some (demo_jupiter "jupiter")))).1)
    by (vm_compute; apply elem_of_cons; left; reflexivity).
  split; [exact H|].
  destruct (swap_executes_what_was_quoted _ _ _ _ _ demo_swap demo_call H) as (_ & _ & Hb & _).
  exact Hb.
Defined.

Lemma route_without_swap_is_executed_witness :
  ∃ call, (demo_handler (demo_route None)).1 = [call] ∧ ec_amount call = 25000000.
Proof.
  destruct (route_without_swap_is_executed (λ _, []) "https://jup"
              (λ _, Ok {| re_status := 200; re_json := Ok JNull |})
              (λ _ _ _, Ok {| re_status := 200; re_json := Ok (demo_route None) |}) (λ _, JUndef) demo_swap
              25000000 {| re_status := 200; re_json := Ok JNull |} JNull
              {| re_status := 200; re_json := Ok (demo_route None) |} (demo_route None) (demo_jupiter "setup") [])
    as (call & Hc & Ha & _);
    [vm_compute; reflexivity|reflexivity|reflexivity|reflexivity|reflexivity|reflexivity|reflexivity|reflexivity
    |reflexivity|].
  exists call. split; [exact Hc|exact Ha].
Defined.
