(* ===== verification/AgentRuntime.v ===== *)
(** * The agent's own machine, and the provisioning service

    [sdk/agent/src/lib]: the configurations an agent keeps on disk, one file per
    vault, and the signer made of the stored key.  [sdk/platform/src]: the links
    a user is sent to approve a vault, and the wait for the result.  The theorems
    show that what is saved is found again and nothing else is lost, that the
    wait ends by its deadline with the service's word, and what the defaults
    miss. *)
From S2P Require Import Prelude JsText Custody.

Local Open Scope Z_scope.

(** ** Configurations on disk *)

Record AgentConfig : Type := {
  cfg_vaultAddress : string;
  cfg_ownerAddress : string;
  cfg_network : string;
  cfg_agentAddress : string;
  cfg_secretKey : list Z;
  cfg_createdAt : string;
}.

#[export] Instance AgentConfig_eq_dec : EqDecision AgentConfig.
Proof. solve_decision. Defined.

(** What [JSON.parse] makes of the text of a file: a configuration, or a throw. *)
Abbreviation file_text := (option AgentConfig).

(** The directory [~/.sigil/agents], if it is there: its files in the order
    [readdirSync] lists them.  A vault address is a name without slashes. *)
Abbreviation agents_dir := (option (list (string * file_text))).

Definition json_suffix : string := ".json".
Definition file_name (vaultAddress : string) : string := vaultAddress +:+ json_suffix.

Fixpoint read_file (name : string) (files : list (string * file_text)) : option file_text :=
  match files with
  | [] => None
  | (n, t) :: files => if bool_decide (name = n) then Some t else read_file name files
  end.

(** [existsSync], then [JSON.parse] in a [try]. *)
Definition loadConfig (dir : agents_dir) (vaultAddress : string) : option AgentConfig :=
  files ← dir; t ← read_file (file_name vaultAddress) files; t.

(** [f.endsWith('.json')], and [f.replace(/\.json$/, '')]. *)
Fixpoint strip_json (f : string) : option string :=
  if bool_decide (f = json_suffix) then Some "" else
  match f with
  | EmptyString => None
  | String c f => String c <$> strip_json f
  end.

Definition config_files (files : list (string * file_text)) : list string := omap (λ f, strip_json f.1) files.

Definition loadDefaultConfig (dir : agents_dir) : option AgentConfig :=
  files ← dir; vaultAddress ← head (config_files files); loadConfig dir vaultAddress.

Definition listConfigs (dir : agents_dir) : list AgentConfig :=
  match dir with
  | None => []
  | Some files => omap (loadConfig dir) (config_files files)
  end.

(** [writeFileSync] replaces the file or adds one; where a new one is listed is
    up to the file system ([place]). *)
Fixpoint write_file (name : string) (t : file_text) (files : list (string * file_text))
    : list (string * file_text) :=
  match files with
  | [] => []
  | (n, t') :: files => if bool_decide (name = n) then (n, t) :: files else (n, t') :: write_file name t files
  end.

Definition save_file (place : nat) (files : list (string * file_text)) (config : AgentConfig)
    : list (string * file_text) :=
  let name := file_name (cfg_vaultAddress config) in
  match read_file name files with
  | Some _ => write_file name (Some config) files
  | None => take place files ++ (name, Some config) :: drop place files
  end.

Definition saveConfig (place : nat) (dir : agents_dir) (config : AgentConfig) : agents_dir :=
  Some (save_file place (default [] dir) config).

(** [buildAgentSigner]: the stored numbers as bytes, and the key pair made of
    them. *)
Definition buildAgentSigner {S E} (createSigner : list Z → result E S) (wrongLength : Z → E) (config : AgentConfig)
    : result E S :=
  let secret := (λ n, n mod 256) <$> cfg_secretKey config in
  if bool_decide (length secret = 64%nat) then createSigner secret else Throw (wrongLength (Z.of_nat (length secret))).

Definition PUBLIC_RPC (network : string) : option string :=
  if bool_decide (network = "devnet") then Some "https://api.devnet.solana.com"
  else if bool_decide (network = "mainnet") then Some "https://api.mainnet-beta.solana.com" else None.

(** [process.env.SIGIL_RPC_URL ?? PUBLIC_RPC[config.network]] *)
Definition rpc_url (env : option string) (config : AgentConfig) : option string :=
  match env with Some url => Some url | None => PUBLIC_RPC (cfg_network config) end.

(** ** What is saved is found *)

Lemma length_append (a b : string) : String.length (a +:+ b) = (String.length a + String.length b)%nat.
Proof. induction a as [|c a IH]; [done|]. change (S (String.length (a +:+ b)) = S (String.length a + String.length b)). by rewrite IH. Qed.

Lemma strip_json_file v : strip_json (file_name v) = Some v.
Proof.
  unfold file_name. induction v as [|c v IH]; [done|].
  change (strip_json (String c (v +:+ json_suffix)) = Some (String c v)). cbn [strip_json].
  rewrite bool_decide_false; [by rewrite IH|].
  intros H. apply (f_equal String.length) in H. cbn in H. rewrite length_append in H. cbn in H. lia.
Qed.

Lemma strip_json_back f v : strip_json f = Some v → f = file_name v.
Proof.
  revert v. induction f as [|c f IH]; intros v; cbn [strip_json]; [done|].
  case_bool_decide as E; [intros [= <-]; exact E|].
  destruct (strip_json f) as [u|]; [|done]. intros [= <-]. by rewrite (IH u eq_refl).
Qed.

Lemma read_app name a b :
  read_file name (a ++ b) = match read_file name a with Some t => Some t | None => read_file name b end.
Proof. induction a as [|[n t] a IH]; cbn; [done|]. by case_bool_decide. Qed.

Lemma read_write name t files other :
  is_Some (read_file name files) →
  read_file other (write_file name t files) = if bool_decide (other = name) then Some t else read_file other files.
Proof.
  intros [t0 Ht]. induction files as [|[n t'] files IH]; cbn in Ht |- *; [done|].
  destruct (decide (name = n)) as [->|Hn].
  - rewrite bool_decide_true in Ht |- * by done. cbn. by case_bool_decide.
  - rewrite (bool_decide_false (name = n)) in Ht |- * by done. cbn. rewrite (IH Ht).
    repeat case_bool_decide; subst; done.
Qed.

Lemma read_saved place files config other :
  read_file other (save_file place files config) =
    if bool_decide (other = file_name (cfg_vaultAddress config)) then Some (Some config)
    else read_file other files.
Proof.
  unfold save_file. cbn zeta. destruct (read_file (file_name _) files) as [t|] eqn:E.
  - by rewrite read_write by by rewrite E.
  - rewrite <- (take_drop place files) in E. rewrite read_app in E.
    rewrite <- (take_drop place files) at 3. rewrite !read_app. cbn [read_file].
    destruct (decide (other = file_name (cfg_vaultAddress config))) as [->|Ho].
    + rewrite bool_decide_true by done. by destruct (read_file _ (take place _)).
    + by rewrite bool_decide_false.
Qed.

(** What is saved is found, and nothing else changes.  After a
    configuration is saved, loading its vault gives it back, field for field;
    every other vault loads as before. *)
Theorem saved_configs_load (place : nat) (dir : agents_dir) (config : AgentConfig) (vault : string) :
  loadConfig (saveConfig place dir config) vault =
    if bool_decide (vault = cfg_vaultAddress config) then Some config else loadConfig dir vault.
Proof.
  assert (Hl : loadConfig dir vault = (t ← read_file (file_name vault) (default [] dir); t)) by by destruct dir.
  rewrite Hl. unfold loadConfig, saveConfig. cbn [mbind option_bind]. rewrite read_saved.
  destruct (decide (vault = cfg_vaultAddress config)) as [->|Hv].
  - by rewrite !bool_decide_true.
  - rewrite !bool_decide_false; [done|done|]. intros Hc. apply Hv.
    apply (f_equal strip_json) in Hc. rewrite !strip_json_file in Hc. congruence.
Qed.

Lemma read_elem name t files : read_file name files = Some t → (name, t) ∈ files.
Proof.
  induction files as [|[n t'] files IH]; cbn; [done|].
  case_bool_decide; [subst; intros [= ->]; apply elem_of_cons; by left|].
  intros ?%IH. apply elem_of_cons. by right.
Qed.

(** Every vault that loads is listed. *)
Lemma loaded_configs_are_listed dir vault config :
  loadConfig dir vault = Some config → config ∈ listConfigs dir.
Proof.
  unfold listConfigs. destruct dir as [files|]; [|done]. intros Hl. pose proof Hl as Hl'.
  unfold loadConfig in Hl. cbn in Hl. destruct (read_file _ files) as [t|] eqn:E; [|done].
  apply list_elem_of_omap. exists vault. split; [|done].
  apply list_elem_of_omap. exists (file_name vault, t). split; [by apply read_elem|apply strip_json_file].
Qed.

(** One broken file hides the agent.  The default configuration is the
    first file's, or none: if the first file does not parse, the server finds no
    configuration at all, however many good ones are listed. *)
Theorem a_broken_file_hides_every_config (vault : string) (files : list (string * file_text)) :
  loadDefaultConfig (Some ((file_name vault, None) :: files)) = None.
Proof.
  unfold loadDefaultConfig, config_files. cbn [mbind option_bind omap list_omap fst].
  rewrite strip_json_file. cbn. by rewrite bool_decide_true.
Qed.

(** Any stored numbers make a signer as long as there are 64 of them: the
    address kept beside the key is not compared with it. *)
Lemma signer_ignores_the_address {S E} (create : list Z → result E S) wrong config address :
  buildAgentSigner create wrong config =
  buildAgentSigner create wrong {|
    cfg_vaultAddress := cfg_vaultAddress config; cfg_ownerAddress := cfg_ownerAddress config;
    cfg_network := cfg_network config; cfg_agentAddress := address; cfg_secretKey := cfg_secretKey config;
    cfg_createdAt := cfg_createdAt config |}.
Proof. done. Qed.

(** ** The provisioning service *)

Record ProvisionOptions : Type := { po_dailyCap : option Z; po_template : option string }.

(** Options the code takes for given: not the empty string, not zero. *)
Definition given_template (o : ProvisionOptions) : option string :=
  match po_template o with Some "" => None | t => t end.
Definition given_cap (o : ProvisionOptions) : option Z :=
  match po_dailyCap o with Some 0 => None | c => c end.

(** [URLSearchParams.toString]. *)
Definition form_kept (c : ascii) : bool :=
  is_digit c || is_upper c || is_lower c || bool_decide (c ∈ ["*"; "-"; "."; "_"]%char).
Definition form_char (c : ascii) : list ascii :=
  if form_kept c then [c] else if bool_decide (c = " "%char) then ["+"%char] else percent (code c).
Definition form_text (s : string) : string := text (concat (map form_char (chars s))).

Definition query (o : ProvisionOptions) : string :=
  let t := match given_template o with Some t => ["template=" +:+ form_text t] | None => [] end in
  let c := match given_cap o with Some c => ["dailyCap=" +:+ form_text (bigint_toString c)] | None => [] end in
  match (t ++ c)%list with
  | [] => ""
  | [a] => a
  | a :: b :: _ => a +:+ "&" +:+ b
  end.

Inductive provision_status : Type := Pending | Confirmed | NotFound.

#[export] Instance provision_status_eq_dec : EqDecision provision_status.
Proof. solve_decision. Defined.

Section Platform.
Context (base : string).

(** The constructor takes one slash off the end. *)
Definition baseUrl : string := strip_slash base.

Definition getProvisionActionUrl (o : ProvisionOptions) : string :=
  baseUrl +:+ "/api/actions/provision" +:+
  (let q := query o in if bool_decide (q = "") then "" else "?" +:+ q).

Definition getBlinkUrl (o : ProvisionOptions) : string :=
  "https://dial.to/?action=solana-action:" +:+ encodeURIComponent (getProvisionActionUrl o).

(** The line of [formatProvisionMessage] that states the policy. *)
Definition policy_line (o : ProvisionOptions) : string :=
  "**Policy:** " +:+ default "conservative" (given_template o) +:+ " (" +:+
  bigint_toString (default 500 (given_cap o)) +:+ " USDC/day cap)".

Definition formatProvisionMessage (o : ProvisionOptions) : list string := [
  "I need a protected wallet to trade. Please approve the vault creation:"; "";
  policy_line o;
  "**Action URL:** " +:+ getProvisionActionUrl o;
  "**Blink:** " +:+ getBlinkUrl o; "";
  "Click the link above or paste the Action URL in any Solana blink-compatible app."].


Record ProvisionResult : Type := {
  pr_status : provision_status; pr_vaultAddress : option string; pr_agentPubkey : option string;
  pr_agentLocator : option string; pr_error : option string;
}.

Inductive platform_exn : Type :=
| StatusCheckFailed (status : Z)
| RequestRejected
| ProvisionFailed (error : string)
| ProvisionTimedOut (timeoutMs : Z).

(** [fetch] of the status endpoint: rejected, or a status and its body. *)
Definition checkStatus (reply : option (Z * ProvisionResult)) : result platform_exn ProvisionResult :=
  match reply with
  | None => Throw RequestRejected
  | Some (status, r) => if (200 <=? status) && (status <=? 299) then Ok r else Throw (StatusCheckFailed status)
  end.

Definition failure (r : ProvisionResult) : option string :=
  match pr_status r, pr_error r with
  | NotFound, Some "" => None
  | NotFound, e => e
  | _, _ => None
  end.

(** The loop of [waitForProvision]: [now k] is the clock at the [k]-th test of
    the loop, [replies k] the answer to the [k]-th request.  It gives the number
    of requests and what comes out, or nothing if the fuel was too little. *)
Context (deadline timeoutMs : Z) (now : nat → Z) (replies : nat → option (Z * ProvisionResult)).

Fixpoint poll (fuel k : nat) : option (nat * result platform_exn ProvisionResult) :=
  match fuel with
  | O => None
  | S fuel =>
      if now k <? deadline then
        match checkStatus (replies k) with
        | Throw e => Some (S k, Throw e)
        | Ok r =>
            if bool_decide (pr_status r = Confirmed) then Some (S k, Ok r)
            else match failure r with
                 | Some e => Some (S k, Throw (ProvisionFailed e))
                 | None => poll fuel (S k)
                 end
        end
      else Some (k, Throw (ProvisionTimedOut timeoutMs))
  end.
End Platform.

(** [waitForProvision(txSignature, timeoutMs, intervalMs)], started at [start]. *)
Definition waitForProvision (start timeoutMs : Z) (now : nat → Z) (replies : nat → option (Z * ProvisionResult))
    (fuel : nat) : option (nat * result platform_exn ProvisionResult) :=
  poll (start + timeoutMs) timeoutMs now replies fuel 0.

(** Every round of the loop waits for the interval. *)
Definition rounds_wait (start intervalMs : Z) (now : nat → Z) : Prop :=
  ∀ k, start + Z.of_nat k * intervalMs ≤ now k.

Section Wait.
Context (start timeoutMs intervalMs : Z) (now : nat → Z) (replies : nat → option (Z * ProvisionResult)).

Lemma poll_ends fuel k :
  rounds_wait start intervalMs now → timeoutMs ≤ (Z.of_nat k + Z.of_nat fuel) * intervalMs →
  ∃ n r, poll (start + timeoutMs) timeoutMs now replies (S fuel) k = Some (n, r) ∧ (n ≤ k + fuel)%nat.
Proof.
  intros Hw. revert k. induction fuel as [|fuel IH]; intros k Hf; cbn [poll];
    destruct (Z.ltb_spec (now k) (start + timeoutMs)) as [Hn|Hn]; [|eauto with lia| |eauto with lia].
  { specialize (Hw k). exfalso. rewrite Z.add_0_r in Hf. lia. }
  destruct (checkStatus (replies k)) as [r|e]; [|do 2 eexists; split; [done|lia]].
  case_bool_decide; [do 2 eexists; split; [done|lia]|].
  destruct (failure r) as [e|]; [do 2 eexists; split; [done|lia]|].
  destruct (IH (S k)) as (n & r' & Hp & Hle); [by replace (Z.of_nat (S k) + Z.of_nat fuel) with
    (Z.of_nat k + Z.of_nat (S fuel)) by lia|]. exists n, r'. split; [done|lia].
Qed.

(** What the loop gives, and which of its requests it comes from. *)
Lemma poll_gives fuel k n r :
  poll (start + timeoutMs) timeoutMs now replies fuel k = Some (n, r) →
  (k ≤ n)%nat ∧
  match r with
  | Ok p => pr_status p = Confirmed ∧ (k < n)%nat ∧ checkStatus (replies (n - 1)) = Ok p
  | Throw (ProvisionTimedOut t) => t = timeoutMs ∧ start + timeoutMs ≤ now n
  | Throw (ProvisionFailed e) => ∃ p, (k < n)%nat ∧ checkStatus (replies (n - 1)) = Ok p ∧ failure p = Some e
  | Throw e => (k < n)%nat ∧ checkStatus (replies (n - 1)) = Throw e
  end.
Proof.
  revert k. induction fuel as [|fuel IH]; intros k; cbn [poll]; [done|].
  destruct (Z.ltb_spec (now k) (start + timeoutMs)) as [Hn|Hn]; [|by intros [= <- <-]].
  destruct (checkStatus (replies k)) as [p|e] eqn:Ec.
  - case_bool_decide as Hc.
    { intros [= <- <-]. rewrite Nat.sub_1_r. cbn. split; [lia|split; [done|split; [lia|done]]]. }
    destruct (failure p) as [e|] eqn:Ef.
    { intros [= <- <-]. split; [lia|]. exists p. rewrite Nat.sub_1_r. cbn. split; [lia|done]. }
    intros H. destruct (IH _ H) as [Hle Hr]. split; [lia|].
    destruct r as [p'|[]]; naive_solver lia.
  - intros [= <- <-]. split; [lia|]. replace (S k - 1)%nat with k by lia.
    pose proof Ec as Ec'. unfold checkStatus in Ec'.
    destruct (replies k) as [[st p]|]; [destruct (_ && _)|]; injection Ec' as <- || discriminate Ec';
      (split; [lia|exact Ec]).
Qed.

(** The wait ends, with the service's word.  If every round waits for the
    interval, the loop is over after at most one request more than the intervals
    in the timeout.  What it returns is a confirmed result, the last one the
    service sent; it says the provision failed only if the service did, and that
    it timed out only past the deadline. *)
Theorem waiting_for_provision_ends :
  0 < intervalMs → 0 ≤ timeoutMs → rounds_wait start intervalMs now →
  ∃ n r, waitForProvision start timeoutMs now replies (Z.to_nat (timeoutMs / intervalMs) + 2) = Some (n, r) ∧
    (n ≤ Z.to_nat (timeoutMs / intervalMs) + 1)%nat ∧
    match r with
    | Ok p => pr_status p = Confirmed ∧ (0 < n)%nat ∧ checkStatus (replies (n - 1)) = Ok p
    | Throw (ProvisionTimedOut t) => t = timeoutMs ∧ start + timeoutMs ≤ now n
    | Throw (ProvisionFailed e) => ∃ p, (0 < n)%nat ∧ checkStatus (replies (n - 1)) = Ok p ∧ failure p = Some e
    | Throw e => (0 < n)%nat ∧ checkStatus (replies (n - 1)) = Throw e
    end.
Proof.
  intros Hi Ht Hw. unfold waitForProvision.
  pose proof (Z.div_pos timeoutMs intervalMs Ht Hi) as Hq.
  pose proof (Z.mul_succ_div_gt timeoutMs intervalMs Hi) as Hd.
  destruct (poll_ends (Z.to_nat (timeoutMs / intervalMs) + 1) 0 Hw) as (n & r & Hp & Hn); [nia|].
  exists n, r. replace (Z.to_nat (timeoutMs / intervalMs) + 2)%nat with
    (S (Z.to_nat (timeoutMs / intervalMs) + 1)) by lia.
  split; [done|split; [lia|]]. apply (poll_gives _ _ _ _ Hp).
Qed.
End Wait.

(** The message promises what the link does not carry.  Asked for a cap of
    zero, or for nothing, the client writes to the user that the vault is
    conservative with 500 USDC a day; the link it asks to approve has neither. *)
Theorem the_link_carries_no_default (base : string) :
  Forall (λ o, policy_line o = "**Policy:** conservative (500 USDC/day cap)" ∧
               getProvisionActionUrl base o = baseUrl base +:+ "/api/actions/provision")
    [{| po_dailyCap := None; po_template := None |}; {| po_dailyCap := Some 0; po_template := Some "" |}].
Proof. repeat (apply Forall_cons; split; [split; [vm_compute; reflexivity|reflexivity]|]). apply Forall_nil_2. Qed.

(** ** Witnesses *)

Definition demo_confirmed : ProvisionResult := {|
  pr_status := Confirmed; pr_vaultAddress := Some "vault"; pr_agentPubkey := Some "agent";
  pr_agentLocator := None; pr_error := None |}.

Lemma waiting_for_provision_ends_witness :
  rounds_wait 1000 2000 (λ k, 1000 + Z.of_nat k * 2000) ∧
  ∃ n r, waitForProvision 1000 60000 (λ k, 1000 + Z.of_nat k * 2000) (λ _, Some (200, demo_confirmed)) 32 = Some (n, r).
Proof.
  assert (Hw : rounds_wait 1000 2000 (λ k, 1000 + Z.of_nat k * 2000)) by (intros k; lia).
  split; [exact Hw|].
  destruct (waiting_for_provision_ends 1000 60000 2000 (λ k, 1000 + Z.of_nat k * 2000)
              (λ _, Some (200, demo_confirmed))) as (n & r & Hr & _); [lia|lia|exact Hw|].
  exists n, r. exact Hr.
Defined.
