(* ===== verification/Sandwich.v ===== *)
(** * What the program makes of a transaction

    The program cannot see the instructions around its own except through the
    instructions sysvar.  [validate_and_authorize] reads the whole transaction
    there before it delegates anything: nothing but infrastructure before it, no
    second authorisation of the same session, no foreign instruction that writes
    to the program's accounts, then one instruction of the target program and at
    once the [finalize_session] of this very session.  [finalize_session] reads
    what follows it.  This file has those scans
    ([instructions/validate_and_authorize.rs],
    [instructions/finalize_session.rs], [utils/destination_check.rs],
    [utils/token2022_extension.rs]); a transaction is the list of instructions
    the sysvar shows.

    The theorems: a transaction that passes is a sandwich and nothing else; what
    [seal] puts together passes, given what [seal] leaves to the program; and
    where the client's copies of these checks differ from the program's. *)

From S2P Require Import Prelude CanonicalEncode Base64 SdkTypes IntentDigest StateResolver Composer Seal Accounts VerifiedBuild.
From S2P Require Import AgentTransfer.

Local Open Scope Z_scope.

(** ** Constants *)

Definition MAX_SYSVAR_SCAN_ITERATIONS : nat := 64.
Definition MAX_DESTINATION_WRITABLE_METAS : nat := 24.
Definition MAX_DESTINATION_CHECK_TOTAL_METAS : nat := 64.

Definition FINALIZE_SESSION_DISCRIMINATOR : list Z := [34; 148; 144; 47; 37; 130; 206; 161].
Definition VALIDATE_AND_AUTHORIZE_DISCRIMINATOR : list Z := [22; 183; 48; 222; 218; 11; 197; 152].

Definition JUPITER_PERPS_PROGRAM : string := "PERPHjGBqRHArX4DySjwM6UJHiR3sWAatqfdBS2qQJu".
Definition DRIFT_V2_PROGRAM : string := "dRiftyHA39MWEi3m9aunc5MzRF1JYuBsbn6VPcn33UH".
Definition DRIFT_JIT_PROXY_PROGRAM : string := "J1TnP8zvVxbtF5KFp5xRmWuvG9McnhzmBd9XGfCyuxFP".

Definition KNOWN_ASYNC_FULFILLMENT_PROGRAMS : list string :=
  [JUPITER_PERPS_PROGRAM; DRIFT_V2_PROGRAM; DRIFT_JIT_PROXY_PROGRAM].

Definition PROTOCOL_MODE_ALLOWLIST : Z := 1.

(** ** Instructions as the sysvar shows them *)

Definition data_of (ix : Ix) : list Z := default [] (ix_data ix).

Definition is_infrastructure (ix : Ix) : bool :=
  bool_decide (ix_programAddress ix = COMPUTE_BUDGET_PROGRAM_ADDRESS) ||
  bool_decide (ix_programAddress ix = SYSTEM_PROGRAM_ADDRESS).

(** An instruction of this program with the given discriminator. *)
Definition is_sigil (discriminator : list Z) (ix : Ix) : bool :=
  bool_decide (ix_programAddress ix = SIGIL_PROGRAM_ADDRESS) &&
  bool_decide (8 ≤ length (data_of ix))%nat && bool_decide (take 8 (data_of ix) = discriminator).

Definition is_protocol_allowed (policy : PolicyConfig) (program : string) : bool :=
  (pol_protocolMode policy =? PROTOCOL_MODE_ALLOWLIST) && bool_decide (program ∈ pol_protocols policy).

(** ** The scans around the authorisation *)

(** 5a: only infrastructure before it. *)
Fixpoint pre_scan (iterations : nat) (before : list Ix) : result string unit :=
  match before with
  | [] => Ok tt
  | ix :: rest =>
      _ ← throw_if (bool_decide (MAX_SYSVAR_SCAN_ITERATIONS ≤ iterations)%nat) "SysvarScanBoundExceeded";
      _ ← throw_if (negb (is_infrastructure ix)) "UnauthorizedPreValidateInstruction";
      pre_scan (S iterations) rest
  end.

(** The loop of TA-10 and TA-11: every instruction but the current one, up to
    the bound. *)
Fixpoint sibling_scan (body : Ix → result string unit) (tx : list Ix) (current : nat) (budget index : nat)
    : result string unit :=
  match budget with
  | O => Ok tt
  | S budget =>
      if bool_decide (index = current) then sibling_scan body tx current budget (S index) else
      match tx !! index with
      | None => Ok tt
      | Some sibling => _ ← body sibling; sibling_scan body tx current budget (S index)
      end
  end.

(** TA-10: an authorisation of the same vault, agent and mint. *)
Definition same_session (vault agent mint : string) (sibling : Ix) : result string unit :=
  throw_if
    (is_sigil VALIDATE_AND_AUTHORIZE_DISCRIMINATOR sibling &&
     match acc_address <$> accounts_of sibling !! 0%nat, acc_address <$> accounts_of sibling !! 1%nat,
           acc_address <$> accounts_of sibling !! 7%nat with
     | Some a, Some v, Some m => bool_decide (v = vault) && bool_decide (a = agent) && bool_decide (m = mint)
     | _, _, _ => false
     end) "ErrSandwichIntegrity".

Section Scan.
(** The accounts on chain, the address of 32 bytes, the bytes of an address and
    the addresses this program derives. *)
Context (ledger : string → option LedgerAccount) (toAddress : list Z → string) (encode : string → list Z).
Context (derive : string → list (list Z) → string).

Definition derived (seeds : list (list Z)) : string := derive SIGIL_PROGRAM_ADDRESS seeds.

Definition build_ta11_protected_set (vault policy tracker overlay session : string) (agents : list AgentEntry)
    : list string :=
  [vault; policy; tracker; overlay; session;
   derived [seedString "pending_policy"; encode vault];
   derived [seedString "post_assertions"; encode vault];
   derived [seedString "pending_owner"; encode vault];
   derived [seedString "pending_agent_grant"; encode vault];
   derived [seedString "audit_success"; encode vault];
   derived [seedString "audit_rejected"; encode vault]] ++
  map (λ a, derived [seedString "pending_agent_perms"; encode vault; encode (ae_pubkey a)]) agents.

(** Among the accounts passed after the named ones, the one with a key. *)
Definition resolve (remaining : list string) (key : string) : option LedgerAccount :=
  if bool_decide (key ∈ remaining) then Some (account_info ledger key) else None.

(** An account the instruction cannot look up counts as the program's. *)
Definition sigil_owned (remaining : list string) (key : string) : bool :=
  match resolve remaining key with
  | Some info => bool_decide (la_owner info = SIGIL_PROGRAM_ADDRESS)
  | None => true
  end.

(** TA-11: a foreign instruction that writes to a protected account. *)
Definition no_protected_writes (protected remaining : list string) (sibling : Ix) : result string unit :=
  if bool_decide (ix_programAddress sibling = SIGIL_PROGRAM_ADDRESS) then Ok tt else
  throw_if (existsb (λ meta, is_writable (acc_role meta) && bool_decide (acc_address meta ∈ protected) &&
                             sigil_owned remaining (acc_address meta)) (accounts_of sibling))
    "ErrProtectedWritable".

(** ** Token accounts and mints, read raw *)

Definition token_mint (data : list Z) : string := toAddress (take 32 data).
Definition token_owner (data : list Z) : string := toAddress (take 32 (drop 32 data)).
Definition token_amount (data : list Z) : Z := le_value (take 8 (drop 64 data)).

Definition is_token_program (program : string) : bool :=
  bool_decide (program = TOKEN_PROGRAM_ADDRESS) || bool_decide (program = TOKEN_2022_PROGRAM_ADDRESS).

Definition is_allowlisted_extension (ext_type : Z) : bool :=
  bool_decide (ext_type ∈ [8; 18; 19; 20; 21; 22; 23]).

(** The entries of the extension area from [data] on: two bytes of type, two of
    length, the value. *)
Fixpoint extensions_ok (budget : nat) (data : list Z) : result string unit :=
  if bool_decide (length data < 4)%nat then Ok tt else
  match budget with
  | O => Throw "ErrToken2022ExtensionForbidden"
  | S budget =>
      let ext_type := le_value (take 2 data) in
      let ext_len := Z.to_nat (le_value (take 2 (drop 2 data))) in
      if ext_type =? 0 then Ok tt else
      _ ← throw_if (negb (is_allowlisted_extension ext_type)) "ErrToken2022ExtensionForbidden";
      _ ← throw_if (bool_decide (length data < 4 + ext_len)%nat) "ErrToken2022ExtensionForbidden";
      extensions_ok budget (drop (4 + ext_len) data)
  end.

Definition MAX_TLV_ITERATIONS : nat := 64.

Definition enforce_token2022_extension_allowlist (mint : LedgerAccount) : result string unit :=
  if negb (bool_decide (la_owner mint = TOKEN_2022_PROGRAM_ADDRESS)) then Ok tt else
  let data := la_data mint in
  if bool_decide (length data ≤ 82)%nat then Ok tt else
  _ ← throw_if (bool_decide (length data ≤ 165)%nat) "ErrToken2022ExtensionForbidden";
  _ ← throw_if (negb (forallb (λ b, b =? 0) (take (165 - 82) (drop 82 data)))) "ErrToken2022ExtensionForbidden";
  _ ← throw_if (negb (bool_decide (data !! 165%nat = Some 1))) "ErrToken2022ExtensionForbidden";
  extensions_ok MAX_TLV_ITERATIONS (drop 166 data).

(** ** Where value may go *)

(** One writable account of the protocol's instruction. *)
Definition check_destination (remaining : list string) (vault : string) (policy : PolicyConfig) (now : Z)
    (key : string) : result string unit :=
  match resolve remaining key with
  | None => Throw "DestinationAccountUnresolvable"
  | Some info =>
      if negb (is_token_program (la_owner info)) then Ok tt else
      _ ← throw_if (bool_decide (length (la_data info) < 72)%nat) "InvalidTokenAccount";
      let recipient_wallet := token_owner (la_data info) in
      if bool_decide (recipient_wallet = vault) then
        if bool_decide (la_owner info = TOKEN_2022_PROGRAM_ADDRESS) then
          match resolve remaining (token_mint (la_data info)) with
          | None => Throw "ErrToken2022OutputMintUnresolvable"
          | Some mint_info =>
              _ ← throw_if (negb (bool_decide (la_owner mint_info = TOKEN_2022_PROGRAM_ADDRESS)))
                    "ErrToken2022OutputMintUnresolvable";
              enforce_token2022_extension_allowlist mint_info
          end
        else Ok tt
      else
      if negb (is_destination_allowed policy recipient_wallet) then Ok tt else
      throw_if (is_destination_graylisted policy recipient_wallet now) "ErrGraylistFriction"
  end.

Fixpoint check_destinations (remaining : list string) (vault : string) (policy : PolicyConfig) (now : Z)
    (metas : list AccountMeta) : result string unit :=
  match metas with
  | [] => Ok tt
  | meta :: rest =>
      _ ← (if negb (is_writable (acc_role meta)) || bool_decide (acc_address meta = vault) then Ok tt
           else check_destination remaining vault policy now (acc_address meta));
      check_destinations remaining vault policy now rest
  end.

Definition writable_count (metas : list AccountMeta) : nat :=
  length (List.filter (λ m, is_writable (acc_role m)) metas).

Definition enforce_destination_allowlist (metas : list AccountMeta) (remaining : list string) (vault : string)
    (policy : PolicyConfig) (now : Z) : result string unit :=
  _ ← throw_if (bool_decide (MAX_DESTINATION_CHECK_TOTAL_METAS < length metas)%nat) "IxMetaCountExceeded";
  _ ← throw_if (bool_decide (MAX_DESTINATION_WRITABLE_METAS < writable_count metas)%nat) "IxMetaCountExceeded";
  check_destinations remaining vault policy now metas.

Definition enforce_finalize_completeness (metas : list AccountMeta) (remaining : list string) (vault : string)
    : result string unit :=
  _ ← throw_if (bool_decide (MAX_DESTINATION_CHECK_TOTAL_METAS < length metas)%nat) "IxMetaCountExceeded";
  _ ← throw_if (bool_decide (MAX_DESTINATION_WRITABLE_METAS < writable_count metas)%nat) "IxMetaCountExceeded";
  throw_if (existsb (λ m, is_writable (acc_role m) && negb (bool_decide (acc_address m = vault)) &&
                          negb (bool_decide (acc_address m ∈ remaining))) metas) "ErrFinalizeMetaUnresolvable".

(** ** The instructions between the two wrappers *)

Inductive ScanAction : Type := FoundFinalize | Infrastructure | PassedSharedChecks.

(** The operations of the token program, and of its successor, that are refused
    at top level. *)
Definition spl_refusal (opcode : Z) : option string :=
  if bool_decide (opcode ∈ [4; 13]) then Some "UnauthorizedTokenApproval" else
  if bool_decide (opcode ∈ [3; 12]) then Some "UnauthorizedTokenTransfer" else
  if bool_decide (opcode ∈ [6; 8; 9; 15]) then Some "UnauthorizedTokenTransfer" else None.

Definition t22_refusal (opcode : Z) : option string :=
  if bool_decide (opcode ∈ [4; 13]) then Some "UnauthorizedTokenApproval" else
  if bool_decide (opcode ∈ [3; 12; 26]) then Some "UnauthorizedTokenTransfer" else
  if bool_decide (opcode ∈ [6; 8; 9; 15]) then Some "UnauthorizedTokenTransfer" else
  if bool_decide (opcode ∈ [27; 42]) then Some "ConfidentialTransferBlocked" else
  if opcode =? 35 then Some "PermanentDelegateBlocked" else
  if opcode =? 36 then Some "TransferHookBlocked" else
  if bool_decide (opcode ∈ [38; 45; 46]) then Some "LamportDrainBlocked" else
  if opcode =? 255 then Some "BatchInstructionBlocked" else None.

Definition refuse_opcode (program : string) (refusal : Z → option string) (ix : Ix) : result string unit :=
  if bool_decide (ix_programAddress ix = program) then
    match head (data_of ix) ≫= refusal with Some e => Throw e | None => Ok tt end
  else Ok tt.

Definition scan_instruction_shared (policy : PolicyConfig) (session : string) (ix : Ix) : result string ScanAction :=
  if is_sigil FINALIZE_SESSION_DISCRIMINATOR ix then
    match accounts_of ix !! 2%nat with
    | None => Throw "MissingFinalizeInstruction"
    | Some meta => _ ← throw_if (negb (bool_decide (acc_address meta = session))) "MissingFinalizeInstruction";
                   Ok FoundFinalize
    end
  else
  _ ← refuse_opcode TOKEN_PROGRAM_ADDRESS spl_refusal ix;
  _ ← refuse_opcode TOKEN_2022_PROGRAM_ADDRESS t22_refusal ix;
  if is_infrastructure ix then Ok Infrastructure else
  _ ← throw_if (bool_decide (ix_programAddress ix ∈ KNOWN_ASYNC_FULFILLMENT_PROGRAMS)) "AsyncFulfillmentNotPermitted";
  _ ← throw_if (negb (is_protocol_allowed policy (ix_programAddress ix))) "ProtocolNotAllowed";
  Ok PassedSharedChecks.

(** 6: the scan of a spending session, from the instruction after the current
    one on: how many instructions of the protocol, and whether the end was
    found.  [last] is the index of the last one counted. *)
Fixpoint spending_scan (policy : PolicyConfig) (session target vault : string) (remaining : list string) (now : Z)
    (index iterations count : nat) (last : option nat) (after : list Ix) : result string (nat * bool) :=
  match after with
  | [] => Ok (count, false)
  | ix :: rest =>
      _ ← throw_if (bool_decide (MAX_SYSVAR_SCAN_ITERATIONS ≤ iterations)%nat) "SysvarScanBoundExceeded";
      action ← scan_instruction_shared policy session ix;
      match action with
      | FoundFinalize =>
          _ ← match last with
              | Some d => throw_if (negb (bool_decide (index = S d))) "ErrDeFiInstructionNotAdjacentToFinalize"
              | None => Ok tt
              end;
          Ok (count, true)
      | Infrastructure =>
          spending_scan policy session target vault remaining now (S index) (S iterations) count last rest
      | PassedSharedChecks =>
          _ ← throw_if (negb (bool_decide (ix_programAddress ix = target))) "ProtocolMismatch";
          _ ← enforce_destination_allowlist (accounts_of ix) remaining vault policy now;
          spending_scan policy session target vault remaining now (S index) (S iterations)
            (Nat.min 255 (S count)) (Some index) rest
      end
  end.

(** 6b: the scan of a session that spends nothing. *)
Fixpoint observing_scan (policy : PolicyConfig) (session : string) (iterations : nat) (after : list Ix)
    : result string bool :=
  match after with
  | [] => Ok false
  | ix :: rest =>
      _ ← throw_if (bool_decide (MAX_SYSVAR_SCAN_ITERATIONS ≤ iterations)%nat) "SysvarScanBoundExceeded";
      action ← scan_instruction_shared policy session ix;
      match action with
      | FoundFinalize => Ok true
      | _ => observing_scan policy session (S iterations) rest
      end
  end.

(** What one call has to do with the transaction around it. *)
Record Call : Type := {
  cl_vault : string;
  cl_agent : string;
  cl_mint : string;
  cl_policyKey : string;
  cl_tracker : string;
  cl_overlay : string;
  cl_session : string;
  cl_target : string;
  cl_spending : bool;
  cl_remaining : list string;
}.

(** Steps 5a to 6b of the handler, for the call at index [current]. *)
Definition scan_transaction (c : Call) (agents : list AgentEntry) (policy : PolicyConfig) (now : Z)
    (tx : list Ix) (current : nat) : result string unit :=
  _ ← pre_scan 0 (take current tx);
  _ ← sibling_scan (same_session (cl_vault c) (cl_agent c) (cl_mint c)) tx current MAX_SYSVAR_SCAN_ITERATIONS 0;
  let protected := build_ta11_protected_set (cl_vault c) (cl_policyKey c) (cl_tracker c) (cl_overlay c)
                     (cl_session c) agents in
  _ ← sibling_scan (no_protected_writes protected (cl_remaining c)) tx current MAX_SYSVAR_SCAN_ITERATIONS 0;
  if cl_spending c then
    '(count, found) ← spending_scan policy (cl_session c) (cl_target c) (cl_vault c) (cl_remaining c) now
                        (S current) 0 0 None (drop (S current) tx);
    _ ← throw_if (negb (bool_decide (count = 1%nat))) "TooManyDeFiInstructions";
    throw_if (negb found) "MissingFinalizeInstruction"
  else
    found ← observing_scan policy (cl_session c) 0 (drop (S current) tx);
    throw_if (negb found) "MissingFinalizeInstruction".

(** The end of [finalize_session], at index [current]: infrastructure only, as
    far as the bound. *)
Definition post_scan (tx : list Ix) (current : nat) : result string unit :=
  throw_if (negb (forallb is_infrastructure (take MAX_SYSVAR_SCAN_ITERATIONS (drop (S current) tx))))
    "UnauthorizedPostFinalizeInstruction".

(** [enforce_finalize_completeness_from_sysvar]: the instruction before this one. *)
Definition completeness_from_sysvar (tx : list Ix) (current : nat) (remaining : list string) (vault : string)
    : result string unit :=
  match current with
  | O => Throw "InvalidSession"
  | S before =>
      match tx !! before with
      | None => Throw "ErrFinalizeMetaUnresolvable"
      | Some defi => enforce_finalize_completeness (accounts_of defi) remaining vault
      end
  end.
End Scan.

(** ** What a scan that passes has seen *)

Lemma pre_scan_Ok n before u : pre_scan n before = Ok u → Forall (λ ix, is_infrastructure ix = true) before.
Proof.
  revert n; induction before as [|ix before IH]; intros n; cbn [pre_scan]; [constructor|].
  intros (? & _ & (? & Hi%throw_if_Ok & H)%bind_Ok_inv)%bind_Ok_inv.
  constructor; [by apply negb_false_iff|by eapply IH].
Qed.

Lemma pre_scan_passes n before :
  (n + length before ≤ MAX_SYSVAR_SCAN_ITERATIONS)%nat →
  Forall (λ ix, is_infrastructure ix = true) before → pre_scan n before = Ok tt.
Proof.
  intros Hn Hall; revert n Hn; induction Hall as [|ix before Hix _ IH]; intros n Hn; cbn [pre_scan]; [done|].
  cbn in Hn. rewrite bool_decide_false by lia. rewrite Hix. apply IH. lia.
Qed.

Lemma sibling_scan_Ok body tx current budget index u :
  sibling_scan body tx current budget index = Ok u →
  ∀ j ix, (index ≤ j < index + budget)%nat → j ≠ current → tx !! j = Some ix → body ix = Ok tt.
Proof.
  revert index; induction budget as [|budget IH]; intros index; cbn [sibling_scan]; [lia|].
  case_bool_decide as Hc.
  { intros H j ix Hj Hne. apply (IH _ H); [lia|done]. }
  destruct (tx !! index) as [ix'|] eqn:Hi.
  - intros ([] & Hb & H)%bind_Ok_inv j ix Hj Hne Hix. destruct (decide (j = index)) as [->|]; [congruence|].
    apply (IH _ H j); [lia|done..].
  - intros _ j ix Hj _ Hix. apply lookup_ge_None in Hi. apply lookup_lt_Some in Hix. lia.
Qed.

Lemma sibling_scan_passes body tx current budget index :
  (∀ j ix, j ≠ current → tx !! j = Some ix → body ix = Ok tt) →
  sibling_scan body tx current budget index = Ok tt.
Proof.
  intros H; revert index; induction budget as [|budget IH]; intros index; cbn [sibling_scan]; [done|].
  case_bool_decide; [apply IH|]. destruct (tx !! index) eqn:Hi; [|done].
  rewrite (H index) by done. apply IH.
Qed.

Lemma not_refused program refusal ix op :
  refuse_opcode program refusal ix = Ok tt → ix_programAddress ix = program → head (data_of ix) = Some op →
  refusal op = None.
Proof.
  unfold refuse_opcode. intros H Hp Ho. rewrite bool_decide_true, Ho in H by done. cbn in H. by destruct (refusal op).
Qed.

(** The two tables of refused operations, as lists. *)
Lemma spl_refusal_None op : spl_refusal op = None → op ∉ [3; 4; 6; 8; 9; 12; 13; 15].
Proof. unfold spl_refusal. repeat case_bool_decide; try done. rewrite !not_elem_of_cons in *. tauto. Qed.

Lemma t22_refusal_None op :
  t22_refusal op = None → op ∉ [3; 4; 6; 8; 9; 12; 13; 15; 26; 27; 35; 36; 38; 42; 45; 46; 255].
Proof.
  unfold t22_refusal. repeat case_bool_decide; try done.
  all: destruct (Z.eqb_spec op 35), (Z.eqb_spec op 36), (Z.eqb_spec op 255); try done.
  intros _. rewrite !not_elem_of_cons in *. destruct_and!. split_and!; assumption.
Qed.

Section Scanned.
Context (ledger : string → option LedgerAccount) (toAddress : list Z → string) (encode : string → list Z).
Context (derive : string → list (list Z) → string).
Context (policy : PolicyConfig) (session target vault : string) (remaining : list string) (now : Z).

(** The end of this very session. *)
Definition closes (ix : Ix) : Prop :=
  is_sigil FINALIZE_SESSION_DISCRIMINATOR ix = true ∧
  acc_address <$> accounts_of ix !! 2%nat = Some session.

(** An instruction of a token program that is none of those refused at top level;
    other operations of a token program are let through. *)
Definition opcode_admitted (ix : Ix) : Prop :=
  ∀ op, head (data_of ix) = Some op →
    (ix_programAddress ix = TOKEN_PROGRAM_ADDRESS → op ∉ [3; 4; 6; 8; 9; 12; 13; 15]) ∧
    (ix_programAddress ix = TOKEN_2022_PROGRAM_ADDRESS →
     op ∉ [3; 4; 6; 8; 9; 12; 13; 15; 26; 27; 35; 36; 38; 42; 45; 46; 255]).

(** An instruction of the protocol that the program lets run. *)
Record admitted (ix : Ix) : Prop := {
  ad_target : ix_programAddress ix = target;
  ad_allowed : is_protocol_allowed policy (ix_programAddress ix) = true;
  ad_not_async : ix_programAddress ix ∉ KNOWN_ASYNC_FULFILLMENT_PROGRAMS;
  ad_opcode : opcode_admitted ix;
  ad_foreign : is_infrastructure ix = false;
  ad_destinations : enforce_destination_allowlist ledger toAddress (accounts_of ix) remaining vault policy now = Ok tt;
}.

Lemma opcodes_admitted ix :
  refuse_opcode TOKEN_PROGRAM_ADDRESS spl_refusal ix = Ok tt →
  refuse_opcode TOKEN_2022_PROGRAM_ADDRESS t22_refusal ix = Ok tt → opcode_admitted ix.
Proof.
  intros H1 H2 op Ho. split; intros Hp.
  - apply spl_refusal_None. by eapply not_refused.
  - apply t22_refusal_None. by eapply not_refused.
Qed.

Lemma shared_finalize ix : scan_instruction_shared policy session ix = Ok FoundFinalize → closes ix.
Proof.
  unfold scan_instruction_shared, closes. destruct (is_sigil _ ix) eqn:Hs.
  - destruct (accounts_of ix !! 2%nat) as [meta|]; [|done]. intros (? & Hk%throw_if_Ok & _)%bind_Ok_inv.
    apply negb_false_iff, bool_decide_eq_true in Hk as <-. done.
  - intros (? & _ & (? & _ & H)%bind_Ok_inv)%bind_Ok_inv. destruct (is_infrastructure ix); [done|].
    by apply bind_Ok_inv in H as (? & _ & (? & _ & ?)%bind_Ok_inv).
Qed.

Lemma shared_infrastructure ix :
  scan_instruction_shared policy session ix = Ok Infrastructure → is_infrastructure ix = true.
Proof.
  unfold scan_instruction_shared. destruct (is_sigil _ ix).
  - destruct (accounts_of ix !! 2%nat); [|done]. by intros (? & _ & ?)%bind_Ok_inv.
  - intros (? & _ & (? & _ & H)%bind_Ok_inv)%bind_Ok_inv. destruct (is_infrastructure ix); [done|].
    by apply bind_Ok_inv in H as (? & _ & (? & _ & ?)%bind_Ok_inv).
Qed.

Lemma shared_passed ix u :
  scan_instruction_shared policy session ix = Ok PassedSharedChecks → ix_programAddress ix = target →
  enforce_destination_allowlist ledger toAddress (accounts_of ix) remaining vault policy now = Ok u → admitted ix.
Proof.
  unfold scan_instruction_shared. destruct (is_sigil _ ix).
  { destruct (accounts_of ix !! 2%nat); [|done]. by intros (? & _ & ?)%bind_Ok_inv. }
  intros ([] & H1 & ([] & H2 & H)%bind_Ok_inv)%bind_Ok_inv Ht Hd.
  destruct (is_infrastructure ix) eqn:Hi; [done|].
  apply bind_Ok_inv in H as (? & Ha%throw_if_Ok & (? & Hp%throw_if_Ok & _)%bind_Ok_inv). destruct u.
  split; try done; [by apply negb_false_iff|by apply bool_decide_eq_false in Ha|by apply opcodes_admitted].
Qed.

Lemma scan_counts index n count last after k b :
  spending_scan ledger toAddress policy session target vault remaining now index n count last after = Ok (k, b) →
  (count ≤ 255)%nat → (count ≤ k)%nat.
Proof.
  revert index n count last; induction after as [|ix after IH]; intros index n count last;
    cbn [spending_scan]; [by intros [= <- _]|].
  intros (? & _ & (action & _ & H)%bind_Ok_inv)%bind_Ok_inv Hc. destruct action.
  - by apply bind_Ok_inv in H as (? & _ & [= <- _]).
  - by apply IH in H.
  - apply bind_Ok_inv in H as (? & _ & (? & _ & H)%bind_Ok_inv). apply IH in H; lia.
Qed.

(** After the one instruction of the protocol comes the end, at once. *)
Lemma scan_after_one index n d after :
  spending_scan ledger toAddress policy session target vault remaining now index n 1 (Some d) after = Ok (1%nat, true) →
  (d < index)%nat → ∃ F post, after = F :: post ∧ closes F ∧ index = S d.
Proof.
  revert index n; induction after as [|ix after IH]; intros index n; cbn [spending_scan]; [done|].
  intros (? & _ & (action & Ha & H)%bind_Ok_inv)%bind_Ok_inv Hd. destruct action.
  - apply bind_Ok_inv in H as (? & Hi%throw_if_Ok & _). apply negb_false_iff, bool_decide_eq_true in Hi.
    exists ix, after. split_and!; [done|by apply shared_finalize|done].
  - apply IH in H as (? & ? & _ & _ & ?); lia.
  - apply bind_Ok_inv in H as (? & _ & (? & _ & H)%bind_Ok_inv). apply scan_counts in H; lia.
Qed.

Lemma scan_finds_one index n after :
  spending_scan ledger toAddress policy session target vault remaining now index n 0 None after = Ok (1%nat, true) →
  ∃ mid D F post, after = mid ++ D :: F :: post ∧ Forall (λ ix, is_infrastructure ix = true) mid ∧
    admitted D ∧ closes F.
Proof.
  revert index n; induction after as [|ix after IH]; intros index n; cbn [spending_scan]; [done|].
  intros (? & _ & (action & Ha & H)%bind_Ok_inv)%bind_Ok_inv. destruct action.
  - done.
  - apply IH in H as (mid & D & F & post & -> & Hm & HD & HF). exists (ix :: mid), D, F, post.
    split_and!; [done|constructor; [by apply shared_infrastructure|done]|done..].
  - apply bind_Ok_inv in H as (? & Ht%throw_if_Ok & (u & Hd & H)%bind_Ok_inv).
    apply negb_false_iff, bool_decide_eq_true in Ht. apply scan_after_one in H as (F & post & -> & HF & _); [|lia].
    exists [], ix, F, post. split_and!; [done|done|by eapply shared_passed|done].
Qed.
End Scanned.

(** ** An accepted transaction *)

Lemma destinations_resolve ledger toAddress remaining vault policy now metas u :
  enforce_destination_allowlist ledger toAddress metas remaining vault policy now = Ok u →
  (length metas ≤ 64 ∧ writable_count metas ≤ 24)%nat ∧
  ∀ meta, meta ∈ metas → is_writable (acc_role meta) = true → acc_address meta ≠ vault →
    acc_address meta ∈ remaining ∧
    check_destination ledger toAddress remaining vault policy now (acc_address meta) = Ok tt.
Proof.
  unfold enforce_destination_allowlist, MAX_DESTINATION_CHECK_TOTAL_METAS, MAX_DESTINATION_WRITABLE_METAS.
  intros (? & H1%throw_if_Ok & (? & H2%throw_if_Ok & H)%bind_Ok_inv)%bind_Ok_inv.
  apply bool_decide_eq_false in H1, H2. split; [lia|]. clear H1 H2.
  induction metas as [|meta metas IH]; [by intros ? ?%elem_of_nil|]. cbn [check_destinations] in H.
  apply bind_Ok_inv in H as ([] & Hm & H). intros m [->|Hin]%elem_of_cons Hw Hv; [|by apply IH].
  rewrite Hw, bool_decide_false in Hm by done. cbn in Hm. split; [|done].
  unfold check_destination, resolve in Hm. by case_bool_decide.
Qed.

Lemma infrastructure_after (post : list Ix) tx j ix (pre : list Ix) :
  tx = pre ++ ix :: post → length pre = j → (length tx ≤ MAX_SYSVAR_SCAN_ITERATIONS)%nat →
  post_scan tx j = Ok tt → Forall (λ ix, is_infrastructure ix = true) post.
Proof.
  intros -> <- Hlen. unfold post_scan. intros H%throw_if_Ok. apply negb_false_iff in H.
  rewrite drop_app_ge in H by lia. replace (S (length pre) - length pre)%nat with 1%nat in H by lia.
  cbn [drop] in H. rewrite drop_0 in H. rewrite length_app in Hlen. cbn in Hlen.
  rewrite take_ge in H by (unfold MAX_SYSVAR_SCAN_ITERATIONS in *; lia).
  apply Forall_forall. intros x Hx%list_elem_of_In. by eapply forallb_forall in H.
Qed.

(** C7: A transaction the program lets through is a sandwich and nothing else.
    When a spending authorisation accepts the transaction around it, of at most
    64 instructions, and every finalisation in it accepts what follows, the
    transaction is: compute-budget and system instructions, the authorisation,
    more of them, exactly one instruction of another program, and right after it
    the finalisation of this session, then only compute-budget and system
    instructions again.  The one instruction is of the declared protocol, which
    the owner allows and which is not one of those known to settle later; if the
    protocol is a token program, the instruction is none of the refused
    approvals, transfers, authority changes, burns, closings and extension
    operations; every account it can write to, other than the vault, was put
    before the program; and unless it is the program's own, it writes to none of
    this vault's protected addresses -- the vault, its policy, tracker, overlay,
    session, pending changes, assertions and audit logs -- except to one that the
    program was shown and does not own. *)
Theorem accepted_transactions_are_sandwiches ledger toAddress encode derive c agents policy now tx current V :
  cl_spending c = true → (length tx ≤ MAX_SYSVAR_SCAN_ITERATIONS)%nat → tx !! current = Some V →
  scan_transaction ledger toAddress encode derive c agents policy now tx current = Ok tt →
  (∀ j ix, tx !! j = Some ix → is_sigil FINALIZE_SESSION_DISCRIMINATOR ix = true → post_scan tx j = Ok tt) →
  ∃ pre mid D F post,
    tx = pre ++ V :: mid ++ D :: F :: post ∧ length pre = current ∧
    Forall (λ ix, is_infrastructure ix = true) (pre ++ mid ++ post) ∧
    admitted ledger toAddress policy (cl_target c) (cl_vault c) (cl_remaining c) now D ∧
    closes (cl_session c) F ∧
    ∀ meta, meta ∈ accounts_of D → is_writable (acc_role meta) = true →
      (acc_address meta ≠ cl_vault c → acc_address meta ∈ cl_remaining c) ∧
      (ix_programAddress D ≠ SIGIL_PROGRAM_ADDRESS →
       acc_address meta ∈ build_ta11_protected_set encode derive (cl_vault c) (cl_policyKey c) (cl_tracker c)
                            (cl_overlay c) (cl_session c) agents →
       sigil_owned ledger (cl_remaining c) (acc_address meta) = false).
Proof.
  intros Hs Hlen HV H Hpost. unfold scan_transaction in H. rewrite Hs in H.
  apply bind_Ok_inv in H as (? & Hpre%pre_scan_Ok & (? & _ & (? & H11 & H)%bind_Ok_inv)%bind_Ok_inv).
  apply bind_Ok_inv in H as ([count found] & Hscan & (? & Hc%throw_if_Ok & Hf%throw_if_Ok)%bind_Ok_inv).
  apply negb_false_iff, bool_decide_eq_true in Hc as ->. apply negb_false_iff in Hf as ->.
  apply scan_finds_one in Hscan as (mid & D & F & post & Hdrop & Hmid & HD & HF).
  pose proof (lookup_lt_Some _ _ _ HV) as Hcur.
  assert (tx = take current tx ++ V :: mid ++ D :: F :: post) as Htx
    by (rewrite <- Hdrop; symmetry; by apply take_drop_middle).
  assert (length (take current tx) = current) as Hl by (rewrite length_take; lia).
  revert Htx Hl Hpre. clear Hdrop HV Hcur. generalize (take current tx) as pre. intros pre -> <- Hpre.
  assert (pre ++ V :: mid ++ D :: F :: post = (pre ++ V :: mid ++ [D]) ++ F :: post) as Hsplit
    by (rewrite <- !app_assoc; cbn; by rewrite <- app_assoc).
  exists pre, mid, D, F, post. split_and!; [done|done| |done|done|].
  - rewrite !Forall_app. split_and!; [done|done|].
    eapply (infrastructure_after post _ _ F); [exact Hsplit|reflexivity|done|].
    apply (Hpost _ F); [|apply HF]. rewrite Hsplit. by apply list_lookup_middle.
  - intros meta Hin Hw. split.
    { intros Hne. eapply destinations_resolve; [apply HD|done..]. }
    intros Hforeign Hprot. set (j := (length pre + 1 + length mid)%nat).
    assert ((pre ++ V :: mid ++ D :: F :: post) !! j = Some D) as HDj.
    { rewrite lookup_app_r by lia. replace (j - length pre)%nat with (S (length mid)) by lia.
      rewrite lookup_cons, lookup_app_r, Nat.sub_diag by lia. done. }
    pose proof (lookup_lt_Some _ _ _ HDj) as Hj.
    pose proof (sibling_scan_Ok _ _ _ _ _ _ H11 j D ltac:(lia) ltac:(lia) HDj) as Hn.
    unfold no_protected_writes in Hn. rewrite bool_decide_false in Hn by done. apply throw_if_Ok in Hn.
    destruct (sigil_owned ledger (cl_remaining c) (acc_address meta)) eqn:Ho; [|done]. exfalso.
    eapply not_true_iff_false; [exact Hn|]. apply existsb_exists. exists meta.
    split; [by apply list_elem_of_In|]. rewrite Hw, Ho, bool_decide_true by done. done.
Qed.

(** ** A sealed transaction in front of the program *)

(** The sysvar shows the flags of the message: an account is writable in every
    instruction when one instruction writes to it, or when it pays the fee. *)
Definition written_in (ixs : list Ix) (a : string) : bool :=
  existsb (λ ix, existsb (λ m, is_writable (acc_role m) && bool_decide (acc_address m = a)) (accounts_of ix)) ixs.

Definition shown_meta (payer : string) (ixs : list Ix) (m : AccountMeta) : AccountMeta := {|
  acc_address := acc_address m;
  acc_role := RoleNumber (if bool_decide (acc_address m = payer) || written_in ixs (acc_address m) then 1 else 0) |}.

Definition shown_ix (payer : string) (ixs : list Ix) (ix : Ix) : Ix := {|
  ix_programAddress := ix_programAddress ix;
  ix_accounts := Some (map (shown_meta payer ixs) (accounts_of ix));
  ix_data := ix_data ix |}.

Definition shown (payer : string) (ixs : list Ix) : list Ix := map (shown_ix payer ixs) ixs.

Lemma shown_writable payer ixs m :
  is_writable (acc_role (shown_meta payer ixs m)) =
  bool_decide (acc_address m = payer) || written_in ixs (acc_address m).
Proof. unfold is_writable, shown_meta. cbn [acc_role]. by destruct (bool_decide _ || _). Qed.

Lemma written_in_app xs ys a : written_in (xs ++ ys) a = written_in xs a || written_in ys a.
Proof. unfold written_in. by rewrite existsb_app. Qed.

Lemma written_noted payer ixs a :
  written_in ixs a = true → a ∈ writable_addresses payer ixs.
Proof.
  unfold written_in. intros (ix & Hix & (m & Hm & [Hw Ha]%andb_true_iff)%existsb_exists)%existsb_exists.
  apply bool_decide_eq_true in Ha as <-.
  eapply writable_addresses_elem; [by apply list_elem_of_In|by apply list_elem_of_In|by left].
Qed.

(** The number of accounts the two instructions name; what follows are the
    remaining accounts. *)
Definition VALIDATE_ACCOUNTS : nat := 13.
Definition FINALIZE_ACCOUNTS : nat := 18.

Definition remaining_after (n : nat) (ix : Ix) : list string := acc_address <$> drop n (accounts_of ix).

Lemma remaining_with_accounts n base extra :
  length (accounts_of base) = n → remaining_after n (with_accounts base extra) = extra.
Proof.
  intros <-. unfold remaining_after, with_accounts, accounts_of at 1. cbn. rewrite drop_app_length.
  rewrite <- list_fmap_compose. cbn. apply list_fmap_id.
Qed.

(** What the generated builders give: compute-budget instructions without
    accounts, and the two wrappers with their accounts, the session third in the
    second. *)
Record lawful_builders (w : World) (params : SealParams) (session : string) : Prop := {
  lb_limit n : ix_programAddress (w_cuLimitIx w n) = COMPUTE_BUDGET_PROGRAM_ADDRESS ∧ accounts_of (w_cuLimitIx w n) = [];
  lb_price n : ix_programAddress (w_cuPriceIx w n) = COMPUTE_BUDGET_PROGRAM_ADDRESS ∧ accounts_of (w_cuPriceIx w n) = [];
  lb_validate va : length (accounts_of (w_validateIx w params va)) = VALIDATE_ACCOUNTS;
  lb_finalize fz : closes session (w_finalizeIx w params fz) ∧
                   length (accounts_of (w_finalizeIx w params fz)) = FINALIZE_ACCOUNTS;
}.

(** The parts of a sealed transaction, with the list of accounts the wrappers
    were given on top of their own. *)
Lemma seal_split w params r state target :
  seal w params = Ok r → preflight_seal w params = Ok (state, target) →
  ∃ m va fz mints extra,
    let D := replaceAgentAtas (defiInstructions params) m in
    let written := writable_addresses (sp_agent params) D in
    sr_instructions r = budget_prefix w params ++
      [with_accounts (w_validateIx w params va) (written ++ mints)] ++ D ++
      [with_accounts (w_finalizeIx w params fz) (written ++ extra)].
Proof.
  unfold seal. intros H Hpre. rewrite Hpre in H. cbn [mbind result_bind] in H.
  apply bind_Ok_inv in H as (swap & _ & (m & _ & (mints & _ & (scalar & _ & H)%bind_Ok_inv)%bind_Ok_inv)%bind_Ok_inv).
  do 2 (apply bind_Ok_inv in H as (? & _ & H)). destruct (measureTransactionSize _) as [len ok].
  do 3 (apply bind_Ok_inv in H as (? & _ & H)). injection H as <-.
  eexists m, _, _, _, _. cbn zeta. cbn [sr_instructions]. unfold composeSigilTransaction, budget_prefix.
  rewrite estimate_rewritten, <- app_assoc. reflexivity.
Qed.

Lemma bind_step {E A B} (m : result E A) (k : A → result E B) a b : m = Ok a → k a = b → m ≫= k = b.
Proof. by intros -> <-. Qed.

Lemma scan_transaction_passes ledger toAddress encode derive c agents policy now tx current :
  cl_spending c = true → pre_scan 0 (take current tx) = Ok tt →
  (∀ j ix, j ≠ current → tx !! j = Some ix → same_session (cl_vault c) (cl_agent c) (cl_mint c) ix = Ok tt) →
  (∀ j ix, j ≠ current → tx !! j = Some ix →
     no_protected_writes ledger (build_ta11_protected_set encode derive (cl_vault c) (cl_policyKey c) (cl_tracker c)
       (cl_overlay c) (cl_session c) agents) (cl_remaining c) ix = Ok tt) →
  spending_scan ledger toAddress policy (cl_session c) (cl_target c) (cl_vault c) (cl_remaining c) now
    (S current) 0 0 None (drop (S current) tx) = Ok (1%nat, true) →
  scan_transaction ledger toAddress encode derive c agents policy now tx current = Ok tt.
Proof.
  intros Hs Hpre H10 H11 Hscan. unfold scan_transaction.
  eapply bind_step; [exact Hpre|]. eapply bind_step; [by apply sibling_scan_passes|].
  eapply bind_step; [by apply sibling_scan_passes|]. rewrite Hs.
  eapply bind_step; [exact Hscan|]. done.
Qed.

Section Sealed.
Context (ledger : string → option LedgerAccount) (toAddress : list Z → string) (encode : string → list Z).
Context (derive : string → list (list Z) → string) (now : Z).
Context (w : World) (params : SealParams) (r : SealResult) (state : ResolvedVaultState) (target : string).
(** The other accounts of the session's instructions, and the three
    instructions themselves. *)
Context (policyKey tracker overlay session : string) (V d F : Ix).

Definition sealed_call : Call := {|
  cl_vault := sp_vault params; cl_agent := sp_agent params; cl_mint := sp_tokenMint params;
  cl_policyKey := policyKey; cl_tracker := tracker; cl_overlay := overlay; cl_session := session;
  cl_target := target; cl_spending := spending params; cl_remaining := remaining_after VALIDATE_ACCOUNTS V |}.

Definition protected_accounts : list string :=
  build_ta11_protected_set encode derive (sp_vault params) policyKey tracker overlay session
    (av_agents (rs_vault state)).

(** A plain token account, of a wallet that is not in its waiting period, or no
    token account at all. *)
Definition plain_destination (a : string) : Prop :=
  let info := account_info ledger a in
  la_owner info ≠ TOKEN_2022_PROGRAM_ADDRESS ∧
  (la_owner info = TOKEN_PROGRAM_ADDRESS → (72 ≤ length (la_data info))%nat ∧
     is_destination_graylisted (rs_policy state) (token_owner toAddress (la_data info)) now = false).

(** What [seal] leaves to the program. *)
Record left_to_the_program : Prop := {
  lp_bundle : sr_instructions r = budget_prefix w params ++ [V; d; F];
  lp_target : ix_programAddress d = target;
  lp_foreign : target ≠ SIGIL_PROGRAM_ADDRESS;
  lp_mode : pol_protocolMode (rs_policy state) = PROTOCOL_MODE_ALLOWLIST;
  lp_async : target ∉ KNOWN_ASYNC_FULFILLMENT_PROGRAMS;
  lp_t22 : ix_programAddress d = TOKEN_2022_PROGRAM_ADDRESS →
    ∀ op, head (data_of d) = Some op → op ∉ [27; 42; 35; 36; 38; 45; 46; 255];
  lp_metas : (length (accounts_of d) ≤ 64)%nat;
  lp_writable : (writable_count (map (shown_meta (sp_agent params) (sr_instructions r)) (accounts_of d)) ≤ 24)%nat;
  lp_protected : ∀ m, m ∈ accounts_of d → acc_address m ∉ protected_accounts;
  lp_wrapped : ∀ m, m ∈ accounts_of d → written_in [V; F] (acc_address m) = true →
    acc_address m ∈ writable_addresses (sp_agent params) [d];
  lp_destinations : ∀ a, a ∈ writable_addresses (sp_agent params) [d] → plain_destination a;
}.

Context (Hbuild : lawful_builders w params session) (Hleft : left_to_the_program).
Context (Hseal : seal w params = Ok r) (Hpre : preflight_seal w params = Ok (state, target)).

Let tx : list Ix := shown (sp_agent params) (sr_instructions r).
Let show : Ix → Ix := shown_ix (sp_agent params) (sr_instructions r).

Lemma sealed_pieces :
  ∃ va fz mints extra,
    V = with_accounts (w_validateIx w params va) (writable_addresses (sp_agent params) [d] ++ mints) ∧
    F = with_accounts (w_finalizeIx w params fz) (writable_addresses (sp_agent params) [d] ++ extra) ∧
    spl_blocked d = false ∧ is_infrastructure d = false.
Proof.
  destruct (seal_split _ _ _ _ _ Hseal Hpre) as (m & va & fz & mints & extra & Hixs). cbn zeta in Hixs.
  rewrite (lp_bundle Hleft) in Hixs. apply app_inv_head in Hixs. cbn in Hixs. injection Hixs as HV Hrest.
  change [d; F] with ([d] ++ [F]) in Hrest. apply app_inj_tail in Hrest as [HD HF].
  rewrite <- HD in HV, HF. exists va, fz, mints, extra. split; [done|split; [done|]].
  pose proof (sc_no_token_ops _ _ _ _ (preflight_seal_Ok _ _ _ _ Hpre)) as Hops.
  rewrite replaceAgentAtas_eq in HD. destruct (defiInstructions params) as [|d0 [|]] eqn:Hd0; [done| |done].
  injection HD as ->. split; [by apply Forall_single in Hops|].
  assert (d0 ∈ defiInstructions params) as Hin by (rewrite Hd0; by left).
  apply list_elem_of_filter in Hin as [[Hcb Hsys] _]. unfold is_infrastructure. cbn.
  by rewrite !bool_decide_false by done.
Qed.

Lemma shown_tx : tx = map show (budget_prefix w params) ++ [show V; show d; show F].
Proof. unfold tx, shown. rewrite (lp_bundle Hleft) at 2. by rewrite map_app. Qed.

Lemma accounts_show ix :
  accounts_of (show ix) = map (shown_meta (sp_agent params) (sr_instructions r)) (accounts_of ix).
Proof. done. Qed.

Lemma prefix_plain ix :
  ix ∈ Seal.budget_prefix w params →
  ix_programAddress ix = COMPUTE_BUDGET_PROGRAM_ADDRESS ∧ accounts_of ix = [].
Proof.
  unfold Seal.budget_prefix. intros [->%list_elem_of_singleton|Hin]%elem_of_app; [apply Hbuild|].
  destruct (sp_priorityFeeMicroLamports params) as [fee|]; [|by apply elem_of_nil in Hin].
  destruct (0 <? fee); [|by apply elem_of_nil in Hin].
  apply list_elem_of_singleton in Hin as ->. apply Hbuild.
Qed.

Lemma prefix_infrastructure : Forall (λ ix, is_infrastructure ix = true) (map show (Seal.budget_prefix w params)).
Proof.
  apply Forall_fmap, Forall_forall. intros ix [Hp _]%prefix_plain. unfold is_infrastructure. cbn.
  by rewrite Hp, bool_decide_true.
Qed.

(** Every account the message lets [d] write to was noted by [seal]. *)
Lemma shown_noted m :
  m ∈ accounts_of (show d) → is_writable (acc_role m) = true →
  acc_address m ∈ writable_addresses (sp_agent params) [d].
Proof.
  intros (m0 & -> & Hm)%list_elem_of_fmap Hw. rewrite shown_writable in Hw. cbn [shown_meta acc_address].
  apply orb_true_iff in Hw as [Hp%bool_decide_eq_true|Hw].
  { eapply writable_addresses_elem; [by left|exact Hm|by right]. }
  rewrite (lp_bundle Hleft), written_in_app in Hw. apply orb_true_iff in Hw as [Hw|Hw].
  - exfalso. unfold written_in in Hw. apply existsb_exists in Hw as (ix & Hix%list_elem_of_In & Hw).
    apply prefix_plain in Hix as [_ Hnil]. by rewrite Hnil in Hw.
  - change [V; d; F] with ([V] ++ [d] ++ [F]) in Hw. rewrite !written_in_app in Hw.
    destruct (written_in [d] (acc_address m0)) eqn:Hd; [by apply written_noted|].
    apply (lp_wrapped Hleft); [done|]. change [V; F] with ([V] ++ [F]). by rewrite written_in_app.
Qed.

Lemma remaining_V a : a ∈ writable_addresses (sp_agent params) [d] → a ∈ remaining_after VALIDATE_ACCOUNTS V.
Proof.
  intros Ha. destruct sealed_pieces as (va & fz & mints & extra & -> & _).
  rewrite remaining_with_accounts by apply Hbuild. apply elem_of_app. by left.
Qed.

Lemma remaining_F a : a ∈ writable_addresses (sp_agent params) [d] → a ∈ remaining_after FINALIZE_ACCOUNTS F.
Proof.
  intros Ha. destruct sealed_pieces as (va & fz & mints & extra & _ & -> & _).
  rewrite remaining_with_accounts by apply Hbuild. apply elem_of_app. by left.
Qed.

Lemma destination_passes a :
  a ∈ writable_addresses (sp_agent params) [d] →
  check_destination ledger toAddress (remaining_after VALIDATE_ACCOUNTS V) (sp_vault params) (rs_policy state) now a = Ok tt.
Proof.
  intros Ha. unfold check_destination, resolve. rewrite bool_decide_true by by apply remaining_V.
  destruct (lp_destinations Hleft a Ha) as [Ht22 Hplain]. unfold is_token_program.
  rewrite (bool_decide_false (la_owner _ = TOKEN_2022_PROGRAM_ADDRESS)) by done. rewrite orb_false_r.
  case_bool_decide as Ht; [|done]. destruct (Hplain Ht) as [Hlen Hgray]. cbn [negb].
  rewrite (bool_decide_false (_ < 72)%nat) by lia. cbn [throw_if mbind result_bind].
  case_bool_decide; [done|]. destruct (is_destination_allowed _ _); [|done]. cbn [negb]. by rewrite Hgray.
Qed.

Lemma destinations_pass :
  enforce_destination_allowlist ledger toAddress (accounts_of (show d)) (remaining_after VALIDATE_ACCOUNTS V)
    (sp_vault params) (rs_policy state) now = Ok tt.
Proof.
  unfold enforce_destination_allowlist, MAX_DESTINATION_CHECK_TOTAL_METAS, MAX_DESTINATION_WRITABLE_METAS.
  pose proof (lp_metas Hleft). pose proof (lp_writable Hleft).
  rewrite (bool_decide_false (64 < _)%nat) by (rewrite accounts_show, length_map; lia).
  rewrite (bool_decide_false (24 < _)%nat) by (rewrite accounts_show; lia). cbn [throw_if mbind result_bind].
  assert (∀ m, m ∈ accounts_of (show d) → is_writable (acc_role m) = true →
            acc_address m ∈ writable_addresses (sp_agent params) [d]) as Hnoted by exact shown_noted.
  revert Hnoted. generalize (accounts_of (show d)) as ms. intros ms.
  induction ms as [|m ms IH]; intros Hnoted; cbn [check_destinations]; [done|].
  destruct (is_writable (acc_role m)) eqn:Hw; cbn [negb orb].
  - case_bool_decide; [|rewrite destination_passes by (apply Hnoted; [by left|done])];
      apply IH; intros x Hx; apply Hnoted; by right.
  - apply IH. intros x Hx. apply Hnoted. by right.
Qed.

Lemma completeness_passes :
  enforce_finalize_completeness (accounts_of (show d)) (remaining_after FINALIZE_ACCOUNTS F) (sp_vault params) = Ok tt.
Proof.
  unfold enforce_finalize_completeness, MAX_DESTINATION_CHECK_TOTAL_METAS, MAX_DESTINATION_WRITABLE_METAS.
  pose proof (lp_metas Hleft). pose proof (lp_writable Hleft).
  rewrite (bool_decide_false (64 < _)%nat) by (rewrite accounts_show, length_map; lia).
  rewrite (bool_decide_false (24 < _)%nat) by (rewrite accounts_show; lia). cbn [throw_if mbind result_bind].
  destruct (existsb _ _) eqn:He; [|done]. exfalso.
  apply existsb_exists in He as (m & Hm%list_elem_of_In & [[Hw _]%andb_true_iff Hr]%andb_true_iff).
  apply negb_true_iff, bool_decide_eq_false in Hr. by apply Hr, remaining_F, shown_noted.
Qed.

Lemma is_sigil_show disc ix : is_sigil disc (show ix) = is_sigil disc ix.
Proof. done. Qed.

Lemma d_passes : scan_instruction_shared (rs_policy state) session (show d) = Ok PassedSharedChecks.
Proof.
  pose proof (lp_target Hleft) as Ht. pose proof (lp_foreign Hleft) as Hf.
  destruct sealed_pieces as (_ & _ & _ & _ & _ & _ & Hops & Hinf).
  pose proof (preflight_seal_Ok _ _ _ _ Hpre) as Hck. unfold scan_instruction_shared.
  rewrite is_sigil_show. unfold is_sigil. rewrite bool_decide_false by (rewrite Ht; done). cbn [andb].
  assert (∀ op, head (data_of d) = Some op → is_token_program (ix_programAddress d) = true →
            spl_refusal op = None ∧ (ix_programAddress d = TOKEN_2022_PROGRAM_ADDRESS → t22_refusal op = None)) as Hop.
  { intros op Hh Hprog. pose proof (λ Ht22, lp_t22 Hleft Ht22 op Hh) as Hno. unfold spl_blocked in Hops.
    unfold data_of in Hh. destruct (ix_data d) as [[|op' rest]|]; [done| |done]. injection Hh as <-.
    unfold is_token_program in Hprog. rewrite Hprog in Hops. cbn [andb] in Hops.
    unfold spl_refusal, t22_refusal.
    split; [|intros Ht22; specialize (Hno Ht22); rewrite !elem_of_cons, elem_of_nil in Hno; rewrite Ht22, (bool_decide_true (TOKEN_2022_PROGRAM_ADDRESS = _)) in Hops by done; cbn [andb] in Hops];
    repeat match goal with |- context [bool_decide (?x ∈ ?l)] =>
      rewrite (bool_decide_false (x ∈ l)) by (rewrite ?elem_of_cons, elem_of_nil; lia) end; [done|].
    repeat match goal with |- context [?x =? ?n] => rewrite (proj2 (Z.eqb_neq x n)) by lia end. done. }
  assert (refuse_opcode TOKEN_PROGRAM_ADDRESS spl_refusal (show d) = Ok tt) as ->.
  { unfold refuse_opcode. cbn. case_bool_decide as Hp; [|done].
    destruct (head (data_of d)) as [op|] eqn:Hh; [|by unfold data_of in *; cbn; rewrite Hh].
    destruct (Hop op eq_refl) as [Hn _]; [by unfold is_token_program; rewrite bool_decide_true|].
    unfold data_of in *. cbn. rewrite Hh. cbn. by rewrite Hn. }
  assert (refuse_opcode TOKEN_2022_PROGRAM_ADDRESS t22_refusal (show d) = Ok tt) as ->.
  { unfold refuse_opcode. cbn. case_bool_decide as Hp; [|done].
    destruct (head (data_of d)) as [op|] eqn:Hh; [|by unfold data_of in *; cbn; rewrite Hh].
    destruct (Hop op eq_refl) as [_ Hn];
      [by unfold is_token_program; rewrite (bool_decide_true (_ = TOKEN_2022_PROGRAM_ADDRESS)), orb_true_r|].
    unfold data_of in *. cbn. rewrite Hh. cbn. by rewrite (Hn Hp). }
  cbn [mbind result_bind]. change (is_infrastructure (show d)) with (is_infrastructure d). rewrite Hinf.
  change (ix_programAddress (show d)) with (ix_programAddress d). rewrite Ht.
  rewrite bool_decide_false by apply (lp_async Hleft). cbn [throw_if mbind result_bind].
  unfold is_protocol_allowed. rewrite (lp_mode Hleft). pose proof (sc_protocol _ _ _ _ Hck) as Hal.
  unfold isProtocolAllowed in Hal. rewrite (lp_mode Hleft) in Hal. cbn in Hal. cbn. by rewrite Hal.
Qed.

Lemma F_closes : scan_instruction_shared (rs_policy state) session (show F) = Ok FoundFinalize.
Proof.
  destruct sealed_pieces as (va & fz & mints & extra & _ & HF & _).
  destruct (lb_finalize _ _ _ Hbuild fz) as [[Hs Hacc] _]. unfold scan_instruction_shared.
  rewrite is_sigil_show, HF. change (is_sigil ?d (with_accounts ?b ?e)) with (is_sigil d b). rewrite Hs.
  rewrite <- HF, accounts_show, HF, list_lookup_fmap. unfold with_accounts, accounts_of at 1. cbn [ix_accounts default id]. unfold id.
  destruct (accounts_of (w_finalizeIx w params fz) !! 2%nat) as [m|] eqn:Hm; [|done].
  rewrite (lookup_app_l_Some _ _ _ _ Hm). cbn. cbn in Hacc. injection Hacc as ->. by rewrite bool_decide_true.
Qed.

Lemma F_is_finalize : is_sigil FINALIZE_SESSION_DISCRIMINATOR F = true.
Proof.
  destruct sealed_pieces as (va & fz & mints & extra & _ & -> & _).
  by destruct (lb_finalize _ _ _ Hbuild fz) as [[Hs _] _].
Qed.

(** The instructions beside the authorisation. *)
Definition beside (ix : Ix) : Prop :=
  (ix_programAddress ix = COMPUTE_BUDGET_PROGRAM_ADDRESS ∧ accounts_of ix = []) ∨ ix = show d ∨ ix = show F.

Lemma beside_same_session ix :
  beside ix → same_session (sp_vault params) (sp_agent params) (sp_tokenMint params) ix = Ok tt.
Proof.
  unfold same_session. intros Hix.
  assert (is_sigil VALIDATE_AND_AUTHORIZE_DISCRIMINATOR ix = false) as ->; [|done].
  unfold is_sigil. destruct Hix as [[Hp _]|[->| ->]].
  - rewrite Hp. done.
  - change (ix_programAddress (show d)) with (ix_programAddress d). rewrite (lp_target Hleft).
    rewrite bool_decide_false by apply (lp_foreign Hleft). done.
  - pose proof F_is_finalize as Hf. unfold is_sigil in Hf. apply andb_true_iff in Hf as [_ Hf%bool_decide_eq_true].
    change (data_of (show F)) with (data_of F). rewrite Hf, (bool_decide_false (FINALIZE_SESSION_DISCRIMINATOR = _)) by done.
    apply andb_false_r.
Qed.

Lemma beside_protected ix :
  beside ix → no_protected_writes ledger protected_accounts (remaining_after VALIDATE_ACCOUNTS V) ix = Ok tt.
Proof.
  unfold no_protected_writes. intros [[Hp Hnil]|[->| ->]].
  - rewrite Hnil. by case_bool_decide.
  - case_bool_decide; [done|]. destruct (existsb _ _) eqn:He; [|done]. exfalso.
    apply existsb_exists in He as (m & Hm%list_elem_of_In & [[_ Hin%bool_decide_eq_true]%andb_true_iff _]%andb_true_iff).
    rewrite accounts_show in Hm. apply list_elem_of_fmap in Hm as (m0 & -> & Hm).
    by apply (lp_protected Hleft m0).
  - pose proof F_is_finalize as Hf. unfold is_sigil in Hf.
    apply andb_true_iff in Hf as [[Hp _]%andb_true_iff _].
    change (ix_programAddress (show F)) with (ix_programAddress F). by rewrite Hp.
Qed.

Lemma bundle_scanned index :
  spending_scan ledger toAddress (rs_policy state) session target (sp_vault params)
    (remaining_after VALIDATE_ACCOUNTS V) now index 0 0 None [show d; show F] = Ok (1%nat, true).
Proof.
  cbn [spending_scan]. rewrite d_passes, destinations_pass, F_closes. cbn [mbind result_bind].
  change (ix_programAddress (show d)) with (ix_programAddress d). rewrite (lp_target Hleft).
  rewrite !(bool_decide_false (MAX_SYSVAR_SCAN_ITERATIONS ≤ _)%nat) by (unfold MAX_SYSVAR_SCAN_ITERATIONS; lia).
  cbn [throw_if mbind result_bind]. by rewrite !bool_decide_true.
Qed.

(** The transaction as the program sees it passes both scans. *)
Lemma sealed_scans :
  spending params = true →
  scan_transaction ledger toAddress encode derive sealed_call (av_agents (rs_vault state)) (rs_policy state) now tx
    (length (Seal.budget_prefix w params)) = Ok tt ∧
  completeness_from_sysvar tx (length (Seal.budget_prefix w params) + 2) (remaining_after FINALIZE_ACCOUNTS F)
    (sp_vault params) = Ok tt ∧
  post_scan tx (length (Seal.budget_prefix w params) + 2) = Ok tt.
Proof.
  intros Hsp. rewrite shown_tx. set (n := length (Seal.budget_prefix w params)).
  assert (n ≤ 2)%nat as Hn.
  { unfold n, Seal.budget_prefix. destruct (sp_priorityFeeMicroLamports params) as [fee|]; [destruct (0 <? fee)|]; cbn; lia. }
  assert (length (map show (Seal.budget_prefix w params)) = n) as Hl by apply length_map.
  assert (∀ j ix, j ≠ n → (map show (Seal.budget_prefix w params) ++ [show V; show d; show F]) !! j = Some ix →
    beside ix) as Hother.
  { intros j ix Hj. destruct (decide (j < n)%nat) as [Hlt|Hge].
    - rewrite lookup_app_l by lia. intros (ix0 & -> & H0)%list_lookup_fmap_Some. left.
      apply list_elem_of_lookup_2, prefix_plain in H0 as [? Hnil]. rewrite accounts_show, Hnil. done.
    - rewrite lookup_app_r by lia. rewrite Hl. destruct (j - n)%nat as [|[|[|]]] eqn:E; [lia|..]; cbn;
        intros [= <-]; unfold beside; auto. }
  split_and!.
  - apply scan_transaction_passes; [exact Hsp| | | |].
    + rewrite take_app_length' by done.
      apply pre_scan_passes; [unfold MAX_SYSVAR_SCAN_ITERATIONS; lia|apply prefix_infrastructure].
    + intros j ix Hj Hix. exact (beside_same_session _ (Hother _ _ Hj Hix)).
    + intros j ix Hj Hix. exact (beside_protected _ (Hother _ _ Hj Hix)).
    + rewrite drop_app_ge by lia. rewrite Hl, Nat.sub_succ_l, Nat.sub_diag by lia. apply bundle_scanned.
  - unfold completeness_from_sysvar. rewrite Nat.add_comm. cbn [Nat.add].
    rewrite lookup_app_r by lia. rewrite Hl, Nat.sub_succ_l, Nat.sub_diag by lia. cbn. apply completeness_passes.
  - unfold post_scan. rewrite drop_ge by (rewrite length_app, Hl; cbn; lia). done.
Qed.
End Sealed.

(** C10: What [seal] puts together, the program's scans let through.  A sealed
    spend whose bundle is one instruction passes the scans of the authorisation
    and, at the finalisation, the completeness check and the scan of what
    follows, on the transaction as the message shows it, where an account one
    instruction writes to is writable in all.  The conditions are those [seal]
    does not check itself: the instruction is of the declared protocol, under
    an allowlist, not one that settles later, and no operation of the newer
    token program; it has at most 64 accounts, at most 24 of them written, none
    of them the program's; what the wrappers write it writes too; and the
    accounts it writes hold plain tokens of wallets past their waiting period. *)
Theorem sealed_transactions_pass_the_scans ledger toAddress encode derive now w params r state target
    policyKey tracker overlay session V d F :
  seal w params = Ok r → preflight_seal w params = Ok (state, target) → 0 < sp_amount params →
  lawful_builders w params session →
  left_to_the_program ledger toAddress encode derive now w params r state target policyKey tracker overlay session V d F →
  let tx := shown (sp_agent params) (sr_instructions r) in
  let n := length (Seal.budget_prefix w params) in
  scan_transaction ledger toAddress encode derive
    (sealed_call params target policyKey tracker overlay session V) (av_agents (rs_vault state)) (rs_policy state) now
    tx n = Ok tt ∧
  completeness_from_sysvar tx (n + 2) (remaining_after FINALIZE_ACCOUNTS F) (sp_vault params) = Ok tt ∧
  post_scan tx (n + 2) = Ok tt.
Proof.
  intros Hseal Hpre Ha Hb Hl. apply (sealed_scans _ _ _ _ _ _ _ _ _ _ _ _ _ _ _ _ _ Hb Hl Hseal Hpre).
  by apply Z.ltb_lt.
Qed.

(** ** Where the client's copies of the checks differ *)

(** Two foreign instructions between the wrappers, or none, are refused. *)
Lemma scan_refuses_bundle ledger toAddress policy session target vault remaining now index n (D : list Ix) F :
  length D ≠ 1%nat →
  Forall (λ ix, is_infrastructure ix = false ∧ ix_programAddress ix ≠ SIGIL_PROGRAM_ADDRESS) D →
  spending_scan ledger toAddress policy session target vault remaining now index n 0 None (D ++ [F]) ≠ Ok (1%nat, true).
Proof.
  intros Hlen HD H. apply scan_finds_one in H as (mid & D1 & F1 & post & Heq & Hmid & _ & [HF1 _]).
  destruct D as [|d1 [|d2 D]]; [|done|].
  - apply (f_equal length) in Heq. rewrite !length_app in Heq. cbn in Heq. lia.
  - apply Forall_cons in HD as [[Hd1 _] [[_ Hd2] _]%Forall_cons]. destruct mid as [|m mid].
    + injection Heq as -> -> _. unfold is_sigil in HF1. by rewrite bool_decide_false in HF1.
    + injection Heq as -> _. apply Forall_cons in Hmid as [Hm _]. congruence.
Qed.

(** C28: The count of [seal] is not the program's.  The program wants exactly one
    instruction between the wrappers that is not infrastructure, whatever its
    program; [seal] counts the instructions of a fixed list of programs only.  A
    sealed spend of any other number of instructions, none of them the program's
    own, is refused by the program, whatever the accounts on chain. *)
Theorem other_bundles_are_sealed_and_refused ledger toAddress encode derive c agents policy now w params r :
  seal w params = Ok r → cl_spending c = true →
  length (defiInstructions params) ≠ 1%nat →
  Forall (λ ix, ix_programAddress ix ≠ SIGIL_PROGRAM_ADDRESS) (defiInstructions params) →
  is_ok (scan_transaction ledger toAddress encode derive c agents policy now
           (shown (sp_agent params) (sr_instructions r)) (length (Seal.budget_prefix w params))) = false.
Proof.
  intros Hseal Hs Hlen Hown. destruct (is_ok _) eqn:Hok; [exfalso|done].
  destruct (scan_transaction _ _ _ _ _ _ _ _ _ _) as [u|] eqn:H; [clear Hok|done].
  unfold scan_transaction in H. rewrite Hs in H.
  apply bind_Ok_inv in H as (? & _ & (? & _ & (? & _ & H)%bind_Ok_inv)%bind_Ok_inv).
  apply bind_Ok_inv in H as ([count found] & Hscan & (? & Hc%throw_if_Ok & Hf%throw_if_Ok)%bind_Ok_inv).
  apply negb_false_iff, bool_decide_eq_true in Hc as ->. apply negb_false_iff in Hf as ->. revert Hscan.
  destruct (seal_Ok _ _ _ Hseal) as [p]. pose proof (sw_order _ _ _ _ _ _ (parts_sandwich _ _ _ p)) as Hord.
  unfold shown. rewrite Hord at 2. rewrite map_app.
  rewrite drop_app_ge by (rewrite length_map; lia). rewrite length_map, Nat.sub_succ_l, Nat.sub_diag by lia.
  rewrite !map_app. cbn [map app drop]. apply scan_refuses_bundle.
  - rewrite length_map. unfold pt_defi. by rewrite replaceAgentAtas_eq, length_map.
  - unfold pt_defi. rewrite replaceAgentAtas_eq, map_map. apply Forall_fmap, Forall_forall. intros ix Hix. cbn.
    split; [|by eapply Forall_forall in Hown].
    apply list_elem_of_filter in Hix as [[Hcb Hsys] _]. unfold is_infrastructure. cbn.
    by rewrite !bool_decide_false by done.
Qed.

(** And it is stricter where the program is not: without a stablecoin input
    [seal] wants one instruction of its list, so a sale through any other
    protocol is never sealed, even when the owner allows the protocol. *)
Lemma other_protocols_cannot_sell w params :
  0 < sp_amount params → stable_input params = false →
  Forall (λ ix, ix_programAddress ix ∉ RECOGNIZED_DEFI_PROGRAMS) (defiInstructions params) →
  is_ok (seal w params) = false.
Proof.
  intros Ha Hst Hall. destruct (seal w params) as [r|] eqn:H; [|done]. exfalso.
  destruct (seal_Ok _ _ _ H) as [p]. pose proof (sc_count _ _ _ _ (pt_checked _ _ _ p) Ha) as Hc. cbn zeta in Hc.
  rewrite Hst, filter_none in Hc by done. done.
Qed.

(** ** Witnesses *)

Module ScanDemo.
Definition session : string := "session".

(** The wrappers with as many accounts as the program names. *)
Definition wrapper (data : list Z) (accounts : list string) : Ix := {|
  ix_programAddress := SIGIL_PROGRAM_ADDRESS;
  ix_accounts := Some (map (λ a, {| acc_address := a; acc_role := RoleNumber 1 |}) accounts);
  ix_data := Some data |}.

Definition validate : Ix :=
  wrapper VALIDATE_AND_AUTHORIZE_DISCRIMINATOR
    (Demo.agent :: Demo.vault :: "policy" :: "tracker" :: "overlay" :: session :: Demo.vault_ata :: USDC_MINT_DEVNET ::
     replicate 5 "x").
Definition finalize : Ix :=
  wrapper FINALIZE_SESSION_DISCRIMINATOR (Demo.agent :: Demo.vault :: session :: replicate 15 "x").

Definition world : World := {|
  w_hookSkips := false; w_cacheAgeMs := 0; w_resolve := Ok Demo.state; w_plugins := [];
  w_deriveAta := w_deriveAta Demo.world; w_bytesToAddress := λ _, ""; w_getProgramDataAddress := id;
  w_fetch := λ _, None; w_blockhash := Ok tt; w_altVerified := Ok tt; w_accountData := λ _, None;
  w_cuLimitIx := w_cuLimitIx Demo.world; w_cuPriceIx := w_cuPriceIx Demo.world;
  w_validateIx := λ _ _, validate; w_finalizeIx := λ _ _, finalize;
  w_wire := w_wire Demo.world; w_sha256 := w_sha256 Demo.world |}.

Definition run (params : SealParams) : SealResult :=
  match seal world params with Ok r => r | Throw _ => Demo.empty_result end.

Definition ledger (key : string) : option LedgerAccount :=
  if bool_decide (key = Demo.vault_ata)
  then Some {| la_owner := TOKEN_PROGRAM_ADDRESS; la_data := replicate 165 0 |} else None.
Definition toAddress (bytes : list Z) : string := Demo.vault.
Definition encode (s : string) : list Z := seedString s.
Definition derive (program : string) (seeds : list (list Z)) : string := "derived".

Definition at_ (k : nat) (r : SealResult) : Ix := default finalize (sr_instructions r !! k).

(** A second instruction, of a program that is in no list of the client. *)
Definition other_ix : Ix := {|
  ix_programAddress := "whirLbMiicVdio4qvUfM5KAg6Ct8VwpYzGff3uctyCc"; ix_accounts := None; ix_data := Some [1] |}.

Definition two : SealParams := {|
  sp_vault := Demo.vault; sp_agent := Demo.agent; sp_instructions := [Demo.swap_ix; other_ix];
  sp_network := "devnet"; sp_tokenMint := USDC_MINT_DEVNET; sp_amount := 1000000;
  sp_targetProtocol := None; sp_computeUnits := None; sp_priorityFeeMicroLamports := Some 5;
  sp_outputStablecoinAccount := None; sp_outputSwapMint := Some Demo.sol; sp_hasLookupTables := true;
  sp_cachedState := None; sp_maxCacheAgeMs := None; sp_additionalAtaReplacements := [] |}.

Definition call : Call :=
  sealed_call Demo.params JUPITER_PROGRAM "policy" "tracker" "overlay" session (at_ 2 (run Demo.params)).

Lemma builders : lawful_builders world Demo.params session.
Proof. split; intros; (split; reflexivity) || (split; [split; reflexivity|reflexivity]) || reflexivity. Qed.

Lemma written : writable_addresses Demo.agent [at_ 3 (run Demo.params)] = [Demo.agent; Demo.vault_ata].
Proof. vm_compute. reflexivity. Qed.

Lemma left_over :
  left_to_the_program ledger toAddress encode derive 1000 world Demo.params (run Demo.params) Demo.state JUPITER_PROGRAM
    "policy" "tracker" "overlay" session (at_ 2 (run Demo.params)) (at_ 3 (run Demo.params)) (at_ 4 (run Demo.params)).
Proof.
  split.
  - vm_compute. reflexivity.
  - vm_compute. reflexivity.
  - done.
  - done.
  - apply (bool_decide_unpack (JUPITER_PROGRAM ∉ _)). vm_compute. done.
  - vm_compute. intros [=].
  - vm_compute. lia.
  - vm_compute. lia.
  - refine (proj1 (Forall_forall _ _) _). apply (bool_decide_unpack _). vm_compute. done.
  - refine (proj1 (Forall_forall _ _) _). apply (bool_decide_unpack _). vm_compute. done.
  - change (sp_agent Demo.params) with Demo.agent. rewrite written. refine (proj1 (Forall_forall _ _) _).
    constructor; [|constructor; [|constructor]]; unfold plain_destination; vm_compute.
    + split; [done|]. intros [=].
    + split; [done|]. intros _. split; [lia|done].
Qed.

Lemma sealed_one : seal world Demo.params = Ok (run Demo.params).
Proof. vm_compute. reflexivity. Qed.

Lemma sealed_two : seal world two = Ok (run two).
Proof. vm_compute. reflexivity. Qed.
End ScanDemo.

Lemma sealed_transactions_pass_the_scans_witness :
  let tx := shown Demo.agent (sr_instructions (ScanDemo.run Demo.params)) in
  scan_transaction ScanDemo.ledger ScanDemo.toAddress ScanDemo.encode ScanDemo.derive ScanDemo.call
    (av_agents (rs_vault Demo.state)) (rs_policy Demo.state) 1000 tx 2 = Ok tt ∧
  completeness_from_sysvar tx 4 (remaining_after FINALIZE_ACCOUNTS (ScanDemo.at_ 4 (ScanDemo.run Demo.params)))
    Demo.vault = Ok tt ∧
  post_scan tx 4 = Ok tt.
Proof.
  refine (sealed_transactions_pass_the_scans _ _ _ _ _ _ _ _ _ _ _ _ _ _ _ _ _ ScanDemo.sealed_one _ _
            ScanDemo.builders ScanDemo.left_over); [vm_compute; reflexivity|done].
Defined.

Lemma accepted_transactions_are_sandwiches_witness :
  let tx := shown Demo.agent (sr_instructions (ScanDemo.run Demo.params)) in
  ∃ pre mid D F post,
    tx = pre ++ default ScanDemo.finalize (tx !! 2%nat) :: mid ++ D :: F :: post ∧ length pre = 2%nat ∧
    ix_programAddress D = JUPITER_PROGRAM.
Proof.
  destruct (accepted_transactions_are_sandwiches ScanDemo.ledger ScanDemo.toAddress ScanDemo.encode ScanDemo.derive
    ScanDemo.call (av_agents (rs_vault Demo.state)) (rs_policy Demo.state) 1000
    (shown Demo.agent (sr_instructions (ScanDemo.run Demo.params))) 2
    (default ScanDemo.finalize (shown Demo.agent (sr_instructions (ScanDemo.run Demo.params)) !! 2%nat)))
    as (pre & mid & D & F & post & H1 & H2 & _ & HD & _).
  - reflexivity.
  - apply (bool_decide_unpack _). vm_compute. done.
  - vm_compute. reflexivity.
  - vm_compute. reflexivity.
  - intros j ix Hj Hs. destruct (decide (j = 4)%nat) as [->|Hne]; [vm_compute; reflexivity|exfalso].
    do 5 (destruct j as [|j]; [vm_compute in Hj; injection Hj as <-; vm_compute in Hs; try discriminate Hs; try lia|]).
    vm_compute in Hj. discriminate Hj.
  - exists pre, mid, D, F, post. split; [exact H1|split; [exact H2|exact (ad_target _ _ _ _ _ _ _ _ HD)]].
Defined.

Lemma other_bundles_are_sealed_and_refused_witness :
  seal ScanDemo.world ScanDemo.two = Ok (ScanDemo.run ScanDemo.two) ∧
  is_ok (scan_transaction ScanDemo.ledger ScanDemo.toAddress ScanDemo.encode ScanDemo.derive ScanDemo.call
           (av_agents (rs_vault Demo.state)) (rs_policy Demo.state) 1000
           (shown Demo.agent (sr_instructions (ScanDemo.run ScanDemo.two))) 2) = false.
Proof.
  split; [exact ScanDemo.sealed_two|].
  apply (other_bundles_are_sealed_and_refused _ _ _ _ _ _ _ _ ScanDemo.world ScanDemo.two); [exact ScanDemo.sealed_two|..].
  - reflexivity.
  - vm_compute. lia.
  - apply (bool_decide_unpack _). vm_compute. done.
Defined.
