(* ===== verification/PostExecution.v ===== *)
(** * The assertions an owner makes about every session

    An owner can store up to eight assertions about accounts.  The authorisation
    takes a snapshot of what they are about before the protocol's instruction
    runs, and the finalisation checks them against what it left
    ([state/assertions.rs], [state/post_assertions.rs],
    [utils/mint_delta_cap.rs], [utils/post_assertion_helpers.rs], the snapshot
    block of [validate_and_authorize] and [enforce_post_execution_assertions] of
    [finalize_session]).  The assertions are read from the bytes of their
    account.

    The results: the byte-wise comparisons are those of the numbers the bytes
    stand for, and assertions that were checked hold, stated on the accounts
    before and after and not on snapshots.  Which sessions are checked is the
    handler's business: [Session] has the theorem about whole sessions. *)

From S2P Require Import Prelude SdkTypes IntentDigest Seal Accounts VerifiedBuild Sandwich SpendLedger KitCodec ProgramClient.
From S2P Require Import GeneratedTypes.

Local Open Scope Z_scope.

(** ** Comparing bytes *)

Inductive ConstraintOperator : Type := Eq | Ne | Gte | Lte | GteSigned | LteSigned | Bitmask.

Definition operator_of (v : Z) : option ConstraintOperator :=
  match v with
  | 0 => Some Eq | 1 => Some Ne | 2 => Some Gte | 3 => Some Lte
  | 4 => Some GteSigned | 5 => Some LteSigned | 6 => Some Bitmask
  | _ => None
  end.

(** The loop over the positions [n - 1] down to 0; a list ends in [pad]s. *)
Definition byte_at (pad : Z) (l : list Z) (i : nat) : Z := default pad (l !! i).

Fixpoint compare_down (pad_a pad_b : Z) (a b : list Z) (n : nat) : Z :=
  match n with
  | O => 0
  | S i => if byte_at pad_b b i <? byte_at pad_a a i then 1
           else if byte_at pad_a a i <? byte_at pad_b b i then -1
           else compare_down pad_a pad_b a b i
  end.

Definition compare_le_unsigned (a b : list Z) : Z := compare_down 0 0 a b (length a `max` length b).

Definition negative (l : list Z) : bool :=
  match last l with Some b => negb (Z.land b 128 =? 0) | None => false end.

Definition compare_le_signed (a b : list Z) : Z :=
  if negative a && negb (negative b) then -1
  else if negb (negative a) && negative b then 1
  else compare_down (if negative a then 255 else 0) (if negative b then 255 else 0) a b (length a `max` length b).

Definition bitmask_check (actual mask : list Z) : bool :=
  forallb (λ x, Z.land (byte_at 0 actual x.1) x.2 =? x.2) (zip (seq 0 (length mask)) mask).

Definition bytes_match (actual : list Z) (operator : ConstraintOperator) (expected : list Z) : bool :=
  match operator with
  | Eq => bool_decide (actual = expected)
  | Ne => negb (bool_decide (actual = expected))
  | Gte => 0 <=? compare_le_unsigned actual expected
  | Lte => compare_le_unsigned actual expected <=? 0
  | GteSigned => 0 <=? compare_le_signed actual expected
  | LteSigned => compare_le_signed actual expected <=? 0
  | Bitmask => bitmask_check actual expected
  end.

(** ** The account *)

Inductive AssertionMode : Type :=
| Absolute | MaxDecrease | MaxIncrease | NoChange
| MintDeltaCap | AtaAuthorityPin | OutputBalanceFloor | DeclarationConsistency.

Definition mode_of (v : Z) : option AssertionMode :=
  match v with
  | 0 => Some Absolute | 1 => Some MaxDecrease | 2 => Some MaxIncrease | 3 => Some NoChange
  | 4 => Some MintDeltaCap | 5 => Some AtaAuthorityPin | 6 => Some OutputBalanceFloor
  | 7 => Some DeclarationConsistency
  | _ => None
  end.

Record Assertion : Type := {
  as_target : list Z;
  as_offset : nat;
  as_valueLen : Z;
  as_operator : Z;
  as_expected : list Z;
  as_mode : Z;
  as_auxValue : Z;
  as_auxByte : Z;
}.

Definition slice (offset len : nat) (l : list Z) : list Z := take len (drop offset l).

(** 78 bytes of an entry. *)
Definition read_entry (bytes : list Z) : Assertion := {|
  as_target := slice 0 32 bytes;
  as_offset := Z.to_nat (le_value (slice 32 2 bytes));
  as_valueLen := le_value (slice 34 1 bytes);
  as_operator := le_value (slice 35 1 bytes);
  as_expected := slice 36 32 bytes;
  as_mode := le_value (slice 68 1 bytes);
  as_auxValue := le_value (slice 69 8 bytes);
  as_auxByte := le_value (slice 77 1 bytes) |}.

(** The struct behind the discriminator: vault, eight entries, their count. *)
Definition ASSERTIONS_STRUCT_SIZE : nat := 32 + 78 * 8 + 1 + 1 + 6.

Record Assertions : Type := { pa_vault : list Z; pa_entries : list Assertion; pa_count : nat }.

Definition read_assertions (bytes : list Z) : Assertions := {|
  pa_vault := slice 0 32 bytes;
  pa_entries := map (λ i, read_entry (slice (32 + 78 * i) 78 bytes)) (seq 0 8);
  pa_count := Z.to_nat (le_value (slice 656 1 bytes)) |}.

(** An index out of its array ends the transaction. *)
Definition Panic : string := "ProgramFailedToComplete".

Definition checked_slice (len : nat) (l : list Z) : result string (list Z) :=
  if bool_decide (length l < len)%nat then Throw Panic else Ok (take len l).

Section Chain.
Context (toAddress : list Z → string) (encode : string → list Z) (derive : string → list (list Z) → string).
(** The associated token account of an owner and a mint under a token program. *)
Context (associated : string → string → string → string).

Definition assertions_key (vault : string) : string := derived derive [seedString "post_assertions"; encode vault].

(** The checks on the account before it is read. *)
Definition open_assertions (vault : string) (info : LedgerAccount) : result string Assertions :=
  _ ← throw_if (negb (bool_decide (la_owner info = SIGIL_PROGRAM_ADDRESS))) "PostAssertionFailed";
  _ ← throw_if (bool_decide (length (la_data info) < 8 + ASSERTIONS_STRUCT_SIZE)%nat) "PostAssertionFailed";
  _ ← throw_if (negb (bool_decide (take 8 (la_data info) = POST_EXECUTION_ASSERTIONS_DISCRIMINATOR))) "PostAssertionFailed";
  let assertions := read_assertions (drop 8 (la_data info)) in
  _ ← throw_if (negb (bool_decide (pa_vault assertions = encode vault))) "PostAssertionFailed";
  Ok assertions.

(** ** Balances of the vault *)

Definition read_token_amount (info : LedgerAccount) : option Z :=
  if negb (is_token_program (la_owner info)) || bool_decide (length (la_data info) < 72)%nat then None
  else Some (token_amount (la_data info)).
Definition read_token_owner (info : LedgerAccount) : option string :=
  if negb (is_token_program (la_owner info)) || bool_decide (length (la_data info) < 64)%nat then None
  else Some (token_owner toAddress (la_data info)).
Definition read_token_mint (info : LedgerAccount) : option string :=
  if negb (is_token_program (la_owner info)) || bool_decide (length (la_data info) < 32)%nat then None
  else Some (token_mint toAddress (la_data info)).

Definition derive_vault_atas (vault mint : string) : list string :=
  [associated vault mint TOKEN_PROGRAM_ADDRESS; associated vault mint TOKEN_2022_PROGRAM_ADDRESS].

(** What an account adds to the sum: nothing unless it is the vault's and of the
    mint. *)
Definition counted_amount (vault mint : string) (info : LedgerAccount) : Z :=
  if bool_decide (la_data info = []) || negb (is_token_program (la_owner info)) ||
     bool_decide (length (la_data info) < 72)%nat then 0 else
  match read_token_mint info, read_token_owner info, read_token_amount info with
  | Some m, Some o, Some amount => if bool_decide (m = mint) && bool_decide (o = vault) then amount else 0
  | _, _, _ => 0
  end.

Section Ledger.
Context (ledger : string → option LedgerAccount) (remaining : list string).

Definition lookup_account (error key : string) : result string LedgerAccount :=
  match resolve ledger remaining key with Some info => Ok info | None => Throw error end.

Fixpoint sum_atas (vault mint : string) (sum : Z) (keys : list string) : result string Z :=
  match keys with
  | [] => Ok sum
  | key :: rest =>
      info ← lookup_account "MintDeltaCapMisconfigured" key;
      sum' ← SpendLedger.checked_add sum (counted_amount vault mint info);
      sum_atas vault mint sum' rest
  end.

Definition from_option_or {A} (error : string) (o : option A) : result string A :=
  match o with Some a => Ok a | None => Throw error end.

Definition sum_vault_mint_balance (vault mint : string) (scope : Z) (target_account : string) : result string Z :=
  if scope =? 0 then sum_atas vault mint 0 (derive_vault_atas vault mint) else
  if scope =? 1 then
    info ← lookup_account "MintDeltaCapMisconfigured" target_account;
    acct_mint ← from_option_or "MintDeltaCapMisconfigured" (read_token_mint info);
    _ ← throw_if (negb (bool_decide (acct_mint = mint))) "MintDeltaCapMisconfigured";
    acct_owner ← from_option_or "MintDeltaCapMisconfigured" (read_token_owner info);
    _ ← throw_if (negb (bool_decide (acct_owner = vault))) "MintDeltaCapMisconfigured";
    from_option_or "MintDeltaCapMisconfigured" (read_token_amount info)
  else Throw "MintDeltaCapMisconfigured".

(** ** The snapshot of an entry *)

Definition pad32 (l : list Z) : list Z := l ++ replicate (32 - length l) 0.

Definition no_snapshot : list Z * Z := (replicate 32 0, 0).

Definition snapshot_entry (vault : string) (e : Assertion) : result string (list Z * Z) :=
  if as_mode e =? 4 then
    pre_sum ← sum_vault_mint_balance vault (toAddress (as_expected e)) (as_auxByte e) (toAddress (as_target e));
    Ok (pad32 (le_bytes 8 pre_sum), 8)
  else if as_mode e =? 6 then
    target ← lookup_account "PostAssertionFailed" (toAddress (as_target e));
    _ ← throw_if (negb (is_token_program (la_owner target))) "PostAssertionFailed";
    _ ← throw_if (bool_decide (length (la_data target) < 72)%nat) "PostAssertionFailed";
    _ ← throw_if (negb (bool_decide (token_mint toAddress (la_data target) = toAddress (as_expected e)))) "PostAssertionFailed";
    _ ← throw_if (negb (bool_decide (token_owner toAddress (la_data target) = vault))) "MintDeltaCapMisconfigured";
    Ok (pad32 (le_bytes 8 (token_amount (la_data target))), 8)
  else if bool_decide (as_mode e ∈ [5; 7; 0]) then Ok no_snapshot
  else
    target ← lookup_account "PostAssertionFailed" (toAddress (as_target e));
    let len := Z.to_nat (as_valueLen e) in
    _ ← throw_if (bool_decide (length (la_data target) < as_offset e + len)%nat) "PostAssertionFailed";
    _ ← throw_if (bool_decide (32 < len)%nat) Panic;
    Ok (pad32 (slice (as_offset e) len (la_data target)), as_valueLen e).

Fixpoint snapshot_entries (vault : string) (entries : list Assertion) (n : nat) : result string (list (list Z * Z)) :=
  match n, entries with
  | O, _ => Ok []
  | S _, [] => Throw Panic
  | S n, e :: entries =>
      s ← snapshot_entry vault e;
      rest ← snapshot_entries vault entries n;
      Ok (s :: rest)
  end.

(** The block of [validate_and_authorize]: without the account there is nothing
    to take. *)
Definition capture_snapshots (has_post_assertions : Z) (vault : string) : result string (list (list Z * Z)) :=
  if has_post_assertions =? 0 then Ok [] else
  match resolve ledger remaining (assertions_key vault) with
  | None => Ok []
  | Some info =>
      assertions ← open_assertions vault info;
      snapshot_entries vault (pa_entries assertions) (pa_count assertions)
  end.

(** ** Checking an entry *)

Definition snapshot_amount (snapshot : list Z) : Z := le_value (take 8 snapshot).

Definition sat_sub (a b : Z) : Z := Z.max 0 (a - b).

Definition verify_mint_delta_cap (vault : string) (e : Assertion) (s : list Z * Z) : result string unit :=
  _ ← throw_if (negb (s.2 =? 8)) "SnapshotNotCaptured";
  post_sum ← sum_vault_mint_balance vault (toAddress (as_expected e)) (as_auxByte e) (toAddress (as_target e));
  throw_if (as_auxValue e <? sat_sub (snapshot_amount s.1) post_sum) "ErrMintDeltaCapExceeded".

Definition verify_ata_authority_pin (vault : string) (e : Assertion) : result string unit :=
  target ← lookup_account "ErrAtaAuthorityChanged" (toAddress (as_target e));
  _ ← throw_if (negb (is_token_program (la_owner target))) "ErrAtaAuthorityChanged";
  _ ← throw_if (bool_decide (length (la_data target) < 165)%nat) "ErrAtaAuthorityChanged";
  throw_if (negb (bool_decide (token_owner toAddress (la_data target) = vault))) "ErrAtaAuthorityChanged".

Definition verify_output_balance_floor (vault : string) (e : Assertion) (s : list Z * Z) : result string unit :=
  _ ← throw_if (negb (s.2 =? 8)) "SnapshotNotCaptured";
  target ← lookup_account "PostAssertionFailed" (toAddress (as_target e));
  _ ← throw_if (negb (is_token_program (la_owner target))) "PostAssertionFailed";
  _ ← throw_if (bool_decide (length (la_data target) < 72)%nat) "PostAssertionFailed";
  _ ← throw_if (negb (bool_decide (token_owner toAddress (la_data target) = vault))) "MintDeltaCapMisconfigured";
  throw_if (sat_sub (token_amount (la_data target)) (snapshot_amount s.1) <? as_auxValue e) "ErrOutputBelowFloor".

(** The account the protocol's instruction names at an index must be of the
    declared mint and recipient. *)
Definition verify_declaration_consistency (tx : list Ix) (current : nat) (e : Assertion) : result string unit :=
  match current with
  | O => Throw "ErrDeclarationInconsistent"
  | S before =>
      defi ← from_option_or "ErrDeclarationInconsistent" (tx !! before);
      meta ← from_option_or "ErrDeclarationInconsistent" (accounts_of defi !! Z.to_nat (as_auxByte e));
      target ← lookup_account "ErrDeclarationInconsistent" (acc_address meta);
      _ ← throw_if (negb (is_token_program (la_owner target))) "ErrDeclarationInconsistent";
      _ ← throw_if (bool_decide (length (la_data target) < 165)%nat) "ErrDeclarationInconsistent";
      _ ← throw_if (negb (bool_decide (token_mint toAddress (la_data target) = toAddress (as_expected e)))) "ErrDeclarationInconsistent";
      throw_if (negb (bool_decide (token_owner toAddress (la_data target) = toAddress (as_target e)))) "ErrDeclarationInconsistent"
  end.

(** The modes on bytes of an account; [fit] is the copy into eight bytes. *)
Definition fit (len : nat) (l : list Z) : result string Z :=
  if bool_decide (8 < len)%nat then Throw Panic else Ok (le_value l).

Definition verify_bytes (mode : AssertionMode) (e : Assertion) (s : list Z * Z) (actual : list Z) : result string unit :=
  let len := Z.to_nat (as_valueLen e) in
  match mode with
  | Absolute =>
      expected ← checked_slice len (as_expected e);
      operator ← from_option_or "InvalidConstraintOperator" (operator_of (as_operator e));
      throw_if (negb (bytes_match actual operator expected)) "PostAssertionFailed"
  | MaxDecrease | MaxIncrease =>
      _ ← throw_if (negb (s.2 =? as_valueLen e)) "SnapshotNotCaptured";
      snapshot ← checked_slice len s.1;
      expected ← checked_slice len (as_expected e);
      snap ← fit len snapshot; curr ← fit len actual; exp ← fit len expected;
      throw_if (exp <? match mode with MaxDecrease => sat_sub snap curr | _ => sat_sub curr snap end) "PostAssertionFailed"
  | NoChange =>
      _ ← throw_if (negb (s.2 =? as_valueLen e)) "SnapshotNotCaptured";
      snapshot ← checked_slice len s.1;
      throw_if (negb (bool_decide (actual = snapshot))) "PostAssertionFailed"
  | _ => Throw "PostAssertionFailed"
  end.

Definition verify_entry (vault : string) (tx : list Ix) (current : nat) (e : Assertion) (s : list Z * Z)
    : result string unit :=
  mode ← from_option_or "InvalidConstraintConfig" (mode_of (as_mode e));
  match mode with
  | MintDeltaCap => verify_mint_delta_cap vault e s
  | AtaAuthorityPin => verify_ata_authority_pin vault e
  | OutputBalanceFloor => verify_output_balance_floor vault e s
  | DeclarationConsistency => verify_declaration_consistency tx current e
  | _ =>
      target ← lookup_account "InvalidPostAssertionIndex" (toAddress (as_target e));
      let len := Z.to_nat (as_valueLen e) in
      _ ← throw_if (bool_decide (length (la_data target) < as_offset e + len)%nat) "PostAssertionFailed";
      verify_bytes mode e s (slice (as_offset e) len (la_data target))
  end.

(** Entry by entry, each with its own snapshot; a session starts with empty
    ones. *)
Fixpoint verify_entries (vault : string) (tx : list Ix) (current : nat) (entries : list Assertion)
    (snapshots : list (list Z * Z)) (n : nat) : result string unit :=
  match n, entries with
  | O, _ => Ok tt
  | S _, [] => Throw Panic
  | S n, e :: entries =>
      _ ← verify_entry vault tx current e (default no_snapshot (head snapshots));
      verify_entries vault tx current entries (tail snapshots) n
  end.

Definition enforce_post_execution_assertions (vault : string) (tx : list Ix) (current : nat)
    (snapshots : list (list Z * Z)) : result string unit :=
  info ← lookup_account "PostAssertionFailed" (assertions_key vault);
  assertions ← open_assertions vault info;
  verify_entries vault tx current (pa_entries assertions) snapshots (pa_count assertions).
End Ledger.
End Chain.

(** ** Bytes and the numbers they stand for *)

(** Two's complement. *)
Definition signed_value (l : list Z) : Z :=
  le_value l - (if negative l then 2 ^ (8 * Z.of_nat (length l)) else 0).

(** The number of the first [n] positions. *)
Fixpoint value_to (pad : Z) (l : list Z) (n : nat) : Z :=
  match n with O => 0 | S i => value_to pad l i + byte_at pad l i * 2 ^ (8 * Z.of_nat i) end.

Lemma byte_at_ok pad l i : byte_ok pad → bytes_ok l → byte_ok (byte_at pad l i).
Proof.
  intros Hp Hl. unfold byte_at. destruct (l !! i) as [b|] eqn:E; [|done]. cbn.
  by eapply Forall_lookup in E.
Qed.

Lemma value_to_bounds pad l n : byte_ok pad → bytes_ok l → 0 ≤ value_to pad l n < 2 ^ (8 * Z.of_nat n).
Proof.
  intros Hp Hl. induction n as [|n IH]; cbn [value_to]; [cbn; lia|].
  pose proof (byte_at_ok pad l n Hp Hl) as Hb. unfold byte_ok in Hb. rewrite pow_256_succ. nia.
Qed.

Lemma compare_down_sgn pa pb a b n :
  byte_ok pa → byte_ok pb → bytes_ok a → bytes_ok b →
  compare_down pa pb a b n = Z.sgn (value_to pa a n - value_to pb b n).
Proof.
  intros Hpa Hpb Ha Hb. induction n as [|n IH]; cbn [compare_down value_to]; [done|].
  pose proof (value_to_bounds pa a n Hpa Ha). pose proof (value_to_bounds pb b n Hpb Hb).
  destruct (Z.ltb_spec (byte_at pb b n) (byte_at pa a n)); [symmetry; apply Z.sgn_pos; nia|].
  destruct (Z.ltb_spec (byte_at pa a n) (byte_at pb b n)); [symmetry; apply Z.sgn_neg; nia|].
  rewrite IH. f_equal. assert (byte_at pa a n = byte_at pb b n) as -> by lia. lia.
Qed.

Lemma value_to_length pad l : value_to pad l (length l) = le_value l.
Proof.
  assert (∀ k, (k ≤ length l)%nat → value_to pad l k = le_value (take k l)) as H.
  { induction k as [|k IH]; intros Hk; [done|]. cbn [value_to]. rewrite IH by lia.
    destruct (lookup_lt_is_Some_2 l k Hk) as [b Hb]. unfold byte_at. rewrite Hb. cbn.
    rewrite (take_S_r _ _ _ Hb), le_value_app, length_take_le by lia. cbn. lia. }
  rewrite H by lia. by rewrite take_ge.
Qed.

Lemma value_to_pad pad l k :
  value_to pad l (length l + k) =
  le_value l + pad * ((2 ^ (8 * Z.of_nat (length l + k)) - 2 ^ (8 * Z.of_nat (length l))) / 255).
Proof.
  induction k as [|k IH].
  { rewrite Nat.add_0_r, value_to_length, Z.sub_diag, Z.div_0_l by lia. lia. }
  rewrite Nat.add_succ_r. cbn [value_to]. rewrite IH. unfold byte_at. rewrite lookup_ge_None_2 by lia. cbn [default].
  rewrite pow_256_succ. set (x := 2 ^ (8 * Z.of_nat (length l + k))). set (y := 2 ^ (8 * Z.of_nat (length l))).
  replace (256 * x - y) with (x - y + x * 255) by lia. rewrite Z.div_add by lia. unfold id. lia.
Qed.

Lemma pow_256_255 m n : (n ≤ m)%nat → 255 * ((2 ^ (8 * Z.of_nat m) - 2 ^ (8 * Z.of_nat n)) / 255) =
  2 ^ (8 * Z.of_nat m) - 2 ^ (8 * Z.of_nat n).
Proof.
  intros Hle. replace m with (n + (m - n))%nat by lia. generalize (m - n)%nat as k. clear. intros k.
  induction k as [|k IH]; [rewrite Nat.add_0_r, Z.sub_diag; done|].
  rewrite Nat.add_succ_r, pow_256_succ. revert IH.
  set (x := 2 ^ (8 * Z.of_nat (n + k))). set (y := 2 ^ (8 * Z.of_nat n)). intros IH.
  replace (256 * x - y) with (x - y + x * 255) by lia. rewrite Z.div_add by lia. lia.
Qed.

(** Padding with zeros keeps the number; padding with ones adds the same to
    every negative one. *)
Lemma value_padded (neg : bool) l n :
  (length l ≤ n)%nat →
  value_to (if neg then 255 else 0) l n =
  le_value l - (if neg then 2 ^ (8 * Z.of_nat (length l)) else 0) + (if neg then 2 ^ (8 * Z.of_nat n) else 0).
Proof.
  intros Hn. replace n with (length l + (n - length l))%nat at 1 by lia. rewrite value_to_pad.
  replace (length l + (n - length l))%nat with n by lia.
  destruct neg; [rewrite pow_256_255 by lia|]; lia.
Qed.

Lemma negative_neg l : bytes_ok l → signed_value l < 0 ↔ negative l = true.
Proof.
  intros Hl. unfold signed_value. pose proof (le_value_bounds l Hl). destruct (negative l); split; try done; lia.
Qed.

(** The assertions' byte-wise comparisons are comparisons of numbers.  On
    lists of bytes of any two lengths, the unsigned comparison is that of the
    little-endian numbers, the signed one that of the two's-complement numbers:
    their result is the sign of the difference. *)
Theorem bytes_compare_as_numbers (a b : list Z) :
  bytes_ok a → bytes_ok b →
  compare_le_unsigned a b = Z.sgn (le_value a - le_value b) ∧
  compare_le_signed a b = Z.sgn (signed_value a - signed_value b).
Proof.
  intros Ha Hb. set (n := (length a `max` length b)%nat). split.
  - unfold compare_le_unsigned. rewrite compare_down_sgn by (done || unfold byte_ok; lia).
    rewrite (value_padded false a), (value_padded false b) by lia. f_equal. lia.
  - unfold compare_le_signed. pose proof (negative_neg a Ha) as Na. pose proof (negative_neg b Hb) as Nb.
    destruct (negative a) eqn:Ea, (negative b) eqn:Eb; cbn [andb negb].
    2: { symmetry. apply Z.sgn_neg. assert (signed_value a < 0) by by apply Na.
         assert (¬ signed_value b < 0) by (rewrite Nb; done). lia. }
    2: { symmetry. apply Z.sgn_pos. assert (signed_value b < 0) by by apply Nb.
         assert (¬ signed_value a < 0) by (rewrite Na; done). lia. }
    all: rewrite compare_down_sgn by (done || unfold byte_ok; lia).
    + rewrite (value_padded true a), (value_padded true b) by lia. unfold signed_value. rewrite Ea, Eb. f_equal. lia.
    + rewrite (value_padded false a), (value_padded false b) by lia. unfold signed_value. rewrite Ea, Eb. f_equal. lia.
Qed.

Lemma bytes_compare_as_numbers_witness :
  compare_le_signed [255; 255] [1] = Z.sgn (-1 - 1) ∧ compare_le_unsigned [255; 255] [1] = Z.sgn (65535 - 1).
Proof.
  assert (∀ l, forallb (λ b, (0 <=? b) && (b <? 256)) l = true → bytes_ok l) as Hok.
  { intros l Hl. apply Forall_forall. intros b Hin%list_elem_of_In. eapply forallb_forall in Hl; [|done].
    unfold byte_ok. lia. }
  destruct (bytes_compare_as_numbers [255; 255] [1]) as [Hu Hs]; [by apply Hok..|]. split; [exact Hs|exact Hu].
Defined.

(** ** What the checks establish *)

Section Sessions.
Context (toAddress : list Z → string) (associated : string → string → string → string).

(** The bytes an entry is about, and the balance a cap on a mint is about. *)
Definition value_of (ledger : string → option LedgerAccount) (e : Assertion) : list Z :=
  slice (as_offset e) (Z.to_nat (as_valueLen e)) (la_data (account_info ledger (toAddress (as_target e)))).

Definition amount_of (ledger : string → option LedgerAccount) (key : string) : Z :=
  token_amount (la_data (account_info ledger key)).

Definition vault_balance (ledger : string → option LedgerAccount) (vault : string) (e : Assertion) : Z :=
  let mint := toAddress (as_expected e) in
  if as_auxByte e =? 0
  then sumZ (map (λ key, counted_amount toAddress vault mint (account_info ledger key))
                 (derive_vault_atas associated vault mint))
  else amount_of ledger (toAddress (as_target e)).

(** The assertion itself, about the accounts before and after. *)
Definition satisfied (before after : string → option LedgerAccount) (vault : string) (tx : list Ix) (current : nat)
    (e : Assertion) : Prop :=
  let bound := le_value (take (Z.to_nat (as_valueLen e)) (as_expected e)) in
  match mode_of (as_mode e) with
  | None => False
  | Some Absolute => ∃ op, operator_of (as_operator e) = Some op ∧
      bytes_match (value_of after e) op (take (Z.to_nat (as_valueLen e)) (as_expected e)) = true
  | Some MaxDecrease => le_value (value_of before e) - le_value (value_of after e) ≤ bound
  | Some MaxIncrease => le_value (value_of after e) - le_value (value_of before e) ≤ bound
  | Some NoChange => value_of after e = value_of before e
  | Some MintDeltaCap => vault_balance before vault e - vault_balance after vault e ≤ as_auxValue e
  | Some AtaAuthorityPin => token_owner toAddress (la_data (account_info after (toAddress (as_target e)))) = vault
  | Some OutputBalanceFloor => 0 < as_auxValue e →
      amount_of before (toAddress (as_target e)) + as_auxValue e ≤ amount_of after (toAddress (as_target e))
  | Some DeclarationConsistency => ∃ defi meta, tx !! Nat.pred current = Some defi ∧
      accounts_of defi !! Z.to_nat (as_auxByte e) = Some meta ∧
      token_mint toAddress (la_data (account_info after (acc_address meta))) = toAddress (as_expected e) ∧
      token_owner toAddress (la_data (account_info after (acc_address meta))) = toAddress (as_target e)
  end.

Lemma lookup_account_Ok ledger remaining error key info :
  lookup_account ledger remaining error key = Ok info → info = account_info ledger key.
Proof. unfold lookup_account, resolve. case_bool_decide; [|done]. by intros [= <-]. Qed.

(** Account data are bytes. *)
Definition data_ok (ledger : string → option LedgerAccount) : Prop :=
  ∀ key, bytes_ok (la_data (account_info ledger key)).

Lemma token_amount_u64 data : bytes_ok data → 0 ≤ token_amount data ≤ U64_MAX.
Proof.
  intros Hd. unfold token_amount. set (l := take 8 (drop 64 data)).
  assert (bytes_ok l) as Hl by (by apply Forall_take, Forall_drop).
  pose proof (le_value_bounds l Hl). assert (length l ≤ 8)%nat by (unfold l; rewrite length_take; lia).
  assert (2 ^ (8 * Z.of_nat (length l)) ≤ 2 ^ 64) by (apply Z.pow_le_mono_r; lia). unfold U64_MAX. lia.
Qed.

Lemma counted_u64 vault mint info : bytes_ok (la_data info) → 0 ≤ counted_amount toAddress vault mint info ≤ U64_MAX.
Proof.
  intros Hd. unfold counted_amount. destruct (_ || _); [unfold U64_MAX; lia|].
  destruct (read_token_mint toAddress info), (read_token_owner toAddress info), (read_token_amount info) as [x|] eqn:Ha;
    try (unfold U64_MAX; lia).
  unfold read_token_amount in Ha. destruct (_ || _) in Ha; [done|]. injection Ha as <-.
  destruct (_ && _); [by apply token_amount_u64|unfold U64_MAX; lia].
Qed.

Lemma sum_atas_Ok ledger remaining vault mint sum keys total :
  data_ok ledger → 0 ≤ sum ≤ U64_MAX → sum_atas toAddress ledger remaining vault mint sum keys = Ok total →
  total = sum + sumZ (map (λ key, counted_amount toAddress vault mint (account_info ledger key)) keys) ∧
  0 ≤ total ≤ U64_MAX.
Proof.
  intros Hd. revert sum. induction keys as [|key keys IH]; intros sum Hs; cbn [sum_atas map].
  { intros [= <-]. cbn. lia. }
  intros (info & ->%lookup_account_Ok & (sum' & Hadd & H)%bind_Ok_inv)%bind_Ok_inv.
  unfold SpendLedger.checked_add in Hadd. destruct (Z.ltb_spec U64_MAX (sum + counted_amount toAddress vault mint (account_info ledger key)));
    [done|]. injection Hadd as <-. pose proof (counted_u64 vault mint _ (Hd key)).
  apply IH in H as [-> ?]; [|lia]. cbn [sumZ foldr]. unfold sumZ in *. lia.
Qed.

Lemma sum_balance_Ok ledger remaining vault e total :
  data_ok ledger →
  sum_vault_mint_balance toAddress associated ledger remaining vault (toAddress (as_expected e)) (as_auxByte e)
    (toAddress (as_target e)) = Ok total →
  total = vault_balance ledger vault e ∧ 0 ≤ total ≤ U64_MAX.
Proof.
  intros Hd. unfold sum_vault_mint_balance, vault_balance. destruct (as_auxByte e =? 0).
  { intros H. apply sum_atas_Ok in H; [|done|unfold U64_MAX; lia]. done. }
  destruct (as_auxByte e =? 1); [|done].
  intros (info & ->%lookup_account_Ok & (m & _ & (? & _ & (o & _ & (? & _ & H)%bind_Ok_inv)%bind_Ok_inv)%bind_Ok_inv)%bind_Ok_inv)%bind_Ok_inv.
  unfold read_token_amount in H. destruct (_ || _) in H; [done|]. injection H as <-.
  split; [done|]. by apply token_amount_u64.
Qed.

Lemma snapshot_amount_of x : 0 ≤ x ≤ U64_MAX → snapshot_amount (pad32 (le_bytes 8 x)) = x.
Proof.
  intros Hx. unfold snapshot_amount, pad32. rewrite take_app_length' by by rewrite length_le_bytes.
  rewrite le_value_le_bytes. apply Z.mod_small. unfold U64_MAX in Hx. cbn. lia.
Qed.

Lemma length_slice offset len l : (offset + len ≤ length l)%nat → length (slice offset len l) = len.
Proof. intros H. unfold slice. rewrite length_take_le; [done|]. rewrite length_drop. lia. Qed.

(** The snapshot of an entry on bytes: the bytes as they were. *)
Lemma snapshot_bytes before remaining vault e s :
  snapshot_entry toAddress associated before remaining vault e = Ok s ∨ s = no_snapshot →
  as_mode e ∈ [1; 2; 3] → s.2 = as_valueLen e →
  take (Z.to_nat (as_valueLen e)) s.1 = value_of before e.
Proof.
  intros Hs Hm Hlen. destruct Hs as [Hs| ->].
  - unfold snapshot_entry in Hs. rewrite !elem_of_cons, elem_of_nil in Hm.
    rewrite (proj2 (Z.eqb_neq (as_mode e) 4)), (proj2 (Z.eqb_neq (as_mode e) 6)) in Hs by lia.
    rewrite bool_decide_false in Hs by (rewrite !elem_of_cons, elem_of_nil; lia).
    apply bind_Ok_inv in Hs as (info & ->%lookup_account_Ok & (? & H1%throw_if_Ok & (? & _ & [= <-])%bind_Ok_inv)%bind_Ok_inv).
    apply bool_decide_eq_false in H1. cbn [fst]. unfold pad32, value_of. rewrite take_app_le; [|rewrite length_slice; lia].
    by rewrite take_ge by (rewrite length_slice; lia).
  - cbn [no_snapshot fst snd] in *. rewrite <- Hlen. by unfold value_of; rewrite <- Hlen.
Qed.

Lemma fit_Ok len l x : fit len l = Ok x → x = le_value l.
Proof. unfold fit. case_bool_decide; [done|]. by intros [= <-]. Qed.

Lemma checked_slice_Ok len l x : checked_slice len l = Ok x → x = take len l.
Proof. unfold checked_slice. case_bool_decide; [done|]. by intros [= <-]. Qed.

Lemma verify_bytes_Ok mode before after remaining vault tx current e s :
  mode_of (as_mode e) = Some mode → mode ∈ [Absolute; MaxDecrease; MaxIncrease; NoChange] →
  snapshot_entry toAddress associated before remaining vault e = Ok s ∨ s = no_snapshot →
  verify_bytes mode e s (value_of after e) = Ok tt → satisfied before after vault tx current e.
Proof.
  intros Hmode Hin Hs. unfold satisfied. rewrite Hmode.
  assert (mode ≠ Absolute → as_mode e ∈ [1; 2; 3]) as Hm.
  { intros Hne. unfold mode_of in Hmode. rewrite !elem_of_cons, elem_of_nil in Hin. rewrite !elem_of_cons, elem_of_nil.
    destruct (as_mode e) as [|p|]; [by injection Hmode as <-| |done].
    do 3 (destruct p as [p|p|]; try done; try lia); injection Hmode as <-;
      first [lia|exfalso; by destruct Hin as [?|[?|[?|[?|?]]]]]. }
  unfold verify_bytes. destruct mode; try (exfalso; rewrite !elem_of_cons, elem_of_nil in Hin; by destruct Hin as [?|[?|[?|[?|?]]]]).
  - intros (exp & ->%checked_slice_Ok & (op & Hop & H%throw_if_Ok)%bind_Ok_inv)%bind_Ok_inv.
    destruct (operator_of (as_operator e)) as [op'|]; [|done]. injection Hop as ->. exists op.
    split; [done|by apply negb_false_iff].
  - intros (? & Hl%throw_if_Ok & H)%bind_Ok_inv. apply negb_false_iff, Z.eqb_eq in Hl.
    apply bind_Ok_inv in H as (sn & ->%checked_slice_Ok & (ex & ->%checked_slice_Ok & H)%bind_Ok_inv).
    apply bind_Ok_inv in H as (a & ->%fit_Ok & (b & ->%fit_Ok & (c & ->%fit_Ok & H%throw_if_Ok)%bind_Ok_inv)%bind_Ok_inv).
    rewrite (snapshot_bytes _ _ _ _ _ Hs (Hm ltac:(done)) Hl) in H. unfold sat_sub in H. lia.
  - intros (? & Hl%throw_if_Ok & H)%bind_Ok_inv. apply negb_false_iff, Z.eqb_eq in Hl.
    apply bind_Ok_inv in H as (sn & ->%checked_slice_Ok & (ex & ->%checked_slice_Ok & H)%bind_Ok_inv).
    apply bind_Ok_inv in H as (a & ->%fit_Ok & (b & ->%fit_Ok & (c & ->%fit_Ok & H%throw_if_Ok)%bind_Ok_inv)%bind_Ok_inv).
    rewrite (snapshot_bytes _ _ _ _ _ Hs (Hm ltac:(done)) Hl) in H. unfold sat_sub in H. lia.
  - intros (? & Hl%throw_if_Ok & H)%bind_Ok_inv. apply negb_false_iff, Z.eqb_eq in Hl.
    apply bind_Ok_inv in H as (sn & ->%checked_slice_Ok & H%throw_if_Ok).
    apply negb_false_iff, bool_decide_eq_true in H.
    by rewrite (snapshot_bytes _ _ _ _ _ Hs (Hm ltac:(done)) Hl) in H.
Qed.

(** The snapshot of an entry on a balance. *)
Lemma snapshot_balance before remaining vault e s :
  data_ok before →
  snapshot_entry toAddress associated before remaining vault e = Ok s ∨ s = no_snapshot → s.2 = 8 →
  (as_mode e = 4 → snapshot_amount s.1 = vault_balance before vault e) ∧
  (as_mode e = 6 → snapshot_amount s.1 = amount_of before (toAddress (as_target e))).
Proof.
  intros Hd [Hs| ->] H8; [|done]. unfold snapshot_entry in Hs. split; intros Hm; rewrite Hm in Hs; cbn [Z.eqb Pos.eqb] in Hs.
  - apply bind_Ok_inv in Hs as (x & Hx & [= <-]). apply sum_balance_Ok in Hx as [-> Hb]; [|done].
    by apply snapshot_amount_of.
  - apply bind_Ok_inv in Hs as (info & ->%lookup_account_Ok & H).
    do 4 (apply bind_Ok_inv in H as (? & _ & H)). injection H as <-.
    by apply snapshot_amount_of, token_amount_u64.
Qed.

Lemma entry_satisfied before after rem1 rem2 vault tx current e s :
  data_ok before → data_ok after →
  snapshot_entry toAddress associated before rem1 vault e = Ok s ∨ s = no_snapshot →
  verify_entry toAddress associated after rem2 vault tx current e s = Ok tt →
  satisfied before after vault tx current e.
Proof.
  intros Hb Ha Hs. unfold verify_entry. destruct (mode_of (as_mode e)) as [mode|] eqn:Hmode; [|done].
  cbn [from_option_or mbind result_bind].
  assert (∀ m, mode = m → mode_of (as_mode e) = Some m) as Hm by congruence.
  destruct mode.
  1-4: intros (info & ->%lookup_account_Ok & (? & _ & H)%bind_Ok_inv)%bind_Ok_inv;
       (eapply verify_bytes_Ok; [exact Hmode|rewrite !elem_of_cons; tauto|exact Hs|exact H]).
  - unfold satisfied, verify_mint_delta_cap. rewrite Hmode.
    intros (? & H8%throw_if_Ok & (post & [-> _]%sum_balance_Ok & H%throw_if_Ok)%bind_Ok_inv)%bind_Ok_inv; [|done].
    apply negb_false_iff, Z.eqb_eq in H8. destruct (snapshot_balance _ _ _ _ _ Hb Hs H8) as [H4 _].
    rewrite H4 in H by (unfold mode_of in Hmode; destruct (as_mode e) as [|p|]; [done| |done];
      do 3 (destruct p as [p|p|]; try done)). unfold sat_sub in H. lia.
  - unfold satisfied, verify_ata_authority_pin. rewrite Hmode.
    intros (info & ->%lookup_account_Ok & (? & _ & (? & _ & H%throw_if_Ok)%bind_Ok_inv)%bind_Ok_inv)%bind_Ok_inv.
    by apply negb_false_iff, bool_decide_eq_true in H.
  - unfold satisfied, verify_output_balance_floor. rewrite Hmode.
    intros (? & H8%throw_if_Ok & (info & ->%lookup_account_Ok & H)%bind_Ok_inv)%bind_Ok_inv Hpos.
    do 3 (apply bind_Ok_inv in H as (? & _ & H)). apply throw_if_Ok in H.
    apply negb_false_iff, Z.eqb_eq in H8. destruct (snapshot_balance _ _ _ _ _ Hb Hs H8) as [_ H6].
    rewrite H6 in H by (unfold mode_of in Hmode; destruct (as_mode e) as [|p|]; [done| |done];
      do 3 (destruct p as [p|p|]; try done)). unfold sat_sub in H. unfold amount_of in *. lia.
  - unfold satisfied, verify_declaration_consistency. rewrite Hmode. destruct current as [|before_ix]; [done|].
    intros (defi & Hd & (meta & Hmeta & (info & ->%lookup_account_Ok & H)%bind_Ok_inv)%bind_Ok_inv)%bind_Ok_inv.
    do 2 (apply bind_Ok_inv in H as (? & _ & H)). apply bind_Ok_inv in H as (? & H1%throw_if_Ok & H2%throw_if_Ok).
    apply negb_false_iff, bool_decide_eq_true in H1, H2. cbn [Nat.pred].
    destruct (tx !! before_ix) as [ix|]; [|done]. injection Hd as ->. exists defi, meta.
    destruct (accounts_of defi !! Z.to_nat (as_auxByte e)); [|done]. by injection Hmeta as ->.
Qed.

Lemma snapshots_Ok ledger remaining vault entries n snaps i e :
  snapshot_entries toAddress associated ledger remaining vault entries n = Ok snaps →
  (i < n)%nat → entries !! i = Some e →
  ∃ s, snaps !! i = Some s ∧ snapshot_entry toAddress associated ledger remaining vault e = Ok s.
Proof.
  revert entries snaps i; induction n as [|n IH]; intros entries snaps i; [lia|].
  destruct entries as [|e' entries]; [done|]. cbn [snapshot_entries].
  intros (s & Hs & (rest & Hr & [= <-])%bind_Ok_inv)%bind_Ok_inv Hi He. destruct i as [|i].
  - injection He as ->. by exists s.
  - by apply (IH entries rest i Hr); [lia|].
Qed.

Lemma verified_Ok ledger remaining vault tx current entries snaps n i e :
  verify_entries toAddress associated ledger remaining vault tx current entries snaps n = Ok tt →
  (i < n)%nat → entries !! i = Some e →
  verify_entry toAddress associated ledger remaining vault tx current e (default no_snapshot (snaps !! i)) = Ok tt.
Proof.
  revert entries snaps i; induction n as [|n IH]; intros entries snaps i; [lia|].
  destruct entries as [|e' entries]; [done|]. cbn [verify_entries].
  intros ([] & Hv & H)%bind_Ok_inv Hi He. destruct i as [|i].
  - injection He as ->. by destruct snaps.
  - pose proof (IH entries (tail snaps) i H ltac:(lia) He) as Hx. by destruct snaps.
Qed.
End Sessions.

(** Checked assertions hold.  Whatever ran in between, when the snapshots were
    taken and the check passed, then for each entry of the stored assertions:
    bytes compare as asked, a value fell or rose by no more than its bound, or
    did not change; the vault's balance of a mint fell by at most the cap; the
    account still belongs to the vault; the vault's output rose by the minimum;
    the account the protocol was given is of the declared mint and recipient.
    The values are those of the accounts before and after, not the snapshots. *)
Lemma checked_assertions_hold toAddress encode derive associated before after rem1 rem2 flag vault
    tx current snapshots assertions :
  data_ok before → data_ok after →
  capture_snapshots toAddress encode derive associated before rem1 flag vault = Ok snapshots →
  open_assertions encode vault (account_info before (assertions_key encode derive vault)) = Ok assertions →
  account_info after (assertions_key encode derive vault) = account_info before (assertions_key encode derive vault) →
  enforce_post_execution_assertions toAddress encode derive associated after rem2 vault tx current snapshots = Ok tt →
  ∀ i e, (i < pa_count assertions)%nat → pa_entries assertions !! i = Some e →
    satisfied toAddress associated before after vault tx current e.
Proof.
  intros Hb Ha Hcap Hopen Hsame Henf i e Hi He. unfold enforce_post_execution_assertions in Henf.
  apply bind_Ok_inv in Henf as (info & ->%lookup_account_Ok & (A & HA & Henf)%bind_Ok_inv).
  rewrite Hsame, Hopen in HA. injection HA as <-.
  eapply verified_Ok in Henf as Hv; [|exact Hi|exact He].
  eapply entry_satisfied; [exact Hb|exact Ha| |exact Hv].
  unfold capture_snapshots in Hcap. destruct (flag =? 0); [injection Hcap as <-; by right|].
  unfold resolve in Hcap. case_bool_decide; [|injection Hcap as <-; by right].
  rewrite Hopen in Hcap. cbn [mbind result_bind] in Hcap.
  eapply snapshots_Ok in Hcap as (s & -> & Hs); [|exact Hi|exact He]. left. exact Hs.
Qed.

(** ** An assertion that holds and one that does not *)

Module AssertionDemo.
Definition toAddress (bytes : list Z) : string := if bool_decide (bytes = replicate 32 7) then "pool" else "other".
Definition encode (s : string) : list Z := replicate 32 1.
Definition derive (program : string) (seeds : list (list Z)) : string := "assertions".
Definition associated (owner mint program : string) : string := "ata".

(** At most five less in the first eight bytes of the pool account. *)
Definition entry : list Z :=
  replicate 32 7 ++ [0; 0; 8; 0] ++ (le_bytes 8 5 ++ replicate 24 0) ++ [1] ++ replicate 8 0 ++ [0].
Definition account : LedgerAccount := {|
  la_owner := SIGIL_PROGRAM_ADDRESS;
  la_data := POST_EXECUTION_ASSERTIONS_DISCRIMINATOR ++ replicate 32 1 ++ entry ++ replicate (78 * 7) 0 ++ [1] ++ replicate 7 0 |}.
Definition ledger (pool : Z) (key : string) : option LedgerAccount :=
  if bool_decide (key = "assertions") then Some account
  else if bool_decide (key = "pool") then Some {| la_owner := "amm"; la_data := le_bytes 8 pool |} else None.

Definition remaining : list string := ["assertions"; "pool"].
Definition snapshots : list (list Z * Z) :=
  match capture_snapshots toAddress encode derive associated (ledger 10) remaining 1 "vault" with Ok s => s | Throw _ => [] end.
Definition assertions : Assertions := read_assertions (drop 8 (la_data account)).

Lemma ledger_ok pool : data_ok (ledger pool).
Proof.
  intros key. unfold account_info, ledger. case_bool_decide.
  - apply (bool_decide_unpack (Forall (λ b, 0 ≤ b < 256) _)). vm_compute. done.
  - case_bool_decide; cbn; [apply le_bytes_ok|constructor].
Qed.
End AssertionDemo.

Lemma checked_assertions_hold_example :
  is_ok (enforce_post_execution_assertions AssertionDemo.toAddress AssertionDemo.encode AssertionDemo.derive
           AssertionDemo.associated (AssertionDemo.ledger 4) AssertionDemo.remaining "vault" [] 1
           AssertionDemo.snapshots) = false ∧
  ∃ e, pa_entries AssertionDemo.assertions !! 0%nat = Some e ∧
    satisfied AssertionDemo.toAddress AssertionDemo.associated (AssertionDemo.ledger 10) (AssertionDemo.ledger 7)
      "vault" [] 1 e.
Proof.
  split; [vm_compute; reflexivity|]. eexists. split; [reflexivity|].
  refine (checked_assertions_hold AssertionDemo.toAddress AssertionDemo.encode AssertionDemo.derive
    AssertionDemo.associated _ _ AssertionDemo.remaining AssertionDemo.remaining 1 "vault" [] 1 AssertionDemo.snapshots
    AssertionDemo.assertions (AssertionDemo.ledger_ok 10) (AssertionDemo.ledger_ok 7) _ _ _ _ 0 _ _ _).
  1-4: vm_compute; reflexivity.
  - vm_compute. lia.
  - reflexivity.
Qed.
