(* ===== verification/Session.v ===== *)
(** * Sessions: authorise, run, finalise

    A spend of an agent is a session: [validate_and_authorize] checks who asks,
    for what, when and in which transaction, takes the balances it will need and
    makes the agent the delegate of one token account; a protocol's instruction
    runs; [finalize_session] takes the delegation back, measures what left the
    vault, checks that the vault acquired something for it, charges caps and
    fees, and closes the session.  This file has the two handlers as they are
    written ([instructions/validate_and_authorize.rs],
    [instructions/finalize_session.rs], [state/session.rs]), over the scans of
    [Sandwich], the assertions of [PostExecution], the ledger of [SpendLedger],
    the recipients of [AgentTransfer] and the rings of [AuditLog].

    The token program is third-party: the class [TokenOps] with what the
    handlers rely on in [LawfulTokenOps].  What runs between the two handlers is
    any change of the accounts that are not the program's.

    The accounts of the program are the records below; all others, and the
    account of the owner's assertions, are bytes.  Rent is not modelled.

    The theorems: whatever the protocol does, a session that spends costs the
    vault at most the authorised amount, gets it something, is charged with both
    fees to its caps and leaves no delegate; a session that sells brings
    stablecoins; it satisfies every assertion of the owner; the counter of open
    sessions is right in every history; and what is authorised is what the
    wallet showed.  A session does not expire in the
    transaction that opened it. *)

From S2P Require Import Prelude CanonicalEncode SdkTypes IntentDigest StateResolver Seal Accounts VerifiedBuild AuditLog SpendLedger.
From S2P Require Import SealedSpend AgentTransfer Sandwich PostExecution.
From S2P Require GeneratedTypes.

Local Open Scope Z_scope.

(** ** Accounts *)

(** [Pubkey::default()], the key of 32 zeros. *)
Definition NO_KEY : string := SYSTEM_PROGRAM_ADDRESS.

Record SessionAuthority : Type := {
  se_vault : string;
  se_agent : string;
  se_authorized : bool;
  se_authorizedAmount : Z;
  se_authorizedToken : string;
  se_authorizedProtocol : string;
  se_expiresAt : Z;
  se_delegated : bool;
  se_delegationTokenAccount : string;
  se_outputMint : string;
  se_stablecoinBalanceBefore : Z;
  se_snapshots : list (list Z * Z);
  se_nonce : Z;
  se_outputStablecoinAccount : string;
  se_outputSwapAccount : string;
  se_outputSwapMint : string;
  se_outputSwapBalanceBefore : Z;
}.

(** Fields of the vault, the policy and the overlay that only sessions use; the
    failures are one per agent, the cooldowns one per slot. *)
Record Pacing : Type := {
  pc_operatingHours : Z;
  pc_autoRevokeThreshold : Z;
  pc_hasPostAssertions : Z;
  pc_cooldownSeconds : list Z;
  pc_lastActionUnix : list Z;
  pc_consecutiveFailures : list Z;
  pc_activeSessions : Z;
  pc_totalFailedTransactions : Z;
}.

Record Chain : Type := {
  cn_accounts : gmap string LedgerAccount;
  cn_state : VaultState;
  cn_pacing : Pacing;
  cn_sessions : gmap string SessionAuthority;
}.

Definition account_of (accounts : gmap string LedgerAccount) (key : string) : option LedgerAccount := accounts !! key.

(** ** The token program *)

(** Accounts, token account, delegate or destination, authority, amount. *)
Class TokenOps : Type := {
  token_approve : gmap string LedgerAccount → string → string → string → Z → result string (gmap string LedgerAccount);
  token_revoke : gmap string LedgerAccount → string → string → result string (gmap string LedgerAccount);
  token_pay : gmap string LedgerAccount → string → string → string → Z → result string (gmap string LedgerAccount);
}.

(** The delegate field: a tag of four bytes and a key, behind the amount. *)
Definition has_delegate (data : list Z) : bool := negb (le_value (take 4 (drop 72 data)) =? 0).

(** What the three operations do when they succeed: they change the named
    accounts only, neither approving nor revoking moves anything, revoking leaves
    no delegate, and a payment of the owner makes none. *)
Class LawfulTokenOps (T : TokenOps) : Prop := {
  approve_spec accounts key delegate authority n accounts' :
    token_approve accounts key delegate authority n = Ok accounts' →
    ∃ a a', accounts !! key = Some a ∧ accounts' = <[key := a']> accounts ∧
      la_owner a' = la_owner a ∧ length (la_data a') = length (la_data a) ∧ take 72 (la_data a') = take 72 (la_data a);
  revoke_spec accounts key authority accounts' :
    token_revoke accounts key authority = Ok accounts' →
    ∃ a a', accounts !! key = Some a ∧ accounts' = <[key := a']> accounts ∧
      la_owner a' = la_owner a ∧ length (la_data a') = length (la_data a) ∧ take 72 (la_data a') = take 72 (la_data a) ∧
      has_delegate (la_data a') = false;
  pay_spec accounts from to authority n accounts' :
    token_pay accounts from to authority n = Ok accounts' →
    ∃ a a', accounts !! from = Some a ∧ accounts' !! from = Some a' ∧
      (has_delegate (la_data a) = false → has_delegate (la_data a') = false);
}.

(** A token account as Anchor loads it. *)
Record TokenView : Type := { tv_mint : string; tv_owner : string; tv_amount : Z }.

Section Handlers.
Context {T : TokenOps}.
Context (toAddress : list Z → string) (encode : string → list Z) (derive : string → list (list Z) → string).
Context (associated : string → string → string → string) (sha256 : list Z → list Z).
(** Whether the token program's library reads an account as a token account, or
    as a mint. *)
Context (unpacks is_mint : list Z → bool).
(** The build: the two stablecoins, the treasury and the network. *)
Context (usdc usdt treasury : string) (network_id : Z).

Definition view_of (data : list Z) : TokenView := {|
  tv_mint := token_mint toAddress data; tv_owner := token_owner toAddress data; tv_amount := token_amount data |}.

Definition load_token (accounts : gmap string LedgerAccount) (key : string) : result string TokenView :=
  match accounts !! key with
  | None => Throw "AccountNotInitialized"
  | Some a =>
      _ ← throw_if (negb (bool_decide (la_owner a = TOKEN_PROGRAM_ADDRESS))) "AccountOwnedByWrongProgram";
      _ ← throw_if (negb (unpacks (la_data a))) "AccountDidNotDeserialize";
      Ok (view_of (la_data a))
  end.

Definition load_optional (accounts : gmap string LedgerAccount) (key : option string)
    : result string (option (string * TokenView)) :=
  match key with None => Ok None | Some k => v ← load_token accounts k; Ok (Some (k, v)) end.

Definition session_key (vault agent mint : string) : string :=
  derive SIGIL_PROGRAM_ADDRESS (session_seeds encode vault agent mint).

(** ** Guards *)

(** [INTENT_DIGEST_MAGIC] and [INTENT_VERSION_V2] of the program. *)
Definition PROGRAM_INTENT_MAGIC : list Z := [83; 73; 71; 49].
Definition PROGRAM_INTENT_VERSION : Z := 2.

Definition compute_scalar_intent_digest (vault agent mint : string) (amount : Z) (target : string) : list Z :=
  sha256 (PROGRAM_INTENT_MAGIC ++ [PROGRAM_INTENT_VERSION] ++ [network_id] ++ encode vault ++ encode agent ++
          encode mint ++ le_bytes 8 amount ++ encode target).

Definition is_within_operating_hours (operating_hours now : Z) : bool :=
  if now <=? 0 then false else
  let hour := (now ÷ 3600) mod 24 in
  negb (Z.land (Z.land operating_hours 16777215) (Z.shiftl 1 hour) =? 0).

Definition MAX_OVERLAY_ENTRIES : nat := 10.

Definition is_cooldown_elapsed (p : Pacing) (slot : nat) (now : Z) : bool :=
  if bool_decide (MAX_OVERLAY_ENTRIES ≤ slot)%nat then false else
  let cooldown := default 0 (pc_cooldownSeconds p !! slot) in
  let last := default 0 (pc_lastActionUnix p !! slot) in
  if cooldown =? 0 then true else if last =? 0 then true else
  let delta := now - last in
  (0 <=? delta) && (delta <=? I64_MAX) && (cooldown <=? delta).

Definition find_entry (v : AgentVault) (agent : string) : option (nat * AgentEntry) :=
  list_find (λ a, ae_pubkey a = agent) (av_agents v).

Definition is_agent_paused (v : AgentVault) (agent : string) : bool :=
  match find_entry v agent with Some (_, e) => ae_paused e | None => false end.

Definition has_capability (v : AgentVault) (agent : string) (is_spending : bool) : bool :=
  match find_entry v agent with
  | Some (_, e) => (if is_spending then CAPABILITY_OPERATOR else 1) <=? ae_capability e
  | None => false
  end.

Definition auto_revoked (v : AgentVault) (p : Pacing) (agent : string) : bool :=
  match find_entry v agent with
  | Some (i, e) => (ae_capability e =? 0) &&
                   (pc_autoRevokeThreshold p <=? default 0 (pc_consecutiveFailures p !! i)) &&
                   (0 <? pc_autoRevokeThreshold p)
  | None => false
  end.

(** [enforce_verified_build_if_armed] on the policy of this vault. *)
Definition build_gate (accounts : gmap string LedgerAccount) (policy : PolicyConfig) (target : string)
    (remaining : list string) : result string unit :=
  match list_find (λ q, q = target) (pol_protocols policy) with
  | None => Throw "ProtocolNotAllowed"
  | Some (i, _) =>
      match pol_protocolHashes policy !! i with
      | None => Ok tt
      | Some expected =>
          if bool_decide (expected = replicate 32 0) then Ok tt else
          let key := derive BPF_LOADER_UPGRADEABLE_PROGRAM_ID [encode target] in
          _ ← throw_if (negb (bool_decide (key ∈ remaining))) "ErrProgramDataUnresolvable";
          enforce_program_build_hash encode derive sha256 (account_of accounts) key target expected
      end
  end.

Definition SESSION_DURATION_SECONDS : Z := 30.
Definition MAX_OWNER_SESSION_DURATION_SECONDS : Z := 90.

Definition effective_session_expiry_seconds (policy : PolicyConfig) : Z :=
  if pol_sessionExpirySeconds policy =? 0 then SESSION_DURATION_SECONDS else pol_sessionExpirySeconds policy.

Definition calculate_expiry (now owner_max_seconds : Z) : Z :=
  sat_i64 (now + Z.min owner_max_seconds MAX_OWNER_SESSION_DURATION_SECONDS).

(** The expiry a session carries, and whether it has passed. *)
Definition session_expired (s : SessionAuthority) (now : Z) : bool := se_expiresAt s <? now.

(** ** [validate_and_authorize] *)

(** The accounts an instruction names; the vault, its policy, tracker and overlay
    are those of the chain, at their derived addresses. *)
Record AuthorizeKeys : Type := {
  ak_agent : string;
  ak_vaultToken : string;
  ak_mintAccount : string;
  ak_outputStablecoin : option string;
  ak_outputSwap : option string;
  ak_remaining : list string;
}.

Record AuthorizeArgs : Type := {
  aa_tokenMint : string;
  aa_amount : Z;
  aa_targetProtocol : string;
  aa_expectedPolicyVersion : Z;
  aa_expectedNonce : Z;
  aa_expectedIntentDigest : list Z;
}.

(** Where in which transaction, and when. *)
Record Place : Type := { at_topLevel : bool; at_clock : Sysvars; at_tx : list Ix; at_index : nat }.

Definition now_of (p : Place) : Z := sv_unix_timestamp (at_clock p).

Definition load_mint (accounts : gmap string LedgerAccount) (key : string) : result string unit :=
  match accounts !! key with
  | None => Throw "AccountNotInitialized"
  | Some a =>
      _ ← throw_if (negb (bool_decide (la_owner a = TOKEN_PROGRAM_ADDRESS))) "AccountOwnedByWrongProgram";
      throw_if (negb (is_mint (la_data a))) "AccountDidNotDeserialize"
  end.

Definition new_session_key (k : AuthorizeKeys) (a : AuthorizeArgs) (c : Chain) : string :=
  session_key (vs_key (cn_state c)) (ak_agent k) (aa_tokenMint a).

(** The accounts and their constraints: what can be read, the session that must
    not exist yet, then the conditions on what was read. *)
Definition load_authorize (k : AuthorizeKeys) (a : AuthorizeArgs) (c : Chain)
    : result string (TokenView * option (string * TokenView) * option (string * TokenView)) :=
  vault_token ← load_token (cn_accounts c) (ak_vaultToken k);
  _ ← load_mint (cn_accounts c) (ak_mintAccount k);
  output_stablecoin ← load_optional (cn_accounts c) (ak_outputStablecoin k);
  output_swap ← load_optional (cn_accounts c) (ak_outputSwap k);
  _ ← match cn_sessions c !! new_session_key k a c with Some _ => Throw "AccountAlreadyInUse" | None => Ok tt end;
  _ ← throw_if (negb (bool_decide (ak_agent k ∈ ae_pubkey <$> av_agents (vs_vault (cn_state c))))) "UnauthorizedAgent";
  _ ← throw_if (negb (bool_decide (tv_owner vault_token = vs_key (cn_state c)))) "InvalidTokenAccount";
  _ ← throw_if (negb (bool_decide (tv_mint vault_token = ak_mintAccount k))) "InvalidTokenAccount";
  _ ← throw_if (negb (bool_decide (ak_mintAccount k = aa_tokenMint a))) "InvalidTokenAccount";
  Ok (vault_token, output_stablecoin, output_swap).

(** Everything the handler asks before it looks at the transaction; a session
    that was just created has the nonce 0. *)
Definition authorize_guards (p : Place) (k : AuthorizeKeys) (a : AuthorizeArgs) (c : Chain) : result string unit :=
  let vault := vs_vault (cn_state c) in
  let policy := vs_policy (cn_state c) in
  let is_spending := 0 <? aa_amount a in
  _ ← throw_if (negb (at_topLevel p)) "CpiCallNotAllowed";
  _ ← throw_if (negb (bool_decide (compute_scalar_intent_digest (vs_key (cn_state c)) (ak_agent k) (aa_tokenMint a)
        (aa_amount a) (aa_targetProtocol a) = aa_expectedIntentDigest a))) "ErrIntentDigestMismatch";
  _ ← throw_if (negb (0 =? aa_expectedNonce a)) "ErrSessionNonceMismatch";
  _ ← throw_if (negb (pol_policyVersion policy =? aa_expectedPolicyVersion a)) "PolicyVersionMismatch";
  _ ← throw_if (av_observeOnly vault) "ObserveOnlyModeBlocksExecute";
  _ ← throw_if (negb (is_within_operating_hours (pc_operatingHours (cn_pacing c)) (now_of p))) "ErrOutsideOperatingHours";
  _ ← match find_agent_slot encode (ld_overlay (vs_ledger (cn_state c))) (ak_agent k) with
      | Some (slot, _) => throw_if (negb (is_cooldown_elapsed (cn_pacing c) slot (now_of p))) "ErrCooldownActive"
      | None => Ok tt
      end;
  _ ← match av_status vault with Active => Ok tt | _ => Throw "VaultNotActive" end;
  _ ← throw_if (is_agent_paused vault (ak_agent k)) "AgentPaused";
  _ ← throw_if (auto_revoked vault (cn_pacing c) (ak_agent k)) "ErrAutoRevoked";
  _ ← throw_if (negb (has_capability vault (ak_agent k) is_spending)) "InsufficientPermissions";
  _ ← throw_if (negb (is_protocol_allowed policy (aa_targetProtocol a))) "ProtocolNotAllowed";
  build_gate (cn_accounts c) policy (aa_targetProtocol a) (ak_remaining k).

(** The accounts a session pins, with their balances. *)
Record Pins : Type := {
  pn_outputMint : string;
  pn_stablecoinBalance : Z;
  pn_outputStablecoin : string;
  pn_outputSwap : string;
  pn_outputSwapMint : string;
  pn_outputSwapBalance : Z;
}.

Definition no_pins : Pins := {|
  pn_outputMint := NO_KEY; pn_stablecoinBalance := 0; pn_outputStablecoin := NO_KEY; pn_outputSwap := NO_KEY;
  pn_outputSwapMint := NO_KEY; pn_outputSwapBalance := 0 |}.

Definition pin_accounts (a : AuthorizeArgs) (vault : string) (policy : PolicyConfig) (vault_token : TokenView)
    (output_stablecoin output_swap : option (string * TokenView)) : result string Pins :=
  if negb (0 <? aa_amount a) then Ok no_pins else
  if is_stablecoin_mint usdc usdt (aa_tokenMint a) then
    _ ← throw_if ((0 <? pol_maxTransactionSizeUsd policy) && (pol_maxTransactionSizeUsd policy <? aa_amount a)) "TransactionTooLarge";
    let pins key mint balance := {|
      pn_outputMint := aa_tokenMint a; pn_stablecoinBalance := tv_amount vault_token; pn_outputStablecoin := NO_KEY;
      pn_outputSwap := key; pn_outputSwapMint := mint; pn_outputSwapBalance := balance |} in
    match output_swap with
    | None => Ok (pins NO_KEY NO_KEY 0)
    | Some (key, acct) =>
        _ ← throw_if (negb (bool_decide (tv_owner acct = vault))) "ErrOutputNotVaultOwned";
        _ ← throw_if (bool_decide (tv_mint acct = aa_tokenMint a)) "ErrOutputNotVaultOwned";
        Ok (pins key (tv_mint acct) (tv_amount acct))
    end
  else
    match output_stablecoin with
    | None => Throw "InvalidTokenAccount"
    | Some (key, acct) =>
        _ ← throw_if (negb (bool_decide (tv_owner acct = vault))) "InvalidTokenAccount";
        _ ← throw_if (negb (is_stablecoin_mint usdc usdt (tv_mint acct))) "UnsupportedToken";
        Ok {| pn_outputMint := tv_mint acct; pn_stablecoinBalance := tv_amount acct; pn_outputStablecoin := key;
              pn_outputSwap := NO_KEY; pn_outputSwapMint := NO_KEY; pn_outputSwapBalance := 0 |}
    end.

Definition scanned_call (k : AuthorizeKeys) (a : AuthorizeArgs) (c : Chain) : Call := {|
  cl_vault := vs_key (cn_state c); cl_agent := ak_agent k; cl_mint := ak_mintAccount k;
  cl_policyKey := derived derive (policy_seeds encode (vs_key (cn_state c)));
  cl_tracker := derived derive (tracker_seeds encode (vs_key (cn_state c)));
  cl_overlay := derived derive (agent_overlay_seeds encode (vs_key (cn_state c)) 0);
  cl_session := new_session_key k a c; cl_target := aa_targetProtocol a; cl_spending := 0 <? aa_amount a;
  cl_remaining := ak_remaining k |}.

Definition open_session (p : Place) (k : AuthorizeKeys) (a : AuthorizeArgs) (c : Chain) (pins : Pins)
    (snapshots : list (list Z * Z)) : SessionAuthority := {|
  se_vault := vs_key (cn_state c); se_agent := ak_agent k; se_authorized := true;
  se_authorizedAmount := aa_amount a; se_authorizedToken := aa_tokenMint a;
  se_authorizedProtocol := aa_targetProtocol a;
  se_expiresAt := calculate_expiry (now_of p) (effective_session_expiry_seconds (vs_policy (cn_state c)));
  se_delegated := 0 <? aa_amount a; se_delegationTokenAccount := ak_vaultToken k;
  se_outputMint := pn_outputMint pins; se_stablecoinBalanceBefore := pn_stablecoinBalance pins;
  se_snapshots := snapshots; se_nonce := 0; se_outputStablecoinAccount := pn_outputStablecoin pins;
  se_outputSwapAccount := pn_outputSwap pins; se_outputSwapMint := pn_outputSwapMint pins;
  se_outputSwapBalanceBefore := pn_outputSwapBalance pins |}.

(** One session more, the time of this action, and no failures in a row. *)
Definition note_authorized (now : Z) (agent : string) (c : Chain) : result string Pacing :=
  let q := cn_pacing c in
  _ ← throw_if (255 <? pc_activeSessions q + 1) "Overflow";
  last ← match find_agent_slot encode (ld_overlay (vs_ledger (cn_state c))) agent with
         | Some (slot, _) =>
             _ ← throw_if (bool_decide (MAX_OVERLAY_ENTRIES ≤ slot)%nat) "Overflow";
             Ok (<[slot := now]> (pc_lastActionUnix q))
         | None => Ok (pc_lastActionUnix q)
         end;
  let failures := match find_entry (vs_vault (cn_state c)) agent with
                  | Some (i, _) => <[i := 0]> (pc_consecutiveFailures q)
                  | None => pc_consecutiveFailures q
                  end in
  Ok {| pc_operatingHours := pc_operatingHours q; pc_autoRevokeThreshold := pc_autoRevokeThreshold q;
        pc_hasPostAssertions := pc_hasPostAssertions q; pc_cooldownSeconds := pc_cooldownSeconds q;
        pc_lastActionUnix := last; pc_consecutiveFailures := failures;
        pc_activeSessions := pc_activeSessions q + 1;
        pc_totalFailedTransactions := pc_totalFailedTransactions q |}.

Definition authorize (p : Place) (k : AuthorizeKeys) (a : AuthorizeArgs) (c : Chain) : result string Chain :=
  let s := cn_state c in
  '(vault_token, output_stablecoin, output_swap) ← load_authorize k a c;
  _ ← authorize_guards p k a c;
  pins ← pin_accounts a (vs_key s) (vs_policy s) vault_token output_stablecoin output_swap;
  _ ← scan_transaction (account_of (cn_accounts c)) toAddress encode derive (scanned_call k a c)
        (av_agents (vs_vault s)) (vs_policy s) (now_of p) (at_tx p) (at_index p);
  accounts ← (if 0 <? aa_amount a
              then token_approve (cn_accounts c) (ak_vaultToken k) (ak_agent k) (vs_key s) (aa_amount a)
              else Ok (cn_accounts c));
  snapshots ← capture_snapshots toAddress encode derive associated (account_of accounts) (ak_remaining k)
                (pc_hasPostAssertions (cn_pacing c)) (vs_key s);
  pacing ← note_authorized (now_of p) (ak_agent k) c;
  Ok {| cn_accounts := accounts; cn_state := s; cn_pacing := pacing;
        cn_sessions := <[new_session_key k a c := open_session p k a c pins snapshots]> (cn_sessions c) |}.

(** ** [finalize_session] *)

Record FinalizeKeys : Type := {
  fk_payer : string;
  fk_session : string;
  fk_rentRecipient : string;
  fk_vaultToken : option string;
  fk_outputStablecoin : option string;
  fk_outputSwap : option string;
  fk_treasury : option string;
  fk_feeDestination : option string;
  fk_remaining : list string;
}.

(** The optional token accounts as they were loaded. *)
Record Loaded : Type := {
  lo_vaultToken : option (string * TokenView);
  lo_outputStablecoin : option (string * TokenView);
  lo_outputSwap : option (string * TokenView);
  lo_treasury : option (string * TokenView);
  lo_feeDestination : option (string * TokenView);
}.

Definition load_finalize (k : FinalizeKeys) (c : Chain) : result string (SessionAuthority * Loaded) :=
  let vault := vs_key (cn_state c) in
  session ← from_option_or "AccountNotInitialized" (cn_sessions c !! fk_session k);
  vault_token ← load_optional (cn_accounts c) (fk_vaultToken k);
  output_stablecoin ← load_optional (cn_accounts c) (fk_outputStablecoin k);
  output_swap ← load_optional (cn_accounts c) (fk_outputSwap k);
  treasury_token ← load_optional (cn_accounts c) (fk_treasury k);
  fee_destination ← load_optional (cn_accounts c) (fk_feeDestination k);
  _ ← throw_if (negb (bool_decide (fk_session k = session_key vault (se_agent session) (se_authorizedToken session)))) "ConstraintSeeds";
  _ ← throw_if (negb (bool_decide (se_vault session = vault))) "InvalidSession";
  _ ← throw_if (from_option (λ t, negb (bool_decide (tv_owner t.2 = vault))) false vault_token) "InvalidTokenAccount";
  Ok (session, {| lo_vaultToken := vault_token; lo_outputStablecoin := output_stablecoin;
                  lo_outputSwap := output_swap; lo_treasury := treasury_token;
                  lo_feeDestination := fee_destination |}).

Definition finalize_guards (p : Place) (k : FinalizeKeys) (session : SessionAuthority) (l : Loaded)
    : result string unit :=
  let expired := session_expired session (now_of p) in
  _ ← throw_if (negb (at_topLevel p)) "CpiCallNotAllowed";
  _ ← throw_if (negb (bool_decide (fk_rentRecipient k = se_agent session))) "InvalidSession";
  _ ← throw_if (negb expired && negb (bool_decide (fk_payer k = se_agent session))) "UnauthorizedAgent";
  _ ← throw_if (negb expired && negb (se_authorized session)) "SessionNotAuthorized";
  if se_delegated session then
    throw_if (negb (bool_decide (fst <$> lo_vaultToken l = Some (se_delegationTokenAccount session)))) "InvalidTokenAccount"
  else Ok tt.

Definition revoke_delegation (session : SessionAuthority) (l : Loaded) (vault : string)
    (accounts : gmap string LedgerAccount) : result string (gmap string LedgerAccount) :=
  match lo_vaultToken l with
  | Some (key, _) => if se_delegated session then token_revoke accounts key vault else Ok accounts
  | None => Ok accounts
  end.

(** A token account read from its bytes, as they are now. *)
Definition raw_token (err : string) (accounts : gmap string LedgerAccount) (key : string) : result string TokenView :=
  let data := la_data (account_info (account_of accounts) key) in
  _ ← throw_if (bool_decide (length data < 72)%nat) err;
  Ok (view_of data).

Definition owned_balance (err vault mint : string) (accounts : gmap string LedgerAccount) (key : string)
    : result string Z :=
  t ← raw_token err accounts key;
  _ ← throw_if (negb (bool_decide (tv_owner t = vault))) err;
  _ ← throw_if (negb (bool_decide (tv_mint t = mint))) err;
  Ok (tv_amount t).

Definition stablecoin_input (session : SessionAuthority) : bool :=
  is_stablecoin_mint usdc usdt (se_authorizedToken session).

Definition measured_balance (session : SessionAuthority) (l : Loaded) (vault : string)
    (accounts : gmap string LedgerAccount) : result string Z :=
  if stablecoin_input session then
    key ← from_option_or "InvalidTokenAccount" (fst <$> lo_vaultToken l);
    owned_balance "InvalidTokenAccount" vault (se_authorizedToken session) accounts key
  else
    key ← from_option_or "InvalidTokenAccount" (fst <$> lo_outputStablecoin l);
    _ ← throw_if (negb (bool_decide (key = se_outputStablecoinAccount session))) "InvalidTokenAccount";
    owned_balance "InvalidTokenAccount" vault (se_outputMint session) accounts key.

Definition enforce_output_ownership (session : SessionAuthority) (l : Loaded) (vault : string)
    (accounts : gmap string LedgerAccount) : result string unit :=
  key ← from_option_or "ErrOutputNotVaultOwned" (fst <$> lo_outputSwap l);
  _ ← throw_if (negb (bool_decide (key = se_outputSwapAccount session))) "ErrOutputNotVaultOwned";
  amount ← owned_balance "ErrOutputNotVaultOwned" vault (se_outputSwapMint session) accounts key;
  throw_if (amount <=? se_outputSwapBalanceBefore session) "ErrOutputNotVaultOwned".

Definition enforce_measurable_outcome (run_outcome_check : bool) (actual_spend : Z) (session : SessionAuthority)
    (l : Loaded) (vault : string) (accounts : gmap string LedgerAccount) : result string unit :=
  if run_outcome_check && (actual_spend =? 0) then
    if bool_decide (se_outputSwapAccount session = NO_KEY) then Throw "ErrUnmeasurableSpend"
    else enforce_output_ownership session l vault accounts
  else Ok tt.

(** One transfer of [transfer_measured_fees]; the payee's account is checked as
    it was loaded. *)
Definition pay_measured_fee (err payee mint source vault : string) (account : option (string * TokenView)) (fee : Z)
    (accounts : gmap string LedgerAccount) : result string (gmap string LedgerAccount) :=
  if 0 <? fee then
    '(key, t) ← from_option_or err account;
    _ ← throw_if (negb (bool_decide (tv_owner t = payee))) err;
    _ ← throw_if (negb (bool_decide (tv_mint t = mint))) err;
    token_pay accounts source key vault fee
  else Ok accounts.

Definition transfer_measured_fees (protocol_fee developer_fee : Z) (source vault mint fee_owner : string) (l : Loaded)
    (accounts : gmap string LedgerAccount) : result string (gmap string LedgerAccount) :=
  accounts ← pay_measured_fee "InvalidProtocolTreasury" treasury mint source vault (lo_treasury l) protocol_fee accounts;
  pay_measured_fee "InvalidFeeDestination" fee_owner mint source vault (lo_feeDestination l) developer_fee accounts.

(** What the outcome block leaves: the measured movement, its direction, the
    developer's fee, the token accounts and the ledger. *)
Record Outcome : Type := {
  oc_actualSpend : Z;
  oc_inflow : bool;
  oc_developerFee : Z;
  oc_accounts : gmap string LedgerAccount;
  oc_ledger : Ledger;
}.

(** A spend of stablecoins: something was acquired, the fees on what left count
    for every cap, and are paid. *)
Definition spend_outcome (session : SessionAuthority) (l : Loaded) (s : VaultState) (now actual_spend : Z)
    (accounts : gmap string LedgerAccount) : result string Outcome :=
  _ ← enforce_output_ownership session l (vs_key s) accounts;
  protocol_fee ← ceil_fee actual_spend PROTOCOL_FEE_RATE;
  developer_fee ← ceil_fee actual_spend (pol_developerFeeRate (vs_policy s));
  ledger ← finalize_spend encode (vs_policy s) (av_agents (vs_vault s)) (se_agent session)
             (se_authorizedProtocol session) now actual_spend (vs_ledger s);
  source ← from_option_or "InvalidTokenAccount" (fst <$> lo_vaultToken l);
  accounts ← transfer_measured_fees protocol_fee developer_fee source (vs_key s) (se_authorizedToken session)
               (av_feeDestination (vs_vault s)) l accounts;
  _ ← SpendLedger.checked_add (av_totalFeesCollected (vs_vault s)) developer_fee;
  Ok {| oc_actualSpend := actual_spend; oc_inflow := false; oc_developerFee := developer_fee;
        oc_accounts := accounts; oc_ledger := ledger |}.

Definition measure_outcome (session : SessionAuthority) (l : Loaded) (s : VaultState) (now : Z)
    (accounts : gmap string LedgerAccount) : result string Outcome :=
  let before := se_stablecoinBalanceBefore session in
  current ← measured_balance session l (vs_key s) accounts;
  _ ← throw_if (stablecoin_input session && se_delegated session && (current <? before) &&
                (se_authorizedAmount session <? sat_sub before current)) "UnexpectedBalanceDecrease";
  if stablecoin_input session then
    let actual_spend := sat_sub before current in
    if 0 <? actual_spend then spend_outcome session l s now actual_spend accounts
    else Ok {| oc_actualSpend := actual_spend; oc_inflow := false; oc_developerFee := 0;
               oc_accounts := accounts; oc_ledger := vs_ledger s |}
  else
    _ ← throw_if (current <=? before) "NonTrackedSwapMustReturnStablecoin";
    let stablecoin_delta := current - before in
    ledger ← finalize_charge encode (vs_policy s) (av_agents (vs_vault s)) (se_agent session)
               (se_authorizedProtocol session) now stablecoin_delta (vs_ledger s);
    Ok {| oc_actualSpend := stablecoin_delta; oc_inflow := true; oc_developerFee := 0;
          oc_accounts := accounts; oc_ledger := ledger |}.

(** *** Recipients *)

Definition MAX_RECIPIENT_WALK_ITERATIONS : nat := 64.

(** The allowed wallet that a written stablecoin account belongs to, if it is
    one. *)
Definition recipient_of (policy : PolicyConfig) (vault : string) (accounts : gmap string LedgerAccount)
    (remaining : list string) (meta : AccountMeta) : option string :=
  if negb (is_writable (acc_role meta)) then None else
  match resolve (account_of accounts) remaining (acc_address meta) with
  | None => None
  | Some info =>
      if negb (is_token_program (la_owner info)) || bool_decide (length (la_data info) < 72)%nat then None else
      let recipient := token_owner toAddress (la_data info) in
      if bool_decide (recipient = vault) || negb (is_stablecoin_mint usdc usdt (token_mint toAddress (la_data info))) ||
         negb (is_destination_allowed policy recipient) then None else Some recipient
  end.

Fixpoint recipient_walk (policy : PolicyConfig) (vault : string) (accounts : gmap string LedgerAccount)
    (remaining : list string) (iterations : nat) (seen : option string) (metas : list AccountMeta)
    : result string (option string) :=
  match metas with
  | [] => Ok seen
  | meta :: rest =>
      _ ← throw_if (bool_decide (MAX_RECIPIENT_WALK_ITERATIONS ≤ iterations)%nat) "IxMetaCountExceeded";
      match recipient_of policy vault accounts remaining meta, seen with
      | None, _ => recipient_walk policy vault accounts remaining (S iterations) seen rest
      | Some r, None => recipient_walk policy vault accounts remaining (S iterations) (Some r) rest
      | Some r, Some prev =>
          _ ← throw_if (negb (bool_decide (prev = r))) "ErrRecipientCapExceeded";
          recipient_walk policy vault accounts remaining (S iterations) seen rest
      end
  end.

(** The block of the per-recipient cap: the protocol's instruction is the one
    before. *)
Definition charge_recipient (p : Place) (policy : PolicyConfig) (vault : string) (remaining : list string)
    (actual_spend : Z) (accounts : gmap string LedgerAccount) (r : Recipients) : result string Recipients :=
  if negb ((0 <? pol_perRecipientDailyCapUsd policy) && (0 <? actual_spend)) then Ok r else
  match at_index p with
  | O => Throw "InvalidSession"
  | S before =>
      match at_tx p !! before with
      | None => Throw "ErrRecipientCapExceeded"
      | Some defi =>
          seen ← recipient_walk policy vault accounts remaining 0 None (accounts_of defi);
          match seen with
          | Some recipient => recipient_charge policy (now_of p) (encode recipient) actual_spend r
          | None => Ok r
          end
      end
  end.

(** *** The floor *)

Definition MAX_FLOOR_WALK_ITERATIONS : nat := 64.

(** The amount of an account that counts: the vault's own associated account of a
    stablecoin, read as it is now. *)
Definition floor_amount (vault : string) (accounts : gmap string LedgerAccount) (key : string) : option Z :=
  let info := account_info (account_of accounts) key in
  let mint := token_mint toAddress (la_data info) in
  if bool_decide (length (la_data info) < 72)%nat then None else
  if bool_decide (token_owner toAddress (la_data info) = vault) && is_stablecoin_mint usdc usdt mint &&
     bool_decide (key = associated vault mint (la_owner info))
  then Some (token_amount (la_data info)) else None.

Definition add_counted (combined : Z) (amount : option Z) : result string Z :=
  match amount with Some n => SpendLedger.checked_add combined n | None => Ok combined end.

Fixpoint session_floor_walk (vault : string) (accounts : gmap string LedgerAccount) (iterations : nat)
    (seen : list string) (combined : Z) (remaining : list string) : result string Z :=
  match remaining with
  | [] => Ok combined
  | key :: rest =>
      _ ← throw_if (bool_decide (MAX_FLOOR_WALK_ITERATIONS ≤ iterations)%nat) "IxMetaCountExceeded";
      if bool_decide (key ∈ seen) then session_floor_walk vault accounts (S iterations) seen combined rest else
      if negb (is_token_program (la_owner (account_info (account_of accounts) key)))
      then session_floor_walk vault accounts (S iterations) seen combined rest else
      match floor_amount vault accounts key with
      | None => session_floor_walk vault accounts (S iterations) seen combined rest
      | Some amount =>
          combined' ← SpendLedger.checked_add combined amount;
          session_floor_walk vault accounts (S iterations) (seen ++ [key]) combined' rest
      end
  end.

Definition session_floor_check (policy : PolicyConfig) (vault : string) (l : Loaded) (remaining : list string)
    (accounts : gmap string LedgerAccount) : result string unit :=
  let floor := pol_stableBalanceFloor policy in
  if negb (0 <? floor) then Ok tt else
  let input := fst <$> lo_vaultToken l in
  let output := fst <$> lo_outputStablecoin l in
  combined ← add_counted 0 (input ≫= floor_amount vault accounts);
  combined ← add_counted combined (if bool_decide (output = input) then None else output ≫= floor_amount vault accounts);
  combined ← session_floor_walk vault accounts 0 (option_list input ++ option_list output) combined remaining;
  throw_if (combined <? floor) "ErrStableFloorViolation".

(** *** The whole handler *)

Definition with_session_stats (expired is_spending : bool) (actual_spend developer_fee : Z) (v : AgentVault)
    : result string AgentVault :=
  fees ← (if 0 <? developer_fee then SpendLedger.checked_add (av_totalFeesCollected v) developer_fee
          else Ok (av_totalFeesCollected v));
  txs ← (if expired then Ok (av_totalTransactions v) else SpendLedger.checked_add (av_totalTransactions v) 1);
  volume ← (if negb expired && is_spending then SpendLedger.checked_add (av_totalVolume v) actual_spend
            else Ok (av_totalVolume v));
  Ok {| av_agents := av_agents v; av_status := av_status v; av_feeDestination := av_feeDestination v;
        av_owner := av_owner v; av_totalVolume := volume; av_totalFeesCollected := fees;
        av_observeOnly := av_observeOnly v; av_totalDepositedUsd := av_totalDepositedUsd v;
        av_totalWithdrawnUsd := av_totalWithdrawnUsd v; av_totalTransactions := txs;
        av_createdAt := av_createdAt v |}.

(** One session less, and one failure more when it expired. *)
Definition note_finalized (expired : bool) (q : Pacing) : result string Pacing :=
  failed ← (if expired then SpendLedger.checked_add (pc_totalFailedTransactions q) 1 else Ok (pc_totalFailedTransactions q));
  Ok {| pc_operatingHours := pc_operatingHours q; pc_autoRevokeThreshold := pc_autoRevokeThreshold q;
        pc_hasPostAssertions := pc_hasPostAssertions q; pc_cooldownSeconds := pc_cooldownSeconds q;
        pc_lastActionUnix := pc_lastActionUnix q; pc_consecutiveFailures := pc_consecutiveFailures q;
        pc_activeSessions := sat_sub (pc_activeSessions q) 1;
        pc_totalFailedTransactions := failed |}.

(** Everything between the revocation and the audit entry. *)
Definition settle (p : Place) (k : FinalizeKeys) (session : SessionAuthority) (l : Loaded) (c : Chain)
    (accounts : gmap string LedgerAccount) : result string (Outcome * Recipients * AgentVault * Pacing) :=
  let s := cn_state c in
  let expired := session_expired session (now_of p) in
  let run_outcome_check := negb expired && negb (bool_decide (se_outputMint session = NO_KEY)) in
  o ← (if run_outcome_check then measure_outcome session l s (now_of p) accounts
       else Ok {| oc_actualSpend := 0; oc_inflow := false; oc_developerFee := 0; oc_accounts := accounts;
                  oc_ledger := vs_ledger s |});
  _ ← enforce_measurable_outcome run_outcome_check (oc_actualSpend o) session l (vs_key s) (oc_accounts o);
  _ ← (if run_outcome_check && (0 <? oc_actualSpend o)
       then completeness_from_sysvar (at_tx p) (at_index p) (fk_remaining k) (vs_key s)
       else Ok tt);
  recipients ← charge_recipient p (vs_policy s) (vs_key s) (fk_remaining k) (oc_actualSpend o) (oc_accounts o) (vs_recipients s);
  _ ← session_floor_check (vs_policy s) (vs_key s) l (fk_remaining k) (oc_accounts o);
  vault ← with_session_stats expired (0 <? se_authorizedAmount session) (oc_actualSpend o) (oc_developerFee o) (vs_vault s);
  _ ← (if negb expired && negb (pc_hasPostAssertions (cn_pacing c) =? 0)
       then enforce_post_execution_assertions toAddress encode derive associated (account_of (oc_accounts o))
              (fk_remaining k) (vs_key s) (at_tx p) (at_index p) (se_snapshots session)
       else Ok tt);
  pacing ← note_finalized expired (cn_pacing c);
  Ok (o, recipients, vault, pacing).

Definition finalize (p : Place) (k : FinalizeKeys) (c : Chain) : result string Chain :=
  let s := cn_state c in
  '(session, l) ← load_finalize k c;
  let expired := session_expired session (now_of p) in
  _ ← finalize_guards p k session l;
  revoked ← revoke_delegation session l (vs_key s) (cn_accounts c);
  '(o, recipients, vault, pacing) ← settle p k session l c revoked;
  _ ← SpendLedger.checked_add (se_nonce session) 1;
  logs ← finalize_session_audit expired (oc_inflow o) (encode (se_authorizedProtocol session)) (oc_actualSpend o)
           (at_clock p) (vs_logs s);
  _ ← post_scan (at_tx p) (at_index p);
  Ok {| cn_accounts := oc_accounts o;
        cn_state := {| vs_key := vs_key s; vs_vault := vault; vs_policy := vs_policy s;
                       vs_ledger := oc_ledger o; vs_recipients := recipients; vs_logs := logs |};
        cn_pacing := pacing; cn_sessions := delete (fk_session k) (cn_sessions c) |}.

(** ** What an authorisation went through *)

(** The balance in the bytes of a token account. *)
Definition balance_at (accounts : gmap string LedgerAccount) (key : string) : Z :=
  token_amount (la_data (account_info (account_of accounts) key)).

Lemma load_token_Ok accounts key v :
  load_token accounts key = Ok v →
  ∃ a, accounts !! key = Some a ∧ la_owner a = TOKEN_PROGRAM_ADDRESS ∧ v = view_of (la_data a).
Proof.
  unfold load_token. destruct (accounts !! key) as [a|]; [|done]. intros Hx. inv_ok. exists a.
  split_and!; [done| |done]. by apply negb_false_iff, bool_decide_eq_true in E.
Qed.

Lemma load_optional_Ok accounts key t :
  load_optional accounts key = Ok t →
  match t with
  | None => key = None
  | Some (k, v) => key = Some k ∧ load_token accounts k = Ok v
  end.
Proof. destruct key as [k|]; cbn [load_optional]; intros Hx; inv_ok; [|done]. by split. Qed.

(** The handler, one block after the other. *)
Record authorising (p : Place) (k : AuthorizeKeys) (a : AuthorizeArgs) (c c' : Chain) (pins : Pins)
    (snapshots : list (list Z * Z)) : Prop := {
  az_guards : authorize_guards p k a c = Ok tt;
  az_fresh : cn_sessions c !! new_session_key k a c = None;
  az_agent : ak_agent k ∈ ae_pubkey <$> av_agents (vs_vault (cn_state c));
  az_token : load_token (cn_accounts c) (ak_vaultToken k) =
             Ok {| tv_mint := aa_tokenMint a; tv_owner := vs_key (cn_state c);
                   tv_amount := balance_at (cn_accounts c) (ak_vaultToken k) |};
  az_pins : ∃ os sw, load_optional (cn_accounts c) (ak_outputStablecoin k) = Ok os ∧
              load_optional (cn_accounts c) (ak_outputSwap k) = Ok sw ∧
              pin_accounts a (vs_key (cn_state c)) (vs_policy (cn_state c))
                {| tv_mint := aa_tokenMint a; tv_owner := vs_key (cn_state c);
                   tv_amount := balance_at (cn_accounts c) (ak_vaultToken k) |} os sw = Ok pins;
  az_scan : scan_transaction (account_of (cn_accounts c)) toAddress encode derive (scanned_call k a c)
              (av_agents (vs_vault (cn_state c))) (vs_policy (cn_state c)) (now_of p) (at_tx p) (at_index p) = Ok tt;
  az_approve : if 0 <? aa_amount a
               then token_approve (cn_accounts c) (ak_vaultToken k) (ak_agent k) (vs_key (cn_state c)) (aa_amount a) =
                    Ok (cn_accounts c')
               else cn_accounts c' = cn_accounts c;
  az_state : cn_state c' = cn_state c;
  az_pacing : note_authorized (now_of p) (ak_agent k) c = Ok (cn_pacing c');
  az_session : cn_sessions c' = <[new_session_key k a c := open_session p k a c pins snapshots]> (cn_sessions c);
  az_snapshots : capture_snapshots toAddress encode derive associated (account_of (cn_accounts c')) (ak_remaining k)
                   (pc_hasPostAssertions (cn_pacing c)) (vs_key (cn_state c)) = Ok snapshots;
}.

Lemma load_authorize_Ok k a c vt os sw :
  load_authorize k a c = Ok (vt, os, sw) →
  load_token (cn_accounts c) (ak_vaultToken k) = Ok vt ∧
  load_optional (cn_accounts c) (ak_outputStablecoin k) = Ok os ∧
  load_optional (cn_accounts c) (ak_outputSwap k) = Ok sw ∧
  cn_sessions c !! new_session_key k a c = None ∧
  ak_agent k ∈ ae_pubkey <$> av_agents (vs_vault (cn_state c)) ∧
  tv_owner vt = vs_key (cn_state c) ∧ tv_mint vt = aa_tokenMint a.
Proof.
  unfold load_authorize. intros (vt' & H1 & (u & _ & (os' & H2 & (sw' & H3 & Hx)%bind_Ok_inv)%bind_Ok_inv)%bind_Ok_inv)%bind_Ok_inv.
  destruct (cn_sessions c !! _) eqn:E0; [done|]. inv_ok.
  apply negb_false_iff, bool_decide_eq_true in E1, E2, E3, E4. split_and!; try done. congruence.
Qed.

Lemma authorize_Ok p k a c c' :
  authorize p k a c = Ok c' → ∃ pins snapshots, authorising p k a c c' pins snapshots.
Proof.
  unfold authorize.
  intros ([[vt os] sw] & Hl & ([] & Hg & (pins & Hp & ([] & Hs & (accounts & Ha & (snaps & Hc & (q & Hn & Hx)%bind_Ok_inv)
    %bind_Ok_inv)%bind_Ok_inv)%bind_Ok_inv)%bind_Ok_inv)%bind_Ok_inv)%bind_Ok_inv.
  injection Hx as <-. apply load_authorize_Ok in Hl as (Ht & Hos & Hsw & Hf & Hag & Ho & Hm).
  assert (vt = {| tv_mint := aa_tokenMint a; tv_owner := vs_key (cn_state c);
                  tv_amount := balance_at (cn_accounts c) (ak_vaultToken k) |}) as ->.
  { destruct (load_token_Ok _ _ _ Ht) as (x & Hx & _ & ->). cbn in Ho, Hm. unfold view_of.
    rewrite <- Ho, <- Hm. unfold balance_at, account_info, account_of. by rewrite Hx. }
  exists pins, snaps. split; cbn [cn_accounts cn_state cn_pacing cn_sessions]; try done; [by exists os, sw|].
  destruct (0 <? aa_amount a); [done|by injection Ha as <-].
Qed.

(** ** Delegating moves nothing *)

Definition data_at (accounts : gmap string LedgerAccount) (key : string) : list Z :=
  la_data (account_info (account_of accounts) key).

(** Two ledgers in which every token account has the same mint, owner and
    amount. *)
Definition same_tokens (accounts accounts' : gmap string LedgerAccount) : Prop :=
  ∀ key, take 72 (data_at accounts' key) = take 72 (data_at accounts key) ∧
         length (data_at accounts' key) = length (data_at accounts key).

Lemma same_tokens_refl accounts : same_tokens accounts accounts.
Proof. by intros key. Qed.

Lemma same_tokens_insert accounts key x x' :
  accounts !! key = Some x → length (la_data x') = length (la_data x) → take 72 (la_data x') = take 72 (la_data x) →
  same_tokens accounts (<[key := x']> accounts).
Proof.
  intros Hx Hl Ht key'. unfold data_at, account_info, account_of.
  destruct (decide (key = key')) as [<-|Hne]; [by rewrite lookup_insert_eq, Hx|by rewrite lookup_insert_ne].
Qed.

(** What lies in the first 72 bytes. *)
Lemma slice_of_head (l l' : list Z) (offset len : nat) :
  (offset + len ≤ 72)%nat → take 72 l' = take 72 l → take len (drop offset l') = take len (drop offset l).
Proof.
  intros Hle Ht. rewrite !take_drop_commute. f_equal.
  by rewrite <- (Nat.min_l (offset + len) 72), <- !take_take, Ht.
Qed.

Lemma same_tokens_view accounts accounts' key :
  same_tokens accounts accounts' → view_of (data_at accounts' key) = view_of (data_at accounts key).
Proof.
  intros H. destruct (H key) as [Ht _]. unfold view_of, token_mint, token_owner, token_amount.
  rewrite (slice_of_head _ _ 32 32 ltac:(lia) Ht), (slice_of_head _ _ 64 8 ltac:(lia) Ht).
  by rewrite <- (drop_0 (data_at accounts' key)), (slice_of_head _ _ 0 32 ltac:(lia) Ht), drop_0.
Qed.

Lemma same_tokens_balance accounts accounts' key :
  same_tokens accounts accounts' → balance_at accounts' key = balance_at accounts key.
Proof. intros H. apply (f_equal tv_amount (same_tokens_view _ _ key H)). Qed.

Lemma owned_balance_Ok err vault mint accounts key n :
  owned_balance err vault mint accounts key = Ok n →
  view_of (data_at accounts key) = {| tv_mint := mint; tv_owner := vault; tv_amount := n |} ∧
  n = balance_at accounts key.
Proof.
  unfold owned_balance, raw_token. fold (data_at accounts key). intros Hx. inv_ok. cbn in *.
  apply negb_false_iff, bool_decide_eq_true in E0, E1. subst. by split.
Qed.

Context {L : LawfulTokenOps T}.

Lemma authorize_moves_nothing p k a c c' pins snapshots :
  authorising p k a c c' pins snapshots → same_tokens (cn_accounts c) (cn_accounts c').
Proof.
  intros [_ _ _ _ _ _ Ha _ _ _ _]. destruct (0 <? aa_amount a); [|rewrite Ha; apply same_tokens_refl].
  apply approve_spec in Ha as (x & x' & Hx & -> & _ & Hl & Ht). by eapply same_tokens_insert.
Qed.

(** A session that was delegated is not any more, and the revocation moves
    nothing. *)
Lemma revoke_Ok session l vault accounts accounts' :
  revoke_delegation session l vault accounts = Ok accounts' →
  same_tokens accounts accounts' ∧
  (∀ key, se_delegated session = true → fst <$> lo_vaultToken l = Some key →
     has_delegate (data_at accounts' key) = false).
Proof.
  unfold revoke_delegation. destruct (lo_vaultToken l) as [[k v]|]; [|intros [= <-]; split; [apply same_tokens_refl|done]].
  destruct (se_delegated session); [|intros [= <-]; split; [apply same_tokens_refl|done]].
  intros (x & x' & Hx & -> & _ & Hl & Ht & Hd)%revoke_spec. split; [by eapply same_tokens_insert|].
  intros key _ [= <-]. unfold data_at, account_info, account_of. by rewrite lookup_insert_eq.
Qed.

Lemma pay_measured_fee_Ok err payee mint source vault account fee accounts accounts' :
  pay_measured_fee err payee mint source vault account fee accounts = Ok accounts' →
  has_delegate (data_at accounts source) = false → has_delegate (data_at accounts' source) = false.
Proof.
  unfold pay_measured_fee. destruct (0 <? fee); [|by intros [= <-]].
  intros ([k t] & _ & Hx)%bind_Ok_inv. inv_ok. apply pay_spec in Hx as (y & y' & H1 & H2 & Hd).
  unfold data_at, account_info, account_of. rewrite H1, H2. apply Hd.
Qed.

(** ** What a finalisation went through *)

Definition runs_outcome_check (p : Place) (session : SessionAuthority) : bool :=
  negb (session_expired session (now_of p)) && negb (bool_decide (se_outputMint session = NO_KEY)).

Record finalising (p : Place) (k : FinalizeKeys) (c c' : Chain) (session : SessionAuthority) (l : Loaded)
    (accounts : gmap string LedgerAccount) (o : Outcome) : Prop := {
  fz_session : cn_sessions c !! fk_session k = Some session;
  fz_swap : load_optional (cn_accounts c) (fk_outputSwap k) = Ok (lo_outputSwap l);
  fz_guards : finalize_guards p k session l = Ok tt;
  fz_revoked : revoke_delegation session l (vs_key (cn_state c)) (cn_accounts c) = Ok accounts;
  fz_outcome : if runs_outcome_check p session then measure_outcome session l (cn_state c) (now_of p) accounts = Ok o
               else o = {| oc_actualSpend := 0; oc_inflow := false; oc_developerFee := 0; oc_accounts := accounts;
                           oc_ledger := vs_ledger (cn_state c) |};
  fz_measurable : enforce_measurable_outcome (runs_outcome_check p session) (oc_actualSpend o) session l
                    (vs_key (cn_state c)) (oc_accounts o) = Ok tt;
  fz_accounts : cn_accounts c' = oc_accounts o;
  fz_key : vs_key (cn_state c') = vs_key (cn_state c);
  fz_ledger : vs_ledger (cn_state c') = oc_ledger o;
  fz_logs : finalize_session_audit (session_expired session (now_of p)) (oc_inflow o)
              (encode (se_authorizedProtocol session)) (oc_actualSpend o) (at_clock p) (vs_logs (cn_state c)) =
            Ok (vs_logs (cn_state c'));
  fz_pacing : note_finalized (session_expired session (now_of p)) (cn_pacing c) = Ok (cn_pacing c');
  fz_sessions : cn_sessions c' = delete (fk_session k) (cn_sessions c);
  fz_assertions : negb (session_expired session (now_of p)) && negb (pc_hasPostAssertions (cn_pacing c) =? 0) = true →
    enforce_post_execution_assertions toAddress encode derive associated (account_of (oc_accounts o)) (fk_remaining k)
      (vs_key (cn_state c)) (at_tx p) (at_index p) (se_snapshots session) = Ok tt;
}.

Lemma load_finalize_Ok k c session l :
  load_finalize k c = Ok (session, l) →
  cn_sessions c !! fk_session k = Some session ∧
  load_optional (cn_accounts c) (fk_outputSwap k) = Ok (lo_outputSwap l).
Proof.
  unfold load_finalize. intros Hx. destruct (cn_sessions c !! fk_session k) as [s|]; [|done]. cbn [from_option_or] in Hx.
  inv_ok. by split.
Qed.

Lemma settle_Ok p k session l c accounts o recipients vault pacing :
  settle p k session l c accounts = Ok (o, recipients, vault, pacing) →
  (if runs_outcome_check p session then measure_outcome session l (cn_state c) (now_of p) accounts = Ok o
   else o = {| oc_actualSpend := 0; oc_inflow := false; oc_developerFee := 0; oc_accounts := accounts;
               oc_ledger := vs_ledger (cn_state c) |}) ∧
  enforce_measurable_outcome (runs_outcome_check p session) (oc_actualSpend o) session l
    (vs_key (cn_state c)) (oc_accounts o) = Ok tt ∧
  note_finalized (session_expired session (now_of p)) (cn_pacing c) = Ok pacing ∧
  (negb (session_expired session (now_of p)) && negb (pc_hasPostAssertions (cn_pacing c) =? 0) = true →
   enforce_post_execution_assertions toAddress encode derive associated (account_of (oc_accounts o)) (fk_remaining k)
     (vs_key (cn_state c)) (at_tx p) (at_index p) (se_snapshots session) = Ok tt).
Proof.
  unfold settle. fold (runs_outcome_check p session). 
  intros (o' & Ho & ([] & Hm & (u & _ & (r & _ & (u' & _ & (v & _ & ([] & Hpa & (q & Hq & Hx)%bind_Ok_inv)%bind_Ok_inv)
    %bind_Ok_inv)%bind_Ok_inv)%bind_Ok_inv)%bind_Ok_inv)%bind_Ok_inv)%bind_Ok_inv.
  injection Hx as <- <- <- <-. split_and!; [|done|done|by intros Hc; rewrite Hc in Hpa]. destruct (runs_outcome_check p session); [done|by injection Ho as <-].
Qed.

Lemma finalize_Ok p k c c' :
  finalize p k c = Ok c' → ∃ session l accounts o, finalising p k c c' session l accounts o.
Proof.
  unfold finalize. intros ([session l] & [Hs Hw]%load_finalize_Ok & ([] & Hg & (accounts & Hr &
    ([[[o recipients] vault] pacing] & Ht & (u & _ & (logs & Hl & (u' & _ & Hx)%bind_Ok_inv)%bind_Ok_inv)%bind_Ok_inv)
    %bind_Ok_inv)%bind_Ok_inv)%bind_Ok_inv)%bind_Ok_inv.
  injection Hx as <-. apply settle_Ok in Ht as (Ho & Hm & Hq & Hpa). exists session, l, accounts, o. by split.
Qed.

(** ** The measured outcome *)

(** The account a session pinned for what it acquires is the vault's, of another
    mint, and holds more than when the session began. *)
Definition acquired (vault : string) (session : SessionAuthority) (accounts : gmap string LedgerAccount) : Prop :=
  let key := se_outputSwapAccount session in
  tv_owner (view_of (data_at accounts key)) = vault ∧
  tv_mint (view_of (data_at accounts key)) = se_outputSwapMint session ∧
  se_outputSwapBalanceBefore session < balance_at accounts key.

Lemma output_ownership_Ok session l vault accounts u :
  enforce_output_ownership session l vault accounts = Ok u →
  fst <$> lo_outputSwap l = Some (se_outputSwapAccount session) ∧ acquired vault session accounts.
Proof.
  unfold enforce_output_ownership. intros (key & Hk & (u' & E%throw_if_Ok & (n & [Hv ->]%owned_balance_Ok & Hx%throw_if_Ok)
    %bind_Ok_inv)%bind_Ok_inv)%bind_Ok_inv.
  apply negb_false_iff, bool_decide_eq_true in E as ->. apply Z.leb_gt in Hx.
  split; [destruct (fst <$> _); [by injection Hk as <-|done]|]. unfold acquired. by rewrite Hv.
Qed.

Lemma spend_outcome_Ok session l s now n accounts o :
  spend_outcome session l s now n accounts = Ok o →
  fst <$> lo_outputSwap l = Some (se_outputSwapAccount session) ∧ acquired (vs_key s) session accounts ∧
  oc_actualSpend o = n ∧ oc_inflow o = false ∧
  finalize_spend encode (vs_policy s) (av_agents (vs_vault s)) (se_agent session) (se_authorizedProtocol session)
    now n (vs_ledger s) = Ok (oc_ledger o) ∧
  (∀ key, fst <$> lo_vaultToken l = Some key →
     has_delegate (data_at accounts key) = false → has_delegate (data_at (oc_accounts o) key) = false).
Proof.
  unfold spend_outcome. intros (u & [Hp Ha]%output_ownership_Ok & (pf & _ & (df & _ & (ledger & Hl & (source & Hs &
    (w & Hw & (f & _ & Hx)%bind_Ok_inv)%bind_Ok_inv)%bind_Ok_inv)%bind_Ok_inv)%bind_Ok_inv)%bind_Ok_inv)%bind_Ok_inv.
  injection Hx as <-. split_and!; try done. intros key Hk Hd. cbn [oc_accounts].
  rewrite Hk in Hs. injection Hs as <-. unfold transfer_measured_fees in Hw.
  apply bind_Ok_inv in Hw as (w' & H1 & H2). eapply pay_measured_fee_Ok; [exact H2|]. by eapply pay_measured_fee_Ok.
Qed.

Lemma measure_outcome_spend session l s now accounts o key :
  stablecoin_input session = true → se_delegated session = true → fst <$> lo_vaultToken l = Some key →
  0 ≤ se_authorizedAmount session →
  measure_outcome session l s now accounts = Ok o →
  let loss := se_stablecoinBalanceBefore session - balance_at accounts key in
  loss ≤ se_authorizedAmount session ∧
  if 0 <? loss then spend_outcome session l s now loss accounts = Ok o
  else o = {| oc_actualSpend := 0; oc_inflow := false; oc_developerFee := 0; oc_accounts := accounts;
              oc_ledger := vs_ledger s |}.
Proof.
  unfold measure_outcome, measured_balance. intros -> -> -> H0. cbn [fmap option_fmap option_map from_option_or mbind result_bind].
  intros (n & [_ ->]%owned_balance_Ok & (u & E%throw_if_Ok & Hx)%bind_Ok_inv)%bind_Ok_inv. cbn [andb] in *.
  revert Hx E. unfold sat_sub. set (loss := _ - balance_at accounts key). intros Hx E.
  rewrite andb_false_iff, Z.ltb_ge, Z.ltb_ge in E. split; [lia|].
  destruct (0 <? loss) eqn:El; [apply Z.ltb_lt in El|apply Z.ltb_ge in El].
  - rewrite Z.max_r in Hx by lia. rewrite (proj2 (Z.ltb_lt 0 loss)) in Hx by lia. done.
  - rewrite Z.max_l in Hx by lia. by injection Hx as <-.
Qed.

Lemma pin_accounts_spend a vault policy vt os sw pins :
  0 < aa_amount a → is_stablecoin_mint usdc usdt (aa_tokenMint a) = true →
  pin_accounts a vault policy vt os sw = Ok pins →
  (0 < pol_maxTransactionSizeUsd policy → aa_amount a ≤ pol_maxTransactionSizeUsd policy) ∧
  pn_outputMint pins = aa_tokenMint a ∧ pn_stablecoinBalance pins = tv_amount vt ∧
  match sw with
  | None => pn_outputSwap pins = NO_KEY
  | Some (key, acct) => pn_outputSwap pins = key ∧ pn_outputSwapMint pins = tv_mint acct ∧
                        tv_mint acct ≠ aa_tokenMint a ∧ pn_outputSwapBalance pins = tv_amount acct
  end.
Proof.
  unfold pin_accounts. intros Ha%Z.ltb_lt Hs. rewrite Ha, Hs. cbn [negb].
  intros (u & E%throw_if_Ok & Hx)%bind_Ok_inv.
  split; [intros Hp%Z.ltb_lt; rewrite Hp in E; by apply Z.ltb_ge in E|].
  destruct sw as [[key acct]|]; [|by injection Hx as <-]. inv_ok.
  apply bool_decide_eq_false in E1. done.
Qed.

(** ** Sessions and the clock *)

Lemma calculate_expiry_later now seconds :
  now ≤ I64_MAX → 0 ≤ seconds → now ≤ calculate_expiry now seconds.
Proof. unfold calculate_expiry, sat_i64, I64_MAX, MAX_OWNER_SESSION_DURATION_SECONDS. lia. Qed.

(** All instructions of a transaction read the same clock: a session is not
    expired in the transaction that opened it. *)
Lemma new_sessions_are_not_expired p p' k a c pins snapshots :
  now_of p' = now_of p → now_of p ≤ I64_MAX → 0 ≤ pol_sessionExpirySeconds (vs_policy (cn_state c)) →
  session_expired (open_session p k a c pins snapshots) (now_of p') = false.
Proof.
  intros -> Hc He. unfold session_expired, open_session. cbn [se_expiresAt]. apply Z.ltb_ge.
  apply calculate_expiry_later; [done|]. unfold effective_session_expiry_seconds. by case_match.
Qed.

(** ** Between the two *)

(** What other programs can do: change accounts that are not the program's; the
    key of 32 zeros is the system program's, and no token account. *)
Record foreign (c c' : Chain) : Prop := {
  fo_state : cn_state c' = cn_state c;
  fo_pacing : cn_pacing c' = cn_pacing c;
  fo_sessions : cn_sessions c' = cn_sessions c;
  fo_system : ∀ x, cn_accounts c' !! NO_KEY = Some x → la_owner x ≠ TOKEN_PROGRAM_ADDRESS;
}.

Lemma same_tokens_acquired vault session accounts accounts' :
  same_tokens accounts accounts' → acquired vault session accounts' → acquired vault session accounts.
Proof. intros H. unfold acquired. by rewrite (same_tokens_view _ _ _ H), (same_tokens_balance _ _ _ H). Qed.

Lemma finalize_guards_token p k session l :
  se_delegated session = true → finalize_guards p k session l = Ok tt →
  fst <$> lo_vaultToken l = Some (se_delegationTokenAccount session).
Proof.
  unfold finalize_guards. intros ->. intros Hx. inv_ok. by apply negb_false_iff, bool_decide_eq_true in Hx.
Qed.

(** The second half of a session that spends stablecoins. *)
Lemma finalising_spend p k c c' session l accounts o :
  finalising p k c c' session l accounts o →
  runs_outcome_check p session = true → stablecoin_input session = true → se_delegated session = true →
  0 ≤ se_authorizedAmount session →
  let loss := se_stablecoinBalanceBefore session - balance_at (cn_accounts c) (se_delegationTokenAccount session) in
  loss ≤ se_authorizedAmount session ∧
  fst <$> lo_outputSwap l = Some (se_outputSwapAccount session) ∧
  acquired (vs_key (cn_state c)) session (cn_accounts c) ∧
  (if 0 <? loss
   then finalize_spend encode (vs_policy (cn_state c)) (av_agents (vs_vault (cn_state c))) (se_agent session)
          (se_authorizedProtocol session) (now_of p) loss (vs_ledger (cn_state c)) = Ok (vs_ledger (cn_state c'))
   else vs_ledger (cn_state c') = vs_ledger (cn_state c) ∧ se_outputSwapAccount session ≠ NO_KEY) ∧
  has_delegate (data_at (cn_accounts c') (se_delegationTokenAccount session)) = false.
Proof.
  intros [_ _ Hg [Hsame Hnone]%revoke_Ok Ho Hm Ha _ Hl _ _ _ _] Hrun Hin Hdel Hamt.
  apply finalize_guards_token in Hg; [|done]. rewrite Hrun in Ho, Hm. specialize (Hnone _ Hdel Hg).
  apply (measure_outcome_spend _ _ _ _ _ _ _ Hin Hdel Hg Hamt) in Ho as [Hle Ho]. revert Hle Ho.
  rewrite (same_tokens_balance _ _ _ Hsame). set (loss := _ - balance_at _ _). intros Hle Ho. split; [done|].
  rewrite Ha, Hl. destruct (0 <? loss).
  - apply spend_outcome_Ok in Ho as (Hp & Hacq & Hn & _ & Hf & Hd). split_and!; try done; [|by apply Hd].
    by eapply same_tokens_acquired.
  - subst o. unfold enforce_measurable_outcome in Hm. cbn [oc_actualSpend oc_accounts oc_ledger andb Z.eqb] in *.
    case_bool_decide as Hk; [done|]. apply output_ownership_Ok in Hm as [Hp Hacq].
    split_and!; try done. by eapply same_tokens_acquired.
Qed.

(** The pinned account is the one the authorisation named: the key of zeros, which
    stands for none, is never that of a loaded token account. *)
Lemma pinned_output_is_named k kf c (c2 : Chain) (l : Loaded) pinned sw :
  load_optional (cn_accounts c) (ak_outputSwap k) = Ok sw →
  load_optional (cn_accounts c2) (fk_outputSwap kf) = Ok (lo_outputSwap l) →
  fst <$> lo_outputSwap l = Some pinned →
  (∀ x, cn_accounts c2 !! NO_KEY = Some x → la_owner x ≠ TOKEN_PROGRAM_ADDRESS) →
  match sw with None => pinned = NO_KEY | Some (key, _) => pinned = key end →
  ∃ acct, sw = Some (pinned, acct) ∧ ak_outputSwap k = Some pinned ∧ tv_amount acct = balance_at (cn_accounts c) pinned.
Proof.
  intros H1%load_optional_Ok H2%load_optional_Ok Hp Hsys Hm. destruct sw as [[key acct]|]; [|exfalso].
  - subst key. destruct H1 as [Hk (x & Hx & _ & ->)%load_token_Ok]. exists (view_of (la_data x)). split_and!; try done.
    unfold balance_at, account_info, account_of. by rewrite Hx.
  - subst pinned. destruct (lo_outputSwap l) as [[key v]|]; [|done]. injection Hp as ->.
    destruct H2 as [_ (x & Hx & Ho & _)%load_token_Ok]. by apply (Hsys x).
Qed.

(** C6: Whatever runs between the two handlers, a session that spends stablecoins
    and is finalised in its own transaction costs the vault at most the amount it
    was authorised for, which the limit per transaction bounds, before the fees
    that the finalisation takes on top; the vault holds more of some other token, in an account of its own that the authorisation
    named; the loss, with both fees, is charged to every cap; and afterwards the
    token account has no delegate and the session is gone. *)
Theorem sessions_lose_at_most_what_was_authorised p p' k a kf c c1 c2 c3 :
  0 < aa_amount a → is_stablecoin_mint usdc usdt (aa_tokenMint a) = true → aa_tokenMint a ≠ NO_KEY →
  now_of p' = now_of p → now_of p ≤ I64_MAX → 0 ≤ pol_sessionExpirySeconds (vs_policy (cn_state c)) →
  authorize p k a c = Ok c1 → foreign c1 c2 → finalize p' kf c2 = Ok c3 → fk_session kf = new_session_key k a c →
  let policy := vs_policy (cn_state c) in
  let loss := balance_at (cn_accounts c) (ak_vaultToken k) - balance_at (cn_accounts c2) (ak_vaultToken k) in
  loss ≤ aa_amount a ∧
  (0 < pol_maxTransactionSizeUsd policy → aa_amount a ≤ pol_maxTransactionSizeUsd policy) ∧
  (∃ out, ak_outputSwap k = Some out ∧
     tv_owner (view_of (data_at (cn_accounts c2) out)) = vs_key (cn_state c) ∧
     tv_mint (view_of (data_at (cn_accounts c2) out)) ≠ aa_tokenMint a ∧
     balance_at (cn_accounts c) out < balance_at (cn_accounts c2) out) ∧
  (if 0 <? loss
   then finalize_spend encode policy (av_agents (vs_vault (cn_state c))) (ak_agent k) (aa_targetProtocol a)
          (now_of p) loss (vs_ledger (cn_state c)) = Ok (vs_ledger (cn_state c3))
   else vs_ledger (cn_state c3) = vs_ledger (cn_state c)) ∧
  has_delegate (data_at (cn_accounts c3) (ak_vaultToken k)) = false ∧
  cn_sessions c3 = cn_sessions c.
Proof.
  intros Ha Hs Hnz Hclk Hc He (pins & snaps & HA)%authorize_Ok [Hst _ Hse Hsys] (session & l & accounts & o & HF)%finalize_Ok Hkey.
  pose proof (same_tokens_balance _ _ (ak_vaultToken k) (authorize_moves_nothing _ _ _ _ _ _ _ HA)) as Hbal.
  destruct HA as [_ Hfresh _ _ (os & sw & _ & Hsw & Hpins) _ _ Hst1 _ Hse1 _]. rewrite Hst1 in Hst.
  pose proof (fz_session _ _ _ _ _ _ _ _ HF) as Hsess. rewrite Hse, Hse1, Hkey, lookup_insert_eq in Hsess.
  injection Hsess as <-. apply (pin_accounts_spend _ _ _ _ _ _ _ Ha Hs) in Hpins as (Hmax & Hmint & Hbefore & Hout).
  assert (Hrun : runs_outcome_check p' (open_session p k a c pins snaps) = true).
  { unfold runs_outcome_check. rewrite new_sessions_are_not_expired by done. cbn. by rewrite Hmint, bool_decide_eq_false_2. }
  apply finalising_spend in HF as HS; [|done|done|by apply Z.ltb_lt|cbn; lia].
  cbn [open_session se_authorizedAmount se_delegationTokenAccount se_stablecoinBalanceBefore se_agent
    se_authorizedProtocol] in HS. rewrite Hbefore, Hst in HS. cbn [tv_amount] in HS.
  destruct HS as (Hle & Hp & (Howner & Hm & Hmore) & Hcharge & Hnone).
  destruct (pinned_output_is_named k kf c c2 l _ sw Hsw (fz_swap _ _ _ _ _ _ _ _ HF) Hp Hsys) as (acct & -> & Hk & Hamt).
  { cbn. by destruct sw as [[]|]; [destruct Hout as [-> _]|]. }
  destruct Hout as (_ & Hom & Hne & Hob). split_and!; [done|done| |rewrite <- Hclk; by case_match; [|apply Hcharge]|done|].
  - exists (pn_outputSwap pins). split_and!; [done|done|cbn [open_session se_outputSwapAccount se_outputSwapMint] in Hm; congruence|]. cbn in Hmore, Hamt. lia.
  - rewrite (fz_sessions _ _ _ _ _ _ _ _ HF), Hse, Hse1, Hkey. by apply delete_insert_id.
Qed.

(** ** Selling other tokens *)

Lemma measure_outcome_sale session l s now accounts o :
  stablecoin_input session = false → measure_outcome session l s now accounts = Ok o →
  let out := se_outputStablecoinAccount session in
  let gain := balance_at accounts out - se_stablecoinBalanceBefore session in
  tv_owner (view_of (data_at accounts out)) = vs_key s ∧
  tv_mint (view_of (data_at accounts out)) = se_outputMint session ∧
  0 < gain ∧ oc_accounts o = accounts ∧
  finalize_charge encode (vs_policy s) (av_agents (vs_vault s)) (se_agent session) (se_authorizedProtocol session)
    now gain (vs_ledger s) = Ok (oc_ledger o).
Proof.
  unfold measure_outcome, measured_balance. intros ->. cbn [andb].
  intros (n & (key & _ & (u & E%throw_if_Ok & [Hv ->]%owned_balance_Ok)%bind_Ok_inv)%bind_Ok_inv &
    (u' & _ & (u'' & Hlt%throw_if_Ok & (ledger & Hl & Hx)%bind_Ok_inv)%bind_Ok_inv)%bind_Ok_inv)%bind_Ok_inv.
  apply negb_false_iff, bool_decide_eq_true in E as ->. apply Z.leb_gt in Hlt. injection Hx as <-.
  rewrite Hv. split_and!; try done. lia.
Qed.

Lemma pin_accounts_sale a vault policy vt os sw pins :
  0 < aa_amount a → is_stablecoin_mint usdc usdt (aa_tokenMint a) = false →
  pin_accounts a vault policy vt os sw = Ok pins →
  ∃ key acct, os = Some (key, acct) ∧ is_stablecoin_mint usdc usdt (tv_mint acct) = true ∧
    pn_outputMint pins = tv_mint acct ∧ pn_outputStablecoin pins = key ∧ pn_stablecoinBalance pins = tv_amount acct.
Proof.
  unfold pin_accounts. intros Ha%Z.ltb_lt Hs. rewrite Ha, Hs. cbn [negb]. destruct os as [[key acct]|]; [|done].
  intros Hx. inv_ok. apply negb_false_iff in E0. by exists key, acct.
Qed.

(** C16: A session whose input is not a stablecoin and that is finalised in its own
    transaction brings the vault stablecoins, whatever runs between the two
    handlers: the vault's stablecoin account that the authorisation named holds
    more than before, the gain is charged to every cap, and afterwards the sold
    token's account has no delegate and the session is gone. *)
Theorem sold_tokens_bring_stablecoins p p' k a kf c c1 c2 c3 :
  0 < aa_amount a → is_stablecoin_mint usdc usdt (aa_tokenMint a) = false → usdc ≠ NO_KEY → usdt ≠ NO_KEY →
  now_of p' = now_of p → now_of p ≤ I64_MAX → 0 ≤ pol_sessionExpirySeconds (vs_policy (cn_state c)) →
  authorize p k a c = Ok c1 → foreign c1 c2 → finalize p' kf c2 = Ok c3 → fk_session kf = new_session_key k a c →
  (∃ out, ak_outputStablecoin k = Some out ∧
     let gain := balance_at (cn_accounts c2) out - balance_at (cn_accounts c) out in
     tv_owner (view_of (data_at (cn_accounts c2) out)) = vs_key (cn_state c) ∧
     is_stablecoin_mint usdc usdt (tv_mint (view_of (data_at (cn_accounts c2) out))) = true ∧
     0 < gain ∧
     finalize_charge encode (vs_policy (cn_state c)) (av_agents (vs_vault (cn_state c))) (ak_agent k)
       (aa_targetProtocol a) (now_of p) gain (vs_ledger (cn_state c)) = Ok (vs_ledger (cn_state c3))) ∧
  has_delegate (data_at (cn_accounts c3) (ak_vaultToken k)) = false ∧
  cn_sessions c3 = cn_sessions c.
Proof.
  intros Ha Hs Hd1 Hd2 Hclk Hc He (pins & snaps & HA)%authorize_Ok [Hst _ Hse _] (session & l & accounts & o & HF)%finalize_Ok Hkey.
  destruct HA as [_ Hfresh _ _ (os & sw & Hos & _ & Hpins) _ _ Hst1 _ Hse1 _]. rewrite Hst1 in Hst.
  pose proof (fz_session _ _ _ _ _ _ _ _ HF) as Hsess. rewrite Hse, Hse1, Hkey, lookup_insert_eq in Hsess.
  injection Hsess as <-. apply (pin_accounts_sale _ _ _ _ _ _ _ Ha Hs) in Hpins as (out & acct & -> & Hstable & Hmint & Hout & Hbefore).
  assert (Hrun : runs_outcome_check p' (open_session p k a c pins snaps) = true).
  { unfold runs_outcome_check. rewrite new_sessions_are_not_expired by done. cbn. rewrite Hmint, bool_decide_eq_false_2; [done|].
    intros Hz. rewrite Hz in Hstable. apply orb_true_iff in Hstable as [E|E]; apply bool_decide_eq_true in E; congruence. }
  destruct HF as [_ _ Hg [Hsame Hnone]%revoke_Ok Ho _ Hacc _ Hl _ _ Hdel _]. rewrite Hrun in Ho.
  apply finalize_guards_token in Hg; [|by apply Z.ltb_lt]. specialize (Hnone _ (proj2 (Z.ltb_lt _ _) Ha) Hg).
  apply measure_outcome_sale in Ho as (Ho & Hm & Hpos & Hoa & Hch); [|done]. rewrite Hacc, Hoa, Hl.
  split_and!; [|done|by rewrite Hdel, Hse, Hse1, Hkey, delete_insert_id].
  apply load_optional_Ok in Hos as [Hk (x & Hx & _ & ->)%load_token_Ok]. exists out. split; [done|].
  cbn [open_session se_outputStablecoinAccount se_stablecoinBalanceBefore se_outputMint se_agent se_authorizedProtocol] in *.
  assert (tv_amount (view_of (la_data x)) = balance_at (cn_accounts c) out) as Hb.
  { unfold balance_at, account_info, account_of. by rewrite Hx. }
  rewrite Hout, Hbefore, Hb in Hch, Hpos. rewrite Hout in Ho, Hm.
  rewrite (same_tokens_view _ _ _ Hsame) in Ho, Hm. rewrite (same_tokens_balance _ _ _ Hsame) in Hch, Hpos.
  rewrite Hst in Ho, Hch. rewrite <- Hclk. cbn zeta. split_and!; try done. by rewrite Hm, Hmint.
Qed.

(** ** The owner's assertions *)

Lemma note_authorized_assertions now agent c q :
  note_authorized now agent c = Ok q → pc_hasPostAssertions q = pc_hasPostAssertions (cn_pacing c).
Proof. unfold note_authorized. by intros (u & _ & (last & _ & [= <-])%bind_Ok_inv)%bind_Ok_inv. Qed.

(** C11: A session that is finalised in its own transaction, of a vault whose policy
    has the flag for assertions, satisfies every assertion the owner stored:
    whatever ran in between, for each entry bytes compare as asked, a value fell
    or rose by no more than its bound, or did not change; the vault's balance of
    a mint fell by at most the cap; the account still belongs to the vault; the
    vault's output rose by the minimum; the account the protocol was given is of
    the declared mint and recipient.  The values are those of the accounts the
    authorisation left and of those the finalisation left.  The assertions are
    the ones on chain, in an account only the program can change and that is
    therefore taken to be the same at both ends; a finalisation that names
    another account of assertions, or none, is refused.  Nothing is claimed of a
    session finalised after its expiry, which the handler does not check. *)
Theorem finalised_sessions_satisfy_the_assertions p p' k a kf c c1 c2 c3 :
  pc_hasPostAssertions (cn_pacing c) ≠ 0 →
  now_of p' = now_of p → now_of p ≤ I64_MAX → 0 ≤ pol_sessionExpirySeconds (vs_policy (cn_state c)) →
  authorize p k a c = Ok c1 → foreign c1 c2 → finalize p' kf c2 = Ok c3 → fk_session kf = new_session_key k a c →
  let vault := vs_key (cn_state c) in
  let before := account_of (cn_accounts c1) in
  let after := account_of (cn_accounts c3) in
  let key := assertions_key encode derive vault in
  data_ok before → data_ok after → account_info after key = account_info before key →
  ∃ assertions, open_assertions encode vault (account_info before key) = Ok assertions ∧
    ∀ i e, (i < pa_count assertions)%nat → pa_entries assertions !! i = Some e →
      satisfied toAddress associated before after vault (at_tx p') (at_index p') e.
Proof.
  intros Hflag Hclk Hc He (pins & snaps & HA)%authorize_Ok [Hst Hpac Hse _] (session & l & accounts & o & HF)%finalize_Ok Hkey
    vault before after key Hb Ha Hsame.
  pose proof (az_session _ _ _ _ _ _ _ HA) as Hse1. pose proof (az_state _ _ _ _ _ _ _ HA) as Hst1.
  pose proof (az_snapshots _ _ _ _ _ _ _ HA) as Hcap. pose proof (note_authorized_assertions _ _ _ _ (az_pacing _ _ _ _ _ _ _ HA)) as Hf.
  pose proof (fz_session _ _ _ _ _ _ _ _ HF) as Hsess. rewrite Hse, Hse1, Hkey, lookup_insert_eq in Hsess.
  injection Hsess as <-. pose proof (fz_assertions _ _ _ _ _ _ _ _ HF) as Henf.
  rewrite new_sessions_are_not_expired, Hpac, Hf in Henf by done. rewrite <- (fz_accounts _ _ _ _ _ _ _ _ HF), Hst, Hst1 in Henf.
  specialize (Henf (proj2 (negb_true_iff _) (proj2 (Z.eqb_neq _ _) Hflag))). cbn [open_session se_snapshots] in Henf.
  pose proof Henf as (info & ->%lookup_account_Ok & (assertions & Hopen & _)%bind_Ok_inv)%bind_Ok_inv.
  change (open_assertions encode vault (account_info after key) = Ok assertions) in Hopen. rewrite Hsame in Hopen. exists assertions. split; [done|]. intros i e Hi Hel.
  by eapply checked_assertions_hold.
Qed.

(** ** Open sessions *)

(** A chain reached from one without sessions, in any order of authorisations,
    finalisations and other programs. *)
Inductive session_run : Chain → Prop :=
| run_start c : cn_sessions c = ∅ → pc_activeSessions (cn_pacing c) = 0 → session_run c
| run_authorize p k a c c' : session_run c → authorize p k a c = Ok c' → session_run c'
| run_finalize p k c c' : session_run c → finalize p k c = Ok c' → session_run c'
| run_foreign c c' : session_run c → foreign c c' → session_run c'.

(** A session at the address of its vault, agent and token. *)
Definition well_placed (vault key : string) (s : SessionAuthority) : Prop :=
  se_vault s = vault ∧ se_authorized s = true ∧ key = session_key vault (se_agent s) (se_authorizedToken s).

Lemma note_authorized_active now agent c q :
  note_authorized now agent c = Ok q →
  pc_activeSessions q = pc_activeSessions (cn_pacing c) + 1 ∧ pc_activeSessions q ≤ 255.
Proof.
  unfold note_authorized. intros (u & E%throw_if_Ok & (last & _ & Hx)%bind_Ok_inv)%bind_Ok_inv.
  injection Hx as <-. apply Z.ltb_ge in E. done.
Qed.

Lemma note_finalized_active expired q q' :
  note_finalized expired q = Ok q' → pc_activeSessions q' = sat_sub (pc_activeSessions q) 1.
Proof. unfold note_finalized. by intros (n & _ & [= <-])%bind_Ok_inv. Qed.

(** C17: In every history the vault's counter, which closing the vault asks for, is
    the number of sessions that are open, at most 255 of them; each is at the
    address of its vault, agent and token, so an agent has at most one per
    token. *)
Theorem counter_counts_open_sessions c :
  session_run c →
  pc_activeSessions (cn_pacing c) = Z.of_nat (size (cn_sessions c)) ∧
  pc_activeSessions (cn_pacing c) ≤ 255 ∧
  map_Forall (well_placed (vs_key (cn_state c))) (cn_sessions c).
Proof.
  induction 1 as [c Hs Hn|p k a c c' _ (Hn & Hb & Hw) (pins & snaps & HA)%authorize_Ok
                 |p k c c' _ (Hn & Hb & Hw) (session & l & w & o & HF)%finalize_Ok|c c' _ IH [Hst Hp Hse _]].
  - rewrite Hs, Hn, map_size_empty. split_and!; [done|lia|apply map_Forall_empty].
  - destruct HA as [_ Hfresh _ _ _ _ _ -> [Ha1 Ha2]%note_authorized_active -> _].
    rewrite map_size_insert_None by done. split_and!; [lia|done|]. by apply map_Forall_insert_2.
  - pose proof (note_finalized_active _ _ _ (fz_pacing _ _ _ _ _ _ _ _ HF)) as Hq.
    pose proof (fz_session _ _ _ _ _ _ _ _ HF) as Hl. rewrite (fz_sessions _ _ _ _ _ _ _ _ HF), (fz_key _ _ _ _ _ _ _ _ HF).
    rewrite map_size_delete_Some by eauto. assert (size (cn_sessions c) ≠ 0%nat) by (apply map_size_ne_0_lookup; eauto).
    unfold sat_sub in Hq. split_and!; [lia|lia|by apply map_Forall_delete].
  - by rewrite Hst, Hp, Hse.
Qed.

(** ** The previewed intent *)

(** The network of the build, by the name the client has for it. *)
Definition build_network : string := if network_id =? NETWORK_ID_MAINNET then "mainnet" else "devnet".

(** What a client describes to the owner's wallet for this call. *)
Definition intent_of (k : AuthorizeKeys) (a : AuthorizeArgs) (c : Chain) : ScalarIntentInput := {|
  sc_vault := vs_key (cn_state c); sc_agent := ak_agent k; sc_tokenMint := aa_tokenMint a;
  sc_amount := aa_amount a; sc_targetProtocol := Some (aa_targetProtocol a); sc_network := build_network |}.

(** The encoder agrees with the client's decoder, and the keys are addresses. *)
Record addressed (k : AuthorizeKeys) (a : AuthorizeArgs) (c : Chain) : Prop := {
  ad_encode : ∀ s b, base58Decode32 s = Ok b → encode s = b;
  ad_keys : Forall (λ s, is_ok (base58Decode32 s) = true)
              [vs_key (cn_state c); ak_agent k; aa_tokenMint a; aa_targetProtocol a];
  ad_amount : 0 ≤ aa_amount a < 2 ^ 64;
  ad_network : network_id = NETWORK_ID_MAINNET ∨ network_id = NETWORK_ID_DEVNET;
}.

Lemma build_network_id :
  network_id = NETWORK_ID_MAINNET ∨ network_id = NETWORK_ID_DEVNET → IntentDigest.network_id build_network = network_id.
Proof. by unfold build_network; intros [-> | ->]. Qed.

(** The client's bytes are the program's. *)
Lemma client_and_program_hash_the_same k a c :
  addressed k a c →
  ∃ bytes, scalarIntentEncode (intent_of k a c) = Ok bytes ∧
    compute_scalar_intent_digest (vs_key (cn_state c)) (ak_agent k) (aa_tokenMint a) (aa_amount a)
      (aa_targetProtocol a) = sha256 bytes.
Proof.
  intros [Henc Hk Ha Hn]. pose proof (build_network_id Hn) as Hid.
  repeat match goal with H : Forall _ (_ :: _) |- _ => apply Forall_cons in H as [? H] end.
  unfold scalarIntentEncode, intent_of. cbn [sc_vault sc_agent sc_tokenMint sc_amount sc_targetProtocol sc_network decode_target].
  rewrite Hid. rewrite (proj2 (Z.ltb_ge (aa_amount a) 0)) by lia.
  rewrite (proj2 (Z.ltb_ge network_id 0)) by (destruct Hn as [-> | ->]; done). cbn [throw_if mbind result_bind].
  repeat match goal with
  | H : is_ok (base58Decode32 ?s) = true |- _ =>
      let E := fresh "E" in destruct (base58Decode32 s) eqn:E; [|done]; clear H; apply Henc in E as <-
  end.
  eexists. split; [reflexivity|]. unfold compute_scalar_intent_digest, enc_scalar. do 2 f_equal. by destruct Hn as [-> | ->].
Qed.

(** A computation that does not fail with this error. *)
Definition spares {A} (e : string) (r : result string A) : Prop := r ≠ Throw e.

Lemma spares_throw_if e b e' : e' ≠ e → spares e (throw_if b e').
Proof. intros Hne. unfold spares. destruct b; cbn; congruence. Qed.

Lemma spares_bind {A B} e (r : result string A) (f : A → result string B) :
  spares e r → (∀ x, spares e (f x)) → spares e (r ≫= f).
Proof. unfold spares. destruct r as [x|e']; cbn; [auto|congruence]. Qed.

Lemma build_gate_spares accounts policy target remaining :
  spares "ErrIntentDigestMismatch" (build_gate accounts policy target remaining).
Proof.
  unfold build_gate. destruct (list_find _ _) as [[i q]|]; [|done]. destruct (pol_protocolHashes policy !! i); [|done].
  case_bool_decide; [done|]. unfold enforce_program_build_hash. cbn zeta.
  repeat first [apply spares_bind; [|intros _] | by apply spares_throw_if].
Qed.

(** The handler refuses the digest exactly when the call is at the top level and
    its digest is another one; no other guard reports this error. *)
Lemma digest_refused_iff p k a c :
  authorize_guards p k a c = Throw "ErrIntentDigestMismatch" ↔
  at_topLevel p = true ∧
  compute_scalar_intent_digest (vs_key (cn_state c)) (ak_agent k) (aa_tokenMint a) (aa_amount a) (aa_targetProtocol a) ≠
    aa_expectedIntentDigest a.
Proof.
  unfold authorize_guards. cbn zeta. destruct (at_topLevel p); [|split; [done|by intros [? _]]].
  case_bool_decide as Hd; [|split; [by split|done]]. cbn [negb throw_if mbind result_bind].
  split; [|by intros [_ []]]. match goal with |- ?r = _ → _ => enough (spares "ErrIntentDigestMismatch" r) by (intros; by exfalso) end.
  repeat first
    [ apply build_gate_spares | by apply spares_throw_if | apply spares_bind; [|intros _]
    | destruct (find_agent_slot _ _ _) as [[? ?]|] | destruct (av_status _) | done ].
Qed.

(** C15: What is authorised is what the wallet showed.  When the digest of an
    accepted call is the one the client computed over an intent, the call has
    that intent's vault, agent, token, amount, protocol and network, or the
    buffers the client encodes for the two are different byte strings with one
    SHA-256.  And the client can always compute the digest of the call itself;
    the program reports a digest mismatch exactly for the calls at the top level
    that carry another one, so that digest is never refused. *)
Theorem what_is_authorised_was_previewed p k a c :
  addressed k a c →
  (∀ i c', 0 ≤ sc_amount i < 2 ^ 64 → computeScalarIntentDigest sha256 i = Ok (aa_expectedIntentDigest a) →
     authorize p k a c = Ok c' →
     (sc_vault i = vs_key (cn_state c) ∧ sc_agent i = ak_agent k ∧ sc_tokenMint i = aa_tokenMint a ∧
      sc_amount i = aa_amount a ∧ default SYSTEM_PROGRAM_ADDRESS (sc_targetProtocol i) = aa_targetProtocol a ∧
      sc_network i = build_network) ∨
     ∃ shown called, scalarIntentBuffer i = Ok shown ∧ scalarIntentBuffer (intent_of k a c) = Ok called ∧
       shown ≠ called ∧ sha256 shown = sha256 called) ∧
  (∃ d, computeScalarIntentDigest sha256 (intent_of k a c) = Ok d ∧
     (authorize_guards p k a c = Throw "ErrIntentDigestMismatch" ↔ at_topLevel p = true ∧ aa_expectedIntentDigest a ≠ d)).
Proof.
  intros Hadd. destruct (client_and_program_hash_the_same _ _ _ Hadd) as (b & Hb & Hsha).
  unfold computeScalarIntentDigest. rewrite scalarIntentBuffer_eq, Hb. cbn [mbind result_bind].
  split; [|exists (sha256 b); split; [done|]; rewrite digest_refused_iff, Hsha; intuition congruence].
  intros i c' Hi Hd (pins & snaps & HA)%authorize_Ok. pose proof (az_guards _ _ _ _ _ _ _ HA) as Hg.
  unfold authorize_guards in Hg. apply bind_Ok_inv in Hg as (u & _ & (u' & E%throw_if_Ok & _)%bind_Ok_inv).
  apply negb_false_iff, bool_decide_eq_true in E. rewrite Hsha in E. rewrite scalarIntentBuffer_eq in Hd |- *.
  apply bind_Ok_inv in Hd as (b' & Hb' & Hd). injection Hd as Hd.
  destruct (decide (b' = b)) as [->|Hne]; [left|right; exists b', b; split_and!; [done..|congruence]].
  destruct (scalarIntentEncode_inj _ _ _ _ [] [] Hb' Hb eq_refl) as [Hv _]. unfold scalarView, intent_of in Hv.
  cbn [sc_vault sc_agent sc_tokenMint sc_amount sc_targetProtocol sc_network default] in Hv.
  injection Hv as H1 H2 H3 H4 H5 H6. unfold wrap in H5. rewrite !Z.mod_small in H5 by (destruct Hadd; lia).
  by split_and!.
Qed.
End Handlers.

(** ** A token program on bytes *)

(** The token account's layout: mint, owner and amount, the delegate's tag and key
    at 72, the state, the native reserve, the delegated amount at 121. *)
Definition set_amount (n : Z) (data : list Z) : list Z := take 64 data ++ le_bytes 8 n ++ drop 72 data.
Definition set_delegate (encode : string → list Z) (delegate : string) (n : Z) (data : list Z) : list Z :=
  take 72 data ++ le_bytes 4 1 ++ encode delegate ++ take 13 (drop 108 data) ++ le_bytes 8 n ++ drop 129 data.
Definition clear_delegate (data : list Z) : list Z :=
  take 72 data ++ le_bytes 4 0 ++ take 45 (drop 76 data) ++ le_bytes 8 0 ++ drop 129 data.

Definition with_data (data : list Z) (x : LedgerAccount) : LedgerAccount := {| la_owner := la_owner x; la_data := data |}.

Section Bytes.
Context (toAddress : list Z → string) (encode : string → list Z).

(** A token account of this owner. *)
Definition held_by (authority : string) (x : LedgerAccount) : bool :=
  bool_decide (la_owner x = TOKEN_PROGRAM_ADDRESS) && bool_decide (length (la_data x) = 165%nat) &&
  bool_decide (token_owner toAddress (la_data x) = authority).

Definition byte_approve (w : gmap string LedgerAccount) (key delegate authority : string) (n : Z)
    : result string (gmap string LedgerAccount) :=
  match w !! key with
  | Some x => _ ← throw_if (negb (held_by authority x && bool_decide (length (encode delegate) = 32%nat))) "OwnerMismatch";
              Ok (<[key := with_data (set_delegate encode delegate n (la_data x)) x]> w)
  | None => Throw "InvalidAccountData"
  end.

Definition byte_revoke (w : gmap string LedgerAccount) (key authority : string)
    : result string (gmap string LedgerAccount) :=
  match w !! key with
  | Some x => _ ← throw_if (negb (held_by authority x)) "OwnerMismatch";
              Ok (<[key := with_data (clear_delegate (la_data x)) x]> w)
  | None => Throw "InvalidAccountData"
  end.

Definition byte_pay (w : gmap string LedgerAccount) (from to authority : string) (n : Z)
    : result string (gmap string LedgerAccount) :=
  match w !! from, w !! to with
  | Some x, Some y =>
      _ ← throw_if (negb (held_by authority x)) "OwnerMismatch";
      _ ← throw_if (token_amount (la_data x) <? n) "InsufficientFunds";
      _ ← throw_if (negb (bool_decide (take 32 (la_data x) = take 32 (la_data y)))) "MintMismatch";
      if bool_decide (from = to) then Ok w else
      Ok (<[to := with_data (set_amount (token_amount (la_data y) + n) (la_data y)) y]>
         (<[from := with_data (set_amount (token_amount (la_data x) - n) (la_data x)) x]> w))
  | _, _ => Throw "InvalidAccountData"
  end.

Instance byte_tokens : TokenOps := {|
  token_approve := byte_approve; token_revoke := byte_revoke; token_pay := byte_pay |}.

Lemma held_by_length authority x : held_by authority x = true → length (la_data x) = 165%nat.
Proof. unfold held_by. rewrite !andb_true_iff, !bool_decide_eq_true. tauto. Qed.

Lemma set_amount_delegate n data :
  (72 ≤ length data)%nat → has_delegate (set_amount n data) = has_delegate data.
Proof.
  intros Hl. unfold has_delegate, set_amount. rewrite app_assoc, drop_app_length'; [done|].
  rewrite length_app, length_le_bytes, length_take. lia.
Qed.

Lemma byte_approve_Ok w key delegate authority n w' :
  byte_approve w key delegate authority n = Ok w' →
  ∃ x x', w !! key = Some x ∧ w' = <[key := x']> w ∧ la_owner x' = la_owner x ∧
    length (la_data x') = length (la_data x) ∧ take 72 (la_data x') = take 72 (la_data x).
Proof.
  unfold byte_approve. destruct (w !! key) as [x|]; [|done]. intros Hx. inv_ok.
  apply negb_false_iff, andb_true_iff in E as [Hl%held_by_length Hd%bool_decide_eq_true].
  eexists x, _. split_and!; [done..|cbn|cbn]; unfold set_delegate.
  - rewrite !length_app, !length_le_bytes, !length_take, !length_drop, Hl, Hd. lia.
  - rewrite take_app_length'; [done|]. rewrite length_take. lia.
Qed.

Lemma byte_revoke_Ok w key authority w' :
  byte_revoke w key authority = Ok w' →
  ∃ x x', w !! key = Some x ∧ w' = <[key := x']> w ∧ la_owner x' = la_owner x ∧
    length (la_data x') = length (la_data x) ∧ take 72 (la_data x') = take 72 (la_data x) ∧
    has_delegate (la_data x') = false.
Proof.
  unfold byte_revoke. destruct (w !! key) as [x|]; [|done]. intros Hx. inv_ok.
  apply negb_false_iff, held_by_length in E as Hl.
  eexists x, _. split_and!; [done..|cbn|cbn|cbn]; unfold clear_delegate.
  - rewrite !length_app, !length_le_bytes, !length_take, !length_drop, Hl. lia.
  - rewrite take_app_length'; [done|]. rewrite length_take. lia.
  - unfold has_delegate. rewrite drop_app_length' by (rewrite length_take; lia).
    by rewrite take_app_length' by (by rewrite length_le_bytes).
Qed.

#[global] Instance byte_lawful : LawfulTokenOps byte_tokens.
Proof.
  split; [apply byte_approve_Ok|apply byte_revoke_Ok|]. intros w from to authority n w'. cbn. unfold byte_pay.
  destruct (w !! from) as [x|] eqn:Hf; [|done]. destruct (w !! to) as [y|]; [|done]. intros Hx. inv_ok.
  apply negb_false_iff, held_by_length in E. case_bool_decide as Heq; inv_ok; [by exists x, x|].
  eexists x, _. rewrite lookup_insert_ne, lookup_insert_eq by done. split_and!; [done..|cbn].
  by rewrite set_amount_delegate by lia.
Qed.
End Bytes.

(** ** A vault that buys and sells *)

Module SessionDemo.
Definition vault : string := "9xQeWvG816bUx9EPjHmaT23yvVM2ZWbrrpZb9PusVFin".
Definition agent : string := "whirLbMiicVdio4qvUfM5KAg6Ct8VwpYzGff3uctyCc".
Definition protocol : string := "JUP6LkbZbjS1jKKwapdHNy74zcZ3tLUZoi5QNyVTaV4".
Definition sol : string := "So11111111111111111111111111111111111111112".

Definition encode (s : string) : list Z := match base58Decode32 s with Ok b => b | Throw _ => [] end.
Definition toAddress (bytes : list Z) : string :=
  if bool_decide (bytes = replicate 32 7) then "vault usdc" else
  from_option snd "" (list_find (λ s, encode s = bytes) [vault; agent; sol; USDC_MINT_MAINNET; PROTOCOL_TREASURY]).
Definition derive (program : string) (seeds : list (list Z)) : string :=
  String.string_of_list_ascii (map (λ b, ascii_of_nat (Z.to_nat b)) (concat seeds)).
Definition associated (owner mint program : string) : string :=
  if bool_decide (mint = USDC_MINT_MAINNET) then "vault usdc" else "vault sol".
Definition sha256 (bytes : list Z) : list Z := le_bytes 32 (sumZ bytes).
Definition unpacks (data : list Z) : bool := bool_decide (length data = 165%nat).
Definition is_mint (data : list Z) : bool := bool_decide (length data = 82%nat).

Definition token (mint owner : string) (amount : Z) : LedgerAccount := {|
  la_owner := TOKEN_PROGRAM_ADDRESS;
  la_data := encode mint ++ encode owner ++ le_bytes 8 amount ++ replicate 93 0 |}.
Definition mint : LedgerAccount := {| la_owner := TOKEN_PROGRAM_ADDRESS; la_data := replicate 82 0 |}.

Definition accounts (usdc sol_ : Z) : gmap string LedgerAccount :=
  <["vault usdc" := token USDC_MINT_MAINNET vault usdc]> (<["vault sol" := token sol vault sol_]>
  (<["treasury usdc" := token USDC_MINT_MAINNET PROTOCOL_TREASURY 0]>
  (<[USDC_MINT_MAINNET := mint]> (<[sol := mint]> ∅)))).

Definition policy : PolicyConfig := {|
  pol_dailySpendingCapUsd := 100000000; pol_maxTransactionSizeUsd := 100000000; pol_hasProtocolCaps := false;
  pol_protocols := [protocol]; pol_protocolCaps := []; pol_protocolMode := 1;
  pol_protocolHashes := [replicate 32 0];
  pol_developerFeeRate := 0; pol_stableBalanceFloor := 1000000; pol_policyVersion := 7; pol_destinationMode := 0;
  pol_allowedDestinations := []; pol_timelockDuration := 1800; pol_maxSlippageBps := 100;
  pol_sessionExpirySeconds := 30; pol_cosignRequired := false; pol_cosignSessionPubkey := "";
  pol_perRecipientDailyCapUsd := 1000000; pol_operatorGrantDelaySeconds := 0; pol_destinationGraylist := [] |}.

Definition state : VaultState := {|
  vs_key := vault;
  vs_vault := {|
    av_agents := [{| ae_pubkey := agent; ae_spendingLimitUsd := 0; ae_capability := 2; ae_paused := false |}];
    av_status := Active; av_feeDestination := "dev"; av_owner := "owner"; av_totalVolume := 0;
    av_totalFeesCollected := 0; av_observeOnly := false; av_totalDepositedUsd := 0;
    av_totalWithdrawnUsd := 0; av_totalTransactions := 0; av_createdAt := 0 |};
  vs_policy := policy; vs_ledger := demo_ledger; vs_recipients := new_recipients;
  vs_logs := new_logs (encode vault) |}.

Definition chain : Chain := {|
  cn_accounts := accounts 50000000 0; cn_state := state;
  cn_pacing := {| pc_operatingHours := 16777215; pc_autoRevokeThreshold := 3; pc_hasPostAssertions := 0;
                  pc_cooldownSeconds := []; pc_lastActionUnix := []; pc_consecutiveFailures := [0];
                  pc_activeSessions := 0; pc_totalFailedTransactions := 0 |};
  cn_sessions := ∅ |}.

Definition args (token_mint : string) (amount : Z) : AuthorizeArgs := {|
  aa_tokenMint := token_mint; aa_amount := amount; aa_targetProtocol := protocol;
  aa_expectedPolicyVersion := 7; aa_expectedNonce := 0;
  aa_expectedIntentDigest :=
    match computeScalarIntentDigest sha256 {| sc_vault := vault; sc_agent := agent; sc_tokenMint := token_mint;
        sc_amount := amount; sc_targetProtocol := Some protocol; sc_network := "mainnet" |}
    with Ok d => d | Throw _ => [] end |}.

Definition buy_keys : AuthorizeKeys := {|
  ak_agent := agent; ak_vaultToken := "vault usdc"; ak_mintAccount := USDC_MINT_MAINNET;
  ak_outputStablecoin := None; ak_outputSwap := Some "vault sol"; ak_remaining := ["vault usdc"; "vault sol"] |}.
Definition sell_keys : AuthorizeKeys := {|
  ak_agent := agent; ak_vaultToken := "vault sol"; ak_mintAccount := sol;
  ak_outputStablecoin := Some "vault usdc"; ak_outputSwap := None; ak_remaining := ["vault usdc"; "vault sol"] |}.

Definition session_of (token_mint : string) : string := session_key encode derive vault agent token_mint.

Definition finish (k : AuthorizeKeys) : FinalizeKeys := {|
  fk_payer := agent; fk_session := session_of (ak_mintAccount k); fk_rentRecipient := agent;
  fk_vaultToken := Some (ak_vaultToken k); fk_outputStablecoin := ak_outputStablecoin k; fk_outputSwap := ak_outputSwap k;
  fk_treasury := Some "treasury usdc"; fk_feeDestination := None; fk_remaining := ak_remaining k |}.

(** The transaction: authorise, one instruction of the protocol, finalise. *)
Definition ix (program : string) (data : list Z) (keys : list string) : Ix := {|
  ix_programAddress := program;
  ix_accounts := Some (map (λ a, {| acc_address := a; acc_role := RoleNumber 1 |}) keys); ix_data := Some data |}.
Definition tx (k : AuthorizeKeys) : list Ix := [
  ix SIGIL_PROGRAM_ADDRESS VALIDATE_AND_AUTHORIZE_DISCRIMINATOR [agent; vault];
  ix protocol [1] ["vault usdc"; "vault sol"];
  ix SIGIL_PROGRAM_ADDRESS FINALIZE_SESSION_DISCRIMINATOR [agent; vault; session_of (ak_mintAccount k)]].
Definition place (k : AuthorizeKeys) (i : nat) : Place := {|
  at_topLevel := true; at_clock := {| sv_unix_timestamp := 600; sv_slot_hashes := [] |};
  at_tx := tx k; at_index := i |}.

#[global] Instance tokens : TokenOps := byte_tokens toAddress encode.

Definition begin (k : AuthorizeKeys) (a : AuthorizeArgs) (c : Chain) : result string Chain :=
  authorize toAddress encode derive associated sha256 unpacks is_mint USDC_MINT_MAINNET USDT_MINT_MAINNET 1
    (place k 0) k a c.
Definition complete (k : AuthorizeKeys) (c : Chain) : result string Chain :=
  finalize toAddress encode derive associated unpacks USDC_MINT_MAINNET USDT_MINT_MAINNET PROTOCOL_TREASURY
    (place k 2) (finish k) c.

Definition get (r : result string Chain) : Chain := match r with Ok c => c | Throw _ => chain end.

(** The protocol's instruction, under any delegation. *)
Definition trade (usdc sol_ : Z) (c : Chain) : Chain := {|
  cn_accounts := accounts usdc sol_ ; cn_state := cn_state c; cn_pacing := cn_pacing c; cn_sessions := cn_sessions c |}.

Definition bought : Chain := trade 40000000 5 (get (begin buy_keys (args USDC_MINT_MAINNET 10000000) chain)).
Definition sold : Chain := trade 60000000 0 (get (begin sell_keys (args sol 5) chain)).

(** The same purchase of a vault whose owner asserts that a session takes at most
    [cap] from its stablecoin account. *)
Definition watch : string := assertions_key encode derive vault.
Definition watched (cap : Z) : LedgerAccount := {|
  la_owner := SIGIL_PROGRAM_ADDRESS;
  la_data := GeneratedTypes.POST_EXECUTION_ASSERTIONS_DISCRIMINATOR ++ encode vault ++
    (replicate 32 7 ++ [0; 0; 0; 0] ++ encode USDC_MINT_MAINNET ++ [4] ++ le_bytes 8 cap ++ [1]) ++
    replicate (78 * 7) 0 ++ [1] ++ replicate 7 0 |}.
Definition with_watch (cap : Z) (c : Chain) : Chain := {|
  cn_accounts := <[watch := watched cap]> (cn_accounts c); cn_state := cn_state c;
  cn_pacing := {| pc_operatingHours := 16777215; pc_autoRevokeThreshold := 3; pc_hasPostAssertions := 1;
                  pc_cooldownSeconds := []; pc_lastActionUnix := []; pc_consecutiveFailures := [0];
                  pc_activeSessions := 0; pc_totalFailedTransactions := 0 |};
  cn_sessions := cn_sessions c |}.
Definition watched_keys : AuthorizeKeys := {|
  ak_agent := agent; ak_vaultToken := "vault usdc"; ak_mintAccount := USDC_MINT_MAINNET; ak_outputStablecoin := None;
  ak_outputSwap := Some "vault sol"; ak_remaining := ["vault usdc"; "vault sol"; watch] |}.
Definition watched_begin (cap : Z) : Chain :=
  get (begin watched_keys (args USDC_MINT_MAINNET 10000000) (with_watch cap chain)).
Definition watched_trade (cap : Z) : Chain := {|
  cn_accounts := <[watch := watched cap]> (accounts 40000000 5); cn_state := cn_state (watched_begin cap);
  cn_pacing := cn_pacing (watched_begin cap); cn_sessions := cn_sessions (watched_begin cap) |}.
End SessionDemo.

Lemma get_ok r : is_ok r = true → r = Ok (SessionDemo.get r).
Proof. by destruct r. Qed.

Lemma begin_ok k a c :
  is_ok (SessionDemo.begin k a c) = true →
  authorize SessionDemo.toAddress SessionDemo.encode SessionDemo.derive SessionDemo.associated SessionDemo.sha256
    SessionDemo.unpacks SessionDemo.is_mint USDC_MINT_MAINNET USDT_MINT_MAINNET 1 (SessionDemo.place k 0) k a c =
  Ok (SessionDemo.get (SessionDemo.begin k a c)).
Proof. exact (get_ok (SessionDemo.begin k a c)). Qed.

Lemma complete_ok k c :
  is_ok (SessionDemo.complete k c) = true →
  finalize SessionDemo.toAddress SessionDemo.encode SessionDemo.derive SessionDemo.associated SessionDemo.unpacks
    USDC_MINT_MAINNET USDT_MINT_MAINNET PROTOCOL_TREASURY (SessionDemo.place k 2) (SessionDemo.finish k) c =
  Ok (SessionDemo.get (SessionDemo.complete k c)).
Proof. exact (get_ok (SessionDemo.complete k c)). Qed.

Lemma trade_foreign usdc sol c : foreign c (SessionDemo.trade usdc sol c).
Proof. split; [done..|]. intros x Hx. vm_compute in Hx. discriminate Hx. Qed.

Lemma sessions_lose_at_most_what_was_authorised_witness :
  balance_at (cn_accounts SessionDemo.bought) "vault usdc" = 40000000 ∧
  50000000 - 40000000 ≤ 10000000 ∧
  has_delegate (data_at (cn_accounts (SessionDemo.get (SessionDemo.complete SessionDemo.buy_keys SessionDemo.bought))) "vault usdc") = false.
Proof.
  split; [vm_compute; reflexivity|].
  destruct (sessions_lose_at_most_what_was_authorised (T := SessionDemo.tokens) SessionDemo.toAddress SessionDemo.encode SessionDemo.derive SessionDemo.associated
    SessionDemo.sha256 SessionDemo.unpacks SessionDemo.is_mint USDC_MINT_MAINNET USDT_MINT_MAINNET PROTOCOL_TREASURY 1
    (L := byte_lawful _ _)
    (SessionDemo.place SessionDemo.buy_keys 0) (SessionDemo.place SessionDemo.buy_keys 2) SessionDemo.buy_keys
    (SessionDemo.args USDC_MINT_MAINNET 10000000) (SessionDemo.finish SessionDemo.buy_keys) SessionDemo.chain
    (SessionDemo.get (SessionDemo.begin SessionDemo.buy_keys (SessionDemo.args USDC_MINT_MAINNET 10000000) SessionDemo.chain))
    SessionDemo.bought (SessionDemo.get (SessionDemo.complete SessionDemo.buy_keys SessionDemo.bought)))
    as (Hle & _ & _ & _ & Hd & _).
  - reflexivity.
  - reflexivity.
  - discriminate.
  - reflexivity.
  - vm_compute. discriminate.
  - vm_compute. discriminate.
  - apply (begin_ok SessionDemo.buy_keys (SessionDemo.args USDC_MINT_MAINNET 10000000) SessionDemo.chain). vm_compute. reflexivity.
  - apply trade_foreign.
  - apply (complete_ok SessionDemo.buy_keys SessionDemo.bought). vm_compute. reflexivity.
  - reflexivity.
  - split; [exact Hle|exact Hd].
Defined.

Lemma sold_tokens_bring_stablecoins_witness :
  (∃ out, ak_outputStablecoin SessionDemo.sell_keys = Some out ∧
     0 < balance_at (cn_accounts SessionDemo.sold) out - balance_at (cn_accounts SessionDemo.chain) out) ∧
  cn_sessions (SessionDemo.get (SessionDemo.complete SessionDemo.sell_keys SessionDemo.sold)) = ∅.
Proof.
  destruct (sold_tokens_bring_stablecoins (T := SessionDemo.tokens) SessionDemo.toAddress SessionDemo.encode SessionDemo.derive SessionDemo.associated
    SessionDemo.sha256 SessionDemo.unpacks SessionDemo.is_mint USDC_MINT_MAINNET USDT_MINT_MAINNET PROTOCOL_TREASURY 1
    (L := byte_lawful _ _)
    (SessionDemo.place SessionDemo.sell_keys 0) (SessionDemo.place SessionDemo.sell_keys 2) SessionDemo.sell_keys
    (SessionDemo.args SessionDemo.sol 5) (SessionDemo.finish SessionDemo.sell_keys) SessionDemo.chain
    (SessionDemo.get (SessionDemo.begin SessionDemo.sell_keys (SessionDemo.args SessionDemo.sol 5) SessionDemo.chain))
    SessionDemo.sold (SessionDemo.get (SessionDemo.complete SessionDemo.sell_keys SessionDemo.sold)))
    as ((out & Hk & _ & _ & Hpos & _) & _ & Hs).
  - reflexivity.
  - reflexivity.
  - discriminate.
  - discriminate.
  - reflexivity.
  - vm_compute. discriminate.
  - vm_compute. discriminate.
  - apply (begin_ok SessionDemo.sell_keys (SessionDemo.args SessionDemo.sol 5) SessionDemo.chain). vm_compute. reflexivity.
  - apply trade_foreign.
  - apply (complete_ok SessionDemo.sell_keys SessionDemo.sold). vm_compute. reflexivity.
  - reflexivity.
  - split; [exists out; split; [exact Hk|exact Hpos]|exact Hs].
Defined.

Lemma counter_counts_open_sessions_witness :
  pc_activeSessions (cn_pacing SessionDemo.bought) = 1 ∧
  pc_activeSessions (cn_pacing SessionDemo.bought) = Z.of_nat (size (cn_sessions SessionDemo.bought)).
Proof.
  split; [vm_compute; reflexivity|].
  refine (proj1 (counter_counts_open_sessions (T := SessionDemo.tokens) SessionDemo.toAddress SessionDemo.encode SessionDemo.derive
    SessionDemo.associated SessionDemo.sha256 SessionDemo.unpacks SessionDemo.is_mint USDC_MINT_MAINNET
    USDT_MINT_MAINNET PROTOCOL_TREASURY 1 SessionDemo.bought _)).
  eapply run_foreign; [|apply trade_foreign].
  eapply (run_authorize _ _ _ _ _ _ _ _ _ _ _ (SessionDemo.place SessionDemo.buy_keys 0)); [|apply (begin_ok SessionDemo.buy_keys (SessionDemo.args USDC_MINT_MAINNET 10000000) SessionDemo.chain); vm_compute; reflexivity].
  by apply run_start.
Defined.

Lemma data_ok_of (w : gmap string LedgerAccount) :
  forallb (λ x : string * LedgerAccount, bool_decide (bytes_ok (la_data x.2))) (map_to_list w) = true → data_ok (account_of w).
Proof.
  intros Hall key. unfold account_info, account_of. destruct (w !! key) as [x|] eqn:E; [|constructor].
  rewrite forallb_forall in Hall. apply (bool_decide_eq_true_1 _), (Hall (key, x)).
  by apply list_elem_of_In, elem_of_map_to_list.
Qed.

Lemma finalised_sessions_satisfy_the_assertions_witness :
  is_ok (SessionDemo.complete SessionDemo.watched_keys (SessionDemo.watched_trade 9000000)) = false ∧
  ∃ assertions, pa_count assertions = 1%nat ∧
    (∃ e, pa_entries assertions !! 0%nat = Some e ∧ mode_of (as_mode e) = Some MintDeltaCap ∧
       satisfied SessionDemo.toAddress SessionDemo.associated
         (account_of (cn_accounts (SessionDemo.watched_begin 11000000)))
         (account_of (cn_accounts (SessionDemo.get (SessionDemo.complete SessionDemo.watched_keys (SessionDemo.watched_trade 11000000)))))
         SessionDemo.vault (SessionDemo.tx SessionDemo.watched_keys) 2 e).
Proof.
  split; [vm_compute; reflexivity|].
  destruct (finalised_sessions_satisfy_the_assertions (T := SessionDemo.tokens) SessionDemo.toAddress SessionDemo.encode SessionDemo.derive
    SessionDemo.associated SessionDemo.sha256 SessionDemo.unpacks SessionDemo.is_mint USDC_MINT_MAINNET USDT_MINT_MAINNET PROTOCOL_TREASURY 1
    (SessionDemo.place SessionDemo.watched_keys 0) (SessionDemo.place SessionDemo.watched_keys 2) SessionDemo.watched_keys
    (SessionDemo.args USDC_MINT_MAINNET 10000000) (SessionDemo.finish SessionDemo.watched_keys)
    (SessionDemo.with_watch 11000000 SessionDemo.chain) (SessionDemo.watched_begin 11000000) (SessionDemo.watched_trade 11000000)
    (SessionDemo.get (SessionDemo.complete SessionDemo.watched_keys (SessionDemo.watched_trade 11000000))))
    as (assertions & Hopen & Hall).
  - discriminate.
  - reflexivity.
  - vm_compute. discriminate.
  - vm_compute. discriminate.
  - apply (begin_ok SessionDemo.watched_keys (SessionDemo.args USDC_MINT_MAINNET 10000000) (SessionDemo.with_watch 11000000 SessionDemo.chain)).
    vm_compute. reflexivity.
  - split; [done..|]. intros x Hx. vm_compute in Hx. discriminate Hx.
  - apply (complete_ok SessionDemo.watched_keys (SessionDemo.watched_trade 11000000)). vm_compute. reflexivity.
  - reflexivity.
  - apply data_ok_of. vm_compute. reflexivity.
  - apply data_ok_of. vm_compute. reflexivity.
  - vm_compute. reflexivity.
  - exists assertions. vm_compute in Hopen. injection Hopen as <-. split; [reflexivity|]. eexists. split; [reflexivity|].
    split; [reflexivity|]. apply (Hall 0%nat); [vm_compute; lia|reflexivity].
Defined.

Lemma what_is_authorised_was_previewed_witness :
  is_ok (SessionDemo.begin SessionDemo.buy_keys (SessionDemo.args USDC_MINT_MAINNET 10000000) SessionDemo.chain) = true ∧
  authorize_guards SessionDemo.encode SessionDemo.derive SessionDemo.sha256 1 (SessionDemo.place SessionDemo.buy_keys 0)
    SessionDemo.buy_keys (SessionDemo.args USDC_MINT_MAINNET 10000000) SessionDemo.chain ≠ Throw "ErrIntentDigestMismatch".
Proof.
  split; [vm_compute; reflexivity|].
  destruct (what_is_authorised_was_previewed (T := SessionDemo.tokens) SessionDemo.toAddress SessionDemo.encode SessionDemo.derive
    SessionDemo.associated SessionDemo.sha256 SessionDemo.unpacks SessionDemo.is_mint USDC_MINT_MAINNET USDT_MINT_MAINNET 1
    (SessionDemo.place SessionDemo.buy_keys 0) SessionDemo.buy_keys (SessionDemo.args USDC_MINT_MAINNET 10000000)
    SessionDemo.chain) as (_ & d & Hd & Hiff).
  - split; [|apply (bool_decide_unpack _); vm_compute; exact I|split; [discriminate|reflexivity]|by left].
    intros s b Hb. unfold SessionDemo.encode. by rewrite Hb.
  - intros [_ Hne]%Hiff. apply Hne. vm_compute in Hd. injection Hd as <-. vm_compute. reflexivity.
Defined.
